(* ===== verification/_CoqProject ===== *)
-Q . S2P
Prelude.v
Crc.v
CyclicBuffer.v
SList.v
DList.v
Flash.v
RawFlash.v
Prog.v
WearLevel.v
WearLevelView.v
WearLevelSpec.v
Boot.v
Dfu.v
Dhcpd.v
Eloop.v
Ota.v
DfuCli.v
Dnsd.v
NvdsFormat.v
Nvds.v
NvdsPage.v
NvdsOps.v
NvdsReclaim.v
NvdsStore.v
NvdsPut.v
NvdsApi.v
NvdsMount.v
NvdsNs.v
NvdsSpec.v
NvdsSystem.v
Chars.v
CourierLink.v
CourierSpec.v
CourierProt.v
WifiMgmt.v
WifiMgmtSpec.v
WifiMgmtApi.v
Shell.v
ShellSpec.v
Netlink.v
NetlinkStore.v
