(* ===== verification/Prelude.v ===== *)
(** * GD32VW55x SDK: a verification development

    The SDK (src/MSDK, src/MBL, src/ROM-EXPORT) is the firmware of a Wi-Fi and
    BLE micro-controller.  Most of it is third-party code around which the
    vendor wrote containers, flash drivers, a wear-levelling layer, a boot
    loader, two ways of updating the firmware, small network servers, an event
    loop, the management of the Wi-Fi connection on top of it, and the blue
    courier, which hands over the Wi-Fi credentials by BLE.  This library models that own code and proves what makes it
    correct.

    ** The files and the code they model

    - [Prelude]: words as [Z] with explicit wrap-around ([u8], [u16], [u32],
      [s32]), buffers ([slice], [overwrite] for memcpy), tactics and hints.
    - [Crc]: MSDK/util/src/crc.c, tables included.
    - [CyclicBuffer]: MSDK/util/src/cyclic_buffer.c.
    - [SList], [DList]: MSDK/util/src/slist.c and dlist.c, over an explicit heap
      of pointers; a failed assertion or a wild pointer is [None].
    - [Flash]: the interface of a NOR flash as a class ([FlashDev]), its laws
      ([FlashLaws]: programming clears bits, erasing sets a range to 0xFF) and
      reliability ([FlashReliable]), with the concrete device [Nor].
    - [RawFlash]: MSDK/plf/src/raw_flash/raw_flash_api.c over the ROM's flash
      functions, and fmc_continuous_program of gd32vw55x_fmc.c.
    - [Prog]: a state-and-error monad and little-endian fields, used by the
      wear levelling and the record layouts.
    - [WearLevel], [WearLevelView], [WearLevelSpec]:
      MSDK/FatFS/port/wear_levelling_flash.c and the fs_flash functions of
      fatfs.c; the operations, the view of the flash as a virtual array, and
      the theorems.
    - [Boot]: MBL/mainboot/mbl_image_validate.c and the selection, validation
      and jump of mbl.c; the flag writes that switch images.  The ROM is the
      interface [RomSys] with the laws [RomLaws].
    - [Dfu], [DfuCli]: MSDK/ble/app/app_dfu_srv.c and app_dfu_cli.c, two state
      machines of callbacks; [DfuCli.deliver] connects them.
    - [Ota]: MSDK/app/ota_demo.c, the download over HTTP.
    - [Dhcpd], [Dnsd]: dhcpd.c and dnsd.c in MSDK/lwip/lwip-2.2.0/port.
    - [Eloop]: MSDK/wifi_manager/wifi_eloop.c, on top of [DList].
    - [NvdsFormat], [Nvds]: MSDK/plf/src/nvds/nvds_flash.c, the layout of pages
      and entries (nvds_type.h) and every operation on one storage, as programs
      of [Prog] over the storage's memory and the flash.
    - [NvdsPage], [NvdsOps], [NvdsReclaim], [NvdsStore], [NvdsPut], [NvdsApi],
      [NvdsMount], [NvdsNs]: what a page, the used pages, the namespaces and the
      flash hold, one layer after the other, up to a finite map; [NvdsSpec] has
      the theorems and the witnesses.
    - [NvdsSystem]: the registry of storages of the same file (starting,
      releasing, cleaning) on the list of [SList].
    - [Chars]: C strings (what a reader sees, strchr, literals).
    - [CourierLink]: MSDK/ble/app/app_blue_courier_link.c, segments,
      reassembly, handshake and the events of the BLE stack, as programs of
      [Prog] that log the calls they make; [CourierSpec] has its theorems.
    - [CourierProt]: MSDK/ble/app/app_blue_courier_prot.c, the messages of the
      phone, on top of the link.
    - [WifiMgmt]: MSDK/wifi_manager/wifi_management.c, the state machines of
      station, soft AP and monitor, the switch between them, the timeouts, and
      the functions other tasks call (every function of the file
      has the name it has there; [sm_M_S_Enter] and [sm_M_Step] are the macros
      SM_STATE and SM_STEP); the calls to wifi_netlink.c that start and stop the
      soft AP and the monitor.  [WifiMgmtSpec] relates the station to an abstract
      link, [WifiMgmtApi] runs a call of another task against the event loop.
    - [Netlink], [NetlinkStore]: MSDK/wifi_manager/wifi_netlink.c, the scan
      commands, the choice of the access point, the connection request with its
      WEP keys, the MAC layer's events ([Netlink]), and the access point and the
      switch remembered in flash ([NetlinkStore]).
    - [Shell]: MSDK/app/cmd_shell.c, the line editor in the UART interrupt, the
      queue and the ring buffer of [CyclicBuffer] to the CLI task, the split and
      the dispatch of a line, IP addresses; the parser of MSDK/app/atcmd.c.
      [ShellSpec] relates them to a desk of lines typed, waiting and done.

    ** How the parts interact

    The raw flash functions are the device under the wear levelling, the BLE
    server and the HTTP download, all of which are proved against the classes of
    [Flash].  Both updates end in the flag writes of [Boot], whose theorem on
    power cuts covers them; [Ota] goes on to the boot loader's choice at the
    next start, [DfuCli] composes client and server.  The event loop keeps its
    timeouts on the pointer list of [DList] and inherits its refinement.  The
    key-value store uses the checksum of [Crc], the flash interface and, for its
    storages, the list of [SList].  The link of the blue courier takes the
    handler of complete messages as an argument; its theorems are proved for every
    handler with the laws of the class [CourierSpec.MsgLayer], and [CourierProt]
    is the handler of the firmware.  The functions of the Wi-Fi management post a
    message and block until an answer comes; [WifiMgmtApi] composes them with the
    dispatch of the messages, one step of a machine at a time, with what the
    layers below answer as a function of the calls made so far.  [Netlink] is one
    of those layers; [NetlinkStore] uses a store through the class
    [NetlinkStore.KeyValue], whose laws the key-value store above satisfies.

    ** What the theorems show

    - Containers: every operation refines the operation on sequences
      (queues, lists), and keeps the representation well formed.
    - Wear levelling: every sequence of operations behaves like a plain flash
      array; mounting restores it; one power-cut window that loses it.
    - Boot and updates: only verified images are jumped to; an update
      interrupted anywhere leaves something to boot; the BLE and the HTTP
      update install exactly the image sent; the HTTP download never writes
      outside the idle bank.
    - Network servers: no address is leased twice, the lease table stays
      consistent, a new client is served while there is room, options read back
      what was written, the parser terminates; the DNS server answers each
      question and writes in bounds.
    - Event loop: the pointer implementation refines the ordered list; the
      earliest due timeout runs; the task never sleeps past it; termination.
    - Key-value store: for values of at most 256 bytes, put, get, find, delete,
      delete of a namespace and listing implement the operations of a finite map
      from (namespace, key) to value, through full pages, garbage collection and
      failures; starting again over the flash gives the same map; a put succeeds
      while there is room; a replacement cut short loses the value.  The
      registered storages never share a byte.
    - Blue courier: two links that have shaken hands deliver every sequence of
      messages, segmented and reassembled, in order and unchanged; every
      sequence of events keeps the receiver's state well formed while segments
      are well formed; the credentials the phone sends are those the Wi-Fi
      management is asked to connect with; malformed requests are refused; the
      scan list reads back.
    - Wi-Fi management: every message and timeout of the station is a step of an
      abstract link of six phases; the number of attempts is bounded; a
      disconnect, and the start of a soft AP, always answer the caller; a
      connection the network grants is made and answered with success.
    - Netlink: a connection request is for the strongest network asked for and
      never gives up the protection of a password; the remembered access point
      survives a restart.
    - Shell: under every interleaving of interrupts and the task the typed lines
      are done in order; quoted parameters reach the handler; addresses read back.
    - Where the code does not do what it means to, a theorem states the
      behaviour (chunk lengths that overflow the BLE buffer, a full-size image
      that erases the running one, a closed connection that hangs the
      download, a clock wrap that holds up timeouts, a full lease table, segments
      longer than the buffer, a failed connection reported as made).

    ** Fuel and bounds

    Loops that are not structural take fuel, and the theorems show it is
    enough: [Dhcpd.PICKUP_FUEL] = 503 covers 308 + 128 + 64 option bytes and two
    changes of field; [Dhcpd.find_end] 309 steps for 308 bytes;
    [Dhcpd.DHCPD_FindAddress] the size of the pool plus 2; the list walks of
    [DList] and [Eloop] the number of cells plus 1; [Ota.erase_until] 512 sectors
    for banks of at most 480; [Ota.download] one step per byte and one more;
    [Dnsd.name_loop] one step per byte; [Nvds.WALK_FUEL] = 127 for the 126 entries
    of a page, [Nvds.BYTE_FUEL] = 257 for a counter of eight bits, and for the
    fragments of a large value the entries of all pages plus 1; running out of
    it is the outcome [Nvds.LOOP], which the theorems of [NvdsSpec] exclude; the
    walks over the storages take the number of list cells plus 1;
    [CourierLink.send_loop] takes the length of the message plus 1, enough for
    segments that carry data, and [CourierLink.send_nested] the allocation
    answers to come plus 1; [CourierLink.LOOP] is the outcome when it runs out
    ([CourierSpec.handshake_mtu_11_hangs]).  A loop that may not end in the code
    ([Ota.early_close_hangs]) is shown to exhaust every fuel.

    ** Not modelled

    - Third-party code (FatFs, lwIP, Mbed TLS, wpa_supplicant, BLE mesh, cloud
      SDKs, RTOS kernels, NMSIS): a parameter where the models meet it (SHA-256,
      sockets as lists of segments, ARP lookups, allocation results).
    - Register programming, clocks and interrupts of the drivers and of the
      boot loader.
    - Critical sections: the operations they protect are atomic steps.
    - The ROM's verification of an image is a function of the ROM state, which
      is not tied to the contents of the flash model.

    - In the key-value store: encryption, which the build leaves out, and the
      dumps, which only print.  Values of more than 256 bytes are modelled, with
      examples; the map theorems do not cover them.

    - The Wi-Fi management: WPS, EAP-TLS and IPv6, which the build leaves out;
      scanning, association, keys and the MAC layer answer through a parameter
      ([WifiMgmt.net_call] are the calls).
    - Under the blue courier the BLE stack is a library without source: its
      calls are a log, its checksum and its decoding are parameters.
    - In wifi_netlink.c: the WPA element and keys, which are parameters, and the
      calls that only pass a command on; the network interface, the soft-AP
      provisioning and its web pages, the BLE managers, the handlers of single
      commands and the applications: they pass commands and events between the closed libraries
      and the components above. *)
From stdpp Require Export base list gmap.
From Stdlib Require Export ZArith Lia.

#[global] Open Scope Z_scope.

(** ** Machine words.  A C unsigned integer of width [w] is a [Z]; every
    operation that can leave the range is followed by one of these. *)
Definition u8 (x : Z) : Z := x mod 2 ^ 8.
Definition u16 (x : Z) : Z := x mod 2 ^ 16.
Definition u32 (x : Z) : Z := x mod 2 ^ 32.

(** Two's complement reading of a 32-bit word. *)
Definition s32 (x : Z) : Z :=
  let y := u32 x in if y <? 2 ^ 31 then y else y - 2 ^ 32.

Definition in_width (w x : Z) : Prop := 0 <= x < 2 ^ w.
Abbreviation is_u8 := (in_width 8).
Abbreviation is_u16 := (in_width 16).
Abbreviation is_u32 := (in_width 32).

(** Bytes are [Z] in [0, 256). *)
Abbreviation bytes := (list Z).
Abbreviation bytes_ok := (Forall is_u8).

Create HintDb gd.
Create Rewrite HintDb gd.

(** [word_lia]: linear arithmetic after unfolding the word helpers. *)
Ltac wunfold := unfold in_width, u8, u16, u32, s32 in *.
Ltac word_lia := wunfold; try lia;
  try (Z.div_mod_to_equations; lia); try (Z.div_mod_to_equations; nia).

Section words.
  Implicit Types x y w : Z.

Lemma in_width_mod w x : 0 <= w -> in_width w (x mod 2 ^ w).
Proof. intros. apply Z.mod_pos_bound. lia. Qed.

Lemma u8_range x : is_u8 (u8 x).
Proof. apply in_width_mod. lia. Qed.
Lemma u16_range x : is_u16 (u16 x).
Proof. apply in_width_mod. lia. Qed.
Lemma u32_range x : is_u32 (u32 x).
Proof. apply in_width_mod. lia. Qed.

Lemma u8_small x : is_u8 x -> u8 x = x.
Proof. intros H. apply Z.mod_small, H. Qed.
Lemma u16_small x : is_u16 x -> u16 x = x.
Proof. intros H. apply Z.mod_small, H. Qed.
Lemma u32_small x : is_u32 x -> u32 x = x.
Proof. intros H. apply Z.mod_small, H. Qed.

Lemma in_width_testbit w x :
    0 <= w -> 0 <= x -> (forall i, w <= i -> Z.testbit x i = false) -> in_width w x.
Proof.
    intros Hw Hx H. split; [done|].
    destruct (Z.eq_dec x 0) as [->|Hn]; [lia|].
    apply Z.log2_lt_pow2; [lia|].
    destruct (Z.lt_ge_cases (Z.log2 x) w) as [|Hge]; [done|].
    pose proof (Z.bit_log2 x ltac:(lia)) as Hb. rewrite H in Hb by done. done.
Qed.

Lemma testbit_above w x i : in_width w x -> w <= i -> Z.testbit x i = false.
Proof.
    intros [Hx Hlt] Hi. destruct (Z.eq_dec x 0) as [->|Hn]; [apply Z.bits_0|].
    apply Z.bits_above_log2; [done|].
    assert (Z.log2 x < w) by (apply Z.log2_lt_pow2; lia). lia.
Qed.

Lemma lxor_width w x y :
    0 <= w -> in_width w x -> in_width w y -> in_width w (Z.lxor x y).
Proof.
    intros Hw Hx Hy. apply in_width_testbit; [done| |].
    - apply Z.lxor_nonneg. destruct Hx, Hy. tauto.
    - intros i Hi. by rewrite Z.lxor_spec, (testbit_above w x), (testbit_above w y).
Qed.

Lemma lor_width w x y :
    0 <= w -> in_width w x -> in_width w y -> in_width w (Z.lor x y).
Proof.
    intros Hw Hx Hy. apply in_width_testbit; [done| |].
    - apply Z.lor_nonneg. destruct Hx, Hy. tauto.
    - intros i Hi. by rewrite Z.lor_spec, (testbit_above w x), (testbit_above w y).
Qed.

Lemma land_width w x y :
    0 <= w -> 0 <= x -> in_width w y -> in_width w (Z.land x y).
Proof.
    intros Hw Hx Hy. apply in_width_testbit; [done| |].
    - apply Z.land_nonneg. tauto.
    - intros i Hi. by rewrite Z.land_spec, (testbit_above w y), andb_false_r.
Qed.

Lemma shiftr_width w k x :
    0 <= k -> 0 <= w -> in_width (w + k) x -> in_width w (Z.shiftr x k).
Proof.
    intros Hk Hw [Hx Hlt]. split; [by apply Z.shiftr_nonneg|].
    rewrite Z.shiftr_div_pow2 by done. apply Z.div_lt_upper_bound; [lia|].
    rewrite <- Z.pow_add_r by done. by rewrite Z.add_comm.
Qed.

Lemma in_width_mono w w' x : 0 <= w <= w' -> in_width w x -> in_width w' x.
Proof.
    intros Hw [? H]. split; [done|].
    pose proof (Z.pow_le_mono_r 2 w w' ltac:(lia) ltac:(lia)). lia.
Qed.
End words.

#[export] Hint Resolve u8_range u16_range u32_range : gd.
#[export] Hint Rewrite u8_small u16_small u32_small using (wunfold; lia) : gd.

(** ** Buffers.  [slice off n l] is the C range [l[off .. off+n)];
    [overwrite off bs l] is [memcpy(l + off, bs, length bs)]. *)
Section buffers.
Context {A : Type}.
  Implicit Types l bs : list A.

Definition slice (off n : nat) l : list A := take n (drop off l).
Definition overwrite (off : nat) bs l : list A :=
    take off l ++ bs ++ drop (off + length bs)%nat l.

Lemma length_slice off n l : (off + n <= length l)%nat -> length (slice off n l) = n.
Proof. intros. unfold slice. rewrite length_take, length_drop. lia. Qed.

Lemma length_overwrite off bs l :
    (off + length bs <= length l)%nat -> length (overwrite off bs l) = length l.
Proof.
    intros. unfold overwrite. rewrite !length_app, length_take, length_drop. lia.
Qed.

Lemma slice_lookup off n l i :
    (i < n)%nat -> slice off n l !! i = l !! (off + i)%nat.
Proof. intros. unfold slice. rewrite lookup_take, lookup_drop by done. by rewrite decide_True. Qed.

Lemma overwrite_lookup off bs l i :
    (off + length bs <= length l)%nat ->
    overwrite off bs l !! i =
      if decide (off <= i < off + length bs)%nat then bs !! (i - off)%nat else l !! i.
Proof.
    intros Hlen. unfold overwrite.
    destruct (decide (i < off)%nat).
    { rewrite lookup_app_l by (rewrite length_take; lia).
      rewrite lookup_take by done. rewrite decide_True by done. by rewrite decide_False by lia. }
    rewrite lookup_app_r by (rewrite length_take; lia).
    rewrite length_take, Nat.min_l by lia.
    destruct (decide (i < off + length bs)%nat).
    { rewrite lookup_app_l by lia. by rewrite decide_True by lia. }
    rewrite lookup_app_r by lia. rewrite lookup_drop. rewrite decide_False by lia.
    f_equal. lia.
Qed.

Lemma slice_overwrite_same off bs l :
    (off + length bs <= length l)%nat -> slice off (length bs) (overwrite off bs l) = bs.
Proof.
    intros. apply list_eq. intros i.
    destruct (decide (i < length bs)%nat).
    - rewrite slice_lookup by done. rewrite overwrite_lookup by done.
      rewrite decide_True by lia. f_equal. lia.
    - rewrite !lookup_ge_None_2; [done|lia|].
      rewrite length_slice; [lia|]. by rewrite length_overwrite.
Qed.
End buffers.

(** ** Bounded exhaustive checks: a boolean test that passes on every number
    below [n] holds for each of them. *)
Lemma forallb_seqZ (f : Z -> bool) (n i : Z) :
  forallb f (seqZ 0 n) = true -> 0 <= i < n -> f i = true.
Proof.
  intros H Hi. rewrite forallb_forall in H. apply H.
  apply list_elem_of_In, elem_of_seqZ. lia.
Qed.

(** Extensionality of the bits of a [Z]. *)
Ltac bits_eq i Hi := apply Z.bits_inj'; intros i Hi.

Lemma lxor_split_low (x k : Z) :
  0 <= k -> x = Z.lxor (Z.land x (Z.ones k)) (Z.shiftl (Z.shiftr x k) k).
Proof.
  intros Hk. bits_eq i Hi.
  rewrite Z.lxor_spec, Z.land_spec.
  destruct (Z.lt_ge_cases i k).
  - rewrite Z.ones_spec_low, Z.shiftl_spec_low by lia. by destruct (Z.testbit x i).
  - rewrite Z.ones_spec_high, Z.shiftl_spec, Z.shiftr_spec by lia.
    replace (i - k + k) with i by lia. by destruct (Z.testbit x i).
Qed.

Lemma lxor_cancel_l (a b c : Z) : Z.lxor a b = Z.lxor a c -> b = c.
Proof.
  intros H. rewrite <- (Z.lxor_0_l b), <- (Z.lxor_0_l c), <- (Z.lxor_nilpotent a).
  by rewrite !Z.lxor_assoc, H.
Qed.

Lemma lxor_cancel_r (a b c : Z) : Z.lxor b a = Z.lxor c a -> b = c.
Proof. rewrite !(Z.lxor_comm _ a). apply lxor_cancel_l. Qed.

(** ** Removing one element of a duplicate-free list *)
Section filter_ne.
Context {A : Type} `{!EqDecision A}.
Implicit Types (x : A) (xs ys : list A).

Lemma filter_ne_notin x xs : x ∉ xs -> filter (fun y => y <> x) xs = xs.
Proof.
  induction xs as [|y xs IH]; intros H; [done|]. rewrite filter_cons_True by set_solver.
  f_equal. apply IH. set_solver.
Qed.

Lemma filter_ne_mid x xs ys :
  NoDup (xs ++ x :: ys) -> filter (fun y => y <> x) (xs ++ x :: ys) = xs ++ ys.
Proof.
  intros (Hn1 & Hdis & Hn2)%NoDup_app. apply NoDup_cons in Hn2 as [Hx Hn2].
  rewrite filter_app, filter_cons_False by tauto.
  rewrite !filter_ne_notin; [done|done|]. intros H. by apply (Hdis x H); left.
Qed.
End filter_ne.
