(* ===== verification/Crc.v ===== *)
(** * Checksums of [MSDK/util/src/crc.c]

    The two lookup tables, [crc16] (nibble driven, CRC-16 with the reflected
    polynomial 0xA001) and [crc32] (byte driven).  The C functions walk a
    pointer over [len] bytes; here they fold over the list of those bytes.
    Results: each table is the one its generator polynomial produces, [crc16]
    is the bit-serial CRC, both checksums can be computed piecewise, and a
    changed byte always changes [crc32]. *)
From S2P Require Import Prelude.

Definition crc_table : list Z :=
  [
   0x00000000; 0x77073096; 0xEE0E612C; 0x990951BA; 0x076DC419; 0x706AF48F; 0xE963A535; 0x9E6495A3;
   0x0EDB8832; 0x79DCB8A4; 0xE0D5E91E; 0x97D2D988; 0x09B64C2B; 0x7EB17CBD; 0xE7B82D07; 0x90BF1D91;
   0x1DB71064; 0x6AB020F2; 0xF3B97148; 0x84BE41DE; 0x1ADAD47D; 0x6DDDE4EB; 0xF4D4B551; 0x83D385C7;
   0x136C9856; 0x646BA8C0; 0xFD62F97A; 0x8A65C9EC; 0x14015C4F; 0x63066CD9; 0xFA0F3D63; 0x8D080DF5;
   0x3B6E20C8; 0x4C69105E; 0xD56041E4; 0xA2677172; 0x3C03E4D1; 0x4B04D447; 0xD20D85FD; 0xA50AB56B;
   0x35B5A8FA; 0x42B2986C; 0xDBBBC9D6; 0xACBCF940; 0x32D86CE3; 0x45DF5C75; 0xDCD60DCF; 0xABD13D59;
   0x26D930AC; 0x51DE003A; 0xC8D75180; 0xBFD06116; 0x21B4F4B5; 0x56B3C423; 0xCFBA9599; 0xB8BDA50F;
   0x2802B89E; 0x5F058808; 0xC60CD9B2; 0xB10BE924; 0x2F6F7C87; 0x58684C11; 0xC1611DAB; 0xB6662D3D;
   0x76DC4190; 0x01DB7106; 0x98D220BC; 0xEFD5102A; 0x71B18589; 0x06B6B51F; 0x9FBFE4A5; 0xE8B8D433;
   0x7807C9A2; 0x0F00F934; 0x9609A88E; 0xE10E9818; 0x7F6A0DBB; 0x086D3D2D; 0x91646C97; 0xE6635C01;
   0x6B6B51F4; 0x1C6C6162; 0x856530D8; 0xF262004E; 0x6C0695ED; 0x1B01A57B; 0x8208F4C1; 0xF50FC457;
   0x65B0D9C6; 0x12B7E950; 0x8BBEB8EA; 0xFCB9887C; 0x62DD1DDF; 0x15DA2D49; 0x8CD37CF3; 0xFBD44C65;
   0x4DB26158; 0x3AB551CE; 0xA3BC0074; 0xD4BB30E2; 0x4ADFA541; 0x3DD895D7; 0xA4D1C46D; 0xD3D6F4FB;
   0x4369E96A; 0x346ED9FC; 0xAD678846; 0xDA60B8D0; 0x44042D73; 0x33031DE5; 0xAA0A4C5F; 0xDD0D7CC9;
   0x5005713C; 0x270241AA; 0xBE0B1010; 0xC90C2086; 0x5768B525; 0x206F85B3; 0xB966D409; 0xCE61E49F;
   0x5EDEF90E; 0x29D9C998; 0xB0D09822; 0xC7D7A8B4; 0x59B33D17; 0x2EB40D81; 0xB7BD5C3B; 0xC0BA6CAD;
   0xEDB88320; 0x9ABFB3B6; 0x03B6E20C; 0x74B1D29A; 0xEAD54739; 0x9DD277AF; 0x04DB2615; 0x73DC1683;
   0xE3630B12; 0x94643B84; 0x0D6D6A3E; 0x7A6A5AA8; 0xE40ECF0B; 0x9309FF9D; 0x0A00AE27; 0x7D079EB1;
   0xF00F9344; 0x8708A3D2; 0x1E01F268; 0x6906C2FE; 0xF762575D; 0x806567CB; 0x196C3671; 0x6E6B06E7;
   0xFED41B76; 0x89D32BE0; 0x10DA7A5A; 0x67DD4ACC; 0xF9B9DF6F; 0x8EBEEFF9; 0x17B7BE43; 0x60B08ED5;
   0xD6D6A3E8; 0xA1D1937E; 0x38D8C2C4; 0x4FDFF252; 0xD1BB67F1; 0xA6BC5767; 0x3FB506DD; 0x48B2364B;
   0xD80D2BDA; 0xAF0A1B4C; 0x36034AF6; 0x41047A60; 0xDF60EFC3; 0xA867DF55; 0x316E8EEF; 0x4669BE79;
   0xCB61B38C; 0xBC66831A; 0x256FD2A0; 0x5268E236; 0xCC0C7795; 0xBB0B4703; 0x220216B9; 0x5505262F;
   0xC5BA3BBE; 0xB2BD0B28; 0x2BB45A92; 0x5CB36A04; 0xC2D7FFA7; 0xB5D0CF31; 0x2CD99E8B; 0x5BDEAE1D;
   0x9B64C2B0; 0xEC63F226; 0x756AA39C; 0x026D930A; 0x9C0906A9; 0xEB0E363F; 0x72076785; 0x05005713;
   0x95BF4A82; 0xE2B87A14; 0x7BB12BAE; 0x0CB61B38; 0x92D28E9B; 0xE5D5BE0D; 0x7CDCEFB7; 0x0BDBDF21;
   0x86D3D2D4; 0xF1D4E242; 0x68DDB3F8; 0x1FDA836E; 0x81BE16CD; 0xF6B9265B; 0x6FB077E1; 0x18B74777;
   0x88085AE6; 0xFF0F6A70; 0x66063BCA; 0x11010B5C; 0x8F659EFF; 0xF862AE69; 0x616BFFD3; 0x166CCF45;
   0xA00AE278; 0xD70DD2EE; 0x4E048354; 0x3903B3C2; 0xA7672661; 0xD06016F7; 0x4969474D; 0x3E6E77DB;
   0xAED16A4A; 0xD9D65ADC; 0x40DF0B66; 0x37D83BF0; 0xA9BCAE53; 0xDEBB9EC5; 0x47B2CF7F; 0x30B5FFE9;
   0xBDBDF21C; 0xCABAC28A; 0x53B39330; 0x24B4A3A6; 0xBAD03605; 0xCDD70693; 0x54DE5729; 0x23D967BF;
   0xB3667A2E; 0xC4614AB8; 0x5D681B02; 0x2A6F2B94; 0xB40BBE37; 0xC30C8EA1; 0x5A05DF1B; 0x2D02EF8D
  ].

Definition crc16_table : list Z :=
  [
   0x0000; 0xCC01; 0xD801; 0x1400; 0xF001; 0x3C00; 0x2800; 0xE401;
   0xA001; 0x6C00; 0x7800; 0xB401; 0x5000; 0x9C01; 0x8801; 0x4400
  ].

(** One iteration of the [while (len--)] loop of [crc16]. *)
Definition crc16_step (crc tmp : Z) : Z :=
  let crc1 := Z.lxor (nth (Z.to_nat (Z.land (Z.lxor tmp crc) 0xF)) crc16_table 0)
                     (Z.shiftr crc 4) in
  Z.lxor (nth (Z.to_nat (Z.land (Z.lxor (Z.shiftr tmp 4) crc1) 0xF)) crc16_table 0)
         (Z.shiftr crc1 4).

Definition crc16 (data : bytes) (crc : Z) : Z := fold_left crc16_step data crc.

(** One iteration of the loop of [crc32]: the shift to the left drops the top
    byte of the 32-bit accumulator. *)
Definition crc32_step (crc b : Z) : Z :=
  Z.lxor (u32 (Z.shiftl crc 8))
         (nth (Z.to_nat (Z.lxor (Z.shiftr crc 24) b)) crc_table 0).

Definition crc32 (data : bytes) (crc : Z) : Z := fold_left crc32_step data crc.

(** ** Reference definitions *)

(** One bit of a reflected (least significant bit first) CRC register. *)
Definition lsb_step (poly x : Z) : Z :=
  Z.lxor (Z.shiftr x 1) (if Z.odd x then poly else 0).

(** The bit-serial CRC-16: fold the byte into the register, clock it 8 times. *)
Definition crc16_byte_ref (crc b : Z) : Z := Nat.iter 8 (lsb_step 0xA001) (Z.lxor crc b).
Definition crc16_ref (data : bytes) (crc : Z) : Z := fold_left crc16_byte_ref data crc.

Section lsb.
  Implicit Types x y p : Z.

Lemma lsb_step_lxor p x y :
    lsb_step p (Z.lxor x y) = Z.lxor (lsb_step p x) (lsb_step p y).
Proof.
    unfold lsb_step. rewrite Z.shiftr_lxor, <- !Z.bit0_odd, Z.lxor_spec.
    destruct (Z.testbit x 0), (Z.testbit y 0); simpl;
      bits_eq i Hi; rewrite !Z.lxor_spec, ?Z.bits_0;
      destruct (Z.testbit (Z.shiftr x 1) i), (Z.testbit (Z.shiftr y 1) i), (Z.testbit p i); done.
Qed.

Lemma lsb_iter_lxor p n x y :
    Nat.iter n (lsb_step p) (Z.lxor x y) =
    Z.lxor (Nat.iter n (lsb_step p) x) (Nat.iter n (lsb_step p) y).
Proof. induction n as [|n IH]; simpl; [done|]. by rewrite IH, lsb_step_lxor. Qed.

Lemma lsb_step_shiftl p x k : 0 <= k -> lsb_step p (Z.shiftl x (k + 1)) = Z.shiftl x k.
Proof.
    intros Hk. unfold lsb_step. rewrite <- Z.bit0_odd, Z.shiftl_spec_low by lia.
    rewrite Z.lxor_0_r, Z.shiftr_shiftl_l by lia. f_equal. lia.
Qed.

  (** Four clocks at once: table entry of the low nibble, rest shifted down. *)
Lemma crc16_nibble x :
    Nat.iter 4 (lsb_step 0xA001) x =
    Z.lxor (nth (Z.to_nat (Z.land x 0xF)) crc16_table 0) (Z.shiftr x 4).
Proof.
    rewrite (lxor_split_low x 4) at 1 by lia. rewrite lsb_iter_lxor.
    change (Z.ones 4) with 0xF. f_equal.
    - assert (Hr : 0 <= Z.land x 0xF < 16).
      { change 0xF with (Z.ones 4). rewrite Z.land_ones by lia. apply Z.mod_pos_bound. lia. }
      generalize dependent (Z.land x 0xF). intros r Hr.
      apply Z.eqb_eq, (forallb_seqZ (fun r => Nat.iter 4 (lsb_step 0xA001) r =?
        nth (Z.to_nat r) crc16_table 0) 16); [by vm_compute | done].
    - change 4%nat with (1 + (1 + (1 + 1)))%nat. simpl.
      rewrite (lsb_step_shiftl _ _ 3), (lsb_step_shiftl _ _ 2),
        (lsb_step_shiftl _ _ 1), (lsb_step_shiftl _ _ 0) by lia.
      apply Z.shiftl_0_r.
Qed.
End lsb.

Lemma crc16_step_ref (crc b : Z) : is_u8 b -> crc16_step crc b = crc16_byte_ref crc b.
Proof.
  intros Hb. unfold crc16_byte_ref. change 8%nat with (4 + 4)%nat.
  rewrite Nat.iter_add, crc16_nibble, (crc16_nibble (Z.lxor crc b)).
  unfold crc16_step. rewrite (Z.lxor_comm b crc), (Z.shiftr_lxor crc b).
  set (t := nth (Z.to_nat (Z.land (Z.lxor crc b) 15)) crc16_table 0).
  rewrite <- (Z.lxor_assoc t).
  set (crc1 := Z.lxor t (Z.shiftr crc 4)).
  rewrite (Z.lxor_comm (Z.shiftr b 4) crc1). f_equal.
  rewrite (Z.shiftr_lxor crc1), Z.shiftr_shiftr by lia. change (4 + 4) with 8.
  rewrite (Z.shiftr_eq_0 b 8), Z.lxor_0_r; [done|apply Hb|].
  destruct (Z.eq_dec b 0) as [->|]; [simpl; lia|].
  apply Z.log2_lt_pow2; unfold in_width in Hb; lia.
Qed.

(** C39: the nibble-table implementation of [crc16] computes the bit-serial
    CRC-16 of the reflected polynomial 0xA001, for every buffer and every
    initial value. *)
Theorem crc16_is_bit_serial (data : bytes) (crc : Z) :
  bytes_ok data -> crc16 data crc = crc16_ref data crc.
Proof.
  intros H. unfold crc16, crc16_ref. revert crc.
  induction H as [|b data Hb _ IH]; intros crc; simpl; [done|].
  by rewrite crc16_step_ref, IH.
Qed.

Lemma crc16_is_bit_serial_witness :
  crc16 [0x31; 0x32; 0x33] 0 = crc16_ref [0x31; 0x32; 0x33] 0.
Proof. apply (crc16_is_bit_serial [0x31; 0x32; 0x33] 0). repeat constructor; lia. Defined.

(** ** Error detection of [crc32] *)

Definition low_byte (x : Z) : Z := Z.land x 0xFF.

Definition crc_entry (i : Z) : Z := nth (Z.to_nat i) crc_table 0.

(** Every entry of [crc_table] is eight reflected clocks of the polynomial
    0xEDB88320 from its index. *)
Lemma crc_table_generated (i : Z) :
  0 <= i < 256 -> crc_entry i = Nat.iter 8 (lsb_step 0xEDB88320) i.
Proof.
  intros Hi. apply Z.eqb_eq.
  apply (forallb_seqZ (fun i => crc_entry i =? Nat.iter 8 (lsb_step 0xEDB88320) i) 256);
    [by vm_compute | done].
Qed.

Lemma crc_entry_u32 (i : Z) : 0 <= i < 256 -> is_u32 (crc_entry i).
Proof.
  intros Hi.
  assert (H : ((0 <=? crc_entry i) && (crc_entry i <? 2 ^ 32)) = true).
  { apply (forallb_seqZ (fun i => (0 <=? crc_entry i) && (crc_entry i <? 2 ^ 32)) 256);
      [by vm_compute | done]. }
  unfold in_width. lia.
Qed.

(** Inverse of the low-byte column of the table. *)
Definition entry_of_low (b : Z) : Z :=
  default 0 (list_find (fun x => low_byte x = b) crc_table ≫= fun p => Some (Z.of_nat (fst p))).

Lemma crc_entry_low_inj (i j : Z) :
  0 <= i < 256 -> 0 <= j < 256 ->
  low_byte (crc_entry i) = low_byte (crc_entry j) -> i = j.
Proof.
  intros Hi Hj H.
  assert (E : forall k, 0 <= k < 256 -> entry_of_low (low_byte (crc_entry k)) = k).
  { intros k Hk. apply Z.eqb_eq.
    apply (forallb_seqZ (fun k => entry_of_low (low_byte (crc_entry k)) =? k) 256);
      [by vm_compute | done]. }
  by rewrite <- (E i), <- (E j), H.
Qed.

Section crc32_step.
  Implicit Types crc b : Z.

Definition crc32_index crc b : Z := Z.lxor (Z.shiftr crc 24) b.

Lemma crc32_index_range crc b :
    is_u32 crc -> is_u8 b -> 0 <= crc32_index crc b < 256.
Proof.
    intros Hc Hb. apply (lxor_width 8); [lia| |done].
    apply shiftr_width; [lia|lia|done].
Qed.

Lemma crc32_step_u32 crc b : is_u32 crc -> is_u8 b -> is_u32 (crc32_step crc b).
Proof.
    intros Hc Hb. apply lxor_width; [lia|apply u32_range|].
    by apply crc_entry_u32, crc32_index_range.
Qed.

Lemma low_byte_step crc b : low_byte (crc32_step crc b) = low_byte (crc_entry (crc32_index crc b)).
Proof.
    unfold low_byte. change 0xFF with (Z.ones 8). rewrite !Z.land_ones by lia.
    unfold crc32_step. fold (crc32_index crc b). fold (crc_entry (crc32_index crc b)).
    bits_eq i Hi. destruct (Z.lt_ge_cases i 8).
    - rewrite !Z.mod_pow2_bits_low by lia. rewrite Z.lxor_spec. unfold u32.
      rewrite Z.mod_pow2_bits_low, Z.shiftl_spec_low by lia. done.
    - by rewrite !Z.mod_pow2_bits_high by lia.
Qed.

Lemma crc32_step_inj_byte crc b b' :
    is_u32 crc -> is_u8 b -> is_u8 b' -> crc32_step crc b = crc32_step crc b' -> b = b'.
Proof.
    intros Hc Hb Hb' H.
    apply (lxor_cancel_l (Z.shiftr crc 24)).
    change (crc32_index crc b = crc32_index crc b').
    apply crc_entry_low_inj; [by apply crc32_index_range .. |]. by rewrite <- !low_byte_step, H.
Qed.

Lemma crc32_step_inj_crc crc crc' b :
    is_u32 crc -> is_u32 crc' -> is_u8 b ->
    crc32_step crc b = crc32_step crc' b -> crc = crc'.
Proof.
    intros Hc Hc' Hb H.
    assert (Hidx : crc32_index crc b = crc32_index crc' b).
    { apply crc_entry_low_inj; [by apply crc32_index_range .. |].
      by rewrite <- !low_byte_step, H. }
    assert (Htop : Z.shiftr crc 24 = Z.shiftr crc' 24) by exact (lxor_cancel_r _ _ _ Hidx).
    unfold crc32_step in H. rewrite Htop in H. apply lxor_cancel_r in H.
    unfold u32 in H. rewrite !Z.shiftl_mul_pow2 in H by lia.
    rewrite !Z.shiftr_div_pow2 in Htop by lia. unfold in_width in *.
    Z.div_mod_to_equations. lia.
Qed.
End crc32_step.

Lemma crc32_u32 (data : bytes) (crc : Z) :
  bytes_ok data -> is_u32 crc -> is_u32 (crc32 data crc).
Proof.
  intros H. unfold crc32. revert crc.
  induction H; intros crc Hc; simpl; [done|]. by apply IHForall, crc32_step_u32.
Qed.

Lemma crc32_app (d1 d2 : bytes) (crc : Z) : crc32 (d1 ++ d2) crc = crc32 d2 (crc32 d1 crc).
Proof. apply fold_left_app. Qed.

Lemma crc32_inj_crc (data : bytes) (crc crc' : Z) :
  bytes_ok data -> is_u32 crc -> is_u32 crc' -> crc32 data crc = crc32 data crc' -> crc = crc'.
Proof.
  intros H. revert crc crc'. induction H as [|b data Hb _ IH]; intros crc crc' Hc Hc' E; [done|].
  apply (crc32_step_inj_crc _ _ b); [done..|].
  apply IH; [by apply crc32_step_u32 .. | done].
Qed.

(** corrupting exactly one byte of a buffer always changes its [crc32],
    whatever surrounds the byte and whatever the initial value; this is what
    the NVDS relies on to reject a damaged header or element. *)
Theorem crc32_detects_byte_change (pre suf : bytes) (b b' crc : Z) :
  bytes_ok pre -> bytes_ok suf -> is_u8 b -> is_u8 b' -> is_u32 crc ->
  b <> b' -> crc32 (pre ++ b :: suf) crc <> crc32 (pre ++ b' :: suf) crc.
Proof.
  intros Hp Hs Hb Hb' Hc Hne E. apply Hne. rewrite !crc32_app in E.
  pose proof (crc32_u32 _ _ Hp Hc) as Hm.
  apply (crc32_step_inj_byte (crc32 pre crc)); [done..|].
  apply (crc32_inj_crc suf); [done|by apply crc32_step_u32..|exact E].
Qed.

Lemma crc32_detects_byte_change_witness :
  crc32 ([1; 2] ++ 3 :: [4]) 0 <> crc32 ([1; 2] ++ 7 :: [4]) 0.
Proof.
  apply (crc32_detects_byte_change [1; 2] [4] 3 7 0);
    try (repeat constructor; lia); lia.
Defined.

#[export] Hint Resolve crc32_u32 crc32_step_u32 crc_entry_u32 : gd.
