(* ===== verification/CyclicBuffer.v ===== *)
(** * Ring buffer of [MSDK/util/src/cyclic_buffer.c]

    [cyclic_buf] is the C struct; its [buf] pointer is [None] when NULL.  Each
    operation takes the (possibly NULL) object pointer as an [option] and
    returns the C result with the object after the call.  Indices are
    [uint16_t].  The abstract contract is the FIFO queue [Fifo]: the refinement
    theorem relates every operation to it through [contents]. *)
From S2P Require Import Prelude.

Record cyclic_buf := CyclicBuf {
  read_idx : Z;
  write_idx : Z;
  len : Z;
  buf : option bytes;
}.

(** [cyclic_buf_init]: [alloc] tells whether [sys_zalloc] succeeded. *)
Definition cyclic_buf_init (cyclic : option cyclic_buf) (n : Z) (alloc : bool)
  : bool * option cyclic_buf :=
  match cyclic with
  | None => (false, None)
  | Some _ =>
      if alloc then (true, Some (CyclicBuf 0 0 n (Some (replicate (Z.to_nat n) 0))))
      else (false, Some (CyclicBuf 0 0 n None))
  end.

Definition cyclic_buf_free (cyclic : option cyclic_buf) : option cyclic_buf :=
  match cyclic with
  | None => None
  | Some _ => Some (CyclicBuf 0 0 0 None)
  end.

(** The guard [if (!cyclic || !cyclic->buf)] shared by the other operations. *)
Definition with_buf {A} (cyclic : option cyclic_buf) (dflt : A)
    (k : cyclic_buf -> bytes -> A) : A :=
  match cyclic with
  | Some c => match buf c with Some b => k c b | None => dflt end
  | None => dflt
  end.

Definition cyclic_buf_count (cyclic : option cyclic_buf) : Z :=
  with_buf cyclic 0 (fun c _ =>
    u16 (Z.rem (write_idx c + len c - read_idx c) (len c))).

Definition cyclic_buf_room (cyclic : option cyclic_buf) : Z :=
  with_buf cyclic 0 (fun c _ =>
    u16 (Z.rem (read_idx c + len c - (write_idx c + 1)) (len c))).

(** [memcpy] out of the storage array: [n] bytes at index [off]. *)
Definition copy_out (b : bytes) (off n : Z) : bytes := slice (Z.to_nat off) (Z.to_nat n) b.

Definition copy_in (b : bytes) (off : Z) (src : bytes) : bytes := overwrite (Z.to_nat off) src b.

(** The bytes copied to the caller by [cyclic_buf_peek]/[cyclic_buf_read]. *)
Definition fetch (c : cyclic_buf) (b : bytes) (n : Z) : bytes :=
  if read_idx c + n <=? len c then copy_out b (read_idx c) n
  else
    let tlen := u16 (len c - read_idx c) in
    copy_out b (read_idx c) tlen ++ copy_out b 0 (n - tlen).

Definition cyclic_buf_peek (cyclic : option cyclic_buf) (n : Z) : bool * bytes :=
  with_buf cyclic (false, []) (fun c b =>
    if cyclic_buf_count cyclic <? n then (false, [])
    else (true, fetch c b n)).

(** The read index after consuming [n] bytes. *)
Definition advance (len idx n : Z) : Z :=
  let idx' := if idx + n <=? len then u16 (idx + n)
              else let tlen := u16 (len - idx) in u16 (n - tlen) in
  u16 (Z.rem idx' len).

Definition cyclic_buf_read (cyclic : option cyclic_buf) (n : Z)
  : bool * bytes * option cyclic_buf :=
  with_buf cyclic (false, [], cyclic) (fun c b =>
    if cyclic_buf_count cyclic <? n then (false, [], cyclic)
    else (true, fetch c b n,
          Some (CyclicBuf (advance (len c) (read_idx c) n) (write_idx c) (len c) (buf c)))).

Definition cyclic_buf_drop (cyclic : option cyclic_buf) (n : Z) : bool * option cyclic_buf :=
  with_buf cyclic (false, cyclic) (fun c b =>
    if cyclic_buf_count cyclic <? n then (false, cyclic)
    else (true,
          Some (CyclicBuf (advance (len c) (read_idx c) n) (write_idx c) (len c) (buf c)))).

Definition cyclic_buf_clear (cyclic : option cyclic_buf) : bool * option cyclic_buf :=
  with_buf cyclic (false, cyclic) (fun c _ =>
    (true, Some (CyclicBuf 0 0 (len c) (Some (replicate (Z.to_nat (len c)) 0))))).

Definition cyclic_buf_write (cyclic : option cyclic_buf) (src : bytes)
  : bool * option cyclic_buf :=
  with_buf cyclic (false, cyclic) (fun c b =>
    let n := Z.of_nat (length src) in
    if cyclic_buf_room cyclic <? n then (false, cyclic)
    else
      let b' :=
        if write_idx c + n <=? len c then copy_in b (write_idx c) src
        else
          let tlen := u16 (len c - write_idx c) in
          copy_in (copy_in b (write_idx c) (take (Z.to_nat tlen) src))
                  0 (drop (Z.to_nat tlen) src) in
      (true, Some (CyclicBuf (read_idx c) (advance (len c) (write_idx c) n) (len c) (Some b')))).

(** ** Specification: a bounded FIFO queue of bytes *)
Module Fifo.
Inductive op := Write (src : bytes) | Read (n : Z) | Peek (n : Z) | Drop (n : Z)
              | Clear | Count | Room.
Inductive out := Done (ok : bool) | Data (ok : bool) (data : bytes) | Num (n : Z).

Definition size (q : bytes) : Z := Z.of_nat (length q).

Definition step (cap : Z) (q : bytes) (o : op) : out * bytes :=
  match o with
  | Write src => if cap - size q <? size src then (Done false, q) else (Done true, q ++ src)
  | Read n => if size q <? n then (Data false [], q)
              else (Data true (take (Z.to_nat n) q), drop (Z.to_nat n) q)
  | Peek n => if size q <? n then (Data false [], q)
              else (Data true (take (Z.to_nat n) q), q)
  | Drop n => if size q <? n then (Done false, q) else (Done true, drop (Z.to_nat n) q)
  | Clear => (Done true, [])
  | Count => (Num (size q), q)
  | Room => (Num (cap - size q), q)
  end.
End Fifo.

(** The same operations on the C object. *)
Definition run (cyclic : option cyclic_buf) (o : Fifo.op) : Fifo.out * option cyclic_buf :=
  match o with
  | Fifo.Write src => let '(ok, c') := cyclic_buf_write cyclic src in (Fifo.Done ok, c')
  | Fifo.Read n => let '(ok, d, c') := cyclic_buf_read cyclic n in (Fifo.Data ok d, c')
  | Fifo.Peek n => let '(ok, d) := cyclic_buf_peek cyclic n in (Fifo.Data ok d, cyclic)
  | Fifo.Drop n => let '(ok, c') := cyclic_buf_drop cyclic n in (Fifo.Done ok, c')
  | Fifo.Clear => let '(ok, c') := cyclic_buf_clear cyclic in (Fifo.Done ok, c')
  | Fifo.Count => (Fifo.Num (cyclic_buf_count cyclic), cyclic)
  | Fifo.Room => (Fifo.Num (cyclic_buf_room cyclic), cyclic)
  end.

Arguments cyclic_buf_count : simpl never.
Arguments cyclic_buf_room : simpl never.
Arguments cyclic_buf_write : simpl never.
Arguments cyclic_buf_read : simpl never.
Arguments cyclic_buf_peek : simpl never.
Arguments cyclic_buf_drop : simpl never.
Arguments cyclic_buf_clear : simpl never.

(** ** Circular slices *)
Section ring.
Implicit Types b src : bytes.
Implicit Types L r n i : nat.
Local Open Scope nat_scope.

Definition ring_get b r n : bytes :=
  (fun i => nth ((r + i) mod length b) b 0%Z) <$> seq 0 n.

Lemma length_ring_get b r n : length (ring_get b r n) = n.
Proof. unfold ring_get. by rewrite length_fmap, length_seq. Qed.

Lemma mod_lt2 a L : a < L + L -> a mod L = if decide (a < L) then a else a - L.
Proof.
  intros H. case_decide; [by apply Nat.mod_small|].
  symmetry. apply (Nat.mod_unique _ _ 1); lia.
Qed.

Lemma ring_get_app b r n m :
  ring_get b r (n + m) = ring_get b r n ++ ring_get b ((r + n) mod length b) m.
Proof.
  unfold ring_get. rewrite seq_app, fmap_app. f_equal.
  rewrite <- (Nat.add_0_r (0 + n)), <- fmap_add_seq, <- list_fmap_compose.
  apply list_fmap_ext. intros i x _. simpl. f_equal.
  destruct (decide (length b = 0)) as [->|]; [simpl; lia|].
  rewrite Nat.Div0.add_mod_idemp_l. f_equal. lia.
Qed.

Lemma ring_get_slice b r n : r + n <= length b -> ring_get b r n = slice r n b.
Proof.
  intros H. apply list_eq. intros i. unfold ring_get.
  rewrite list_lookup_fmap. destruct (decide (i < n)).
  - rewrite lookup_seq_lt by done. simpl. rewrite slice_lookup by done.
    rewrite Nat.mod_small, nth_lookup by lia.
    destruct (lookup_lt_is_Some_2 b (r + i)) as [x ->]; [lia|]. done.
  - rewrite lookup_seq_ge by lia. simpl. symmetry. apply lookup_ge_None.
    rewrite length_slice; lia.
Qed.

(** Two consecutive [memcpy]s around the end of the array. *)
Lemma ring_get_wrap b r n :
  r < length b -> length b < r + n <= r + length b ->
  ring_get b r n = slice r (length b - r) b ++ slice 0 (n - (length b - r)) b.
Proof.
  intros Hr Hn. replace n with ((length b - r) + (n - (length b - r))) at 1 by lia.
  rewrite ring_get_app, ring_get_slice by lia. f_equal.
  replace (r + (length b - r)) with (length b) by lia.
  rewrite Nat.Div0.mod_same. apply ring_get_slice. lia.
Qed.

Lemma ring_get_ext b b' r n :
  length b = length b' ->
  (forall i, i < n -> b !! ((r + i) mod length b) = b' !! ((r + i) mod length b)) ->
  ring_get b r n = ring_get b' r n.
Proof.
  intros Hl H. unfold ring_get. rewrite <- Hl. apply list_fmap_ext.
  intros i x Hx. apply lookup_seq in Hx as [-> Hi]. simpl.
  rewrite !nth_lookup. by rewrite H.
Qed.

Lemma ring_get_take b r n m : m <= n -> take m (ring_get b r n) = ring_get b r m.
Proof.
  intros H. replace n with (m + (n - m)) by lia. rewrite ring_get_app.
  rewrite take_app_le by (rewrite length_ring_get; lia).
  by rewrite take_ge by (rewrite length_ring_get; lia).
Qed.

Lemma ring_get_drop b r n m :
  m <= n -> drop m (ring_get b r n) = ring_get b ((r + m) mod length b) (n - m).
Proof.
  intros H. replace n with (m + (n - m)) at 1 by lia. rewrite ring_get_app.
  rewrite drop_app_ge by (rewrite length_ring_get; lia).
  rewrite length_ring_get, Nat.sub_diag. apply drop_0.
Qed.

(** Storing [src] at index [w], wrapping once. *)
Definition ring_put b w src : bytes :=
  if w + length src <=? length b then overwrite w src b
  else overwrite 0 (drop (length b - w) src) (overwrite w (take (length b - w) src) b).

Lemma ring_put_lookup b w src i :
  w < length b -> length src <= length b -> i < length b ->
  ring_put b w src !! i =
    if decide (w <= i < w + length src) then src !! (i - w)
    else if decide (i + length b < w + length src) then src !! (i + length b - w)
    else b !! i.
Proof.
  intros Hw Hs Hi. unfold ring_put. destruct (Nat.leb_spec (w + length src) (length b)).
  - rewrite overwrite_lookup by lia. repeat case_decide; try lia; done.
  - assert (Ht : length (take (length b - w) src) = length b - w).
    { rewrite length_take. lia. }
    assert (Hd : length (drop (length b - w) src) = length src - (length b - w)).
    { apply length_drop. }
    rewrite overwrite_lookup by (rewrite length_overwrite; lia). rewrite Hd.
    rewrite overwrite_lookup by lia. rewrite Ht.
    repeat case_decide; try lia; try done.
    + rewrite lookup_drop. f_equal. lia.
    + rewrite lookup_take. by rewrite decide_True by lia.
Qed.

Lemma length_ring_put b w src :
  w < length b -> length src <= length b -> length (ring_put b w src) = length b.
Proof.
  intros Hw Hs. unfold ring_put. destruct (Nat.leb_spec (w + length src) (length b)).
  - by apply length_overwrite.
  - rewrite !length_overwrite; rewrite ?length_overwrite; rewrite ?length_take, ?length_drop; lia.
Qed.

(** Appending [src] behind the [n] live bytes leaves them intact. *)
Lemma ring_put_append b r n src :
  r < length b -> n + length src < length b ->
  ring_get (ring_put b ((r + n) mod length b) src) r (n + length src)
    = ring_get b r n ++ src.
Proof.
  intros Hr Hn. set (w := (r + n) mod length b).
  assert (Hw : w = if decide (r + n < length b) then r + n else r + n - length b).
  { apply mod_lt2. lia. }
  assert (Hwl : w < length b) by (rewrite Hw; case_decide; lia).
  assert (Hl : length (ring_put b w src) = length b) by (apply length_ring_put; lia).
  rewrite ring_get_app, Hl. f_equal.
  - apply ring_get_ext; [done|]. rewrite Hl. intros i Hi.
    rewrite ring_put_lookup, (mod_lt2 (r + i)) by (rewrite ?mod_lt2 by lia; repeat case_decide; lia).
    repeat case_decide; try lia; done.
  - fold w. apply list_eq. intros i. destruct (decide (i < length src)) as [Hi|].
    2: { rewrite !lookup_ge_None_2; [done|lia|]. rewrite length_ring_get. lia. }
    unfold ring_get. rewrite list_lookup_fmap, lookup_seq_lt, Hl by done. simpl.
    destruct (lookup_lt_is_Some_2 src i Hi) as [x Hx]. rewrite Hx. f_equal.
    rewrite nth_lookup, ring_put_lookup by (rewrite ?mod_lt2 by lia; repeat case_decide; lia).
    rewrite (mod_lt2 (w + i)) by lia. repeat case_decide; try lia;
      (match goal with |- context [src !! ?k] => replace k with i by lia end);
      by rewrite Hx.
Qed.
End ring.

(** ** Invariant and abstraction *)

Record wf (c : cyclic_buf) : Prop := {
  wf_len : 0 < len c < 2 ^ 16;
  wf_read : 0 <= read_idx c < len c;
  wf_write : 0 <= write_idx c < len c;
  wf_buf : exists b, buf c = Some b /\ Z.of_nat (length b) = len c;
}.

Definition live (c : cyclic_buf) : Z := (write_idx c - read_idx c) mod len c.
Definition capacity (c : cyclic_buf) : Z := len c - 1.

Definition contents (c : cyclic_buf) : bytes :=
  ring_get (default [] (buf c)) (Z.to_nat (read_idx c)) (Z.to_nat (live c)).

(** Arguments of the C operations fit their [uint16_t] parameter. *)
Definition op_ok (o : Fifo.op) : Prop :=
  match o with
  | Fifo.Write src => is_u16 (Fifo.size src)
  | Fifo.Read n | Fifo.Peek n | Fifo.Drop n => is_u16 n
  | _ => True
  end.

Lemma size_contents c : wf c -> Fifo.size (contents c) = live c.
Proof.
  intros Hc. destruct (wf_len c Hc). unfold Fifo.size, contents. rewrite length_ring_get.
  rewrite Z2Nat.id; [done|]. apply Z.mod_pos_bound. lia.
Qed.

Lemma live_range c : wf c -> 0 <= live c < len c.
Proof. intros Hc. destruct (wf_len c Hc). apply Z.mod_pos_bound. lia. Qed.

Lemma count_spec c : wf c -> cyclic_buf_count (Some c) = live c.
Proof.
  intros Hc. pose proof (live_range c Hc). destruct Hc as [Hl Hr Hw (b & Hb & Hlb)].
  unfold cyclic_buf_count, with_buf. rewrite Hb.
  rewrite Z.rem_mod_nonneg by lia. unfold live in *.
  replace (write_idx c + len c - read_idx c) with (write_idx c - read_idx c + 1 * len c) by lia.
  rewrite Z.mod_add by lia. apply u16_small. unfold in_width. lia.
Qed.

Lemma room_spec c : wf c -> cyclic_buf_room (Some c) = capacity c - live c.
Proof.
  intros Hc. pose proof (live_range c Hc). destruct Hc as [Hl Hr Hw (b & Hb & Hlb)].
  unfold cyclic_buf_room, with_buf, capacity. rewrite Hb.
  rewrite Z.rem_mod_nonneg by lia. unfold live in *.
  rewrite u16_small.
  - pose proof (Z.div_mod (write_idx c - read_idx c) (len c) ltac:(lia)).
    symmetry. apply (Z.mod_unique_pos _ _ (- ((write_idx c - read_idx c) / len c))); lia.
  - pose proof (Z.mod_pos_bound (read_idx c + len c - (write_idx c + 1)) (len c) ltac:(lia)).
    unfold in_width. lia.
Qed.

(** Both branches of the index update amount to addition modulo [len]. *)
Lemma advance_spec l idx n :
  0 < l < 2 ^ 16 -> 0 <= idx < l -> 0 <= n < l -> advance l idx n = (idx + n) mod l.
Proof.
  intros Hl Hi Hn. unfold advance.
  destruct (Z.leb_spec (idx + n) l).
  - rewrite (u16_small (idx + n)) by (unfold in_width; lia).
    rewrite Z.rem_mod_nonneg by lia. apply u16_small.
    pose proof (Z.mod_pos_bound (idx + n) l). unfold in_width. lia.
  - rewrite (u16_small (l - idx)) by (unfold in_width; lia).
    rewrite (u16_small (n - (l - idx))) by (unfold in_width; lia).
    rewrite Z.rem_mod_nonneg, Z.mod_small by lia. rewrite u16_small by (unfold in_width; lia).
    apply (Z.mod_unique_pos _ _ 1); lia.
Qed.

Lemma fetch_spec c b n :
  wf c -> buf c = Some b -> 0 <= n <= live c ->
  fetch c b n = ring_get b (Z.to_nat (read_idx c)) (Z.to_nat n).
Proof.
  intros Hc Hb Hn. pose proof (live_range c Hc).
  destruct Hc as [Hl Hr Hw (b' & Hb' & Hlb)]. simplify_eq.
  unfold fetch, copy_out. destruct (Z.leb_spec (read_idx c + n) (len c)).
  - rewrite ring_get_slice by lia. done.
  - rewrite u16_small by (unfold in_width; lia). rewrite ring_get_wrap by lia.
    f_equal; f_equal; lia.
Qed.

Lemma advance_live c n :
  wf c -> 0 <= n <= live c ->
  (write_idx c - (read_idx c + n) mod len c) mod len c = live c - n.
Proof.
  intros Hc Hn. pose proof (live_range c Hc). destruct Hc as [Hl _ _ _].
  rewrite Zminus_mod_idemp_r. unfold live in *.
  replace (write_idx c - (read_idx c + n)) with (write_idx c - read_idx c - n) by lia.
  rewrite <- Zminus_mod_idemp_l. apply Z.mod_small. lia.
Qed.

Lemma contents_advance c n :
  wf c -> 0 <= n <= live c ->
  let c' := CyclicBuf (advance (len c) (read_idx c) n) (write_idx c) (len c) (buf c) in
  wf c' /\ contents c' = drop (Z.to_nat n) (contents c).
Proof.
  intros Hc Hn c'. pose proof (live_range c Hc).
  assert (Ha : read_idx c' = (read_idx c + n) mod len c).
  { apply advance_spec; [apply Hc..|]. lia. }
  destruct Hc as [Hl Hr Hw (b & Hb & Hlb)] eqn:E. split.
  - constructor; [done| |done|by exists b].
    rewrite Ha. apply Z.mod_pos_bound. simpl. lia.
  - unfold contents, live. rewrite Ha. simpl. rewrite Hb, advance_live by done. simpl.
    rewrite ring_get_drop by (unfold live in *; lia). f_equal.
    + rewrite <- Z2Nat.inj_add by lia. rewrite <- Hlb.
      rewrite <- (Z2Nat.id (read_idx c + n)) at 1 by lia.
      rewrite <- Nat2Z.inj_mod. apply Nat2Z.id.
    + unfold live in *. lia.
Qed.

Lemma write_spec c src :
  wf c -> Fifo.size src <= capacity c - live c ->
  exists c', cyclic_buf_write (Some c) src = (true, Some c') /\ wf c' /\
    len c' = len c /\ contents c' = contents c ++ src.
Proof.
  intros Hc Hs. pose proof (live_range c Hc) as HL. pose proof (room_spec c Hc) as Hroom.
  pose proof (wf_buf c Hc) as (b & Hb & Hlb). destruct (wf_len c Hc) as [Hl1 Hl2].
  pose proof (wf_read c Hc) as Hr. pose proof (wf_write c Hc) as Hw.
  unfold capacity, Fifo.size in *. unfold cyclic_buf_write, with_buf. rewrite Hb, Hroom.
  assert (Hwr : Z.to_nat (write_idx c) =
    ((Z.to_nat (read_idx c) + Z.to_nat (live c)) mod length b)%nat).
  { apply Nat2Z.inj. rewrite Nat2Z.inj_mod, Nat2Z.inj_add, !Z2Nat.id, Hlb by lia.
    unfold live. rewrite Zplus_mod_idemp_r. rewrite <- (Z.mod_small (write_idx c) (len c)) at 1 by lia.
    f_equal. lia. }
  assert (Hadv : advance (len c) (write_idx c) (Z.of_nat (length src))
                 = (write_idx c + Z.of_nat (length src)) mod len c).
  { apply advance_spec; lia. }
  rewrite (proj2 (Z.ltb_ge _ _)) by lia.
  assert (Hput : (if write_idx c + Z.of_nat (length src) <=? len c
      then copy_in b (write_idx c) src
      else copy_in (copy_in b (write_idx c) (take (Z.to_nat (u16 (len c - write_idx c))) src)) 0
             (drop (Z.to_nat (u16 (len c - write_idx c))) src))
      = ring_put b (Z.to_nat (write_idx c)) src).
  { unfold ring_put, copy_in. rewrite u16_small by (unfold in_width; lia).
    destruct (Z.leb_spec (write_idx c + Z.of_nat (length src)) (len c));
      destruct (Nat.leb_spec (Z.to_nat (write_idx c) + length src) (length b)); try lia; [done|].
    replace (Z.to_nat (len c - write_idx c)) with (length b - Z.to_nat (write_idx c))%nat by lia.
    done. }
  rewrite Hput. eexists. split; [done|].
  assert (Hlen : Z.of_nat (length (ring_put b (Z.to_nat (write_idx c)) src)) = len c).
  { rewrite length_ring_put by lia. done. }
  split; [|split; [done|]].
  - constructor; simpl; [done|done| |by eexists].
    rewrite Hadv. apply Z.mod_pos_bound. lia.
  - unfold contents. simpl. rewrite Hb. simpl.
    assert (Hlive : live (CyclicBuf (read_idx c) (advance (len c) (write_idx c)
      (Z.of_nat (length src))) (len c) (Some (ring_put b (Z.to_nat (write_idx c)) src)))
      = live c + Z.of_nat (length src)).
    { unfold live in *. simpl. rewrite Hadv, Zminus_mod_idemp_l.
      replace (write_idx c + Z.of_nat (length src) - read_idx c)
        with (write_idx c - read_idx c + Z.of_nat (length src)) by lia.
      rewrite <- Zplus_mod_idemp_l. apply Z.mod_small. lia. }
    rewrite Hlive, Hwr, Z2Nat.inj_add, Nat2Z.id by lia.
    apply ring_put_append; lia.
Qed.

(** One operation: same result as the queue, invariant and abstraction kept. *)
Lemma run_refines_fifo (c : cyclic_buf) (o : Fifo.op) :
  wf c -> op_ok o ->
  exists c', run (Some c) o = ((Fifo.step (capacity c) (contents c) o).1, Some c') /\
    wf c' /\ capacity c' = capacity c /\
    contents c' = (Fifo.step (capacity c) (contents c) o).2.
Proof.
  intros Hc Ho. pose proof (size_contents c Hc) as Hsz. pose proof (live_range c Hc) as HL.
  pose proof (wf_buf c Hc) as (b & Hb & Hlb).
  assert (Hct : contents c = ring_get b (Z.to_nat (read_idx c)) (Z.to_nat (live c))).
  { unfold contents. by rewrite Hb. }
  destruct o as [src|n|n|n| | |]; simpl in *; rewrite ?Hsz.
  - destruct (Z.ltb_spec (capacity c - live c) (Fifo.size src)).
    + unfold cyclic_buf_write, with_buf. rewrite Hb, room_spec by done.
      unfold Fifo.size in *. rewrite (proj2 (Z.ltb_lt _ _)) by lia. by exists c.
    + destruct (write_spec c src) as (c' & -> & Hc' & Hl & Hs); [done..|].
      exists c'. unfold capacity. rewrite Hl. done.
  - unfold cyclic_buf_read, with_buf. rewrite Hb, count_spec by done.
    destruct (Z.ltb_spec (live c) n); [by exists c|].
    destruct (contents_advance c n) as [? Hd]; [done|unfold in_width in *; lia|].
    rewrite Hb in *. eexists. split; [|split; [done|split; [done|exact Hd]]].
    unfold in_width in *. simpl. rewrite fetch_spec, Hct, ring_get_take by (done || lia). done.
  - unfold cyclic_buf_peek, with_buf. rewrite Hb, count_spec by done.
    exists c. destruct (Z.ltb_spec (live c) n); [done|]. unfold in_width in *. simpl.
    rewrite fetch_spec, Hct, ring_get_take by (done || lia). done.
  - unfold cyclic_buf_drop, with_buf. rewrite Hb, count_spec by done.
    destruct (Z.ltb_spec (live c) n); [by exists c|].
    destruct (contents_advance c n) as [? Hd]; [done|unfold in_width in *; lia|].
    rewrite Hb in *. eexists. split; [done|]. split; [done|]. split; [done|exact Hd].
  - unfold cyclic_buf_clear, with_buf. rewrite Hb. eexists. split; [done|].
    destruct (wf_len c Hc). split; [|split; [done|done]].
    constructor; simpl; [lia..|]. eexists. split; [done|]. rewrite length_replicate. lia.
  - exists c. by rewrite count_spec.
  - exists c. by rewrite room_spec.
Qed.

Lemma cyclic_buf_init_wf (c0 : cyclic_buf) (n : Z) :
  0 < n < 2 ^ 16 ->
  exists c, cyclic_buf_init (Some c0) n true = (true, Some c) /\ wf c /\
    capacity c = n - 1 /\ contents c = [].
Proof.
  intros Hn. eexists. split; [done|]. split; [|done].
  constructor; simpl; [lia..|]. eexists. split; [done|]. rewrite length_replicate. lia.
Qed.

(** Results of a sequence of calls on one object, and of the queue. *)
Fixpoint run_all (cyclic : option cyclic_buf) (os : list Fifo.op) : list Fifo.out :=
  match os with
  | [] => []
  | o :: os => let '(r, c') := run cyclic o in r :: run_all c' os
  end.

Fixpoint spec_all (cap : Z) (q : bytes) (os : list Fifo.op) : list Fifo.out :=
  match os with
  | [] => []
  | o :: os => (Fifo.step cap q o).1 :: spec_all cap (Fifo.step cap q o).2 os
  end.

Lemma run_all_refines (c : cyclic_buf) (os : list Fifo.op) :
  wf c -> Forall op_ok os -> run_all (Some c) os = spec_all (capacity c) (contents c) os.
Proof.
  intros Hc Hos. revert c Hc. induction Hos as [|o os Ho _ IH]; intros c Hc; [done|].
  destruct (run_refines_fifo c o) as (c' & Hr & Hc' & Hcap & Hq); [done..|].
  simpl. rewrite Hr. f_equal. by rewrite IH, Hcap, Hq.
Qed.

(** C35: a ring buffer initialised with [n] bytes behaves, over any sequence of
    writes, reads, peeks, drops, clears and queries, exactly as a bounded FIFO
    queue of [n - 1] bytes: same data in the same order, same counts, same
    refusals when it is too full or too empty. *)
Theorem cyclic_buffer_is_fifo (c0 c : cyclic_buf) (n : Z) (os : list Fifo.op) :
  0 < n < 2 ^ 16 -> Forall op_ok os ->
  cyclic_buf_init (Some c0) n true = (true, Some c) ->
  run_all (Some c) os = spec_all (n - 1) [] os.
Proof.
  intros Hn Hos E. destruct (cyclic_buf_init_wf c0 n Hn) as (c' & E' & Hwf & Hcap & Hq).
  rewrite E in E'. injection E' as <-. by rewrite run_all_refines, Hcap, Hq.
Qed.

Lemma cyclic_buffer_is_fifo_witness :
  run_all (Some (CyclicBuf 0 0 4 (Some [0; 0; 0; 0])))
    [Fifo.Write [1; 2; 3]; Fifo.Read 2; Fifo.Write [4; 5]; Fifo.Write [6]; Fifo.Read 3]
  = spec_all 3 [] [Fifo.Write [1; 2; 3]; Fifo.Read 2; Fifo.Write [4; 5]; Fifo.Write [6]; Fifo.Read 3].
Proof.
  apply (cyclic_buffer_is_fifo (CyclicBuf 0 0 0 None)
           (CyclicBuf 0 0 4 (Some [0; 0; 0; 0])) 4); [lia| |reflexivity].
  repeat constructor; compute; intuition discriminate.
Defined.
