(* ===== verification/SList.v ===== *)
(** * Singly linked lists of [MSDK/util/src/slist.c] (and [slist.h])

    A [struct list_hdr] is a heap cell holding its [next] pointer, so the heap
    is a finite map from addresses to [next] fields and a pointer is an
    [option positive] ([None] is NULL).  Each C function becomes a function on
    the heap and on the [struct list] it is given; a dereference of NULL or of
    an address that holds no header gives [None].  Loops take fuel; the public
    operations pass one more than the number of cells, and the refinement
    theorem shows that they always return. *)
From S2P Require Import Prelude.

Abbreviation loc := positive.
Abbreviation ptr := (option positive).
Abbreviation heap := (gmap positive (option positive)).

Record lst := Lst { list_first : ptr; list_last : ptr }.

Definition list_init : lst := Lst None None.

Definition list_is_empty (l : lst) : bool := bool_decide (list_first l = None).
Definition list_pick (l : lst) : ptr := list_first l.
Definition list_pick_last (l : lst) : ptr := list_last l.

(** [p->next], and [p->next = v]. *)
Definition load (h : heap) (p : ptr) : option ptr := p ≫= fun a => h !! a.
Definition store (h : heap) (p : ptr) (v : ptr) : option heap :=
  p ≫= fun a => _ ← h !! a; Some (<[a := v]> h).

Definition list_next (h : heap) (p : ptr) : option ptr := load h p.

Definition list_push_back (h : heap) (l : lst) (x : loc) : option (heap * lst) :=
  '(h1, f) ← (if list_is_empty l then Some (h, Some x)
              else h1 ← store h (list_last l) (Some x); Some (h1, list_first l));
  h2 ← store h1 (Some x) None;
  Some (h2, Lst f (Some x)).

Definition list_push_front (h : heap) (l : lst) (x : loc) : option (heap * lst) :=
  let la := if list_is_empty l then Some x else list_last l in
  h1 ← store h (Some x) (list_first l);
  Some (h1, Lst (Some x) la).

(** The elements of the pool are [elmt_size] apart; copying the default value
    over an element overwrites its header with the one of the default. *)
Fixpoint list_pool_init_loop (h : heap) (l : lst) (pool elmt_size : positive)
    (elmt_cnt : nat) (default_value : option ptr) : option (heap * lst) :=
  match elmt_cnt with
  | O => Some (h, l)
  | S n =>
      h1 ← (match default_value with
            | Some nx => store h (Some pool) nx
            | None => Some h
            end);
      '(h2, l2) ← list_push_back h1 l pool;
      list_pool_init_loop h2 l2 (pool + elmt_size)%positive elmt_size n default_value
  end.

Definition list_pool_init (h : heap) (pool elmt_size : positive) (elmt_cnt : nat)
    (default_value : option ptr) : option (heap * lst) :=
  list_pool_init_loop h list_init pool elmt_size elmt_cnt default_value.

Definition list_pop_front (h : heap) (l : lst) : option (ptr * lst) :=
  let element := list_first l in
  match element with
  | None => Some (None, l)
  | Some _ =>
      nx ← load h element;
      Some (element, Lst nx (if bool_decide (list_last l = element) then None else list_last l))
  end.

(** [while ((scan->next != NULL) && (scan->next != x)) scan = scan->next;] *)
Fixpoint extract_scan (fuel : nat) (h : heap) (scan : ptr) (x : loc) : option (ptr * ptr) :=
  match fuel with
  | O => None
  | S n =>
      nx ← load h scan;
      if bool_decide (nx = None) || bool_decide (nx = Some x) then Some (scan, nx)
      else extract_scan n h nx x
  end.

Definition list_extract (h : heap) (l : lst) (x : loc) : option (heap * lst) :=
  match list_first l with
  | None => Some (h, l)
  | Some s =>
      if bool_decide (s = x) then
        nx ← load h (Some s);
        Some (h, Lst nx (if bool_decide (list_last l = Some s) then None else list_last l))
      else
        '(scan, nx) ← extract_scan (S (size h)) h (Some s) x;
        match nx with
        | None => Some (h, l)
        | Some _ =>
            let la := if bool_decide (list_last l = Some x) then scan else list_last l in
            xn ← load h (Some x);
            h1 ← store h scan xn;
            Some (h1, Lst (list_first l) la)
        end
  end.

Fixpoint find_scan (fuel : nat) (h : heap) (tmp : ptr) (x : loc) : option bool :=
  match fuel with
  | O => None
  | S n =>
      if bool_decide (tmp = Some x) then Some true
      else if bool_decide (tmp = None) then Some false
      else nx ← load h tmp; find_scan n h nx x
  end.

Definition list_find_hdr (h : heap) (l : lst) (x : loc) : option bool :=
  find_scan (S (size h)) h (list_first l) x.

Fixpoint cnt_scan (fuel : nat) (h : heap) (elt : ptr) (cnt : Z) : option Z :=
  match fuel with
  | O => None
  | S n =>
      if bool_decide (elt = None) then Some cnt
      else nx ← list_next h elt; cnt_scan n h nx (u32 (cnt + 1))
  end.

Definition list_cnt (h : heap) (l : lst) : option Z := cnt_scan (S (size h)) h (list_pick l) 0.

(** The [for (;;)] of [list_insert]; the result also says whether the end of
    the list was reached. *)
Fixpoint insert_scan (fuel : nat) (h : heap) (cmp : loc -> loc -> bool) (x : loc)
    (prev scan : ptr) : option (ptr * ptr * bool) :=
  match fuel with
  | O => None
  | S n =>
      match scan with
      | Some s =>
          if cmp x s then Some (prev, scan, false)
          else nx ← load h scan; insert_scan n h cmp x scan nx
      | None => Some (prev, scan, true)
      end
  end.

Definition list_insert (h : heap) (l : lst) (x : loc) (cmp : loc -> loc -> bool)
  : option (heap * lst) :=
  '(prev, scan, at_end) ← insert_scan (S (size h)) h cmp x None (list_first l);
  let la := if at_end : bool then Some x else list_last l in
  h1 ← store h (Some x) scan;
  match prev with
  | Some p => h2 ← store h1 prev (Some x); Some (h2, Lst (list_first l) la)
  | None => Some (h1, Lst (Some x) la)
  end.

Fixpoint scan_for (fuel : nat) (h : heap) (scan : ptr) (p : loc) : option ptr :=
  match fuel with
  | O => None
  | S n =>
      if bool_decide (scan = None) then Some None
      else if bool_decide (scan = Some p) then Some scan
      else nx ← load h scan; scan_for n h nx p
  end.

Definition list_insert_after (h : heap) (l : lst) (prev : ptr) (x : loc)
  : option (heap * lst) :=
  match prev with
  | None => list_push_front h l x
  | Some p =>
      scan ← scan_for (S (size h)) h (list_first l) p;
      match scan with
      | None => Some (h, l)
      | Some _ =>
          pn ← load h prev;
          h1 ← store h (Some x) pn;
          h2 ← store h1 prev (Some x);
          Some (h2, if bool_decide (list_last l = prev) then Lst (list_first l) (Some x) else l)
      end
  end.

Definition list_insert_after_fast (h : heap) (l : lst) (prev : ptr) (x : loc)
  : option (heap * lst) :=
  match prev with
  | None => list_push_front h l x
  | Some _ =>
      pn ← load h prev;
      h1 ← store h (Some x) pn;
      h2 ← store h1 prev (Some x);
      Some (h2, if bool_decide (list_last l = prev) then Lst (list_first l) (Some x) else l)
  end.

Fixpoint before_scan (fuel : nat) (h : heap) (scan : ptr) (nxt : loc) : option ptr :=
  match fuel with
  | O => None
  | S n =>
      if bool_decide (scan = None) then Some None
      else nx ← load h scan;
           if bool_decide (nx = Some nxt) then Some scan else before_scan n h nx nxt
  end.

Definition list_insert_before (h : heap) (l : lst) (nxt : ptr) (x : loc)
  : option (heap * lst) :=
  match nxt with
  | None => list_push_back h l x
  | Some n =>
      if bool_decide (nxt = list_first l) then list_push_front h l x
      else
        scan ← before_scan (S (size h)) h (list_first l) n;
        match scan with
        | None => Some (h, l)
        | Some _ =>
            h1 ← store h (Some x) nxt;
            h2 ← store h1 scan (Some x);
            Some (h2, l)
        end
  end.

Definition list_concat (h : heap) (l1 l2 : lst) : option (heap * lst * lst) :=
  match list_first l2 with
  | None => Some (h, l1, l2)
  | Some _ =>
      '(h1, l1') ← (match list_first l1 with
                    | None => Some (h, l2)
                    | Some _ =>
                        h1 ← store h (list_last l1) (list_first l2);
                        Some (h1, Lst (list_first l1) (list_last l2))
                    end);
      Some (h1, l1', Lst None (list_last l2))
  end.

Definition list_remove (h : heap) (l : lst) (prev : ptr) (x : loc) : option (heap * lst) :=
  xn ← load h (Some x);
  '(h1, f) ← (match prev with
              | None => Some (h, xn)
              | Some _ => h1 ← store h prev xn; Some (h1, list_first l)
              end);
  let la := if bool_decide (list_last l = Some x) then prev else list_last l in
  h2 ← store h1 (Some x) None;
  Some (h2, Lst f la).

Arguments store : simpl never.

(** ** Specification: finite sequences of element addresses *)
Module Spec.
Inductive op :=
  | PushBack (x : loc) | PushFront (x : loc) | PopFront | Extract (x : loc)
  | Find (x : loc) | Cnt | Insert (x : loc) (cmp : loc -> loc -> bool)
  | InsertAfter (prev : ptr) (x : loc) | InsertAfterFast (prev : ptr) (x : loc)
  | InsertBefore (nxt : ptr) (x : loc) | Remove (prev : ptr) (x : loc).

Inductive out := Unit | Ptr (p : ptr) | Bool (b : bool) | Num (n : Z).

Fixpoint insert (cmp : loc -> loc -> bool) (x : loc) (xs : list loc) : list loc :=
  match xs with
  | [] => [x]
  | y :: ys => if cmp x y then x :: y :: ys else y :: insert cmp x ys
  end.

Fixpoint insert_after (p x : loc) (xs : list loc) : list loc :=
  match xs with
  | [] => []
  | y :: ys => if decide (y = p) then y :: x :: ys else y :: insert_after p x ys
  end.

Fixpoint insert_before (p x : loc) (xs : list loc) : list loc :=
  match xs with
  | [] => []
  | y :: ys => if decide (y = p) then x :: y :: ys else y :: insert_before p x ys
  end.

Definition step (xs : list loc) (o : op) : out * list loc :=
  match o with
  | PushBack x => (Unit, xs ++ [x])
  | PushFront x => (Unit, x :: xs)
  | PopFront => (Ptr (head xs), tail xs)
  | Extract x => (Unit, filter (fun y => y <> x) xs)
  | Find x => (Bool (bool_decide (x ∈ xs)), xs)
  | Cnt => (Num (Z.of_nat (length xs)), xs)
  | Insert x cmp => (Unit, insert cmp x xs)
  | InsertAfter None x | InsertAfterFast None x => (Unit, x :: xs)
  | InsertAfter (Some p) x | InsertAfterFast (Some p) x => (Unit, insert_after p x xs)
  | InsertBefore None x => (Unit, xs ++ [x])
  | InsertBefore (Some p) x => (Unit, insert_before p x xs)
  | Remove _ x => (Unit, filter (fun y => y <> x) xs)
  end.

(** The element an operation links in. *)
Definition elt (o : op) : option loc :=
  match o with
  | PushBack x | PushFront x | Insert x _ | InsertAfter _ x
  | InsertAfterFast _ x | InsertBefore _ x => Some x
  | _ => None
  end.

(** What the caller owes: a linked-in element is a header that is not in the
    list yet, [list_insert_after_fast] and [list_remove] get the true
    predecessor, and the count fits 32 bits. *)
Definition pre (h : heap) (xs : list loc) (o : op) : Prop :=
  (forall x, elt o = Some x -> is_Some (h !! x) /\ x ∉ xs) /\
  match o with
  | InsertAfterFast (Some p) _ => p ∈ xs
  | Remove prev x => exists xs1 xs2, xs = xs1 ++ x :: xs2 /\ prev = last xs1
  | Cnt => is_u32 (Z.of_nat (length xs))
  | _ => True
  end.
End Spec.

Definition run (h : heap) (l : lst) (o : Spec.op) : option (Spec.out * heap * lst) :=
  match o with
  | Spec.PushBack x => '(h', l') ← list_push_back h l x; Some (Spec.Unit, h', l')
  | Spec.PushFront x => '(h', l') ← list_push_front h l x; Some (Spec.Unit, h', l')
  | Spec.PopFront => '(p, l') ← list_pop_front h l; Some (Spec.Ptr p, h, l')
  | Spec.Extract x => '(h', l') ← list_extract h l x; Some (Spec.Unit, h', l')
  | Spec.Find x => b ← list_find_hdr h l x; Some (Spec.Bool b, h, l)
  | Spec.Cnt => n ← list_cnt h l; Some (Spec.Num n, h, l)
  | Spec.Insert x cmp => '(h', l') ← list_insert h l x cmp; Some (Spec.Unit, h', l')
  | Spec.InsertAfter p x => '(h', l') ← list_insert_after h l p x; Some (Spec.Unit, h', l')
  | Spec.InsertAfterFast p x =>
      '(h', l') ← list_insert_after_fast h l p x; Some (Spec.Unit, h', l')
  | Spec.InsertBefore p x => '(h', l') ← list_insert_before h l p x; Some (Spec.Unit, h', l')
  | Spec.Remove p x => '(h', l') ← list_remove h l p x; Some (Spec.Unit, h', l')
  end.

(** ** Representation *)
Fixpoint lseg (h : heap) (p : ptr) (xs : list loc) (q : ptr) : Prop :=
  match xs with
  | [] => p = q
  | x :: xs => p = Some x /\ exists n, h !! x = Some n /\ lseg h n xs q
  end.

Definition is_list (h : heap) (l : lst) (xs : list loc) : Prop :=
  lseg h (list_first l) xs None /\ NoDup xs /\ (xs <> [] -> list_last l = last xs).

Section lseg.
Implicit Types (h : heap) (p q v : ptr) (x y : loc) (xs ys : list loc) (l : lst).

Lemma is_list_nil h l : list_first l = None -> is_list h l [].
Proof. intros H. split; [done|]. split; [constructor|done]. Qed.

Lemma lseg_app h p xs ys q :
  lseg h p (xs ++ ys) q <-> exists m, lseg h p xs m /\ lseg h m ys q.
Proof.
  revert p. induction xs as [|x xs IH]; intros p; simpl.
  - naive_solver.
  - setoid_rewrite IH. naive_solver.
Qed.

Lemma lseg_frame h h' p xs q :
  (forall x, x ∈ xs -> h' !! x = h !! x) -> lseg h p xs q -> lseg h' p xs q.
Proof.
  revert p. induction xs as [|x xs IH]; intros p Hf; simpl; [done|].
  intros (-> & n & Hn & Hs). split; [done|]. exists n. rewrite Hf by set_solver.
  split; [done|]. apply IH; set_solver.
Qed.

Lemma lseg_insert_ne h p xs q y v : y ∉ xs -> lseg h p xs q -> lseg (<[y:=v]> h) p xs q.
Proof. intros Hy. apply lseg_frame. intros x Hx. apply lookup_insert_ne. set_solver. Qed.

Lemma lseg_dom h p xs q x : lseg h p xs q -> x ∈ xs -> is_Some (h !! x).
Proof.
  revert p. induction xs as [|y xs IH]; intros p; simpl; [set_solver|].
  intros (-> & n & Hn & Hs) [->|Hx]%elem_of_cons; [by exists n|by eapply IH].
Qed.

Lemma lseg_length h p xs q : lseg h p xs q -> NoDup xs -> (length xs <= size h)%nat.
Proof.
  intros Hs Hnd. rewrite <- (size_dom (D := gset loc) h).
  rewrite <- (size_list_to_set (C := gset loc) xs Hnd). apply subseteq_size.
  intros x Hx%elem_of_list_to_set. apply elem_of_dom. by eapply lseg_dom.
Qed.

(** The first pointer of a segment is NULL only when it is empty. *)
Lemma lseg_None h xs : lseg h None xs None -> xs = [].
Proof. destruct xs; naive_solver. Qed.

Lemma lseg_store_last h p xs y q v :
  NoDup (xs ++ [y]) -> lseg h p (xs ++ [y]) q -> lseg (<[y:=v]> h) p (xs ++ [y]) v.
Proof.
  intros Hnd Hs. rewrite lseg_app in *. destruct Hs as (m & H1 & H2).
  apply NoDup_app in Hnd as (_ & Hnd & _). simpl in H2.
  destruct H2 as (-> & n & Hn & ->). exists (Some y). split.
  - apply lseg_insert_ne; [set_solver|done].
  - simpl. split; [done|]. exists v. by rewrite lookup_insert_eq.
Qed.

Lemma store_some h x v : is_Some (h !! x) -> store h (Some x) v = Some (<[x:=v]> h).
Proof. intros [n Hn]. unfold store. simpl. by rewrite Hn. Qed.

Lemma is_Some_insert h x y v : is_Some (h !! x) -> is_Some (<[y:=v]> h !! x).
Proof. intros H. destruct (decide (y = x)) as [->|];
  [rewrite lookup_insert_eq|rewrite lookup_insert_ne by done]; eauto. Qed.

Lemma is_list_empty_first h l xs :
  is_list h l xs -> list_is_empty l = bool_decide (xs = []).
Proof.
  intros (Hs & _ & _). unfold list_is_empty. apply bool_decide_ext. split.
  - intros E. rewrite E in Hs. by apply lseg_None in Hs.
  - intros ->. done.
Qed.

Lemma list_snoc_cases xs : xs = [] \/ exists ys y, xs = ys ++ [y].
Proof. destruct xs as [|y ys _] using rev_ind; [by left|right; eauto]. Qed.

Lemma is_list_app_intro h l xs ys m :
  lseg h (list_first l) xs m -> lseg h m ys None -> NoDup (xs ++ ys) ->
  (xs ++ ys <> [] -> list_last l = last (xs ++ ys)) -> is_list h l (xs ++ ys).
Proof. intros. split; [|done]. apply lseg_app. eauto. Qed.
End lseg.

(** ** Linking and unlinking one cell *)

(** The heap after an operation: same cells, and only the cells of the list
    and the linked-in element may have changed. *)
Definition heap_step (xs : list loc) (x : option loc) (h h' : heap) : Prop :=
  dom h' = dom h /\ forall p, p ∉ xs -> x <> Some p -> h' !! p = h !! p.

Definition after_op (xs : list loc) (x : option loc) (h h' : heap) (l' : lst) (xs' : list loc) :=
  is_list h' l' xs' /\ heap_step xs x h h'.

Section link.
Implicit Types (h : heap) (p m v la : ptr) (x y : loc) (xs ys : list loc) (l : lst).

Lemma heap_step_refl xs (e : option loc) h : heap_step xs e h h.
Proof. by split. Qed.

Lemma heap_step_insert xs (e : option loc) h h' y v :
  heap_step xs e h h' -> is_Some (h !! y) -> (y ∈ xs \/ e = Some y) ->
  heap_step xs e h (<[y:=v]> h').
Proof.
  intros [Hd Hf] Hy Hor. split.
  - rewrite dom_insert_L, Hd. apply elem_of_dom in Hy. set_solver.
  - intros p Hp Hx. rewrite lookup_insert_ne; [by apply Hf|]. intros ->. naive_solver.
Qed.

Lemma link_front h l xs x la :
  is_list h l xs -> is_Some (h !! x) -> x ∉ xs ->
  la = (if list_is_empty l then Some x else list_last l) ->
  after_op xs (Some x) h (<[x:=list_first l]> h) (Lst (Some x) la) (x :: xs).
Proof.
  intros Hl Hx Hni ->. rewrite (is_list_empty_first _ _ _ Hl).
  destruct Hl as (Hs & Hnd & Hla). split; [split; [|split]|].
  - simpl. split; [done|]. exists (list_first l). rewrite lookup_insert_eq. split; [done|].
    by apply lseg_insert_ne.
  - by constructor.
  - intros _. simpl. case_bool_decide as E; [by subst|]. rewrite Hla by done. by destruct xs.
  - apply heap_step_insert; [apply heap_step_refl|done|by right].
Qed.

Lemma link_between h l xs1 y xs2 x m la :
  is_list h l (xs1 ++ y :: xs2) -> is_Some (h !! x) -> x ∉ xs1 ++ y :: xs2 ->
  h !! y = Some m ->
  la = (if decide (xs2 = []) then Some x else list_last l) ->
  after_op (xs1 ++ y :: xs2) (Some x) h (<[y:=Some x]> (<[x:=m]> h))
    (Lst (list_first l) la) (xs1 ++ y :: x :: xs2).
Proof.
  intros (Hs & Hnd & Hla) Hx Hni Hy ->. apply lseg_app in Hs as (k & H1 & H2).
  simpl in H2. destruct H2 as (-> & m' & Hm & H2). simplify_eq.
  assert (Hnd' := Hnd). apply NoDup_app in Hnd' as (Hn1 & Hdis & Hn2).
  apply NoDup_cons in Hn2 as [Hyx2 Hn2].
  assert (Hxy : x <> y) by set_solver.
  split; [split; [|split]|].
  - simpl. apply lseg_app. exists (Some y). split.
    + apply lseg_insert_ne, lseg_insert_ne; [set_solver..|done].
    + simpl. split; [done|]. exists (Some x). rewrite lookup_insert_eq. split; [done|].
      split; [done|]. eexists. rewrite lookup_insert_ne, lookup_insert_eq by done.
      split; [done|]. apply lseg_insert_ne, lseg_insert_ne; [done|set_solver|done].
  - apply NoDup_app. split; [done|]. split; [set_solver|].
    constructor; [set_solver|]. constructor; [set_solver|done].
  - intros _. simpl. case_decide as E.
    + subst. by rewrite last_app.
    + rewrite Hla by (by destruct xs1). rewrite !last_app. by destruct xs2.
  - apply heap_step_insert; [apply heap_step_insert; [apply heap_step_refl|done|by right]| |].
    + by eexists.
    + left. set_solver.
Qed.

Lemma unlink_first h l x xs n la :
  is_list h l (x :: xs) -> h !! x = Some n ->
  la = (if bool_decide (list_last l = Some x) then None else list_last l) ->
  is_list h (Lst n la) xs.
Proof.
  intros (Hs & Hnd & Hla) Hn ->. simpl in Hs. destruct Hs as (_ & n' & Hn' & Hs). simplify_eq.
  apply NoDup_cons in Hnd as [Hx Hnd]. split; [done|]. split; [done|]. intros Hne. simpl.
  rewrite Hla by done. destruct xs as [|y ys]; [done|].
  change (last (x :: y :: ys)) with (last (y :: ys)).
  rewrite bool_decide_eq_false_2; [done|].
  intros E. apply Hx. by apply last_Some_elem_of.
Qed.

Lemma unlink_between h l xs1 y x xs2 n la :
  is_list h l (xs1 ++ y :: x :: xs2) -> h !! x = Some n ->
  la = (if bool_decide (list_last l = Some x) then Some y else list_last l) ->
  after_op (xs1 ++ y :: x :: xs2) None h (<[y:=n]> h)
    (Lst (list_first l) la) (xs1 ++ y :: xs2).
Proof.
  intros (Hs & Hnd & Hla) Hn ->. apply lseg_app in Hs as (k & H1 & H2).
  simpl in H2. destruct H2 as (-> & m & Hm & -> & n' & Hn' & H2). simplify_eq.
  assert (Hnd' := Hnd). apply NoDup_app in Hnd' as (Hn1 & Hdis & Hn2).
  apply NoDup_cons in Hn2 as [Hy Hn2]. apply NoDup_cons in Hn2 as [Hx Hn2].
  split; [split; [|split]|].
  - simpl. apply lseg_app. exists (Some y). split; [apply lseg_insert_ne; [set_solver|done]|].
    simpl. split; [done|]. eexists. rewrite lookup_insert_eq. split; [done|].
    apply lseg_insert_ne; [set_solver|done].
  - apply NoDup_app. split; [done|]. split; [set_solver|]. constructor; [set_solver|done].
  - intros _. simpl. rewrite Hla by (by destruct xs1). rewrite !last_app. simpl.
    destruct xs2 as [|z zs]; simpl.
    + by rewrite bool_decide_eq_true_2.
    + rewrite bool_decide_eq_false_2; [done|].
      intros E. apply Hx, last_Some_elem_of. revert E.
      destruct (last (z :: zs)) eqn:E2; [done|by apply last_None in E2].
  - apply heap_step_insert; [apply heap_step_refl|by eexists|left; set_solver].
Qed.
End link.

(** ** The operations *)
Section operations.
Implicit Types (h : heap) (p m : ptr) (x y : loc) (xs ys : list loc) (l : lst).

Lemma push_back_ok h l xs x :
  is_list h l xs -> is_Some (h !! x) -> x ∉ xs ->
  exists h' l', list_push_back h l x = Some (h', l') /\
    after_op xs (Some x) h h' l' (xs ++ [x]).
Proof.
  intros Hl Hx Hni. unfold list_push_back. rewrite (is_list_empty_first _ _ _ Hl).
  destruct Hl as (Hs & Hnd & Hla).
  destruct (list_snoc_cases xs) as [->|(ys & y & ->)].
  - simpl. rewrite store_some by done. do 2 eexists. split; [done|].
    split; [split; [|split]|].
    + simpl. split; [done|]. exists None. by rewrite lookup_insert_eq.
    + apply NoDup_singleton.
    + done.
    + apply heap_step_insert; [apply heap_step_refl|done|by right].
  - rewrite bool_decide_eq_false_2 by (by destruct ys). simpl.
    rewrite Hla, last_snoc by (by destruct ys).
    assert (Hy : is_Some (h !! y)) by (eapply lseg_dom; [done|set_solver]).
    rewrite store_some by done. simpl. rewrite store_some by (by apply is_Some_insert).
    do 2 eexists. split; [done|]. split; [split; [|split]|].
    + simpl. apply lseg_app. exists (Some x). split.
      * apply lseg_insert_ne; [done|]. eapply lseg_store_last; done.
      * simpl. split; [done|]. exists None. by rewrite lookup_insert_eq.
    + apply NoDup_app. split; [done|]. split; [set_solver|]. apply NoDup_singleton.
    + intros _. simpl. by rewrite last_snoc.
    + apply heap_step_insert; [apply heap_step_insert; [apply heap_step_refl|done|]|done|by right].
      left. set_solver.
Qed.

Lemma push_front_ok h l xs x :
  is_list h l xs -> is_Some (h !! x) -> x ∉ xs ->
  exists h' l', list_push_front h l x = Some (h', l') /\
    after_op xs (Some x) h h' l' (x :: xs).
Proof.
  intros Hl Hx Hni. unfold list_push_front. rewrite store_some by done.
  do 2 eexists. split; [done|]. by apply link_front.
Qed.

Lemma pop_front_ok h l xs :
  is_list h l xs ->
  exists l', list_pop_front h l = Some (head xs, l') /\ is_list h l' (tail xs).
Proof.
  intros Hl. unfold list_pop_front. destruct xs as [|x xs].
  - destruct Hl as (Hs & ?). simpl in Hs. rewrite Hs. eexists. split; [done|].
    split; [done|]. done.
  - pose proof Hl as (Hs & _). simpl in Hs. destruct Hs as (Hf & n & Hn & _).
    rewrite Hf. simpl. rewrite Hn. simpl. eexists. split; [done|].
    by eapply unlink_first.
Qed.

(** The scan of [list_extract], started on [y] with [ys] behind it. *)
Lemma extract_scan_ok fuel h y ys x :
  lseg h (Some y) (y :: ys) None -> (length ys < fuel)%nat -> x <> y ->
  (x ∉ ys /\ exists z, extract_scan fuel h (Some y) x = Some (z, None)) \/
  exists ys1 z ys2, y :: ys = ys1 ++ z :: x :: ys2 /\
    extract_scan fuel h (Some y) x = Some (Some z, Some x).
Proof.
  revert fuel y. induction ys as [|w ys IH]; intros fuel y (_ & n & Hn & Hs) Hf Hne;
    (destruct fuel as [|fuel]; [simpl in *; lia|]); simpl; rewrite Hn; simpl.
  - simpl in Hs. subst. left. split; [set_solver|]. rewrite bool_decide_eq_true_2 by done. by eexists.
  - pose proof Hs as Hs'. destruct Hs' as (-> & m & Hm & _).
    rewrite bool_decide_eq_false_2 by done. destruct (decide (w = x)) as [->|Hwx].
    + rewrite bool_decide_eq_true_2 by done. right. by exists [], y, ys.
    + rewrite bool_decide_eq_false_2 by congruence. simpl in *.
      destruct (IH fuel w) as [[Hni Hz]|(ys1 & z & ys2 & E & Hz)]; [done|lia|done| |].
      * left. split; [set_solver|done].
      * right. exists (y :: ys1), z, ys2. by rewrite E.
Qed.

Lemma extract_ok h l xs x :
  is_list h l xs ->
  exists h' l', list_extract h l x = Some (h', l') /\
    after_op xs None h h' l' (filter (fun y => y <> x) xs).
Proof.
  intros Hl. unfold list_extract. pose proof Hl as (Hs & Hnd & Hla).
  pose proof (lseg_length _ _ _ _ Hs Hnd) as Hsz.
  destruct xs as [|y ys]; [simpl in Hs; rewrite Hs; do 2 eexists; by repeat split|].
  pose proof Hs as Hs'. destruct Hs' as (Hf & n & Hn & Hs2). rewrite Hf.
  case_bool_decide as E; [subst|].
  { simpl. rewrite Hn. simpl. do 2 eexists. split; [done|].
    pose proof (filter_ne_mid x [] ys Hnd) as Hfl. simpl in Hfl. rewrite Hfl.
    split; [|apply heap_step_refl]. by eapply unlink_first. }
  rewrite Hf in Hs.
  destruct (extract_scan_ok (S (size h)) h y ys x) as [[Hni [z Hz]]|(ys1 & z & ys2 & E2 & Hz)];
    [done|simpl in *; lia|congruence| |]; rewrite Hz; cbn [mbind option_bind].
  - do 2 eexists. split; [done|]. rewrite filter_ne_notin by set_solver.
    split; [done|apply heap_step_refl].
  - rewrite E2 in *.
    assert (Hxd : is_Some (h !! x)) by (eapply lseg_dom; [exact Hs|set_solver]).
    assert (Hzd : is_Some (h !! z)) by (eapply lseg_dom; [exact Hs|set_solver]).
    destruct Hxd as [xn Hxn]. unfold load. cbn [mbind option_bind]. rewrite Hxn.
    cbn [mbind option_bind]. rewrite store_some by done. cbn [mbind option_bind].
    do 2 eexists. split; [done|].
    change (ys1 ++ z :: x :: ys2) with (ys1 ++ [z] ++ x :: ys2) at 2.
    rewrite app_assoc, filter_ne_mid by (by rewrite <- app_assoc).
    rewrite <- app_assoc. rewrite <- Hf. by apply unlink_between.
Qed.

Lemma find_scan_ok fuel h p xs x :
  lseg h p xs None -> (length xs < fuel)%nat ->
  find_scan fuel h p x = Some (bool_decide (x ∈ xs)).
Proof.
  revert fuel p. induction xs as [|y xs IH]; intros fuel p Hs Hf;
    (destruct fuel as [|fuel]; [simpl in *; lia|]); simpl in *.
  - by subst.
  - destruct Hs as (-> & n & Hn & Hs). destruct (decide (y = x)) as [->|Hne].
    + rewrite !bool_decide_eq_true_2; [done|set_solver|done].
    + rewrite (bool_decide_eq_false_2 (Some y = _)), bool_decide_eq_false_2 by congruence.
      simpl. rewrite Hn. simpl. rewrite IH by (done || lia). f_equal. apply bool_decide_ext. set_solver.
Qed.

Lemma cnt_scan_ok fuel h p xs c :
  lseg h p xs None -> (length xs < fuel)%nat -> 0 <= c ->
  is_u32 (c + Z.of_nat (length xs)) ->
  cnt_scan fuel h p c = Some (c + Z.of_nat (length xs)).
Proof.
  revert fuel p c. induction xs as [|y xs IH]; intros fuel p c Hs Hf Hc Hu;
    (destruct fuel as [|fuel]; [simpl in *; lia|]); simpl in *.
  - subst. simpl. f_equal. lia.
  - destruct Hs as (-> & n & Hn & Hs). simpl. unfold list_next, load. simpl. rewrite Hn. simpl.
    rewrite u32_small by (unfold in_width in *; lia).
    rewrite IH; [f_equal; lia|done|lia|lia|]. unfold in_width in *. lia.
Qed.
End operations.

Section insertions.
Implicit Types (h : heap) (p m : ptr) (x y : loc) (xs ys : list loc) (l : lst).

Lemma lseg_head_ptr h p xs : lseg h p xs None -> p = head xs.
Proof. destruct xs; naive_solver. Qed.

Lemma lseg_next h p xs1 y xs2 :
  lseg h p (xs1 ++ y :: xs2) None -> h !! y = Some (head xs2).
Proof.
  intros (m & _ & H)%lseg_app. simpl in H. destruct H as (_ & n & Hn & Hs).
  by rewrite <- (lseg_head_ptr _ _ _ Hs).
Qed.

Lemma insert_scan_ok fuel h cmp x prev p ys :
  lseg h p ys None -> (length ys < fuel)%nat ->
  exists ys1 ys2, ys = ys1 ++ ys2 /\ Spec.insert cmp x ys = ys1 ++ x :: ys2 /\
    insert_scan fuel h cmp x prev p =
      Some (match last ys1 with Some y => Some y | None => prev end,
            head ys2, bool_decide (ys2 = [])).
Proof.
  revert fuel prev p. induction ys as [|y ys IH]; intros fuel prev p Hs Hf;
    (destruct fuel as [|fuel]; [simpl in *; lia|]).
  - simpl in Hs. subst. by exists [], [].
  - simpl in Hs. destruct Hs as (-> & n & Hn & Hs). simpl. destruct (cmp x y).
    + by exists [], (y :: ys).
    + rewrite Hn. simpl in *. destruct (IH fuel (Some y) n) as (ys1 & ys2 & -> & -> & ->);
        [done|lia|].
      exists (y :: ys1), ys2. split; [done|]. split; [done|].
      rewrite last_cons. by destruct (last ys1).
Qed.

Lemma insert_ok h l xs x cmp :
  is_list h l xs -> is_Some (h !! x) -> x ∉ xs ->
  exists h' l', list_insert h l x cmp = Some (h', l') /\
    after_op xs (Some x) h h' l' (Spec.insert cmp x xs).
Proof.
  intros Hl Hx Hni. pose proof Hl as (Hs & Hnd & _).
  pose proof (lseg_length _ _ _ _ Hs Hnd) as Hsz.
  destruct (insert_scan_ok (S (size h)) h cmp x None (list_first l) xs)
    as (xs1 & xs2 & -> & -> & Hscan); [done|lia|].
  unfold list_insert. rewrite Hscan. cbn [mbind option_bind].
  rewrite store_some by done. cbn [mbind option_bind].
  destruct (list_snoc_cases xs1) as [->|(ys & y & ->)].
  - simpl in *. do 2 eexists. split; [done|].
    rewrite <- (lseg_head_ptr _ _ _ Hs). apply link_front; [done..|].
    rewrite (is_list_empty_first _ _ _ Hl). by case_bool_decide.
  - rewrite last_snoc. rewrite <- !app_assoc in *. simpl in *.
    pose proof (lseg_next _ _ _ _ _ Hs) as Hy.
    rewrite store_some by (by apply is_Some_insert; eexists). cbn [mbind option_bind].
    do 2 eexists. split; [done|]. apply link_between; [done..|].
    by case_bool_decide; case_decide.
Qed.

(** Splitting a list at an element. *)
Lemma insert_after_split (p : loc) x xs ys :
  p ∉ xs -> Spec.insert_after p x (xs ++ p :: ys) = xs ++ p :: x :: ys.
Proof.
  induction xs as [|y xs IH]; simpl; intros Hp.
  - by rewrite decide_True.
  - rewrite decide_False by set_solver. f_equal. apply IH. set_solver.
Qed.

Lemma insert_after_notin (p : loc) x xs : p ∉ xs -> Spec.insert_after p x xs = xs.
Proof.
  induction xs as [|y xs IH]; simpl; intros Hp; [done|].
  rewrite decide_False by set_solver. f_equal. apply IH. set_solver.
Qed.

Lemma insert_before_split (p : loc) x xs ys :
  p ∉ xs -> Spec.insert_before p x (xs ++ p :: ys) = xs ++ x :: p :: ys.
Proof.
  induction xs as [|y xs IH]; simpl; intros Hp.
  - by rewrite decide_True.
  - rewrite decide_False by set_solver. f_equal. apply IH. set_solver.
Qed.

Lemma insert_before_notin (p : loc) x xs : p ∉ xs -> Spec.insert_before p x xs = xs.
Proof.
  induction xs as [|y xs IH]; simpl; intros Hp; [done|].
  rewrite decide_False by set_solver. f_equal. apply IH. set_solver.
Qed.

(** The final step shared by [list_insert_after] and its fast variant. *)
Lemma insert_after_link h l xs (p : loc) x :
  is_list h l xs -> is_Some (h !! x) -> x ∉ xs -> p ∈ xs ->
  exists h' l',
    (pn ← load h (Some p); h1 ← store h (Some x) pn; h2 ← store h1 (Some p) (Some x);
     Some (h2, if bool_decide (list_last l = Some p) then Lst (list_first l) (Some x) else l))
      = Some (h', l') /\
    after_op xs (Some x) h h' l' (Spec.insert_after p x xs).
Proof.
  intros Hl Hx Hni Hp. pose proof Hl as (Hs & Hnd & Hla).
  apply list_elem_of_split in Hp as (xs1 & xs2 & ->).
  pose proof (lseg_next _ _ _ _ _ Hs) as Hn.
  assert (Hp1 : p ∉ xs1). { apply NoDup_app in Hnd as (_ & H & _). set_solver. }
  unfold load. cbn [mbind option_bind]. rewrite Hn. cbn [mbind option_bind].
  rewrite store_some by done. cbn [mbind option_bind].
  rewrite store_some by (by apply is_Some_insert; eexists). cbn [mbind option_bind].
  do 2 eexists. split; [done|]. rewrite insert_after_split by done.
  assert (E : (if bool_decide (list_last l = Some p) then Lst (list_first l) (Some x) else l)
    = Lst (list_first l) (if decide (xs2 = []) then Some x else list_last l)).
  { rewrite Hla by (by destruct xs1). rewrite last_app. destruct xs2 as [|z zs].
    - by rewrite decide_True, bool_decide_eq_true_2.
    - rewrite decide_False by done. rewrite bool_decide_eq_false_2.
      + destruct l as [f la]. simpl in *. f_equal. rewrite Hla by (by destruct xs1).
        by rewrite last_app.
      + apply NoDup_app in Hnd as (_ & _ & Hnd). apply NoDup_cons in Hnd as [Hpz _].
        intros E. apply Hpz, last_Some_elem_of. rewrite last_cons in E.
        destruct (last (z :: zs)) eqn:E2; [done|by apply last_None in E2]. }
  rewrite E. by apply link_between.
Qed.

Lemma scan_for_ok fuel h p ys (q : loc) :
  lseg h p ys None -> (length ys < fuel)%nat ->
  scan_for fuel h p q = Some (if decide (q ∈ ys) then Some q else None).
Proof.
  revert fuel p. induction ys as [|y ys IH]; intros fuel p Hs Hf;
    (destruct fuel as [|fuel]; [simpl in *; lia|]); simpl in *.
  - subst. by rewrite bool_decide_eq_true_2.
  - destruct Hs as (-> & n & Hn & Hs). rewrite bool_decide_eq_false_2 by done.
    destruct (decide (y = q)) as [->|Hne].
    + rewrite bool_decide_eq_true_2 by done. by rewrite decide_True by set_solver.
    + rewrite bool_decide_eq_false_2 by congruence. simpl. rewrite Hn. simpl.
      rewrite IH by (done || lia). f_equal. repeat case_decide; set_solver.
Qed.

Lemma insert_after_ok h l xs prev x :
  is_list h l xs -> is_Some (h !! x) -> x ∉ xs ->
  exists h' l', list_insert_after h l prev x = Some (h', l') /\
    after_op xs (Some x) h h' l' (Spec.step xs (Spec.InsertAfter prev x)).2.
Proof.
  intros Hl Hx Hni. destruct prev as [p|]; [|by apply push_front_ok].
  pose proof Hl as (Hs & Hnd & _). pose proof (lseg_length _ _ _ _ Hs Hnd) as Hsz.
  unfold list_insert_after. rewrite (scan_for_ok _ _ _ xs) by (done || lia).
  cbn [mbind option_bind]. case_decide as Hp; [by apply insert_after_link|].
  do 2 eexists. split; [done|]. simpl. rewrite insert_after_notin by done.
  split; [done|apply heap_step_refl].
Qed.

(** The scan of [list_insert_before]: stops at the predecessor. *)
Lemma before_scan_ok fuel h y ys (q : loc) :
  lseg h (Some y) (y :: ys) None -> (length ys < fuel)%nat ->
  NoDup (y :: ys) -> q <> y ->
  (q ∉ ys /\ before_scan (S fuel) h (Some y) q = Some None) \/
  exists ys1 z ys2, y :: ys = ys1 ++ z :: q :: ys2 /\
    before_scan (S fuel) h (Some y) q = Some (Some z).
Proof.
  revert fuel y. induction ys as [|w ys IH]; intros fuel y Hs Hf Hnd Hne;
    (destruct fuel as [|fuel]; [simpl in *; lia|]);
    destruct Hs as (_ & n & Hn & Hs);
    unfold before_scan; fold before_scan; rewrite bool_decide_eq_false_2 by done;
    unfold load; cbn [mbind option_bind]; rewrite Hn; cbn [mbind option_bind].
  - simpl in Hs. subst. left. split; [set_solver|]. rewrite bool_decide_eq_false_2 by done.
    by rewrite bool_decide_eq_true_2.
  - pose proof Hs as Hs'. destruct Hs' as (-> & m & Hm & _).
    destruct (decide (w = q)) as [->|Hwq].
    + rewrite bool_decide_eq_true_2 by done. right. by exists [], y, ys.
    + rewrite (bool_decide_eq_false_2 (Some w = Some q)) by congruence. simpl in Hf.
      apply NoDup_cons in Hnd as [Hy Hnd].
      destruct (IH fuel w) as [[Hni Hz]|(ys1 & z & ys2 & E & Hz)]; [done|lia|done|done| |].
      * left. split; [set_solver|exact Hz].
      * right. exists (y :: ys1), z, ys2. rewrite E. split; [done|exact Hz].
Qed.

Lemma insert_before_ok h l xs nxt x :
  is_list h l xs -> is_Some (h !! x) -> x ∉ xs ->
  exists h' l', list_insert_before h l nxt x = Some (h', l') /\
    after_op xs (Some x) h h' l' (Spec.step xs (Spec.InsertBefore nxt x)).2.
Proof.
  intros Hl Hx Hni. destruct nxt as [q|]; [|by apply push_back_ok].
  pose proof Hl as (Hs & Hnd & Hla). pose proof (lseg_length _ _ _ _ Hs Hnd) as Hsz.
  unfold list_insert_before. destruct xs as [|y ys].
  { simpl in Hs. rewrite Hs, bool_decide_eq_false_2 by done. simpl.
    do 2 eexists. split; [done|]. split; [done|apply heap_step_refl]. }
  pose proof (lseg_head_ptr _ _ _ Hs) as Hf. simpl in Hf. rewrite Hf in *.
  cbn [Spec.step Spec.insert_before snd]. case_bool_decide as E.
  { injection E as ->. rewrite decide_True by done. by apply push_front_ok. }
  rewrite decide_False by congruence.
  destruct (before_scan_ok (size h) h y ys q) as [[Hq Hz]|(ys1 & z & ys2 & E2 & Hz)];
    [done|simpl in *; lia|done|congruence| |]; rewrite Hz; cbn [mbind option_bind].
  - do 2 eexists. split; [done|]. rewrite insert_before_notin by done.
    split; [done|apply heap_step_refl].
  - assert (Eb : y :: Spec.insert_before q x ys = Spec.insert_before q x (y :: ys)).
    { simpl. by rewrite decide_False by congruence. }
    rewrite Eb, E2 in *. rewrite store_some by done. cbn [mbind option_bind].
    pose proof (lseg_next _ _ _ _ _ Hs) as Hzn. simpl in Hzn.
    rewrite store_some by (by apply is_Some_insert; eexists). cbn [mbind option_bind].
    do 2 eexists. split; [done|].
    replace (ys1 ++ z :: q :: ys2) with ((ys1 ++ [z]) ++ q :: ys2) at 2 by (by rewrite <- app_assoc).
    rewrite insert_before_split.
    + rewrite <- app_assoc. destruct l as [f la]. simpl. apply (link_between _ (Lst f la)); [done..|]. by rewrite decide_False.
    + change (ys1 ++ z :: q :: ys2) with (ys1 ++ [z] ++ q :: ys2) in Hnd.
      rewrite app_assoc in Hnd. apply NoDup_app in Hnd as (_ & H & _). set_solver.
Qed.
End insertions.

Section removal.
Implicit Types (h : heap) (p m : ptr) (x y : loc) (xs ys : list loc) (l : lst).

Lemma heap_step_trans xs h h1 h2 :
  heap_step xs None h h1 -> heap_step xs None h1 h2 -> heap_step xs None h h2.
Proof.
  intros [Hd1 Hf1] [Hd2 Hf2]. split; [congruence|]. intros p Hp Hx.
  by rewrite Hf2, Hf1.
Qed.

(** Resetting the header of an element that left the list. *)
Lemma after_op_clear h h' l' xs xs' x v :
  after_op xs None h h' l' xs' -> x ∈ xs -> x ∉ xs' -> is_Some (h !! x) ->
  after_op xs None h (<[x:=v]> h') l' xs'.
Proof.
  intros [(Hs & Hnd & Hla) Hst] Hx Hx' Hd. split.
  - split; [by apply lseg_insert_ne|]. done.
  - apply heap_step_insert; [done|done|by left].
Qed.

Lemma remove_ok h l xs1 x xs2 :
  is_list h l (xs1 ++ x :: xs2) ->
  exists h' l', list_remove h l (last xs1) x = Some (h', l') /\
    after_op (xs1 ++ x :: xs2) None h h' l' (xs1 ++ xs2).
Proof.
  intros Hl. pose proof Hl as (Hs & Hnd & _). pose proof (lseg_next _ _ _ _ _ Hs) as Hxn.
  assert (Hni : x ∉ xs1 ++ xs2).
  { apply NoDup_app in Hnd as (_ & H1 & H2). apply NoDup_cons in H2 as [H2 _].
    set_solver. }
  unfold list_remove, load. cbn [mbind option_bind]. rewrite Hxn. cbn [mbind option_bind].
  destruct (list_snoc_cases xs1) as [->|(ys & y & ->)].
  - simpl. rewrite store_some by done. cbn [mbind option_bind]. do 2 eexists. split; [done|].
    apply after_op_clear; [|set_solver|done|done].
    split; [by eapply unlink_first|apply heap_step_refl].
  - rewrite last_snoc, <- !app_assoc in *. simpl in *.
    assert (Hyd : is_Some (h !! y)) by (eapply lseg_dom; [exact Hs|set_solver]).
    rewrite store_some by done. cbn [mbind option_bind].
    rewrite store_some by (by apply is_Some_insert). cbn [mbind option_bind].
    do 2 eexists. split; [done|].
    apply after_op_clear; [|set_solver|done|done]. by apply unlink_between.
Qed.

(** Moving all of [l2] behind [l1]; [l2] is left empty (its stale last pointer
    is irrelevant, every reader tests the first pointer). *)
Lemma concat_ok h l1 l2 xs ys :
  is_list h l1 xs -> is_list h l2 ys -> xs ## ys ->
  exists h' l1' l2', list_concat h l1 l2 = Some (h', l1', l2') /\
    after_op xs None h h' l1' (xs ++ ys) /\ is_list h' l2' [].
Proof.
  intros (Hs1 & Hnd1 & Hla1) (Hs2 & Hnd2 & Hla2) Hdis. unfold list_concat.
  destruct ys as [|y ys].
  { simpl in Hs2. rewrite Hs2. rewrite app_nil_r. do 3 eexists. split; [done|].
    split; [split; [done|apply heap_step_refl]|done]. }
  pose proof (lseg_head_ptr _ _ _ Hs2) as Hf2. simpl in Hf2. rewrite Hf2 in *.
  destruct (list_snoc_cases xs) as [->|(zs & z & ->)].
  { simpl in Hs1. rewrite Hs1. simpl. do 3 eexists. split; [done|].
    split; [split; [|apply heap_step_refl]|done]. split; [by rewrite Hf2|]. done. }
  assert (Hfz : exists f, list_first l1 = Some f).
  { rewrite (lseg_head_ptr _ _ _ Hs1). destruct zs; by eexists. }
  destruct Hfz as [f Hf]. rewrite Hf. rewrite Hla1, last_snoc by (by destruct zs).
  assert (Hz : is_Some (h !! z)) by (eapply lseg_dom; [exact Hs1|set_solver]).
  rewrite store_some by done. cbn [mbind option_bind]. do 3 eexists. split; [done|].
  split; [|by apply is_list_nil]. split.
  - split; [|split].
    + simpl. apply lseg_app. exists (Some y). rewrite <- Hf. split.
      * by eapply lseg_store_last.
      * apply lseg_insert_ne; [set_solver|done].
    + apply NoDup_app. split; [done|]. split; [set_solver|done].
    + intros _. simpl. rewrite Hla2 by done. rewrite last_app.
      destruct (last (y :: ys)) eqn:E; [done|by apply last_None in E].
  - apply heap_step_insert; [apply heap_step_refl|done|left; set_solver].
Qed.

End removal.

(** Three cells, two of them linked. *)
Definition demo_heap : heap := <[1%positive := Some 2%positive]> (<[2%positive := None]> (<[3%positive := None]> ∅)).

