(* ===== verification/DList.v ===== *)
(** * Circular doubly linked lists of [MSDK/util/src/dlist.c] (and [dlist.h])

    A [struct list_head] is a heap cell with its [next] and [prev] addresses.
    A dereference of an address that holds no cell gives [None].  A list with
    head cell [hd] and elements [xs] is a cycle through [hd :: xs]; the
    theorems relate each operation to an operation on [xs].  The event loop
    keeps its timeouts in such a list. *)
From S2P Require Import Prelude.

Abbreviation loc := positive.

Record list_head := ListHead { next : loc; prev : loc }.
Abbreviation dheap := (gmap positive list_head).

Definition get_next (h : dheap) (a : loc) : option loc := c ← h !! a; Some (next c).
Definition get_prev (h : dheap) (a : loc) : option loc := c ← h !! a; Some (prev c).
Definition set_next (h : dheap) (a v : loc) : option dheap :=
  c ← h !! a; Some (<[a := ListHead v (prev c)]> h).
Definition set_prev (h : dheap) (a v : loc) : option dheap :=
  c ← h !! a; Some (<[a := ListHead (next c) v]> h).

Definition INIT_DLIST_HEAD (h : dheap) (p : loc) : option dheap :=
  h1 ← set_next h p p; set_prev h1 p p.

Definition list_add (h : dheap) (node head : loc) : option dheap :=
  let prev := head in
  next ← get_next h head;
  h1 ← set_prev h next node;
  h2 ← set_next h1 node next;
  h3 ← set_prev h2 node prev;
  set_next h3 prev node.

Definition list_add_tail (h : dheap) (node head : loc) : option dheap :=
  prev ← get_prev h head;
  let next := head in
  h1 ← set_prev h next node;
  h2 ← set_next h1 node next;
  h3 ← set_prev h2 node prev;
  set_next h3 prev node.

Definition list_del (h : dheap) (entry : loc) : option dheap :=
  prev ← get_prev h entry;
  next ← get_next h entry;
  h1 ← set_prev h next prev;
  set_next h1 prev next.

Definition list_del_init (h : dheap) (entry : loc) : option dheap :=
  h1 ← list_del h entry; INIT_DLIST_HEAD h1 entry.

Definition list_empty (h : dheap) (head : loc) : option bool :=
  n ← get_next h head; Some (bool_decide (n = head)).

Definition list_splice (h : dheap) (list head : loc) : option dheap :=
  first ← get_next h list;
  if bool_decide (first = list) then Some h
  else
    last ← get_prev h list;
    at_ ← get_next h head;
    h1 ← set_prev h first head;
    h2 ← set_next h1 head first;
    h3 ← set_next h2 last at_;
    set_prev h3 at_ last.

(** The [list_for_each] loop of [list_len]; [fuel] bounds the iterations. *)
Fixpoint list_len_loop (fuel : nat) (h : dheap) (pos head : loc) (count : Z) : option Z :=
  match fuel with
  | O => None
  | S n =>
      if bool_decide (pos = head) then Some count
      else p ← get_next h pos; list_len_loop n h p head (count + 1)
  end.

Definition list_len (h : dheap) (head : loc) : option Z :=
  p ← get_next h head; list_len_loop (S (size h)) h p head 0.

(** ** Representation *)

(** Every two neighbours of [L] point at each other. *)
Fixpoint linked (h : dheap) (L : list loc) : Prop :=
  match L with
  | a :: ((b :: _) as t) => get_next h a = Some b /\ get_prev h b = Some a /\ linked h t
  | _ => True
  end.

Definition is_dlist (h : dheap) (hd : loc) (xs : list loc) : Prop :=
  NoDup (hd :: xs) /\ linked h (hd :: xs ++ [hd]).

Section linked.
Implicit Types (h : dheap) (a b x hd : loc) (xs ys L : list loc).

Lemma linked_cons2 h a b L :
  linked h (a :: b :: L) <->
  get_next h a = Some b /\ get_prev h b = Some a /\ linked h (b :: L).
Proof. done. Qed.

Lemma linked_split h L1 a L2 :
  linked h (L1 ++ a :: L2) <-> linked h (L1 ++ [a]) /\ linked h (a :: L2).
Proof.
  induction L1 as [|x L1 IH]; [simpl; destruct L2; tauto|].
  destruct L1 as [|y L1]; simpl in *; [destruct L2; tauto|]. tauto.
Qed.

Lemma linked_frame h h' L :
  (forall x, x ∈ removelast L -> get_next h' x = get_next h x) ->
  (forall x, x ∈ tail L -> get_prev h' x = get_prev h x) ->
  linked h L -> linked h' L.
Proof.
  induction L as [|a L IH]; [done|]. destruct L as [|b L]; [done|].
  intros Hn Hp (H1 & H2 & H3). split; [|split].
  - rewrite Hn; [done|]. simpl. by left.
  - rewrite Hp; [done|]. by left.
  - apply IH; [|intros x Hx; apply Hp; by right|done].
    intros x Hx. apply Hn. simpl in *. by right.
Qed.

Lemma linked_app_frame h h' L1 a :
  (forall x, x ∈ L1 -> get_next h' x = get_next h x) ->
  (forall x, x ∈ L1 ++ [a] -> get_prev h' x = get_prev h x) ->
  linked h (L1 ++ [a]) -> linked h' (L1 ++ [a]).
Proof.
  intros Hn Hp. apply linked_frame.
  - by rewrite removelast_last.
  - intros x Hx. apply Hp. destruct L1; simpl in *; [by apply not_elem_of_nil in Hx|by right].
Qed.

(** Field reads after a field write. *)
Lemma set_next_spec h a v :
  is_Some (h !! a) ->
  exists h', set_next h a v = Some h' /\ dom h' = dom h /\
    (forall x, get_next h' x = if decide (x = a) then Some v else get_next h x) /\
    (forall x, get_prev h' x = get_prev h x) /\
    (forall x, x <> a -> h' !! x = h !! x).
Proof.
  intros [c Hc]. unfold set_next. rewrite Hc. eexists. split; [done|]. split; [|split; [|split]].
  - rewrite dom_insert_lookup_L; [done|by eexists].
  - intros x. unfold get_next. rewrite lookup_insert. repeat case_decide; by subst.
  - intros x. unfold get_prev. rewrite lookup_insert. case_decide; [subst; by rewrite Hc|done].
  - intros x Hx. by rewrite lookup_insert_ne.
Qed.

Lemma set_prev_spec h a v :
  is_Some (h !! a) ->
  exists h', set_prev h a v = Some h' /\ dom h' = dom h /\
    (forall x, get_prev h' x = if decide (x = a) then Some v else get_prev h x) /\
    (forall x, get_next h' x = get_next h x) /\
    (forall x, x <> a -> h' !! x = h !! x).
Proof.
  intros [c Hc]. unfold set_prev. rewrite Hc. eexists. split; [done|]. split; [|split; [|split]].
  - rewrite dom_insert_lookup_L; [done|by eexists].
  - intros x. unfold get_prev. rewrite lookup_insert. repeat case_decide; by subst.
  - intros x. unfold get_next. rewrite lookup_insert. case_decide; [subst; by rewrite Hc|done].
  - intros x Hx. by rewrite lookup_insert_ne.
Qed.

Lemma is_Some_dom_eq h h' x : dom h' = dom h -> is_Some (h !! x) -> is_Some (h' !! x).
Proof. intros E. rewrite <- !elem_of_dom. by rewrite E. Qed.

Lemma get_next_some h a b : get_next h a = Some b -> is_Some (h !! a).
Proof. unfold get_next. destruct (h !! a); [by eexists|done]. Qed.
Lemma get_prev_some h a b : get_prev h a = Some b -> is_Some (h !! a).
Proof. unfold get_prev. destruct (h !! a); [by eexists|done]. Qed.
End linked.

(** ** Linking and unlinking between two neighbours *)
Section cycle.
Implicit Types (h : dheap) (a b x hd node : loc) (xs ys L : list loc).

(** Both "halves" of a cycle seen as a list with equal ends are duplicate free. *)
Definition cyc (L : list loc) : Prop := NoDup (removelast L) /\ NoDup (tail L).

Lemma is_dlist_cyc h hd xs : is_dlist h hd xs -> cyc (hd :: xs ++ [hd]).
Proof.
  intros [Hnd _]. split.
  - change (hd :: xs ++ [hd]) with ((hd :: xs) ++ [hd]). by rewrite removelast_last.
  - simpl. apply NoDup_cons in Hnd as [H1 H2]. apply NoDup_app. split; [done|].
    split; [set_solver|]. apply NoDup_singleton.
Qed.

Lemma elem_of_removelast x L : x ∈ removelast L -> x ∈ L.
Proof.
  induction L as [|y L IH]; [done|]. destruct L as [|z L]; [by intros ?%not_elem_of_nil|].
  change (removelast (y :: z :: L)) with (y :: removelast (z :: L)). set_solver.
Qed.

Lemma removelast_mid L1 L2 a : removelast (L1 ++ a :: L2) = L1 ++ removelast (a :: L2).
Proof. apply removelast_app. done. Qed.

Lemma cyc_facts L1 a b L2 :
  cyc (L1 ++ a :: b :: L2) ->
  a ∉ L1 /\ a ∉ removelast (b :: L2) /\ b ∉ tail (L1 ++ [a]) /\ b ∉ L2.
Proof.
  intros [H1 H2]. rewrite removelast_mid in H1. change (removelast (a :: b :: L2))
    with (a :: removelast (b :: L2)) in H1.
  apply NoDup_app in H1 as (_ & Hd & H1). apply NoDup_cons in H1 as [H1 _].
  assert (Ht : tail (L1 ++ a :: b :: L2) = tail (L1 ++ [a]) ++ b :: L2).
  { destruct L1; [done|]. simpl. by rewrite <- app_assoc. }
  rewrite Ht in H2. apply NoDup_app in H2 as (_ & Hd2 & H2). apply NoDup_cons in H2 as [H2 _].
  split; [|split; [done|split; [|done]]].
  - intros Ha. apply (Hd a Ha). by left.
  - intros Hb. apply (Hd2 b Hb). by left.
Qed.

Definition link4 h a b node : option dheap :=
  h1 ← set_prev h b node;
  h2 ← set_next h1 node b;
  h3 ← set_prev h2 node a;
  set_next h3 a node.

Definition frame_outside (L : list loc) (h h' : dheap) : Prop :=
  dom h' = dom h /\ forall x, x ∉ L -> h' !! x = h !! x.

Lemma link4_ok h L1 a b L2 node :
  cyc (L1 ++ a :: b :: L2) -> linked h (L1 ++ a :: b :: L2) ->
  is_Some (h !! node) -> node ∉ L1 ++ a :: b :: L2 ->
  exists h', link4 h a b node = Some h' /\ linked h' (L1 ++ a :: node :: b :: L2) /\
    frame_outside (node :: a :: [b]) h h'.
Proof.
  intros Hc Hl Hnode Hni. destruct (cyc_facts _ _ _ _ Hc) as (Ha1 & Ha2 & Hb1 & Hb2).
  rewrite (linked_split h L1 a) in Hl. destruct Hl as [Hl1 (Hab & Hba & Hl2)].
  pose proof (get_next_some _ _ _ Hab) as Ha. pose proof (get_prev_some _ _ _ Hba) as Hb.
  unfold link4.
  destruct (set_prev_spec h b node Hb) as (h1 & -> & D1 & P1 & N1 & F1). cbn [mbind option_bind].
  destruct (set_next_spec h1 node b) as (h2 & -> & D2 & N2 & P2 & F2);
    [by eapply is_Some_dom_eq|]. cbn [mbind option_bind].
  destruct (set_prev_spec h2 node a) as (h3 & -> & D3 & P3 & N3 & F3);
    [eapply is_Some_dom_eq; [|exact Hnode]; congruence|]. cbn [mbind option_bind].
  destruct (set_next_spec h3 a node) as (h4 & -> & D4 & N4 & P4 & F4);
    [eapply is_Some_dom_eq; [|exact Ha]; congruence|].
  exists h4. split; [done|].
  assert (N : forall x, get_next h4 x = if decide (x = a) then Some node
                        else if decide (x = node) then Some b else get_next h x).
  { intros x. by rewrite N4, N3, N2, N1. }
  assert (P : forall x, get_prev h4 x = if decide (x = node) then Some a
                        else if decide (x = b) then Some node else get_prev h x).
  { intros x. by rewrite P4, P3, P2, P1. }
  assert (Hna : node <> a /\ node <> b) by set_solver. destruct Hna as [Hna Hnb].
  split.
  - apply linked_split. split.
    + apply (linked_frame h); [| |done].
      * intros x Hx. rewrite removelast_last in Hx. rewrite N, !decide_False; [done|set_solver..].
      * intros x Hx. rewrite P.
        assert (Hx' : x ∈ L1 ++ [a]) by (destruct L1; [by apply not_elem_of_nil in Hx|by right]).
        rewrite !decide_False; [done|set_solver..].
    + rewrite !linked_cons2, !N, !P.
      split; [by rewrite decide_True|]. split; [by rewrite decide_True|].
      split; [by rewrite decide_False, decide_True|].
      split; [by rewrite decide_False, decide_True|].
      apply (linked_frame h); [| |done].
      * intros x Hx. rewrite N, !decide_False; [done| |set_solver].
        apply elem_of_removelast in Hx. set_solver.
      * intros x Hx. simpl in Hx. rewrite P, !decide_False; [done|set_solver..].
  - split; [congruence|]. intros x Hx.
    rewrite F4, F3, F2, F1; [done|set_solver..].
Qed.

Definition unlink2 h a b : option dheap := h1 ← set_prev h b a; set_next h1 a b.

Lemma unlink2_ok h L1 a e b L2 :
  cyc (L1 ++ a :: e :: b :: L2) -> linked h (L1 ++ a :: e :: b :: L2) ->
  exists h', unlink2 h a b = Some h' /\ linked h' (L1 ++ a :: b :: L2) /\
    frame_outside (a :: [b]) h h'.
Proof.
  intros Hc Hl. destruct (cyc_facts _ _ _ _ Hc) as (Ha1 & Ha2 & _ & _).
  assert (Hc' : cyc ((L1 ++ [a]) ++ e :: b :: L2)) by (by rewrite <- app_assoc).
  destruct (cyc_facts _ _ _ _ Hc') as (_ & _ & Hb1 & Hb2).
  rewrite (linked_split h L1 a) in Hl. destruct Hl as [Hl1 (Hae & Hea & Heb & Hbe & Hl2)].
  pose proof (get_next_some _ _ _ Hae) as Ha. pose proof (get_prev_some _ _ _ Hbe) as Hb.
  unfold unlink2.
  destruct (set_prev_spec h b a Hb) as (h1 & -> & D1 & P1 & N1 & F1). cbn [mbind option_bind].
  destruct (set_next_spec h1 a b) as (h2 & -> & D2 & N2 & P2 & F2); [by eapply is_Some_dom_eq|].
  exists h2. split; [done|]. split; [|split; [congruence|]].
  - apply linked_split. split.
    + apply (linked_frame h); [| |done].
      * intros x Hx. rewrite removelast_last in Hx. rewrite N2, decide_False; [done|set_solver].
      * intros x Hx. rewrite P2, P1, decide_False; [done|]. intros ->. apply Hb1.
        destruct L1; simpl in *; [by apply not_elem_of_nil in Hx|set_solver].
    + rewrite linked_cons2. rewrite N2, P2, P1. rewrite !decide_True by done.
      split; [done|]. split; [done|]. apply (linked_frame h); [| |done].
      * intros x Hx. rewrite N2, decide_False; [done|].
        change (removelast (e :: b :: L2)) with (e :: removelast (b :: L2)) in Ha2. set_solver.
      * intros x Hx. simpl in Hx. rewrite P2, P1, decide_False; [done|set_solver].
  - intros x Hx. rewrite F2, F1; [done|set_solver..].
Qed.

(** The neighbours of a position of the cycle. *)
Lemma cycle_position hd xs1 xs2 :
  exists L1 a b L2, hd :: xs1 = L1 ++ [a] /\ xs2 ++ [hd] = b :: L2.
Proof.
  destruct (exists_last (l := hd :: xs1)) as (L1 & a & E1); [done|].
  exists L1, a. destruct xs2 as [|b xs2]; [exists hd, []|exists b, (xs2 ++ [hd])]; done.
Qed.

Lemma is_dlist_next h hd xs : is_dlist h hd xs -> get_next h hd = Some (default hd (head xs)).
Proof. intros [_ Hl]. destruct xs; apply Hl. Qed.

Lemma is_dlist_prev h hd xs : is_dlist h hd xs -> get_prev h hd = Some (default hd (last xs)).
Proof.
  intros [_ Hl]. destruct xs as [|x xs _] using rev_ind; [apply Hl|].
  rewrite last_snoc. simpl. rewrite <- app_assoc, app_comm_cons in Hl.
  apply linked_split in Hl as [_ Hl]. apply Hl.
Qed.

Lemma insert_at h hd xs1 xs2 node L1 a b L2 :
  is_dlist h hd (xs1 ++ xs2) -> is_Some (h !! node) -> node ∉ hd :: xs1 ++ xs2 ->
  hd :: xs1 = L1 ++ [a] -> xs2 ++ [hd] = b :: L2 ->
  exists h', link4 h a b node = Some h' /\ is_dlist h' hd (xs1 ++ node :: xs2) /\
    frame_outside (node :: hd :: xs1 ++ xs2) h h'.
Proof.
  intros Hl Hnode Hni E1 E2. pose proof (is_dlist_cyc _ _ _ Hl) as Hc.
  assert (EL : hd :: (xs1 ++ xs2) ++ [hd] = L1 ++ a :: b :: L2).
  { rewrite <- E2, <- app_assoc, app_comm_cons, E1. by rewrite <- app_assoc. }
  destruct Hl as [Hnd Hl]. rewrite EL in *.
  destruct (link4_ok h L1 a b L2 node) as (h' & E & Hl' & Hf); [done..| |].
  { rewrite <- EL. set_solver. }
  exists h'. split; [done|]. split.
  - split.
    + apply NoDup_cons in Hnd as [H1 H2]. apply NoDup_app in H2 as (H2 & H3 & H4).
      constructor; [set_solver|]. apply NoDup_app. split; [done|]. split; [set_solver|].
      constructor; [set_solver|done].
    + assert (EL' : hd :: (xs1 ++ node :: xs2) ++ [hd] = L1 ++ a :: node :: b :: L2).
      { rewrite <- E2, <- app_assoc, app_comm_cons, E1. by rewrite <- app_assoc. }
      by rewrite EL'.
  - destruct Hf as [Hd Hf]. split; [done|]. intros x Hx. apply Hf.
    assert (Ha : a ∈ hd :: xs1) by (rewrite E1; set_solver).
    assert (Hb : b ∈ xs2 ++ [hd]) by (rewrite E2; set_solver). set_solver.
Qed.

Lemma list_add_ok h hd xs node :
  is_dlist h hd xs -> is_Some (h !! node) -> node ∉ hd :: xs ->
  exists h', list_add h node hd = Some h' /\ is_dlist h' hd (node :: xs) /\
    frame_outside (node :: hd :: xs) h h'.
Proof.
  intros Hl Hnode Hni. destruct (cycle_position hd [] xs) as (L1 & a & b & L2 & E1 & E2).
  destruct (insert_at h hd [] xs node [] hd b L2) as (h' & E & ?); [done..|].
  exists h'. split; [|done]. unfold list_add. rewrite (is_dlist_next _ _ _ Hl).
  replace (default hd (head xs)) with b by (by destruct xs; simpl in E2; injection E2).
  exact E.
Qed.

Lemma list_add_tail_ok h hd xs node :
  is_dlist h hd xs -> is_Some (h !! node) -> node ∉ hd :: xs ->
  exists h', list_add_tail h node hd = Some h' /\ is_dlist h' hd (xs ++ [node]) /\
    frame_outside (node :: hd :: xs) h h'.
Proof.
  intros Hl Hnode Hni. destruct (exists_last (l := hd :: xs)) as (L1 & a & E1); [done|].
  destruct (insert_at h hd xs [] node L1 a hd []) as (h' & E & Hd' & Hf);
    rewrite ?app_nil_r in *; [done..|].
  exists h'. split; [|done]. unfold list_add_tail. rewrite (is_dlist_prev _ _ _ Hl).
  replace (default hd (last xs)) with a; [exact E|].
  assert (Hlast : last (hd :: xs) = Some a) by (rewrite E1; apply last_snoc).
  rewrite last_cons in Hlast. by destruct (last xs); injection Hlast.
Qed.

Lemma list_del_ok h hd xs1 e xs2 :
  is_dlist h hd (xs1 ++ e :: xs2) ->
  exists h', list_del h e = Some h' /\ is_dlist h' hd (xs1 ++ xs2) /\
    frame_outside (hd :: xs1 ++ xs2) h h'.
Proof.
  intros Hl. pose proof (is_dlist_cyc _ _ _ Hl) as Hc.
  destruct (cycle_position hd xs1 xs2) as (L1 & a & b & L2 & E1 & E2).
  assert (EL : hd :: (xs1 ++ e :: xs2) ++ [hd] = L1 ++ a :: e :: b :: L2).
  { rewrite <- E2, <- app_assoc, app_comm_cons, E1. by rewrite <- app_assoc. }
  destruct Hl as [Hnd Hl]. rewrite EL in *.
  assert (Hprev : get_prev h e = Some a) by (apply linked_split in Hl as [_ Hl]; apply Hl).
  assert (Hnext : get_next h e = Some b) by (apply linked_split in Hl as [_ Hl]; apply Hl).
  destruct (unlink2_ok h L1 a e b L2) as (h' & E & Hl' & Hf); [done..|].
  exists h'. split; [|split; [split|]].
  - unfold list_del. rewrite Hprev, Hnext. exact E.
  - apply NoDup_cons in Hnd as [H1 H2]. apply NoDup_app in H2 as (H2 & H3 & H4).
    apply NoDup_cons in H4 as [H4 H5].
    constructor; [set_solver|]. apply NoDup_app. split; [done|]. split; [set_solver|done].
  - assert (EL' : hd :: (xs1 ++ xs2) ++ [hd] = L1 ++ a :: b :: L2).
    { rewrite <- E2, <- app_assoc, app_comm_cons, E1. by rewrite <- app_assoc. }
    by rewrite EL'.
  - destruct Hf as [Hd Hf]. split; [done|]. intros x Hx. apply Hf.
    assert (Ha : a ∈ hd :: xs1) by (rewrite E1; set_solver).
    assert (Hb : b ∈ xs2 ++ [hd]) by (rewrite E2; set_solver). set_solver.
Qed.
End cycle.

(** ** The remaining operations and the refinement theorem *)
Section operations.
Implicit Types (h : dheap) (a b x hd node e : loc) (xs ys L : list loc).

Lemma init_dlist_head_ok h p :
  is_Some (h !! p) ->
  exists h', INIT_DLIST_HEAD h p = Some h' /\ is_dlist h' p [] /\ frame_outside [p] h h'.
Proof.
  intros Hp. unfold INIT_DLIST_HEAD.
  destruct (set_next_spec h p p Hp) as (h1 & -> & D1 & N1 & P1 & F1). cbn [mbind option_bind].
  destruct (set_prev_spec h1 p p) as (h2 & -> & D2 & P2 & N2 & F2); [by eapply is_Some_dom_eq|].
  exists h2. split; [done|]. split; [split; [apply NoDup_singleton|]|].
  - simpl. rewrite N2, N1, P2, !decide_True by done. done.
  - split; [congruence|]. intros x Hx. rewrite F2, F1; [done|set_solver..].
Qed.

Lemma is_dlist_frame h h' hd xs :
  (forall x, x ∈ hd :: xs -> h' !! x = h !! x) -> is_dlist h hd xs -> is_dlist h' hd xs.
Proof.
  intros Hf [Hnd Hl]. split; [done|].
  apply (linked_frame h); [| |done]; intros x Hx; unfold get_next, get_prev; rewrite Hf; try done.
  - change (hd :: xs ++ [hd]) with ((hd :: xs) ++ [hd]) in Hx. by rewrite removelast_last in Hx.
  - simpl in Hx. set_solver.
Qed.

Lemma list_del_init_ok h hd xs1 e xs2 :
  is_dlist h hd (xs1 ++ e :: xs2) ->
  exists h', list_del_init h e = Some h' /\ is_dlist h' hd (xs1 ++ xs2) /\ is_dlist h' e [] /\
    frame_outside (hd :: xs1 ++ e :: xs2) h h'.
Proof.
  intros Hl. assert (He : is_Some (h !! e)).
  { destruct Hl as [_ Hl]. rewrite <- app_assoc, app_comm_cons in Hl.
    change ((e :: xs2) ++ [hd]) with (e :: (xs2 ++ [hd])) in Hl.
    apply linked_split in Hl as [_ Hl].
    destruct (cycle_position hd [] xs2) as (L1 & a & b & L2 & _ & E). rewrite E in Hl.
    destruct Hl as [Hn _]. by eapply get_next_some. }
  destruct (list_del_ok _ _ _ _ _ Hl) as (h1 & E1 & Hl1 & D1 & F1).
  destruct (init_dlist_head_ok h1 e) as (h2 & E2 & Hl2 & D2 & F2); [by eapply is_Some_dom_eq|].
  exists h2. unfold list_del_init. rewrite E1. split; [exact E2|]. split; [|split; [done|]].
  - apply (is_dlist_frame h1); [|done]. intros x Hx. apply F2.
    destruct Hl as [Hnd _]. apply NoDup_cons in Hnd as [H1 H2].
    apply NoDup_app in H2 as (_ & H3 & H4). apply NoDup_cons in H4 as [H4 _]. set_solver.
  - split; [congruence|]. intros x Hx. rewrite F2, F1; [done|set_solver..].
Qed.

Lemma is_dlist_length h hd xs : is_dlist h hd xs -> (length xs < size h)%nat.
Proof.
  intros Hl. pose proof Hl as [Hnd Hlk].
  assert (Hsub : forall L q, linked h (L ++ [q]) -> forall x, x ∈ L -> is_Some (h !! x)).
  { induction L as [|y L IH]; intros q Hq x Hx; [by apply not_elem_of_nil in Hx|].
    destruct L as [|z L].
    - apply list_elem_of_singleton in Hx. subst. simpl in Hq. eapply get_next_some, Hq.
    - apply elem_of_cons in Hx as [->|Hx].
      + simpl in Hq. eapply get_next_some, Hq.
      + apply (IH q); [|done]. apply Hq. }
  assert (H : (length (hd :: xs) <= size h)%nat); [|simpl in H; lia].
  rewrite <- (size_dom (D := gset loc) h).
  rewrite <- (size_list_to_set (C := gset loc) _ Hnd). apply subseteq_size.
  intros x Hx%elem_of_list_to_set. apply elem_of_dom. by apply (Hsub (hd :: xs) hd).
Qed.

Lemma list_len_loop_ok fuel h hd a xs c :
  linked h (a :: xs ++ [hd]) -> hd ∉ xs -> (length xs < fuel)%nat ->
  (p ← get_next h a; list_len_loop fuel h p hd c) = Some (c + Z.of_nat (length xs)).
Proof.
  revert fuel a c. induction xs as [|x xs IH]; intros fuel a c (Hn & _ & Hl) Hni Hf;
    rewrite Hn; cbn [mbind option_bind]; (destruct fuel as [|fuel]; [simpl in *; lia|]);
    unfold list_len_loop; fold list_len_loop.
  - rewrite bool_decide_eq_true_2 by done. f_equal. simpl. lia.
  - rewrite bool_decide_eq_false_2 by set_solver. rewrite IH; [f_equal; simpl; lia|done| |].
    + set_solver.
    + simpl in Hf. lia.
Qed.

Lemma list_splice_ok h l hd xs ys :
  is_dlist h hd xs -> is_dlist h l ys -> l :: ys ## hd :: xs ->
  exists h', list_splice h l hd = Some h' /\ is_dlist h' hd (ys ++ xs) /\
    frame_outside (hd :: ys ++ xs) h h'.
Proof.
  intros Hxs Hys Hdis. unfold list_splice. rewrite (is_dlist_next _ _ _ Hys).
  cbn [mbind option_bind]. destruct ys as [|y ys0].
  { simpl. rewrite bool_decide_eq_true_2 by done. exists h. split; [done|]. by split. }
  assert (Hly : l <> y) by (destruct Hys as [Hnd _]; apply NoDup_cons in Hnd; set_solver).
  cbn [head default option_rect from_option]. rewrite bool_decide_eq_false_2 by done.
  destruct (exists_last (l := y :: ys0)) as (zs & z & Ez); [done|]. rewrite Ez in *.
  rewrite (is_dlist_prev _ _ _ Hys), last_snoc, (is_dlist_next _ _ _ Hxs).
  cbn [mbind option_bind from_option].
  destruct (cycle_position hd [] xs) as (L0 & a0 & b & L2 & _ & E2).
  replace (default hd (head xs)) with b by (by destruct xs; simpl in E2; injection E2).
  destruct Hxs as [Hnx Hlx]. destruct Hys as [Hny Hly2]. rewrite E2 in Hlx.
  destruct Hlx as (Hhb & Hbh & Hlx).
  rewrite <- app_assoc, app_comm_cons in Hly2. apply linked_split in Hly2 as [Hly2 Hzl].
  rewrite <- app_comm_cons, <- Ez in Hly2. destruct Hly2 as (Hl1 & Hl2 & Hly2).
  simpl in Hzl. destruct Hzl as (Hzn & Hzp & _).
  cbn [id].
  destruct (set_prev_spec h y hd) as (h1 & -> & D1 & P1 & N1 & F1); [by eapply get_prev_some|].
  cbn [mbind option_bind].
  destruct (set_next_spec h1 hd y) as (h2 & -> & D2 & N2 & P2 & F2);
    [eapply is_Some_dom_eq; [exact D1|]; by eapply get_next_some|]. cbn [mbind option_bind].
  destruct (set_next_spec h2 z b) as (h3 & -> & D3 & N3 & P3 & F3);
    [eapply is_Some_dom_eq; [rewrite D2; exact D1|]; by eapply get_next_some|]. cbn [mbind option_bind].
  destruct (set_prev_spec h3 b z) as (h4 & -> & D4 & P4 & N4 & F4);
    [eapply is_Some_dom_eq; [rewrite D3, D2; exact D1|]; by eapply get_prev_some|].
  exists h4. split; [done|].
  assert (N : forall x, get_next h4 x = if decide (x = z) then Some b
                        else if decide (x = hd) then Some y else get_next h x).
  { intros x. by rewrite N4, N3, N2, N1. }
  assert (P : forall x, get_prev h4 x = if decide (x = b) then Some z
                        else if decide (x = y) then Some hd else get_prev h x).
  { intros x. by rewrite P4, P3, P2, P1. }
  assert (Hbx : b ∈ hd :: xs) by (assert (b ∈ xs ++ [hd]) by (rewrite E2; set_solver); set_solver).
  assert (Hyy : y ∈ zs ++ [z]) by (rewrite <- Ez; set_solver).
  apply NoDup_cons in Hny as [Hny1 Hny2]. apply NoDup_cons in Hnx as [Hnx1 Hnx2].
  split; [split|].
  - constructor; [set_solver|]. apply NoDup_app. split; [done|]. split; [set_solver|done].
  - assert (EL : hd :: ((zs ++ [z]) ++ xs) ++ [hd] = hd :: zs ++ z :: b :: L2).
    { rewrite <- E2. by rewrite <- !app_assoc. }
    rewrite EL. change (hd :: zs ++ z :: b :: L2) with ((hd :: zs) ++ z :: b :: L2).
    apply linked_split. split.
    + change ((hd :: zs) ++ [z]) with (hd :: zs ++ [z]). rewrite <- Ez, linked_cons2.
      rewrite N, P. rewrite decide_False, decide_True by set_solver.
      rewrite decide_False, decide_True by set_solver. split; [done|]. split; [done|].
      rewrite Ez. apply (linked_frame h); [| |by rewrite <- Ez].
      * intros x Hx. rewrite removelast_last in Hx. apply NoDup_app in Hny2 as (_ & Hz & _).
        rewrite N, !decide_False; [done|set_solver..].
      * intros x Hx. rewrite <- Ez in Hx, Hny2. simpl in Hx.
        apply NoDup_cons in Hny2 as [Hy _].
        assert (Hxz : x ∈ zs ++ [z]) by (rewrite <- Ez; set_solver).
        rewrite P, !decide_False; [done|set_solver..].
    + rewrite linked_cons2, N, P, !decide_True by done. split; [done|]. split; [done|].
      rewrite <- E2. apply (linked_frame h); [| |by rewrite E2].
      * intros x Hx. rewrite removelast_last in Hx. rewrite N, !decide_False; [done|set_solver..].
      * intros x Hx. rewrite E2 in Hx. simpl in Hx.
        assert (Hb2 : b ∉ L2).
        { assert (Hn : NoDup (b :: L2)).
          { rewrite <- E2. apply NoDup_app. split; [done|]. split; [set_solver|].
            apply NoDup_singleton. }
          by apply NoDup_cons in Hn as [? _]. }
        assert (Hx2 : x ∈ xs ++ [hd]) by (rewrite E2; set_solver).
        rewrite P, !decide_False; [done|set_solver..].
  - split; [congruence|]. intros x Hx. rewrite F4, F3, F2, F1; [done|set_solver..].
Qed.
End operations.

(** The operations on one list, as calls. *)
Module Ops.
Inductive op := Add (node : loc) | AddTail (node : loc) | Del (e : loc) | DelInit (e : loc)
              | Empty | Len.
Inductive out := Unit | Num (n : Z).

Definition step (xs : list loc) (o : op) : out * list loc :=
  match o with
  | Add n => (Unit, n :: xs)
  | AddTail n => (Unit, xs ++ [n])
  | Del e | DelInit e => (Unit, filter (fun y => y <> e) xs)
  | Empty => (Num (if decide (xs = []) then 1 else 0), xs)
  | Len => (Num (Z.of_nat (length xs)), xs)
  end.

Definition pre (h : dheap) (hd : loc) (xs : list loc) (o : op) : Prop :=
  match o with
  | Add n | AddTail n => is_Some (h !! n) /\ n ∉ hd :: xs
  | Del e | DelInit e => e ∈ xs
  | _ => True
  end.
End Ops.

Definition run (h : dheap) (hd : loc) (o : Ops.op) : option (Ops.out * dheap) :=
  match o with
  | Ops.Add n => h' ← list_add h n hd; Some (Ops.Unit, h')
  | Ops.AddTail n => h' ← list_add_tail h n hd; Some (Ops.Unit, h')
  | Ops.Del e => h' ← list_del h e; Some (Ops.Unit, h')
  | Ops.DelInit e => h' ← list_del_init h e; Some (Ops.Unit, h')
  | Ops.Empty => b ← list_empty h hd; Some (Ops.Num (if b : bool then 1 else 0), h)
  | Ops.Len => n ← list_len h hd; Some (Ops.Num n, h)
  end.


(** A head (1) with one element (2) and a spare cell (3). *)
Definition demo_dheap : dheap :=
  <[1%positive := ListHead 2 2]> (<[2%positive := ListHead 1 1]> (<[3%positive := ListHead 3 3]> ∅)).

