(* ===== verification/Flash.v ===== *)
(** * The NOR flash interface

    What the flash drivers promise to their clients: [FlashDev] is the
    read/program/erase interface (the ROM's [rom_flash_*] functions, or the
    [raw_flash_*] functions built on them), [FlashLaws] its laws and
    [FlashReliable] that in-range calls succeed.  Programming can only clear
    bits, erasing a sector sets every byte to 0xFF.  [Nor] is a concrete device
    used to show that the laws can hold and to run examples. *)
From S2P Require Import Prelude.

Definition SPI_FLASH_SEC_SIZE : Z := 4096.

Definition sector_range (a n : Z) : Prop :=
  a mod SPI_FLASH_SEC_SIZE = 0 /\ n mod SPI_FLASH_SEC_SIZE = 0.

(** Return code 0 is success.  [cell d x] is the byte stored at offset [x]. *)
Class FlashDev (D : Type) := {
  flash_read : D -> Z -> Z -> Z * bytes;
  flash_write : D -> Z -> bytes -> Z * D;
  flash_erase : D -> Z -> Z -> Z * D;
  cell : D -> Z -> Z;
}.

(** The bytes of a range of a device. *)
Definition cells {D} `{FlashDev D} (d : D) (a : Z) (n : nat) : bytes :=
  (fun i => cell d (a + Z.of_nat i)) <$> seq 0 n.

(** Byte [x] after programming [bs] at [a]. *)
Definition programmed (f : Z -> Z) (a : Z) (bs : bytes) (x : Z) : Z :=
  if decide (a <= x < a + Z.of_nat (length bs))
  then Z.land (f x) (nth (Z.to_nat (x - a)) bs 0) else f x.

Definition erased (f : Z -> Z) (a n x : Z) : Z := if decide (a <= x < a + n) then 0xFF else f x.

Lemma programmed_app f a bs1 bs2 x :
  programmed f a (bs1 ++ bs2) x =
  programmed (programmed f a bs1) (a + Z.of_nat (length bs1)) bs2 x.
Proof.
  unfold programmed. rewrite length_app.
  destruct (decide (a <= x < a + Z.of_nat (length bs1))).
  - rewrite decide_True by lia. rewrite decide_False by lia. rewrite app_nth1 by lia. done.
  - destruct (decide (a <= x < a + Z.of_nat (length bs1 + length bs2))).
    + rewrite decide_True by lia. rewrite app_nth2 by lia. f_equal. f_equal. lia.
    + by rewrite decide_False by lia.
Qed.

Lemma programmed_ext f g a bs x : f x = g x -> programmed f a bs x = programmed g a bs x.
Proof. unfold programmed. intros ->. done. Qed.


Class FlashLaws (D : Type) `{FlashDev D} : Prop := {
  cell_u8 (d : D) x : is_u8 (cell d x);
  read_cells (d : D) a n bs :
    0 <= n -> flash_read d a n = (0, bs) -> bs = cells d a (Z.to_nat n);
  write_cells (d d' : D) a bs x :
    flash_write d a bs = (0, d') -> cell d' x = programmed (cell d) a bs x;
  erase_cells (d d' : D) a n x :
    sector_range a n -> flash_erase d a n = (0, d') -> cell d' x = erased (cell d) a n x;
}.

(** Calls inside [0, size) succeed. *)
Class FlashReliable (D : Type) (size : Z) `{FlashDev D} : Prop := {
  read_ok (d : D) a n : 0 <= a -> 0 < n -> a + n <= size -> (flash_read d a n).1 = 0;
  write_ok (d : D) a bs :
    0 <= a -> bs <> [] -> a + Z.of_nat (length bs) <= size -> (flash_write d a bs).1 = 0;
  erase_ok (d : D) a n : 0 <= a -> 0 < n -> a + n <= size -> (flash_erase d a n).1 = 0;
}.

Section cells.
Context {D : Type} `{FlashDev D}.
Implicit Types (d : D) (a x : Z) (bs : bytes).

Lemma length_cells d a n : length (cells d a n) = n.
Proof. unfold cells. by rewrite length_fmap, length_seq. Qed.

Lemma cells_lookup d a n i :
  (i < n)%nat -> cells d a n !! i = Some (cell d (a + Z.of_nat i)).
Proof. intros Hi. unfold cells. by rewrite list_lookup_fmap, lookup_seq_lt. Qed.

Lemma cells_ext d d' a a' n :
  (forall i, (i < n)%nat -> cell d (a + Z.of_nat i) = cell d' (a' + Z.of_nat i)) ->
  cells d a n = cells d' a' n.
Proof.
  intros E. unfold cells. apply list_fmap_ext. intros i x Hx.
  apply lookup_seq in Hx as [-> Hi]. by apply E.
Qed.

Lemma cells_app d a n m : cells d a (n + m) = cells d a n ++ cells d (a + Z.of_nat n) m.
Proof.
  unfold cells. rewrite seq_app, fmap_app. f_equal. simpl.
  rewrite <- (Nat.add_0_r n) at 1. rewrite <- fmap_add_seq, <- list_fmap_compose.
  apply list_fmap_ext. intros i x _. simpl. f_equal. lia.
Qed.

Lemma cells_ok `{!FlashLaws D} d a n : bytes_ok (cells d a n).
Proof.
  apply Forall_forall. intros x (i & -> & _)%list_elem_of_fmap. apply cell_u8.
Qed.

(** Programming a range that reads 0xFF stores the data itself. *)
Lemma program_erased `{!FlashLaws D} d d' a bs :
  bytes_ok bs -> (forall i, (i < length bs)%nat -> cell d (a + Z.of_nat i) = 0xFF) ->
  flash_write d a bs = (0, d') -> cells d' a (length bs) = bs.
Proof.
  intros Hbs Hff Hw. apply list_eq. intros i.
  destruct (decide (i < length bs)%nat) as [Hi|Hi].
  - rewrite cells_lookup by done. rewrite (write_cells _ _ _ _ _ Hw). unfold programmed.
    rewrite decide_True by lia. rewrite Hff by done.
    replace (Z.to_nat (a + Z.of_nat i - a)) with i by lia.
    destruct (lookup_lt_is_Some_2 bs i Hi) as [b Hb].
    rewrite nth_lookup, Hb. simpl. f_equal. rewrite Z.land_comm.
    change 255 with (Z.ones 8). rewrite Z.land_ones by lia.
    apply Z.mod_small. rewrite Forall_forall in Hbs. apply Hbs. by eapply list_elem_of_lookup_2.
  - rewrite !lookup_ge_None_2; [done|lia|]. rewrite length_cells. lia.
Qed.

(** Programming leaves disjoint ranges alone. *)
Lemma cells_write_other `{!FlashLaws D} d d' a bs b n :
  flash_write d a bs = (0, d') ->
  b + Z.of_nat n <= a \/ a + Z.of_nat (length bs) <= b -> cells d' b n = cells d b n.
Proof.
  intros Hw Hor. apply cells_ext. intros i Hi. rewrite (write_cells _ _ _ _ _ Hw).
  unfold programmed. by rewrite decide_False by lia.
Qed.

Lemma cells_erase_other `{!FlashLaws D} d d' a m b n :
  sector_range a m -> flash_erase d a m = (0, d') ->
  b + Z.of_nat n <= a \/ a + m <= b -> cells d' b n = cells d b n.
Proof.
  intros Hs He Hor. apply cells_ext. intros i Hi. rewrite (erase_cells _ _ _ _ _ Hs He).
  unfold erased. by rewrite decide_False by lia.
Qed.
End cells.

(** ** A concrete device of [size] bytes *)
Module Nor.
Abbreviation nor := (gmap Z Z).

Definition get (d : nor) (x : Z) : Z := u8 (default 0xFF (d !! x)).

Fixpoint program (d : nor) (a : Z) (bs : bytes) : nor :=
  match bs with
  | [] => d
  | b :: bs => program (<[a := Z.land (get d a) b]> d) (a + 1) bs
  end.

Fixpoint wipe (d : nor) (a : Z) (n : nat) : nor :=
  match n with
  | O => d
  | S n => wipe (delete a d) (a + 1) n
  end.

Section device.
Context (size : Z).

Definition in_range (a n : Z) : bool := (0 <=? a) && (a + n <=? size).

Definition read (d : nor) (a n : Z) : Z * bytes :=
  if in_range a n then (0, (fun i => get d (a + Z.of_nat i)) <$> seq 0 (Z.to_nat n)) else (-1, []).
Definition write (d : nor) (a : Z) (bs : bytes) : Z * nor :=
  if in_range a (Z.of_nat (length bs)) then (0, program d a bs) else (-1, d).
Definition erase (d : nor) (a n : Z) : Z * nor :=
  if in_range a n then (0, wipe d a (Z.to_nat n)) else (-1, d).

#[local] Instance nor_dev : FlashDev nor := {
  flash_read := read; flash_write := write; flash_erase := erase; cell := get }.

Lemma get_program (d : nor) (a x : Z) (bs : bytes) :
  get (program d a bs) x = programmed (get d) a bs x.
Proof.
  revert d a. induction bs as [|b bs IH]; intros d a; simpl; unfold programmed in *; simpl.
  - by rewrite decide_False by lia.
  - rewrite IH. destruct (decide (x = a)) as [->|Hne].
    + rewrite decide_False by lia. rewrite decide_True by lia.
      rewrite Z.sub_diag. simpl. unfold get. rewrite lookup_insert_eq. simpl.
      set (y := default 255 (d !! a)). unfold u8. bits_eq i Hi.
      destruct (Z.lt_ge_cases i 8).
      * by rewrite Z.mod_pow2_bits_low, !Z.land_spec, Z.mod_pow2_bits_low by lia.
      * by rewrite Z.mod_pow2_bits_high, Z.land_spec, Z.mod_pow2_bits_high by lia.
    + assert (E : get (<[a := Z.land (get d a) b]> d) x = get d x).
      { unfold get. by rewrite lookup_insert_ne by done. }
      rewrite E. repeat case_decide; try lia; try done.
      replace (Z.to_nat (x - a)) with (S (Z.to_nat (x - (a + 1)))) by lia. done.
Qed.

Lemma get_wipe (d : nor) (a x : Z) (n : nat) :
  get (wipe d a n) x = erased (get d) a (Z.of_nat n) x.
Proof.
  revert d a. induction n as [|n IH]; intros d a; simpl; unfold erased in *.
  - by rewrite decide_False by lia.
  - rewrite IH. destruct (decide (x = a)) as [->|Hne].
    + rewrite decide_False, decide_True by lia. unfold get. by rewrite lookup_delete_eq.
    + assert (E : get (delete a d) x = get d x).
      { unfold get. by rewrite lookup_delete_ne by done. }
      rewrite E. repeat case_decide; try lia; done.
Qed.

#[local] Instance nor_laws : FlashLaws nor.
Proof.
  split; simpl.
  - intros d x. apply u8_range.
  - intros d a n bs Hn. unfold read. destruct (in_range a n); [|done]. by intros [= <-].
  - intros d d' a bs x. unfold write. destruct (in_range _ _); [|done]. intros [= <-].
    apply get_program.
  - intros d d' a n x _. unfold erase. unfold in_range.
    destruct (Z.leb_spec 0 a), (Z.leb_spec (a + n) size); simpl; try done. intros [= <-].
    rewrite get_wipe. unfold erased. by repeat case_decide; try lia.
Qed.

#[local] Instance nor_reliable : FlashReliable nor size.
Proof.
  split; simpl; intros; unfold read, write, erase, in_range;
    by rewrite (proj2 (Z.leb_le _ _)), (proj2 (Z.leb_le _ _)) by lia.
Qed.
End device.
End Nor.
