(* ===== verification/RawFlash.v ===== *)
(** * The raw flash driver of [MSDK/plf/src/raw_flash/raw_flash_api.c]

    Bounds checks, reads with the image-offset mapping suspended, writes,
    erases bracketed by the registered callbacks, and the word-programming
    fast path.  The ROM routines and the flash controller are the class [Fmc],
    an extension of [FlashDev].  A driver state is itself a [FlashDev] that
    satisfies the laws, which is what the wear-levelling layer and the NVDS
    build on. *)
From S2P Require Import Prelude Flash.

Definition FLASH_BASE : Z := 0x08000000.
Definition FLASH_TOTAL_SIZE : Z := 0x400000.
Definition FMC_READY : Z := 0.

(** The controller: [mapped_read ofvr] is the ROM read while the offset value
    register holds [ofvr]; [ready_wait] polls the busy flag; [program_word]
    stores one word through the memory-mapped window at a flash offset. *)
Class Fmc (D : Type) `{FlashDev D} := {
  mapped_read : D -> Z -> Z -> Z -> Z * bytes;
  ready_wait : D -> Z;
  program_word : D -> Z -> bytes -> D;
}.

Class FmcLaws (D : Type) `{Fmc D} : Prop := {
  mapped_read_0 (d : D) v a n : v <= 0 -> mapped_read d v a n = flash_read d a n;
  program_word_cells (d : D) a bs x : cell (program_word d a bs) x = programmed (cell d) a bs x;
  program_word_ready (d : D) a bs : ready_wait (program_word d a bs) = ready_wait d;
}.

Inductive raw_erase_type_t :=
  | RAW_FLASH_ERASE_BLE_PRE_HANDLE
  | RAW_FLASH_ERASE_BLE_AFTER_HANDLE.

(** The driver state: device, offset value register, controller and option
    byte locks, interrupt enable, critical-section depth, registered callbacks
    (their addresses, 0 for NULL) and the callback calls made so far. *)
Record raw_state (D : Type) := RawState {
  dev : D;
  FMC_OFVR : Z;
  fmc_locked : bool;
  ob_locked : bool;
  irq_enabled : bool;
  critical : nat;
  raw_erase_cb_list : list Z;
  cb_calls : list (Z * raw_erase_type_t);
}.
Arguments RawState {D}. Arguments dev {D}. Arguments FMC_OFVR {D}.
Arguments fmc_locked {D}. Arguments ob_locked {D}. Arguments irq_enabled {D}.
Arguments critical {D}. Arguments raw_erase_cb_list {D}. Arguments cb_calls {D}.

Section driver.
Context {D : Type} `{Fmc D}.
Implicit Types (st : raw_state D) (offset n : Z).

(** Register and lock operations. *)
Definition set_dev (d : D) st : raw_state D :=
  RawState d (FMC_OFVR st) (fmc_locked st) (ob_locked st) (irq_enabled st)
    (critical st) (raw_erase_cb_list st) (cb_calls st).
Definition set_locks (fmc ob : bool) st : raw_state D :=
  RawState (dev st) (FMC_OFVR st) fmc ob (irq_enabled st)
    (critical st) (raw_erase_cb_list st) (cb_calls st).
Definition set_irq (b : bool) st : raw_state D :=
  RawState (dev st) (FMC_OFVR st) (fmc_locked st) (ob_locked st) b
    (critical st) (raw_erase_cb_list st) (cb_calls st).
Definition set_critical (k : nat) st : raw_state D :=
  RawState (dev st) (FMC_OFVR st) (fmc_locked st) (ob_locked st) (irq_enabled st)
    k (raw_erase_cb_list st) (cb_calls st).
Definition set_cbs (l : list Z) st : raw_state D :=
  RawState (dev st) (FMC_OFVR st) (fmc_locked st) (ob_locked st) (irq_enabled st)
    (critical st) l (cb_calls st).
Definition log_calls (l : list (Z * raw_erase_type_t)) st : raw_state D :=
  RawState (dev st) (FMC_OFVR st) (fmc_locked st) (ob_locked st) (irq_enabled st)
    (critical st) (raw_erase_cb_list st) (cb_calls st ++ l).

(** [fmc_unlock(); ob_unlock(); fmc_offset_value_config(v); ob_lock(); fmc_lock();] *)
Definition offset_value_config (v : Z) st : raw_state D :=
  set_locks true true
    (let s := set_locks false false st in
     RawState (dev s) v (fmc_locked s) (ob_locked s) (irq_enabled s)
       (critical s) (raw_erase_cb_list s) (cb_calls s)).

Definition raw_flash_init st : raw_state D := set_cbs [] st.

Definition raw_flash_total_size : Z := FLASH_TOTAL_SIZE.

Definition raw_flash_is_valid_offset (offset : Z) : bool := offset <? raw_flash_total_size.

Definition raw_flash_is_valid_addr (addr : Z) : bool :=
  (FLASH_BASE <=? addr) && (addr <? u32 (FLASH_BASE + raw_flash_total_size)).

(** The parameter check shared by the entry points; [data] is false for NULL. *)
Definition raw_params_bad (offset : Z) (data : bool) (n : Z) : bool :=
  negb (raw_flash_is_valid_offset offset) || negb data || (n <=? 0)
  || negb (raw_flash_is_valid_offset (u32 (offset + n - 1))).

Definition raw_flash_read st offset (data : bool) n : Z * bytes * raw_state D :=
  if raw_params_bad offset data n then (-1, [], st)
  else
    let fmc_ofvr_temp := FMC_OFVR st in
    if 0 <? fmc_ofvr_temp then
      let s1 := set_irq false st in
      let s2 := offset_value_config 0 s1 in
      let '(ret, bs) := mapped_read (dev s2) (FMC_OFVR s2) offset n in
      let s3 := offset_value_config fmc_ofvr_temp s2 in
      (ret, bs, set_irq true s3)
    else
      let '(ret, bs) := mapped_read (dev st) (FMC_OFVR st) offset n in
      (ret, bs, st).

Definition raw_flash_write st offset (data : option bytes) n : Z * raw_state D :=
  if raw_params_bad offset (bool_decide (is_Some data)) n then (-1, st)
  else
    let '(ret, d) := flash_write (dev st) offset (take (Z.to_nat n) (default [] data)) in
    (if ret =? 0 then 0 else -1, set_dev d st).

(** Calls every non-NULL callback, in registration order. *)
Definition raw_flash_erase_handler st (type : raw_erase_type_t) : raw_state D :=
  log_calls (map (fun cb => (cb, type)) (filter (fun cb => cb <> 0) (raw_erase_cb_list st))) st.

(** [alloc] tells whether [sys_malloc] succeeded. *)
Definition raw_flash_erase_handler_register st (callback : Z) (alloc : bool) : Z * raw_state D :=
  if bool_decide (callback ∈ raw_erase_cb_list st) then (0, st)
  else if alloc then (0, set_cbs (raw_erase_cb_list st ++ [callback]) st)
  else (-1, st).

Definition raw_flash_erase_handler_unregister st (callback : Z) : raw_state D :=
  set_cbs (filter (fun cb => ~ (cb <> 0 /\ cb = callback)) (raw_erase_cb_list st)) st.

Definition raw_flash_erase st offset n : Z * raw_state D :=
  if raw_params_bad offset true n then (-1, st)
  else
    let s1 := raw_flash_erase_handler st RAW_FLASH_ERASE_BLE_PRE_HANDLE in
    let s2 := set_critical (S (critical s1)) s1 in
    let '(ret, d) := flash_erase (dev s2) offset n in
    let s3 := set_critical (critical s1) (set_dev d s2) in
    (ret, raw_flash_erase_handler s3 RAW_FLASH_ERASE_BLE_AFTER_HANDLE).

(** The word loop of [fmc_continuous_program]: [k] words of [data] at [offset]. *)
Fixpoint program_words (d : D) (offset : Z) (data : bytes) (k : nat) : D :=
  match k with
  | O => d
  | S k => program_words (program_word d offset (take 4 data)) (offset + 4) (drop 4 data) k
  end.

Definition fmc_continuous_program (d : D) (address : Z) (data : bytes) (size : Z) : Z * D :=
  let fmc_state := ready_wait d in
  if fmc_state =? FMC_READY
  then (fmc_state, program_words d (address - FLASH_BASE) data (Z.to_nat (size / 4)))
  else (fmc_state, d).

Definition raw_flash_write_fast st offset (data : option bytes) n : Z * raw_state D :=
  if raw_params_bad offset (bool_decide (is_Some data)) n then (-1, st)
  else if n <=? 4 then raw_flash_write st offset data n
  else
    let src := default [] data in
    let r0 := u8 (4 - Z.land offset 3) in
    let rr := Z.land (u32 (offset + n)) 3 in
    let r := if r0 =? 4 then 0 else r0 in
    let '(ret0, s1) := if r =? 0 then (0, st) else raw_flash_write st offset data r in
    if negb (ret0 =? 0) then (ret0, s1)
    else
      let s2 := set_critical (S (critical s1)) (set_locks false (ob_locked s1) s1) in
      let '(ret1, d) := fmc_continuous_program (dev s2) (FLASH_BASE + offset + r)
                          (drop (Z.to_nat r) src) (n - r - rr) in
      let s3 := set_locks true (ob_locked s1) (set_critical (critical s1) (set_dev d s2)) in
      if rr =? 0 then (ret1, s3)
      else raw_flash_write s3 (u32 (offset + n - rr)) (Some (drop (Z.to_nat (n - rr)) src)) rr.
End driver.

Arguments raw_params_bad : simpl never.

(** ** Correctness *)
Section proofs.
Context {D : Type} `{Fmc D} `{!FlashLaws D} `{!FmcLaws D}.
Implicit Types (st : raw_state D) (d : D) (offset n a x : Z) (bs : bytes).

(** The parameter check is the exact range check: the 32-bit sum cannot wrap. *)
Lemma raw_params_bad_false offset data n :
  is_u32 offset -> n < 2 ^ 31 ->
  raw_params_bad offset data n = false <->
  data = true /\ 0 < n /\ offset + n <= FLASH_TOTAL_SIZE.
Proof.
  intros Ho Hn. unfold raw_params_bad, raw_flash_is_valid_offset, raw_flash_total_size,
    FLASH_TOTAL_SIZE, in_width in *.
  rewrite !orb_false_iff, !negb_false_iff, Z.ltb_lt, Z.ltb_lt, Z.leb_gt. unfold u32.
  split.
  - intros [[[H1 ->] H2] H3]. rewrite Z.mod_small in H3 by lia. lia.
  - intros (-> & H1 & H2). rewrite Z.mod_small by lia. repeat split; lia.
Qed.

(** [raw_flash_read] returns what the device holds at the raw offset even
    while the image-offset mapping is active, restores the offset register,
    leaves interrupts enabled and the controller locked when it had to touch
    them, and changes nothing else; out-of-range requests, NULL buffers and
    non-positive lengths are refused without touching the device. *)
Theorem raw_flash_read_unmapped st offset (data : bool) n :
  is_u32 offset -> n < 2 ^ 31 -> is_u32 (FMC_OFVR st) ->
  raw_flash_read st offset data n =
    if decide (data = true /\ 0 < n /\ offset + n <= FLASH_TOTAL_SIZE) then
      (flash_read (dev st) offset n,
       if decide (FMC_OFVR st = 0) then st else set_irq true (set_locks true true st))
    else (-1, [], st).
Proof.
  intros Ho Hn Hv. unfold raw_flash_read.
  destruct (raw_params_bad offset data n) eqn:E.
  - rewrite decide_False; [done|]. intros Hc.
    by rewrite (proj2 (raw_params_bad_false offset data n Ho Hn) Hc) in E.
  - rewrite decide_True by (by apply (raw_params_bad_false offset data n)).
    unfold in_width in Hv. destruct (Z.ltb_spec 0 (FMC_OFVR st)).
    + rewrite decide_False by lia. simpl. rewrite mapped_read_0 by lia.
      by destruct (flash_read (dev st) offset n).
    + rewrite decide_True by lia. rewrite mapped_read_0 by lia.
      by destruct (flash_read (dev st) offset n).
Qed.

Lemma program_words_cells d a bs k x :
  (4 * k <= length bs)%nat ->
  cell (program_words d a bs k) x = programmed (cell d) a (take (4 * k) bs) x.
Proof.
  revert d a bs. induction k as [|k IH]; intros d a bs Hl.
  - simpl. unfold programmed. by rewrite decide_False by (simpl; lia).
  - simpl program_words. rewrite IH by (rewrite length_drop; lia).
    rewrite (programmed_ext _ _ _ _ _ (program_word_cells d a (take 4 bs) x)).
    replace (4 * S k)%nat with (4 + 4 * k)%nat by lia.
    rewrite <- (take_drop 4 bs) at 3. rewrite take_app.
    rewrite length_take, Nat.min_l by lia.
    rewrite (take_ge (take 4 bs)) by (rewrite length_take; lia).
    replace (4 + 4 * k - 4)%nat with (4 * k)%nat by lia.
    rewrite programmed_app. rewrite length_take, Nat.min_l by lia. done.
Qed.

Lemma raw_flash_write_cells st st' offset bs n :
  raw_flash_write st offset (Some bs) n = (0, st') ->
  forall x, cell (dev st') x = programmed (cell (dev st)) offset (take (Z.to_nat n) bs) x.
Proof.
  unfold raw_flash_write. destruct (raw_params_bad _ _ _); [done|].
  destruct (flash_write _ _ _) as [ret d] eqn:E. destruct (Z.eqb_spec ret 0); [|done].
  intros [= <-] x. subst. simpl. by rewrite (write_cells _ _ _ _ x E).
Qed.

Lemma land_3 x : Z.land x 3 = x mod 4.
Proof. change 3 with (Z.ones 2). by rewrite Z.land_ones by lia. Qed.

(** The three pieces of the fast path: misaligned head, whole words, tail. *)
Lemma fast_split offset n :
  0 <= offset -> 4 < n -> offset + n <= FLASH_TOTAL_SIZE ->
  let r0 := u8 (4 - Z.land offset 3) in
  let r := if r0 =? 4 then 0 else r0 in
  let rr := Z.land (u32 (offset + n)) 3 in
  0 <= r < 4 /\ 0 <= rr < 4 /\ 0 <= n - r - rr /\ (n - r - rr) mod 4 = 0 /\
  u32 (offset + n - rr) = offset + n - rr.
Proof.
  intros Ho Hn Hb. simpl. rewrite !land_3. unfold FLASH_TOTAL_SIZE, u32, u8 in *.
  rewrite (Z.mod_small (offset + n)) by lia.
  pose proof (Z.mod_pos_bound offset 4). pose proof (Z.mod_pos_bound (offset + n) 4).
  rewrite (Z.mod_small (4 - offset mod 4)) by lia.
  rewrite (Z.mod_small (offset + n - _)) by lia.
  destruct (Z.eqb_spec (4 - offset mod 4) 4); Z.div_mod_to_equations; lia.
Qed.

Lemma take_split (n m : nat) bs : take n bs ++ take m (drop n bs) = take (n + m) bs.
Proof. by rewrite take_take_drop. Qed.

(** A successful fast write programs exactly the requested bytes. *)
Lemma raw_flash_write_fast_cells st st' offset bs n :
  is_u32 offset -> Z.of_nat (length bs) = n -> n < 2 ^ 31 ->
  (forall d, ready_wait d = FMC_READY) ->
  raw_flash_write_fast st offset (Some bs) n = (0, st') ->
  forall x, cell (dev st') x = programmed (cell (dev st)) offset bs x.
Proof.
  intros Ho Hl Hn Hready Hw x. unfold raw_flash_write_fast in Hw.
  destruct (raw_params_bad _ _ _) eqn:Hp; [done|].
  apply raw_params_bad_false in Hp as (_ & Hpos & Hend); [|done|done].
  destruct (Z.leb_spec n 4) as [Hle|Hgt].
  { rewrite (raw_flash_write_cells _ _ _ _ _ Hw). rewrite take_ge by lia. done. }
  destruct Ho as [Ho _].
  pose proof (fast_split offset n Ho Hgt Hend) as (Hr & Hrr & Hmid & Hm4 & Htail).
  cbn zeta in *. set (r := if u8 _ =? 4 then 0 else _) in *.
  set (rr := Z.land (u32 (offset + n)) 3) in *.
  destruct (if r =? 0 then (0, st) else raw_flash_write st offset (Some bs) r)
    as [ret0 s1] eqn:Ehead.
  destruct (Z.eqb_spec ret0 0) as [->|]; [|by injection Hw].
  cbn [negb default] in Hw. unfold fmc_continuous_program in Hw. rewrite Hready in Hw.
  cbn [Z.eqb FMC_READY] in Hw. cbn [id] in Hw.
  replace (FLASH_BASE + offset + r - FLASH_BASE) with (offset + r) in Hw by lia.
  set (k := Z.to_nat ((n - r - rr) / 4)) in *.
  assert (Hk : (4 * k)%nat = Z.to_nat (n - r - rr)).
  { unfold k. Z.div_mod_to_equations. lia. }
  assert (H1 : forall y, cell (dev s1) y = programmed (cell (dev st)) offset (take (Z.to_nat r) bs) y).
  { intros y. destruct (Z.eqb_spec r 0) as [E|].
    - injection Ehead as <-. rewrite E. simpl. unfold programmed.
      by rewrite decide_False by (simpl; lia).
    - by apply raw_flash_write_cells with (x := y) in Ehead. }
  assert (H2 : forall y, cell (program_words (dev s1) (offset + r) (drop (Z.to_nat r) bs) k) y
      = programmed (cell (dev st)) offset (take (Z.to_nat (n - rr)) bs) y).
  { intros y. rewrite program_words_cells by (rewrite length_drop; lia).
    rewrite (programmed_ext _ _ _ _ _ (H1 y)).
    replace (Z.to_nat (n - rr)) with (Z.to_nat r + 4 * k)%nat by lia.
    rewrite <- take_split, programmed_app, length_take. f_equal. lia. }
  destruct (Z.eqb_spec rr 0) as [E|].
  - injection Hw as <-. simpl. rewrite H2, E, take_ge by lia. done.
  - apply raw_flash_write_cells with (x := x) in Hw. rewrite Hw. simpl.
    rewrite (programmed_ext _ _ _ _ _ (H2 x)), Htail.
    rewrite (take_ge (drop _ _)) by (rewrite length_drop; lia).
    rewrite <- (take_drop (Z.to_nat (n - rr)) bs) at 3. rewrite programmed_app, length_take.
    f_equal. lia.
Qed.

Context `{!FlashReliable D FLASH_TOTAL_SIZE}.

Lemma raw_flash_write_ok st offset bs n :
  0 <= offset -> 0 < n -> n <= Z.of_nat (length bs) -> offset + n <= FLASH_TOTAL_SIZE ->
  exists d, raw_flash_write st offset (Some bs) n = (0, set_dev d st).
Proof.
  intros Ho Hn Hl He. unfold raw_flash_write.
  assert (Hp : raw_params_bad offset (bool_decide (is_Some (Some bs))) n = false).
  { unfold FLASH_TOTAL_SIZE in *. apply raw_params_bad_false; unfold in_width; [lia|lia|].
    rewrite bool_decide_true by done. unfold FLASH_TOTAL_SIZE. lia. }
  rewrite Hp. simpl.
  assert (Hlen : length (take (Z.to_nat n) bs) = Z.to_nat n) by (rewrite length_take; lia).
  assert (Hw : (flash_write (dev st) offset (take (Z.to_nat n) bs)).1 = 0).
  { apply write_ok; [done| |lia]. intros E. rewrite E in Hlen. simpl in Hlen. lia. }
  destruct (flash_write _ _ _) as [r d]. simpl in Hw. subst r. by exists d.
Qed.

(** on a ready controller [raw_flash_write_fast] succeeds on every
    in-range request and programs exactly the requested bytes at the requested
    offset, whatever the alignment of both ends; any other request returns -1
    and leaves the driver unchanged. *)
Theorem raw_flash_write_fast_programs st offset bs n :
  is_u32 offset -> Z.of_nat (length bs) = n -> n < 2 ^ 31 ->
  (forall d, ready_wait d = FMC_READY) ->
  if decide (0 < n /\ offset + n <= FLASH_TOTAL_SIZE) then
    exists st', raw_flash_write_fast st offset (Some bs) n = (0, st') /\
      forall x, cell (dev st') x = programmed (cell (dev st)) offset bs x
  else raw_flash_write_fast st offset (Some bs) n = (-1, st).
Proof.
  intros Ho Hl Hn Hready. case_decide as Hr.
  2:{ unfold raw_flash_write_fast. destruct (raw_params_bad _ _ _) eqn:Hp; [done|].
      apply raw_params_bad_false in Hp; [tauto|done|done]. }
  destruct Hr as [Hpos Hend].
  assert (Hs : exists st', raw_flash_write_fast st offset (Some bs) n = (0, st')).
  { pose proof Ho as [Ho0 _]. unfold raw_flash_write_fast.
    rewrite (proj2 (raw_params_bad_false offset _ n Ho Hn))
      by (rewrite bool_decide_true by done; lia).
    destruct (Z.leb_spec n 4) as [Hle|Hgt].
    { destruct (raw_flash_write_ok st offset bs n) as [d ->]; [lia..|]. by eexists. }
    pose proof (fast_split offset n Ho0 Hgt Hend) as (Hr & Hrr & Hmid & Hm4 & Htail).
    cbn zeta in *. set (r := if u8 _ =? 4 then 0 else _) in *.
    set (rr := Z.land (u32 (offset + n)) 3) in *.
    assert (Hhead : exists d, (if r =? 0 then (0, st) else raw_flash_write st offset (Some bs) r)
                              = (0, set_dev d st)).
    { destruct (Z.eqb_spec r 0); [by exists (dev st); destruct st|].
      apply raw_flash_write_ok; lia. }
    destruct Hhead as [d1 ->]. simpl. unfold fmc_continuous_program. rewrite Hready. simpl.
    destruct (Z.eqb_spec rr 0); [by eexists|]. rewrite Htail.
    edestruct raw_flash_write_ok as [d2 ->]; [..|by eexists]; rewrite ?length_drop; lia. }
  destruct Hs as [st' E]. exists st'. split; [done|].
  by apply (raw_flash_write_fast_cells st st' offset bs n).
Qed.

(** The fast path loses a controller failure.  If the controller is not
    ready after the aligned head, and the request has an unaligned tail, the
    return value is the tail write's: the call reports success although none
    of the whole words was programmed (bytes between the head and the tail
    still hold their old contents). *)
Lemma raw_flash_write_fast_masks_failure st offset bs n x :
  is_u32 offset -> Z.of_nat (length bs) = n -> 4 < n -> offset + n <= FLASH_TOTAL_SIZE ->
  offset mod 4 = 0 -> (offset + n) mod 4 <> 0 ->
  ready_wait (dev st) <> FMC_READY ->
  offset <= x < offset + n - (offset + n) mod 4 ->
  exists st', raw_flash_write_fast st offset (Some bs) n = (0, st') /\
    cell (dev st') x = cell (dev st) x.
Proof.
  intros Ho Hl H4 Hend Hal Htl Hnr Hx. pose proof Ho as [Ho0 _].
  pose proof (fast_split offset n Ho0 H4 Hend) as (Hr & Hrr & Hmid & Hm4 & Htail).
  assert (Hrr' : Z.land (u32 (offset + n)) 3 = (offset + n) mod 4).
  { unfold FLASH_TOTAL_SIZE in *. rewrite land_3, u32_small; [done|]. unfold in_width. lia. }
  assert (Hr' : u8 (4 - Z.land offset 3) = 4) by (rewrite land_3, Hal; done).
  cbn zeta in *. rewrite Hrr' in *. rewrite Hr' in *. unfold raw_flash_write_fast.
  rewrite (proj2 (raw_params_bad_false offset _ n Ho ltac:(unfold FLASH_TOTAL_SIZE in *; lia)))
    by (rewrite bool_decide_true by done; lia).
  rewrite (proj2 (Z.leb_gt n 4)) by done. cbv zeta. rewrite Hrr', Hr'. simpl.
  unfold fmc_continuous_program. rewrite (proj2 (Z.eqb_neq _ _)) by done.
  rewrite (proj2 (Z.eqb_neq ((offset + n) mod 4) 0)) by done. rewrite Htail.
  edestruct raw_flash_write_ok as [d2 E];
    [| | | |eexists; split; [exact E|]]; rewrite ?length_drop; try lia.
  apply raw_flash_write_cells with (x := x) in E. rewrite E. simpl. unfold programmed.
  by rewrite decide_False by lia.
Qed.
End proofs.

(** ** The driver as a flash device *)
Section as_device.
Context {D : Type} `{Fmc D} `{!FlashLaws D} `{!FmcLaws D} `{!FlashReliable D FLASH_TOTAL_SIZE}.

#[export] Instance raw_dev : FlashDev (raw_state D) := {
  flash_read := fun st a n => (raw_flash_read st a true n).1;
  flash_write := fun st a bs => raw_flash_write st a (Some bs) (Z.of_nat (length bs));
  flash_erase := raw_flash_erase;
  cell := fun st => cell (dev st);
}.

Lemma raw_read_dev (st : raw_state D) a n :
  raw_params_bad a true n = false -> (raw_flash_read st a true n).1 = flash_read (dev st) a n.
Proof.
  intros Hp. unfold raw_flash_read. rewrite Hp.
  destruct (Z.ltb_spec 0 (FMC_OFVR st)); simpl.
  - rewrite mapped_read_0 by lia. by destruct (flash_read _ _ _).
  - rewrite mapped_read_0 by lia. by destruct (flash_read _ _ _).
Qed.

Lemma raw_params_ok a n :
  0 <= a -> 0 < n -> a + n <= FLASH_TOTAL_SIZE -> raw_params_bad a true n = false.
Proof.
  intros. unfold FLASH_TOTAL_SIZE in *.
  apply raw_params_bad_false; unfold in_width, FLASH_TOTAL_SIZE; lia.
Qed.

#[export] Instance raw_laws : FlashLaws (raw_state D).
Proof.
  split; simpl.
  - intros st x. apply cell_u8.
  - intros st a n bs Hn. destruct (raw_params_bad a true n) eqn:Hp.
    + unfold raw_flash_read. by rewrite Hp.
    + rewrite raw_read_dev by done. intros E. by apply read_cells in E.
  - intros st st' a bs x E. apply raw_flash_write_cells with (x := x) in E.
    by rewrite take_ge in E by lia.
  - intros st st' a n x Hs. unfold raw_flash_erase. destruct (raw_params_bad _ _ _); [done|].
    simpl. destruct (flash_erase _ _ _) as [r d] eqn:E. intros [= -> <-]. simpl.
    by apply erase_cells with (x := x) in E.
Qed.

(** Seen through the driver, the part below FLASH_TOTAL_SIZE keeps the
    device contract: every in-range read, write and erase succeeds. *)
#[export] Instance raw_reliable : FlashReliable (raw_state D) FLASH_TOTAL_SIZE.
Proof.
  split; simpl.
  - intros st a n Ha Hn He. rewrite raw_read_dev by (by apply raw_params_ok). by apply read_ok.
  - intros st a bs Ha Hb He. destruct (raw_flash_write_ok st a bs (Z.of_nat (length bs)))
      as [d ->]; [done| |done|done|done]. destruct bs; simpl; [done|lia].
  - intros st a n Ha Hn He. unfold raw_flash_erase. rewrite raw_params_ok by done. simpl.
    destruct (flash_erase _ _ _) as [r d] eqn:E. simpl.
    change r with (r, d).1. rewrite <- E. by apply erase_ok.
Qed.
End as_device.

(** ** Witnesses on the concrete device *)
Module RawWitness.
#[local] Existing Instances Nor.nor_dev Nor.nor_laws Nor.nor_reliable.
Abbreviation nor := Nor.nor.

#[local] Instance dev : FlashDev nor := Nor.nor_dev FLASH_TOTAL_SIZE.

(** A controller whose busy flag reads [busy] and whose mapping adds [ofvr]
    pages to the address. *)
Definition fmc (busy : Z) : Fmc nor := {|
  mapped_read := fun d v a n => flash_read d (if v <=? 0 then a else a + v * 4096) n;
  ready_wait := fun _ => busy;
  program_word := fun d a bs => Nor.program d a bs;
|}.

Lemma fmc_laws busy : @FmcLaws nor dev (fmc busy).
Proof.
  split; simpl.
  - intros d v a n Hv. by rewrite (proj2 (Z.leb_le v 0)).
  - intros d a bs x. apply Nor.get_program.
  - done.
Qed.

Definition blank : raw_state nor := RawState ∅ 5 true true true 0 [] [].

Lemma raw_flash_read_unmapped_witness :
  @raw_flash_read nor dev (fmc 0) blank 8 true 2 = (0, [255; 255], blank).
Proof.
  rewrite (@raw_flash_read_unmapped nor dev (fmc 0) (fmc_laws 0) blank 8 true 2);
    [vm_compute; reflexivity|split; [vm_compute; discriminate|vm_compute; reflexivity]
    |vm_compute; reflexivity|split; [vm_compute; discriminate|vm_compute; reflexivity]].
Defined.

Definition data7 : bytes := [1; 2; 3; 4; 5; 6; 7].

Lemma raw_flash_write_fast_programs_witness :
  exists st', @raw_flash_write_fast nor dev (fmc 0) blank 5 (Some data7) 7 = (0, st') /\
    forall x, cell (RawFlash.dev st') x = programmed (cell (∅ : nor)) 5 data7 x.
Proof.
  apply (@raw_flash_write_fast_programs nor dev (fmc 0) (Nor.nor_laws _) (fmc_laws 0)
           (Nor.nor_reliable _) blank 5 data7 7); [|reflexivity|lia|reflexivity].
  unfold in_width. lia.
Defined.

Lemma raw_flash_write_fast_masks_failure_witness :
  exists st', @raw_flash_write_fast nor dev (fmc 1) blank 4 (Some data7) 7 = (0, st') /\
    cell (RawFlash.dev st') 4 = 255.
Proof.
  apply (@raw_flash_write_fast_masks_failure nor dev (fmc 1) (Nor.nor_laws _)
           (Nor.nor_reliable _) blank 4 data7 7 4);
    [unfold in_width; lia|reflexivity|lia|unfold FLASH_TOTAL_SIZE; lia|reflexivity
    |by vm_compute|by vm_compute|].
  vm_compute. split; [discriminate|reflexivity].
Defined.
End RawWitness.
