(* ===== verification/Prog.v ===== *)
(** * Stateful code that can fail, and little-endian words

    [prog S A] is C code over a state [S] whose [int] result is tested by the
    caller: [Ok a] continues, [Err code] leaves the function with [code] and
    the state reached so far.  [succeeds] is its total-correctness triple.
    [le n x] is the memory image of an [n]-byte unsigned integer. *)
From S2P Require Import Prelude.

Inductive outcome (A : Type) : Type :=
  | Ok (a : A)
  | Err (code : Z).
Arguments Ok {A} a.
Arguments Err {A} code.

Definition prog (S A : Type) : Type := S -> outcome A * S.

#[export] Instance prog_ret S : MRet (prog S) := fun A a s => (Ok a, s).
#[export] Instance prog_bind S : MBind (prog S) := fun A B k m s =>
  match m s with
  | (Ok a, s') => k a s'
  | (Err c, s') => (Err c, s')
  end.

Section prog.
Context {S : Type}.

Definition pget : prog S S := fun s => (Ok s, s).
Definition pmodify (f : S -> S) : prog S unit := fun s => (Ok tt, f s).
Definition pfail {A} (code : Z) : prog S A := fun s => (Err code, s).

(** [for (i = from; i < from + n; i++) body] *)
Fixpoint pfor (from : Z) (n : nat) (body : Z -> prog S unit) : prog S unit :=
  match n with
  | O => mret tt
  | Datatypes.S n => _ ← body from; pfor (from + 1) n body
  end.

Definition succeeds {A} (m : prog S A) (s : S) (Q : A -> S -> Prop) : Prop :=
  match m s with
  | (Ok a, s') => Q a s'
  | (Err _, _) => False
  end.

Lemma succeeds_ret {A} (a : A) s (Q : A -> S -> Prop) : Q a s -> succeeds (mret a) s Q.
Proof. done. Qed.

Lemma succeeds_bind {A B} (m : prog S A) (k : A -> prog S B) s Q :
  succeeds m s (fun a s' => succeeds (k a) s' Q) -> succeeds (m ≫= k) s Q.
Proof. unfold succeeds, mbind, prog_bind. by destruct (m s) as [[a|c] s']. Qed.

Lemma succeeds_mono {A} (m : prog S A) s (P Q : A -> S -> Prop) :
  succeeds m s P -> (forall a s', P a s' -> Q a s') -> succeeds m s Q.
Proof. unfold succeeds. destruct (m s) as [[a|c] s']; auto. Qed.

Lemma succeeds_get s (Q : S -> S -> Prop) : Q s s -> succeeds pget s Q.
Proof. done. Qed.

Lemma succeeds_modify f s (Q : unit -> S -> Prop) : Q tt (f s) -> succeeds (pmodify f) s Q.
Proof. done. Qed.

Lemma succeeds_for (I : nat -> S -> Prop) from n body s :
  I O s ->
  (forall i s, (i < n)%nat -> I i s ->
    succeeds (body (from + Z.of_nat i)) s (fun _ => I (Datatypes.S i))) ->
  succeeds (pfor from n body) s (fun _ => I n).
Proof.
  revert I from s. induction n as [|n IH]; intros I from s H0 Hs; [done|].
  simpl. apply succeeds_bind. eapply succeeds_mono.
  - specialize (Hs O s ltac:(lia) H0). rewrite Z.add_0_r in Hs. exact Hs.
  - intros ? s' H1. apply (IH (fun i => I (Datatypes.S i))); [done|].
    intros i s'' Hi HI. replace (from + 1 + Z.of_nat i) with (from + Z.of_nat (Datatypes.S i)) by lia.
    apply Hs; [lia|done].
Qed.

Lemma succeeds_elim {A} (m : prog S A) s Q :
  succeeds m s Q -> exists a s', m s = (Ok a, s') /\ Q a s'.
Proof. unfold succeeds. destruct (m s) as [[a|c] s']; [eauto|done]. Qed.
End prog.

#[export] Hint Resolve succeeds_ret succeeds_get succeeds_modify : gd.

(** One bind at a time. *)
Ltac pstep := apply succeeds_bind.

(** ** Little-endian words *)
Fixpoint le (n : nat) (x : Z) : bytes :=
  match n with
  | O => []
  | S n => u8 x :: le n (Z.shiftr x 8)
  end.

Fixpoint unle (bs : bytes) : Z :=
  match bs with
  | [] => 0
  | b :: bs => b + 256 * unle bs
  end.

Lemma length_le n x : length (le n x) = n.
Proof. revert x. induction n; intros x; simpl; [done|]. by rewrite IHn. Qed.

Lemma le_ok n x : bytes_ok (le n x).
Proof. revert x. induction n; intros x; simpl; constructor; auto with gd. Qed.

Lemma unle_le n x : 0 <= x < 2 ^ (8 * Z.of_nat n) -> unle (le n x) = x.
Proof.
  revert x. induction n as [|n IH]; intros x Hx; [simpl; lia|].
  cbn [le unle]. rewrite Z.shiftr_div_pow2 by lia.
  replace (8 * Z.of_nat (S n)) with (8 + 8 * Z.of_nat n) in Hx by lia.
  rewrite Z.pow_add_r in Hx by lia.
  rewrite IH; [|split; [apply Z.div_pos; lia|apply Z.div_lt_upper_bound; lia]].
  unfold u8. change (2 ^ 8) with 256. pose proof (Z.div_mod x 256). lia.
Qed.

Lemma le_unle bs : bytes_ok bs -> le (length bs) (unle bs) = bs.
Proof.
  induction 1 as [|b bs Hb _ IH]; [done|]. cbn [le unle length].
  unfold in_width in Hb. change (2 ^ 8) with 256 in Hb.
  rewrite Z.shiftr_div_pow2 by lia. change (2 ^ 8) with 256.
  replace ((b + 256 * unle bs) / 256) with (unle bs).
  - rewrite IH. f_equal. unfold u8. change (2 ^ 8) with 256.
    rewrite Z.mul_comm, Z_mod_plus_full. apply Z.mod_small. lia.
  - rewrite Z.mul_comm, Z.div_add by lia. rewrite Z.div_small by lia. lia.
Qed.

Lemma unle_range bs : bytes_ok bs -> 0 <= unle bs < 2 ^ (8 * Z.of_nat (length bs)).
Proof.
  induction 1 as [|b bs Hb _ IH]; [simpl; lia|]. cbn [unle length].
  replace (8 * Z.of_nat (S (length bs))) with (8 + 8 * Z.of_nat (length bs)) by lia.
  rewrite Z.pow_add_r by lia. unfold in_width in Hb. change (2 ^ 8) with 256 in *. nia.
Qed.

(** The word at [off] of a memory image. *)
Definition word_at (off n : nat) (bs : bytes) : Z := unle (slice off n bs).

Lemma slice_app_l {A} (n : nat) (l k : list A) : length l = n -> slice 0 n (l ++ k) = l.
Proof. intros <-. unfold slice. rewrite drop_0. by rewrite take_app_length. Qed.

Lemma slice_app_r {A} (off n m : nat) (l k : list A) :
  length l = m -> (m <= off)%nat -> slice off n (l ++ k) = slice (off - m) n k.
Proof. intros <- Hle. unfold slice. by rewrite drop_app_ge by done. Qed.
