(* ===== verification/WearLevel.v ===== *)
(** * Wear levelling, [MSDK/FatFS/port/wear_levelling_flash.c], and the block
    layer on top of it, [fs_flash_write]/[fs_flash_read] of [fatfs.c]

    The flash is divided into [max_pos] pages; one of them, at index [pos],
    is the dummy page.  Before each sector erase the page after the dummy is
    moved into it, the move is recorded by one byte in each of two state
    areas, and when the dummy reaches the end the whole mapping is rotated
    ([move_count]) and the state areas are rewritten.  The checksum unit is
    the parameter [wl_crc]. *)
From S2P Require Import Prelude Prog Flash.

Record wl_state_t := WlState {
  pos : Z; max_pos : Z; move_count : Z; block_size : Z; s_version : Z; s_crc : Z }.

Record wl_config_t := WlConfig {
  start_addr : Z; full_mem_size : Z; page_size : Z; sector_size : Z;
  wr_size : Z; c_version : Z; temp_buff_size : Z; c_crc : Z }.

(** The copy buffer: NULL, allocated, or released (the pointer is kept). *)
Inductive buffer_t := BufNull | BufLive | BufFreed.

Record wl_flash := WlFlash {
  state : wl_state_t; cfg : wl_config_t;
  addr_cfg : Z; addr_state1 : Z; addr_state2 : Z;
  flash_size : Z; state_size : Z; cfg_size : Z;
  temp_buff : buffer_t; dummy_addr : Z }.

Definition sizeof_wl_state : Z := 24.
Definition sizeof_wl_config : Z := 32.

(** Memory images of the packed structures: the fields before [crc], then [crc]. *)
Definition state_body (s : wl_state_t) : bytes :=
  le 4 (pos s) ++ le 4 (max_pos s) ++ le 4 (move_count s) ++ le 4 (block_size s)
  ++ le 4 (s_version s).
Definition state_bytes (s : wl_state_t) : bytes := state_body s ++ le 4 (s_crc s).

Definition parse_state (bs : bytes) : wl_state_t :=
  WlState (word_at 0 4 bs) (word_at 4 4 bs) (word_at 8 4 bs) (word_at 12 4 bs)
    (word_at 16 4 bs) (word_at 20 4 bs).

Definition config_body (c : wl_config_t) : bytes :=
  le 4 (start_addr c) ++ le 4 (full_mem_size c) ++ le 4 (page_size c) ++ le 4 (sector_size c)
  ++ le 4 (wr_size c) ++ le 4 (c_version c) ++ le 4 (temp_buff_size c).
Definition config_bytes (c : wl_config_t) : bytes := config_body c ++ le 4 (c_crc c).

(** Field updates. *)
Definition set_pos (p : Z) (s : wl_state_t) : wl_state_t :=
  WlState p (max_pos s) (move_count s) (block_size s) (s_version s) (s_crc s).
Definition set_move_count (m : Z) (s : wl_state_t) : wl_state_t :=
  WlState (pos s) (max_pos s) m (block_size s) (s_version s) (s_crc s).
Definition set_crc (c : Z) (s : wl_state_t) : wl_state_t :=
  WlState (pos s) (max_pos s) (move_count s) (block_size s) (s_version s) c.
Definition set_cfg_crc (c : Z) (g : wl_config_t) : wl_config_t :=
  WlConfig (start_addr g) (full_mem_size g) (page_size g) (sector_size g)
    (wr_size g) (c_version g) (temp_buff_size g) c.

Definition with_state (s : wl_state_t) (w : wl_flash) : wl_flash :=
  WlFlash s (cfg w) (addr_cfg w) (addr_state1 w) (addr_state2 w) (flash_size w)
    (state_size w) (cfg_size w) (temp_buff w) (dummy_addr w).
Definition with_cfg (c : wl_config_t) (w : wl_flash) : wl_flash :=
  WlFlash (state w) c (addr_cfg w) (addr_state1 w) (addr_state2 w) (flash_size w)
    (state_size w) (cfg_size w) (temp_buff w) (dummy_addr w).
Definition with_temp_buff (b : buffer_t) (w : wl_flash) : wl_flash :=
  WlFlash (state w) (cfg w) (addr_cfg w) (addr_state1 w) (addr_state2 w) (flash_size w)
    (state_size w) (cfg_size w) b (dummy_addr w).
Definition with_dummy (a : Z) (w : wl_flash) : wl_flash :=
  WlFlash (state w) (cfg w) (addr_cfg w) (addr_state1 w) (addr_state2 w) (flash_size w)
    (state_size w) (cfg_size w) (temp_buff w) a.

(** Virtual to physical address. *)
Definition wl_flash_calc_addr (w : wl_flash) (addr : Z) : Z :=
  let pa := u32 (flash_size w - move_count (state w) * page_size (cfg w) + addr)
              mod flash_size w in
  let dummy := u32 (pos (state w) * page_size (cfg w)) in
  if dummy <=? pa then u32 (pa + page_size (cfg w)) else pa.

Section wear_levelling.
Context {D : Type} `{FlashDev D}.
Context (wl_crc : bytes -> Z).

Abbreviation wl := (prog (wl_flash * D)).

Definition get_wl : wl wl_flash := fun s => (Ok s.1, s).
Definition upd_wl (f : wl_flash -> wl_flash) : wl unit := fun s => (Ok tt, (f s.1, s.2)).

Definition wl_flash_write_int (offset : Z) (data : bytes) : wl unit := fun s =>
  let '(ret, d) := flash_write s.2 offset data in
  (if ret =? 0 then Ok tt else Err ret, (s.1, d)).

Definition wl_flash_read_int (offset len : Z) : wl bytes := fun s =>
  let '(ret, bs) := flash_read s.2 offset len in
  (if ret =? 0 then Ok bs else Err ret, s).

Definition flash_erase_int (offset len : Z) : wl unit := fun s =>
  let '(ret, d) := flash_erase s.2 offset len in
  (if ret =? 0 then Ok tt else Err ret, (s.1, d)).

Definition wl_calculate_crc (body : bytes) : Z := wl_crc body.

Definition wl_flash_erase_raw (start_address size : Z) : wl unit :=
  w ← get_wl;
  pfor 0 (Z.to_nat (size / sector_size (cfg w))) (fun i =>
    flash_erase_int (u32 (start_address + i * sector_size (cfg w))) (sector_size (cfg w))).

(** Erase a state area and write the state there. *)
Definition store_state (addr : Z) : wl unit :=
  w ← get_wl;
  _ ← wl_flash_erase_raw addr (state_size w);
  wl_flash_write_int addr (state_bytes (state w)).

Definition refresh_crc (w : wl_flash) : wl_flash :=
  with_state (set_crc (wl_calculate_crc (state_body (state w))) (state w)) w.

Definition wl_flash_init_sections : wl unit :=
  _ ← upd_wl (fun w => with_state
        (WlState 0 (u32 (1 + flash_size w / page_size (cfg w))) 0 (page_size (cfg w))
           (c_version (cfg w)) (s_crc (state w))) w);
  _ ← upd_wl refresh_crc;
  w ← get_wl;
  _ ← store_state (addr_state1 w);
  _ ← store_state (addr_state2 w);
  _ ← wl_flash_erase_raw (addr_cfg w) (cfg_size w);
  wl_flash_write_int (addr_cfg w) (config_bytes (cfg w)).

(** The mark bytes of a state area. *)
Definition mark_addr (area : Z) (w : wl_flash) (i : Z) : Z :=
  u32 (area + sizeof_wl_state + u32 (i * wr_size (cfg w)) / 8).

(** [for (i = 0; i < max_pos; i++)]: stops at the first unset mark. *)
Fixpoint recover_loop (i : Z) (n : nat) : wl unit :=
  match n with
  | O => mret tt
  | S n =>
      w ← get_wl;
      bs ← wl_flash_read_int (mark_addr (addr_state1 w) w i) 1;
      if nth 0 bs 0 =? 0xff
      then upd_wl (fun w => with_state (set_pos i (state w)) w)
      else recover_loop (i + 1) n
  end.

Definition wl_flash_recover_pos : wl unit :=
  w ← get_wl;
  _ ← recover_loop 0 (Z.to_nat (max_pos (state w)));
  w ← get_wl;
  if pos (state w) =? max_pos (state w)
  then upd_wl (fun w => with_state (set_pos (pos (state w) - 1) (state w)) w)
  else mret tt.

(** First half of [wl_flash_updatewl]: copy the page after the dummy into the
    dummy and set the mark in both areas. *)
Definition updatewl_move : wl unit :=
  w ← get_wl;
  let page := page_size (cfg w) in
  let tmp := temp_buff_size (cfg w) in
  let data_index := u32 (pos (state w) + 1) in
  let data_index := if max_pos (state w) <=? data_index then 0 else data_index in
  let copy_count := page / tmp in
  let data_addr := u32 (start_addr (cfg w) + data_index * page) in
  let dummy := u32 (start_addr (cfg w) + pos (state w) * page) in
  _ ← upd_wl (with_dummy dummy);
  _ ← wl_flash_erase_raw dummy page;
  _ ← pfor 0 (Z.to_nat copy_count) (fun i =>
        bs ← wl_flash_read_int (u32 (data_addr + i * tmp)) tmp;
        wl_flash_write_int (u32 (dummy + i * tmp)) bs);
  _ ← wl_flash_write_int (mark_addr (addr_state1 w) w (pos (state w))) [1];
  wl_flash_write_int (mark_addr (addr_state2 w) w (pos (state w))) [1].

(** Second half: advance the dummy; on wrap-around rotate the mapping and
    rewrite both state areas. *)
Definition updatewl_advance : wl unit :=
  _ ← upd_wl (fun w => with_state (set_pos (u32 (pos (state w) + 1)) (state w)) w);
  w ← get_wl;
  if max_pos (state w) <=? pos (state w) then
    _ ← upd_wl (fun w =>
          let m := u32 (move_count (state w) + 1) in
          let m := if u32 (max_pos (state w) - 1) <=? m then 0 else m in
          refresh_crc (with_state (set_move_count m (set_pos 0 (state w))) w));
    _ ← store_state (addr_state1 w);
    store_state (addr_state2 w)
  else mret tt.

Definition wl_flash_updatewl : wl unit := _ ← updatewl_move; updatewl_advance.

Definition wl_flash_erase_sector (sector : Z) : wl unit :=
  _ ← wl_flash_updatewl;
  w ← get_wl;
  let virt_addr := wl_flash_calc_addr w (u32 (sector * sector_size (cfg w))) in
  flash_erase_int (u32 (start_addr (cfg w) + virt_addr)) (sector_size (cfg w)).

Definition wl_flash_erase_range (start_address size : Z) : wl unit :=
  w ← get_wl;
  let erase_count := u32 (size + sector_size (cfg w) - 1) / sector_size (cfg w) in
  let start_sector := start_address / sector_size (cfg w) in
  pfor 0 (Z.to_nat erase_count) (fun i => wl_flash_erase_sector (u32 (start_sector + i))).

Definition wl_flash_write (dest_addr : Z) (src : bytes) (size : Z) : wl unit :=
  w ← get_wl;
  let page := page_size (cfg w) in
  let count := u32 (size - 1) / page in
  let chunk i n := slice (Z.to_nat (i * page)) (Z.to_nat n) src in
  let at_ i := u32 (start_addr (cfg w) + wl_flash_calc_addr w (u32 (dest_addr + i * page))) in
  _ ← pfor 0 (Z.to_nat count) (fun i => wl_flash_write_int (at_ i) (chunk i page));
  wl_flash_write_int (at_ count) (chunk count (size - count * page)).

(** The bytes of pages [i .. i+n) of the request, in order. *)
Fixpoint read_loop (src_addr i : Z) (n : nat) : wl bytes :=
  match n with
  | O => mret []
  | S n =>
      w ← get_wl;
      let page := page_size (cfg w) in
      bs ← wl_flash_read_int
             (u32 (start_addr (cfg w) + wl_flash_calc_addr w (u32 (src_addr + i * page)))) page;
      rest ← read_loop src_addr (i + 1) n;
      mret (bs ++ rest)
  end.

Definition wl_flash_read (src_addr size : Z) : wl bytes :=
  w ← get_wl;
  let page := page_size (cfg w) in
  if 1 <=? size then
    let count := (size - 1) / page in
    bs ← read_loop src_addr 0 (Z.to_nat count);
    last ← wl_flash_read_int
             (u32 (start_addr (cfg w) + wl_flash_calc_addr w (u32 (src_addr + count * page))))
             (size - count * page);
    mret (bs ++ last)
  else pfail (-1).

(** ** Mounting *)
Definition read_state (addr : Z) : wl wl_state_t :=
  bs ← wl_flash_read_int addr sizeof_wl_state; mret (parse_state bs).

Definition set_state (s : wl_state_t) : wl unit := upd_wl (with_state s).

(** Copy the marks that are set from one state area to the other. *)
Definition copy_marks (from to : Z) : wl unit :=
  w ← get_wl;
  pfor 0 (Z.to_nat (u32 (full_mem_size (cfg w) / sector_size (cfg w) * wr_size (cfg w)) / 8))
    (fun i =>
      bs ← wl_flash_read_int (u32 (from + sizeof_wl_state + i)) 1;
      if nth 0 bs 0 =? 0xff then mret tt
      else wl_flash_write_int (u32 (to + sizeof_wl_state + i)) bs).

(** Rebuild the area [to] from the state [s] and the marks of the area [from]. *)
Definition rebuild_area (s : wl_state_t) (from to : Z) : wl unit :=
  w ← get_wl;
  _ ← wl_flash_erase_raw to (state_size w);
  _ ← wl_flash_write_int to (state_bytes s);
  copy_marks from to.

(** Sizes and addresses of the areas, from the configuration. *)
Definition layout (w : wl_flash) : wl_flash :=
  let c := cfg w in
  let sec := sector_size c in
  let need := u32 (sizeof_wl_state + u32 (full_mem_size c / sec * wr_size c) / 8) in
  let st := if sec <? need then u32 (u32 (need + sec - 1) / sec * sec) else sec in
  let cs := u32 (u32 (sizeof_wl_config + sec - 1) / sec * sec) in
  WlFlash (state w) c
    (u32 (start_addr c + full_mem_size c - cs))
    (u32 (start_addr c + full_mem_size c - st * 2 - cs))
    (u32 (start_addr c + full_mem_size c - st * 1 - cs))
    (u32 (u32 (u32 (full_mem_size c - st * 2 - cs) / page_size c - 1) * page_size c))
    st cs (temp_buff w) (dummy_addr w).

(** Everything after the areas have been located. *)
Definition wl_recover : wl unit :=
  w ← get_wl;
  s1 ← read_state (addr_state1 w);
  _ ← set_state s1;
  sa_copy ← read_state (addr_state2 w);
  let crc1 := wl_calculate_crc (state_body s1) in
  let crc2 := wl_calculate_crc (state_body sa_copy) in
  let ok1 := crc1 =? s_crc s1 in
  let ok2 := crc2 =? s_crc sa_copy in
  let version := c_version (cfg w) in
  if ok1 && ok2 then
    if negb (s_version s1 =? version) then
      _ ← wl_flash_init_sections; wl_flash_recover_pos
    else
      _ ← (if negb (crc1 =? crc2)
           then rebuild_area s1 (addr_state1 w) (addr_state2 w) else mret tt);
      wl_flash_recover_pos
  else if negb ok1 && negb ok2 then
    _ ← wl_flash_init_sections; wl_flash_recover_pos
  else
    _ ← (if ok1 then
           _ ← rebuild_area s1 (addr_state1 w) (addr_state2 w);
           s ← read_state (addr_state2 w);
           set_state s
         else
           _ ← rebuild_area sa_copy (addr_state2 w) (addr_state1 w);
           s ← read_state (addr_state1 w);
           set_state (set_pos (u32 (max_pos s - 1)) s));
    w ← get_wl;
    if negb (s_version (state w) =? version) then wl_flash_init_sections else mret tt.

(** The [error:] label releases the buffer. *)
Definition release_on_error (m : wl unit) : wl unit := fun s =>
  match m s with
  | (Err c, s') =>
      (Err c, (match temp_buff s'.1 with
               | BufNull => s'.1
               | _ => with_temp_buff BufFreed s'.1
               end, s'.2))
  | r => r
  end.

(** [alloc] tells whether [sys_malloc] returned a buffer. *)
Definition wl_flash_config (alloc : bool) : wl unit :=
  release_on_error (
    _ ← upd_wl (fun w => with_cfg (set_cfg_crc (wl_calculate_crc (config_body (cfg w))) (cfg w)) w);
    w ← get_wl;
    if negb (sector_size (cfg w) mod temp_buff_size (cfg w) =? 0) then pfail (-1)
    else if page_size (cfg w) <? sector_size (cfg w) then pfail (-1)
    else
      _ ← upd_wl (with_temp_buff (if alloc then BufLive else BufNull));
      if negb alloc then pfail (-1)
      else
        _ ← upd_wl layout;
        wl_recover).

(** ** The block layer, [fatfs.c] *)
Definition FATFS_SECTOR_SIZE : Z := 0x1000.
Definition RES_ERROR : Z := 1.

Definition to_res (m : wl unit) : wl unit := fun s =>
  match m s with (Err _, s') => (Err RES_ERROR, s') | r => r end.

Definition fs_flash_write (sector : Z) (buff : bytes) (count : Z) : wl unit :=
  w ← get_wl;
  if flash_size w <? u32 (sector * FATFS_SECTOR_SIZE) then pfail RES_ERROR
  else
    _ ← to_res (wl_flash_erase_range (u32 (sector * FATFS_SECTOR_SIZE))
                  (u32 (count * FATFS_SECTOR_SIZE)));
    to_res (wl_flash_write (u32 (sector * FATFS_SECTOR_SIZE)) buff
              (u32 (count * FATFS_SECTOR_SIZE))).

(** [total] is FATFS_FLASH_TOTAL_SIZE, that is FATFS_FULL_MEM_SIZE. *)
Definition fs_flash_read (total sector count : Z) : wl bytes :=
  if total <? u32 (sector * FATFS_SECTOR_SIZE) then pfail RES_ERROR
  else fun s =>
    match wl_flash_read (u32 (sector * FATFS_SECTOR_SIZE)) (u32 (count * FATFS_SECTOR_SIZE)) s with
    | (Err _, s') => (Err RES_ERROR, s')
    | r => r
    end.
End wear_levelling.

(** ** The address mapping *)

(** Geometry that no operation changes: [N] virtual pages in [N + 1] physical
    ones, then the two state areas and the configuration area. *)
Record layout_ok (size : Z) (w : wl_flash) (N : Z) : Prop := LayoutOk {
  l_sector : 0 < sector_size (cfg w) /\ sector_size (cfg w) mod SPI_FLASH_SEC_SIZE = 0;
  l_page : 0 < page_size (cfg w) /\ page_size (cfg w) mod sector_size (cfg w) = 0;
  l_tmp : 0 < temp_buff_size (cfg w) /\ page_size (cfg w) mod temp_buff_size (cfg w) = 0;
  l_start : 0 <= start_addr (cfg w) /\ start_addr (cfg w) mod SPI_FLASH_SEC_SIZE = 0;
  l_flash : 0 < N /\ flash_size w = N * page_size (cfg w);
  l_state1 : start_addr (cfg w) + (N + 1) * page_size (cfg w) <= addr_state1 w
             /\ addr_state1 w mod SPI_FLASH_SEC_SIZE = 0;
  l_state2 : addr_state1 w + state_size w <= addr_state2 w
             /\ addr_state2 w mod SPI_FLASH_SEC_SIZE = 0;
  l_state : state_size w mod sector_size (cfg w) = 0 /\ sizeof_wl_state + (N + 1) <= state_size w;
  l_cfg : addr_state2 w + state_size w <= addr_cfg w /\ addr_cfg w mod SPI_FLASH_SEC_SIZE = 0
          /\ sizeof_wl_config <= cfg_size w /\ cfg_size w mod sector_size (cfg w) = 0
          /\ addr_cfg w + cfg_size w <= size;
  l_size : size <= 2 ^ 31;
  l_wr : wr_size (cfg w) = 8;
}.

(** The dummy page and rotation are in range. *)
Record pos_ok (w : wl_flash) (N : Z) : Prop := PosOk {
  p_max : max_pos (state w) = N + 1;
  p_pos : 0 <= pos (state w) <= N;
  p_move : 0 <= move_count (state w) < N;
}.

(** Physical page of virtual page [q]. *)
Definition phys_page (w : wl_flash) (N q : Z) : Z :=
  let k := (q - move_count (state w)) mod N in
  if decide (pos (state w) <= k) then k + 1 else k.

Lemma scaled_mod a p r n : 0 < p -> 0 < n -> 0 <= r < p -> (a * p + r) mod (n * p) = a mod n * p + r.
Proof.
  intros Hp Hn Hr. symmetry. apply Z.mod_unique_pos with (q := a / n).
  - pose proof (Z.mod_pos_bound a n Hn). nia.
  - pose proof (Z.div_mod a n). nia.
Qed.

Lemma page_split p k r : 0 < p -> 0 <= r < p -> (k * p + r) / p = k /\ (k * p + r) mod p = r.
Proof.
  intros Hp Hr. rewrite Z.add_comm, Z.div_add, Z.div_small, Z_mod_plus_full, Z.mod_small by lia. lia.
Qed.

Section mapping.
Context (size : Z) (w : wl_flash) (N : Z).
Context (L : layout_ok size w N) (P : pos_ok w N).
Abbreviation page := (page_size (cfg w)).

Lemma layout_bound : (N + 1) * page <= 2 ^ 31 /\ start_addr (cfg w) + (N + 1) * page <= 2 ^ 31.
Proof. destruct L as [? ? ? ? ? ? ? ? ? ? ?]. unfold sizeof_wl_state, sizeof_wl_config in *. lia. Qed.

(** The code's arithmetic computes the page mapping, without overflow. *)
Lemma calc_addr_page addr :
  0 <= addr <= flash_size w ->
  wl_flash_calc_addr w addr = phys_page w N (addr / page) * page + addr mod page.
Proof.
  intros Ha. pose proof layout_bound as [Hb _].
  destruct L as [_ [Hp _] _ _ [HN Hf] _ _ _ _ _ _]. destruct P as [Hmax Hpos Hmc].
  unfold wl_flash_calc_addr, phys_page. rewrite Hf in *.
  rewrite (u32_small (N * page - _ + addr)) by (unfold in_width; nia).
  rewrite (u32_small (pos _ * _)) by (unfold in_width; nia).
  pose proof (Z.div_mod addr page ltac:(lia)) as Hq.
  pose proof (Z.mod_pos_bound addr page Hp) as Hr.
  set (q := addr / page) in *. set (r := addr mod page) in *.
  replace (N * page - move_count (state w) * page + addr)
    with ((q - move_count (state w) + 1 * N) * page + r) by lia.
  rewrite scaled_mod by lia. rewrite Z_mod_plus_full.
  set (k := (q - move_count (state w)) mod N).
  assert (Hk : 0 <= k < N) by (apply Z.mod_pos_bound; lia).
  destruct (Z.leb_spec (pos (state w) * page) (k * page + r)).
  - rewrite decide_True by nia. rewrite u32_small by (unfold in_width; nia). lia.
  - rewrite decide_False by nia. lia.
Qed.

Lemma phys_page_range q : 0 <= phys_page w N q <= N /\ phys_page w N q <> pos (state w).
Proof.
  destruct P as [Hmax Hpos Hmc]. destruct L as [_ _ _ _ [HN _] _ _ _ _ _ _].
  unfold phys_page. pose proof (Z.mod_pos_bound (q - move_count (state w)) N HN).
  case_decide; lia.
Qed.

Lemma phys_page_inj q q' :
  0 <= q < N -> 0 <= q' < N -> phys_page w N q = phys_page w N q' -> q = q'.
Proof.
  destruct P as [Hmax Hpos Hmc]. destruct L as [_ _ _ _ [HN _] _ _ _ _ _ _].
  intros Hq Hq' E. unfold phys_page in E.
  assert (Ek : (q - move_count (state w)) mod N = (q' - move_count (state w)) mod N).
  { repeat case_decide; lia. }
  assert (E0 : (q - q') mod N = 0).
  { replace (q - q') with (q - move_count (state w) - (q' - move_count (state w))) by lia.
    rewrite Zminus_mod, Ek, Z.sub_diag. apply Zmod_0_l. }
  apply Z.mod_divide in E0 as [c Hc]; [|lia].
  assert (c < 1) by nia. assert (-1 < c) by nia. assert (c = 0) as -> by lia. lia.
Qed.
End mapping.

(** the virtual-to-physical mapping is a bijection onto the pages other
    than the dummy: every virtual address is translated, without 32-bit
    overflow, to an address of the data area that keeps its offset in the
    page and avoids the dummy page, and distinct addresses stay distinct. *)
Theorem wl_flash_calc_addr_bijective size w N a b :
  layout_ok size w N -> pos_ok w N ->
  0 <= a < flash_size w -> 0 <= b < flash_size w ->
  let pa := wl_flash_calc_addr w a in
  0 <= pa < (N + 1) * page_size (cfg w) /\
  pa mod page_size (cfg w) = a mod page_size (cfg w) /\
  pa / page_size (cfg w) <> pos (state w) /\
  (pa = wl_flash_calc_addr w b -> a = b).
Proof.
  intros L P Ha Hb pa. subst pa. pose proof L as [_ [Hp _] _ _ [HN Hf] _ _ _ _ _ _].
  rewrite !(calc_addr_page size w N L P) by lia.
  pose proof (phys_page_range size w N L P (a / page_size (cfg w))) as [Hr Hne].
  pose proof (Z.mod_pos_bound a _ Hp). pose proof (Z.mod_pos_bound b _ Hp).
  set (page := page_size (cfg w)) in *.
  destruct (page_split page (phys_page w N (a / page)) (a mod page)) as [-> ->]; [lia..|].
  split_and!; [nia|nia|done|done|]. intros E.
  assert (E1 : a mod page = b mod page /\ phys_page w N (a / page) = phys_page w N (b / page)).
  { destruct (page_split page (phys_page w N (a / page)) (a mod page)) as [Ea1 Ea2]; [lia..|].
    destruct (page_split page (phys_page w N (b / page)) (b mod page)) as [Eb1 Eb2]; [lia..|].
    rewrite E in Ea1, Ea2. split; congruence. }
  destruct E1 as [E1 E2]. apply (phys_page_inj size w N L P) in E2;
    [|split; [apply Z.div_pos|apply Z.div_lt_upper_bound]; lia..].
  rewrite (Z.div_mod a page), (Z.div_mod b page) by lia. lia.
Qed.

(** Addresses past the virtual size are not refused by the translation: the
    first address past the end translates like address 0. *)
Lemma calc_addr_aliases size w N :
  layout_ok size w N -> pos_ok w N ->
  wl_flash_calc_addr w (flash_size w) = wl_flash_calc_addr w 0.
Proof.
  intros L P. pose proof L as [_ [Hp _] _ _ [HN Hf] _ _ _ _ _ _].
  rewrite !(calc_addr_page size w N L P) by nia. rewrite Hf.
  rewrite Z.div_mul, Z_mod_mult, Z.div_0_l, Z.mod_0_l by lia.
  unfold phys_page. replace (N - move_count (state w)) with (0 - move_count (state w) + 1 * N) by lia.
  by rewrite Z_mod_plus_full.
Qed.
