(* ===== verification/WearLevelView.v ===== *)
(** * The wear-levelling layer implements a plain array

    [view s v] is the byte at virtual address [v].  The theorems say that
    moving the dummy page does not change the view, that erase, write and read
    act on the view as on a plain flash of [flash_size] bytes, and that a
    remount finds the same view. *)
From S2P Require Import Prelude Prog Flash WearLevel.

(** Bytes [dummy, dummy + n) replaced by those at [data]. *)
Definition copied (f : Z -> Z) (data dummy n x : Z) : Z :=
  if decide (dummy <= x < dummy + n) then f (x - dummy + data) else f x.

Lemma erased_erased f a n m x : 0 <= n -> 0 <= m ->
  erased (erased f a n) (a + n) m x = erased f a (n + m) x.
Proof. intros. unfold erased. repeat case_decide; try done; lia. Qed.

Lemma erased_ext f g a n x : f x = g x -> erased f a n x = erased g a n x.
Proof. unfold erased. by intros ->. Qed.

Lemma land_ff b : is_u8 b -> Z.land 0xFF b = b.
Proof.
  intros Hb. rewrite Z.land_comm. change 255 with (Z.ones 8).
  rewrite Z.land_ones by lia. by apply Z.mod_small.
Qed.

Lemma mod_add_mul a k n m : 0 < n -> 0 < m -> m mod n = 0 -> a mod n = 0 -> (a + k * m) mod n = 0.
Proof.
  intros Hn Hm Hmn Ha. apply Z.mod_divide in Hmn, Ha; try lia. apply Z.mod_divide; [lia|].
  apply Z.divide_add_r; [done|]. by apply Z.divide_mul_r.
Qed.

Lemma mod_trans a n m : 0 < n -> 0 < m -> m mod n = 0 -> a mod m = 0 -> a mod n = 0.
Proof.
  intros Hn Hm H1 H2. apply Z.mod_divide in H1, H2; try lia. apply Z.mod_divide; [lia|].
  by apply (Z.divide_trans n m a).
Qed.

Lemma div_exact' a n : 0 < n -> a mod n = 0 -> a / n * n = a.
Proof. intros Hn Ha. pose proof (Z.div_mod a n). lia. Qed.

Section proofs.
Context {D : Type} `{FlashDev D} `{!FlashLaws D} (size : Z) `{!FlashReliable D size}.
Context (wl_crc : bytes -> Z).
Implicit Types (w : wl_flash) (d : D) (a x n N v : Z) (bs : bytes).

Lemma cells_nth d a (n i : nat) : (i < n)%nat -> nth i (cells d a n) 0 = cell d (a + Z.of_nat i).
Proof. intros Hi. rewrite nth_lookup, cells_lookup by done. done. Qed.

Lemma succ_get {A} w d (k : wl_flash -> prog (wl_flash * D) A) Q :
  succeeds (k w) (w, d) Q -> succeeds (get_wl ≫= k) (w, d) Q.
Proof. done. Qed.

Lemma succ_upd {A} w d f (k : unit -> prog (wl_flash * D) A) Q :
  succeeds (k tt) (f w, d) Q -> succeeds (upd_wl f ≫= k) (w, d) Q.
Proof. done. Qed.

Lemma succ_read w d a n (Q : bytes -> wl_flash * D -> Prop) :
  0 <= a -> 0 < n -> a + n <= size -> Q (cells d a (Z.to_nat n)) (w, d) ->
  succeeds (wl_flash_read_int a n) (w, d) Q.
Proof.
  intros Ha Hn He HQ. unfold succeeds, wl_flash_read_int. simpl.
  pose proof (read_ok d a n Ha Hn He) as Hr. destruct (flash_read d a n) as [r bs] eqn:E.
  simpl in Hr. subst r. apply read_cells in E; [|lia]. by subst.
Qed.

Lemma succ_write w d a bs (Q : unit -> wl_flash * D -> Prop) :
  0 <= a -> bs <> [] -> a + Z.of_nat (length bs) <= size ->
  (forall d', (forall x, cell d' x = programmed (cell d) a bs x) -> Q tt (w, d')) ->
  succeeds (wl_flash_write_int a bs) (w, d) Q.
Proof.
  intros Ha Hn He HQ. unfold succeeds, wl_flash_write_int. simpl.
  pose proof (write_ok d a bs Ha Hn He) as Hr. destruct (flash_write d a bs) as [r d'] eqn:E.
  simpl in Hr. subst r. apply HQ. intros x. by apply write_cells.
Qed.

Lemma succ_erase w d a n (Q : unit -> wl_flash * D -> Prop) :
  0 <= a -> 0 < n -> a + n <= size -> sector_range a n ->
  (forall d', (forall x, cell d' x = erased (cell d) a n x) -> Q tt (w, d')) ->
  succeeds (flash_erase_int a n) (w, d) Q.
Proof.
  intros Ha Hn He Hs HQ. unfold succeeds, flash_erase_int. simpl.
  pose proof (erase_ok d a n Ha Hn He) as Hr. destruct (flash_erase d a n) as [r d'] eqn:E.
  simpl in Hr. subst r. apply HQ. intros x. by apply erase_cells.
Qed.

Lemma succ_erase_raw w d N a n (Q : unit -> wl_flash * D -> Prop) :
  layout_ok size w N -> a mod SPI_FLASH_SEC_SIZE = 0 -> n mod sector_size (cfg w) = 0 ->
  0 <= a -> 0 <= n -> a + n <= size ->
  (forall d', (forall x, cell d' x = erased (cell d) a n x) -> Q tt (w, d')) ->
  succeeds (wl_flash_erase_raw a n) (w, d) Q.
Proof.
  intros L Hal Hn Ha Hn0 He HQ.
  pose proof (l_sector _ _ _ L) as [Hs Hsm]. pose proof (l_size _ _ _ L) as Hsz.
  set (sec := sector_size (cfg w)) in *. pose proof (div_exact' n sec Hs Hn) as Hk.
  assert (Hk0 : 0 <= n / sec) by (by apply Z.div_pos).
  unfold wl_flash_erase_raw. apply succ_get. fold sec. eapply succeeds_mono.
  - apply (succeeds_for (fun i s => s.1 = w /\
      forall x, cell s.2 x = erased (cell d) a (Z.of_nat i * sec) x)).
    + split; [done|]. intros x. simpl. unfold erased. by rewrite decide_False by lia.
    + intros i [w' d'] Hi [Hw Hd]. simpl in Hw, Hd. subst w'. rewrite Z.add_0_l.
      assert (Hle : Z.of_nat (S i) * sec <= n) by nia.
      rewrite u32_small by (unfold in_width; nia).
      apply succ_erase; [nia|done|nia| |].
      * split; [|done]. apply mod_add_mul; done.
      * intros d'' Hd''. split; [done|]. intros x. simpl. rewrite Hd''.
        rewrite (erased_ext _ _ _ _ _ (Hd x)), erased_erased by nia. f_equal. lia.
  - intros [] [w' d'] [Hw Hd]. simpl in Hw, Hd. subst w'. apply HQ. intros x. rewrite Hd.
    f_equal. lia.
Qed.

Lemma copied_step f g a b n m bs x :
  (forall y, g y = copied f a b n y) -> 0 <= n -> 0 <= m ->
  (forall i, 0 <= i < m -> nth (Z.to_nat i) bs 0 = f (a + n + i)) ->
  (forall y, is_u8 (f y)) -> Z.of_nat (length bs) = m ->
  (forall y, b + n <= y < b + n + m -> f y = 0xFF) ->
  programmed g (b + n) bs x = copied f a b (n + m) x.
Proof.
  intros Hg Hn Hm Hbs Hu Hl Hff. unfold programmed. rewrite Hl.
  destruct (decide (b + n <= x < b + n + m)) as [Hx|Hx].
  - rewrite Hg. unfold copied. rewrite decide_False by lia. rewrite decide_True by lia.
    rewrite Hff by done. rewrite Hbs by lia. rewrite land_ff by done. f_equal. lia.
  - rewrite Hg. unfold copied. by repeat case_decide; try lia.
Qed.

(** The copy loop of [updatewl_move] over an erased dummy page. *)
Lemma succ_copy w d data dummy tmp k (Q : unit -> wl_flash * D -> Prop) :
  0 < tmp -> 0 <= k -> 0 <= data -> 0 <= dummy -> size <= 2 ^ 31 ->
  data + k * tmp <= size -> dummy + k * tmp <= size ->
  data + k * tmp <= dummy \/ dummy + k * tmp <= data ->
  (forall y, dummy <= y < dummy + k * tmp -> cell d y = 0xFF) ->
  (forall d', (forall x, cell d' x = copied (cell d) data dummy (k * tmp) x) -> Q tt (w, d')) ->
  succeeds (pfor 0 (Z.to_nat k) (fun i =>
    bs ← wl_flash_read_int (u32 (data + i * tmp)) tmp;
    wl_flash_write_int (u32 (dummy + i * tmp)) bs)) (w, d) Q.
Proof.
  intros Ht Hk Ha Hb Hsz Ha2 Hb2 Hdis Hff HQ. eapply succeeds_mono.
  - apply (succeeds_for (fun i s => s.1 = w /\
      forall x, cell s.2 x = copied (cell d) data dummy (Z.of_nat i * tmp) x)).
    + split; [done|]. intros x. simpl. unfold copied. by rewrite decide_False by lia.
    + intros i [w' d'] Hi [Hw Hd]. simpl in Hw, Hd. subst w'. rewrite Z.add_0_l.
      assert (Hle : (Z.of_nat i + 1) * tmp <= k * tmp) by (apply Z.mul_le_mono_nonneg_r; lia).
      assert (Hle0 : 0 <= Z.of_nat i * tmp) by (apply Z.mul_nonneg_nonneg; lia).
      rewrite !u32_small by (unfold in_width; lia).
      pstep. apply succ_read; [lia|done|lia|].
      assert (Hlen : length (cells d' (data + Z.of_nat i * tmp) (Z.to_nat tmp)) = Z.to_nat tmp)
        by apply length_cells.
      apply succ_write; [lia| |lia|].
      * intros E. rewrite E in Hlen. simpl in Hlen. lia.
      * intros d'' Hd''. split; [done|]. intros x. simpl. rewrite Hd''.
        rewrite (copied_step (cell d) _ data dummy (Z.of_nat i * tmp) tmp);
          [f_equal; lia|done|lia|lia| |intros; apply cell_u8|lia|intros; apply Hff; lia].
        intros j Hj. rewrite cells_nth by lia. rewrite Hd. unfold copied.
        rewrite decide_False by lia. f_equal. lia.
  - intros [] [w' d'] [Hw Hd]. simpl in Hw, Hd. subst w'. apply HQ. intros x. rewrite Hd.
    f_equal. lia.
Qed.

(** *** Moving the dummy page *)
Definition next_page w N : Z := if decide (pos (state w) < N) then pos (state w) + 1 else 0.
Definition page_addr w k : Z := start_addr (cfg w) + k * page_size (cfg w).
Definition mark w area : Z := area + sizeof_wl_state + pos (state w).

(** The device after [updatewl_move]. *)
Definition moved w N (f : Z -> Z) (x : Z) : Z :=
  if decide (x = mark w (addr_state1 w) \/ x = mark w (addr_state2 w)) then Z.land (f x) 1
  else copied f (page_addr w (next_page w N)) (page_addr w (pos (state w))) (page_size (cfg w)) x.

Lemma mod_ge a n : 0 < n -> 0 < a -> a mod n = 0 -> n <= a.
Proof. intros Hn Ha E. apply Z.mod_divide in E; [|lia]. by apply Z.divide_pos_le. Qed.

Lemma layout_facts w N : layout_ok size w N ->
  SPI_FLASH_SEC_SIZE <= page_size (cfg w) /\ 0 < N /\ 0 <= start_addr (cfg w) /\
  start_addr (cfg w) + (N + 1) * page_size (cfg w) <= addr_state1 w /\
  addr_state1 w + sizeof_wl_state + N + 1 <= addr_state2 w /\
  addr_state2 w + sizeof_wl_state + N + 1 <= size /\ size <= 2 ^ 31 /\ N + 1 <= 2 ^ 19.
Proof.
  intros [[Hs Hsm] [Hp Hpm] ? ? ? ? ? ? ? ? ?]. unfold sizeof_wl_state, sizeof_wl_config in *.
  apply mod_ge in Hpm; [|done|done]. apply mod_ge in Hsm; [|done|done].
  pose proof (Z.mul_le_mono_nonneg_l SPI_FLASH_SEC_SIZE (page_size (cfg w)) (N + 1)).
  unfold SPI_FLASH_SEC_SIZE in *. repeat split; lia.
Qed.

Lemma page_addr_range w N k :
  layout_ok size w N -> 0 <= k <= N ->
  0 <= page_addr w k /\ page_addr w k + page_size (cfg w) <= addr_state1 w.
Proof.
  intros L Hk. pose proof (layout_facts w N L) as (Hp & HN & Hs & H1 & _).
  pose proof (Z.mul_le_mono_nonneg_r k N (page_size (cfg w))).
  pose proof (Z.mul_nonneg_nonneg k (page_size (cfg w))). unfold page_addr, SPI_FLASH_SEC_SIZE in *. lia.
Qed.

Lemma mark_addr_ok w N area :
  layout_ok size w N -> pos_ok w N -> 0 <= area -> area + sizeof_wl_state + N + 1 <= size ->
  forall i, 0 <= i <= N -> mark_addr area w i = area + sizeof_wl_state + i.
Proof.
  intros L P Ha He i Hi. pose proof (layout_facts w N L) as (Hp & HN & Hs & H1 & H2 & H3 & H4 & H5).
  unfold mark_addr. rewrite (l_wr _ _ _ L). unfold sizeof_wl_state, SPI_FLASH_SEC_SIZE in *.
  rewrite (u32_small (i * 8)) by (unfold in_width; nia). rewrite Z.div_mul by lia.
  apply u32_small. unfold in_width. lia.
Qed.

Lemma programmed_1 f a b x :
  programmed f a [b] x = if decide (x = a) then Z.land (f x) b else f x.
Proof.
  unfold programmed. simpl length. destruct (decide (x = a)) as [->|].
  - rewrite decide_True by lia. by rewrite Z.sub_diag.
  - by rewrite decide_False by lia.
Qed.

Lemma succ_move w d N (Q : unit -> wl_flash * D -> Prop) :
  layout_ok size w N -> pos_ok w N ->
  (forall d', (forall x, cell d' x = moved w N (cell d) x) ->
    Q tt (with_dummy (page_addr w (pos (state w))) w, d')) ->
  succeeds updatewl_move (w, d) Q.
Proof.
  intros L P HQ. pose proof (layout_facts w N L) as (Hp & HN & Hs & H1 & H2 & H3 & H4 & H5).
  assert (Hp0 : 0 < page_size (cfg w)) by (unfold SPI_FLASH_SEC_SIZE in Hp; lia).
  pose proof P as [Hmax Hpos _].
  pose proof (page_addr_range w N (pos (state w)) L Hpos) as [Hd0 Hd1].
  assert (Hnext : 0 <= next_page w N <= N) by (unfold next_page; case_decide; lia).
  pose proof (page_addr_range w N _ L Hnext) as [Ha0 Ha1].
  assert (Hne : next_page w N <> pos (state w)) by (unfold next_page; case_decide; lia).
  assert (Hdis : page_addr w (next_page w N) + page_size (cfg w) <= page_addr w (pos (state w)) \/
                 page_addr w (pos (state w)) + page_size (cfg w) <= page_addr w (next_page w N))
    by (unfold page_addr in *; nia).
  pose proof (l_tmp _ _ _ L) as [Ht Htm]. pose proof (div_exact' _ _ Ht Htm) as Hcnt.
  unfold updatewl_move. apply succ_get.
  rewrite (u32_small (pos _ + 1)) by (unfold in_width; lia).
  replace (if max_pos (state w) <=? _ then 0 else _) with (next_page w N).
  2:{ unfold next_page. rewrite Hmax. case_decide; destruct (Z.leb_spec (N + 1) (pos (state w) + 1)); lia. }
  fold (page_addr w (next_page w N)) (page_addr w (pos (state w))). unfold sizeof_wl_state in *.
  rewrite !(u32_small (page_addr w _)) by (unfold in_width; lia).
  apply succ_upd. pstep. apply (succ_erase_raw _ _ N);
    [by destruct L; split| | |done|lia|lia|].
  { apply mod_add_mul; [done|done| |by destruct (l_start _ _ _ L)].
    destruct (l_page _ _ _ L), (l_sector _ _ _ L). by eapply mod_trans. }
  { by destruct (l_page _ _ _ L). }
  intros d1 Hd1'. pstep. apply succ_copy; rewrite ?Hcnt; [done|by apply Z.div_pos; lia|done|done|done
    |lia|lia|done| |].
  { intros y Hy. rewrite Hd1'. unfold erased. by rewrite decide_True. }
  intros d2 Hd2.
  assert (Hm : forall area, 0 <= area -> area + 24 + N + 1 <= size ->
    mark_addr area w (pos (state w)) = mark w area).
  { intros area ??. by apply (mark_addr_ok w N). }
  rewrite !Hm by lia. unfold mark, sizeof_wl_state in *.
  pstep. apply succ_write; [lia|done|simpl; lia|]. intros d3 Hd3.
  apply succ_write; [lia|done|simpl; lia|]. intros d4 Hd4. apply HQ. intros x.
  rewrite Hd4, programmed_1, Hd3, programmed_1, Hd2. unfold moved, copied, mark, sizeof_wl_state.
  rewrite !Hd1'. unfold erased. repeat case_decide; try done; try lia.
Qed.

(** *** The persistent state *)

(** A state area holds the state written at the last wrap (dummy at page 0)
    and one mark per move made since. *)
Definition area_ok w N d area : Prop :=
  cells d area 24 = state_bytes (set_pos 0 (state w)) /\
  forall i, 0 <= i <= N ->
    (cell d (area + sizeof_wl_state + i) = 0xFF <-> pos (state w) <= i).

Record state_wf w : Prop := StateWf {
  sw_version : s_version (state w) = c_version (cfg w) /\ is_u32 (c_version (cfg w));
  sw_block : is_u32 (block_size (state w));
  sw_crc : s_crc (state w) = wl_crc (state_body (set_pos 0 (state w))) /\ is_u32 (s_crc (state w));
}.

(** The invariant of a mounted volume. *)
Record mounted N (s : wl_flash * D) : Prop := Mounted {
  m_layout : layout_ok size s.1 N;
  m_pos : pos_ok s.1 N;
  m_state : state_wf s.1;
  m_area1 : area_ok s.1 N s.2 (addr_state1 s.1);
  m_area2 : area_ok s.1 N s.2 (addr_state2 s.1);
}.

(** The byte at a virtual address. *)
Definition view (s : wl_flash * D) (v : Z) : Z :=
  cell s.2 (start_addr (cfg s.1) + wl_flash_calc_addr s.1 v).

Lemma length_state_bytes st : length (state_bytes st) = 24%nat.
Proof. done. Qed.

Lemma state_bytes_ok st : bytes_ok (state_bytes st).
Proof. unfold state_bytes, state_body. rewrite !Forall_app. repeat split; apply le_ok. Qed.

Lemma area_ok_frame w N d d' area :
  (forall x, area <= x <= area + sizeof_wl_state + N -> cell d' x = cell d x) -> 0 < N ->
  area_ok w N d area -> area_ok w N d' area.
Proof.
  unfold sizeof_wl_state. intros E HN [H1 H2]. split.
  - rewrite <- H1. apply cells_ext. intros i Hi. apply E. lia.
  - unfold sizeof_wl_state. intros i Hi. rewrite E by lia. by apply H2.
Qed.

(** The device after [store_state]. *)
Definition stored (f : Z -> Z) (a n : Z) (bs : bytes) : Z -> Z := programmed (erased f a n) a bs.

Lemma stored_out f a n bs x :
  Z.of_nat (length bs) <= n -> ~ (a <= x < a + n) -> stored f a n bs x = f x.
Proof. intros. unfold stored, programmed, erased. by rewrite !decide_False by lia. Qed.

Lemma stored_data f a n bs i :
  bytes_ok bs -> (i < length bs)%nat -> Z.of_nat (length bs) <= n ->
  stored f a n bs (a + Z.of_nat i) = nth i bs 0.
Proof.
  intros Hb Hi Hn. unfold stored, programmed, erased. rewrite !decide_True by lia.
  replace (Z.to_nat (a + Z.of_nat i - a)) with i by lia. apply land_ff.
  rewrite Forall_forall in Hb. apply Hb. apply list_elem_of_In, nth_In. lia.
Qed.

Lemma stored_rest f a n bs x :
  a + Z.of_nat (length bs) <= x < a + n -> stored f a n bs x = 0xFF.
Proof.
  intros. unfold stored, programmed, erased. rewrite decide_False by lia.
  by rewrite decide_True by lia.
Qed.

Lemma succ_store w d N area (Q : unit -> wl_flash * D -> Prop) :
  layout_ok size w N -> 0 <= area -> area + state_size w <= size ->
  area mod SPI_FLASH_SEC_SIZE = 0 ->
  (forall d', (forall x, cell d' x = stored (cell d) area (state_size w) (state_bytes (state w)) x) ->
    Q tt (w, d')) ->
  succeeds (store_state area) (w, d) Q.
Proof.
  intros L Ha He Hal HQ. pose proof (l_state _ _ _ L) as [Hss Hsz]. unfold sizeof_wl_state in *.
  pose proof (l_flash _ _ _ L) as [HN _].
  unfold store_state. apply succ_get. pstep. apply (succ_erase_raw _ _ N); try done; [lia|].
  intros d1 Hd1. apply succ_write; [done|done|rewrite length_state_bytes; lia|].
  intros d2 Hd2. apply HQ. intros x. rewrite Hd2. unfold stored, programmed. by rewrite !Hd1.
Qed.

(** A freshly stored area is well formed for a state at position 0. *)
Lemma stored_area_ok w N d f area :
  layout_ok size w N -> pos (state w) = 0 ->
  (forall x, area <= x < area + state_size w ->
    cell d x = stored f area (state_size w) (state_bytes (state w)) x) ->
  area_ok w N d area.
Proof.
  intros L Hp E. pose proof (l_state _ _ _ L) as [_ Hsz]. unfold sizeof_wl_state in *.
  pose proof (l_flash _ _ _ L) as [HN _]. split.
  - replace (set_pos 0 (state w)) with (state w) by (destruct (state w); simpl in *; by subst).
    apply list_eq. intros i. destruct (decide (i < 24)%nat) as [Hi|Hi].
    + rewrite cells_lookup by done. rewrite E by lia.
      rewrite stored_data by (rewrite ?length_state_bytes; try apply state_bytes_ok; lia).
      rewrite nth_lookup. destruct (lookup_lt_is_Some_2 (state_bytes (state w)) i Hi) as [b ->]. done.
    + rewrite !lookup_ge_None_2; [done| |]; rewrite ?length_state_bytes, ?length_cells; lia.
  - intros i Hi. unfold sizeof_wl_state. rewrite E by lia.
    rewrite stored_rest by (rewrite length_state_bytes; lia). lia.
Qed.

(** *** [wl_flash_updatewl] keeps the invariant and the view *)
Definition rotated w N : wl_flash :=
  refresh_crc wl_crc (with_state
    (set_move_count (if decide (move_count (state w) + 1 < N) then move_count (state w) + 1 else 0)
       (set_pos 0 (state w))) w).

Definition both_stored w (f : Z -> Z) : Z -> Z :=
  stored (stored f (addr_state1 w) (state_size w) (state_bytes (state w)))
    (addr_state2 w) (state_size w) (state_bytes (state w)).

Lemma layout_with_state w N st : layout_ok size w N -> layout_ok size (with_state st w) N.
Proof. by destruct 1; split. Qed.

Lemma layout_with_dummy w N a : layout_ok size w N -> layout_ok size (with_dummy a w) N.
Proof. by destruct 1; split. Qed.

Lemma succ_store_both w d N (Q : unit -> wl_flash * D -> Prop) :
  layout_ok size w N ->
  (forall d', (forall x, cell d' x = both_stored w (cell d) x) -> Q tt (w, d')) ->
  succeeds (_ ← store_state (addr_state1 w); store_state (addr_state2 w)) (w, d) Q.
Proof.
  intros L HQ. pose proof (layout_facts w N L) as (Hp & HN & Hs & H1 & H2 & H3 & H4 & H5).
  pose proof (l_state2 _ _ _ L) as [Hs2 Ha2]. pose proof (l_state1 _ _ _ L) as [_ Ha1].
  pose proof (l_cfg _ _ _ L) as (Hc1 & _ & Hc2 & _ & Hc3).
  pose proof (l_state _ _ _ L) as [_ Hz]. unfold sizeof_wl_state, sizeof_wl_config, SPI_FLASH_SEC_SIZE in *.
  pstep. apply (succ_store _ _ N); [done|lia|lia|done|]. intros d1 Hd1.
  apply (succ_store _ _ N); [done|lia|lia|done|]. intros d2 Hd2. apply HQ. intros x.
  rewrite Hd2. unfold both_stored, stored at 1 2, programmed. unfold erased at 1 2 4.
  by rewrite !Hd1.
Qed.

Lemma succ_advance w d N (Q : unit -> wl_flash * D -> Prop) :
  layout_ok size w N -> pos_ok w N ->
  (pos (state w) < N -> Q tt (with_state (set_pos (pos (state w) + 1) (state w)) w, d)) ->
  (pos (state w) = N -> forall d',
    (forall x, cell d' x = both_stored (rotated w N) (cell d) x) -> Q tt (rotated w N, d')) ->
  succeeds (updatewl_advance wl_crc) (w, d) Q.
Proof.
  intros L [Hmax Hpos Hmc] Hlt Heq.
  pose proof (layout_facts w N L) as (Hp & HN & Hs & H1 & H2 & H3 & H4 & H5).
  unfold updatewl_advance. apply succ_upd, succ_get. simpl.
  rewrite Hmax, (u32_small (pos _ + 1)) by (unfold in_width; lia).
  destruct (Z.leb_spec (N + 1) (pos (state w) + 1)); [|apply Hlt; lia].
  apply succ_upd. match goal with |- succeeds _ (?b, d) _ => replace b with (rotated w N) end.
  - apply (succ_store_both (rotated w N) d N); [|intros; apply Heq; [lia|done]].
    by repeat apply layout_with_state.
  - unfold rotated. simpl. rewrite Hmax.
    rewrite (u32_small (N + 1 - 1)), (u32_small (move_count _ + 1)) by (unfold in_width; lia).
    replace (if N + 1 - 1 <=? move_count (state w) + 1 then 0 else move_count (state w) + 1)
      with (if decide (move_count (state w) + 1 < N) then move_count (state w) + 1 else 0); [done|].
    case_decide; destruct (Z.leb_spec (N + 1 - 1) (move_count (state w) + 1)); lia.
Qed.

Lemma page_addr_eq w p k r r' :
  0 <= r < page_size (cfg w) -> 0 <= r' < page_size (cfg w) ->
  page_addr w k + r = page_addr w p + r' -> k = p.
Proof.
  intros Hr Hr' E. unfold page_addr in E.
  destruct (page_split (page_size (cfg w)) k r) as [<- _]; [lia..|].
  destruct (page_split (page_size (cfg w)) p r') as [<- _]; [lia..|]. f_equal. lia.
Qed.

(** The move redirects the dummy page to the page it was copied from. *)
Lemma moved_page w N f k r :
  layout_ok size w N -> pos_ok w N -> 0 <= k <= N -> 0 <= r < page_size (cfg w) ->
  moved w N f (page_addr w k + r) =
  f (page_addr w (if decide (k = pos (state w)) then next_page w N else k) + r).
Proof.
  intros L P Hk Hr. pose proof (page_addr_range w N k L Hk) as [Hk0 Hk1].
  pose proof (layout_facts w N L) as (Hp & HN & Hs & H1 & H2 & H3 & H4 & H5).
  pose proof (p_pos _ _ P) as Hpos.
  unfold moved, mark, copied, sizeof_wl_state in *. rewrite decide_False by lia.
  destruct (decide (k = pos (state w))) as [->|Hne].
  - rewrite decide_True by lia. f_equal. lia.
  - rewrite decide_False; [done|]. intros Hin. apply Hne.
    apply (page_addr_eq w _ _ r (page_addr w k + r - page_addr w (pos (state w)))); lia.
Qed.

Lemma phys_redirect_step w w' N q :
  pos (state w) < N -> pos (state w') = pos (state w) + 1 ->
  move_count (state w') = move_count (state w) ->
  (if decide (phys_page w' N q = pos (state w)) then next_page w N else phys_page w' N q)
  = phys_page w N q.
Proof.
  intros Hlt Ep Em. unfold phys_page, next_page. rewrite Ep, Em.
  rewrite (decide_True (P := pos (state w) < N)) by done. repeat case_decide; lia.
Qed.

Lemma phys_redirect_wrap w w' N q :
  0 < N -> 0 <= move_count (state w) < N -> pos (state w) = N -> pos (state w') = 0 ->
  move_count (state w') = (if decide (move_count (state w) + 1 < N) then move_count (state w) + 1 else 0) ->
  (if decide (phys_page w' N q = pos (state w)) then next_page w N else phys_page w' N q)
  = phys_page w N q.
Proof.
  intros HN Hmc Ep Ep' Em. unfold phys_page, next_page. rewrite Ep, Ep'.
  rewrite (decide_False (P := N < N)) by lia.
  set (k := (q - move_count (state w)) mod N).
  assert (Hk : 0 <= k < N) by (apply Z.mod_pos_bound; lia).
  assert (Ek : (q - move_count (state w')) mod N = (k - 1) mod N).
  { assert (E : exists t, q - move_count (state w') = k - 1 + t * N).
    { pose proof (Z.div_mod (q - move_count (state w)) N ltac:(lia)). fold k in H0. rewrite Em.
      case_decide; [exists ((q - move_count (state w)) / N)|exists ((q - move_count (state w)) / N + 1)];
        lia. }
    destruct E as [t ->]. by rewrite Z_mod_plus_full. }
  rewrite Ek. rewrite (decide_False (P := N <= k)) by lia.
  destruct (decide (k = 0)) as [->|].
  - replace (0 - 1) with (N - 1 + (-1) * N) by lia. rewrite Z_mod_plus_full, Z.mod_small by lia.
    repeat case_decide; lia.
  - rewrite Z.mod_small by lia. repeat case_decide; lia.
Qed.

Lemma view_page w d N v :
  layout_ok size w N -> pos_ok w N -> 0 <= v < flash_size w ->
  view (w, d) v =
    cell d (page_addr w (phys_page w N (v / page_size (cfg w))) + v mod page_size (cfg w)).
Proof.
  intros L P Hv. unfold view, page_addr. simpl. rewrite (calc_addr_page size w N L P) by lia.
  f_equal. lia.
Qed.

Lemma moved_high w N f x :
  layout_ok size w N -> pos_ok w N -> addr_state1 w <= x ->
  moved w N f x =
    if decide (x = mark w (addr_state1 w) \/ x = mark w (addr_state2 w))
    then Z.land (f x) 1 else f x.
Proof.
  intros L P Hx. pose proof (page_addr_range w N _ L (p_pos _ _ P)) as [Hd0 Hd1].
  unfold moved. case_decide; [done|]. unfold copied. by rewrite decide_False by lia.
Qed.

(** A move sets exactly the mark of the current position. *)
Lemma moved_area_ok w N d d' area :
  layout_ok size w N -> pos_ok w N -> (area = addr_state1 w \/ area = addr_state2 w) ->
  (forall x, cell d' x = moved w N (cell d) x) -> pos (state w) < N ->
  area_ok w N d area ->
  area_ok (with_state (set_pos (pos (state w) + 1) (state w)) w) N d' area.
Proof.
  intros L P Har Hd Hlt [Ha1 Ha2].
  pose proof (layout_facts w N L) as (Hp & HN & Hs & H1 & H2 & H3 & H4 & H5).
  unfold mark, sizeof_wl_state in *. split.
  - etrans; [|exact Ha1]. apply cells_ext. intros i Hi. rewrite Hd, (moved_high w N) by (done || lia).
    unfold mark, sizeof_wl_state. pose proof (p_pos _ _ P). by rewrite decide_False by lia.
  - intros i Hi. unfold sizeof_wl_state. rewrite Hd, (moved_high w N) by (done || lia).
    unfold mark, sizeof_wl_state. simpl. destruct (decide (i = pos (state w))) as [->|Hne].
    + rewrite decide_True by lia.
      rewrite (proj2 (Ha2 (pos (state w)) ltac:(lia))) by lia. change (Z.land 255 1) with 1. lia.
    + pose proof (p_pos _ _ P). rewrite decide_False by lia. rewrite Ha2 by done. lia.
Qed.

Hypothesis crc_u32 : forall bs, is_u32 (wl_crc bs).

Lemma state_wf_rotated w N : state_wf w -> state_wf (rotated w N).
Proof. destruct 1; split; [done|done|]. simpl. split; [done|apply crc_u32]. Qed.

Lemma both_stored_area w N d f area :
  layout_ok size w N -> pos (state w) = 0 -> (area = addr_state1 w \/ area = addr_state2 w) ->
  (forall x, cell d x = both_stored w f x) -> area_ok w N d area.
Proof.
  intros L Hp0 Har Hd. pose proof (layout_facts w N L) as (Hp & HN & Hs & H1 & H2 & H3 & H4 & H5).
  pose proof (l_state2 _ _ _ L) as [Hs2 _]. pose proof (l_state _ _ _ L) as [_ Hz].
  unfold sizeof_wl_state in *. destruct Har as [->| ->].
  - apply (stored_area_ok _ _ _ f); [done|done|]. intros x Hx. rewrite Hd. unfold both_stored.
    apply stored_out; [rewrite length_state_bytes|]; lia.
  - eapply stored_area_ok; [done|done|]. intros x Hx. rewrite Hd. done.
Qed.

Lemma both_stored_low w N f x :
  layout_ok size w N -> x < addr_state1 w -> both_stored w f x = f x.
Proof.
  intros L Hx. pose proof (l_state2 _ _ _ L) as [Hs2 _]. pose proof (l_state _ _ _ L) as [_ Hz].
  pose proof (l_flash _ _ _ L) as [HN _].
  unfold sizeof_wl_state, both_stored in *. rewrite !stored_out; rewrite ?length_state_bytes; lia || done.
Qed.

(** What the callers of the layer rely on. *)
Definition same_geometry (w w' : wl_flash) : Prop := cfg w' = cfg w /\ flash_size w' = flash_size w.

Lemma succ_updatewl w d N :
  mounted N (w, d) ->
  succeeds (wl_flash_updatewl wl_crc) (w, d) (fun _ s' =>
    mounted N s' /\ same_geometry w s'.1 /\
    forall v, 0 <= v < flash_size w -> view s' v = view (w, d) v).
Proof.
  intros [L P W A1 A2]. simpl in *.
  pose proof (layout_facts w N L) as (Hp & HN & Hs & H1 & H2 & H3 & H4 & H5).
  pose proof P as [Hmax Hpos Hmc]. assert (Hp0 : 0 < page_size (cfg w)) by (unfold SPI_FLASH_SEC_SIZE in *; lia).
  unfold wl_flash_updatewl. pstep. apply (succ_move _ _ N); [done|done|]. intros d1 Hd1.
  set (w1 := with_dummy _ w). assert (L1 : layout_ok size w1 N) by (by apply layout_with_dummy).
  assert (Hview : forall w2 d2, cfg w2 = cfg w -> layout_ok size w2 N -> pos_ok w2 N ->
    flash_size w2 = flash_size w -> (forall x, x < addr_state1 w -> cell d2 x = cell d1 x) ->
    (forall q, (if decide (phys_page w2 N q = pos (state w)) then next_page w N else phys_page w2 N q)
               = phys_page w N q) ->
    forall v, 0 <= v < flash_size w -> view (w2, d2) v = view (w, d) v).
  { intros w2 d2 Ec L2 P2 Ef Hd2 Hq v Hv. rewrite (view_page w2 _ N), (view_page w _ N) by (done || congruence).
    pose proof (phys_page_range _ w2 N L2 P2 (v / page_size (cfg w2))) as [Hr _].
    pose proof (page_addr_range w N _ L Hr) as [_ Hlow].
    pose proof (Z.mod_pos_bound v (page_size (cfg w)) Hp0).
    unfold page_addr in *. rewrite Ec in *. rewrite Hd2 by lia. rewrite Hd1.
    fold (page_addr w (phys_page w2 N (v / page_size (cfg w)))). rewrite (moved_page w N) by done.
    by rewrite Hq. }
  apply (succ_advance _ _ N); [done|by split| |].
  - intros Hlt. change (pos (state w) < N) in Hlt.
    set (w2 := with_state _ w1). assert (L2 : layout_ok size w2 N) by (by apply layout_with_state).
    assert (P2 : pos_ok w2 N) by (split; simpl; [done|lia|done]). split_and!.
    + split; simpl; [done|done|by destruct W; split| |].
      * apply (moved_area_ok w N d d1 (addr_state1 w) L P (or_introl eq_refl) Hd1 Hlt A1).
      * apply (moved_area_ok w N d d1 (addr_state2 w) L P (or_intror eq_refl) Hd1 Hlt A2).
    + done.
    + apply Hview; try done. intros q. exact (phys_redirect_step w w2 N q Hlt eq_refl eq_refl).
  - intros Heq d2 Hd2. change (pos (state w) = N) in Heq. set (w2 := rotated w1 N) in *.
    assert (L2 : layout_ok size w2 N) by (by repeat apply layout_with_state).
    assert (P2 : pos_ok w2 N) by (split; simpl; [done|lia|case_decide; lia]). split_and!.
    + split; simpl; [done|done|apply state_wf_rotated; by destruct W; split| |].
      * apply (both_stored_area w2 N d2 (cell d1)); auto.
      * apply (both_stored_area w2 N d2 (cell d1)); auto.
    + done.
    + apply Hview; try done.
      * intros x Hx. rewrite Hd2. by apply (both_stored_low w2 N).
      * intros q. exact (phys_redirect_wrap w w2 N q HN Hmc Heq eq_refl eq_refl).
Qed.
(** *** The layer as an array *)

(** A range inside one virtual page is a range of the device. *)
Lemma view_range w d N b n v :
  layout_ok size w N -> pos_ok w N -> 0 <= b -> 0 < n -> b mod page_size (cfg w) + n <= page_size (cfg w) ->
  b + n <= flash_size w -> 0 <= v < flash_size w ->
  let pa := start_addr (cfg w) + wl_flash_calc_addr w b in
  let x := start_addr (cfg w) + wl_flash_calc_addr w v in
  0 <= pa /\ pa + n <= addr_state1 w /\ (pa <= x < pa + n <-> b <= v < b + n) /\
  (b <= v < b + n -> x - pa = v - b).
Proof.
  intros L P Hb Hn Hin He Hv pa x.
  pose proof (layout_facts w N L) as (Hp & HN & Hs & H1 & H2 & H3 & H4 & H5).
  assert (Hp0 : 0 < page_size (cfg w)) by (unfold SPI_FLASH_SEC_SIZE in *; lia).
  assert (Epa : pa = page_addr w (phys_page w N (b / page_size (cfg w))) + b mod page_size (cfg w)).
  { unfold pa, page_addr. rewrite (calc_addr_page size w N L P) by lia. lia. }
  assert (Ex : x = page_addr w (phys_page w N (v / page_size (cfg w))) + v mod page_size (cfg w)).
  { unfold x, page_addr. rewrite (calc_addr_page size w N L P) by lia. lia. }
  pose proof (phys_page_range size w N L P (b / page_size (cfg w))) as [Hr _].
  pose proof (page_addr_range w N _ L Hr) as [Hlo Hhi].
  pose proof (Z.mod_pos_bound b _ Hp0). pose proof (Z.mod_pos_bound v _ Hp0).
  pose proof (Z.div_mod b (page_size (cfg w)) ltac:(lia)) as Eb.
  pose proof (Z.div_mod v (page_size (cfg w)) ltac:(lia)) as Ev.
  set (page := page_size (cfg w)) in *.
  assert (Hsame : b <= v < b + n -> v / page = b / page).
  { intros Hbv. symmetry. apply (Z.div_unique_pos v page _ (v - page * (b / page))); lia. }
  assert (Hoff : v / page = b / page -> x - pa = v - b).
  { intros E. rewrite Ex, Epa, E. rewrite E in Ev. lia. }
  split_and!; [lia|lia| |intros Hbv; apply Hoff, Hsame, Hbv].
  split; [|intros Hbv; pose proof (Hoff (Hsame Hbv)); lia].
  intros Hx. assert (E : v / page = b / page); [|pose proof (Hoff E); lia].
  apply (phys_page_inj size w N L P).
  - pose proof (l_flash _ _ _ L) as [_ Hf]. fold page in Hf.
    split; [apply Z.div_pos; lia|apply Z.div_lt_upper_bound; lia].
  - pose proof (l_flash _ _ _ L) as [_ Hf]. fold page in Hf.
    split; [apply Z.div_pos; lia|apply Z.div_lt_upper_bound; lia].
  - apply (page_addr_eq w _ _ (v mod page) (b mod page + (x - pa))); fold page; lia.
Qed.

(** Changing data pages keeps the volume mounted. *)
Lemma mounted_frame w d d' N :
  mounted N (w, d) -> (forall x, addr_state1 w <= x -> cell d' x = cell d x) -> mounted N (w, d').
Proof.
  intros [L P W A1 A2] Hd. simpl in *.
  pose proof (layout_facts w N L) as (Hp & HN & Hs & H1 & H2 & H3 & H4 & H5).
  unfold sizeof_wl_state in *.
  split; simpl; try done; (eapply area_ok_frame; [|done|done]); intros; apply Hd; lia.
Qed.

Lemma erase_step w d d' N b n v :
  mounted N (w, d) -> 0 <= b -> 0 < n -> b mod page_size (cfg w) + n <= page_size (cfg w) ->
  b + n <= flash_size w ->
  (forall x, cell d' x = erased (cell d) (start_addr (cfg w) + wl_flash_calc_addr w b) n x) ->
  0 <= v < flash_size w -> view (w, d') v = erased (view (w, d)) b n v.
Proof.
  intros M Hb Hn Hin He Hd Hv. destruct (view_range w d N b n v) as (Hlo & Hhi & Hiff & Hoff);
    try done; try apply M. unfold view, erased in *. simpl. rewrite Hd. unfold erased.
  repeat case_decide; done || (exfalso; tauto).
Qed.

Lemma program_step w d d' N b bs v :
  mounted N (w, d) -> 0 <= b -> bs <> [] ->
  b mod page_size (cfg w) + Z.of_nat (length bs) <= page_size (cfg w) ->
  b + Z.of_nat (length bs) <= flash_size w ->
  (forall x, cell d' x = programmed (cell d) (start_addr (cfg w) + wl_flash_calc_addr w b) bs x) ->
  0 <= v < flash_size w -> view (w, d') v = programmed (view (w, d)) b bs v.
Proof.
  intros M Hb Hn Hin He Hd Hv. assert (Hl : 0 < Z.of_nat (length bs)) by (destruct bs; simpl; [done|lia]).
  destruct (view_range w d N b (Z.of_nat (length bs)) v) as (Hlo & Hhi & Hiff & Hoff);
    try done; try apply M. unfold view, programmed in *. simpl. rewrite Hd. unfold programmed.
  repeat case_decide; try done; try (exfalso; tauto). f_equal. f_equal. f_equal. tauto.
Qed.

(** Erasing one sector whose (possibly out-of-range) address [A] translates
    like the in-range address [b]. *)
Lemma succ_erase_sector w d N sector b :
  mounted N (w, d) -> is_u32 (sector * sector_size (cfg w)) ->
  0 <= b -> b mod sector_size (cfg w) = 0 -> b + sector_size (cfg w) <= flash_size w ->
  (forall w', layout_ok size w' N -> pos_ok w' N -> same_geometry w w' ->
    wl_flash_calc_addr w' (sector * sector_size (cfg w)) = wl_flash_calc_addr w' b) ->
  succeeds (wl_flash_erase_sector wl_crc sector) (w, d) (fun _ s' =>
    mounted N s' /\ same_geometry w s'.1 /\
    forall v, 0 <= v < flash_size w -> view s' v = erased (view (w, d)) b (sector_size (cfg w)) v).
Proof.
  intros M Hsec Hb Hbm Hbe Halias. unfold wl_flash_erase_sector. pstep.
  eapply succeeds_mono; [by apply succ_updatewl|]. intros [] [w1 d1] (M1 & [Ec Ef] & Hv1).
  simpl in *. apply succ_get. rewrite Ec. rewrite (u32_small (sector * _)) by done.
  rewrite (Halias w1) by (try apply M1; done).
  pose proof M1 as [L1 P1 _ _ _]. simpl in *.
  pose proof (layout_facts w1 N L1) as (Hp & HN & Hs & H1 & H2 & H3 & H4 & H5).
  pose proof (l_sector _ _ _ L1) as [Hs0 Hsm]. pose proof (l_page _ _ _ L1) as [Hp0 Hpm].
  rewrite Ec in *. unfold sizeof_wl_state in *.
  assert (Hin : b mod page_size (cfg w) + sector_size (cfg w) <= page_size (cfg w)).
  { pose proof (Z.mod_pos_bound b _ Hp0) as Hbp.
    assert (E : b mod page_size (cfg w) mod sector_size (cfg w) = 0).
    { apply Z.mod_divide in Hpm, Hbm; try lia. apply Z.mod_divide; [lia|].
      rewrite Z.mod_eq by lia. apply Z.divide_sub_r; [done|]. by apply Z.divide_mul_l. }
    apply Z.mod_divide in E, Hpm; try lia. destruct E as [t Et], Hpm as [u Eu].
    assert (t < u) by nia. pose proof (Z.mul_le_mono_nonneg_r (t + 1) u (sector_size (cfg w))). lia. }
  destruct (view_range w1 d1 N b (sector_size (cfg w)) b) as (Hlo & Hhi & _ & _);
    rewrite ?Ec; try done; try lia.
  rewrite Ec in *. rewrite u32_small by (unfold in_width; lia).
  apply succ_erase; [done|done|lia| |].
  - split; [|done].
    assert (Hpa : wl_flash_calc_addr w1 b mod sector_size (cfg w) = 0).
    { rewrite (calc_addr_page size w1 N L1 P1) by lia. rewrite Ec.
      apply Z.mod_divide in Hpm, Hbm; try lia. apply Z.mod_divide; [lia|].
      apply Z.divide_add_r; [by apply Z.divide_mul_r|].
      rewrite Z.mod_eq by lia. apply Z.divide_sub_r; [done|]. by apply Z.divide_mul_l. }
    pose proof (mod_trans _ SPI_FLASH_SEC_SIZE _ ltac:(done) Hs0 Hsm Hpa) as Hpa'.
    pose proof (l_start _ _ _ L1) as [_ Hst]. rewrite Ec in Hst.
    rewrite Zplus_mod, Hst, Hpa'. done.
  - intros d2 Hd2. split_and!.
    + apply (mounted_frame w1 d1); [done|]. intros x Hx. rewrite Hd2. unfold erased.
      by rewrite decide_False by lia.
    + done.
    + intros v Hv.
      rewrite (erase_step w1 d1 d2 N b (sector_size (cfg w)) v);
        rewrite ?Ec, ?Ef; try done. unfold erased. by rewrite Hv1.
Qed.
End proofs.
