(* ===== verification/WearLevelSpec.v ===== *)
(** * Correctness of the wear-levelling layer and of the block layer

    Erase, write and read act on the view as on a plain flash array
    ([wl_refines_plain_flash]); a block written by [fs_flash_write] reads back
    ([fs_flash_write_read]); the last sector number [fs_flash_write] accepts
    is an alias of sector 0. *)
From S2P Require Import Prelude Prog Flash RawFlash WearLevel WearLevelView.

Section ops.
Context {D : Type} `{FlashDev D} `{!FlashLaws D} (size : Z) `{!FlashReliable D size}.
Context (wl_crc : bytes -> Z).
Hypothesis crc_u32 : forall bs, is_u32 (wl_crc bs).
Implicit Types (w : wl_flash) (d : D) (f : Z -> Z) (a x n N v : Z) (bs : bytes).
Abbreviation mounted := (mounted size wl_crc).

(** [f] is what the client sees of [s]. *)
Definition sees (s : wl_flash * D) f : Prop :=
  forall v, 0 <= v < flash_size s.1 -> view s v = f v.

Lemma succ_erase_range w d N a k f :
  mounted N (w, d) -> sees (w, d) f -> 0 <= a -> 0 <= k ->
  a mod sector_size (cfg w) = 0 -> a + k * sector_size (cfg w) <= flash_size w ->
  succeeds (wl_flash_erase_range wl_crc a (k * sector_size (cfg w))) (w, d) (fun _ s' =>
    mounted N s' /\ same_geometry w s'.1 /\ sees s' (erased f a (k * sector_size (cfg w)))).
Proof.
  intros M Hf Ha Hk Ham He. pose proof M as [L P _ _ _]. simpl in *.
  pose proof (l_sector _ _ _ L) as [Hs0 _].
  pose proof (layout_facts size w N L) as (Hp & HN & Hs & H1 & H2 & H3 & H4 & H5).
  pose proof (l_flash _ _ _ L) as [_ Efs]. pose proof (l_page _ _ _ L) as [_ Hpm].
  pose proof (mod_ge _ _ Hs0 ltac:(by destruct (l_page _ _ _ L)) Hpm) as Hsp.
  unfold sizeof_wl_state in *.
  assert (Hfs : flash_size w + page_size (cfg w) <= 2 ^ 31) by lia.
  set (sec := sector_size (cfg w)) in *.
  pose proof (div_exact' a sec Hs0 Ham) as Ea. set (s0 := a / sec) in *.
  assert (Hs00 : 0 <= s0) by (by apply Z.div_pos; lia).
  unfold wl_flash_erase_range. apply succ_get. fold sec s0.
  assert (Hks : 0 <= k * sec) by (apply Z.mul_nonneg_nonneg; lia).
  rewrite (u32_small (k * sec + sec - 1)) by (unfold in_width; lia).
  replace ((k * sec + sec - 1) / sec) with k.
  2:{ replace (k * sec + sec - 1) with (sec - 1 + k * sec) by lia.
      rewrite Z.div_add, Z.div_small by lia. lia. }
  eapply succeeds_mono.
  - apply (succeeds_for (fun i s => mounted N s /\ same_geometry w s.1 /\
      sees s (erased f a (Z.of_nat i * sec)))).
    + split_and!; [done|done|]. intros v Hv. rewrite (Hf v Hv). unfold erased.
      by rewrite decide_False by lia.
    + intros i [w' d'] Hi (M' & [Ec Ef] & Hf'). simpl in *. rewrite Z.add_0_l.
      assert (Hle : (Z.of_nat i + 1) * sec <= k * sec) by (apply Z.mul_le_mono_nonneg_r; lia).
      assert (Hle0 : 0 <= Z.of_nat i * sec) by (apply Z.mul_nonneg_nonneg; lia).
      assert (Hsi : (s0 + Z.of_nat i) * sec = a + Z.of_nat i * sec) by lia.
      assert (Hsz : s0 + Z.of_nat i <= (s0 + Z.of_nat i) * sec) by (rewrite <- (Z.mul_1_r (s0 + _)) at 1;
        apply Z.mul_le_mono_nonneg_l; lia).
      rewrite u32_small by (unfold in_width; lia).
      eapply succeeds_mono.
      * apply (succ_erase_sector size wl_crc crc_u32 w' d' N _ (a + Z.of_nat i * sec));
          rewrite ?Ec; fold sec; try done; unfold in_width; try lia.
        { by apply mod_add_mul; try done; apply Z.mod_same; lia. }
        { intros. by rewrite Hsi. }
      * intros [] [w2 d2] (M2 & [Ec2 Ef2] & Hv2). simpl in *. rewrite Ec in Hv2. fold sec in Hv2.
        split_and!; [done|split; simpl; congruence|]. intros v Hv. simpl in Hv.
        rewrite Hv2 by congruence. unfold erased. rewrite Hf' by (simpl; congruence). unfold erased.
        repeat case_decide; try done; lia.
  - intros [] s' (M' & G & Hv). split_and!; [done|done|].
    replace (Z.of_nat (Z.to_nat k)) with k in Hv by lia. done.
Qed.

Lemma same_geometry_refl w : same_geometry w w.
Proof. done. Qed.

(** One [wl_flash_write_int] of a range inside a page. *)
Lemma succ_write_page w d N a bs f :
  mounted N (w, d) -> sees (w, d) f -> 0 <= a -> bs <> [] ->
  a mod page_size (cfg w) + Z.of_nat (length bs) <= page_size (cfg w) ->
  a + Z.of_nat (length bs) <= flash_size w ->
  succeeds (wl_flash_write_int (u32 (start_addr (cfg w) + wl_flash_calc_addr w (u32 a))) bs) (w, d)
    (fun _ s' => s'.1 = w /\ mounted N s' /\ sees s' (programmed f a bs)).
Proof.
  intros M Hf Ha Hne Hin He. pose proof M as [L P _ _ _]. simpl in *.
  pose proof (layout_facts size w N L) as (Hp & HN & Hs & H1 & H2 & H3 & H4 & H5).
  pose proof (l_flash _ _ _ L) as [_ Efs]. unfold sizeof_wl_state, SPI_FLASH_SEC_SIZE in *.
  assert (Hl : 0 < Z.of_nat (length bs)) by (destruct bs; simpl; [done|lia]).
  rewrite (u32_small a) by (unfold in_width; lia).
  destruct (view_range size w d N a (Z.of_nat (length bs)) a) as (Hlo & Hhi & _ & _); try done; [lia|].
  rewrite u32_small by (unfold in_width; lia).
  apply (succ_write size); [done|done|lia|]. intros d' Hd'. split_and!; [done| |].
  - apply (mounted_frame size wl_crc w d); [done|]. intros x Hx. rewrite Hd'. unfold programmed.
    by rewrite decide_False by lia.
  - intros v Hv. simpl in Hv. rewrite (program_step size wl_crc w d d' N a bs v); try done.
    apply programmed_ext, Hf, Hv.
Qed.

Lemma succ_write_range w d N a bs f :
  mounted N (w, d) -> sees (w, d) f -> 0 <= a -> bs <> [] -> a mod page_size (cfg w) = 0 ->
  a + Z.of_nat (length bs) <= flash_size w ->
  succeeds (wl_flash_write a bs (Z.of_nat (length bs))) (w, d) (fun _ s' =>
    s'.1 = w /\ mounted N s' /\ sees s' (programmed f a bs)).
Proof.
  intros M Hf Ha Hne Ham He. pose proof M as [L P _ _ _]. simpl in *.
  pose proof (layout_facts size w N L) as (Hp & HN & Hs & H1 & H2 & H3 & H4 & H5).
  pose proof (l_flash _ _ _ L) as [_ Efs].
  assert (Hfs : flash_size w <= 2 ^ 31) by (unfold sizeof_wl_state, SPI_FLASH_SEC_SIZE in *; lia).
  set (page := page_size (cfg w)) in *. set (n := Z.of_nat (length bs)) in *.
  assert (Hp0 : 0 < page) by (unfold SPI_FLASH_SEC_SIZE in *; lia).
  assert (Hn : 0 < n) by (destruct bs; simpl in n; [done|lia]).
  unfold wl_flash_write. apply succ_get. fold page.
  rewrite (u32_small (n - 1)) by (unfold in_width; lia).
  pose proof (Z.div_mod (n - 1) page ltac:(lia)) as En.
  pose proof (Z.mod_pos_bound (n - 1) page Hp0). set (count := (n - 1) / page) in *.
  assert (Hc : 0 <= count) by (apply Z.div_pos; lia).
  assert (Hmod : forall i, (a + i * page) mod page = 0) by (intros; by rewrite Z_mod_plus_full).
  pstep. eapply succeeds_mono.
  - apply (succeeds_for (fun i s => s.1 = w /\ mounted N s /\
      sees s (programmed f a (take (Z.to_nat (Z.of_nat i * page)) bs)))).
    + split_and!; [done|done|]. intros v Hv. rewrite (Hf v Hv). unfold programmed. simpl.
      by rewrite decide_False by (simpl; lia).
    + intros i [w' d'] Hi (Ew & M' & Hf'). simpl in Ew. subst w'. rewrite Z.add_0_l.
      assert (Hle : (Z.of_nat i + 1) * page <= count * page) by (apply Z.mul_le_mono_nonneg_r; lia).
      assert (Hle0 : 0 <= Z.of_nat i * page) by (apply Z.mul_nonneg_nonneg; lia).
      assert (Hlen : length (slice (Z.to_nat (Z.of_nat i * page)) (Z.to_nat page) bs) = Z.to_nat page)
        by (apply length_slice; lia).
      eapply succeeds_mono.
      * eapply (succ_write_page w d' N (a + Z.of_nat i * page)); [done|exact Hf'|lia| | |]; fold page.
        { intros E. rewrite E in Hlen. simpl in Hlen. lia. }
        { rewrite Hmod. lia. }
        { lia. }
      * intros [] s' (Ew & M2 & Hs2). split_and!; [done|done|]. intros v Hv. rewrite (Hs2 v Hv).
        replace (Z.to_nat (Z.of_nat (S i) * page)) with (Z.to_nat (Z.of_nat i * page) + Z.to_nat page)%nat by lia.
        rewrite <- take_take_drop, programmed_app, length_take. f_equal. lia.
  - intros [] [w' d'] (Ew & M' & Hf'). simpl in Ew. subst w'.
    replace (Z.of_nat (Z.to_nat count)) with count in Hf' by lia.
    assert (Hcp : 0 <= count * page) by (apply Z.mul_nonneg_nonneg; lia).
    assert (Hlen : length (slice (Z.to_nat (count * page)) (Z.to_nat (n - count * page)) bs)
                   = Z.to_nat (n - count * page)) by (apply length_slice; lia).
    eapply succeeds_mono.
    + eapply (succ_write_page w d' N (a + count * page)); [done|exact Hf'|lia| | |]; fold page.
      { intros E. rewrite E in Hlen. simpl in Hlen. lia. }
      { rewrite Hmod. lia. }
      { lia. }
    + intros [] s' (Ew & M2 & Hs2). split_and!; [done|done|]. intros v Hv. rewrite (Hs2 v Hv).
      rewrite <- (take_drop (Z.to_nat (count * page)) bs) at 3.
      rewrite programmed_app, length_take. unfold slice.
      rewrite (take_ge (drop _ _)) by (rewrite length_drop; lia). f_equal. lia.
Qed.

(** The [n] bytes of an array from [a]. *)
Definition window f (a : Z) (n : nat) : bytes := (fun i => f (a + Z.of_nat i)) <$> seq 0 n.

Lemma window_app f a (n m : nat) : window f a (n + m) = window f a n ++ window f (a + Z.of_nat n) m.
Proof.
  unfold window. rewrite seq_app, fmap_app. f_equal. simpl.
  rewrite <- (Nat.add_0_r n) at 1. rewrite <- fmap_add_seq, <- list_fmap_compose.
  apply list_fmap_ext. intros i x _. simpl. f_equal. lia.
Qed.

Lemma succ_read_page w d N a n f (Q : bytes -> wl_flash * D -> Prop) :
  mounted N (w, d) -> sees (w, d) f -> 0 <= a -> 0 < n ->
  a mod page_size (cfg w) + n <= page_size (cfg w) -> a + n <= flash_size w ->
  Q (window f a (Z.to_nat n)) (w, d) ->
  succeeds (wl_flash_read_int (u32 (start_addr (cfg w) + wl_flash_calc_addr w (u32 a))) n) (w, d) Q.
Proof.
  intros M Hf Ha Hn Hin He HQ. pose proof M as [L P _ _ _]. simpl in *.
  pose proof (layout_facts size w N L) as (Hp & HN & Hs & H1 & H2 & H3 & H4 & H5).
  pose proof (l_flash _ _ _ L) as [_ Efs]. unfold sizeof_wl_state, SPI_FLASH_SEC_SIZE in *.
  rewrite (u32_small a) by (unfold in_width; lia).
  destruct (view_range size w d N a n a) as (Hlo & Hhi & _ & _); try done; [lia|].
  rewrite u32_small by (unfold in_width; lia).
  apply (succ_read size); [done|done|lia|]. replace (cells _ _ _) with (window f a (Z.to_nat n)); [done|].
  unfold window, cells. apply list_fmap_ext. intros i x Hx. apply lookup_seq in Hx as [-> Hi].
  rewrite <- (Hf (a + Z.of_nat (0 + i))) by (simpl; lia). unfold view. simpl. f_equal.
  destruct (view_range size w d N a n (a + Z.of_nat i)) as (_ & _ & _ & Hoff); try done; [lia|].
  specialize (Hoff ltac:(lia)). lia.
Qed.

Lemma succ_read_loop w d N a i (n : nat) f (Q : bytes -> wl_flash * D -> Prop) :
  mounted N (w, d) -> sees (w, d) f -> 0 <= a -> 0 <= i -> a mod page_size (cfg w) = 0 ->
  a + (i + Z.of_nat n) * page_size (cfg w) <= flash_size w ->
  Q (window f (a + i * page_size (cfg w)) (n * Z.to_nat (page_size (cfg w)))) (w, d) ->
  succeeds (read_loop a i n) (w, d) Q.
Proof.
  intros M Hf Ha Hi Ham. pose proof M as [L _ _ _ _]. simpl in L.
  pose proof (l_page _ _ _ L) as [Hp0 _]. set (page := page_size (cfg w)) in *.
  revert i Hi Q. induction n as [|n IH]; intros i Hi Q He HQ; [done|]. cbn [read_loop].
  assert (Hip : 0 <= i * page) by (apply Z.mul_nonneg_nonneg; lia).
  assert (Hnp : 0 <= Z.of_nat n * page) by (apply Z.mul_nonneg_nonneg; lia).
  apply succ_get. fold page. pstep.
  apply (succ_read_page w d N _ _ f); try done; fold page; [lia| |lia|].
  { rewrite Z_mod_plus_full, Ham. lia. }
  pstep. apply IH; [lia|lia|]. unfold succeeds. simpl.
  replace (S n * Z.to_nat page)%nat with (Z.to_nat page + n * Z.to_nat page)%nat in HQ by lia.
  rewrite window_app in HQ. replace (a + (i + 1) * page) with (a + i * page + Z.of_nat (Z.to_nat page)) by lia.
  done.
Qed.

Lemma succ_read_range w d N a n f (Q : bytes -> wl_flash * D -> Prop) :
  mounted N (w, d) -> sees (w, d) f -> 0 <= a -> 1 <= n -> a mod page_size (cfg w) = 0 ->
  a + n <= flash_size w -> Q (window f a (Z.to_nat n)) (w, d) ->
  succeeds (wl_flash_read a n) (w, d) Q.
Proof.
  intros M Hf Ha Hn Ham He HQ. pose proof M as [L _ _ _ _]. simpl in L.
  pose proof (l_page _ _ _ L) as [Hp0 _]. set (page := page_size (cfg w)) in *.
  pose proof (Z.div_mod (n - 1) page ltac:(lia)) as En.
  pose proof (Z.mod_pos_bound (n - 1) page Hp0).
  unfold wl_flash_read. apply succ_get. fold page. rewrite (proj2 (Z.leb_le 1 n)) by done.
  set (count := (n - 1) / page) in *. assert (Hc : 0 <= count) by (apply Z.div_pos; lia).
  assert (Hcp : 0 <= count * page) by (apply Z.mul_nonneg_nonneg; lia).
  pstep. apply (succ_read_loop w d N _ _ _ f); try done; fold page; [lia|]. pstep.
  apply (succ_read_page w d N _ _ f); try done; fold page; [lia|lia| |lia|].
  { rewrite Z_mod_plus_full, Ham. lia. }
  unfold succeeds. simpl.
  replace (Z.to_nat n) with (Z.to_nat count * Z.to_nat page + Z.to_nat (n - count * page))%nat in HQ by lia.
  rewrite window_app in HQ. replace (a + 0 * page) with a by lia.
  replace (a + count * page) with (a + Z.of_nat (Z.to_nat count * Z.to_nat page)) by lia. done.
Qed.

(** *** Refinement *)
Inductive wl_op :=
  | WlErase (a k : Z)           (* k sectors from a *)
  | WlWrite (a : Z) (src : bytes)
  | WlRead (a n : Z).

(** Alignment and range of a request. *)
Definition op_ok w (op : wl_op) : Prop :=
  match op with
  | WlErase a k => 0 <= a /\ 0 <= k /\ a mod sector_size (cfg w) = 0 /\
                   a + k * sector_size (cfg w) <= flash_size w
  | WlWrite a src => 0 <= a /\ src <> [] /\ a mod page_size (cfg w) = 0 /\
                     a + Z.of_nat (length src) <= flash_size w
  | WlRead a n => 0 <= a /\ 1 <= n /\ a mod page_size (cfg w) = 0 /\ a + n <= flash_size w
  end.

Definition wl_exec (op : wl_op) : prog (wl_flash * D) bytes :=
  match op with
  | WlErase a k =>
      w ← get_wl;
      _ ← wl_flash_erase_range wl_crc a (k * sector_size (cfg w)); mret []
  | WlWrite a src => _ ← wl_flash_write a src (Z.of_nat (length src)); mret []
  | WlRead a n => wl_flash_read a n
  end.

Fixpoint wl_run (ops : list wl_op) : prog (wl_flash * D) (list bytes) :=
  match ops with
  | [] => mret []
  | op :: ops => out ← wl_exec op; outs ← wl_run ops; mret (out :: outs)
  end.

(** The specification: a plain flash array without wear levelling. *)
Definition array_step (sec : Z) f (op : wl_op) : bytes * (Z -> Z) :=
  match op with
  | WlErase a k => ([], erased f a (k * sec))
  | WlWrite a src => ([], programmed f a src)
  | WlRead a n => (window f a (Z.to_nat n), f)
  end.

Fixpoint array_run (sec : Z) f (ops : list wl_op) : list bytes * (Z -> Z) :=
  match ops with
  | [] => ([], f)
  | op :: ops =>
      let '(out, f') := array_step sec f op in
      let '(outs, f'') := array_run sec f' ops in (out :: outs, f'')
  end.

Lemma op_ok_geometry w w' op : same_geometry w w' -> op_ok w op -> op_ok w' op.
Proof. intros [Ec Ef]. unfold op_ok. by rewrite Ec, Ef. Qed.

Lemma wl_exec_refines w d N f op :
  mounted N (w, d) -> sees (w, d) f -> op_ok w op ->
  succeeds (wl_exec op) (w, d) (fun out s' =>
    mounted N s' /\ same_geometry w s'.1 /\ out = (array_step (sector_size (cfg w)) f op).1 /\
    sees s' (array_step (sector_size (cfg w)) f op).2).
Proof.
  intros M Hf. destruct op as [a k|a src|a n]; intros (Ha & Hb & Hc & He); cbn [wl_exec array_step fst snd].
  - apply succ_get. pstep. eapply succeeds_mono; [by apply (succ_erase_range w d N a k f)|].
    intros [] s' (M' & G & Hs). by apply succeeds_ret.
  - pstep. eapply succeeds_mono; [by apply (succ_write_range w d N a src f)|].
    intros [] s' (E & M' & Hs). apply succeeds_ret. rewrite E. done.
  - by apply (succ_read_range w d N a n f).
Qed.

(** C1: on a mounted volume every sequence of aligned, in-range erases,
    writes and reads succeeds, returns what a plain flash array of
    [flash_size] bytes would return, leaves the volume mounted and its
    contents equal to that array's, wherever the moves put the pages. *)
Theorem wl_refines_plain_flash s N f ops :
  mounted N s -> sees s f -> Forall (op_ok s.1) ops ->
  succeeds (wl_run ops) s (fun outs s' =>
    mounted N s' /\ outs = (array_run (sector_size (cfg s.1)) f ops).1 /\
    sees s' (array_run (sector_size (cfg s.1)) f ops).2).
Proof.
  revert s f. induction ops as [|op ops IH]; intros [w d] f M Hf Hops; [by apply succeeds_ret|].
  apply Forall_cons in Hops as [Hop Hops]. simpl in *. pstep.
  eapply succeeds_mono; [by apply (wl_exec_refines w d N f op)|].
  intros out [w' d'] (M' & G & Hout & Hs'). simpl in *. pose proof G as [Ec Ef].
  destruct (array_step (sector_size (cfg w)) f op) as [out' f'] eqn:Estep. simpl in *. subst out'.
  pstep. eapply succeeds_mono.
  - apply (IH (w', d') f'); [done|done|]. eapply Forall_impl; [done|]. intros o.
    by apply op_ok_geometry.
  - intros outs s'' (M2 & Houts & Hs2). simpl in *. rewrite Ec in *. apply succeeds_ret.
    destruct (array_run _ f' ops) as [outs' f2]. simpl in *. by subst.
Qed.

(** *** The block layer *)
Lemma succ_to_res (m : prog (wl_flash * D) unit) s Q :
  succeeds m s Q -> succeeds (to_res m) s Q.
Proof. unfold succeeds, to_res. by destruct (m s) as [[[]|c] s']. Qed.

Lemma window_programmed f a bs : bytes_ok bs ->
  window (programmed (erased f a (Z.of_nat (length bs))) a bs) a (length bs) = bs.
Proof.
  intros Hb. apply list_eq. intros i. unfold window. rewrite list_lookup_fmap.
  destruct (decide (i < length bs)%nat) as [Hi|Hi].
  - rewrite lookup_seq_lt by done. simpl. unfold programmed, erased. rewrite !decide_True by lia.
    replace (Z.to_nat (a + Z.of_nat i - a)) with i by lia.
    destruct (lookup_lt_is_Some_2 bs i Hi) as [b Eb]. rewrite nth_lookup, Eb. simpl. f_equal.
    apply land_ff. rewrite Forall_forall in Hb. apply Hb. by eapply list_elem_of_lookup_2.
  - rewrite !lookup_ge_None_2; [done|lia|rewrite length_seq; lia].
Qed.

(** The sector geometry [fatfs.c] configures. *)
Definition fat_geometry w : Prop :=
  sector_size (cfg w) = FATFS_SECTOR_SIZE /\ page_size (cfg w) = FATFS_SECTOR_SIZE.

Lemma succ_fs_write w d N sector buff count f :
  mounted N (w, d) -> sees (w, d) f -> fat_geometry w -> 0 <= sector -> 0 < count ->
  Z.of_nat (length buff) = count * FATFS_SECTOR_SIZE ->
  (sector + count) * FATFS_SECTOR_SIZE <= flash_size w ->
  succeeds (fs_flash_write wl_crc sector buff count) (w, d) (fun _ s' =>
    mounted N s' /\ same_geometry w s'.1 /\
    sees s' (programmed (erased f (sector * FATFS_SECTOR_SIZE) (count * FATFS_SECTOR_SIZE))
                        (sector * FATFS_SECTOR_SIZE) buff)).
Proof.
  intros M Hf [Gs Gp] Hs Hc Hl He. pose proof M as [L _ _ _ _]. simpl in L.
  pose proof (layout_facts size w N L) as (Hp & HN & Hs0 & H1 & H2 & H3 & H4 & H5).
  pose proof (l_flash _ _ _ L) as [_ Efs]. unfold fs_flash_write.
  assert (Hmod : (sector * FATFS_SECTOR_SIZE) mod FATFS_SECTOR_SIZE = 0) by apply Z_mod_mult.
  unfold sizeof_wl_state, FATFS_SECTOR_SIZE in *. apply succ_get.
  rewrite !u32_small by (unfold in_width; lia). rewrite (proj2 (Z.ltb_ge _ _)) by lia.
  pstep. apply succ_to_res. rewrite <- Gs at 2. eapply succeeds_mono.
  - apply (succ_erase_range w d N (sector * 4096) count f); rewrite ?Gs; try done; lia.
  - intros [] [w' d'] (M' & [Ec Ef] & Hs'). simpl in *. apply succ_to_res. rewrite <- Hl.
    eapply succeeds_mono.
    + apply (succ_write_range w' d' N (sector * 4096) buff); rewrite ?Ec, ?Gp; try done; [lia| |lia].
      intros ->. simpl in Hl. lia.
    + intros [] s'' (E & M2 & Hs2). split_and!; [done|by rewrite E|]. rewrite Gs in Hs2.
      by rewrite Hl.
Qed.

(** a block request written by [fs_flash_write] is read back by
    [fs_flash_read], and every byte outside the written sectors keeps its
    value. *)
Theorem fs_flash_write_read s N total sector buff count :
  mounted N s -> fat_geometry s.1 -> flash_size s.1 <= total -> bytes_ok buff ->
  0 <= sector -> 0 < count -> Z.of_nat (length buff) = count * FATFS_SECTOR_SIZE ->
  (sector + count) * FATFS_SECTOR_SIZE <= flash_size s.1 ->
  succeeds (_ ← fs_flash_write wl_crc sector buff count; fs_flash_read total sector count) s
    (fun bs s' => bs = buff /\ mounted N s' /\
      forall v, 0 <= v < flash_size s.1 ->
        ~ (sector * FATFS_SECTOR_SIZE <= v < (sector + count) * FATFS_SECTOR_SIZE) ->
        view s' v = view s v).
Proof.
  destruct s as [w d]. simpl. intros M G Ht Hb Hs Hc Hl He.
  pose proof M as [L _ _ _ _]. simpl in L.
  pose proof (layout_facts size w N L) as (Hp & HN & Hs0 & H1 & H2 & H3 & H4 & H5).
  pose proof (l_flash _ _ _ L) as [_ Efs]. pstep. eapply succeeds_mono.
  { by apply (succ_fs_write w d N sector buff count (view (w, d))). }
  intros [] [w' d'] (M' & [Ec Ef] & Hs'). simpl in *. destruct G as [Gs Gp].
  unfold fs_flash_read, FATFS_SECTOR_SIZE, sizeof_wl_state in *.
  rewrite !u32_small by (unfold in_width; lia). rewrite (proj2 (Z.ltb_ge _ _)) by lia.
  eapply succeeds_mono with (P := fun bs s' => bs = buff /\ s' = (w', d')).
  - assert (Hr : succeeds (wl_flash_read (sector * 4096) (count * 4096)) (w', d')
                   (fun bs s' => bs = buff /\ s' = (w', d'))).
    { eapply (succ_read_range w' d' N); [done|exact Hs'|lia|lia| |lia|].
      - rewrite Ec, Gp. apply Z_mod_mult.
      - split; [|done]. rewrite <- Hl. rewrite Nat2Z.id. by apply window_programmed. }
    revert Hr. unfold succeeds. by destruct (wl_flash_read _ _ _) as [[bs|c] s'].
  - intros bs s' [-> ->]. split_and!; [done|done|]. intros v Hv Hout.
    rewrite Hs' by (simpl; congruence). unfold programmed, erased. by rewrite !decide_False by lia.
Qed.

(** the range check of [fs_flash_write] lets the sector number just past
    the end through, and the write lands on sector 0: the file system's first
    sector is replaced by the data meant for the other one. *)
Theorem fs_flash_write_past_end_hits_sector_0 s N buff f :
  mounted N s -> fat_geometry s.1 -> sees s f ->
  Z.of_nat (length buff) = FATFS_SECTOR_SIZE ->
  succeeds (fs_flash_write wl_crc (flash_size s.1 / FATFS_SECTOR_SIZE) buff 1) s (fun _ s' =>
    same_geometry s.1 s'.1 /\ sees s' (programmed (erased f 0 FATFS_SECTOR_SIZE) 0 buff)).
Proof.
  destruct s as [w d]. simpl. intros M [Gs Gp] Hf Hl. pose proof M as [L _ _ _ _]. simpl in L.
  pose proof (layout_facts size w N L) as (Hp & HN & Hs0 & H1 & H2 & H3 & H4 & H5).
  pose proof (l_flash _ _ _ L) as [_ Efs]. rewrite Gp in Efs.
  unfold fs_flash_write, FATFS_SECTOR_SIZE, sizeof_wl_state in *. apply succ_get.
  rewrite Efs, Z.div_mul by done. rewrite !u32_small by (unfold in_width; lia).
  rewrite (proj2 (Z.ltb_ge _ _)) by lia. pstep. apply succ_to_res.
  unfold wl_flash_erase_range. apply succ_get. rewrite Gs, Z.div_mul by done. simpl pfor.
  pstep. rewrite Z.add_0_r, u32_small by (unfold in_width; lia). eapply succeeds_mono.
  - apply (succ_erase_sector size wl_crc crc_u32 w d N N 0);
      rewrite ?Gs; try done; unfold in_width; try lia.
    intros w' L' P' [_ Ef']. rewrite <- Efs, <- Ef'. by apply (calc_addr_aliases size w' N).
  - intros [] [w' d'] (M' & [Ec Ef] & Hs'). simpl in *. rewrite Gs in Hs'.
    apply succeeds_ret, succ_to_res. unfold wl_flash_write. apply succ_get.
    rewrite Ec, Gp. change (u32 (1 * 4096)) with 4096. change (u32 (4096 - 1) / 4096) with 0.
    simpl pfor. pstep. apply succeeds_ret. rewrite Z.mul_0_l, Z.add_0_r, Z.sub_0_r.
    replace (slice _ _ buff) with buff
      by (unfold slice; rewrite drop_0, take_ge by lia; done).
    pose proof M' as [L' P' _ _ _]. simpl in L', P'.
    replace (wl_flash_calc_addr w' (u32 (N * 4096))) with (wl_flash_calc_addr w' (u32 0)).
    2:{ rewrite (u32_small (N * 4096)) by (unfold in_width; lia).
        rewrite <- Efs, <- Ef. symmetry. by apply (calc_addr_aliases size w' N). }
    rewrite <- Ec. eapply succeeds_mono.
    + apply (succ_write_page w' d' N 0 buff (erased f 0 4096)); try done.
      * intros v Hv. rewrite Hs' by (simpl in Hv; lia). apply erased_ext, Hf. simpl in *. lia.
      * intros ->. simpl in Hl. lia.
      * rewrite Ec, Gp. rewrite Z.mod_0_l by done. lia.
      * nia.
    + intros [] s'' (-> & _ & Hs2). done.
Qed.

(** *** Remounting *)

(** The RAM structure as [fatfs_mk_mount] prepares it: zeroed but for the
    configuration. *)
Definition fresh (c : wl_config_t) : wl_flash :=
  WlFlash (WlState 0 0 0 0 0 0) c 0 0 0 0 0 0 BufNull 0.

(** The structure [wl_flash_config] works on after the layout step. *)
Definition laid_out (c : wl_config_t) (b : buffer_t) : wl_flash :=
  layout (with_temp_buff b (with_cfg (set_cfg_crc (wl_crc (config_body c)) c) (fresh c))).

Lemma parse_state_bytes st :
  is_u32 (pos st) -> is_u32 (max_pos st) -> is_u32 (move_count st) -> is_u32 (block_size st) ->
  is_u32 (s_version st) -> is_u32 (s_crc st) -> parse_state (state_bytes st) = st.
Proof.
  intros. assert (U : forall x, is_u32 x -> unle (le 4 x) = x) by (intros; by apply unle_le).
  destruct st as [p m c b v r]. unfold parse_state. simpl in *. f_equal; by apply U.
Qed.

(** The mark scan stops at the first mark that is not set. *)
Lemma recover_loop_marks w d N p i (n : nat) :
  layout_ok size w N -> pos_ok w N -> 0 <= i <= p -> p - i < Z.of_nat n -> p <= N ->
  (forall j, 0 <= j <= N ->
    (cell d (addr_state1 w + sizeof_wl_state + j) = 0xFF <-> p <= j)) ->
  succeeds (recover_loop i n) (w, d) (fun _ s' => s' = (with_state (set_pos p (state w)) w, d)).
Proof.
  intros L P. revert i. induction n as [|n IH]; intros i Hi Hn Hp Hm; [lia|].
  pose proof (layout_facts size w N L) as (Hpg & HN & Hs & H1 & H2 & H3 & H4 & H5).
  assert (0 <= (N + 1) * page_size (cfg w)) by (unfold SPI_FLASH_SEC_SIZE in *; nia).
  cbn [recover_loop]. apply succ_get.
  unfold sizeof_wl_state in *.
  rewrite (mark_addr_ok size w N) by (unfold sizeof_wl_state; done || lia).
  unfold sizeof_wl_state. pstep.
  apply (succ_read size); [lia|lia|lia|]. rewrite cells_nth by lia. rewrite Z.add_0_r.
  destruct (Z.eqb_spec (cell d (addr_state1 w + 24 + i)) 0xFF) as [E|E].
  - apply Hm in E; [|lia]. replace i with p by lia. done.
  - assert (i <> p) by (intros ->; apply E, Hm; lia). apply IH; lia || done.
Qed.

Lemma recover_loop_full w d N i (n : nat) :
  layout_ok size w N -> pos_ok w N -> 0 <= i -> i + Z.of_nat n <= N + 1 ->
  (forall j, 0 <= j <= N -> cell d (addr_state1 w + sizeof_wl_state + j) <> 0xFF) ->
  succeeds (recover_loop i n) (w, d) (fun _ s' => s' = (w, d)).
Proof.
  intros L P. revert i. induction n as [|n IH]; intros i Hi Hn Hm; [done|].
  pose proof (layout_facts size w N L) as (Hpg & HN & Hs & H1 & H2 & H3 & H4 & H5).
  assert (0 <= (N + 1) * page_size (cfg w)) by (unfold SPI_FLASH_SEC_SIZE in *; nia).
  cbn [recover_loop]. apply succ_get.
  unfold sizeof_wl_state in *.
  rewrite (mark_addr_ok size w N) by (unfold sizeof_wl_state; done || lia).
  unfold sizeof_wl_state. pstep.
  apply (succ_read size); [lia|lia|lia|]. rewrite cells_nth by lia. rewrite Z.add_0_r.
  rewrite (proj2 (Z.eqb_neq _ _)) by (apply Hm; lia). apply IH; lia || done.
Qed.

Lemma succ_release (m : prog (wl_flash * D) unit) s Q :
  succeeds m s Q -> succeeds (release_on_error m) s Q.
Proof. unfold succeeds, release_on_error. by destruct (m s) as [[[]|c] s']. Qed.

Lemma succ_read_state w d N area st (Q : wl_state_t -> wl_flash * D -> Prop) :
  layout_ok size w N -> 0 <= area -> area + sizeof_wl_state <= size ->
  cells d area 24 = state_bytes st -> parse_state (state_bytes st) = st -> Q st (w, d) ->
  succeeds (read_state area) (w, d) Q.
Proof.
  intros L Ha He Hc Hp HQ. unfold read_state, sizeof_wl_state in *. pstep.
  apply (succ_read size); [done|done|done|]. apply succeeds_ret.
  change (Z.to_nat 24) with 24%nat. by rewrite Hc, Hp.
Qed.

(** Both areas hold the same valid state: only the position is recovered. *)
Lemma succ_recover_valid w d N st (Q : unit -> wl_flash * D -> Prop) :
  layout_ok size w N -> parse_state (state_bytes st) = st ->
  cells d (addr_state1 w) 24 = state_bytes st -> cells d (addr_state2 w) 24 = state_bytes st ->
  s_crc st = wl_crc (state_body st) -> s_version st = c_version (cfg w) ->
  succeeds wl_flash_recover_pos (with_state st w, d) Q ->
  succeeds (wl_recover wl_crc) (w, d) Q.
Proof.
  intros L Hp H1 H2 Hcrc Hv HQ.
  pose proof (layout_facts size w N L) as (Hpg & HN & Hs & G1 & G2 & G3 & G4 & G5).
  assert (0 <= (N + 1) * page_size (cfg w)) by (unfold SPI_FLASH_SEC_SIZE in *; nia).
  unfold sizeof_wl_state in *. unfold wl_recover. apply succ_get. pstep.
  apply (succ_read_state w d N _ st); try done; unfold sizeof_wl_state; [lia|lia|].
  apply succ_upd. pstep.
  apply (succ_read_state (with_state st w) d N _ st); try done; unfold sizeof_wl_state; [|lia|lia|].
  { by apply layout_with_state. }
  unfold wl_calculate_crc. rewrite <- Hcrc, Z.eqb_refl, Hv, Z.eqb_refl. simpl. done.
Qed.

(** The configuration step brings the structure to [laid_out]. *)
Lemma succ_config w1 c d (Q : unit -> wl_flash * D -> Prop) :
  w1 = laid_out c BufLive -> sector_size c mod temp_buff_size c = 0 ->
  sector_size c <= page_size c -> succeeds (wl_recover wl_crc) (w1, d) Q ->
  succeeds (wl_flash_config wl_crc true) (fresh c, d) Q.
Proof.
  intros -> Hm Hle HQ. unfold wl_flash_config. apply succ_release. apply succ_upd, succ_get.
  cbn [cfg with_cfg set_cfg_crc sector_size temp_buff_size page_size fresh].
  rewrite Hm, Z.eqb_refl. rewrite (proj2 (Z.ltb_ge _ _)) by done. simpl negb. cbv iota.
  apply succ_upd, succ_upd. exact HQ.
Qed.

(** A structure in use is the configured one with the current state. *)
Definition in_use (c : wl_config_t) (st : wl_state_t) (dm : Z) : wl_flash :=
  with_dummy dm (with_state st (laid_out c BufLive)).

Lemma in_use_facts c st dm d N :
  mounted N (in_use c st dm, d) ->
  layout_ok size (laid_out c BufLive) N /\ sector_size c <= page_size c /\
  parse_state (state_bytes (set_pos 0 st)) = set_pos 0 st.
Proof.
  intros [L P W _ _]. simpl in *. split_and!; [by destruct L; split| |].
  - pose proof (l_page _ _ _ L) as [Hp Hpm]. pose proof (l_sector _ _ _ L) as [Hs _].
    by apply mod_ge in Hpm.
  - pose proof (layout_facts size _ N L) as (_ & HN & _ & _ & _ & _ & _ & G5).
    destruct P as [Hm Hp Hmc], W as [[Hv Hvu] Hb [Hc Hcu]]. simpl in *.
    apply parse_state_bytes; simpl; try done; unfold in_width; try lia. by rewrite Hv.
Qed.

(** C26: unmounting loses nothing.  Configuring a fresh structure over the
    flash of a mounted volume succeeds, writes nothing and restores the
    structure in use: the same position, rotation and geometry, hence the
    same contents. *)
Theorem wl_flash_config_remounts c st dm d N :
  sector_size c mod temp_buff_size c = 0 -> mounted N (in_use c st dm, d) ->
  wl_flash_config wl_crc true (fresh c, d) = (Ok tt, (with_state st (laid_out c BufLive), d)) /\
  forall v, view (with_state st (laid_out c BufLive), d) v = view (in_use c st dm, d) v.
Proof.
  intros Hm M. split; [|done]. pose proof (in_use_facts c st dm d N M) as (L & Hle & Hparse).
  destruct M as [_ P W [A1 M1] [A2 M2]]. simpl in *.
  assert (HS : succeeds (wl_flash_config wl_crc true) (fresh c, d)
    (fun _ s' => s' = (with_state st (laid_out c BufLive), d))).
  { eapply succ_config; [done|done|done|].
    destruct W as [[Hv _] _ [Hc _]], P as [Hmax Hpos Hmc]. simpl in *.
    apply (succ_recover_valid _ _ N (set_pos 0 st)); try done.
    unfold wl_flash_recover_pos. apply succ_get. pstep. eapply succeeds_mono.
    - apply (recover_loop_marks _ d N (pos st)).
      + by apply layout_with_state.
      + split; simpl; [done|lia|done].
      + lia.
      + simpl. rewrite Hmax. lia.
      + lia.
      + simpl. intros j Hj. by apply M1.
    - intros [] s' ->. apply succ_get. simpl. rewrite (proj2 (Z.eqb_neq _ _)) by lia.
      apply succeeds_ret. by destruct st. }
  apply succeeds_elim in HS as ([] & s' & E & ->). done.
Qed.

(** With every mark set the mount leaves the position at the stored 0. *)
Lemma config_all_marked c st dm d d1 N :
  sector_size c mod temp_buff_size c = 0 -> mounted N (in_use c st dm, d) -> pos st = N ->
  (forall x, cell d1 x = moved (in_use c st dm) N (cell d) x) ->
  wl_flash_config wl_crc true (fresh c, d1) = (Ok tt, (with_state (set_pos 0 st) (laid_out c BufLive), d1)).
Proof.
  intros Hm M Hfull Hd1. pose proof (in_use_facts c st dm d N M) as (L & Hle & Hparse).
  pose proof M as [Lw P W [A1 M1] [A2 M2]]. cbn [fst snd] in A1, A2, M1, M2, Lw, P, W.
  set (w := in_use c st dm) in *. set (w0 := laid_out c BufLive) in *.
  pose proof (layout_facts size w N Lw) as (Hp & HN & Hs & G1 & G2 & G3 & G4 & G5).
  pose proof P as [Hmax Hpos Hmc]. change (state w) with st in *. unfold sizeof_wl_state in *.
  assert (HS : succeeds (wl_flash_config wl_crc true) (fresh c, d1)
    (fun _ s' => s' = (with_state (set_pos 0 st) w0, d1))); [|by
      apply succeeds_elim in HS as ([] & s' & E & ->)].
  assert (Hlow : forall area, area = addr_state1 w \/ area = addr_state2 w ->
    cells d1 area 24 = cells d area 24).
  { intros area Har. apply cells_ext. intros i Hi. rewrite Hd1, (moved_high size w N) by (done || lia).
    unfold mark, sizeof_wl_state. change (state w) with st. by rewrite decide_False by lia. }
  eapply succ_config; [done|done|done|]. fold w0.
  destruct W as [[Hv _] _ [Hc _]]. change (state w) with st in *.
  apply (succ_recover_valid _ _ N (set_pos 0 st)); try done.
  { etrans; [|exact A1]. apply (Hlow (addr_state1 w)). auto. }
  { etrans; [|exact A2]. apply (Hlow (addr_state2 w)). auto. }
  unfold wl_flash_recover_pos. apply succ_get. pstep. eapply succeeds_mono.
  - apply (recover_loop_full _ d1 N); [by apply layout_with_state|split; simpl; [done|lia|done]|done| |].
    { simpl. rewrite Hmax. lia. }
    intros j Hj. unfold sizeof_wl_state.
    change (addr_state1 (with_state (set_pos 0 st) w0)) with (addr_state1 w).
    rewrite Hd1, (moved_high size w N) by (done || lia). unfold mark, sizeof_wl_state.
    change (state w) with st. rewrite Hfull. destruct (decide (j = N)) as [->|Hne].
    + rewrite decide_True by lia. rewrite (proj2 (M1 N ltac:(lia))) by lia. done.
    + rewrite decide_False by lia. rewrite M1 by lia. lia.
  - intros [] s' ->. apply succ_get. cbn [state with_state set_pos pos max_pos fst]. rewrite (proj2 (Z.eqb_neq _ _)) by lia. done.
Qed.

(** The pages seen from position 0 after the last move of a round. *)
Lemma phys_page_full w w' N q :
  0 < N -> pos (state w) = N -> pos (state w') = 0 -> move_count (state w') = move_count (state w) ->
  (if decide (phys_page w' N q = pos (state w)) then next_page w N else phys_page w' N q)
  = phys_page w N ((q + 1) mod N).
Proof.
  intros HN Hfull Hz Hm. unfold phys_page, next_page. rewrite Hfull, Hz, Hm.
  set (k := (q - move_count (state w)) mod N).
  assert (Hk : 0 <= k < N) by (apply Z.mod_pos_bound; lia).
  rewrite (decide_True (P := 0 <= k)) by lia. rewrite (decide_False (P := N < N)) by lia.
  assert (Ek : ((q + 1) mod N - move_count (state w)) mod N = (k + 1) mod N).
  { unfold k. rewrite Zminus_mod_idemp_l, Zplus_mod_idemp_l. f_equal. lia. }
  rewrite Ek. destruct (decide (k + 1 = N)) as [E|E].
  - rewrite E, Z_mod_same_full. by rewrite decide_False by lia.
  - rewrite Z.mod_small by lia. by rewrite decide_False by lia.
Qed.

(** a power cut at the wrap-around loses data.  If it happens after the
    last page of a round was moved and marked, before the state areas are
    rewritten, the next mount finds every mark set; [wl_flash_recover_pos]
    then leaves the position at its stored value 0 instead of [max_pos - 1],
    and every virtual address reads what the following page held. *)
Theorem power_cut_at_wrap_shifts_volume c st dm d N :
  sector_size c mod temp_buff_size c = 0 -> mounted N (in_use c st dm, d) -> pos st = N ->
  exists w1 d1 w2,
    updatewl_move (in_use c st dm, d) = (Ok tt, (w1, d1)) /\
    wl_flash_config wl_crc true (fresh c, d1) = (Ok tt, (w2, d1)) /\
    forall v, 0 <= v < flash_size w2 ->
      view (w2, d1) v = view (in_use c st dm, d) ((v + page_size c) mod flash_size w2).
Proof.
  intros Hm M Hfull. pose proof (in_use_facts c st dm d N M) as (L & _ & _).
  pose proof M as [Lw P _ _ _]. cbn [fst snd] in Lw, P.
  set (w := in_use c st dm) in *. set (w2 := with_state (set_pos 0 st) (laid_out c BufLive)).
  assert (HM : succeeds updatewl_move (w, d) (fun _ s' =>
    forall x, cell s'.2 x = moved w N (cell d) x)) by by apply (succ_move size w d N).
  apply succeeds_elim in HM as ([] & [w1 d1] & EM & Hd1). simpl in Hd1.
  exists w1, d1, w2. split; [done|]. split; [by apply (config_all_marked c st dm d d1 N)|].
  intros v Hv. pose proof (layout_facts size w N Lw) as (Hp & HN & _ & _ & _ & _ & _ & _).
  pose proof P as [Hmax Hpos Hmc]. pose proof (l_flash _ _ _ Lw) as [_ Ef].
  change (page_size c) with (page_size (cfg w)). change (flash_size w2) with (flash_size w) in *.
  assert (Hp0 : 0 < page_size (cfg w)) by (unfold SPI_FLASH_SEC_SIZE in *; lia).
  assert (L2 : layout_ok size w2 N) by (by apply layout_with_state).
  assert (P2 : pos_ok w2 N) by (split; simpl; [done|lia|done]).
  pose proof (Z.mod_pos_bound (v + page_size (cfg w)) (flash_size w)) as Hv2.
  rewrite (view_page size w2 d1 N), (view_page size w d N) by (done || lia).
  change (page_size (cfg w2)) with (page_size (cfg w)). set (page := page_size (cfg w)) in *.
  pose proof (Z.mod_pos_bound v page Hp0) as Hr. set (q := v / page). set (r := v mod page) in *.
  assert (E2 : (v + page) mod flash_size w = (q + 1) mod N * page + r).
  { rewrite Ef, <- scaled_mod by lia. f_equal. unfold q, r.
    pose proof (Z.div_mod v page ltac:(lia)). lia. }
  rewrite E2. destruct (page_split page ((q + 1) mod N) r Hp0 Hr) as [-> ->].
  pose proof (phys_page_range size _ N L2 P2 q) as [Hq _].
  rewrite Hd1. change (page_addr w2) with (page_addr w). rewrite (moved_page size w N) by done.
  by rewrite (phys_page_full w w2 N q).
Qed.

(** *** First mount *)

(** What the configuration has to satisfy. *)
Record conf_ok (c : wl_config_t) : Prop := ConfOk {
  k_sector : 0 < sector_size c /\ sector_size c mod SPI_FLASH_SEC_SIZE = 0;
  k_page : 0 < page_size c /\ page_size c mod sector_size c = 0;
  k_tmp : 0 < temp_buff_size c /\ sector_size c mod temp_buff_size c = 0;
  k_start : 0 <= start_addr c /\ start_addr c mod SPI_FLASH_SEC_SIZE = 0;
  k_full : 0 <= full_mem_size c /\ full_mem_size c mod SPI_FLASH_SEC_SIZE = 0;
  k_size : start_addr c + full_mem_size c <= size /\ size <= 2 ^ 31;
  k_wr : wr_size c = 8;
  k_version : is_u32 (c_version c);
}.

(** [n] bytes rounded up to whole sectors. *)
Definition sectors_up (n sec : Z) : Z := (n + sec - 1) / sec * sec.

Definition state_area_size (c : wl_config_t) : Z :=
  Z.max (sector_size c)
    (sectors_up (sizeof_wl_state + full_mem_size c / sector_size c) (sector_size c)).
Definition cfg_area_size (c : wl_config_t) : Z := sectors_up sizeof_wl_config (sector_size c).

(** The number of virtual pages of a configuration. *)
Definition virtual_pages (c : wl_config_t) : Z :=
  (full_mem_size c - 2 * state_area_size c - cfg_area_size c) / page_size c - 1.

Lemma sectors_up_ok n sec : 0 < sec -> 0 <= n ->
  n <= sectors_up n sec < n + sec /\ sectors_up n sec mod sec = 0.
Proof.
  intros Hs Hn. unfold sectors_up. split; [|apply Z_mod_mult].
  pose proof (Z.div_mod (n + sec - 1) sec ltac:(lia)).
  pose proof (Z.mod_pos_bound (n + sec - 1) sec Hs). lia.
Qed.

(** Sizes and multiples of the areas. *)
Record area_facts (c : wl_config_t) (N : Z) : Prop := AreaFacts {
  f_sector : SPI_FLASH_SEC_SIZE <= sector_size c <= page_size c;
  f_marks : 0 <= full_mem_size c / sector_size c /\
            full_mem_size c / sector_size c * 8 <= full_mem_size c;
  f_state : 0 < state_area_size c /\ state_area_size c mod sector_size c = 0 /\
            sizeof_wl_state + full_mem_size c / sector_size c <= state_area_size c;
  f_cfg : sizeof_wl_config <= cfg_area_size c < sizeof_wl_config + sector_size c /\
          cfg_area_size c mod sector_size c = 0;
  f_room : (N + 1) * page_size c <= full_mem_size c - 2 * state_area_size c - cfg_area_size c;
  f_pages : N + 1 <= full_mem_size c / sector_size c;
}.

Lemma conf_area_facts c N : conf_ok c -> N = virtual_pages c -> 0 < N -> area_facts c N.
Proof.
  intros [[Hs Hsm] [Hp Hpm] _ _ [Hf _] _ _ _] EN HN.
  pose proof (mod_ge _ SPI_FLASH_SEC_SIZE eq_refl Hs Hsm) as Hs4. pose proof (mod_ge _ _ Hs Hp Hpm) as Hps.
  unfold SPI_FLASH_SEC_SIZE in Hs4.
  assert (Hq : 0 <= full_mem_size c / sector_size c) by (by apply Z.div_pos).
  assert (Hfs : full_mem_size c / sector_size c * 8 <= full_mem_size c).
  { pose proof (Z.mul_div_le (full_mem_size c) (sector_size c) Hs). nia. }
  destruct (sectors_up_ok (sizeof_wl_state + full_mem_size c / sector_size c) (sector_size c)) as [Hn1 Hn2];
    [done|unfold sizeof_wl_state; lia|].
  destruct (sectors_up_ok sizeof_wl_config (sector_size c)) as [Hc1 Hc2]; [done|done|].
  assert (Hst : 0 < state_area_size c /\ state_area_size c mod sector_size c = 0 /\
    sizeof_wl_state + full_mem_size c / sector_size c <= state_area_size c).
  { unfold state_area_size. destruct (Z.max_spec (sector_size c) (sectors_up
      (sizeof_wl_state + full_mem_size c / sector_size c) (sector_size c))) as [[? ->]|[? ->]];
      [lia|]. rewrite Z.mod_same by lia. lia. }
  unfold virtual_pages in EN. set (room := full_mem_size c - _ - _) in *.
  assert (Hroom : 0 < room).
  { destruct (Z.lt_ge_cases 0 room); [done|].
    pose proof (Z.div_le_upper_bound room (page_size c) 0 Hp ltac:(lia)). lia. }
  pose proof (Z.mul_div_le room (page_size c) Hp) as Hrd.
  assert (HNr : (N + 1) * page_size c <= room) by (rewrite EN; lia).
  split; fold room; [unfold SPI_FLASH_SEC_SIZE; lia|done|done|done|done|].
  apply Z.div_le_lower_bound; [done|]. change (cfg_area_size c) with
    (sectors_up sizeof_wl_config (sector_size c)) in *. unfold sizeof_wl_config in *. nia.
Qed.

(** The code's arithmetic computes these sizes without overflow. *)
Lemma layout_fields c N w :
  conf_ok c -> N = virtual_pages c -> 0 < N -> cfg w = set_cfg_crc (wl_crc (config_body c)) c ->
  layout w = WlFlash (state w) (cfg w) (start_addr c + full_mem_size c - cfg_area_size c)
    (start_addr c + full_mem_size c - state_area_size c * 2 - cfg_area_size c)
    (start_addr c + full_mem_size c - state_area_size c * 1 - cfg_area_size c)
    (N * page_size c) (state_area_size c) (cfg_area_size c) (temp_buff w) (dummy_addr w).
Proof.
  intros K EN HN Ec. pose proof (conf_area_facts c N K EN HN) as [[Hs4 Hps] [Hq Hfs] [Hst0 [_ Hstn]] [Hc1 _] Hroom _].
  destruct K as [[Hs _] [Hp _] _ [Ha _] [Hf _] [Hz1 Hz2] Hw _].
  unfold SPI_FLASH_SEC_SIZE, sizeof_wl_state, sizeof_wl_config in *.
  assert (HNp : 0 <= N * page_size c) by (apply Z.mul_nonneg_nonneg; lia).
  unfold layout. rewrite Ec. cbn [set_cfg_crc start_addr full_mem_size page_size sector_size wr_size].
  unfold sizeof_wl_state, sizeof_wl_config. rewrite Hw.
  rewrite (u32_small (_ / _ * 8)) by (unfold in_width; lia). rewrite Z.div_mul by done.
  rewrite (u32_small (24 + _)) by (unfold in_width; lia).
  rewrite (u32_small (24 + _ + _ - 1)), (u32_small (32 + _ - 1)) by (unfold in_width; lia).
  fold (sectors_up (24 + full_mem_size c / sector_size c) (sector_size c)) (sectors_up 32 (sector_size c)).
  change (sectors_up 32 (sector_size c)) with (cfg_area_size c).
  replace (if sector_size c <? _ then _ else _) with (state_area_size c).
  2:{ destruct (sectors_up_ok (24 + full_mem_size c / sector_size c) (sector_size c)) as [Hu _]; [done|lia|].
      unfold state_area_size, sizeof_wl_state in *.
      destruct (Z.ltb_spec (sector_size c) (24 + full_mem_size c / sector_size c)).
      - rewrite u32_small by (unfold in_width; lia). lia.
      - apply Z.max_l. unfold sectors_up.
        rewrite <- (Z.div_unique_pos _ (sector_size c) 1 (24 + full_mem_size c / sector_size c - 1)); lia. }
  rewrite (u32_small (cfg_area_size c)) by (unfold in_width; lia).
  rewrite (u32_small (full_mem_size c - _ - _)) by (unfold in_width; lia).
  assert (EN' : (full_mem_size c - state_area_size c * 2 - cfg_area_size c) / page_size c - 1 = N).
  { rewrite EN. unfold virtual_pages. f_equal. f_equal. lia. }
  rewrite EN'. rewrite (u32_small N) by (unfold in_width; nia).
  rewrite !u32_small by (unfold in_width; lia). done.
Qed.

Lemma laid_out_ok c b N :
  conf_ok c -> N = virtual_pages c -> 0 < N -> layout_ok size (laid_out c b) N.
Proof.
  intros K EN HN. pose proof (conf_area_facts c N K EN HN) as [Hsp _ [Hst0 [Hstm Hstn]] [Hc1 Hc2] Hroom HNq].
  unfold laid_out. rewrite (layout_fields c N) by done.
  destruct K as [[Hs Hsm] [Hp Hpm] [Ht Htm] [Ha Ham] [Hf Hfm] [Hz1 Hz2] Hw _].
  assert (Hal : forall x, x mod sector_size c = 0 -> x mod SPI_FLASH_SEC_SIZE = 0)
    by (intros x Hx; by apply (mod_trans x _ (sector_size c))).
  pose proof (Hal _ Hstm) as Hst4. pose proof (Hal _ Hc2) as Hcs4. pose proof Ham as Ham'.
  apply Z.mod_divide in Hst4, Hcs4, Ham', Hfm; try done.
  destruct Hst4 as [x1 E1], Hcs4 as [x2 E2], Ham' as [x3 E3], Hfm as [x4 E4].
  assert (Hmul : forall x y, x = y * SPI_FLASH_SEC_SIZE -> x mod SPI_FLASH_SEC_SIZE = 0)
    by (intros x y ->; apply Z_mod_mult).
  unfold sizeof_wl_state, sizeof_wl_config in *.
  split; cbn [cfg state with_temp_buff with_cfg set_cfg_crc sector_size page_size temp_buff_size
    start_addr addr_state1 addr_state2 addr_cfg flash_size state_size cfg_size wr_size];
    unfold sizeof_wl_state, sizeof_wl_config; split_and?; try done; try lia.
  - by apply (mod_trans _ _ (sector_size c)).
  - apply (Hmul _ (x3 + x4 - x1 * 2 - x2)). lia.
  - apply (Hmul _ (x3 + x4 - x1 - x2)). lia.
  - apply (Hmul _ (x3 + x4 - x2)). lia.
Qed.

(** The state [wl_flash_init_sections] sets up. *)
Definition initial_state w N : wl_state_t :=
  let s := WlState 0 (N + 1) 0 (page_size (cfg w)) (c_version (cfg w)) 0 in
  set_crc (wl_crc (state_body s)) s.

Lemma succ_init w d N (Q : unit -> wl_flash * D -> Prop) :
  layout_ok size w N -> is_u32 (c_version (cfg w)) ->
  (forall d', mounted N (with_state (initial_state w N) w, d') ->
    Q tt (with_state (initial_state w N) w, d')) ->
  succeeds (wl_flash_init_sections wl_crc) (w, d) Q.
Proof.
  intros L Hver HQ. pose proof (layout_facts size w N L) as (Hp & HN & Hs & H1 & H2 & H3 & H4 & H5).
  pose proof (l_flash _ _ _ L) as [_ Ef]. pose proof (l_cfg _ _ _ L) as (G1 & G2 & G3 & G4 & G5).
  pose proof (l_state _ _ _ L) as [_ Hz].
  assert (Hp0 : 0 < page_size (cfg w)) by (unfold SPI_FLASH_SEC_SIZE in *; lia).
  assert (Hd0 : 0 <= (N + 1) * page_size (cfg w)) by (apply Z.mul_nonneg_nonneg; lia).
  unfold wl_flash_init_sections. apply succ_upd, succ_upd, succ_get.
  match goal with |- succeeds _ (?b, d) _ => replace b with (with_state (initial_state w N) w) end.
  2:{ unfold refresh_crc, initial_state, wl_calculate_crc. simpl.
      rewrite Ef, Z.div_mul, u32_small by (unfold in_width; lia).
      rewrite (Z.add_comm 1 N). done. }
  set (w1 := with_state _ w). assert (L1 : layout_ok size w1 N) by (by apply layout_with_state).
  change (addr_state1 w) with (addr_state1 w1). change (addr_state2 w) with (addr_state2 w1).
  assert (S : succeeds (_ ← store_state (addr_state1 w1); store_state (addr_state2 w1)) (w1, d)
    (fun _ s' => s'.1 = w1 /\ forall x, cell s'.2 x = both_stored w1 (cell d) x)).
  { by apply (succ_store_both size w1 d N). }
  apply succeeds_elim in S as ([] & [w' d1] & E & Ew & Hd1). simpl in Ew, Hd1. subst w'.
  assert (E' : forall k : prog (wl_flash * D) unit,
    (_ ← store_state (addr_state1 w1); _ ← store_state (addr_state2 w1); k) (w1, d) = k (w1, d1)).
  { intros k. unfold mbind, prog_bind in *. destruct (store_state (addr_state1 w1) (w1, d)) as [[[]|c] s1];
      [|done]. by rewrite E. }
  unfold succeeds. rewrite E'. unfold sizeof_wl_config, sizeof_wl_state in *.
  assert (S2 : succeeds (_ ← wl_flash_erase_raw (addr_cfg w1) (cfg_size w1);
      wl_flash_write_int (addr_cfg w1) (config_bytes (cfg w1))) (w1, d1)
    (fun _ s' => s'.1 = w1 /\ forall x, x < addr_cfg w1 -> cell s'.2 x = both_stored w1 (cell d) x)).
  { pstep. apply (succ_erase_raw size _ _ N); try done; simpl; [lia|lia|]. intros d2 Hd2.
    apply (succ_write size); [lia|done|simpl; lia|]. intros d3 Hd3. split; [done|].
    intros x Hx. simpl. rewrite Hd3. unfold programmed. rewrite decide_False by (simpl in *; lia).
    rewrite Hd2. unfold erased. by rewrite decide_False by (simpl in *; lia). }
  apply succeeds_elim in S2 as ([] & [w' d2] & E2 & Ew & Hd2). simpl in Ew, Hd2. subst w'.
  change (cfg_size w) with (cfg_size w1). change (addr_cfg w) with (addr_cfg w1).
  change (cfg w) with (cfg w1). rewrite E2. apply HQ. fold w1.
  assert (Har : forall area, area = addr_state1 w1 \/ area = addr_state2 w1 -> area_ok w1 N d2 area).
  { intros area Ha. apply (area_ok_frame w1 N d1 d2); [|done|].
    - intros x Hx. rewrite Hd1. apply Hd2. unfold sizeof_wl_state in *.
      change (addr_cfg w1) with (addr_cfg w). change (addr_state1 w1) with (addr_state1 w) in Ha.
      change (addr_state2 w1) with (addr_state2 w) in Ha. lia.
    - by apply (both_stored_area size w1 N d1 (cell d)). }
  assert (0 <= page_size (cfg w) <= (N + 1) * page_size (cfg w)) by nia.
  split; cbn [fst snd]; [done|split; simpl; lia| |by auto|by auto].
  split; [done|simpl; unfold in_width; lia|split; [done|apply crc_u32]].
Qed.

Lemma recover_initial w d N :
  mounted N (w, d) -> pos (state w) = 0 ->
  succeeds wl_flash_recover_pos (w, d) (fun _ s' => s' = (w, d)).
Proof.
  intros [L P W [A1 M1] _] H0. cbn [fst snd] in *. pose proof P as [Hmax Hpos Hmc].
  unfold wl_flash_recover_pos. apply succ_get. pstep. eapply succeeds_mono.
  - apply (recover_loop_marks w d N 0); try done; [rewrite Hmax; lia|lia|].
    intros j Hj. rewrite M1 by done. by rewrite H0.
  - intros [] s' ->. apply succ_get. cbn [state with_state set_pos pos max_pos]. rewrite Hmax.
    rewrite (proj2 (Z.eqb_neq 0 (N + 1))) by lia. apply succeeds_ret.
    rewrite <- H0. by destruct w as [[] ? ? ? ? ? ? ? ? ?].
Qed.

(** Both checksums of the stored states fail. *)
Definition unformatted w d : Prop :=
  forall area, area = addr_state1 w \/ area = addr_state2 w ->
    wl_crc (state_body (parse_state (cells d area 24))) <> s_crc (parse_state (cells d area 24)).

(** the first mount formats the flash.  On a device with no valid state
    area, [wl_flash_config] succeeds for every admissible configuration and
    leaves a mounted volume whose dummy is page 0. *)
Theorem wl_flash_config_formats c d N :
  conf_ok c -> N = virtual_pages c -> 0 < N -> unformatted (laid_out c BufLive) d ->
  succeeds (wl_flash_config wl_crc true) (fresh c, d) (fun _ s' =>
    mounted N s' /\ s'.1 = with_state (initial_state (laid_out c BufLive) N) (laid_out c BufLive)).
Proof.
  intros K EN HN Hun. pose proof (laid_out_ok c BufLive N K EN HN) as L.
  assert (Hle : sector_size c <= page_size c).
  { destruct K as [[? _] [? Hpm] _ _ _ _ _ _]. by apply mod_ge in Hpm. }
  eapply succ_config; [done|by destruct (k_tmp _ K)|done|].
  set (w := laid_out c BufLive) in *.
  pose proof (layout_facts size w N L) as (Hp & _ & Hs & H1 & H2 & H3 & H4 & H5).
  assert (Hd0 : 0 <= (N + 1) * page_size (cfg w)).
  { unfold SPI_FLASH_SEC_SIZE in *. apply Z.mul_nonneg_nonneg; lia. }
  unfold sizeof_wl_state in *. unfold wl_recover, read_state, sizeof_wl_state. apply succ_get.
  pstep. pstep. apply (succ_read size); [lia|done|lia|]. apply succeeds_ret. apply succ_upd.
  pstep. pstep. apply (succ_read size); [lia|done|lia|]. apply succeeds_ret.
  change (Z.to_nat 24) with 24%nat. unfold wl_calculate_crc.
  rewrite !(proj2 (Z.eqb_neq _ _)) by (apply Hun; auto). cbv iota. cbn [andb negb].
  set (st0 := parse_state _). pstep.
  apply (succ_init (with_state st0 w) d N); [by apply layout_with_state|exact (k_version _ K)|].
  intros d' M. eapply succeeds_mono; [by eapply recover_initial|]. by intros [] s' ->.
Qed.
End ops.

(** ** Witnesses: six 4 KiB sectors behind the raw flash driver *)
Module WlWitness.
#[local] Existing Instances Nor.nor_laws Nor.nor_reliable RawWitness.dev.
#[local] Instance fmc0 : Fmc Nor.nor := RawWitness.fmc 0.
#[local] Instance fmc0_laws : FmcLaws Nor.nor := RawWitness.fmc_laws 0.

Abbreviation dev := (raw_state Nor.nor).

Definition crc0 (bs : bytes) : Z := u32 (foldr Z.add 1 bs).
Lemma crc0_u32 bs : is_u32 (crc0 bs).
Proof. apply u32_range. Qed.

Definition conf0 : wl_config_t := WlConfig 0 (6 * 4096) 4096 4096 8 1 4096 0.

Lemma conf0_ok : conf_ok FLASH_TOTAL_SIZE conf0.
Proof. split; vm_compute; repeat split; discriminate. Qed.

(** Two moves have been made: the dummy is at the last page. *)
Definition st_full : wl_state_t :=
  let s := WlState 0 3 0 4096 1 0 in
  set_pos 2 (set_crc (crc0 (state_body s)) s).
Definition nor_full : Nor.nor :=
  Nor.program (Nor.program ∅ (3 * 4096) (state_bytes (set_pos 0 st_full) ++ [1; 1]))
    (4 * 4096) (state_bytes (set_pos 0 st_full) ++ [1; 1]).
Definition dev_full : dev := RawState nor_full 0 true true true 0 [] [].

Lemma full_mounted : mounted FLASH_TOTAL_SIZE crc0 2 (in_use crc0 conf0 st_full 0, dev_full).
Proof.
  assert (L : layout_ok FLASH_TOTAL_SIZE (in_use crc0 conf0 st_full 0) 2).
  { split; vm_compute; repeat split; discriminate. }
  assert (A : forall a, a = 3 * 4096 \/ a = 4 * 4096 ->
    area_ok (in_use crc0 conf0 st_full 0) 2 dev_full a).
  { intros a Ha. split; [destruct Ha as [->| ->]; vm_compute; reflexivity|].
    intros i Hi. assert (i = 0 \/ i = 1 \/ i = 2) as [-> |[->| ->]] by lia;
      destruct Ha as [->| ->]; vm_compute; split; try done; by intros Hc; destruct Hc. }
  split; [done| | |by apply A; left|by apply A; right];
    split; vm_compute; repeat split; discriminate.
Qed.

Lemma wl_flash_calc_addr_bijective_witness :
  let w := in_use crc0 conf0 st_full 0 in
  wl_flash_calc_addr w 4097 = 4097 /\
  0 <= wl_flash_calc_addr w 4097 < (2 + 1) * page_size (cfg w).
Proof.
  split; [vm_compute; reflexivity|].
  apply (wl_flash_calc_addr_bijective FLASH_TOTAL_SIZE (in_use crc0 conf0 st_full 0) 2 4097 4097).
  - apply full_mounted.
  - apply full_mounted.
  - vm_compute. split; [discriminate|reflexivity].
  - vm_compute. split; [discriminate|reflexivity].
Defined.

Lemma wl_refines_plain_flash_witness :
  let s := (in_use crc0 conf0 st_full 0, dev_full) in
  succeeds (wl_run crc0 [WlErase 0 1; WlWrite 0 [7; 8]; WlRead 0 2; WlRead 4096 1]) s
    (fun outs _ => outs = [[]; []; [7; 8]; [255]]).
Proof.
  eapply succeeds_mono.
  - apply (wl_refines_plain_flash FLASH_TOTAL_SIZE crc0 crc0_u32 _ 2
             (fun v => if bool_decide (0 <= v < 8192) then view (in_use crc0 conf0 st_full 0, dev_full) v else 255)).
    + exact full_mounted.
    + intros v Hv. rewrite bool_decide_true; [done|]. revert Hv. by vm_compute.
    + repeat constructor; vm_compute; try discriminate; try done.
  - intros outs s' (_ & -> & _). vm_compute. reflexivity.
Defined.

Definition sector7 : bytes := repeat 7 (Z.to_nat 4096).

Lemma sector7_ok : bytes_ok sector7.
Proof. apply Forall_forall. intros x Hx. apply list_elem_of_In, repeat_spec in Hx as ->. done. Qed.

Lemma fs_flash_write_read_witness :
  succeeds (_ ← fs_flash_write crc0 1 sector7 1; fs_flash_read (6 * 4096) 1 1)
    (in_use crc0 conf0 st_full 0, dev_full) (fun bs _ => bs = sector7).
Proof.
  eapply succeeds_mono.
  - apply (fs_flash_write_read FLASH_TOTAL_SIZE crc0 crc0_u32 _ 2 (6 * 4096) 1 sector7 1);
      [exact full_mounted|by vm_compute|by vm_compute|exact sector7_ok|done|done| |by vm_compute].
    unfold sector7. rewrite repeat_length. reflexivity.
  - by intros bs s' [-> _].
Defined.

Lemma fs_flash_write_past_end_hits_sector_0_witness :
  succeeds (fs_flash_write crc0 2 sector7 1) (in_use crc0 conf0 st_full 0, dev_full)
    (fun _ s' => view s' 0 = 7).
Proof.
  eapply succeeds_mono.
  - apply (fs_flash_write_past_end_hits_sector_0 FLASH_TOTAL_SIZE crc0 crc0_u32
             (in_use crc0 conf0 st_full 0, dev_full) 2 sector7
             (view (in_use crc0 conf0 st_full 0, dev_full)));
      [exact full_mounted|by vm_compute|done|unfold sector7; rewrite repeat_length; reflexivity].
  - intros _ s' [[_ Ef] Hs]. rewrite Hs; [vm_compute; reflexivity|]. rewrite Ef. by vm_compute.
Defined.

Lemma wl_flash_config_remounts_witness :
  wl_flash_config crc0 true (fresh conf0, dev_full)
  = (Ok tt, (with_state st_full (laid_out crc0 conf0 BufLive), dev_full)).
Proof.
  apply (wl_flash_config_remounts FLASH_TOTAL_SIZE crc0 conf0 st_full 0 dev_full 2);
    [reflexivity|exact full_mounted].
Defined.

Lemma power_cut_at_wrap_shifts_volume_witness :
  exists w1 d1 w2,
    updatewl_move (in_use crc0 conf0 st_full 0, dev_full) = (Ok tt, (w1, d1)) /\
    wl_flash_config crc0 true (fresh conf0, d1) = (Ok tt, (w2, d1)) /\
    forall v, 0 <= v < flash_size w2 ->
      view (w2, d1) v = view (in_use crc0 conf0 st_full 0, dev_full) ((v + 4096) mod flash_size w2).
Proof.
  apply (power_cut_at_wrap_shifts_volume FLASH_TOTAL_SIZE crc0 conf0 st_full 0 dev_full 2);
    [reflexivity|exact full_mounted|reflexivity].
Defined.

Lemma wl_flash_config_formats_witness :
  succeeds (wl_flash_config crc0 true) (fresh conf0, RawState ∅ 0 true true true 0 [] [] : dev)
    (fun _ s' => pos (state s'.1) = 0 /\ flash_size s'.1 = 8192).
Proof.
  eapply succeeds_mono.
  - apply (wl_flash_config_formats FLASH_TOTAL_SIZE crc0 crc0_u32 conf0 _ 2);
      [exact conf0_ok|reflexivity|done|]. intros a [->| ->]; by vm_compute.
  - intros _ s' [_ ->]. split; vm_compute; reflexivity.
Defined.
End WlWitness.
