(* ===== verification/Boot.v ===== *)
(** * Main boot loader: [MBL/mainboot/mbl_image_validate.c] and the boot path
    of [MBL/mainboot/mbl.c]

    The boot loader picks one of two firmware images from their status bytes,
    validates it, records the result and jumps to it.  The mask-ROM services
    it calls (system status area, image verification, version counter) are the
    class [RomSys]. *)
From S2P Require Import Prelude.

(** [rom_image.h], [rom_sys.h], [rom_ibl_state.h], [config_gdm32.h] *)
Definition IMG_FLAG_NEWER_MASK : Z := 0x01.
Definition IMG_FLAG_VERIFY_MASK : Z := 0x06.
Definition IMG_FLAG_IA_MASK : Z := 0x18.
Definition IMG_FLAG_OLDER : Z := 0x0.
Definition IMG_FLAG_NEWER : Z := 0x1.
Definition IMG_FLAG_VERIFY_OK : Z := Z.shiftl 1 1.
Definition IMG_FLAG_VERIFY_FAIL : Z := Z.shiftl 2 1.
Definition IMG_FLAG_IA_OK : Z := Z.shiftl 1 3.
Definition IMG_FLAG_IA_FAIL : Z := Z.shiftl 2 3.
Definition SYS_STATUS_FOUND_OK : Z := 0.
Definition SYS_STATUS_FOUND_ERR : Z := -2.
Definition SYS_IMAGE0_STATUS : Z := 3.
Definition SYS_IMAGE1_STATUS : Z := 4.
Definition SYS_RUNNING_IMG : Z := 5.
Definition IMAGE_0 : Z := 0.
Definition IMAGE_1 : Z := 1.
Definition IBL_VERIFY_NONE : Z := 0.
Definition IBL_VERIFY_IMG_ONLY : Z := 1.
Definition IBL_VERIFY_CERT_IMG : Z := 3.
Definition IBL_STATE_MAGIC_CODE : Z := 0xBACEC0DE.
Definition IMG_OK : Z := 0.
Definition IMG_HEADER_SIZE : Z := 32.
Definition RE_IMG_0_OFFSET : Z := 0xA000.
Definition RE_IMG_1_OFFSET : Z := 0x1EA000.
Definition RE_IMG_1_END : Z := 0x3CA000.
Definition RE_MBL_FLASH_BASE : Z := 0x08000000.

(** The ROM services.  [R] is the state they keep (status area, counters). *)
Class RomSys (R : Type) := {
  rom_sys_status_get : R -> Z -> Z * Z;                   (* key -> result, value *)
  rom_sys_set_img_flag : R -> Z -> Z -> Z -> Z * R;        (* image, mask, flag *)
  rom_sys_set_running_img : R -> Z -> Z * R;
  rom_sys_set_fw_ver : R -> Z -> Z * R;
  rom_cert_img_validate : R -> bool -> Z -> bytes -> Z * Z;  (* mapping, offset, key hash -> result, version *)
  rom_img_validate : R -> bool -> Z -> bytes -> Z * Z;
}.

Section mbl.
Context {R : Type} `{RomSys R}.
(** [IMG_OVERHEAD_LEN] of [mbl_region.h]. *)
Context (overhead : Z).
Implicit Types (r : R).

(** Result of [boot_image_find]: an error code, or index and offset. *)
Inductive find_result := Found (idx offset : Z) | NotFound (code : Z).

(** [found]: 1, 0 or an error. *)
Definition status_found (ret : Z) : option bool :=
  if ret <=? SYS_STATUS_FOUND_ERR then None else Some (ret =? SYS_STATUS_FOUND_OK).

Definition flag_is (stat mask v : Z) : bool := Z.land stat mask =? v.

(** The image is marked newer and neither its verification nor its
    application check is marked failed. *)
Definition newer_ok (found : bool) (stat : Z) : bool :=
  found && flag_is stat IMG_FLAG_NEWER_MASK IMG_FLAG_NEWER
  && (negb (flag_is stat IMG_FLAG_VERIFY_MASK IMG_FLAG_VERIFY_FAIL)
      && negb (flag_is stat IMG_FLAG_IA_MASK IMG_FLAG_IA_FAIL)).

(** Both checks are marked passed. *)
Definition proven_ok (found : bool) (stat : Z) : bool :=
  found && flag_is stat IMG_FLAG_VERIFY_MASK IMG_FLAG_VERIFY_OK
  && flag_is stat IMG_FLAG_IA_MASK IMG_FLAG_IA_OK.

Definition selected (boot_idx : Z) : find_result := Found boot_idx (RE_IMG_0_OFFSET + overhead).

Definition boot_image_find r (offset_ptr : bool) : find_result * R :=
  if negb offset_ptr then (NotFound (-1), r)
  else
    let '(ret0, stat0) := rom_sys_status_get r SYS_IMAGE0_STATUS in
    match status_found ret0 with
    | None => (NotFound (-2), r)
    | Some f0 =>
        let '(ret1, stat1) := rom_sys_status_get r SYS_IMAGE1_STATUS in
        match status_found ret1 with
        | None => (NotFound (-3), r)
        | Some f1 =>
            if negb f0 && f1 then (NotFound (-4), r)
            else if negb f0 && negb f1 then
              let '(_, r') := rom_sys_set_img_flag r IMAGE_0 IMG_FLAG_NEWER_MASK IMG_FLAG_NEWER in
              (selected 0, r')
            else if newer_ok f0 stat0 then (selected 0, r)
            else if newer_ok f1 stat1 then (selected 1, r)
            else if proven_ok f0 stat0 then (selected 0, r)
            else if proven_ok f1 stat1 then (selected 1, r)
            else (NotFound (-5), r)
        end
    end.

(** [mapping] is the state of the flash offset mapping; [stack_ver] is what the
    uninitialised [sw_info.version] holds on entry. *)
Definition image_x_validate r (mapping : bool) (img_offset : Z) (pkhash : bytes) (boot_opt stack_ver : Z)
  : Z * R :=
  if boot_opt =? IBL_VERIFY_NONE then (0, r)
  else
    let checked :=
      if boot_opt =? IBL_VERIFY_CERT_IMG then
        let '(ret, ver) := rom_cert_img_validate r mapping img_offset pkhash in
        if ret =? IMG_OK then inr ver else inl (-3)
      else if boot_opt =? IBL_VERIFY_IMG_ONLY then
        let '(ret, ver) := rom_img_validate r mapping img_offset pkhash in
        if ret =? IMG_OK then inr ver else inl (-4)
      else inr stack_ver in
    match checked with
    | inl code => (code, r)
    | inr ver =>
        let '(ret, r') := rom_sys_set_fw_ver r ver in
        if ret <? 0 then (-5, r') else (0, r')
    end.

(** The part of [ibl_state_t] the boot loader uses. *)
Record ibl_state_t := IblState { magic : Z; ibl_opt : Z; rotpk_hash : bytes }.

Inductive boot_outcome :=
  | Jump (start_addr : Z) (idx : Z) (mapping : bool)
  | BootFailed (mapping : bool).

(** [main], from the shared initial boot state to the jump or the endless
    loop at [BootFailed].  The mapping is off after reset. *)
Definition mbl_main r (shared : ibl_state_t) (stack_ver : Z) : boot_outcome * R :=
  let secure_boot := magic shared =? IBL_STATE_MAGIC_CODE in
  let ibl_state := if secure_boot then shared else IblState 0 0 [] in
  let '(res, r1) := boot_image_find r true in
  match res with
  | NotFound _ => (BootFailed false, r1)
  | Found boot_idx image_offset =>
      let mapping := boot_idx =? IMAGE_1 in
      let '(ret, r2) := image_x_validate r1 mapping (u32 (image_offset - IMG_HEADER_SIZE))
                          (rotpk_hash ibl_state) (u8 (ibl_opt ibl_state)) stack_ver in
      if ret <? 0 then
        let '(_, r3) := rom_sys_set_img_flag r2 boot_idx IMG_FLAG_VERIFY_MASK IMG_FLAG_VERIFY_FAIL in
        (BootFailed mapping, r3)
      else
        let '(_, r3) := rom_sys_set_img_flag r2 boot_idx IMG_FLAG_VERIFY_MASK IMG_FLAG_VERIFY_OK in
        let '(_, r4) := rom_sys_set_running_img r3 boot_idx in
        (Jump (RE_MBL_FLASH_BASE + image_offset) boot_idx mapping, r4)
  end.

(** ** Switching images: the end of [ota_demo_task] (MSDK/app/ota_demo.c) and
    [app_dfu_srv_disconn_cb] (MSDK/ble/app/app_dfu_srv.c) *)

(** [!running_idx] of a [uint8_t]. *)
Definition other_idx (i : Z) : Z := if i =? 0 then 1 else 0.

Inductive flag_write := FlagWrite (idx mask flag : Z).

Definition ota_switch_writes (running_idx : Z) : list flag_write :=
  [FlagWrite running_idx (Z.lor IMG_FLAG_IA_MASK IMG_FLAG_NEWER_MASK) (Z.lor IMG_FLAG_IA_OK IMG_FLAG_OLDER);
   FlagWrite (other_idx running_idx)
     (Z.lor (Z.lor IMG_FLAG_IA_MASK IMG_FLAG_VERIFY_MASK) IMG_FLAG_NEWER_MASK) 0;
   FlagWrite (other_idx running_idx) IMG_FLAG_NEWER_MASK IMG_FLAG_NEWER].

Definition dfu_switch_writes (working_bank : Z) : list flag_write :=
  [FlagWrite working_bank (Z.lor IMG_FLAG_IA_MASK IMG_FLAG_NEWER_MASK) (Z.lor IMG_FLAG_IA_OK IMG_FLAG_OLDER);
   FlagWrite (other_idx working_bank)
     (Z.lor (Z.lor IMG_FLAG_IA_MASK IMG_FLAG_VERIFY_MASK) IMG_FLAG_NEWER_MASK) IMG_FLAG_NEWER].

(** The calls are made one after the other whatever each returns; the results
    are or-ed. *)
Fixpoint apply_writes r (ws : list flag_write) : Z * R :=
  match ws with
  | [] => (0, r)
  | FlagWrite i m f :: ws =>
      let '(ret, r') := rom_sys_set_img_flag r i m f in
      let '(res, r'') := apply_writes r' ws in (Z.lor ret res, r'')
  end.
End mbl.

(** ** The ROM's contract *)

(** [img_status r i] is the status byte of image [i], [None] when the status
    area has none; [ver_counter] is the anti-rollback version counter. *)
Class RomView (R : Type) := {
  img_status : R -> Z -> option Z;
  ver_counter : R -> Z;
}.

Definition set_bits (old : option Z) (mask flag : Z) : Z :=
  Z.lor (Z.land (default 0 old) (Z.land (Z.lnot mask) 0xFF)) (Z.land flag mask).

Definition is_image (i : Z) : Prop := i = IMAGE_0 \/ i = IMAGE_1.

Class RomLaws (R : Type) `{RomSys R, RomView R} : Prop := {
  get_status (r : R) i : is_image i ->
    rom_sys_status_get r (SYS_IMAGE0_STATUS + i) =
      match img_status r i with Some b => (0, b) | None => (-1, 0) end;
  set_flag_ok (r : R) i m f : is_image i -> (rom_sys_set_img_flag r i m f).1 = 0;
  set_flag_status (r : R) i m f j : is_image i ->
    img_status (rom_sys_set_img_flag r i m f).2 j =
      if decide (j = i) then Some (set_bits (img_status r i) m f) else img_status r j;
  set_flag_counter (r : R) i m f : ver_counter (rom_sys_set_img_flag r i m f).2 = ver_counter r;
  set_flag_validate (r : R) i m f mp off pk :
    rom_cert_img_validate (rom_sys_set_img_flag r i m f).2 mp off pk = rom_cert_img_validate r mp off pk /\
    rom_img_validate (rom_sys_set_img_flag r i m f).2 mp off pk = rom_img_validate r mp off pk;
  set_running_status (r : R) i j : img_status (rom_sys_set_running_img r i).2 j = img_status r j;
  set_fw_status (r : R) v j : img_status (rom_sys_set_fw_ver r v).2 j = img_status r j;
  (** an older version is refused and changes nothing *)
  set_fw_old (r : R) v : v < ver_counter r -> (rom_sys_set_fw_ver r v).1 < 0 /\ (rom_sys_set_fw_ver r v).2 = r;
  set_fw_new (r : R) v : ver_counter r <= v -> 0 <= (rom_sys_set_fw_ver r v).1;
}.

(** ** The choice, as a function of the two status bytes *)
Definition select_idx (s0 s1 : option Z) : option Z :=
  match s0, s1 with
  | None, Some _ => None
  | None, None => Some 0
  | Some b0, _ =>
      let f1 := bool_decide (is_Some s1) in let b1 := default 0 s1 in
      if newer_ok true b0 then Some 0
      else if newer_ok f1 b1 then Some 1
      else if proven_ok true b0 then Some 0
      else if proven_ok f1 b1 then Some 1
      else None
  end.

(** The pair of status bytes, and the effect of a flag write on it. *)
Abbreviation statuses := (option Z * option Z)%type.
Definition st_of (s : statuses) (i : Z) : option Z := if i =? 0 then s.1 else s.2.
Definition write_st (s : statuses) (w : flag_write) : statuses :=
  match w with
  | FlagWrite i m f =>
      if i =? 0 then (Some (set_bits s.1 m f), s.2) else (s.1, Some (set_bits s.2 m f))
  end.
Definition write_sts (s : statuses) (ws : list flag_write) : statuses := fold_left write_st ws s.
Definition select_st (s : statuses) : option Z := select_idx s.1 s.2.

(** After an interrupted or complete switch away from image [i], the boot
    loader picks [i], or the other image and then, once that one is marked
    failed, [i]. *)
Definition falls_back (i : Z) (s : statuses) : bool :=
  bool_decide (select_st s = Some i) ||
  (bool_decide (select_st s = Some (other_idx i)) &&
   bool_decide (select_st (write_st s (FlagWrite (other_idx i) IMG_FLAG_VERIFY_MASK IMG_FLAG_VERIFY_FAIL)) = Some i)).

(** Image [i] was booted and found valid. *)
Definition booted (i : Z) (s : statuses) : bool :=
  bool_decide (select_st s = Some i) && bool_decide (is_Some (st_of s i)) &&
  flag_is (default 0 (st_of s i)) IMG_FLAG_VERIFY_MASK IMG_FLAG_VERIFY_OK.

(** Only the low five bits of a status byte matter. *)
Definition low5 (b : Z) : Z := Z.land b 0x1F.
Definition low5s (s : statuses) : statuses := (low5 <$> s.1, low5 <$> s.2).

Lemma flag_is_low5 b m v : Z.land m 0x1F = m -> flag_is (low5 b) m v = flag_is b m v.
Proof.
  intros Hm. unfold flag_is, low5. rewrite <- Z.land_assoc.
  by rewrite (Z.land_comm 31 m), Hm.
Qed.

Lemma select_low5 s : select_st (low5s s) = select_st s.
Proof.
  destruct s as [[b0|] [b1|]]; try done; unfold select_st, select_idx, low5s, newer_ok, proven_ok;
    simpl; by rewrite !flag_is_low5.
Qed.

Lemma low5_set_bits old m f : low5 (set_bits (low5 <$> old) m f) = low5 (set_bits old m f).
Proof.
  unfold set_bits, low5. destruct old as [b|]; simpl; [|done].
  rewrite !Z.land_lor_distr_l. f_equal.
  bits_eq k Hk. rewrite !Z.land_spec. by destruct (Z.testbit b k), (Z.testbit 31 k), (Z.testbit (Z.lnot m) k), (Z.testbit 255 k).
Qed.

Lemma low5_write s w : low5s (write_st (low5s s) w) = low5s (write_st s w).
Proof.
  destruct w as [i m f], s as [s0 s1]. unfold low5s, write_st. simpl.
  destruct (i =? 0); simpl; f_equal; try (by rewrite low5_set_bits);
    destruct s0, s1; simpl; try done; unfold low5; by rewrite <- !Z.land_assoc.
Qed.

Lemma low5_writes s ws : low5s (write_sts (low5s s) ws) = low5s (write_sts s ws).
Proof.
  unfold write_sts. revert s. induction ws as [|w ws IH]; intros s; simpl.
  - destruct s as [[b0|] [b1|]]; unfold low5s; simpl; try done; unfold low5; by rewrite <- !Z.land_assoc.
  - rewrite <- (IH (write_st (low5s s) w)), <- (IH (write_st s w)). by rewrite low5_write.
Qed.

Lemma falls_back_low5 i s : falls_back i (low5s s) = falls_back i s.
Proof.
  unfold falls_back. rewrite select_low5. do 3 f_equal.
  rewrite <- select_low5, low5_write, select_low5. done.
Qed.

Lemma booted_low5 i s : booted i (low5s s) = booted i s.
Proof.
  unfold booted. rewrite select_low5. destruct s as [s0 s1]. unfold st_of, low5s. simpl.
  destruct (i =? 0); [destruct s0|destruct s1]; simpl; by rewrite ?flag_is_low5.
Qed.

Definition low5_range : list (option Z) := None :: (Some <$> seqZ 0 32).
Definition switches (i : Z) : list (list flag_write) := [ota_switch_writes i; dfu_switch_writes i].

Definition falls_back_check (i : Z) (s : statuses) : bool :=
  negb (booted i s) ||
  forallb (fun ws => forallb (fun k => falls_back i (write_sts s (take k ws))) (seq 0 4)) (switches i).

Lemma falls_back_all :
  forallb (fun i => forallb (fun s0 => forallb (fun s1 => falls_back_check i (s0, s1))
    low5_range) low5_range) [0; 1] = true.
Proof. vm_compute. reflexivity. Qed.

Lemma low5_in_range (o : option Z) : In (low5 <$> o) low5_range.
Proof.
  destruct o as [b|]; [right|by left]. apply list_elem_of_In, list_elem_of_fmap.
  exists (low5 b). split; [done|]. apply elem_of_seqZ. unfold low5.
  change 31 with (Z.ones 5). rewrite Z.land_ones by lia. pose proof (Z.mod_pos_bound b (2 ^ 5)). lia.
Qed.

(** Every interrupted or complete image switch leaves a bootable device. *)
Lemma switch_falls_back i s ws k :
  is_image i -> booted i s = true -> ws = ota_switch_writes i \/ ws = dfu_switch_writes i ->
  falls_back i (write_sts s (take k ws)) = true.
Proof.
  intros Hi Hb Hws. pose proof falls_back_all as H.
  rewrite forallb_forall in H. specialize (H i).
  assert (Hin : In i [0; 1]) by (destruct Hi as [->| ->]; simpl; auto).
  specialize (H Hin). rewrite forallb_forall in H. specialize (H _ (low5_in_range s.1)).
  rewrite forallb_forall in H. specialize (H _ (low5_in_range s.2)).
  change (low5 <$> s.1, low5 <$> s.2) with (low5s s) in H. unfold falls_back_check in H.
  rewrite booted_low5, Hb in H. cbn [negb orb] in H.
  assert (Hk : forall j, (j < 4)%nat -> falls_back i (write_sts s (take j ws)) = true).
  { intros j Hj. rewrite <- falls_back_low5, <- low5_writes, falls_back_low5.
    rewrite forallb_forall in H.
    assert (Hin2 : In ws (switches i)) by (destruct Hws as [->| ->]; simpl; auto).
    specialize (H _ Hin2). rewrite forallb_forall in H. apply H. apply in_seq. lia. }
  destruct (decide (k < 4)%nat); [by apply Hk|].
  rewrite take_ge by (destruct Hws as [->| ->]; simpl; lia).
  specialize (Hk 3%nat ltac:(lia)). rewrite take_ge in Hk; [done|].
  destruct Hws as [->| ->]; simpl; lia.
Qed.

Section contract.
Context {R : Type} `{RomLaws R} (overhead : Z).
Implicit Types (r : R).

Definition statuses_of r : statuses := (img_status r 0, img_status r 1).

Lemma is_image_0 : is_image 0. Proof. by left. Qed.
Lemma is_image_1 : is_image 1. Proof. by right. Qed.
#[local] Hint Resolve is_image_0 is_image_1 : gd.

Lemma set_flag_statuses r i m f :
  is_image i -> statuses_of (rom_sys_set_img_flag r i m f).2 = write_st (statuses_of r) (FlagWrite i m f).
Proof.
  intros Hi. unfold statuses_of, write_st. rewrite !set_flag_status by done.
  destruct Hi as [->| ->]; simpl; done.
Qed.

Lemma apply_writes_statuses r ws :
  Forall (fun w => match w with FlagWrite i _ _ => is_image i end) ws ->
  (apply_writes r ws).1 = 0 /\ statuses_of (apply_writes r ws).2 = write_sts (statuses_of r) ws.
Proof.
  intros Hws. revert r. induction Hws as [|[i m f] ws Hi _ IH]; intros r; [done|].
  simpl. destruct (rom_sys_set_img_flag r i m f) as [ret r'] eqn:E.
  pose proof (set_flag_ok r i m f Hi) as Hret. pose proof (set_flag_statuses r i m f Hi) as Hs.
  rewrite E in Hret, Hs. simpl in Hret, Hs. subst ret. destruct (IH r') as [IH1 IH2].
  destruct (apply_writes r' ws) as [res r'']. simpl in *. subst res. split; [done|].
  by rewrite IH2, Hs.
Qed.

(** [boot_image_find] computes [select_idx] of the status bytes. *)
Lemma boot_image_find_select r :
  exists r', boot_image_find overhead r true =
    (match select_st (statuses_of r) with
     | Some i => Found i (RE_IMG_0_OFFSET + overhead)
     | None => NotFound (if bool_decide (is_Some (img_status r 0)) then -5 else -4)
     end, r') /\
    r' = (if bool_decide (img_status r 0 = None /\ img_status r 1 = None)
          then (rom_sys_set_img_flag r IMAGE_0 IMG_FLAG_NEWER_MASK IMG_FLAG_NEWER).2 else r).
Proof.
  unfold boot_image_find, select_st, select_idx, statuses_of. simpl negb. cbv iota.
  rewrite (get_status r 0 is_image_0 : rom_sys_status_get r SYS_IMAGE0_STATUS = _).
  destruct (img_status r 0) as [b0|] eqn:E0; cbn [status_found Z.leb Z.compare];
    rewrite (get_status r 1 is_image_1 : rom_sys_status_get r SYS_IMAGE1_STATUS = _);
    destruct (img_status r 1) as [b1|] eqn:E1; eexists; simpl; split; try reflexivity.
  - repeat (match goal with |- context [if ?b then _ else _] => destruct b end; try reflexivity).
  - repeat (match goal with |- context [if ?b then _ else _] => destruct b end; try reflexivity).
  - by destruct (rom_sys_set_img_flag r IMAGE_0 IMG_FLAG_NEWER_MASK IMG_FLAG_NEWER).
Qed.

(** An image the boot loader may start: newer and not marked failed, or marked
    passed by both checks. *)
Definition eligible (o : option Z) : bool :=
  match o with Some b => newer_ok true b || proven_ok true b | None => false end.
Definition newer (o : option Z) : bool :=
  match o with Some b => newer_ok true b | None => false end.

(** the choice of [boot_image_find].  It returns an eligible image, or
    image 0 on a device without status; a newer image that has not failed is
    preferred over one that is not newer; it fails only when image 1 alone has
    a status, or when no image is eligible. *)
Theorem boot_image_find_choice r :
  match (boot_image_find overhead r true).1 with
  | Found i off =>
      off = RE_IMG_0_OFFSET + overhead /\ is_image i /\
      ((i = 0 /\ statuses_of r = (None, None)) \/ eligible (img_status r i) = true) /\
      (newer (img_status r (other_idx i)) = true -> newer (img_status r i) = true)
  | NotFound code =>
      (code = -4 /\ img_status r 0 = None /\ img_status r 1 <> None) \/
      (code = -5 /\ eligible (img_status r 0) = false /\ eligible (img_status r 1) = false)
  end.
Proof.
  destruct (boot_image_find_select r) as (r' & -> & _). simpl.
  unfold select_st, select_idx, statuses_of. cbn [fst snd].
  destruct (img_status r 0) as [b0|] eqn:E0, (img_status r 1) as [b1|] eqn:E1;
    rewrite ?bool_decide_true by done; rewrite ?bool_decide_false by (by intros [? ?]);
    cbn [default from_option]; unfold id.
  - unfold eligible, newer, other_idx.
    destruct (newer_ok true b0) eqn:N0, (newer_ok true b1) eqn:N1,
      (proven_ok true b0) eqn:P0, (proven_ok true b1) eqn:P1; simpl;
      rewrite ?E0, ?E1, ?N0, ?N1, ?P0, ?P1; unfold is_image, IMAGE_0, IMAGE_1; tauto.
  - unfold eligible, newer, other_idx.
    assert (F1 : newer_ok false (default 0 None) = false) by done.
    assert (F2 : proven_ok false (default 0 None) = false) by done. simpl default in F1, F2.
    rewrite ?F1, ?F2.
    destruct (newer_ok true b0) eqn:N0, (proven_ok true b0) eqn:P0; simpl;
      rewrite ?E0, ?E1, ?N0, ?P0; unfold is_image, IMAGE_0, IMAGE_1; tauto.
  - left. done.
  - unfold is_image, IMAGE_0, IMAGE_1, newer, other_idx. simpl. rewrite E1. naive_solver.
Qed.

Lemma find_state_counter r r' i off :
  boot_image_find overhead r true = (Found i off, r') ->
  ver_counter r' = ver_counter r /\
  (forall mp o pk, rom_cert_img_validate r' mp o pk = rom_cert_img_validate r mp o pk /\
                   rom_img_validate r' mp o pk = rom_img_validate r mp o pk).
Proof.
  intros E. destruct (boot_image_find_select r) as (r2 & E2 & Hr2). rewrite E2 in E.
  injection E as _ ->. rewrite Hr2. destruct (bool_decide (img_status r 0 = None /\ img_status r 1 = None)); [|done].
  split; [apply set_flag_counter|]. intros. apply set_flag_validate.
Qed.

(** A verification that was asked for and passed. *)
Lemma image_x_validate_accepts r mp off pk opt sv ret r' :
  (opt = IBL_VERIFY_CERT_IMG \/ opt = IBL_VERIFY_IMG_ONLY) ->
  image_x_validate r mp off pk opt sv = (ret, r') -> 0 <= ret ->
  exists ver,
    (if opt =? IBL_VERIFY_CERT_IMG then rom_cert_img_validate else rom_img_validate) r mp off pk
      = (IMG_OK, ver) /\ ver_counter r <= ver.
Proof.
  intros Hopt Hv Hret. unfold image_x_validate in Hv.
  destruct Hopt as [->| ->]; cbn [Z.eqb Pos.eqb IBL_VERIFY_NONE IBL_VERIFY_CERT_IMG IBL_VERIFY_IMG_ONLY] in *;
    [destruct (rom_cert_img_validate r mp off pk) as [ret1 ver]
    |destruct (rom_img_validate r mp off pk) as [ret1 ver]];
    (destruct (Z.eqb_spec ret1 IMG_OK) as [->|]; [|injection Hv as <- _; lia]);
    exists ver; (split; [done|]);
    (destruct (Z.lt_ge_cases ver (ver_counter r)) as [Hlt|Hge]; [|lia]);
    apply set_fw_old in Hlt as [Hlt _];
    destruct (rom_sys_set_fw_ver r ver) as [ret2 r2]; simpl in Hlt;
    rewrite (proj2 (Z.ltb_lt ret2 0)) in Hv by done; injection Hv as <- _; lia.
Qed.

(** How a boot can end in a jump. *)
Lemma main_jump r sh sv addr i mp r' :
  mbl_main overhead r sh sv = (Jump addr i mp, r') ->
  exists i' r1 r2,
    boot_image_find overhead r true = (Found i' (RE_IMG_0_OFFSET + overhead), r1) /\
    (let ibl := if magic sh =? IBL_STATE_MAGIC_CODE then sh else IblState 0 0 [] in
     exists ret, image_x_validate r1 (i' =? IMAGE_1) (u32 (RE_IMG_0_OFFSET + overhead - IMG_HEADER_SIZE))
       (rotpk_hash ibl) (u8 (ibl_opt ibl)) sv = (ret, r2) /\ 0 <= ret) /\
    i = i' /\ mp = (i' =? IMAGE_1) /\ addr = RE_MBL_FLASH_BASE + (RE_IMG_0_OFFSET + overhead).
Proof.
  unfold mbl_main. pose proof (boot_image_find_choice r) as Hc.
  destruct (boot_image_find overhead r true) as [[i' off|c] r1]; [|done].
  cbn [fst] in Hc. destruct Hc as (-> & _).
  destruct (image_x_validate _ _ _ _ _ _) as [ret r2] eqn:Ev.
  destruct (Z.ltb_spec ret 0).
  - by destruct (rom_sys_set_img_flag r2 i' _ _).
  - destruct (rom_sys_set_img_flag r2 i' _ _) as [? r3].
    destruct (rom_sys_set_running_img r3 i') as [? r4]. intros [= <- <- <- _]. eauto 10.
Qed.

(** C10: secure boot.  When the first stage asks for verification, the boot
    loader jumps only to the image whose ROM check (certificate chain and
    image, or image alone) succeeded for that image's mapping and offset with
    the first stage's key hash, and whose version is not older than the
    version counter. *)
Theorem secure_boot_jumps_to_verified r sh stack_ver addr i mp r' :
  magic sh = IBL_STATE_MAGIC_CODE ->
  (u8 (ibl_opt sh) = IBL_VERIFY_CERT_IMG \/ u8 (ibl_opt sh) = IBL_VERIFY_IMG_ONLY) ->
  mbl_main overhead r sh stack_ver = (Jump addr i mp, r') ->
  mp = (i =? IMAGE_1) /\ addr = RE_MBL_FLASH_BASE + RE_IMG_0_OFFSET + overhead /\
  exists ver,
    (if u8 (ibl_opt sh) =? IBL_VERIFY_CERT_IMG then rom_cert_img_validate else rom_img_validate)
      r mp (u32 (RE_IMG_0_OFFSET + overhead - IMG_HEADER_SIZE)) (rotpk_hash sh) = (IMG_OK, ver) /\
    ver_counter r <= ver.
Proof.
  intros Hm Hopt HJ. apply main_jump in HJ as (i' & r1 & r2 & Ef & Hv & -> & -> & ->).
  rewrite Hm, Z.eqb_refl in Hv. destruct (find_state_counter _ _ _ _ Ef) as [Hc Hval].
  destruct Hv as (ret & Hv & Hret).
  apply image_x_validate_accepts in Hv as (ver & Hver & Hge); [|done|done].
  split; [done|]. split; [lia|]. exists ver. rewrite <- Hc. split; [|done].
  destruct (u8 (ibl_opt sh) =? IBL_VERIFY_CERT_IMG); by rewrite <- Hver; symmetry; apply Hval.
Qed.

(** *** Updates and power cuts *)
Section update.
Context (sh : ibl_state_t) (sv : Z).

Definition effective_state : ibl_state_t :=
  if magic sh =? IBL_STATE_MAGIC_CODE then sh else IblState 0 0 [].

(** The validation the boot loader runs on image [i]. *)
Definition validation r i : Z * R :=
  image_x_validate r (i =? IMAGE_1) (u32 (RE_IMG_0_OFFSET + overhead - IMG_HEADER_SIZE))
    (rotpk_hash effective_state) (u8 (ibl_opt effective_state)) sv.
Definition rejected r i : bool := (validation r i).1 <? 0.

Lemma set_fw_sign r v : ((rom_sys_set_fw_ver r v).1 <? 0) = (v <? ver_counter r).
Proof.
  destruct (Z.ltb_spec v (ver_counter r)) as [Hlt|Hge].
  - apply Z.ltb_lt. by apply set_fw_old.
  - apply Z.ltb_ge. by apply set_fw_new.
Qed.

(** A rejected image changes nothing in the ROM's state. *)
Lemma rejected_state r i : rejected r i = true -> (validation r i).2 = r.
Proof.
  unfold rejected, validation, image_x_validate. destruct (_ =? IBL_VERIFY_NONE); [done|].
  match goal with |- context [match ?m with inl _ => _ | inr _ => _ end] => destruct m as [c|v] end;
    [done|]. pose proof (set_fw_sign r v) as Hs.
  destruct (rom_sys_set_fw_ver r v) as [ret r'] eqn:E. simpl in Hs.
  destruct (ret <? 0) eqn:Er; [|done]. intros _. simpl.
  symmetry in Hs. apply Z.ltb_lt, set_fw_old in Hs as [_ Hs]. by rewrite E in Hs.
Qed.

Lemma rejected_flag r j m f i : rejected (rom_sys_set_img_flag r j m f).2 i = rejected r i.
Proof.
  unfold rejected, validation, image_x_validate. destruct (_ =? IBL_VERIFY_NONE); [done|].
  set (off := u32 _). set (pk := rotpk_hash _).
  destruct (set_flag_validate r j m f (i =? IMAGE_1) off pk) as [-> ->].
  match goal with |- context [match ?m with inl _ => _ | inr _ => _ end] => destruct m as [c|v] end;
    [done|].
  pose proof (set_fw_sign r v) as Hs1. pose proof (set_fw_sign (rom_sys_set_img_flag r j m f).2 v) as Hs2.
  rewrite set_flag_counter in Hs2.
  destruct (rom_sys_set_fw_ver r v) as [x1 y1], (rom_sys_set_fw_ver (rom_sys_set_img_flag r j m f).2 v)
    as [x2 y2]. simpl in *. rewrite Hs1, Hs2. by destruct (v <? ver_counter r).
Qed.

Lemma rejected_writes r ws i : rejected (apply_writes r ws).2 i = rejected r i.
Proof.
  revert r. induction ws as [|[j m f] ws IH]; intros r; [done|]. simpl.
  pose proof (rejected_flag r j m f i) as Hf.
  destruct (rom_sys_set_img_flag r j m f) as [ret r']. simpl in Hf. specialize (IH r').
  destruct (apply_writes r' ws) as [res r'']. simpl in *. congruence.
Qed.

Lemma main_select r i :
  select_st (statuses_of r) = Some i -> img_status r 0 <> None ->
  mbl_main overhead r sh sv =
    if rejected r i then
      (BootFailed (i =? IMAGE_1),
       (rom_sys_set_img_flag r i IMG_FLAG_VERIFY_MASK IMG_FLAG_VERIFY_FAIL).2)
    else
      (Jump (RE_MBL_FLASH_BASE + (RE_IMG_0_OFFSET + overhead)) i (i =? IMAGE_1),
       (rom_sys_set_running_img
          (rom_sys_set_img_flag (validation r i).2 i IMG_FLAG_VERIFY_MASK IMG_FLAG_VERIFY_OK).2 i).2).
Proof.
  intros Hs Hz. destruct (boot_image_find_select r) as (r' & E & Hr').
  rewrite bool_decide_false in Hr' by tauto. subst r'. rewrite Hs in E.
  unfold mbl_main. rewrite E. fold effective_state.
  pose proof (rejected_state r i) as Hrej. unfold rejected, validation in *.
  destruct (image_x_validate r _ _ _ _ _) as [ret r2]. cbn [fst snd] in *.
  destruct (ret <? 0).
  - rewrite (Hrej eq_refl). by destruct (rom_sys_set_img_flag r i _ _).
  - destruct (rom_sys_set_img_flag r2 i _ _) as [? r3]. cbn [snd].
    by destruct (rom_sys_set_running_img r3 i).
Qed.

Lemma write_sts_some s ws i : is_Some (st_of s i) -> is_Some (st_of (write_sts s ws) i).
Proof.
  revert s. induction ws as [|[j m f] ws IH]; intros s Hs; [done|]. apply IH.
  destruct s as [s0 s1]. unfold st_of, write_st in *. destruct (i =? 0), (j =? 0); simpl in *; eauto.
Qed.

Lemma select_some_0 s i j : is_Some (st_of s i) -> select_st s = Some j -> s.1 <> None.
Proof.
  destruct s as [[b0|] [b1|]]; unfold select_st, st_of; simpl; try done.
  by intros [? ?]; destruct (i =? 0).
Qed.

(** C4: an update never leaves the device without an image to boot.  Let
    image [i] be the one that was booted, and let the flags be switched to the
    other image by the OTA task or by the BLE DFU server, completely or up to
    a power cut after any number of flag writes.  As long as image [i] itself
    still passes validation, the next boot jumps to one of the two images, which passes validation, or
    it rejects the new image and the boot after that jumps to image [i]. *)
Theorem update_always_bootable r i ws k :
  is_image i -> booted i (statuses_of r) = true -> rejected r i = false ->
  ws = ota_switch_writes i \/ ws = dfu_switch_writes i ->
  let r1 := (apply_writes r (take k ws)).2 in
  (exists a j m r2, mbl_main overhead r1 sh sv = (Jump a j m, r2) /\ is_image j /\ rejected r1 j = false) \/
  (exists m r2, mbl_main overhead r1 sh sv = (BootFailed m, r2) /\
     exists a m' r3, mbl_main overhead r2 sh sv = (Jump a i m', r3)).
Proof.
  intros Hi Hb Hgood Hws r1.
  assert (Him : Forall (fun w => match w with FlagWrite j _ _ => is_image j end) (take k ws)).
  { apply Forall_take. destruct Hws as [->| ->], Hi as [->| ->]; repeat constructor; done || by right. }
  destruct (apply_writes_statuses r (take k ws) Him) as [_ Hst].
  pose proof (switch_falls_back i (statuses_of r) ws k Hi Hb Hws) as Hf.
  fold r1 in Hst. rewrite <- Hst in Hf.
  assert (Hsome : is_Some (st_of (statuses_of r1) i)).
  { rewrite Hst. apply write_sts_some. unfold booted in Hb. apply andb_true_iff in Hb as [Hb _].
    apply andb_true_iff in Hb as [_ Hb]. by apply bool_decide_eq_true in Hb. }
  assert (Hgood1 : rejected r1 i = false) by (unfold r1; by rewrite rejected_writes).
  apply orb_true_iff in Hf as [Hf|Hf]; [|apply andb_true_iff in Hf as [Hf Hf2];
    apply bool_decide_eq_true in Hf2]; apply bool_decide_eq_true in Hf;
    pose proof (select_some_0 _ _ _ Hsome Hf) as Hz; cbn [fst statuses_of] in Hz.
  - left. rewrite (main_select r1 i), Hgood1 by done. by repeat eexists.
  - assert (Ho : is_image (other_idx i)) by (destruct Hi as [->| ->]; [by right|by left]).
    rewrite (main_select r1 (other_idx i)) by done. destruct (rejected r1 (other_idx i)) eqn:Hrej.
    + right. eexists _, _. split; [done|]. set (r2 := (rom_sys_set_img_flag r1 _ _ _).2).
      assert (Hst2 : statuses_of r2 = write_sts (statuses_of r1)
        [FlagWrite (other_idx i) IMG_FLAG_VERIFY_MASK IMG_FLAG_VERIFY_FAIL])
        by exact (set_flag_statuses r1 _ _ _ Ho).
      assert (Hsel : select_st (statuses_of r2) = Some i) by (by rewrite Hst2).
      rewrite (main_select r2 i); [|done|].
      * unfold r2. rewrite rejected_flag, Hgood1. by repeat eexists.
      * eapply (select_some_0 _ i _ _ Hsel).
    + left. by repeat eexists.
  Unshelve. rewrite Hst2. by apply write_sts_some.
Qed.
End update.
End contract.

(** ** Witnesses: a concrete status area *)
Module BootWitness.
Record rom := Rom { s0 : option Z; s1 : option Z; running : Z; counter : Z; v0 : option Z; v1 : option Z }.

Definition flag (r : rom) (i m f : Z) : rom :=
  if i =? 0 then Rom (Some (set_bits (s0 r) m f)) (s1 r) (running r) (counter r) (v0 r) (v1 r)
  else Rom (s0 r) (if i =? 1 then Some (set_bits (s1 r) m f) else s1 r) (running r) (counter r) (v0 r) (v1 r).

Definition check (r : rom) (mapping : bool) : Z * Z :=
  match (if mapping then v1 r else v0 r) with Some v => (IMG_OK, v) | None => (-5, 0) end.

#[local] Instance rom_sys : RomSys rom := {
  rom_sys_status_get := fun r key =>
    match (if key =? SYS_IMAGE0_STATUS then s0 r else if key =? SYS_IMAGE1_STATUS then s1 r
           else if key =? SYS_RUNNING_IMG then Some (running r) else None) with
    | Some b => (0, b) | None => (-1, 0) end;
  rom_sys_set_img_flag := fun r i m f => (0, flag r i m f);
  rom_sys_set_running_img := fun r i => (0, Rom (s0 r) (s1 r) i (counter r) (v0 r) (v1 r));
  rom_sys_set_fw_ver := fun r v =>
    if v <? counter r then (-1, r)
    else if v =? counter r then (1, r) else (0, Rom (s0 r) (s1 r) (running r) v (v0 r) (v1 r));
  rom_cert_img_validate := fun r mp _ _ => check r mp;
  rom_img_validate := fun r mp _ _ => check r mp }.

#[local] Instance rom_view : RomView rom := {
  img_status := fun r i => if i =? 0 then s0 r else if i =? 1 then s1 r else None;
  ver_counter := counter }.

#[local] Instance rom_laws : RomLaws rom.
Proof.
  split.
  - by intros r i [->| ->].
  - done.
  - intros r i m f j [->| ->]; simpl.
    + destruct (decide (j = IMAGE_0)) as [->|Hj]; [done|]. unfold IMAGE_0 in Hj.
      by rewrite (proj2 (Z.eqb_neq j 0)).
    + destruct (decide (j = IMAGE_1)) as [->|Hj]; [done|]. unfold IMAGE_1 in Hj.
      by rewrite (proj2 (Z.eqb_neq j 1)).
  - intros r i m f. unfold rom_sys_set_img_flag, ver_counter. simpl. unfold flag. by destruct (i =? 0).
  - intros r i m f mp off pk. simpl. unfold flag, check. by destruct (i =? 0).
  - done.
  - intros r v j. simpl. by destruct (v <? counter r), (v =? counter r).
  - intros r v Hlt. simpl. by rewrite (proj2 (Z.ltb_lt _ _)).
  - intros r v Hge. simpl. rewrite (proj2 (Z.ltb_ge _ _)) by done. by destruct (v =? counter r).
Qed.

(** Image 0 booted and valid (version 3); image 1 holds a corrupt download. *)
Definition r0 : rom := Rom (Some 0x03) None 0 3 (Some 3) None.
Definition shared0 : ibl_state_t := IblState IBL_STATE_MAGIC_CODE IBL_VERIFY_CERT_IMG [].

Lemma secure_boot_jumps_to_verified_witness :
  exists ver, check r0 false = (IMG_OK, ver) /\ counter r0 <= ver.
Proof.
  destruct (secure_boot_jumps_to_verified 0 r0 shared0 0 (RE_MBL_FLASH_BASE + RE_IMG_0_OFFSET) 0 false
    (mbl_main 0 r0 shared0 0).2) as (_ & _ & ver & Hver & Hge);
    [reflexivity|left; reflexivity|vm_compute; reflexivity|]. by exists ver.
Defined.

Lemma update_always_bootable_witness :
  let r1 := (apply_writes r0 (take 3 (ota_switch_writes 0))).2 in
  (exists a j m r2, mbl_main 0 r1 shared0 0 = (Jump a j m, r2) /\ is_image j /\
     rejected 0 shared0 0 r1 j = false) \/
  (exists m r2, mbl_main 0 r1 shared0 0 = (BootFailed m, r2) /\
     exists a m' r3, mbl_main 0 r2 shared0 0 = (Jump a 0 m', r3)).
Proof.
  apply (update_always_bootable 0 shared0 0 r0 0 (ota_switch_writes 0) 3);
    [by left|vm_compute; reflexivity|vm_compute; reflexivity|by left].
Defined.
(** After a completed download image 1 is preferred. *)
Lemma boot_image_find_choice_witness :
  let r1 := (apply_writes r0 (ota_switch_writes 0)).2 in
  (boot_image_find 0 r1 true).1 = Found 1 (RE_IMG_0_OFFSET + 0) /\
  ((1 = 0 /\ statuses_of r1 = (None, None)) \/ eligible (img_status r1 1) = true).
Proof.
  intros r1. assert (E : (boot_image_find 0 r1 true).1 = Found 1 (RE_IMG_0_OFFSET + 0)) by (vm_compute; reflexivity).
  split; [exact E|]. pose proof (boot_image_find_choice 0 r1) as Hc. rewrite E in Hc.
  destruct Hc as (_ & _ & Hc & _). exact Hc.
Defined.
End BootWitness.
