(* ===== verification/Dfu.v ===== *)
(** * Firmware update over BLE: [MSDK/ble/app/app_dfu_srv.c]

    The server is a state machine driven by GATT callbacks: commands, data
    writes, the "indication sent" confirmation, disconnection and a timer.  A
    handler returns [None] where the C code leaves defined behaviour (writing
    past the 4 KiB buffer, an opcode past the command table, a NULL buffer).
    SHA-256 is the parameter [sha256]; a context is the bytes hashed so far. *)
From S2P Require Import Prelude Prog Flash Boot.

Definition SHA256_RESULT_SIZE : Z := 32.
Definition FLASH_WRITE_SIZE : Z := 4096.
Definition BLE_TRANSMIT_SIZE : Z := 128.
Definition DFU_TIMEOUT_DEFAULT : Z := 500.
Definition DFU_MODE_BLE : Z := 0.

Definition DFU_OPCODE_MODE : Z := 0.
Definition DFU_OPCODE_IMAGE_SIZE : Z := 1.
Definition DFU_OPCODE_START_DFU : Z := 2.
Definition DFU_OPCODE_VERIFICATION : Z := 3.
Definition DFU_OPCODE_REBOOT : Z := 4.
Definition DFU_OPCODE_RESET : Z := 5.

Definition DFU_ERROR_NO_ERROR : Z := 0.
Definition DFU_ERROR_MEMORY_CAPA_EXCEED : Z := 1.
Definition DFU_ERROR_HASH_ERROR : Z := 3.
Definition DFU_ERROR_WRONG_LENGTH : Z := 4.
Definition DFU_ERROR_TIMEOUT : Z := 5.

Inductive ble_dfu_srv_state_t :=
  | DFU_STATE_SRV_IDLE
  | DFU_STATE_SRV_MODE_GET
  | DFU_STATE_SRV_IMAGE_SIZE_GET
  | DFU_STATE_SRV_DFU_STARTED
  | DFU_STATE_SRV_DFU_FINISHED
  | DFU_STATE_SRV_VERIFICATION_PASS
  | DFU_STATE_SRV_WAIT_LAST_CMD
  | DFU_STATE_SRV_DISCONNECTING.

#[export] Instance srv_state_eq_dec : EqDecision ble_dfu_srv_state_t.
Proof. solve_decision. Defined.

(** [p_tem_buf]: NULL, an allocated buffer, or a dangling pointer. *)
Inductive tem_buf := TNull | TLive (b : bytes) | TFreed.

Record dfu_srv_env_t := DfuEnv {
  state : ble_dfu_srv_state_t;
  dfu_mode : Z;
  working_bank : Z;
  new_img_addr : Z;
  total_bank_size : Z;
  ota_img_size : Z;
  cur_offset : Z;
  temp_buf_used_size : Z;
  p_tem_buf : tem_buf;
  erase_start_addr : Z;
  sha256_context : bytes;
}.

Definition zero_env : dfu_srv_env_t := DfuEnv DFU_STATE_SRV_IDLE 0 0 0 0 0 0 0 TNull 0 [].

Definition app_dfu_srv_state_set (st : ble_dfu_srv_state_t) (e : dfu_srv_env_t) : dfu_srv_env_t :=
  DfuEnv st (dfu_mode e) (working_bank e) (new_img_addr e) (total_bank_size e) (ota_img_size e)
    (cur_offset e) (temp_buf_used_size e) (p_tem_buf e) (erase_start_addr e) (sha256_context e).

Definition app_dfu_srv_state_check (e : dfu_srv_env_t) (st : ble_dfu_srv_state_t) : bool :=
  bool_decide (state e = st).

(** The command table: length and timeout per opcode. *)
Definition dfu_srv_cmd_cb : list (Z * Z) :=
  [(2, 10000); (5, DFU_TIMEOUT_DEFAULT); (1, 60000); (33, DFU_TIMEOUT_DEFAULT);
   (1, DFU_TIMEOUT_DEFAULT); (2, DFU_TIMEOUT_DEFAULT)].

(** Server, flash, ROM, timer, responses sent, and whether the chip was reset. *)
Record dfu_sys (D R : Type) := DfuSys {
  env : dfu_srv_env_t; flash : D; rom : R;
  timer : option Z; sent : list (Z * Z); restarted : bool }.
Arguments DfuSys {D R}. Arguments env {D R}. Arguments flash {D R}. Arguments rom {D R}.
Arguments timer {D R}. Arguments sent {D R}. Arguments restarted {D R}.

Section server.
Context {D R : Type} `{FlashDev D} `{RomSys R}.
Context (sha256 : bytes -> bytes).
Abbreviation sys := (dfu_sys D R).
Implicit Types (s : sys) (e : dfu_srv_env_t).

Definition with_env e s : sys := DfuSys e (flash s) (rom s) (timer s) (sent s) (restarted s).
Definition with_flash (d : D) s : sys := DfuSys (env s) d (rom s) (timer s) (sent s) (restarted s).
Definition with_timer (t : option Z) s : sys := DfuSys (env s) (flash s) (rom s) t (sent s) (restarted s).
Definition ble_ota_srv_tx (cmd : Z * Z) s : sys :=
  DfuSys (env s) (flash s) (rom s) (timer s) (sent s ++ [cmd]) (restarted s).

Definition app_dfu_srv_reset s : sys := with_timer None (with_env zero_env s).

(** [raw_flash_write]/[raw_flash_erase] whose result is only logged, or ignored. *)
Definition flash_write_log (a : Z) (bs : bytes) s : sys := with_flash (flash_write (flash s) a bs).2 s.
Definition flash_erase_log (a n : Z) s : sys := with_flash (flash_erase (flash s) a n).2 s.

(** Write the buffer out, then erase the sector after it. *)
Definition flush_buffer (b : bytes) s : sys :=
  let e := env s in
  let data := take (Z.to_nat (temp_buf_used_size e)) b in
  let s1 := flash_write_log (u32 (new_img_addr e + cur_offset e)) data s in
  let s2 := flash_erase_log (erase_start_addr e) FLASH_WRITE_SIZE s1 in
  with_env
    (DfuEnv (state e) (dfu_mode e) (working_bank e) (new_img_addr e) (total_bank_size e)
       (ota_img_size e) (u32 (cur_offset e + temp_buf_used_size e)) 0 (TLive b)
       (u32 (erase_start_addr e + FLASH_WRITE_SIZE)) (sha256_context e ++ data)) s2.

Definition check_finished s : sys :=
  if cur_offset (env s) =? ota_img_size (env s)
  then with_env (app_dfu_srv_state_set DFU_STATE_SRV_DFU_FINISHED (env s)) s else s.

Definition app_dfu_srv_data_cb (p_data : bytes) s : option sys :=
  let e := env s in
  if negb (app_dfu_srv_state_check e DFU_STATE_SRV_DFU_STARTED) then Some (app_dfu_srv_reset s)
  else
    match p_tem_buf e with
    | TLive b =>
        let used := temp_buf_used_size e in
        let n := Z.of_nat (length p_data) in
        if FLASH_WRITE_SIZE <? used + n then None
        else
          let b' := overwrite (Z.to_nat used) p_data b in
          let e1 := DfuEnv (state e) (dfu_mode e) (working_bank e) (new_img_addr e)
                      (total_bank_size e) (ota_img_size e) (cur_offset e) (u16 (used + n))
                      (TLive b') (erase_start_addr e) (sha256_context e) in
          let s1 := with_env e1 s in
          let s2 :=
            if (temp_buf_used_size e1 =? FLASH_WRITE_SIZE)
               || (u32 (temp_buf_used_size e1 + cur_offset e1) =? ota_img_size e1)
            then flush_buffer b' s1 else s1 in
          Some (check_finished s2)
    | _ => None
    end.

(** Outcome of one command: keep silent, answer "no error", or report an
    error and reset. *)
Inductive reply := Silent | Ack | Error (code : Z).

Definition start_timer (opcode : Z) s : sys :=
  with_timer (Some (dfu_srv_cmd_cb !!! Z.to_nat opcode).2) s.

Definition cmd_mode (p_data : bytes) s : option (reply * sys) :=
  let e := env s in
  if negb (app_dfu_srv_state_check e DFU_STATE_SRV_IDLE) then Some (Silent, s)
  else
    mode ← p_data !! 1%nat;
    if mode =? DFU_MODE_BLE then
      let '(ret, v) := rom_sys_status_get (rom s) SYS_RUNNING_IMG in
      let bank := if ret =? SYS_STATUS_FOUND_OK then v else working_bank e in
      let addr := if bank =? 0 then RE_IMG_1_OFFSET else RE_IMG_0_OFFSET in
      let size := if bank =? 0 then RE_IMG_1_END - RE_IMG_1_OFFSET
                  else RE_IMG_1_OFFSET - RE_IMG_0_OFFSET in
      let e1 := DfuEnv DFU_STATE_SRV_MODE_GET DFU_MODE_BLE bank addr size (ota_img_size e)
                  (cur_offset e) (temp_buf_used_size e) (p_tem_buf e) addr [] in
      Some (Ack, start_timer DFU_OPCODE_MODE (with_env e1 s))
    else Some (Ack, s).

Definition cmd_image_size (p_data : bytes) s : option (reply * sys) :=
  let e := env s in
  if negb (app_dfu_srv_state_check e DFU_STATE_SRV_MODE_GET) then Some (Silent, s)
  else
    let size := unle (slice 1 4 p_data) in
    let s1 := flash_erase_log (erase_start_addr e) FLASH_WRITE_SIZE s in
    let e1 := DfuEnv DFU_STATE_SRV_IMAGE_SIZE_GET (dfu_mode e) (working_bank e) (new_img_addr e)
                (total_bank_size e) size (cur_offset e) (temp_buf_used_size e) (p_tem_buf e)
                (u32 (erase_start_addr e + FLASH_WRITE_SIZE)) (sha256_context e) in
    Some (Ack, start_timer DFU_OPCODE_IMAGE_SIZE (with_env e1 s1)).

Definition with_tem_buf (t : tem_buf) e : dfu_srv_env_t :=
  DfuEnv (state e) (dfu_mode e) (working_bank e) (new_img_addr e) (total_bank_size e)
    (ota_img_size e) (cur_offset e) (temp_buf_used_size e) t (erase_start_addr e) (sha256_context e).

(** [alloc]: the buffer [sys_malloc] returned, [None] for NULL. *)
Definition cmd_start_dfu (alloc : option bytes) s : option (reply * sys) :=
  let e := env s in
  if negb (app_dfu_srv_state_check e DFU_STATE_SRV_IMAGE_SIZE_GET) then Some (Silent, s)
  else
    match alloc with
    | None => Some (Error DFU_ERROR_MEMORY_CAPA_EXCEED, with_env (with_tem_buf TNull e) s)
    | Some b =>
        Some (Ack, start_timer DFU_OPCODE_START_DFU
                (with_env (app_dfu_srv_state_set DFU_STATE_SRV_DFU_STARTED (with_tem_buf (TLive b) e)) s))
    end.

Definition cmd_verification (p_data : bytes) s : option (reply * sys) :=
  let e := env s in
  if negb (app_dfu_srv_state_check e DFU_STATE_SRV_DFU_FINISHED) then Some (Silent, s)
  else
    let e1 := with_tem_buf TFreed e in
    if bool_decide (sha256 (sha256_context e) = slice 1 32 p_data) then
      Some (Ack, start_timer DFU_OPCODE_VERIFICATION
              (with_env (app_dfu_srv_state_set DFU_STATE_SRV_VERIFICATION_PASS e1) s))
    else Some (Error DFU_ERROR_HASH_ERROR, with_env e1 s).

Definition cmd_reboot s : option (reply * sys) :=
  let e := env s in
  if negb (app_dfu_srv_state_check e DFU_STATE_SRV_VERIFICATION_PASS) then Some (Silent, s)
  else Some (Ack, start_timer DFU_OPCODE_REBOOT
               (with_env (app_dfu_srv_state_set DFU_STATE_SRV_WAIT_LAST_CMD e) s)).

Definition dispatch (opcode : Z) (alloc : option bytes) (p_data : bytes) s : option (reply * sys) :=
  if opcode =? DFU_OPCODE_MODE then cmd_mode p_data s
  else if opcode =? DFU_OPCODE_IMAGE_SIZE then cmd_image_size p_data s
  else if opcode =? DFU_OPCODE_START_DFU then cmd_start_dfu alloc s
  else if opcode =? DFU_OPCODE_VERIFICATION then cmd_verification p_data s
  else if opcode =? DFU_OPCODE_REBOOT then cmd_reboot s
  else if opcode =? DFU_OPCODE_RESET then Some (Silent, app_dfu_srv_reset s)
  else Some (Ack, s).

(** The tail of the handler: acknowledge, or the [error:] label. *)
Definition respond (opcode : Z) (r : reply * sys) : sys :=
  match r.1 with
  | Silent => r.2
  | Ack => ble_ota_srv_tx (opcode, DFU_ERROR_NO_ERROR) r.2
  | Error code => app_dfu_srv_reset (ble_ota_srv_tx (opcode, code) r.2)
  end.

(** [p_data] has [data_len] bytes. *)
Definition app_dfu_srv_control_cb (alloc : option bytes) (p_data : bytes) s : option sys :=
  opcode ← p_data !! 0%nat;
  let s := with_timer None s in
  entry ← dfu_srv_cmd_cb !! Z.to_nat opcode;
  r ← (if negb (Z.of_nat (length p_data) =? entry.1) then Some (Error DFU_ERROR_WRONG_LENGTH, s)
       else dispatch opcode alloc p_data s);
  Some (respond opcode r).

(** The flags are switched and the chip is reset only from [DISCONNECTING]. *)
Definition app_dfu_srv_disconn_cb s : sys :=
  if negb (app_dfu_srv_state_check (env s) DFU_STATE_SRV_DISCONNECTING) then app_dfu_srv_reset s
  else
    let '(res, r) := apply_writes (rom s) (dfu_switch_writes (working_bank (env s))) in
    let s1 := DfuSys (env s) (flash s) r (timer s) (sent s) (restarted s) in
    if negb (res =? 0) then app_dfu_srv_reset s1
    else DfuSys (env s) (flash s) r (timer s) (sent s) true.

(** [disconnect_ok]: [ble_conn_disconnect] accepted the request. *)
Definition app_dfu_srv_ind_cb (disconnect_ok : bool) s : sys :=
  if app_dfu_srv_state_check (env s) DFU_STATE_SRV_WAIT_LAST_CMD then
    if disconnect_ok
    then with_env (app_dfu_srv_state_set DFU_STATE_SRV_DISCONNECTING (env s)) s else s
  else s.

Definition app_dfu_srv_ota_timer_timeout_cb s : sys :=
  let s1 := ble_ota_srv_tx (DFU_OPCODE_RESET, DFU_ERROR_TIMEOUT) s in
  with_env (app_dfu_srv_state_set DFU_STATE_SRV_IDLE (env s1)) s1.

Inductive dfu_event :=
  | EvControl (alloc : option bytes) (p_data : bytes)
  | EvData (p_data : bytes)
  | EvIndSent (disconnect_ok : bool)
  | EvDisconnect
  | EvTimer.

Definition dfu_srv_step (ev : dfu_event) s : option sys :=
  match ev with
  | EvControl alloc p => app_dfu_srv_control_cb alloc p s
  | EvData p => app_dfu_srv_data_cb p s
  | EvIndSent ok => Some (app_dfu_srv_ind_cb ok s)
  | EvDisconnect => Some (app_dfu_srv_disconn_cb s)
  | EvTimer => Some (app_dfu_srv_ota_timer_timeout_cb s)
  end.
End server.

#[local] Arguments rom_sys_status_get : simpl never.
#[local] Arguments apply_writes : simpl never.
#[local] Arguments dfu_switch_writes : simpl never.

(** ** Safety: the image switch *)
Section safety.
Context {D R : Type} `{FlashDev D, RomSys R} `{!FlashLaws D} (size : Z) `{!FlashReliable D size}.
Context (sha256 : bytes -> bytes).
Hypothesis size_flash : RE_IMG_1_END + FLASH_WRITE_SIZE <= size.
Abbreviation sys := (dfu_sys D R).
Implicit Types (s : sys) (e : dfu_srv_env_t) (d : D).

(** The bank an update is written to. *)
Definition bank_ok e : Prop :=
  (new_img_addr e = RE_IMG_0_OFFSET /\ total_bank_size e = RE_IMG_1_OFFSET - RE_IMG_0_OFFSET) \/
  (new_img_addr e = RE_IMG_1_OFFSET /\ total_bank_size e = RE_IMG_1_END - RE_IMG_1_OFFSET).

Definition sector_blank d (a : Z) : Prop := forall x, a <= x < a + FLASH_WRITE_SIZE -> cell d x = 0xFF.

(** What has been received is in the flash and in the hash context. *)
Definition received_ok d e : Prop :=
  bytes_ok (sha256_context e) /\ Z.of_nat (length (sha256_context e)) = cur_offset e /\
  cells d (new_img_addr e) (Z.to_nat (cur_offset e)) = sha256_context e.

(** A transfer that has not gone past the announced size. *)
Definition transfer_ok d e : Prop :=
  cur_offset e mod FLASH_WRITE_SIZE = 0 /\ received_ok d e /\
  erase_start_addr e = new_img_addr e + cur_offset e + FLASH_WRITE_SIZE /\
  sector_blank d (new_img_addr e + cur_offset e).

(** The digests of the verification commands received so far are [digs]; [n]
    bounds the data bytes received. *)
Definition dfu_inv (digs : list bytes) (n : Z) s : Prop :=
  let e := env s in let d := flash s in
  0 <= cur_offset e /\ 0 <= temp_buf_used_size e /\ cur_offset e + temp_buf_used_size e <= n /\
  match state e with
  | DFU_STATE_SRV_IDLE => cur_offset e = 0 /\ temp_buf_used_size e = 0
  | DFU_STATE_SRV_MODE_GET =>
      cur_offset e = 0 /\ temp_buf_used_size e = 0 /\ sha256_context e = [] /\ bank_ok e /\
      erase_start_addr e = new_img_addr e
  | DFU_STATE_SRV_IMAGE_SIZE_GET =>
      cur_offset e = 0 /\ temp_buf_used_size e = 0 /\ sha256_context e = [] /\ bank_ok e /\
      ota_img_size e <= total_bank_size e /\ transfer_ok d e
  | DFU_STATE_SRV_DFU_STARTED =>
      bank_ok e /\ ota_img_size e <= total_bank_size e /\
      cur_offset e mod FLASH_WRITE_SIZE = 0 /\ temp_buf_used_size e <= FLASH_WRITE_SIZE /\
      (cur_offset e = ota_img_size e -> cur_offset e = 0) /\
      (cur_offset e < ota_img_size e \/ cur_offset e = 0 -> transfer_ok d e) /\
      exists b, p_tem_buf e = TLive b /\ bytes_ok b /\ Z.of_nat (length b) = FLASH_WRITE_SIZE
  | DFU_STATE_SRV_DFU_FINISHED =>
      bank_ok e /\ ota_img_size e <= total_bank_size e /\ cur_offset e = ota_img_size e /\ received_ok d e
  | DFU_STATE_SRV_VERIFICATION_PASS | DFU_STATE_SRV_WAIT_LAST_CMD | DFU_STATE_SRV_DISCONNECTING =>
      bank_ok e /\ ota_img_size e <= total_bank_size e /\ 0 <= ota_img_size e /\
      sha256 (cells d (new_img_addr e) (Z.to_nat (ota_img_size e))) ∈ digs
  end.

Lemma received_frame d d' e :
  (forall x, new_img_addr e <= x < new_img_addr e + cur_offset e -> cell d' x = cell d x) ->
  0 <= cur_offset e -> received_ok d e -> received_ok d' e.
Proof.
  intros E Hc (Hb & Hl & Hr). split_and!; [done|done|]. rewrite <- Hr. apply cells_ext.
  intros i Hi. apply E. lia.
Qed.

Lemma erase_log_cells d a x :
  a mod SPI_FLASH_SEC_SIZE = 0 -> 0 <= a -> a + FLASH_WRITE_SIZE <= size ->
  cell (flash_erase d a FLASH_WRITE_SIZE).2 x = erased (cell d) a FLASH_WRITE_SIZE x.
Proof.
  intros Hm Ha He. pose proof (erase_ok d a FLASH_WRITE_SIZE Ha ltac:(done) He) as Hr.
  destruct (flash_erase d a FLASH_WRITE_SIZE) as [r d'] eqn:E. simpl in *. subst r.
  by apply (erase_cells d d' a FLASH_WRITE_SIZE x).
Qed.

Lemma write_log_cells d a bs x :
  0 <= a -> bs <> [] -> a + Z.of_nat (length bs) <= size ->
  cell (flash_write d a bs).2 x = programmed (cell d) a bs x.
Proof.
  intros Ha Hb He. pose proof (write_ok d a bs Ha Hb He) as Hr.
  destruct (flash_write d a bs) as [r d'] eqn:E. simpl in *. subst r. by apply write_cells.
Qed.

Lemma bank_range e : bank_ok e ->
  0 <= new_img_addr e /\ new_img_addr e mod FLASH_WRITE_SIZE = 0 /\
  total_bank_size e = 480 * FLASH_WRITE_SIZE /\
  new_img_addr e + total_bank_size e + FLASH_WRITE_SIZE <= size.
Proof.
  unfold RE_IMG_1_END, FLASH_WRITE_SIZE in *.
  intros [[-> ->]|[-> ->]]; unfold RE_IMG_0_OFFSET, RE_IMG_1_OFFSET, RE_IMG_1_END;
    split_and!; try done; lia.
Qed.

(** The contents after one buffer of [data] was programmed over a blank sector
    at [a] and the sector at [er], above it, was erased. *)
Lemma flush_cells d a data er x :
  data <> [] -> bytes_ok data -> 0 <= a -> Z.of_nat (length data) <= FLASH_WRITE_SIZE ->
  a + FLASH_WRITE_SIZE <= er -> er mod SPI_FLASH_SEC_SIZE = 0 -> er + FLASH_WRITE_SIZE <= size ->
  sector_blank d a ->
  cell (flash_erase (flash_write d a data).2 er FLASH_WRITE_SIZE).2 x =
    if decide (er <= x < er + FLASH_WRITE_SIZE) then 0xFF
    else if decide (a <= x < a + Z.of_nat (length data)) then nth (Z.to_nat (x - a)) data 0
    else cell d x.
Proof.
  unfold FLASH_WRITE_SIZE in *. intros Hne Hb Ha Hl Her Hm He Hblank.
  rewrite erase_log_cells by (unfold FLASH_WRITE_SIZE; lia). unfold erased, FLASH_WRITE_SIZE.
  case_decide; [done|]. rewrite write_log_cells by (done || lia). unfold programmed.
  case_decide as Hx; [|done]. rewrite Hblank by (unfold FLASH_WRITE_SIZE; lia).
  assert (Hn : is_u8 (nth (Z.to_nat (x - a)) data 0)).
  { rewrite Forall_forall in Hb. apply Hb, list_elem_of_In, nth_In. lia. }
  rewrite Z.land_comm. change 255 with (Z.ones 8). rewrite Z.land_ones by lia.
  by apply Z.mod_small.
Qed.

(** One flush of a transfer that is on course. *)
Lemma flush_ok b s :
  let e := env s in let e' := env (flush_buffer b s) in let d' := flash (flush_buffer b s) in
  bank_ok e -> ota_img_size e <= total_bank_size e -> transfer_ok (flash s) e ->
  0 <= cur_offset e -> 0 < temp_buf_used_size e <= FLASH_WRITE_SIZE ->
  cur_offset e < total_bank_size e ->
  bytes_ok b -> Z.of_nat (length b) = FLASH_WRITE_SIZE ->
  cur_offset e' = cur_offset e + temp_buf_used_size e /\ received_ok d' e' /\
  (temp_buf_used_size e = FLASH_WRITE_SIZE -> transfer_ok d' e').
Proof.
  intros e e' d' Hbank Hsz (Hmod & Hrec & Her & Hblank) Hc Hu Hlt Hb Hlb.
  destruct (bank_range e Hbank) as (Ha & Ham & Ht & Hend). unfold FLASH_WRITE_SIZE in *.
  assert (Hc2 : cur_offset e + 4096 <= total_bank_size e).
  { apply Z.mod_divide in Hmod as [c Ec]; [|done]. lia. }
  assert (Ebank : new_img_addr e <= RE_IMG_1_OFFSET /\ total_bank_size e <= 2 ^ 24).
  { rewrite Ht. destruct Hbank as [[-> _]|[-> _]]; unfold RE_IMG_0_OFFSET, RE_IMG_1_OFFSET; lia. }
  destruct Ebank as [Ebank Et]. unfold RE_IMG_1_OFFSET in Ebank.
  set (data := take (Z.to_nat (temp_buf_used_size e)) b).
  assert (Hld : Z.of_nat (length data) = temp_buf_used_size e) by (unfold data; rewrite length_take; lia).
  assert (Hdb : bytes_ok data) by by apply Forall_take.
  assert (Ecur : cur_offset e' = cur_offset e + temp_buf_used_size e).
  { unfold e', flush_buffer. simpl. fold e. apply u32_small. unfold in_width. lia. }
  assert (Ed : forall x, cell d' x =
    if decide (erase_start_addr e <= x < erase_start_addr e + 4096) then 0xFF
    else if decide (new_img_addr e + cur_offset e <= x < new_img_addr e + cur_offset e + Z.of_nat (length data))
    then nth (Z.to_nat (x - (new_img_addr e + cur_offset e))) data 0 else cell (flash s) x).
  { intros x. unfold d', flush_buffer, flash_erase_log, flash_write_log. simpl. fold e data.
    rewrite (u32_small (_ + _)) by (unfold in_width; lia).
    apply flush_cells; unfold FLASH_WRITE_SIZE; try done; try lia.
    - intros E. rewrite E in Hld. simpl in Hld. lia.
    - rewrite Her. unfold SPI_FLASH_SEC_SIZE. clear -Ham Hmod. Z.div_mod_to_equations. lia. }
  destruct Hrec as (Hcb & Hcl & Hcc).
  assert (Hrec' : received_ok d' e').
  { change (sha256_context e') with (sha256_context e ++ data) in *. split_and!.
    - apply Forall_app. done.
    - rewrite Ecur. change (sha256_context e') with (sha256_context e ++ data).
      rewrite length_app. lia.
    - change (new_img_addr e') with (new_img_addr e). change (sha256_context e') with (sha256_context e ++ data).
      rewrite Ecur, Z2Nat.inj_add by lia. rewrite cells_app. f_equal.
      + rewrite <- Hcc. apply cells_ext. intros i Hi. rewrite Ed. by rewrite !decide_False by lia.
      + apply list_eq. intros i. destruct (decide (i < length data)%nat) as [Hi|Hi].
        * rewrite cells_lookup by lia. rewrite Ed. rewrite decide_False by lia.
          rewrite decide_True by lia. replace (Z.to_nat _) with i by lia.
          destruct (lookup_lt_is_Some_2 data i Hi) as [y Ey]. by rewrite nth_lookup, Ey.
        * rewrite !lookup_ge_None_2; [done|lia|]. rewrite length_cells. lia. }
  split_and!; [done|done|]. intros Hfull. split_and!.
  - rewrite Ecur, Hfull. unfold FLASH_WRITE_SIZE. clear -Hmod. Z.div_mod_to_equations. lia.
  - done.
  - unfold e', flush_buffer. simpl. fold e. unfold FLASH_WRITE_SIZE.
    rewrite !u32_small by (unfold in_width; lia). lia.
  - change (new_img_addr e') with (new_img_addr e). rewrite Ecur, Hfull.
    intros x Hx. unfold FLASH_WRITE_SIZE in Hx. rewrite Ed. rewrite decide_True by lia. done.
Qed.

(** *** The invariant is kept by every callback but the timer *)
Lemma inv_mono digs digs' n n' s : digs ⊆ digs' -> n <= n' -> dfu_inv digs n s -> dfu_inv digs' n' s.
Proof.
  intros Hd Hn (H1 & H2 & H3 & H4). split_and!; [done|done|lia|].
  destruct (state (env s)); try done; naive_solver.
Qed.

Lemma inv_reset digs n s : 0 <= n -> dfu_inv digs n (app_dfu_srv_reset s).
Proof. intros Hn. unfold dfu_inv. simpl. lia. Qed.

(** Only [env] and [flash] matter. *)
Lemma inv_ext digs n s s' :
  env s' = env s -> flash s' = flash s -> dfu_inv digs n s -> dfu_inv digs n s'.
Proof. intros E1 E2. unfold dfu_inv. by rewrite E1, E2. Qed.

(** A transfer in progress with at most one buffer pending. *)
Record started (n : Z) s (b : bytes) : Prop := Started {
  sd_state : state (env s) = DFU_STATE_SRV_DFU_STARTED;
  sd_cur : 0 <= cur_offset (env s);
  sd_used : 0 <= temp_buf_used_size (env s) <= FLASH_WRITE_SIZE;
  sd_sum : cur_offset (env s) + temp_buf_used_size (env s) <= n;
  sd_bank : bank_ok (env s);
  sd_size : ota_img_size (env s) <= total_bank_size (env s);
  sd_mod : cur_offset (env s) mod FLASH_WRITE_SIZE = 0;
  sd_ne : cur_offset (env s) = ota_img_size (env s) -> cur_offset (env s) = 0;
  sd_transfer : cur_offset (env s) < ota_img_size (env s) \/ cur_offset (env s) = 0 ->
                transfer_ok (flash s) (env s);
  sd_tem : p_tem_buf (env s) = TLive b;
  sd_buf : bytes_ok b /\ Z.of_nat (length b) = FLASH_WRITE_SIZE;
}.

Lemma started_inv digs n s b : started n s b -> dfu_inv digs n s.
Proof.
  destruct 1 as [Hst Hc Hu Hs Hb Hz Hm Hn Ht Hp [Hb1 Hb2]]. unfold dfu_inv. rewrite Hst.
  split_and!; try done; try lia. by exists b.
Qed.

Lemma inv_started digs n s : dfu_inv digs n s -> state (env s) = DFU_STATE_SRV_DFU_STARTED ->
  exists b, started n s b.
Proof.
  intros (Hc & Hu & Hs & Hinv) Hst. rewrite Hst in Hinv.
  destruct Hinv as (Hb & Hz & Hm & Hu4 & Hn & Ht & b & Hp & Hb1 & Hb2). exists b. by split.
Qed.

Lemma not_flushed_inv digs n s b :
  started n s b -> dfu_inv digs n (check_finished s).
Proof.
  intros S. unfold check_finished. destruct (Z.eqb_spec (cur_offset (env s)) (ota_img_size (env s))) as [Ef|Ef].
  - destruct S as [Hst Hc Hu Hs Hb Hz Hm Hn Ht Hp [Hb1 Hb2]]. unfold dfu_inv.
    cbn [env with_env flash app_dfu_srv_state_set state cur_offset temp_buf_used_size].
    split_and!; try done; try lia. apply Ht. right. by apply Hn.
  - by eapply started_inv.
Qed.

Lemma flushed_inv digs n s b :
  started n s b -> n < 2 ^ 31 ->
  temp_buf_used_size (env s) = FLASH_WRITE_SIZE \/
    temp_buf_used_size (env s) + cur_offset (env s) = ota_img_size (env s) ->
  dfu_inv digs n (check_finished (flush_buffer b s)).
Proof.
  intros S Hn Hfull. pose proof S as [Hst Hc Hu Hs Hb Hz Hm Hne Ht Hp [Hb1 Hb2]].
  destruct (bank_range (env s) Hb) as (_ & _ & Htot & _). unfold FLASH_WRITE_SIZE in *.
  assert (Ecur : cur_offset (env (flush_buffer b s)) = cur_offset (env s) + temp_buf_used_size (env s)).
  { unfold flush_buffer. simpl. apply u32_small. unfold in_width. lia. }
  assert (Hflush : 0 < temp_buf_used_size (env s) ->
    cur_offset (env s) + temp_buf_used_size (env s) <= ota_img_size (env s) ->
    received_ok (flash (flush_buffer b s)) (env (flush_buffer b s)) /\
    (temp_buf_used_size (env s) = 4096 -> transfer_ok (flash (flush_buffer b s)) (env (flush_buffer b s)))).
  { intros Hp1 Hp2. apply flush_ok; unfold FLASH_WRITE_SIZE; try done; try lia. apply Ht. lia. }
  unfold check_finished. change (ota_img_size (env (flush_buffer b s))) with (ota_img_size (env s)).
  rewrite Ecur. set (s' := flush_buffer b s) in *.
  assert (Eu : temp_buf_used_size (env s') = 0) by done.
  assert (Eb : bank_ok (env s')) by done.
  assert (Ez : ota_img_size (env s') = ota_img_size (env s)) by done.
  assert (Et : total_bank_size (env s') = total_bank_size (env s)) by done.
  destruct (Z.eqb_spec (cur_offset (env s) + temp_buf_used_size (env s)) (ota_img_size (env s))) as [Ef|Ef].
  - unfold dfu_inv. cbn [env with_env flash app_dfu_srv_state_set state].
    change (cur_offset (app_dfu_srv_state_set _ ?e)) with (cur_offset e).
    change (temp_buf_used_size (app_dfu_srv_state_set _ ?e)) with (temp_buf_used_size e).
    change (ota_img_size (app_dfu_srv_state_set _ ?e)) with (ota_img_size e).
    change (total_bank_size (app_dfu_srv_state_set _ ?e)) with (total_bank_size e).
    rewrite Ecur, Eu, Ez, Et. split_and!; try done; try lia.
    destruct (Z.eq_dec (temp_buf_used_size (env s)) 0) as [E0|E0]; [|exact (proj1 (Hflush ltac:(lia) ltac:(lia)))].
    assert (Ec0 : cur_offset (env s) = 0) by (apply Hne; lia).
    destruct (Ht (or_intror Ec0)) as (_ & (R1 & R2 & R3) & _).
    assert (Ec : sha256_context (env s') = sha256_context (env s)).
    { unfold s', flush_buffer. simpl. rewrite E0. simpl. by rewrite app_nil_r. }
    unfold received_ok. change (cur_offset (app_dfu_srv_state_set _ ?e)) with (cur_offset e).
    change (sha256_context (app_dfu_srv_state_set _ ?e)) with (sha256_context e).
    rewrite Ecur, Ec, E0, Ec0 in *. split_and!; [done|done|].
    destruct (sha256_context (env s)); [done|simpl in R2; lia].
  - unfold dfu_inv. change (state (env s')) with (state (env s)). rewrite Hst, Ecur, Eu, Ez, Et.
    unfold FLASH_WRITE_SIZE. destruct Hfull as [Hfull|Hfull]; [|lia].
    split_and!; try done; try lia.
    + rewrite Hfull. clear -Hm. Z.div_mod_to_equations. lia.
    + intros Hlt. by apply (proj2 (Hflush ltac:(lia) ltac:(lia))).
    + exists b. done.
Qed.

Lemma data_inv digs n s p s' :
  dfu_inv digs n s -> bytes_ok p -> n + Z.of_nat (length p) < 2 ^ 31 -> 0 <= n ->
  app_dfu_srv_data_cb p s = Some s' -> dfu_inv digs (n + Z.of_nat (length p)) s'.
Proof.
  intros Hinv Hp Hn Hn0. unfold app_dfu_srv_data_cb, app_dfu_srv_state_check.
  case_bool_decide as Hst; simpl negb; cbv iota.
  2:{ intros [= <-]. apply inv_reset. lia. }
  destruct (inv_started _ _ _ Hinv Hst) as [b S]. pose proof S as [_ Hc Hu Hs Hb Hz Hm Hne Ht Etb [Hb1 Hb2]].
  rewrite Etb.
  destruct (Z.ltb_spec FLASH_WRITE_SIZE (temp_buf_used_size (env s) + Z.of_nat (length p))) as [|Hfit]; [done|].
  set (b' := overwrite _ p b). unfold FLASH_WRITE_SIZE in *.
  assert (Hb' : bytes_ok b').
  { unfold b', overwrite. rewrite !Forall_app. split_and!; [by apply Forall_take|done|by apply Forall_drop]. }
  assert (Hlb' : Z.of_nat (length b') = 4096) by (unfold b'; rewrite length_overwrite; lia).
  rewrite (u16_small (temp_buf_used_size (env s) + _)) by (unfold in_width; lia).
  set (e1 := DfuEnv _ _ _ _ _ _ _ _ _ _ _). set (s1 := with_env e1 s).
  assert (S1 : started (n + Z.of_nat (length p)) s1 b').
  { unfold s1, e1. split; cbn [env with_env flash state cur_offset temp_buf_used_size ota_img_size
      total_bank_size p_tem_buf]; unfold FLASH_WRITE_SIZE; try done; try lia. }
  intros [= <-]. destruct (_ || _) eqn:Ecase; [|by eapply not_flushed_inv].
  apply flushed_inv; [done|done|]. unfold e1 in Ecase. cbn [temp_buf_used_size cur_offset ota_img_size] in Ecase.
  rewrite (u32_small (_ + _ + _)) in Ecase by (unfold in_width; lia).
  apply orb_true_iff in Ecase as [E|E]; apply Z.eqb_eq in E; [by left|by right].
Qed.

(** Well-formed inputs: bytes, a 4 KiB allocation, and an announced size that
    fits the bank (the code does not check it). *)
Definition ev_ok (ev : dfu_event) : Prop :=
  match ev with
  | EvControl alloc p =>
      bytes_ok p /\
      (forall b, alloc = Some b -> bytes_ok b /\ Z.of_nat (length b) = FLASH_WRITE_SIZE) /\
      (p !! 0%nat = Some DFU_OPCODE_IMAGE_SIZE ->
        0 <= unle (slice 1 4 p) <= RE_IMG_1_OFFSET - RE_IMG_0_OFFSET)
  | EvData p => bytes_ok p
  | EvTimer => False
  | _ => True
  end.

Definition data_len (ev : dfu_event) : Z :=
  match ev with EvData p => Z.of_nat (length p) | _ => 0 end.

(** The digest carried by a verification command. *)
Definition digest (ev : dfu_event) : list bytes :=
  match ev with
  | EvControl _ p => if decide (p !! 0%nat = Some DFU_OPCODE_VERIFICATION) then [slice 1 32 p] else []
  | _ => []
  end.

Lemma mode_inv digs n s p rep s' :
  dfu_inv digs n s -> cmd_mode p s = Some (rep, s') -> dfu_inv digs n s'.
Proof.
  intros Hinv. unfold cmd_mode, app_dfu_srv_state_check. case_bool_decide as Hst; simpl negb; cbv iota;
    [|by intros [= _ <-]].
  destruct (p !! 1%nat) as [mode|]; simpl; [|done]. destruct (mode =? DFU_MODE_BLE); [|by intros [= _ <-]].
  destruct (rom_sys_status_get (rom s) SYS_RUNNING_IMG) as [ret v]. intros [= _ <-].
  destruct Hinv as (Hc & Hu & Hcu & Hinv). rewrite Hst in Hinv. unfold dfu_inv, bank_ok. simpl.
  split_and!; try done; try lia. destruct (_ =? 0); [by right|by left].
Qed.

Lemma image_size_inv digs n s p rep s' :
  dfu_inv digs n s -> 0 <= unle (slice 1 4 p) <= RE_IMG_1_OFFSET - RE_IMG_0_OFFSET ->
  cmd_image_size p s = Some (rep, s') -> dfu_inv digs n s'.
Proof.
  intros Hinv Hsz. unfold cmd_image_size, app_dfu_srv_state_check.
  case_bool_decide as Hst; simpl negb; cbv iota; [|by intros [= _ <-]].
  intros [= _ <-]. destruct Hinv as (Hc & Hu & Hcu & Hinv). rewrite Hst in Hinv.
  destruct Hinv as (Hc0 & Hu0 & Hctx & Hbank & Her).
  destruct (bank_range (env s) Hbank) as (Ha & Ham & Ht & Hend).
  assert (Hhi : new_img_addr (env s) <= RE_IMG_1_OFFSET)
    by (destruct Hbank as [[-> _]|[-> _]]; done).
  unfold RE_IMG_1_OFFSET, RE_IMG_0_OFFSET, FLASH_WRITE_SIZE in *.
  unfold dfu_inv, transfer_ok, received_ok, sector_blank, FLASH_WRITE_SIZE.
  cbn [env flash with_env start_timer with_timer flash_erase_log with_flash state cur_offset
    temp_buf_used_size sha256_context ota_img_size total_bank_size erase_start_addr new_img_addr].
  rewrite Hc0, Hu0, Hctx, Her in *. split_and!; try done; try lia.
  - rewrite u32_small by (unfold in_width; lia). lia.
  - intros x Hx. pose proof (erase_log_cells (flash s) (new_img_addr (env s)) x Ham Ha) as E.
    unfold FLASH_WRITE_SIZE in E. rewrite E by lia. unfold erased. by rewrite decide_True by lia.
Qed.

Lemma start_inv digs n s alloc rep s' :
  dfu_inv digs n s ->
  (forall b, alloc = Some b -> bytes_ok b /\ Z.of_nat (length b) = FLASH_WRITE_SIZE) ->
  cmd_start_dfu alloc s = Some (rep, s') -> dfu_inv digs n s'.
Proof.
  intros Hinv Hal. unfold cmd_start_dfu, app_dfu_srv_state_check.
  case_bool_decide as Hst; simpl negb; cbv iota; [|by intros [= _ <-]].
  pose proof Hinv as (Hc & Hu & Hcu & Hi). rewrite Hst in Hi.
  destruct Hi as (Hc0 & Hu0 & Hctx & Hbank & Hsz & Htr).
  destruct alloc as [b|]; intros [= _ <-]; unfold dfu_inv;
    cbn [env flash with_env start_timer with_timer app_dfu_srv_state_set with_tem_buf state cur_offset
      temp_buf_used_size sha256_context ota_img_size total_bank_size erase_start_addr new_img_addr p_tem_buf].
  - split_and!; try done; try lia.
    + rewrite Hc0. done.
    + rewrite Hu0. done.
    + exists b. split; [done|]. by apply Hal.
  - rewrite Hst. split_and!; done.
Qed.

Lemma verification_inv digs n s p rep s' :
  dfu_inv digs n s -> cmd_verification sha256 p s = Some (rep, s') ->
  dfu_inv (slice 1 32 p :: digs) n s'.
Proof.
  intros Hinv. assert (Hm : dfu_inv (slice 1 32 p :: digs) n s).
  { eapply inv_mono; [|done|done]. set_solver. }
  unfold cmd_verification, app_dfu_srv_state_check.
  case_bool_decide as Hst; simpl negb; cbv iota; [|by intros [= _ <-]].
  destruct Hinv as (Hc & Hu & Hcu & Hi). rewrite Hst in Hi.
  destruct Hi as (Hbank & Hsz & Hcs & Hctx & Hlen & Hcells).
  case_bool_decide as Hd; intros [= _ <-]; unfold dfu_inv;
    cbn [env flash with_env start_timer with_timer app_dfu_srv_state_set with_tem_buf state cur_offset
      temp_buf_used_size sha256_context ota_img_size total_bank_size new_img_addr].
  - split_and!; try done; try lia. rewrite <- Hcs, Hcells, Hd. by left.
  - rewrite Hst. split_and!; done.
Qed.

Lemma reboot_inv digs n s rep s' :
  dfu_inv digs n s -> cmd_reboot s = Some (rep, s') -> dfu_inv digs n s'.
Proof.
  intros Hinv. unfold cmd_reboot, app_dfu_srv_state_check.
  case_bool_decide as Hst; simpl negb; cbv iota; [|by intros [= _ <-]].
  intros [= _ <-]. destruct Hinv as (Hc & Hu & Hcu & Hi). by rewrite Hst in Hi.
Qed.

Lemma control_inv digs n s alloc p s' :
  dfu_inv digs n s -> 0 <= n -> ev_ok (EvControl alloc p) ->
  app_dfu_srv_control_cb sha256 alloc p s = Some s' ->
  dfu_inv (digest (EvControl alloc p) ++ digs) n s'.
Proof.
  intros Hinv Hn (Hp & Hal & Hsz). unfold app_dfu_srv_control_cb, digest.
  destruct (p !! 0%nat) as [opcode|]; [|done]. cbn [mbind option_bind].
  assert (Hinv1 : dfu_inv digs n (with_timer None s)) by done.
  set (s1 := with_timer None s) in *.
  destruct (dfu_srv_cmd_cb !! Z.to_nat opcode) as [entry|]; [|done]. cbn [mbind option_bind].
  set (digs' := (if decide _ then _ else _) ++ digs).
  assert (Hsub : digs ⊆ digs') by (unfold digs'; set_solver).
  destruct (if negb _ then _ else _) as [[rep s2]|] eqn:Ecmd; [|done]. cbn [mbind option_bind].
  assert (Hmono : forall s', dfu_inv digs n s' -> dfu_inv digs' n s')
    by (intros s0; by apply inv_mono).
  assert (Hinv2 : dfu_inv digs' n s2).
  { revert Ecmd. destruct (negb _); [intros [= _ <-]; by apply Hmono|]. unfold dispatch.
    destruct (Z.eqb_spec opcode DFU_OPCODE_MODE).
    { intros E. apply Hmono. by eapply mode_inv. }
    destruct (Z.eqb_spec opcode DFU_OPCODE_IMAGE_SIZE) as [->|].
    { intros E. apply Hmono. eapply image_size_inv; [done|by apply Hsz|done]. }
    destruct (Z.eqb_spec opcode DFU_OPCODE_START_DFU).
    { intros E. apply Hmono. by eapply start_inv. }
    destruct (Z.eqb_spec opcode DFU_OPCODE_VERIFICATION) as [->|].
    { intros E. unfold digs'. rewrite decide_True by done. by eapply verification_inv. }
    destruct (Z.eqb_spec opcode DFU_OPCODE_REBOOT).
    { intros E. apply Hmono. by eapply reboot_inv. }
    destruct (Z.eqb_spec opcode DFU_OPCODE_RESET).
    { intros [= _ <-]. by apply inv_reset. }
    intros [= _ <-]. by apply Hmono. }
  intros [= <-]. destruct rep; [done|done|by apply inv_reset].
Qed.

Lemma step_inv digs n ev s s' :
  dfu_inv digs n s -> ev_ok ev -> 0 <= n -> n + data_len ev < 2 ^ 31 ->
  dfu_srv_step sha256 ev s = Some s' -> dfu_inv (digest ev ++ digs) (n + data_len ev) s'.
Proof.
  intros Hinv Hev Hn Hl. destruct ev as [alloc p|p|ok| |]; simpl in Hl; cbn [dfu_srv_step data_len].
  - rewrite Z.add_0_r. by apply control_inv.
  - by apply data_inv.
  - intros [= <-]. rewrite Z.add_0_r. unfold app_dfu_srv_ind_cb, app_dfu_srv_state_check.
    case_bool_decide as Hst; [|done]. destruct ok; [|done].
    destruct Hinv as (Hc & Hu & Hcu & Hi). by rewrite Hst in Hi.
  - intros [= <-]. rewrite Z.add_0_r. unfold app_dfu_srv_disconn_cb.
    destruct (negb _); [by apply inv_reset|]. destruct (apply_writes _ _) as [res r].
    destruct (negb _); [by apply inv_reset|done].
  - done.
Qed.

(** Commands and data do not touch the ROM's state. *)
Lemma cmd_rom alloc p s rep s' c :
  c ∈ [cmd_mode p; cmd_image_size p; cmd_start_dfu alloc; cmd_verification sha256 p; cmd_reboot] ->
  c s = Some (rep, s') -> rom s' = rom s.
Proof.
  rewrite !elem_of_cons, elem_of_nil.
  intros [-> |[-> |[-> |[-> |[-> |[]]]]]]; unfold cmd_mode, cmd_image_size, cmd_start_dfu,
    cmd_verification, cmd_reboot, app_dfu_srv_state_check; case_bool_decide; simpl negb; cbv iota;
    try (by intros [= _ <-]).
  - destruct (p !! 1%nat); simpl; [|done]. destruct (_ =? _); [|by intros [= _ <-]].
    destruct (rom_sys_status_get (rom s) SYS_RUNNING_IMG). by intros [= _ <-].
  - destruct alloc; by intros [= _ <-].
  - case_bool_decide; by intros [= _ <-].
Qed.

Lemma control_rom alloc p s s' :
  app_dfu_srv_control_cb sha256 alloc p s = Some s' -> rom s' = rom s.
Proof.
  unfold app_dfu_srv_control_cb. destruct (p !! 0%nat) as [opcode|]; [|done]. cbn [mbind option_bind].
  destruct (dfu_srv_cmd_cb !! Z.to_nat opcode) as [entry|]; [|done]. cbn [mbind option_bind].
  set (s1 := with_timer None s). assert (E1 : rom s1 = rom s) by done.
  destruct (if negb _ then _ else _) as [[rep s2]|] eqn:Ecmd; [|done]. cbn [mbind option_bind].
  assert (Erom : rom s2 = rom s1).
  { revert Ecmd. destruct (negb _); [by intros [= _ <-]|]. unfold dispatch.
    repeat (match goal with |- context [if opcode =? ?c then _ else _] => destruct (opcode =? c) end;
      [try (apply (cmd_rom alloc p); set_solver); by intros [= _ <-]|]).
    by intros [= _ <-]. }
  rewrite <- E1, <- Erom. intros [= <-]. by destruct rep.
Qed.

Lemma data_rom p s s' : app_dfu_srv_data_cb p s = Some s' -> rom s' = rom s.
Proof.
  unfold app_dfu_srv_data_cb, check_finished. destruct (negb _); [by intros [= <-]|].
  destruct (p_tem_buf (env s)); [done| |done]. destruct (_ <? _); [done|].
  intros [= <-]. destruct (_ || _); simpl; by destruct (_ =? _).
Qed.

(** The callbacks in the order the stack delivers them. *)
Fixpoint dfu_srv_run (evs : list dfu_event) s : option sys :=
  match evs with
  | [] => Some s
  | ev :: evs => s' ← dfu_srv_step sha256 ev s; dfu_srv_run evs s'
  end.

Definition total_data (evs : list dfu_event) : Z := foldr (fun ev n => data_len ev + n) 0 evs.

Lemma total_data_nonneg evs : 0 <= total_data evs.
Proof. induction evs as [|ev evs IH]; simpl; [lia|]. destruct ev; simpl; lia. Qed.

Lemma run_inv evs digs n s s' :
  dfu_inv digs n s -> Forall ev_ok evs -> 0 <= n -> n + total_data evs < 2 ^ 31 ->
  dfu_srv_run evs s = Some s' ->
  dfu_inv (concat (digest <$> evs) ++ digs) (n + total_data evs) s'.
Proof.
  revert digs n s. induction evs as [|ev evs IH]; intros digs n s Hinv Hevs Hn Hl; simpl.
  - intros [= <-]. by rewrite Z.add_0_r.
  - apply Forall_cons in Hevs as [Hev Hevs]. simpl in Hl. pose proof (total_data_nonneg evs).
    assert (0 <= data_len ev) by (destruct ev; simpl; lia).
    destruct (dfu_srv_step sha256 ev s) as [s1|] eqn:E; [|done]. simpl. intros Hr.
    apply step_inv with (digs := digs) (n := n) in E; [|done|done|done|lia].
    eapply IH in Hr; [|exact E|done|lia|lia].
    replace (n + (data_len ev + total_data evs)) with (n + data_len ev + total_data evs) by lia.
    eapply inv_mono; [|done|exact Hr]. set_solver.
Qed.

(** The system after [app_dfu_srv_init]. *)
Definition initial s : Prop := env s = zero_env.


(** *** A complete update *)

(** The 128-byte chunks of an image; the last one may be shorter. *)
Definition chunk_at (img : bytes) (j : nat) : bytes := slice (128 * j) 128 img.
Definition chunk_count (img : bytes) : nat := Z.to_nat ((Z.of_nat (length img) + 127) / 128).
Definition chunks (img : bytes) : list bytes := chunk_at img <$> seq 0 (chunk_count img).

(** What a client following the protocol makes the server see. *)
Definition dfu_session (img : bytes) (buf : bytes) : list dfu_event :=
  [EvControl None [DFU_OPCODE_MODE; DFU_MODE_BLE];
   EvControl None (DFU_OPCODE_IMAGE_SIZE :: le 4 (Z.of_nat (length img)));
   EvControl (Some buf) [DFU_OPCODE_START_DFU]]
  ++ (EvData <$> chunks img)
  ++ [EvControl None (DFU_OPCODE_VERIFICATION :: sha256 img);
      EvControl None [DFU_OPCODE_REBOOT]; EvIndSent true; EvDisconnect].

(** [j] chunks of [img] have been received; [b] is the pending buffer. *)
Record on_course (n : Z) (img : bytes) (j : nat) s (b : bytes) : Prop := OnCourse {
  oc_started : started n s b;
  oc_size : ota_img_size (env s) = Z.of_nat (length img);
  oc_cur : cur_offset (env s) + temp_buf_used_size (env s) = 128 * Z.of_nat j;
  oc_used : temp_buf_used_size (env s) < FLASH_WRITE_SIZE;
  oc_more : 128 * Z.of_nat j < Z.of_nat (length img);
  oc_buf : take (Z.to_nat (temp_buf_used_size (env s))) b =
           slice (Z.to_nat (cur_offset (env s))) (Z.to_nat (temp_buf_used_size (env s))) img;
  oc_ctx : sha256_context (env s) = take (Z.to_nat (cur_offset (env s))) img;
}.

(** What a data write leaves alone. *)
Definition same_target s s' : Prop :=
  working_bank (env s') = working_bank (env s) /\ new_img_addr (env s') = new_img_addr (env s) /\
  ota_img_size (env s') = ota_img_size (env s) /\ restarted s' = restarted s /\ rom s' = rom s.

(** All of [img] has been received and written. *)
Definition received_all (img : bytes) s : Prop :=
  state (env s) = DFU_STATE_SRV_DFU_FINISHED /\ sha256_context (env s) = img /\
  ota_img_size (env s) = Z.of_nat (length img).

Lemma slice_split {A} (o n m : nat) (l : list A) : slice o n l ++ slice (o + n) m l = slice o (n + m) l.
Proof. unfold slice. rewrite <- drop_drop. apply take_take_drop. Qed.

Lemma slice_prefix {A} (o n : nat) (l : list A) : take o l ++ slice o n l = take (o + n) l.
Proof. unfold slice. apply take_take_drop. Qed.

Lemma take_overwrite (b p : bytes) (u : nat) :
  (u + length p <= length b)%nat -> take (u + length p) (overwrite u p b) = take u b ++ p.
Proof.
  intros Hl. unfold overwrite. rewrite app_assoc, take_app_le by (rewrite length_app, length_take; lia).
  apply take_ge. rewrite length_app, length_take. lia.
Qed.

Lemma chunk_length img (j : nat) :
  128 * Z.of_nat j < Z.of_nat (length img) ->
  Z.of_nat (length (chunk_at img j)) = Z.min 128 (Z.of_nat (length img) - 128 * Z.of_nat j) /\
  chunk_at img j = slice (128 * j) (length (chunk_at img j)) img.
Proof.
  intros Hj. unfold chunk_at, slice. rewrite length_take, length_drop. split; [lia|].
  apply list_eq. intros i. rewrite !lookup_take.
  destruct (decide (i < 128)%nat), (decide (i < 128 `min` (length img - 128 * j))%nat); try done; [|lia].
  rewrite lookup_drop. apply lookup_ge_None_2. lia.
Qed.

Lemma chunk_step n img j s b :
  on_course n img j s b -> bytes_ok img -> n + 128 < 2 ^ 31 -> 0 <= n ->
  exists s', app_dfu_srv_data_cb (chunk_at img j) s = Some s' /\ same_target s s' /\
    dfu_inv [] (n + Z.of_nat (length (chunk_at img j))) s' /\
    (if decide (128 * Z.of_nat (S j) < Z.of_nat (length img))
     then exists b', on_course (n + 128) img (S j) s' b' else received_all img s').
Proof.
  intros [St Hsz Hcu Hu Hmore Hbuf Hctx] Himg Hn Hn0.
  destruct (chunk_length img j Hmore) as [Hlen Hslice]. set (p := chunk_at img j) in *.
  pose proof St as [Hst Hc Hu0 Hs Hb Hz Hm Hne Ht Etb [Hb1 Hb2]]. unfold FLASH_WRITE_SIZE in *.
  assert (Hpok : bytes_ok p) by (by apply Forall_take, Forall_drop).
  assert (Hfit : temp_buf_used_size (env s) + 128 <= 4096) by (clear -Hm Hcu Hu Hc; Z.div_mod_to_equations; lia).
  assert (Estep : exists s', app_dfu_srv_data_cb p s = Some s' /\ same_target s s' /\
    (if decide (128 * Z.of_nat (S j) < Z.of_nat (length img)) then
       state (env s') = DFU_STATE_SRV_DFU_STARTED /\
       cur_offset (env s') + temp_buf_used_size (env s') = 128 * Z.of_nat (S j) /\
       temp_buf_used_size (env s') < 4096 /\
       (exists b', p_tem_buf (env s') = TLive b' /\
         take (Z.to_nat (temp_buf_used_size (env s'))) b' =
           slice (Z.to_nat (cur_offset (env s'))) (Z.to_nat (temp_buf_used_size (env s'))) img) /\
       sha256_context (env s') = take (Z.to_nat (cur_offset (env s'))) img
     else received_all img s')).
  { unfold app_dfu_srv_data_cb, app_dfu_srv_state_check. rewrite Hst, bool_decide_true by done.
    simpl negb. cbv iota. rewrite Etb. rewrite (proj2 (Z.ltb_ge _ _)) by (unfold FLASH_WRITE_SIZE; lia).
    rewrite (u16_small (_ + Z.of_nat (length p))) by (unfold in_width; lia).
    cbn [temp_buf_used_size cur_offset ota_img_size].
    assert (Ebank : total_bank_size (env s) <= 2 ^ 24) by (destruct (bank_range _ Hb) as (_ & _ & -> & _); done).
    rewrite (u32_small (_ + _ + cur_offset (env s))) by (unfold in_width; lia).
    set (used' := temp_buf_used_size (env s) + Z.of_nat (length p)) in *.
    set (b' := overwrite _ p b).
    assert (Hb' : take (Z.to_nat used') b' = slice (Z.to_nat (cur_offset (env s))) (Z.to_nat used') img).
    { unfold b', used'. replace (Z.to_nat (_ + _)) with (Z.to_nat (temp_buf_used_size (env s)) + length p)%nat by lia.
      rewrite take_overwrite by lia. rewrite Hbuf, Hslice at 1.
      replace (128 * j)%nat with (Z.to_nat (cur_offset (env s)) + Z.to_nat (temp_buf_used_size (env s)))%nat by lia.
      by rewrite slice_split. }
    eexists. split; [done|].
    destruct ((used' =? FLASH_WRITE_SIZE) || (used' + cur_offset (env s) =? ota_img_size (env s))) eqn:Ecase;
      unfold FLASH_WRITE_SIZE in Ecase.
    - assert (Hfull : used' = 4096 \/ used' + cur_offset (env s) = ota_img_size (env s)).
      { apply orb_true_iff in Ecase as [E|E]; apply Z.eqb_eq in E; tauto. }
      unfold check_finished.
      set (s2 := flush_buffer b' _). assert (Ec : cur_offset (env s2) = cur_offset (env s) + used').
      { unfold s2, flush_buffer. simpl. apply u32_small. unfold in_width. lia. }
      assert (Ex : sha256_context (env s2) = take (Z.to_nat (cur_offset (env s) + used')) img).
      { unfold s2, flush_buffer. simpl. rewrite Hctx, Hb', slice_prefix. f_equal. lia. }
      change (ota_img_size (env s2)) with (ota_img_size (env s)). rewrite Ec, Hsz. rewrite Hsz in Hfull.
      destruct (Z.eqb_spec (cur_offset (env s) + used') (Z.of_nat (length img))) as [E|E].
      + split; [done|]. rewrite decide_False by lia. unfold received_all. simpl. split_and!; [done| |done].
        unfold s2, flush_buffer in Ex. simpl in Ex. rewrite Ex. apply take_ge. lia.
      + split; [done|]. rewrite decide_True by lia.
        split_and!; [done|change (temp_buf_used_size (env s2)) with 0; lia|done| |by rewrite Ec].
        exists b'. split; [done|]. change (temp_buf_used_size (env s2)) with 0. simpl. done.
    - apply orb_false_iff in Ecase as [Ec1 Ec2]. apply Z.eqb_neq in Ec1, Ec2.
      unfold check_finished. cbn [env with_env cur_offset ota_img_size].
      rewrite (proj2 (Z.eqb_neq _ _)) by lia. split; [done|]. rewrite decide_True by lia.
      cbn [env with_env cur_offset temp_buf_used_size state p_tem_buf sha256_context].
      split_and!; [done|lia|lia| |done]. by exists b'. }
  destruct Estep as (s' & E & Htar & Hres). exists s'. split; [done|]. split; [done|].
  assert (Hinv : dfu_inv [] (n + Z.of_nat (length p)) s').
  { eapply data_inv; [by eapply started_inv|done|lia|done|done]. }
  split; [done|]. case_decide as Hd; [|done].
  destruct Hres as (Hst' & Hcu' & Hu' & (b' & Eb' & Hbuf') & Hctx'). exists b'.
  assert (Hinv2 : dfu_inv [] (n + 128) s') by (eapply inv_mono; [done| |exact Hinv]; lia).
  destruct (inv_started _ _ _ Hinv2 Hst') as [b2 S2].
  assert (b2 = b') as -> by (pose proof (sd_tem _ _ _ S2); congruence).
  destruct Htar as (_ & _ & Hsize' & _). split; try done. by rewrite Hsize'.
Qed.

Lemma same_target_trans s1 s2 s3 : same_target s1 s2 -> same_target s2 s3 -> same_target s1 s3.
Proof. unfold same_target. intros (?&?&?&?&?) (?&?&?&?&?). split_and!; congruence. Qed.

Lemma run_app evs1 evs2 s : dfu_srv_run (evs1 ++ evs2) s = dfu_srv_run evs1 s ≫= dfu_srv_run evs2.
Proof.
  revert s. induction evs1 as [|ev evs IH]; intros s; [done|]. simpl.
  by destruct (dfu_srv_step sha256 ev s); simpl.
Qed.

(** All the remaining chunks, one after the other. *)
Lemma chunks_run img m j n s b :
  on_course n img j s b -> bytes_ok img -> 0 <= n ->
  n + 128 * Z.of_nat (S m) < 2 ^ 31 ->
  Z.of_nat (length img) <= 128 * Z.of_nat (j + S m) ->
  128 * Z.of_nat (j + m) < Z.of_nat (length img) ->
  exists s', dfu_srv_run (EvData <$> (chunk_at img <$> seq j (S m))) s = Some s' /\
    received_all img s' /\ same_target s s' /\ dfu_inv [] (n + 128 * Z.of_nat (S m)) s'.
Proof.
  revert j n s b. induction m as [|m IH]; intros j n s b Hoc Himg Hn0 Hn Hlast Hm;
    destruct (chunk_step n img j s b Hoc Himg ltac:(lia) Hn0) as (s1 & E1 & T1 & I1 & H1);
    pose proof (chunk_length img j (oc_more _ _ _ _ _ Hoc)) as [Hl _];
    cbn [seq fmap list_fmap dfu_srv_run dfu_srv_step]; rewrite E1; cbn [mbind option_bind].
  - rewrite decide_False in H1 by lia. exists s1. split_and!; try done.
    eapply inv_mono; [done| |exact I1]. lia.
  - rewrite decide_True in H1 by lia. destruct H1 as [b' Hoc'].
    destruct (IH (S j) (n + 128) s1 b' Hoc' Himg) as (s2 & E2 & R2 & T2 & I2); [lia|lia|lia|lia|].
    exists s2. split_and!; [done|done|by eapply same_target_trans|].
    eapply inv_mono; [done| |exact I2]. lia.
Qed.

Definition bank_of (i : Z) : Z := if i =? 0 then RE_IMG_1_OFFSET else RE_IMG_0_OFFSET.

Lemma control_cmd alloc p s opcode entry :
  p !! 0%nat = Some opcode -> dfu_srv_cmd_cb !! Z.to_nat opcode = Some entry ->
  Z.of_nat (length p) = entry.1 ->
  app_dfu_srv_control_cb sha256 alloc p s =
    (r ← dispatch sha256 opcode alloc p (with_timer None s); Some (respond opcode r)).
Proof.
  intros H0' H1' H2'. unfold app_dfu_srv_control_cb. rewrite H0'. cbn [mbind option_bind].
  rewrite H1'. cbn [mbind option_bind]. by rewrite H2', Z.eqb_refl.
Qed.

(** The commands before the data. *)
Lemma session_start img buf i s0 :
  initial s0 -> bytes_ok img -> 0 < Z.of_nat (length img) <= RE_IMG_1_OFFSET - RE_IMG_0_OFFSET ->
  bytes_ok buf -> Z.of_nat (length buf) = FLASH_WRITE_SIZE ->
  rom_sys_status_get (rom s0) SYS_RUNNING_IMG = (SYS_STATUS_FOUND_OK, i) ->
  exists s3, dfu_srv_run
      [EvControl None [DFU_OPCODE_MODE; DFU_MODE_BLE];
       EvControl None (DFU_OPCODE_IMAGE_SIZE :: le 4 (Z.of_nat (length img)));
       EvControl (Some buf) [DFU_OPCODE_START_DFU]] s0 = Some s3 /\
    on_course 0 img 0 s3 buf /\ working_bank (env s3) = i /\ new_img_addr (env s3) = bank_of i /\
    rom s3 = rom s0 /\ restarted s3 = restarted s0.
Proof.
  intros Hi0 Himg Hl Hbuf Hlb Hrom. unfold RE_IMG_0_OFFSET, RE_IMG_1_OFFSET in Hl.
  set (evs := [EvControl _ _; _; _]).
  assert (Hle : unle (slice 1 4 (DFU_OPCODE_IMAGE_SIZE :: le 4 (Z.of_nat (length img)))) = Z.of_nat (length img)).
  { change (slice 1 4 _) with (le 4 (Z.of_nat (length img))). apply unle_le. lia. }
  assert (Hok : Forall ev_ok evs).
  { unfold evs. repeat apply Forall_cons_2; [| | |done]; split_and!; try done.
    - repeat constructor; unfold in_width; done.
    - constructor; [unfold in_width, DFU_OPCODE_IMAGE_SIZE; lia|apply le_ok].
    - rewrite Hle. unfold RE_IMG_0_OFFSET, RE_IMG_1_OFFSET. lia.
    - repeat constructor; unfold in_width; done.
    - intros b [= <-]. done. }
  assert (Hinv0 : dfu_inv [] 0 s0) by (unfold dfu_inv; rewrite Hi0; simpl; lia).
  destruct s0 as [e0 d0 r0 t0 m0 x0]. unfold initial in Hi0. cbn [env rom restarted] in *. subst e0.
  assert (Erun : exists s3, dfu_srv_run evs (DfuSys zero_env d0 r0 t0 m0 x0) = Some s3 /\
    state (env s3) = DFU_STATE_SRV_DFU_STARTED /\ ota_img_size (env s3) = Z.of_nat (length img) /\
    cur_offset (env s3) = 0 /\ temp_buf_used_size (env s3) = 0 /\ p_tem_buf (env s3) = TLive buf /\
    sha256_context (env s3) = [] /\ working_bank (env s3) = i /\
    new_img_addr (env s3) = bank_of i /\ rom s3 = r0 /\ restarted s3 = x0).
  { unfold evs. cbn [dfu_srv_run dfu_srv_step].
    rewrite (control_cmd None _ _ DFU_OPCODE_MODE (2, 10000)) by done.
    cbn [dispatch Z.eqb Pos.eqb DFU_OPCODE_MODE]. unfold cmd_mode. simpl lookup.
    cbn [mbind option_bind env rom with_timer zero_env state app_dfu_srv_state_check].
    rewrite Hrom. cbn.
    eexists. split; [reflexivity|]. simpl. split_and!; try done. }
  destruct Erun as (s3 & E3 & Hst & Hsz & Hc & Hu & Hb & Hx & Hw & Ha & Hr & Hre).
  exists s3. split; [done|]. split_and!; try done.
  eapply run_inv in E3; [|exact Hinv0|done|done|done]. cbn in E3.
  destruct (inv_started _ _ _ E3 Hst) as [b2 S2].
  assert (b2 = buf) as -> by (pose proof (sd_tem _ _ _ S2); congruence).
  split; rewrite ?Hc, ?Hu, ?Hx; try done; simpl; lia.
Qed.

(** The session of a protocol-conforming client, callback by callback. *)
Lemma session_installs img buf i s0 :
  initial s0 -> bytes_ok img -> 0 < Z.of_nat (length img) <= RE_IMG_1_OFFSET - RE_IMG_0_OFFSET ->
  bytes_ok buf -> Z.of_nat (length buf) = FLASH_WRITE_SIZE ->
  (forall m, length (sha256 m) = 32%nat) ->
  rom_sys_status_get (rom s0) SYS_RUNNING_IMG = (SYS_STATUS_FOUND_OK, i) ->
  (apply_writes (rom s0) (dfu_switch_writes i)).1 = 0 ->
  exists s, dfu_srv_run (dfu_session img buf) s0 = Some s /\ restarted s = true /\
    rom s = (apply_writes (rom s0) (dfu_switch_writes i)).2 /\
    cells (flash s) (bank_of i) (length img) = img.
Proof.
  intros Hi0 Himg Hl Hbuf Hlb Hsha Hrom Hsw.
  destruct (session_start img buf i s0 Hi0 Himg Hl Hbuf Hlb Hrom) as (s3 & E3 & Hoc & Hw & Ha & Hr & Hx).
  unfold RE_IMG_0_OFFSET, RE_IMG_1_OFFSET in Hl.
  assert (Hcnt : exists m, chunk_count img = S m /\ Z.of_nat (length img) <= 128 * Z.of_nat (S m) /\
                           128 * Z.of_nat m < Z.of_nat (length img)).
  { unfold chunk_count. exists (Z.to_nat ((Z.of_nat (length img) + 127) / 128 - 1)).
    Z.div_mod_to_equations. lia. }
  destruct Hcnt as (m & Em & Hm1 & Hm2).
  destruct (chunks_run img m 0 0 s3 buf Hoc Himg) as (s4 & E4 & (Hst & Hctx & Hsz) & (T1 & T2 & T3 & T4 & T5) & I4);
    [done|lia|simpl; lia|simpl; lia|].
  destruct I4 as (_ & _ & _ & I4). rewrite Hst in I4. destruct I4 as (_ & _ & Hcs & _ & _ & Hcells).
  unfold dfu_session. rewrite run_app, E3. cbn [mbind option_bind]. rewrite run_app.
  unfold chunks. rewrite Em, E4. cbn [mbind option_bind].
  destruct s4 as [e4 d4 r4 t4 m4 x4]. cbn [env flash rom restarted] in *.
  cbn [dfu_srv_run dfu_srv_step].
  rewrite (control_cmd None _ _ DFU_OPCODE_VERIFICATION (33, DFU_TIMEOUT_DEFAULT))
    by (try done; cbn [length fst]; by rewrite Hsha).
  cbn [dispatch Z.eqb Pos.eqb DFU_OPCODE_MODE DFU_OPCODE_IMAGE_SIZE DFU_OPCODE_START_DFU DFU_OPCODE_VERIFICATION].
  unfold cmd_verification, app_dfu_srv_state_check. cbn [env with_timer]. rewrite Hst.
  rewrite bool_decide_true by done. cbn [negb]. cbv iota.
  change (slice 1 32 (DFU_OPCODE_VERIFICATION :: sha256 img)) with (take 32 (sha256 img)).
  rewrite take_ge by (rewrite Hsha; lia). rewrite Hctx, bool_decide_true by done.
  cbn [mbind option_bind].
  rewrite (control_cmd None _ _ DFU_OPCODE_REBOOT (1, DFU_TIMEOUT_DEFAULT)) by done.
  cbn.
  unfold app_dfu_srv_disconn_cb. simpl. rewrite T1, Hw, T5, Hr.
  destruct (apply_writes (rom s0) (dfu_switch_writes i)) as [res r'] eqn:Esw. cbn [fst] in Hsw. subst res.
  eexists. split; [reflexivity|]. simpl. split_and!; try done.
  rewrite T2, Ha, Hcs, Hsz, Nat2Z.id in Hcells. etrans; [exact Hcells|done].
Qed.

(** a protocol-conforming session updates the device.  From the idle
    server, the commands and 128-byte data writes of an image that fits the
    bank are all handled; at the disconnection the flash bank of the other
    image holds exactly the image, the flags are switched to it and the chip
    is reset. *)
Theorem dfu_session_installs_image img buf i s0 :
  initial s0 -> bytes_ok img -> 0 < Z.of_nat (length img) <= RE_IMG_1_OFFSET - RE_IMG_0_OFFSET ->
  bytes_ok buf -> Z.of_nat (length buf) = FLASH_WRITE_SIZE ->
  (forall m, length (sha256 m) = 32%nat) ->
  rom_sys_status_get (rom s0) SYS_RUNNING_IMG = (SYS_STATUS_FOUND_OK, i) ->
  (apply_writes (rom s0) (dfu_switch_writes i)).1 = 0 ->
  exists s, dfu_srv_run (dfu_session img buf) s0 = Some s /\ restarted s = true /\
    rom s = (apply_writes (rom s0) (dfu_switch_writes i)).2 /\
    cells (flash s) (bank_of i) (length img) = img.
Proof. intros Hi0 Himg Hl Hbuf Hlb Hsha Hrom Hsw. by apply session_installs. Qed.

(** *** Where the server goes wrong *)

(** A chunk that neither fills the buffer nor ends the image is only stored. *)
Lemma data_stored s b p :
  state (env s) = DFU_STATE_SRV_DFU_STARTED -> p_tem_buf (env s) = TLive b ->
  cur_offset (env s) = 0 -> 0 <= temp_buf_used_size (env s) ->
  temp_buf_used_size (env s) + Z.of_nat (length p) < FLASH_WRITE_SIZE ->
  FLASH_WRITE_SIZE < ota_img_size (env s) ->
  exists s' b', app_dfu_srv_data_cb p s = Some s' /\ state (env s') = DFU_STATE_SRV_DFU_STARTED /\
    p_tem_buf (env s') = TLive b' /\ cur_offset (env s') = 0 /\
    temp_buf_used_size (env s') = temp_buf_used_size (env s) + Z.of_nat (length p) /\
    ota_img_size (env s') = ota_img_size (env s).
Proof.
  unfold FLASH_WRITE_SIZE. intros Hst Hb Hc Hu Hfit Hsz.
  unfold app_dfu_srv_data_cb, app_dfu_srv_state_check. rewrite Hst, bool_decide_true by done.
  simpl negb. cbv iota. rewrite Hb. rewrite (proj2 (Z.ltb_ge _ _)) by (unfold FLASH_WRITE_SIZE; lia).
  rewrite (u16_small (_ + _)) by (unfold in_width; lia). cbn [temp_buf_used_size cur_offset ota_img_size].
  rewrite Hc, (u32_small (_ + _ + 0)) by (unfold in_width; lia).
  rewrite (proj2 (Z.eqb_neq _ FLASH_WRITE_SIZE)) by (unfold FLASH_WRITE_SIZE; lia).
  rewrite (proj2 (Z.eqb_neq _ (ota_img_size (env s)))) by lia. cbn [orb]. unfold check_finished.
  cbn [env with_env cur_offset ota_img_size]. rewrite ?Hc. rewrite (proj2 (Z.eqb_neq _ _)) by lia.
  eexists _, _. split; [reflexivity|]. cbn. done.
Qed.

(** data writes whose length does not divide 4096 overflow the receive
    buffer.  The buffer is written out only when it holds exactly 4096 bytes,
    so with any other chunk length (244 bytes, say) the write that crosses
    4096 runs past the end of the allocation. *)
Theorem dfu_chunks_overflow s b (c : nat -> bytes) (L : nat) :
  state (env s) = DFU_STATE_SRV_DFU_STARTED -> p_tem_buf (env s) = TLive b ->
  cur_offset (env s) = 0 -> temp_buf_used_size (env s) = 0 ->
  FLASH_WRITE_SIZE < ota_img_size (env s) ->
  (0 < L)%nat -> (4096 mod L <> 0)%nat -> (forall j, length (c j) = L) ->
  dfu_srv_run (EvData <$> (c <$> seq 0 (S (4096 / L)))) s = None.
Proof.
  intros Hst Hb Hc Hu Hsz HL HmL Hlen. pose proof (Nat.div_mod 4096 L ltac:(lia)) as Hdm.
  pose proof (Nat.mod_upper_bound 4096 L ltac:(lia)).
  assert (Hgen : forall m j s b, (j + m = 4096 / L)%nat ->
    state (env s) = DFU_STATE_SRV_DFU_STARTED -> p_tem_buf (env s) = TLive b ->
    cur_offset (env s) = 0 -> temp_buf_used_size (env s) = Z.of_nat (j * L) ->
    FLASH_WRITE_SIZE < ota_img_size (env s) ->
    dfu_srv_run (EvData <$> (c <$> seq j (S m))) s = None).
  { induction m as [|m IH]; intros j s1 b1 Hj Hst1 Hb1 Hc1 Hu1 Hsz1;
      cbn [seq fmap list_fmap dfu_srv_run dfu_srv_step].
    - unfold app_dfu_srv_data_cb, app_dfu_srv_state_check. rewrite Hst1, bool_decide_true by done.
      simpl negb. cbv iota. rewrite Hb1, Hu1, Hlen.
      rewrite (proj2 (Z.ltb_lt _ _)); [done|]. unfold FLASH_WRITE_SIZE.
      replace j with (4096 / L)%nat by lia. lia.
    - destruct (data_stored s1 b1 (c j) Hst1 Hb1 Hc1) as (s2 & b2 & E & Hst2 & Hb2 & Hc2 & Hu2 & Hsz2);
        [lia| |done|].
      { rewrite Hu1, Hlen. unfold FLASH_WRITE_SIZE. assert ((j + 1) * L <= 4096 / L * L)%nat by nia. lia. }
      rewrite E. cbn [mbind option_bind].
      apply (IH (S j) s2 b2); [lia|done|done|done|rewrite Hu2, Hu1, Hlen; lia|by rewrite Hsz2]. }
  apply (Hgen (4096 / L)%nat 0%nat s b); [done|done|done|done|by rewrite Hu|done].
Qed.

(** When a data write fills the buffer, the last flash operation is the erase
    of the sector the erase pointer names. *)
Lemma data_fills_flash s b p s' :
  state (env s) = DFU_STATE_SRV_DFU_STARTED -> p_tem_buf (env s) = TLive b ->
  temp_buf_used_size (env s) + Z.of_nat (length p) = FLASH_WRITE_SIZE ->
  app_dfu_srv_data_cb p s = Some s' ->
  exists d, flash s' = (flash_erase d (erase_start_addr (env s)) FLASH_WRITE_SIZE).2.
Proof.
  intros Hst Hb Hu. unfold app_dfu_srv_data_cb, app_dfu_srv_state_check.
  rewrite Hst, bool_decide_true by done. cbn [negb]. cbv iota. rewrite Hb, Hu, Z.ltb_irrefl.
  rewrite (u16_small FLASH_WRITE_SIZE) by (unfold in_width, FLASH_WRITE_SIZE; lia).
  cbn [temp_buf_used_size]. rewrite Z.eqb_refl. cbn [orb]. intros [= <-].
  unfold check_finished. eexists. destruct (_ =? _); reflexivity.
Qed.

(** the erase that runs one sector ahead leaves the bank.  When the last
    buffer of an image that fills bank 0 is written, the first sector of
    image 1, the image that is running, is erased. *)
Theorem dfu_full_image_erases_running_image n s b p s' :
  started n s b ->
  new_img_addr (env s) = RE_IMG_0_OFFSET ->
  temp_buf_used_size (env s) + Z.of_nat (length p) = FLASH_WRITE_SIZE ->
  cur_offset (env s) + FLASH_WRITE_SIZE = RE_IMG_1_OFFSET - RE_IMG_0_OFFSET ->
  ota_img_size (env s) = RE_IMG_1_OFFSET - RE_IMG_0_OFFSET ->
  app_dfu_srv_data_cb p s = Some s' -> sector_blank (flash s') RE_IMG_1_OFFSET.
Proof.
  intros Hs Ha Hu Hc Hsz Hrun x Hx. pose proof Hs as [Hst _ _ _ _ _ _ _ Ht Etb _].
  destruct Ht as (_ & _ & Her & _); [rewrite Hsz; unfold FLASH_WRITE_SIZE in Hc; lia|].
  destruct (data_fills_flash s b p s' Hst Etb Hu Hrun) as [d ->]. unfold FLASH_WRITE_SIZE in *.
  rewrite Ha in Her. unfold RE_IMG_0_OFFSET, RE_IMG_1_OFFSET in *.
  replace (erase_start_addr (env s)) with 0x1EA000 by lia.
  rewrite erase_log_cells by (done || (unfold FLASH_WRITE_SIZE, RE_IMG_1_END in *; lia)).
  unfold erased. by rewrite decide_True by (unfold FLASH_WRITE_SIZE; lia).
Qed.

(** a timeout does not forget the transfer.  The timer callback only sets
    the state back to idle; a new session started afterwards receives its
    data at the old write offset, with an empty hash context. *)
Theorem dfu_timeout_keeps_offset s img buf :
  bytes_ok img -> Z.of_nat (length img) < 2 ^ 32 ->
  exists s', dfu_srv_run
      [EvTimer; EvControl None [DFU_OPCODE_MODE; DFU_MODE_BLE];
       EvControl None (DFU_OPCODE_IMAGE_SIZE :: le 4 (Z.of_nat (length img)));
       EvControl (Some buf) [DFU_OPCODE_START_DFU]] s = Some s' /\
    state (env s') = DFU_STATE_SRV_DFU_STARTED /\ ota_img_size (env s') = Z.of_nat (length img) /\
    cur_offset (env s') = cur_offset (env s) /\
    temp_buf_used_size (env s') = temp_buf_used_size (env s) /\ sha256_context (env s') = [].
Proof.
  intros Himg Hl. assert (Hle : unle (le 4 (Z.of_nat (length img))) = Z.of_nat (length img)).
  { apply unle_le. lia. }
  destruct s as [e d r t m x]. cbn [dfu_srv_run dfu_srv_step mbind option_bind].
  rewrite (control_cmd None _ _ DFU_OPCODE_MODE (2, 10000)) by done.
  cbn [dispatch Z.eqb Pos.eqb DFU_OPCODE_MODE]. unfold cmd_mode. simpl lookup.
  unfold app_dfu_srv_ota_timer_timeout_cb.
  cbn [mbind option_bind env rom with_timer with_env state app_dfu_srv_state_set ble_ota_srv_tx].
  unfold app_dfu_srv_state_check at 1. cbn [state app_dfu_srv_state_set].
  rewrite bool_decide_true by done. cbn [negb]. cbv iota. cbn [Z.eqb DFU_MODE_BLE].
  destruct (rom_sys_status_get r SYS_RUNNING_IMG) as [ret v]. cbn [mbind option_bind].
  rewrite (control_cmd None _ _ DFU_OPCODE_IMAGE_SIZE (5, DFU_TIMEOUT_DEFAULT)) by done.
  eexists. split; [reflexivity|]. cbn -[le unle]. split_and!; try done.
Qed.
End safety.

(** ** Concrete instances *)
Module DfuWitness.
#[local] Existing Instances Nor.nor_dev Nor.nor_laws Nor.nor_reliable BootWitness.rom_sys.
Abbreviation nor := Nor.nor.
Definition flash_size : Z := 0x400000.
#[local] Instance dev : FlashDev nor := Nor.nor_dev flash_size.

(** A stand-in digest of 32 bytes. *)
Definition digest_of (m : bytes) : bytes := le 32 (foldr (fun b acc => b + 31 * acc) 7 m).

Definition srv (e : dfu_srv_env_t) : dfu_sys nor BootWitness.rom :=
  DfuSys e ∅ BootWitness.r0 None [] false.

Definition img : bytes := (fun i => Z.of_nat i) <$> seq 0 200.
Definition buffer : bytes := replicate 4096 0.

Lemma img_ok : bytes_ok img.
Proof. apply Forall_fmap, Forall_forall. intros i Hi. apply elem_of_seq in Hi. unfold is_u8, in_width; simpl; lia. Qed.

Lemma buffer_ok : bytes_ok buffer.
Proof. apply Forall_replicate. unfold is_u8, in_width. lia. Qed.

Lemma dfu_session_installs_image_witness :
  exists s, dfu_srv_run digest_of (dfu_session digest_of img buffer) (srv zero_env) = Some s /\
    restarted s = true /\ cells (flash s) (bank_of 0) 200 = img.
Proof.
  destruct (dfu_session_installs_image flash_size digest_of ltac:(by vm_compute) img buffer 0 (srv zero_env))
    as (s & E & Hre & _ & Hc);
    [reflexivity|exact img_ok|by vm_compute|exact buffer_ok|by vm_compute
    |intros m; apply length_le|reflexivity|reflexivity|].
  exists s. split; [exact E|split; [exact Hre|exact Hc]].
Defined.

(** Everything up to the disconnection. *)
Definition session : list dfu_event := take 8 (dfu_session digest_of img buffer).

Lemma bytes_ok_dec bs : bool_decide (bytes_ok bs) = true -> bytes_ok bs.
Proof. apply bool_decide_eq_true. Qed.

(** A command that carries no buffer and no oversized length. *)
Lemma control_ok p : bool_decide (bytes_ok p) = true ->
  (p !! 0%nat = Some DFU_OPCODE_IMAGE_SIZE -> 0 <= unle (slice 1 4 p) <= RE_IMG_1_OFFSET - RE_IMG_0_OFFSET) ->
  ev_ok (EvControl None p).
Proof. intros Hp Hsize. split; [by apply bytes_ok_dec|]. by split. Qed.

Lemma session_ok : Forall ev_ok (session ++ [EvDisconnect]).
Proof.
  change (session ++ [EvDisconnect]) with (dfu_session digest_of img buffer).
  unfold dfu_session. apply Forall_app_2; [|apply Forall_app_2].
  - apply Forall_cons_2; [by apply control_ok|apply Forall_cons_2; [|apply Forall_cons_2; [|apply Forall_nil_2]]].
    + apply control_ok; [by vm_compute|]. intros _. vm_compute. split; discriminate.
    + split; [by apply bytes_ok_dec|]. split; [|done]. intros b [= <-].
      split; [exact buffer_ok|by vm_compute].
  - apply Forall_fmap, Forall_fmap, Forall_forall. intros j _. simpl.
    unfold chunk_at, slice. apply Forall_take, Forall_drop, img_ok.
  - apply Forall_cons_2; [apply control_ok; [by vm_compute|done]|].
    apply Forall_cons_2; [by apply control_ok|]. by apply Forall_cons_2; [|apply Forall_cons_2; [|apply Forall_nil_2]].
Qed.

(** The server at the disconnection. *)
Definition final : dfu_sys nor BootWitness.rom :=
  default (srv zero_env) (dfu_srv_run digest_of session (srv zero_env)).

Lemma run_final : dfu_srv_run digest_of session (srv zero_env) = Some final.
Proof.
  unfold final. destruct (dfu_srv_run _ _ _) eqn:E; [done|].
  assert (Hs : restarted <$> dfu_srv_run digest_of session (srv zero_env) = Some false) by (by vm_compute).
  by rewrite E in Hs.
Qed.


Definition started_env (cur size : Z) (ctx : bytes) : dfu_srv_env_t :=
  DfuEnv DFU_STATE_SRV_DFU_STARTED 0 1 RE_IMG_0_OFFSET (RE_IMG_1_OFFSET - RE_IMG_0_OFFSET) size
    cur 0 (TLive buffer) (RE_IMG_0_OFFSET + cur + FLASH_WRITE_SIZE) ctx.

Lemma dfu_chunks_overflow_witness :
  dfu_srv_run digest_of (EvData <$> ((fun _ => replicate 244 0) <$> seq 0 17)) (srv (started_env 0 10000 [])) = None.
Proof.
  apply (dfu_chunks_overflow digest_of (srv (started_env 0 10000 [])) buffer (fun _ => replicate 244 0) 244);
    try reflexivity; try lia. by vm_compute.
Defined.

Lemma dfu_timeout_keeps_offset_witness :
  exists s', dfu_srv_run digest_of
      [EvTimer; EvControl None [DFU_OPCODE_MODE; DFU_MODE_BLE];
       EvControl None (DFU_OPCODE_IMAGE_SIZE :: le 4 (Z.of_nat (length img)));
       EvControl (Some buffer) [DFU_OPCODE_START_DFU]] (srv (started_env 4096 10000 buffer)) = Some s' /\
    cur_offset (env s') = 4096 /\ sha256_context (env s') = [].
Proof.
  destruct (dfu_timeout_keeps_offset digest_of (srv (started_env 4096 10000 buffer)) img buffer img_ok
              ltac:(by vm_compute)) as (s' & E & _ & _ & Hc & _ & Hx).
  by exists s'.
Defined.

(** All but the last sector of a bank-filling image has been received. *)
Definition almost (cur : Z) : dfu_sys nor BootWitness.rom :=
  srv (started_env cur (RE_IMG_1_OFFSET - RE_IMG_0_OFFSET) (cells (∅ : nor) RE_IMG_0_OFFSET (Z.to_nat cur))).

Lemma almost_started (cur : Z) :
  0 <= cur < RE_IMG_1_OFFSET - RE_IMG_0_OFFSET -> cur mod FLASH_WRITE_SIZE = 0 ->
  started cur (almost cur) buffer.
Proof.
  intros Hc Hm. split; unfold almost, srv, started_env; cbn [env state cur_offset temp_buf_used_size
    ota_img_size total_bank_size p_tem_buf]; unfold FLASH_WRITE_SIZE in *; try done; try lia.
  - by left.
  - intros _. split; [done|]. split; [|split; [done|]].
    + unfold received_ok; cbn [sha256_context cur_offset new_img_addr flash env]. split_and!; [|by rewrite length_cells; lia|done].
      apply cells_ok.
    + intros x _. by unfold cell, dev, Nor.nor_dev, Nor.get.
  - split; [exact buffer_ok|by vm_compute].
Qed.

Lemma almost_stored cur : app_dfu_srv_data_cb buffer (almost cur) <> None.
Proof. by unfold app_dfu_srv_data_cb, almost, srv, started_env. Qed.

Lemma dfu_full_image_erases_running_image_witness :
  exists s', app_dfu_srv_data_cb buffer (almost (RE_IMG_1_OFFSET - RE_IMG_0_OFFSET - 4096)) = Some s' /\
    cell (flash s') RE_IMG_1_OFFSET = 0xFF.
Proof.
  assert (Hcur : exists cur, cur = RE_IMG_1_OFFSET - RE_IMG_0_OFFSET - 4096) by (by eexists).
  destruct Hcur as [cur Hcur]. rewrite <- Hcur.
  assert (Hs : started cur (almost cur) buffer) by (apply almost_started; subst cur; by vm_compute).
  destruct (app_dfu_srv_data_cb buffer (almost cur)) as [s'|] eqn:E; [|by destruct (almost_stored cur)].
  exists s'. split; [done|].
  apply (dfu_full_image_erases_running_image flash_size ltac:(by vm_compute) cur (almost cur) buffer buffer s');
    [exact Hs|reflexivity|reflexivity
    |unfold almost, srv, started_env; cbn [env cur_offset]; subst cur; reflexivity|reflexivity|exact E|by vm_compute].
Defined.
End DfuWitness.
