(* ===== verification/Dhcpd.v ===== *)
(** * The DHCP server: [MSDK/lwip/lwip-2.2.0/port/dhcpd.c]

    The lease table, address allocation, option parsing and building, and the
    message handlers.  A packet is the packed [struct dhcpd]; [encode] is its
    memory image, in which the option parser walks.  Functions return [None]
    where the C code reads outside the structure (or would not return).  The
    ARP table is owned by lwIP: whether it holds an address is an argument.
    Addresses are the raw 32-bit words of the structures (network order, read
    on a little-endian machine). *)
From S2P Require Import Prelude Prog.

(** ** Constants *)
Definition DHCP_PADDING : Z := 0x00.
Definition DHCP_SUBNET : Z := 0x01.
Definition DHCP_ROUTER : Z := 0x03.
Definition DHCP_DNS_SERVER : Z := 0x06.
Definition DHCP_DOMAIN_NAME : Z := 0x0f.
Definition DHCP_REQUESTED_IP : Z := 0x32.
Definition DHCP_LEASE_TIME : Z := 0x33.
Definition DHCP_OPTION_OVER : Z := 0x34.
Definition DHCP_MESSAGE_TYPE : Z := 0x35.
Definition DHCP_SERVER_ID : Z := 0x36.
Definition DHCP_END : Z := 0xFF.
Definition DHCP_MAGIC : Z := 0x63825363.
Definition BOOTREPLY : Z := 2.
Definition ETH_10MB : Z := 1.
Definition ETH_10MB_LEN : Z := 6.
Definition DHCPDISCOVER : Z := 1.
Definition DHCPOFFER : Z := 2.
Definition DHCPREQUEST : Z := 3.
Definition DHCPDECLINE : Z := 4.
Definition DHCPACK : Z := 5.
Definition DHCPNAK : Z := 6.
Definition DHCPRELEASE : Z := 7.
Definition DELETED : Z := 8.
Definition DEFAULT_LEASE_TIME : Z := 3600.
(** "www.gigadevice.com.cn" and "gigade", in ASCII. *)
Definition DEFAULT_DOMAIN : bytes :=
  [119; 119; 119; 46; 103; 105; 103; 97; 100; 101; 118; 105; 99; 101; 46; 99; 111; 109; 46; 99; 110].
Definition DEFAULT_SNAME6 : bytes := [103; 105; 103; 97; 100; 101].

(** [htonl] and [ntohl] on a little-endian machine. *)
Definition htonl (x : Z) : Z := unle (reverse (le 4 x)).

(** ** Packets *)
Record dhcpd := Dhcpd {
  op : Z; htype : Z; hlen : Z; hops : Z;
  xid : Z; secs : Z; flags : Z;
  ciaddr : Z; yiaddr : Z; siaddr : Z; giaddr : Z;
  chaddr : bytes; sname : bytes; file : bytes;
  cookie : Z; options : bytes;
}.

Definition encode (p : dhcpd) : bytes :=
  [op p; htype p; hlen p; hops p] ++ le 4 (xid p) ++ le 2 (secs p) ++ le 2 (flags p)
  ++ le 4 (ciaddr p) ++ le 4 (yiaddr p) ++ le 4 (siaddr p) ++ le 4 (giaddr p)
  ++ chaddr p ++ sname p ++ file p ++ le 4 (cookie p) ++ options p.

Definition zero_packet : dhcpd :=
  Dhcpd 0 0 0 0 0 0 0 0 0 0 0 (replicate 16 0) (replicate 64 0) (replicate 128 0) 0 (replicate 308 0).

Definition with_options (o : bytes) (p : dhcpd) : dhcpd :=
  Dhcpd (op p) (htype p) (hlen p) (hops p) (xid p) (secs p) (flags p) (ciaddr p) (yiaddr p)
    (siaddr p) (giaddr p) (chaddr p) (sname p) (file p) (cookie p) o.
Definition with_yiaddr (y : Z) (p : dhcpd) : dhcpd :=
  Dhcpd (op p) (htype p) (hlen p) (hops p) (xid p) (secs p) (flags p) (ciaddr p) y
    (siaddr p) (giaddr p) (chaddr p) (sname p) (file p) (cookie p) (options p).

(** ** Options *)
Inductive field := OPTION_FIELD | FILE_FIELD | SNAME_FIELD.

(** Start of a field in the structure, and the length the parser uses. *)
Definition field_base (f : field) : Z :=
  match f with OPTION_FIELD => 240 | FILE_FIELD => 108 | SNAME_FIELD => 44 end.
Definition field_length (f : field) : Z :=
  match f with OPTION_FIELD => 308 | FILE_FIELD => 128 | SNAME_FIELD => 64 end.

(** The byte at an offset of a memory area. *)
Definition rd (mem : bytes) (a : Z) : option Z := mem !! Z.to_nat a.

(** The result is the offset of the option's data ([None] for NULL) and the
    destination buffer, of which an option shorter than the buffer leaves the
    tail as it was. *)
Fixpoint pickup_loop (fuel : nat) (mem : bytes) (code : Z) (dest : bytes)
    (curr : field) (over i : Z) : option (option Z * bytes) :=
  match fuel with
  | O => None
  | S fuel =>
      let ptr := field_base curr in
      let length := field_length curr in
      if length <=? i then Some (None, dest)
      else
        opt ← rd mem (ptr + i);
        if opt =? code then
          len ← rd mem (ptr + i + 1);
          if length <=? i + 1 + len then Some (None, dest)
          else if Z.of_nat (List.length dest) <? len then Some (None, dest)
          else Some (Some (ptr + i + 2),
                     overwrite 0 (slice (Z.to_nat (ptr + i + 2)) (Z.to_nat len) mem) dest)
        else if opt =? DHCP_PADDING then pickup_loop fuel mem code dest curr over (i + 1)
        else if opt =? DHCP_OPTION_OVER then
          len ← rd mem (ptr + i + 1);
          if length <=? i + 1 + len then Some (None, dest)
          else
            over' ← rd mem (ptr + i + 3);
            len0 ← rd mem (ptr + 1);
            pickup_loop fuel mem code dest curr over' (i + len0 + 2)
        else if opt =? DHCP_END then
          match curr with
          | OPTION_FIELD =>
              if Z.testbit over 0 then pickup_loop fuel mem code dest FILE_FIELD over 0
              else Some (None, dest)
          | FILE_FIELD =>
              if Z.testbit over 1 then pickup_loop fuel mem code dest SNAME_FIELD over 0
              else Some (None, dest)
          | SNAME_FIELD => Some (None, dest)
          end
        else
          len ← rd mem (ptr + i + 1);
          pickup_loop fuel mem code dest curr over (i + len + 2)
  end.

(** At most 308 + 128 + 64 steps and two changes of field. *)
Definition PICKUP_FUEL : nat := 503.

Definition dhcpd_pickup_opt (mem : bytes) (code : Z) (dest : bytes) : option (option Z * bytes) :=
  pickup_loop PICKUP_FUEL mem code dest OPTION_FIELD 0 0.

(** The [while (ptr[end] != DHCP_END)] scan over the 308 option bytes. *)
Fixpoint find_end (fuel : nat) (ptr : bytes) (end_ : Z) : option Z :=
  match fuel with
  | O => None
  | S fuel =>
      b ← rd ptr end_;
      if b =? DHCP_END then Some end_
      else if b =? DHCP_PADDING then find_end fuel ptr (end_ + 1)
      else len ← rd ptr (end_ + 1); find_end fuel ptr (end_ + len + 2)
  end.

Definition dhcpd_add_option (ptr : bytes) (code : Z) (data : bytes) : option (Z * bytes) :=
  let len := Z.of_nat (length data) in
  end_ ← find_end 309 ptr 0;
  if 308 <=? end_ + len + 2 + 1 then Some (0, ptr)
  else Some (len + 2, overwrite (Z.to_nat end_) ([code; len] ++ data ++ [DHCP_END]) ptr).

(** The successive [dhcpd_add_option] calls of a reply. *)
Fixpoint add_options (ptr : bytes) (os : list (Z * bytes)) : option bytes :=
  match os with
  | [] => Some ptr
  | (code, data) :: os =>
      r ← dhcpd_add_option ptr code data;
      add_options r.2 os
  end.

(** ** Server state *)
Record dhcpOfferedAddr := Lease { l_chaddr : bytes; l_yiaddr : Z; l_flag : Z }.

Definition empty_lease : dhcpOfferedAddr := Lease (replicate 16 0) 0 0.
#[export] Instance lease_inhabited : Inhabited dhcpOfferedAddr := populate empty_lease.

Record server_config_t := ServerConfig {
  server : Z; mask : Z; start : Z; end_ : Z; lease : Z; max_leases : nat; cfg_siaddr : Z }.

Record netif := Netif { nif_index : Z; ip_addr : Z; netmask : Z; gw : Z }.

Record dhcpd_state := DhcpdState {
  leases : list dhcpOfferedAddr;
  decline_ip : list Z;
  server_config : server_config_t;
  payload_out : dhcpd;
  destAddr : Z;
  UdpPcb : option Z;          (* the index of the interface it is bound to *)
}.

Definition IPADDR_BROADCAST : Z := 0xFFFFFFFF.

(** What the stack holds where a handler declares a variable and does not
    initialise it. *)
Record locals := Locals {
  l_type : bytes; l_s_addr : bytes; l_request_addr : bytes; l_server_id : bytes; l_requested_ip : bytes }.

Section server.
(** [DHCPD_MAX_LEASES] and [DECLINE_IP_MAX]. *)
Context (DHCPD_MAX_LEASES DECLINE_IP_MAX : nat).
Implicit Types (s : dhcpd_state) (ls : list dhcpOfferedAddr) (c : server_config_t) (p : dhcpd).

Definition initial_state : dhcpd_state :=
  DhcpdState (replicate DHCPD_MAX_LEASES empty_lease) (replicate DECLINE_IP_MAX 0)
    (ServerConfig 0 0 0 0 0 0 0) zero_packet 0 None.

Definition with_leases ls s : dhcpd_state :=
  DhcpdState ls (decline_ip s) (server_config s) (payload_out s) (destAddr s) (UdpPcb s).
Definition with_decline (d : list Z) s : dhcpd_state :=
  DhcpdState (leases s) d (server_config s) (payload_out s) (destAddr s) (UdpPcb s).
Definition with_payload p s : dhcpd_state :=
  DhcpdState (leases s) (decline_ip s) (server_config s) p (destAddr s) (UdpPcb s).
Definition with_dest (a : Z) s : dhcpd_state :=
  DhcpdState (leases s) (decline_ip s) (server_config s) (payload_out s) a (UdpPcb s).

Definition mac_eq (a b : bytes) : bool := bool_decide (take 6 a = take 6 b).
Definition zero_mac : bytes := replicate 6 0.
Definition bcast_mac : bytes := replicate 6 0xFF.
Definition is_deleted (l : dhcpOfferedAddr) : bool := negb (Z.land (l_flag l) DELETED =? 0).

(** ** Lookups *)
Fixpoint find_index {A} (f : A -> bool) (l : list A) : option nat :=
  match l with
  | [] => None
  | x :: l => if f x then Some 0%nat else S <$> find_index f l
  end.

Definition DHCPD_FindLeaseByYiaddr c ls (y : Z) : option nat :=
  find_index (fun l => l_yiaddr l =? y) (take (max_leases c) ls).
Definition DHCPD_FindLeaseByChaddr c ls (mac : bytes) : option nat :=
  find_index (fun l => mac_eq (l_chaddr l) mac) (take (max_leases c) ls).
Definition dhcpd_find_decline_ip (d : list Z) (ip : Z) : option nat :=
  find_index (fun x => ip =? x) d.

(** The search of [DHCPD_FindAddress] from the host-order address [addr];
    [arp] is [dhcpd_check_ipaddr_in_arp]. *)
Fixpoint find_address (fuel : nat) c (arp : Z -> bool) ls (addr : Z) : option Z :=
  match fuel with
  | O => None
  | S fuel =>
      if htonl (end_ c) <? addr then Some 0
      else if (Z.land addr 0xFF =? 0) || (Z.land addr 0xFF =? 0xFF) || (addr =? htonl (server c))
              || arp (htonl addr)
      then find_address fuel c arp ls (u32 (addr + 1))
      else
        match DHCPD_FindLeaseByYiaddr c ls (htonl addr) with
        | None => Some (htonl addr)
        | Some _ => find_address fuel c arp ls (u32 (addr + 1))
        end
  end.

Definition DHCPD_FindAddress c (arp : Z -> bool) ls : option Z :=
  let from := htonl (start c) in
  find_address (S (S (Z.to_nat (htonl (end_ c) - from)))) c arp ls from.

Definition dhcpd_find_ipaddr_by_macaddr s (mac : bytes) : Z :=
  match DHCPD_FindLeaseByChaddr (server_config s) (leases s) mac with
  | Some i =>
      let l := leases s !!! i in
      if negb (is_deleted l) && bool_decide (dhcpd_find_decline_ip (decline_ip s) (l_yiaddr l) = None)
      then l_yiaddr l else 0
  | None => 0
  end.

Definition dhcpd_ipaddr_is_valid s (ip : Z) : bool :=
  existsb (fun l => (l_yiaddr l =? ip) && (Z.land (l_flag l) DELETED =? 0))
    (take (max_leases (server_config s)) (leases s)).

Definition mark_deleted (l : dhcpOfferedAddr) : dhcpOfferedAddr :=
  Lease (l_chaddr l) (l_yiaddr l) (Z.lor (l_flag l) DELETED).
Definition clear_deleted (l : dhcpOfferedAddr) : dhcpOfferedAddr :=
  Lease (l_chaddr l) (l_yiaddr l) (Z.ldiff (l_flag l) DELETED).

Definition dhcpd_delete_ipaddr_by_macaddr (mac : bytes) s : dhcpd_state :=
  match DHCPD_FindLeaseByChaddr (server_config s) (leases s) mac with
  | Some i => with_leases (alter mark_deleted i (leases s)) s
  | None => s
  end.

(** ** Replies *)
Definition common_options c : list (Z * bytes) :=
  [(DHCP_SERVER_ID, le 4 (server c));
   (DHCP_LEASE_TIME, le 4 (htonl (lease c)));
   (DHCP_SUBNET, le 4 (mask c));
   (DHCP_ROUTER, le 4 (server c));
   (DHCP_DNS_SERVER, le 4 (server c));
   (DHCP_DOMAIN_NAME, DEFAULT_DOMAIN)].

(** The fields every reply copies from the packet it answers. *)
Definition reply_to p (y si : Z) (sn : bytes) : dhcpd :=
  Dhcpd BOOTREPLY ETH_10MB ETH_10MB_LEN 0 (xid p) 0 (flags p) (ciaddr p) y si (giaddr p)
    (chaddr p) sn (replicate 128 0) (htonl DHCP_MAGIC) (DHCP_END :: replicate 307 0).

Definition make_dhcpd_packet c p (type : Z) : option dhcpd :=
  let r := reply_to p 0 (cfg_siaddr c) (overwrite 0 DEFAULT_SNAME6 (replicate 64 0)) in
  o ← add_options (options r) ((DHCP_MESSAGE_TYPE, [type]) :: common_options c);
  Some (with_options o r).

(** The slot [discover] takes for a new client: the first empty one, else the
    last deleted one. *)
Fixpoint find_slot ls (idx : nat) (deleted : option nat) : nat * option nat :=
  match ls with
  | [] => (idx, deleted)
  | l :: ls =>
      if is_deleted l then find_slot ls (S idx) (Some idx)
      else if mac_eq (l_chaddr l) zero_mac then (idx, None)
      else find_slot ls (S idx) deleted
  end.

Definition new_lease (mac : bytes) (addr : Z) (l : dhcpOfferedAddr) : dhcpOfferedAddr :=
  Lease (overwrite 0 (take 6 mac) (l_chaddr l)) addr (l_flag l).

(** The client's lease after [discover] forgot a declined one, and the table. *)
Definition drop_declined (mac : bytes) s : option nat * dhcpd_state :=
  match DHCPD_FindLeaseByChaddr (server_config s) (leases s) mac with
  | None => (None, s)
  | Some i =>
      match dhcpd_find_decline_ip (decline_ip s) (l_yiaddr (leases s !!! i)) with
      | None => (Some i, s)
      | Some k => (None, with_decline (<[k := 0]> (decline_ip s)) (with_leases (<[i := empty_lease]> (leases s)) s))
      end
  end.

Definition take_slot (mac : bytes) (addr : Z) s : option (nat * dhcpd_state) :=
  let '(idx, deleted) := find_slot (take (max_leases (server_config s)) (leases s)) 0 None in
  if bool_decide (max_leases (server_config s) <= idx)%nat && bool_decide (deleted = None) then None
  else
    let i := default idx deleted in
    Some (i, with_leases (alter (new_lease mac addr) i (leases s)) s).

Definition reply_dest p (y : Z) s : dhcpd_state := if flags p =? 0 then with_dest y s else s.

(** [discover]; the result code is -1 when nothing was offered. *)
Definition discover (arp : Z -> bool) p s : option (Z * dhcpd_state) :=
  if mac_eq (chaddr p) zero_mac || mac_eq (chaddr p) bcast_mac then Some (-1, s)
  else
    addr ← DHCPD_FindAddress (server_config s) arp (leases s);
    let '(found, s1) := drop_declined (chaddr p) s in
    match (match found with Some i => Some (i, s1) | None => take_slot (chaddr p) addr s1 end) with
    | None => Some (-1, s1)
    | Some (i, s2) =>
        let y := l_yiaddr (leases s2 !!! i) in
        r ← make_dhcpd_packet (server_config s2) p DHCPOFFER;
        Some (0, reply_dest p y (with_payload (with_yiaddr y r) s2))
    end.

Definition nak p s : option (Z * dhcpd_state) :=
  let rep := reply_to p 0 0 (replicate 64 0) in
  o ← add_options (options rep)
        [(DHCP_MESSAGE_TYPE, [DHCPNAK]); (DHCP_SERVER_ID, le 4 (server (server_config s)))];
  Some (0, with_payload (with_options o rep) s).

Definition request (lo : locals) p s : option (Z * dhcpd_state) :=
  let c := server_config s in
  '(_, request_addr) ← dhcpd_pickup_opt (encode p) DHCP_REQUESTED_IP (l_request_addr lo);
  let request_addr := unle request_addr in
  match DHCPD_FindLeaseByChaddr (server_config s) (leases s) (chaddr p) with
  | Some i =>
      let l := leases s !!! i in
      if request_addr =? l_yiaddr l then
        let rep := reply_to p (l_yiaddr l) (cfg_siaddr c) (replicate 64 0) in
        o ← add_options (options rep) ((DHCP_MESSAGE_TYPE, [DHCPACK]) :: common_options c);
        Some (0, with_leases (if is_deleted l then alter clear_deleted i (leases s) else leases s)
                   (reply_dest p (l_yiaddr l) (with_payload (with_options o rep) s)))
      else nak p s
  | None => nak p s
  end.

Definition release (lo : locals) p s : option (Z * dhcpd_state) :=
  '(opt, server_id) ← dhcpd_pickup_opt (encode p) DHCP_SERVER_ID (l_server_id lo);
  match opt with
  | None => Some (-1, s)
  | Some _ =>
      if server (server_config s) =? unle server_id
      then Some (0, dhcpd_delete_ipaddr_by_macaddr (chaddr p) s) else Some (0, s)
  end.

Definition decline (lo : locals) p s : option (Z * dhcpd_state) :=
  '(opt, server_id) ← dhcpd_pickup_opt (encode p) DHCP_SERVER_ID (l_server_id lo);
  match opt with
  | None => Some (-1, s)
  | Some _ =>
      '(opt, requested_ip) ← dhcpd_pickup_opt (encode p) DHCP_REQUESTED_IP (l_requested_ip lo);
      match opt with
      | None => Some (-1, s)
      | Some _ =>
          if (server (server_config s) =? unle server_id)
             && bool_decide (dhcpd_find_decline_ip (decline_ip s) (unle requested_ip) = None)
          then
            match dhcpd_find_decline_ip (decline_ip s) 0 with
            | Some k => Some (0, with_decline (<[k := unle requested_ip]> (decline_ip s)) s)
            | None => Some (0, s)
            end
          else Some (0, s)
      end
  end.

(** Bits 16 to 23 of an address: its third octet. *)
Definition octet3 (a : Z) : Z := Z.land (Z.shiftr a 16) 0xFF.

(** The result says whether a reply is to be sent. *)
Definition dhcp_process (arp : Z -> bool) (lo : locals) p s : option (bool * dhcpd_state) :=
  '(opt, type) ← dhcpd_pickup_opt (encode p) DHCP_MESSAGE_TYPE (l_type lo);
  match opt with
  | None => Some (false, s)
  | Some _ =>
      let type := unle type in
      let si := cfg_siaddr (server_config s) in
      if type =? DHCPDISCOVER then '(_, s') ← discover arp p s; Some (true, s')
      else if type =? DHCPREQUEST then
        if negb (ciaddr p =? 0) && negb (octet3 (ciaddr p) =? octet3 si) then Some (false, s)
        else
          '(opt, s_addr) ← dhcpd_pickup_opt (encode p) DHCP_REQUESTED_IP (l_s_addr lo);
          if bool_decide (opt <> None) && negb (octet3 si =? octet3 (unle s_addr)) then Some (false, s)
          else '(_, s') ← request lo p s; Some (true, s')
      else if type =? DHCPRELEASE then '(_, s') ← release lo p s; Some (false, s')
      else if type =? DHCPDECLINE then '(_, s') ← decline lo p s; Some (false, s')
      else Some (false, s)
  end.

(** [UDP_Receive] of one packet: the datagram sent, with its destination.
    [alloc_ok]: [pbuf_alloc] succeeded. *)
Definition UDP_Receive (arp : Z -> bool) (lo : locals) (alloc_ok : bool) p s
    : option (option (dhcpd * Z) * dhcpd_state) :=
  '(reply, s') ← dhcp_process arp lo p (with_dest (htonl IPADDR_BROADCAST) s);
  Some (if reply && alloc_ok then Some (payload_out s', destAddr s') else None, s').

(** ** Starting and stopping *)
Definition init_config (n : netif) : server_config_t :=
  let at_ k := htonl (u32 (htonl (ip_addr n) + k)) in
  ServerConfig (gw n) (netmask n) (at_ 1) (at_ (1 + Z.of_nat DHCPD_MAX_LEASES)) DEFAULT_LEASE_TIME
    DHCPD_MAX_LEASES (at_ (1 + Z.of_nat DHCPD_MAX_LEASES + 1)).

Definition dhcpd_daemon (n : netif) s : dhcpd_state :=
  match UdpPcb s with
  | Some _ => s
  | None =>
      DhcpdState
        ((fun l => if mac_eq (l_chaddr l) zero_mac then l else mark_deleted l) <$> leases s)
        (replicate DECLINE_IP_MAX 0) (init_config n) (payload_out s) (destAddr s) (Some (nif_index n))
  end.

Definition stop_dhcpd_daemon (idx : Z) s : Z * dhcpd_state :=
  match UdpPcb s with
  | Some i =>
      if i =? idx then
        (0, DhcpdState (leases s) (decline_ip s) (server_config s) (payload_out s) (destAddr s) None)
      else (-1, s)
  | None => (0, s)
  end.

Inductive dhcpd_event :=
  | Packet (arp : Z -> bool) (lo : locals) (alloc_ok : bool) (p : dhcpd)
  | DeleteMac (mac : bytes)
  | StartDaemon (n : netif)
  | StopDaemon (idx : Z).

(** The receive callback runs only while the control block is bound. *)
Definition dhcpd_step (e : dhcpd_event) s : option (option (dhcpd * Z) * dhcpd_state) :=
  match e with
  | Packet arp lo ok p =>
      match UdpPcb s with Some _ => UDP_Receive arp lo ok p s | None => Some (None, s) end
  | DeleteMac mac => Some (None, dhcpd_delete_ipaddr_by_macaddr mac s)
  | StartDaemon n => Some (None, dhcpd_daemon n s)
  | StopDaemon i => Some (None, (stop_dhcpd_daemon i s).2)
  end.
End server.

(** ** Options: what is written can be read *)
Section options.
Implicit Types (os : list (Z * bytes)) (rest hdr mem pre : bytes).

Definition tlv (o : Z * bytes) : bytes := o.1 :: Z.of_nat (length o.2) :: o.2.
Definition tlvs os : bytes := concat (tlv <$> os).

(** Codes other than padding, overload and end; one byte of length. *)
Definition opt_ok (o : Z * bytes) : Prop :=
  o.1 <> DHCP_PADDING /\ o.1 <> DHCP_OPTION_OVER /\ o.1 <> DHCP_END.

Fixpoint assoc (code : Z) os : option bytes :=
  match os with
  | [] => None
  | (c, d) :: os => if c =? code then Some d else assoc code os
  end.

Lemma tlvs_cons o os : tlvs (o :: os) = tlv o ++ tlvs os.
Proof. done. Qed.

Lemma tlvs_app os os' : tlvs (os ++ os') = tlvs os ++ tlvs os'.
Proof. unfold tlvs. by rewrite fmap_app, concat_app. Qed.

Lemma length_tlvs os : (2 * length os <= length (tlvs os))%nat.
Proof.
  induction os as [|o os IH]; [done|]. rewrite tlvs_cons, length_app. unfold tlv. simpl. lia.
Qed.

Lemma rd_app_r mem1 mem2 (k : nat) a :
  a = Z.of_nat (length mem1 + k) -> rd (mem1 ++ mem2) a = mem2 !! k.
Proof.
  intros ->. unfold rd. rewrite Nat2Z.id, lookup_app_r by lia. f_equal. lia.
Qed.

Lemma rd_0 hdr mem : rd (hdr ++ mem) (Z.of_nat (length hdr)) = mem !! 0%nat.
Proof. apply rd_app_r. lia. Qed.

Lemma rd_1 hdr mem : rd (hdr ++ mem) (Z.of_nat (length hdr) + 1) = mem !! 1%nat.
Proof. apply rd_app_r. lia. Qed.

Lemma find_end_tlvs hdr os rest fuel :
  Forall opt_ok os -> (length os < fuel)%nat ->
  find_end fuel (hdr ++ tlvs os ++ DHCP_END :: rest) (Z.of_nat (length hdr))
  = Some (Z.of_nat (length hdr + length (tlvs os))).
Proof.
  intros Hok. revert hdr fuel. induction Hok as [|[c d] os (H1 & H2 & H3) _ IH]; intros hdr [|fuel] Hf;
    simpl in Hf; try lia; cbn [find_end].
  - rewrite rd_0. cbn. do 2 f_equal. lia.
  - rewrite tlvs_cons. unfold tlv; cbn [fst snd] in *. rewrite <- app_assoc. cbn [app].
    rewrite rd_0. cbn [lookup list_lookup mbind option_bind].
    rewrite !(proj2 (Z.eqb_neq _ _)) by done.
    rewrite rd_1. cbn [lookup list_lookup mbind option_bind].
    specialize (IH (hdr ++ c :: Z.of_nat (length d) :: d) fuel ltac:(lia)).
    rewrite <- app_assoc in IH. cbn [app] in IH. rewrite length_app in IH. cbn [length] in IH.
    replace (Z.of_nat (length hdr) + Z.of_nat (length d) + 2)
      with (Z.of_nat (length hdr + S (S (length d)))) by lia.
    rewrite IH. f_equal. cbn [length]. rewrite length_app. lia.
Qed.

Lemma add_option_tlvs os rest code d :
  Forall opt_ok os -> (length (tlvs os) + 1 + length rest = 308)%nat ->
  (length (tlvs os) + length d + 3 < 308)%nat ->
  dhcpd_add_option (tlvs os ++ DHCP_END :: rest) code d
  = Some (Z.of_nat (length d) + 2,
          tlvs (os ++ [(code, d)]) ++ DHCP_END :: drop (length d + 2) rest).
Proof.
  intros Hok Hlen Hfit. unfold dhcpd_add_option. pose proof (length_tlvs os).
  pose proof (find_end_tlvs [] os rest 309 Hok ltac:(lia)) as E. cbn [app length] in E.
  change (Z.of_nat 0) with 0 in E. rewrite E. cbn [mbind option_bind Nat.add].
  rewrite (proj2 (Z.leb_gt _ _)) by lia. do 2 f_equal. rewrite Nat2Z.id. unfold overwrite.
  rewrite take_app_length, tlvs_app. replace (tlvs [(code, d)]) with (code :: Z.of_nat (length d) :: d) by
    (unfold tlvs, tlv; cbn; by rewrite app_nil_r). rewrite <- !app_assoc. f_equal. cbn [app]. do 4 f_equal.
  rewrite drop_app_ge by lia. replace (length (tlvs os) + _ - length (tlvs os))%nat
    with (S (length d + 2)) by (cbn [length app]; rewrite length_app; cbn [length]; lia).
  done.
Qed.

Lemma add_options_tlvs os' os rest :
  Forall opt_ok os -> Forall opt_ok os' -> (length (tlvs os) + 1 + length rest = 308)%nat ->
  (length (tlvs (os ++ os')) + 1 < 308)%nat ->
  exists rest', add_options (tlvs os ++ DHCP_END :: rest) os' = Some (tlvs (os ++ os') ++ DHCP_END :: rest')
    /\ (length (tlvs (os ++ os')) + 1 + length rest' = 308)%nat.
Proof.
  intros Hok Hok'. revert os rest Hok. induction Hok' as [|[c d] os' Ho _ IH]; intros os rest Hok Hl Hf.
  { exists rest. by rewrite app_nil_r. }
  cbn [add_options].
  assert (Ecat : os ++ (c, d) :: os' = (os ++ [(c, d)]) ++ os') by (by rewrite <- app_assoc).
  rewrite Ecat in *.
  assert (Hl1 : length (tlvs (os ++ [(c, d)])) = (length (tlvs os) + length d + 2)%nat).
  { rewrite tlvs_app, length_app. cbn. rewrite app_nil_r. lia. }
  assert (Hle : (length (tlvs (os ++ [(c, d)])) <= length (tlvs ((os ++ [(c, d)]) ++ os')))%nat).
  { rewrite (tlvs_app _ os'), length_app. lia. }
  rewrite add_option_tlvs by (done || lia). cbn [mbind option_bind snd].
  destruct (IH (os ++ [(c, d)]) (drop (length d + 2) rest)) as (rest' & E & Hr); [| |done|].
  - apply Forall_app_2; [done|]. by apply Forall_cons_2.
  - rewrite length_drop. lia.
  - by exists rest'.
Qed.

Lemma slice_mid {A} (l1 d l2 : list A) : slice (length l1) (length d) (l1 ++ d ++ l2) = d.
Proof. unfold slice. by rewrite drop_app_length, take_app_length. Qed.

Lemma pickup_tlvs hdr os rest code dest over fuel pre :
  length hdr = 240%nat -> Forall opt_ok os -> code <> DHCP_END -> code <> DHCP_PADDING ->
  Z.testbit over 0 = false -> (length pre + length (tlvs os) < 308)%nat -> (length os < fuel)%nat ->
  exists ptr,
    pickup_loop fuel (hdr ++ pre ++ tlvs os ++ DHCP_END :: rest) code dest OPTION_FIELD over
      (Z.of_nat (length pre))
    = Some (match assoc code os with
            | Some d => if Z.of_nat (length dest) <? Z.of_nat (length d) then (None, dest)
                        else (Some ptr, overwrite 0 d dest)
            | None => (None, dest)
            end).
Proof.
  intros Hh Hok Hend Hpad Hover. revert pre fuel.
  induction Hok as [|[c d] os (H1 & H2 & H3) _ IH]; intros pre [|fuel] Hlen Hf; simpl in Hf; try lia;
    cbn [pickup_loop field_base field_length assoc]; rewrite (proj2 (Z.leb_gt _ _)) by lia;
    replace (240 + Z.of_nat (length pre)) with (Z.of_nat (length (hdr ++ pre))) by (rewrite length_app; lia);
    rewrite (app_assoc hdr), rd_0.
  - cbn [tlvs fmap list_fmap concat app lookup list_lookup mbind option_bind].
    rewrite (proj2 (Z.eqb_neq DHCP_END code)) by done. cbn -[Z.testbit]. rewrite Hover. by exists 0.
  - rewrite tlvs_cons, length_app in Hlen. unfold tlv in Hlen. cbn [fst snd length] in *.
    rewrite tlvs_cons, rd_1. unfold tlv. cbn [fst snd app lookup list_lookup mbind option_bind].
    destruct (Z.eqb_spec c code) as [->|Hc].
    + rewrite (proj2 (Z.leb_gt _ _)) by lia. destruct (Z.ltb_spec (Z.of_nat (length dest)) (Z.of_nat (length d)));
        [by exists 0|].
      eexists. do 4 f_equal. rewrite Nat2Z.id.
      replace (Z.to_nat _) with (length ((hdr ++ pre) ++ [code; Z.of_nat (length d)]))
        by (rewrite !length_app in *; cbn [length]; lia).
      etrans; [|apply (slice_mid ((hdr ++ pre) ++ [code; Z.of_nat (length d)]) d (tlvs os ++ DHCP_END :: rest))].
      f_equal. by rewrite <- !app_assoc.
    + rewrite (proj2 (Z.eqb_neq c DHCP_PADDING)), (proj2 (Z.eqb_neq c DHCP_OPTION_OVER)),
        (proj2 (Z.eqb_neq c DHCP_END)) by done.
      destruct (IH (pre ++ c :: Z.of_nat (length d) :: d) fuel) as [ptr E];
        [rewrite length_app; cbn [length]; lia|lia|].
      exists ptr. rewrite <- E. rewrite <- !app_assoc. cbn [app]. rewrite <- ?app_assoc. f_equal.
      rewrite !length_app. cbn [length]. lia.
Qed.

(** A packet whose array fields have the sizes of the structure. *)
Definition packet_ok (p : dhcpd) : Prop :=
  length (chaddr p) = 16%nat /\ length (sname p) = 64%nat /\ length (file p) = 128%nat /\
  length (options p) = 308%nat.

Lemma encode_options p : packet_ok p ->
  exists hdr, length hdr = 240%nat /\ forall o, encode (with_options o p) = hdr ++ o.
Proof.
  intros (H1 & H2 & H3 & _).
  exists ([op p; htype p; hlen p; hops p] ++ le 4 (xid p) ++ le 2 (secs p) ++ le 2 (flags p)
    ++ le 4 (ciaddr p) ++ le 4 (yiaddr p) ++ le 4 (siaddr p) ++ le 4 (giaddr p)
    ++ chaddr p ++ sname p ++ file p ++ le 4 (cookie p)).
  split; [|intros o; unfold encode, with_options; cbn [op htype hlen hops xid secs flags ciaddr yiaddr
    siaddr giaddr chaddr sname file cookie options]; by rewrite <- !app_assoc].
  rewrite !length_app, !length_le, H1, H2, H3. done.
Qed.

Lemma add_options_empty os : Forall opt_ok os -> (length (tlvs os) + 1 < 308)%nat ->
  exists rest, add_options (DHCP_END :: replicate 307 0) os = Some (tlvs os ++ DHCP_END :: rest) /\
    (length (tlvs os) + 1 + length rest = 308)%nat.
Proof.
  intros Hok Hf. apply (add_options_tlvs os [] (replicate 307 0)); [constructor|done|done|done].
Qed.

End options.

(** ** The option parser stops, and how far it reads *)
Definition extra (f : field) : nat :=
  match f with OPTION_FIELD => 194 | FILE_FIELD => 65 | SNAME_FIELD => 0 end.

Lemma rd_some mem a : 0 <= a < Z.of_nat (length mem) -> bytes_ok mem ->
  exists b, rd mem a = Some b /\ 0 <= b < 256.
Proof.
  intros Ha Hm. unfold rd. destruct (lookup_lt_is_Some_2 mem (Z.to_nat a)) as [b Hb]; [lia|].
  exists b. split; [done|]. exact (Forall_lookup_1 _ _ _ _ Hm Hb).
Qed.

Lemma pickup_total mem code dest fuel curr over i :
  bytes_ok mem -> 550 <= Z.of_nat (length mem) -> 0 <= i ->
  (Z.to_nat (field_length curr - i) + extra curr < fuel)%nat ->
  is_Some (pickup_loop fuel mem code dest curr over i).
Proof.
  intros Hm Hl. revert curr over i. induction fuel as [|fuel IH]; intros curr over i Hi Hf; [lia|].
  cbn [pickup_loop]. destruct (Z.leb_spec (field_length curr) i); [done|].
  assert (Hread : forall k, 0 <= k <= 1 -> exists b, rd mem (field_base curr + i + k) = Some b /\ 0 <= b < 256)
    by (intros k Hk; apply rd_some; [destruct curr; simpl in *; lia|done]).
  destruct (Hread 0 ltac:(lia)) as (b & Hb & _). rewrite Z.add_0_r in Hb. rewrite Hb.
  destruct (Hread 1 ltac:(lia)) as (n & Hn & Hn0). rewrite Hn. cbn [mbind option_bind].
  repeat case_match; try done.
  - apply IH; lia.
  - destruct (rd_some mem (field_base curr + i + 3)) as (o & Ho & _); [destruct curr; simpl in *; lia|done|].
    destruct (rd_some mem (field_base curr + 1)) as (n0 & Hn1 & Hn2); [destruct curr; simpl in *; lia|done|].
    rewrite Ho, Hn1. apply IH; lia.
  - apply IH; simpl in *; lia.
  - apply IH; simpl in *; lia.
  - apply IH; lia.
Qed.


(** the option parser always returns, and reads at most two bytes past
    the 548-byte packet. *)
Theorem dhcpd_pickup_opt_terminates mem code dest :
  bytes_ok mem -> 550 <= Z.of_nat (length mem) -> is_Some (dhcpd_pickup_opt mem code dest).
Proof.
  intros Hm Hl. unfold dhcpd_pickup_opt, PICKUP_FUEL. apply pickup_total; [done|done|lia|].
  cbn [field_length extra]. lia.
Qed.

(** A received packet that makes the parser read past its end: padding up to
    the last byte, which is an option code. *)
Definition overreading_packet : dhcpd := with_options (replicate 307 0 ++ [DHCP_SUBNET]) zero_packet.

Lemma dhcpd_pickup_opt_overreads :
  packet_ok overreading_packet /\ dhcpd_pickup_opt (encode overreading_packet) DHCP_MESSAGE_TYPE [0] = None.
Proof. split; [done|by vm_compute]. Qed.

(** ** Addresses *)
Lemma htonl_u32 x : is_u32 (htonl x).
Proof.
  unfold htonl. pose proof (unle_range (reverse (le 4 x))) as Hr.
  rewrite length_reverse, length_le in Hr. apply Hr. apply Forall_reverse, le_ok.
Qed.

Lemma htonl_involutive x : is_u32 x -> htonl (htonl x) = x.
Proof.
  intros Hx. unfold htonl at 1. unfold htonl.
  assert (Hb : bytes_ok (reverse (le 4 x))) by (apply Forall_reverse, le_ok).
  pose proof (le_unle _ Hb) as E. rewrite length_reverse, length_le in E. rewrite E, reverse_involutive.
  apply unle_le. exact Hx.
Qed.

Lemma htonl_inj x y : is_u32 x -> is_u32 y -> htonl x = htonl y -> x = y.
Proof. intros Hx Hy E. rewrite <- (htonl_involutive x Hx), <- (htonl_involutive y Hy). by f_equal. Qed.

(** The addresses the server may hand out. *)
Definition in_pool (c : server_config_t) (y : Z) : Prop :=
  exists a, htonl (start c) <= a <= htonl (end_ c) /\ y = htonl a /\
    Z.land a 0xFF <> 0 /\ Z.land a 0xFF <> 0xFF /\ a <> htonl (server c).

Lemma in_pool_ne_0 c y : in_pool c y -> y <> 0.
Proof.
  intros (a & Ha & -> & Hl & _). intros E. apply Hl.
  assert (Hau : is_u32 a).
  { pose proof (htonl_u32 (start c)). pose proof (htonl_u32 (end_ c)). unfold in_width in *. lia. }
  assert (a = 0) as -> by (apply htonl_inj; [done|unfold in_width; lia|exact E]). done.
Qed.

Lemma find_index_some {A} (f : A -> bool) l i :
  find_index f l = Some i -> exists x, l !! i = Some x /\ f x = true.
Proof.
  revert i. induction l as [|x l IH]; intros i; cbn [find_index]; [done|].
  destruct (f x) eqn:E; [intros [= <-]; by exists x|].
  destruct (find_index f l) as [j|]; [|done]. intros [= <-]. by apply IH.
Qed.

Lemma find_index_none {A} (f : A -> bool) l i x :
  find_index f l = None -> l !! i = Some x -> f x = false.
Proof.
  revert i. induction l as [|y l IH]; intros i; cbn [find_index]; [done|].
  destruct (f y) eqn:E; [done|]. destruct (find_index f l) as [j|] eqn:Ej; [done|].
  destruct i as [|i]; intros _ Hl; [by injection Hl as <-|]. by eapply IH.
Qed.

(** The scan has not run into the top of the address space. *)
Definition config_ok (c : server_config_t) : Prop := htonl (end_ c) < 2 ^ 32 - 1.

Lemma find_address_spec fuel c arp ls addr y :
  config_ok c -> htonl (start c) <= addr -> find_address fuel c arp ls addr = Some y ->
  y = 0 \/ (in_pool c y /\ arp y = false /\ DHCPD_FindLeaseByYiaddr c ls y = None).
Proof.
  intros Hc. revert addr. induction fuel as [|fuel IH]; intros addr Ha; cbn [find_address]; [done|].
  destruct (Z.ltb_spec (htonl (end_ c)) addr); [intros [= <-]; by left|].
  pose proof (htonl_u32 (start c)). unfold config_ok, in_width in *.
  rewrite (u32_small (addr + 1)) by (unfold in_width; lia).
  destruct (_ || _ || _ || _) eqn:E; [apply IH; lia|].
  destruct (DHCPD_FindLeaseByYiaddr c ls (htonl addr)) eqn:El; [apply IH; lia|]. intros [= <-]. right.
  rewrite !orb_false_iff, !Z.eqb_neq in E. destruct E as [[[E1 E2] E3] E4].
  split; [|done]. exists addr. split_and!; done || lia.
Qed.

Lemma find_address_total c arp ls addr fuel :
  config_ok c -> 0 <= addr -> (Z.to_nat (htonl (end_ c) - addr) + 2 <= fuel)%nat ->
  is_Some (find_address fuel c arp ls addr).
Proof.
  intros Hc. revert addr. induction fuel as [|fuel IH]; intros addr Ha Hf; [lia|]. cbn [find_address].
  destruct (Z.ltb_spec (htonl (end_ c)) addr); [done|]. unfold config_ok in Hc.
  rewrite (u32_small (addr + 1)) by (unfold in_width; lia).
  destruct (Z.eq_dec addr (htonl (end_ c))) as [Heq|Hne].
  - destruct fuel as [|fuel]; [lia|]. cbn [find_address].
    destruct (Z.ltb_spec (htonl (end_ c)) (addr + 1)); [|lia]. by repeat case_match.
  - repeat case_match; try done; apply IH; lia.
Qed.

(** A free address is found when there is one. *)
Lemma find_address_finds c arp ls addr fuel a :
  config_ok c -> 0 <= addr <= a -> a <= htonl (end_ c) ->
  (Z.to_nat (htonl (end_ c) - addr) + 2 <= fuel)%nat ->
  in_pool c (htonl a) -> arp (htonl a) = false -> DHCPD_FindLeaseByYiaddr c ls (htonl a) = None ->
  exists y, find_address fuel c arp ls addr = Some y /\ y <> 0.
Proof.
  intros Hc. revert addr. induction fuel as [|fuel IH]; intros addr Ha He Hf Hp Harp Hfree; [lia|].
  pose proof (htonl_u32 (end_ c)) as Hu. unfold in_width, config_ok in *.
  assert (Hskip : addr <> a -> exists y, find_address fuel c arp ls (u32 (addr + 1)) = Some y /\ y <> 0).
  { intros Hne. rewrite (u32_small (addr + 1)) by (unfold in_width; lia). apply IH; done || lia. }
  cbn [find_address]. rewrite (proj2 (Z.ltb_ge _ _)) by lia.
  assert (Hat : addr = a -> (Z.land addr 0xFF =? 0) || (Z.land addr 0xFF =? 0xFF)
                           || (addr =? htonl (server c)) || arp (htonl addr) = false).
  { intros ->. rewrite Harp. destruct Hp as (a' & Ha' & Ea & P1 & P2 & P3).
    apply htonl_inj in Ea as <-; [|unfold in_width; lia|unfold in_width; pose proof (htonl_u32 (start c)); unfold in_width in *; lia].
    by rewrite !(proj2 (Z.eqb_neq _ _)) by done. }
  destruct (_ || _ || _ || _) eqn:Eskip.
  - apply Hskip. intros E. by apply Hat in E.
  - destruct (DHCPD_FindLeaseByYiaddr c ls (htonl addr)) eqn:El.
    + apply Hskip. intros E. by rewrite E, Hfree in El.
    + eexists. split; [done|]. rewrite !orb_false_iff, !Z.eqb_neq in Eskip.
      intros E. destruct Eskip as [[[E1 _] _] _]. apply E1.
      assert (addr = 0) as -> by (apply htonl_inj; [unfold in_width; lia|unfold in_width; lia|exact E]). done.
Qed.

(** ** The lease table *)
Definition mac (l : dhcpOfferedAddr) : bytes := take 6 (l_chaddr l).

Record leases_ok (c : server_config_t) (ls : list dhcpOfferedAddr) : Prop := LeasesOk {
  lk_addr i j l l' : ls !! i = Some l -> ls !! j = Some l' -> i <> j ->
    l_yiaddr l = l_yiaddr l' -> l_yiaddr l = 0;
  lk_mac i j l l' : ls !! i = Some l -> ls !! j = Some l' -> i <> j ->
    mac l = mac l' -> mac l = zero_mac;
  lk_pool i l : ls !! i = Some l -> l_yiaddr l = 0 \/ in_pool c (l_yiaddr l);
  lk_zero i l : ls !! i = Some l -> mac l = zero_mac -> l_yiaddr l = 0;
  lk_len i l : ls !! i = Some l -> length (l_chaddr l) = 16%nat;
}.

Lemma alter_insert {A} (f : A -> A) (ls : list A) i x :
  ls !! i = Some x -> alter f i ls = <[i := f x]> ls.
Proof.
  intros Hx. apply list_eq. intros j. destruct (decide (i = j)) as [->|Hne].
  - rewrite list_lookup_alter_eq, Hx, list_lookup_insert_eq; [done|]. by eapply lookup_lt_Some.
  - by rewrite list_lookup_alter_ne, list_lookup_insert_ne by done.
Qed.

(** Replacing one entry. *)
Lemma leases_ok_insert c ls i l' :
  leases_ok c ls -> (i < length ls)%nat -> length (l_chaddr l') = 16%nat ->
  (l_yiaddr l' = 0 \/ in_pool c (l_yiaddr l') /\ mac l' <> zero_mac /\
    forall j l, ls !! j = Some l -> i <> j -> l_yiaddr l <> l_yiaddr l') ->
  (mac l' = zero_mac \/ forall j l, ls !! j = Some l -> i <> j -> mac l <> mac l') ->
  leases_ok c (<[i := l']> ls).
Proof.
  intros [H1 H2 H3 H4 H5] Hi Hl Hy Hm.
  assert (Hcase : forall j l, <[i := l']> ls !! j = Some l -> (j = i /\ l = l') \/ (j <> i /\ ls !! j = Some l)).
  { intros j l. destruct (decide (i = j)) as [<-|Hne].
    - rewrite list_lookup_insert_eq by done. intros [= <-]. by left.
    - rewrite list_lookup_insert_ne by done. by right. }
  split.
  - intros j k l1 l2 [[-> ->]|[Hj E1]]%Hcase [[-> ->]|[Hk E2]]%Hcase Hjk E; [done| | |by eapply H1].
    + destruct Hy as [Hy|(_ & _ & Hy)]; [done|]. by destruct (Hy k l2 E2 ltac:(done)).
    + destruct Hy as [Hy|(_ & _ & Hy)]; [congruence|]. by destruct (Hy j l1 E1 ltac:(done)).
  - intros j k l1 l2 [[-> ->]|[Hj E1]]%Hcase [[-> ->]|[Hk E2]]%Hcase Hjk E; [done| | |by eapply H2].
    + destruct Hm as [Hm|Hm]; [done|]. by destruct (Hm k l2 E2 ltac:(done)).
    + destruct Hm as [Hm|Hm]; [congruence|]. by destruct (Hm j l1 E1 ltac:(done)).
  - intros j l [[-> ->]|[Hj E1]]%Hcase; [tauto|by eapply H3].
  - intros j l [[-> ->]|[Hj E1]]%Hcase; [tauto|by eapply H4].
  - intros j l [[-> ->]|[Hj E1]]%Hcase; [done|by eapply H5].
Qed.

(** Changing only the flag of an entry. *)
Lemma leases_ok_flag c ls i (f : dhcpOfferedAddr -> dhcpOfferedAddr) :
  (forall l, l_chaddr (f l) = l_chaddr l /\ l_yiaddr (f l) = l_yiaddr l) ->
  leases_ok c ls -> leases_ok c (alter f i ls).
Proof.
  intros Hf Hok. destruct (ls !! i) as [l|] eqn:E.
  - rewrite (alter_insert f ls i l E). destruct (Hf l) as [Ec Ey]. unfold mac in *.
    apply leases_ok_insert; [done|by eapply lookup_lt_Some| | |]; unfold mac; rewrite ?Ec, ?Ey.
    + by eapply lk_len.
    + destruct (decide (l_yiaddr l = 0)) as [Hz|Hz]; [by left|right].
      destruct (lk_pool _ _ Hok i l E) as [|Hp]; [done|]. split; [done|]. split.
      * intros Hm. by apply Hz, (lk_zero _ _ Hok i l).
      * intros j l' E' Hne Heq. apply Hz. by apply (lk_addr _ _ Hok i j l l').
    + destruct (decide (take 6 (l_chaddr l) = zero_mac)) as [Hz|Hz]; [by left|right].
      intros j l' E' Hne Heq. apply Hz. by apply (lk_mac _ _ Hok i j l l').
  - replace (alter f i ls) with ls; [done|]. apply list_eq. intros j.
    destruct (decide (i = j)) as [->|]; [by rewrite list_lookup_alter_eq, E|by rewrite list_lookup_alter_ne].
Qed.

Lemma find_chaddr_some c ls m i :
  DHCPD_FindLeaseByChaddr c ls m = Some i -> exists l, ls !! i = Some l /\ mac l = take 6 m.
Proof.
  intros (l & El & Hl)%find_index_some. apply lookup_take_Some in El as [El _].
  apply bool_decide_eq_true in Hl. by exists l.
Qed.

Lemma find_chaddr_none c ls m i l : max_leases c = length ls ->
  DHCPD_FindLeaseByChaddr c ls m = None -> ls !! i = Some l -> mac l <> take 6 m.
Proof.
  intros Hc Hf El. unfold DHCPD_FindLeaseByChaddr in Hf. rewrite Hc, firstn_all in Hf.
  pose proof (find_index_none _ _ _ _ Hf El) as E. unfold mac_eq in E. by apply bool_decide_eq_false in E.
Qed.

Lemma find_yiaddr_none c ls y i l : max_leases c = length ls ->
  DHCPD_FindLeaseByYiaddr c ls y = None -> ls !! i = Some l -> l_yiaddr l <> y.
Proof.
  intros Hc Hf El. unfold DHCPD_FindLeaseByYiaddr in Hf. rewrite Hc, firstn_all in Hf.
  pose proof (find_index_none _ _ _ _ Hf El) as E. cbn in E. by apply Z.eqb_neq in E.
Qed.

(** What the slot search returns. *)
Lemma find_slot_spec ls k del idx del' :
  find_slot ls k del = (idx, del') ->
  (del' = None /\ idx = (k + length ls)%nat /\ del = None /\
    forall j l, ls !! j = Some l -> is_deleted l = false /\ mac l <> zero_mac) \/
  (del' = None /\ exists j l, idx = (k + j)%nat /\ ls !! j = Some l /\ is_deleted l = false /\ mac l = zero_mac) \/
  (exists d, del' = Some d /\ idx = (k + length ls)%nat /\
    (del = Some d \/ exists j l, d = (k + j)%nat /\ ls !! j = Some l /\ is_deleted l = true)).
Proof.
  revert k del. induction ls as [|l ls IH]; intros k del; cbn [find_slot].
  { intros [= <- <-]. destruct del as [d|]; [right; right; exists d|left]; split_and!; try done; try (simpl; lia); by left. }
  destruct (is_deleted l) eqn:Ed; [intros E%IH|destruct (mac_eq (l_chaddr l) zero_mac) eqn:Em; [intros [= <- <-]|intros E%IH]].
  - destruct E as [(_ & _ & E & _)|[(-> & j & l' & -> & E)|(d & -> & -> & [[= <-]|(j & l' & -> & E)])]]; [done| | |].
    + right; left. split; [done|]. exists (S j), l'. split; [lia|done].
    + right; right. exists k. split_and!; [done|simpl; lia|]. right. exists 0%nat, l. split_and!; [lia|done|done].
    + right; right. exists (S k + j)%nat. split_and!; [done|simpl; lia|]. right. exists (S j), l'. split; [lia|done].
  - right; left. split; [done|]. exists 0%nat, l. apply bool_decide_eq_true in Em. split_and!; [lia|done|done|done].
  - destruct E as [(-> & -> & -> & E)|[(-> & j & l' & -> & E)|(d & -> & -> & [->|(j & l' & -> & E)])]].
    + left. split_and!; try done; [simpl; lia|]. apply bool_decide_eq_false in Em.
      intros [|j] l' Hj; [injection Hj as <-; done|by apply (E j)].
    + right; left. split; [done|]. exists (S j), l'. split; [lia|done].
    + right; right. exists d. split_and!; [done|simpl; lia|by left].
    + right; right. exists (S k + j)%nat. split_and!; [done|simpl; lia|]. right. exists (S j), l'. split; [lia|done].
Qed.

(** ** One interface: the server's invariant *)
Section invariant.
Context (DHCPD_MAX_LEASES DECLINE_IP_MAX : nat) (n0 : netif).
Abbreviation c0 := (init_config DHCPD_MAX_LEASES n0).
(** The pool ends before the top of the address space. *)
Hypothesis pool_top : htonl (ip_addr n0) + Z.of_nat DHCPD_MAX_LEASES + 2 < 2 ^ 32 - 1.
Implicit Types (s : dhcpd_state) (p : dhcpd).

Lemma config_ok_c0 : config_ok c0.
Proof.
  unfold config_ok, init_config. cbn [end_]. rewrite htonl_involutive by apply u32_range.
  pose proof (htonl_u32 (ip_addr n0)). unfold in_width in *. rewrite u32_small by (unfold in_width; lia). lia.
Qed.

Definition inv s : Prop :=
  leases_ok c0 (leases s) /\ length (leases s) = DHCPD_MAX_LEASES /\
  (UdpPcb s <> None -> server_config s = c0) /\ length (decline_ip s) = DECLINE_IP_MAX.

(** While the server runs, every entry of the table is searched. *)
Lemma running_config s : inv s -> UdpPcb s <> None ->
  server_config s = c0 /\ max_leases (server_config s) = length (leases s).
Proof. intros (_ & Hl & Hc & _) Hu. rewrite (Hc Hu). by rewrite Hl. Qed.

Lemma initial_inv : inv (initial_state DHCPD_MAX_LEASES DECLINE_IP_MAX).
Proof.
  unfold inv, initial_state. cbn [leases UdpPcb decline_ip]. rewrite !length_replicate.
  split_and!; [|done|done|done].
  split; [intros i j l l' [-> _]%lookup_replicate|intros i j l l' [-> _]%lookup_replicate
    |intros i l [-> _]%lookup_replicate; by left|intros i l [-> _]%lookup_replicate; done
    |intros i l [-> _]%lookup_replicate; done]; done.
Qed.

Lemma delete_inv s m : inv s -> inv (dhcpd_delete_ipaddr_by_macaddr m s).
Proof.
  intros (Hok & Hl & Hc & Hd). unfold dhcpd_delete_ipaddr_by_macaddr.
  destruct (DHCPD_FindLeaseByChaddr _ _ _); [|done]. unfold inv. cbn [with_leases leases UdpPcb server_config decline_ip].
  rewrite length_alter. split_and!; try done. by apply leases_ok_flag.
Qed.

Lemma daemon_inv s : inv s -> inv (dhcpd_daemon DHCPD_MAX_LEASES DECLINE_IP_MAX n0 s).
Proof.
  intros Hinv. pose proof Hinv as (Hok & Hl & Hc & Hd). unfold dhcpd_daemon. destruct (UdpPcb s) eqn:E; [done|].
  unfold inv. cbn [leases UdpPcb server_config decline_ip]. rewrite length_fmap, length_replicate. split_and!; try done.
  set (f := fun l => if mac_eq (l_chaddr l) zero_mac then l else mark_deleted l).
  assert (Hf : forall l, l_chaddr (f l) = l_chaddr l /\ l_yiaddr (f l) = l_yiaddr l)
    by (intros l; unfold f; by destruct (mac_eq _ _)).
  assert (Hg : forall i l, (f <$> leases s) !! i = Some l ->
            exists l0, leases s !! i = Some l0 /\ l_yiaddr l = l_yiaddr l0 /\ l_chaddr l = l_chaddr l0).
  { intros i l. rewrite list_lookup_fmap. destruct (leases s !! i) as [l0|]; [|done]. intros [= <-].
    exists l0. destruct (Hf l0) as [-> ->]. done. }
  split.
  - intros i j l l' (a & Ea & -> & _)%Hg (b & Eb & -> & _)%Hg. by apply (lk_addr _ _ Hok i j).
  - intros i j l l' (a & Ea & _ & Ec)%Hg (b & Eb & _ & Ec')%Hg. unfold mac. rewrite Ec, Ec'. by apply (lk_mac _ _ Hok i j).
  - intros i l (a & Ea & -> & _)%Hg. by apply (lk_pool _ _ Hok i).
  - intros i l (a & Ea & -> & Ec)%Hg. unfold mac. rewrite Ec. by apply (lk_zero _ _ Hok i).
  - intros i l (a & Ea & _ & ->)%Hg. by apply (lk_len _ _ Hok i).
Qed.

(** Fields that the handlers leave alone. *)
Definition same_server s s' : Prop := server_config s' = server_config s /\ UdpPcb s' = UdpPcb s.

Lemma inv_same s s' : inv s -> same_server s s' -> leases s' = leases s -> length (decline_ip s') = length (decline_ip s) -> inv s'.
Proof. intros (H1 & H2 & H3 & H4) [E1 E2] E3 E4. unfold inv. by rewrite E1, E2, E3, E4. Qed.

Lemma mac_new_lease m y l : length m = 16%nat -> length (l_chaddr l) = 16%nat ->
  mac (new_lease m y l) = take 6 m /\ length (l_chaddr (new_lease m y l)) = 16%nat.
Proof.
  intros Hm Hl. unfold mac, new_lease. cbn [l_chaddr]. split.
  - unfold overwrite. rewrite take_0. cbn [app]. rewrite take_app_le by (rewrite length_take; lia).
    rewrite take_take. f_equal; lia.
  - rewrite length_overwrite; [done|]. rewrite length_take. lia.
Qed.

Lemma drop_declined_inv m s found s1 : inv s -> UdpPcb s <> None ->
  drop_declined m s = (found, s1) -> 
  inv s1 /\ same_server s s1 /\ payload_out s1 = payload_out s /\
  (forall i l, leases s1 !! i = Some l -> l = empty_lease \/ leases s !! i = Some l) /\
  (forall i l, leases s !! i = Some l -> mac l <> take 6 m -> leases s1 !! i = Some l) /\
  match found with
  | Some i => s1 = s /\ exists l, leases s !! i = Some l /\ mac l = take 6 m
  | None => take 6 m <> zero_mac -> forall i l, leases s1 !! i = Some l -> mac l <> take 6 m
  end.
Proof.
  intros Hinv Hu. destruct (running_config s Hinv Hu) as [Hcfg Hmax]. pose proof Hinv as (Hok & Hl & Hc & Hd).
  unfold drop_declined. destruct (DHCPD_FindLeaseByChaddr _ _ _) as [i|] eqn:Ef.
  - apply find_chaddr_some in Ef as (l & El & Hm).
    destruct (dhcpd_find_decline_ip _ _) as [k|]; intros [= <- <-].
    + assert (Hi : (i < length (leases s))%nat) by (by eapply lookup_lt_Some).
      split_and!; try done.
      * unfold inv. cbn [with_decline with_leases leases UdpPcb server_config decline_ip].
        rewrite !length_insert. split_and!; try done.
        apply leases_ok_insert; try done; by left.
      * cbn [with_decline with_leases leases]. intros j l'. destruct (decide (i = j)) as [->|Hne];
          [rewrite list_lookup_insert_eq by done; intros [= <-]; by left
          |rewrite list_lookup_insert_ne by done; by right].
      * cbn [with_decline with_leases leases]. intros j l' El' Hne. 
        rewrite list_lookup_insert_ne by congruence. done.
      * cbn [with_decline with_leases leases]. intros Hz j l'. destruct (decide (i = j)) as [->|Hne].
        -- rewrite list_lookup_insert_eq by done. intros [= <-]. intros E. by apply Hz.
        -- rewrite list_lookup_insert_ne by done. intros El' E. apply Hz. rewrite <- E.
           apply (lk_mac _ _ Hok j i l' l); congruence.
    + split_and!; try done; [intros ???; by right|]. by exists l.
  - intros [= <- <-]. split_and!; try done; [intros ???; by right|]. intros _ i l El. by eapply find_chaddr_none.
Qed.

Lemma take_slot_inv m y s i s' : inv s -> UdpPcb s <> None -> length m = 16%nat -> take 6 m <> zero_mac ->
  (y = 0 \/ in_pool c0 y /\ forall j l, leases s !! j = Some l -> l_yiaddr l <> y) ->
  (forall j l, leases s !! j = Some l -> mac l <> take 6 m) ->
  take_slot m y s = Some (i, s') ->
  inv s' /\ same_server s s' /\ payload_out s' = payload_out s /\
  (exists l, leases s' !! i = Some l /\ mac l = take 6 m /\ l_yiaddr l = y) /\
  (forall j l, leases s !! j = Some l -> is_deleted l = false -> mac l <> zero_mac -> leases s' !! j = Some l).
Proof.
  intros Hinv Hu Hm Hz Hy Hfresh. destruct (running_config s Hinv Hu) as [Hcfg Hmax].
  pose proof Hinv as (Hok & Hl & Hc & Hd). unfold take_slot. rewrite Hmax, firstn_all.
  destruct (find_slot (leases s) 0 None) as [idx del] eqn:Ef.
  assert (Hslot : bool_decide (length (leases s) <= idx)%nat && bool_decide (del = None) = false ->
            exists l, leases s !! default idx del = Some l /\ (is_deleted l = true \/ mac l = zero_mac)).
  { intros Hcond. apply find_slot_spec in Ef as [(-> & -> & _)|[(-> & j & l & -> & El & _ & Hml)|(d & -> & _ & [|(j & l & -> & El & Hdl)])]];
      [|by exists l; split; [|right]|done|by exists l; split; [|left]].
    by rewrite !bool_decide_true in Hcond by (done || lia). }
  destruct (_ && _); [done|]. destruct (Hslot eq_refl) as (l & El & Hkind). intros [= <- <-].
  rewrite (alter_insert _ _ _ l El). destruct (mac_new_lease m y l Hm (lk_len _ _ Hok _ _ El)) as [Hmac Hlen].
  assert (Hi : (default idx del < length (leases s))%nat) by (by eapply lookup_lt_Some).
  split_and!; try done; cbn [with_leases leases].
  - unfold inv. cbn [with_leases leases UdpPcb server_config decline_ip]. rewrite length_insert. split_and!; try done.
    apply leases_ok_insert; [done|done|done| |].
    + destruct Hy as [->|[Hp Hy]]; [by left|right]. split; [done|]. rewrite Hmac. split; [done|].
      intros j l' El' _. by apply (Hy j).
    + right. intros j l' El' _. rewrite Hmac. by apply (Hfresh j).
  - exists (new_lease m y l). rewrite list_lookup_insert_eq by done. done.
  - intros j l' El' Hd' Hm'. rewrite list_lookup_insert_ne; [done|]. intros <-.
    rewrite El in El'. injection El' as <-. destruct Hkind; congruence.
Qed.

(** [m] is assigned [y], and the lease is active. *)
Definition holds s (m : bytes) (y : Z) : Prop :=
  exists i l, leases s !! i = Some l /\ mac l = m /\ l_yiaddr l = y /\ is_deleted l = false.

Lemma discover_spec arp p s r s' : inv s -> UdpPcb s <> None -> packet_ok p ->
  discover arp p s = Some (r, s') ->
  inv s' /\ same_server s s' /\
  (forall m y, m <> take 6 (chaddr p) -> m <> zero_mac -> holds s m y -> holds s' m y) /\
  ((r = -1 /\ payload_out s' = payload_out s) \/
   (r = 0 /\ exists i l rep, leases s' !! i = Some l /\ mac l = take 6 (chaddr p) /\
      make_dhcpd_packet c0 p DHCPOFFER = Some rep /\ payload_out s' = with_yiaddr (l_yiaddr l) rep)).
Proof.
  intros Hinv Hu (Hpc & _). destruct (running_config s Hinv Hu) as [Hcfg Hmax]. unfold discover.
  destruct (_ || _) eqn:Ez; [intros [= <- <-]; split_and!; try done; by left|].
  apply orb_false_iff in Ez as [Ez _]. apply bool_decide_eq_false in Ez.
  destruct (DHCPD_FindAddress _ _ _) as [y|] eqn:Ea; [|done]. cbn [mbind option_bind].
  assert (Hy : y = 0 \/ in_pool c0 y /\ arp y = false /\ DHCPD_FindLeaseByYiaddr c0 (leases s) y = None).
  { rewrite Hcfg in Ea. apply find_address_spec in Ea; [done|apply config_ok_c0|lia]. }
  destruct (drop_declined _ _) as [found s1] eqn:Ed.
  apply drop_declined_inv in Ed as (Hinv1 & Hs1 & Hp1 & Hold & Hkeep & Hfound); [|done|done].
  assert (Hu1 : UdpPcb s1 <> None) by (destruct Hs1 as [_ ->]; done).
  assert (Hk1 : forall m z, m <> take 6 (chaddr p) -> holds s m z -> holds s1 m z).
  { intros m z Hm (i & l & El & <- & <- & Hdl). exists i, l. split_and!; try done. by apply Hkeep. }
  assert (Hmid : match (match found with Some i => Some (i, s1) | None => take_slot (chaddr p) y s1 end) with
    | None => True
    | Some (i, s2) => inv s2 /\ same_server s s2 /\
        (forall m z, m <> take 6 (chaddr p) -> m <> zero_mac -> holds s m z -> holds s2 m z) /\
        exists l, leases s2 !! i = Some l /\ mac l = take 6 (chaddr p)
    end).
  { destruct found as [i|].
    - destruct Hfound as (-> & l & El & Hml). split_and!; try done. by exists l.
    - destruct (take_slot _ _ _) as [[i s2]|] eqn:Et; [|done].
      apply take_slot_inv in Et as (Hinv2 & Hs2 & _ & (l & El & Hml & _) & Hk2); try done;
        [|destruct Hy as [->|(Hp & _ & Hfree)]; [by left|right; split; [done|]]|by apply Hfound].
      + split_and!; [done|destruct Hs1, Hs2; split; congruence| |by exists l].
        intros m z Hm Hmz (j & l' & El' & <- & <- & Hdl)%Hk1; [|done]. exists j, l'. split_and!; try done. by apply Hk2.
      + intros j l' El'. destruct (Hold j l' El') as [->|El0]; [cbn; intros E; by apply (in_pool_ne_0 c0 y)|].
        rewrite Hcfg in Hmax. by apply (find_yiaddr_none c0 (leases s) y j l'). }
  destruct (match found with Some i => _ | None => _ end) as [[i s2]|].
  - destruct Hmid as (Hinv2 & Hs2 & Hk2 & l & El & Hml). destruct Hs2 as [Ecfg Epcb].
    rewrite Ecfg, Hcfg. destruct (make_dhcpd_packet _ _ _) as [rep|] eqn:Em; [|done].
    intros [= <- <-].
    assert (El' : leases s2 !!! i = l) by (by apply list_lookup_total_correct). rewrite El'.
    assert (Er : forall a z, leases (reply_dest p a z) = leases z /\ server_config (reply_dest p a z) = server_config z /\
      UdpPcb (reply_dest p a z) = UdpPcb z /\ payload_out (reply_dest p a z) = payload_out z /\
      decline_ip (reply_dest p a z) = decline_ip z) by (intros a z; unfold reply_dest; by destruct (_ =? _)).
    edestruct Er as (E1 & E2 & E3 & E4 & E5).
    split_and!.
    + eapply inv_same; [exact Hinv2|split; [by rewrite E2|by rewrite E3]|by rewrite E1|by rewrite E5].
    + split; [by rewrite E2|by rewrite E3].
    + intros m z Hm Hmz Hh. unfold holds. rewrite E1. by apply Hk2.
    + right. split; [done|]. exists i, l, rep. rewrite E1, E4. done.
  - intros [= <- <-]. split_and!; try done; [intros m z Hm _; by apply Hk1|]. by left.
Qed.

(** The message type a client reads in a reply. *)
Definition reply_type (r : dhcpd) : option bytes :=
  snd <$> dhcpd_pickup_opt (encode r) DHCP_MESSAGE_TYPE [0].

Lemma reply_options_ok t c : Forall opt_ok ((DHCP_MESSAGE_TYPE, [t]) :: common_options c) /\
  (length (tlvs ((DHCP_MESSAGE_TYPE, [t]) :: common_options c)) + 1 < 308)%nat.
Proof.
  split; [|rewrite (tlvs_cons (_, [t])); unfold tlv, common_options; cbn; lia].
  unfold common_options. repeat apply Forall_cons_2; try apply Forall_nil_2; by split_and!.
Qed.

Lemma reply_to_ok p y si sn : length (chaddr p) = 16%nat -> length sn = 64%nat -> packet_ok (reply_to p y si sn).
Proof. intros H1 H2. by split_and!. Qed.

Lemma reply_type_options r t os o : packet_ok r -> Forall opt_ok ((DHCP_MESSAGE_TYPE, [t]) :: os) ->
  (length (tlvs ((DHCP_MESSAGE_TYPE, [t]) :: os)) + 1 < 308)%nat ->
  add_options (DHCP_END :: replicate 307 0) ((DHCP_MESSAGE_TYPE, [t]) :: os) = Some o ->
  reply_type (with_options o r) = Some [t].
Proof.
  intros Hr Hok Hf Ho. destruct (add_options_empty _ Hok Hf) as (rest & E & _).
  assert (o = tlvs ((DHCP_MESSAGE_TYPE, [t]) :: os) ++ DHCP_END :: rest) as -> by congruence.
  destruct (encode_options r Hr) as (hdr & Hh & Henc).
  pose proof (length_tlvs ((DHCP_MESSAGE_TYPE, [t]) :: os)) as Hn.
  destruct (pickup_tlvs hdr _ rest DHCP_MESSAGE_TYPE [0] 0 PICKUP_FUEL [] Hh Hok) as [ptr Hptr];
    [done|done|done|simpl; simpl in Hf; lia|unfold PICKUP_FUEL; lia|].
  unfold reply_type. rewrite Henc. unfold dhcpd_pickup_opt. cbn [app length] in Hptr.
  change (Z.of_nat 0) with 0 in Hptr. by rewrite Hptr.
Qed.

Lemma request_spec lo p s r s' : inv s -> UdpPcb s <> None -> packet_ok p ->
  request lo p s = Some (r, s') ->
  inv s' /\ same_server s s' /\
  (forall m y, holds s m y -> holds s' m y) /\
  ((holds s' (take 6 (chaddr p)) (yiaddr (payload_out s')) /\ chaddr (payload_out s') = chaddr p /\
     reply_type (payload_out s') = Some [DHCPACK]) \/
   reply_type (payload_out s') = Some [DHCPNAK]).
Proof.
  intros Hinv Hu (Hpc & _). pose proof Hinv as (Hok & Hl & Hc & Hd). unfold request.
  destruct (dhcpd_pickup_opt _ _ _) as [[k q]|]; [|discriminate]. cbn [mbind option_bind].
  assert (Hnak : nak p s = Some (r, s') -> inv s' /\ same_server s s' /\
    (forall m y, holds s m y -> holds s' m y) /\ reply_type (payload_out s') = Some [DHCPNAK]).
  { unfold nak. destruct (add_options _ _) as [o|] eqn:Eo; [|done]. intros [= <- <-].
    split_and!; try done. eapply reply_type_options; [by apply reply_to_ok| | |exact Eo].
    - repeat apply Forall_cons_2; try apply Forall_nil_2; by split_and!.
    - cbn. lia. }
  destruct (DHCPD_FindLeaseByChaddr _ _ _) as [i|] eqn:Ef; [|intros E; destruct (Hnak E) as (?&?&?&?); split_and!; try done; by right].
  apply find_chaddr_some in Ef as (l & El & Hml).
  assert (El' : leases s !!! i = l) by (by apply list_lookup_total_correct). rewrite El'.
  destruct (_ =? _); [|intros E; destruct (Hnak E) as (?&?&?&?); split_and!; try done; by right].
  destruct (add_options _ _) as [o|] eqn:Eo; [|done]. intros [= <- <-].
  set (ls' := if is_deleted l then alter clear_deleted i (leases s) else leases s).
  assert (Hls : leases_ok c0 ls' /\ length ls' = length (leases s) /\
    (forall j l', leases s !! j = Some l' -> is_deleted l' = false -> ls' !! j = Some l') /\
    exists l', ls' !! i = Some l' /\ mac l' = mac l /\ l_yiaddr l' = l_yiaddr l /\ is_deleted l' = false).
  { unfold ls'. destruct (is_deleted l) eqn:Edl; [|split_and!; try done; by exists l].
    split_and!; [by apply leases_ok_flag|by rewrite length_alter| |].
    - intros j l' E' Hd'. rewrite list_lookup_alter_ne; [done|]. intros <-. congruence.
    - exists (clear_deleted l). rewrite list_lookup_alter_eq, El. split_and!; try done.
      unfold is_deleted, clear_deleted. cbn [l_flag]. rewrite Z.land_ldiff. done. }
  destruct Hls as (Hok' & Hlen & Hkeep & l' & E' & Hm' & Hy' & Hd').
  assert (Hrep : reply_type (with_options o (reply_to p (l_yiaddr l) (cfg_siaddr (server_config s)) (replicate 64 0))) = Some [DHCPACK]).
  { destruct (reply_options_ok DHCPACK (server_config s)) as [H1 H2].
    by eapply reply_type_options; [apply reply_to_ok| | |exact Eo]. }
  unfold reply_dest. destruct (flags p =? 0); (split_and!;
    [by split_and!; [|cbn [with_leases with_dest with_payload leases]; rewrite Hlen| |]
    |done
    |intros m y (j & lj & Ej & Hmj & Hyj & Hdj); exists j, lj; split_and!; try done; by apply Hkeep
    |left; split_and!; [exists i, l'; split_and!; try done; by rewrite Hm'|done|exact Hrep]]).
Qed.

(** What every handler keeps: the invariant, the server, other clients' leases. *)
Definition keeps p s s' : Prop :=
  inv s' /\ same_server s s' /\
  (forall m y, m <> take 6 (chaddr p) -> m <> zero_mac -> holds s m y -> holds s' m y).

Lemma keeps_refl p s : inv s -> keeps p s s.
Proof. intros Hinv. unfold keeps. by split_and!. Qed.

Lemma release_keeps lo p s r s' : inv s -> release lo p s = Some (r, s') -> keeps p s s'.
Proof.
  intros Hinv. unfold release. intros ([[k|] d] & _ & E)%bind_Some; [|injection E as <- <-; by apply keeps_refl].
  destruct (_ =? _); injection E as <- <-; [|by apply keeps_refl].
  unfold keeps. split_and!; [by apply delete_inv| |].
  - unfold dhcpd_delete_ipaddr_by_macaddr. by destruct (DHCPD_FindLeaseByChaddr _ _ _).
  - intros m y Hm Hz (j & l & Ej & Hmj & Hyj & Hdj). unfold dhcpd_delete_ipaddr_by_macaddr.
    destruct (DHCPD_FindLeaseByChaddr _ _ _) as [i|] eqn:Ef; [|by exists j, l].
    apply find_chaddr_some in Ef as (l' & El' & Hml'). exists j, l. cbn [with_leases leases].
    rewrite list_lookup_alter_ne; [done|]. intros <-. congruence.
Qed.

Lemma set_decline_keeps p s k x : inv s -> keeps p s (with_decline (<[k := x]> (decline_ip s)) s).
Proof.
  intros Hinv. unfold keeps. split_and!; [|done|done]. apply (inv_same s); [done|done|done|].
  apply length_insert.
Qed.

Lemma decline_keeps lo p s r s' : inv s -> decline lo p s = Some (r, s') -> keeps p s s'.
Proof.
  intros Hinv. unfold decline. intros ([[k1|] d1] & _ & E)%bind_Some;
    [|injection E as <- <-; by apply keeps_refl].
  apply bind_Some in E as ([[k2|] d2] & _ & E);  [|injection E as <- <-; by apply keeps_refl].
  destruct (_ && _); [|injection E as <- <-; by apply keeps_refl].
  destruct (dhcpd_find_decline_ip _ 0) as [k|]; injection E as <- <-; [by apply set_decline_keeps|by apply keeps_refl].
Qed.

Lemma process_keeps arp lo p s b s' : inv s -> UdpPcb s <> None -> packet_ok p ->
  dhcp_process arp lo p s = Some (b, s') -> keeps p s s'.
Proof.
  intros Hinv Hu Hp. unfold dhcp_process. intros ([[k|] d] & _ & E)%bind_Some;
    [|injection E as <- <-; by apply keeps_refl].
  destruct (_ =? DHCPDISCOVER).
  { apply bind_Some in E as ([r1 s1] & E & [= <- <-]).
    apply discover_spec in E as (H1 & H2 & H3 & _); [|done..]. done. }
  destruct (_ =? DHCPREQUEST).
  { destruct (negb _ && negb _); [injection E as <- <-; by apply keeps_refl|].
    apply bind_Some in E as ([o q] & _ & E). destruct (_ && _); [injection E as <- <-; by apply keeps_refl|].
    apply bind_Some in E as ([r1 s1] & E & [= <- <-]).
    apply request_spec in E as (H1 & H2 & H3 & _); [|done..]. unfold keeps. split_and!; [done..|auto]. }
  destruct (_ =? DHCPRELEASE).
  { apply bind_Some in E as ([r1 s1] & E & [= <- <-]). by eapply release_keeps. }
  destruct (_ =? DHCPDECLINE).
  { apply bind_Some in E as ([r1 s1] & E & [= <- <-]). by eapply decline_keeps. }
  injection E as <- <-. by apply keeps_refl.
Qed.

Lemma receive_keeps arp lo ok p s out s' : inv s -> UdpPcb s <> None -> packet_ok p ->
  UDP_Receive arp lo ok p s = Some (out, s') -> keeps p s s'.
Proof.
  intros Hinv Hu Hp. unfold UDP_Receive. intros ([b s1] & E & [= <- <-])%bind_Some.
  apply process_keeps in E as (H1 & H2 & H3); [unfold keeps; by split_and!|by apply (inv_same s)|done|done].
Qed.

(** *** Runs of the server *)
Fixpoint dhcpd_run (evs : list dhcpd_event) s : option dhcpd_state :=
  match evs with
  | [] => Some s
  | e :: evs => '(_, s') ← dhcpd_step DHCPD_MAX_LEASES DECLINE_IP_MAX e s; dhcpd_run evs s'
  end.

(** Packets have the size of the structure; the daemon runs on [n0] only. *)
Definition event_ok (e : dhcpd_event) : Prop :=
  match e with Packet _ _ _ p => packet_ok p | StartDaemon n => n = n0 | _ => True end.

Lemma dhcpd_step_inv e s out s' : inv s -> event_ok e ->
  dhcpd_step DHCPD_MAX_LEASES DECLINE_IP_MAX e s = Some (out, s') -> inv s'.
Proof.
  intros Hinv Hok. destruct e as [arp lo ok p|m|n|i]; cbn [dhcpd_step].
  - destruct (UdpPcb s) eqn:Eu; [|by intros [= <- <-]]. intros E.
    apply receive_keeps in E as (Hi & _); [done|done|congruence|done].
  - intros [= <- <-]. by apply delete_inv.
  - intros [= <- <-]. cbn in Hok. subst n. by apply daemon_inv.
  - intros [= <- <-]. unfold stop_dhcpd_daemon. destruct (UdpPcb s) as [k|]; [|done].
    destruct (_ =? _); [|done]. destruct Hinv as (H1 & H2 & H3 & H4). unfold inv. by split_and!.
Qed.

Lemma dhcpd_run_inv evs s s' : inv s -> Forall event_ok evs -> dhcpd_run evs s = Some s' -> inv s'.
Proof.
  intros Hinv Hok. revert s Hinv. induction Hok as [|e evs He _ IH]; intros s Hinv; cbn [dhcpd_run].
  - by intros [= <-].
  - destruct (dhcpd_step _ _ e s) as [[out s1]|] eqn:E; [|done]. apply IH. by eapply dhcpd_step_inv.
Qed.


Definition is_request (lo : locals) p : Prop :=
  exists k t, dhcpd_pickup_opt (encode p) DHCP_MESSAGE_TYPE (l_type lo) = Some (Some k, t) /\
    unle t = DHCPREQUEST.

(** An acknowledgement is backed by an active lease of the client. *)
Lemma process_ack arp lo p s s' : inv s -> UdpPcb s <> None -> packet_ok p -> is_request lo p ->
  dhcp_process arp lo p s = Some (true, s') -> reply_type (payload_out s') = Some [DHCPACK] ->
  holds s' (take 6 (chaddr p)) (yiaddr (payload_out s')).
Proof.
  intros Hinv Hu Hp (k & t & Hk & Ht). unfold dhcp_process. intros ([o q] & Eq & E)%bind_Some Hr.
  rewrite Hk in Eq. injection Eq as <- <-.
  rewrite Ht, (proj2 (Z.eqb_neq DHCPREQUEST DHCPDISCOVER) ltac:(done)), Z.eqb_refl in E.
  destruct (negb _ && negb _); [discriminate|].
  apply bind_Some in E as ([o q'] & _ & E). destruct (_ && _); [discriminate|].
  apply bind_Some in E as ([r1 s2] & E & [= <-]).
  apply request_spec in E as (_ & _ & _ & [(Hh & _)|Hn]); [done| |done..].
  rewrite Hr in Hn. discriminate.
Qed.

Lemma ack_holds arp lo ok p s r a s' : inv s -> UdpPcb s <> None -> packet_ok p -> is_request lo p ->
  UDP_Receive arp lo ok p s = Some (Some (r, a), s') -> reply_type r = Some [DHCPACK] ->
  holds s' (take 6 (chaddr p)) (yiaddr r).
Proof.
  intros Hinv Hu Hp Hq. unfold UDP_Receive. intros ([b s1] & E & Eout)%bind_Some Hr.
  destruct b, ok; try discriminate. injection Eout as <- <- <-.
  apply (process_ack arp lo p (with_dest (htonl IPADDR_BROADCAST) s)); [by apply (inv_same s)|done|done|done|exact E|done].
Qed.

(** Events that are not about the client [m]. *)
Definition foreign (m : bytes) (e : dhcpd_event) : Prop :=
  match e with
  | Packet _ _ _ p => packet_ok p /\ take 6 (chaddr p) <> m
  | DeleteMac m' => take 6 m' <> m
  | StartDaemon n => n = n0
  | StopDaemon _ => False
  end.

Lemma foreign_step m y e s out s' : inv s -> UdpPcb s <> None -> m <> zero_mac -> foreign m e ->
  dhcpd_step DHCPD_MAX_LEASES DECLINE_IP_MAX e s = Some (out, s') -> holds s m y ->
  inv s' /\ UdpPcb s' <> None /\ holds s' m y.
Proof.
  intros Hinv Hu Hz Hf. destruct e as [arp lo ok p|m'|n|i]; cbn [dhcpd_step foreign] in *; [| | |done].
  - destruct (UdpPcb s) eqn:Eu; [|done]. destruct Hf as [Hp Hm]. intros E Hh.
    apply receive_keeps in E as (Hi & [_ Hs] & Hk); [|done|congruence|done].
    split_and!; [done|congruence|]. by apply Hk.
  - intros [= <- <-] (j & l & Ej & Hmj & Hyj & Hdj). split_and!; [by apply delete_inv| |].
    + unfold dhcpd_delete_ipaddr_by_macaddr. by destruct (DHCPD_FindLeaseByChaddr _ _ _).
    + unfold dhcpd_delete_ipaddr_by_macaddr. destruct (DHCPD_FindLeaseByChaddr _ _ _) as [i|] eqn:Ef; [|by exists j, l].
      apply find_chaddr_some in Ef as (l' & El' & Hml'). exists j, l. cbn [with_leases leases].
      rewrite list_lookup_alter_ne; [done|]. intros <-. congruence.
  - intros [= <- <-] Hh. subst n. unfold dhcpd_daemon.
    destruct (UdpPcb s) eqn:Eu; [|done]. split_and!; [done|congruence|done].
Qed.

Lemma foreign_run m y evs s s' : inv s -> UdpPcb s <> None -> m <> zero_mac -> Forall (foreign m) evs ->
  dhcpd_run evs s = Some s' -> holds s m y -> inv s' /\ UdpPcb s' <> None /\ holds s' m y.
Proof.
  intros Hinv Hu Hz Hf. revert s Hinv Hu. induction Hf as [|e evs He _ IH]; intros s Hinv Hu; cbn [dhcpd_run].
  - by intros [= <-].
  - destruct (dhcpd_step _ _ e s) as [[out s1]|] eqn:E; [|done]. intros Hrun Hh.
    edestruct foreign_step as (H1 & H2 & H3); [exact Hinv|exact Hu|exact Hz|exact He|exact E|exact Hh|].
    by apply (IH s1).
Qed.

(** C17: no address is acknowledged to two clients at once.  Once a client was
    acknowledged an address, and as long as the events are about other
    clients, every later acknowledgement to another client carries a
    different address. *)
Theorem dhcpd_no_double_assignment evs0 s0 arp1 lo1 ok1 p1 r1 a1 s1 evs s2 arp2 lo2 ok2 p2 r2 a2 s3 :
  Forall event_ok evs0 -> dhcpd_run evs0 (initial_state DHCPD_MAX_LEASES DECLINE_IP_MAX) = Some s0 ->
  packet_ok p1 -> is_request lo1 p1 -> take 6 (chaddr p1) <> zero_mac ->
  dhcpd_step DHCPD_MAX_LEASES DECLINE_IP_MAX (Packet arp1 lo1 ok1 p1) s0 = Some (Some (r1, a1), s1) ->
  reply_type r1 = Some [DHCPACK] ->
  Forall (foreign (take 6 (chaddr p1))) evs -> dhcpd_run evs s1 = Some s2 ->
  packet_ok p2 -> is_request lo2 p2 -> take 6 (chaddr p2) <> take 6 (chaddr p1) ->
  dhcpd_step DHCPD_MAX_LEASES DECLINE_IP_MAX (Packet arp2 lo2 ok2 p2) s2 = Some (Some (r2, a2), s3) ->
  reply_type r2 = Some [DHCPACK] ->
  yiaddr r1 <> 0 -> yiaddr r2 <> yiaddr r1.
Proof.
  intros Hok0 Hrun0 Hp1 Hq1 Hz1 Hs1 Ha1 Hf Hrun Hp2 Hq2 Hne Hs2 Ha2 Hy Heq.
  apply dhcpd_run_inv in Hrun0 as Hinv0; [|apply initial_inv|done]. cbn [dhcpd_step] in Hs1, Hs2.
  destruct (UdpPcb s0) eqn:Eu0; [|discriminate]. assert (Hu0 : UdpPcb s0 <> None) by congruence.
  pose proof (ack_holds _ _ _ _ _ _ _ _ Hinv0 Hu0 Hp1 Hq1 Hs1 Ha1) as Hh1.
  apply receive_keeps in Hs1 as (Hinv1 & [_ Hu1] & _); [|done..]. rewrite Eu0 in Hu1.
  destruct (foreign_run (take 6 (chaddr p1)) (yiaddr r1) evs s1 s2) as (Hinv2 & Hu2 & Hh2);
    [done|congruence|done|done|done|done|].
  destruct (UdpPcb s2) eqn:Eu2; [|done]. assert (Hu2' : UdpPcb s2 <> None) by congruence.
  pose proof (ack_holds _ _ _ _ _ _ _ _ Hinv2 Hu2' Hp2 Hq2 Hs2 Ha2) as (j & l & Ej & Hmj & Hyj & _).
  apply receive_keeps in Hs2 as (Hinv3 & _ & Hk); [|done..].
  destruct (Hk _ _ (not_eq_sym Hne) Hz1 Hh2) as (i & l' & Ei & Hmi & Hyi & _).
  destruct (decide (i = j)) as [->|Hij]; [congruence|].
  destruct Hinv3 as [Hlk _]. apply Hy. rewrite <- Hyi. apply (lk_addr _ _ Hlk i j l' l Ei Ej Hij). congruence.
Qed.

(** *** Availability *)
Lemma fresh_not_found s m : inv s -> UdpPcb s <> None ->
  (forall i l, leases s !! i = Some l -> mac l <> take 6 m) ->
  DHCPD_FindLeaseByChaddr (server_config s) (leases s) m = None.
Proof.
  intros Hinv Hu Hf. destruct (DHCPD_FindLeaseByChaddr _ _ _) as [i|] eqn:E; [|done].
  apply find_chaddr_some in E as (l & El & Hm). by destruct (Hf i l El).
Qed.

Lemma find_index_none_2 {A} (f : A -> bool) l :
  (forall i x, l !! i = Some x -> f x = false) -> find_index f l = None.
Proof.
  intros Hf. destruct (find_index f l) as [i|] eqn:E; [|done].
  apply find_index_some in E as (x & Hx & Hfx). by rewrite (Hf i x Hx) in Hfx.
Qed.

Lemma find_address_free s arp y : inv s -> UdpPcb s <> None -> in_pool c0 y -> arp y = false ->
  (forall i l, leases s !! i = Some l -> l_yiaddr l <> y) ->
  exists y', DHCPD_FindAddress (server_config s) arp (leases s) = Some y' /\ in_pool c0 y' /\ arp y' = false /\
    forall i l, leases s !! i = Some l -> l_yiaddr l <> y'.
Proof.
  intros Hinv Hu Hp Harp Hfree. destruct (running_config s Hinv Hu) as [Hcfg Hmax]. rewrite Hcfg in *.
  pose proof Hp as (a & Ha & -> & _). unfold DHCPD_FindAddress.
  destruct (find_address_finds c0 arp (leases s) (htonl (start c0))
              (S (S (Z.to_nat (htonl (end_ c0) - htonl (start c0))))) a) as (y' & E & Hy');
    [apply config_ok_c0|pose proof (htonl_u32 (start c0)); unfold in_width in *; lia|lia|lia|done|done| |].
  - apply find_index_none_2. intros i l Hl. apply lookup_take_Some in Hl as [Hl _]. by apply Z.eqb_neq, (Hfree i).
  - exists y'. split; [done|]. apply find_address_spec in E as [->|(H1 & H2 & H3)]; [done| |apply config_ok_c0|lia].
    split_and!; [done|done|]. intros i l Hl. by apply (find_yiaddr_none c0 (leases s) y' i l).
Qed.

Lemma make_packet_ok p t : packet_ok p ->
  exists o, make_dhcpd_packet c0 p t
    = Some (with_options o (reply_to p 0 (cfg_siaddr c0) (overwrite 0 DEFAULT_SNAME6 (replicate 64 0)))) /\
    forall y, reply_type (with_options o (reply_to p y (cfg_siaddr c0) (overwrite 0 DEFAULT_SNAME6 (replicate 64 0)))) = Some [t].
Proof.
  intros (Hpc & _). destruct (reply_options_ok t c0) as [H1 H2].
  destruct (add_options_empty _ H1 H2) as (rest & E & _). eexists.
  unfold make_dhcpd_packet. cbn [options reply_to]. rewrite E. split; [reflexivity|]. intros y.
  by eapply reply_type_options; [apply reply_to_ok| | |exact E].
Qed.

(** C36: a new client gets an address.  When a table entry is empty or deleted
    and the pool has an address that no entry holds and the ARP table does not
    know, a DISCOVER is answered by an OFFER of such an address, which is
    recorded for the client. *)
Theorem discover_offers arp p s y :
  inv s -> UdpPcb s <> None -> packet_ok p ->
  take 6 (chaddr p) <> zero_mac -> take 6 (chaddr p) <> bcast_mac ->
  (forall i l, leases s !! i = Some l -> mac l <> take 6 (chaddr p)) ->
  (exists i l, leases s !! i = Some l /\ (is_deleted l = true \/ mac l = zero_mac)) ->
  in_pool c0 y -> arp y = false -> (forall i l, leases s !! i = Some l -> l_yiaddr l <> y) ->
  exists s' i l, discover arp p s = Some (0, s') /\
    reply_type (payload_out s') = Some [DHCPOFFER] /\ xid (payload_out s') = xid p /\
    chaddr (payload_out s') = chaddr p /\
    leases s' !! i = Some l /\ mac l = take 6 (chaddr p) /\ yiaddr (payload_out s') = l_yiaddr l /\
    in_pool c0 (l_yiaddr l) /\ arp (l_yiaddr l) = false /\
    forall j l', leases s !! j = Some l' -> l_yiaddr l' <> l_yiaddr l.
Proof.
  intros Hinv Hu Hp Hz Hb Hfresh Hslot Hy Harp Hfree.
  destruct (find_address_free s arp y Hinv Hu Hy Harp Hfree) as (y' & Ea & Hp' & Harp' & Hfree').
  destruct (running_config s Hinv Hu) as [Hcfg Hmax]. unfold discover, drop_declined.
  rewrite Ea, (fresh_not_found s _ Hinv Hu Hfresh). cbn [mbind option_bind].
  unfold mac_eq at 1 2. rewrite !bool_decide_false by done. cbn [orb].
  destruct (take_slot (chaddr p) y' s) as [[i s2]|] eqn:Et.
  - apply take_slot_inv in Et as (Hinv2 & [Ecfg Epcb] & _ & (l & El & Hml & Hyl) & _); try done;
      [|by apply Hp|by right].
    rewrite Ecfg, Hcfg. destruct (make_packet_ok p DHCPOFFER Hp) as (o & Em & Ht). rewrite Em.
    rewrite (list_lookup_total_correct _ _ _ El). eexists _, i, l. split; [reflexivity|].
    unfold reply_dest. rewrite Hyl. destruct (flags p =? 0); (split; [exact (Ht y')|by split_and!]).
  - exfalso. unfold take_slot in Et. rewrite Hmax, firstn_all in Et.
    destruct (find_slot (leases s) 0 None) as [idx del] eqn:Ef.
    destruct (_ && _) eqn:Ec; [|done]. apply andb_true_iff in Ec as [Ec1 Ec2].
    apply bool_decide_eq_true in Ec1, Ec2. subst del. destruct Hslot as (k & l & El & Hl).
    apply find_slot_spec in Ef as [(_ & _ & _ & Hno)|[(_ & j & l' & -> & El' & _)|(d & [=] & _)]].
    + destruct (Hno k l El). destruct Hl; congruence.
    + apply lookup_lt_Some in El'. lia.
Qed.

(** when the table is full, a DISCOVER from a new client is answered with
    a copy of the last reply sent, which was another client's. *)
Theorem full_table_resends_last_reply arp lo p s k t :
  inv s -> UdpPcb s <> None -> packet_ok p ->
  dhcpd_pickup_opt (encode p) DHCP_MESSAGE_TYPE (l_type lo) = Some (Some k, t) -> unle t = DHCPDISCOVER ->
  take 6 (chaddr p) <> zero_mac -> take 6 (chaddr p) <> bcast_mac ->
  (forall i l, leases s !! i = Some l -> is_deleted l = false /\ mac l <> zero_mac /\ mac l <> take 6 (chaddr p)) ->
  exists s', UDP_Receive arp lo true p s = Some (Some (payload_out s, htonl IPADDR_BROADCAST), s') /\
    leases s' = leases s.
Proof.
  intros Hinv Hu Hp Hk Ht Hz Hb Hfull. destruct (running_config s Hinv Hu) as [Hcfg Hmax].
  set (s0 := with_dest (htonl IPADDR_BROADCAST) s). exists s0. split; [|done].
  assert (Hd : discover arp p s0 = Some (-1, s0)).
  { unfold discover, drop_declined, mac_eq. rewrite !bool_decide_false by done. cbn [orb].
    destruct (find_address_total c0 arp (leases s) (htonl (start c0))
                (S (S (Z.to_nat (htonl (end_ c0) - htonl (start c0)))))) as [y Ey];
      [apply config_ok_c0|pose proof (htonl_u32 (start c0)); unfold in_width in *; lia|lia|].
    unfold DHCPD_FindAddress. cbn [s0 with_dest server_config leases]. rewrite Hcfg, Ey. cbn [mbind option_bind].
    rewrite <- Hcfg, (fresh_not_found s _ Hinv Hu) by (intros i l Hl; by apply (Hfull i l)).
    unfold take_slot. change (server_config s0) with (server_config s). change (leases s0) with (leases s).
    rewrite Hmax, firstn_all. destruct (find_slot (leases s) 0 None) as [idx del] eqn:Ef.
    apply find_slot_spec in Ef as [(-> & -> & _)|[(_ & j & l & _ & El & _ & Hm)|(d & -> & _ & [|(j & l & _ & El & Hm)])]].
    - by rewrite !bool_decide_true by (done || lia).
    - by destruct (Hfull j l El) as (_ & Hz' & _).
    - done.
    - destruct (Hfull j l El). congruence. }
  unfold UDP_Receive, dhcp_process. fold s0. rewrite Hk.
  change (Some (Some k, t) ≫= ?f) with (f (Some k, t)). cbv beta iota. rewrite Ht, Z.eqb_refl, Hd. done.
Qed.
End invariant.

(** ** A server on 192.168.237.1 with four leases *)
Module DhcpdWitness.
Definition n0 : netif := Netif 1 0x01EDA8C0 0x00FFFFFF 0x01EDA8C0.

Lemma top_ok : htonl (ip_addr n0) + Z.of_nat 4 + 2 < 2 ^ 32 - 1.
Proof. by vm_compute. Qed.

Definition client (k : Z) : bytes := [2; 0; 0; 0; 0; k] ++ replicate 10 0.
Definition message (k t : Z) (opts : bytes) : dhcpd :=
  Dhcpd 1 1 6 0 k 0 0 0 0 0 0 (client k) (replicate 64 0) (replicate 128 0) (htonl DHCP_MAGIC)
    (overwrite 0 ([DHCP_MESSAGE_TYPE; 1; t] ++ opts ++ [DHCP_END]) (replicate 308 0)).
Definition lo0 : locals := Locals [0] (replicate 4 0) (replicate 4 0) (replicate 4 0) (replicate 4 0).
Definition ask (k : Z) : dhcpd := message k DHCPDISCOVER [].
(** A request for 192.168.237.[last]. *)
Definition req (k last : Z) : dhcpd := message k DHCPREQUEST [DHCP_REQUESTED_IP; 4; 192; 168; 237; last].
Definition no_arp : Z -> bool := fun _ => false.
Definition pkt (p : dhcpd) : dhcpd_event := Packet no_arp lo0 true p.
Abbreviation run := (dhcpd_run 4 1).
Abbreviation init := (initial_state 4 1).
Definition state_after (evs : list dhcpd_event) : dhcpd_state := default init (run evs init).

Lemma state_after_run evs : (fun _ => tt) <$> run evs init = Some tt -> run evs init = Some (state_after evs).
Proof. unfold state_after. by destruct (run evs init). Qed.


Lemma dhcpd_pickup_opt_terminates_witness :
  is_Some (dhcpd_pickup_opt (replicate 550 1) DHCP_MESSAGE_TYPE [0]).
Proof.
  apply dhcpd_pickup_opt_terminates; [apply Forall_replicate; unfold in_width; lia|by vm_compute].
Defined.

Definition session : list dhcpd_event := [StartDaemon n0; pkt (ask 1); pkt (req 1 2); pkt (ask 2)].

Lemma lease_session_ok : Forall (event_ok n0) session.
Proof. repeat apply Forall_cons_2; try apply Forall_nil_2; done. Qed.

Lemma session_inv evs : Forall (event_ok n0) evs -> (fun _ => tt) <$> run evs init = Some tt ->
  inv 4 1 n0 (state_after evs).
Proof.
  intros Hok E. apply (dhcpd_run_inv 4 1 n0 top_ok evs init);
    [apply initial_inv|exact Hok|by apply state_after_run].
Qed.


(** The table as a list of last octets and flags. *)
Definition summary (s : dhcpd_state) : list (Z * Z * Z) :=
  (fun l => (nth 5 (l_chaddr l) 0, htonl (l_yiaddr l) mod 256, l_flag l)) <$> leases s.

Example session_table : summary (state_after session) = [(1, 2, 0); (2, 3, 0); (0, 0, 0); (0, 0, 0)].
Proof. vm_compute. reflexivity. Qed.

Lemma discover_offers_witness :
  exists s', discover no_arp (ask 3) (state_after session) = Some (0, s') /\
    reply_type (payload_out s') = Some [DHCPOFFER].
Proof.
  destruct (discover_offers 4 1 n0 top_ok no_arp (ask 3) (state_after session) (htonl 0xC0A8ED05))
    as (s' & _ & _ & E & Ht & _).
  - apply session_inv; [exact lease_session_ok|vm_compute; reflexivity].
  - vm_compute. discriminate.
  - done.
  - vm_compute. discriminate.
  - vm_compute. discriminate.
  - intros i l Hl. vm_compute in Hl. repeat (destruct i as [|i]; [injection Hl as <-; vm_compute; discriminate|]).
    discriminate Hl.
  - exists 2%nat, empty_lease. split; [vm_compute; reflexivity|right; reflexivity].
  - exists 0xC0A8ED05. split; [vm_compute; split; discriminate|]. split; [reflexivity|].
    split_and!; vm_compute; discriminate.
  - reflexivity.
  - intros i l Hl. vm_compute in Hl. repeat (destruct i as [|i]; [injection Hl as <-; vm_compute; discriminate|]).
    discriminate Hl.
  - exists s'. split; [exact E|exact Ht].
Defined.

Definition crowd : list dhcpd_event := StartDaemon n0 :: (pkt <$> [ask 1; ask 2; ask 3; ask 4]).

Lemma full_table_resends_last_reply_witness :
  exists s' r, UDP_Receive no_arp lo0 true (ask 5) (state_after crowd) = Some (Some r, s') /\
    xid r.1 = 4 /\ chaddr r.1 = client 4.
Proof.
  destruct (full_table_resends_last_reply 4 1 n0 top_ok no_arp lo0 (ask 5) (state_after crowd) 242 [DHCPDISCOVER])
    as (s' & E & _).
  - apply session_inv; [repeat apply Forall_cons_2; try apply Forall_nil_2; done|vm_compute; reflexivity].
  - vm_compute. discriminate.
  - done.
  - vm_compute. reflexivity.
  - reflexivity.
  - vm_compute. discriminate.
  - vm_compute. discriminate.
  - intros i l Hl. vm_compute in Hl.
    repeat (destruct i as [|i]; [injection Hl as <-; split_and!; vm_compute; (discriminate || reflexivity)|]).
    discriminate Hl.
  - eexists s', _. split; [exact E|]. split; vm_compute; reflexivity.
Defined.

(** The reply to the last event. *)
Definition reply_after (evs : list dhcpd_event) (e : dhcpd_event) : option (dhcpd * Z) :=
  r ← dhcpd_step 4 1 e (state_after evs); r.1.

Definition start1 : list dhcpd_event := [StartDaemon n0; pkt (ask 1)].
Definition later : list dhcpd_event := [pkt (ask 2)].
Definition s1 : dhcpd_state := state_after (start1 ++ [pkt (req 1 2)]).
Definition s2 : dhcpd_state := state_after (start1 ++ [pkt (req 1 2)] ++ later).
Definition ack1 : dhcpd * Z := default (zero_packet, 0) (reply_after start1 (pkt (req 1 2))).
Definition ack2 : dhcpd * Z := default (zero_packet, 0) (reply_after (start1 ++ [pkt (req 1 2)] ++ later) (pkt (req 2 3))).

Lemma req_is_request k l : is_request lo0 (req k l).
Proof. exists 242, [DHCPREQUEST]. split; [|reflexivity]. vm_compute. reflexivity. Qed.

Lemma dhcpd_no_double_assignment_witness : yiaddr ack2.1 <> yiaddr ack1.1 /\ yiaddr ack1.1 = htonl 0xC0A8ED02.
Proof.
  split; [|vm_compute; reflexivity].
  apply (dhcpd_no_double_assignment 4 1 n0 top_ok start1 (state_after start1) no_arp lo0 true (req 1 2) ack1.1 ack1.2 s1
           later s2 no_arp lo0 true (req 2 3) ack2.1 ack2.2 (state_after (start1 ++ [pkt (req 1 2)] ++ later ++ [pkt (req 2 3)]))).
  - repeat apply Forall_cons_2; try apply Forall_nil_2; done.
  - vm_compute. reflexivity.
  - done.
  - apply req_is_request.
  - vm_compute. discriminate.
  - vm_compute. reflexivity.
  - vm_compute. reflexivity.
  - repeat apply Forall_cons_2; try apply Forall_nil_2. split; [done|vm_compute; discriminate].
  - vm_compute. reflexivity.
  - done.
  - apply req_is_request.
  - vm_compute. discriminate.
  - vm_compute. reflexivity.
  - vm_compute. reflexivity.
  - vm_compute. discriminate.
Defined.
End DhcpdWitness.
