(* ===== verification/Eloop.v ===== *)
(** * The event loop of the Wi-Fi manager: [MSDK/wifi_manager/wifi_eloop.c]

    Timeouts live in a list of [DList.v], in order of their expiry time; event
    handlers in an array.  A handler is a function pointer: its identity is a
    number, and what it does to the loop's own state is the parameter [call].
    [None] is a dereference of an address that holds no cell. *)
From S2P Require Import Prelude DList.
From Stdlib Require Import Sorted.

Definition ELOOP_ALL_CTX : Z := 0xFFFFFFFF.
Definition ELOOP_EVENT_WAKEUP : Z := 1.
Definition ELOOP_EVENT_TERMINATE : Z := 2.

Definition ELOOP_EVENT_ID (vif_idx event : Z) : Z := u16 (Z.shiftl vif_idx 12 + event).
Definition ELOOP_EVENT_GET_VIF (event_id : Z) : Z := Z.land (Z.shiftr event_id 12) 0xF.
Definition ELOOP_EVENT_GET_EV (event_id : Z) : Z := Z.land event_id 0xFFF.

(** The wrap-around comparisons of [wrapper_os.h]; the difference of two
    [int32_t] is taken modulo 2^32. *)
Definition SYS_TIME_AFTER_EQ (a b : Z) : bool := 0 <=? s32 (s32 a - s32 b).
Definition SYS_TIME_BEFORE (a b : Z) : bool := s32 (s32 a - s32 b) <? 0.

Record eloop_event := Event { ev_data : Z; ev_user : Z; ev_handler : Z; ev_id : Z }.
Record eloop_timeout := Timeout { time : Z; eloop_data : Z; user_data : Z; handler : Z }.
Record eloop_message := Message { event_id : Z; reason : Z; param : Z; param_len : Z }.

(** [heap] holds the list cells, [timeouts] the structures around them. *)
Record eloop := Eloop {
  events : list eloop_event;
  heap : dheap;
  head : loc;
  timeouts : gmap loc eloop_timeout;
  terminate : bool;
}.

Implicit Types (e : eloop) (h : dheap) (m : gmap loc eloop_timeout) (t : eloop_timeout).

Definition with_events (evs : list eloop_event) e : eloop :=
  Eloop evs (heap e) (head e) (timeouts e) (terminate e).
Definition with_timers (h : dheap) (m : gmap loc eloop_timeout) e : eloop :=
  Eloop (events e) h (head e) m (terminate e).
Definition with_terminate (b : bool) e : eloop :=
  Eloop (events e) (heap e) (head e) (timeouts e) b.

(** [wifi_eloop_init]: the list head is a static cell. *)
Definition wifi_eloop_init (hd : loc) : option eloop :=
  h ← INIT_DLIST_HEAD {[hd := ListHead hd hd]} hd;
  Some (Eloop [] h hd ∅ false).

(** ** Events *)

(** [realloc_ok]: the array could be grown. *)
Definition eloop_event_register (realloc_ok : bool) (id hdl data user : Z) e : Z * eloop :=
  if terminate e then (-1, e)
  else if negb realloc_ok then (-1, e)
  else (0, with_events (events e ++ [Event data user hdl id]) e).

Fixpoint remove_first (id : Z) (evs : list eloop_event) : list eloop_event :=
  match evs with
  | [] => []
  | ev :: evs => if ev_id ev =? id then evs else ev :: remove_first id evs
  end.

Definition eloop_event_unregister (id : Z) e : eloop :=
  if terminate e then e else with_events (remove_first id (events e)) e.

(** The message handed to [sys_task_post], or the error. *)
Definition eloop_message_send (vif_idx event reason param len : Z) e : option eloop_message :=
  if terminate e then None
  else Some (Message (ELOOP_EVENT_ID vif_idx event) (u16 reason) param len).
Definition eloop_event_send (vif_idx event : Z) e : option eloop_message :=
  eloop_message_send vif_idx event 0 0 0 e.
Definition wifi_eloop_terminate e : option eloop_message := eloop_event_send 0 ELOOP_EVENT_TERMINATE e.
Definition wifi_eloop_terminated e : bool := terminate e.

(** ** Timeouts *)

(** The scan of [eloop_timeout_register] from list position [pos]. *)
Fixpoint insert_walk (fuel : nat) (h : dheap) (m : gmap loc eloop_timeout) (hd node : loc) (tm : Z) (pos : loc)
    : option dheap :=
  match fuel with
  | O => None
  | S fuel =>
      if decide (pos = hd) then list_add_tail h node hd
      else
        tmp ← m !! pos;
        if tm <? time tmp then prev ← get_prev h pos; list_add h node prev
        else next ← get_next h pos; insert_walk fuel h m hd node tm next
  end.

(** [alloc]: the zeroed structure [sys_zalloc] returned, or NULL. *)
Definition eloop_timeout_register (now : Z) (alloc : option loc) (msecs hdl data user : Z) e
    : option (Z * eloop) :=
  if terminate e then Some (-1, e)
  else
    match alloc with
    | None => Some (-1, e)
    | Some node =>
        let t := Timeout (u32 (now + msecs)) data user hdl in
        let h := <[node := ListHead node node]> (heap e) in
        let m := <[node := t]> (timeouts e) in
        first ← get_next h (head e);
        h' ← insert_walk (S (size h)) h m (head e) node (time t) first;
        Some (0, with_timers h' m e)
    end.

Definition eloop_timeout_remove (x : loc) e : option eloop :=
  h ← list_del (heap e) x;
  Some (with_timers (delete x h) (delete x (timeouts e)) e).

Definition matches (hdl data user : Z) t : bool :=
  (handler t =? hdl) && ((eloop_data t =? data) || (data =? ELOOP_ALL_CTX))
  && ((user_data t =? user) || (user =? ELOOP_ALL_CTX)).

(** [list_for_each_entry_safe] with a test: [pos] is visited, [n] is next. *)
Fixpoint cancel_walk (fuel : nat) (test : eloop_timeout -> bool) (pos n : loc) (removed : Z) e
    : option (Z * eloop) :=
  match fuel with
  | O => None
  | S fuel =>
      if decide (pos = head e) then Some (removed, e)
      else
        t ← timeouts e !! pos;
        if test t then
          e' ← eloop_timeout_remove pos e;
          nn ← get_next (heap e') n;
          cancel_walk fuel test n nn (removed + 1) e'
        else
          nn ← get_next (heap e) n;
          cancel_walk fuel test n nn removed e
  end.

Definition remove_matching (test : eloop_timeout -> bool) e : option (Z * eloop) :=
  pos ← get_next (heap e) (head e);
  n ← get_next (heap e) pos;
  cancel_walk (S (size (heap e))) test pos n 0 e.

Definition eloop_timeout_cancel (hdl data user : Z) e : option (Z * eloop) :=
  if terminate e then Some (-1, e) else remove_matching (matches hdl data user) e.

Definition eloop_timeout_all_cancel e : option (Z * eloop) :=
  r ← remove_matching (fun _ => true) e; Some (0, r.2).

Fixpoint registered_walk (fuel : nat) (hdl data user : Z) (pos : loc) e : option bool :=
  match fuel with
  | O => None
  | S fuel =>
      if decide (pos = head e) then Some false
      else
        t ← timeouts e !! pos;
        if (handler t =? hdl) && (eloop_data t =? data) && (user_data t =? user) then Some true
        else next ← get_next (heap e) pos; registered_walk fuel hdl data user next e
  end.

Definition eloop_timeout_is_registered (hdl data user : Z) e : option bool :=
  pos ← get_next (heap e) (head e);
  registered_walk (S (size (heap e))) hdl data user pos e.

(** The timeout to run, already unlinked and freed. *)
Definition eloop_timeout_handle (now : Z) e : option (option eloop_timeout * eloop) :=
  b ← list_empty (heap e) (head e);
  if (b : bool) then Some (None, e)
  else
    x ← get_next (heap e) (head e);
    t ← timeouts e !! x;
    if SYS_TIME_AFTER_EQ now (time t) then e' ← eloop_timeout_remove x e; Some (Some t, e')
    else Some (None, e).

(** ** The loop *)
Section loop.
(** What a handler does to the loop: the number of the function and its two
    arguments; and the predefined state-machine handler. *)
Context (call : Z -> Z -> Z -> eloop -> option eloop).
Context (run_state_machine : eloop_message -> eloop -> option eloop).

(** The array is read afresh after every call. *)
Fixpoint dispatch_walk (fuel : nat) (id : Z) (i : nat) e : option eloop :=
  match fuel with
  | O => None
  | S fuel =>
      match events e !! i with
      | None => Some e
      | Some ev =>
          if ev_id ev =? id then
            e' ← call (ev_handler ev) (ev_data ev) (ev_user ev) e;
            dispatch_walk fuel id (S i) e'
          else dispatch_walk fuel id (S i) e
      end
  end.

Definition eloop_event_dispatch (fuel : nat) (msg : eloop_message) e : option eloop :=
  let event := ELOOP_EVENT_GET_EV (event_id msg) in
  if event =? ELOOP_EVENT_WAKEUP then Some e
  else if event =? ELOOP_EVENT_TERMINATE then Some (with_terminate true e)
  else
    e' ← run_state_machine msg e;
    dispatch_walk fuel (event_id msg) 0 e'.

(** How long the task sleeps: not at all, or for [ms], 0 meaning for ever. *)
Inductive wait := Yield | Wait (ms : Z).

Definition next_wait (now : Z) e : option wait :=
  b ← list_empty (heap e) (head e);
  if (b : bool) then Some (Wait 0)
  else
    x ← get_next (heap e) (head e);
    t ← timeouts e !! x;
    let remain := if SYS_TIME_BEFORE now (time t) then u32 (time t - now) else 0 in
    Some (if remain =? 0 then Yield else Wait remain).

(** One round: [msg] is what [sys_task_wait] delivered, if anything. *)
Definition eloop_round (fuel : nat) (now now' : Z) (msg : option eloop_message) e : option eloop :=
  w ← next_wait now e;
  e1 ← match w, msg with
       | Wait _, Some ms => eloop_event_dispatch fuel ms e
       | _, _ => Some e
       end;
  '(fired, e2) ← eloop_timeout_handle now' e1;
  match fired with
  | None => Some e2
  | Some t => call (handler t) (eloop_data t) (user_data t) e2
  end.

(** [wifi_eloop_run] over the successive clock readings and messages. *)
Fixpoint wifi_eloop_run (fuel : nat) (rounds : list (Z * Z * option eloop_message)) e : option eloop :=
  match rounds with
  | [] => Some e
  | (now, now', msg) :: rounds =>
      if terminate e then Some e
      else e' ← eloop_round fuel now now' msg e; wifi_eloop_run fuel rounds e'
  end.
End loop.

(** [wifi_eloop_destroy] frees the remaining timers; the events array is freed
    as well, its pointer and count are left as they are. *)
Definition wifi_eloop_destroy e : option eloop := r ← remove_matching (fun _ => true) e; Some r.2.

(** ** Refinement: the timer list *)
Abbreviation entry := (loc * eloop_timeout)%type.
Implicit Types (L K : list entry).

(** [L]: the timeouts in list order, with their addresses. *)
Definition repr e L : Prop :=
  is_dlist (heap e) (head e) L.*1 /\ Forall (fun p => timeouts e !! p.1 = Some p.2) L.

Fixpoint insert_entry (p : entry) L : list entry :=
  match L with
  | [] => [p]
  | q :: L => if time p.2 <? time q.2 then p :: q :: L else q :: insert_entry p L
  end.

Section neighbours.
Implicit Types (x hd : loc) (xs : list loc).

Lemma is_dlist_cell h hd xs x : is_dlist h hd xs -> x ∈ hd :: xs -> is_Some (h !! x).
Proof.
  intros Hl Hx. apply list_elem_of_split in Hx as (l1 & l2 & E). destruct Hl as [_ Hl].
  change (hd :: xs ++ [hd]) with ((hd :: xs) ++ [hd]) in Hl. rewrite E, <- app_assoc in Hl.
  change ((x :: l2) ++ [hd]) with (x :: (l2 ++ [hd])) in Hl. apply linked_split in Hl as [_ Hl].
  destruct l2 as [|y l2]; destruct Hl as [Hn _]; by eapply get_next_some.
Qed.

Lemma default_head_elem (d : loc) xs : default d (list.head xs) ∈ d :: xs.
Proof. destruct xs as [|x xs]; simpl; [by left|by right; left]. Qed.

Lemma dlist_neighbours h hd xs1 x xs2 : is_dlist h hd (xs1 ++ x :: xs2) ->
  exists M a, hd :: xs1 = M ++ [a] /\ get_prev h x = Some a /\ get_next h a = Some x /\
    get_next h x = Some (default hd (list.head xs2)).
Proof.
  intros [_ Hl]. destruct (exists_last (l := hd :: xs1)) as (M & a & E); [done|].
  exists M, a. rewrite <- app_assoc in Hl. cbn [app] in Hl. rewrite app_comm_cons, E, <- app_assoc in Hl. cbn [app] in Hl.
  apply linked_split in Hl as [_ Hl]. destruct Hl as (H1 & H2 & H3). split_and!; [done|done|done|].
  destruct xs2; apply H3.
Qed.

Lemma dlist_nodup h hd xs1 x xs2 : is_dlist h hd (xs1 ++ x :: xs2) -> x <> hd /\ x ∉ xs1 ++ xs2.
Proof.
  intros [Hnd _]. apply NoDup_cons in Hnd as [H1 H2]. apply NoDup_app in H2 as (H2 & H3 & H4).
  apply NoDup_cons in H4 as [H4 _]. set_solver.
Qed.
End neighbours.

Lemma insert_walk_ok h m hd node t K L fuel :
  is_dlist h hd (K ++ L).*1 -> is_Some (h !! node) -> node ∉ hd :: (K ++ L).*1 ->
  Forall (fun p => m !! p.1 = Some p.2) L -> (length L < fuel)%nat ->
  exists h', insert_walk fuel h m hd node (time t) (default hd (list.head L.*1)) = Some h' /\
    is_dlist h' hd (K ++ insert_entry (node, t) L).*1.
Proof.
  intros Hl Hn Hni Hm. revert K fuel Hl Hni.
  induction Hm as [|[x tx] L Hx _ IH]; intros K [|fuel] Hl Hni Hf; simpl in Hf; try lia; cbn [insert_walk].
  - simpl. rewrite decide_True by done. rewrite app_nil_r in *.
    destruct (list_add_tail_ok h hd K.*1 node Hl Hn Hni) as (h' & E & Hl' & _).
    exists h'. split; [done|]. rewrite fmap_app. exact Hl'.
  - cbn [fmap list_fmap list.head from_option id fst snd insert_entry] in *. rewrite fmap_app in Hl, Hni. cbn [fmap list_fmap fst] in Hl, Hni.
    destruct (dlist_nodup _ _ _ _ _ Hl) as [Hxh _]. rewrite decide_False by done. rewrite Hx. cbn [mbind option_bind].
    destruct (dlist_neighbours _ _ _ _ _ Hl) as (M & a & EM & Hp & Hna & Hnx).
    destruct (time t <? time tx).
    + rewrite Hp. cbn [mbind option_bind].
      destruct (insert_at h hd K.*1 (x :: L.*1) node M a x (L.*1 ++ [hd])) as (h' & E & Hl' & _); [done..|].
      exists h'. split; [unfold list_add; rewrite Hna; exact E|]. rewrite fmap_app. exact Hl'.
    + rewrite Hnx. cbn [mbind option_bind].
      destruct (IH (K ++ [(x, tx)]) fuel) as (h' & E & Hl'); [by rewrite <- app_assoc, fmap_app..|lia|].
      exists h'. split; [exact E|]. by rewrite <- app_assoc in Hl'.
Qed.

(** The rest of the loop's state. *)
Definition same_rest e e' : Prop :=
  events e' = events e /\ head e' = head e /\ terminate e' = terminate e.

Lemma timeout_remove_ok e K x t L : repr e (K ++ (x, t) :: L) ->
  exists e', eloop_timeout_remove x e = Some e' /\ repr e' (K ++ L) /\ same_rest e e'.
Proof.
  intros [Hl Hm]. rewrite fmap_app in Hl. cbn [fmap list_fmap fst] in Hl.
  destruct (dlist_nodup _ _ _ _ _ Hl) as [Hxh Hx].
  destruct (list_del_ok _ _ _ _ _ Hl) as (h' & E & Hl' & _).
  unfold eloop_timeout_remove. rewrite E. eexists. split; [reflexivity|]. split; [|done]. split; cbn [with_timers heap head timeouts].
  - rewrite fmap_app. apply (is_dlist_frame h'); [|exact Hl'].
    intros y Hy. rewrite lookup_delete_ne; [done|]. intros <-. set_solver.
  - assert (Hne : forall p, p ∈ K ++ L -> x <> p.1).
    { intros p Hp ->. apply Hx. rewrite <- fmap_app. by apply list_elem_of_fmap_2. }
    apply Forall_forall. intros p Hp. rewrite lookup_delete_ne by (by apply Hne).
    rewrite Forall_forall in Hm. apply Hm. set_solver.
Qed.

Lemma repr_first e L : repr e L -> get_next (heap e) (head e) = Some (default (head e) (list.head L.*1)).
Proof. intros [Hl _]. exact (is_dlist_next _ _ _ Hl). Qed.

Lemma repr_length e L : repr e L -> (length L < size (heap e))%nat.
Proof. intros [Hl _]. apply is_dlist_length in Hl. by rewrite length_fmap in Hl. Qed.

Lemma cancel_walk_ok test fuel K L n removed e : repr e (K ++ L) -> (length L < fuel)%nat ->
  (L <> [] -> get_next (heap e) (default (head e) (list.head L.*1)) = Some n) ->
  is_Some (heap e !! n) ->
  exists e', cancel_walk fuel test (default (head e) (list.head L.*1)) n removed e
      = Some (removed + Z.of_nat (length (filter (fun p => test p.2 = true) L)), e') /\
    repr e' (K ++ filter (fun p => test p.2 <> true) L) /\ same_rest e e'.
Proof.
  revert K L n removed e. induction fuel as [|fuel IH]; intros K L n removed e Hr Hf Hn Hcell; [lia|].
  cbn [cancel_walk]. destruct L as [|[x t] L].
  { simpl. rewrite decide_True by done. rewrite Z.add_0_r. by exists e. }
  pose proof Hr as [Hl Hm]. rewrite fmap_app in Hl. cbn [fmap list_fmap fst] in Hl.
  destruct (dlist_nodup _ _ _ _ _ Hl) as [Hxh _]. destruct (dlist_neighbours _ _ _ _ _ Hl) as (M & a & _ & _ & _ & Hnx).
  specialize (Hn ltac:(done)). cbn [fmap list_fmap list.head from_option id fst] in *. rewrite Hnx in Hn. injection Hn as <-.
  rewrite decide_False by done.
  assert (Hx : timeouts e !! x = Some t) by (rewrite Forall_forall in Hm; apply (Hm (x, t)); set_solver).
  rewrite Hx. cbn [mbind option_bind]. rewrite !filter_cons. cbn [snd].
  assert (Hnext : forall e' K', repr e' (K' ++ L) -> head e' = head e ->
    exists nn, get_next (heap e') (default (head e) (list.head L.*1)) = Some nn /\ is_Some (heap e' !! nn) /\
      is_Some (heap e' !! default (head e) (list.head L.*1))).
  { intros e' K' [Hl' _] Eh. rewrite Eh, fmap_app in Hl'.
    destruct L as [|[y ty] L]; cbn [fmap list_fmap list.head from_option id fst] in *.
    - pose proof (is_dlist_next _ _ _ Hl') as E. eexists. split; [exact E|]. split; [|by eapply get_next_some].
      eapply is_dlist_cell; [exact Hl'|apply default_head_elem].
    - destruct (dlist_neighbours _ _ _ _ _ Hl') as (_ & _ & _ & _ & _ & E). eexists. split; [exact E|].
      split; [|by eapply get_next_some]. eapply is_dlist_cell; [exact Hl'|].
      pose proof (default_head_elem (head e) L.*1). set_solver. }
  destruct (test t) eqn:Et.
  - rewrite decide_True by done. rewrite decide_False by (intros Hc; by apply Hc).
    destruct (timeout_remove_ok e K x t L Hr) as (e' & E & Hr' & H1 & H2 & H3). rewrite E. cbn [mbind option_bind].
    destruct (Hnext e' K Hr' H2) as (nn & Enn & Hnn & _). rewrite Enn. cbn [mbind option_bind]. rewrite <- H2 in *.
    destruct (IH K L nn (removed + 1) e' Hr') as (e2 & E2 & Hr2 & H4 & H5 & H6); [simpl in Hf; lia|done|done|].
    exists e2. rewrite E2. split; [do 2 f_equal; simpl; lia|]. split; [done|]. split_and!; congruence.
  - rewrite decide_False by congruence. rewrite decide_True by congruence.
    assert (Hr' : repr e ((K ++ [(x, t)]) ++ L)) by (by rewrite <- app_assoc).
    destruct (Hnext e (K ++ [(x, t)]) Hr' eq_refl) as (nn & Enn & Hnn & _). rewrite Enn. cbn [mbind option_bind].
    destruct (IH (K ++ [(x, t)]) L nn removed e Hr') as (e2 & E2 & Hr2 & Hs); [simpl in Hf; lia|done|done|].
    exists e2. split; [exact E2|]. split; [|done]. by rewrite <- app_assoc in Hr2.
Qed.

(** *** The operations as operations on the list of timeouts *)
Module TimerOps.
Inductive op :=
  | Register (now : Z) (node : loc) (msecs hdl data user : Z)
  | Cancel (hdl data user : Z)
  | CancelAll
  | IsRegistered (hdl data user : Z)
  | Handle (now : Z).

Inductive result := RInt (n : Z) | RBool (b : bool) | RFired (t : option eloop_timeout).

(** The memory a timeout gets was not in use. *)
Definition pre e (o : op) : Prop :=
  match o with Register _ node _ _ _ _ => heap e !! node = None | _ => True end.

Definition run (o : op) e : option (result * eloop) :=
  match o with
  | Register now node ms hdl data user =>
      r ← eloop_timeout_register now (Some node) ms hdl data user e; Some (RInt r.1, r.2)
  | Cancel hdl data user => r ← eloop_timeout_cancel hdl data user e; Some (RInt r.1, r.2)
  | CancelAll => r ← eloop_timeout_all_cancel e; Some (RInt r.1, r.2)
  | IsRegistered hdl data user => b ← eloop_timeout_is_registered hdl data user e; Some (RBool b, e)
  | Handle now => r ← eloop_timeout_handle now e; Some (RFired r.1, r.2)
  end.

Definition is_entry (hdl data user : Z) t : bool :=
  (handler t =? hdl) && (eloop_data t =? data) && (user_data t =? user).

(** The timeout due at [now], which the loop runs next. *)
Definition due (now : Z) L : option (eloop_timeout * list entry) :=
  match L with
  | p :: L' => if SYS_TIME_AFTER_EQ now (time p.2) then Some (p.2, L') else None
  | [] => None
  end.

Definition step (o : op) L : result * list entry :=
  match o with
  | Register now node ms hdl data user =>
      (RInt 0, insert_entry (node, Timeout (u32 (now + ms)) data user hdl) L)
  | Cancel hdl data user =>
      (RInt (Z.of_nat (length (filter (fun p : entry => matches hdl data user p.2 = true) L))),
       filter (fun p : entry => matches hdl data user p.2 <> true) L)
  | CancelAll => (RInt 0, [])
  | IsRegistered hdl data user => (RBool (existsb (fun p => is_entry hdl data user p.2) L), L)
  | Handle now =>
      match due now L with Some (t, L') => (RFired (Some t), L') | None => (RFired None, L) end
  end.
End TimerOps.

Lemma remove_matching_ok test e L : repr e L ->
  exists e', remove_matching test e = Some (Z.of_nat (length (filter (fun p => test p.2 = true) L)), e') /\
    repr e' (filter (fun p => test p.2 <> true) L) /\ same_rest e e'.
Proof.
  intros Hr. pose proof (repr_first e L Hr) as Ef. pose proof (repr_length e L Hr).
  unfold remove_matching. rewrite Ef. cbn [mbind option_bind].
  assert (Hn : exists n, get_next (heap e) (default (head e) (list.head L.*1)) = Some n /\ is_Some (heap e !! n)).
  { destruct Hr as [Hl _]. destruct L as [|[x t] L]; cbn [fmap list_fmap list.head from_option id fst] in *.
    - exists (head e). split; [done|]. by eapply get_next_some.
    - destruct (dlist_neighbours _ _ [] _ _ Hl) as (_ & _ & _ & _ & _ & E). eexists. split; [exact E|].
      eapply is_dlist_cell; [exact Hl|]. pose proof (default_head_elem (head e) L.*1). set_solver. }
  destruct Hn as (n & En & Hn). rewrite En. cbn [mbind option_bind].
  destruct (cancel_walk_ok test (S (size (heap e))) [] L n 0 e Hr) as (e' & E & H'); [lia|done|done|].
  exists e'. split; [exact E|done].
Qed.

Lemma filter_all_false L : filter (fun p : entry => true <> true) L = [].
Proof. induction L as [|p L IH]; [done|]. rewrite filter_cons_False; [done|]. intros Hc. by apply Hc. Qed.

Lemma registered_walk_ok hdl data user K L e fuel : repr e (K ++ L) -> (length L < fuel)%nat ->
  registered_walk fuel hdl data user (default (head e) (list.head L.*1)) e
  = Some (existsb (fun p => TimerOps.is_entry hdl data user p.2) L).
Proof.
  revert K L. induction fuel as [|fuel IH]; intros K L Hr Hf; [lia|]. cbn [registered_walk].
  destruct L as [|[x t] L]; cbn [fmap list_fmap list.head from_option id fst existsb]; [by rewrite decide_True|].
  pose proof Hr as [Hl Hm]. rewrite fmap_app in Hl. cbn [fmap list_fmap fst] in Hl.
  destruct (dlist_nodup _ _ _ _ _ Hl) as [Hxh _]. destruct (dlist_neighbours _ _ _ _ _ Hl) as (_ & _ & _ & _ & _ & Hnx).
  rewrite decide_False by done.
  assert (Hx : timeouts e !! x = Some t) by (rewrite Forall_forall in Hm; apply (Hm (x, t)); set_solver).
  rewrite Hx. cbn [mbind option_bind snd]. unfold TimerOps.is_entry at 1. destruct (_ && _ && _); [done|].
  rewrite Hnx. cbn [mbind option_bind orb]. apply (IH (K ++ [(x, t)])); [by rewrite <- app_assoc|simpl in Hf; lia].
Qed.

Lemma register_ok now node ms hdl data user e L :
  repr e L -> terminate e = false -> heap e !! node = None ->
  exists e', eloop_timeout_register now (Some node) ms hdl data user e = Some (0, e') /\
    repr e' (insert_entry (node, Timeout (u32 (now + ms)) data user hdl) L) /\ same_rest e e'.
Proof.
  intros Hr Ht Hfresh. pose proof Hr as [Hl Hm]. unfold eloop_timeout_register. rewrite Ht.
  set (t := Timeout _ _ _ _). set (h := <[node := _]> (heap e)).
  assert (Hni : node ∉ head e :: L.*1).
  { intros Hin. destruct (is_dlist_cell _ _ _ _ Hl Hin). congruence. }
  assert (Hl' : is_dlist h (head e) L.*1).
  { apply (is_dlist_frame (heap e)); [|exact Hl]. intros x Hx. unfold h. rewrite lookup_insert_ne; [done|]. intros <-. done. }
  assert (Hm' : Forall (fun p => <[node := t]> (timeouts e) !! p.1 = Some p.2) L).
  { apply Forall_forall. intros p Hp. rewrite Forall_forall in Hm. rewrite lookup_insert_ne; [by apply Hm|].
    intros ->. apply Hni. right. by apply list_elem_of_fmap_2. }
  rewrite (is_dlist_next _ _ _ Hl'). cbn [mbind option_bind].
  destruct (insert_walk_ok h (<[node := t]> (timeouts e)) (head e) node t [] L (S (size h))) as (h' & E & Hl2); try done.
  { unfold h. by rewrite lookup_insert_eq. }
  { pose proof (is_dlist_length _ _ _ Hl') as Hlen. rewrite length_fmap in Hlen. lia. }
  cbn [list.head fmap list_fmap] in E. rewrite E. eexists. split; [reflexivity|]. split; [|done]. split; [exact Hl2|].
  cbn [with_timers timeouts]. clear -Hm'. induction Hm' as [|q L Hq HL IH]; cbn [insert_entry].
  - constructor; [|constructor]. by rewrite lookup_insert_eq.
  - destruct (_ <? _); [|by constructor]. constructor; [by rewrite lookup_insert_eq|by constructor].
Qed.

Lemma handle_ok now e L : repr e L ->
  exists e', eloop_timeout_handle now e
      = Some (match TimerOps.due now L with Some (t, _) => Some t | None => None end, e') /\
    repr e' (match TimerOps.due now L with Some (_, L') => L' | None => L end) /\ same_rest e e'.
Proof.
  intros Hr. pose proof Hr as [Hl Hm]. unfold eloop_timeout_handle, list_empty.
  rewrite (repr_first e L Hr). cbn [mbind option_bind].
  destruct L as [|[x t] L]; cbn [fmap list_fmap list.head from_option id fst TimerOps.due snd] in *.
  - rewrite bool_decide_true by done. by exists e.
  - destruct (dlist_nodup _ _ [] _ _ Hl) as [Hxh _]. rewrite bool_decide_false by done.
    apply Forall_cons_1 in Hm as [Hx _]. cbn [fst snd] in Hx. rewrite Hx. cbn [mbind option_bind].
    destruct (SYS_TIME_AFTER_EQ _ _); [|by exists e].
    destruct (timeout_remove_ok e [] x t L Hr) as (e' & E & Hr' & Hs). rewrite E. by exists e'.
Qed.

(** One operation. *)
Lemma op_refines (o : TimerOps.op) e L :
  repr e L -> terminate e = false -> TimerOps.pre e o ->
  exists e', TimerOps.run o e = Some ((TimerOps.step o L).1, e') /\
    repr e' (TimerOps.step o L).2 /\ same_rest e e'.
Proof.
  intros Hr Ht Hp. destruct o as [now node ms hdl data user|hdl data user| |hdl data user|now]; cbn [TimerOps.run TimerOps.step].
  - destruct (register_ok now node ms hdl data user e L Hr Ht Hp) as (e' & E & Hr' & Hs).
    rewrite E. by exists e'.
  - unfold eloop_timeout_cancel. rewrite Ht.
    destruct (remove_matching_ok (matches hdl data user) e L Hr) as (e' & E & Hr' & Hs). rewrite E. by exists e'.
  - unfold eloop_timeout_all_cancel.
    destruct (remove_matching_ok (fun _ => true) e L Hr) as (e' & E & Hr' & Hs). rewrite E.
    rewrite filter_all_false in Hr'. by exists e'.
  - unfold eloop_timeout_is_registered. rewrite (repr_first e L Hr). cbn [mbind option_bind].
    rewrite (registered_walk_ok hdl data user [] L e) by (try done; pose proof (repr_length e L Hr); lia). by exists e.
  - destruct (handle_ok now e L Hr) as (e' & E & Hr' & Hs). rewrite E. exists e'.
    destruct (TimerOps.due now L) as [[t L']|]; done.
Qed.

(** ** The clock *)
Lemma s32_spec x : is_u32 x -> s32 x = x \/ s32 x = x - 2 ^ 32.
Proof.
  intros Hx. unfold s32. rewrite u32_small by done. destruct (x <? 2 ^ 31); [by left|by right].
Qed.

Lemma s32_range x k : -2 ^ 31 <= x - k * 2 ^ 32 < 2 ^ 31 -> s32 x = x - k * 2 ^ 32.
Proof.
  intros Hx. unfold s32, u32. set (y := x - k * 2 ^ 32) in *.
  replace x with (y + k * 2 ^ 32) by lia. rewrite Z_mod_plus_full.
  destruct (Z.lt_ge_cases y 0).
  - replace (y mod 2 ^ 32) with (y + 2 ^ 32); [|symmetry; rewrite <- (Z_mod_plus_full _ 1); apply Z.mod_small; lia].
    rewrite (proj2 (Z.ltb_ge _ _)) by lia. lia.
  - rewrite Z.mod_small by lia. rewrite (proj2 (Z.ltb_lt _ _)) by lia. lia.
Qed.

(** Inside a window of less than 2^31 ms that does not wrap, the comparisons
    are those of numbers. *)
Lemma time_diff a b : is_u32 a -> is_u32 b -> -2 ^ 31 <= a - b < 2 ^ 31 -> s32 (s32 a - s32 b) = a - b.
Proof.
  intros Ha Hb Hd. destruct (s32_spec a Ha) as [->| ->], (s32_spec b Hb) as [->| ->].
  - rewrite (s32_range _ 0); lia.
  - rewrite (s32_range _ 1); lia.
  - rewrite (s32_range _ (-1)); lia.
  - rewrite (s32_range _ 0); lia.
Qed.

Lemma after_eq_spec a b : is_u32 a -> is_u32 b -> -2 ^ 31 <= a - b < 2 ^ 31 -> SYS_TIME_AFTER_EQ a b = (b <=? a).
Proof.
  intros Ha Hb Hd. unfold SYS_TIME_AFTER_EQ. rewrite time_diff by done.
  destruct (Z.leb_spec b a), (Z.leb_spec 0 (a - b)); done || lia.
Qed.

(** ** The order of the timeouts *)
Definition sorted L : Prop := StronglySorted (fun p q => time p.2 <= time q.2) L.

Lemma elem_of_insert_entry p q L : q ∈ insert_entry p L <-> q = p \/ q ∈ L.
Proof. induction L as [|r L IH]; cbn [insert_entry]; [set_solver|]. destruct (_ <? _); set_solver. Qed.

Lemma insert_entry_sorted p L : sorted L -> sorted (insert_entry p L).
Proof.
  unfold sorted. induction 1 as [|q L HL IH Hq]; cbn [insert_entry]; [by repeat constructor|].
  destruct (Z.ltb_spec (time p.2) (time q.2)).
  - constructor; [by constructor|]. constructor; [lia|]. eapply Forall_impl; [exact Hq|]. simpl. lia.
  - constructor; [done|]. apply Forall_forall. intros r [->|Hr]%elem_of_insert_entry; [lia|].
    rewrite Forall_forall in Hq. by apply Hq.
Qed.

Lemma filter_sorted (P : entry -> Prop) `{!forall p, Decision (P p)} L : sorted L -> sorted (filter P L).
Proof.
  unfold sorted. induction 1 as [|q L HL IH Hq]; [constructor|]. rewrite filter_cons. case_decide; [|done].
  constructor; [done|]. apply Forall_forall. intros r Hr. apply list_elem_of_filter in Hr as [_ Hr].
  rewrite Forall_forall in Hq. by apply Hq.
Qed.

Lemma step_sorted o L : sorted L -> sorted (TimerOps.step o L).2.
Proof.
  intros Hs. destruct o; cbn [TimerOps.step snd]; [by apply insert_entry_sorted|by apply filter_sorted|constructor|done|].
  unfold TimerOps.due. destruct L as [|p L]; [done|]. destruct (SYS_TIME_AFTER_EQ _ _); [|done]. by inversion Hs.
Qed.

(** A sequence of timer operations on the loop, and on the list. *)
Fixpoint run_ops (os : list TimerOps.op) e : option (list TimerOps.result * eloop) :=
  match os with
  | [] => Some ([], e)
  | o :: os => '(r, e1) ← TimerOps.run o e; '(rs, e2) ← run_ops os e1; Some (r :: rs, e2)
  end.

Fixpoint steps (os : list TimerOps.op) L : list TimerOps.result * list entry :=
  match os with
  | [] => ([], L)
  | o :: os => let r := TimerOps.step o L in let rs := steps os r.2 in (r.1 :: rs.1, rs.2)
  end.

Fixpoint fresh_ops (os : list TimerOps.op) e : Prop :=
  match os with
  | [] => True
  | o :: os => TimerOps.pre e o /\ forall r e', TimerOps.run o e = Some (r, e') -> fresh_ops os e'
  end.

Lemma ops_refine os e L : repr e L -> terminate e = false -> fresh_ops os e ->
  exists e', run_ops os e = Some ((steps os L).1, e') /\ repr e' (steps os L).2 /\ same_rest e e'.
Proof.
  revert e L. induction os as [|o os IH]; intros e L Hr Ht Hf; cbn [run_ops steps fst snd]; [by exists e|].
  destruct Hf as [Hp Hf]. destruct (op_refines o e L Hr Ht Hp) as (e1 & E & Hr1 & H1 & H2 & H3).
  destruct (IH e1 _ Hr1) as (e2 & E2 & Hr2 & H4 & H5 & H6); [congruence|by eapply Hf|].
  exists e2. rewrite E. cbn [mbind option_bind]. rewrite E2. cbn [mbind option_bind].
  split; [done|]. split; [done|]. split_and!; congruence.
Qed.

Lemma steps_sorted os L : sorted L -> sorted (steps os L).2.
Proof. revert L. induction os as [|o os IH]; intros L Hs; [done|]. cbn [steps snd]. by apply IH, step_sorted. Qed.

Lemma init_repr hd : exists e, wifi_eloop_init hd = Some e /\ repr e [] /\ terminate e = false.
Proof.
  unfold wifi_eloop_init. destruct (init_dlist_head_ok {[hd := ListHead hd hd]} hd) as (h & E & Hl & _).
  { rewrite lookup_singleton_eq. by eexists. }
  rewrite E. eexists. split; [reflexivity|]. split; [|done]. split; [exact Hl|constructor].
Qed.

(** C19: the timer functions, running over the linked list and its pointers,
    implement the operations on the ordered list of timeouts, with the same
    results, from initialisation on and for any sequence: registration inserts
    before the first later timeout, cancelling removes exactly the matching
    ones and counts them, handling takes the first one when it is due.  Events
    and the terminate flag are not touched. *)
Theorem eloop_timers_refine_list (os : list TimerOps.op) hd e :
  wifi_eloop_init hd = Some e -> fresh_ops os e ->
  exists e', run_ops os e = Some ((steps os []).1, e') /\ repr e' (steps os []).2 /\
    events e' = [] /\ terminate e' = false.
Proof.
  intros Hi Hf. destruct (init_repr hd) as (e0 & E0 & Hr & Ht). rewrite Hi in E0. injection E0 as <-.
  destruct (ops_refine os e [] Hr Ht Hf) as (e' & E & Hr' & H1 & H2 & H3).
  exists e'. split; [done|]. split; [done|]. split; [|congruence]. rewrite H1.
  unfold wifi_eloop_init in Hi. apply bind_Some in Hi as (h & _ & [= <-]). done.
Qed.

Lemma handle_none now e e' : eloop_timeout_handle now e = Some (None, e') -> e' = e.
Proof.
  unfold eloop_timeout_handle. intros ([] & _ & E)%bind_Some; [by injection E as <-|].
  apply bind_Some in E as (y & _ & E). apply bind_Some in E as (t & _ & E).
  destruct (SYS_TIME_AFTER_EQ now (time t)); [by apply bind_Some in E as (? & _ & [=])|by injection E as <-].
Qed.

(** the loop runs the earliest timeout.  After any operations whose
    deadlines and clock readings lie in a window of 2^31 ms that does not wrap
    around, [eloop_timeout_handle] runs a timeout exactly when one is due, and
    it is one with the least deadline, removed from the list. *)
Theorem eloop_runs_earliest_timeout os hd e0 rs e now base :
  wifi_eloop_init hd = Some e0 -> fresh_ops os e0 -> run_ops os e0 = Some (rs, e) ->
  0 <= base -> base + 2 ^ 31 <= 2 ^ 32 -> base <= now < base + 2 ^ 31 ->
  Forall (fun p => base <= time p.2 < base + 2 ^ 31) (steps os []).2 ->
  exists fired e', eloop_timeout_handle now e = Some (fired, e') /\
    match fired with
    | Some t => time t <= now /\ exists x L', (steps os []).2 = (x, t) :: L' /\ repr e' L' /\
                  Forall (fun p => time t <= time p.2) L'
    | None => e' = e /\ Forall (fun p => now < time p.2) (steps os []).2
    end.
Proof.
  intros Hi Hf Hrun Hb1 Hb2 Hnow Hwin. destruct (init_repr hd) as (e1 & E1 & Hr & Ht).
  rewrite Hi in E1. injection E1 as <-. destruct (ops_refine os e0 [] Hr Ht Hf) as (e2 & E2 & Hr2 & _).
  rewrite Hrun in E2. injection E2 as _ ->. pose proof (steps_sorted os [] (SSorted_nil _)) as Hs.
  set (L := (steps os []).2) in *. destruct (handle_ok now e2 L Hr2) as (e' & E & Hr' & _).
  destruct L as [|[x t] L]; cbn [TimerOps.due snd] in E, Hr'.
  { exists None, e'. split; [exact E|]. split; [by eapply handle_none|constructor]. }
  apply Forall_cons_1 in Hwin as [Ht1 Hwin]. cbn [snd] in Ht1. inversion Hs as [|? ? HL Hq]; subst.
  assert (Eae : SYS_TIME_AFTER_EQ now (time t) = (time t <=? now)) by (apply after_eq_spec; unfold in_width; lia).
  rewrite Eae in E, Hr'. destruct (Z.leb_spec (time t) now).
  - exists (Some t), e'. split; [exact E|]. split; [done|]. exists x, L. done.
  - exists None, e'. split; [exact E|]. split.
    + by eapply handle_none.
    + constructor; [done|]. eapply Forall_impl; [exact Hq|]. simpl. lia.
Qed.

(** *** Where the clock wraps *)
Lemma s32_wrap x : exists k, s32 (u32 x) = x - k * 2 ^ 32.
Proof.
  destruct (s32_spec (u32 x) (u32_range x)) as [->| ->]; unfold u32.
  - exists (x / 2 ^ 32). pose proof (Z.div_mod x (2 ^ 32) ltac:(lia)). lia.
  - exists (x / 2 ^ 32 + 1). pose proof (Z.div_mod x (2 ^ 32) ltac:(lia)). lia.
Qed.

Lemma after_eq_wrap T d : -2 ^ 31 <= T - d < 2 ^ 31 -> SYS_TIME_AFTER_EQ (u32 T) (u32 d) = (d <=? T).
Proof.
  intros Hd. unfold SYS_TIME_AFTER_EQ. destruct (s32_wrap T) as [k1 ->], (s32_wrap d) as [k2 ->].
  rewrite (s32_range _ (k2 - k1)) by lia. destruct (Z.leb_spec d T), (Z.leb_spec 0 (T - k1 * 2 ^ 32 - (d - k2 * 2 ^ 32) - (k2 - k1) * 2 ^ 32)); done || lia.
Qed.

(** a timeout is held up across the wrap-around of the clock.  The list
    is ordered by plain comparison, so a timeout whose deadline [d2] has
    wrapped is put before one due at [d1] before the wrap; until [d2] the
    latter is never run, although it is due from [d1] on. *)
Theorem eloop_wraparound_delays_timeout hd e0 n1 ms1 n2 ms2 x1 x2 f1 f2 a1 a2 u1 u2 T :
  wifi_eloop_init hd = Some e0 ->
  fresh_ops [TimerOps.Register n1 x1 ms1 f1 a1 u1; TimerOps.Register n2 x2 ms2 f2 a2 u2] e0 ->
  let d1 := n1 + ms1 in let d2 := n2 + ms2 in
  0 <= d1 < 2 ^ 32 -> 2 ^ 32 <= d2 < 2 ^ 32 + d1 -> d1 <= T < d2 -> d2 - T <= 2 ^ 31 ->
  exists e, run_ops [TimerOps.Register n1 x1 ms1 f1 a1 u1; TimerOps.Register n2 x2 ms2 f2 a2 u2] e0
      = Some ([TimerOps.RInt 0; TimerOps.RInt 0], e) /\
    eloop_timeout_handle (u32 T) e = Some (None, e) /\
    repr e [(x2, Timeout (u32 d2) a2 u2 f2); (x1, Timeout (u32 d1) a1 u1 f1)].
Proof.
  intros Hi Hf d1 d2 Hd1 Hd2 HT Hlate. destruct (init_repr hd) as (e1 & E1 & Hr & Ht).
  rewrite Hi in E1. injection E1 as <-. destruct (ops_refine _ e0 [] Hr Ht Hf) as (e & E & Hr' & _).
  cbn [steps TimerOps.step fst snd insert_entry time] in E, Hr'. fold d1 d2 in E, Hr'.
  assert (E1 : u32 d1 = d1) by (apply u32_small; unfold in_width; lia).
  assert (E2 : u32 d2 = d2 - 2 ^ 32).
  { unfold u32. rewrite <- (Z_mod_plus_full _ (-1)). apply Z.mod_small. lia. }
  rewrite (proj2 (Z.ltb_lt (u32 d2) (u32 d1))) in Hr' by lia.
  exists e. split; [exact E|]. split; [|done]. destruct (handle_ok (u32 T) e _ Hr') as (e' & Eh & _).
  cbn [TimerOps.due snd time] in Eh. rewrite (after_eq_wrap T d2) in Eh by lia.
  rewrite (proj2 (Z.leb_gt _ _)) in Eh by lia. by rewrite (handle_none _ _ _ Eh) in Eh.
Qed.

(** ** Dispatching and sleeping *)
Section dispatch.
Context (call : Z -> Z -> Z -> eloop -> option eloop).
Context (run_state_machine : eloop_message -> eloop -> option eloop).

Fixpoint call_all (evs : list eloop_event) e : option eloop :=
  match evs with
  | [] => Some e
  | ev :: evs => e' ← call (ev_handler ev) (ev_data ev) (ev_user ev) e; call_all evs e'
  end.

Lemma dispatch_walk_ok id fuel i e :
  (forall f a b e e', call f a b e = Some e' -> events e' = events e) ->
  (i <= length (events e) < fuel + i)%nat ->
  dispatch_walk call fuel id i e = call_all (filter (fun ev => ev_id ev = id) (drop i (events e))) e.
Proof.
  intros Hcall. revert i e. induction fuel as [|fuel IH]; intros i e Hf; [lia|]. cbn [dispatch_walk].
  destruct (events e !! i) as [ev|] eqn:Ei.
  - pose proof (lookup_lt_Some _ _ _ Ei). rewrite (drop_S _ _ _ Ei), filter_cons.
    destruct (Z.eqb_spec (ev_id ev) id) as [Hid|Hid].
    + rewrite decide_True by done. cbn [call_all].
      destruct (call _ _ _ e) as [e'|] eqn:Ec; [|done]. cbn [mbind option_bind].
      rewrite IH by (rewrite (Hcall _ _ _ _ _ Ec); lia). by rewrite (Hcall _ _ _ _ _ Ec).
    + rewrite decide_False by done. apply IH. lia.
  - rewrite drop_ge; [done|]. by apply lookup_ge_None.
Qed.

(** An event reaches the state machine first and then every handler
    registered for it, once each, in the order of registration (handlers that
    register or unregister events excepted); the wake-up event reaches none. *)
Lemma eloop_dispatch_calls_handlers msg e fuel :
  (forall f a b e e', call f a b e = Some e' -> events e' = events e) ->
  (forall ms e e', run_state_machine ms e = Some e' -> events e' = events e) ->
  (length (events e) < fuel)%nat -> ELOOP_EVENT_GET_EV (event_id msg) <> ELOOP_EVENT_TERMINATE ->
  eloop_event_dispatch call run_state_machine fuel msg e =
    if ELOOP_EVENT_GET_EV (event_id msg) =? ELOOP_EVENT_WAKEUP then Some e
    else e1 ← run_state_machine msg e;
         call_all (filter (fun ev => ev_id ev = event_id msg) (events e)) e1.
Proof.
  intros Hcall Hrsm Hf Ht. unfold eloop_event_dispatch. destruct (_ =? ELOOP_EVENT_WAKEUP); [done|].
  rewrite (proj2 (Z.eqb_neq _ _)) by done. destruct (run_state_machine msg e) as [e1|] eqn:E; [|done].
  cbn [mbind option_bind]. rewrite dispatch_walk_ok by (done || rewrite (Hrsm _ _ _ E); lia).
  by rewrite drop_0, (Hrsm _ _ _ E).
Qed.
End dispatch.

Lemma event_id_get vif ev : 0 <= vif < 16 -> 0 <= ev < 4096 ->
  ELOOP_EVENT_GET_EV (ELOOP_EVENT_ID vif ev) = ev /\ ELOOP_EVENT_GET_VIF (ELOOP_EVENT_ID vif ev) = vif.
Proof.
  intros Hv He. unfold ELOOP_EVENT_ID, ELOOP_EVENT_GET_EV, ELOOP_EVENT_GET_VIF.
  rewrite Z.shiftl_mul_pow2 by lia. rewrite u16_small by (unfold in_width; lia).
  change 0xFFF with (Z.ones 12). change 0xF with (Z.ones 4).
  rewrite !Z.land_ones by lia. rewrite Z.shiftr_div_pow2 by lia. Z.div_mod_to_equations. lia.
Qed.

(** termination.  The terminate message, once dispatched, stops the loop
    at the end of the round: from then on nothing runs and the interface
    refuses every new event, message and timeout. *)
Theorem eloop_terminates call rsm fuel e msg :
  wifi_eloop_terminate e = Some msg ->
  exists e', eloop_event_dispatch call rsm fuel msg e = Some e' /\ wifi_eloop_terminated e' = true /\
    (forall n rounds, wifi_eloop_run call rsm n rounds e' = Some e') /\
    (forall now a ms f d u, eloop_timeout_register now a ms f d u e' = Some (-1, e')) /\
    (forall ok id f d u, eloop_event_register ok id f d u e' = (-1, e')) /\
    (forall vif ev r p n, eloop_message_send vif ev r p n e' = None).
Proof.
  unfold wifi_eloop_terminate, eloop_event_send, eloop_message_send.
  destruct (terminate e); [discriminate|]. intros [= <-]. exists (with_terminate true e).
  unfold eloop_event_dispatch. cbn [event_id].
  destruct (event_id_get 0 ELOOP_EVENT_TERMINATE) as [-> _]; [lia|unfold ELOOP_EVENT_TERMINATE; lia|].
  split_and!; try done. intros n [|[[a b] c] rounds]; done.
Qed.

(** the task never sleeps past the first deadline.  It waits without
    limit only when no timeout is registered; otherwise it yields, or sleeps
    exactly until the deadline of the first timeout. *)
Theorem eloop_sleeps_until_deadline now e L w :
  repr e L -> Forall (fun p => is_u32 (time p.2)) L -> is_u32 now -> next_wait now e = Some w ->
  match w with
  | Wait ms => (L = [] /\ ms = 0) \/
               (exists x t L', L = (x, t) :: L' /\ 0 < ms < 2 ^ 32 /\ u32 (now + ms) = time t /\
                               SYS_TIME_AFTER_EQ now (time t) = false)
  | Yield => exists x t L', L = (x, t) :: L' /\ SYS_TIME_AFTER_EQ now (time t) = true
  end.
Proof.
  intros Hr Hu Hnow. pose proof Hr as [Hl Hm]. unfold next_wait, list_empty.
  rewrite (repr_first e L Hr). cbn [mbind option_bind].
  destruct L as [|[x t] L]; cbn [fmap list_fmap list.head from_option id fst] in *.
  { rewrite bool_decide_true by done. intros [= <-]. by left. }
  destruct (dlist_nodup _ _ [] _ _ Hl) as [Hxh _]. rewrite bool_decide_false by done.
  apply Forall_cons_1 in Hm as [Hx _]. apply Forall_cons_1 in Hu as [Ht _]. cbn [fst snd] in *.
  rewrite Hx. cbn [mbind option_bind]. unfold SYS_TIME_BEFORE, SYS_TIME_AFTER_EQ.
  destruct (Z.ltb_spec (s32 (s32 now - s32 (time t))) 0) as [Hlt|Hge].
  - unfold in_width in *. assert (Hne : u32 (time t - now) <> 0).
    { intros E. unfold u32 in E. change (2 ^ 32) with 4294967296 in *.
      assert (time t = now) as Heq by (Z.div_mod_to_equations; lia).
      rewrite Heq, Z.sub_diag in Hlt. vm_compute in Hlt. discriminate. }
    rewrite (proj2 (Z.eqb_neq _ _)) by done. intros [= <-]. right. exists x, t, L.
    split_and!; [done|pose proof (u32_range (time t - now)) as Hr'; unfold in_width in Hr'; lia|
      pose proof (u32_range (time t - now)) as Hr'; unfold in_width in Hr'; lia| |].
    + unfold u32. rewrite Zplus_mod_idemp_r. replace (now + (time t - now)) with (time t) by lia. apply Z.mod_small. lia.
    + by apply Z.leb_gt.
  - change (0 =? 0) with true. intros [= <-]. exists x, t, L. split; [done|]. by apply Z.leb_le.
Qed.

(** ** Concrete loops *)
Module EloopWitness.
Import TimerOps.
Definition hd0 : loc := 1%positive.
Definition loop0 : eloop := default (Eloop [] ∅ hd0 ∅ false) (wifi_eloop_init hd0).

Lemma loop0_init : wifi_eloop_init hd0 = Some loop0.
Proof. vm_compute. reflexivity. Qed.

(** Two timeouts, the second one earlier, one of them cancelled and registered
    again. *)
Definition ops0 : list op :=
  [Register 100 2%positive 500 1 0 0; Register 110 3%positive 50 2 0 7; Register 120 4%positive 10 1 5 0;
   Cancel 1 5 ELOOP_ALL_CTX; IsRegistered 2 0 7].

(** A computed check of [fresh_ops]. *)
Fixpoint fresh_check (os : list op) (e : eloop) : bool :=
  match os with
  | [] => true
  | o :: os =>
      (match o with Register _ node _ _ _ _ => bool_decide (heap e !! node = None) | _ => true end)
      && (match run o e with Some (_, e') => fresh_check os e' | None => true end)
  end.

Lemma fresh_check_ok os e : fresh_check os e = true -> fresh_ops os e.
Proof.
  revert e. induction os as [|o os IH]; intros e Hc; [done|]. cbn [fresh_check fresh_ops] in *.
  apply andb_true_iff in Hc as [Hp Hc]. split.
  - destruct o; try done. by apply bool_decide_eq_true in Hp.
  - intros r e' E. rewrite E in Hc. by apply IH.
Qed.

Lemma eloop_timers_refine_list_witness :
  exists e', run_ops ops0 loop0
    = Some ([RInt 0; RInt 0; RInt 0; RInt 1; RBool true], e') /\
    repr e' [(3%positive, Timeout 160 0 7 2); (2%positive, Timeout 600 0 0 1)].
Proof.
  destruct (eloop_timers_refine_list ops0 hd0 loop0) as (e' & E & Hr & _);
    [exact loop0_init|apply fresh_check_ok; vm_compute; reflexivity|].
  exists e'. split; [exact E|exact Hr].
Defined.

Lemma steps0 : (steps ops0 []).2 = [(3%positive, Timeout 160 0 7 2); (2%positive, Timeout 600 0 0 1)].
Proof. vm_compute. reflexivity. Qed.

Definition after0 : list result * eloop := default ([], loop0) (run_ops ops0 loop0).

Lemma eloop_runs_earliest_timeout_witness :
  exists fired e', eloop_timeout_handle 200 after0.2 = Some (fired, e') /\
    match fired with Some t => time t <= 200 | None => False end.
Proof.
  destruct (eloop_runs_earliest_timeout ops0 hd0 loop0 after0.1 after0.2 200 0) as (fired & e' & E & Hf);
    [exact loop0_init|apply fresh_check_ok; vm_compute; reflexivity|vm_compute; reflexivity|lia|lia|lia| |].
  - rewrite steps0. repeat apply Forall_cons_2; try apply Forall_nil_2; cbn; lia.
  - exists fired, e'. split; [exact E|]. destruct fired as [t|]; [exact (proj1 Hf)|].
    destruct Hf as [_ Hno]. rewrite steps0 in Hno. apply Forall_cons_1 in Hno as [Hno _]. cbn in Hno. lia.
Defined.

Lemma eloop_wraparound_delays_timeout_witness :
  exists e, run_ops [Register (2 ^ 32 - 200) 2%positive 100 1 0 0; Register (2 ^ 32 - 150) 3%positive 200 2 0 0] loop0
      = Some ([RInt 0; RInt 0], e) /\ eloop_timeout_handle (2 ^ 32 - 50) e = Some (None, e).
Proof.
  destruct (eloop_wraparound_delays_timeout hd0 loop0 (2 ^ 32 - 200) 100 (2 ^ 32 - 150) 200 2%positive 3%positive
              1 2 0 0 0 0 (2 ^ 32 - 50)) as (e & E & Eh & _);
    [exact loop0_init|apply fresh_check_ok; vm_compute; reflexivity|lia|lia|lia|lia|].
  exists e. split; [exact E|exact Eh].
Defined.

(** Handlers that leave the loop as it is. *)
Definition call0 (f a b : Z) (e : eloop) : option eloop := Some e.
Definition rsm0 (m : eloop_message) (e : eloop) : option eloop := Some e.
Definition listening : eloop := with_events [Event 1 2 3 17; Event 4 5 6 18; Event 7 8 9 17] loop0.

Lemma eloop_dispatch_calls_handlers_witness :
  eloop_event_dispatch call0 rsm0 4 (Message 17 0 0 0) listening
  = call_all call0 [Event 1 2 3 17; Event 7 8 9 17] listening.
Proof.
  rewrite (eloop_dispatch_calls_handlers call0 rsm0 (Message 17 0 0 0) listening 4);
    [reflexivity|intros f a b e e' [= <-]; reflexivity|intros m e e' [= <-]; reflexivity|simpl; lia|discriminate].
Defined.

Lemma eloop_terminates_witness :
  exists e', eloop_event_dispatch call0 rsm0 4 (Message 2 0 0 0) listening = Some e' /\ wifi_eloop_terminated e' = true.
Proof.
  destruct (eloop_terminates call0 rsm0 4 listening (Message 2 0 0 0)) as (e' & E & Ht & _);
    [vm_compute; reflexivity|]. exists e'. split; [exact E|exact Ht].
Defined.

Lemma eloop_sleeps_until_deadline_witness :
  next_wait 150 after0.2 = Some (Wait 10) /\ u32 (150 + 10) = 160.
Proof.
  assert (E : next_wait 150 after0.2 = Some (Wait 10)) by (vm_compute; reflexivity).
  split; [exact E|].
  destruct (init_repr hd0) as (e & Ei & Hr & Ht). rewrite loop0_init in Ei. injection Ei as <-.
  destruct (ops_refine ops0 loop0 [] Hr Ht) as (e' & E' & Hr' & _); [apply fresh_check_ok; vm_compute; reflexivity|].
  assert (Ea : after0.2 = e') by (unfold after0; rewrite E'; reflexivity). rewrite Ea in E.
  destruct (eloop_sleeps_until_deadline 150 e' _ (Wait 10) Hr') as [[Hn _]|(x & t & L' & HL & _ & Hu & _)];
    [rewrite steps0; repeat apply Forall_cons_2; try apply Forall_nil_2; unfold in_width; cbn; lia
    |unfold in_width; lia|exact E|rewrite steps0 in Hn; discriminate Hn|].
  rewrite Hu. rewrite steps0 in HL. injection HL as _ <- _. reflexivity.
Defined.
End EloopWitness.
