(* ===== verification/Ota.v ===== *)
(** * Firmware download over HTTP: [MSDK/app/ota_demo.c]

    The socket is a list of segments the peer has sent; [recv] delivers at most
    the length asked for and 0 once the peer has closed.  A C string is the
    memory from its first byte on; reading or writing past the end of a buffer
    is [Overflow], a loop that has not returned within the fuel is [Loops]. *)
From S2P Require Import Prelude Prog Flash Boot.

Inductive run (A : Type) := Returns (a : A) | Overflow | Loops.
Arguments Returns {A} a. Arguments Overflow {A}. Arguments Loops {A}.

#[export] Instance run_ret : MRet run := fun A a => Returns a.
#[export] Instance run_bind : MBind run := fun A B k m =>
  match m with Returns a => k a | Overflow => Overflow | Loops => Loops end.

Definition RECBUFFER_LEN : Z := 1516.
Definition OTA_SECTOR : Z := 0x1000.

(** "HTTP/1.", "Content-Length:", CR LF and CR LF CR LF. *)
Definition HTTP_1 : bytes := [72; 84; 84; 80; 47; 49; 46].
Definition CONTENT_LENGTH : bytes := [67; 111; 110; 116; 101; 110; 116; 45; 76; 101; 110; 103; 116; 104; 58].
Definition TERM : bytes := [13; 10].
Definition ENDING : bytes := TERM ++ TERM.
Definition SPACE : Z := 32.

(** ** String functions of the C library *)

(** Does the string start with the needle? *)
Fixpoint starts_with (needle s : bytes) : run bool :=
  match needle, s with
  | [], _ => Returns true
  | _, [] => Overflow
  | c :: needle, b :: s => if b =? c then starts_with needle s else Returns false
  end.

(** [strstr]: the offset of the first occurrence. *)
Fixpoint strstr (s needle : bytes) : run (option nat) :=
  match s with
  | [] => Overflow
  | b :: s' =>
      found ← starts_with needle s;
      if (found : bool) then Returns (Some 0%nat)
      else if b =? 0 then Returns None
      else r ← strstr s' needle; Returns (S <$> (r : option nat))
  end.

(** [while ( *p == ' ') p++] *)
Fixpoint skip_spaces (s : bytes) : run bytes :=
  match s with
  | [] => Overflow
  | b :: s' => if b =? SPACE then skip_spaces s' else Returns s
  end.

Definition is_digit (b : Z) : bool := (48 <=? b) && (b <=? 57).
Definition is_space (b : Z) : bool := (b =? SPACE) || ((9 <=? b) && (b <=? 13)).

Fixpoint atoi_digits (acc : Z) (s : bytes) : run Z :=
  match s with
  | [] => Overflow
  | b :: s => if is_digit b then atoi_digits (10 * acc + (b - 48)) s else Returns acc
  end.

Fixpoint atoi_spaces (s : bytes) : run bytes :=
  match s with
  | [] => Overflow
  | b :: s' => if is_space b then atoi_spaces s' else Returns s
  end.

Definition atoi (s : bytes) : run Z :=
  s ← atoi_spaces s;
  match s with
  | [] => Overflow
  | b :: s' =>
      if b =? 45 then n ← atoi_digits 0 s'; Returns (- n)
      else if b =? 43 then atoi_digits 0 s'
      else atoi_digits 0 s
  end.

(** ** Parsing the response header *)
Definition http_rsp_code (httpbuf : bytes) : run Z :=
  p ← strstr httpbuf HTTP_1;
  match p with
  | None => Returns (-1)
  | Some k =>
      p_start ← skip_spaces (drop (k + 8) httpbuf);
      p_end ← strstr p_start [SPACE];
      match p_end with
      | None => atoi (replicate 10 0)
      | Some n =>
          if (10 <? Z.of_nat n) then Returns (-2)
          else atoi (take n p_start ++ replicate (10 - n) 0)
      end
  end.

Definition http_hdr_len (httpbuf : bytes) : run Z :=
  p_end ← strstr httpbuf ENDING;
  match p_end with
  | None => Returns 0
  | Some k => Returns (Z.of_nat (k + length ENDING))
  end.

(** The copy into the ten-byte [bodyLenbuf] has no bound. *)
Definition http_body_len (httpbuf : bytes) : run Z :=
  p ← strstr httpbuf CONTENT_LENGTH;
  match p with
  | None => Returns 0
  | Some k =>
      p_start ← skip_spaces (drop (k + length CONTENT_LENGTH) httpbuf);
      p_end ← strstr p_start TERM;
      match p_end with
      | None => Returns 0
      | Some n =>
          if (10 <? Z.of_nat n) then Overflow
          else atoi (take n p_start ++ replicate (10 - n) 0)
      end
  end.

(** ** The socket *)
Inductive segment := Data (bs : bytes) | Error (code : Z).

(** [recv] of at most [len] bytes: the result and the data. *)
Definition recv (len : Z) (net : list segment) : Z * bytes * list segment :=
  match net with
  | [] => (0, [], [])
  | Error c :: net => (c, [], net)
  | Data bs :: net =>
      let n := Z.to_nat (u32 len) in
      if (length bs <=? n)%nat then (Z.of_nat (length bs), bs, net)
      else (u32 len, take n bs, Data (drop n bs) :: net)
  end.

(** Receiving into [recvbuf]. *)
Definition recv_into (len : Z) (recvbuf : bytes) (net : list segment) : run (Z * bytes * list segment) :=
  let '(n, bs, net') := recv len net in
  if RECBUFFER_LEN <? Z.of_nat (length bs) then Overflow
  else Returns (n, overwrite 0 bs recvbuf, net').

Definition EAGAIN : Z := 11.
Definition EWOULDBLOCK : Z := 11.

Section ota.
Context {D R : Type} `{FlashDev D, RomSys R}.
Implicit Types (d : D) (r : R).

(** [while (offset + new_img_addr + recv_len > erase_start_addr)]: sectors are
    erased until the data fits below [erase_start_addr]. *)
Fixpoint erase_until (fuel : nat) d (upto erase_start : Z) : run (Z * D * Z) :=
  if erase_start <? upto then
    match fuel with
    | O => Loops
    | S fuel =>
        let '(ret, d') := flash_erase d erase_start OTA_SECTOR in
        if negb (ret =? 0) then Returns (ret, d', erase_start)
        else erase_until fuel d' upto (u32 (erase_start + OTA_SECTOR))
    end
  else Returns (0, d, erase_start).

(** Storing one buffer: the result code, and the new offset and erase pointer. *)
Definition store (new_img_addr img_size offset recv_len erase_start : Z) (buf : bytes) d : run (Z * D * Z * Z) :=
  if 0 <? recv_len then
    if img_size <? offset + recv_len then Returns (-6, d, offset, erase_start)
    else
      '(ret, d1, erase') ← erase_until 512 d (u32 (offset + new_img_addr + recv_len)) erase_start;
      if negb (ret =? 0) then Returns (ret, d1, offset, erase')
      else
        let '(ret, d2) := flash_write d1 (new_img_addr + offset) (take (Z.to_nat recv_len) buf) in
        if negb (ret =? 0) then Returns (ret, d2, offset, erase')
        else Returns (0, d2, offset + recv_len, erase')
  else Returns (0, d, offset, erase_start).

(** The [do ... while (offset < body_len)] loop. *)
Fixpoint download (fuel : nat) (new_img_addr img_size body_len : Z) (recvbuf buf : bytes)
    (offset recv_len erase_start : Z) (net : list segment) d : run (Z * D) :=
  match fuel with
  | O => Loops
  | S fuel =>
      '(ret, d1, offset', erase') ← store new_img_addr img_size offset recv_len erase_start buf d;
      if negb (ret =? 0) then Returns (ret, d1)
      else
        let left := body_len - offset' in
        if left =? 0 then Returns (0, d1)
        else
          let want := if RECBUFFER_LEN <? left then RECBUFFER_LEN else left in
          '(n, recvbuf', net') ← recv_into want recvbuf net;
          if (n <? 0) && negb (n =? - EAGAIN) && negb (n =? - EWOULDBLOCK) then Returns (-7, d1)
          else if offset' <? body_len
               then download fuel new_img_addr img_size body_len recvbuf' recvbuf' offset' n erase' net' d1
               else Returns (0, d1)
  end.

Definition bank_addr (running_idx : Z) : Z := if running_idx =? IMAGE_0 then RE_IMG_1_OFFSET else RE_IMG_0_OFFSET.
Definition bank_size (running_idx : Z) : Z :=
  if running_idx =? IMAGE_0 then RE_IMG_1_END - RE_IMG_1_OFFSET else RE_IMG_1_OFFSET - RE_IMG_0_OFFSET.

(** [malloc_ok]: the receive buffer was allocated. *)
Definition http_rsp_image (fuel : nat) (malloc_ok : bool) (running_idx : Z) (net : list segment) d : run (Z * D) :=
  if negb malloc_ok then Returns (-1, d)
  else
    '(n, recvbuf, net') ← recv_into RECBUFFER_LEN (replicate (Z.to_nat RECBUFFER_LEN) 0) net;
    if n <=? 0 then Returns (-2, d)
    else
      code ← http_rsp_code recvbuf;
      if negb (code =? 200) then Returns (-3, d)
      else
        hdr_len ← http_hdr_len recvbuf;
        body_len ← http_body_len recvbuf;
        if bank_size running_idx <? u32 body_len then Returns (-4, d)
        else
          let recv_len := n - hdr_len in
          if recv_len <? 0 then Returns (-5, d)
          else download fuel (bank_addr running_idx) (bank_size running_idx) body_len recvbuf
                 (drop (Z.to_nat hdr_len) recvbuf) 0 recv_len (bank_addr running_idx) net' d.

(** [ota_demo_task] once the socket is connected; [request] is the result of
    [http_req_image].  The message printed at the end tells success. *)
Definition ota_demo_task (fuel : nat) (malloc_ok : bool) (request : Z) (net : list segment) d r : run (bool * D * R) :=
  let '(res, running) := rom_sys_status_get r SYS_RUNNING_IMG in
  if res <? 0 then Returns (false, d, r)
  else
    let running_idx := if res =? SYS_STATUS_FOUND_OK then running else IMAGE_0 in
    if negb (request =? 0) then Returns (false, d, r)
    else
      '(res, d1) ← http_rsp_image fuel malloc_ok running_idx net d;
      if res <? 0 then Returns (false, d1, r)
      else
        let '(res, r1) := apply_writes r (ota_switch_writes running_idx) in
        Returns (res =? 0, d1, r1).
End ota.

(** ** Parsing *)

(** [needle] occurs in [pre ++ needle] at the end only. *)
Definition first_occurrence (needle pre : bytes) : Prop :=
  Forall (fun j => ~ needle `prefix_of` drop j (pre ++ needle)) (seq 0 (length pre)).

Definition no_nul (s : bytes) : Prop := Forall (fun b => b <> 0) s.

Lemma starts_with_prefix needle rest : starts_with needle (needle ++ rest) = Returns true.
Proof. induction needle as [|c n IH]; [done|]. simpl. by rewrite Z.eqb_refl. Qed.

Lemma starts_with_not needle s rest :
  (length needle <= length s)%nat -> ~ needle `prefix_of` s ->
  starts_with needle (s ++ rest) = Returns false.
Proof.
  revert s. induction needle as [|c n IH]; intros s Hl Hn.
  { destruct Hn. apply prefix_nil. }
  destruct s as [|b s]; simpl in *; [lia|].
  destruct (Z.eqb_spec b c) as [->|]; [|done]. apply IH; [lia|].
  intros Hp. by apply Hn, prefix_cons.
Qed.

Lemma strstr_first needle pre rest :
  needle <> [] -> no_nul pre -> first_occurrence needle pre ->
  strstr (pre ++ needle ++ rest) needle = Returns (Some (length pre)).
Proof.
  unfold first_occurrence. intros Hne. induction pre as [|b pre IH]; intros Hz Hf.
  { destruct needle as [|c n]; [done|]. cbn [app strstr].
    change (c :: n ++ rest) with ((c :: n) ++ rest). by rewrite starts_with_prefix. }
  apply Forall_cons in Hz as [Hb Hz]. simpl in Hf. apply Forall_cons in Hf as [H0 Hf].
  cbn [app strstr]. change (b :: pre ++ needle ++ rest) with ((b :: pre) ++ needle ++ rest).
  rewrite (app_assoc (b :: pre)), starts_with_not; [|rewrite length_app; simpl; lia|done].
  cbn [mbind run_bind]. rewrite (proj2 (Z.eqb_neq b 0)) by done. rewrite IH; [done|done|].
  rewrite <- fmap_S_seq, Forall_fmap in Hf. eapply Forall_impl; [exact Hf|]. by intros j.
Qed.

(** A header in front of which nothing remains to be found: status line with
    code 200, one [Content-Length] with the decimal [digits], and the empty line. *)
Record response (hdr digits : bytes) : Prop := {
  rsp_nul : no_nul hdr;
  rsp_status : exists v m, hdr = HTTP_1 ++ v :: SPACE :: 50 :: 48 :: 48 :: SPACE :: m;
  rsp_length : exists pre post, hdr = pre ++ CONTENT_LENGTH ++ SPACE :: digits ++ TERM ++ post /\
    first_occurrence CONTENT_LENGTH pre;
  rsp_end : exists text, hdr = text ++ ENDING /\ first_occurrence ENDING text;
  rsp_digits : (0 < length digits < 10)%nat /\ forallb is_digit digits = true;
}.

Definition decimal (digits : bytes) : Z := foldl (fun acc b => 10 * acc + (b - 48)) 0 digits.

Lemma no_nul_app s t : no_nul (s ++ t) <-> no_nul s /\ no_nul t.
Proof. apply Forall_app. Qed.

Lemma atoi_digits_decimal acc digits rest b :
  forallb is_digit digits = true -> is_digit b = false ->
  atoi_digits acc (digits ++ b :: rest) = Returns (foldl (fun acc b => 10 * acc + (b - 48)) acc digits).
Proof.
  intros Hd Hb. revert acc Hd. induction digits as [|c ds IH]; intros acc; simpl.
  { by rewrite Hb. }
  intros [-> Hd]%andb_prop. by apply IH.
Qed.

Lemma digit_char c : is_digit c = true -> 48 <= c <= 57.
Proof. unfold is_digit. intros [?%Z.leb_le ?%Z.leb_le]%andb_prop. lia. Qed.

Lemma digit_plain c :
  48 <= c <= 57 -> is_space c = false /\ (c =? 45) = false /\ (c =? 43) = false /\ (c =? SPACE) = false /\ (c =? 13) = false.
Proof.
  unfold is_space, SPACE. intros Hc.
  rewrite (proj2 (Z.eqb_neq c 32)), (proj2 (Z.leb_gt c 13)), andb_false_r by lia.
  rewrite (proj2 (Z.eqb_neq c 45)), (proj2 (Z.eqb_neq c 43)), (proj2 (Z.eqb_neq c 13)) by lia. done.
Qed.

Lemma atoi_decimal digits rest :
  digits <> [] -> forallb is_digit digits = true -> atoi (digits ++ 0 :: rest) = Returns (decimal digits).
Proof.
  destruct digits as [|c ds]; [done|]. intros _ Hd. assert (Hc := Hd). simpl in Hc.
  apply andb_prop in Hc as [Hc%digit_char _].
  destruct (digit_plain c Hc) as (H1 & H2 & H3 & _).
  unfold atoi. cbn [app atoi_spaces]. rewrite H1. cbn [mbind run_bind]. rewrite H2, H3.
  change (c :: ds ++ 0 :: rest) with ((c :: ds) ++ 0 :: rest). by apply atoi_digits_decimal.
Qed.

Lemma digits_then_term digits rest :
  forallb is_digit digits = true -> strstr (digits ++ TERM ++ rest) TERM = Returns (Some (length digits)).
Proof.
  induction digits as [|c ds IH]; [done|]. cbn [forallb].
  intros [Hc%digit_char Hd]%andb_prop. destruct (digit_plain c Hc) as (_ & _ & _ & _ & H13).
  cbn [app strstr]. change (starts_with TERM (c :: ?s)) with (if c =? 13 then starts_with [10] s else Returns false).
  rewrite H13. cbn [mbind run_bind]. rewrite (proj2 (Z.eqb_neq c 0)) by lia. by rewrite IH.
Qed.

Section parse.
Context (hdr digits rest : bytes) (Hrsp : response hdr digits).

Lemma rsp_code_200 : http_rsp_code (hdr ++ rest) = Returns 200.
Proof.
  destruct Hrsp as [_ (v & m & ->) _ _ _]. unfold http_rsp_code.
  rewrite <- app_assoc. change (HTTP_1 ++ ?t) with ([] ++ HTTP_1 ++ t).
  rewrite strstr_first by (done || by apply Forall_nil_2). cbn. done.
Qed.

Lemma rsp_hdr_len : http_hdr_len (hdr ++ rest) = Returns (Z.of_nat (length hdr)).
Proof.
  destruct Hrsp as [Hz _ _ (text & -> & Hf) _]. unfold http_hdr_len.
  apply no_nul_app in Hz as [Hz _].
  rewrite <- app_assoc, strstr_first by done. cbn [mbind run_bind]. by rewrite length_app.
Qed.

Lemma rsp_body_len : http_body_len (hdr ++ rest) = Returns (decimal digits).
Proof.
  destruct Hrsp as [Hz _ (pre & post & -> & Hf) _ [Hl Hd]]. unfold http_body_len.
  apply no_nul_app in Hz as [Hz _].
  rewrite <- !app_assoc, strstr_first by done. cbn [mbind run_bind].
  rewrite app_assoc, drop_app_length' by (by rewrite length_app).
  cbn [app skip_spaces]. cbn [Z.eqb SPACE Pos.eqb].
  assert (Hs : skip_spaces ((digits ++ TERM ++ post) ++ rest) = Returns (digits ++ TERM ++ post ++ rest)).
  { rewrite <- !app_assoc. destruct digits as [|c ds]; [simpl in Hl; lia|]. simpl in Hd.
    apply andb_prop in Hd as [Hc%digit_char _]. cbn [app skip_spaces].
    destruct (digit_plain c Hc) as (_ & _ & _ & -> & _). done. }
  rewrite Hs. cbn [mbind run_bind]. rewrite digits_then_term by done. cbn [mbind run_bind].
  rewrite (proj2 (Z.ltb_ge _ _)) by lia. rewrite take_app_length.
  replace (10 - length digits)%nat with (S (9 - length digits)) by lia.
  apply atoi_decimal; [|done]. intros E. rewrite E in Hl. simpl in Hl. lia.
Qed.
End parse.

(** ** Storing the image *)
Section safety.
Context {D R : Type} `{FlashDev D, !FlashLaws D, RomSys R} (size : Z) `{!FlashReliable D size}.
Implicit Types (d : D).

Lemma erase_until_spec fuel d upto er hi :
  0 <= er -> er mod OTA_SECTOR = 0 -> hi mod OTA_SECTOR = 0 -> upto <= hi -> er <= hi ->
  hi <= size -> hi < 2 ^ 32 -> upto - er <= OTA_SECTOR * Z.of_nat fuel ->
  exists d' er', erase_until fuel d upto er = Returns (0, d', er') /\
    er' mod OTA_SECTOR = 0 /\ er <= er' <= hi /\ upto <= er' /\
    (forall x, cell d' x = erased (cell d) er (er' - er) x).
Proof.
  unfold OTA_SECTOR. intros Hp Hm Hh Hu He Hs Hw.
  revert d er Hp Hm He. induction fuel as [|fuel IH]; intros d er Hp Hm He Hf; simpl.
  all: destruct (Z.ltb_spec er upto) as [Hlt|Hge].
  - lia.
  - exists d, er. split_and!; try done; try lia. intros x. unfold erased. by rewrite decide_False by lia.
  - assert (Hr : er + 4096 <= hi) by (clear -Hm Hh Hu Hlt; Z.div_mod_to_equations; lia).
    pose proof (erase_ok d er OTA_SECTOR Hp ltac:(done) ltac:(unfold OTA_SECTOR; lia)) as Hok.
    destruct (flash_erase d er OTA_SECTOR) as [r d1] eqn:E. simpl in Hok. subst r. cbn [Z.eqb negb].
    rewrite u32_small by (unfold in_width, OTA_SECTOR; lia). unfold OTA_SECTOR in *.
    destruct (IH d1 (er + 4096)) as (d' & er' & E' & Hm' & Hr' & Hu' & Hc);
      [lia|clear -Hm; Z.div_mod_to_equations; lia|lia|lia|].
    exists d', er'. split_and!; try done; try lia. intros x. rewrite Hc. unfold erased.
    rewrite (erase_cells d d1 er 4096 x) by (done || by split). unfold erased.
    repeat case_decide; try lia; done.
  - exists d, er. split_and!; try done; try lia. intros x. unfold erased. by rewrite decide_False by lia.
Qed.

(** The bank: aligned, inside the flash. *)
Record region (a n : Z) : Prop := {
  region_start : 0 <= a; region_len : 0 <= n <= OTA_SECTOR * 512; region_end : a + n <= size /\ a + n < 2 ^ 31;
  region_aligned : a mod OTA_SECTOR = 0 /\ n mod OTA_SECTOR = 0 }.

(** The erase pointer is on a sector of the bank, at or above the write offset. *)
Record progress (a n offset er : Z) : Prop := {
  progress_offset : 0 <= offset <= n; progress_erase : a + offset <= er <= a + n;
  progress_aligned : er mod OTA_SECTOR = 0 }.

Lemma progress_init a n : region a n -> progress a n 0 a.
Proof. intros [? ? ? [? ?]]. by split; try lia. Qed.

Lemma store_skip a n offset len er buf d :
  len <= 0 -> store a n offset len er buf d = Returns (0, d, offset, er).
Proof. intros Hl. unfold store. by rewrite (proj2 (Z.ltb_ge 0 len)) by lia. Qed.

Lemma store_too_long a n offset len er buf d :
  0 < len -> n < offset + len -> store a n offset len er buf d = Returns (-6, d, offset, er).
Proof. intros Hl Hn. unfold store. by rewrite !(proj2 (Z.ltb_lt _ _)) by lia. Qed.

Lemma store_fits a n offset len er buf d :
  region a n -> progress a n offset er -> 0 < len <= Z.of_nat (length buf) -> offset + len <= n ->
  exists d' er', store a n offset len er buf d = Returns (0, d', offset + len, er') /\
    progress a n (offset + len) er' /\ er <= er' /\
    (forall x, cell d' x = programmed (erased (cell d) er (er' - er)) (a + offset) (take (Z.to_nat len) buf) x).
Proof.
  unfold OTA_SECTOR in *. intros [Ha Hn [He He2] [Ham Hnm]] [Ho Her Herm] Hl Hfit. unfold OTA_SECTOR in *.
  unfold store. rewrite (proj2 (Z.ltb_lt 0 len)), (proj2 (Z.ltb_ge _ _)) by lia.
  rewrite u32_small by (unfold in_width; lia).
  destruct (erase_until_spec 512 d (offset + a + len) er (a + n)) as (d1 & er' & -> & Hm' & Hr' & Hu' & Hc);
    unfold OTA_SECTOR; try done; try lia.
  { clear -Ham Hnm. Z.div_mod_to_equations. lia. }
  assert (Hld : length (take (Z.to_nat len) buf) = Z.to_nat len) by (rewrite length_take; lia).
  cbn [mbind run_bind Z.eqb negb].
  assert (Hne : take (Z.to_nat len) buf <> []) by (intros E0; rewrite E0 in Hld; simpl in Hld; lia).
  pose proof (write_ok d1 (a + offset) (take (Z.to_nat len) buf) ltac:(lia) Hne ltac:(rewrite Hld; lia)) as Hok.
  destruct (flash_write d1 (a + offset) _) as [r d2] eqn:E. simpl in Hok. subst r.
  exists d2, er'. cbn [Z.eqb negb]. split_and!; try done; try lia; [by split; try done; try lia|].
  intros x. rewrite (write_cells d1 d2 (a + offset) (take (Z.to_nat len) buf) x E).
  by apply programmed_ext.
Qed.

Lemma store_cases a n offset len er buf d :
  region a n -> progress a n offset er -> len <= Z.of_nat (length buf) ->
  exists ret d' offset' er', store a n offset len er buf d = Returns (ret, d', offset', er') /\
    progress a n offset' er' /\ (forall x, ~ a <= x < a + n -> cell d' x = cell d x).
Proof.
  intros Hr Hp Hl. destruct (Z_le_gt_dec len 0) as [Hle|Hgt].
  { rewrite store_skip by done. by exists 0, d, offset, er. }
  destruct (Z_lt_le_dec n (offset + len)) as [Hlt|Hfit].
  { rewrite store_too_long by lia. by exists (-6), d, offset, er. }
  destruct (store_fits a n offset len er buf d) as (d' & er' & E & Hp' & Her & Hc); [done..|lia|lia|].
  exists 0, d', (offset + len), er'. split_and!; [done|done|]. intros x Hx. rewrite Hc.
  destruct Hp as [? ? ?], Hp' as [? ? ?]. unfold programmed, erased.
  rewrite length_take. by rewrite !decide_False by lia.
Qed.

(** A segment carries data; an error is negative. *)
Definition segment_ok (s : segment) : Prop :=
  match s with Data bs => bs <> [] /\ bytes_ok bs | Error c => c < 0 end.

Lemma recv_into_bounded want buf net n buf' net' :
  length buf = Z.to_nat RECBUFFER_LEN -> Forall segment_ok net ->
  recv_into want buf net = Returns (n, buf', net') ->
  length buf' = Z.to_nat RECBUFFER_LEN /\ Forall segment_ok net' /\ n <= RECBUFFER_LEN.
Proof.
  unfold recv_into, RECBUFFER_LEN. intros Hl Hn.
  destruct (recv want net) as [[m bs] rest] eqn:E.
  destruct (Z.ltb_spec 1516 (Z.of_nat (length bs))) as [|Hb]; [done|]. intros [= <- <- <-].
  rewrite length_overwrite by lia. split; [done|].
  destruct net as [|[s|c] net]; simpl in E.
  - by injection E as <- <- <-.
  - apply Forall_cons in Hn as [[Hne Hs] Hn].
    destruct (Nat.leb_spec (length s) (Z.to_nat (u32 want))) as [Hle|Hgt]; injection E as <- <- <-.
    + split; [done|]. lia.
    + split; [apply Forall_cons_2; [split|done]|].
      * intros E. apply (f_equal length) in E. rewrite length_drop in E. simpl in E. lia.
      * by apply Forall_drop.
      * rewrite length_take in Hb. pose proof (u32_range want) as [? ?]. lia.
  - apply Forall_cons in Hn as [Hc Hn]. injection E as <- <- <-. split; [done|]. simpl in Hc. lia.
Qed.

Lemma download_outside fuel a n body_len recvbuf buf offset recv_len er net d r d' x :
  region a n -> progress a n offset er -> recv_len <= Z.of_nat (length buf) ->
  length recvbuf = Z.to_nat RECBUFFER_LEN -> Forall segment_ok net -> ~ a <= x < a + n ->
  download fuel a n body_len recvbuf buf offset recv_len er net d = Returns (r, d') -> cell d' x = cell d x.
Proof.
  intros Hr. revert recvbuf buf offset recv_len er net d.
  induction fuel as [|fuel IH]; intros recvbuf buf offset recv_len er net d Hp Hl Hrb Hn Hx; simpl; [done|].
  destruct (store_cases a n offset recv_len er buf d Hr Hp Hl) as (ret & d1 & off' & er' & -> & Hp' & Hout).
  cbn [mbind run_bind]. rewrite <- (Hout x Hx).
  destruct (ret =? 0); cbn [negb]; [|by intros [= _ <-]].
  destruct (body_len - off' =? 0); [by intros [= _ <-]|].
  destruct (recv_into _ recvbuf net) as [[[m buf'] net']| |] eqn:E; cbn [mbind run_bind]; [|done|done].
  apply recv_into_bounded in E as (Hb' & Hn' & Hm); [|done|done].
  destruct (_ && _ && _); [by intros [= _ <-]|].
  destruct (off' <? body_len); [|by intros [= _ <-]].
  apply IH; try done. rewrite Hb'. unfold RECBUFFER_LEN in *. lia.
Qed.

(** The bank being downloaded to. *)
Lemma bank_region idx : RE_IMG_1_END <= size -> region (bank_addr idx) (bank_size idx).
Proof.
  unfold RE_IMG_1_END. intros Hs. unfold bank_addr, bank_size.
  destruct (idx =? IMAGE_0); split; unfold OTA_SECTOR, RE_IMG_0_OFFSET, RE_IMG_1_OFFSET, RE_IMG_1_END;
    try split; try done; lia.
Qed.


(** ** A complete download *)

Lemma take_overwrite_0 (bs l : bytes) : take (length bs) (overwrite 0 bs l) = bs.
Proof. unfold overwrite. simpl. by rewrite take_app_length. Qed.

(** The rest of the stream [concat parts] is received in order. *)
Lemma recv_into_stream want buf parts :
  0 < want <= RECBUFFER_LEN -> length buf = Z.to_nat RECBUFFER_LEN ->
  Forall (fun p => p <> []) parts -> parts <> [] ->
  exists m buf' parts', recv_into want buf (Data <$> parts) = Returns (Z.of_nat m, buf', Data <$> parts') /\
    (0 < m)%nat /\ Z.of_nat m <= want /\ (m <= length (concat parts))%nat /\
    length buf' = Z.to_nat RECBUFFER_LEN /\ take m buf' = take m (concat parts) /\
    concat parts' = drop m (concat parts) /\ Forall (fun p => p <> []) parts'.
Proof.
  unfold RECBUFFER_LEN. intros Hw Hl Hne Hp. destruct parts as [|s parts]; [done|].
  apply Forall_cons in Hne as [Hs Hne]. assert (0 < length s)%nat by (destruct s; simpl; [done|lia]).
  unfold recv_into, recv. cbn [fmap list_fmap concat]. rewrite u32_small by (unfold in_width; lia).
  destruct (Nat.leb_spec (length s) (Z.to_nat want)) as [Hle|Hgt].
  - unfold RECBUFFER_LEN. rewrite (proj2 (Z.ltb_ge _ _)) by lia.
    eexists (length s), _, parts. split; [reflexivity|].
    rewrite length_app, length_overwrite, take_overwrite_0, take_app_length, drop_app_length by lia.
    split_and!; try done; lia.
  - assert (Hlt : length (take (Z.to_nat want) s) = Z.to_nat want) by (rewrite length_take; lia).
    unfold RECBUFFER_LEN. rewrite (proj2 (Z.ltb_ge _ _)) by lia.
    eexists (Z.to_nat want), _, (drop (Z.to_nat want) s :: parts).
    split; [rewrite Z2Nat.id by lia; reflexivity|].
    rewrite length_app, length_overwrite by lia. rewrite take_app_le, drop_app_le by lia.
    rewrite <- Hlt at 4. rewrite take_overwrite_0. split_and!; try done; try lia.
    apply Forall_cons_2; [|done]. intros E. apply (f_equal length) in E.
    rewrite length_drop in E. simpl in E. lia.
Qed.

(** The state of a transfer of [body] that is on course. *)
Record receiving (a n : Z) (body : bytes) (offset er : Z) (d : D) : Prop := {
  rcv_progress : progress a n offset er;
  rcv_stored : forall i, (i < Z.to_nat offset)%nat -> body !! i = Some (cell d (a + Z.of_nat i));
  rcv_blank : forall x, a + offset <= x < er -> cell d x = 0xFF }.

Lemma store_receiving a n body offset er d len buf :
  region a n -> bytes_ok body -> Z.of_nat (length body) <= n -> receiving a n body offset er d ->
  0 <= len <= Z.of_nat (length buf) -> offset + len <= Z.of_nat (length body) ->
  take (Z.to_nat len) buf = take (Z.to_nat len) (drop (Z.to_nat offset) body) ->
  exists d' er', store a n offset len er buf d = Returns (0, d', offset + len, er') /\
    receiving a n body (offset + len) er' d'.
Proof.
  intros Hr Hb Hn [Hp Hs Hbl] Hl Hfit Hbuf. destruct (Z.eq_dec len 0) as [->|Hne].
  { rewrite store_skip by done. exists d, er. by rewrite Z.add_0_r. }
  destruct (store_fits a n offset len er buf d Hr Hp) as (d' & er' & -> & Hp' & Her & Hc); [lia|lia|].
  exists d', er'. split; [done|]. destruct Hp as [Ho1 Ho2 _]. pose proof (progress_erase _ _ _ _ Hp') as He'.
  assert (Hlt : length (take (Z.to_nat len) buf) = Z.to_nat len) by (rewrite length_take; lia).
  split; [done| |].
  - intros i Hi. rewrite Hc. unfold programmed, erased. rewrite Hlt.
    destruct (decide (a + offset <= a + Z.of_nat i < a + offset + Z.of_nat (Z.to_nat len))) as [Hx|Hx].
    + assert (Hff : (if decide (er <= a + Z.of_nat i < er + (er' - er)) then 0xFF else cell d (a + Z.of_nat i)) = 0xFF).
      { case_decide; [done|]. apply Hbl. lia. }
      rewrite Hff, Hbuf. destruct (lookup_lt_is_Some_2 body i) as [b Hbi]; [lia|]. rewrite Hbi. f_equal.
      rewrite nth_lookup, lookup_take, decide_True, lookup_drop by lia.
      replace (Z.to_nat offset + Z.to_nat (a + Z.of_nat i - (a + offset)))%nat with i by lia.
      rewrite Hbi. simpl. rewrite Z.land_comm. change 255 with (Z.ones 8). rewrite Z.land_ones by lia.
      symmetry. apply Z.mod_small. rewrite Forall_forall in Hb. by eapply Hb, list_elem_of_lookup_2.
    + rewrite decide_False by lia. apply Hs. lia.
  - intros x Hx. rewrite Hc. unfold programmed, erased. rewrite Hlt. rewrite decide_False by lia.
    case_decide; [done|]. apply Hbl. lia.
Qed.

Lemma download_completes fuel a n body recvbuf buf offset len er parts d :
  region a n -> bytes_ok body -> Z.of_nat (length body) <= n -> receiving a n body offset er d ->
  0 <= len <= Z.of_nat (length buf) -> offset + len <= Z.of_nat (length body) ->
  take (Z.to_nat len) buf = take (Z.to_nat len) (drop (Z.to_nat offset) body) ->
  concat parts = drop (Z.to_nat (offset + len)) body -> Forall (fun p => p <> []) parts ->
  length recvbuf = Z.to_nat RECBUFFER_LEN ->
  Z.of_nat (length body) - (offset + len) < Z.of_nat fuel ->
  exists d', download fuel a n (Z.of_nat (length body)) recvbuf buf offset len er (Data <$> parts) d = Returns (0, d') /\
    forall i, (i < length body)%nat -> body !! i = Some (cell d' (a + Z.of_nat i)).
Proof.
  intros Hr Hb Hn. revert recvbuf buf offset len er parts d.
  induction fuel as [|fuel IH]; intros recvbuf buf offset len er parts d Hrc Hl Hfit Hbuf Hc Hp Hrb Hf; [lia|].
  cbn [download].
  destruct (store_receiving a n body offset er d len buf) as (d1 & er' & -> & Hrc'); [done..|].
  cbn [mbind run_bind Z.eqb negb]. pose proof (progress_offset _ _ _ _ (rcv_progress _ _ _ _ _ _ Hrc')) as Ho.
  destruct (Z.eqb_spec (Z.of_nat (length body) - (offset + len)) 0) as [E0|E0].
  { exists d1. split; [done|]. intros i Hi. apply (rcv_stored _ _ _ _ _ _ Hrc'). lia. }
  set (want := if RECBUFFER_LEN <? _ then RECBUFFER_LEN else _).
  assert (Hw : 0 < want <= RECBUFFER_LEN /\ want <= Z.of_nat (length body) - (offset + len)).
  { unfold want, RECBUFFER_LEN. destruct (Z.ltb_spec 1516 (Z.of_nat (length body) - (offset + len))); lia. }
  clearbody want. destruct (recv_into_stream want recvbuf parts) as (m & buf' & parts' & -> & Hm0 & Hmw & Hmc & Hbl & Hbt & Hc' & Hp');
    [lia|done|done| |].
  { intros ->. simpl in Hc. apply (f_equal length) in Hc. rewrite length_drop in Hc. simpl in Hc. lia. }
  cbn [mbind run_bind]. rewrite (proj2 (Z.ltb_ge _ 0)) by lia. cbn [andb].
  rewrite (proj2 (Z.ltb_lt _ _)) by lia.
  apply IH; try done; try lia.
  - by rewrite Nat2Z.id, Hbt, Hc.
  - rewrite Hc', Hc, drop_drop. f_equal. lia.
Qed.

(** The part of [http_rsp_image] before the loop, for a well-formed header. *)
Lemma rsp_image_enters fuel idx hdr digits part parts d :
  response hdr digits -> 0 <= decimal digits <= bank_size idx ->
  (length hdr + length part <= Z.to_nat RECBUFFER_LEN)%nat ->
  exists recvbuf, length recvbuf = Z.to_nat RECBUFFER_LEN /\
    (length part <= length (drop (length hdr) recvbuf))%nat /\
    take (length part) (drop (length hdr) recvbuf) = part /\
    http_rsp_image fuel true idx (Data (hdr ++ part) :: parts) d =
      download fuel (bank_addr idx) (bank_size idx) (decimal digits) recvbuf (drop (length hdr) recvbuf)
        0 (Z.of_nat (length part)) (bank_addr idx) parts d.
Proof.
  unfold RECBUFFER_LEN. intros Hrsp Hd Hl. unfold http_rsp_image, recv_into, recv. cbn [negb].
  rewrite u32_small by (unfold in_width, RECBUFFER_LEN; lia). rewrite (proj2 (Nat.leb_le _ _)) by (rewrite length_app; unfold RECBUFFER_LEN; lia).
  rewrite (proj2 (Z.ltb_ge _ _)) by (rewrite length_app; unfold RECBUFFER_LEN; lia).
  set (recvbuf := overwrite 0 (hdr ++ part) _). exists recvbuf.
  assert (Hrl : length recvbuf = Z.to_nat 1516).
  { unfold recvbuf. rewrite length_overwrite; rewrite length_replicate; [done|]. rewrite length_app. unfold RECBUFFER_LEN. lia. }
  assert (Hbuf : exists rest, recvbuf = hdr ++ part ++ rest).
  { unfold recvbuf, overwrite. simpl. rewrite <- app_assoc. by eexists. }
  clearbody recvbuf. destruct Hbuf as [rest ->]. rewrite drop_app_length, !length_app in *.
  split; [done|]. split; [lia|]. split; [by rewrite take_app_length|].
  assert (Hh : (0 < length hdr)%nat) by (destruct (rsp_status _ _ Hrsp) as (v & m & ->); simpl; lia).
  cbn [mbind run_bind]. rewrite (proj2 (Z.leb_gt _ 0)) by lia.
  rewrite (rsp_code_200 hdr digits _ Hrsp). cbn [mbind run_bind Z.eqb Pos.eqb negb].
  rewrite (rsp_hdr_len hdr digits _ Hrsp), (rsp_body_len hdr digits _ Hrsp). cbn [mbind run_bind].
  assert (Hbs : bank_size idx < 2 ^ 31) by (unfold bank_size; by destruct (_ =? _)).
  rewrite u32_small, (proj2 (Z.ltb_ge (bank_size idx) _)) by (unfold in_width; lia).
  rewrite (proj2 (Z.ltb_ge _ 0)) by lia. rewrite Nat2Z.id, drop_app_length. f_equal. lia.
Qed.

(** However the image is split over the first and the following segments, the
    client returns 0 and the idle bank holds the image. *)
Lemma image_downloaded fuel idx hdr digits (image part : bytes) (parts : list bytes) d :
  RE_IMG_1_END <= size -> response hdr digits -> decimal digits = Z.of_nat (length image) ->
  Z.of_nat (length image) <= bank_size idx -> bytes_ok image ->
  (length hdr + length part <= Z.to_nat RECBUFFER_LEN)%nat ->
  part ++ concat parts = image -> Forall (fun p => p <> []) parts -> (length image < fuel)%nat ->
  exists d', http_rsp_image fuel true idx (Data <$> (hdr ++ part) :: parts) d = Returns (0, d') /\
    cells d' (bank_addr idx) (length image) = image.
Proof.
  intros Hs Hrsp Hd Hn Hb Hl Himg Hp Hf. pose proof (bank_region idx Hs) as Hr.
  assert (Hil : length image = (length part + length (concat parts))%nat) by (by rewrite <- Himg, length_app).
  destruct (rsp_image_enters fuel idx hdr digits part (Data <$> parts) d Hrsp)
    as (recvbuf & Hrb & Hpl & Hpt & E); [lia|done|].
  cbn [fmap list_fmap]. change (list_fmap _ _ Data parts) with (Data <$> parts). rewrite E, Hd.
  destruct (download_completes fuel (bank_addr idx) (bank_size idx) image recvbuf (drop (length hdr) recvbuf)
    0 (Z.of_nat (length part)) (bank_addr idx) parts d) as (d' & E' & Hc); try done; try lia.
  - split; [by apply progress_init|lia|lia].
  - rewrite Nat2Z.id, Hpt. change (Z.to_nat 0) with 0%nat. by rewrite drop_0, <- Himg, take_app_length.
  - by rewrite Z.add_0_l, Nat2Z.id, <- Himg, drop_app_length.
  - exists d'. split; [done|]. apply list_eq. intros i.
    destruct (decide (i < length image)%nat) as [Hi|Hi].
    + rewrite cells_lookup by done. symmetry. by apply Hc.
    + rewrite !lookup_ge_None_2; [done|lia|rewrite length_cells; lia].
Qed.

(** After the three flag writes the boot loader selects the other image. *)
Lemma switch_selects_all :
  forallb (fun i => forallb (fun s0 => forallb (fun s1 =>
    bool_decide (select_st (write_sts (s0, s1) (ota_switch_writes i)) = Some (other_idx i)))
    low5_range) low5_range) [0; 1] = true.
Proof. vm_compute. reflexivity. Qed.

Lemma switch_selects i s : is_image i -> select_st (write_sts s (ota_switch_writes i)) = Some (other_idx i).
Proof.
  intros Hi. rewrite <- select_low5, <- low5_writes, select_low5.
  pose proof switch_selects_all as Hall. rewrite forallb_forall in Hall. specialize (Hall i).
  assert (Hin : In i [0; 1]) by (destruct Hi as [->| ->]; simpl; auto).
  specialize (Hall Hin). rewrite forallb_forall in Hall. specialize (Hall _ (low5_in_range s.1)).
  rewrite forallb_forall in Hall. specialize (Hall _ (low5_in_range s.2)).
  by apply bool_decide_eq_true in Hall.
Qed.

Section update.
Context `{RomView R, !RomLaws R} (overhead : Z) (sh : ibl_state_t) (sv : Z).
Implicit Types (r : R).

End update.

(** Once the peer has closed, [recv] returns 0 for ever. *)
Lemma download_waits fuel a n body_len recvbuf buf offset er d :
  0 <= offset < body_len -> length recvbuf = Z.to_nat RECBUFFER_LEN ->
  download fuel a n body_len recvbuf buf offset 0 er [] d = Loops.
Proof.
  intros Ho. revert recvbuf buf. induction fuel as [|fuel IH]; intros recvbuf buf Hrb; [done|].
  cbn [download]. rewrite store_skip by done. cbn [mbind run_bind Z.eqb negb].
  rewrite (proj2 (Z.eqb_neq _ 0)) by lia. cbn [recv_into recv length Z.of_nat]. cbn.
  rewrite (proj2 (Z.ltb_lt offset body_len)) by lia. by apply IH.
Qed.

(** a server that closes the connection before the image is complete
    hangs the client: [recv] returns 0, which is neither stored nor taken for
    an error, and the loop asks again, whatever the number of iterations. *)
Theorem early_close_hangs fuel idx hdr digits part d :
  RE_IMG_1_END <= size -> response hdr digits ->
  Z.of_nat (length part) < decimal digits <= bank_size idx ->
  (length hdr + length part <= Z.to_nat RECBUFFER_LEN)%nat ->
  http_rsp_image fuel true idx [Data (hdr ++ part)] d = Loops.
Proof.
  intros Hs Hrsp Hd Hl. pose proof (bank_region idx Hs) as Hr.
  destruct (rsp_image_enters fuel idx hdr digits part [] d Hrsp) as (recvbuf & Hrb & Hpl & Hpt & ->); [lia|done|].
  destruct fuel as [|fuel]; [done|]. cbn [download].
  assert (Hst : exists d1 er', store (bank_addr idx) (bank_size idx) 0 (Z.of_nat (length part)) (bank_addr idx)
    (drop (length hdr) recvbuf) d = Returns (0, d1, Z.of_nat (length part), er')).
  { destruct part as [|b part]; [rewrite store_skip by done; by eexists _, _|].
    destruct (store_fits (bank_addr idx) (bank_size idx) 0 (Z.of_nat (length (b :: part))) (bank_addr idx)
      (drop (length hdr) recvbuf) d Hr (progress_init _ _ Hr)) as (d1 & er' & E & _); [simpl in *; lia|lia|].
    by exists d1, er'. }
  destruct Hst as (d1 & er' & ->). cbn [mbind run_bind Z.eqb negb].
  rewrite (proj2 (Z.eqb_neq _ 0)) by lia. cbn [recv_into recv length Z.of_nat]. cbn.
  rewrite (proj2 (Z.ltb_lt _ (decimal digits))) by lia. apply download_waits; [lia|done].
Qed.
End safety.

(** ** Concrete instances *)
Module OtaWitness.
#[local] Existing Instances Nor.nor_laws Nor.nor_reliable BootWitness.rom_sys BootWitness.rom_view BootWitness.rom_laws.
Definition flash_size : Z := 0x400000.
#[local] Instance dev : FlashDev Nor.nor := Nor.nor_dev flash_size.

Definition status_line : bytes := HTTP_1 ++ [48; 32; 50; 48; 48; 32; 79; 75] ++ TERM.
(** "Content-Type: x" *)
Definition type_line : bytes := [67; 111; 110; 116; 101; 110; 116; 45; 84; 121; 112; 101; 58; 32; 120] ++ TERM.
Definition header : bytes := status_line ++ type_line ++ CONTENT_LENGTH ++ SPACE :: [49; 50] ++ TERM ++ TERM.

Lemma header_ok : response header [49; 50].
Proof.
  split.
  - unfold no_nul. by apply (bool_decide_unpack _); vm_compute.
  - exists 48, ([79; 75] ++ TERM ++ type_line ++ CONTENT_LENGTH ++ SPACE :: [49; 50] ++ TERM ++ TERM). reflexivity.
  - exists (status_line ++ type_line), TERM. split; [reflexivity|].
    unfold first_occurrence. by apply (bool_decide_unpack _); vm_compute.
  - exists (status_line ++ type_line ++ CONTENT_LENGTH ++ SPACE :: [49; 50]). split; [reflexivity|].
    unfold first_occurrence. by apply (bool_decide_unpack _); vm_compute.
  - split; [simpl; lia|reflexivity].
Qed.

Definition image : bytes := [1; 2; 3; 4; 5; 6; 7; 8; 9; 10; 11; 12].

(** Image 0 runs; bank 1 is to hold a new image of version 4. *)
Definition r0 : BootWitness.rom := BootWitness.Rom (Some 0x03) None 0 3 (Some 3) (Some 4).


Lemma early_close_hangs_witness (fuel := 1000%nat) :
  http_rsp_image fuel true IMAGE_1 [Data (header ++ take 3 image)] (∅ : Nor.nor) = Loops.
Proof.
  apply (early_close_hangs flash_size fuel IMAGE_1 header [49; 50] (take 3 image) ∅).
  - by vm_compute.
  - exact header_ok.
  - split; by vm_compute.
  - apply Nat.leb_le. by vm_compute.
Defined.

End OtaWitness.
