(* ===== verification/DfuCli.v ===== *)
(** * Firmware update over BLE, the client: [MSDK/ble/app/app_dfu_cli.c]

    The client reads its own image 1 from flash and drives the server of
    [Dfu.v] through the protocol.  [deliver] connects the two: the GATT write
    at the head of the client's queue reaches the server, the server's
    notifications reach the client, and a data write is confirmed to it. *)
From S2P Require Import Prelude Prog Flash Boot Dfu.

Definition CMD_MAX_LEN : Z := 128.

Inductive ble_dfu_cli_state_t :=
  | DFU_STATE_CLI_IDLE
  | DFU_STATE_CLI_MODE_SET
  | DFU_STATE_CLI_IMAGE_SIZE_GET
  | DFU_STATE_CLI_DFU_STARTED
  | DFU_STATE_CLI_VERIFICATION
  | DFU_STATE_CLI_REBOOT.

#[export] Instance cli_state_eq_dec : EqDecision ble_dfu_cli_state_t.
Proof. solve_decision. Defined.

Record dfu_cli_env_t := CliEnv {
  cli_state : ble_dfu_cli_state_t;
  img_total_size : Z;
  cli_offset : Z;
  cli_sha256 : bytes }.

Definition zero_cli : dfu_cli_env_t := CliEnv DFU_STATE_CLI_IDLE 0 0 [].

Definition app_dfu_cli_state_set (st : ble_dfu_cli_state_t) (e : dfu_cli_env_t) : dfu_cli_env_t :=
  CliEnv st (img_total_size e) (cli_offset e) (cli_sha256 e).

Definition app_dfu_cli_state_check (e : dfu_cli_env_t) (st : ble_dfu_cli_state_t) : bool :=
  bool_decide (cli_state e = st).

Definition dfu_cli_cmd_cb : list (Z * Z) :=
  [(2, 10000); (5, DFU_TIMEOUT_DEFAULT); (1, 60000); (33, DFU_TIMEOUT_DEFAULT);
   (1, DFU_TIMEOUT_DEFAULT); (2, DFU_TIMEOUT_DEFAULT)].

(** A write to the control or to the data characteristic. *)
Inductive cli_write := WCmd (p : bytes) | WData (p : bytes).

(** Client, its flash, its timer, and the writes the peer has not seen yet. *)
Record dfu_cli (D : Type) := DfuCli {
  cli_env : dfu_cli_env_t; cli_flash : D; cli_timer : option Z; writes : list cli_write }.
Arguments DfuCli {D}. Arguments cli_env {D}. Arguments cli_flash {D}.
Arguments cli_timer {D}. Arguments writes {D}.

Section client.
Context {D : Type} `{FlashDev D}.
Context (sha256 : bytes -> bytes).
Abbreviation cli := (dfu_cli D).
Implicit Types (c : cli) (e : dfu_cli_env_t).

Definition with_cli_env e c : cli := DfuCli e (cli_flash c) (cli_timer c) (writes c).
Definition with_cli_timer (t : option Z) c : cli := DfuCli (cli_env c) (cli_flash c) t (writes c).
Definition send_write (w : cli_write) c : cli := DfuCli (cli_env c) (cli_flash c) (cli_timer c) (writes c ++ [w]).

Definition app_dfu_cli_reset c : cli := with_cli_timer None (with_cli_env zero_cli c).

Definition start_cli_timer (opcode : Z) c : cli :=
  with_cli_timer (Some (dfu_cli_cmd_cb !!! Z.to_nat opcode).2) c.

(** [cmd] zero-filled, the opcode and parameters put in front, cut to the
    length of the command table. *)
Definition command (opcode : Z) (params : bytes) : bytes :=
  take (Z.to_nat (dfu_cli_cmd_cb !!! Z.to_nat opcode).1)
    (overwrite 0 (opcode :: params) (replicate (Z.to_nat CMD_MAX_LEN) 0)).

(** [raw_flash_read] of image 1 into the zero-filled [data] of the stack. *)
Definition read_image (d : D) (offset len : Z) : Z * bytes :=
  let '(ret, bs) := flash_read d (RE_IMG_1_OFFSET + offset) len in
  (ret, overwrite 0 bs (replicate (Z.to_nat BLE_TRANSMIT_SIZE) 0)).

(** Hash, send and count [len] bytes of [data]. *)
Definition send_data (data : bytes) (len : Z) c : cli :=
  let e := cli_env c in
  let bs := take (Z.to_nat len) data in
  with_cli_env (CliEnv (cli_state e) (img_total_size e) (u32 (cli_offset e + len)) (cli_sha256 e ++ bs))
    (send_write (WData bs) c).

(** The cases of the switch; [None] of the command: nothing is written. *)
Definition cli_next (opcode : Z) (from to : ble_dfu_cli_state_t) (cmd : bytes) c : cli :=
  if negb (app_dfu_cli_state_check (cli_env c) from) then c
  else
    let c1 := start_cli_timer opcode c in
    send_write (WCmd cmd) (with_cli_env (app_dfu_cli_state_set to (cli_env c1)) c1).

Definition cli_start_data c : cli :=
  if negb (app_dfu_cli_state_check (cli_env c) DFU_STATE_CLI_DFU_STARTED) then c
  else
    let '(_, data) := read_image (cli_flash c) (cli_offset (cli_env c)) BLE_TRANSMIT_SIZE in
    let c1 := start_cli_timer DFU_OPCODE_START_DFU (send_data data BLE_TRANSMIT_SIZE c) in
    with_cli_env (app_dfu_cli_state_set DFU_STATE_CLI_VERIFICATION (cli_env c1)) c1.

Definition app_dfu_cli_control_cb (p_data : bytes) c : option cli :=
  opcode ← p_data !! 0%nat;
  result ← p_data !! 1%nat;
  let c := with_cli_timer None c in
  let e := cli_env c in
  Some (
    if negb (opcode =? DFU_OPCODE_RESET) && negb (result =? DFU_ERROR_NO_ERROR) then app_dfu_cli_reset c
    else if opcode =? DFU_OPCODE_MODE then
      cli_next opcode DFU_STATE_CLI_MODE_SET DFU_STATE_CLI_IMAGE_SIZE_GET
        (command DFU_OPCODE_IMAGE_SIZE (le 4 (img_total_size e))) c
    else if opcode =? DFU_OPCODE_IMAGE_SIZE then
      cli_next opcode DFU_STATE_CLI_IMAGE_SIZE_GET DFU_STATE_CLI_DFU_STARTED (command DFU_OPCODE_START_DFU []) c
    else if opcode =? DFU_OPCODE_START_DFU then cli_start_data c
    else if opcode =? DFU_OPCODE_VERIFICATION then
      cli_next opcode DFU_STATE_CLI_VERIFICATION DFU_STATE_CLI_REBOOT (command DFU_OPCODE_REBOOT []) c
    else if opcode =? DFU_OPCODE_REBOOT then
      if negb (app_dfu_cli_state_check e DFU_STATE_CLI_REBOOT) then c
      else start_cli_timer opcode (app_dfu_cli_reset c)
    else if opcode =? DFU_OPCODE_RESET then app_dfu_cli_reset c
    else c).

Definition app_dfu_cli_send_verification_cmd c : cli :=
  send_write (WCmd (command DFU_OPCODE_VERIFICATION (sha256 (cli_sha256 (cli_env c))))) c.

(** A data write was confirmed. *)
Definition app_dfu_cli_data_tx_cb c : cli :=
  let e := cli_env c in
  let left := u32 (img_total_size e - cli_offset e) in
  let len := if BLE_TRANSMIT_SIZE <? left then BLE_TRANSMIT_SIZE else left in
  if negb (app_dfu_cli_state_check e DFU_STATE_CLI_VERIFICATION) then c
  else if 0 <? len then
    let '(ret, data) := read_image (cli_flash c) (cli_offset e) len in
    if ret <? 0 then app_dfu_cli_reset c
    else
      let c1 := send_data data len c in
      if cli_offset (cli_env c1) =? img_total_size (cli_env c1)
      then app_dfu_cli_send_verification_cmd c1 else c1
  else c.

Definition app_dfu_cli_disconn_cb c : cli := app_dfu_cli_reset c.

Definition app_dfu_cli_ota_timer_timeout_cb c : cli :=
  let c1 := send_write (WCmd [DFU_OPCODE_RESET; DFU_ERROR_TIMEOUT]) c in
  with_cli_env (app_dfu_cli_state_set DFU_STATE_CLI_IDLE (cli_env c1)) c1.

(** [write_ok], [param_ok]: the mode command and the connection parameter
    request were accepted. *)
Definition app_ble_dfu_start (img_size : Z) (write_ok param_ok : bool) c : cli :=
  if negb (app_dfu_cli_state_check (cli_env c) DFU_STATE_CLI_IDLE) then c
  else
    let c1 := with_cli_env (CliEnv DFU_STATE_CLI_IDLE img_size 0 []) (app_dfu_cli_reset c) in
    if negb write_ok then c1
    else
      let c2 := send_write (WCmd (take (Z.to_nat (dfu_cli_cmd_cb !!! Z.to_nat DFU_OPCODE_MODE).1)
                                   [DFU_OPCODE_MODE; DFU_MODE_BLE])) c1 in
      if negb param_ok then c2
      else with_cli_env (CliEnv DFU_STATE_CLI_MODE_SET img_size 0 []) c2.

Definition app_dfu_cli_init (d : D) : cli := app_dfu_cli_reset (DfuCli zero_cli d None []).
Definition app_dfu_cli_deinit c : cli := app_dfu_cli_reset c.

Inductive cli_event :=
  | CliStart (img_size : Z) (write_ok param_ok : bool)
  | CliResponse (p_data : bytes)
  | CliDataSent
  | CliDisconnect
  | CliTimer.

Definition dfu_cli_step (ev : cli_event) c : option cli :=
  match ev with
  | CliStart n w p => Some (app_ble_dfu_start n w p c)
  | CliResponse p => app_dfu_cli_control_cb p c
  | CliDataSent => Some (app_dfu_cli_data_tx_cb c)
  | CliDisconnect => Some (app_dfu_cli_disconn_cb c)
  | CliTimer => Some (app_dfu_cli_ota_timer_timeout_cb c)
  end.

(** ** Client and server connected *)
Section link.
Context {R : Type} `{RomSys R} (buf : bytes).
Implicit Types (s : dfu_sys D R).

(** [buf] is what the server's [sys_malloc] returns for the start command. *)
Definition alloc_for (p : bytes) : option bytes :=
  if bool_decide (p !! 0%nat = Some DFU_OPCODE_START_DFU) then Some buf else None.

Definition server_event (w : cli_write) : dfu_event :=
  match w with WCmd p => EvControl (alloc_for p) p | WData p => EvData p end.

(** The notifications the client receives, oldest first. *)
Fixpoint notify (rsps : list (Z * Z)) c : option cli :=
  match rsps with
  | [] => Some c
  | (opcode, code) :: rsps => c' ← app_dfu_cli_control_cb [opcode; code] c; notify rsps c'
  end.

(** The oldest write is delivered; nothing happens when there is none. *)
Definition deliver c s : option (cli * dfu_sys D R) :=
  match writes c with
  | [] => Some (c, s)
  | w :: ws =>
      s' ← dfu_srv_step sha256 (server_event w) s;
      c' ← notify (drop (length (sent s)) (sent s')) (DfuCli (cli_env c) (cli_flash c) (cli_timer c) ws);
      Some (match w with WData _ => app_dfu_cli_data_tx_cb c' | WCmd _ => c' end, s')
  end.

Fixpoint link_run (fuel : nat) c s : option (cli * dfu_sys D R) :=
  match fuel with
  | O => Some (c, s)
  | S fuel => '(c', s') ← deliver c s; link_run fuel c' s'
  end.
End link.
End client.

(** ** The client keeps to the protocol *)
Section safety.
Context {D R : Type} `{FlashDev D, RomSys R} `{!FlashLaws D} (size : Z) `{!FlashReliable D size}.
Context (sha256 : bytes -> bytes).
Hypothesis size_flash : RE_IMG_1_END + FLASH_WRITE_SIZE <= size.
Hypothesis sha256_length : forall m, length (sha256 m) = 32%nat.
Context (img buf : bytes).
Implicit Types (s : dfu_sys D R) (c : dfu_cli D) (d : D).

(** The server's answers to the commands of a transfer. *)
Lemma start_mode s i : initial s -> rom_sys_status_get (rom s) SYS_RUNNING_IMG = (SYS_STATUS_FOUND_OK, i) ->
  exists s', dfu_srv_step sha256 (EvControl None [DFU_OPCODE_MODE; DFU_MODE_BLE]) s = Some s' /\
    state (env s') = DFU_STATE_SRV_MODE_GET /\ sent s' = sent s ++ [(DFU_OPCODE_MODE, 0)].
Proof.
  intros Hi Hr. destruct s as [e d r t m x]. unfold initial in Hi. cbn [env rom] in Hi, Hr. subst e.
  cbn [dfu_srv_step]. rewrite (control_cmd _ None _ _ DFU_OPCODE_MODE (2, 10000)) by done.
  cbn [dispatch Z.eqb Pos.eqb DFU_OPCODE_MODE]. unfold cmd_mode. simpl lookup.
  cbn [mbind option_bind env rom with_timer zero_env state app_dfu_srv_state_check].
  rewrite Hr. cbn. eexists. split; [reflexivity|]. done.
Qed.

Lemma start_size s : state (env s) = DFU_STATE_SRV_MODE_GET ->
  exists s', dfu_srv_step sha256 (EvControl None (DFU_OPCODE_IMAGE_SIZE :: le 4 (Z.of_nat (length img)))) s = Some s' /\
    state (env s') = DFU_STATE_SRV_IMAGE_SIZE_GET /\ sent s' = sent s ++ [(DFU_OPCODE_IMAGE_SIZE, 0)].
Proof.
  intros Hst. cbn [dfu_srv_step]. rewrite (control_cmd _ None _ _ DFU_OPCODE_IMAGE_SIZE (5, DFU_TIMEOUT_DEFAULT)) by done.
  cbn [dispatch Z.eqb Pos.eqb DFU_OPCODE_MODE DFU_OPCODE_IMAGE_SIZE]. unfold cmd_image_size, app_dfu_srv_state_check.
  cbn [env with_timer]. rewrite Hst, bool_decide_true by done. cbn [negb]. cbv iota. cbn [mbind option_bind].
  eexists. split; [reflexivity|]. done.
Qed.

Lemma start_transfer s : state (env s) = DFU_STATE_SRV_IMAGE_SIZE_GET ->
  exists s', dfu_srv_step sha256 (EvControl (Some buf) [DFU_OPCODE_START_DFU]) s = Some s' /\
    sent s' = sent s ++ [(DFU_OPCODE_START_DFU, 0)].
Proof.
  intros Hst. cbn [dfu_srv_step]. rewrite (control_cmd _ (Some buf) _ _ DFU_OPCODE_START_DFU (1, 60000)) by done.
  cbn [dispatch Z.eqb Pos.eqb DFU_OPCODE_MODE DFU_OPCODE_IMAGE_SIZE DFU_OPCODE_START_DFU].
  unfold cmd_start_dfu, app_dfu_srv_state_check.
  cbn [env with_timer]. rewrite Hst, bool_decide_true by done. cbn [negb]. cbv iota. cbn [mbind option_bind].
  eexists. split; [reflexivity|]. done.
Qed.

Lemma finish_verification s : received_all img s ->
  exists s', dfu_srv_step sha256 (EvControl None (DFU_OPCODE_VERIFICATION :: sha256 img)) s = Some s' /\
    state (env s') = DFU_STATE_SRV_VERIFICATION_PASS /\ sent s' = sent s ++ [(DFU_OPCODE_VERIFICATION, 0)].
Proof.
  intros (Hst & Hctx & _). cbn [dfu_srv_step].
  rewrite (control_cmd _ None _ _ DFU_OPCODE_VERIFICATION (33, DFU_TIMEOUT_DEFAULT))
    by (try done; cbn [length fst]; by rewrite sha256_length).
  cbn [dispatch Z.eqb Pos.eqb DFU_OPCODE_MODE DFU_OPCODE_IMAGE_SIZE DFU_OPCODE_START_DFU DFU_OPCODE_VERIFICATION].
  unfold cmd_verification, app_dfu_srv_state_check. cbn [env with_timer].
  rewrite Hst, bool_decide_true by done. cbn [negb]. cbv iota.
  change (slice 1 32 (DFU_OPCODE_VERIFICATION :: sha256 img)) with (take 32 (sha256 img)).
  rewrite take_ge by (rewrite sha256_length; lia). rewrite Hctx, bool_decide_true by done.
  cbn [mbind option_bind]. eexists. split; [reflexivity|]. done.
Qed.

Lemma finish_reboot s : state (env s) = DFU_STATE_SRV_VERIFICATION_PASS ->
  exists s', dfu_srv_step sha256 (EvControl None [DFU_OPCODE_REBOOT]) s = Some s' /\
    sent s' = sent s ++ [(DFU_OPCODE_REBOOT, 0)].
Proof.
  intros Hst. cbn [dfu_srv_step]. rewrite (control_cmd _ None _ _ DFU_OPCODE_REBOOT (1, DFU_TIMEOUT_DEFAULT)) by done.
  cbn [dispatch Z.eqb Pos.eqb DFU_OPCODE_MODE DFU_OPCODE_IMAGE_SIZE DFU_OPCODE_START_DFU DFU_OPCODE_VERIFICATION DFU_OPCODE_REBOOT].
  unfold cmd_reboot, app_dfu_srv_state_check. cbn [env with_timer].
  rewrite Hst, bool_decide_true by done. cbn [negb]. cbv iota. cbn [mbind option_bind].
  eexists. split; [reflexivity|]. done.
Qed.

(** A data write is not answered. *)
Lemma data_silent p s s' : state (env s) = DFU_STATE_SRV_DFU_STARTED ->
  dfu_srv_step sha256 (EvData p) s = Some s' -> sent s' = sent s.
Proof.
  cbn [dfu_srv_step]. unfold app_dfu_srv_data_cb, app_dfu_srv_state_check. intros ->.
  rewrite bool_decide_true by done. cbn [negb]. cbv iota. destruct (p_tem_buf _); try done.
  destruct (_ <? _); [done|]. intros [= <-]. unfold check_finished.
  repeat match goal with |- context [if ?b then _ else _] => destruct b end; done.
Qed.

(** *** The client's side *)
Context (dA : D).
Hypothesis img_stored : cells dA RE_IMG_1_OFFSET (length img) = img.
Hypothesis img_large : 128 < Z.of_nat (length img) <= RE_IMG_1_OFFSET - RE_IMG_0_OFFSET.

Lemma img_bytes : bytes_ok img.
Proof. rewrite <- img_stored. apply cells_ok. Qed.

Lemma read_image_slice (o n : nat) :
  (0 < n <= 128)%nat -> (o + n <= length img)%nat ->
  exists data, read_image dA (Z.of_nat o) (Z.of_nat n) = (0, data) /\ take n data = slice o n img.
Proof.
  unfold RE_IMG_0_OFFSET, RE_IMG_1_OFFSET, RE_IMG_1_END, FLASH_WRITE_SIZE in *. intros Hn Ho. unfold read_image.
  pose proof (read_ok dA (RE_IMG_1_OFFSET + Z.of_nat o) (Z.of_nat n)) as Hok. unfold RE_IMG_1_OFFSET in *.
  destruct (flash_read dA _ _) as [ret bs] eqn:E. simpl in Hok. rewrite Hok in * by lia.
  apply read_cells in E as ->; [|lia]. rewrite Nat2Z.id. eexists. split; [done|].
  set (bs := cells _ _ n). assert (Hl : length bs = n) by apply length_cells.
  rewrite <- Hl at 1. change (length bs) with (0 + length bs)%nat.
  rewrite take_overwrite by (rewrite Hl, length_replicate; unfold BLE_TRANSMIT_SIZE; lia). rewrite take_0, app_nil_l.
  rewrite <- img_stored. unfold bs. apply list_eq. intros k.
  destruct (decide (k < n)%nat).
  - rewrite slice_lookup, !cells_lookup by lia. do 2 f_equal. lia.
  - rewrite !lookup_ge_None_2; [done| |by rewrite length_cells; lia].
    unfold slice. rewrite length_take. lia.
Qed.

(** The end of chunk [j] in the image. *)
Definition chunk_end (j : nat) : Z := Z.min (128 * Z.of_nat (S j)) (Z.of_nat (length img)).

(** The client has handed over everything up to [o]. *)
Definition cli_at (o : Z) (t : option Z) (ws : list cli_write) : dfu_cli D :=
  DfuCli (CliEnv DFU_STATE_CLI_VERIFICATION (Z.of_nat (length img)) o (take (Z.to_nat o) img)) dA t ws.

(** Chunk [j] and, after the last one, the digest. *)
Definition queued (j : nat) : list cli_write :=
  WData (chunk_at img j) ::
  (if decide (128 * Z.of_nat (S j) < Z.of_nat (length img)) then []
   else [WCmd (DFU_OPCODE_VERIFICATION :: sha256 img)]).

Lemma verification_command : command DFU_OPCODE_VERIFICATION (sha256 img) = DFU_OPCODE_VERIFICATION :: sha256 img.
Proof.
  unfold command. set (p := DFU_OPCODE_VERIFICATION :: sha256 img).
  assert (Hp : length p = 33%nat) by (unfold p; simpl; by rewrite sha256_length).
  change (Z.to_nat (dfu_cli_cmd_cb !!! Z.to_nat DFU_OPCODE_VERIFICATION).1) with 33%nat.
  rewrite <- Hp. change (length p) with (0 + length p)%nat.
  rewrite take_overwrite by (rewrite Hp, length_replicate; unfold CMD_MAX_LEN; lia). by rewrite take_0.
Qed.

Lemma tx_step j t ws : 128 * Z.of_nat (S j) < Z.of_nat (length img) ->
  app_dfu_cli_data_tx_cb sha256 (cli_at (chunk_end j) t ws) = cli_at (chunk_end (S j)) t (ws ++ queued (S j)).
Proof.
  unfold RE_IMG_0_OFFSET, RE_IMG_1_OFFSET in *. intros Hj. set (n := length img) in *.
  assert (Eo : chunk_end j = Z.of_nat (128 * S j)) by (unfold chunk_end; fold n; lia).
  destruct (chunk_length img (S j) Hj) as [Hlen Hslice]. fold n in Hlen.
  set (len := length (chunk_at img (S j))) in *.
  unfold app_dfu_cli_data_tx_cb, cli_at. rewrite Eo. cbn [cli_env img_total_size cli_offset cli_flash]. fold n.
  rewrite (u32_small (_ - _)) by (unfold in_width; lia).
  unfold app_dfu_cli_state_check. cbn [cli_state]. rewrite bool_decide_true by done. cbn [negb].
  assert (El : (if BLE_TRANSMIT_SIZE <? Z.of_nat n - Z.of_nat (128 * S j) then BLE_TRANSMIT_SIZE
    else Z.of_nat n - Z.of_nat (128 * S j)) = Z.of_nat len).
  { unfold BLE_TRANSMIT_SIZE. destruct (Z.ltb_spec 128 (Z.of_nat n - Z.of_nat (128 * S j))); lia. }
  rewrite El, (proj2 (Z.ltb_lt 0 _)) by lia.
  destruct (read_image_slice (128 * S j) len) as (data & -> & Hdata); [lia|fold n; lia|].
  cbn [Z.ltb Z.compare]. unfold send_data. cbn [cli_env with_cli_env send_write cli_flash cli_timer writes
    cli_state img_total_size cli_offset cli_sha256].
  rewrite (Nat2Z.id len), Hdata, <- Hslice. rewrite u32_small by (unfold in_width; lia).
  assert (Ee : Z.of_nat (128 * S j) + Z.of_nat len = chunk_end (S j)) by (unfold chunk_end; fold n; lia).
  assert (Ectx : take (Z.to_nat (Z.of_nat (128 * S j))) img ++ chunk_at img (S j) = take (Z.to_nat (chunk_end (S j))) img).
  { rewrite <- Ee, Nat2Z.id, Hslice, slice_prefix. f_equal. lia. }
  rewrite Ee, Ectx. unfold queued. fold n.
  destruct (Z.eqb_spec (chunk_end (S j)) (Z.of_nat n)) as [En|En].
  - rewrite decide_False by (unfold chunk_end in En; fold n in En; lia).
    unfold app_dfu_cli_send_verification_cmd, send_write. cbn [cli_env cli_sha256 cli_flash cli_timer writes].
    cbn [cli_env with_cli_env cli_sha256 cli_flash cli_timer writes]. rewrite En, Nat2Z.id.
    rewrite (take_ge img) by done.
    by rewrite verification_command, <- app_assoc.
  - rewrite decide_True by (unfold chunk_end in En; fold n in En; lia). done.
Qed.

Lemma tx_done t ws : app_dfu_cli_data_tx_cb sha256 (cli_at (Z.of_nat (length img)) t ws) = cli_at (Z.of_nat (length img)) t ws.
Proof. unfold app_dfu_cli_data_tx_cb. cbn. by rewrite Z.sub_diag. Qed.

(** One data write delivered. *)
Lemma deliver_data p t ws o s s' :
  state (env s) = DFU_STATE_SRV_DFU_STARTED -> app_dfu_srv_data_cb p s = Some s' ->
  deliver sha256 buf (cli_at o t (WData p :: ws)) s = Some (app_dfu_cli_data_tx_cb sha256 (cli_at o t ws), s').
Proof.
  intros Hst E. unfold deliver. cbn [writes cli_at server_event dfu_srv_step].
  rewrite E. cbn [mbind option_bind]. rewrite (data_silent p s s') by done.
  by rewrite drop_all.
Qed.

(** One command delivered and acknowledged. *)
Lemma deliver_cmd e d t p ws op s s' :
  dfu_srv_step sha256 (EvControl (alloc_for buf p) p) s = Some s' -> sent s' = sent s ++ [(op, 0)] ->
  deliver sha256 buf (DfuCli e d t (WCmd p :: ws)) s =
    (c ← app_dfu_cli_control_cb [op; 0] (DfuCli e d t ws); Some (c, s')).
Proof.
  intros E Hs. unfold deliver. cbn [writes server_event cli_env cli_flash cli_timer]. rewrite E. cbn [mbind option_bind].
  rewrite Hs, drop_app_length. cbn [notify]. by destruct (app_dfu_cli_control_cb _ _).
Qed.

(** All the chunks from [j] on. *)
Lemma link_chunks m j n s b t :
  on_course n img j s b -> 0 <= n -> n + 128 * Z.of_nat (S m) < 2 ^ 31 ->
  Z.of_nat (length img) <= 128 * Z.of_nat (j + S m) -> 128 * Z.of_nat (j + m) < Z.of_nat (length img) ->
  exists s', link_run sha256 buf (S m) (cli_at (chunk_end j) t (queued j)) s =
      Some (cli_at (Z.of_nat (length img)) t [WCmd (DFU_OPCODE_VERIFICATION :: sha256 img)], s') /\
    dfu_srv_run sha256 (EvData <$> (chunk_at img <$> seq j (S m))) s = Some s' /\ received_all img s'.
Proof.
  revert j n s b. induction m as [|m IH]; intros j n s b Hoc Hn0 Hn Hlast Hm;
    destruct (chunk_step size sha256 size_flash n img j s b Hoc img_bytes ltac:(lia) Hn0) as (s1 & E1 & _ & _ & Hnext);
    pose proof (sd_state _ _ _ (oc_started _ _ _ _ _ Hoc)) as Hst;
    cbn [seq fmap list_fmap dfu_srv_run dfu_srv_step link_run]; rewrite E1; unfold queued at 1;
    rewrite (deliver_data _ _ _ _ _ _ Hst E1); cbn [mbind option_bind].
  - rewrite decide_False in Hnext by lia. rewrite decide_False by lia. exists s1. split_and!; try done.
    replace (chunk_end j) with (Z.of_nat (length img)) by (unfold chunk_end; lia). by rewrite tx_done.
  - rewrite decide_True in Hnext by lia. destruct Hnext as [b' Hoc']. rewrite decide_True by lia.
    rewrite tx_step by lia. cbn [app]. by destruct (IH (S j) (n + 128) s1 b' Hoc') as (s2 & E2 & R2 & F2);
      [lia|lia|lia|lia|exists s2].
Qed.

Lemma link_run_add a b c s :
  link_run sha256 buf (a + b) c s = ('(c', s') ← link_run sha256 buf a c s; link_run sha256 buf b c' s').
Proof.
  revert c s. induction a as [|a IH]; intros c s; [done|]. cbn [Nat.add link_run].
  destruct (deliver sha256 buf c s) as [[c' s']|]; [|done]. cbn [mbind option_bind]. apply IH.
Qed.

(** The client's reaction to each acknowledgement. *)
Abbreviation waiting st t ws := (DfuCli (CliEnv st (Z.of_nat (length img)) 0 []) dA t ws).

Lemma on_mode t : app_dfu_cli_control_cb [DFU_OPCODE_MODE; 0] (waiting DFU_STATE_CLI_MODE_SET t []) =
  Some (waiting DFU_STATE_CLI_IMAGE_SIZE_GET (Some 10000) [WCmd (DFU_OPCODE_IMAGE_SIZE :: le 4 (Z.of_nat (length img)))]).
Proof. reflexivity. Qed.

Lemma on_size t : app_dfu_cli_control_cb [DFU_OPCODE_IMAGE_SIZE; 0] (waiting DFU_STATE_CLI_IMAGE_SIZE_GET t []) =
  Some (waiting DFU_STATE_CLI_DFU_STARTED (Some 500) [WCmd [DFU_OPCODE_START_DFU]]).
Proof. reflexivity. Qed.

Lemma on_started t : app_dfu_cli_control_cb [DFU_OPCODE_START_DFU; 0] (waiting DFU_STATE_CLI_DFU_STARTED t []) =
  Some (cli_at (chunk_end 0) (Some 60000) (queued 0)).
Proof.
  destruct (read_image_slice 0 128) as (data & E & Hd); [lia|lia|].
  unfold app_dfu_cli_control_cb. cbn [lookup list_lookup mbind option_bind]. f_equal.
  cbn [Z.eqb Pos.eqb negb andb DFU_OPCODE_START_DFU DFU_OPCODE_RESET DFU_ERROR_NO_ERROR DFU_OPCODE_MODE DFU_OPCODE_IMAGE_SIZE].
  unfold cli_start_data, app_dfu_cli_state_check. cbn [cli_env with_cli_timer cli_state cli_flash cli_offset].
  rewrite bool_decide_true by done. cbn [negb]. change BLE_TRANSMIT_SIZE with (Z.of_nat 128). change (Z.of_nat 0) with 0 in E.
  rewrite E. unfold send_data. rewrite Nat2Z.id, Hd. unfold queued, cli_at. rewrite decide_True by lia.
  replace (chunk_end 0) with 128 by (unfold chunk_end; lia). unfold chunk_at. cbn. done.
Qed.

Lemma on_verified t :
  app_dfu_cli_control_cb [DFU_OPCODE_VERIFICATION; 0] (cli_at (Z.of_nat (length img)) t []) =
  Some (DfuCli (app_dfu_cli_state_set DFU_STATE_CLI_REBOOT (cli_env (cli_at (Z.of_nat (length img)) t []))) dA (Some 500)
          [WCmd [DFU_OPCODE_REBOOT]]).
Proof. reflexivity. Qed.

Lemma on_reboot t e : app_dfu_cli_control_cb [DFU_OPCODE_REBOOT; 0]
    (DfuCli (app_dfu_cli_state_set DFU_STATE_CLI_REBOOT e) dA t []) = Some (DfuCli zero_cli dA (Some 500) []).
Proof. reflexivity. Qed.

(** The number of chunks. *)
Lemma chunk_count_spec : exists m, chunk_count img = S m /\ Z.of_nat (length img) <= 128 * Z.of_nat (S m) /\
  128 * Z.of_nat m < Z.of_nat (length img).
Proof.
  unfold chunk_count. exists (Z.to_nat ((Z.of_nat (length img) + 127) / 128 - 1)).
  Z.div_mod_to_equations. lia.
Qed.

(** The transfer of the whole image, seen from both ends and as the run of the
    server alone. *)
Lemma link_transfer i s0 :
  initial s0 -> bytes_ok buf -> Z.of_nat (length buf) = FLASH_WRITE_SIZE ->
  rom_sys_status_get (rom s0) SYS_RUNNING_IMG = (SYS_STATUS_FOUND_OK, i) ->
  exists s, link_run sha256 buf (5 + chunk_count img)
      (app_ble_dfu_start (Z.of_nat (length img)) true true (app_dfu_cli_init dA)) s0 =
      Some (DfuCli zero_cli dA (Some 500) [], s) /\
    dfu_srv_run sha256 (dfu_session sha256 img buf) s0 = Some (app_dfu_srv_disconn_cb (app_dfu_srv_ind_cb true s)).
Proof.
  intros Hi Hbuf Hlb Hrom.
  destruct (session_start size sha256 size_flash img buf i s0 Hi img_bytes) as (s3' & E3' & Hoc & _);
    [lia|done|done|done|].
  destruct (start_mode s0 i Hi Hrom) as (s1 & E1 & Hs1 & Hq1).
  destruct (start_size s1 Hs1) as (s2 & E2 & Hs2 & Hq2).
  destruct (start_transfer s2 Hs2) as (s3 & E3 & Hq3).
  cbn [dfu_srv_run] in E3'. rewrite E1 in E3'. cbn [mbind option_bind] in E3'.
  rewrite E2 in E3'. cbn [mbind option_bind] in E3'. rewrite E3 in E3'. injection E3' as <-.
  destruct chunk_count_spec as (m & Em & Hm1 & Hm2).
  unfold RE_IMG_0_OFFSET, RE_IMG_1_OFFSET in img_large.
  destruct (link_chunks m 0 0 s3 buf (Some 60000) Hoc) as (s4 & E4 & R4 & F4); [lia|lia|lia|lia|].
  destruct (finish_verification s4 F4) as (s5 & E5 & Hs5 & Hq5).
  destruct (finish_reboot s5 Hs5) as (s6 & E6 & Hq6).
  exists s6. split.
  - rewrite Em. replace (5 + S m)%nat with (3 + (S m + 2))%nat by lia. rewrite link_run_add.
    change (app_ble_dfu_start _ true true _) with (waiting DFU_STATE_CLI_MODE_SET None [WCmd [DFU_OPCODE_MODE; DFU_MODE_BLE]]).
    cbn [link_run]. rewrite (deliver_cmd _ _ _ _ _ DFU_OPCODE_MODE s0 s1 E1 Hq1), on_mode. cbn [mbind option_bind].
    rewrite (deliver_cmd _ _ _ _ _ DFU_OPCODE_IMAGE_SIZE s1 s2 E2 Hq2), on_size. cbn [mbind option_bind].
    rewrite (deliver_cmd _ _ _ _ _ DFU_OPCODE_START_DFU s2 s3 E3 Hq3), on_started. cbn [mbind option_bind].
    rewrite link_run_add, E4. cbn [mbind option_bind link_run]. unfold cli_at at 1.
    rewrite (deliver_cmd _ _ _ _ _ DFU_OPCODE_VERIFICATION s4 s5 E5 Hq5).
    change (DfuCli (CliEnv _ _ _ _) dA ?t []) with (cli_at (Z.of_nat (length img)) t []). rewrite on_verified. cbn [mbind option_bind].
    rewrite (deliver_cmd _ _ _ _ _ DFU_OPCODE_REBOOT s5 s6 E6 Hq6), on_reboot. done.
  - unfold dfu_session. cbn [app dfu_srv_run]. rewrite E1. cbn [mbind option_bind]. rewrite E2. cbn [mbind option_bind].
    rewrite E3. cbn [mbind option_bind]. rewrite run_app. unfold chunks. rewrite Em, R4. cbn [mbind option_bind dfu_srv_run].
    rewrite E5. cbn [mbind option_bind]. rewrite E6. done.
Qed.

(** C8: two devices, one update.  Image 1 of the client's flash is sent with
    [app_ble_dfu_start]; with every write delivered in order, every
    notification delivered and every data write confirmed, after
    [5 + chunk_count img] deliveries the client is idle with nothing left to
    send, and once the server's last indication is confirmed and the link is
    closed, the server's other bank holds the image, its flags are switched
    and it restarts. *)
Theorem dfu_transfers_image i s0 :
  initial s0 -> bytes_ok buf -> Z.of_nat (length buf) = FLASH_WRITE_SIZE ->
  rom_sys_status_get (rom s0) SYS_RUNNING_IMG = (SYS_STATUS_FOUND_OK, i) ->
  (apply_writes (rom s0) (dfu_switch_writes i)).1 = 0 ->
  exists c s, link_run sha256 buf (5 + chunk_count img)
      (app_ble_dfu_start (Z.of_nat (length img)) true true (app_dfu_cli_init dA)) s0 = Some (c, s) /\
    cli_env c = zero_cli /\ writes c = [] /\
    let s' := app_dfu_srv_disconn_cb (app_dfu_srv_ind_cb true s) in
    restarted s' = true /\ rom s' = (apply_writes (rom s0) (dfu_switch_writes i)).2 /\
    cells (flash s') (bank_of i) (length img) = img.
Proof.
  intros Hi Hbuf Hlb Hrom Hsw.
  destruct (link_transfer i s0 Hi Hbuf Hlb Hrom) as (s & E & Er).
  destruct (session_installs size sha256 size_flash img buf i s0 Hi img_bytes ltac:(lia) Hbuf Hlb sha256_length Hrom Hsw)
    as (s' & Es & H1 & H2 & H3).
  rewrite Er in Es. injection Es as <-. eexists _, s. split; [exact E|]. done.
Qed.
End safety.

(** *** Images of at most 128 bytes *)
Section small.
Context {D : Type} `{FlashDev D} (sha256 : bytes -> bytes).
Implicit Types (c : dfu_cli D).

Definition is_cmd (w : cli_write) : bool := match w with WCmd _ => true | WData _ => false end.

(** an image of at most 128 bytes is never finished.  The first data write
    always carries 128 bytes; if the image is not longer, the offset is then
    at or past its size, and whatever the number of confirmed data writes (up
    to the wrap-around of the 32-bit offset), no verification command follows. *)
Theorem small_image_never_verified (k : nat) c c1 :
  cli_state (cli_env c) = DFU_STATE_CLI_DFU_STARTED -> cli_offset (cli_env c) = 0 ->
  0 < img_total_size (cli_env c) <= 128 -> writes c = [] ->
  app_dfu_cli_control_cb [DFU_OPCODE_START_DFU; 0] c = Some c1 -> 128 * Z.of_nat (S k) < 2 ^ 32 ->
  existsb is_cmd (writes (Nat.iter k (app_dfu_cli_data_tx_cb sha256) c1)) = false.
Proof.
  intros Hst Ho Hn Hw Hc1 Hk.
  assert (Hgen : let c' := Nat.iter k (app_dfu_cli_data_tx_cb sha256) c1 in
    existsb is_cmd (writes c') = false /\ (cli_state (cli_env c') = DFU_STATE_CLI_VERIFICATION ->
    img_total_size (cli_env c') = img_total_size (cli_env c) /\
    128 <= cli_offset (cli_env c') <= 128 * Z.of_nat (S k))).
  2: { apply Hgen. }
  assert (H1 : existsb is_cmd (writes c1) = false /\ cli_state (cli_env c1) = DFU_STATE_CLI_VERIFICATION /\
    img_total_size (cli_env c1) = img_total_size (cli_env c) /\ cli_offset (cli_env c1) = 128).
  { revert Hc1. unfold app_dfu_cli_control_cb. cbn [lookup list_lookup mbind option_bind]. intros [= <-].
    cbn [Z.eqb Pos.eqb negb andb DFU_OPCODE_START_DFU DFU_OPCODE_RESET DFU_ERROR_NO_ERROR DFU_OPCODE_MODE DFU_OPCODE_IMAGE_SIZE].
    unfold cli_start_data, app_dfu_cli_state_check. cbn [cli_env with_cli_timer cli_state cli_flash].
    rewrite Hst, bool_decide_true by done. cbn [negb]. destruct (read_image _ _ _) as [ret data].
    destruct c as [[st n o ctx] d t ws]. simpl in *. subst o ws. done. }
  clear Hc1 Hw Hst. destruct H1 as (W1 & S1 & N1 & O1).
  induction k as [|k IH]; [intros c'; change c' with c1; split; [done|intros _; lia]|].
  change (Nat.iter (S k) ?f c1) with (f (Nat.iter k f c1)).
  destruct (IH ltac:(lia)) as (W & I). set (c' := Nat.iter k _ c1) in *. cbn zeta.
  unfold app_dfu_cli_data_tx_cb, app_dfu_cli_state_check. case_bool_decide as S; cbn [negb]; [|done].
  destruct (I S) as [N O]. rewrite N. destruct (Z.ltb_spec 0 (if BLE_TRANSMIT_SIZE <? u32 (img_total_size (cli_env c) - cli_offset (cli_env c'))
    then BLE_TRANSMIT_SIZE else u32 (img_total_size (cli_env c) - cli_offset (cli_env c')))) as [Hl|Hl].
  2: { split; [done|]. intros _. lia. }
  assert (Hlen : (BLE_TRANSMIT_SIZE <? u32 (img_total_size (cli_env c) - cli_offset (cli_env c'))) = true).
  { unfold BLE_TRANSMIT_SIZE in *. apply Z.ltb_lt. unfold u32 in *.
    destruct (Z.eq_dec (img_total_size (cli_env c)) (cli_offset (cli_env c'))) as [E|E].
    { rewrite E, Z.sub_diag in Hl. vm_compute in Hl. discriminate Hl. }
    rewrite <- (Z.mod_add _ 1) by lia. rewrite Z.mod_small by lia. lia. }
  rewrite Hlen. destruct (read_image _ _ _) as [ret bs]. destruct (ret <? 0); [by split|].
  unfold send_data. cbn [cli_env with_cli_env cli_offset img_total_size]. unfold BLE_TRANSMIT_SIZE.
  rewrite u32_small by (unfold in_width; lia). rewrite (proj2 (Z.eqb_neq _ _)) by lia.
  cbn [cli_env with_cli_env send_write writes cli_state img_total_size cli_offset].
  rewrite existsb_app, W. split; [done|]. intros _. lia.
Qed.
End small.

(** ** Concrete instances *)
Module DfuCliWitness.
#[local] Existing Instances Nor.nor_laws Nor.nor_reliable BootWitness.rom_sys.
Abbreviation flash_size := DfuWitness.flash_size.
#[local] Instance dev : FlashDev Nor.nor := Nor.nor_dev flash_size.

(** A flash that holds a 200-byte image in bank 1. *)
Definition source : Nor.nor := Nor.program ∅ RE_IMG_1_OFFSET DfuWitness.img.

Lemma length_digest m : length (DfuWitness.digest_of m) = 32%nat.
Proof. apply length_le. Qed.

Lemma dfu_transfers_image_witness :
  exists c s, link_run DfuWitness.digest_of DfuWitness.buffer 7
      (app_ble_dfu_start 200 true true (app_dfu_cli_init source)) (DfuWitness.srv zero_env) = Some (c, s) /\
    cli_env c = zero_cli /\ cells (flash (app_dfu_srv_disconn_cb (app_dfu_srv_ind_cb true s))) (bank_of 0) 200 = DfuWitness.img.
Proof.
  destruct (dfu_transfers_image flash_size DfuWitness.digest_of ltac:(by vm_compute) length_digest DfuWitness.img
    DfuWitness.buffer source ltac:(vm_compute; reflexivity) ltac:(by vm_compute) 0 (DfuWitness.srv zero_env))
    as (c & s & E & Hc & _ & _ & _ & Hcells);
    [reflexivity|exact DfuWitness.buffer_ok|by vm_compute|reflexivity|reflexivity|].
  exists c, s. split; [exact E|]. split; [exact Hc|exact Hcells].
Defined.

(** The client waiting for the answer to the start command of a 100-byte image. *)
Definition started_client : dfu_cli Nor.nor := DfuCli (CliEnv DFU_STATE_CLI_DFU_STARTED 100 0 []) source None [].

Lemma small_image_never_verified_witness :
  exists c1, app_dfu_cli_control_cb [DFU_OPCODE_START_DFU; 0] started_client = Some c1 /\
    existsb is_cmd (writes (Nat.iter 10 (app_dfu_cli_data_tx_cb DfuWitness.digest_of) c1)) = false.
Proof.
  eexists. split; [reflexivity|].
  apply (small_image_never_verified DfuWitness.digest_of 10 started_client); try reflexivity. by vm_compute.
Defined.
End DfuCliWitness.
