(* ===== verification/Dnsd.v ===== *)
(** * DNS server of the soft AP: [MSDK/lwip/lwip-2.2.0/port/dnsd.c]

    Every A question is answered with the address of the access point.  The
    receive and answer buffers are lists of [DNS_PACKET_LEN] bytes; an access
    outside them is [ReadPast] or [WritePast].  The receive buffer is on the
    stack of the task and keeps the bytes of earlier packets. *)
From S2P Require Import Prelude Prog.

Inductive access (A : Type) := Done (a : A) | ReadPast | WritePast.
Arguments Done {A} a. Arguments ReadPast {A}. Arguments WritePast {A}.

#[export] Instance access_ret : MRet access := fun A a => Done a.
#[export] Instance access_bind : MBind access := fun A B k m =>
  match m with Done a => k a | ReadPast => ReadPast | WritePast => WritePast end.

Definition DNS_PACKET_LEN : Z := 256.
Definition DNS_TYPE_A : Z := 1.
Definition DNS_TTL : Z := 300.
Definition SIZEOF_HEADERS : Z := 12.
Definition SIZEOF_QUERY : Z := 4.
Definition SIZEOF_ANSWER : Z := 16.

Definition get (buf : bytes) (i : Z) : access Z :=
  match buf !! Z.to_nat i with Some b => Done b | None => ReadPast end.

(** A 16-bit field in network order. *)
Definition get16 (buf : bytes) (i : Z) : access Z :=
  hi ← get buf i; lo ← get buf (i + 1); Done (256 * hi + lo).

Definition put (buf : bytes) (i : Z) (bs : bytes) : access bytes :=
  if Z.of_nat (length buf) <? i + Z.of_nat (length bs) then WritePast
  else Done (overwrite (Z.to_nat i) bs buf).

Definition be16 (x : Z) : bytes := [Z.land (Z.shiftr x 8) 0xFF; Z.land x 0xFF].
Definition be32 (x : Z) : bytes := be16 (Z.shiftr x 16) ++ be16 x.

(** The loop of [get_query_name_len]; [s] starts at the current label. *)
Fixpoint name_loop (fuel : nat) (len : Z) (s : bytes) : access Z :=
  match fuel, s with
  | O, _ | _, [] => ReadPast
  | S fuel, sub_len :: _ =>
      let len := u16 (len + sub_len + 1) in
      match drop (S (Z.to_nat sub_len)) s with
      | [] => ReadPast
      | (b :: _) as s' => if b =? 0 then Done (u16 (len + 1)) else name_loop fuel len s'
      end
  end.

Definition get_query_name_len (buf : bytes) (start : Z) : access Z :=
  let s := drop (Z.to_nat start) buf in name_loop (length s) 0 s.

(** Bits of the first flags byte. *)
Definition OPCODE (b : Z) : Z := Z.land (Z.shiftr b 3) 0xF.
Definition QR (b : Z) : Z := Z.land (Z.shiftr b 7) 1.

(** One answer record. *)
Definition dns_answer (pointer qtype qclass : Z) (ip : bytes) : bytes :=
  be16 (Z.lor 0xC000 pointer) ++ be16 qtype ++ be16 qclass ++ be32 DNS_TTL ++ be16 4 ++ ip.

(** The loop over the questions: [query] and [answer] are offsets. *)
Fixpoint answer_loop (n : nat) (rx_buf ip : bytes) (query answer answer_num : Z) (answer_buf : bytes)
    : access (Z * bytes) :=
  match n with
  | O => Done (answer_num, answer_buf)
  | S n =>
      name_len ← get_query_name_len rx_buf query;
      if name_len =? 0 then Done (-1, answer_buf)
      else
        qtype ← get16 rx_buf (query + name_len);
        if qtype =? DNS_TYPE_A then
          qclass ← get16 rx_buf (query + name_len + 2);
          answer_buf' ← put answer_buf answer (dns_answer query qtype qclass ip);
          answer_loop n rx_buf ip (query + name_len + SIZEOF_QUERY) (answer + SIZEOF_ANSWER)
            (answer_num + 1) answer_buf'
        else answer_loop n rx_buf ip (query + name_len + SIZEOF_QUERY) answer answer_num answer_buf
  end.

(** [ip]: the four bytes of the interface's address. *)
Definition handle_dns_query (rx_buf : bytes) (rx_len : Z) (answer_max_len : Z) (ip : bytes)
    : access (Z * bytes) :=
  if answer_max_len <? rx_len then Done (-1, [])
  else
    flags ← get rx_buf 2;
    if negb (OPCODE flags =? 0) || (QR flags =? 1) then Done (0, [])
    else
      query_num ← get16 rx_buf 4;
      if answer_max_len <? query_num * SIZEOF_ANSWER + rx_len then Done (-1, [])
      else
        answer_buf ← put (replicate (Z.to_nat answer_max_len) 0) 0 (take (Z.to_nat rx_len) rx_buf);
        answer_buf ← put answer_buf 2 [Z.lor flags 0x80];
        '(answer_num, answer_buf) ← answer_loop (Z.to_nat query_num) rx_buf ip SIZEOF_HEADERS rx_len 0 answer_buf;
        if answer_num =? -1 then Done (-1, answer_buf)
        else if answer_num =? 0 then Done (0, answer_buf)
        else
          answer_buf ← put answer_buf 6 (be16 answer_num);
          Done (rx_len + answer_num * SIZEOF_ANSWER, answer_buf).

(** One datagram through [dns_server]: the receive buffer afterwards and the
    reply that is sent.  [recvfrom] delivers at most [DNS_PACKET_LEN - 1]
    bytes; an empty datagram is ignored. *)
Definition dns_server_step (rx_buf packet ip : bytes) : access (bytes * option bytes) :=
  let packet := take (Z.to_nat (DNS_PACKET_LEN - 1)) packet in
  let len := Z.of_nat (length packet) in
  if 0 <? len then
    let rx_buf := overwrite (length packet) [0] (overwrite 0 packet rx_buf) in
    '(len, tx_buf) ← handle_dns_query rx_buf len DNS_PACKET_LEN ip;
    Done (rx_buf, if 0 <? len then Some (take (Z.to_nat len) tx_buf) else None)
  else Done (rx_buf, None).

(** ** Buffers *)
Lemma put_app (l old rest bs : bytes) :
  length old = length bs -> put (l ++ old ++ rest) (Z.of_nat (length l)) bs = Done (l ++ bs ++ rest).
Proof.
  intros Hl. unfold put. rewrite !length_app, (proj2 (Z.ltb_ge _ _)) by lia. f_equal.
  unfold overwrite. rewrite Nat2Z.id, take_app_length. f_equal. f_equal.
  rewrite <- drop_drop, drop_app_length, <- Hl. apply drop_app_length.
Qed.

Lemma put_spec buf i bs : put buf i bs = WritePast \/
  (i + Z.of_nat (length bs) <= Z.of_nat (length buf) /\ put buf i bs = Done (overwrite (Z.to_nat i) bs buf)).
Proof. unfold put. destruct (Z.ltb_spec (Z.of_nat (length buf)) (i + Z.of_nat (length bs))); [by left|by right]. Qed.

Lemma put_fits buf i bs : 0 <= i -> i + Z.of_nat (length bs) <= Z.of_nat (length buf) ->
  exists buf', put buf i bs = Done buf' /\ length buf' = length buf.
Proof.
  intros Hi Hl. unfold put. rewrite (proj2 (Z.ltb_ge _ _)) by lia. eexists. split; [done|].
  apply length_overwrite. lia.
Qed.

Lemma get_app (l rest : bytes) b : get (l ++ b :: rest) (Z.of_nat (length l)) = Done b.
Proof. unfold get. by rewrite Nat2Z.id, list_lookup_middle. Qed.

Lemma be16_value x : is_u16 x ->
  256 * Z.land (Z.shiftr x 8) 0xFF + Z.land x 0xFF = x.
Proof.
  unfold in_width. intros Hx. change 0xFF with (Z.ones 8). rewrite !Z.land_ones, Z.shiftr_div_pow2 by lia.
  Z.div_mod_to_equations. lia.
Qed.

Lemma get16_app (l rest : bytes) x :
  is_u16 x -> get16 (l ++ be16 x ++ rest) (Z.of_nat (length l)) = Done x.
Proof.
  intros Hx. unfold get16. cbn [be16 app]. rewrite get_app. cbn [mbind access_bind].
  replace (Z.of_nat (length l) + 1) with (Z.of_nat (length (l ++ [Z.land (Z.shiftr x 8) 255]))) by (rewrite length_app; simpl; lia).
  change (l ++ ?a :: ?t) with (l ++ [a] ++ t). rewrite app_assoc, get_app. cbn [mbind access_bind]. by rewrite be16_value.
Qed.

(** ** No write outside the answer buffer *)
Lemma length_dns_answer pointer t c ip : length ip = 4%nat -> length (dns_answer pointer t c ip) = 16%nat.
Proof. intros Hip. unfold dns_answer, be32, be16. rewrite !length_app, Hip. done. Qed.

Lemma name_loop_reads fuel len s : name_loop fuel len s <> WritePast.
Proof.
  revert len s. induction fuel as [|fuel IH]; intros len [|b s]; try discriminate. cbn [name_loop].
  destruct (drop (S (Z.to_nat b)) (b :: s)) as [|b1 s1]; [discriminate|].
  destruct (b1 =? 0); [discriminate|apply IH].
Qed.

Lemma get16_reads buf i : get16 buf i <> WritePast.
Proof.
  unfold get16, get. destruct (buf !! Z.to_nat i); cbn [mbind access_bind]; [|discriminate].
  destruct (buf !! Z.to_nat (i + 1)); cbn [mbind access_bind]; discriminate.
Qed.

Lemma answer_loop_bounded n rx ip query answer num buf :
  length ip = 4%nat -> 0 <= answer -> 0 <= num -> answer + 16 * Z.of_nat n <= Z.of_nat (length buf) ->
  match answer_loop n rx ip query answer num buf with
  | Done (num', buf') => length buf' = length buf /\ num' <= num + Z.of_nat n
  | ReadPast => True
  | WritePast => False
  end.
Proof.
  intros Hip. revert query answer num buf. induction n as [|n IH]; intros query answer num buf Ha Hn Hl; cbn [answer_loop].
  { split; [done|lia]. }
  unfold get_query_name_len. set (s := drop _ rx).
  destruct (name_loop (length s) 0 s) as [name_len| |] eqn:E; cbn [mbind access_bind]; [|done|by apply name_loop_reads in E].
  destruct (name_len =? 0); [split; [done|lia]|].
  destruct (get16 rx (query + name_len)) as [t| |] eqn:Et; cbn [mbind access_bind]; [|done|by apply get16_reads in Et].
  destruct (t =? DNS_TYPE_A).
  - destruct (get16 rx (query + name_len + 2)) as [c| |] eqn:Ec; cbn [mbind access_bind]; [|done|by apply get16_reads in Ec].
    destruct (put_fits buf answer (dns_answer query t c ip)) as (buf' & -> & Hb');
      [done|rewrite length_dns_answer by done; lia|]. cbn [mbind access_bind]. unfold SIZEOF_ANSWER.
    specialize (IH (query + name_len + SIZEOF_QUERY) (answer + 16) (num + 1) buf').
    destruct (answer_loop _ _ _ _ _ _ _) as [[num' buf'']| |]; [|done|apply IH; lia].
    destruct IH as [IH1 IH2]; [lia|lia|lia|]. split; [congruence|lia].
  - specialize (IH (query + name_len + SIZEOF_QUERY) answer num buf).
    destruct (answer_loop _ _ _ _ _ _ _) as [[num' buf'']| |]; [|done|apply IH; lia].
    destruct IH as [IH1 IH2]; [lia|lia|lia|]. split; [done|lia].
Qed.

Lemma handle_bounded rx rx_len ip :
  length ip = 4%nat -> 0 <= rx_len ->
  match handle_dns_query rx rx_len DNS_PACKET_LEN ip with
  | Done (len, buf) => len <= DNS_PACKET_LEN /\ (0 < len -> Z.of_nat (length buf) = DNS_PACKET_LEN)
  | ReadPast => True
  | WritePast => False
  end.
Proof.
  intros Hip Hr. unfold handle_dns_query, DNS_PACKET_LEN. destruct (Z.ltb_spec 256 rx_len) as [|Hlen]; [lia|].
  unfold get at 1. destruct (rx !! Z.to_nat 2) as [flags|]; cbn [mbind access_bind]; [|done].
  destruct (_ || _); [lia|].
  destruct (get16 rx 4) as [qn| |] eqn:Eq; cbn [mbind access_bind]; [|done|by apply get16_reads in Eq].
  unfold SIZEOF_ANSWER in *. destruct (Z.ltb_spec 256 (qn * 16 + rx_len)) as [|Hfit]; [lia|].
  destruct (put_fits (replicate (Z.to_nat 256) 0) 0 (take (Z.to_nat rx_len) rx)) as (b1 & -> & H1);
    [lia|rewrite length_replicate, length_take; lia|]. rewrite length_replicate in H1. cbn [mbind access_bind].
  destruct (put_fits b1 2 [Z.lor flags 128]) as (b2 & -> & H2); [lia|simpl; lia|]. cbn [mbind access_bind].
  pose proof (answer_loop_bounded (Z.to_nat qn) rx ip SIZEOF_HEADERS rx_len 0 b2 Hip Hr ltac:(lia) ltac:(lia)) as Hloop.
  destruct (answer_loop _ _ _ _ _ _ _) as [[num b3]| |]; cbn [mbind access_bind]; [|done|done].
  destruct Hloop as [H3 H4]. destruct (Z.eqb_spec num (-1)); [lia|]. destruct (Z.eqb_spec num 0); [lia|].
  destruct (put_fits b3 6 (be16 num)) as (b4 & -> & H5); [lia|simpl; lia|]. cbn [mbind access_bind]. lia.
Qed.

(** whatever datagram arrives, the server never writes outside its answer
    buffer, and what it sends fits the buffer. *)
Theorem dns_server_writes_in_bounds rx packet ip :
  length rx = Z.to_nat DNS_PACKET_LEN -> length ip = 4%nat ->
  match dns_server_step rx packet ip with
  | Done (rx', reply) => length rx' = Z.to_nat DNS_PACKET_LEN /\
      match reply with Some r => Z.of_nat (length r) <= DNS_PACKET_LEN | None => True end
  | ReadPast => True
  | WritePast => False
  end.
Proof.
  unfold DNS_PACKET_LEN. intros Hrx Hip. unfold dns_server_step, DNS_PACKET_LEN.
  set (p := take (Z.to_nat (256 - 1)) packet).
  assert (Hp : (length p <= 255)%nat) by (unfold p; rewrite length_take; lia).
  destruct (Z.ltb_spec 0 (Z.of_nat (length p))) as [Hpos|]; [|done].
  pose proof (handle_bounded (overwrite (length p) [0] (overwrite 0 p rx)) (Z.of_nat (length p)) ip Hip ltac:(lia)) as Hh.
  unfold DNS_PACKET_LEN in Hh.
  destruct (handle_dns_query _ _ _ _) as [[len buf]| |]; cbn [mbind access_bind]; [|done|done].
  assert (Hl0 : length (overwrite 0 p rx) = length rx) by (apply length_overwrite; lia). split.
  - rewrite length_overwrite; simpl; lia.
  - destruct (Z.ltb_spec 0 len); [|done]. rewrite length_take. lia.
Qed.

(** ** Well-formed queries *)
Record question := Question { labels : list bytes; qtype : Z; qclass : Z }.

Definition encode_label (l : bytes) : bytes := Z.of_nat (length l) :: l.
Definition encode_name (ls : list bytes) : bytes := concat (encode_label <$> ls) ++ [0].
Definition encode_question (q : question) : bytes :=
  encode_name (labels q) ++ be16 (qtype q) ++ be16 (qclass q).
Definition encode_questions (qs : list question) : bytes := concat (encode_question <$> qs).

(** At least one label, no label empty; 16-bit type and class. *)
Definition question_ok (q : question) : Prop :=
  labels q <> [] /\ Forall (fun l => l <> []) (labels q) /\ is_u16 (qtype q) /\ is_u16 (qclass q).

(** The answers to the A questions; [pos] is the offset of the first question. *)
Fixpoint answers (ip : bytes) (pos : Z) (qs : list question) : bytes :=
  match qs with
  | [] => []
  | q :: qs =>
      (if qtype q =? DNS_TYPE_A then dns_answer pos (qtype q) (qclass q) ip else []) ++
      answers ip (pos + Z.of_nat (length (encode_question q))) qs
  end.

Definition a_count (qs : list question) : Z := Z.of_nat (length (filter (fun q => qtype q = DNS_TYPE_A) qs)).

Lemma name_loop_name ls fuel len rest :
  ls <> [] -> Forall (fun l => l <> []) ls -> (length ls <= fuel)%nat -> 0 <= len ->
  len + Z.of_nat (length (encode_name ls)) < 2 ^ 16 ->
  name_loop fuel len (encode_name ls ++ rest) = Done (len + Z.of_nat (length (encode_name ls))).
Proof.
  revert fuel len. induction ls as [|l ls IH]; intros fuel len Hne Hls Hf Hlen Hb; [done|].
  apply Forall_cons in Hls as [Hl Hls]. destruct fuel as [|fuel]; [simpl in Hf; lia|].
  assert (Elen : Z.of_nat (length (encode_name (l :: ls))) = Z.of_nat (length l) + 1 + Z.of_nat (length (encode_name ls))).
  { unfold encode_name. cbn [fmap list_fmap concat encode_label app]. rewrite !length_app. simpl. rewrite !length_app. simpl. lia. }
  assert (Henc : encode_name (l :: ls) ++ rest = Z.of_nat (length l) :: l ++ encode_name ls ++ rest).
  { unfold encode_name. cbn [fmap list_fmap concat encode_label app]. by rewrite <- !app_assoc. }
  rewrite Elen in *. rewrite Henc. cbn [name_loop]. rewrite Nat2Z.id.
  change (drop (S (length l)) (?x :: ?t)) with (drop (length l) t). rewrite drop_app_length.
  rewrite (u16_small (len + _ + 1)) by (unfold in_width; lia).
  destruct ls as [|l' ls].
  - cbn [encode_name fmap list_fmap concat app]. cbn [Z.eqb]. rewrite u16_small; [f_equal|unfold in_width]; simpl in *; lia.
  - set (tail := encode_name (l' :: ls)) in *.
    assert (Hhd : exists t, tail ++ rest = Z.of_nat (length l') :: t) by (unfold tail, encode_name; simpl; by eexists).
    destruct Hhd as [t Ht]. rewrite Ht. apply Forall_cons in Hls as [Hl' Hls].
    assert (Hpos : Z.of_nat (length l') <> 0) by (destruct l'; simpl; [done|lia]).
    rewrite (proj2 (Z.eqb_neq _ 0)) by done. rewrite <- Ht. unfold tail in *.
    rewrite IH; [f_equal; lia|done|by apply Forall_cons_2|simpl in *; lia|lia|lia].
Qed.

Lemma length_labels ls : (length ls <= length (encode_name ls))%nat.
Proof.
  unfold encode_name. rewrite length_app. cbn [length].
  enough (length ls <= length (concat (encode_label <$> ls)))%nat by lia.
  induction ls as [|l ls IH]; [done|]. cbn [fmap list_fmap concat encode_label app length].
  rewrite length_app. change (list_fmap _ _ encode_label ls) with (encode_label <$> ls). lia.
Qed.

Lemma query_name_len pre q rest :
  question_ok q -> Z.of_nat (length (encode_name (labels q))) < 2 ^ 16 ->
  get_query_name_len (pre ++ encode_question q ++ rest) (Z.of_nat (length pre)) =
    Done (Z.of_nat (length (encode_name (labels q)))).
Proof.
  intros (Hne & Hls & _) Hl. unfold get_query_name_len. rewrite Nat2Z.id, drop_app_length.
  unfold encode_question. rewrite <- app_assoc.
  rewrite name_loop_name; [f_equal; lia|done|done| |lia|lia].
  rewrite length_app. pose proof (length_labels (labels q)). lia.
Qed.

(** The loop answers the remaining questions, in order. *)
Lemma answer_loop_spec qs pre rest ip num lbuf zbuf :
  length ip = 4%nat -> Forall question_ok qs -> Z.of_nat (length (pre ++ encode_questions qs ++ rest)) < 2 ^ 16 ->
  (16 * length qs <= length zbuf)%nat ->
  answer_loop (length qs) (pre ++ encode_questions qs ++ rest) ip (Z.of_nat (length pre)) (Z.of_nat (length lbuf)) num (lbuf ++ zbuf) =
    let ans := answers ip (Z.of_nat (length pre)) qs in
    Done (num + a_count qs, lbuf ++ ans ++ drop (length ans) zbuf).
Proof.
  intros Hip. revert pre num lbuf zbuf.
  induction qs as [|q qs IH]; intros pre num lbuf zbuf Hqs Hl Hz; cbn [answer_loop length].
  { unfold a_count. simpl. by rewrite Z.add_0_r, drop_0. }
  apply Forall_cons in Hqs as [Hq Hqs]. assert (Hq2 := Hq). destruct Hq2 as (Hne & _ & Ht & Hc).
  assert (Ebuf : pre ++ encode_questions (q :: qs) ++ rest = pre ++ encode_question q ++ encode_questions qs ++ rest).
  { unfold encode_questions. cbn [fmap list_fmap concat]. by rewrite <- app_assoc. }
  rewrite Ebuf in *. assert (Eq : length (encode_question q) = (length (encode_name (labels q)) + 4)%nat).
  { unfold encode_question. rewrite !length_app. done. }
  rewrite !length_app in Hl. rewrite query_name_len by (done || lia). cbn [mbind access_bind].
  set (nm := encode_name (labels q)) in *.
  assert (Hn0 : (0 < length nm)%nat) by (unfold nm, encode_name; rewrite length_app; simpl; lia).
  rewrite (proj2 (Z.eqb_neq _ 0)) by lia.
  assert (Esplit : forall t, pre ++ encode_question q ++ t = (pre ++ nm) ++ be16 (qtype q) ++ be16 (qclass q) ++ t).
  { intros t. unfold encode_question. by rewrite <- !app_assoc. }
  assert (Et : get16 (pre ++ encode_question q ++ encode_questions qs ++ rest) (Z.of_nat (length pre) + Z.of_nat (length nm)) = Done (qtype q)).
  { rewrite Esplit. rewrite <- (get16_app (pre ++ nm) (be16 (qclass q) ++ encode_questions qs ++ rest) (qtype q) Ht).
    f_equal. rewrite length_app. lia. }
  assert (Ec : get16 (pre ++ encode_question q ++ encode_questions qs ++ rest) (Z.of_nat (length pre) + Z.of_nat (length nm) + 2) = Done (qclass q)).
  { rewrite Esplit. rewrite <- (get16_app ((pre ++ nm) ++ be16 (qtype q)) (encode_questions qs ++ rest) (qclass q) Hc).
    rewrite <- !app_assoc. f_equal. rewrite !length_app. simpl. lia. }
  rewrite Et. cbn [mbind access_bind]. unfold a_count. rewrite filter_cons. cbn [answers].
  assert (Enext : Z.of_nat (length pre) + Z.of_nat (length nm) + SIZEOF_QUERY = Z.of_nat (length (pre ++ encode_question q))).
  { unfold SIZEOF_QUERY. rewrite length_app. lia. }
  assert (Hrec : forall num lbuf zbuf, (16 * length qs <= length zbuf)%nat ->
    answer_loop (length qs) (pre ++ encode_question q ++ encode_questions qs ++ rest) ip
      (Z.of_nat (length pre) + Z.of_nat (length nm) + SIZEOF_QUERY) (Z.of_nat (length lbuf)) num (lbuf ++ zbuf) =
    let ans := answers ip (Z.of_nat (length pre) + Z.of_nat (length (encode_question q))) qs in
    Done (num + a_count qs, lbuf ++ ans ++ drop (length ans) zbuf)).
  { intros num1 l1 z1 Hz1. rewrite Enext, app_assoc, (IH (pre ++ encode_question q)); [|done|rewrite !length_app; lia|done].
    by rewrite length_app, Nat2Z.inj_add. }
  cbn [length] in Hz. destruct (Z.eqb_spec (qtype q) DNS_TYPE_A) as [Ea|Ea].
  - rewrite decide_True by done. rewrite Ec. cbn [mbind access_bind].
    set (rec := dns_answer _ _ _ ip). assert (Hrl : length rec = 16%nat) by by apply length_dns_answer.
    rewrite <- (take_drop 16 zbuf), put_app by (rewrite Hrl, length_take; lia). cbn [mbind access_bind].
    rewrite (app_assoc lbuf).
    replace (Z.of_nat (length lbuf) + SIZEOF_ANSWER) with (Z.of_nat (length (lbuf ++ rec))) by (rewrite length_app, Hrl; unfold SIZEOF_ANSWER; lia).
    rewrite Hrec by (rewrite length_drop; lia). cbn zeta. f_equal. f_equal.
    + unfold a_count. cbn [length]. lia.
    + rewrite take_drop, <- !app_assoc. do 3 f_equal. rewrite drop_drop, length_app, Hrl. done.
  - rewrite decide_False by done. rewrite Hrec by lia. done.
Qed.

Lemma length_answers ip pos qs : length ip = 4%nat -> Z.of_nat (length (answers ip pos qs)) = 16 * a_count qs.
Proof.
  intros Hip. revert pos. induction qs as [|q qs IH]; intros pos; [done|]. cbn [answers].
  rewrite length_app, Nat2Z.inj_add, IH. unfold a_count. rewrite filter_cons.
  destruct (Z.eqb_spec (qtype q) DNS_TYPE_A).
  - rewrite decide_True by done. rewrite length_dns_answer by done. cbn [length]. lia.
  - rewrite decide_False by done. simpl. lia.
Qed.

Lemma a_count_range qs : 0 <= a_count qs <= Z.of_nat (length qs).
Proof. unfold a_count. pose proof (length_filter (fun q => qtype q = DNS_TYPE_A) qs). lia. Qed.

(** The receive buffer after a datagram. *)
Lemma received p rx : (length p < length rx)%nat ->
  overwrite (length p) [0] (overwrite 0 p rx) = p ++ 0 :: drop (S (length p)) rx.
Proof.
  intros Hl. unfold overwrite. simpl. rewrite take_app_length. do 2 f_equal.
  rewrite drop_app_ge by lia. rewrite drop_drop. f_equal. lia.
Qed.

Definition query_packet (id1 id2 f1 f2 : Z) (counts : bytes) (qs : list question) : bytes :=
  [id1; id2; f1; f2] ++ be16 (Z.of_nat (length qs)) ++ counts ++ encode_questions qs.

(** The handler on a well-formed query. *)
Lemma handle_query id1 id2 f1 f2 c1 c2 counts qs rest ip :
  length ip = 4%nat -> Forall question_ok qs -> OPCODE f1 = 0 -> QR f1 = 0 ->
  length counts = 4%nat ->
  let packet := query_packet id1 id2 f1 f2 (c1 :: c2 :: counts) qs in
  16 * Z.of_nat (length qs) + Z.of_nat (length packet) <= DNS_PACKET_LEN ->
  Z.of_nat (length (packet ++ rest)) <= DNS_PACKET_LEN -> 0 < a_count qs ->
  exists tail, handle_dns_query (packet ++ rest) (Z.of_nat (length packet)) DNS_PACKET_LEN ip =
    Done (Z.of_nat (length packet) + 16 * a_count qs,
      ([id1; id2; Z.lor f1 0x80; f2] ++ be16 (Z.of_nat (length qs)) ++ be16 (a_count qs) ++ counts ++
       encode_questions qs ++ answers ip 12 qs) ++ tail).
Proof.
  intros Hip Hqs Hop Hqr Hcs packet Hfit Hrx Ha. unfold DNS_PACKET_LEN in *. pose proof (a_count_range qs) as Hac.
  unfold handle_dns_query. rewrite (proj2 (Z.ltb_ge 256 _)) by lia.
  set (E := encode_questions qs) in *. set (n16 := be16 (Z.of_nat (length qs))) in *.
  set (hd := [id1; id2; f1; f2] ++ n16 ++ c1 :: c2 :: counts).
  assert (Epk : packet = hd ++ E) by (unfold packet, query_packet, hd; by rewrite <- !app_assoc).
  assert (Hhd : length hd = 12%nat) by (unfold hd, n16; simpl; lia).
  change (get (packet ++ rest) 2) with (Done f1). cbn [mbind access_bind]. rewrite Hop, Hqr. cbn [Z.eqb negb orb].
  assert (Hn : get16 (packet ++ rest) 4 = Done (Z.of_nat (length qs))).
  { unfold packet, query_packet. rewrite <- !app_assoc. apply (get16_app [id1; id2; f1; f2]). unfold in_width. lia. }
  rewrite Hn. cbn [mbind access_bind]. unfold SIZEOF_ANSWER. rewrite (proj2 (Z.ltb_ge 256 _)) by lia.
  rewrite !Nat2Z.id, take_app_length.
  set (zeros := replicate (256 - length packet) 0).
  assert (Ez : replicate (Z.to_nat 256) 0 = [] ++ replicate (length packet) 0 ++ zeros).
  { cbn [app]. unfold zeros. rewrite <- replicate_add. f_equal. lia. }
  rewrite Ez. change 0 with (Z.of_nat (length (@nil Z))) at 3. rewrite put_app by apply length_replicate.
  cbn [app mbind access_bind].
  set (rest1 := f2 :: n16 ++ c1 :: c2 :: counts ++ E).
  change (packet ++ zeros) with ([id1; id2] ++ [f1] ++ (rest1 ++ zeros)).
  change 2 with (Z.of_nat (length [id1; id2])) at 1. rewrite put_app by done. cbn [mbind access_bind].
  set (pk' := [id1; id2] ++ [Z.lor f1 128] ++ rest1).
  change ([id1; id2] ++ [Z.lor f1 128] ++ rest1 ++ zeros) with (pk' ++ zeros).
  assert (Hlen' : length pk' = length packet) by done.
  rewrite <- Hlen'. change SIZEOF_HEADERS with (Z.of_nat 12). rewrite <- Hhd, Epk, <- app_assoc.
  rewrite answer_loop_spec; [|done|done|..].
  2: { rewrite Epk, <- app_assoc in Hrx. fold E. lia. }
  2: { unfold zeros. rewrite length_replicate. lia. }
  cbn zeta. cbn [mbind access_bind]. rewrite Hhd. cbn [Z.add].
  rewrite (proj2 (Z.eqb_neq _ (-1))), (proj2 (Z.eqb_neq _ 0)) by lia.
  set (ans := answers ip (Z.of_nat 12) qs).
  change (pk' ++ ?t) with (([id1; id2; Z.lor f1 128; f2] ++ n16) ++ [c1; c2] ++ (counts ++ E) ++ t).
  change 6 with (Z.of_nat (length ([id1; id2; Z.lor f1 128; f2] ++ n16))). rewrite put_app by done.
  change (Z.of_nat (length [])) with 0. rewrite Z.add_0_l. cbn [mbind access_bind]. eexists. f_equal. f_equal; [lia|].
  rewrite <- !app_assoc. done.
Qed.

(** C37: a well-formed query is answered.  For a query with any number of
    questions of which at least one asks for an address, when the answers fit
    the buffer the server replies with the query's header (marked as a
    response, with the number of answers), its questions, and one answer per A
    question, in order, pointing to the question's name and holding the
    access point's address.  What the buffer held before has no influence. *)
Theorem dns_answers_query id1 id2 f1 f2 c1 c2 counts qs rx ip :
  length rx = Z.to_nat DNS_PACKET_LEN -> length ip = 4%nat -> Forall question_ok qs ->
  OPCODE f1 = 0 -> QR f1 = 0 -> length counts = 4%nat -> 0 < a_count qs ->
  let packet := query_packet id1 id2 f1 f2 (c1 :: c2 :: counts) qs in
  16 * Z.of_nat (length qs) + Z.of_nat (length packet) <= DNS_PACKET_LEN ->
  exists rx', dns_server_step rx packet ip = Done (rx', Some
    ([id1; id2; Z.lor f1 0x80; f2] ++ be16 (Z.of_nat (length qs)) ++ be16 (a_count qs) ++ counts ++
     encode_questions qs ++ answers ip 12 qs)).
Proof.
  intros Hrx Hip Hqs Hop Hqr Hcs Ha packet Hfit. unfold DNS_PACKET_LEN in *. pose proof (a_count_range qs) as Hac.
  unfold dns_server_step. unfold DNS_PACKET_LEN. rewrite (take_ge packet) by lia.
  assert (Hpl : (12 <= length packet)%nat) by (unfold packet, query_packet; rewrite !length_app; simpl; lia).
  rewrite (proj2 (Z.ltb_lt 0 _)) by lia. rewrite received by lia.
  destruct (handle_query id1 id2 f1 f2 c1 c2 counts qs (0 :: drop (S (length packet)) rx) ip Hip Hqs Hop Hqr Hcs)
    as [tail E]; [done| |done|].
  { fold packet. rewrite length_app. cbn [length]. rewrite length_drop. unfold DNS_PACKET_LEN. lia. }
  fold packet in E. unfold DNS_PACKET_LEN in E. rewrite E. cbn [mbind access_bind].
  rewrite (proj2 (Z.ltb_lt 0 _)) by lia. eexists. do 3 f_equal.
  set (reply := _ ++ be16 (Z.of_nat (length qs)) ++ _).
  assert (Hreply : Z.of_nat (length reply) = Z.of_nat (length packet) + 16 * a_count qs).
  { unfold reply, packet, query_packet. rewrite <- (length_answers ip 12 qs) by done. rewrite !length_app.
    simpl. rewrite Hcs. lia. }
  rewrite <- Hreply, Nat2Z.id. apply take_app_length.
Qed.

(** Names are walked without a bound.  A datagram of 13 bytes, a header
    announcing one question and a label length of 243 or more, makes the
    server read past the end of its receive buffer, whatever that held. *)
Lemma dns_long_label_overreads id1 id2 f1 f2 c1 c2 counts n rx ip :
  length rx = Z.to_nat DNS_PACKET_LEN -> OPCODE f1 = 0 -> QR f1 = 0 -> length counts = 4%nat ->
  243 <= n -> dns_server_step rx ([id1; id2; f1; f2; 0; 1; c1; c2] ++ counts ++ [n]) ip = ReadPast.
Proof.
  unfold DNS_PACKET_LEN. intros Hrx Hop Hqr Hcs Hn. destruct counts as [|d1 [|d2 [|d3 [|d4 []]]]]; try done.
  unfold dns_server_step, DNS_PACKET_LEN. cbn [app]. change (Z.to_nat (256 - 1)) with (13 + 242)%nat.
  set (p := [id1; id2; f1; f2; 0; 1; c1; c2; d1; d2; d3; d4; n]).
  change (take (13 + 242) p) with p. change (0 <? Z.of_nat (length p)) with true. cbv iota.
  rewrite received by (rewrite Hrx; simpl; lia). set (rest := drop _ rx). unfold handle_dns_query.
  change (256 <? Z.of_nat (length p)) with false. cbv iota.
  change (get (p ++ 0 :: rest) 2) with (Done f1). cbn [mbind access_bind]. rewrite Hop, Hqr. cbn [Z.eqb negb orb].
  change (get16 (p ++ 0 :: rest) 4) with (Done 1). cbn [mbind access_bind].
  change (256 <? 1 * SIZEOF_ANSWER + Z.of_nat (length p)) with false. cbv iota.
  destruct (put_fits (replicate (Z.to_nat 256) 0) 0 (take (Z.to_nat (Z.of_nat (length p))) (p ++ 0 :: rest)))
    as (b1 & -> & H1); [lia|rewrite length_replicate, length_take; simpl; lia|]. rewrite length_replicate in H1.
  cbn [mbind access_bind]. destruct (put_fits b1 2 [Z.lor f1 128]) as (b2 & -> & H2); [lia|simpl; lia|].
  cbn [mbind access_bind]. change (Z.to_nat 1) with 1%nat. cbn [answer_loop].
  assert (Hname : get_query_name_len (p ++ 0 :: rest) SIZEOF_HEADERS = ReadPast).
  { unfold get_query_name_len. change (drop (Z.to_nat SIZEOF_HEADERS) (p ++ 0 :: rest)) with (n :: 0 :: rest).
    cbn [length name_loop]. rewrite drop_ge; [done|]. unfold rest. cbn [length]. rewrite length_drop, Hrx.
    change (length p) with 13%nat. lia. }
  by rewrite Hname.
Qed.

(** ** Concrete instances *)
Module DnsdWitness.
(** "a.bc", type A; "a", type AAAA; class IN *)
Definition questions : list question := [Question [[97]; [98; 99]] 1 1; Question [[97]] 28 1].
Definition ip : bytes := [192; 168; 4; 1].
Definition blank : bytes := replicate 256 170.

Lemma dns_server_writes_in_bounds_witness :
  match dns_server_step blank (query_packet 1 2 0 0 [0; 0; 0; 0; 0; 0] questions) ip with
  | WritePast => False | _ => True end.
Proof.
  pose proof (dns_server_writes_in_bounds blank (query_packet 1 2 0 0 [0; 0; 0; 0; 0; 0] questions) ip
    ltac:(reflexivity) ltac:(reflexivity)) as Hb.
  by destruct (dns_server_step blank (query_packet 1 2 0 0 [0; 0; 0; 0; 0; 0] questions) ip) as [[rx' r]| |].
Defined.

Lemma dns_answers_query_witness :
  exists rx', dns_server_step blank (query_packet 1 2 1 0 [0; 0; 0; 0; 0; 0] questions) ip = Done (rx', Some
    ([1; 2; 0x81; 0; 0; 2; 0; 1; 0; 0; 0; 0] ++ encode_questions questions ++
     [0xC0; 12; 0; 1; 0; 1; 0; 0; 1; 44; 0; 4; 192; 168; 4; 1])).
Proof.
  apply (dns_answers_query 1 2 1 0 0 0 [0; 0; 0; 0] questions blank ip); try reflexivity.
  - repeat apply Forall_cons_2; [..|apply Forall_nil_2]; unfold question_ok, questions, in_width; simpl;
      split_and!; try done; repeat constructor; done.
  - by vm_compute.
Defined.

Lemma dns_long_label_overreads_witness :
  dns_server_step blank ([0; 0; 0; 0; 0; 1; 0; 0] ++ [0; 0; 0; 0] ++ [255]) ip = ReadPast.
Proof. apply (dns_long_label_overreads 0 0 0 0 0 0 [0; 0; 0; 0] 255 blank ip); try reflexivity. lia. Defined.
End DnsdWitness.
