(* ===== verification/NvdsFormat.v ===== *)
(** * The flash format of the key-value store: [nvds_type.h] and the codecs of
    [MSDK/plf/src/nvds/nvds_flash.c]

    A page is a 4096-byte sector: a 32-byte header, a 32-byte table with two
    state bits per entry, and 126 entries of 32 bytes.  An entry is a C union
    over 32 bytes, so it is kept as those bytes ([entry_info]) and its fields
    are read and written by offset.  Results: the tag round trip, the laws of
    the entry states table (set/get, and that every legal transition only
    clears bits, which is what NOR flash can program), the layout of the entries
    the store writes, and the header round trip. *)
From S2P Require Import Prelude Prog Crc.

Definition ENTRY_SIZE : Z := 32.
Definition ENTRY_COUNT_PER_PAGE : Z := 126.
Definition ENTRY_STATES_TABLE_SIZE : Z := 8.
Definition PAGE_HEADER_OFFSET : Z := 0.
Definition PAGE_ENTRY_STATES_OFFSET : Z := 32.
Definition PAGE_ENTRY_OFFSET : Z := 64.
Definition KEY_NAME_MAX_SIZE : Z := 16.
Definition NAMESPACE_STATES_TABLE_SIZE : nat := 8.
Definition ELEMENT_SMALL_MAX_SIZE : Z := 8.
Definition ELEMENT_MIDDLE_MAX_SIZE : Z := 256.
Definition ELEMENT_BULK_MAX_SIZE : Z := 400 * 32.
Definition NVDS_FLASH_MAGIC : Z := 0x4E564453.
Definition NVDS_FLASH_VERSION : Z := 0xFFFF.
Definition TAG_FRAG_NO_DEFAULT : Z := 0x1F.
Definition NAMESPACE_NULL_IDX : Z := 0xFE.
Definition NAMESPACE_MAX_CNT : Z := 253.

(** Status codes of [enum nvds_ret]. *)
Definition NVDS_OK : Z := 0.
Definition NVDS_E_FAIL : Z := 2.
Definition NVDS_E_INVAL_PARAM : Z := 3.
Definition NVDS_E_FLASH_IO_FAIL : Z := 4.
Definition NVDS_E_NOT_FOUND : Z := 5.
Definition NVDS_E_INVALID_LENGTH : Z := 6.
Definition NVDS_E_NO_SPACE : Z := 7.

(** [enum element_type]: a 3-bit field of the tag, of which the code names five
    values. *)
Definition ELEMENT_SMALL : Z := 0.
Definition ELEMENT_MIDDLE : Z := 1.
Definition ELEMENT_BULK : Z := 2.
Definition ELEMENT_BULKINFO : Z := 3.
Definition ELEMENT_ANY : Z := 7.

(** [enum page_state] *)
Definition PAGE_UNINITIALIZED : Z := 0xffff.
Definition PAGE_ACTIVE : Z := 0xfffe.
Definition PAGE_FULL : Z := 0xfffc.
Definition PAGE_CANDIDATE : Z := 0xfff8.
Definition PAGE_ERROR : Z := 0xfff0.
Definition PAGE_INVALID : Z := 0.

Inductive entry_state := ENTRY_FREE | ENTRY_USED | ENTRY_UPDATED | ENTRY_ILLEGAL | ENTRY_ERROR.

#[export] Instance entry_state_eq_dec : EqDecision entry_state.
Proof. solve_decision. Defined.

Definition entry_state_val (st : entry_state) : Z :=
  match st with
  | ENTRY_FREE => 3 | ENTRY_USED => 2 | ENTRY_UPDATED => 0
  | ENTRY_ILLEGAL => 1 | ENTRY_ERROR => 4
  end.

Definition entry_state_of (v : Z) : entry_state :=
  if v =? 3 then ENTRY_FREE else if v =? 2 then ENTRY_USED
  else if v =? 0 then ENTRY_UPDATED else if v =? 1 then ENTRY_ILLEGAL else ENTRY_ERROR.

(** ** The tag *)
Definition tag_namespace_get (tag : Z) : Z := u8 (Z.land tag 0xFF).
Definition tag_element_type_get (tag : Z) : Z := Z.shiftr (Z.land tag (Z.shiftl 0x7 13)) 13.
Definition tag_fragno_get (tag : Z) : Z := u8 (Z.shiftr (Z.land tag (Z.shiftl 0x1F 8)) 8).
Definition tag_set (ns type fragno : Z) : Z :=
  u16 (Z.lor (Z.lor ns (Z.shiftl type 13)) (Z.shiftl fragno 8)).

(** ** Entries *)
Abbreviation entry_info := bytes.

Definition entry_tag (e : entry_info) : Z := word_at 0 2 e.
Definition entry_length (e : entry_info) : Z := word_at 2 2 e.
Definition entry_crc32 (e : entry_info) : Z := word_at 4 4 e.
Definition entry_key (e : entry_info) : bytes := slice 8 16 e.
Definition entry_value (e : entry_info) : bytes := slice 24 8 e.
Definition datacrc32 (e : entry_info) : Z := word_at 28 4 e.
Definition bulksize (e : entry_info) : Z := word_at 28 4 e.

Definition entry_ns (e : entry_info) : Z := tag_namespace_get (entry_tag e).
Definition entry_type (e : entry_info) : Z := tag_element_type_get (entry_tag e).

(** [strlen] of a C string that starts at the head of the list. *)
Fixpoint strlen (bs : bytes) : nat :=
  match bs with
  | [] => 0
  | b :: bs => if b =? 0 then 0 else S (strlen bs)
  end.

(** [strlen(key) == strlen(entry.key) && !memcmp(key, entry.key, strlen(key))];
    the scan of an unterminated [entry.key] runs on into [entry.value]. *)
Definition key_matches (key : bytes) (e : entry_info) : bool :=
  (length key =? strlen (drop 8 e))%nat && bool_decide (take (length key) (entry_key e) = key).

Definition element_header_crc32_calc (header : entry_info) : Z :=
  crc32 (entry_value header) (crc32 (entry_key header) (crc32 (slice 0 4 header) 0)).

Definition element_data_crc32_calc (data : bytes) : Z := crc32 data 0.

(** Number of entries of data behind a header with [entry.length = len]. *)
Definition entries_for (len : Z) : Z := (len + ENTRY_SIZE - 1) / ENTRY_SIZE.

Definition set_field (off n : nat) (x : Z) (e : entry_info) : entry_info := overwrite off (le n x) e.

Definition blank_entry : entry_info := repeat 0xFF 32.

(** [memset(&entry, 0xFF); tag_set; entry.length = length; memcpy(entry.key, key);
    entry.key[strlen(key)] = 0] *)
Definition entry_start (ns type fragno len : Z) (key : bytes) : entry_info :=
  let e1 := set_field 0 2 (tag_set ns type fragno) blank_entry in
  let e2 := set_field 2 2 (u16 len) e1 in
  let e3 := overwrite 8 key e2 in
  overwrite (8 + length key) [0] e3.

(** [entry.crc32 = element_header_crc32_calc(&entry)] *)
Definition entry_seal (e : entry_info) : entry_info :=
  set_field 4 4 (element_header_crc32_calc e) e.

(** ** The entry states table *)
Definition table_bytes (states : list Z) : bytes := mjoin (le 4 <$> states).

Definition parse_table (bs : bytes) : list Z :=
  (fun i => word_at (4 * i) 4 bs) <$> seq 0 8.

Definition entry_state_get (states : list Z) (idx : Z) : option entry_state :=
  let table_idx := idx / 16 in
  let bit_offset := idx mod 16 * 2 in
  if ENTRY_COUNT_PER_PAGE <=? idx then None
  else Some (entry_state_of
    (Z.land (Z.shiftr (nth (Z.to_nat table_idx) states 0) bit_offset) 0x03)).

Definition set_state_bits (w bit_offset v : Z) : Z :=
  Z.lor (Z.land w (Z.lnot (Z.shiftl 0x03 bit_offset))) (Z.shiftl v bit_offset).

Definition entry_state_set (states : list Z) (idx : Z) (st : entry_state) : option (list Z) :=
  let table_idx := idx / 16 in
  let bit_offset := idx mod 16 * 2 in
  if ENTRY_COUNT_PER_PAGE <=? idx then None
  else if bool_decide (st = ENTRY_ILLEGAL) || (4 <=? entry_state_val st) then None
  else if ENTRY_STATES_TABLE_SIZE <=? table_idx then None
  else
    let w := nth (Z.to_nat table_idx) states 0 in
    Some (<[Z.to_nat table_idx := set_state_bits w bit_offset (entry_state_val st)]> states).

(** ** The namespace bitmap *)
Definition ns_state_get (states : list Z) (idx : Z) : bool :=
  negb (Z.land (Z.shiftr (nth (Z.to_nat (idx / 32)) states 0) (idx mod 32)) 0x01 =? 0).

Definition ns_state_set (states : list Z) (idx : Z) (b : bool) : list Z :=
  let t := Z.to_nat (idx / 32) in
  let o := idx mod 32 in
  <[t := Z.lor (Z.land (nth t states 0) (Z.lnot (Z.shiftl 1 o))) (Z.shiftl (Z.b2z b) o)]> states.

(** ** Page headers *)
Record page_header := Header {
  h_magic : Z; h_version : Z; h_state : Z; h_seqno : Z; h_rsv : bytes; h_crc32 : Z }.

Definition header_bytes (h : page_header) : bytes :=
  le 4 (h_magic h) ++ le 2 (h_version h) ++ le 2 (h_state h) ++ le 4 (h_seqno h) ++
  h_rsv h ++ le 4 (h_crc32 h).

Definition parse_header (bs : bytes) : page_header :=
  Header (word_at 0 4 bs) (word_at 4 2 bs) (word_at 6 2 bs) (word_at 8 4 bs)
         (slice 12 16 bs) (word_at 28 4 bs).

Definition page_header_crc32_calc (h : page_header) : Z :=
  crc32 (slice 8 20 (header_bytes h)) (crc32 (slice 0 6 (header_bytes h)) 0).

Definition set_h_state (st : Z) (h : page_header) : page_header :=
  Header (h_magic h) (h_version h) st (h_seqno h) (h_rsv h) (h_crc32 h).

Definition set_h_crc (c : Z) (h : page_header) : page_header :=
  Header (h_magic h) (h_version h) (h_state h) (h_seqno h) (h_rsv h) c.

(** [sys_memset(&page->header, 0xFF, sizeof(page->header))] *)
Definition blank_header : page_header :=
  Header 0xFFFFFFFF 0xFFFF 0xFFFF 0xFFFFFFFF (repeat 0xFF 16) 0xFFFFFFFF.

Definition blank_table : list Z := repeat 0xFFFFFFFF 8.

(** ** Overwriting a segment, and programming flash over old contents *)
Section segments.
Context {A : Type}.
Implicit Types l pre seg post bs : list A.

Lemma overwrite_seg off bs pre seg post :
  length pre = off -> length seg = length bs ->
  overwrite off bs (pre ++ seg ++ post) = pre ++ bs ++ post.
Proof.
  intros <- E. unfold overwrite. rewrite take_app_length, <- E. f_equal. f_equal.
  rewrite app_assoc, <- length_app. apply drop_app_length.
Qed.

Lemma overwrite_seg_end off bs pre seg :
  length pre = off -> length seg = length bs -> overwrite off bs (pre ++ seg) = pre ++ bs.
Proof.
  intros Hp E. pose proof (overwrite_seg off bs pre seg [] Hp E) as H. by rewrite !app_nil_r in H.
Qed.

Lemma slice_seg off n pre seg post :
  length pre = off -> length seg = n -> slice off n (pre ++ seg ++ post) = seg.
Proof. intros <- <-. unfold slice. rewrite drop_app_length. apply take_app_length. Qed.

Lemma slice_seg_end off n pre seg :
  length pre = off -> length seg = n -> slice off n (pre ++ seg) = seg.
Proof. intros <- <-. unfold slice. rewrite drop_app_length. by apply take_ge. Qed.
End segments.

(** [land_bytes old new]: what programming [new] over [old] leaves. *)
Abbreviation land_bytes := (zip_with Z.land).

Lemma le_land n x y : le n (Z.land x y) = land_bytes (le n x) (le n y).
Proof.
  revert x y. induction n as [|n IH]; intros x y; [done|]. cbn [le zip_with].
  f_equal.
  - unfold u8. bits_eq i Hi. destruct (Z.lt_ge_cases i 8).
    + by rewrite Z.land_spec, !Z.mod_pow2_bits_low, Z.land_spec by lia.
    + by rewrite Z.land_spec, !Z.mod_pow2_bits_high by lia.
  - by rewrite Z.shiftr_land, IH.
Qed.

(** ** The tag *)

(** The three fields of a tag read back what [tag_set] was given. *)
Lemma tag_roundtrip ns type fragno :
  is_u8 ns -> 0 <= type < 8 -> 0 <= fragno < 32 ->
  tag_namespace_get (tag_set ns type fragno) = ns /\
  tag_element_type_get (tag_set ns type fragno) = type /\
  tag_fragno_get (tag_set ns type fragno) = fragno.
Proof.
  intros Hn Ht Hf.
  assert (H : forallb (fun n => forallb (fun t => forallb (fun f =>
    let tag := tag_set n t f in
    (tag_namespace_get tag =? n) && (tag_element_type_get tag =? t) && (tag_fragno_get tag =? f))
    (seqZ 0 32)) (seqZ 0 8)) (seqZ 0 256) = true) by (vm_compute; reflexivity).
  apply (forallb_seqZ _ _ ns) in H; [|exact Hn].
  apply (forallb_seqZ _ _ type) in H; [|exact Ht].
  apply (forallb_seqZ _ _ fragno) in H; [|exact Hf].
  cbv zeta in H. rewrite !andb_true_iff, !Z.eqb_eq in H. tauto.
Qed.

(** ** State bits *)
Section state_bits.
Implicit Types w o v j : Z.

Lemma testbit_3 j : 0 <= j -> Z.testbit 3 j = (j <? 2).
Proof.
  intros Hj. change 3 with (Z.ones 2). rewrite Z.testbit_ones_nonneg by lia. done.
Qed.

Lemma set_state_bits_spec w o v j :
  0 <= o -> 0 <= v < 4 -> 0 <= j ->
  Z.testbit (set_state_bits w o v) j =
    if (o <=? j) && (j <? o + 2) then Z.testbit v (j - o) else Z.testbit w j.
Proof.
  intros Ho Hv Hj. unfold set_state_bits.
  rewrite Z.lor_spec, Z.land_spec, Z.lnot_spec by done.
  destruct (Z.leb_spec o j) as [Hle|Hlt]; simpl.
  - rewrite !Z.shiftl_spec by lia. rewrite testbit_3 by lia.
    destruct (Z.ltb_spec j (o + 2)).
    + replace (j - o <? 2) with true by lia. by rewrite andb_false_r.
    + replace (j - o <? 2) with false by lia. rewrite andb_true_r.
      rewrite (testbit_above 2 v) by (unfold in_width; lia). by rewrite orb_false_r.
  - rewrite !Z.shiftl_spec_low by lia. by rewrite andb_true_r, orb_false_r.
Qed.

Definition state_bits w o : Z := Z.land (Z.shiftr w o) 0x03.

Lemma state_bits_spec w o j :
  0 <= o -> 0 <= j -> Z.testbit (state_bits w o) j = Z.testbit w (j + o) && (j <? 2).
Proof.
  intros Ho Hj. unfold state_bits. by rewrite Z.land_spec, Z.shiftr_spec, testbit_3 by lia.
Qed.

Lemma state_bits_set w o v : 0 <= o -> 0 <= v < 4 -> state_bits (set_state_bits w o v) o = v.
Proof.
  intros Ho Hv. bits_eq j Hj. rewrite state_bits_spec, set_state_bits_spec by lia.
  destruct (Z.ltb_spec j 2).
  - replace ((o <=? j + o) && (j + o <? o + 2)) with true by lia.
    rewrite andb_true_r. f_equal. lia.
  - rewrite andb_false_r. by rewrite (testbit_above 2 v) by (unfold in_width; lia).
Qed.

Lemma state_bits_set_ne w o o' v :
  0 <= o -> 0 <= o' -> 0 <= v < 4 -> o' + 2 <= o \/ o + 2 <= o' ->
  state_bits (set_state_bits w o v) o' = state_bits w o'.
Proof.
  intros Ho Ho' Hv Hne. bits_eq j Hj. rewrite !state_bits_spec, set_state_bits_spec by lia.
  destruct (Z.ltb_spec j 2); [|by rewrite !andb_false_r].
  by replace ((o <=? j + o') && (j + o' <? o + 2)) with false by lia.
Qed.

Lemma set_state_bits_u32 w o v :
  is_u32 w -> 0 <= o <= 30 -> 0 <= v < 4 -> is_u32 (set_state_bits w o v).
Proof.
  intros Hw Ho Hv. apply lor_width; [lia| |].
  - apply in_width_testbit; [lia| |].
    + apply Z.land_nonneg. left. apply Hw.
    + intros i Hi. by rewrite Z.land_spec, (testbit_above 32 w).
  - split; [apply Z.shiftl_nonneg; lia|].
    rewrite Z.shiftl_mul_pow2 by lia.
    pose proof (Z.pow_le_mono_r 2 o 30 ltac:(lia) ltac:(lia)).
    change (2 ^ 32) with (4 * 2 ^ 30). nia.
Qed.

(** A transition that only clears bits is one the flash can program. *)
Lemma set_state_bits_programs w o v :
  0 <= o -> 0 <= v < 4 -> Z.land (state_bits w o) v = v ->
  Z.land w (set_state_bits w o v) = set_state_bits w o v.
Proof.
  intros Ho Hv H. bits_eq j Hj. rewrite Z.land_spec, set_state_bits_spec by lia.
  destruct ((o <=? j) && (j <? o + 2)) eqn:E; [|apply andb_diag].
  assert (Hb : Z.testbit (Z.land (state_bits w o) v) (j - o) = Z.testbit v (j - o)) by by rewrite H.
  rewrite Z.land_spec, state_bits_spec in Hb by lia.
  replace (j - o <? 2) with true in Hb by lia. rewrite andb_true_r in Hb.
  by replace (j - o + o) with j in Hb by lia.
Qed.
End state_bits.

(** ** The entry states table *)
Definition writable (st : entry_state) : Prop := st <> ENTRY_ILLEGAL /\ st <> ENTRY_ERROR.

(** [clears cur st]: the state bits of [st] are among those of [cur]. *)
Definition clears (cur st : entry_state) : Prop :=
  Z.land (entry_state_val cur) (entry_state_val st) = entry_state_val st.

Record table_reps (states : list Z) (f : Z -> entry_state) : Prop := TableReps {
  tr_length : length states = 8%nat;
  tr_u32 : Forall is_u32 states;
  tr_get : forall i, 0 <= i < ENTRY_COUNT_PER_PAGE -> entry_state_get states i = Some (f i) }.

(** [programs_to ws ws']: programming [ws'] over [ws] leaves [ws']. *)
Definition programs_to (ws ws' : list Z) : Prop := Forall2 (fun w w' => Z.land w w' = w') ws ws'.

Lemma entry_state_of_val st : st <> ENTRY_ERROR -> entry_state_of (entry_state_val st) = st.
Proof. by destruct st. Qed.

Lemma entry_state_val_of v : 0 <= v < 4 -> entry_state_val (entry_state_of v) = v.
Proof.
  intros H. assert (v = 0 \/ v = 1 \/ v = 2 \/ v = 3) as [-> | [-> | [-> | ->]]] by lia; done.
Qed.

Lemma state_bits_range w o : 0 <= state_bits w o < 4.
Proof.
  unfold state_bits. change 3 with (Z.ones 2). rewrite Z.land_ones by lia.
  apply Z.mod_pos_bound. lia.
Qed.

Lemma entry_state_get_bits states i :
  0 <= i < ENTRY_COUNT_PER_PAGE ->
  entry_state_get states i =
    Some (entry_state_of (state_bits (nth (Z.to_nat (i / 16)) states 0) (i mod 16 * 2))).
Proof.
  intros Hi. unfold entry_state_get. unfold ENTRY_COUNT_PER_PAGE in *.
  by replace (126 <=? i) with false by lia.
Qed.

Lemma programs_to_refl ws : programs_to ws ws.
Proof. induction ws; constructor; [apply Z.land_diag|done]. Qed.

Lemma table_reps_set states f i st :
  table_reps states f -> 0 <= i < ENTRY_COUNT_PER_PAGE -> writable st ->
  exists states', entry_state_set states i st = Some states' /\
    table_reps states' (fun j => if decide (j = i) then st else f j) /\
    (clears (f i) st -> programs_to states states').
Proof.
  intros [Hlen Hu Hget] Hi [Hst1 Hst2]. unfold entry_state_set. unfold ENTRY_COUNT_PER_PAGE in *.
  replace (126 <=? i) with false by lia. rewrite bool_decide_false by done.
  replace (4 <=? entry_state_val st) with false by (by destruct st).
  replace (ENTRY_STATES_TABLE_SIZE <=? i / 16) with false
    by (unfold ENTRY_STATES_TABLE_SIZE; Z.div_mod_to_equations; lia).
  set (t := Z.to_nat (i / 16)). set (o := i mod 16 * 2). set (w := nth t states 0).
  assert (Ht : (t < 8)%nat) by (subst t; Z.div_mod_to_equations; lia).
  assert (Ho : 0 <= o <= 30) by (subst o; Z.div_mod_to_equations; lia).
  assert (Hv : 0 <= entry_state_val st < 4) by (by destruct st).
  assert (Hw : states !! t = Some w) by (destruct (nth_lookup_or_length states t 0); [done|lia]).
  assert (Huw : is_u32 w) by (eapply Forall_lookup_1; eauto).
  eexists. split; [reflexivity|]. split; [split|].
  - by rewrite length_insert.
  - apply Forall_insert; [done|]. by apply set_state_bits_u32.
  - intros j Hj. specialize (Hget j Hj). rewrite entry_state_get_bits in Hget |- * by done.
    destruct (decide (Z.to_nat (j / 16) = t)) as [Et|Et].
    + rewrite Et in Hget |- *. rewrite nth_lookup, list_lookup_insert_eq by lia. simpl (default _ _). fold w in Hget.
      destruct (decide (j = i)) as [->|Hne].
      * fold o. by rewrite state_bits_set, entry_state_of_val by (done || lia).
      * rewrite state_bits_set_ne; [done|lia|Z.div_mod_to_equations; lia|done|].
        subst o t. Z.div_mod_to_equations; lia.
    + rewrite nth_lookup, list_lookup_insert_ne, <- nth_lookup by done. rewrite Hget.
      by rewrite decide_False by (intros ->; done).
  - intros Hc. unfold programs_to. rewrite <- (list_insert_id states t w Hw) at 1.
    apply Forall2_insert; [apply programs_to_refl|].
    apply set_state_bits_programs; [lia..|].
    specialize (Hget i Hi). rewrite entry_state_get_bits in Hget by done. fold t o w in Hget.
    injection Hget as Hget. unfold clears in Hc. rewrite <- Hget in Hc.
    by rewrite entry_state_val_of in Hc by apply state_bits_range.
Qed.

Lemma table_bytes_length states : length (table_bytes states) = (4 * length states)%nat.
Proof.
  unfold table_bytes. induction states as [|w ws IH]; [done|].
  rewrite fmap_cons. change (mjoin (le 4 w :: (le 4 <$> ws))) with (le 4 w ++ mjoin (le 4 <$> ws)).
  rewrite length_app, length_le, IH. simpl. lia.
Qed.

Lemma table_bytes_programs ws ws' :
  programs_to ws ws' -> land_bytes (table_bytes ws) (table_bytes ws') = table_bytes ws'.
Proof.
  induction 1 as [|w w' ws ws' Hw _ IH]; [done|].
  unfold table_bytes in *. cbn [fmap list_fmap mjoin list_join].
  rewrite zip_with_app by by rewrite !length_le.
  rewrite <- le_land, Hw. f_equal. exact IH.
Qed.

Lemma table_bytes_chunk states i w :
  states !! i = Some w ->
  exists pre post, table_bytes states = pre ++ le 4 w ++ post /\ length pre = (4 * i)%nat.
Proof.
  intros Hi. exists (table_bytes (take i states)), (table_bytes (drop (S i) states)). split.
  - rewrite <- (take_drop_middle states i w Hi) at 1. unfold table_bytes.
    by rewrite fmap_app, join_app.
  - rewrite table_bytes_length, length_take. apply lookup_lt_Some in Hi. lia.
Qed.

Lemma parse_table_bytes states :
  length states = 8%nat -> Forall is_u32 states -> parse_table (table_bytes states) = states.
Proof.
  intros Hlen Hu. apply list_eq. intros i. unfold parse_table. rewrite list_lookup_fmap.
  destruct (decide (i < 8)%nat) as [Hi|Hi].
  - rewrite lookup_seq_lt by done. cbn [fmap option_fmap option_map].
    destruct (lookup_lt_is_Some_2 states i ltac:(lia)) as [w Hw]. rewrite Hw. f_equal.
    destruct (table_bytes_chunk states i w Hw) as (pre & post & E & Hp).
    unfold word_at. replace (4 * (0 + i))%nat with (4 * i)%nat by lia.
    rewrite E, (slice_seg (4 * i) 4 pre (le 4 w) post Hp) by apply length_le.
    apply unle_le. by apply (Forall_lookup_1 _ _ _ _ Hu Hw).
  - rewrite !lookup_ge_None_2; [done|lia|]. by rewrite length_seq; lia.
Qed.

(** An erased table: every entry is free. *)
Lemma table_reps_blank : table_reps blank_table (fun _ => ENTRY_FREE).
Proof.
  split; [done|repeat constructor; word_lia|]. intros i Hi. rewrite entry_state_get_bits by done.
  assert (Hn : nth (Z.to_nat (i / 16)) blank_table 0 = 0xFFFFFFFF).
  { assert (Hr : (Z.to_nat (i / 16) < 8)%nat)
      by (unfold ENTRY_COUNT_PER_PAGE in Hi; Z.div_mod_to_equations; lia).
    revert Hr. generalize (Z.to_nat (i / 16)). intros n Hr.
    do 8 (destruct n as [|n]; [done|]). lia. }
  rewrite Hn. f_equal. change ENTRY_FREE with (entry_state_of 3). f_equal.
  bits_eq j Hj. rewrite state_bits_spec, testbit_3 by (Z.div_mod_to_equations; lia).
  destruct (Z.ltb_spec j 2); [|apply andb_false_r].
  rewrite andb_true_r. change 0xFFFFFFFF with (Z.ones 32). apply Z.ones_spec_low.
  unfold ENTRY_COUNT_PER_PAGE in Hi. Z.div_mod_to_equations; lia.
Qed.

Lemma table_bytes_blank : table_bytes blank_table = repeat 0xFF 32.
Proof. reflexivity. Qed.

Lemma table_reps_ext states f g :
  (forall i, 0 <= i < ENTRY_COUNT_PER_PAGE -> f i = g i) -> table_reps states f -> table_reps states g.
Proof. intros E [H1 H2 H3]. split; [done..|]. intros i Hi. by rewrite H3, E. Qed.

(** ** Entries *)
Definition key_field (key : bytes) : bytes := key ++ [0] ++ repeat 0xFF (15 - length key).

Definition mk_entry (tag len crc : Z) (kf v : bytes) : entry_info :=
  le 2 tag ++ le 2 len ++ le 4 crc ++ kf ++ v.

(** A C string that fits a key field. *)
Definition key_ok (key : bytes) : Prop :=
  bytes_ok key /\ 0 ∉ key /\ (length key <= 15)%nat.

Lemma length_key_field key : (length key <= 15)%nat -> length (key_field key) = 16%nat.
Proof. intros. unfold key_field. rewrite !length_app, repeat_length. simpl. lia. Qed.

Lemma key_field_ok key : bytes_ok key -> bytes_ok (key_field key).
Proof.
  intros H. unfold key_field. rewrite !Forall_app. split_and!; [done|repeat constructor; lia|].
  apply Forall_forall. intros x Hx. apply list_elem_of_In, repeat_spec in Hx. subst. word_lia.
Qed.

Section entry.
Context (tag len crc : Z) (kf v : bytes).
Hypotheses (Htag : is_u16 tag) (Hlen : is_u16 len) (Hcrc : is_u32 crc).
Hypotheses (Hkf : length kf = 16%nat) (Hv : length v = 8%nat).

Abbreviation e := (mk_entry tag len crc kf v).

Lemma length_mk_entry : length e = 32%nat.
Proof. unfold mk_entry. rewrite !length_app, !length_le. lia. Qed.

Lemma mk_entry_tag : entry_tag e = tag.
Proof.
  unfold entry_tag, word_at, mk_entry. rewrite slice_app_l by apply length_le. by apply unle_le.
Qed.

Lemma mk_entry_length : entry_length e = len.
Proof.
  unfold entry_length, word_at, mk_entry. rewrite slice_seg by apply length_le. by apply unle_le.
Qed.

Lemma mk_entry_crc : entry_crc32 e = crc.
Proof.
  unfold entry_crc32, word_at, mk_entry. rewrite (app_assoc (le 2 tag)), slice_seg;
    [by apply unle_le|by rewrite length_app, !length_le|apply length_le].
Qed.

Lemma mk_entry_key : entry_key e = kf.
Proof.
  unfold entry_key, mk_entry. rewrite !app_assoc, <- app_assoc, slice_seg; [done| |done].
  by rewrite !length_app, !length_le.
Qed.

Lemma mk_entry_value : entry_value e = v.
Proof.
  unfold entry_value, mk_entry. rewrite !app_assoc, slice_seg_end; [done| |done].
  rewrite !length_app, !length_le. lia.
Qed.

Lemma mk_entry_head : slice 0 4 e = le 2 tag ++ le 2 len.
Proof.
  unfold mk_entry. rewrite app_assoc. by rewrite slice_app_l by by rewrite length_app, !length_le.
Qed.

Lemma mk_entry_drop8 : drop 8 e = kf ++ v.
Proof. reflexivity. Qed.
End entry.

(** Overwriting the header checksum changes nothing it covers. *)
Lemma header_crc_mk_entry tag len crc kf v :
  length kf = 16%nat -> length v = 8%nat ->
  element_header_crc32_calc (mk_entry tag len crc kf v) =
    crc32 v (crc32 kf (crc32 (le 2 tag ++ le 2 len) 0)).
Proof.
  intros Hk Hv. unfold element_header_crc32_calc.
  by rewrite mk_entry_value, mk_entry_key, mk_entry_head.
Qed.

Definition sealed_crc (tag len : Z) (kf v : bytes) : Z :=
  crc32 v (crc32 kf (crc32 (le 2 tag ++ le 2 len) 0)).

(** The entry the store writes for these fields. *)
Definition sealed (ns type fragno len : Z) (key v : bytes) : entry_info :=
  let tag := tag_set ns type fragno in
  mk_entry tag (u16 len) (sealed_crc tag (u16 len) (key_field key) v) (key_field key) v.

Lemma sealed_crc_u32 tag len kf v : bytes_ok kf -> bytes_ok v -> is_u32 (sealed_crc tag len kf v).
Proof.
  intros Hk Hv. apply crc32_u32; [done|]. apply crc32_u32; [done|]. apply crc32_u32.
  - apply Forall_app; split; apply le_ok.
  - word_lia.
Qed.

Lemma entry_start_layout ns type fragno len key :
  (length key <= 15)%nat ->
  entry_start ns type fragno len key =
    mk_entry (tag_set ns type fragno) (u16 len) 0xFFFFFFFF (key_field key) (repeat 0xFF 8).
Proof.
  intros Hk. unfold entry_start, set_field, mk_entry, key_field.
  cbv zeta. replace blank_entry with ([] ++ repeat 0xFF 2 ++ repeat 0xFF 30) by reflexivity.
  rewrite (overwrite_seg 0) by done. rewrite app_nil_l.
  replace (repeat 255 30) with (repeat 0xFF 2 ++ repeat 0xFF 4 ++ repeat 0xFF 24) by reflexivity.
  rewrite overwrite_seg by by rewrite length_le.
  set (pre := le 2 (tag_set ns type fragno) ++ le 2 (u16 len) ++ repeat 255 4).
  assert (Hp : length pre = 8%nat) by (unfold pre; by rewrite !length_app, !length_le).
  replace (repeat 255 24)
    with (repeat 255 (length key) ++ repeat 255 1 ++ repeat 255 (15 - length key) ++ repeat 255 8)
    by (rewrite <- !repeat_app; f_equal; lia).
  assert (E : forall X, le 2 (tag_set ns type fragno) ++ le 2 (u16 len) ++ repeat 255 4 ++ X = pre ++ X)
    by (intros X; unfold pre; by rewrite <- !app_assoc).
  rewrite !E, (overwrite_seg 8) by (done || apply repeat_length).
  rewrite (app_assoc pre key), overwrite_seg; [|by rewrite length_app, Hp|done].
  unfold pre. by rewrite <- !app_assoc.
Qed.

Lemma entry_seal_mk tag len crc kf v :
  length kf = 16%nat -> length v = 8%nat ->
  entry_seal (mk_entry tag len crc kf v) = mk_entry tag len (sealed_crc tag len kf v) kf v.
Proof.
  intros Hk Hv. unfold entry_seal. rewrite header_crc_mk_entry by done.
  unfold set_field, mk_entry. rewrite (app_assoc (le 2 tag)).
  rewrite overwrite_seg; [by rewrite <- app_assoc|by rewrite length_app, !length_le|].
  by rewrite !length_le.
Qed.

Lemma set_value_mk off tag len crc kf v bs :
  length kf = 16%nat -> length v = 8%nat -> (off + length bs <= 8)%nat ->
  overwrite (24 + off) bs (mk_entry tag len crc kf v) = mk_entry tag len crc kf (overwrite off bs v).
Proof.
  intros Hk Hv Hb. unfold mk_entry. rewrite !app_assoc. unfold overwrite at 1.
  set (pre := ((le 2 tag ++ le 2 len) ++ le 4 crc) ++ kf).
  assert (Hp : length pre = 24%nat) by (unfold pre; rewrite !length_app, !length_le; lia).
  unfold overwrite. rewrite take_app, take_ge by lia. rewrite drop_app, drop_ge by lia.
  rewrite Hp, app_nil_l, <- app_assoc. f_equal. f_equal; [f_equal; lia|]. f_equal. f_equal. lia.
Qed.

(** The fields of a sealed entry. *)
Record sealed_fields (ns type fragno len : Z) (key v : bytes) (e : entry_info) : Prop := SealedFields {
  sf_size : length e = 32%nat;
  sf_ok : bytes_ok e;
  sf_ns : entry_ns e = ns;
  sf_type : entry_type e = type;
  sf_frag : tag_fragno_get (entry_tag e) = fragno;
  sf_len : entry_length e = len;
  sf_value : entry_value e = v;
  sf_key : entry_key e = key_field key;
  sf_crc : entry_crc32 e = element_header_crc32_calc e;
  sf_match : forall k, key_ok k -> key_matches k e = bool_decide (k = key) }.

Lemma strlen_key key tl : 0 ∉ key -> strlen (key ++ 0 :: tl) = length key.
Proof.
  induction key as [|b key IH]; intros H; [done|]. cbn [strlen app length].
  destruct (Z.eqb_spec b 0) as [->|]; [set_solver|]. rewrite IH by set_solver. done.
Qed.

Lemma take_key_field n key : (n <= length key)%nat -> take n (key_field key) = take n key.
Proof. intros. unfold key_field. by rewrite take_app_le. Qed.

Lemma sealed_spec ns type fragno len key v :
  is_u8 ns -> 0 <= type < 8 -> 0 <= fragno < 32 -> is_u16 len -> key_ok key ->
  bytes_ok v -> length v = 8%nat ->
  sealed_fields ns type fragno len key v (sealed ns type fragno len key v).
Proof.
  intros Hns Htype Hfrag Hlen (Hk & H0 & Hk15) Hv Hv8.
  destruct (tag_roundtrip ns type fragno Hns Htype Hfrag) as (T1 & T2 & T3).
  pose proof (length_key_field key Hk15) as Hkf. pose proof (key_field_ok key Hk) as Hkok.
  unfold sealed. rewrite (u16_small len) by done.
  pose proof (sealed_crc_u32 (tag_set ns type fragno) len _ _ Hkok Hv) as Hc.
  assert (Htag : is_u16 (tag_set ns type fragno)) by apply u16_range.
  split.
  - by apply length_mk_entry.
  - unfold mk_entry. rewrite !Forall_app. split_and!; auto using le_ok.
  - unfold entry_ns. by rewrite mk_entry_tag.
  - unfold entry_type. by rewrite mk_entry_tag.
  - by rewrite mk_entry_tag.
  - by apply mk_entry_length.
  - by apply mk_entry_value.
  - by apply mk_entry_key.
  - by rewrite mk_entry_crc, header_crc_mk_entry.
  - intros k (Hkk & Hk0 & Hkk15). unfold key_matches.
    rewrite mk_entry_drop8, mk_entry_key by done. unfold key_field at 1.
    rewrite <- !app_assoc. cbn [app]. rewrite strlen_key by done.
    destruct (Nat.eqb_spec (length k) (length key)) as [E|E]; simpl.
    + apply bool_decide_ext. rewrite take_key_field by lia. rewrite take_ge by lia. naive_solver.
    + symmetry. apply bool_decide_eq_false. by intros ->.
Qed.

(** The name a report or the loader reads from a header. *)
Lemma sealed_name ns type fragno len key v :
  is_u16 len -> key_ok key -> length v = 8%nat ->
  take (strlen (drop 8 (sealed ns type fragno len key v))) (drop 8 (sealed ns type fragno len key v)) = key.
Proof.
  intros Hlen (_ & H0 & Hk15) Hv. pose proof (length_key_field key Hk15) as Hkf. unfold sealed.
  rewrite (u16_small len) by done. rewrite mk_entry_drop8 by done. unfold key_field.
  rewrite <- !app_assoc. cbn [app]. rewrite strlen_key by done. by rewrite take_app_length.
Qed.

(** The value field of an element: the data of a small one, the checksum of the
    data of a larger one. *)
Definition small_value (buf : bytes) : bytes := buf ++ repeat 0xFF (8 - length buf).
Definition info_value (x : Z) : bytes := repeat 0xFF 4 ++ le 4 x.

Lemma repeat_ff_ok n : bytes_ok (repeat 0xFF n).
Proof.
  apply Forall_forall. intros x Hx. apply list_elem_of_In, repeat_spec in Hx. subst. word_lia.
Qed.

Lemma small_entry_sealed ns fragno len key buf :
  (length key <= 15)%nat -> (length buf <= 8)%nat ->
  entry_seal (overwrite 24 buf (entry_start ns ELEMENT_SMALL fragno len key)) =
    sealed ns ELEMENT_SMALL fragno len key (small_value buf).
Proof.
  intros Hk Hb. pose proof (length_key_field key Hk). rewrite entry_start_layout by done.
  change 24%nat with (24 + 0)%nat. rewrite set_value_mk by (done || (simpl; lia)).
  assert (E : overwrite 0 buf (repeat 255 8) = small_value buf).
  { replace (repeat 255 8) with ([] ++ repeat 0xFF (length buf) ++ repeat 0xFF (8 - length buf))
      by (cbn [app]; rewrite <- repeat_app; f_equal; lia).
    by rewrite overwrite_seg by (done || apply repeat_length). }
  rewrite E, entry_seal_mk; [done|done|].
  unfold small_value. rewrite length_app, repeat_length. lia.
Qed.

Lemma info_entry_sealed ns type fragno len key x :
  (length key <= 15)%nat ->
  entry_seal (set_field 28 4 x (entry_start ns type fragno len key)) =
    sealed ns type fragno len key (info_value x).
Proof.
  intros Hk. pose proof (length_key_field key Hk). rewrite entry_start_layout by done.
  unfold set_field. change 28%nat with (24 + 4)%nat.
  rewrite set_value_mk by (done || (rewrite ?length_le; simpl; lia)).
  change (repeat 255 8) with (repeat 0xFF 4 ++ repeat 0xFF 4) at 1.
  rewrite overwrite_seg_end by (done || by rewrite length_le).
  by rewrite entry_seal_mk.
Qed.

Lemma info_value_ok x : bytes_ok (info_value x) /\ length (info_value x) = 8%nat.
Proof.
  unfold info_value. rewrite Forall_app, length_app, length_le. split; [|done].
  split; [apply repeat_ff_ok|apply le_ok].
Qed.

Lemma small_value_ok buf :
  bytes_ok buf -> (length buf <= 8)%nat -> bytes_ok (small_value buf) /\ length (small_value buf) = 8%nat.
Proof.
  intros H Hb. unfold small_value. rewrite Forall_app, length_app, repeat_length.
  split; [split; [done|apply repeat_ff_ok]|lia].
Qed.

Lemma info_value_read e x : is_u32 x -> length e = 32%nat -> entry_value e = info_value x -> datacrc32 e = x.
Proof.
  intros Hx He E. unfold datacrc32, word_at. rewrite <- (unle_le 4 x) by exact Hx. f_equal.
  transitivity (slice 4 4 (entry_value e)); [|by rewrite E].
  unfold entry_value, slice. rewrite skipn_firstn_comm, take_take, drop_drop. done.
Qed.

(** ** Page headers *)
Definition header_ok (h : page_header) : Prop :=
  is_u32 (h_magic h) /\ is_u16 (h_version h) /\ is_u16 (h_state h) /\ is_u32 (h_seqno h) /\
  bytes_ok (h_rsv h) /\ length (h_rsv h) = 16%nat /\ is_u32 (h_crc32 h).

Lemma header_bytes_length h : length (h_rsv h) = 16%nat -> length (header_bytes h) = 32%nat.
Proof. intros H. unfold header_bytes. rewrite !length_app, !length_le, H. done. Qed.

(** Reading a written header gives the same header back. *)
Lemma parse_header_bytes h : header_ok h -> parse_header (header_bytes h) = h.
Proof.
  intros (H1 & H2 & H3 & H4 & H5 & H6 & H7). destruct h as [m v s q r c]. simpl in *.
  unfold parse_header, header_bytes. simpl h_magic; simpl h_version; simpl h_state;
    simpl h_seqno; simpl h_rsv; simpl h_crc32.
  assert (E : forall off n x pre post, length pre = off -> 0 <= x < 2 ^ (8 * Z.of_nat n) ->
    word_at off n (pre ++ le n x ++ post) = x).
  { intros off n x pre post Hp Hx. unfold word_at. rewrite slice_seg; [by apply unle_le|done|].
    apply length_le. }
  f_equal.
  - by apply (E 0%nat 4%nat m []).
  - by apply (E 4%nat 2%nat v (le 4 m)).
  - rewrite (app_assoc (le 4 m)). by apply (E 6%nat 2%nat s).
  - rewrite (app_assoc (le 4 m)), (app_assoc (_ ++ _)). by apply (E 8%nat 4%nat q).
  - rewrite (app_assoc (le 4 m)), (app_assoc (_ ++ _)), (app_assoc (_ ++ _)).
    by apply slice_seg.
  - rewrite (app_assoc (le 4 m)), !(app_assoc (_ ++ _)).
    rewrite <- (app_nil_r (le 4 c)). apply (E 28%nat 4%nat c); [|done].
    by rewrite !length_app, !length_le, H6.
Qed.

(** The header [new_page_request] writes. *)
Definition fresh_header (seq : Z) : page_header :=
  let h := Header NVDS_FLASH_MAGIC NVDS_FLASH_VERSION PAGE_ACTIVE seq (repeat 0xFF 16) 0xFFFFFFFF in
  set_h_crc (page_header_crc32_calc h) h.

Lemma header_crc_ignores_state h st c :
  length (h_rsv h) = 16%nat ->
  page_header_crc32_calc (set_h_crc c (set_h_state st h)) = page_header_crc32_calc h.
Proof.
  intros Hr. destruct h as [m v s q r c']. simpl in Hr. unfold page_header_crc32_calc, header_bytes. simpl h_magic; simpl h_version; simpl h_state; simpl h_seqno; simpl h_rsv; simpl h_crc32.
  f_equal.
  assert (E : forall s' c'', slice 8 20 (le 4 m ++ le 2 v ++ le 2 s' ++ le 4 q ++ r ++ le 4 c'') = le 4 q ++ r).
  { intros s' c''. rewrite (app_assoc (le 4 m)), (app_assoc (_ ++ _)), (app_assoc (le 4 q)).
    apply slice_seg; [by rewrite !length_app, !length_le|]. by rewrite length_app, length_le, Hr. }
  by rewrite !E.
Qed.

Lemma header_bytes_ok h : bytes_ok (h_rsv h) -> bytes_ok (header_bytes h).
Proof. intros H. unfold header_bytes. rewrite !Forall_app. split_and!; auto using le_ok. Qed.

Lemma page_header_crc_u32 h : bytes_ok (h_rsv h) -> is_u32 (page_header_crc32_calc h).
Proof.
  intros H. apply header_bytes_ok in H.
  unfold page_header_crc32_calc. apply crc32_u32; [by apply Forall_take, Forall_drop|].
  apply crc32_u32; [by apply Forall_take, Forall_drop|]. word_lia.
Qed.

Lemma fresh_header_ok seq : is_u32 seq -> header_ok (fresh_header seq).
Proof.
  intros Hs. unfold fresh_header. set (h := Header _ _ _ _ _ _).
  assert (Hr : bytes_ok (h_rsv h)) by apply repeat_ff_ok.
  unfold header_ok. cbn [set_h_crc h_magic h_version h_state h_seqno h_rsv h_crc32].
  repeat split; first [done | apply Hs | by apply page_header_crc_u32 | exact Hr].
Qed.

Lemma fresh_header_active seq : set_h_state PAGE_ACTIVE (fresh_header seq) = fresh_header seq.
Proof. reflexivity. Qed.

Lemma fresh_header_state seq : h_state (fresh_header seq) = PAGE_ACTIVE.
Proof. reflexivity. Qed.

Lemma fresh_header_seqno seq : h_seqno (fresh_header seq) = seq.
Proof. reflexivity. Qed.

(** It passes the checks of [page_header_read] in every state. *)
Lemma fresh_header_checks st seq :
  page_header_crc32_calc (set_h_state st (fresh_header seq)) = h_crc32 (fresh_header seq) /\
  h_magic (fresh_header seq) = NVDS_FLASH_MAGIC.
Proof.
  assert (E : forall c h, set_h_state st (set_h_crc c h) = set_h_crc c (set_h_state st h)) by done.
  assert (Ec : forall c h, h_crc32 (set_h_crc c h) = c) by done.
  split; [|reflexivity]. unfold fresh_header. cbv zeta. rewrite E, Ec.
  by rewrite header_crc_ignores_state by apply repeat_length.
Qed.

#[global] Opaque fresh_header.
