(* ===== verification/Nvds.v ===== *)
(** * The key-value store in flash: [MSDK/plf/src/nvds/nvds_flash.c]

    One storage ([nvds_env], the C [struct nvds_flash_env_tag]) over a flash
    device.  A page ([page_env]) is identified by its offset in the storage,
    which is what the C code calls its [base_addr]; the used and free lists hold
    these identities.  Every function runs in [prog (nvds_env * D)]: [Err code]
    is an early return with an [NVDS_E_*] code and the state reached so far.
    Three negative codes, which no C function returns, mark behaviour with no
    meaning: [NULL_DEREF], [LOOP] (a C loop that never ends) and [USE_AFTER_FREE].

    The model is the default build, in which [NVDS_FLASH_ENCRYPTED_SUPPORT] is
    not defined and [flash_env->encrypted] is 0.  [os_results] is what the RTOS
    answers: whether the mutex is obtained, and whether an allocation succeeds.
    The fields [elt_list], [entry_cnt_updated], [first_used_idx] and [need_erase]
    of a page are never read or written and are left out. *)
From S2P Require Import Prelude Prog Crc Flash NvdsFormat.

Definition NULL_DEREF : Z := -1.
Definition LOOP : Z := -2.
Definition USE_AFTER_FREE : Z := -3.

Record page_env := Page {
  base_addr : Z; header : page_header; entry_states : list Z;
  entry_cnt_used : Z; next_free_idx : Z }.

Record namespace_info := Ns { ns_name : bytes; ns_index : Z; used_cnt : Z }.

Record nvds_env := Env {
  env_base : Z; env_length : Z; env_label : bytes;
  ns_list : list namespace_info; ns_states : list Z;
  pages : gmap Z page_env; nvds_page_free : list Z; nvds_page_used : list Z }.

Record os_results := OsResults { mutex_ok : bool; malloc_ok : bool }.

(** Field updates *)
Definition set_header (h : page_header) (p : page_env) : page_env :=
  Page (base_addr p) h (entry_states p) (entry_cnt_used p) (next_free_idx p).
Definition set_states (st : list Z) (p : page_env) : page_env :=
  Page (base_addr p) (header p) st (entry_cnt_used p) (next_free_idx p).
Definition add_used (n : Z) (p : page_env) : page_env :=
  Page (base_addr p) (header p) (entry_states p) (u16 (entry_cnt_used p + n)) (next_free_idx p).
Definition add_free_idx (n : Z) (p : page_env) : page_env :=
  Page (base_addr p) (header p) (entry_states p) (entry_cnt_used p) (u32 (next_free_idx p + n)).
Definition set_free_idx (n : Z) (p : page_env) : page_env :=
  Page (base_addr p) (header p) (entry_states p) (entry_cnt_used p) n.

Definition with_pages (m : gmap Z page_env) (v : nvds_env) : nvds_env :=
  Env (env_base v) (env_length v) (env_label v) (ns_list v) (ns_states v) m
      (nvds_page_free v) (nvds_page_used v).
Definition with_lists (free used : list Z) (v : nvds_env) : nvds_env :=
  Env (env_base v) (env_length v) (env_label v) (ns_list v) (ns_states v) (pages v) free used.
Definition with_ns (l : list namespace_info) (st : list Z) (v : nvds_env) : nvds_env :=
  Env (env_base v) (env_length v) (env_label v) l st (pages v) (nvds_page_free v) (nvds_page_used v).

(** [page_clear] *)
Definition page_clear (p : page_env) : page_env :=
  Page (base_addr p) blank_header blank_table 0 0.

(** [page_room_get]: 32-bit unsigned arithmetic, returned as an [int]. *)
Definition page_room_get (p : page_env) : Z :=
  s32 ((ENTRY_COUNT_PER_PAGE - next_free_idx p) * ENTRY_SIZE).

(** [cmp_sequence_no] on two headers *)
Definition cmp_sequence_no (a b : page_env) : bool :=
  Z.land (h_seqno (header a)) 0x7FFFFFFF <? Z.land (h_seqno (header b)) 0x7FFFFFFF.

(** The entry that follows [e] at [idx]; [entry_idx] is a [uint8_t]. *)
Definition next_entry (e : entry_info) (idx : Z) : Z :=
  let i1 := u8 (idx + 1) in
  if (entry_type e =? ELEMENT_MIDDLE) || (entry_type e =? ELEMENT_BULK)
  then u8 (i1 + entries_for (entry_length e)) else i1.

Definition state_illegal (st : Z) : bool :=
  (st =? PAGE_INVALID) || (st =? PAGE_ERROR) || (st =? PAGE_CANDIDATE).

Definition page_readable (p : page_env) : bool :=
  (h_state (header p) =? PAGE_ACTIVE) || (h_state (header p) =? PAGE_FULL).

(** The used list from [page_start] on, if it is there. *)
Fixpoint list_from (a : Z) (l : list Z) : option (list Z) :=
  match l with
  | [] => None
  | b :: l' => if b =? a then Some l else list_from a l'
  end.

(** [list_extract]: the first occurrence. *)
Fixpoint list_extract (a : Z) (l : list Z) : list Z :=
  match l with
  | [] => []
  | b :: l' => if b =? a then l' else b :: list_extract a l'
  end.

Definition find_ns (p : namespace_info -> bool) (l : list namespace_info) : option (nat * namespace_info) :=
  list_find (fun x => Is_true (p x)) l.

Definition chunk_blank (bs : bytes) : bool :=
  forallb (fun i => word_at (4 * i) 4 bs =? 0xFFFFFFFF) (seq 0 128).

(** What [nvds_data_get] delivers: the status, [*bufsize] and the bytes copied. *)
Record get_out := GetOut { g_ret : Z; g_size : Z; g_data : bytes }.

Section nvds.
Context {D : Type} `{!FlashDev D}.

Abbreviation nvds := (prog (nvds_env * D)).

Definition get_env : nvds nvds_env := fun s => (Ok s.1, s).
Definition upd_env (f : nvds_env -> nvds_env) : nvds unit := fun s => (Ok tt, (f s.1, s.2)).

Definition get_page (a : Z) : nvds page_env := fun s =>
  match pages s.1 !! a with Some p => (Ok p, s) | None => (Err NULL_DEREF, s) end.
Definition upd_page (a : Z) (f : page_env -> page_env) : nvds unit := fun s =>
  match pages s.1 !! a with
  | Some p => (Ok tt, (with_pages (<[a := f p]> (pages s.1)) s.1, s.2))
  | None => (Err NULL_DEREF, s)
  end.

(** The caller goes on whatever the status. *)
Definition ignore {A} (m : nvds A) : nvds unit := fun s =>
  match m s with
  | (Ok _, s') => (Ok tt, s')
  | (Err c, s') => if c <? 0 then (Err c, s') else (Ok tt, s')
  end.

(** [NVDS_ERR_RET(ret == NVDS_OK, v)]: any failure makes the caller return [v]. *)
Definition or_else {A} (v : A) (m : nvds A) : nvds A := fun s =>
  match m s with
  | (Ok a, s') => (Ok a, s')
  | (Err c, s') => if c <? 0 then (Err c, s') else (Ok v, s')
  end.

(** A search whose [NVDS_E_NOT_FOUND] is an answer. *)
Definition catch_not_found {A} (m : nvds A) : nvds (option A) := fun s =>
  match m s with
  | (Ok a, s') => (Ok (Some a), s')
  | (Err c, s') => if c =? NVDS_E_NOT_FOUND then (Ok None, s') else (Err c, s')
  end.

(** ** Flash access *)
Definition nvds_flash_read (offset len : Z) : nvds bytes := fun s =>
  if env_length s.1 <? u32 (offset + len) then (Err NVDS_E_INVAL_PARAM, s)
  else
    let '(r, bs) := flash_read s.2 (u32 (env_base s.1 + offset)) len in
    if r =? 0 then (Ok bs, s) else (Err NVDS_E_FLASH_IO_FAIL, s).

Definition nvds_flash_write (offset : Z) (bs : bytes) : nvds unit := fun s =>
  if env_length s.1 <? u32 (offset + Z.of_nat (length bs)) then (Err NVDS_E_INVAL_PARAM, s)
  else
    let '(r, d) := flash_write s.2 (u32 (env_base s.1 + offset)) bs in
    if r =? 0 then (Ok tt, (s.1, d)) else (Err NVDS_E_FLASH_IO_FAIL, (s.1, d)).

Definition nvds_flash_erase (offset size : Z) : nvds unit := fun s =>
  if env_length s.1 <? u32 (offset + size) then (Err NVDS_E_INVAL_PARAM, s)
  else
    let '(r, d) := flash_erase s.2 (u32 (env_base s.1 + offset)) size in
    if r =? 0 then (Ok tt, (s.1, d)) else (Err NVDS_E_FLASH_IO_FAIL, (s.1, d)).

Definition entry_states_table_read (page_addr : Z) : nvds (list Z) :=
  bs ← nvds_flash_read (page_addr + PAGE_ENTRY_STATES_OFFSET) ENTRY_SIZE; mret (parse_table bs).

Definition entry_states_table_write (page_addr : Z) (states : list Z) : nvds unit :=
  nvds_flash_write (page_addr + PAGE_ENTRY_STATES_OFFSET) (table_bytes states).

Definition entry_state_alter (page entry_idx : Z) (st : entry_state) : nvds unit :=
  if ENTRY_COUNT_PER_PAGE <=? entry_idx then pfail NVDS_E_FAIL
  else if bool_decide (st = ENTRY_ILLEGAL) || (4 <=? entry_state_val st) then pfail NVDS_E_FAIL
  else
    p ← get_page page;
    match entry_state_set (entry_states p) entry_idx st with
    | None => pfail NVDS_E_FAIL
    | Some states =>
        _ ← upd_page page (set_states states);
        entry_states_table_write (base_addr p) states
    end.

Definition entry_state_range_alter (page b e : Z) (st : entry_state) : nvds unit :=
  if (e <? b) || (ENTRY_COUNT_PER_PAGE <=? e) then pfail NVDS_E_FAIL
  else pfor b (Z.to_nat (e - b + 1)) (fun idx => entry_state_alter page idx st).

Definition page_state_alter (page c_state : Z) : nvds unit :=
  p ← get_page page;
  _ ← nvds_flash_write (base_addr p + PAGE_HEADER_OFFSET + 6) (le 2 c_state);
  upd_page page (fun p => set_header (set_h_state c_state (header p)) p).

Definition entry_read (page entry_idx : Z) : nvds entry_info :=
  p ← get_page page;
  nvds_flash_read (base_addr p + PAGE_ENTRY_OFFSET + entry_idx * ENTRY_SIZE) ENTRY_SIZE.

Definition entry_write (page : Z) (e : entry_info) : nvds unit :=
  p ← get_page page;
  if ENTRY_COUNT_PER_PAGE <=? next_free_idx p then pfail NVDS_E_FAIL
  else
    _ ← nvds_flash_write (base_addr p + PAGE_ENTRY_OFFSET + next_free_idx p * ENTRY_SIZE) e;
    upd_page page (fun p => add_used 1 (add_free_idx 1 p)).

Definition entry_data_write (address : Z) (buf : bytes) : nvds unit := nvds_flash_write address buf.

(** ** Search *)

(** [entry_idx] in [0, 126) determines the iteration, so 127 steps without a
    result are a loop that never ends. *)
Definition WALK_FUEL : nat := 127.

Fixpoint find_entry (fuel : nat) (page ns_idx : Z) (key : bytes) (type entry_idx : Z)
  : nvds (option Z) :=
  match fuel with
  | O => pfail LOOP
  | S n =>
      if ENTRY_COUNT_PER_PAGE <=? entry_idx then mret None
      else
        p ← get_page page;
        match entry_state_get (entry_states p) entry_idx with
        | None => pfail NVDS_E_FAIL
        | Some ENTRY_FREE => mret None
        | Some st =>
            e ← entry_read page entry_idx;
            if bool_decide (st = ENTRY_USED) && (ns_idx =? entry_ns e) && key_matches key e
               && ((type =? ELEMENT_ANY) || (entry_type e =? type))
               && (entry_crc32 e =? element_header_crc32_calc e)
            then mret (Some entry_idx)
            else find_entry n page ns_idx key type (next_entry e entry_idx)
        end
  end.

Fixpoint find_pages (pgs : list Z) (ns_idx : Z) (key : bytes) (entry_start type : Z)
  : nvds (Z * Z) :=
  match pgs with
  | [] => pfail NVDS_E_NOT_FOUND
  | a :: pgs =>
      p ← get_page a;
      if negb (page_readable p) then find_pages pgs ns_idx key entry_start type
      else
        r ← find_entry WALK_FUEL a ns_idx key type entry_start;
        match r with
        | Some idx => mret (a, idx)
        | None => find_pages pgs ns_idx key 0 type
        end
  end.

(** Returns [*page_find] and [*entry_find]. *)
Definition element_find (ns_idx : Z) (key : bytes) (page_start : option Z) (entry_start type : Z)
  : nvds (Z * Z) :=
  v ← get_env;
  let used := nvds_page_used v in
  let from := default used (page_start ≫= fun a => list_from a used) in
  find_pages from ns_idx key entry_start type.

Definition data_element_find (ns_idx : Z) (key : bytes) : nvds unit :=
  _ ← element_find ns_idx key None 0 ELEMENT_ANY; mret tt.

(** ** Deletion *)
Definition retire (page idx cnt : Z) : nvds unit :=
  _ ← entry_state_range_alter page idx (u8 (idx + cnt)) ENTRY_UPDATED;
  upd_page page (add_used (- (cnt + 1))).

(** The [do ... while (page_start)] loop over the fragments of a bulk element. *)
Fixpoint retire_frags (fuel : nat) (ns_idx : Z) (key : bytes) (page_start : option Z)
    (entry_idx : Z) : nvds unit :=
  match fuel with
  | O => pfail LOOP
  | S n =>
      r ← catch_not_found (element_find ns_idx key page_start entry_idx ELEMENT_BULK);
      match r with
      | None => mret tt
      | Some (page, idx) =>
          e ← entry_read page idx;
          let entry_cnt := entries_for (entry_length e) in
          _ ← retire page idx entry_cnt;
          retire_frags n ns_idx key (Some page) (u8 (idx + entry_cnt + 1))
      end
  end.

(** Every iteration retires at least one entry of a used page. *)
Definition frag_fuel (v : nvds_env) : nat := S (126 * length (nvds_page_used v)).

Definition bulk_element_del (ns_idx : Z) (key : bytes) : nvds unit :=
  r ← catch_not_found (element_find ns_idx key None 0 ELEMENT_BULKINFO);
  match r with
  | None => mret tt
  | Some (page, idx) =>
      _ ← retire page idx 0;
      v ← get_env;
      retire_frags (frag_fuel v) ns_idx key None 0
  end.

Definition data_element_del (ns_idx : Z) (key : bytes) : nvds unit :=
  '(page, idx) ← element_find ns_idx key None 0 ELEMENT_ANY;
  e ← entry_read page idx;
  let type := entry_type e in
  if (type =? ELEMENT_BULKINFO) || (type =? ELEMENT_BULK) then bulk_element_del ns_idx key
  else if type =? ELEMENT_SMALL then retire page idx 0
  else if type =? ELEMENT_MIDDLE then retire page idx (entries_for (entry_length e))
  else pfail NVDS_E_FAIL.

(** ** Reading *)

(** [for (entry_idx = entry_start; entry_idx <= entry_end; ++entry_idx)] with
    [uint8_t] indices: 256 steps without an end are a loop. *)
Definition BYTE_FUEL : nat := 257.

Fixpoint read_entries (fuel : nat) (page idx entry_end remain : Z) : nvds bytes :=
  match fuel with
  | O => pfail LOOP
  | S n =>
      if entry_end <? idx then mret []
      else
        e ← entry_read page idx;
        let copy := if remain <? ENTRY_SIZE then remain else ENTRY_SIZE in
        rest ← read_entries n page (u8 (idx + 1)) entry_end (remain - copy);
        mret (take (Z.to_nat copy) e ++ rest)
  end.

Fixpoint compare_entries (fuel : nat) (page idx entry_end remain : Z) (dst : bytes) : nvds bool :=
  match fuel with
  | O => pfail LOOP
  | S n =>
      if entry_end <? idx then mret true
      else
        e ← entry_read page idx;
        let copy := if remain <? ENTRY_SIZE then remain else ENTRY_SIZE in
        if bool_decide (take (Z.to_nat copy) dst = take (Z.to_nat copy) e)
        then compare_entries n page (u8 (idx + 1)) entry_end (remain - copy)
               (drop (Z.to_nat copy) dst)
        else mret false
  end.

(** The search for fragment [frag_idx]: page, index and header. *)
Fixpoint find_frag (fuel : nat) (ns_idx : Z) (key : bytes) (frag_idx : Z) (page_start : option Z)
    (entry_idx : Z) : nvds (option (Z * Z * entry_info)) :=
  match fuel with
  | O => pfail LOOP
  | S n =>
      r ← catch_not_found (element_find ns_idx key page_start entry_idx ELEMENT_BULK);
      match r with
      | None => mret None
      | Some (page, idx) =>
          e ← entry_read page idx;
          if tag_fragno_get (entry_tag e) =? frag_idx then mret (Some (page, idx, e))
          else find_frag n ns_idx key frag_idx (Some page)
                 (u8 (u8 (idx + 1) + entries_for (entry_length e)))
      end
  end.

(** A search that does not end visits a page and index twice. *)
Definition frag_search_fuel (v : nvds_env) : nat := S (256 * length (nvds_page_used v)).

Fixpoint read_frags (n : nat) (ns_idx : Z) (key : bytes) (frag_idx : Z) : nvds bytes :=
  match n with
  | O => mret []
  | S n =>
      v ← get_env;
      r ← find_frag (frag_search_fuel v) ns_idx key frag_idx None 0;
      d ← match r with
          | None => mret []
          | Some (page, idx, e) =>
              read_entries BYTE_FUEL page (u8 (idx + 1))
                (u8 (idx + entries_for (entry_length e))) (entry_length e)
          end;
      rest ← read_frags n ns_idx key (frag_idx + 1);
      mret (d ++ rest)
  end.

(** [cap]: the capacity [*bufsize] of the caller's buffer, [None] for a null
    buffer.  When an error code is returned after [*bufsize] was set, the
    out-parameters are not part of the result. *)
Definition bulk_element_get (ns_idx : Z) (key : bytes) (cap : option Z) : nvds get_out :=
  '(page, idx) ← element_find ns_idx key None 0 ELEMENT_BULKINFO;
  e ← entry_read page idx;
  let bulk_size := bulksize e in
  match cap with
  | None => mret (GetOut NVDS_OK bulk_size [])
  | Some c =>
      if c <? bulk_size then mret (GetOut NVDS_E_INVALID_LENGTH bulk_size [])
      else
        data ← read_frags (Z.to_nat (entry_length e)) ns_idx key 0;
        mret (GetOut NVDS_OK bulk_size data)
  end.

Definition data_element_get (ns_idx : Z) (key : bytes) (cap : option Z) : nvds get_out :=
  '(page, idx) ← element_find ns_idx key None 0 ELEMENT_ANY;
  e ← entry_read page idx;
  let type := entry_type e in
  if (type =? ELEMENT_BULK) || (type =? ELEMENT_BULKINFO) then bulk_element_get ns_idx key cap
  else
    let entry_len := entry_length e in
    match cap with
    | None => mret (GetOut NVDS_OK entry_len [])
    | Some c =>
        if c <? entry_len then mret (GetOut NVDS_E_INVALID_LENGTH entry_len [])
        else if type =? ELEMENT_SMALL then
          mret (GetOut NVDS_OK entry_len (take (Z.to_nat entry_len) (entry_value e)))
        else if type =? ELEMENT_MIDDLE then
          data ← read_entries BYTE_FUEL page (u8 (idx + 1)) (u8 (idx + entries_for entry_len)) entry_len;
          mret (GetOut (if datacrc32 e =? element_data_crc32_calc data then NVDS_OK
                        else NVDS_E_NOT_FOUND) entry_len data)
        else mret (GetOut NVDS_OK entry_len [])
    end.

Fixpoint compare_frags (n : nat) (ns_idx : Z) (key : bytes) (frag_idx : Z) (buf : bytes) : nvds bool :=
  match n with
  | O => mret true
  | S n =>
      v ← get_env;
      r ← find_frag (frag_search_fuel v) ns_idx key frag_idx None 0;
      match r with
      | None => compare_frags n ns_idx key (frag_idx + 1) buf
      | Some (page, idx, e) =>
          same ← compare_entries BYTE_FUEL page (u8 (idx + 1))
                   (u8 (idx + entries_for (entry_length e))) (entry_length e) buf;
          if same : bool
          then compare_frags n ns_idx key (frag_idx + 1) (drop (Z.to_nat (entry_length e)) buf)
          else mret false
      end
  end.

Definition bulk_element_compare (ns_idx : Z) (key buf : bytes) : nvds bool :=
  or_else false (
    r ← catch_not_found (element_find ns_idx key None 0 ELEMENT_BULKINFO);
    match r with
    | None => mret true
    | Some (page, idx) =>
        e ← entry_read page idx;
        if negb (bulksize e =? Z.of_nat (length buf)) then mret false
        else compare_frags (Z.to_nat (entry_length e)) ns_idx key 0 buf
    end).

Definition element_compare (ns_idx : Z) (key buf : bytes) : nvds bool :=
  or_else false (
    g ← data_element_get ns_idx key None;
    if negb (g_ret g =? NVDS_OK) || negb (g_size g =? Z.of_nat (length buf)) then mret false
    else
      '(page, idx) ← element_find ns_idx key None 0 ELEMENT_ANY;
      e ← entry_read page idx;
      let type := entry_type e in
      if type =? ELEMENT_SMALL then
        if negb (entry_length e =? Z.of_nat (length buf)) then mret false
        else mret (bool_decide (buf = take (Z.to_nat (entry_length e)) (entry_value e)))
      else if type =? ELEMENT_MIDDLE then
        if negb (entry_length e =? Z.of_nat (length buf)) then mret false
        else compare_entries BYTE_FUEL page (u8 (idx + 1))
               (u8 (idx + entries_for (entry_length e))) (entry_length e) buf
      else if (type =? ELEMENT_BULK) || (type =? ELEMENT_BULKINFO) then
        bulk_element_compare ns_idx key buf
      else mret false).

(** ** Pages *)
Fixpoint min_used_page (used : list Z) (min_cnt_used : Z) (erase_page : option Z)
  : nvds (option Z) :=
  match used with
  | [] => mret erase_page
  | a :: used =>
      p ← get_page a;
      if entry_cnt_used p <? min_cnt_used then min_used_page used (entry_cnt_used p) (Some a)
      else min_used_page used min_cnt_used erase_page
  end.

(** The copy loop of [new_page_request], at index [entry_idx]. *)
Definition copy_entry (erase_page page entry_idx : Z) : nvds unit :=
  p ← get_page erase_page;
  match entry_state_get (entry_states p) entry_idx with
  | Some ENTRY_USED =>
      e ← entry_read erase_page entry_idx;
      _ ← entry_write page e;
      q ← get_page page;
      entry_state_alter page (u8 (next_free_idx q - 1)) ENTRY_USED
  | _ => mret tt
  end.

(** Header of a page taken from the free list. *)
Definition init_page (page seqno : Z) : nvds unit :=
  p ← get_page page;
  _ ← (if negb (h_state (header p) =? PAGE_UNINITIALIZED)
       then nvds_flash_erase (base_addr p) SPI_FLASH_SEC_SIZE else mret tt);
  let p' := set_header (fresh_header seqno) (page_clear p) in
  _ ← upd_page page (fun _ => p');
  _ ← nvds_flash_write (base_addr p + PAGE_HEADER_OFFSET) (header_bytes (header p'));
  page_state_alter page PAGE_ACTIVE.

(** The candidate page is moved to the free list, copied and erased. *)
Definition reclaim (erase_page page : Z) : nvds unit :=
  _ ← upd_env (fun v => with_lists (nvds_page_free v ++ [erase_page])
                          (list_extract erase_page (nvds_page_used v)) v);
  _ ← page_state_alter erase_page PAGE_CANDIDATE;
  _ ← pfor 0 (Z.to_nat ENTRY_COUNT_PER_PAGE) (copy_entry erase_page page);
  p ← get_page erase_page;
  _ ← nvds_flash_erase (base_addr p) SPI_FLASH_SEC_SIZE;
  upd_page erase_page page_clear.

(** Returns the page, [None] for [NULL]. *)
Definition new_page_request (seqno : Z) : nvds (option Z) :=
  or_else None (
    v ← get_env;
    match nvds_page_free v with
    | [] => mret None
    | page :: rest =>
        erase_page ← (if (length (nvds_page_free v) =? 1)%nat
                      then min_used_page (nvds_page_used v) ENTRY_COUNT_PER_PAGE None
                      else mret None);
        if (length (nvds_page_free v) =? 1)%nat && bool_decide (erase_page = None) then mret None
        else
          _ ← init_page page seqno;
          _ ← upd_env (fun v => with_lists (list_extract page (nvds_page_free v))
                                  (nvds_page_used v ++ [page]) v);
          v ← get_env;
          match nvds_page_free v, erase_page with
          | _ :: _, _ => mret (Some page)
          | [], Some ep => _ ← reclaim ep page; mret (Some page)
          | [], None => pfail NULL_DEREF
          end
    end).

Definition pick_last_used : nvds Z :=
  v ← get_env;
  match last (nvds_page_used v) with Some a => mret a | None => pfail NULL_DEREF end.

(** ** Writing *)

(** Makes room on the current page: the page to write to, or [None] when there
    is no space; [short p] says that page [p] has not enough room. *)
Definition make_room (short : page_env -> bool) (cur_page : Z) : nvds (option Z) :=
  p ← get_page cur_page;
  if short p then
    _ ← page_state_alter cur_page PAGE_FULL;
    r ← new_page_request (u32 (h_seqno (header p) + 1));
    match r with
    | None => mret None
    | Some a => q ← get_page a; mret (if short q then None else Some a)
    end
  else mret (Some cur_page).

Definition frag_room (p : page_env) : bool := page_room_get p <? 2 * ENTRY_SIZE.
Definition info_room (p : page_env) : bool := page_room_get p <? ENTRY_SIZE.

(** One iteration per fragment: [buf_offset] bytes are written, the [frag_cnt]th
    fragment is next.  [None]: [goto no_space_out]. *)
Fixpoint put_frags (fuel : nat) (ns_idx : Z) (key buf : bytes) (buf_offset : nat) (frag_cnt cur_page : Z)
  : nvds (option Z) :=
  match fuel with
  | O => pfail LOOP
  | S n =>
      r ← make_room frag_room cur_page;
      match r with
      | None => mret None
      | Some page =>
          p ← get_page page;
          let remain := Z.of_nat (length buf - buf_offset) in
          let room := u32 (page_room_get p - ENTRY_SIZE) in
          let len := if room <? remain then room else remain in
          let start := u8 (next_free_idx p) in
          let entry_cnt := entries_for len in
          let e := entry_seal (set_field 28 4 (element_data_crc32_calc (take (Z.to_nat len) buf))
                     (entry_start ns_idx ELEMENT_BULK (u8 frag_cnt) len key)) in
          _ ← entry_write page e;
          q ← get_page page;
          _ ← entry_data_write (base_addr q + PAGE_ENTRY_OFFSET + next_free_idx q * ENTRY_SIZE)
                (slice buf_offset (Z.to_nat len) buf);
          _ ← upd_page page (fun p => add_used entry_cnt (add_free_idx entry_cnt p));
          _ ← entry_state_range_alter page start (u8 (start + entry_cnt)) ENTRY_USED;
          if 0 <? remain - len
          then put_frags n ns_idx key buf (buf_offset + Z.to_nat len) (frag_cnt + 1) page
          else mret (Some (frag_cnt + 1))
      end
  end.

Definition check_page_state (cur_page : Z) : nvds unit :=
  p ← get_page cur_page;
  if state_illegal (h_state (header p)) then pfail NVDS_E_FAIL else mret tt.

(** [no_space_out:] *)
Definition no_space_out (ns_idx : Z) (key : bytes) : nvds unit :=
  v ← get_env;
  _ ← retire_frags (frag_fuel v) ns_idx key None 0;
  pfail NVDS_E_NO_SPACE.

Definition bulk_element_put (ns_idx : Z) (key buf : bytes) : nvds unit :=
  cur_page ← pick_last_used;
  _ ← check_page_state cur_page;
  r ← put_frags (S (length buf)) ns_idx key buf 0 0 cur_page;
  match r with
  | None => no_space_out ns_idx key
  | Some frag_cnt =>
      cur_page ← pick_last_used;
      _ ← check_page_state cur_page;
      r ← make_room info_room cur_page;
      match r with
      | None => no_space_out ns_idx key
      | Some page =>
          p ← get_page page;
          let start := u8 (next_free_idx p) in
          let e := entry_seal (set_field 28 4 (Z.of_nat (length buf))
                     (entry_start ns_idx ELEMENT_BULKINFO TAG_FRAG_NO_DEFAULT frag_cnt key)) in
          _ ← entry_write page e;
          entry_state_range_alter page start start ENTRY_USED
      end
  end.

(** [ns_del_used_cnt]; its status is ignored by every caller. *)
Definition ns_del_used_cnt (ns_idx : Z) (del_flag : bool) : nvds unit :=
  if NAMESPACE_MAX_CNT <? ns_idx then pfail NVDS_E_INVAL_PARAM
  else
    v ← get_env;
    match find_ns (fun n => ns_index n =? ns_idx) (ns_list v) with
    | None => mret tt
    | Some (i, n) =>
        let n' := Ns (ns_name n) (ns_index n) (u32 (used_cnt n - 1)) in
        if (used_cnt n' =? 0) && del_flag then
          _ ← upd_env (fun v => with_ns (delete i (ns_list v)) (ns_state_set (ns_states v) ns_idx false) v);
          data_element_del 0 (ns_name n)
        else upd_env (fun v => with_ns (<[i := n']> (ns_list v)) (ns_states v) v)
    end.

Definition ns_add_used_cnt (ns_idx : Z) : nvds unit :=
  if NAMESPACE_MAX_CNT <? ns_idx then pfail NVDS_E_INVAL_PARAM
  else
    v ← get_env;
    match find_ns (fun n => ns_index n =? ns_idx) (ns_list v) with
    | None => mret tt
    | Some (i, n) =>
        upd_env (fun v => with_ns (<[i := Ns (ns_name n) (ns_index n) (u32 (used_cnt n + 1))]> (ns_list v))
                            (ns_states v) v)
    end.

(** Not enough room for an element of [bufsize] bytes; the second comparison is
    unsigned. *)
Definition elem_room (bufsize : Z) (p : page_env) : bool :=
  ((bufsize <=? ELEMENT_SMALL_MAX_SIZE) && (page_room_get p <? ENTRY_SIZE)) ||
  ((ELEMENT_SMALL_MAX_SIZE <? bufsize) && (u32 (page_room_get p) <? u32 (ENTRY_SIZE + bufsize))).

(** The write of a small or middle element to page [page]. *)
Definition write_element (page ns_idx : Z) (key buf : bytes) : nvds unit :=
  p ← get_page page;
  let bufsize := Z.of_nat (length buf) in
  let start := next_free_idx p in
  let entry_cnt := entries_for bufsize in
  if ELEMENT_SMALL_MAX_SIZE <? bufsize then
    let e := entry_seal (set_field 28 4 (element_data_crc32_calc buf)
               (entry_start ns_idx ELEMENT_MIDDLE TAG_FRAG_NO_DEFAULT bufsize key)) in
    _ ← entry_write page e;
    q ← get_page page;
    _ ← entry_data_write (base_addr q + PAGE_ENTRY_OFFSET + next_free_idx q * ENTRY_SIZE) buf;
    _ ← upd_page page (fun p => add_used entry_cnt (add_free_idx entry_cnt p));
    entry_state_range_alter page (u8 start) (u8 (start + entry_cnt)) ENTRY_USED
  else
    let e := entry_seal (overwrite 24 buf
               (entry_start ns_idx ELEMENT_SMALL TAG_FRAG_NO_DEFAULT bufsize key)) in
    _ ← entry_write page e;
    entry_state_range_alter page (u8 start) (u8 start) ENTRY_USED.

Definition data_element_put (ns_idx : Z) (key buf : bytes) : nvds unit :=
  same ← element_compare ns_idx key buf;
  if same : bool then ignore (ns_del_used_cnt ns_idx false)
  else
    r ← catch_not_found (data_element_del ns_idx key);
    _ ← match r with Some _ => ignore (ns_del_used_cnt ns_idx false) | None => mret tt end;
    if ELEMENT_MIDDLE_MAX_SIZE <? Z.of_nat (length buf) then bulk_element_put ns_idx key buf
    else
      cur_page ← pick_last_used;
      _ ← check_page_state cur_page;
      r ← make_room (elem_room (Z.of_nat (length buf))) cur_page;
      match r with
      | None => pfail NVDS_E_NO_SPACE
      | Some page => write_element page ns_idx key buf
      end.

(** ** Namespaces *)
Definition free_ns_index (states : list Z) : option Z :=
  find (fun i => negb (ns_state_get states i)) (seqZ 1 253).

Definition namespace_create (os : os_results) (namespace : bytes) : nvds Z :=
  v ← get_env;
  match free_ns_index (ns_states v) with
  | None => pfail NVDS_E_NO_SPACE
  | Some ns_idx =>
      if negb (malloc_ok os) then pfail NVDS_E_NO_SPACE
      else
        _ ← data_element_put 0 namespace [ns_idx];
        _ ← upd_env (fun v => with_ns (ns_list v ++ [Ns namespace ns_idx 0])
                                (ns_state_set (ns_states v) ns_idx true) v);
        mret ns_idx
  end.

Definition ns_index_by_namespace (os : os_results) (namespace : option bytes) (create : bool) : nvds Z :=
  match namespace with
  | None => mret NAMESPACE_NULL_IDX
  | Some name =>
      if KEY_NAME_MAX_SIZE - 1 <? Z.of_nat (length name) then pfail NVDS_E_INVAL_PARAM
      else
        v ← get_env;
        match find_ns (fun n => bool_decide (ns_name n = name)) (ns_list v) with
        | Some (_, n) => mret (ns_index n)
        | None => if create then namespace_create os name else pfail NVDS_E_NOT_FOUND
        end
  end.

(** ** The exported operations.  A key or a buffer may be a null pointer. *)
Definition bad_key (key : option bytes) : bool :=
  match key with None => true | Some k => KEY_NAME_MAX_SIZE - 1 <? Z.of_nat (length k) end.

Definition nvds_data_put (os : os_results) (namespace key data : option bytes) : nvds unit :=
  match key, data with
  | Some k, Some buf =>
      if (length buf =? 0)%nat || (ELEMENT_BULK_MAX_SIZE <? Z.of_nat (length buf)) || bad_key key
      then pfail NVDS_E_INVAL_PARAM
      else if negb (mutex_ok os) then pfail NVDS_E_FAIL
      else
        ns_idx ← ns_index_by_namespace os namespace true;
        _ ← data_element_put ns_idx k buf;
        ignore (ns_add_used_cnt ns_idx)
  | _, _ => pfail NVDS_E_INVAL_PARAM
  end.

Definition nvds_data_get (os : os_results) (namespace key : option bytes) (cap : option Z) : nvds get_out :=
  match key with
  | Some k =>
      if bad_key key then pfail NVDS_E_INVAL_PARAM
      else if negb (mutex_ok os) then pfail NVDS_E_FAIL
      else
        ns_idx ← ns_index_by_namespace os namespace false;
        data_element_get ns_idx k cap
  | None => pfail NVDS_E_INVAL_PARAM
  end.

Definition nvds_data_del (os : os_results) (namespace key : option bytes) : nvds unit :=
  match key with
  | Some k =>
      if bad_key key then pfail NVDS_E_INVAL_PARAM
      else if negb (mutex_ok os) then pfail NVDS_E_FAIL
      else
        ns_idx ← ns_index_by_namespace os namespace false;
        _ ← data_element_del ns_idx k;
        ignore (ns_del_used_cnt ns_idx true)
  | None => pfail NVDS_E_INVAL_PARAM
  end.

Definition nvds_data_find (os : os_results) (namespace key : option bytes) : nvds unit :=
  match key with
  | Some k =>
      if bad_key key then pfail NVDS_E_INVAL_PARAM
      else if negb (mutex_ok os) then pfail NVDS_E_FAIL
      else
        ns_idx ← ns_index_by_namespace os namespace false;
        data_element_find ns_idx k
  | None => pfail NVDS_E_INVAL_PARAM
  end.

(** ** Operations on whole namespaces *)

(** The C pointer [ns] becomes dangling once the namespace is freed: [ns] is its
    position in the list, [None] afterwards. *)
Definition drop_ns_key (ns : option nat) : nvds (option nat) :=
  match ns with
  | None => pfail USE_AFTER_FREE
  | Some i =>
      v ← get_env;
      match ns_list v !! i with
      | None => pfail NULL_DEREF
      | Some n =>
          let n' := Ns (ns_name n) (ns_index n) (u32 (used_cnt n - 1)) in
          if used_cnt n' =? 0 then
            _ ← upd_env (fun v => with_ns (delete i (ns_list v))
                                    (ns_state_set (ns_states v) (ns_index n) false) v);
            _ ← data_element_del 0 (ns_name n);
            mret None
          else
            _ ← upd_env (fun v => with_ns (<[i := n']> (ns_list v)) (ns_states v) v);
            mret (Some i)
      end
  end.

Fixpoint del_keys_page (fuel : nat) (page ns_idx : Z) (ns : option nat) (entry_idx : Z)
  : nvds (option nat) :=
  match fuel with
  | O => pfail LOOP
  | S n =>
      if ENTRY_COUNT_PER_PAGE <=? entry_idx then mret ns
      else
        p ← get_page page;
        match entry_state_get (entry_states p) entry_idx with
        | None => pfail NVDS_E_FAIL
        | Some ENTRY_FREE => mret ns
        | Some st =>
            e ← entry_read page entry_idx;
            let type := entry_type e in
            ns' ← (if bool_decide (st = ENTRY_USED) && (ns_idx =? entry_ns e) then
                     _ ← (if (type =? ELEMENT_SMALL) || (type =? ELEMENT_BULKINFO) then retire page entry_idx 0
                          else if (type =? ELEMENT_MIDDLE) || (type =? ELEMENT_BULK) then
                            retire page entry_idx (entries_for (entry_length e))
                          else mret tt);
                     drop_ns_key ns
                   else mret ns);
            del_keys_page n page ns_idx ns' (next_entry e entry_idx)
        end
  end.

Fixpoint del_keys_pages (pgs : list Z) (ns_idx : Z) (ns : option nat) : nvds unit :=
  match pgs with
  | [] => mret tt
  | a :: pgs =>
      p ← get_page a;
      if negb (page_readable p) then del_keys_pages pgs ns_idx ns
      else
        ns' ← del_keys_page WALK_FUEL a ns_idx ns 0;
        del_keys_pages pgs ns_idx ns'
  end.

Definition nvds_del_keys_by_namespace (namespace : bytes) : nvds unit :=
  if KEY_NAME_MAX_SIZE - 1 <? Z.of_nat (length namespace) then pfail NVDS_E_INVAL_PARAM
  else
    v ← get_env;
    match find_ns (fun n => bool_decide (ns_name n = namespace)) (ns_list v) with
    | None => pfail NVDS_E_NOT_FOUND
    | Some (i, n) => del_keys_pages (nvds_page_used v) (ns_index n) (Some i)
    end.

(** The key and length handed to one call of the callback. *)
Definition key_report (e : entry_info) : bytes * Z :=
  (take (strlen (drop 8 e)) (drop 8 e), entry_length e).

Fixpoint find_keys_page (fuel : nat) (page ns_idx entry_idx : Z) : nvds (list (bytes * Z)) :=
  match fuel with
  | O => pfail LOOP
  | S n =>
      if ENTRY_COUNT_PER_PAGE <=? entry_idx then mret []
      else
        p ← get_page page;
        match entry_state_get (entry_states p) entry_idx with
        | None => pfail NVDS_E_FAIL
        | Some ENTRY_FREE => mret []
        | Some st =>
            e ← entry_read page entry_idx;
            rest ← find_keys_page n page ns_idx (next_entry e entry_idx);
            mret (if bool_decide (st = ENTRY_USED) && (entry_ns e =? ns_idx)
                     && negb (entry_type e =? ELEMENT_BULK)
                  then key_report e :: rest else rest)
        end
  end.

Fixpoint find_keys_pages (pgs : list Z) (ns_idx : Z) : nvds (list (bytes * Z)) :=
  match pgs with
  | [] => mret []
  | a :: pgs =>
      p ← get_page a;
      if negb (page_readable p) then find_keys_pages pgs ns_idx
      else
        l ← find_keys_page WALK_FUEL a ns_idx 0;
        rest ← find_keys_pages pgs ns_idx;
        mret (l ++ rest)
  end.

(** The sequence of callback calls. *)
Definition nvds_find_keys_by_namespace (os : os_results) (namespace : option bytes)
  : nvds (list (bytes * Z)) :=
  ns_idx ← ns_index_by_namespace os namespace false;
  v ← get_env;
  find_keys_pages (nvds_page_used v) ns_idx.

(** ** Loading *)
Fixpoint check_chunks (n : nat) (address : Z) : nvds bool :=
  match n with
  | O => mret true
  | S n =>
      bs ← nvds_flash_read address (4 * 128);
      if chunk_blank bs then check_chunks n (address + 4 * 128) else mret false
  end.

(** [page_header_read]: the header it leaves in [page->header]. *)
Definition page_header_read (p : page_env) : nvds page_header := fun s =>
  match nvds_flash_read (base_addr p + PAGE_HEADER_OFFSET) 32 s with
  | (Err _, s) => (Ok (set_h_state PAGE_INVALID (header p)), s)
  | (Ok bs, s) =>
      let h := parse_header bs in
      if h_state h =? PAGE_UNINITIALIZED then
        match check_chunks 8 (base_addr p + PAGE_HEADER_OFFSET) s with
        | (Err _, s) => (Ok (set_h_state PAGE_INVALID h), s)
        | (Ok true, s) => (Ok (set_h_state PAGE_UNINITIALIZED h), s)
        | (Ok false, s) => (Ok (set_h_state PAGE_ERROR h), s)
        end
      else if negb (h_crc32 h =? page_header_crc32_calc h) then (Ok (set_h_state PAGE_ERROR h), s)
      else if negb (h_magic h =? NVDS_FLASH_MAGIC) then (Ok (set_h_state PAGE_ERROR h), s)
      else (Ok h, s)
  end.

(** Registers the namespace an entry of namespace 0 defines. *)
Definition load_namespace (os : os_results) (e : entry_info) : nvds unit :=
  if negb (malloc_ok os) then pfail NVDS_E_NO_SPACE
  else
    let idx := nth 0 (entry_value e) 0 in
    upd_env (fun v => with_ns (ns_list v ++ [Ns (take (strlen (drop 8 e)) (drop 8 e)) idx 0])
                        (ns_state_set (ns_states v) idx true) v).

(** One step of the loading walk at [entry_idx]: [inl idx] goes on at [idx],
    [inr is_err] ends the page. *)
Definition load_entry (os : os_results) (page entry_idx : Z) : nvds (Z + bool) :=
  p ← get_page page;
  match default ENTRY_ERROR (entry_state_get (entry_states p) entry_idx) with
  | ENTRY_FREE => _ ← upd_page page (set_free_idx entry_idx); mret (inr false)
  | ENTRY_ILLEGAL => _ ← ignore (entry_state_alter page entry_idx ENTRY_UPDATED); mret (inl (entry_idx + 1))
  | ENTRY_UPDATED => mret (inl (entry_idx + 1))
  | _ =>
      r ← or_else None (e ← entry_read page entry_idx; mret (Some e));
      match r with
      | None => mret (inr true)
      | Some e =>
          _ ← (if negb (entry_crc32 e =? element_header_crc32_calc e)
               then ignore (entry_state_alter page entry_idx ENTRY_UPDATED) else mret tt);
          _ ← (if entry_ns e =? 0 then load_namespace os e else mret tt);
          let data := (entry_type e =? ELEMENT_MIDDLE) || (entry_type e =? ELEMENT_BULK) in
          let cnt := if data then entries_for (entry_length e) else 0 in
          _ ← upd_page page (add_used (1 + cnt));
          mret (inl (entry_idx + 1 + cnt))
      end
  end.

(** [is_err] for one page; [entry_idx] is 32 bits wide and grows. *)
Fixpoint load_entries (fuel : nat) (os : os_results) (page entry_idx : Z) : nvds bool :=
  match fuel with
  | O => pfail LOOP
  | S n =>
      if ENTRY_COUNT_PER_PAGE <=? entry_idx then mret false
      else
        r ← load_entry os page entry_idx;
        match r with
        | inl idx => load_entries n os page idx
        | inr is_err => mret is_err
        end
  end.

(** [list_insert(&used, page, cmp_sequence_no)] *)
Fixpoint insert_page (a : Z) (used : list Z) : nvds (list Z) :=
  match used with
  | [] => mret [a]
  | b :: rest =>
      p ← get_page a;
      q ← get_page b;
      if cmp_sequence_no p q then mret (a :: b :: rest)
      else l ← insert_page a rest; mret (b :: l)
  end.

Definition push_free (a : Z) : nvds unit :=
  upd_env (fun v => with_lists (nvds_page_free v ++ [a]) (nvds_page_used v) v).

Definition zero_page (a : Z) : page_env := Page a (Header 0 0 0 0 (repeat 0 16) 0) (repeat 0 8) 0 0.

(** The body of the first loop of [pages_load] for one sector. *)
Definition load_page (os : os_results) (sector_idx : Z) : nvds unit :=
  if negb (malloc_ok os) then pfail NVDS_E_NO_SPACE
  else
    let a := sector_idx * SPI_FLASH_SEC_SIZE in
    h ← page_header_read (zero_page a);
    _ ← upd_env (fun v => with_pages (<[a := set_header h (zero_page a)]> (pages v)) v);
    if (h_state h =? PAGE_UNINITIALIZED) || (h_state h =? PAGE_ERROR) || (h_state h =? PAGE_INVALID)
    then push_free a
    else
      r ← or_else None (st ← entry_states_table_read a; mret (Some st));
      match r with
      | None => push_free a
      | Some st =>
          _ ← upd_page a (fun p => set_free_idx ENTRY_COUNT_PER_PAGE (set_states st p));
          is_err ← load_entries WALK_FUEL os a 0;
          if is_err : bool then push_free a
          else
            v ← get_env;
            used ← insert_page a (nvds_page_used v);
            upd_env (fun v => with_lists (nvds_page_free v) used v)
      end.

(** [ns_info->used_cnt++] for the first namespace with that index *)
Definition count_ns (ns : Z) (l : list namespace_info) : list namespace_info :=
  match find_ns (fun n => ns =? ns_index n) l with
  | None => l
  | Some (i, n) => <[i := Ns (ns_name n) (ns_index n) (u32 (used_cnt n + 1))]> l
  end.

Fixpoint count_page (fuel : nat) (page entry_idx : Z) : nvds unit :=
  match fuel with
  | O => pfail LOOP
  | S n =>
      if ENTRY_COUNT_PER_PAGE <=? entry_idx then mret tt
      else
        r ← or_else None (e ← entry_read page entry_idx; mret (Some e));
        match r with
        | None => mret tt
        | Some e =>
            p ← get_page page;
            _ ← (if bool_decide (entry_state_get (entry_states p) entry_idx = Some ENTRY_USED)
                 then upd_env (fun v => with_ns (count_ns (entry_ns e) (ns_list v)) (ns_states v) v)
                 else mret tt);
            let data := (entry_type e =? ELEMENT_MIDDLE) || (entry_type e =? ELEMENT_BULK) in
            count_page n page
              (entry_idx + 1 + (if data then entries_for (entry_length e) else 0))
        end
  end.

Fixpoint count_pages (pgs : list Z) : nvds unit :=
  match pgs with
  | [] => mret tt
  | a :: pgs => _ ← count_page WALK_FUEL a 0; count_pages pgs
  end.

Definition pages_load (os : os_results) : nvds unit :=
  v ← get_env;
  if negb (env_length v mod SPI_FLASH_SEC_SIZE =? 0) then pfail NVDS_E_INVAL_PARAM
  else
    _ ← pfor 0 (Z.to_nat (env_length v / SPI_FLASH_SEC_SIZE)) (load_page os);
    v ← get_env;
    _ ← count_pages (nvds_page_used v);
    match nvds_page_used v with
    | [] => ignore (new_page_request 0)
    | _ => mret tt
    end.

(** [nvds_flash_env_init] on a zeroed environment. *)
Definition zero_env : nvds_env := Env 0 0 [] [] (repeat 0 NAMESPACE_STATES_TABLE_SIZE) ∅ [] [].

Definition nvds_flash_env_init (os : os_results) (start_addr size : Z) (label : bytes) : nvds unit :=
  _ ← upd_env (fun v => Env start_addr size (take 32 label) (ns_list v) (ns_states v) (pages v)
                          (nvds_page_free v) (nvds_page_used v));
  pages_load os.
End nvds.
