(* ===== verification/NvdsPage.v ===== *)
(** * Pages of the key-value store as sequences of items

    A page holds [item]s one after the other: a header entry and, for a middle
    element or a bulk fragment, the data entries behind it.  [page_items] relates
    a page in RAM and its sector in flash to such a sequence.  The lemmas here
    give each primitive of [Nvds] (entry states, entry and data writes, the
    searches inside a page, the copy loop) its effect on the sequence. *)
From S2P Require Import Prelude Prog Crc Flash NvdsFormat Nvds.

(** ** Items *)
Record item := Item {
  i_ns : Z; i_type : Z; i_frag : Z; i_key : bytes; i_len : Z; i_val : bytes; i_body : bytes;
  i_live : bool }.

Definition has_data (type : Z) : bool := (type =? ELEMENT_MIDDLE) || (type =? ELEMENT_BULK).

(** Data entries behind the header, and entries in all. *)
Definition i_cnt (it : item) : Z := if has_data (i_type it) then entries_for (i_len it) else 0.
Definition i_n (it : item) : Z := 1 + i_cnt it.

Definition i_head (it : item) : entry_info :=
  sealed (i_ns it) (i_type it) (i_frag it) (i_len it) (i_key it) (i_val it).
Definition i_bytes (it : item) : bytes := i_head it ++ i_body it.
Definition i_state (it : item) : entry_state := if i_live it then ENTRY_USED else ENTRY_UPDATED.

Record item_ok (it : item) : Prop := ItemOk {
  io_ns : is_u8 (i_ns it);
  io_type : 0 <= i_type it < 8;
  io_frag : 0 <= i_frag it < 32;
  io_len : is_u16 (i_len it);
  io_key : key_ok (i_key it);
  io_val : bytes_ok (i_val it);
  io_val8 : length (i_val it) = 8%nat;
  io_body : Z.of_nat (length (i_body it)) = 32 * i_cnt it;
  io_body_ok : bytes_ok (i_body it) }.

Definition kill (it : item) : item :=
  Item (i_ns it) (i_type it) (i_frag it) (i_key it) (i_len it) (i_val it) (i_body it) false.

Definition items_bytes (its : list item) : bytes := mjoin (i_bytes <$> its).
Definition sum_n (its : list item) : Z := foldr (fun it n => i_n it + n) 0 its.
Abbreviation lives := (filter (fun it => Is_true (i_live it))).

(** The state of entry [i] of a page. *)
Fixpoint state_at (its : list item) (i : Z) : entry_state :=
  match its with
  | [] => ENTRY_FREE
  | it :: its => if i <? i_n it then i_state it else state_at its (i - i_n it)
  end.

Lemma entries_for_nonneg len : 0 <= len -> 0 <= entries_for len.
Proof. intros. unfold entries_for, ENTRY_SIZE. Z.div_mod_to_equations; lia. Qed.

Lemma i_cnt_nonneg it : 0 <= i_len it -> 0 <= i_cnt it.
Proof. intros. unfold i_cnt. destruct (has_data _); [by apply entries_for_nonneg|lia]. Qed.

Lemma item_n_pos it : item_ok it -> 1 <= i_n it.
Proof. intros H. pose proof (i_cnt_nonneg it). destruct (io_len it H). unfold i_n. lia. Qed.

Lemma i_head_fields it : item_ok it ->
  sealed_fields (i_ns it) (i_type it) (i_frag it) (i_len it) (i_key it) (i_val it) (i_head it).
Proof. intros []. by apply sealed_spec. Qed.

Lemma i_bytes_length it : item_ok it -> Z.of_nat (length (i_bytes it)) = 32 * i_n it.
Proof.
  intros H. unfold i_bytes. rewrite length_app, (sf_size _ _ _ _ _ _ _ (i_head_fields it H)).
  pose proof (io_body it H). unfold i_n. lia.
Qed.

Lemma items_bytes_app l k : items_bytes (l ++ k) = items_bytes l ++ items_bytes k.
Proof. unfold items_bytes. by rewrite fmap_app, join_app. Qed.

Lemma items_bytes_cons it its : items_bytes (it :: its) = i_bytes it ++ items_bytes its.
Proof. done. Qed.

Lemma sum_n_app l k : sum_n (l ++ k) = sum_n l + sum_n k.
Proof. induction l as [|it l IH]; simpl; [done|]. rewrite IH. lia. Qed.

Lemma sum_n_nonneg its : Forall item_ok its -> 0 <= sum_n its.
Proof. induction 1 as [|it its H _ IH]; simpl; [lia|]. pose proof (item_n_pos it H). lia. Qed.

Lemma items_bytes_length its :
  Forall item_ok its -> Z.of_nat (length (items_bytes its)) = 32 * sum_n its.
Proof.
  induction 1 as [|it its H _ IH]; [done|].
  rewrite items_bytes_cons, length_app. simpl sum_n. pose proof (i_bytes_length it H). lia.
Qed.

Lemma length_items its : Forall item_ok its -> Z.of_nat (length its) <= sum_n its.
Proof. induction 1 as [|it its H _ IH]; simpl; [lia|]. pose proof (item_n_pos it H). lia. Qed.

Lemma kill_ok it : item_ok it -> item_ok (kill it).
Proof. intros []. by split. Qed.

Lemma sum_n_lives its : Forall item_ok its -> sum_n (lives its) <= sum_n its.
Proof.
  induction 1 as [|it its H _ IH]; [done|]. pose proof (item_n_pos it H).
  rewrite filter_cons. case_decide; simpl; lia.
Qed.

Lemma lives_app l k : lives (l ++ k) = lives l ++ lives k.
Proof. apply filter_app. Qed.

Lemma lives_ok its : Forall item_ok its -> Forall item_ok (lives its).
Proof. intros H. rewrite Forall_forall in *. intros x [_ Hx]%list_elem_of_filter. by apply H. Qed.

Section state_at.
Implicit Types (its pre post : list item) (it : item) (i : Z).

Lemma state_at_after pre post i :
  Forall item_ok pre -> 0 <= i -> state_at (pre ++ post) (sum_n pre + i) = state_at post i.
Proof.
  induction 1 as [|it pre H Hp IH]; intros Hi; simpl; [done|].
  pose proof (sum_n_nonneg pre Hp). pose proof (item_n_pos it H).
  replace (i_n it + sum_n pre + i <? i_n it) with false by lia.
  replace (i_n it + sum_n pre + i - i_n it) with (sum_n pre + i) by lia. by apply IH.
Qed.

Lemma state_at_before pre post i :
  0 <= i < sum_n pre -> state_at (pre ++ post) i = state_at pre i.
Proof.
  revert i. induction pre as [|it pre IH]; intros i Hi; simpl in *; [lia|].
  destruct (Z.ltb_spec i (i_n it)); [done|]. apply IH. lia.
Qed.

Lemma state_at_item pre it post i :
  Forall item_ok pre -> 0 <= i < i_n it ->
  state_at (pre ++ it :: post) (sum_n pre + i) = i_state it.
Proof.
  intros Hp Hi. rewrite state_at_after by (done || lia). simpl. by replace (i <? i_n it) with true by lia.
Qed.

Lemma state_at_beyond its i : Forall item_ok its -> sum_n its <= i -> state_at its i = ENTRY_FREE.
Proof.
  intros H. revert i. induction H as [|it its Hok Hits IH]; intros i Hi; simpl in *; [done|].
  pose proof (sum_n_nonneg its Hits).
  replace (i <? i_n it) with false by lia. apply IH. lia.
Qed.

(** Changing the states of the entries of one item. *)
Lemma state_at_update pre it it' post i :
  Forall item_ok pre -> i_n it' = i_n it -> 0 <= i ->
  state_at (pre ++ it' :: post) i =
    if decide (sum_n pre <= i < sum_n pre + i_n it) then i_state it'
    else state_at (pre ++ it :: post) i.
Proof.
  intros Hp En Hi. destruct (Z.lt_ge_cases i (sum_n pre)).
  - rewrite decide_False by lia. by rewrite !state_at_before by lia.
  - replace i with (sum_n pre + (i - sum_n pre)) by lia.
    rewrite !state_at_after by (done || lia). simpl. rewrite En.
    destruct (Z.ltb_spec (i - sum_n pre) (i_n it)); case_decide; done || lia.
Qed.

Lemma state_at_snoc its it i :
  Forall item_ok its -> 0 <= i ->
  state_at (its ++ [it]) i =
    if decide (sum_n its <= i < sum_n its + i_n it) then i_state it else state_at its i.
Proof.
  intros Hp Hi. destruct (Z.lt_ge_cases i (sum_n its)).
  - rewrite decide_False by lia. by rewrite state_at_before by lia.
  - replace i with (sum_n its + (i - sum_n its)) by lia.
    rewrite state_at_after by (done || lia). simpl.
    rewrite (state_at_beyond its) by (done || lia).
    destruct (Z.ltb_spec (i - sum_n its) (i_n it)); case_decide; done || lia.
Qed.
End state_at.

Lemma lookup_repeat {A} (x : A) n i : (i < n)%nat -> repeat x n !! i = Some x.
Proof. revert i. induction n as [|n IH]; intros [|i] H; simpl; [lia..|done|]. apply IH. lia. Qed.

(** ** The storage on the device *)
Definition page_at (len a : Z) : Prop := 0 <= a /\ a mod 4096 = 0 /\ a + 4096 <= len.

(** The device kept everything but the sector at offset [a] of the storage. *)
Definition same_except {D} `{FlashDev D} (base a : Z) (d d' : D) : Prop :=
  forall x, ~ (base + a <= x < base + a + 4096) -> cell d' x = cell d x.

(** The flash under a storage: a reliable device of [st_size] bytes of which the
    storage occupies [st_base, st_base + st_len). *)
Class Storage (D : Type) `{FlashDev D} := {
  st_laws :: FlashLaws D;
  st_size : Z;
  st_reliable :: FlashReliable D st_size;
  st_base : Z;
  st_len : Z;
  st_base_ok : 0 <= st_base /\ st_base mod 4096 = 0;
  st_len_ok : 0 < st_len /\ st_len mod 4096 = 0;
  st_size_ok : st_base + st_len <= st_size /\ st_size < 2 ^ 32 }.

Section page.
Context {D : Type} `{FD : !FlashDev D} `{ST : !Storage D}.
Abbreviation base := (@st_base D FD ST).
Abbreviation len := (@st_len D FD ST).
Abbreviation size := (@st_size D FD ST).

Definition located (v : nvds_env) : Prop := env_base v = base /\ env_length v = len.

Definition image (d : D) (a : Z) : bytes := cells d (base + a) 4096.

Implicit Types (d : D) (a o : Z) (v : nvds_env) (p : page_env) (bs dat : bytes) (its : list item).

Lemma same_except_refl a d : same_except base a d d.
Proof. done. Qed.

Lemma same_except_trans a d1 d2 d3 :
  same_except base a d1 d2 -> same_except base a d2 d3 -> same_except base a d1 d3.
Proof. intros H1 H2 x Hx. by rewrite H2, H1. Qed.

Lemma pages_apart a b : page_at len a -> page_at len b -> a <> b -> a + 4096 <= b \/ b + 4096 <= a.
Proof. intros (?&?&?) (?&?&?) ?. Z.div_mod_to_equations; lia. Qed.

Lemma image_other a b d d' :
  page_at len a -> page_at len b -> a <> b -> same_except base a d d' -> image d' b = image d b.
Proof.
  intros Ha Hb Hne H. pose proof (pages_apart a b Ha Hb Hne).
  apply cells_ext. intros i Hi. apply H. lia.
Qed.

Lemma length_image d a : length (image d a) = 4096%nat.
Proof. apply length_cells. Qed.

Lemma image_ok d a : bytes_ok (image d a).
Proof. apply cells_ok. Qed.

Lemma image_slice d a (o n : nat) :
  (o + n <= 4096)%nat -> slice o n (image d a) = cells d (base + a + Z.of_nat o) n.
Proof.
  intros H. apply list_eq. intros i. destruct (decide (i < n)%nat).
  - rewrite slice_lookup by done. unfold image. rewrite !cells_lookup by lia. do 2 f_equal. lia.
  - rewrite !lookup_ge_None_2; [done|rewrite length_cells; lia|].
    rewrite length_slice; [lia|]. rewrite length_image. lia.
Qed.

Lemma read_page v d a (o n : nat) :
  located v -> page_at len a -> (0 < n)%nat -> (o + n <= 4096)%nat ->
  nvds_flash_read (a + Z.of_nat o) (Z.of_nat n) (v, d) = (Ok (slice o n (image d a)), (v, d)).
Proof.
  intros [Eb El] (H1 & H2 & H3) Hn Ho. destruct (st_base_ok (D := D)) as [], (st_len_ok (D := D)) as [], (st_size_ok (D := D)) as [].
  unfold nvds_flash_read. cbn [fst snd]. rewrite Eb, El.
  rewrite !u32_small by (unfold in_width; lia). rewrite (proj2 (Z.ltb_ge len _)) by lia.
  pose proof (read_ok (size := size) d (base + (a + Z.of_nat o)) (Z.of_nat n) ltac:(lia) ltac:(lia) ltac:(lia)) as E.
  destruct (flash_read _ _ _) as [r bs] eqn:Er. simpl in E. subst r.
  apply read_cells in Er; [|lia]. rewrite Z.eqb_refl, Er, Nat2Z.id, image_slice by done.
  do 3 f_equal. lia.
Qed.

(** Programming [bs] where it only clears bits. *)
Lemma write_page v d a (o : nat) bs :
  located v -> page_at len a -> bs <> [] -> (o + length bs <= 4096)%nat ->
  land_bytes (slice o (length bs) (image d a)) bs = bs ->
  exists d', nvds_flash_write (a + Z.of_nat o) bs (v, d) = (Ok tt, (v, d')) /\
    image d' a = overwrite o bs (image d a) /\ same_except base a d d'.
Proof.
  intros [Eb El] (H1 & H2 & H3) Hne Ho Hland. destruct (st_base_ok (D := D)) as [], (st_len_ok (D := D)) as [], (st_size_ok (D := D)) as [].
  unfold nvds_flash_write. cbn [fst snd]. rewrite Eb, El.
  rewrite !u32_small by (unfold in_width; lia). rewrite (proj2 (Z.ltb_ge len _)) by lia.
  pose proof (write_ok (size := size) d (base + (a + Z.of_nat o)) bs ltac:(lia) Hne ltac:(lia)) as E.
  destruct (flash_write _ _ _) as [r d'] eqn:Er. simpl in E. subst r.
  exists d'. split; [done|].
  assert (Hc : forall x, cell d' x = programmed (cell d) (base + (a + Z.of_nat o)) bs x)
    by (intros x; by apply write_cells).
  split.
  - apply list_eq. intros i. destruct (decide (i < 4096)%nat) as [Hi|Hi].
    + rewrite overwrite_lookup by by rewrite length_image.
      unfold image. rewrite !cells_lookup by done. rewrite Hc. unfold programmed.
      destruct (decide (o <= i < o + length bs)%nat) as [Hin|Hout].
      * rewrite decide_True by lia.
        replace (Z.to_nat (base + a + Z.of_nat i - (base + (a + Z.of_nat o)))) with (i - o)%nat by lia.
        destruct (lookup_lt_is_Some_2 bs (i - o) ltac:(lia)) as [b Hb].
        rewrite (nth_lookup_Some _ _ _ _ Hb), Hb. f_equal.
        assert (Hl : land_bytes (slice o (length bs) (image d a)) bs !! (i - o)%nat = Some b) by by rewrite Hland.
        apply lookup_zip_with_Some in Hl as (x & y & Ex & Hx & Hy). rewrite Hb in Hy. injection Hy as <-.
        rewrite slice_lookup in Hx by lia. unfold image in Hx.
        rewrite cells_lookup in Hx by lia. injection Hx as <-.
        rewrite Ex at 2. do 2 f_equal. lia.
      * by rewrite decide_False by lia.
    + rewrite !lookup_ge_None_2; [done|..]; rewrite ?length_overwrite; rewrite ?length_image; lia.
  - intros x Hx. rewrite Hc. unfold programmed. by rewrite decide_False by lia.
Qed.

Lemma erase_page_ok v d a :
  located v -> page_at len a ->
  exists d', nvds_flash_erase a Flash.SPI_FLASH_SEC_SIZE (v, d) = (Ok tt, (v, d')) /\
    image d' a = repeat 0xFF 4096 /\ same_except base a d d'.
Proof.
  intros [Eb El] (H1 & H2 & H3). destruct (st_base_ok (D := D)) as [], (st_len_ok (D := D)) as [], (st_size_ok (D := D)) as [].
  unfold nvds_flash_erase, Flash.SPI_FLASH_SEC_SIZE. cbn [fst snd]. rewrite Eb, El.
  rewrite !u32_small by (unfold in_width; lia). rewrite (proj2 (Z.ltb_ge len _)) by lia.
  pose proof (erase_ok (size := size) d (base + a) 4096 ltac:(lia) ltac:(lia) ltac:(lia)) as E.
  destruct (flash_erase _ _ _) as [r d'] eqn:Er. simpl in E. subst r. exists d'. split; [done|].
  assert (Hc : forall x, cell d' x = erased (cell d) (base + a) 4096 x).
  { intros x. apply erase_cells; [|done]. unfold sector_range, Flash.SPI_FLASH_SEC_SIZE.
    Z.div_mod_to_equations; lia. }
  split.
  - apply list_eq. intros i. destruct (decide (i < 4096)%nat) as [Hi|Hi].
    + unfold image. rewrite cells_lookup by done. rewrite Hc. unfold erased.
      rewrite decide_True by lia. symmetry. by apply lookup_repeat.
    + rewrite !lookup_ge_None_2; [done|..]; rewrite ?repeat_length, ?length_image; lia.
  - intros x Hx. rewrite Hc. unfold erased. by rewrite decide_False by lia.
Qed.

(** ** A page in RAM and in flash *)
Definition page_bytes p dat : bytes :=
  header_bytes (header p) ++ table_bytes (entry_states p) ++ dat ++ repeat 0xFF (4032 - length dat).

Record page_raw d p dat (sts : Z -> entry_state) : Prop := PageRaw {
  pr_at : page_at len (base_addr p);
  pr_image : image d (base_addr p) = page_bytes p dat;
  pr_dat : Z.of_nat (length dat) = 32 * next_free_idx p;
  pr_free : next_free_idx p <= ENTRY_COUNT_PER_PAGE;
  pr_header : header_ok (header p);
  pr_table : table_reps (entry_states p) sts }.

Record has_page v d a p dat (sts : Z -> entry_state) : Prop := HasPage {
  hp_located : located v;
  hp_page : pages v !! a = Some p;
  hp_addr : base_addr p = a;
  hp_raw : page_raw d p dat sts }.

Definition upd v a p : nvds_env := with_pages (<[a := p]> (pages v)) v.

Lemma upd_upd v a p q : upd (upd v a p) a q = upd v a q.
Proof. unfold upd, with_pages. simpl. by rewrite insert_insert_eq. Qed.

Lemma upd_id v a p : pages v !! a = Some p -> upd v a p = v.
Proof. intros H. unfold upd. rewrite insert_id by done. by destruct v. Qed.

Lemma upd_page_eq v a p : pages (upd v a p) !! a = Some p.
Proof. apply lookup_insert_eq. Qed.

Lemma upd_located v a p : located v -> located (upd v a p).
Proof. done. Qed.

Lemma set_states_id p : set_states (entry_states p) p = p.
Proof. by destruct p. Qed.

Lemma bind_ok {A B} (m : prog (nvds_env * D) A) (k : A -> prog (nvds_env * D) B) s x s' :
  m s = (Ok x, s') -> (m ≫= k) s = k x s'.
Proof. unfold mbind, prog_bind. by intros ->. Qed.

Lemma bind_err {A B} (m : prog (nvds_env * D) A) (k : A -> prog (nvds_env * D) B) s c s' :
  m s = (Err c, s') -> (m ≫= k) s = (Err c, s').
Proof. unfold mbind, prog_bind. by intros ->. Qed.

Lemma get_page_ok v d a p : pages v !! a = Some p -> get_page a (v, d) = (Ok p, (v, d)).
Proof. unfold get_page. simpl. by intros ->. Qed.

Lemma upd_page_ok v d a p f : pages v !! a = Some p -> upd_page a f (v, d) = (Ok tt, (upd v a (f p), d)).
Proof. unfold upd_page. simpl. by intros ->. Qed.

Lemma raw_dat_bound d p dat sts : page_raw d p dat sts -> (length dat <= 4032)%nat.
Proof. intros []. unfold ENTRY_COUNT_PER_PAGE in *. lia. Qed.

Lemma raw_table_length d p dat sts : page_raw d p dat sts -> length (table_bytes (entry_states p)) = 32%nat.
Proof. intros H. rewrite table_bytes_length. by rewrite (tr_length _ _ (pr_table _ _ _ _ H)). Qed.

Lemma raw_header_length d p dat sts : page_raw d p dat sts -> length (header_bytes (header p)) = 32%nat.
Proof. intros H. apply header_bytes_length. by destruct (pr_header _ _ _ _ H) as (?&?&?&?&?&?&?). Qed.

(** Other pages are not concerned. *)
Lemma page_raw_frame a d d' p dat sts :
  page_at len a -> a <> base_addr p -> same_except base a d d' -> page_raw d p dat sts -> page_raw d' p dat sts.
Proof.
  intros Ha Hne Hs []. split; try done. rewrite <- pr_image0. by apply (image_other a).
Qed.

Lemma alter_ok v d a p dat sts i st :
  has_page v d a p dat sts -> 0 <= i < ENTRY_COUNT_PER_PAGE -> writable st -> clears (sts i) st ->
  exists states d', entry_state_alter a i st (v, d) = (Ok tt, (upd v a (set_states states p), d')) /\
    has_page (upd v a (set_states states p)) d' a (set_states states p) dat
      (fun j => if decide (j = i) then st else sts j) /\ same_except base a d d'.
Proof.
  intros [Hl Hp Ha Hr] Hi Hst Hc.
  destruct (table_reps_set _ _ i st (pr_table _ _ _ _ Hr) Hi Hst) as (states & E & Ht & Hprog).
  specialize (Hprog Hc). pose proof (table_bytes_programs _ _ Hprog) as Hland.
  pose proof (raw_table_length _ _ _ _ Hr) as Hlt. pose proof (raw_header_length _ _ _ _ Hr) as Hlh.
  assert (Hlt' : length (table_bytes states) = 32%nat) by by rewrite table_bytes_length, (tr_length _ _ Ht).
  destruct (write_page (upd v a (set_states states p)) d a 32 (table_bytes states)) as (d' & Ew & Ei & Hs).
  - by apply upd_located.
  - rewrite <- Ha. apply Hr.
  - intros E0. by rewrite E0 in Hlt'.
  - lia.
  - rewrite <- Ha at 1. rewrite (pr_image _ _ _ _ Hr), Hlt'. unfold page_bytes.
    by rewrite slice_seg.
  - exists states, d'. split; [|split; [split|done]].
    + unfold entry_state_alter. destruct Hst as [Hst1 Hst2].
      rewrite (proj2 (Z.leb_gt _ _)) by lia. rewrite bool_decide_false by done.
      replace (4 <=? entry_state_val st) with false by (by destruct st). simpl.
      rewrite (bind_ok _ _ _ _ _ (get_page_ok _ _ _ _ Hp)), E.
      rewrite (bind_ok _ _ _ _ _ (upd_page_ok _ _ _ _ _ Hp)).
      unfold entry_states_table_write. rewrite Ha. exact Ew.
    + by apply upd_located.
    + apply upd_page_eq.
    + done.
    + destruct Hr. split; try done. simpl base_addr. rewrite Ha, Ei, <- Ha, pr_image0.
      unfold page_bytes. cbn [set_states header entry_states]. by rewrite overwrite_seg by lia.
Qed.

Lemma alter_range_ok v d a p dat sts b n st :
  has_page v d a p dat sts -> 0 <= b -> b + Z.of_nat n <= ENTRY_COUNT_PER_PAGE -> writable st ->
  (forall j, b <= j < b + Z.of_nat n -> clears (sts j) st) ->
  exists states d', pfor b n (fun idx => entry_state_alter a idx st) (v, d) =
      (Ok tt, (upd v a (set_states states p), d')) /\
    has_page (upd v a (set_states states p)) d' a (set_states states p) dat
      (fun j => if decide (b <= j < b + Z.of_nat n) then st else sts j) /\ same_except base a d d'.
Proof.
  revert v d p sts b. induction n as [|n IH]; intros v d p sts b Hp Hb Hn Hst Hc.
  - exists (entry_states p), d. rewrite set_states_id, upd_id by apply Hp.
    split; [done|]. split; [|apply same_except_refl].
    destruct Hp as [Hl Hpg Ha [R1 R2 R3 R4 R5 R6]]. split; try done. split; try done.
    eapply table_reps_ext; [|exact R6]. intros i Hi. simpl. by rewrite decide_False by lia.
  - destruct (alter_ok _ _ _ _ _ _ b st Hp) as (s1 & d1 & E1 & H1 & S1); [lia|done|apply Hc; lia|].
    destruct (IH _ _ _ _ (b + 1) H1) as (s2 & d2 & E2 & H2 & S2); [lia|lia|done|..].
    { intros j Hj. simpl. rewrite decide_False by lia. apply Hc. lia. }
    exists s2, d2. rewrite upd_upd in E2, H2. simpl. split; [|split].
    + by rewrite (bind_ok _ _ _ _ _ E1).
    + destruct H2 as [Hl Hpg Ha [R1 R2 R3 R4 R5 R6]]. split; try done. split; try done.
      eapply table_reps_ext; [|exact R6]. intros i Hi. simpl.
      repeat case_decide; done || lia.
    + by eapply same_except_trans.
Qed.

(** [entry_state_range_alter] from [b] to [e]. *)
Lemma range_alter_ok v d a p dat sts b e st :
  has_page v d a p dat sts -> 0 <= b <= e -> e < ENTRY_COUNT_PER_PAGE -> writable st ->
  (forall j, b <= j <= e -> clears (sts j) st) ->
  exists states d', entry_state_range_alter a b e st (v, d) =
      (Ok tt, (upd v a (set_states states p), d')) /\
    has_page (upd v a (set_states states p)) d' a (set_states states p) dat
      (fun j => if decide (b <= j < e + 1) then st else sts j) /\ same_except base a d d'.
Proof.
  intros Hp Hb He Hst Hc. unfold entry_state_range_alter.
  rewrite (proj2 (Z.ltb_ge e b)), (proj2 (Z.leb_gt _ e)) by lia. simpl.
  destruct (alter_range_ok _ _ _ _ _ _ b (Z.to_nat (e - b + 1)) st Hp) as (s & d' & H);
    [lia|lia|done|intros; apply Hc; lia|].
  exists s, d'. by replace (b + Z.of_nat (Z.to_nat (e - b + 1))) with (e + 1) in H by lia.
Qed.

(** Appending bytes to the written entries. *)
Lemma append_write v d a p dat sts bs (k : nat) :
  has_page v d a p dat sts -> bs <> [] -> bytes_ok bs ->
  (length bs <= 32 * k)%nat -> next_free_idx p + Z.of_nat k <= ENTRY_COUNT_PER_PAGE ->
  exists d', nvds_flash_write (a + PAGE_ENTRY_OFFSET + next_free_idx p * ENTRY_SIZE) bs (v, d) = (Ok tt, (v, d')) /\
    image d' a = page_bytes p (dat ++ bs ++ repeat 0xFF (32 * k - length bs)) /\ same_except base a d d'.
Proof.
  intros [Hl Hp Ha Hr] Hne Hok Hlen Hfit.
  pose proof (raw_dat_bound _ _ _ _ Hr). pose proof (pr_dat _ _ _ _ Hr) as Hdat. unfold ENTRY_COUNT_PER_PAGE in *.
  pose proof (raw_table_length _ _ _ _ Hr) as Hlt. pose proof (raw_header_length _ _ _ _ Hr) as Hlh.
  set (pre := header_bytes (header p) ++ table_bytes (entry_states p) ++ dat).
  assert (Hpre : length pre = (64 + length dat)%nat) by (unfold pre; rewrite !length_app; lia).
  assert (Hi : image d a = pre ++ repeat 0xFF (length bs) ++ repeat 0xFF (4032 - length dat - length bs)).
  { rewrite <- repeat_app. rewrite <- Ha, (pr_image _ _ _ _ Hr). unfold pre, page_bytes.
    rewrite <- !app_assoc. do 4 f_equal. lia. }
  destruct (write_page v d a (64 + length dat) bs Hl) as (d' & Ew & Ei & Hs); [by rewrite <- Ha; apply Hr|done|lia| |].
  - rewrite Hi, slice_seg by (done || apply repeat_length).
    clear -Hok. induction Hok as [|b bs Hb _ IH]; [done|]. simpl. f_equal; [|exact IH].
    rewrite Z.land_comm. change 255 with (Z.ones 8). rewrite Z.land_ones by lia. by apply Z.mod_small.
  - exists d'. split; [|split; [|done]].
    + rewrite <- Ew. f_equal. unfold PAGE_ENTRY_OFFSET, ENTRY_SIZE. lia.
    + rewrite Ei, Hi, overwrite_seg by (done || apply repeat_length).
      unfold pre, page_bytes. rewrite <- !app_assoc. do 4 f_equal.
      rewrite <- repeat_app. f_equal. rewrite !length_app, repeat_length. lia.
Qed.

(** ** Reading entries *)
Lemma entry_read_raw v d a p dat sts i :
  has_page v d a p dat sts -> 0 <= i < ENTRY_COUNT_PER_PAGE ->
  entry_read a i (v, d) = (Ok (slice (64 + 32 * Z.to_nat i) 32 (page_bytes p dat)), (v, d)).
Proof.
  intros [Hl Hp Ha Hr] Hi. unfold entry_read. rewrite (bind_ok _ _ _ _ _ (get_page_ok _ _ _ _ Hp)).
  unfold ENTRY_COUNT_PER_PAGE in Hi. rewrite Ha.
  rewrite <- (pr_image _ _ _ _ Hr), Ha.
  rewrite <- (read_page v d a (64 + 32 * Z.to_nat i) 32 Hl); [|by rewrite <- Ha; apply Hr|lia|lia].
  f_equal. unfold PAGE_ENTRY_OFFSET, ENTRY_SIZE. lia.
Qed.

(** The entry at an offset inside the written data, whatever surrounds it. *)
Lemma slice_page_bytes d p pre seg post sts (i : nat) :
  page_raw d p (pre ++ seg ++ post) sts -> length pre = (32 * i)%nat -> length seg = 32%nat ->
  slice (64 + 32 * i) 32 (page_bytes p (pre ++ seg ++ post)) = seg.
Proof.
  intros Hr Hpre Hseg. unfold page_bytes. rewrite <- !app_assoc.
  rewrite !(app_assoc _ pre), !(app_assoc _ (_ ++ pre)). apply slice_seg; [|done].
  rewrite !length_app, (raw_header_length _ _ _ _ Hr), (raw_table_length _ _ _ _ Hr). lia.
Qed.

Record page_items d p its : Prop := PageItems {
  pi_raw : page_raw d p (items_bytes its) (state_at its);
  pi_ok : Forall item_ok its;
  pi_used : entry_cnt_used p = sum_n (lives its);
  pi_free : next_free_idx p = sum_n its }.

Record has_items v d a p its : Prop := HasItems {
  hi_located : located v;
  hi_page : pages v !! a = Some p;
  hi_addr : base_addr p = a;
  hi_items : page_items d p its }.

Lemma items_page v d a p its : has_items v d a p its -> has_page v d a p (items_bytes its) (state_at its).
Proof. intros [? ? ? []]. by split. Qed.

Lemma items_bound d p its : page_items d p its -> sum_n its <= ENTRY_COUNT_PER_PAGE.
Proof. intros H. rewrite <- (pi_free _ _ _ H). apply (pi_raw _ _ _ H). Qed.

Lemma page_items_frame a d d' p its :
  page_at len a -> a <> base_addr p -> same_except base a d d' -> page_items d p its -> page_items d' p its.
Proof. intros Ha Hne Hs []. split; try done. by eapply page_raw_frame. Qed.

(** The parts of a page around one item. *)
Record item_at its pre it post : Prop := ItemAt {
  ia_eq : its = pre ++ it :: post;
  ia_pre : Forall item_ok pre;
  ia_it : item_ok it;
  ia_post : Forall item_ok post;
  ia_start : 0 <= sum_n pre;
  ia_n : 1 <= i_n it;
  ia_fit : sum_n pre + i_n it + sum_n post <= ENTRY_COUNT_PER_PAGE;
  ia_post0 : 0 <= sum_n post }.

Lemma item_at_intro d p its pre it post :
  page_items d p its -> its = pre ++ it :: post -> item_at its pre it post.
Proof.
  intros H E. pose proof (pi_ok _ _ _ H) as Hok. pose proof (items_bound _ _ _ H) as Hb. subst its.
  apply Forall_app in Hok as [Hpre [Hit Hpost]%Forall_cons].
  rewrite sum_n_app in Hb. simpl in Hb.
  pose proof (sum_n_nonneg _ Hpre). pose proof (sum_n_nonneg _ Hpost). pose proof (item_n_pos _ Hit).
  split; done || lia.
Qed.

Lemma items_split its pre it post :
  its = pre ++ it :: post -> items_bytes its = items_bytes pre ++ i_head it ++ i_body it ++ items_bytes post.
Proof. intros ->. rewrite items_bytes_app, items_bytes_cons. unfold i_bytes. by rewrite <- app_assoc. Qed.

(** Reading the header of an item, and one of its data entries. *)
Lemma read_head v d a p its pre it post :
  has_items v d a p its -> item_at its pre it post ->
  entry_read a (sum_n pre) (v, d) = (Ok (i_head it), (v, d)).
Proof.
  intros H Hat. pose proof (items_page _ _ _ _ _ H) as Hp. destruct Hat.
  rewrite (entry_read_raw _ _ _ _ _ _ _ Hp) by lia. do 2 f_equal.
  pose proof (hp_raw _ _ _ _ _ _ Hp) as Hr. rewrite (items_split _ _ _ _ ia_eq0) in Hr |- *.
  pose proof (items_bytes_length _ ia_pre0).
  eapply slice_page_bytes; [exact Hr|lia|]. apply (i_head_fields it ia_it0).
Qed.

Lemma read_data v d a p its pre it post (k : nat) :
  has_items v d a p its -> item_at its pre it post -> Z.of_nat k < i_cnt it ->
  entry_read a (sum_n pre + 1 + Z.of_nat k) (v, d) = (Ok (slice (32 * k) 32 (i_body it)), (v, d)).
Proof.
  intros H Hat Hk. pose proof (items_page _ _ _ _ _ H) as Hp. destruct Hat.
  pose proof (io_body it ia_it0). unfold i_n in *.
  rewrite (entry_read_raw _ _ _ _ _ _ _ Hp) by lia. do 2 f_equal.
  pose proof (hp_raw _ _ _ _ _ _ Hp) as Hr. rewrite (items_split _ _ _ _ ia_eq0) in Hr |- *.
  pose proof (items_bytes_length _ ia_pre0). pose proof (sf_size _ _ _ _ _ _ _ (i_head_fields it ia_it0)).
  assert (E : i_body it = take (32 * k) (i_body it) ++ slice (32 * k) 32 (i_body it) ++
    drop (32 * k + 32) (i_body it)).
  { unfold slice. rewrite <- (take_drop (32 * k) (i_body it)) at 1. f_equal.
    rewrite <- (take_drop 32 (drop (32 * k) (i_body it))) at 1. f_equal. by rewrite drop_drop. }
  rewrite E in Hr |- * at 1. rewrite <- !app_assoc in Hr |- *.
  rewrite (app_assoc (items_bytes pre)), (app_assoc (_ ++ i_head it)) in Hr |- *.
  replace (Z.to_nat (sum_n pre + 1 + Z.of_nat k)) with (Z.to_nat (sum_n pre) + 1 + k)%nat by lia.
  eapply slice_page_bytes; [exact Hr| |].
  - rewrite !length_app, length_take. lia.
  - apply length_slice. lia.
Qed.

Lemma state_at_get v d a p its i :
  has_items v d a p its -> 0 <= i < ENTRY_COUNT_PER_PAGE ->
  entry_state_get (entry_states p) i = Some (state_at its i).
Proof. intros H Hi. apply (pr_table _ _ _ _ (pi_raw _ _ _ (hi_items _ _ _ _ _ H))). exact Hi. Qed.

(** ** Searching a page *)
Definition matches (ns : Z) (key : bytes) (type : Z) (it : item) : bool :=
  (ns =? i_ns it) && bool_decide (key = i_key it) && ((type =? ELEMENT_ANY) || (i_type it =? type)).

Fixpoint first_match (P : item -> bool) (i : Z) its : option Z :=
  match its with
  | [] => None
  | it :: its => if i_live it && P it then Some i else first_match P (i + i_n it) its
  end.

Lemma entry_len_head it : item_ok it -> entry_length (i_head it) = i_len it.
Proof. intros H. apply (i_head_fields it H). Qed.

Lemma entry_type_head it : item_ok it -> entry_type (i_head it) = i_type it.
Proof. intros H. apply (i_head_fields it H). Qed.

Lemma next_entry_head it i :
  item_ok it -> 0 <= i -> i + i_n it <= ENTRY_COUNT_PER_PAGE -> next_entry (i_head it) i = i + i_n it.
Proof.
  intros H Hi Hn. unfold next_entry. rewrite entry_type_head, entry_len_head by done.
  fold (has_data (i_type it)). unfold i_n, i_cnt, ENTRY_COUNT_PER_PAGE in *.
  pose proof (entries_for_nonneg (i_len it) (proj1 (io_len it H))).
  destruct (has_data _); rewrite !u8_small by (unfold in_width; rewrite ?u8_small by (unfold in_width; lia); lia); lia.
Qed.

Lemma matches_head ns key type it :
  item_ok it -> key_ok key ->
  (ns =? entry_ns (i_head it)) && key_matches key (i_head it)
    && ((type =? ELEMENT_ANY) || (entry_type (i_head it) =? type))
    && (entry_crc32 (i_head it) =? element_header_crc32_calc (i_head it)) = matches ns key type it.
Proof.
  intros H Hk. destruct (i_head_fields it H) as [_ _ -> -> _ _ _ _ -> Hm].
  by rewrite Hm, Z.eqb_refl, andb_true_r by done.
Qed.

Lemma state_used it : bool_decide (i_state it = ENTRY_USED) = i_live it.
Proof. unfold i_state. by destruct (i_live it). Qed.

Lemma first_match_end v d a p its fuel ns key type :
  has_items v d a p its -> (0 < fuel)%nat ->
  find_entry fuel a ns key type (sum_n its) (v, d) = (Ok None, (v, d)).
Proof.
  intros H Hf. destruct fuel as [|fuel]; [lia|]. simpl.
  destruct (Z.leb_spec ENTRY_COUNT_PER_PAGE (sum_n its)); [done|].
  pose proof (pi_ok _ _ _ (hi_items _ _ _ _ _ H)) as Hok. pose proof (sum_n_nonneg _ Hok).
  rewrite (bind_ok _ _ _ _ _ (get_page_ok _ _ _ _ (hi_page _ _ _ _ _ H))).
  rewrite (state_at_get _ _ _ _ _ _ H) by lia. by rewrite state_at_beyond by (done || lia).
Qed.

Lemma find_entry_ok v d a p its pre post fuel ns key type :
  has_items v d a p its -> its = pre ++ post -> key_ok key -> (length post < fuel)%nat ->
  find_entry fuel a ns key type (sum_n pre) (v, d) =
    (Ok (first_match (matches ns key type) (sum_n pre) post), (v, d)).
Proof.
  intros H E Hk. revert pre fuel E. induction post as [|it post IH]; intros pre fuel E Hf.
  { simpl. rewrite app_nil_r in E. subst pre. eapply first_match_end; [exact H|lia]. }
  destruct (item_at_intro _ _ _ _ _ _ (hi_items _ _ _ _ _ H) E) as [_ Hpre Hit Hpost Hs Hn Hfit Hp0].
  destruct fuel as [|fuel]; [simpl in Hf; lia|]. simpl.
  rewrite (proj2 (Z.leb_gt _ _)) by lia.
  rewrite (bind_ok _ _ _ _ _ (get_page_ok _ _ _ _ (hi_page _ _ _ _ _ H))).
  rewrite (state_at_get _ _ _ _ _ _ H) by lia.
  replace (state_at its (sum_n pre)) with (i_state it)
    by (rewrite E, <- (Z.add_0_r (sum_n pre)) at 1; by rewrite state_at_item by (done || lia)).
  transitivity ((e ← entry_read a (sum_n pre);
    if bool_decide (i_state it = ENTRY_USED) && (ns =? entry_ns e) && key_matches key e
       && ((type =? ELEMENT_ANY) || (entry_type e =? type))
       && (entry_crc32 e =? element_header_crc32_calc e)
    then mret (Some (sum_n pre))
    else find_entry fuel a ns key type (next_entry e (sum_n pre))) (v, d)).
  { unfold i_state. by destruct (i_live it). }
  rewrite (bind_ok _ _ _ _ _ (read_head _ _ _ _ _ _ _ _ H (item_at_intro _ _ _ _ _ _ (hi_items _ _ _ _ _ H) E))).
  rewrite <- !andb_assoc, state_used, (andb_assoc (ns =? _)), (andb_assoc (_ && _)).
  rewrite matches_head by done. destruct (i_live it && matches ns key type it); [done|].
  rewrite next_entry_head by (done || lia).
  replace (sum_n pre + i_n it) with (sum_n (pre ++ [it])) by (rewrite sum_n_app; simpl; lia).
  apply IH; [by rewrite E, <- app_assoc|simpl in Hf; lia].
Qed.
End page.
