(* ===== verification/NvdsOps.v ===== *)
(** * What the primitives of the key-value store do to the items of a page

    Reading and comparing the data behind a header, retiring an item, writing an
    element, changing the page state, and copying the live items of one page to
    another. *)
From S2P Require Import Prelude Prog Crc Flash NvdsFormat Nvds NvdsPage.

Section ops.
Context {D : Type} `{FD : !FlashDev D} `{ST : !Storage D}.
Abbreviation base := (@st_base D FD ST).
Abbreviation len := (@st_len D FD ST).
Implicit Types (d : D) (a : Z) (v : nvds_env) (p : page_env) (bs dat : bytes) (its pre post : list item).

(** The item list of a page with the parts around one item, as a hypothesis. *)
Lemma has_item_at v d a p its pre it post :
  has_items v d a p its -> its = pre ++ it :: post -> item_at its pre it post.
Proof. intros H. apply (item_at_intro _ _ _ _ _ _ (hi_items _ _ _ _ _ H)). Qed.

(** ** Data *)
Lemma entries_for_bound n : 0 <= n -> n <= 32 * entries_for n < n + 32.
Proof. intros. unfold entries_for, ENTRY_SIZE. Z.div_mod_to_equations; lia. Qed.

Lemma take_slice_app (bs : bytes) (k n c : nat) :
  (c <= 32)%nat -> (c <= n)%nat -> (n <= 32 -> c = n)%nat -> (32 < n -> c = 32)%nat ->
  take c (slice (32 * k) 32 bs) ++ take (n - c) (drop (32 * S k) bs) = take n (drop (32 * k) bs).
Proof.
  intros H1 H2 H3 H4. unfold slice. rewrite take_take, Nat.min_l by lia.
  replace (32 * S k)%nat with (32 * k + 32)%nat by lia. rewrite <- drop_drop.
  destruct (decide (n <= 32)%nat) as [Hn|Hn].
  - rewrite H3 by done. rewrite Nat.sub_diag. cbn [take]. by rewrite app_nil_r.
  - rewrite H4 by lia. rewrite <- (take_drop 32 (take n (drop (32 * k) bs))).
    rewrite take_take, Nat.min_l by lia. f_equal. by rewrite skipn_firstn_comm.
Qed.

Lemma read_entries_ok v d a p its pre it post fuel (k : nat) r :
  has_items v d a p its -> item_at its pre it post ->
  0 <= r <= 32 * (i_cnt it - Z.of_nat k) -> (Z.to_nat (i_cnt it - Z.of_nat k) < fuel)%nat ->
  Z.of_nat k <= i_cnt it ->
  read_entries fuel a (sum_n pre + 1 + Z.of_nat k) (sum_n pre + i_cnt it) r (v, d) =
    (Ok (take (Z.to_nat r) (drop (32 * k) (i_body it))), (v, d)).
Proof.
  intros H Hat. revert k r. induction fuel as [|fuel IH]; intros k r Hr Hf Hk; [lia|].
  cbn [read_entries]. pose proof Hat as [_ _ _ _ Hs _ Hfit Hp0]. unfold i_n, ENTRY_COUNT_PER_PAGE in Hfit.
  destruct (Z.ltb_spec (sum_n pre + i_cnt it) (sum_n pre + 1 + Z.of_nat k)).
  { by replace (Z.to_nat r) with 0%nat by lia. }
  rewrite (bind_ok _ _ _ _ _ (read_data _ _ _ _ _ _ _ _ k H Hat ltac:(lia))). cbv zeta.
  set (c := if r <? ENTRY_SIZE then r else ENTRY_SIZE).
  assert (Hc : 0 <= c <= r /\ (r <= 32 -> c = r) /\ (32 < r -> c = 32)).
  { unfold c, ENTRY_SIZE. destruct (Z.ltb_spec r 32); lia. }
  rewrite (u8_small (sum_n pre + 1 + Z.of_nat k + 1)) by (unfold in_width; lia).
  replace (sum_n pre + 1 + Z.of_nat k + 1) with (sum_n pre + 1 + Z.of_nat (S k)) by lia.
  rewrite (bind_ok _ _ _ _ _ (IH (S k) (r - c) ltac:(lia) ltac:(lia) ltac:(lia))).
  unfold mret, prog_ret. do 2 f_equal.
  replace (Z.to_nat (r - c)) with (Z.to_nat r - Z.to_nat c)%nat by lia.
  apply take_slice_app; lia.
Qed.

Lemma compare_entries_ok v d a p its pre it post fuel (k : nat) r dst :
  has_items v d a p its -> item_at its pre it post ->
  0 <= r <= 32 * (i_cnt it - Z.of_nat k) -> (Z.to_nat (i_cnt it - Z.of_nat k) < fuel)%nat ->
  Z.of_nat k <= i_cnt it -> Z.of_nat (length dst) = r ->
  compare_entries fuel a (sum_n pre + 1 + Z.of_nat k) (sum_n pre + i_cnt it) r dst (v, d) =
    (Ok (bool_decide (dst = take (Z.to_nat r) (drop (32 * k) (i_body it)))), (v, d)).
Proof.
  intros H Hat. revert k r dst. induction fuel as [|fuel IH]; intros k r dst Hr Hf Hk Hd; [lia|].
  cbn [compare_entries]. pose proof Hat as [_ _ _ _ Hs _ Hfit Hp0]. unfold i_n, ENTRY_COUNT_PER_PAGE in Hfit.
  destruct (Z.ltb_spec (sum_n pre + i_cnt it) (sum_n pre + 1 + Z.of_nat k)).
  { replace (Z.to_nat r) with 0%nat by lia. destruct dst; [done|simpl in Hd; lia]. }
  rewrite (bind_ok _ _ _ _ _ (read_data _ _ _ _ _ _ _ _ k H Hat ltac:(lia))). cbv zeta.
  set (c := if r <? ENTRY_SIZE then r else ENTRY_SIZE).
  assert (Hc : 0 <= c <= r /\ (r <= 32 -> c = r) /\ (32 < r -> c = 32)).
  { unfold c, ENTRY_SIZE. destruct (Z.ltb_spec r 32); lia. }
  rewrite (u8_small (sum_n pre + 1 + Z.of_nat k + 1)) by (unfold in_width; lia).
  replace (sum_n pre + 1 + Z.of_nat k + 1) with (sum_n pre + 1 + Z.of_nat (S k)) by lia.
  rewrite <- (take_slice_app (i_body it) k (Z.to_nat r) (Z.to_nat c)) by lia.
  set (x := take (Z.to_nat c) (slice _ _ _)). set (y := take _ (drop _ (i_body it))).
  assert (Hx : length x = Z.to_nat c).
  { unfold x. rewrite length_take, length_slice; [lia|].
    pose proof (io_body it (ia_it _ _ _ _ Hat)). lia. }
  destruct (bool_decide_reflect (take (Z.to_nat c) dst = x)) as [E|E].
  - rewrite (IH (S k) (r - c) (drop (Z.to_nat c) dst)) by (rewrite ?length_drop; lia).
    replace (Z.to_nat (r - c)) with (Z.to_nat r - Z.to_nat c)%nat by lia. fold y. do 2 f_equal.
    apply bool_decide_ext. rewrite <- (take_drop (Z.to_nat c) dst) at 2. rewrite E.
    split; [by intros ->|]. by intros ?%app_inv_head.
  - unfold mret, prog_ret. do 2 f_equal. symmetry. apply bool_decide_eq_false. intros E2.
    apply E. rewrite E2. by rewrite take_app_length'.
Qed.

(** ** Retiring an item *)
Lemma lives_kill pre it post :
  Forall item_ok pre -> item_ok it -> Forall item_ok post -> i_live it = true ->
  sum_n (lives (pre ++ kill it :: post)) = sum_n (lives (pre ++ it :: post)) - i_n it.
Proof.
  intros _ _ _ Hl. rewrite !lives_app, !sum_n_app, !filter_cons.
  rewrite decide_False by (simpl; tauto). rewrite decide_True by (by rewrite Hl). simpl. lia.
Qed.

Lemma lives_sum_range its : Forall item_ok its -> 0 <= sum_n (lives its) <= sum_n its.
Proof. intros H. pose proof (sum_n_lives its H). pose proof (sum_n_nonneg _ (lives_ok _ H)). lia. Qed.

Lemma retire_ok v d a p its pre it post :
  has_items v d a p its -> item_at its pre it post -> i_live it = true ->
  exists p' d', retire a (sum_n pre) (i_cnt it) (v, d) = (Ok tt, (upd v a p', d')) /\
    has_items (upd v a p') d' a p' (pre ++ kill it :: post) /\ same_except base a d d' /\
    header p' = header p.
Proof.
  intros H Hat Hl. pose proof (items_page _ _ _ _ _ H) as Hp.
  pose proof Hat as [E Hpre Hit Hpost Hs Hn Hfit Hp0]. unfold ENTRY_COUNT_PER_PAGE in *.
  pose proof (i_cnt_nonneg it (proj1 (io_len it Hit))) as Hc0. unfold i_n in Hfit.
  destruct (range_alter_ok _ _ _ _ _ _ (sum_n pre) (sum_n pre + i_cnt it) ENTRY_UPDATED Hp)
    as (st & d' & Ea & H1 & Hse); [lia|unfold ENTRY_COUNT_PER_PAGE; lia|by split| |].
  { intros j Hj. rewrite E. replace j with (sum_n pre + (j - sum_n pre)) by lia.
    rewrite state_at_item by (unfold i_n; done || lia). unfold i_state. by rewrite Hl. }
  set (p1 := set_states st p) in *.
  exists (add_used (- (i_cnt it + 1)) p1), d'. split; [|split; [|split; [done|done]]].
  - unfold retire. rewrite u8_small by (unfold in_width; lia).
    rewrite (bind_ok _ _ _ _ _ Ea). rewrite (upd_page_ok _ _ _ _ _ (hp_page _ _ _ _ _ _ H1)).
    by rewrite upd_upd.
  - destruct H1 as [Hl1 Hp1 Ha1 Hr1]. split; [done|apply upd_page_eq|done|].
    pose proof (hi_items _ _ _ _ _ H) as Hi.
    pose proof (lives_kill pre it post Hpre Hit Hpost Hl) as Hlk. rewrite <- E in Hlk.
    pose proof (lives_sum_range its (pi_ok _ _ _ Hi)).
    assert (Hok : Forall item_ok (pre ++ kill it :: post)).
    { apply Forall_app; split; [done|]. constructor; [by apply kill_ok|done]. }
    pose proof (lives_sum_range _ Hok). pose proof (items_bound _ _ _ Hi). unfold ENTRY_COUNT_PER_PAGE in *.
    split.
    + replace (items_bytes (pre ++ kill it :: post)) with (items_bytes its)
        by (rewrite E, !items_bytes_app; done).
      destruct Hr1 as [R1 R2 R3 R4 R5 R6]. split; try done.
      eapply table_reps_ext; [|exact R6]. intros i Hi'. cbv beta.
      rewrite (state_at_update pre it (kill it) post) by (done || lia). rewrite E. unfold i_n.
      repeat case_decide; done || lia.
    + done.
    + cbn [add_used entry_cnt_used p1 set_states]. rewrite (pi_used _ _ _ Hi).
      rewrite u16_small by (unfold in_width, i_n in *; lia). unfold i_n in Hlk. lia.
    + cbn [add_used next_free_idx p1 set_states]. rewrite (pi_free _ _ _ Hi), E, !sum_n_app. done.
Qed.

(** ** Page state *)
Lemma header_state_overwrite h st :
  length (h_rsv h) = 16%nat ->
  overwrite 6 (le 2 st) (header_bytes h) = header_bytes (set_h_state st h) /\
  slice 6 2 (header_bytes h) = le 2 (h_state h).
Proof.
  intros Hr. unfold header_bytes. cbn [set_h_state h_magic h_version h_state h_seqno h_rsv h_crc32].
  rewrite !(app_assoc (le 4 (h_magic h))). split.
  - by apply overwrite_seg.
  - by apply slice_seg.
Qed.

Lemma overwrite_app_l {A} (o : nat) (bs l k : list A) :
  (o + length bs <= length l)%nat -> overwrite o bs (l ++ k) = overwrite o bs l ++ k.
Proof.
  intros H. unfold overwrite. rewrite take_app_le by lia. rewrite drop_app_le by lia. by rewrite <- !app_assoc.
Qed.

Lemma slice_app_le {A} (o n : nat) (l k : list A) : (o + n <= length l)%nat -> slice o n (l ++ k) = slice o n l.
Proof. intros H. unfold slice. rewrite drop_app_le, take_app_le by (rewrite ?length_drop; lia). done. Qed.

Lemma page_state_ok v d a p dat sts st :
  has_page v d a p dat sts -> is_u16 st -> Z.land (h_state (header p)) st = st ->
  let p' := set_header (set_h_state st (header p)) p in
  exists d', page_state_alter a st (v, d) = (Ok tt, (upd v a p', d')) /\
    has_page (upd v a p') d' a p' dat sts /\ same_except base a d d'.
Proof.
  intros [Hl Hp Ha Hr] Hst Hland p'.
  pose proof (raw_header_length _ _ _ _ Hr) as Hlh. destruct (pr_header _ _ _ _ Hr) as (Q1&Q2&Q3&Q4&Q5&Q6&Q7).
  destruct (header_state_overwrite (header p) st Q6) as [Eo Es].
  destruct (write_page v d a 6 (le 2 st) Hl) as (d' & Ew & Ei & Hs);
    [by rewrite <- Ha; apply Hr|done|simpl; lia| |].
  - rewrite <- Ha, (pr_image _ _ _ _ Hr). unfold page_bytes. rewrite length_le, slice_app_le, Es by lia.
    by rewrite <- le_land, Hland.
  - exists d'. split; [|split; [|done]].
    + unfold page_state_alter. rewrite (bind_ok _ _ _ _ _ (get_page_ok _ _ _ _ Hp)).
      rewrite Ha. replace (a + PAGE_HEADER_OFFSET + 6) with (a + Z.of_nat 6) by (unfold PAGE_HEADER_OFFSET; lia).
      rewrite (bind_ok _ _ _ _ _ Ew).
      exact (upd_page_ok v d' a p (fun p => set_header (set_h_state st (header p)) p) Hp).
    + split; [by apply upd_located|apply upd_page_eq|done|].
      destruct Hr. split; [done| |done|done|by split_and!|done].
      * cbn [p' set_header base_addr]. rewrite Ha, Ei, <- Ha, pr_image. unfold page_bytes.
        rewrite overwrite_app_l by (rewrite Hlh; simpl; lia). by rewrite Eo.
Qed.

Lemma page_state_items v d a p its st :
  has_items v d a p its -> is_u16 st -> Z.land (h_state (header p)) st = st ->
  let p' := set_header (set_h_state st (header p)) p in
  exists d', page_state_alter a st (v, d) = (Ok tt, (upd v a p', d')) /\
    has_items (upd v a p') d' a p' its /\ same_except base a d d'.
Proof.
  intros H Hst Hland p'. destruct (page_state_ok _ _ _ _ _ _ _ (items_page _ _ _ _ _ H) Hst Hland) as (d' & E & [H1 H2 H3 H4] & Hs).
  exists d'. split; [done|]. split; [|done]. split; [done..|].
  destruct (hi_items _ _ _ _ _ H). by split.
Qed.

(** ** Appending entries *)
Lemma raw_nf_u32 d p dat sts : page_raw d p dat sts -> 0 <= next_free_idx p <= ENTRY_COUNT_PER_PAGE.
Proof. intros []. lia. Qed.

(** The page after [n] more entries have been written behind the last one. *)
Definition grown (n : Z) p : page_env := add_used n (add_free_idx n p).

Lemma grown_has_page v d d' a p dat bs sts n :
  has_page v d a p dat sts -> 0 <= n -> next_free_idx p + n <= ENTRY_COUNT_PER_PAGE ->
  Z.of_nat (length bs) = 32 * n -> image d' a = page_bytes p (dat ++ bs) ->
  has_page (upd v a (grown n p)) d' a (grown n p) (dat ++ bs) sts.
Proof.
  intros [Hl Hp Ha Hr] Hn Hfit Hlen Hi. pose proof (raw_nf_u32 _ _ _ _ Hr). unfold ENTRY_COUNT_PER_PAGE in *.
  split; [done|apply upd_page_eq|done|]. destruct Hr. unfold ENTRY_COUNT_PER_PAGE in *.
  split; cbn [grown add_used add_free_idx base_addr header entry_states next_free_idx]; try assumption.
  - by rewrite Ha.
  - rewrite length_app, u32_small by (unfold in_width; lia). lia.
  - rewrite u32_small by (unfold in_width; lia). unfold ENTRY_COUNT_PER_PAGE. lia.
Qed.

Lemma entry_write_ok v d a p dat sts e :
  has_page v d a p dat sts -> next_free_idx p < ENTRY_COUNT_PER_PAGE -> length e = 32%nat -> bytes_ok e ->
  exists d', entry_write a e (v, d) = (Ok tt, (upd v a (grown 1 p), d')) /\
    has_page (upd v a (grown 1 p)) d' a (grown 1 p) (dat ++ e) sts /\ same_except base a d d'.
Proof.
  intros Hp Hf He Hok.
  destruct (append_write _ _ _ _ _ _ e 1 Hp) as (d' & Ew & Ei & Hs); [by intros ->|done|lia|lia|].
  exists d'. split; [|split; [|done]].
  - unfold entry_write. rewrite (bind_ok _ _ _ _ _ (get_page_ok _ _ _ _ (hp_page _ _ _ _ _ _ Hp))).
    rewrite (proj2 (Z.leb_gt _ _)) by lia. rewrite (hp_addr _ _ _ _ _ _ Hp).
    rewrite (bind_ok _ _ _ _ _ Ew).
    exact (upd_page_ok v d' a p (fun p => add_used 1 (add_free_idx 1 p)) (hp_page _ _ _ _ _ _ Hp)).
  - eapply grown_has_page; [exact Hp|lia|lia|lia|].
    rewrite Ei, He. change (repeat 255 (32 * 1 - 32)) with (@nil Z). rewrite app_nil_r. reflexivity.
Qed.

(** The data behind a header, padded with erased bytes to whole entries. *)
Lemma data_write_ok v d a p dat sts buf n :
  has_page v d a p dat sts -> buf <> [] -> bytes_ok buf -> n = entries_for (Z.of_nat (length buf)) ->
  next_free_idx p + n <= ENTRY_COUNT_PER_PAGE ->
  exists d', (forall (k : prog (nvds_env * D) unit),
      (q ← get_page a;
       _ ← entry_data_write (base_addr q + PAGE_ENTRY_OFFSET + next_free_idx q * ENTRY_SIZE) buf;
       _ ← upd_page a (fun p => add_used n (add_free_idx n p)); k) (v, d) = k (upd v a (grown n p), d')) /\
    has_page (upd v a (grown n p)) d' a (grown n p)
      (dat ++ buf ++ repeat 0xFF (32 * Z.to_nat n - length buf)) sts /\ same_except base a d d'.
Proof.
  intros Hp Hne Hok Hn Hf. pose proof (entries_for_bound (Z.of_nat (length buf)) ltac:(lia)) as Hb.
  destruct (append_write _ _ _ _ _ _ buf (Z.to_nat n) Hp) as (d' & Ew & Ei & Hs); [done|done|lia|lia|].
  exists d'. split; [|split; [|done]].
  - intros k. rewrite (bind_ok _ _ _ _ _ (get_page_ok _ _ _ _ (hp_page _ _ _ _ _ _ Hp))).
    rewrite (hp_addr _ _ _ _ _ _ Hp). unfold entry_data_write. rewrite (bind_ok _ _ _ _ _ Ew).
    exact (bind_ok _ _ _ _ _ (upd_page_ok v d' a p (fun p => add_used n (add_free_idx n p)) (hp_page _ _ _ _ _ _ Hp))).
  - eapply grown_has_page; [exact Hp|lia|lia| |exact Ei].
    rewrite length_app, repeat_length. lia.
Qed.

(** ** Elements *)
Definition elem (ns : Z) (key buf : bytes) : item :=
  let n := Z.of_nat (length buf) in
  if ELEMENT_SMALL_MAX_SIZE <? n
  then Item ns ELEMENT_MIDDLE TAG_FRAG_NO_DEFAULT key n (info_value (element_data_crc32_calc buf))
         (buf ++ repeat 0xFF (32 * Z.to_nat (entries_for n) - length buf)) true
  else Item ns ELEMENT_SMALL TAG_FRAG_NO_DEFAULT key n (small_value buf) [] true.

(** The values a small or middle element can hold. *)
Definition value_ok (buf : bytes) : Prop :=
  bytes_ok buf /\ 1 <= Z.of_nat (length buf) <= ELEMENT_MIDDLE_MAX_SIZE.

Lemma elem_ok ns key buf : is_u8 ns -> key_ok key -> value_ok buf -> item_ok (elem ns key buf).
Proof.
  intros Hns Hk [Hb Hl]. unfold elem, ELEMENT_SMALL_MAX_SIZE, ELEMENT_MIDDLE_MAX_SIZE in *.
  destruct (Z.ltb_spec 8 (Z.of_nat (length buf))).
  - destruct (info_value_ok (element_data_crc32_calc buf)).
    pose proof (entries_for_bound (Z.of_nat (length buf)) ltac:(lia)).
    split; cbn [i_ns i_type i_frag i_len i_key i_val i_body]; try assumption;
      try (unfold in_width, ELEMENT_MIDDLE, TAG_FRAG_NO_DEFAULT; lia).
    + rewrite length_app, repeat_length. unfold i_cnt. simpl has_data. cbn [i_len i_type].
      change (has_data ELEMENT_MIDDLE) with true. cbv iota. lia.
    + apply Forall_app. split; [done|apply repeat_ff_ok].
  - destruct (small_value_ok buf Hb ltac:(lia)).
    split; cbn [i_ns i_type i_frag i_len i_key i_val i_body]; try assumption;
      try (unfold in_width, ELEMENT_SMALL, TAG_FRAG_NO_DEFAULT; lia); [done|constructor].
Qed.

Lemma elem_live ns key buf : i_live (elem ns key buf) = true.
Proof. unfold elem. by destruct (_ <? _). Qed.

Lemma state_at_used its it i :
  Forall item_ok its -> i_live it = true -> 0 <= i ->
  state_at (its ++ [it]) i = if decide (sum_n its <= i < sum_n its + i_n it) then ENTRY_USED else state_at its i.
Proof. intros H Hl Hi. rewrite state_at_snoc by done. unfold i_state. by rewrite Hl. Qed.

(** Turning freshly written bytes into an item of the page. *)
Lemma items_snoc v v' d a p its it q :
  has_items v d a p its -> item_ok it -> i_live it = true ->
  forall d', has_page v' d' a q (items_bytes its ++ i_bytes it)
    (fun j => if decide (sum_n its <= j < sum_n its + i_n it) then ENTRY_USED else state_at its j) ->
  next_free_idx q = sum_n its + i_n it -> entry_cnt_used q = sum_n (lives its) + i_n it ->
  has_items v' d' a q (its ++ [it]).
Proof.
  intros H Hit Hl d' [H1 H2 H3 Hr] Hf Hu. pose proof (hi_items _ _ _ _ _ H) as Hi.
  pose proof (pi_ok _ _ _ Hi) as Hok. split; [done..|]. split.
  - rewrite items_bytes_app, items_bytes_cons, app_nil_r. destruct Hr. split; try assumption.
    eapply table_reps_ext; [|exact pr_table]. intros i Hi'. cbv beta. symmetry. apply state_at_used; done || lia.
  - apply Forall_app. by split; [|constructor].
  - rewrite lives_app, sum_n_app, filter_cons_True by (by rewrite Hl). simpl. lia.
  - rewrite sum_n_app. simpl. lia.
Qed.

(** The facts about a page that every append needs. *)
Lemma append_facts v d a p its it :
  has_items v d a p its -> item_ok it -> sum_n its + i_n it <= ENTRY_COUNT_PER_PAGE ->
  next_free_idx p = sum_n its /\ entry_cnt_used p = sum_n (lives its) /\
  0 <= sum_n (lives its) <= sum_n its /\ 0 <= i_cnt it /\ sum_n its + i_cnt it < ENTRY_COUNT_PER_PAGE /\
  (forall j, sum_n its <= j -> clears (state_at its j) ENTRY_USED).
Proof.
  intros H Hit Hfit. pose proof (hi_items _ _ _ _ _ H) as Hi. pose proof (pi_ok _ _ _ Hi) as Hok.
  pose proof (lives_sum_range _ Hok). pose proof (i_cnt_nonneg _ (proj1 (io_len _ Hit))). unfold i_n in Hfit.
  split_and!; try apply Hi; try lia. intros j Hj. by rewrite state_at_beyond.
Qed.

Lemma grown_fields n p :
  0 <= next_free_idx p + n < 2 ^ 32 -> 0 <= entry_cnt_used p + n < 2 ^ 16 ->
  next_free_idx (grown n p) = next_free_idx p + n /\ entry_cnt_used (grown n p) = entry_cnt_used p + n.
Proof.
  intros H1 H2. cbn [grown add_used add_free_idx next_free_idx entry_cnt_used].
  by rewrite u32_small, u16_small.
Qed.

(** An item without data entries: a small element or the info of a bulk one. *)
Lemma write_bare_item v d a p its it :
  has_items v d a p its -> item_ok it -> i_live it = true -> i_cnt it = 0 -> i_body it = [] ->
  sum_n its + i_n it <= ENTRY_COUNT_PER_PAGE ->
  exists p' d', (_ ← entry_write a (i_head it);
      entry_state_range_alter a (u8 (next_free_idx p)) (u8 (next_free_idx p)) ENTRY_USED) (v, d) =
      (Ok tt, (upd v a p', d')) /\
    has_items (upd v a p') d' a p' (its ++ [it]) /\ same_except base a d d' /\ header p' = header p.
Proof.
  intros H Hit Hl Hc Hbody Hfit. pose proof (items_page _ _ _ _ _ H) as Hp.
  destruct (append_facts _ _ _ _ _ _ H Hit Hfit) as (Hnf & Hu & Hlr & _ & Hf & Hclr).
  pose proof (i_head_fields _ Hit) as Hh.
  destruct (entry_write_ok _ _ _ _ _ _ (i_head it) Hp) as (d1 & E1 & H1 & S1); [lia|apply Hh|apply Hh|].
  unfold ENTRY_COUNT_PER_PAGE in *.
  destruct (grown_fields 1 p) as [Hn1 Hu1]; [lia|lia|]. set (p1 := grown 1 p) in *.
  destruct (range_alter_ok _ _ _ _ _ _ (sum_n its) (sum_n its) ENTRY_USED H1) as (st & d3 & E3 & H3 & S3);
    [lia|unfold ENTRY_COUNT_PER_PAGE; lia|by split|intros; apply Hclr; lia|].
  exists (set_states st p1), d3. rewrite upd_upd in E3, H3.
  split; [|split; [|split; [by eapply same_except_trans|done]]].
  - rewrite Hnf, u8_small by (unfold in_width; lia). by rewrite (bind_ok _ _ _ _ _ E1).
  - eapply items_snoc; [exact H|done|done| |unfold i_n; cbn [set_states next_free_idx]; lia
                       |unfold i_n; cbn [set_states entry_cnt_used]; lia].
    unfold i_bytes, i_n. by rewrite Hbody, app_nil_r, Hc.
Qed.

(** An item with [buf] in its data entries. *)
Lemma write_data_item v d a p its it buf :
  has_items v d a p its -> item_ok it -> i_live it = true ->
  buf <> [] -> bytes_ok buf -> i_cnt it = entries_for (Z.of_nat (length buf)) ->
  i_body it = buf ++ repeat 0xFF (32 * Z.to_nat (i_cnt it) - length buf) ->
  sum_n its + i_n it <= ENTRY_COUNT_PER_PAGE ->
  exists p' d', (_ ← entry_write a (i_head it);
      q ← get_page a;
      _ ← entry_data_write (base_addr q + PAGE_ENTRY_OFFSET + next_free_idx q * ENTRY_SIZE) buf;
      _ ← upd_page a (fun p => add_used (i_cnt it) (add_free_idx (i_cnt it) p));
      entry_state_range_alter a (u8 (next_free_idx p)) (u8 (next_free_idx p + i_cnt it)) ENTRY_USED) (v, d) =
      (Ok tt, (upd v a p', d')) /\
    has_items (upd v a p') d' a p' (its ++ [it]) /\ same_except base a d d' /\ header p' = header p.
Proof.
  intros H Hit Hl Hne Hb Hc Hbody Hfit. pose proof (items_page _ _ _ _ _ H) as Hp.
  destruct (append_facts _ _ _ _ _ _ H Hit Hfit) as (Hnf & Hu & Hlr & Hc0 & Hf & Hclr).
  pose proof (i_head_fields _ Hit) as Hh.
  destruct (entry_write_ok _ _ _ _ _ _ (i_head it) Hp) as (d1 & E1 & H1 & S1); [lia|apply Hh|apply Hh|].
  set (n := i_cnt it) in *. unfold ENTRY_COUNT_PER_PAGE in *.
  destruct (grown_fields 1 p) as [Hn1 Hu1]; [lia|lia|]. set (p1 := grown 1 p) in *.
  destruct (data_write_ok _ _ _ _ _ _ buf n H1) as (d2 & E2 & H2 & S2);
    [done|done|done|unfold ENTRY_COUNT_PER_PAGE; lia|].
  destruct (grown_fields n p1) as [Hn2 Hu2]; [lia|lia|]. set (p2 := grown n p1) in *.
  destruct (range_alter_ok _ _ _ _ _ _ (sum_n its) (sum_n its + n) ENTRY_USED H2) as (st & d3 & E3 & H3 & S3);
    [lia|unfold ENTRY_COUNT_PER_PAGE; lia|by split|intros; apply Hclr; lia|].
  exists (set_states st p2), d3. rewrite !upd_upd in E2. repeat rewrite upd_upd in E3, H3.
  split; [|split; [|split; [by repeat (eapply same_except_trans; [eassumption|])|done]]].
  - rewrite Hnf, !u8_small by (unfold in_width; lia). rewrite (bind_ok _ _ _ _ _ E1), E2. exact E3.
  - eapply items_snoc; [exact H|done|done| |unfold i_n; fold n; cbn [set_states next_free_idx]; lia
                       |unfold i_n; fold n; cbn [set_states entry_cnt_used]; lia].
    unfold i_bytes. rewrite app_assoc, Hbody. unfold i_n. fold n.
    replace (sum_n its + (1 + n)) with (sum_n its + n + 1) by lia. exact H3.
Qed.

(** The write of a small or middle element. *)
Lemma write_element_ok v d a p its ns key buf :
  has_items v d a p its -> is_u8 ns -> key_ok key -> value_ok buf ->
  sum_n its + i_n (elem ns key buf) <= ENTRY_COUNT_PER_PAGE ->
  exists p' d', write_element a ns key buf (v, d) = (Ok tt, (upd v a p', d')) /\
    has_items (upd v a p') d' a p' (its ++ [elem ns key buf]) /\ same_except base a d d' /\
    header p' = header p.
Proof.
  intros H Hns Hk Hv Hfit. pose proof (elem_ok ns key buf Hns Hk Hv) as Hit.
  pose proof (elem_live ns key buf) as Hl. destruct Hk as (_ & _ & Hk15). destruct Hv as [Hb Hlen].
  unfold write_element. rewrite (bind_ok _ _ _ _ _ (get_page_ok _ _ _ _ (hi_page _ _ _ _ _ H))). cbv zeta.
  unfold elem, ELEMENT_SMALL_MAX_SIZE in *. destruct (Z.ltb_spec 8 (Z.of_nat (length buf))).
  - rewrite info_entry_sealed by done.
    refine (write_data_item _ _ _ _ _ _ buf H Hit Hl _ Hb eq_refl eq_refl Hfit). by intros ->.
  - rewrite small_entry_sealed by (done || lia).
    exact (write_bare_item _ _ _ _ _ _ H Hit Hl eq_refl eq_refl Hfit).
Qed.
End ops.
