(* ===== verification/NvdsReclaim.v ===== *)
(** * Taking and reclaiming pages of the key-value store

    What [page_header_read] makes of a sector ([classify]), the initialisation
    of a page of the free list, and the copy of the live entries of a page that
    is reclaimed. *)
From S2P Require Import Prelude Prog Crc Flash NvdsFormat Nvds NvdsPage NvdsOps.

(** ** Sectors as the loader sees them *)
Definition img_blank (img : bytes) : bool :=
  forallb (fun i => chunk_blank (slice (512 * i) 512 img)) (seq 0 8).

Definition classify (img : bytes) : page_header :=
  let h := parse_header (slice 0 32 img) in
  if h_state h =? PAGE_UNINITIALIZED then
    set_h_state (if img_blank img then PAGE_UNINITIALIZED else PAGE_ERROR) h
  else if negb (h_crc32 h =? page_header_crc32_calc h) then set_h_state PAGE_ERROR h
  else if negb (h_magic h =? NVDS_FLASH_MAGIC) then set_h_state PAGE_ERROR h
  else h.

(** A header state with which a page goes to the free list. *)
Definition unloaded (h : page_header) : bool :=
  (h_state h =? PAGE_UNINITIALIZED) || (h_state h =? PAGE_ERROR) || (h_state h =? PAGE_INVALID).

Lemma word_all_ones bs : bytes_ok bs -> length bs = 4%nat -> unle bs = 0xFFFFFFFF -> bs = repeat 0xFF 4.
Proof. intros Hb Hl E. rewrite <- (le_unle bs Hb), Hl, E. reflexivity. Qed.

Lemma chunk_blank_ff bs : bytes_ok bs -> length bs = 512%nat -> chunk_blank bs = true -> bs = repeat 0xFF 512.
Proof.
  intros Hb Hl H. apply list_eq. intros i. destruct (decide (i < 512)%nat) as [Hi|Hi].
  - rewrite lookup_repeat by done. unfold chunk_blank in H. rewrite forallb_forall in H.
    specialize (H (i / 4)%nat). rewrite Z.eqb_eq in H.
    pose proof (Nat.div_mod i 4 ltac:(lia)) as Hd. pose proof (Nat.mod_upper_bound i 4 ltac:(lia)).
    assert (Hq : (i / 4 < 128)%nat) by lia.
    specialize (H ltac:(apply in_seq; lia)). apply word_all_ones in H.
    + apply (f_equal (lookup (i mod 4)%nat)) in H. rewrite slice_lookup, lookup_repeat in H by lia.
      by rewrite <- Hd in H.
    + by apply Forall_take, Forall_drop.
    + apply length_slice. lia.
  - rewrite !lookup_ge_None_2; [done|rewrite repeat_length; lia|lia].
Qed.

Lemma img_blank_ff img : bytes_ok img -> length img = 4096%nat -> img_blank img = true -> img = repeat 0xFF 4096.
Proof.
  intros Hb Hl H. unfold img_blank in H. rewrite forallb_forall in H.
  apply list_eq. intros i. destruct (decide (i < 4096)%nat) as [Hi|Hi].
  - rewrite lookup_repeat by done.
    pose proof (Nat.div_mod i 512 ltac:(lia)) as Hd. pose proof (Nat.mod_upper_bound i 512 ltac:(lia)).
    assert (Hq : (i / 512 < 8)%nat) by lia.
    specialize (H (i / 512)%nat ltac:(apply in_seq; lia)). apply chunk_blank_ff in H.
    + apply (f_equal (lookup (i mod 512)%nat)) in H. rewrite slice_lookup, lookup_repeat in H by lia.
      by rewrite <- Hd in H.
    + by apply Forall_take, Forall_drop.
    + apply length_slice. lia.
  - rewrite !lookup_ge_None_2; [done|rewrite repeat_length; lia|lia].
Qed.

Lemma classify_blank : classify (repeat 0xFF 4096) = blank_header.
Proof. vm_compute. reflexivity. Qed.

Lemma classify_uninitialized img :
  bytes_ok img -> length img = 4096%nat -> h_state (classify img) = PAGE_UNINITIALIZED -> img = repeat 0xFF 4096.
Proof.
  intros Hb Hl. unfold classify. set (h := parse_header _).
  destruct (Z.eqb_spec (h_state h) PAGE_UNINITIALIZED) as [E|E].
  - destruct (img_blank img) eqn:Eb; [intros _; by apply img_blank_ff|done].
  - destruct (negb (h_crc32 h =? _)); [done|]. by destruct (negb (h_magic h =? _)).
Qed.

Section reclaim.
Context {D : Type} `{FD : !FlashDev D} `{ST : !Storage D}.
Abbreviation base := (@st_base D FD ST).
Abbreviation len := (@st_len D FD ST).
Implicit Types (d : D) (a : Z) (v : nvds_env) (p q : page_env) (bs dat : bytes) (its pre post : list item).

Lemma check_chunks_ok v d a (n i : nat) :
  located v -> page_at len a -> (i + n = 8)%nat ->
  check_chunks n (a + Z.of_nat (512 * i)) (v, d) =
    (Ok (forallb (fun j => chunk_blank (slice (512 * j) 512 (image d a))) (seq i n)), (v, d)).
Proof.
  intros Hl Ha. revert i. induction n as [|n IH]; intros i Hi; [done|].
  cbn [check_chunks]. change (4 * 128) with (Z.of_nat 512).
  rewrite (bind_ok _ _ _ _ _ (read_page v d a (512 * i) 512 Hl Ha ltac:(lia) ltac:(lia))). simpl seq. simpl forallb.
  destruct (chunk_blank _); [|done].
  replace (a + Z.of_nat (512 * i) + Z.of_nat 512) with (a + Z.of_nat (512 * S i)) by lia. apply IH. lia.
Qed.

(** [page_header_read] leaves [classify] of the sector in the header. *)
Lemma header_read_ok v d p a :
  located v -> page_at len a -> base_addr p = a ->
  page_header_read p (v, d) = (Ok (classify (image d a)), (v, d)).
Proof.
  intros Hl Ha Ep. unfold page_header_read. rewrite Ep. change 32 with (Z.of_nat 32).
  replace (a + PAGE_HEADER_OFFSET) with (a + Z.of_nat 0) by (unfold PAGE_HEADER_OFFSET; lia).
  rewrite (read_page v d a 0 32 Hl Ha ltac:(lia) ltac:(lia)).
  unfold classify. set (h := parse_header _). cbv zeta.
  destruct (h_state h =? PAGE_UNINITIALIZED).
  - pose proof (check_chunks_ok v d a 8 0 Hl Ha eq_refl) as E. change (512 * 0)%nat with 0%nat in E.
    rewrite E. unfold img_blank. by destruct (forallb _ _).
  - destruct (negb (h_crc32 h =? _)); [done|]. by destruct (negb (h_magic h =? _)).
Qed.

(** ** Free pages *)
Record free_page v d a p : Prop := FreePage {
  fp_page : pages v !! a = Some p;
  fp_addr : base_addr p = a;
  fp_at : page_at len a;
  fp_header : header p = classify (image d a);
  fp_state : unloaded (header p) = true }.

Lemma erased_page_bytes p seq :
  page_bytes (set_header (fresh_header seq) (page_clear p)) [] = header_bytes (fresh_header seq) ++ repeat 0xFF 4064.
Proof.
  unfold page_bytes. cbn [set_header page_clear header entry_states]. rewrite table_bytes_blank.
  f_equal.
Qed.

Lemma fresh_header_length seq : length (header_bytes (fresh_header seq)) = 32%nat.
Proof. by apply header_bytes_length. Qed.

(** Programming erased flash. *)
Lemma land_bytes_ff (n : nat) bs : bytes_ok bs -> length bs = n -> land_bytes (repeat 0xFF n) bs = bs.
Proof.
  intros Hok <-. induction Hok as [|b bs Hb _ IH]; [done|]. simpl. f_equal; [|exact IH].
  rewrite Z.land_comm. change 255 with (Z.ones 8). rewrite Z.land_ones by lia. by apply Z.mod_small.
Qed.

Lemma write_fresh_header v d a p seqno :
  located v -> pages v !! a = Some p -> base_addr p = a -> page_at len a -> is_u32 seqno ->
  image d a = repeat 0xFF 4096 ->
  let p1 := set_header (fresh_header seqno) (page_clear p) in
  exists d', nvds_flash_write (a + PAGE_HEADER_OFFSET) (header_bytes (fresh_header seqno)) (upd v a p1, d) =
      (Ok tt, (upd v a p1, d')) /\
    has_page (upd v a p1) d' a p1 [] (fun _ => ENTRY_FREE) /\ same_except base a d d'.
Proof.
  intros Hl Hp Ea Ha Hs Hi p1. pose proof (fresh_header_length seqno) as Hlen.
  destruct (write_page (upd v a p1) d a 0 (header_bytes (fresh_header seqno))) as (d' & Ew & Ei & Hse).
  - by apply upd_located.
  - done.
  - intros E. by rewrite E in Hlen.
  - lia.
  - rewrite Hlen, Hi. change (slice 0 32 (repeat 255 4096)) with (repeat 255 32).
    apply land_bytes_ff; [|exact Hlen]. apply header_bytes_ok. by destruct (fresh_header_ok seqno Hs) as (?&?&?&?&?&?).
  - exists d'. split; [|split; [|exact Hse]].
    + unfold PAGE_HEADER_OFFSET. exact Ew.
    + split; [by apply upd_located|apply upd_page_eq|exact Ea|]. split.
      * cbn [p1 set_header page_clear base_addr]. by rewrite Ea.
      * cbn [p1 set_header page_clear base_addr]. rewrite Ea, Ei, Hi. unfold p1. rewrite erased_page_bytes.
        change (repeat 255 4096) with ([] ++ repeat 255 32 ++ repeat 255 4064).
        by rewrite (overwrite_seg 0) by (done || by rewrite Hlen).
      * done.
      * done.
      * by apply fresh_header_ok.
      * apply table_reps_blank.
Qed.

Lemma init_page_ok v d a p seqno :
  located v -> free_page v d a p -> is_u32 seqno ->
  exists p' d', init_page a seqno (v, d) = (Ok tt, (upd v a p', d')) /\
    has_items (upd v a p') d' a p' [] /\ header p' = fresh_header seqno /\ same_except base a d d'.
Proof.
  intros Hl [Hp Ea Ha Hh Hu] Hs.
  assert (Her : exists d1, (if negb (h_state (header p) =? PAGE_UNINITIALIZED)
      then nvds_flash_erase (base_addr p) Flash.SPI_FLASH_SEC_SIZE else mret tt) (v, d) = (Ok tt, (v, d1)) /\
    image d1 a = repeat 0xFF 4096 /\ same_except base a d d1).
  { destruct (Z.eqb_spec (h_state (header p)) PAGE_UNINITIALIZED) as [E|E]; cbn [negb].
    - exists d. split_and!; [done| |apply same_except_refl].
      apply classify_uninitialized; [apply image_ok|apply length_image|]. by rewrite <- Hh.
    - rewrite Ea. by apply erase_page_ok. }
  destruct Her as (d1 & E1 & Hi & S1).
  set (p1 := set_header (fresh_header seqno) (page_clear p)).
  destruct (write_fresh_header v d1 a p seqno Hl Hp Ea Ha Hs Hi) as (d2 & E2 & H2 & S2). fold p1 in E2, H2.
  destruct (page_state_ok _ _ _ _ _ _ PAGE_ACTIVE H2) as (d3 & E3 & H3 & S3);
    [done|by cbn [p1 set_header header]; rewrite fresh_header_state|].
  set (p2 := set_header (set_h_state PAGE_ACTIVE (header p1)) p1) in *. rewrite upd_upd in E3, H3.
  exists p2, d3. split; [|split; [|split]].
  - unfold init_page. rewrite (bind_ok _ _ _ _ _ (get_page_ok _ _ _ _ Hp)), (bind_ok _ _ _ _ _ E1).
    fold p1. rewrite (bind_ok _ _ _ _ _ (upd_page_ok v d1 a p (fun _ => p1) Hp)).
    rewrite Ea. by rewrite (bind_ok _ _ _ _ _ E2).
  - destruct H3 as [Hl3 Hp3 Ha3 Hr3]. split; try assumption. by split.
  - cbn [p2 p1 set_header header]. apply fresh_header_active.
  - by repeat (eapply same_except_trans; [eassumption|]).
Qed.

(** ** Copying *)
Lemma pfor_split {S} from (n m : nat) (body : Z -> prog S unit) s :
  pfor from (n + m) body s = (_ ← pfor from n body; pfor (from + Z.of_nat n) m body) s.
Proof.
  revert from s. induction n as [|n IH]; intros from s.
  - cbn [Nat.add pfor]. unfold mbind, prog_bind, mret, prog_ret. by rewrite Z.add_0_r.
  - cbn [Nat.add pfor]. unfold mbind at 1 2 3, prog_bind. destruct (body from s) as [[[]|c] s']; [|done].
    rewrite IH. unfold mbind, prog_bind. replace (from + 1 + Z.of_nat n) with (from + Z.of_nat (Datatypes.S n)) by lia.
    done.
Qed.

Lemma pfor_skip {S} from (n : nat) (body : Z -> prog S unit) s :
  (forall i, from <= i < from + Z.of_nat n -> body i s = (Ok tt, s)) -> pfor from n body s = (Ok tt, s).
Proof.
  revert from. induction n as [|n IH]; intros from H; [done|]. cbn [pfor].
  unfold mbind, prog_bind. rewrite H by lia. apply IH. intros i Hi. apply H. lia.
Qed.

Lemma has_page_other v d d' a b p q dat sts :
  has_page v d b q dat sts -> a <> b -> page_at len a -> same_except base a d d' ->
  has_page (upd v a p) d' b q dat sts.
Proof.
  intros [Hl Hp Hb Hr] Hne Ha Hs. split; [done| |done|].
  - unfold upd. simpl. by rewrite lookup_insert_ne.
  - eapply page_raw_frame; [exact Ha| |exact Hs|exact Hr]. by rewrite Hb.
Qed.

Lemma copy_skip v d ep a q dat sts i :
  has_page v d ep q dat sts -> 0 <= i < ENTRY_COUNT_PER_PAGE -> sts i <> ENTRY_USED ->
  copy_entry ep a i (v, d) = (Ok tt, (v, d)).
Proof.
  intros Hq Hi Hne. unfold copy_entry. rewrite (bind_ok _ _ _ _ _ (get_page_ok _ _ _ _ (hp_page _ _ _ _ _ _ Hq))).
  rewrite (tr_get _ _ (pr_table _ _ _ _ (hp_raw _ _ _ _ _ _ Hq)) i Hi). by destruct (sts i).
Qed.

Lemma slice_app_split (bs : bytes) (o n m : nat) : slice o (n + m) bs = slice o n bs ++ slice (o + n) m bs.
Proof. unfold slice. rewrite <- drop_drop. symmetry; apply take_take_drop. Qed.

Lemma slice_dat d p dat sts (i : nat) :
  page_raw d p dat sts -> Z.of_nat i < next_free_idx p ->
  slice (64 + 32 * i) 32 (page_bytes p dat) = slice (32 * i) 32 dat.
Proof.
  intros Hr Hi. pose proof (pr_dat _ _ _ _ Hr). unfold page_bytes.
  rewrite (app_assoc (header_bytes _)).
  rewrite (slice_app_r _ _ 64) by (rewrite ?length_app, ?(raw_header_length _ _ _ _ Hr), ?(raw_table_length _ _ _ _ Hr); lia).
  rewrite slice_app_le by lia. f_equal. lia.
Qed.

(** One live entry is appended to page [a]. *)
Lemma copy_used v d ep a p q dat sdat sts ssts i :
  has_page v d ep q sdat ssts -> has_page v d a p dat sts -> a <> ep ->
  0 <= i < next_free_idx q -> ssts i = ENTRY_USED -> entry_cnt_used p = next_free_idx p ->
  next_free_idx p < ENTRY_COUNT_PER_PAGE -> clears (sts (next_free_idx p)) ENTRY_USED ->
  exists p' d', copy_entry ep a i (v, d) = (Ok tt, (upd v a p', d')) /\
    has_page (upd v a p') d' a p' (dat ++ slice (32 * Z.to_nat i) 32 sdat)
      (fun j => if decide (j = next_free_idx p) then ENTRY_USED else sts j) /\
    same_except base a d d' /\ header p' = header p /\
    next_free_idx p' = next_free_idx p + 1 /\ entry_cnt_used p' = next_free_idx p + 1.
Proof.
  intros Hq Hp Hne Hi Hs Hcnt Hf Hc. pose proof (hp_raw _ _ _ _ _ _ Hq) as Hrq.
  pose proof (raw_nf_u32 _ _ _ _ Hrq) as Hnq. pose proof (raw_nf_u32 _ _ _ _ (hp_raw _ _ _ _ _ _ Hp)) as Hnp.
  set (e := slice (32 * Z.to_nat i) 32 sdat).
  pose proof (slice_dat _ _ _ _ (Z.to_nat i) Hrq ltac:(lia)) as Ee. fold e in Ee.
  assert (He : entry_read ep i (v, d) = (Ok e, (v, d))).
  { rewrite <- Ee. apply (entry_read_raw _ _ _ _ _ _ _ Hq). unfold ENTRY_COUNT_PER_PAGE in *; lia. }
  assert (Hok : bytes_ok e).
  { rewrite <- Ee, <- (pr_image _ _ _ _ Hrq). apply Forall_take, Forall_drop, image_ok. }
  assert (Hle : length e = 32%nat).
  { apply length_slice. pose proof (pr_dat _ _ _ _ Hrq). lia. }
  destruct (entry_write_ok _ _ _ _ _ _ e Hp Hf Hle Hok) as (d1 & E1 & H1 & S1). unfold ENTRY_COUNT_PER_PAGE in *.
  destruct (grown_fields 1 p) as [Hn1 Hu1]; [lia|lia|]. set (p1 := grown 1 p) in *.
  destruct (alter_ok _ _ _ _ _ _ (next_free_idx p) ENTRY_USED H1) as (st & d2 & E2 & H2 & S2);
    [unfold ENTRY_COUNT_PER_PAGE; lia|by split|done|].
  rewrite upd_upd in E2, H2. exists (set_states st p1), d2.
  split; [|split; [exact H2|split; [by eapply same_except_trans|]]].
  - unfold copy_entry. rewrite (bind_ok _ _ _ _ _ (get_page_ok _ _ _ _ (hp_page _ _ _ _ _ _ Hq))).
    rewrite (tr_get _ _ (pr_table _ _ _ _ Hrq) i), Hs by (unfold ENTRY_COUNT_PER_PAGE; lia).
    rewrite (bind_ok _ _ _ _ _ He), (bind_ok _ _ _ _ _ E1).
    rewrite (bind_ok _ _ _ _ _ (get_page_ok _ _ _ _ (hp_page _ _ _ _ _ _ H1))).
    rewrite Hn1, Z.add_simpl_r, u8_small by (unfold in_width; lia). exact E2.
  - cbn [set_states header next_free_idx entry_cnt_used]. split_and!; [done|lia|lia].
Qed.

(** A run of live entries. *)
Lemma copy_run v d ep a p q dat sdat sts ssts i (n : nat) :
  has_page v d ep q sdat ssts -> has_page v d a p dat sts -> a <> ep ->
  0 <= i -> i + Z.of_nat n <= next_free_idx q -> (forall j, i <= j < i + Z.of_nat n -> ssts j = ENTRY_USED) ->
  entry_cnt_used p = next_free_idx p -> next_free_idx p + Z.of_nat n <= ENTRY_COUNT_PER_PAGE ->
  (forall j, next_free_idx p <= j -> clears (sts j) ENTRY_USED) ->
  exists p' d', pfor i n (copy_entry ep a) (v, d) = (Ok tt, (upd v a p', d')) /\
    has_page (upd v a p') d' a p' (dat ++ slice (32 * Z.to_nat i) (32 * n) sdat)
      (fun j => if decide (next_free_idx p <= j < next_free_idx p + Z.of_nat n) then ENTRY_USED else sts j) /\
    same_except base a d d' /\ header p' = header p /\
    next_free_idx p' = next_free_idx p + Z.of_nat n /\ entry_cnt_used p' = next_free_idx p + Z.of_nat n.
Proof.
  intros Hq Hp Hne. revert v d p dat sts i Hq Hp.
  induction n as [|n IH]; intros v d p dat sts i Hq Hp Hi Hin Hs Hcnt Hf Hc.
  - exists p, d. rewrite upd_id by apply Hp. split; [done|]. split; [|split_and!; done || lia].
    destruct Hp as [Hl Hpg Ha [R1 R2 R3 R4 R5 R6]]. unfold slice. rewrite Nat.mul_0_r, app_nil_r.
    split; [done..|]. split; [done..|]. eapply table_reps_ext; [|exact R6]. intros j Hj. cbv beta. by rewrite decide_False by lia.
  - destruct (copy_used _ _ _ _ _ _ _ _ _ _ i Hq Hp Hne) as (p1 & d1 & E1 & H1 & S1 & Hh1 & Hn1 & Hu1);
      [lia|apply Hs; lia|done|lia|apply Hc; lia|].
    assert (Ha : page_at len a) by (rewrite <- (hp_addr _ _ _ _ _ _ Hp); apply (hp_raw _ _ _ _ _ _ Hp)).
    pose proof (has_page_other _ _ _ _ _ p1 _ _ _ Hq Hne Ha S1) as Hq1.
    destruct (IH _ _ _ _ _ (i + 1) Hq1 H1) as (p2 & d2 & E2 & H2 & S2 & Hh2 & Hn2 & Hu2);
      [lia|lia|intros; apply Hs; lia|lia|lia|intros j Hj; cbv beta; rewrite decide_False by lia; apply Hc; lia|].
    exists p2, d2. rewrite upd_upd in E2, H2. split; [|split; [|split; [by eapply same_except_trans|]]].
    + cbn [pfor]. by rewrite (bind_ok _ _ _ _ _ E1).
    + destruct H2 as [Hl2 Hpg2 Ha2 [R1 R2 R3 R4 R5 R6]]. split; [done..|].
      replace (32 * S n)%nat with (32 + 32 * n)%nat by lia. rewrite slice_app_split, app_assoc.
      replace (32 * Z.to_nat i + 32)%nat with (32 * Z.to_nat (i + 1))%nat by lia. split; [done..|].
      eapply table_reps_ext; [|exact R6]. intros j Hj. cbv beta. repeat case_decide; done || lia.
    + split_and!; [congruence|lia|lia].
Qed.

Lemma slice_items_bytes its pre it post :
  item_at its pre it post ->
  slice (32 * Z.to_nat (sum_n pre)) (32 * Z.to_nat (i_n it)) (items_bytes its) = i_bytes it.
Proof.
  intros [-> Hpre Hit _ H0 Hn _ _]. rewrite items_bytes_app, items_bytes_cons.
  pose proof (items_bytes_length pre Hpre). pose proof (i_bytes_length it Hit).
  apply slice_seg; lia.
Qed.

(** The walk over the items [post] of the source: live ones are appended. *)
Lemma copy_items v d ep a p q sits its pre post :
  has_items v d ep q sits -> has_items v d a p its -> a <> ep -> sits = pre ++ post ->
  lives its = its -> sum_n its + sum_n (lives post) <= ENTRY_COUNT_PER_PAGE ->
  exists p' d', pfor (sum_n pre) (Z.to_nat (sum_n post)) (copy_entry ep a) (v, d) = (Ok tt, (upd v a p', d')) /\
    has_items (upd v a p') d' a p' (its ++ lives post) /\ same_except base a d d' /\ header p' = header p.
Proof.
  intros Hq Hp Hne. revert v d p its pre Hq Hp. induction post as [|it post IH]; intros v d p its pre Hq Hp E Hl Hfit.
  { exists p, d. rewrite upd_id by apply Hp. cbn [sum_n foldr lives]. rewrite app_nil_r. by split_and!. }
  pose proof (has_item_at _ _ _ _ _ _ _ _ Hq E) as Hat. pose proof Hat as [_ Hpre Hit Hpost H0 Hn Hsf Hp0].
  pose proof (items_page _ _ _ _ _ Hq) as Hqr. pose proof (items_page _ _ _ _ _ Hp) as Hpr.
  pose proof (hi_items _ _ _ _ _ Hp) as Hpi. pose proof (hi_items _ _ _ _ _ Hq) as Hqi.
  assert (Ha : page_at len a) by (rewrite <- (hi_addr _ _ _ _ _ Hp); apply (pi_raw _ _ _ Hpi)).
  assert (Enf : next_free_idx q = sum_n pre + i_n it + sum_n post).
  { rewrite (pi_free _ _ _ Hqi), E, sum_n_app. simpl. lia. }
  assert (Hsplit : forall s, pfor (sum_n pre) (Z.to_nat (sum_n (it :: post))) (copy_entry ep a) s =
    (_ ← pfor (sum_n pre) (Z.to_nat (i_n it)) (copy_entry ep a);
     pfor (sum_n (pre ++ [it])) (Z.to_nat (sum_n post)) (copy_entry ep a)) s).
  { intros s. simpl sum_n. rewrite Z2Nat.inj_add, pfor_split, Z2Nat.id by lia.
    rewrite sum_n_app. simpl sum_n. by rewrite Z.add_0_r. }
  rewrite Hsplit. rewrite filter_cons in Hfit |- *. case_decide as Hlive.
  - apply Is_true_true in Hlive. simpl sum_n in Hfit.
    pose proof (sum_n_nonneg _ (lives_ok _ Hpost)).
    destruct (copy_run _ _ _ _ _ _ _ _ _ _ (sum_n pre) (Z.to_nat (i_n it)) Hqr Hpr Hne)
      as (p1 & d1 & E1 & H1 & S1 & Hh1 & Hn1 & Hu1);
      [lia|lia| |rewrite (pi_used _ _ _ Hpi), (pi_free _ _ _ Hpi), Hl; done|rewrite (pi_free _ _ _ Hpi); lia|..].
    { intros j Hj. rewrite E. replace j with (sum_n pre + (j - sum_n pre)) by lia.
      rewrite state_at_item by (done || lia). unfold i_state. by rewrite Hlive. }
    { intros j Hj. rewrite state_at_beyond; [done|apply Hpi|]. rewrite <- (pi_free _ _ _ Hpi). lia. }
    rewrite (slice_items_bytes _ _ _ _ Hat), Z2Nat.id in H1 by lia. rewrite (pi_free _ _ _ Hpi) in H1, Hn1, Hu1.
    assert (H1' : has_items (upd v a p1) d1 a p1 (its ++ [it])).
    { eapply items_snoc; [exact Hp|done|done|exact H1|lia|]. rewrite Hl. lia. }
    assert (Hq1 : has_items (upd v a p1) d1 ep q sits).
    { destruct Hq as [? ? ? Hqi']. split; [done| |done|].
      - unfold upd. simpl. by rewrite lookup_insert_ne.
      - eapply page_items_frame; [exact Ha|congruence|exact S1|done]. }
    destruct (IH _ _ _ _ (pre ++ [it]) Hq1 H1') as (p2 & d2 & E2 & H2 & S2 & Hh2).
    { by rewrite E, <- app_assoc. }
    { rewrite lives_app, Hl, filter_cons_True by by rewrite Hlive. done. }
    { rewrite sum_n_app. simpl. lia. }
    exists p2, d2. rewrite upd_upd in E2, H2. rewrite (bind_ok _ _ _ _ _ E1). rewrite <- app_assoc in H2.
    split_and!; [exact E2|exact H2|by eapply same_except_trans|congruence].
  - assert (Hskip : pfor (sum_n pre) (Z.to_nat (i_n it)) (copy_entry ep a) (v, d) = (Ok tt, (v, d))).
    { apply pfor_skip. intros i Hi. eapply copy_skip; [exact Hqr|unfold ENTRY_COUNT_PER_PAGE in *; lia|].
      rewrite E. replace i with (sum_n pre + (i - sum_n pre)) by lia.
      rewrite state_at_item by (done || lia). unfold i_state. by destruct (i_live it). }
    rewrite (bind_ok _ _ _ _ _ Hskip).
    apply IH; [done|done|by rewrite E, <- app_assoc|done|done].
Qed.

(** The whole copy loop, from a source page to a fresh one. *)
Lemma copy_page v d ep a p q sits :
  has_items v d ep q sits -> has_items v d a p [] -> a <> ep ->
  exists p' d', pfor 0 (Z.to_nat ENTRY_COUNT_PER_PAGE) (copy_entry ep a) (v, d) = (Ok tt, (upd v a p', d')) /\
    has_items (upd v a p') d' a p' (lives sits) /\ same_except base a d d' /\ header p' = header p.
Proof.
  intros Hq Hp Hne. pose proof (hi_items _ _ _ _ _ Hq) as Hqi. pose proof (pi_ok _ _ _ Hqi) as Hok.
  pose proof (items_bound _ _ _ Hqi) as Hb. pose proof (lives_sum_range _ Hok) as Hlr.
  destruct (copy_items _ _ _ _ _ _ sits [] [] sits Hq Hp Hne) as (p1 & d1 & E1 & H1 & S1 & Hh1);
    [done|done|simpl; lia|].
  exists p1, d1. split; [|split_and!; done]. cbn [sum_n foldr] in E1.
  replace (Z.to_nat ENTRY_COUNT_PER_PAGE)
    with (Z.to_nat (sum_n sits) + Z.to_nat (ENTRY_COUNT_PER_PAGE - sum_n sits))%nat by lia.
  rewrite pfor_split, (bind_ok _ _ _ _ _ E1).
  assert (Ha : page_at len a) by (rewrite <- (hi_addr _ _ _ _ _ Hp); apply (pi_raw _ _ _ (hi_items _ _ _ _ _ Hp))).
  pose proof (has_page_other _ _ _ _ _ p1 _ _ _ (items_page _ _ _ _ _ Hq) Hne Ha S1) as Hq1.
  apply pfor_skip. intros i Hi. eapply copy_skip; [exact Hq1|unfold ENTRY_COUNT_PER_PAGE in *; lia|].
  by rewrite state_at_beyond by (done || lia).
Qed.

(** ** Reclaiming *)
Lemma has_items_other v d d' a b p q its :
  has_items v d b q its -> a <> b -> page_at len a -> same_except base a d d' -> has_items (upd v a p) d' b q its.
Proof.
  intros [Hl Hp Hb Hi] Hne Ha Hs. split; [done|by unfold upd; simpl; rewrite lookup_insert_ne|done|].
  eapply page_items_frame; [exact Ha|by rewrite Hb|exact Hs|exact Hi].
Qed.

Lemma has_items_lists v d b q its f u : has_items v d b q its -> has_items (with_lists f u v) d b q its.
Proof. intros [? ? ? ?]. by split. Qed.

Lemma has_items_at v d b q its : has_items v d b q its -> page_at len b.
Proof. intros H. rewrite <- (hi_addr _ _ _ _ _ H). apply (pi_raw _ _ _ (hi_items _ _ _ _ _ H)). Qed.

Lemma with_lists_upd f u v a p : with_lists f u (upd v a p) = upd (with_lists f u v) a p.
Proof. done. Qed.

(** The state after [reclaim]: page [a] holds the live items of [ep], which is
    erased and free; the other pages are as they were. *)
Record reclaimed v d ep a p sits v' d' : Prop := Reclaimed {
  rc_new : exists p', has_items v' d' a p' (lives sits) /\ header p' = header p;
  rc_free : exists q, free_page v' d' ep q;
  rc_free_list : nvds_page_free v' = nvds_page_free v ++ [ep];
  rc_used_list : nvds_page_used v' = list_extract ep (nvds_page_used v);
  rc_ns : ns_list v' = ns_list v /\ ns_states v' = ns_states v;
  rc_others : forall b r its, b <> a -> b <> ep -> has_items v d b r its -> has_items v' d' b r its }.

Lemma reclaim_ok v d ep a p q sits st s :
  has_items v d ep q sits -> header q = set_h_state st (fresh_header s) ->
  (st = PAGE_ACTIVE \/ st = PAGE_FULL) -> has_items v d a p [] -> a <> ep ->
  exists v' d', reclaim ep a (v, d) = (Ok tt, (v', d')) /\ reclaimed v d ep a p sits v' d'.
Proof.
  intros Hq Hhq Hst Hp Hne. pose proof (has_items_at _ _ _ _ _ Hq) as Hep. pose proof (has_items_at _ _ _ _ _ Hp) as Ha.
  set (v0 := with_lists (nvds_page_free v ++ [ep]) (list_extract ep (nvds_page_used v)) v).
  pose proof (has_items_lists _ _ _ _ _ (nvds_page_free v ++ [ep]) (list_extract ep (nvds_page_used v)) Hq) as Hq0.
  pose proof (has_items_lists _ _ _ _ _ (nvds_page_free v ++ [ep]) (list_extract ep (nvds_page_used v)) Hp) as Hp0.
  fold v0 in Hq0, Hp0.
  destruct (page_state_items _ _ _ _ _ PAGE_CANDIDATE Hq0) as (d1 & E1 & Hq1 & S1); [done| |].
  { rewrite Hhq. cbn [set_h_state h_state]. by destruct Hst as [-> | ->]. }
  set (q1 := set_header _ q) in *. set (v1 := upd v0 ep q1) in *.
  pose proof (has_items_other _ _ _ _ _ q1 _ _ Hp0 (not_eq_sym Hne) Hep S1) as Hp1. fold v1 in Hp1.
  destruct (copy_page _ _ _ _ _ _ _ Hq1 Hp1 Hne) as (p2 & d2 & E2 & Hp2 & S2 & Hh2). set (v2 := upd v1 a p2) in *.
  pose proof (has_items_other _ _ _ _ _ p2 _ _ Hq1 Hne Ha S2) as Hq2. fold v2 in Hq2.
  destruct (erase_page_ok v2 d2 ep (hi_located _ _ _ _ _ Hq2) Hep) as (d3 & E3 & Hi3 & S3).
  exists (upd v2 ep (page_clear q1)), d3. split; [|split].
  - unfold reclaim, upd_env. unfold mbind at 1, prog_bind at 1. cbn [fst snd]. fold v0.
    rewrite (bind_ok _ _ _ _ _ E1), (bind_ok _ _ _ _ _ E2).
    rewrite (bind_ok _ _ _ _ _ (get_page_ok _ _ _ _ (hi_page _ _ _ _ _ Hq2))).
    rewrite (hi_addr _ _ _ _ _ Hq2), (bind_ok _ _ _ _ _ E3).
    apply (upd_page_ok v2 d3 ep q1 page_clear). apply Hq2.
  - exists p2. split; [|exact Hh2]. by eapply has_items_other; [exact Hp2| |exact Hep|exact S3].
  - exists (page_clear q1). split; [apply lookup_insert_eq|apply (hi_addr _ _ _ _ _ Hq2)|done| |done].
    cbn [page_clear header]. by rewrite Hi3, classify_blank.
  - done.
  - done.
  - done.
  - intros b r its Hb1 Hb2 Hb. eapply has_items_other; [|by apply not_eq_sym|exact Hep|exact S3].
    eapply has_items_other; [|by apply not_eq_sym|exact Ha|exact S2].
    eapply has_items_other; [|by apply not_eq_sym|exact Hep|exact S1]. by apply has_items_lists.
Qed.
End reclaim.
