(* ===== verification/NvdsStore.v ===== *)
(** * The key-value store as a finite map

    [store n v d pgs]: the used pages of the environment [v] hold, in RAM and on
    the device [d], the items of [pgs], oldest page first, with sequence numbers
    up to [n].  [holds pgs m]: the live items of these pages are exactly the
    elements of the finite map [m] from (namespace index, key) to values.  The
    theorems say what finding, reading, comparing, deleting and putting an
    element do to [m]. *)
From Stdlib Require Import Sorted.
From S2P Require Import Prelude Prog Crc Flash NvdsFormat Nvds NvdsPage NvdsOps NvdsReclaim.

Record pg := Pg { pg_addr : Z; pg_seq : Z; pg_items : list item }.

Abbreviation emap := (gmap (Z * bytes) bytes).

Definition live_items (pgs : list pg) : list item := lives (mjoin (pg_items <$> pgs)).

Definition elem_of_kv (kv : (Z * bytes) * bytes) : item := elem kv.1.1 kv.1.2 kv.2.

Definition kv_ok (k : Z * bytes) (v : bytes) : Prop := is_u8 k.1 /\ key_ok k.2 /\ value_ok v.

Record holds (pgs : list pg) (m : emap) : Prop := Holds {
  ho_items : live_items pgs ≡ₚ elem_of_kv <$> map_to_list m;
  ho_ok : map_Forall kv_ok m }.

(** ** Pure facts *)
Lemma elem_ns ns k v : i_ns (elem ns k v) = ns.
Proof. unfold elem. by destruct (_ <? _). Qed.

Lemma elem_key ns k v : i_key (elem ns k v) = k.
Proof. unfold elem. by destruct (_ <? _). Qed.

Lemma elem_len ns k v : i_len (elem ns k v) = Z.of_nat (length v).
Proof. unfold elem. by destruct (_ <? _). Qed.

Lemma elem_inj ns k v w : elem ns k v = elem ns k w -> v = w.
Proof.
  intros E. assert (El : length v = length w) by (pose proof (f_equal i_len E) as H; rewrite !elem_len in H; lia).
  revert E. unfold elem. rewrite <- El. destruct (_ <? _).
  - intros H%(f_equal i_body). cbn [i_body] in H. by apply app_inv_tail in H.
  - intros H%(f_equal i_val). cbn [i_val] in H. unfold small_value in H. rewrite <- El in H. by apply app_inv_tail in H.
Qed.

Lemma live_items_app l k : live_items (l ++ k) = live_items l ++ live_items k.
Proof. unfold live_items. by rewrite fmap_app, join_app, lives_app. Qed.

Lemma live_items_cons g l : live_items (g :: l) = lives (pg_items g) ++ live_items l.
Proof. unfold live_items. rewrite fmap_cons. apply lives_app. Qed.

Lemma live_items_mid A g B :
  live_items (A ++ g :: B) = live_items A ++ lives (pg_items g) ++ live_items B.
Proof. by rewrite live_items_app, live_items_cons. Qed.

Lemma live_split A a s pre it post B :
  i_live it = true ->
  live_items (A ++ Pg a s (pre ++ it :: post) :: B) ≡ₚ
    it :: live_items (A ++ Pg a s (pre ++ kill it :: post) :: B).
Proof.
  intros H. rewrite !live_items_mid. cbn [pg_items]. rewrite !lives_app.
  rewrite filter_cons_True by by rewrite H. rewrite (filter_cons_False _ (kill it)) by (simpl; tauto).
  rewrite <- !app_assoc. cbn [app].
  rewrite (Permutation_app_comm (live_items A)). rewrite <- !app_assoc. cbn [app].
  rewrite <- Permutation_middle. rewrite (app_assoc (lives pre)), (Permutation_app_comm (live_items A)).
  by rewrite <- !app_assoc.
Qed.

Section finding.
Implicit Types (P : item -> bool) (its : list item) (pgs : list pg).

Lemma first_match_some P i its j :
  first_match P i its = Some j ->
  exists pre it post, its = pre ++ it :: post /\ j = i + sum_n pre /\ i_live it = true /\ P it = true.
Proof.
  revert i. induction its as [|it its IH]; intros i H; [done|]. cbn [first_match] in H.
  destruct (i_live it && P it) eqn:E.
  - injection H as <-. apply andb_true_iff in E as [E1 E2]. exists [], it, its. simpl. split_and!; done || lia.
  - apply IH in H as (pre & it' & post & -> & -> & H1 & H2). exists (it :: pre), it', post. simpl. split_and!; done || lia.
Qed.

Lemma first_match_none P i its :
  first_match P i its = None -> forall it, it ∈ lives its -> P it = false.
Proof.
  revert i. induction its as [|it its IH]; intros i H x Hx; [by apply elem_of_nil in Hx|].
  cbn [first_match] in H. destruct (i_live it && P it) eqn:E; [done|].
  apply list_elem_of_filter in Hx as [Hl [->|Hx]%elem_of_cons].
  - apply Is_true_true in Hl. rewrite Hl in E. done.
  - apply (IH _ H). by apply list_elem_of_filter.
Qed.

(** The first live match, page by page. *)
Fixpoint find_store P pgs : option (Z * Z) :=
  match pgs with
  | [] => None
  | g :: pgs =>
      match first_match P 0 (pg_items g) with
      | Some i => Some (pg_addr g, i)
      | None => find_store P pgs
      end
  end.

Lemma find_store_some P pgs a i :
  find_store P pgs = Some (a, i) ->
  exists A s pre it post B, pgs = A ++ Pg a s (pre ++ it :: post) :: B /\ i = sum_n pre /\
    i_live it = true /\ P it = true.
Proof.
  induction pgs as [|[b s its] pgs IH]; intros H; [done|]. cbn [find_store pg_items pg_addr] in H.
  destruct (first_match P 0 its) as [j|] eqn:E.
  - injection H as <- <-. apply first_match_some in E as (pre & it & post & -> & -> & H1 & H2).
    by exists [], s, pre, it, post, pgs.
  - apply IH in H as (A & s' & pre & it & post & B & -> & H). by exists (Pg b s its :: A), s', pre, it, post, B.
Qed.

Lemma find_store_none P pgs : find_store P pgs = None -> forall it, it ∈ live_items pgs -> P it = false.
Proof.
  induction pgs as [|g pgs IH]; intros H it Hit; [by apply elem_of_nil in Hit|]. cbn [find_store] in H.
  destruct (first_match P 0 (pg_items g)) eqn:E; [done|].
  rewrite live_items_cons in Hit. apply elem_of_app in Hit as [Hit|Hit].
  - by eapply first_match_none.
  - by apply IH.
Qed.

Lemma live_in A a s pre it post B :
  i_live it = true -> it ∈ live_items (A ++ Pg a s (pre ++ it :: post) :: B).
Proof. intros H. rewrite (live_split A a s pre it post B H). by left. Qed.

Lemma holds_in pgs m it : holds pgs m -> it ∈ live_items pgs ->
  exists v, m !! (i_ns it, i_key it) = Some v /\ it = elem (i_ns it) (i_key it) v /\ value_ok v.
Proof.
  intros H Hit. rewrite (ho_items _ _ H) in Hit. apply list_elem_of_fmap in Hit as ([[ns k] v] & -> & Hin).
  apply elem_of_map_to_list in Hin. exists v. unfold elem_of_kv. cbn [fst snd].
  rewrite elem_ns, elem_key. split_and!; [done|done|]. by apply (ho_ok _ _ H) in Hin as (_ & _ & ?).
Qed.

(** What a search by key finds. *)
Lemma holds_find pgs m ns key :
  holds pgs m ->
  match m !! (ns, key) with
  | Some v => exists A a s pre post B, pgs = A ++ Pg a s (pre ++ elem ns key v :: post) :: B /\
      find_store (matches ns key ELEMENT_ANY) pgs = Some (a, sum_n pre) /\ value_ok v
  | None => find_store (matches ns key ELEMENT_ANY) pgs = None
  end.
Proof.
  intros H. destruct (find_store (matches ns key ELEMENT_ANY) pgs) as [[a i]|] eqn:E.
  - apply find_store_some in E as (A & s & pre & it & post & B & -> & -> & Hl & Hm).
    unfold matches in Hm. rewrite !andb_true_iff, Z.eqb_eq, bool_decide_eq_true in Hm. destruct Hm as [[-> ->] _].
    destruct (holds_in _ _ it H) as (v & Ev & Eit & Hv); [by apply live_in|].
    rewrite Ev. exists A, a, s, pre, post, B. by rewrite <- Eit.
  - destruct (m !! (ns, key)) as [v|] eqn:Em; [|done]. exfalso.
    assert (Hin : elem ns key v ∈ live_items pgs).
    { rewrite (ho_items _ _ H). apply list_elem_of_fmap. exists ((ns, key), v). split; [done|]. by apply elem_of_map_to_list. }
    pose proof (find_store_none _ _ E _ Hin) as Hf. unfold matches in Hf.
    by rewrite elem_ns, elem_key, Z.eqb_refl, bool_decide_true in Hf.
Qed.

Lemma holds_delete A a s pre ns key v post B m :
  holds (A ++ Pg a s (pre ++ elem ns key v :: post) :: B) m -> m !! (ns, key) = Some v ->
  holds (A ++ Pg a s (pre ++ kill (elem ns key v) :: post) :: B) (delete (ns, key) m).
Proof.
  intros [Hi Hok] Hm. split.
  - rewrite live_split in Hi by apply elem_live.
    rewrite <- (map_to_list_delete m (ns, key) v Hm) in Hi. simpl in Hi. by apply Permutation_cons_inv in Hi.
  - by apply map_Forall_delete.
Qed.

Lemma holds_insert pgs pgs' ns key v m :
  holds pgs m -> m !! (ns, key) = None -> kv_ok (ns, key) v ->
  live_items pgs' ≡ₚ elem ns key v :: live_items pgs -> holds pgs' (<[(ns, key) := v]> m).
Proof.
  intros [Hi Hok] Hm Hkv E. split.
  - rewrite E, Hi, map_to_list_insert by done. done.
  - by apply map_Forall_insert_2.
Qed.

Lemma holds_perm pgs pgs' m : live_items pgs' ≡ₚ live_items pgs -> holds pgs m -> holds pgs' m.
Proof. intros E [Hi Hok]. split; [by rewrite E|done]. Qed.
End finding.

Section store.
Context {D : Type} `{FD : !FlashDev D} `{ST : !Storage D}.
Abbreviation base := (@st_base D FD ST).
Abbreviation len := (@st_len D FD ST).
Implicit Types (d : D) (a n : Z) (v : nvds_env) (p : page_env) (its pre post : list item) (g : pg)
  (pgs A B : list pg) (m : emap).

(** A used page: active or full, with the header it was initialised with. *)
Definition page_in v d g : Prop :=
  exists p st, has_items v d (pg_addr g) p (pg_items g) /\
    header p = set_h_state st (fresh_header (pg_seq g)) /\ (st = PAGE_ACTIVE \/ st = PAGE_FULL).

Record seqs_ok n (l : list Z) : Prop := SeqsOk {
  sq_sorted : StronglySorted Z.lt l;
  sq_range : Forall (fun s => 0 <= s <= n) l }.

Record core n v d pgs : Prop := Core {
  so_located : located v;
  so_used : nvds_page_used v = pg_addr <$> pgs;
  so_pages : Forall (page_in v d) pgs;
  so_free : Forall (fun a => exists p, free_page v d a p) (nvds_page_free v);
  so_nodup : NoDup (nvds_page_free v ++ nvds_page_used v);
  so_some : pgs <> [];
  so_seqs : seqs_ok n (pg_seq <$> pgs);
  so_width : n < 2 ^ 31 }.

(** Outside [new_page_request] one page at least is free. *)
Record store n v d pgs : Prop := Store {
  so_core :> core n v d pgs;
  so_spare : nvds_page_free v <> [] }.

(** The namespace list and bitmap are not concerned. *)
Definition same_ns v v' : Prop := ns_list v' = ns_list v /\ ns_states v' = ns_states v.

(** Everything but the pages in RAM. *)
Definition same_lists v v' : Prop :=
  same_ns v v' /\ nvds_page_free v' = nvds_page_free v /\ nvds_page_used v' = nvds_page_used v.

Lemma store_mid n v d A g B : core n v d (A ++ g :: B) -> page_in v d g.
Proof. intros H. pose proof (so_pages _ _ _ _ H) as Hp. by apply Forall_app in Hp as [_ [Hp _]%Forall_cons]. Qed.

Lemma page_in_at v d g : page_in v d g -> page_at len (pg_addr g).
Proof. intros (p & st & Hi & _). rewrite <- (hi_addr _ _ _ _ _ Hi). apply (pi_raw _ _ _ (hi_items _ _ _ _ _ Hi)). Qed.

Lemma page_in_frame v d d' a p g :
  page_at len a -> a <> pg_addr g -> same_except base a d d' -> page_in v d g -> page_in (upd v a p) d' g.
Proof.
  intros Ha Hne Hs (q & st & [Hl Hp Hb Hi] & Hh). exists q, st. split; [|done].
  split; [done|by unfold upd; simpl; rewrite lookup_insert_ne|done|].
  eapply page_items_frame; [exact Ha|by rewrite Hb|exact Hs|exact Hi].
Qed.

Lemma free_page_frame v d d' a p b q :
  page_at len a -> a <> b -> same_except base a d d' -> free_page v d b q -> free_page (upd v a p) d' b q.
Proof.
  intros Ha Hne Hs [Hp Hb Hat Hh Hu]. split; [by unfold upd; simpl; rewrite lookup_insert_ne|done|done| |done].
  by rewrite (image_other a b d d').
Qed.

(** Replacing the items of one page. *)
Lemma core_page n v d A a s its B p' d' its' st :
  core n v d (A ++ Pg a s its :: B) -> has_items (upd v a p') d' a p' its' ->
  header p' = set_h_state st (fresh_header s) -> (st = PAGE_ACTIVE \/ st = PAGE_FULL) ->
  same_except base a d d' -> core n (upd v a p') d' (A ++ Pg a s its' :: B).
Proof.
  intros H Hi Hh Hst Hse. pose proof (page_in_at _ _ _ (store_mid _ _ _ _ _ _ H)) as Ha. cbn [pg_addr] in Ha.
  destruct H as [Hl Hu Hp Hf Hn H1 [Hs1 Hs2] Hw].
  assert (Hnd : a ∉ pg_addr <$> A ++ B /\ a ∉ nvds_page_free v).
  { rewrite Hu in Hn. rewrite !fmap_app, fmap_cons in *. cbn [pg_addr] in Hn.
    apply NoDup_app in Hn as (_ & Hd & Hn). apply NoDup_app in Hn as (_ & Hd2 & Hn).
    apply NoDup_cons in Hn as [Hn _]. set_solver. }
  destruct Hnd as [Hnd1 Hnd2]. rewrite fmap_app, fmap_cons in Hs1, Hs2, Hu. cbn [pg_seq pg_addr] in *.
  split; try done.
  - by rewrite fmap_app, fmap_cons.
  - apply Forall_app in Hp as [HA [Hg HB]%Forall_cons]. rewrite fmap_app, not_elem_of_app in Hnd1.
    destruct Hnd1 as [HnA HnB]. apply Forall_app. split; [|constructor].
    + rewrite Forall_forall in HA |- *. intros g Hg'. apply page_in_frame with d; [done| |done|by apply HA].
      intros ->. apply HnA. by apply list_elem_of_fmap_2.
    + by exists p', st.
    + rewrite Forall_forall in HB |- *. intros g Hg'. apply page_in_frame with d; [done| |done|by apply HB].
      intros ->. apply HnB. by apply list_elem_of_fmap_2.
  - rewrite Forall_forall in Hf |- *. intros b Hb. destruct (Hf b Hb) as [q Hq]. exists q.
    eapply free_page_frame; [done| |done|done]. by intros ->.
  - by destruct A.
  - by rewrite fmap_app, fmap_cons.
Qed.

Lemma store_page n v d A a s its B p' d' its' st :
  store n v d (A ++ Pg a s its :: B) -> has_items (upd v a p') d' a p' its' ->
  header p' = set_h_state st (fresh_header s) -> (st = PAGE_ACTIVE \/ st = PAGE_FULL) ->
  same_except base a d d' -> store n (upd v a p') d' (A ++ Pg a s its' :: B).
Proof. intros [H Hs] Hi Hh Hst Hse. split; [by eapply core_page|exact Hs]. Qed.

(** ** Searching *)
Lemma page_in_readable p st s :
  header p = set_h_state st (fresh_header s) -> (st = PAGE_ACTIVE \/ st = PAGE_FULL) -> page_readable p = true.
Proof. intros Hh Hst. unfold page_readable. rewrite Hh. cbn [set_h_state h_state]. by destruct Hst as [-> | ->]. Qed.

Lemma find_pages_ok v d pgs ns key type :
  Forall (page_in v d) pgs -> key_ok key ->
  find_pages (pg_addr <$> pgs) ns key 0 type (v, d) =
    (match find_store (matches ns key type) pgs with Some r => Ok r | None => Err NVDS_E_NOT_FOUND end, (v, d)).
Proof.
  intros H Hk. induction H as [|g pgs (p & st & Hi & Hh & Hst) _ IH]; [done|].
  rewrite fmap_cons. cbn [find_pages find_store].
  rewrite (bind_ok _ _ _ _ _ (get_page_ok _ _ _ _ (hi_page _ _ _ _ _ Hi))).
  rewrite (page_in_readable _ _ _ Hh Hst). cbn [negb].
  pose proof (hi_items _ _ _ _ _ Hi) as Hpi.
  assert (Hlen : (length (pg_items g) < WALK_FUEL)%nat).
  { pose proof (length_items _ (pi_ok _ _ _ Hpi)). pose proof (items_bound _ _ _ Hpi).
    unfold WALK_FUEL, ENTRY_COUNT_PER_PAGE in *. lia. }
  pose proof (find_entry_ok _ _ _ _ _ [] (pg_items g) _ ns key type Hi eq_refl Hk Hlen) as E.
  cbn [sum_n foldr] in E. rewrite (bind_ok _ _ _ _ _ E).
  destruct (first_match _ 0 (pg_items g)); [done|]. exact IH.
Qed.

Lemma element_find_ok n v d pgs ns key type :
  store n v d pgs -> key_ok key ->
  element_find ns key None 0 type (v, d) =
    (match find_store (matches ns key type) pgs with Some r => Ok r | None => Err NVDS_E_NOT_FOUND end, (v, d)).
Proof.
  intros H Hk. unfold element_find. change (get_env (v, d)) with (@Ok nvds_env v, (v, d)).
  unfold mbind at 1, prog_bind, get_env. cbn [fst option_bind mbind default].
  rewrite (so_used _ _ _ _ H). apply find_pages_ok; [apply H|done].
Qed.

(** The situation of a stored element: its page, its items, what a read of its
    header gives. *)
Lemma located_element n v d pgs m ns key val :
  store n v d pgs -> holds pgs m -> key_ok key -> m !! (ns, key) = Some val ->
  exists A a s p pre post B,
    pgs = A ++ Pg a s (pre ++ elem ns key val :: post) :: B /\
    element_find ns key None 0 ELEMENT_ANY (v, d) = (Ok (a, sum_n pre), (v, d)) /\
    has_items v d a p (pre ++ elem ns key val :: post) /\
    item_at (pre ++ elem ns key val :: post) pre (elem ns key val) post /\
    value_ok val /\
    (exists st, header p = set_h_state st (fresh_header s) /\ (st = PAGE_ACTIVE \/ st = PAGE_FULL)).
Proof.
  intros H Hh Hk Hm. pose proof (holds_find pgs m ns key Hh) as Hf. rewrite Hm in Hf.
  destruct Hf as (A & a & s & pre & post & B & E & Hfs & Hv).
  pose proof (element_find_ok _ _ _ _ ns key ELEMENT_ANY H Hk) as Ef. rewrite Hfs in Ef.
  rewrite E in H. destruct (store_mid _ _ _ _ _ _ H) as (p & st & Hi & Hhd). cbn [pg_addr pg_items] in Hi.
  exists A, a, s, p, pre, post, B. split_and!; [done|done|exact Hi| |exact Hv|by exists st].
  by eapply has_item_at.
Qed.

Lemma absent_element n v d pgs m ns key :
  store n v d pgs -> holds pgs m -> key_ok key -> m !! (ns, key) = None ->
  element_find ns key None 0 ELEMENT_ANY (v, d) = (Err NVDS_E_NOT_FOUND, (v, d)).
Proof.
  intros H Hh Hk Hm. pose proof (holds_find pgs m ns key Hh) as Hf. rewrite Hm in Hf.
  rewrite (element_find_ok _ _ _ _ _ _ _ H Hk). by rewrite Hf.
Qed.

(** [data_element_find] answers membership. *)
Lemma data_element_find_ok n v d pgs m ns key :
  store n v d pgs -> holds pgs m -> key_ok key ->
  data_element_find ns key (v, d) =
    (if decide (is_Some (m !! (ns, key))) then Ok tt else Err NVDS_E_NOT_FOUND, (v, d)).
Proof.
  intros H Hh Hk. unfold data_element_find. destruct (m !! (ns, key)) as [val|] eqn:Em.
  - destruct (located_element _ _ _ _ _ _ _ _ H Hh Hk Em) as (A & a & s & p & pre & post & B & _ & E & _).
    by rewrite (bind_ok _ _ _ _ _ E).
  - by rewrite (bind_err _ _ _ _ _ (absent_element _ _ _ _ _ _ _ H Hh Hk Em)).
Qed.

(** ** The data of a stored element *)
Section element_data.
Context (ns : Z) (key val : bytes) (Hv : value_ok val).
Abbreviation it := (elem ns key val).

Lemma elem_body_take : ELEMENT_SMALL_MAX_SIZE < Z.of_nat (length val) -> take (length val) (i_body it) = val.
Proof.
  intros H. unfold elem. rewrite (proj2 (Z.ltb_lt _ _)) by done. cbn [i_body]. by rewrite take_app_length.
Qed.

Lemma elem_value_take : Z.of_nat (length val) <= ELEMENT_SMALL_MAX_SIZE -> take (length val) (i_val it) = val.
Proof.
  intros H. unfold elem. rewrite (proj2 (Z.ltb_ge _ _)) by done. cbn [i_val]. unfold small_value. by rewrite take_app_length.
Qed.

Lemma elem_cnt_middle :
  ELEMENT_SMALL_MAX_SIZE < Z.of_nat (length val) ->
  i_type it = ELEMENT_MIDDLE /\ i_cnt it = entries_for (Z.of_nat (length val)).
Proof. intros H. unfold elem. by rewrite (proj2 (Z.ltb_lt _ _)) by done. Qed.

Lemma elem_cnt_small :
  Z.of_nat (length val) <= ELEMENT_SMALL_MAX_SIZE -> i_type it = ELEMENT_SMALL /\ i_cnt it = 0.
Proof. intros H. unfold elem. by rewrite (proj2 (Z.ltb_ge _ _)) by done. Qed.

Lemma elem_datacrc :
  item_ok it -> ELEMENT_SMALL_MAX_SIZE < Z.of_nat (length val) -> datacrc32 (i_head it) = element_data_crc32_calc val.
Proof.
  intros Hit H. apply info_value_read; [|apply (i_head_fields it Hit)|].
  - unfold element_data_crc32_calc. apply crc32_u32; [apply Hv|word_lia].
  - rewrite (sf_value _ _ _ _ _ _ _ (i_head_fields it Hit)). unfold elem. by rewrite (proj2 (Z.ltb_lt _ _)) by done.
Qed.

Context (v : nvds_env) (d : D) (a : Z) (p : page_env) (pre post : list item).
Hypotheses (H : has_items v d a p (pre ++ it :: post)) (Hat : item_at (pre ++ it :: post) pre it post).

Lemma elem_bounds :
  ELEMENT_SMALL_MAX_SIZE < Z.of_nat (length val) ->
  0 <= sum_n pre /\ sum_n pre + entries_for (Z.of_nat (length val)) < 126 /\
  Z.of_nat (length val) <= 32 * entries_for (Z.of_nat (length val)) /\ entries_for (Z.of_nat (length val)) < 9.
Proof.
  intros Hm. destruct (elem_cnt_middle Hm) as [_ Hc]. destruct Hat as [_ _ _ _ H0 _ Hf Hp0].
  unfold i_n in Hf. rewrite Hc in Hf. destruct Hv as [_ Hl].
  pose proof (entries_for_bound (Z.of_nat (length val)) ltac:(lia)).
  unfold ENTRY_COUNT_PER_PAGE, ELEMENT_MIDDLE_MAX_SIZE in *. lia.
Qed.

Lemma read_middle :
  ELEMENT_SMALL_MAX_SIZE < Z.of_nat (length val) ->
  read_entries BYTE_FUEL a (u8 (sum_n pre + 1)) (u8 (sum_n pre + entries_for (Z.of_nat (length val))))
    (Z.of_nat (length val)) (v, d) = (Ok val, (v, d)).
Proof.
  intros Hm. destruct (elem_cnt_middle Hm) as [_ Hc]. pose proof (elem_bounds Hm).
  rewrite !u8_small by (unfold in_width; lia).
  replace (sum_n pre + 1) with (sum_n pre + 1 + Z.of_nat 0) by lia. rewrite <- Hc.
  rewrite (read_entries_ok _ _ _ _ _ _ _ _ BYTE_FUEL 0 _ H Hat) by (rewrite ?Hc; unfold BYTE_FUEL; lia).
  rewrite Nat.mul_0_r, drop_0, Nat2Z.id. by rewrite elem_body_take.
Qed.

Lemma compare_middle buf :
  ELEMENT_SMALL_MAX_SIZE < Z.of_nat (length val) -> length buf = length val ->
  compare_entries BYTE_FUEL a (u8 (sum_n pre + 1)) (u8 (sum_n pre + entries_for (Z.of_nat (length val))))
    (Z.of_nat (length val)) buf (v, d) = (Ok (bool_decide (buf = val)), (v, d)).
Proof.
  intros Hm Hlen. destruct (elem_cnt_middle Hm) as [_ Hc]. pose proof (elem_bounds Hm).
  rewrite !u8_small by (unfold in_width; lia).
  replace (sum_n pre + 1) with (sum_n pre + 1 + Z.of_nat 0) by lia. rewrite <- Hc.
  rewrite (compare_entries_ok _ _ _ _ _ _ _ _ BYTE_FUEL 0 _ buf H Hat) by (rewrite ?Hc; unfold BYTE_FUEL; lia).
  rewrite Nat.mul_0_r, drop_0, Nat2Z.id. by rewrite elem_body_take.
Qed.
End element_data.

(** What [data_element_get] answers for value [val] and capacity [cap]. *)
Definition get_answer (val : bytes) (cap : option Z) : get_out :=
  match cap with
  | None => GetOut NVDS_OK (Z.of_nat (length val)) []
  | Some c =>
      if c <? Z.of_nat (length val) then GetOut NVDS_E_INVALID_LENGTH (Z.of_nat (length val)) []
      else GetOut NVDS_OK (Z.of_nat (length val)) val
  end.

Lemma data_element_get_ok n v d pgs m ns key cap :
  store n v d pgs -> holds pgs m -> key_ok key ->
  data_element_get ns key cap (v, d) =
    (match m !! (ns, key) with Some val => Ok (get_answer val cap) | None => Err NVDS_E_NOT_FOUND end, (v, d)).
Proof.
  intros H Hh Hk. unfold data_element_get. destruct (m !! (ns, key)) as [val|] eqn:Em; [|
    by rewrite (bind_err _ _ _ _ _ (absent_element _ _ _ _ _ _ _ H Hh Hk Em))].
  destruct (located_element _ _ _ _ _ _ _ _ H Hh Hk Em) as (A & a & s & p & pre & post & B & _ & Ef & Hi & Hat & Hv & _).
  pose proof (ia_it _ _ _ _ Hat) as Hit.
  rewrite (bind_ok _ _ _ _ _ Ef), (bind_ok _ _ _ _ _ (read_head _ _ _ _ _ _ _ _ Hi Hat)). cbv zeta.
  rewrite (entry_type_head _ Hit), (entry_len_head _ Hit), elem_len. unfold get_answer.
  destruct (Z.lt_ge_cases ELEMENT_SMALL_MAX_SIZE (Z.of_nat (length val))) as [Hm|Hs].
  - destruct (elem_cnt_middle ns key val Hm) as [-> _]. cbn [Z.eqb orb ELEMENT_MIDDLE ELEMENT_BULK ELEMENT_BULKINFO ELEMENT_SMALL Pos.eqb].
    destruct cap as [c|]; [|done]. destruct (c <? _); [done|].
    rewrite (bind_ok _ _ _ _ _ (read_middle ns key val Hv _ _ _ _ _ _ Hi Hat Hm)).
    rewrite (elem_datacrc ns key val Hv Hit Hm), Z.eqb_refl. done.
  - destruct (elem_cnt_small ns key val Hs) as [-> _]. cbn [Z.eqb orb ELEMENT_MIDDLE ELEMENT_BULK ELEMENT_BULKINFO ELEMENT_SMALL].
    destruct cap as [c|]; [|done]. destruct (c <? _); [done|].
    rewrite (sf_value _ _ _ _ _ _ _ (i_head_fields _ Hit)), Nat2Z.id, (elem_value_take ns key val Hs). done.
Qed.

(** [element_compare] tells whether the key already holds this very value. *)
Lemma element_compare_ok n v d pgs m ns key buf :
  store n v d pgs -> holds pgs m -> key_ok key ->
  element_compare ns key buf (v, d) = (Ok (bool_decide (m !! (ns, key) = Some buf)), (v, d)).
Proof.
  intros H Hh Hk. unfold element_compare, or_else.
  pose proof (data_element_get_ok _ _ _ _ _ ns key None H Hh Hk) as Eg.
  destruct (m !! (ns, key)) as [val|] eqn:Em; [|by rewrite (bind_err _ _ _ _ _ Eg)].
  rewrite (bind_ok _ _ _ _ _ Eg). cbn [get_answer g_ret g_size]. rewrite Z.eqb_refl. cbn [negb orb].
  destruct (Z.eqb_spec (Z.of_nat (length val)) (Z.of_nat (length buf))) as [El|El]; cbn [negb]; cycle 1.
  { rewrite bool_decide_false; [done|]. by intros [= ->]. }
  destruct (located_element _ _ _ _ _ _ _ _ H Hh Hk Em) as (A & a & s & p & pre & post & B & _ & Ef & Hi & Hat & Hv & _).
  pose proof (ia_it _ _ _ _ Hat) as Hit.
  rewrite (bind_ok _ _ _ _ _ Ef), (bind_ok _ _ _ _ _ (read_head _ _ _ _ _ _ _ _ Hi Hat)). cbv zeta.
  rewrite (entry_type_head _ Hit), (entry_len_head _ Hit), elem_len, El, Z.eqb_refl. cbn [negb].
  assert (Es : bool_decide (Some val = Some buf) = bool_decide (buf = val)) by (apply bool_decide_ext; naive_solver).
  rewrite Es. destruct (Z.lt_ge_cases ELEMENT_SMALL_MAX_SIZE (Z.of_nat (length val))) as [Hm|Hs].
  - destruct (elem_cnt_middle ns key val Hm) as [-> _]. cbn [Z.eqb orb ELEMENT_MIDDLE ELEMENT_SMALL Pos.eqb].
    rewrite <- El, (compare_middle ns key val Hv _ _ _ _ _ _ Hi Hat) by (done || lia). done.
  - destruct (elem_cnt_small ns key val Hs) as [-> _]. cbn [Z.eqb ELEMENT_SMALL].
    rewrite <- El, (sf_value _ _ _ _ _ _ _ (i_head_fields _ Hit)), Nat2Z.id, (elem_value_take ns key val Hs). done.
Qed.

(** ** Deleting *)

(** The same pages with, perhaps, more dead items. *)
Definition killed (x y : item) : Prop := y = x \/ y = kill x.
Record lesser (g g' : pg) : Prop := Lesser {
  le_addr : pg_addr g' = pg_addr g;
  le_items : Forall2 killed (pg_items g) (pg_items g') }.

Lemma killed_refl its : Forall2 killed its its.
Proof. induction its; constructor; [by left|done]. Qed.

Lemma lesser_refl pgs : Forall2 lesser pgs pgs.
Proof. induction pgs; constructor; [split; [done|apply killed_refl]|done]. Qed.

Lemma lesser_mid A a s pre it post B :
  Forall2 lesser (A ++ Pg a s (pre ++ it :: post) :: B) (A ++ Pg a s (pre ++ kill it :: post) :: B).
Proof.
  apply Forall2_app; [apply lesser_refl|]. constructor; [|apply lesser_refl]. split; [done|].
  apply Forall2_app; [apply killed_refl|]. constructor; [by right|apply killed_refl].
Qed.

(** Retiring the element behind [pre] on page [a]. *)
Lemma retire_store n v d A a s pre ns key val post B m :
  store n v d (A ++ Pg a s (pre ++ elem ns key val :: post) :: B) ->
  holds (A ++ Pg a s (pre ++ elem ns key val :: post) :: B) m ->
  exists v' d', retire a (sum_n pre) (i_cnt (elem ns key val)) (v, d) = (Ok tt, (v', d')) /\
    store n v' d' (A ++ Pg a s (pre ++ kill (elem ns key val) :: post) :: B) /\
    holds (A ++ Pg a s (pre ++ kill (elem ns key val) :: post) :: B) (delete (ns, key) m) /\ same_lists v v'.
Proof.
  intros H Hh. destruct (store_mid _ _ _ _ _ _ H) as (p & st & Hi & Hhd & Hst). cbn [pg_addr pg_items pg_seq] in Hi, Hhd.
  destruct (retire_ok _ _ _ _ _ _ _ _ Hi (item_at_intro _ _ _ _ _ _ (hi_items _ _ _ _ _ Hi) eq_refl) (elem_live _ _ _))
    as (p' & d' & Er & Hi' & Hse & Hhp).
  exists (upd v a p'), d'. split_and!; [exact Er| | |done].
  - eapply store_page; [exact H|exact Hi'|by rewrite Hhp|exact Hst|exact Hse].
  - apply holds_delete; [done|]. destruct (holds_in _ _ _ Hh (live_in A a s pre _ post B (elem_live ns key val))) as (w & Em & Ew & _).
    rewrite elem_ns, elem_key in Em, Ew. by rewrite Em, (elem_inj _ _ _ _ Ew).
Qed.

Lemma data_element_del_ok n v d pgs m ns key :
  store n v d pgs -> holds pgs m -> key_ok key ->
  match m !! (ns, key) with
  | None => data_element_del ns key (v, d) = (Err NVDS_E_NOT_FOUND, (v, d))
  | Some _ => exists v' d' pgs', data_element_del ns key (v, d) = (Ok tt, (v', d')) /\
      store n v' d' pgs' /\ holds pgs' (delete (ns, key) m) /\ same_lists v v' /\ Forall2 lesser pgs pgs'
  end.
Proof.
  intros H Hh Hk. unfold data_element_del. destruct (m !! (ns, key)) as [val|] eqn:Em; [|
    by rewrite (bind_err _ _ _ _ _ (absent_element _ _ _ _ _ _ _ H Hh Hk Em))].
  destruct (located_element _ _ _ _ _ _ _ _ H Hh Hk Em)
    as (A & a & s & p & pre & post & B & E & Ef & Hi & Hat & Hv & st & Hhd & Hst).
  pose proof (ia_it _ _ _ _ Hat) as Hit. rewrite E in H, Hh.
  destruct (retire_store _ _ _ _ _ _ _ _ _ _ _ _ _ H Hh) as (v' & d' & Er & H' & Hh' & Hl').
  exists v', d', (A ++ Pg a s (pre ++ kill (elem ns key val) :: post) :: B).
  split_and!; [|done|done|done|rewrite E; apply lesser_mid].
  rewrite (bind_ok _ _ _ _ _ Ef), (bind_ok _ _ _ _ _ (read_head _ _ _ _ _ _ _ _ Hi Hat)). cbv zeta.
  rewrite (entry_type_head _ Hit), (entry_len_head _ Hit), elem_len.
  destruct (Z.lt_ge_cases ELEMENT_SMALL_MAX_SIZE (Z.of_nat (length val))) as [Hm|Hs].
  - destruct (elem_cnt_middle ns key val Hm) as [-> Hc]. rewrite Hc in Er. exact Er.
  - destruct (elem_cnt_small ns key val Hs) as [-> Hc]. rewrite Hc in Er. exact Er.
Qed.
End store.
