(* ===== verification/NvdsPut.v ===== *)
(** * Putting an element: new pages, reclaiming, and the write

    [new_page_request] takes the first free page and, when it is the last one,
    reclaims the used page with the fewest live entries.  [data_element_put]
    either stores the value or answers [NVDS_E_NO_SPACE], and in that case the old
    value is gone; the second happens only when the live entries leave no room. *)
From Stdlib Require Import Sorted.
From S2P Require Import Prelude Prog Crc Flash NvdsFormat Nvds NvdsPage NvdsOps NvdsReclaim NvdsStore.

(** Live entries of a page, and entries that the elements of a map need. *)
Definition load (g : pg) : Z := sum_n (lives (pg_items g)).
Definition need (val : bytes) : Z := i_n (elem 0 [] val).
Definition space (m : emap) : Z := sum_n (elem_of_kv <$> map_to_list m).

(** [ns_del_used_cnt] with [del_flag] 0, on the namespace list. *)
Definition dec_ns (ns : Z) (l : list namespace_info) : list namespace_info :=
  if NAMESPACE_MAX_CNT <? ns then l
  else match find_ns (fun n => ns_index n =? ns) l with
       | None => l
       | Some (i, n) => <[i := Ns (ns_name n) (ns_index n) (u32 (used_cnt n - 1))]> l
       end.

(** ** Pure facts *)
Lemma need_elem ns key val : i_n (elem ns key val) = need val.
Proof. unfold need, elem. by destruct (_ <? _). Qed.

Lemma need_bounds val : value_ok val -> 1 <= need val <= 9.
Proof.
  intros [_ Hl]. unfold need, elem, i_n, i_cnt, ELEMENT_MIDDLE_MAX_SIZE in *.
  pose proof (entries_for_bound (Z.of_nat (length val)) ltac:(lia)).
  destruct (Z.ltb_spec ELEMENT_SMALL_MAX_SIZE (Z.of_nat (length val))); cbn [i_type i_len];
    change (has_data ELEMENT_MIDDLE) with true; change (has_data ELEMENT_SMALL) with false; cbv iota; lia.
Qed.

#[export] Instance sum_n_perm : Proper ((≡ₚ) ==> eq) sum_n.
Proof. induction 1; simpl; lia. Qed.

Lemma sum_n_live_items pgs : sum_n (live_items pgs) = foldr (fun g n => load g + n) 0 pgs.
Proof. induction pgs as [|g pgs IH]; [done|]. rewrite live_items_cons, sum_n_app, IH. done. Qed.

Lemma load_sum pgs c :
  Forall (fun g => c <= load g) pgs -> c * Z.of_nat (length pgs) <= sum_n (live_items pgs).
Proof.
  rewrite sum_n_live_items. induction 1 as [|g pgs Hg _ IH]; [simpl; lia|]. cbn [foldr length]. lia.
Qed.

Lemma holds_space pgs m : holds pgs m -> sum_n (live_items pgs) = space m.
Proof. intros [H _]. by rewrite H. Qed.

Lemma set_h_state_twice st st' h : set_h_state st (set_h_state st' h) = set_h_state st h.
Proof. by destruct h. Qed.

Lemma list_extract_mid a l k : a ∉ l -> list_extract a (l ++ a :: k) = l ++ k.
Proof.
  induction l as [|b l IH]; intros H; simpl; [by rewrite Z.eqb_refl|].
  destruct (Z.eqb_spec b a) as [->|]; [set_solver|]. rewrite IH by set_solver. done.
Qed.

Lemma sorted_drop (l k : list Z) x : StronglySorted Z.lt (l ++ x :: k) -> StronglySorted Z.lt (l ++ k).
Proof.
  induction l as [|y l IH]; simpl; intros H; apply StronglySorted_inv in H as [H1 H2]; [done|].
  constructor; [by apply IH|]. rewrite Forall_app, Forall_cons in H2. apply Forall_app. tauto.
Qed.

Lemma sorted_snoc (l : list Z) x : StronglySorted Z.lt l -> Forall (fun y => y < x) l -> StronglySorted Z.lt (l ++ [x]).
Proof.
  induction 1 as [|y l H IH Hy]; intros Hx; simpl; [by repeat constructor|].
  apply Forall_cons in Hx as [? Hx]. constructor; [by apply IH|]. by apply Forall_app; split; [|constructor].
Qed.

Lemma sorted_last (l : list Z) x : StronglySorted Z.lt (l ++ [x]) -> Forall (fun y => y < x + 1) (l ++ [x]).
Proof.
  induction l as [|y l IH]; simpl; intros H; apply StronglySorted_inv in H as [H1 H2].
  - constructor; [lia|constructor].
  - constructor; [|by apply IH]. apply Forall_app in H2 as [_ [H2 _]%Forall_cons]. lia.
Qed.

Lemma seqs_snoc n l s :
  seqs_ok n l -> Forall (fun y => y < s) l -> 0 <= s <= n + 1 -> seqs_ok (n + 1) (l ++ [s]).
Proof.
  intros [H1 H2] Hl Hs. split; [by apply sorted_snoc|]. apply Forall_app. split; [|by constructor].
  eapply Forall_impl; [exact H2|]. simpl. lia.
Qed.

Lemma seqs_drop n l x k : seqs_ok n (l ++ x :: k) -> seqs_ok n (l ++ k).
Proof.
  intros [H1 H2]. split; [by eapply sorted_drop|]. rewrite Forall_app, Forall_cons in H2. apply Forall_app. tauto.
Qed.

Section put.
Context {D : Type} `{FD : !FlashDev D} `{ST : !Storage D}.
Abbreviation base := (@st_base D FD ST).
Abbreviation len := (@st_len D FD ST).
Implicit Types (d : D) (a n : Z) (v : nvds_env) (p : page_env) (its pre post : list item) (g : pg)
  (pgs A B : list pg) (m : emap).

Lemma core_mono n n' v d pgs : n <= n' -> n' < 2 ^ 31 -> core n v d pgs -> core n' v d pgs.
Proof.
  intros Hn Hw []. split; try done. destruct so_seqs. split; [done|].
  eapply Forall_impl; [exact sq_range|]. simpl. lia.
Qed.

Lemma store_mono n n' v d pgs : n <= n' -> n' < 2 ^ 31 -> store n v d pgs -> store n' v d pgs.
Proof. intros Hn Hw [H1 H2]. split; [by eapply core_mono|done]. Qed.

Definition npages v : nat := length (nvds_page_free v) + length (nvds_page_used v).

(** ** Choosing the page to reclaim *)
Lemma min_used_ok v d pgs mn best :
  Forall (page_in v d) pgs ->
  exists r, min_used_page (pg_addr <$> pgs) mn best (v, d) = (Ok r, (v, d)) /\
    ((r = best /\ Forall (fun g => mn <= load g) pgs) \/
     (exists A g B, pgs = A ++ g :: B /\ r = Some (pg_addr g) /\ load g < mn /\ Forall (fun g' => load g <= load g') pgs)).
Proof.
  intros H. revert mn best. induction H as [|g pgs (p & st & Hi & _) _ IH]; intros mn best.
  { exists best. split; [done|]. left. by split. }
  rewrite fmap_cons. cbn [min_used_page].
  rewrite (bind_ok _ _ _ _ _ (get_page_ok _ _ _ _ (hi_page _ _ _ _ _ Hi))).
  rewrite (pi_used _ _ _ (hi_items _ _ _ _ _ Hi)). fold (load g).
  destruct (Z.ltb_spec (load g) mn) as [Hlt|Hge].
  - destruct (IH (load g) (Some (pg_addr g))) as (r & E & Hr). exists r. split; [exact E|]. right.
    destruct Hr as [[-> Hall]|(A & g' & B & -> & -> & Hl & Hall)].
    + exists [], g, pgs. split_and!; [done|done|lia|]. constructor; [lia|done].
    + exists (g :: A), g', B. split_and!; [done|done|lia|]. constructor; [lia|done].
  - destruct (IH mn best) as (r & E & Hr). exists r. split; [exact E|].
    destruct Hr as [[-> Hall]|(A & g' & B & -> & -> & Hl & Hall)].
    + left. split; [done|]. by constructor.
    + right. exists (g :: A), g', B. split_and!; [done|done|lia|]. constructor; [lia|done].
Qed.

(** ** Taking the first free page *)
Lemma page_in_upd v d d' a p g f u :
  page_at len a -> a <> pg_addr g -> same_except base a d d' -> page_in v d g ->
  page_in (with_lists f u (upd v a p)) d' g.
Proof.
  intros Ha Hne Hs Hg. destruct (page_in_frame _ _ _ _ p _ Ha Hne Hs Hg) as (q & st & Hi & Hh).
  exists q, st. split; [by apply has_items_lists|done].
Qed.

Lemma free_page_upd v d d' a p b q f u :
  page_at len a -> a <> b -> same_except base a d d' -> free_page v d b q ->
  free_page (with_lists f u (upd v a p)) d' b q.
Proof. intros Ha Hne Hs Hq. by destruct (free_page_frame _ _ _ _ p _ _ Ha Hne Hs Hq). Qed.

Lemma take_free_page n v d pgs a rest seqno :
  core n v d pgs -> nvds_page_free v = a :: rest -> Forall (fun y => y < seqno) (pg_seq <$> pgs) ->
  0 <= seqno <= n + 1 -> n + 1 < 2 ^ 31 ->
  exists p' d', init_page a seqno (v, d) = (Ok tt, (upd v a p', d')) /\
    header p' = fresh_header seqno /\ has_items (upd v a p') d' a p' [] /\
    core (n + 1) (with_lists rest (nvds_page_used v ++ [a]) (upd v a p')) d' (pgs ++ [Pg a seqno []]).
Proof.
  intros [Hl Hu Hp Hf Hn H1 Hs Hw] Ef Hseq Hr Hn1. rewrite Ef in Hf, Hn.
  apply Forall_cons in Hf as [[p0 Hp0] Hf]. pose proof (fp_at _ _ _ _ Hp0) as Ha.
  destruct (init_page_ok v d a p0 seqno Hl Hp0) as (p' & d' & E & Hi & Hh & Hse); [unfold in_width; lia|].
  exists p', d'. split_and!; [exact E|exact Hh|exact Hi|].
  rewrite Hu in Hn |- *. change ((a :: rest) ++ (pg_addr <$> pgs)) with (a :: (rest ++ (pg_addr <$> pgs))) in Hn.
  apply NoDup_cons in Hn as [Hna Hn]. rewrite not_elem_of_app in Hna. destruct Hna as [Hna1 Hna2].
  split; try done.
  - by rewrite fmap_app.
  - apply Forall_app. split; [|constructor; [|constructor]].
    + rewrite Forall_forall in Hp |- *. intros g Hg. apply page_in_upd with d; [done| |done|by apply Hp].
      intros ->. apply Hna2. by apply list_elem_of_fmap_2.
    + exists p', PAGE_ACTIVE. split; [by apply has_items_lists|]. cbn [pg_seq]. rewrite fresh_header_active. by split; [|left].
  - rewrite Forall_forall in Hf |- *. intros b Hb. cbn [with_lists nvds_page_free] in Hb. destruct (Hf b Hb) as [q Hq]. exists q.
    eapply free_page_upd; [done| |done|done]. by intros ->.
  - cbn [with_lists nvds_page_free nvds_page_used]. rewrite app_assoc.
    rewrite (Permutation_app_comm _ [a]). apply NoDup_cons. split; [|done]. rewrite not_elem_of_app. by split.
  - by destruct pgs.
  - rewrite fmap_app. by apply seqs_snoc.
Qed.

(** Reclaiming page [g] into the page [a] just taken. *)
Lemma reclaim_store n v d A g B a seqno p :
  core n v d ((A ++ g :: B) ++ [Pg a seqno []]) -> nvds_page_free v = [] ->
  has_items v d a p [] -> header p = fresh_header seqno ->
  exists v' d', reclaim (pg_addr g) a (v, d) = (Ok tt, (v', d')) /\
    store n v' d' ((A ++ B) ++ [Pg a seqno (lives (pg_items g))]) /\ same_ns v v' /\ npages v' = npages v.
Proof.
  intros [Hl Hu Hp Hf Hn H1 Hs Hw] Ef Hi Hh. rewrite Ef, Hu, app_nil_l in Hn.
  rewrite !fmap_app, fmap_cons in Hn, Hu, Hs. rewrite <- app_assoc in Hn, Hu. cbn [fmap list_fmap app pg_addr] in Hn, Hu.
  assert (Hdis : pg_addr g ∉ (pg_addr <$> A) ++ (pg_addr <$> B) ++ [a] /\ NoDup ((pg_addr <$> A) ++ (pg_addr <$> B) ++ [a])).
  { rewrite <- Permutation_middle in Hn. by apply NoDup_cons. }
  destruct Hdis as [Hg Hn']. rewrite !not_elem_of_app in Hg. destruct Hg as (HgA & HgB & Hga).
  assert (Hag : a <> pg_addr g) by (intros ->; apply Hga; by left).
  apply Forall_app in Hp as [Hp [Hpa _]%Forall_cons]. apply Forall_app in Hp as [HA [(q & st & Hq & Hhq & Hst) HB]%Forall_cons].
  destruct (reclaim_ok v d (pg_addr g) a p q (pg_items g) st (pg_seq g) Hq Hhq Hst Hi Hag)
    as (v' & d' & E & [(p' & Hp' & Hh') Hfree Efree Eused Ens Hothers]).
  assert (Hkeep : forall x, x ∈ A ++ B -> page_in v d x -> page_in v' d' x).
  { intros x Hx (r & str & Hr & Hhr). exists r, str. split; [|done].
    assert (Hin : pg_addr x ∈ (pg_addr <$> A) ++ (pg_addr <$> B)) by (rewrite <- fmap_app; by apply list_elem_of_fmap_2).
    apply Hothers; [|intros Ex; rewrite Ex in Hin; apply elem_of_app in Hin; tauto|done].
    intros Ex. rewrite Ex in Hin. rewrite app_assoc in Hn'. apply NoDup_app in Hn' as (_ & Hn' & _). apply (Hn' a Hin). by left. }
  assert (Eu : nvds_page_used v' = pg_addr <$> ((A ++ B) ++ [Pg a seqno (lives (pg_items g))])).
  { rewrite Eused, Hu, list_extract_mid by done. by rewrite !fmap_app, <- app_assoc. }
  exists v', d'. split; [exact E|]. split_and!; [|exact Ens|].
  - split; [|by rewrite Efree, Ef]. split.
    + apply Hp'.
    + exact Eu.
    + apply Forall_app. split; [apply Forall_app; split|constructor; [|constructor]].
      * rewrite Forall_forall in HA |- *. intros x Hx. apply Hkeep; [by apply elem_of_app; left|by apply HA].
      * rewrite Forall_forall in HB |- *. intros x Hx. apply Hkeep; [by apply elem_of_app; right|by apply HB].
      * exists p', PAGE_ACTIVE. cbn [pg_addr pg_items pg_seq]. rewrite fresh_header_active, Hh', Hh. split; [done|]. split; [done|by left].
    + rewrite Efree, Ef. by constructor.
    + rewrite Eu, Efree, Ef, !fmap_app, <- !app_assoc. apply NoDup_cons. cbn [app fmap list_fmap pg_addr]. split; [|exact Hn'].
      rewrite !not_elem_of_app. by split_and!.
    + by destruct (A ++ B).
    + rewrite !fmap_app, <- app_assoc. apply (seqs_drop _ _ (pg_seq g)). by rewrite <- app_assoc in Hs.
    + done.
  - unfold npages. rewrite Efree, Eu, Ef, Hu. rewrite !fmap_app, !length_app. simpl. rewrite !length_app. simpl. lia.
Qed.

(** What [new_page_request] returns: [None] only when the last free page cannot
    be used because every page is full of live entries; otherwise a new page at
    the end of the used list, empty or with the live items of the page that had
    the fewest. *)
Inductive new_page n v d pgs seqno : outcome (option Z) -> nvds_env -> D -> Prop :=
  | new_page_none :
      length (nvds_page_free v) = 1%nat -> Forall (fun g => ENTRY_COUNT_PER_PAGE <= load g) pgs ->
      new_page n v d pgs seqno (Ok None) v d
  | new_page_some v' d' A a its :
      store (n + 1) v' d' (A ++ [Pg a seqno its]) ->
      live_items (A ++ [Pg a seqno its]) ≡ₚ live_items pgs ->
      same_ns v v' -> npages v' = npages v ->
      its = [] \/ (length (nvds_page_free v) = 1%nat /\
        exists g, its = lives (pg_items g) /\ Forall (fun g' => load g <= load g') pgs) ->
      new_page n v d pgs seqno (Ok (Some a)) v' d'.

Lemma lives_lives its : lives (lives its) = lives its.
Proof. apply list_filter_filter_l. tauto. Qed.

Lemma npages_take v d a rest p f u :
  nvds_page_free v = a :: rest -> f = rest -> u = nvds_page_used v ++ [a] -> npages (with_lists f u (upd v a p)) = npages v.
Proof. intros E -> ->. unfold npages. cbn [with_lists nvds_page_free nvds_page_used]. rewrite E, length_app. simpl. lia. Qed.

Lemma new_page_ok n v d pgs seqno :
  store n v d pgs -> Forall (fun y => y < seqno) (pg_seq <$> pgs) -> 0 <= seqno <= n + 1 -> n + 1 < 2 ^ 31 ->
  exists r v' d', new_page_request seqno (v, d) = (r, (v', d')) /\ new_page n v d pgs seqno r v' d'.
Proof.
  intros [H Hspare] Hseq Hr Hn. unfold new_page_request, or_else.
  unfold mbind at 1, prog_bind at 1. cbn [get_env fst].
  destruct (nvds_page_free v) as [|a rest] eqn:Ef; [done|]. clear Hspare.
  destruct (take_free_page _ _ _ _ _ _ seqno H Ef Hseq Hr Hn) as (p & d1 & E1 & Hh & Hi & Hc).
  set (v1 := with_lists rest (nvds_page_used v ++ [a]) (upd v a p)) in *.
  assert (Hex : list_extract a (a :: rest) = rest) by (simpl; by rewrite Z.eqb_refl).
  assert (Hnp : npages v1 = npages v) by by eapply npages_take.
  destruct rest as [|b rest].
  - (* the last free page *)
    destruct (min_used_ok v d pgs ENTRY_COUNT_PER_PAGE None (so_pages _ _ _ _ H)) as (r & Em & Hmin).
    rewrite (so_used _ _ _ _ H). cbn [length Nat.eqb andb]. rewrite (bind_ok _ _ _ _ _ Em).
    destruct Hmin as [[-> Hall]|(A & g & B & EA & -> & _ & Hall)].
    { exists (Ok None), v, d. split; [done|]. constructor; [by rewrite Ef|done]. }
    rewrite bool_decide_false by done. rewrite (bind_ok _ _ _ _ _ E1).
    unfold mbind at 1 2, prog_bind at 1 2. unfold upd_env. cbn [fst snd get_env].
    change (nvds_page_free (upd v a p)) with (nvds_page_free v).
    change (nvds_page_used (upd v a p)) with (nvds_page_used v). rewrite Ef, Hex. fold v1.
    change (nvds_page_free v1) with (@nil Z). cbv iota. subst pgs.
    destruct (reclaim_store _ _ _ _ _ _ _ _ _ Hc eq_refl (has_items_lists _ _ _ _ _ _ _ Hi) Hh) as (v2 & d2 & E2 & Hs2 & Hns & Hnp2).
    rewrite (bind_ok _ _ _ _ _ E2). exists (Ok (Some a)), v2, d2. split; [done|].
    econstructor; [exact Hs2| |exact Hns|congruence|right; split; [by rewrite Ef|by exists g]].
    rewrite !live_items_app, !live_items_cons. cbn [pg_items].
    change (live_items []) with (@nil item). rewrite app_nil_r, lives_lives. rewrite <- app_assoc. f_equiv. apply Permutation_app_comm.
  - (* another free page remains *)
    cbn [length Nat.eqb andb]. unfold mbind at 1, prog_bind at 1. cbn [mret prog_ret].
    rewrite (bind_ok _ _ _ _ _ E1).
    unfold mbind at 1 2, prog_bind at 1 2. unfold upd_env. cbn [fst snd get_env].
    change (nvds_page_free (upd v a p)) with (nvds_page_free v).
    change (nvds_page_used (upd v a p)) with (nvds_page_used v). rewrite Ef, Hex. fold v1.
    change (nvds_page_free v1) with (b :: rest). cbv iota.
    exists (Ok (Some a)), v1, d1. split; [done|].
    econstructor; [split; [exact Hc|done]| |done|done|by left].
    rewrite live_items_app. change (live_items [Pg a seqno []]) with (@nil item). by rewrite app_nil_r.
Qed.

(** ** Room for an element *)

(** The answers of [make_room]; [c] is a number of entries at which a page is
    not yet short of room. *)
Inductive room (short : page_env -> bool) n v d pgs : outcome (option Z) -> nvds_env -> D -> Prop :=
  | room_none v' d' pgs' :
      store (n + 1) v' d' pgs' -> live_items pgs' ≡ₚ live_items pgs -> same_ns v v' -> npages v' = npages v ->
      (forall c, 0 <= c < ENTRY_COUNT_PER_PAGE ->
        (forall q, 0 <= next_free_idx q <= c -> short q = false) ->
        length (nvds_page_free v) = 1%nat /\ Forall (fun g => c + 1 <= load g) pgs) ->
      room short n v d pgs (Ok None) v' d'
  | room_some v' d' A a s its p :
      store (n + 1) v' d' (A ++ [Pg a s its]) -> live_items (A ++ [Pg a s its]) ≡ₚ live_items pgs ->
      same_ns v v' -> npages v' = npages v -> has_items v' d' a p its -> short p = false ->
      room short n v d pgs (Ok (Some a)) v' d'.

Lemma page_in_last n v d A g :
  core n v d (A ++ [g]) -> exists p st, has_items v d (pg_addr g) p (pg_items g) /\
    header p = set_h_state st (fresh_header (pg_seq g)) /\ (st = PAGE_ACTIVE \/ st = PAGE_FULL).
Proof. apply store_mid. Qed.

Lemma same_ns_trans v1 v2 v3 : same_ns v1 v2 -> same_ns v2 v3 -> same_ns v1 v3.
Proof. intros [H1 H2] [H3 H4]. split; congruence. Qed.

Lemma set_h_state_seqno st h : h_seqno (set_h_state st h) = h_seqno h.
Proof. done. Qed.

Lemma set_h_state_state st h : h_state (set_h_state st h) = st.
Proof. done. Qed.

Lemma header_seqno st s : h_seqno (set_h_state st (fresh_header s)) = s.
Proof. rewrite set_h_state_seqno. apply fresh_header_seqno. Qed.

Lemma header_to_full st s :
  (st = PAGE_ACTIVE \/ st = PAGE_FULL) -> Z.land (h_state (set_h_state st (fresh_header s))) PAGE_FULL = PAGE_FULL.
Proof. intros [-> | ->]; rewrite set_h_state_state; reflexivity. Qed.

(** The current page is marked full. *)
Lemma mark_full n v d A a s its p st :
  store n v d (A ++ [Pg a s its]) -> has_items v d a p its ->
  header p = set_h_state st (fresh_header s) -> (st = PAGE_ACTIVE \/ st = PAGE_FULL) ->
  exists p' d', page_state_alter a PAGE_FULL (v, d) = (Ok tt, (upd v a p', d')) /\
    store n (upd v a p') d' (A ++ [Pg a s its]).
Proof.
  intros H Hi Hh Hst. pose proof (header_to_full st s Hst) as Hland. rewrite <- Hh in Hland.
  destruct (page_state_items _ _ _ _ _ PAGE_FULL Hi ltac:(done) Hland) as (d1 & E1 & Hi1 & S1).
  exists (set_header (set_h_state PAGE_FULL (header p)) p), d1. split; [exact E1|].
  eapply (store_page _ _ _ _ _ _ _ _ _ _ _ PAGE_FULL H Hi1); [|by right|exact S1].
  change (set_h_state PAGE_FULL (header p) = set_h_state PAGE_FULL (fresh_header s)).
  rewrite Hh. apply set_h_state_twice.
Qed.

Lemma last_seq n v d A a s its :
  store n v d (A ++ [Pg a s its]) ->
  0 <= s <= n /\ Forall (fun y => y < s + 1) (pg_seq <$> A ++ [Pg a s its]).
Proof.
  intros H. pose proof (so_seqs _ _ _ _ H) as [H1 H2]. rewrite fmap_app in *. cbn [fmap list_fmap pg_seq] in *.
  split; [|by apply sorted_last]. by apply Forall_app in H2 as [_ [H2 _]%Forall_cons].
Qed.

(** The page that was requested, or none when it is short of room as well. *)
Lemma check_new_page (short : page_env -> bool) n v d pgs v1 d1 seqno r v2 d2 :
  same_ns v v1 -> npages v1 = npages v -> nvds_page_free v1 = nvds_page_free v ->
  store (n + 1) v1 d1 pgs -> new_page n v1 d1 pgs seqno r v2 d2 ->
  exists r' v' d', (match r with
      | Ok None => (Ok None, (v2, d2))
      | Ok (Some a) => ((q ← get_page a; mret (if short q then None else Some a))
                         : prog (nvds_env * D) (option Z)) (v2, d2)
      | Err c => (Err c, (v2, d2)) end) = (r', (v', d')) /\ room short n v d pgs r' v' d'.
Proof.
  intros Hns Hnp Hfr H Hnew. destruct Hnew as [Hlen Hall|v3 d3 A3 b its3 H3 Hl3 Hns3 Hnp3 Hcase].
  - exists (Ok None), v1, d1. split; [done|]. econstructor; [exact H|done|done|done|].
    intros c Hc _. rewrite <- Hfr. split; [exact Hlen|]. eapply Forall_impl; [exact Hall|]. simpl. lia.
  - destruct (page_in_last _ _ _ _ _ (so_core _ _ _ _ H3)) as (q & st3 & Hq & _). cbn [pg_addr pg_items] in Hq.
    rewrite (bind_ok _ _ _ _ _ (get_page_ok _ _ _ _ (hi_page _ _ _ _ _ Hq))).
    pose proof (same_ns_trans _ _ _ Hns Hns3) as Hns'. rewrite Hnp in Hnp3.
    unfold mret, prog_ret. destruct (short q) eqn:Eq; eexists _, v3, d3; (split; [done|]); cycle 1.
    { econstructor; [exact H3|done|done|done|exact Hq|exact Eq]. }
    econstructor; [exact H3|done|done|done|]. intros c Hc Hshort.
    pose proof (pi_free _ _ _ (hi_items _ _ _ _ _ Hq)) as Hnf.
    pose proof (sum_n_nonneg _ (pi_ok _ _ _ (hi_items _ _ _ _ _ Hq))).
    assert (c < next_free_idx q) by (apply Z.nle_gt; intros ?; rewrite Hshort in Eq; [done|lia]).
    rewrite <- Hfr. destruct Hcase as [->|(Hlen & g' & -> & Hall)]; [simpl in Hnf; lia|]. split; [exact Hlen|].
    fold (load g') in Hnf. eapply Forall_impl; [exact Hall|]. simpl. lia.
Qed.

Lemma make_room_ok short n v d A g :
  store n v d (A ++ [g]) -> n + 1 < 2 ^ 31 ->
  exists r v' d', make_room short (pg_addr g) (v, d) = (r, (v', d')) /\ room short n v d (A ++ [g]) r v' d'.
Proof.
  intros H Hn. destruct (page_in_last _ _ _ _ _ (so_core _ _ _ _ H)) as (p & st & Hi & Hh & Hst).
  unfold make_room. rewrite (bind_ok _ _ _ _ _ (get_page_ok _ _ _ _ (hi_page _ _ _ _ _ Hi))).
  destruct g as [a s its]. cbn [pg_addr pg_items pg_seq] in *. destruct (short p) eqn:Es; cycle 1.
  { exists (Ok (Some a)), v, d. split; [done|].
    econstructor; [eapply store_mono; [| |exact H]; lia|done|done|done|exact Hi|done]. }
  destruct (mark_full _ _ _ _ _ _ _ _ _ H Hi Hh Hst) as (p1 & d1 & E1 & H1).
  destruct (last_seq _ _ _ _ _ _ _ H) as [Hs Hlast].
  rewrite (bind_ok _ _ _ _ _ E1), Hh, header_seqno, u32_small by (unfold in_width; lia).
  destruct (new_page_ok _ _ _ _ (s + 1) H1 Hlast) as (r & v2 & d2 & E2 & Hnew); [lia|lia|].
  apply (store_mono n (n + 1)) in H1; [|lia|lia].
  destruct (check_new_page short n v d (A ++ [Pg a s its]) (upd v a p1) d1 (s + 1) r v2 d2) as (r' & v' & d' & E & Hroom); [done..|].
  exists r', v', d'. split; [|exact Hroom]. rewrite <- E.
  unfold mbind at 1, prog_bind at 1. rewrite E2. by destruct r as [[b|]|c].
Qed.

(** ** The room an element needs *)
Lemma page_room_exact q : 0 <= next_free_idx q <= ENTRY_COUNT_PER_PAGE ->
  page_room_get q = (ENTRY_COUNT_PER_PAGE - next_free_idx q) * 32.
Proof.
  intros H. unfold page_room_get, s32, ENTRY_COUNT_PER_PAGE, ENTRY_SIZE in *.
  rewrite u32_small by (unfold in_width; lia). rewrite (proj2 (Z.ltb_lt _ _)) by lia. done.
Qed.

Lemma elem_room_spec val q :
  value_ok val -> 0 <= next_free_idx q <= ENTRY_COUNT_PER_PAGE ->
  elem_room (Z.of_nat (length val)) q = negb (next_free_idx q + need val <=? ENTRY_COUNT_PER_PAGE).
Proof.
  intros [_ Hl] Hq. unfold elem_room. rewrite (page_room_exact q Hq).
  unfold need, elem, i_n, i_cnt, ELEMENT_SMALL_MAX_SIZE, ELEMENT_MIDDLE_MAX_SIZE, ENTRY_COUNT_PER_PAGE, ENTRY_SIZE in *.
  pose proof (entries_for_bound (Z.of_nat (length val)) ltac:(lia)).
  destruct (Z.ltb_spec 8 (Z.of_nat (length val))); cbn [i_type i_len];
    change (has_data ELEMENT_MIDDLE) with true; change (has_data ELEMENT_SMALL) with false; cbv iota.
  - rewrite !u32_small by (unfold in_width; lia). rewrite (proj2 (Z.leb_gt _ _)) by lia. cbn [andb orb].
    destruct (Z.ltb_spec ((126 - next_free_idx q) * 32) (32 + Z.of_nat (length val))),
      (Z.leb_spec (next_free_idx q + (1 + entries_for (Z.of_nat (length val)))) 126); try done; lia.
  - rewrite (proj2 (Z.leb_le _ _)) by lia. cbn [andb]. rewrite orb_false_r.
    destruct (Z.ltb_spec ((126 - next_free_idx q) * 32) 32), (Z.leb_spec (next_free_idx q + (1 + 0)) 126); try done; lia.
Qed.

(** ** Namespace counts *)
Lemma store_with_ns n v d pgs l st : store n v d pgs -> store n (with_ns l st v) d pgs.
Proof.
  intros [[H1 H2 H3 H4 H5 H6 H7 H8] H9]. split; [split; try done|done].
  - eapply Forall_impl; [exact H3|]. intros g (p & s & [? ? ? ?] & Hh). exists p, s. split; [by split|done].
  - eapply Forall_impl; [exact H4|]. intros a (p & []). exists p. by split.
Qed.

Lemma with_ns_id v : with_ns (ns_list v) (ns_states v) v = v.
Proof. by destruct v. Qed.

Lemma ignore_dec_ns ns v d :
  ignore (ns_del_used_cnt ns false) (v, d) = (Ok tt, (with_ns (dec_ns ns (ns_list v)) (ns_states v) v, d)).
Proof.
  unfold ignore, ns_del_used_cnt, dec_ns. destruct (NAMESPACE_MAX_CNT <? ns); [by rewrite with_ns_id|].
  unfold mbind, prog_bind, get_env. cbn [fst].
  destruct (find_ns _ (ns_list v)) as [[i x]|]; [by rewrite andb_false_r|by rewrite with_ns_id].
Qed.

(** ** Writing an element *)

(** Why there is no space: one page is free and the used ones have too few
    entries that could be reclaimed. *)
Definition crowded v (val : bytes) m : Prop :=
  length (nvds_page_free v) = 1%nat /\
  (ENTRY_COUNT_PER_PAGE + 1 - need val) * (Z.of_nat (npages v) - 1) <= space m.

(** The last page of a store is the one written to. *)
Lemma pick_last_ok n v d A g :
  core n v d (A ++ [g]) -> pick_last_used (v, d) = (Ok (pg_addr g), (v, d)).
Proof.
  intros H. unfold pick_last_used, mbind, prog_bind, get_env. cbn [fst].
  rewrite (so_used _ _ _ _ H), fmap_app. cbn [fmap list_fmap]. by rewrite last_snoc.
Qed.

Lemma check_state_ok n v d A g :
  core n v d (A ++ [g]) -> check_page_state (pg_addr g) (v, d) = (Ok tt, (v, d)).
Proof.
  intros H. destruct (page_in_last _ _ _ _ _ H) as (p & st & Hi & Hh & Hst).
  unfold check_page_state. rewrite (bind_ok _ _ _ _ _ (get_page_ok _ _ _ _ (hi_page _ _ _ _ _ Hi))).
  rewrite Hh, set_h_state_state. by destruct Hst as [-> | ->].
Qed.

(** Writing behind the items of the last page. *)
Lemma write_last n v d A a s its p ns key val m :
  store n v d (A ++ [Pg a s its]) -> has_items v d a p its ->
  elem_room (Z.of_nat (length val)) p = false -> kv_ok (ns, key) val ->
  holds (A ++ [Pg a s its]) m -> m !! (ns, key) = None ->
  exists p' d', write_element a ns key val (v, d) = (Ok tt, (upd v a p', d')) /\
    store n (upd v a p') d' (A ++ [Pg a s (its ++ [elem ns key val])]) /\
    holds (A ++ [Pg a s (its ++ [elem ns key val])]) (<[(ns, key) := val]> m).
Proof.
  intros H Hi Hroom (Hns & Hk & Hv) Hh Hm. cbn [fst snd] in *. pose proof (hi_items _ _ _ _ _ Hi) as Hpi.
  destruct (page_in_last _ _ _ _ _ (so_core _ _ _ _ H)) as (p0 & st & Hi0 & Hhd & Hst). cbn [pg_addr pg_items pg_seq] in *.
  assert (p0 = p) as -> by (pose proof (hi_page _ _ _ _ _ Hi0); pose proof (hi_page _ _ _ _ _ Hi); congruence).
  pose proof (raw_nf_u32 _ _ _ _ (pi_raw _ _ _ Hpi)) as Hnf.
  rewrite (elem_room_spec val p Hv Hnf) in Hroom. rewrite (pi_free _ _ _ Hpi) in Hroom.
  destruct (write_element_ok _ _ _ _ _ ns key val Hi Hns Hk Hv) as (p' & d' & E & Hi' & Hs & Hh'); [rewrite need_elem; lia|].
  exists p', d'. split; [exact E|split].
  - eapply store_page; [exact H|exact Hi'|by rewrite Hh'|exact Hst|exact Hs].
  - apply (holds_insert (A ++ [Pg a s its])); [done|done|by split|].
    rewrite !live_items_app, !live_items_cons. cbn [pg_items]. change (live_items []) with (@nil item).
    rewrite !app_nil_r, lives_app, filter_cons_True by by rewrite elem_live.
    cbn [filter list_filter]. rewrite app_assoc. symmetry. apply Permutation_cons_append.
Qed.

(** The tail of [data_element_put], once the key is absent. *)
Lemma put_new n v d pgs m ns key val :
  store n v d pgs -> holds pgs m -> kv_ok (ns, key) val -> m !! (ns, key) = None -> n + 1 < 2 ^ 31 ->
  exists r v' d' pgs', (cur_page ← pick_last_used;
      _ ← check_page_state cur_page;
      r ← make_room (elem_room (Z.of_nat (length val))) cur_page;
      match r with
      | None => pfail NVDS_E_NO_SPACE
      | Some page => write_element page ns key val
      end) (v, d) = (r, (v', d')) /\
    store (n + 1) v' d' pgs' /\ npages v' = npages v /\ same_ns v v' /\
    ((r = Ok tt /\ holds pgs' (<[(ns, key) := val]> m)) \/
     (r = Err NVDS_E_NO_SPACE /\ holds pgs' m /\ crowded v val m)).
Proof.
  intros H Hh Hkv Hm Hn. destruct (exists_last (so_some _ _ _ _ H)) as (A & g & ->).
  rewrite (bind_ok _ _ _ _ _ (pick_last_ok _ _ _ _ _ (so_core _ _ _ _ H))).
  rewrite (bind_ok _ _ _ _ _ (check_state_ok _ _ _ _ _ (so_core _ _ _ _ H))).
  destruct (make_room_ok (elem_room (Z.of_nat (length val))) _ _ _ _ _ H Hn) as (r & v1 & d1 & E & Hr).
  unfold mbind at 1, prog_bind at 1. rewrite E.
  destruct Hr as [v2 d2 pgs2 H2 Hl2 Hns2 Hnp2 Hcrowd|v2 d2 A2 a s its p H2 Hl2 Hns2 Hnp2 Hi2 Hroom].
  - exists (Err NVDS_E_NO_SPACE), v2, d2, pgs2. split_and!; [done|done|done|done|]. right.
    split_and!; [done|by eapply holds_perm|]. destruct Hkv as (_ & _ & Hv). pose proof (need_bounds val Hv).
    destruct (Hcrowd (ENTRY_COUNT_PER_PAGE - need val)) as [Hf Hload]; [unfold ENTRY_COUNT_PER_PAGE; lia| |].
    { intros q Hq. rewrite (elem_room_spec val q Hv) by lia. by rewrite (proj2 (Z.leb_le _ _)) by lia. }
    split; [exact Hf|]. rewrite <- (holds_space _ _ Hh).
    replace (Z.of_nat (npages v) - 1) with (Z.of_nat (length (A ++ [g])))
      by (unfold npages; rewrite Hf, (so_used _ _ _ _ H), length_fmap; lia).
    replace (ENTRY_COUNT_PER_PAGE + 1 - need val) with (ENTRY_COUNT_PER_PAGE - need val + 1) by lia. by apply load_sum.
  - destruct (write_last _ _ _ _ _ _ _ _ ns key val m H2 Hi2 Hroom Hkv) as (p' & d' & Ew & H3 & Hh3); [by eapply holds_perm|done|].
    exists (Ok tt), (upd v2 a p'), d', (A2 ++ [Pg a s (its ++ [elem ns key val])]). split_and!; [exact Ew|done|done|done|by left].
Qed.

(** [data_element_put] of a small or middle value. *)
Lemma data_element_put_ok n v d pgs m ns key val :
  store n v d pgs -> holds pgs m -> kv_ok (ns, key) val -> n + 1 < 2 ^ 31 ->
  exists r v' d' pgs', data_element_put ns key val (v, d) = (r, (v', d')) /\
    store (n + 1) v' d' pgs' /\ npages v' = npages v /\ ns_states v' = ns_states v /\
    ns_list v' = (if decide (is_Some (m !! (ns, key))) then dec_ns ns (ns_list v) else ns_list v) /\
    ((r = Ok tt /\ holds pgs' (<[(ns, key) := val]> m)) \/
     (r = Err NVDS_E_NO_SPACE /\ m !! (ns, key) <> Some val /\ holds pgs' (delete (ns, key) m) /\
      crowded v val (delete (ns, key) m))).
Proof.
  intros H Hh Hkv Hn. pose proof Hkv as (Hns & Hk & Hv). cbn [fst snd] in *.
  unfold data_element_put. rewrite (bind_ok _ _ _ _ _ (element_compare_ok _ _ _ _ _ ns key val H Hh Hk)).
  destruct (bool_decide_reflect (m !! (ns, key) = Some val)) as [Em|Em].
  { rewrite ignore_dec_ns, Em, decide_True by done. eexists (Ok tt), _, d, pgs. split; [reflexivity|].
    split_and!; [eapply store_with_ns, store_mono; [| |exact H]; lia|done|done|done|]. left.
    by rewrite insert_id. }
  assert (Hbig : ELEMENT_MIDDLE_MAX_SIZE <? Z.of_nat (length val) = false) by (destruct Hv; apply Z.ltb_ge; lia).
  rewrite Hbig. pose proof (data_element_del_ok _ _ _ _ _ ns key H Hh Hk) as Hdel.
  unfold mbind at 1, prog_bind at 1, catch_not_found. destruct (m !! (ns, key)) as [old|] eqn:Eold.
  - destruct Hdel as (v1 & d1 & pgs1 & E1 & H1 & Hh1 & [[Hns1 Hns2] [Hf Hu]] & _). rewrite E1, decide_True by done.
    rewrite (bind_ok _ _ _ _ _ (ignore_dec_ns ns v1 d1)).
    set (v2 := with_ns (dec_ns ns (ns_list v1)) (ns_states v1) v1).
    pose proof (store_with_ns _ _ _ _ (dec_ns ns (ns_list v1)) (ns_states v1) H1) as H2. fold v2 in H2.
    destruct (put_new _ _ _ _ _ ns key val H2 Hh1 Hkv (lookup_delete_eq _ _) Hn) as (r & v' & d' & pgs' & E & H' & Hnp & [Hs1 Hs2] & Hr).
    exists r, v', d', pgs'. split; [exact E|]. split_and!; [done| | | |].
    + rewrite Hnp. unfold npages, v2. cbn [with_ns nvds_page_free nvds_page_used]. congruence.
    + rewrite Hs2. exact Hns2.
    + rewrite Hs1. cbn [v2 with_ns ns_list]. by rewrite Hns1.
    + destruct Hr as [[-> Hr]|(-> & Hr & Hc)]; [left|right].
      * split; [done|]. by rewrite insert_delete_eq in Hr.
      * split_and!; [done|done|done|]. unfold crowded, npages, v2 in *. cbn [with_ns nvds_page_free nvds_page_used] in *. by rewrite <- Hf, <- Hu.
  - rewrite Hdel, decide_False by (by intros []). cbn [Z.eqb NVDS_E_NOT_FOUND Pos.eqb].
    rewrite (bind_ok (mret tt) _ _ _ _ eq_refl).
    destruct (put_new _ _ _ _ _ ns key val H Hh Hkv Eold Hn) as (r & v' & d' & pgs' & E & H' & Hnp & [Hs1 Hs2] & Hr).
    exists r, v', d', pgs'. split; [exact E|]. split_and!; [done|done|done|done|]. rewrite delete_id by done.
    destruct Hr as [[-> Hr]|(-> & Hr & Hc)]; [left|right]; by split_and!.
Qed.
End put.
