(* ===== verification/NvdsApi.v ===== *)
(** * The exported operations as operations on a map from names to values

    A client of the store sees a map from (namespace or none, key) to values.
    [kv n v d m] adds the namespaces to [store]: the namespace list and bitmap in
    RAM agree with the elements of namespace 0, and every [used_cnt] is the number
    of keys of its namespace.  [refines n v d f] relates this to the client's map
    [f]; put, get, find and delete are proved to act on [f] alone. *)
From Stdlib Require Import Sorted.
From S2P Require Import Prelude Prog Crc Flash NvdsFormat Nvds NvdsPage NvdsOps NvdsReclaim NvdsStore NvdsPut.

(** ** Counting the keys of a namespace *)
Definition keys_of (i : Z) (m : emap) : nat := size (filter (fun kv : (Z * bytes) * bytes => kv.1.1 = i) m).

Section keys_of.
Implicit Types (i j : Z) (k val : bytes) (m : emap).

Lemma keys_of_insert i j k val m :
  keys_of i (<[(j, k) := val]> m) = (keys_of i m + (if decide (i = j /\ m !! (j, k) = None) then 1 else 0))%nat.
Proof.
  unfold keys_of. destruct (decide (i = j)) as [->|Hij].
  - rewrite map_filter_insert_True, map_size_insert, map_lookup_filter by done.
    destruct (m !! (j, k)) as [w|] eqn:E; simpl.
    + rewrite option_guard_True by done. rewrite decide_False by naive_solver. simpl. lia.
    + rewrite decide_True by done. lia.
  - rewrite map_filter_insert_False, map_filter_delete, delete_id, decide_False by (simpl; naive_solver || apply map_lookup_filter_None; right; naive_solver). lia.
Qed.

Lemma keys_of_delete i j k m :
  keys_of i (delete (j, k) m) = (keys_of i m - (if decide (i = j /\ is_Some (m !! (j, k))) then 1 else 0))%nat.
Proof.
  unfold keys_of. rewrite map_filter_delete, map_size_delete, map_lookup_filter.
  destruct (m !! (j, k)) as [w|] eqn:E; simpl.
  - destruct (decide (i = j)) as [->|Hij].
    + rewrite option_guard_True, decide_True by (split; done). simpl. lia.
    + rewrite option_guard_False, decide_False by naive_solver. simpl. lia.
  - rewrite decide_False by (intros [_ [? ?]]; done). lia.
Qed.

Lemma keys_of_zero i m : keys_of i m = 0%nat <-> forall k, m !! (i, k) = None.
Proof.
  unfold keys_of. rewrite map_size_empty_iff. split.
  - intros H k. pose proof (f_equal (lookup (i, k)) H) as E. rewrite lookup_empty in E.
    apply map_lookup_filter_None in E as [E|E]; [done|]. destruct (m !! (i, k)) as [w|]; [|done]. by destruct (E w).
  - intros H. apply map_eq. intros [j k]. rewrite lookup_empty. apply map_lookup_filter_None.
    destruct (decide (j = i)) as [->|]; [left; apply H|by right].
Qed.

Lemma keys_of_le i m : (keys_of i m <= size m)%nat.
Proof. unfold keys_of. apply map_subseteq_size, map_filter_subseteq. Qed.
End keys_of.

(** ** Changing one counter *)
Definition bump (f : Z -> Z) (ns : Z) (l : list namespace_info) : list namespace_info :=
  (fun x => if ns_index x =? ns then Ns (ns_name x) (ns_index x) (f (used_cnt x)) else x) <$> l.

Section bump.
Implicit Types (l : list namespace_info) (f : Z -> Z).

Lemma bump_names f ns l : ns_name <$> bump f ns l = ns_name <$> l.
Proof. unfold bump. rewrite <- list_fmap_compose. apply list_fmap_ext. intros _ x _. simpl. by case_match. Qed.

Lemma bump_index f ns l : ns_index <$> bump f ns l = ns_index <$> l.
Proof. unfold bump. rewrite <- list_fmap_compose. apply list_fmap_ext. intros _ x _. simpl. by case_match. Qed.

Lemma bump_absent f ns l : ns ∉ ns_index <$> l -> bump f ns l = l.
Proof.
  intros H. unfold bump. rewrite <- (list_fmap_id l) at 2. apply list_fmap_ext. intros i x Hx. simpl.
  destruct (Z.eqb_spec (ns_index x) ns) as [E|]; [|done]. destruct H. rewrite <- E.
  by apply list_elem_of_fmap_2, list_elem_of_lookup_2 with i.
Qed.

Lemma bump_one f l i x :
  NoDup (ns_index <$> l) -> l !! i = Some x ->
  <[i := Ns (ns_name x) (ns_index x) (f (used_cnt x))]> l = bump f (ns_index x) l.
Proof.
  intros Hn Hi. apply list_eq. intros j. unfold bump. rewrite list_lookup_fmap.
  destruct (decide (i = j)) as [->|Hij].
  - rewrite list_lookup_insert_eq by by eapply lookup_lt_Some. rewrite Hi. simpl. by rewrite Z.eqb_refl.
  - rewrite list_lookup_insert_ne by done. destruct (l !! j) as [y|] eqn:Ej; [|done]. simpl.
    destruct (Z.eqb_spec (ns_index y) (ns_index x)) as [E|]; [|done]. destruct Hij.
    apply (NoDup_lookup (ns_index <$> l) i j (ns_index x) Hn); rewrite list_lookup_fmap; [by rewrite Hi|by rewrite Ej, <- E].
Qed.

(** Finding a namespace by a key that determines it. *)
Lemma find_ns_some {K} `{EqDecision K} (g : namespace_info -> K) (k : K) p l :
  (forall x, p x = true <-> g x = k) ->
  match find_ns p l with
  | Some (i, x) => l !! i = Some x /\ g x = k
  | None => k ∉ g <$> l
  end.
Proof.
  intros Hp. unfold find_ns. destruct (list_find _ l) as [[i x]|] eqn:E.
  - apply list_find_Some in E as (Hi & Hx & _). split; [done|]. apply Hp. by apply Is_true_true.
  - apply list_find_None in E. intros (x & -> & Hx)%list_elem_of_fmap.
    rewrite Forall_forall in E. apply (E x Hx). apply Is_true_true. by apply Hp.
Qed.

Lemma bump_found (f : Z -> Z) ns p l :
  (forall x, p x = true <-> ns_index x = ns) -> NoDup (ns_index <$> l) ->
  match find_ns p l with
  | None => l
  | Some (i, n) => <[i := Ns (ns_name n) (ns_index n) (f (used_cnt n))]> l
  end = bump f ns l.
Proof.
  intros Hp Hn. pose proof (find_ns_some ns_index ns p l Hp) as H. destruct (find_ns p l) as [[i x]|].
  - destruct H as [Hi <-]. by apply bump_one.
  - by rewrite bump_absent.
Qed.
End bump.

(** ** The bitmap of namespace indices *)
Section bitmap.
Implicit Types (st : list Z) (i j : Z) (b : bool).

Lemma ns_state_get_testbit st i : ns_state_get st i = Z.testbit (nth (Z.to_nat (i / 32)) st 0) (i mod 32).
Proof.
  unfold ns_state_get. set (w := nth _ st 0). pose proof (Z.mod_pos_bound i 32 ltac:(lia)).
  rewrite <- (Z.add_0_l (i mod 32)) at 2. rewrite <- Z.shiftr_spec by lia.
  change 1 with (Z.ones 1). rewrite Z.land_ones by lia. change (2 ^ 1) with 2.
  rewrite <- Z.bit0_mod. by destruct (Z.testbit _ 0).
Qed.

Lemma ns_state_set_length st i b : length (ns_state_set st i b) = length st.
Proof. apply length_insert. Qed.

Lemma ns_state_get_set st i j b :
  length st = NAMESPACE_STATES_TABLE_SIZE -> 0 <= i < 256 -> 0 <= j < 256 ->
  ns_state_get (ns_state_set st i b) j = if decide (i = j) then b else ns_state_get st j.
Proof.
  intros Hl Hi Hj. rewrite !ns_state_get_testbit. unfold ns_state_set, NAMESPACE_STATES_TABLE_SIZE in *.
  pose proof (Z.mod_pos_bound i 32 ltac:(lia)). pose proof (Z.mod_pos_bound j 32 ltac:(lia)).
  pose proof (Z.div_mod i 32 ltac:(lia)). pose proof (Z.div_mod j 32 ltac:(lia)).
  set (a := i / 32) in *. set (c := j / 32) in *. set (o := i mod 32) in *. set (q := j mod 32) in *.
  assert (Hn : forall k w, nth k (<[Z.to_nat a := w]> st) 0 = if decide (k = Z.to_nat a) then w else nth k st 0).
  { intros k w. rewrite !nth_lookup. destruct (decide (k = Z.to_nat a)) as [->|].
    - rewrite list_lookup_insert_eq by lia. done.
    - by rewrite list_lookup_insert_ne by done. }
  rewrite Hn. destruct (decide (Z.to_nat c = Z.to_nat a)) as [E|E]; cycle 1.
  { rewrite decide_False; [done|]. intros ->. by apply E. }
  rewrite E, Z.lor_spec, Z.land_spec, Z.lnot_spec, !Z.shiftl_spec by lia.
  destruct (decide (i = j)) as [->|Hij].
  - replace (q - o) with 0 by (subst q o; lia). rewrite Z.b2z_bit0. change (Z.testbit 1 0) with true. cbn [negb]. by rewrite andb_false_r.
  - assert (q <> o) by lia.
    assert (Hz : forall x : bool, Z.testbit (Z.b2z x) (q - o) = false).
    { intros x. destruct (Z.lt_ge_cases (q - o) 0); [by apply Z.testbit_neg_r|].
      destruct x; [|by apply Z.testbit_0_l]. apply (testbit_above 1); [unfold in_width; simpl; lia|lia]. }
    change 1 with (Z.b2z true). rewrite !Hz. cbn [negb]. by rewrite andb_true_r, orb_false_r.
Qed.
End bitmap.

(** ** Namespaces registered in the store *)
Definition ns_pair (x : namespace_info) : bytes * Z := (ns_name x, ns_index x).

Record ns_reg (L : list (bytes * Z)) (st : list Z) (m : emap) : Prop := NsReg {
  nr_names : NoDup L.*1;
  nr_index : NoDup L.*2;
  nr_range : Forall (fun x => 1 <= x.2 <= NAMESPACE_MAX_CNT) L;
  nr_stored : forall name val, m !! (0, name) = Some val <-> exists i, (name, i) ∈ L /\ val = [i];
  nr_used : forall i k val, m !! (i, k) = Some val -> i = 0 \/ i = NAMESPACE_NULL_IDX \/ i ∈ L.*2;
  nr_size : length st = NAMESPACE_STATES_TABLE_SIZE;
  nr_bits : forall i, 1 <= i <= NAMESPACE_MAX_CNT -> ns_state_get st i = true <-> i ∈ L.*2 }.

Definition ns_count (l : list namespace_info) (m : emap) : Prop :=
  Forall (fun x => used_cnt x = Z.of_nat (keys_of (ns_index x) m)) l.

(** The index of a namespace and the client's view of the store. *)
Definition ns_of (m : emap) (ns : option bytes) : option Z :=
  match ns with
  | None => Some NAMESPACE_NULL_IDX
  | Some name => match m !! (0, name) with Some [i] => Some i | _ => None end
  end.

Definition view (m : emap) (ns : option bytes) (k : bytes) : option bytes :=
  match ns_of m ns with Some i => m !! (i, k) | None => None end.

Section registered.
Context (L : list (bytes * Z)) (st : list Z) (m : emap) (R : ns_reg L st m).
Implicit Types (i : Z) (name k val : bytes) (ns : option bytes).

Lemma ns_of_name name i : ns_of m (Some name) = Some i <-> (name, i) ∈ L.
Proof.
  simpl. split.
  - intros H. destruct (m !! (0, name)) as [val|] eqn:E; [|done].
    apply (nr_stored _ _ _ R) in E as (j & Hj & ->). by injection H as <-.
  - intros H. by rewrite (proj2 (nr_stored _ _ _ R name [i])) by by exists i.
Qed.

Lemma ns_of_absent name : ns_of m (Some name) = None -> m !! (0, name) = None /\ name ∉ L.*1.
Proof.
  intros H. split.
  - destruct (m !! (0, name)) as [val|] eqn:E; [|done]. pose proof E as E'.
    apply (nr_stored _ _ _ R) in E' as (i & _ & ->). simpl in H. by rewrite E in H.
  - intros ([name' i] & -> & Hi)%list_elem_of_fmap. simpl in H |- *. apply ns_of_name in Hi. simpl in Hi. congruence.
Qed.

Lemma listed_range i : i ∈ L.*2 -> 1 <= i <= NAMESPACE_MAX_CNT.
Proof. intros ([name j] & -> & Hi)%list_elem_of_fmap. by apply (proj1 (Forall_forall _ _) (nr_range _ _ _ R) _ Hi). Qed.

Lemma ns_of_listed ns i : ns_of m ns = Some i -> (ns = None /\ i = NAMESPACE_NULL_IDX) \/ i ∈ L.*2.
Proof.
  destruct ns as [name|]; [|intros [= <-]; by left]. intros H%ns_of_name. right.
  apply list_elem_of_fmap. by exists (name, i).
Qed.

Lemma ns_of_range ns i : ns_of m ns = Some i -> 1 <= i <= NAMESPACE_NULL_IDX.
Proof. intros [[_ ->]|H%listed_range]%ns_of_listed; unfold NAMESPACE_NULL_IDX, NAMESPACE_MAX_CNT in *; lia. Qed.

Lemma ns_of_inj ns ns' i : ns_of m ns = Some i -> ns_of m ns' = Some i -> ns = ns'.
Proof.
  intros H H'. destruct (ns_of_listed _ _ H) as [[-> ->]|Hl]; destruct (ns_of_listed _ _ H') as [[-> E]|Hl'].
  - done.
  - apply listed_range in Hl'. unfold NAMESPACE_NULL_IDX, NAMESPACE_MAX_CNT in *. lia.
  - subst i. apply listed_range in Hl. unfold NAMESPACE_NULL_IDX, NAMESPACE_MAX_CNT in *. lia.
  - destruct ns as [a|]; [|injection H as <-; apply listed_range in Hl; unfold NAMESPACE_NULL_IDX, NAMESPACE_MAX_CNT in *; lia].
    destruct ns' as [b|]; [|injection H' as <-; apply listed_range in Hl; unfold NAMESPACE_NULL_IDX, NAMESPACE_MAX_CNT in *; lia].
    apply ns_of_name, list_elem_of_lookup in H as [x Hx]. apply ns_of_name, list_elem_of_lookup in H' as [y Hy].
    pose proof (NoDup_lookup L.*2 x y i (nr_index _ _ _ R)) as E. rewrite !list_lookup_fmap, Hx, Hy in E.
    rewrite E in Hx by done. congruence.
Qed.

Lemma unlisted i k : i ∉ L.*2 -> 1 <= i <= NAMESPACE_MAX_CNT -> m !! (i, k) = None.
Proof.
  intros Hi Hr. destruct (m !! (i, k)) as [val|] eqn:E; [|done].
  apply (nr_used _ _ _ R) in E as [-> |[-> |]]; unfold NAMESPACE_NULL_IDX, NAMESPACE_MAX_CNT in *; lia || done.
Qed.

(** Elements of user namespaces *)
Lemma reg_insert i k val : i = NAMESPACE_NULL_IDX \/ i ∈ L.*2 -> ns_reg L st (<[(i, k) := val]> m).
Proof.
  intros Hi. assert (i <> 0). { destruct Hi as [->|Hi%listed_range]; [done|lia]. }
  destruct R. split; try done.
  - intros name w. by rewrite lookup_insert_ne by congruence.
  - intros j k' w [[[= <- <-] _]|[_ E]]%lookup_insert_Some; [tauto|eauto].
Qed.

Lemma reg_delete i k : i <> 0 -> ns_reg L st (delete (i, k) m).
Proof.
  intros Hi. destruct R. split; try done.
  - intros name w. by rewrite lookup_delete_ne by congruence.
  - intros j k' w [_ E]%lookup_delete_Some. eauto.
Qed.

Lemma view_insert ns i k val ns' k' : ns_of m ns = Some i ->
  view (<[(i, k) := val]> m) ns' k' = if decide ((ns, k) = (ns', k')) then Some val else view m ns' k'.
Proof.
  intros H. pose proof (ns_of_range _ _ H).
  assert (E : ns_of (<[(i, k) := val]> m) ns' = ns_of m ns').
  { destruct ns' as [name|]; [|done]. simpl. rewrite lookup_insert_ne; [done|]. intros [= ? _]. lia. }
  unfold view. rewrite E. case_decide as Hd.
  - injection Hd as <- <-. by rewrite H, lookup_insert_eq.
  - destruct (ns_of m ns') as [j|] eqn:Ej; [|done]. rewrite lookup_insert_ne; [done|]. intros [= <- <-].
    apply Hd. by rewrite (ns_of_inj _ _ _ H Ej).
Qed.

Lemma view_delete ns i k ns' k' : ns_of m ns = Some i ->
  view (delete (i, k) m) ns' k' = if decide ((ns, k) = (ns', k')) then None else view m ns' k'.
Proof.
  intros H. pose proof (ns_of_range _ _ H).
  assert (E : ns_of (delete (i, k) m) ns' = ns_of m ns').
  { destruct ns' as [name|]; [|done]. simpl. rewrite lookup_delete_ne; [done|]. intros [= ? _]. lia. }
  unfold view. rewrite E. case_decide as Hd.
  - injection Hd as <- <-. by rewrite H, lookup_delete_eq.
  - destruct (ns_of m ns') as [j|] eqn:Ej; [|done]. rewrite lookup_delete_ne; [done|]. intros [= <- <-].
    apply Hd. by rewrite (ns_of_inj _ _ _ H Ej).
Qed.
End registered.

(** Creating and removing a namespace *)
Section create_remove.
Implicit Types (L : list (bytes * Z)) (st : list Z) (m : emap) (i : Z) (name k : bytes).

Lemma reg_create L st m name i :
  ns_reg L st m -> m !! (0, name) = None -> name ∉ L.*1 -> i ∉ L.*2 -> 1 <= i <= NAMESPACE_MAX_CNT ->
  ns_reg (L ++ [(name, i)]) (ns_state_set st i true) (<[(0, name) := [i]]> m).
Proof.
  intros [H1 H2 H3 H4 H5 H6 H7] Hm Hn Hi Hr. split.
  - rewrite fmap_app. apply NoDup_app. split_and!; [done| |apply NoDup_singleton]. simpl. set_solver.
  - rewrite fmap_app. apply NoDup_app. split_and!; [done| |apply NoDup_singleton]. simpl. set_solver.
  - apply Forall_app. split; [done|]. by constructor.
  - intros name' val. rewrite lookup_insert_Some, H4. setoid_rewrite elem_of_app. setoid_rewrite list_elem_of_singleton. split.
    + intros [[[= <-] <-]|[_ (j & Hj & ->)]]; [exists i; by split; [right|]|exists j; by split; [left|]].
    + intros (j & [Hj|[= -> ->]] & ->); [right|by left]. split; [|by exists j].
      intros [= ->]. apply Hn, list_elem_of_fmap. by exists (name', j).
  - intros j k val [[[= <- <-] _]|[_ E]]%lookup_insert_Some; [by left|].
    rewrite fmap_app, elem_of_app. destruct (H5 _ _ _ E) as [|[|]]; auto.
  - by rewrite ns_state_set_length.
  - intros j Hj. rewrite ns_state_get_set by (done || unfold NAMESPACE_MAX_CNT in *; lia).
    rewrite fmap_app, elem_of_app. simpl. rewrite list_elem_of_singleton. case_decide; [naive_solver|].
    rewrite H7 by done. naive_solver.
Qed.

Lemma view_create L st m name i ns k :
  ns_reg L st m -> m !! (0, name) = None -> i ∉ L.*2 -> 1 <= i <= NAMESPACE_MAX_CNT ->
  view (<[(0, name) := [i]]> m) ns k = view m ns k.
Proof.
  intros R Hm Hi Hr. unfold view. destruct ns as [name'|]; [|simpl; by rewrite lookup_insert_ne by done]. simpl.
  destruct (decide (name' = name)) as [->|Hne].
  - rewrite lookup_insert_eq, Hm, lookup_insert_ne by (intros [= <- _]; lia). by apply (unlisted _ _ _ R).
  - rewrite lookup_insert_ne by congruence. destruct (m !! (0, name')) as [val|] eqn:E; [|done].
    apply (nr_stored _ _ _ R) in E as (j & Hj & ->).
    assert (Hj' : j ∈ L.*2) by (apply list_elem_of_fmap; by exists (name', j)).
    apply (listed_range _ _ _ R) in Hj'. by rewrite lookup_insert_ne by (intros [= <- _]; lia).
Qed.

Lemma reg_remove A B st m name i :
  ns_reg (A ++ (name, i) :: B) st m -> keys_of i m = 0%nat ->
  ns_reg (A ++ B) (ns_state_set st i false) (delete (0, name) m).
Proof.
  intros [H1 H2 H3 H4 H5 H6 H7] Hk. rewrite fmap_app, fmap_cons in H1. rewrite fmap_app, fmap_cons in H2. simpl in H1, H2.
  apply NoDup_app in H1 as (H11 & H12 & [H13 H14]%NoDup_cons).
  apply NoDup_app in H2 as (H21 & H22 & [H23 H24]%NoDup_cons).
  apply Forall_app in H3 as [H31 [H32 H33]%Forall_cons]. rewrite keys_of_zero in Hk. split.
  - rewrite fmap_app. apply NoDup_app. set_solver.
  - rewrite fmap_app. apply NoDup_app. set_solver.
  - by apply Forall_app.
  - intros name' val. rewrite lookup_delete_Some, H4. setoid_rewrite elem_of_app. setoid_rewrite elem_of_cons. split.
    + intros [Hne (j & [Hj|[[= -> ->]|Hj]] & ->)]; [exists j; auto|done|exists j; auto].
    + intros (j & Hj & ->). split; [|exists j; tauto]. intros [= <-].
      destruct Hj as [Hj|Hj]; [apply (H12 name)|apply H13]; [|by left|]; apply list_elem_of_fmap; by exists (name, j).
  - intros j k val [Hne E]%lookup_delete_Some. assert (j <> i) by (intros ->; by rewrite Hk in E).
    destruct (H5 _ _ _ E) as [|[|Hj]]; [auto|auto|]. right; right.
    rewrite fmap_app, fmap_cons, elem_of_app, elem_of_cons in Hj. rewrite fmap_app, elem_of_app. simpl in Hj. tauto.
  - by rewrite ns_state_set_length.
  - intros j Hj. simpl in H32. rewrite ns_state_get_set by (done || unfold NAMESPACE_MAX_CNT in *; lia).
    rewrite fmap_app, elem_of_app. case_decide as Hd.
    + subst j. split; [done|]. intros [Hj'|Hj']; [|done]. destruct (H22 i Hj'). by left.
    + rewrite H7, fmap_app, fmap_cons, elem_of_app, elem_of_cons by done. simpl. split; [intros [|[|]]|intros [|]]; auto; congruence.
Qed.

Lemma view_remove A B st m name i ns k :
  ns_reg (A ++ (name, i) :: B) st m -> keys_of i m = 0%nat -> view (delete (0, name) m) ns k = view m ns k.
Proof.
  intros R Hk. rewrite keys_of_zero in Hk. unfold view.
  destruct ns as [name'|]; [|simpl; by rewrite lookup_delete_ne by done]. simpl.
  destruct (decide (name' = name)) as [->|Hne].
  - rewrite lookup_delete_eq. assert (E : ns_of m (Some name) = Some i) by (apply (ns_of_name _ _ _ R); set_solver).
    simpl in E. rewrite E. by rewrite Hk.
  - rewrite lookup_delete_ne by congruence. destruct (m !! (0, name')) as [val|] eqn:E; [|done].
    apply (nr_stored _ _ _ R) in E as (j & Hj & ->).
    assert (Hj' : j ∈ (A ++ (name, i) :: B).*2) by (apply list_elem_of_fmap; by exists (name', j)).
    apply (listed_range _ _ _ R) in Hj'. by rewrite lookup_delete_ne by (intros [= <- _]; lia).
Qed.
End create_remove.

(** ** Counters *)
Section counters.
Implicit Types (l : list namespace_info) (m : emap) (i : Z) (k val : bytes).

Lemma bump_pairs f i l : ns_pair <$> bump f i l = ns_pair <$> l.
Proof. unfold bump. rewrite <- list_fmap_compose. apply list_fmap_ext. intros _ x _. simpl. by case_match. Qed.

Lemma pairs_fst l : (ns_pair <$> l).*1 = ns_name <$> l.
Proof. by rewrite <- list_fmap_compose. Qed.

Lemma pairs_snd l : (ns_pair <$> l).*2 = ns_index <$> l.
Proof. by rewrite <- list_fmap_compose. Qed.

Lemma bump_bump f h i l : bump f i (bump h i l) = bump (fun c => f (h c)) i l.
Proof.
  unfold bump. rewrite <- list_fmap_compose. apply list_fmap_ext. intros _ x _. simpl.
  destruct (ns_index x =? i) eqn:E; simpl; by rewrite E.
Qed.

Lemma dec_ns_bump i l :
  NoDup (ns_index <$> l) -> Forall (fun x => 1 <= ns_index x <= NAMESPACE_MAX_CNT) l ->
  dec_ns i l = bump (fun c => u32 (c - 1)) i l.
Proof.
  intros Hn Hr. unfold dec_ns. destruct (Z.ltb_spec NAMESPACE_MAX_CNT i).
  - symmetry. apply bump_absent. intros (x & -> & Hx)%list_elem_of_fmap.
    pose proof (proj1 (Forall_forall _ _) Hr x Hx). simpl in *. lia.
  - apply (bump_found (fun c => u32 (c - 1))); [|done]. intros x. apply Z.eqb_eq.
Qed.

Lemma count_bump f i l m m' :
  ns_count l m ->
  (forall j, j <> i -> keys_of j m' = keys_of j m) ->
  f (Z.of_nat (keys_of i m)) = Z.of_nat (keys_of i m') -> ns_count (bump f i l) m'.
Proof.
  intros H Hj Hi. apply Forall_fmap. eapply Forall_impl; [exact H|]. intros x Hx. simpl in *.
  destruct (Z.eqb_spec (ns_index x) i) as [E|E]; simpl.
  - by rewrite Hx, E, Hi.
  - by rewrite Hj.
Qed.

Lemma bump_id i l m : ns_count l m -> Z.of_nat (keys_of i m) < 2 ^ 32 -> 0 < Z.of_nat (keys_of i m) ->
  bump (fun c => u32 (u32 (c - 1) + 1)) i l = l.
Proof.
  intros H Hb Hp. unfold bump. rewrite <- (list_fmap_id l) at 2. apply list_fmap_ext. intros j x Hx. simpl.
  destruct (Z.eqb_spec (ns_index x) i) as [E|E]; [|done].
  pose proof (proj1 (Forall_lookup _ _) H _ _ Hx) as Hc. simpl in Hc. destruct x as [a b c]. simpl in *.
  f_equal. rewrite Hc, E. rewrite (u32_small (_ - 1)) by (unfold in_width; lia). rewrite u32_small; unfold in_width; lia.
Qed.

(** No counter overflows: the keys fit the pages. *)
Lemma space_size m : map_Forall kv_ok m -> Z.of_nat (size m) <= space m.
Proof.
  intros H. unfold space. rewrite <- length_map_to_list.
  assert (Hl : Forall (fun kv => kv_ok kv.1 kv.2) (map_to_list m)) by (by apply map_Forall_to_list in H; eapply Forall_impl; [exact H|]; intros [? ?]).
  induction Hl as [|[[i k] val] l Hk _ IH]; [done|]. destruct Hk as (_ & _ & Hv). rewrite fmap_cons. cbn [sum_n foldr length snd] in *.
  change (i_n (elem_of_kv (i, k, val))) with (i_n (elem i k val)). rewrite need_elem. fold (sum_n (elem_of_kv <$> l)).
  pose proof (need_bounds val Hv). lia.
Qed.
End counters.

(** ** The store with its namespaces *)
Section api.
Context {D : Type} `{FD : !FlashDev D} `{ST : !Storage D}.
Abbreviation len := (@st_len D FD ST).
Implicit Types (d : D) (i n : Z) (v : nvds_env) (m : emap) (k name val : bytes) (ns : option bytes) (pgs : list pg).

Record kv n v d m : Prop := Kv {
  kv_store : exists pgs, store n v d pgs /\ holds pgs m;
  kv_reg : ns_reg (ns_pair <$> ns_list v) (ns_states v) m;
  kv_count : ns_count (ns_list v) m;
  kv_pages : 4096 * Z.of_nat (npages v) = len }.

(** The client's map. *)
Definition refines n v d (f : gmap (option bytes * bytes) bytes) : Prop :=
  exists m, kv n v d m /\ forall ns k, f !! (ns, k) = view m ns k.

Lemma kv_index n v d m :
  kv n v d m -> NoDup (ns_index <$> ns_list v) /\ Forall (fun x => 1 <= ns_index x <= NAMESPACE_MAX_CNT) (ns_list v).
Proof.
  intros [_ [_ H2 H3 _ _ _ _] _ _]. rewrite pairs_snd in H2. split; [done|]. by apply Forall_fmap in H3.
Qed.

Lemma kv_mono n n' v d m : n <= n' -> n' < 2 ^ 31 -> kv n v d m -> kv n' v d m.
Proof. intros H1 H2 [(pgs & Hs & Hh) ? ? ?]. split; try done. exists pgs. split; [by eapply store_mono|done]. Qed.

Lemma load_bound n v d pgs : core n v d pgs -> sum_n (live_items pgs) <= ENTRY_COUNT_PER_PAGE * Z.of_nat (length pgs).
Proof.
  intros H. rewrite sum_n_live_items. pose proof (so_pages _ _ _ _ H) as Hp. clear H.
  induction Hp as [|g pgs' (p & st & Hi & _) _ IH]; [by simpl; lia|]. cbn [foldr length].
  pose proof (hi_items _ _ _ _ _ Hi) as Hpi. pose proof (items_bound _ _ _ Hpi).
  pose proof (sum_n_lives _ (pi_ok _ _ _ Hpi)). unfold load, ENTRY_COUNT_PER_PAGE in *. lia.
Qed.

Lemma kv_keys n v d m i : kv n v d m -> Z.of_nat (keys_of i m) < 2 ^ 31.
Proof.
  intros [(pgs & Hs & Hh) _ _ Hp]. pose proof (load_bound _ _ _ _ (so_core _ _ _ _ Hs)) as Hb.
  rewrite (holds_space _ _ Hh) in Hb. pose proof (space_size m (ho_ok _ _ Hh)). pose proof (keys_of_le i m).
  unfold npages in Hp. rewrite (so_used _ _ _ _ (so_core _ _ _ _ Hs)), length_fmap in Hp.
  destruct (st_base_ok (D := D)) as [? _], (st_size_ok (D := D)) as [? ?]. unfold ENTRY_COUNT_PER_PAGE, in_width in *. lia.
Qed.

Lemma ignore_add_ns i v d :
  NoDup (ns_index <$> ns_list v) -> Forall (fun j => 1 <= j <= NAMESPACE_MAX_CNT) (ns_index <$> ns_list v) ->
  ignore (ns_add_used_cnt i) (v, d) =
    (Ok tt, (with_ns (bump (fun c => u32 (c + 1)) i (ns_list v)) (ns_states v) v, d)).
Proof.
  intros Hn Hr. unfold ignore, ns_add_used_cnt. destruct (Z.ltb_spec NAMESPACE_MAX_CNT i).
  - rewrite bump_absent; [by rewrite with_ns_id|]. intros Hi.
    pose proof (proj1 (Forall_forall _ _) Hr i Hi). simpl in *. lia.
  - rewrite <- (bump_found (fun c => u32 (c + 1)) i (fun x => ns_index x =? i)) by (done || intros x; apply Z.eqb_eq).
    unfold mbind, prog_bind, get_env. cbn [fst].
    destruct (find_ns _ (ns_list v)) as [[j x]|]; [done|by rewrite with_ns_id].
Qed.

(** Putting under an index. *)
Lemma put_at n v d m ns i k val :
  kv n v d m -> ns_of m ns = Some i -> key_ok k -> value_ok val -> n + 1 < 2 ^ 31 ->
  exists r v' d', (_ ← data_element_put i k val; ignore (ns_add_used_cnt i)) (v, d) = (r, (v', d')) /\
    ((r = Ok tt /\ kv (n + 1) v' d' (<[(i, k) := val]> m)) \/
     (r = Err NVDS_E_NO_SPACE /\ kv (n + 1) v' d' (delete (i, k) m) /\ crowded v val (delete (i, k) m))).
Proof.
  intros Hkv Hi Hk Hv Hn. pose proof (ns_of_range _ _ _ (kv_reg _ _ _ _ Hkv) _ _ Hi) as Hr.
  destruct (kv_index _ _ _ _ Hkv) as [Hnd Hrg]. pose proof (kv_keys _ _ _ _ i Hkv) as Hb.
  pose proof Hkv as [(pgs & Hs & Hh) Hreg Hcnt Hp].
  assert (Hkvok : kv_ok (i, k) val) by (split; [simpl; unfold in_width, NAMESPACE_NULL_IDX in *; lia|done]).
  destruct (data_element_put_ok _ _ _ _ _ i k val Hs Hh Hkvok Hn)
    as (r & v1 & d1 & pgs1 & E & Hs1 & Hp1 & Hst1 & Hl1 & Hcase).
  set (l1 := if decide (is_Some (m !! (i, k))) then bump (fun c => u32 (c - 1)) i (ns_list v) else ns_list v).
  assert (El : ns_list v1 = l1) by (rewrite Hl1; subst l1; case_decide; [by apply dec_ns_bump|done]).
  assert (Epairs : ns_pair <$> l1 = ns_pair <$> ns_list v) by (subst l1; case_decide; [apply bump_pairs|done]).
  assert (Eindex : ns_index <$> l1 = ns_index <$> ns_list v) by by rewrite <- !pairs_snd, Epairs.
  destruct Hcase as [[-> Hh1]|(-> & Hne & Hh1 & Hcr)]; cycle 1.
  - exists (Err NVDS_E_NO_SPACE), v1, d1. split; [by unfold mbind, prog_bind; rewrite E|]. right. split_and!; [done| |done].
    split; [by exists pgs1| | |by rewrite Hp1].
    + rewrite El, Hst1, Epairs. by apply reg_delete; [|lia].
    + rewrite El. subst l1. destruct (m !! (i, k)) as [old|] eqn:Em; cycle 1.
      { rewrite delete_id by done. by rewrite decide_False by (intros [? ?]; done). }
      rewrite decide_True by done.
      assert (0 < keys_of i m)%nat. { destruct (keys_of i m) eqn:E0; [|lia]. by rewrite (proj1 (keys_of_zero i m) E0) in Em. }
      apply (count_bump _ _ _ m); [done| |].
      * intros j Hj. rewrite keys_of_delete, decide_False by (intros [? _]; congruence). lia.
      * rewrite keys_of_delete, decide_True by by rewrite Em. rewrite u32_small by (unfold in_width; lia). lia.
  - set (l2 := bump (fun c => u32 (c + 1)) i l1).
    exists (Ok tt), (with_ns l2 (ns_states v) v1), d1. split.
    { unfold mbind, prog_bind. rewrite E, ignore_add_ns; rewrite El, ?Hst1; try done; [by rewrite Eindex|].
      rewrite Eindex. by apply Forall_fmap. }
    left. split; [done|]. split.
    + exists pgs1. split; [by apply store_with_ns|done].
    + cbn [with_ns ns_list ns_states]. subst l2. rewrite bump_pairs, Epairs. apply reg_insert; [done|].
      by destruct (ns_of_listed _ _ _ Hreg _ _ Hi) as [[_ ?]|?]; [left|right].
    + cbn [with_ns ns_list]. subst l2 l1. destruct (m !! (i, k)) as [old|] eqn:Em.
      * rewrite decide_True by done. rewrite bump_bump.
        assert (0 < keys_of i m)%nat. { destruct (keys_of i m) eqn:E0; [|lia]. by rewrite (proj1 (keys_of_zero i m) E0) in Em. }
        rewrite (bump_id _ _ m) by (done || lia). eapply Forall_impl; [exact Hcnt|]. intros x Hx. simpl in *.
        rewrite Hx, keys_of_insert, decide_False by (rewrite Em; by intros []). lia.
      * rewrite decide_False by (intros []; done). apply (count_bump _ _ _ m); [done| |].
        -- intros j Hj. rewrite keys_of_insert, decide_False by (intros [? _]; congruence). lia.
        -- rewrite keys_of_insert, decide_True by done.
           rewrite u32_small by (unfold in_width; lia). lia.
    + change (npages (with_ns l2 (ns_states v) v1)) with (npages v1). by rewrite Hp1.
Qed.
(** ** Resolving a namespace *)
Lemma find_name m st l name :
  ns_reg (ns_pair <$> l) st m ->
  match find_ns (fun x => bool_decide (ns_name x = name)) l with
  | Some (j, x) => l !! j = Some x /\ ns_name x = name /\ ns_of m (Some name) = Some (ns_index x)
  | None => ns_of m (Some name) = None
  end.
Proof.
  intros R. pose proof (find_ns_some ns_name name (fun x => bool_decide (ns_name x = name)) l
    (fun x => bool_decide_eq_true _)) as H. destruct (find_ns _ l) as [[j x]|].
  - destruct H as [Hj Hx]. split_and!; [done|done|]. apply (ns_of_name _ _ _ R). apply list_elem_of_fmap. exists x.
    split; [by rewrite <- Hx|by eapply list_elem_of_lookup_2].
  - destruct (ns_of m (Some name)) as [i|] eqn:E; [|done]. apply (ns_of_name _ _ _ R) in E. destruct H.
    rewrite <- pairs_fst. apply list_elem_of_fmap. by exists (name, i).
Qed.

Definition ns_fits ns : Prop := match ns with None => True | Some name => key_ok name end.

Lemma key_fits name : key_ok name -> (KEY_NAME_MAX_SIZE - 1 <? Z.of_nat (length name)) = false.
Proof. intros (_ & _ & H). unfold KEY_NAME_MAX_SIZE. apply Z.ltb_ge. lia. Qed.

Lemma resolve n v d m os ns create :
  kv n v d m -> ns_fits ns -> is_Some (ns_of m ns) \/ create = false ->
  ns_index_by_namespace os ns create (v, d) =
    (match ns_of m ns with Some i => Ok i | None => Err NVDS_E_NOT_FOUND end, (v, d)).
Proof.
  intros Hkv Hf Hc. destruct ns as [name|]; [|done]. unfold ns_index_by_namespace.
  rewrite (key_fits name Hf). unfold mbind, prog_bind, get_env. cbn [fst].
  pose proof (find_name m _ _ name (kv_reg _ _ _ _ Hkv)) as H.
  destruct (find_ns _ (ns_list v)) as [[j x]|].
  - destruct H as (_ & _ & ->). done.
  - rewrite H in Hc |- *. destruct Hc as [[? ?]| ->]; done.
Qed.

Lemma free_index st i : free_ns_index st = Some i -> 1 <= i <= NAMESPACE_MAX_CNT /\ ns_state_get st i = false.
Proof.
  unfold free_ns_index. intros [Hi Hs]%find_some. apply list_elem_of_In, elem_of_seqZ in Hi.
  apply negb_true_iff in Hs. unfold NAMESPACE_MAX_CNT. split; [lia|done].
Qed.

(** [namespace_create] answers a new index, or that there is no room; the
    client's map is the same. *)
Lemma create_ok n v d m os name :
  kv n v d m -> key_ok name -> ns_of m (Some name) = None -> n + 1 < 2 ^ 31 ->
  exists r v' d', namespace_create os name (v, d) = (r, (v', d')) /\
    ((exists i m', r = Ok i /\ kv (n + 1) v' d' m' /\ ns_of m' (Some name) = Some i /\
        forall ns k, view m' ns k = view m ns k) \/
     (r = Err NVDS_E_NO_SPACE /\ kv (n + 1) v' d' m)).
Proof.
  intros Hkv Hk Hnone Hn. pose proof Hkv as [(pgs & Hs & Hh) R Hcnt Hp].
  destruct (ns_of_absent _ _ _ R _ Hnone) as [Hm Hname]. unfold namespace_create.
  unfold mbind at 1, prog_bind at 1, get_env. cbn [fst].
  assert (Hkv' : kv (n + 1) v d m) by (eapply kv_mono; [| |exact Hkv]; lia).
  destruct (free_ns_index (ns_states v)) as [i|] eqn:Ei; [|by exists (Err NVDS_E_NO_SPACE), v, d; split; [|right]].
  destruct (malloc_ok os); cbn [negb]; [|by exists (Err NVDS_E_NO_SPACE), v, d; split; [|right]].
  apply free_index in Ei as [Hr Hb].
  assert (Hi : i ∉ (ns_pair <$> ns_list v).*2) by (rewrite <- (nr_bits _ _ _ R) by done; congruence).
  assert (Hkvok : kv_ok (0, name) [i]).
  { unfold NAMESPACE_MAX_CNT in Hr. split_and!; [done|done|]. split; [|done].
    constructor; [unfold in_width; lia|constructor]. }
  destruct (data_element_put_ok _ _ _ _ _ 0 name [i] Hs Hh Hkvok Hn)
    as (r & v1 & d1 & pgs1 & E & Hs1 & Hp1 & Hst1 & Hl1 & Hcase).
  rewrite Hm, decide_False in Hl1 by (intros [? ?]; done).
  destruct Hcase as [[-> Hh1]|(-> & _ & Hh1 & _)].
  - eexists (Ok i), _, d1. split; [by rewrite (bind_ok _ _ _ _ _ E)|]. left.
    exists i, (<[(0, name) := [i]]> m). split; [done|]. cbn [fst]. rewrite Hl1, Hst1. split_and!.
    + split.
      * exists pgs1. split; [by apply store_with_ns|done].
      * cbn [with_ns ns_list ns_states]. rewrite fmap_app. by apply reg_create.
      * cbn [with_ns ns_list]. apply Forall_app. split.
        -- eapply Forall_impl; [exact (proj2 (Forall_and _ _) (conj Hcnt (proj2 (kv_index _ _ _ _ Hkv))))|].
           intros x [Hx Hx1]. simpl in Hx, Hx1 |- *. rewrite Hx, keys_of_insert, decide_False by (intros [? _]; lia). lia.
        -- constructor; [|constructor]. cbn [used_cnt ns_index].
           rewrite keys_of_insert, decide_False by (intros [? _]; lia).
           rewrite (proj2 (keys_of_zero i m)); [done|]. intros k. by eapply unlisted.
      * change (npages (with_ns _ _ v1)) with (npages v1). by rewrite Hp1.
    + cbn [ns_of]. by rewrite lookup_insert_eq.
    + intros ns k. by eapply view_create.
  - exists (Err NVDS_E_NO_SPACE), v1, d1. split; [by rewrite (bind_err _ _ _ _ _ E)|]. right. split; [done|].
    rewrite delete_id in Hh1 by done. split; [by exists pgs1|by rewrite Hl1, Hst1|by rewrite Hl1|by rewrite Hp1].
Qed.
(** ** Deleting *)

(** The state between the deletion of a key of [i] and the update of its
    counter, which still counts that key. *)
Record kv_over pgs i n v d m : Prop := KvOver {
  ko_store : store n v d pgs;
  ko_holds : holds pgs m;
  ko_reg : ns_reg (ns_pair <$> ns_list v) (ns_states v) m;
  ko_count : Forall (fun x => used_cnt x = Z.of_nat (keys_of (ns_index x) m) + (if decide (ns_index x = i) then 1 else 0))
               (ns_list v);
  ko_pages : 4096 * Z.of_nat (npages v) = len }.

Lemma npages_same v v' : same_lists v v' -> npages v' = npages v.
Proof. intros (_ & H1 & H2). unfold npages. by rewrite H1, H2. Qed.

(** Deleting an element of [i], in whatever way, leaves the counter one too high. *)
Lemma over_after n v d m v1 d1 pgs1 i k old :
  kv n v d m -> 1 <= i -> m !! (i, k) = Some old ->
  store n v1 d1 pgs1 -> holds pgs1 (delete (i, k) m) -> same_lists v v1 ->
  kv_over pgs1 i n v1 d1 (delete (i, k) m).
Proof.
  intros [_ R Hcnt Hp] Hi Hm Hs1 Hh1 Hsame. pose proof Hsame as [[Hl Hst] _]. split; [exact Hs1|exact Hh1|..].
  - rewrite Hl, Hst. apply reg_delete; [done|intros ->; lia].
  - rewrite Hl. eapply Forall_impl; [exact Hcnt|]. intros x Hx. simpl in Hx |- *. rewrite Hx, keys_of_delete.
    destruct (decide (ns_index x = i)) as [->|Hne].
    + assert (0 < keys_of i m)%nat. { destruct (keys_of i m) eqn:E0; [|lia]. by rewrite (proj1 (keys_of_zero i m) E0) in Hm. }
      rewrite decide_True by by rewrite Hm. lia.
    + rewrite decide_False by (intros [? _]; congruence). lia.
  - by rewrite (npages_same _ _ Hsame).
Qed.

Lemma delete_over n v d m ns i k old :
  kv n v d m -> ns_of m ns = Some i -> key_ok k -> m !! (i, k) = Some old ->
  exists v' d' pgs', data_element_del i k (v, d) = (Ok tt, (v', d')) /\ kv_over pgs' i n v' d' (delete (i, k) m) /\
    ns_list v' = ns_list v.
Proof.
  intros Hkv Hi Hk Hm. pose proof Hkv as [(pgs & Hs & Hh) R _ _]. pose proof (ns_of_range _ _ _ R _ _ Hi).
  pose proof (data_element_del_ok _ _ _ _ _ i k Hs Hh Hk) as Hd. rewrite Hm in Hd.
  destruct Hd as (v1 & d1 & pgs1 & E & Hs1 & Hh1 & Hsame & _). exists v1, d1, pgs1.
  split; [exact E|]. split; [|apply Hsame].
  eapply over_after; [exact Hkv|lia|exact Hm|done..].
Qed.

(** Namespace [x] at position [j] loses its last key and goes. *)
Lemma drop_last pgs i n v d m j x :
  kv_over pgs i n v d m -> ns_list v !! j = Some x -> ns_index x = i -> keys_of i m = 0%nat -> key_ok (ns_name x) ->
  exists v' d' pgs', (_ ← upd_env (fun v => with_ns (delete j (ns_list v)) (ns_state_set (ns_states v) (ns_index x) false) v);
      data_element_del 0 (ns_name x)) (v, d) = (Ok tt, (v', d')) /\
    store n v' d' pgs' /\ holds pgs' (delete (0, ns_name x) m) /\ Forall2 lesser pgs pgs' /\
    kv n v' d' (delete (0, ns_name x) m) /\ forall ns k, view (delete (0, ns_name x) m) ns k = view m ns k.
Proof.
  intros [Hs Hh R Hcnt Hp] Hj Hx Hz Hk. subst i.
  pose proof (list_elem_of_split_length _ _ _ Hj) as (A & B & El & HA).
  assert (Ep : ns_pair <$> ns_list v = (ns_pair <$> A) ++ (ns_name x, ns_index x) :: (ns_pair <$> B))
    by (by rewrite El, fmap_app, fmap_cons).
  assert (Ed : delete j (ns_list v) = A ++ B) by (by rewrite El, HA, delete_middle).
  rewrite Ep in R. set (st' := ns_state_set (ns_states v) (ns_index x) false).
  pose proof (store_with_ns _ _ _ _ (A ++ B) st' Hs) as Hs1.
  pose proof (data_element_del_ok _ _ _ _ _ 0 (ns_name x) Hs1 Hh Hk) as Hd.
  rewrite (proj2 (nr_stored _ _ _ R (ns_name x) [ns_index x])) in Hd by (exists (ns_index x); set_solver).
  destruct Hd as (v1 & d1 & pgs1 & E & Hs2 & Hh2 & Hsame & Hless). pose proof Hsame as [[Hl Hst] _].
  exists v1, d1, pgs1. split; [|split; [exact Hs2|split; [exact Hh2|split; [exact Hless|split]]]].
  - rewrite <- E. unfold mbind, prog_bind, upd_env. cbn [fst snd]. by rewrite Ed.
  - split.
    + by exists pgs1.
    + rewrite Hl, Hst. cbn [with_ns ns_list ns_states]. rewrite fmap_app. by apply reg_remove.
    + rewrite Hl. cbn [with_ns ns_list]. pose proof (nr_index _ _ _ R) as Hnd. rewrite <- Ep, pairs_snd, El in Hnd.
      pose proof (nr_range _ _ _ R) as Hrg.
      rewrite fmap_app, fmap_cons in Hnd. apply NoDup_app in Hnd as (_ & HAx & [HBx _]%NoDup_cons).
      rewrite El in Hcnt. apply Forall_app in Hcnt as [HcA [_ HcB]%Forall_cons].
      apply Forall_app in Hrg as [HrA [_ HrB]%Forall_cons]. apply Forall_fmap in HrA, HrB.
      apply Forall_app. split; apply Forall_forall; intros y Hy.
      * pose proof (proj1 (Forall_forall _ _) HcA y Hy) as Hc. simpl in Hc.
        pose proof (proj1 (Forall_forall _ _) HrA y Hy) as Hr. simpl in Hr.
        rewrite decide_False in Hc; [|intros Ey; destruct (HAx (ns_index y)); [by apply list_elem_of_fmap_2|rewrite Ey; by left]].
        rewrite keys_of_delete, decide_False by (intros [? _]; lia). lia.
      * pose proof (proj1 (Forall_forall _ _) HcB y Hy) as Hc. simpl in Hc.
        pose proof (proj1 (Forall_forall _ _) HrB y Hy) as Hr. simpl in Hr.
        rewrite decide_False in Hc; [|intros Ey; apply HBx; rewrite <- Ey; by apply list_elem_of_fmap_2].
        rewrite keys_of_delete, decide_False by (intros [? _]; lia). lia.
    + rewrite (npages_same _ _ Hsame). exact Hp.
  - intros ns k. by eapply view_remove.
Qed.

(** Otherwise its counter goes down by one. *)
Lemma drop_one pgs i n v d m :
  kv_over pgs i n v d m -> Z.of_nat (keys_of i m) + 1 < 2 ^ 31 ->
  kv n (with_ns (bump (fun c => u32 (c - 1)) i (ns_list v)) (ns_states v) v) d m.
Proof.
  intros [Hs Hh R Hcnt Hp] Hb. split.
  - exists pgs. split; [by apply store_with_ns|done].
  - cbn [with_ns ns_list ns_states]. by rewrite bump_pairs.
  - cbn [with_ns ns_list]. apply Forall_fmap. eapply Forall_impl; [exact Hcnt|]. intros x Hx. simpl in Hx |- *.
    case_decide as Ei; [rewrite (proj2 (Z.eqb_eq _ _) Ei)|rewrite (proj2 (Z.eqb_neq _ _) Ei)]; simpl; rewrite Hx.
    + rewrite Ei. rewrite u32_small by (unfold in_width; lia). lia.
    + lia.
  - exact Hp.
Qed.

(** What follows the deletion of a key in [nvds_data_del]. *)
Lemma drop_key pgs i n v d m :
  kv_over pgs i n v d m -> Z.of_nat (keys_of i m) + 1 < 2 ^ 31 ->
  Forall (fun x => key_ok (ns_name x)) (ns_list v) ->
  exists v' d' m', ignore (ns_del_used_cnt i true) (v, d) = (Ok tt, (v', d')) /\ kv n v' d' m' /\
    forall ns k, view m' ns k = view m ns k.
Proof.
  intros Hkv Hb Hnames. pose proof (nr_range _ _ _ (ko_reg _ _ _ _ _ _ Hkv)) as Hr. apply Forall_fmap in Hr.
  pose proof (nr_index _ _ _ (ko_reg _ _ _ _ _ _ Hkv)) as Hn. rewrite pairs_snd in Hn.
  pose proof (drop_one _ _ _ _ _ _ Hkv Hb) as Hone. unfold ignore, ns_del_used_cnt.
  destruct (Z.ltb_spec NAMESPACE_MAX_CNT i) as [Hi|Hi].
  { rewrite bump_absent, with_ns_id in Hone; [by exists v, d, m|]. intros (x & -> & Hx)%list_elem_of_fmap.
    pose proof (proj1 (Forall_forall _ _) Hr x Hx) as Hrx. simpl in Hrx. lia. }
  unfold mbind at 1, prog_bind at 1, get_env. cbn [fst].
  pose proof (find_ns_some ns_index i (fun x => ns_index x =? i) (ns_list v) (fun x => Z.eqb_eq _ _)) as Hf.
  destruct (find_ns _ (ns_list v)) as [[j x]|]; cycle 1.
  { rewrite bump_absent, with_ns_id in Hone by done. by exists v, d, m. }
  destruct Hf as [Hj Hx]. cbn [ns_name ns_index used_cnt].
  pose proof (proj1 (Forall_lookup _ _) (ko_count _ _ _ _ _ _ Hkv) _ _ Hj) as Hc. simpl in Hc.
  rewrite decide_True in Hc by done. rewrite Hx in Hc.
  rewrite Hc, u32_small by (unfold in_width; lia).
  destruct (Z.eqb_spec (Z.of_nat (keys_of i m) + 1 - 1) 0) as [Ez|Ez]; cbn [andb].
  - destruct (drop_last _ _ _ _ _ _ _ _ Hkv Hj Hx ltac:(lia) (proj1 (Forall_lookup _ _) Hnames _ _ Hj)) as (v1 & d1 & pgs1 & E & _ & _ & _ & H1 & H2).
    exists v1, d1, (delete (0, ns_name x) m). split; [|done]. rewrite <- Hx. by rewrite E.
  - eexists _, d, m. split; [reflexivity|]. split; [|done]. cbn [fst].
    rewrite <- Hx, <- (bump_one (fun c => u32 (c - 1)) (ns_list v) j x Hn Hj) in Hone.
    rewrite Hc, u32_small in Hone by (unfold in_width; lia). exact Hone.
Qed.
Lemma names_ok pgs m st l : holds pgs m -> ns_reg (ns_pair <$> l) st m -> Forall (fun x => key_ok (ns_name x)) l.
Proof.
  intros Hh R. apply Forall_forall. intros x Hx.
  assert (E : m !! (0, ns_name x) = Some [ns_index x]).
  { apply (nr_stored _ _ _ R). exists (ns_index x). split; [|done]. by apply (list_elem_of_fmap_2 ns_pair). }
  by apply (ho_ok _ _ Hh) in E as (_ & ? & _).
Qed.

Lemma key_not_bad k : key_ok k -> bad_key (Some k) = false.
Proof. apply key_fits. Qed.

(** ** The exported operations *)
Lemma get_kv n v d m os ns k cap :
  kv n v d m -> mutex_ok os = true -> ns_fits ns -> key_ok k ->
  nvds_data_get os ns (Some k) cap (v, d) =
    (match view m ns k with Some val => Ok (get_answer val cap) | None => Err NVDS_E_NOT_FOUND end, (v, d)).
Proof.
  intros Hkv Hos Hf Hk. unfold nvds_data_get. rewrite (key_not_bad k Hk), Hos. cbn [negb].
  pose proof (resolve n v d m os ns false Hkv Hf (or_intror eq_refl)) as E. unfold view.
  destruct (ns_of m ns) as [i|]; [|by rewrite (bind_err _ _ _ _ _ E)].
  rewrite (bind_ok _ _ _ _ _ E). destruct Hkv as [(pgs & Hs & Hh) _ _ _]. by eapply data_element_get_ok.
Qed.

Lemma find_kv n v d m os ns k :
  kv n v d m -> mutex_ok os = true -> ns_fits ns -> key_ok k ->
  nvds_data_find os ns (Some k) (v, d) =
    (match view m ns k with Some _ => Ok tt | None => Err NVDS_E_NOT_FOUND end, (v, d)).
Proof.
  intros Hkv Hos Hf Hk. unfold nvds_data_find. rewrite (key_not_bad k Hk), Hos. cbn [negb].
  pose proof (resolve n v d m os ns false Hkv Hf (or_intror eq_refl)) as E. unfold view.
  destruct (ns_of m ns) as [i|]; [|by rewrite (bind_err _ _ _ _ _ E)].
  rewrite (bind_ok _ _ _ _ _ E). destruct Hkv as [(pgs & Hs & Hh) _ _ _].
  rewrite (data_element_find_ok _ _ _ _ _ _ _ Hs Hh Hk). by destruct (m !! (i, k)).
Qed.

Lemma del_kv n v d m os ns k :
  kv n v d m -> mutex_ok os = true -> ns_fits ns -> key_ok k ->
  match view m ns k with
  | None => nvds_data_del os ns (Some k) (v, d) = (Err NVDS_E_NOT_FOUND, (v, d))
  | Some _ => exists v' d' m', nvds_data_del os ns (Some k) (v, d) = (Ok tt, (v', d')) /\ kv n v' d' m' /\
      forall ns' k', view m' ns' k' = if decide ((ns, k) = (ns', k')) then None else view m ns' k'
  end.
Proof.
  intros Hkv Hos Hf Hk. unfold nvds_data_del. rewrite (key_not_bad k Hk), Hos. cbn [negb].
  pose proof (resolve n v d m os ns false Hkv Hf (or_intror eq_refl)) as E. unfold view at 1.
  destruct (ns_of m ns) as [i|] eqn:Ei; [|by rewrite (bind_err _ _ _ _ _ E)]. rewrite (bind_ok _ _ _ _ _ E).
  destruct (m !! (i, k)) as [old|] eqn:Em; cycle 1.
  { destruct Hkv as [(pgs & Hs & Hh) _ _ _]. pose proof (data_element_del_ok _ _ _ _ _ i k Hs Hh Hk) as Hd.
    rewrite Em in Hd. by rewrite (bind_err _ _ _ _ _ Hd). }
  destruct (delete_over _ _ _ _ _ _ _ _ Hkv Ei Hk Em) as (v1 & d1 & pgs1 & E1 & Hover & Hl).
  rewrite (bind_ok _ _ _ _ _ E1). pose proof (kv_keys _ _ _ _ i Hkv) as Hb.
  pose proof Hkv as [(pgs & Hs & Hh) R _ _].
  destruct (drop_key _ _ _ _ _ _ Hover) as (v2 & d2 & m' & E2 & Hkv2 & Hview).
  - rewrite keys_of_delete, decide_True by by rewrite Em.
    assert (0 < keys_of i m)%nat. { destruct (keys_of i m) eqn:E0; [|lia]. by rewrite (proj1 (keys_of_zero i m) E0) in Em. }
    lia.
  - rewrite Hl. by eapply names_ok.
  - exists v2, d2, m'. split_and!; [exact E2|exact Hkv2|]. intros ns' k'. rewrite Hview. by eapply view_delete.
Qed.

(** Putting a value of at most 256 bytes. *)
Lemma put_kv n v d m os ns k val :
  kv n v d m -> mutex_ok os = true -> ns_fits ns -> key_ok k -> value_ok val -> n + 2 < 2 ^ 31 ->
  exists r v' d' m', nvds_data_put os ns (Some k) (Some val) (v, d) = (r, (v', d')) /\ kv (n + 2) v' d' m' /\
    ((r = Ok tt /\ forall ns' k', view m' ns' k' = if decide ((ns, k) = (ns', k')) then Some val else view m ns' k') \/
     (r = Err NVDS_E_NO_SPACE /\
      ((forall ns' k', view m' ns' k' = view m ns' k') \/
       (forall ns' k', view m' ns' k' = if decide ((ns, k) = (ns', k')) then None else view m ns' k')) /\
      forall i, ns_of m ns = Some i -> crowded v val (delete (i, k) m))).
Proof.
  intros Hkv Hos Hf Hk Hv Hn. unfold nvds_data_put.
  replace (length val =? 0)%nat with false by (symmetry; apply Nat.eqb_neq; destruct Hv as [_ Hv]; lia).
  rewrite (proj2 (Z.ltb_ge _ _)) by (destruct Hv as [_ Hv]; unfold ELEMENT_BULK_MAX_SIZE, ELEMENT_MIDDLE_MAX_SIZE in *; lia).
  rewrite (key_not_bad k Hk), Hos. cbn [orb negb].
  assert (Hstep : forall n' v1 d1 m1 i, n' + 1 <= n + 2 -> kv n' v1 d1 m1 -> ns_of m1 ns = Some i ->
    exists r v' d' m', (_ ← data_element_put i k val; ignore (ns_add_used_cnt i)) (v1, d1) = (r, (v', d')) /\ kv (n + 2) v' d' m' /\
      ((r = Ok tt /\ forall ns' k', view m' ns' k' = if decide ((ns, k) = (ns', k')) then Some val else view m1 ns' k') \/
       (r = Err NVDS_E_NO_SPACE /\
        (forall ns' k', view m' ns' k' = if decide ((ns, k) = (ns', k')) then None else view m1 ns' k') /\
        crowded v1 val (delete (i, k) m1)))).
  { intros n' v1 d1 m1 i Hn' Hkv1 Hi. pose proof (kv_reg _ _ _ _ Hkv1) as R.
    destruct (put_at n' v1 d1 m1 ns i k val Hkv1 Hi Hk Hv ltac:(lia)) as (r & v2 & d2 & E & Hr).
    destruct Hr as [[-> H2]|(-> & H2 & Hcr)].
    - exists (Ok tt), v2, d2, (<[(i, k) := val]> m1). split_and!; [exact E|by eapply kv_mono; [| |exact H2]|].
      left. split; [done|]. intros ns' k'. by eapply view_insert.
    - exists (Err NVDS_E_NO_SPACE), v2, d2, (delete (i, k) m1). split_and!; [exact E|by eapply kv_mono; [| |exact H2]|].
      right. split_and!; [done| |done]. intros ns' k'. by eapply view_delete. }
  destruct (ns_of m ns) as [i|] eqn:Ei.
  - pose proof (resolve n v d m os ns true Hkv Hf ltac:(left; by rewrite Ei)) as E. rewrite Ei in E.
    rewrite (bind_ok _ _ _ _ _ E).
    destruct (Hstep n v d m i ltac:(lia) Hkv Ei) as (r & v2 & d2 & m2 & E2 & H2 & Hr).
    exists r, v2, d2, m2. split_and!; [exact E2|exact H2|]. destruct Hr as [Hr|(-> & Hr & Hcr)]; [by left|right].
    split_and!; [done|by right|by intros ? [= <-]].
  - destruct ns as [name|]; [|done]. pose proof (find_name m _ _ name (kv_reg _ _ _ _ Hkv)) as Hfn.
    destruct (create_ok n v d m os name Hkv Hf Ei ltac:(lia)) as (r & v1 & d1 & E & Hr).
    assert (E' : ns_index_by_namespace os (Some name) true (v, d) = (r, (v1, d1))).
    { unfold ns_index_by_namespace. rewrite (key_fits name Hf). unfold mbind, prog_bind, get_env. cbn [fst].
      destruct (find_ns _ (ns_list v)) as [[j x]|]; [|exact E]. destruct Hfn as (_ & _ & Hfn). congruence. }
    destruct Hr as [(i & m1 & -> & Hkv1 & Hi & Hview)|[-> Hkv1]].
    + rewrite (bind_ok _ _ _ _ _ E'). destruct (Hstep (n + 1) _ _ _ _ ltac:(lia) Hkv1 Hi) as (r & v2 & d2 & m2 & E2 & H2 & Hr).
      exists r, v2, d2, m2. split_and!; [exact E2|exact H2|]. destruct Hr as [[-> Hr]|(-> & Hr & _)]; [left|right].
      * split; [done|]. intros ns' k'. by rewrite Hr, Hview.
      * split_and!; [done| |done]. right. intros ns' k'. by rewrite Hr, Hview.
    + exists (Err NVDS_E_NO_SPACE), v1, d1, m. rewrite (bind_err _ _ _ _ _ E').
      split_and!; [done|eapply kv_mono; [| |exact Hkv1]; lia|]. right. split_and!; [done|by left|done].
Qed.
End api.
