(* ===== verification/NvdsMount.v ===== *)
(** * Starting the store: formatting and loading

    [nvds_flash_env_init] on flash that holds no store takes every sector for a
    free page and starts the first; on the flash of a store it finds the same
    pages, in the same order, with the same items, registers the namespaces and
    counts their keys: the store is the one that was there. *)
From Stdlib Require Import Sorted.
From S2P Require Import Prelude Prog Crc Flash NvdsFormat Nvds NvdsPage NvdsOps NvdsReclaim NvdsStore NvdsPut NvdsApi.

Lemma filter_ext_in {A} (P Q : A -> Prop) `{!forall x, Decision (P x), !forall x, Decision (Q x)} (l : list A) :
  (forall x, x ∈ l -> P x <-> Q x) -> filter P l = filter Q l.
Proof.
  induction l as [|x l IH]; intros Heq; [done|]. rewrite !filter_cons, IH by (intros; apply Heq; by right).
  pose proof (Heq x ltac:(by left)). by repeat case_decide; try tauto.
Qed.

Lemma filter_none {A} (P : A -> Prop) `{!forall x, Decision (P x)} (l : list A) :
  (forall x, x ∈ l -> ~ P x) -> filter P l = [].
Proof.
  induction l as [|x l IH]; intros Hno; [done|]. rewrite filter_cons_False by (apply Hno; by left).
  apply IH. intros y Hy. apply Hno. by right.
Qed.

Lemma filter_every {A} (P : A -> Prop) `{!forall x, Decision (P x)} (l : list A) :
  (forall x, x ∈ l -> P x) -> filter P l = l.
Proof.
  induction l as [|x l IH]; intros Hall; [done|]. rewrite filter_cons_True by (apply Hall; by left).
  f_equal. apply IH. intros y Hy. apply Hall. by right.
Qed.

Lemma sorted_sublist {A} (R : A -> A -> Prop) l k : l `sublist_of` k -> StronglySorted R k -> StronglySorted R l.
Proof.
  induction 1 as [|x l k Hs IH|x l k Hs IH]; intros H; [constructor|..]; apply StronglySorted_inv in H as [H Hx]; [|by apply IH].
  constructor; [by apply IH|]. rewrite Forall_forall in Hx |- *. intros y Hy. apply Hx. by eapply elem_of_submseteq, sublist_submseteq.
Qed.

(** ** What the loader makes of an item *)

(** [load_namespace] on the pair (namespace list, bitmap). *)
Definition reg_item (s : list namespace_info * list Z) (it : item) : list namespace_info * list Z :=
  if i_live it && (i_ns it =? 0)
  then (s.1 ++ [Ns (i_key it) (nth 0 (i_val it) 0) 0], ns_state_set s.2 (nth 0 (i_val it) 0) true)
  else s.

Lemma i_head_name it : item_ok it -> take (strlen (drop 8 (i_head it))) (drop 8 (i_head it)) = i_key it.
Proof. intros []. unfold i_head. by apply sealed_name. Qed.

Lemma blank_entry_step : entry_type (repeat 0xFF 32) = 7.
Proof. reflexivity. Qed.

Section walk.
Context {D : Type} `{FD : !FlashDev D} `{ST : !Storage D}.
Abbreviation base := (@st_base D FD ST).
Abbreviation len := (@st_len D FD ST).
Implicit Types (d : D) (a n : Z) (v : nvds_env) (p q : page_env) (its pre post : list item).

(** Reading through any environment that knows where the page is. *)
Lemma with_items v d a p q its :
  located v -> base_addr p = a -> page_items d p its -> has_items (upd v a p) d a p its.
Proof. intros Hl Ha Hi. by split; [|apply upd_page_eq| |]. Qed.

Lemma entry_read_base v d a p q i :
  pages v !! a = Some q -> base_addr q = base_addr p ->
  entry_read a i (v, d) = ((entry_read a i (upd v a p, d)).1, (v, d)).
Proof.
  intros Hq Hb. unfold entry_read.
  rewrite (bind_ok _ _ _ _ _ (get_page_ok _ _ _ _ Hq)), (bind_ok _ _ _ _ _ (get_page_ok _ _ _ _ (upd_page_eq v a p))).
  rewrite Hb. unfold nvds_flash_read. cbn [upd with_pages env_length env_base fst snd].
  destruct (_ <? _); [done|]. destruct (flash_read _ _ _) as [r bs]. by destruct (r =? 0).
Qed.

Section page.
Context (d : D) (a : Z) (p : page_env) (its : list item).
Hypotheses (Ha : base_addr p = a) (Hp : page_items d p its).

Lemma load_head v q pre it post :
  located v -> pages v !! a = Some q -> base_addr q = a -> its = pre ++ it :: post ->
  entry_read a (sum_n pre) (v, d) = (Ok (i_head it), (v, d)).
Proof.
  intros Hl Hq Hb E. rewrite (entry_read_base v d a p q) by congruence.
  by rewrite (read_head _ _ _ _ _ _ _ _ (with_items v d a p q its Hl Ha Hp) (item_at_intro _ _ _ _ _ _ Hp E)).
Qed.

(** Past the items a read gives a blank entry. *)
Lemma load_blank v q i :
  located v -> pages v !! a = Some q -> base_addr q = a -> sum_n its <= i < ENTRY_COUNT_PER_PAGE ->
  entry_read a i (v, d) = (Ok (repeat 0xFF 32), (v, d)).
Proof.
  intros Hl Hq Hb Hi. rewrite (entry_read_base v d a p q) by congruence.
  pose proof (items_page _ _ _ _ _ (with_items v d a p q its Hl Ha Hp)) as Hpg.
  pose proof (sum_n_nonneg _ (pi_ok _ _ _ Hp)). rewrite (entry_read_raw _ _ _ _ _ _ _ Hpg) by lia.
  cbn [fst]. do 2 f_equal. pose proof (items_bytes_length _ (pi_ok _ _ _ Hp)) as Hlen.
  pose proof (pi_raw _ _ _ Hp) as Hr. unfold page_bytes, ENTRY_COUNT_PER_PAGE in *.
  set (tail := (4032 - length (items_bytes its))%nat). set (o := (32 * (Z.to_nat i) - length (items_bytes its))%nat).
  assert (Et : repeat 255 tail = repeat 255 o ++ repeat 255 32 ++ repeat 255 (tail - o - 32))
    by (rewrite <- !repeat_app; f_equal; subst tail o; lia).
  rewrite Et, !app_assoc. rewrite <- (app_assoc _ (repeat 255 32)). apply slice_seg; [|done].
  rewrite !length_app, (raw_header_length _ _ _ _ Hr), (raw_table_length _ _ _ _ Hr), repeat_length. subst o. lia.
Qed.

(** ** Loading the items of a page *)
Definition loaded_page (k : Z) pre : page_env := Page a (header p) (entry_states p) (sum_n (lives pre)) k.

Definition loaded_env v (k : Z) pre (s : list namespace_info * list Z) : nvds_env :=
  upd (with_ns s.1 s.2 v) a (loaded_page k pre).

Lemma upd_loaded v k pre s f :
  upd_page a f (loaded_env v k pre s, d) = (Ok tt, (upd (with_ns s.1 s.2 v) a (f (loaded_page k pre)), d)).
Proof. rewrite (upd_page_ok (loaded_env v k pre s) d a _ f (upd_page_eq _ _ _)). unfold loaded_env. by rewrite upd_upd. Qed.

Lemma get_loaded v k pre s : get_page a (loaded_env v k pre s, d) = (Ok (loaded_page k pre), (loaded_env v k pre s, d)).
Proof. apply get_page_ok. apply upd_page_eq. Qed.

Lemma state_here pre it post j : its = pre ++ it :: post -> 0 <= j < i_n it ->
  entry_state_get (entry_states p) (sum_n pre + j) = Some (i_state it).
Proof.
  intros E Hj. destruct (item_at_intro _ _ _ _ _ _ Hp E) as [_ Hpre Hit Hpost H1 H2 H3 H4].
  rewrite (tr_get _ _ (pr_table _ _ _ _ (pi_raw _ _ _ Hp))) by lia.
  by rewrite E, state_at_item by (done || lia).
Qed.

Context (os : os_results) (Hos : malloc_ok os = true).

(** A dead item is passed over entry by entry. *)
Lemma load_dead v s pre it post (k fuel : nat) :
  its = pre ++ it :: post -> i_live it = false -> Z.of_nat k <= i_n it ->
  load_entries (k + fuel) os a (sum_n pre + i_n it - Z.of_nat k) (loaded_env v ENTRY_COUNT_PER_PAGE pre s, d) =
    load_entries fuel os a (sum_n pre + i_n it) (loaded_env v ENTRY_COUNT_PER_PAGE pre s, d).
Proof.
  intros E Hd. destruct (item_at_intro _ _ _ _ _ _ Hp E) as [_ Hpre Hit Hpost H1 H2 H3 H4].
  induction k as [|k IH]; intros Hk; [f_equal; simpl; lia|]. cbn [load_entries Nat.add].
  rewrite (proj2 (Z.leb_gt _ _)) by lia.
  assert (El : load_entry os a (sum_n pre + i_n it - Z.of_nat (S k)) (loaded_env v ENTRY_COUNT_PER_PAGE pre s, d) =
    (Ok (inl (sum_n pre + i_n it - Z.of_nat k)), (loaded_env v ENTRY_COUNT_PER_PAGE pre s, d))).
  { unfold load_entry. rewrite (bind_ok _ _ _ _ _ (get_loaded _ _ _ _)). cbn [loaded_page entry_states].
    replace (sum_n pre + i_n it - Z.of_nat (S k)) with (sum_n pre + (i_n it - Z.of_nat (S k))) by lia.
    rewrite (state_here pre it post) by (done || lia). unfold i_state. rewrite Hd. cbn [default from_option id].
    unfold mret, prog_ret. do 3 f_equal. lia. }
  rewrite (bind_ok _ _ _ _ _ El). apply IH. lia.
Qed.

(** A live item is registered and counted in one step. *)
Lemma load_live v s pre it post fuel :
  located v -> its = pre ++ it :: post -> i_live it = true ->
  load_entries (S fuel) os a (sum_n pre) (loaded_env v ENTRY_COUNT_PER_PAGE pre s, d) =
    load_entries fuel os a (sum_n pre + i_n it) (loaded_env v ENTRY_COUNT_PER_PAGE (pre ++ [it]) (reg_item s it), d).
Proof.
  intros Hl E Hlive. destruct (item_at_intro _ _ _ _ _ _ Hp E) as [_ Hpre Hit Hpost H1 H2 H3 H4].
  cbn [load_entries]. rewrite (proj2 (Z.leb_gt _ _)) by lia.
  assert (Hlv : forall k pre s, located (loaded_env v k pre s)) by (intros; by destruct Hl).
  assert (El : load_entry os a (sum_n pre) (loaded_env v ENTRY_COUNT_PER_PAGE pre s, d) =
    (Ok (inl (sum_n pre + i_n it)), (loaded_env v ENTRY_COUNT_PER_PAGE (pre ++ [it]) (reg_item s it), d))); [|
    by rewrite (bind_ok _ _ _ _ _ El)].
  unfold load_entry. rewrite (bind_ok _ _ _ _ _ (get_loaded _ _ _ _)). cbn [loaded_page entry_states].
  pose proof (state_here pre it post 0 E ltac:(lia)) as Est. rewrite Z.add_0_r in Est. rewrite Est.
  unfold i_state. rewrite Hlive. cbn [default from_option id].
  assert (Er : or_else None (e ← entry_read a (sum_n pre); mret (Some e)) (loaded_env v ENTRY_COUNT_PER_PAGE pre s, d) =
    (Ok (Some (i_head it)), (loaded_env v ENTRY_COUNT_PER_PAGE pre s, d))).
  { unfold or_else. by rewrite (bind_ok _ _ _ _ _ (load_head _ _ pre it post (Hlv _ _ _) (upd_page_eq _ _ _) eq_refl E)). }
  rewrite (bind_ok _ _ _ _ _ Er). pose proof (i_head_fields it Hit) as F.
  rewrite (sf_crc _ _ _ _ _ _ _ F), Z.eqb_refl. cbn [negb]. rewrite (bind_ok (mret tt) _ _ _ _ eq_refl).
  rewrite (sf_ns _ _ _ _ _ _ _ F), (sf_type _ _ _ _ _ _ _ F), (sf_len _ _ _ _ _ _ _ F).
  fold (has_data (i_type it)). fold (i_cnt it). fold (i_n it).
  assert (En : (if i_ns it =? 0 then load_namespace os (i_head it) else mret tt) (loaded_env v ENTRY_COUNT_PER_PAGE pre s, d) =
    (Ok tt, (loaded_env v ENTRY_COUNT_PER_PAGE pre (reg_item s it), d))).
  { unfold reg_item, load_namespace. rewrite Hlive, Hos. cbn [negb andb]. destruct (i_ns it =? 0); [|done].
    by rewrite (i_head_name it Hit), (sf_value _ _ _ _ _ _ _ F). }
  rewrite (bind_ok _ _ _ _ _ En), (bind_ok _ _ _ _ _ (upd_loaded _ _ _ _ _)).
  unfold loaded_env. cbv zeta. unfold mret, prog_ret.
  replace (sum_n pre + 1 + i_cnt it) with (sum_n pre + i_n it) by (unfold i_n; lia). do 3 f_equal.
  unfold add_used, loaded_page. cbn [base_addr header entry_states entry_cnt_used next_free_idx].
  rewrite lives_app, sum_n_app, filter_cons_True by by rewrite Hlive. cbn [sum_n foldr filter list_filter].
  pose proof (sum_n_lives pre Hpre). pose proof (sum_n_nonneg _ (lives_ok _ Hpre)).
  unfold ENTRY_COUNT_PER_PAGE in H3. change (lives []) with (@nil item). cbn [foldr]. rewrite u16_small by (unfold in_width, i_n in *; lia).
  f_equal. unfold i_n. lia.
Qed.

Lemma load_end v s fuel : (0 < fuel)%nat ->
  load_entries fuel os a (sum_n its) (loaded_env v ENTRY_COUNT_PER_PAGE its s, d) =
    (Ok false, (loaded_env v (sum_n its) its s, d)).
Proof.
  intros Hf. destruct fuel as [|fuel]; [lia|]. cbn [load_entries].
  pose proof (items_bound _ _ _ Hp) as Hb. pose proof (sum_n_nonneg _ (pi_ok _ _ _ Hp)).
  destruct (Z.leb_spec ENTRY_COUNT_PER_PAGE (sum_n its)).
  - by replace (sum_n its) with ENTRY_COUNT_PER_PAGE by lia.
  - unfold mbind at 1, prog_bind at 1, load_entry. rewrite (bind_ok _ _ _ _ _ (get_loaded _ _ _ _)).
    cbn [loaded_page entry_states]. rewrite (tr_get _ _ (pr_table _ _ _ _ (pi_raw _ _ _ Hp))) by lia.
    rewrite state_at_beyond by (apply (pi_ok _ _ _ Hp) || lia). cbn [default from_option id].
    by rewrite (bind_ok _ _ _ _ _ (upd_loaded _ _ _ _ _)).
Qed.

Lemma load_entries_ok v s pre post fuel :
  located v -> its = pre ++ post -> sum_n post < Z.of_nat fuel ->
  load_entries fuel os a (sum_n pre) (loaded_env v ENTRY_COUNT_PER_PAGE pre s, d) =
    (Ok false, (loaded_env v (sum_n its) its (foldl reg_item s post), d)).
Proof.
  intros Hl. revert s pre fuel. induction post as [|it post IH]; intros s pre fuel E Hf.
  { rewrite app_nil_r in E. subst pre. apply load_end. simpl in Hf. lia. }
  destruct (item_at_intro _ _ _ _ _ _ Hp E) as [_ Hpre Hit Hpost H1 H2 H3 H4]. cbn [sum_n foldr] in Hf.
  fold (sum_n post) in Hf.
  assert (E' : its = (pre ++ [it]) ++ post) by (by rewrite <- app_assoc).
  assert (Es : sum_n pre + i_n it = sum_n (pre ++ [it])) by (rewrite sum_n_app; simpl; lia).
  cbn [foldl]. destruct (i_live it) eqn:Hlive.
  - destruct fuel as [|fuel]; [lia|]. rewrite (load_live v s pre it post fuel Hl E Hlive), Es. apply IH; [done|lia].
  - replace fuel with (Z.to_nat (i_n it) + (fuel - Z.to_nat (i_n it)))%nat by lia.
    pose proof (load_dead v s pre it post (Z.to_nat (i_n it)) (fuel - Z.to_nat (i_n it)) E Hlive ltac:(lia)) as Ed.
    rewrite Z2Nat.id in Ed by lia. replace (sum_n pre + i_n it - i_n it) with (sum_n pre) in Ed by lia.
    rewrite Ed, Es. specialize (IH (reg_item s it) (pre ++ [it]) (fuel - Z.to_nat (i_n it))%nat E' ltac:(lia)).
    rewrite <- IH. unfold reg_item. rewrite Hlive. cbn [andb]. do 2 f_equal.
    unfold loaded_env, loaded_page. rewrite lives_app, filter_cons_False, app_nil_r by (rewrite Hlive; by intros []). reflexivity.
Qed.

Lemma loaded_back v s : loaded_env v (sum_n its) its s = upd (with_ns s.1 s.2 v) a p.
Proof.
  unfold loaded_env, loaded_page. f_equal. pose proof (pi_used _ _ _ Hp) as Hu. pose proof (pi_free _ _ _ Hp) as Hf.
  rewrite <- Ha, <- Hu, <- Hf. by destruct p.
Qed.
End page.

(** ** One sector *)
Lemma classify_page d p its st s :
  page_items d p its -> header p = set_h_state st (fresh_header s) -> (st = PAGE_ACTIVE \/ st = PAGE_FULL) ->
  classify (image d (base_addr p)) = header p.
Proof.
  intros Hp Hh Hst. pose proof (pi_raw _ _ _ Hp) as Hr. unfold classify.
  assert (E : parse_header (slice 0 32 (image d (base_addr p))) = header p).
  { rewrite (pr_image _ _ _ _ Hr). unfold page_bytes. rewrite <- (app_nil_l (header_bytes _ ++ _)).
    rewrite slice_seg by (done || by rewrite (raw_header_length _ _ _ _ Hr)). apply parse_header_bytes, Hr. }
  rewrite E. destruct (fresh_header_checks st s) as [Hc Hm]. cbv zeta.
  assert (Hs : h_state (header p) = st) by (by rewrite Hh, set_h_state_state).
  assert (Ec : h_crc32 (header p) = page_header_crc32_calc (header p)) by (rewrite Hh, Hc; by destruct (fresh_header s)).
  assert (Em : h_magic (header p) = NVDS_FLASH_MAGIC) by (rewrite Hh, <- Hm; by destruct (fresh_header s)).
  rewrite Hs, Ec, Em, !Z.eqb_refl. cbn [negb]. by destruct Hst as [-> | ->].
Qed.

Lemma table_read_ok v d a p its :
  located v -> base_addr p = a -> page_items d p its ->
  entry_states_table_read a (v, d) = (Ok (entry_states p), (v, d)).
Proof.
  intros Hl Ha Hp. pose proof (pi_raw _ _ _ Hp) as Hr. unfold entry_states_table_read, PAGE_ENTRY_STATES_OFFSET, ENTRY_SIZE.
  pose proof (pr_table _ _ _ _ Hr) as [Ht1 Ht2 _].
  assert (E : nvds_flash_read (a + 32) 32 (v, d) = (Ok (table_bytes (entry_states p)), (v, d))).
  { change 32 with (Z.of_nat 32) at 1 2. rewrite (read_page v d a 32 32 Hl); [|rewrite <- Ha; apply Hr|lia|lia].
    rewrite <- Ha, (pr_image _ _ _ _ Hr). unfold page_bytes. do 2 f_equal.
    apply slice_seg; [apply (raw_header_length _ _ _ _ Hr)|apply (raw_table_length _ _ _ _ Hr)]. }
  rewrite (bind_ok _ _ _ _ _ E). unfold mret, prog_ret. by rewrite parse_table_bytes.
Qed.

Lemma not_unloaded st s h : h = set_h_state st (fresh_header s) -> (st = PAGE_ACTIVE \/ st = PAGE_FULL) -> unloaded h = false.
Proof. intros -> Hst. unfold unloaded. rewrite set_h_state_state. by destruct Hst as [-> | ->]. Qed.

Context (os : os_results) (Hos : malloc_ok os = true).

(** A sector with no page goes to the free list. *)
Lemma load_free v d k :
  located v -> page_at len (k * 4096) -> unloaded (classify (image d (k * 4096))) = true ->
  exists p, load_page os k (v, d) =
      (Ok tt, (with_lists (nvds_page_free v ++ [k * 4096]) (nvds_page_used v) (upd v (k * 4096) p), d)) /\
    base_addr p = k * 4096 /\ header p = classify (image d (k * 4096)).
Proof.
  intros Hl Hk Hu. exists (set_header (classify (image d (k * 4096))) (zero_page (k * 4096))). split; [|done].
  unfold load_page. rewrite Hos. cbn [negb]. change SPI_FLASH_SEC_SIZE with 4096. cbv zeta.
  rewrite (bind_ok _ _ _ _ _ (header_read_ok v d (zero_page (k * 4096)) _ Hl Hk eq_refl)).
  unfold mbind at 1, prog_bind at 1, upd_env. cbn [fst snd].
  unfold unloaded in Hu. by rewrite Hu.
Qed.

(** A page is loaded as it was written. *)
Lemma load_used v d k p its st s l :
  located v -> base_addr p = k * 4096 -> page_items d p its ->
  header p = set_h_state st (fresh_header s) -> (st = PAGE_ACTIVE \/ st = PAGE_FULL) ->
  let r := foldl reg_item (ns_list v, ns_states v) its in
  let v1 := upd (with_ns r.1 r.2 v) (k * 4096) p in
  insert_page (k * 4096) (nvds_page_used v) (v1, d) = (Ok l, (v1, d)) ->
  load_page os k (v, d) = (Ok tt, (with_lists (nvds_page_free v) l v1, d)).
Proof.
  intros Hl Ha Hp Hh Hst r v1 Hins. set (a := k * 4096) in *.
  assert (Hk : page_at len a) by (rewrite <- Ha; apply (pi_raw _ _ _ Hp)).
  unfold load_page. rewrite Hos. cbn [negb]. change SPI_FLASH_SEC_SIZE with 4096. fold a. cbv zeta.
  rewrite (bind_ok _ _ _ _ _ (header_read_ok v d (zero_page a) _ Hl Hk eq_refl)).
  pose proof (classify_page d p its st s Hp Hh Hst) as Ec. rewrite Ha in Ec. rewrite Ec.
  unfold mbind at 1, prog_bind at 1, upd_env. cbn [fst snd]. fold (upd v a (set_header (header p) (zero_page a))).
  set (v0 := upd v a (set_header (header p) (zero_page a))).
  pose proof (not_unloaded st s _ Hh Hst) as Hu. unfold unloaded in Hu. rewrite Hu.
  assert (Hl0 : located v0) by (by destruct Hl).
  assert (Et : or_else None (st ← entry_states_table_read a; mret (Some st)) (v0, d) = (Ok (Some (entry_states p)), (v0, d))).
  { unfold or_else. by rewrite (bind_ok _ _ _ _ _ (table_read_ok v0 d a p its Hl0 Ha Hp)). }
  rewrite (bind_ok _ _ _ _ _ Et). unfold mbind at 1, prog_bind at 1.
  rewrite (upd_page_ok v0 d a _ _ (upd_page_eq _ _ _)). subst v0. rewrite upd_upd.
  pose proof (load_entries_ok d a p its Ha Hp os Hos v (ns_list v, ns_states v) [] its WALK_FUEL Hl eq_refl) as El.
  assert (Hb : sum_n its < Z.of_nat WALK_FUEL) by (pose proof (items_bound _ _ _ Hp); unfold WALK_FUEL, ENTRY_COUNT_PER_PAGE in *; lia).
  specialize (El Hb). rewrite (loaded_back d a p its Ha Hp) in El. fold r v1 in El.
  unfold loaded_env in El. cbn [fst snd] in El. rewrite with_ns_id in El.
  rewrite (bind_ok _ _ _ _ _ El). unfold mbind at 1, prog_bind at 1, get_env. cbn [fst].
  by rewrite (bind_ok _ _ _ _ _ Hins).
Qed.

(** ** The order of the pages *)
Lemma seqno_mask s : 0 <= s < 2 ^ 31 -> Z.land s 0x7FFFFFFF = s.
Proof. intros H. change 0x7FFFFFFF with (Z.ones 31). rewrite Z.land_ones by lia. by apply Z.mod_small. Qed.

Definition numbered v g : Prop :=
  exists p, pages v !! pg_addr g = Some p /\ h_seqno (header p) = pg_seq g /\ 0 <= pg_seq g < 2 ^ 31.

Lemma insert_page_ok v d g (A B : list pg) :
  Forall (numbered v) (A ++ g :: B) -> StronglySorted Z.lt (pg_seq <$> A ++ g :: B) ->
  insert_page (pg_addr g) (pg_addr <$> A ++ B) (v, d) = (Ok (pg_addr <$> A ++ g :: B), (v, d)).
Proof.
  intros Hn Hs. assert (Hg : numbered v g) by (by apply Forall_app in Hn as [_ [? _]%Forall_cons]).
  destruct Hg as (pg & Eg & Sg & Rg). induction A as [|x A IH]; simpl in Hn, Hs.
  - destruct B as [|b B]; [done|]. apply Forall_cons in Hn as [_ [(q & Eq & Sq & Rq) _]%Forall_cons].
    cbn [app fmap list_fmap insert_page].
    rewrite (bind_ok _ _ _ _ _ (get_page_ok _ _ _ _ Eg)), (bind_ok _ _ _ _ _ (get_page_ok _ _ _ _ Eq)).
    unfold cmp_sequence_no. rewrite Sg, Sq, !seqno_mask by done.
    simpl in Hs. apply StronglySorted_inv in Hs as [_ [Hs _]%Forall_cons]. by rewrite (proj2 (Z.ltb_lt _ _)).
  - apply Forall_cons in Hn as [(q & Eq & Sq & Rq) Hn]. apply StronglySorted_inv in Hs as [Hs Hx].
    cbn [app fmap list_fmap insert_page].
    rewrite (bind_ok _ _ _ _ _ (get_page_ok _ _ _ _ Eg)), (bind_ok _ _ _ _ _ (get_page_ok _ _ _ _ Eq)).
    unfold cmp_sequence_no. rewrite Sg, Sq, !seqno_mask by done.
    rewrite fmap_app, fmap_cons in Hx. apply Forall_app in Hx as [_ [Hx _]%Forall_cons].
    rewrite (proj2 (Z.ltb_ge _ _)) by lia. by rewrite (bind_ok _ _ _ _ _ (IH Hn Hs)).
Qed.

(** ** The sectors below [k] *)
Abbreviation below k := (filter (fun g : pg => pg_addr g < k * 4096)).
Abbreviation below_z k := (filter (fun a : Z => a < k * 4096)).

Lemma below_step (k x : Z) : x mod 4096 = 0 -> x <> k * 4096 -> x < (k + 1) * 4096 <-> x < k * 4096.
Proof. intros. Z.div_mod_to_equations; lia. Qed.

Lemma below_same (k : Z) pgs :
  Forall (fun g => pg_addr g mod 4096 = 0) pgs -> k * 4096 ∉ pg_addr <$> pgs -> below (k + 1) pgs = below k pgs.
Proof.
  intros Hm Hk. apply filter_ext_in. intros g Hg. apply below_step; [by apply (proj1 (Forall_forall _ _) Hm g Hg)|].
  intros E. apply Hk. rewrite <- E. by apply list_elem_of_fmap_2.
Qed.

Lemma below_z_same (k : Z) (l : list Z) :
  Forall (fun a => a mod 4096 = 0) l -> k * 4096 ∉ l -> below_z (k + 1) l = below_z k l.
Proof.
  intros Hm Hk. apply filter_ext_in. intros x Hx. apply below_step; [by apply (proj1 (Forall_forall _ _) Hm x Hx)|].
  by intros ->.
Qed.

(** ** Loading every sector of a store *)
Section sectors.
Context (n : Z) (v0 : nvds_env) (d : D) (pgs : list pg) (C : core n v0 d pgs).

Lemma page_aligned : Forall (fun g => pg_addr g mod 4096 = 0) pgs.
Proof. eapply Forall_impl; [exact (so_pages _ _ _ _ C)|]. intros g Hg. by apply page_in_at in Hg as (_ & ? & _). Qed.

Lemma free_aligned : Forall (fun a => a mod 4096 = 0) (nvds_page_free v0).
Proof. eapply Forall_impl; [exact (so_free _ _ _ _ C)|]. intros a [p Hp]. by destruct (fp_at _ _ _ _ Hp) as (_ & ? & _). Qed.

Record loaded k v : Prop := Loaded {
  lo_located : located v;
  lo_used : nvds_page_used v = pg_addr <$> below k pgs;
  lo_free : nvds_page_free v ≡ₚ below_z k (nvds_page_free v0);
  lo_pages : forall g, g ∈ pgs -> pg_addr g < k * 4096 -> page_in v d g;
  lo_blank : forall a, a ∈ nvds_page_free v0 -> a < k * 4096 -> exists p, free_page v d a p;
  lo_items : exists I, I ≡ₚ mjoin (pg_items <$> below k pgs) /\
    (ns_list v, ns_states v) = foldl reg_item ([], repeat 0 NAMESPACE_STATES_TABLE_SIZE) I }.

Lemma page_in_numbered v g : page_in v d g -> 0 <= pg_seq g < 2 ^ 31 -> numbered v g.
Proof. intros (p & st & Hi & Hh & _) Hr. exists p. split_and!; [apply Hi|by rewrite Hh, header_seqno|lia..]. Qed.

Lemma page_in_lists v f u g : page_in v d g -> page_in (with_lists f u v) d g.
Proof. intros (p & st & Hi & Hh). exists p, st. split; [by apply has_items_lists|done]. Qed.

Lemma seq_range g : g ∈ pgs -> 0 <= pg_seq g < 2 ^ 31.
Proof.
  intros Hg. pose proof (sq_range _ _ (so_seqs _ _ _ _ C)) as Hr. apply Forall_fmap in Hr.
  pose proof (proj1 (Forall_forall _ _) Hr g Hg) as H. simpl in H. pose proof (so_width _ _ _ _ C). lia.
Qed.

Lemma loaded_free k v :
  loaded k v -> k * 4096 ∈ nvds_page_free v0 ->
  exists v', load_page os k (v, d) = (Ok tt, (v', d)) /\ loaded (k + 1) v'.
Proof.
  intros [Hl Hu Hf Hpg Hb (I & HI & Hns)] Hk.
  destruct (proj1 (Forall_forall _ _) (so_free _ _ _ _ C) _ Hk) as [p0 Hp0]. simpl in Hp0.
  pose proof (fp_header _ _ _ _ Hp0) as Hh0. pose proof (fp_state _ _ _ _ Hp0) as Hs0. rewrite Hh0 in Hs0.
  pose proof (fp_at _ _ _ _ Hp0) as Hat. pose proof (so_nodup _ _ _ _ C) as Hnd. rewrite (so_used _ _ _ _ C) in Hnd.
  apply NoDup_app in Hnd as (HndF & Hdisj & _). specialize (Hdisj _ Hk).
  destruct (load_free v d k Hl Hat Hs0) as (p & E & Hbp & Hhp). eexists. split; [exact E|].
  pose proof (below_same k pgs page_aligned Hdisj) as Es. split.
  - by destruct Hl.
  - cbn [with_lists nvds_page_used]. by rewrite Hu, Es.
  - cbn [with_lists nvds_page_free]. rewrite Hf.
    apply list_elem_of_split in Hk as (F1 & F2 & EF). pose proof free_aligned as Ha. rewrite EF in Ha, HndF |- *.
    apply Forall_app in Ha as [Ha1 [_ Ha2]%Forall_cons]. apply NoDup_app in HndF as (_ & H1 & [H2 _]%NoDup_cons).
    rewrite !filter_app, (filter_cons_False (fun a => a < k * 4096)) by lia.
    rewrite (filter_cons_True (fun a => a < (k + 1) * 4096)) by lia.
    rewrite (below_z_same k F1), (below_z_same k F2) by (done || intros Hin; by destruct (H1 _ Hin); left).
    rewrite <- app_assoc. apply Permutation_app_head. by rewrite Permutation_app_comm.
  - intros g Hg Hlt. assert (pg_addr g <> k * 4096) by (intros Eg; apply Hdisj; rewrite <- Eg; by apply list_elem_of_fmap_2).
    assert (pg_addr g < k * 4096) by (apply (below_step k); [by apply (proj1 (Forall_forall _ _) page_aligned g Hg)|done|done]).
    by apply page_in_upd with d; [|apply not_eq_sym|apply same_except_refl|apply Hpg].
  - intros a Ha Hlt. destruct (decide (a = k * 4096)) as [->|Hne].
    + exists p. split; [by apply lookup_insert_eq|done..| by rewrite Hhp].
    + destruct (Hb a Ha) as [q Hq]; [by apply (below_step k); [apply (proj1 (Forall_forall _ _) free_aligned a Ha)|..]|].
      exists q. by apply free_page_upd with d; [|apply not_eq_sym|apply same_except_refl|].
  - exists I. by rewrite Es.
Qed.

Lemma loaded_used k v :
  loaded k v -> k * 4096 ∈ pg_addr <$> pgs ->
  exists v', load_page os k (v, d) = (Ok tt, (v', d)) /\ loaded (k + 1) v'.
Proof.
  intros [Hl Hu Hf Hpg Hb (I & HI & Hns)] (g & Eg & Hg)%list_elem_of_fmap.
  destruct (proj1 (Forall_forall _ _) (so_pages _ _ _ _ C) _ Hg) as (p & st & Hi & Hh & Hst).
  pose proof (hi_addr _ _ _ _ _ Hi) as Hpa. pose proof (hi_items _ _ _ _ _ Hi) as Hpi. rewrite <- Eg in Hpa.
  assert (Hat : page_at len (k * 4096)) by (rewrite <- Hpa; apply (pi_raw _ _ _ Hpi)).
  pose proof (so_nodup _ _ _ _ C) as Hnd. rewrite (so_used _ _ _ _ C) in Hnd.
  apply NoDup_app in Hnd as (_ & Hdisj & HndU).
  assert (HkF : k * 4096 ∉ nvds_page_free v0) by (intros Hin; apply (Hdisj _ Hin); rewrite Eg; by apply list_elem_of_fmap_2).
  pose proof page_aligned as Hal. pose proof (so_seqs _ _ _ _ C) as [Hsort _].
  apply list_elem_of_split in Hg as (A & B & EP).
  assert (HA : below (k + 1) A = below k A /\ below (k + 1) B = below k B /\
    Forall (fun x => pg_addr x <> k * 4096) (A ++ B)).
  { rewrite EP, fmap_app, fmap_cons, <- Eg in HndU. rewrite EP in Hal.
    apply Forall_app in Hal as [HalA [_ HalB]%Forall_cons]. apply NoDup_app in HndU as (_ & H1 & [H2 _]%NoDup_cons).
    assert (HnA : k * 4096 ∉ pg_addr <$> A) by (intros Hin; destruct (H1 _ Hin); by left).
    split_and!; [by apply below_same..|]. apply Forall_app.
    split; apply Forall_forall; intros x Hx Ex; [apply HnA|apply H2]; rewrite <- Ex; by apply list_elem_of_fmap_2. }
  destruct HA as (EA & EB & Hne).
  set (r := foldl reg_item (ns_list v, ns_states v) (pg_items g)). set (v1 := upd (with_ns r.1 r.2 v) (k * 4096) p).
  assert (Hin1 : forall x, x ∈ pgs -> pg_addr x <> k * 4096 -> pg_addr x < k * 4096 -> page_in v1 d x).
  { intros x Hx Hxk Hlt. destruct (Hpg x Hx Hlt) as (q & st' & [Hlq Hq Hbq Hiq] & Hhq). exists q, st'. split; [|done].
    split; [by destruct Hl|subst v1; cbn [upd with_pages with_ns pages]; by rewrite lookup_insert_ne|done|done]. }
  assert (Hg1 : page_in v1 d g).
  { exists p, st. split; [|done]. rewrite <- Eg. by split; [destruct Hl|apply upd_page_eq| |]. }
  assert (Hins : insert_page (k * 4096) (nvds_page_used v) (v1, d) = (Ok (pg_addr <$> below k A ++ g :: below k B), (v1, d))).
  { rewrite Hu, EP, filter_app, filter_cons_False by (rewrite Eg; lia). rewrite Eg. apply insert_page_ok.
    - apply Forall_app. split; [|constructor; [apply page_in_numbered; [done|apply seq_range; rewrite EP; set_solver]|]];
        apply Forall_forall; intros x [Hlt Hx]%list_elem_of_filter;
        (apply page_in_numbered; [apply Hin1; [rewrite EP; set_solver|apply (proj1 (Forall_forall _ _) Hne); set_solver|by rewrite Eg]|
          apply seq_range; rewrite EP; set_solver]).
    - rewrite EP in Hsort. eapply sorted_sublist; [|exact Hsort]. apply fmap_sublist, sublist_app; [apply sublist_filter|].
      apply sublist_skip, sublist_filter. }
  eexists. split; [exact (load_used v d k p (pg_items g) st (pg_seq g) _ Hl Hpa Hpi Hh Hst Hins)|]. fold r v1.
  assert (EK : below (k + 1) pgs = below k A ++ g :: below k B).
  { by rewrite EP, filter_app, filter_cons_True, EA, EB by (rewrite <- Eg; lia). }
  assert (Hat' : forall x, x ∈ pgs -> pg_addr x <> k * 4096 \/ x = g).
  { intros x Hx. rewrite EP in Hx. apply elem_of_app in Hx as [Hx|[->|Hx]%elem_of_cons]; [left|by right|left];
      apply (proj1 (Forall_forall _ _) Hne); set_solver. }
  split.
  - by destruct Hl.
  - cbn [with_lists nvds_page_used]. by rewrite EK.
  - cbn [with_lists nvds_page_free]. change (nvds_page_free v1) with (nvds_page_free v).
    by rewrite Hf, (below_z_same k) by (apply free_aligned || done).
  - intros x Hx Hlt. apply page_in_lists. destruct (Hat' x Hx) as [Hxk| ->]; [|exact Hg1].
    apply Hin1; [done|done|]. apply (below_step k); [by apply (proj1 (Forall_forall _ _) page_aligned x Hx)|done|done].
  - intros a Ha Hlt. assert (a <> k * 4096) by (by intros ->).
    destruct (Hb a Ha) as [q Hq]; [apply (below_step k); [apply (proj1 (Forall_forall _ _) free_aligned a Ha)|done|done]|].
    exists q. destruct Hq as [H1 H2 H3 H4 H5]. split; try done.
    cbn [with_lists v1 upd with_pages with_ns pages]. by rewrite lookup_insert_ne.
  - exists (I ++ pg_items g). split.
    + rewrite HI, EK, EP, filter_app, filter_cons_False by (rewrite Eg; lia).
      rewrite !fmap_app, fmap_cons, !join_app. cbn [mjoin list_join]. rewrite <- app_assoc.
      apply Permutation_app_head, Permutation_app_comm.
    + rewrite foldl_app, <- Hns. exact (eq_sym (surjective_pairing r)).
Qed.

(** The pages of the store are all the sectors there are. *)
Context (Hall : 4096 * Z.of_nat (npages v0) = len).

Lemma all_sectors k : 0 <= k < len / 4096 -> k * 4096 ∈ nvds_page_free v0 \/ k * 4096 ∈ pg_addr <$> pgs.
Proof.
  intros Hk. rewrite <- elem_of_app, <- (so_used _ _ _ _ C).
  set (L := nvds_page_free v0 ++ nvds_page_used v0). set (S := (fun k => k * 4096) <$> seqZ 0 (len / 4096)).
  assert (HL : forall x, x ∈ L -> x ∈ S).
  { intros x Hx. assert (Hat : page_at len x).
    { subst L. rewrite (so_used _ _ _ _ C) in Hx. apply elem_of_app in Hx as [Hx|(g & -> & Hg)%list_elem_of_fmap].
      - destruct (proj1 (Forall_forall _ _) (so_free _ _ _ _ C) _ Hx) as [q Hq]. apply (fp_at _ _ _ _ Hq).
      - apply (page_in_at v0 d), (proj1 (Forall_forall _ _) (so_pages _ _ _ _ C)), Hg. }
    destruct Hat as (H1 & H2 & H3). apply list_elem_of_fmap. exists (x / 4096). rewrite elem_of_seqZ.
    Z.div_mod_to_equations; lia. }
  assert (Hlen : (length S <= length L)%nat).
  { subst S L. rewrite length_fmap, length_seqZ, length_app. unfold npages in Hall. Z.div_mod_to_equations; lia. }
  assert (HP : L ≡ₚ S).
  { apply submseteq_length_Permutation; [|done]. apply NoDup_submseteq; [apply (so_nodup _ _ _ _ C)|exact HL]. }
  rewrite HP. apply list_elem_of_fmap. exists k. rewrite elem_of_seqZ. split; [done|lia].
Qed.

Lemma load_loop (m : nat) k v :
  loaded k v -> 0 <= k -> k + Z.of_nat m <= len / 4096 ->
  exists v', pfor k m (load_page os) (v, d) = (Ok tt, (v', d)) /\ loaded (k + Z.of_nat m) v'.
Proof.
  revert k v. induction m as [|m IH]; intros k v Hv Hk Hm.
  { exists v. rewrite Z.add_0_r. done. }
  assert (Hstep : exists v', load_page os k (v, d) = (Ok tt, (v', d)) /\ loaded (k + 1) v').
  { destruct (all_sectors k) as [Hin|Hin]; [lia|by apply loaded_free|by apply loaded_used]. }
  destruct Hstep as (v1 & E1 & H1). destruct (IH (k + 1) v1 H1 ltac:(lia) ltac:(lia)) as (v2 & E2 & H2).
  exists v2. cbn [pfor]. rewrite (bind_ok _ _ _ _ _ E1), E2. split; [done|].
  by replace (k + Z.of_nat (S m)) with (k + 1 + Z.of_nat m) by lia.
Qed.

Definition init_env label : nvds_env :=
  Env base len label [] (repeat 0 NAMESPACE_STATES_TABLE_SIZE) ∅ [] [].

Lemma loaded_init label : loaded 0 (init_env label).
Proof.
  assert (Hf : below 0 pgs = []).
  { apply filter_none. intros g Hg.
    destruct (page_in_at v0 d g) as (? & _); [by apply (proj1 (Forall_forall _ _) (so_pages _ _ _ _ C))|lia]. }
  assert (HF : below_z 0 (nvds_page_free v0) = []).
  { apply filter_none. intros a Ha.
    destruct (proj1 (Forall_forall _ _) (so_free _ _ _ _ C) a Ha) as [q Hq]. destruct (fp_at _ _ _ _ Hq). lia. }
  split.
  - done.
  - by rewrite Hf.
  - by rewrite HF.
  - intros g Hg Hlt. destruct (page_in_at v0 d g) as (? & _); [by apply (proj1 (Forall_forall _ _) (so_pages _ _ _ _ C))|lia].
  - intros a Ha Hlt. destruct (proj1 (Forall_forall _ _) (so_free _ _ _ _ C) a Ha) as [q Hq]. destruct (fp_at _ _ _ _ Hq). lia.
  - exists []. by rewrite Hf.
Qed.

Lemma loaded_core v : loaded (len / 4096) v ->
  core n v d pgs /\ nvds_page_free v ≡ₚ nvds_page_free v0 /\ npages v = npages v0 /\
  exists I, I ≡ₚ mjoin (pg_items <$> pgs) /\
    (ns_list v, ns_states v) = foldl reg_item ([], repeat 0 NAMESPACE_STATES_TABLE_SIZE) I.
Proof.
  intros [Hl Hu Hf Hpg Hb Hi].
  assert (Hlt : forall x, page_at len x -> x < len / 4096 * 4096).
  { intros x (H1 & H2 & H3). destruct (st_len_ok (D := D)). Z.div_mod_to_equations; lia. }
  assert (Eg : below (len / 4096) pgs = pgs).
  { apply filter_every. intros g Hg. apply Hlt, (page_in_at v0 d).
    by apply (proj1 (Forall_forall _ _) (so_pages _ _ _ _ C)). }
  assert (Ef : below_z (len / 4096) (nvds_page_free v0) = nvds_page_free v0).
  { apply filter_every. intros a Ha. apply Hlt.
    destruct (proj1 (Forall_forall _ _) (so_free _ _ _ _ C) a Ha) as [q Hq]. apply (fp_at _ _ _ _ Hq). }
  rewrite Eg in Hu, Hi. rewrite Ef in Hf. destruct C as [_ Cu Cp Cf Cn C1 Cs Cw]. split; [split; try done|split_and!].
  - apply Forall_forall. intros g Hg. apply Hpg; [done|]. apply Hlt, (page_in_at v0 d). by apply (proj1 (Forall_forall _ _) Cp).
  - rewrite Hf. apply Forall_forall. intros a Ha. apply Hb; [done|]. apply Hlt.
    destruct (proj1 (Forall_forall _ _) Cf a Ha) as [q Hq]. apply (fp_at _ _ _ _ Hq).
  - by rewrite Hf, Hu, <- Cu.
  - done.
  - unfold npages. by rewrite Hf, Hu, <- Cu.
  - done.
Qed.
End sectors.
End walk.

(** ** Counting the keys of the namespaces *)
Definition count_item (l : list namespace_info) (it : item) : list namespace_info :=
  if i_live it then count_ns (i_ns it) l else l.

Section count.
Context {D : Type} `{FD : !FlashDev D} `{ST : !Storage D}.
Abbreviation len := (@st_len D FD ST).
Implicit Types (d : D) (a n : Z) (v : nvds_env) (p q : page_env) (its pre post : list item) (pgs : list pg).

Lemma has_items_ns v d a p its l st : has_items v d a p its -> has_items (with_ns l st v) d a p its.
Proof. by intros []; split. Qed.

Lemma page_in_ns v d g l st : page_in v d g -> page_in (with_ns l st v) d g.
Proof. intros (p & st' & Hi & Hh). exists p, st'. split; [by apply has_items_ns|done]. Qed.

Lemma with_ns_twice l st l' st' v : with_ns l' st' (with_ns l st v) = with_ns l' st' v.
Proof. done. Qed.

(** Past the items nothing is counted. *)
Lemma count_blank v d a p its (k fuel : nat) :
  has_items v d a p its -> sum_n its <= ENTRY_COUNT_PER_PAGE - Z.of_nat k -> (k < fuel)%nat ->
  count_page fuel a (ENTRY_COUNT_PER_PAGE - Z.of_nat k) (v, d) = (Ok tt, (v, d)).
Proof.
  intros Hi. pose proof (hi_items _ _ _ _ _ Hi) as Hp. pose proof (sum_n_nonneg _ (pi_ok _ _ _ Hp)).
  revert fuel. induction k as [|k IH]; intros fuel Hk Hf; (destruct fuel as [|fuel]; [lia|]); cbn [count_page]; [done|].
  rewrite (proj2 (Z.leb_gt _ _)) by lia. set (i := ENTRY_COUNT_PER_PAGE - Z.of_nat (S k)) in *.
  pose proof (load_blank d a p its (hi_addr _ _ _ _ _ Hi) Hp v p i (hi_located _ _ _ _ _ Hi) (hi_page _ _ _ _ _ Hi)
    (hi_addr _ _ _ _ _ Hi) ltac:(subst i; lia)) as Er.
  assert (Eo : or_else None (e ← entry_read a i; mret (Some e)) (v, d) = (Ok (Some (repeat 255 32)), (v, d)))
    by (unfold or_else; by rewrite (bind_ok _ _ _ _ _ Er)).
  rewrite (bind_ok _ _ _ _ _ Eo), (bind_ok _ _ _ _ _ (get_page_ok _ _ _ _ (hi_page _ _ _ _ _ Hi))).
  rewrite (state_at_get _ _ _ _ _ _ Hi) by (subst i; lia). rewrite state_at_beyond by (apply (pi_ok _ _ _ Hp) || (subst i; lia)).
  rewrite bool_decide_false by done. rewrite (bind_ok (mret tt) _ _ _ _ eq_refl).
  rewrite blank_entry_step. cbn [Z.eqb ELEMENT_MIDDLE ELEMENT_BULK Pos.eqb orb]. cbv zeta.
  replace (i + 1 + 0) with (ENTRY_COUNT_PER_PAGE - Z.of_nat k) by (subst i; lia). apply IH; lia.
Qed.

Lemma count_page_ok v d a p its pre post fuel :
  has_items v d a p its -> its = pre ++ post -> ENTRY_COUNT_PER_PAGE - sum_n pre < Z.of_nat fuel ->
  count_page fuel a (sum_n pre) (v, d) = (Ok tt, (with_ns (foldl count_item (ns_list v) post) (ns_states v) v, d)).
Proof.
  revert v pre fuel. induction post as [|it post IH]; intros v pre fuel Hi E Hf.
  { rewrite app_nil_r in E. subst pre. cbn [foldl]. rewrite with_ns_id. pose proof (items_bound _ _ _ (hi_items _ _ _ _ _ Hi)).
    pose proof (count_blank v d a p its (Z.to_nat (ENTRY_COUNT_PER_PAGE - sum_n its)) fuel Hi) as Hb.
    rewrite Z2Nat.id in Hb by lia. replace (ENTRY_COUNT_PER_PAGE - (ENTRY_COUNT_PER_PAGE - sum_n its)) with (sum_n its) in Hb by lia.
    apply Hb; lia. }
  destruct (item_at_intro _ _ _ _ _ _ (hi_items _ _ _ _ _ Hi) E) as [_ Hpre Hit Hpost H1 H2 H3 H4].
  destruct fuel as [|fuel]; [lia|]. cbn [count_page]. rewrite (proj2 (Z.leb_gt _ _)) by lia.
  assert (Eo : or_else None (e ← entry_read a (sum_n pre); mret (Some e)) (v, d) = (Ok (Some (i_head it)), (v, d))).
  { unfold or_else. by rewrite (bind_ok _ _ _ _ _ (read_head _ _ _ _ _ _ _ _ Hi (item_at_intro _ _ _ _ _ _ (hi_items _ _ _ _ _ Hi) E))). }
  rewrite (bind_ok _ _ _ _ _ Eo), (bind_ok _ _ _ _ _ (get_page_ok _ _ _ _ (hi_page _ _ _ _ _ Hi))).
  rewrite (state_at_get _ _ _ _ _ _ Hi) by lia.
  replace (state_at its (sum_n pre)) with (i_state it)
    by (rewrite E, <- (Z.add_0_r (sum_n pre)) at 1; by rewrite state_at_item by (done || lia)).
  pose proof (i_head_fields it Hit) as F.
  rewrite (sf_ns _ _ _ _ _ _ _ F), (sf_type _ _ _ _ _ _ _ F), (sf_len _ _ _ _ _ _ _ F).
  fold (has_data (i_type it)). fold (i_cnt it).
  set (v1 := with_ns (count_item (ns_list v) it) (ns_states v) v).
  assert (Ec : (if bool_decide (Some (i_state it) = Some ENTRY_USED)
      then upd_env (fun v => with_ns (count_ns (i_ns it) (ns_list v)) (ns_states v) v) else mret tt) (v, d) = (Ok tt, (v1, d))).
  { subst v1. unfold count_item, i_state. destruct (i_live it); [done|]. rewrite bool_decide_false by done. by rewrite with_ns_id. }
  rewrite (bind_ok _ _ _ _ _ Ec). cbv zeta.
  replace (sum_n pre + 1 + i_cnt it) with (sum_n (pre ++ [it])) by (rewrite sum_n_app; simpl; unfold i_n; lia).
  assert (Hi1 : has_items v1 d a p its) by by apply has_items_ns.
  rewrite (IH v1 (pre ++ [it]) fuel Hi1); [done|by rewrite <- app_assoc|]. rewrite sum_n_app. simpl. lia.
Qed.

Lemma count_pages_ok v d pgs :
  Forall (page_in v d) pgs ->
  count_pages (pg_addr <$> pgs) (v, d) =
    (Ok tt, (with_ns (foldl count_item (ns_list v) (mjoin (pg_items <$> pgs))) (ns_states v) v, d)).
Proof.
  revert v. induction pgs as [|g pgs IH]; intros v H; [cbn; by rewrite with_ns_id|].
  apply Forall_cons in H as [(p & st & Hi & _) H]. rewrite !fmap_cons. cbn [count_pages mjoin list_join].
  pose proof (count_page_ok v d (pg_addr g) p (pg_items g) [] (pg_items g) WALK_FUEL Hi eq_refl) as E.
  rewrite (bind_ok _ _ _ _ _ (E ltac:(unfold WALK_FUEL, ENTRY_COUNT_PER_PAGE; simpl; lia))).
  rewrite IH; [by rewrite foldl_app|]. eapply Forall_impl; [exact H|]. intros g'. apply page_in_ns.
Qed.
End count.

(** ** The namespaces found while loading *)
Section namespaces.
Implicit Types (I : list item) (l : list namespace_info) (st : list Z) (m : emap) (L P : list (bytes * Z)).

Definition info_of (it : item) : namespace_info := Ns (i_key it) (nth 0 (i_val it) 0) 0.
Abbreviation in_ns j := (filter (fun it : item => i_ns it = j)).

Lemma reg_items I l st :
  foldl reg_item (l, st) I =
    (l ++ (info_of <$> in_ns 0 (lives I)), foldl (fun s it => ns_state_set s (nth 0 (i_val it) 0) true) st (in_ns 0 (lives I))).
Proof.
  revert l st. induction I as [|it I IH]; intros l st; [by rewrite app_nil_r|]. cbn [foldl]. unfold reg_item at 2. cbn [fst snd].
  rewrite (filter_cons _ it I). destruct (i_live it); cbn [andb]; [rewrite decide_True by done|rewrite decide_False by (by intros [])].
  - rewrite (filter_cons _ it). destruct (Z.eqb_spec (i_ns it) 0) as [E|E]; [rewrite decide_True by done|rewrite decide_False by done].
    + rewrite IH. by rewrite <- app_assoc.
    + apply IH.
  - apply IH.
Qed.

Lemma set_all_bits I st j :
  length st = NAMESPACE_STATES_TABLE_SIZE -> 0 <= j < 256 -> Forall (fun it => 0 <= nth 0 (i_val it) 0 < 256) I ->
  let st' := foldl (fun s it => ns_state_set s (nth 0 (i_val it) 0) true) st I in
  length st' = NAMESPACE_STATES_TABLE_SIZE /\
  (ns_state_get st' j = true <-> ns_state_get st j = true \/ j ∈ (fun it => nth 0 (i_val it) 0) <$> I).
Proof.
  intros Hl Hj HI. cbv zeta. revert st Hl. induction HI as [|it I Hi _ IH]; intros st Hl; cbn [foldl fmap list_fmap].
  - split; [done|]. rewrite elem_of_nil. tauto.
  - destruct (IH (ns_state_set st (nth 0 (i_val it) 0) true)) as [H1 H2]; [by rewrite ns_state_set_length|].
    split; [exact H1|]. rewrite H2, ns_state_get_set, elem_of_cons by done. case_decide; [subst; tauto|].
    split; [tauto|]. intros [?|[?|?]]; [tauto|congruence|tauto].
Qed.

Lemma reg_perm L L' st st' m :
  ns_reg L st m -> L' ≡ₚ L -> length st' = NAMESPACE_STATES_TABLE_SIZE ->
  (forall i, 1 <= i <= NAMESPACE_MAX_CNT -> ns_state_get st' i = true <-> i ∈ L'.*2) -> ns_reg L' st' m.
Proof.
  intros [H1 H2 H3 H4 H5 H6 H7] E Hl Hb. split; try done.
  - by rewrite E.
  - by rewrite E.
  - by rewrite E.
  - intros name val. rewrite H4. setoid_rewrite E. done.
  - intros i k val Hm. destruct (H5 _ _ _ Hm) as [|[|]]; [auto|auto|]. rewrite E. auto.
Qed.

Definition stored_pairs m : list (bytes * Z) :=
  (fun kv : (Z * bytes) * bytes => (kv.1.2, nth 0 (i_val (elem_of_kv kv)) 0)) <$>
    filter (fun kv : (Z * bytes) * bytes => kv.1.1 = 0) (map_to_list m).

Lemma stored_pairs_perm L st m : ns_reg L st m -> stored_pairs m ≡ₚ L.
Proof.
  intros R. apply NoDup_Permutation.
  - apply (NoDup_fmap_1 fst). unfold stored_pairs. rewrite <- list_fmap_compose.
    apply NoDup_fmap_2_strong; [|apply NoDup_filter, NoDup_map_to_list].
    intros [[i k] v] [[j k'] v'] [Hi Hx]%list_elem_of_filter [Hj Hy]%list_elem_of_filter. simpl in *.
    intros ->. subst. apply elem_of_map_to_list in Hx, Hy. congruence.
  - apply (NoDup_fmap_1 fst), (nr_names _ _ _ R).
  - intros [name i]. unfold stored_pairs. rewrite list_elem_of_fmap. split.
    + intros ([[j k] v] & [= -> ->] & [Hj Hx]%list_elem_of_filter). simpl in Hj. subst j. apply elem_of_map_to_list in Hx.
      apply (nr_stored _ _ _ R) in Hx as (j & Hj & ->). exact Hj.
    + intros Hi. exists ((0, name), [i]). split; [done|]. apply list_elem_of_filter. split; [done|].
      apply elem_of_map_to_list, (nr_stored _ _ _ R). by exists i.
Qed.

Lemma filter_elems j m :
  in_ns j (elem_of_kv <$> map_to_list m) =
    elem_of_kv <$> filter (fun kv : (Z * bytes) * bytes => kv.1.1 = j) (map_to_list m).
Proof.
  induction (map_to_list m) as [|[[i k] v] l IH]; [done|]. rewrite fmap_cons, !filter_cons, IH.
  change (i_ns (elem_of_kv (i, k, v))) with (i_ns (elem i k v)). rewrite elem_ns. simpl. by case_decide.
Qed.

(** What loading registers is what was registered. *)
Lemma reg_loaded L st m I l st' pgs :
  ns_reg L st m -> holds pgs m -> lives I ≡ₚ live_items pgs ->
  (l, st') = foldl reg_item ([], repeat 0 NAMESPACE_STATES_TABLE_SIZE) I ->
  ns_reg (ns_pair <$> l) st' m /\ Forall (fun x => used_cnt x = 0) l.
Proof.
  intros R Hh HI E. rewrite reg_items in E. injection E as El Es.
  assert (EP : ns_pair <$> l ≡ₚ L).
  { rewrite <- (stored_pairs_perm L st m R), El, HI, (ho_items _ _ Hh), filter_elems.
    unfold stored_pairs. rewrite <- !list_fmap_compose. erewrite list_fmap_ext; [reflexivity|]. intros _ [[j k] w] _.
    unfold compose, ns_pair, info_of, elem_of_kv. cbn [ns_name ns_index fst snd]. by rewrite elem_key. }
  split; [|subst l; by apply Forall_fmap, Forall_true].
  assert (Ei : (ns_pair <$> l).*2 = (fun it => nth 0 (i_val it) 0) <$> in_ns 0 (lives I))
    by (rewrite El, <- !list_fmap_compose; done).
  assert (Hr : Forall (fun it => 0 <= nth 0 (i_val it) 0 < 256) (in_ns 0 (lives I))).
  { apply (Forall_fmap (fun it => nth 0 (i_val it) 0) (fun i => 0 <= i < 256)). rewrite <- Ei, EP.
    apply Forall_forall. intros i Hi. apply (listed_range _ _ _ R) in Hi. unfold NAMESPACE_MAX_CNT in Hi. lia. }
  assert (Hb : forall j, 0 <= j < 256 -> length st' = NAMESPACE_STATES_TABLE_SIZE /\
    (ns_state_get st' j = true <-> j ∈ (ns_pair <$> l).*2)).
  { intros j Hj. rewrite Es, Ei. destruct (set_all_bits (in_ns 0 (lives I)) (repeat 0 NAMESPACE_STATES_TABLE_SIZE) j eq_refl Hj Hr) as [H1 H2].
    split; [exact H1|]. rewrite H2. split; [|tauto]. intros [H|]; [|done]. exfalso.
    rewrite ns_state_get_testbit in H. revert H. rewrite nth_repeat. by rewrite Z.testbit_0_l. }
  eapply reg_perm; [exact R|exact EP|by apply (Hb 0)|]. intros i Hi. apply Hb. unfold NAMESPACE_MAX_CNT in Hi. lia.
Qed.

(** The number of keys of a namespace is what counting finds. *)
Lemma count_items I (before : list item) l :
  NoDup (ns_index <$> l) -> Forall (fun x => used_cnt x = Z.of_nat (length (in_ns (ns_index x) before))) l ->
  Z.of_nat (length before + length (lives I)) < 2 ^ 32 ->
  ns_pair <$> foldl count_item l I = ns_pair <$> l /\
  Forall (fun x => used_cnt x = Z.of_nat (length (in_ns (ns_index x) (before ++ lives I)))) (foldl count_item l I).
Proof.
  revert before l. induction I as [|it I IH]; intros before l Hn Hc Hb; [by rewrite app_nil_r|]. cbn [foldl].
  rewrite (filter_cons _ it I) in Hb |- *. unfold count_item at 2 4.
  destruct (i_live it); [rewrite decide_True in Hb |- * by done|rewrite decide_False in Hb |- * by (by intros []); by apply IH].
  cbn [length] in Hb.
  assert (E : count_ns (i_ns it) l = bump (fun c => u32 (c + 1)) (i_ns it) l).
  { apply (bump_found (fun c => u32 (c + 1)) (i_ns it)); [|done]. intros x. rewrite Z.eqb_eq. done. }
  rewrite E. rewrite (cons_middle it before), app_assoc.
  destruct (IH (before ++ [it]) (bump (fun c => u32 (c + 1)) (i_ns it) l)) as [H1 H2].
  - by rewrite bump_index.
  - apply Forall_fmap. eapply Forall_impl; [exact Hc|]. intros x Hx. simpl in Hx |- *.
    pose proof (length_filter (fun it => i_ns it = ns_index x) before).
    destruct (Z.eqb_spec (ns_index x) (i_ns it)) as [Ex|Ex]; cbn [ns_index used_cnt]; rewrite filter_app, length_app, Hx.
    + rewrite filter_cons_True by done. rewrite u32_small by (unfold in_width; lia). simpl. lia.
    + rewrite filter_cons_False by congruence. simpl. lia.
  - rewrite length_app. simpl. lia.
  - split; [by rewrite H1, bump_pairs|exact H2].
Qed.

Lemma keys_of_items j m : length (in_ns j (elem_of_kv <$> map_to_list m)) = keys_of j m.
Proof.
  induction m as [|[i k] v m Hm IH] using map_ind; [done|]. rewrite map_to_list_insert by done.
  rewrite fmap_cons, filter_cons, keys_of_insert.
  change (i_ns (elem_of_kv (i, k, v))) with (i_ns (elem i k v)). rewrite elem_ns.
  destruct (decide (i = j)) as [Ei|Ei]; destruct (decide (j = i /\ m !! (i, k) = None)) as [Ej|Ej]; cbn [length]; try lia.
  destruct Ej. by split.
Qed.
End namespaces.

(** ** Mounting the flash of a store *)
Section mount.
Context {D : Type} `{FD : !FlashDev D} `{ST : !Storage D}.
Abbreviation base := (@st_base D FD ST).
Abbreviation len := (@st_len D FD ST).
Implicit Types (d : D) (a n : Z) (v : nvds_env) (m : emap) (pgs : list pg).

Lemma store_ns n v d pgs l st : core n v d pgs -> core n (with_ns l st v) d pgs.
Proof.
  intros [H1 H2 H3 H4 H5 H6 H7 H8]. split; try done.
  - eapply Forall_impl; [exact H3|]. intros g. apply page_in_ns.
  - eapply Forall_impl; [exact H4|]. intros a (p & []). exists p. by split.
Qed.

Lemma lives_perm l l' : l ≡ₚ l' -> lives l ≡ₚ lives l'.
Proof. by intros ->. Qed.

(** The loading walk is given the flash only; [v] is the store that wrote it.
    Nothing is asked of the counters of [v]. *)
Lemma mount_flash n v d pgs m L st os label :
  store n v d pgs -> holds pgs m -> ns_reg L st m -> 4096 * Z.of_nat (npages v) = len -> malloc_ok os = true ->
  exists v', nvds_flash_env_init os base len label (zero_env, d) = (Ok tt, (v', d)) /\ kv n v' d m.
Proof.
  intros Hs Hh R Hp Hos. pose proof (so_core _ _ _ _ Hs) as C.
  unfold nvds_flash_env_init. unfold mbind at 1, prog_bind at 1, upd_env. cbn [fst snd].
  change (Env base len (take 32 label) _ _ _ _ _) with (init_env (D := D) (take 32 label)).
  unfold pages_load. unfold mbind at 1, prog_bind at 1, get_env. cbn [fst init_env env_length].
  destruct (st_len_ok (D := D)) as [Hl0 Hl4]. destruct (st_base_ok (D := D)) as [Hb0 _].
  destruct (st_size_ok (D := D)) as [Hsz1 Hsz2]. change SPI_FLASH_SEC_SIZE with 4096.
  rewrite Hl4. cbn [Z.eqb negb].
  destruct (load_loop os Hos n v d pgs C Hp (Z.to_nat (len / 4096)) 0 (init_env (take 32 label))) as (v1 & E1 & H1);
    [by apply (loaded_init n v d pgs C)|lia|Z.div_mod_to_equations; lia|].
  rewrite (bind_ok _ _ _ _ _ E1). rewrite Z2Nat.id in H1 by (Z.div_mod_to_equations; lia). rewrite Z.add_0_l in H1.
  destruct (loaded_core n v d pgs C v1 H1) as (C1 & Hf1 & Hn1 & I & HI & Hns).
  unfold mbind at 1, prog_bind at 1, get_env. cbn [fst].
  rewrite (so_used _ _ _ _ C1).
  rewrite (bind_ok _ _ _ _ _ (count_pages_ok v1 d pgs (so_pages _ _ _ _ C1))).
  assert (HL : lives I ≡ₚ live_items pgs) by (by apply lives_perm).
  destruct (reg_loaded _ _ m I (ns_list v1) (ns_states v1) pgs R Hh HL Hns) as [R1 Hz1].
  set (v2 := with_ns (foldl count_item (ns_list v1) (mjoin (pg_items <$> pgs))) (ns_states v1) v1).
  exists v2. split; [by destruct pgs as [|g pgs']; [by destruct (so_some _ _ _ _ C)|]|].
  assert (Hbound : Z.of_nat (length (live_items pgs)) < 2 ^ 32).
  { pose proof (load_bound _ _ _ _ C) as Hb. pose proof (so_used _ _ _ _ C) as Hu.
    assert (Hok : Forall item_ok (live_items pgs)).
    { apply lives_ok, Forall_join, Forall_fmap. eapply Forall_impl; [exact (so_pages _ _ _ _ C)|].
      intros g (p & st1 & Hi & _). apply (pi_ok _ _ _ (hi_items _ _ _ _ _ Hi)). }
    pose proof (length_items _ Hok). unfold npages in Hp. rewrite Hu, length_fmap in Hp.
    unfold ENTRY_COUNT_PER_PAGE in Hb. lia. }
  destruct (count_items (mjoin (pg_items <$> pgs)) [] (ns_list v1)) as [Hpairs Hcount].
  - rewrite <- pairs_snd. apply (nr_index _ _ _ R1).
  - eapply Forall_impl; [exact Hz1|]. intros x Hx. exact Hx.
  - exact Hbound.
  - split.
    + exists pgs. split; [|exact Hh]. split; [by apply store_ns|].
      cbn [v2 with_ns nvds_page_free]. intros E0. rewrite E0 in Hf1. apply Permutation_nil_l in Hf1.
      by apply (so_spare _ _ _ _ Hs).
    + cbn [v2 with_ns ns_list ns_states]. by rewrite Hpairs.
    + cbn [v2 with_ns ns_list]. eapply Forall_impl; [exact Hcount|]. intros x Hx. simpl in Hx |- *. rewrite Hx.
      fold (live_items pgs). rewrite (ho_items _ _ Hh), keys_of_items. done.
    + change (npages v2) with (npages v1). by rewrite Hn1.
Qed.

Lemma mount_kv n v d m os label :
  kv n v d m -> malloc_ok os = true ->
  exists v', nvds_flash_env_init os base len label (zero_env, d) = (Ok tt, (v', d)) /\ kv n v' d m.
Proof. intros [(pgs & Hs & Hh) R _ Hp] Hos. by eapply mount_flash. Qed.
End mount.

(** ** Starting on flash that holds no pages *)
Section format.
Context {D : Type} `{FD : !FlashDev D} `{ST : !Storage D}.
Abbreviation base := (@st_base D FD ST).
Abbreviation len := (@st_len D FD ST).
Implicit Types (d : D) (a n k : Z) (v : nvds_env).

Definition no_pages d : Prop := forall a, page_at len a -> unloaded (classify (image d a)) = true.

Context (os : os_results) (Hos : malloc_ok os = true) (d : D) (Hd : no_pages d) (label : bytes).

Record scanned k v : Prop := Scanned {
  sc_located : located v;
  sc_used : nvds_page_used v = [];
  sc_free : nvds_page_free v = (fun i => i * 4096) <$> seqZ 0 k;
  sc_pages : Forall (fun a => exists p, free_page v d a p) (nvds_page_free v);
  sc_ns : ns_list v = [] /\ ns_states v = repeat 0 NAMESPACE_STATES_TABLE_SIZE }.

Lemma sector_at k : 0 <= k < len / 4096 -> page_at len (k * 4096).
Proof. intros Hk. split_and!; [lia|apply Z.mod_mul; lia|Z.div_mod_to_equations; lia]. Qed.

Lemma scan_step k v : scanned k v -> 0 <= k < len / 4096 ->
  exists v', load_page os k (v, d) = (Ok tt, (v', d)) /\ scanned (k + 1) v'.
Proof.
  intros [Hl Hu Hf Hp Hn] Hk. pose proof (sector_at k Hk) as Hat.
  destruct (load_free os Hos v d k Hl Hat (Hd _ Hat)) as (p & E & Hb & Hh). eexists. split; [exact E|].
  assert (Hout : k * 4096 ∉ nvds_page_free v).
  { rewrite Hf. intros (j & Ej & Hj)%list_elem_of_fmap. apply elem_of_seqZ in Hj. lia. }
  split.
  - by destruct Hl.
  - done.
  - cbn [with_lists nvds_page_free]. rewrite Hf, seqZ_app by lia. rewrite fmap_app. do 2 f_equal.
  - cbn [with_lists nvds_page_free]. apply Forall_app. split.
    + rewrite Forall_forall in Hp |- *. intros a Ha. destruct (Hp a Ha) as [q Hq]. exists q.
      apply free_page_upd with d; [done|by intros <-|apply same_except_refl|done].
    + constructor; [|constructor]. exists p. split; [by apply lookup_insert_eq|done..| by rewrite Hh, Hd].
  - done.
Qed.

Lemma scan_loop (m : nat) k v : scanned k v -> 0 <= k -> k + Z.of_nat m <= len / 4096 ->
  exists v', pfor k m (load_page os) (v, d) = (Ok tt, (v', d)) /\ scanned (k + Z.of_nat m) v'.
Proof.
  revert k v. induction m as [|m IH]; intros k v Hv Hk Hm; [exists v; by rewrite Z.add_0_r|].
  destruct (scan_step k v Hv ltac:(lia)) as (v1 & E1 & H1). destruct (IH (k + 1) v1 H1 ltac:(lia) ltac:(lia)) as (v2 & E2 & H2).
  exists v2. cbn [pfor]. rewrite (bind_ok _ _ _ _ _ E1), E2. split; [done|].
  by replace (k + Z.of_nat (S m)) with (k + 1 + Z.of_nat m) by lia.
Qed.

(** The first free page becomes the page written to. *)
Lemma first_page v : scanned (len / 4096) v -> 2 <= len / 4096 ->
  exists v' d', new_page_request 0 (v, d) = (Ok (Some 0), (v', d')) /\ kv 0 v' d' ∅.
Proof.
  intros [Hl Hu Hf Hp [Hn1 Hn2]] Hlen. rewrite seqZ_cons in Hf by lia. rewrite (seqZ_cons (Z.succ 0)) in Hf by lia.
  change (Z.succ (Z.succ 0)) with 2 in Hf. change (Z.succ 0) with 1 in Hf.
  replace (Z.pred (Z.pred (len / 4096))) with (len / 4096 - 2) in Hf by lia. rewrite !fmap_cons in Hf.
  change (0 * 4096) with 0 in Hf. change (1 * 4096) with 4096 in Hf.
  set (rest := (fun i => i * 4096) <$> seqZ 2 (len / 4096 - 2)) in *. rewrite Hf in Hp.
  pose proof Hp as [[p0 Hp0] Hp']%Forall_cons.
  destruct (init_page_ok v d 0 p0 0 Hl Hp0) as (p & d' & E & Hi & Hh & Hse); [unfold in_width; lia|].
  set (v1 := with_lists (4096 :: rest) [0] (upd v 0 p)).
  assert (Hrest : 0 ∉ 4096 :: rest /\ NoDup (4096 :: rest)).
  { assert (En : 4096 :: rest = (fun i => i * 4096) <$> seqZ 1 (len / 4096 - 1)).
    { rewrite (seqZ_cons 1) by lia. replace (Z.pred (len / 4096 - 1)) with (len / 4096 - 2) by lia. done. }
    rewrite En. split; [intros (j & Ej & Hj%elem_of_seqZ)%list_elem_of_fmap; lia|].
    apply NoDup_fmap_2; [intros x y ?; lia|apply NoDup_seqZ]. }
  destruct Hrest as [H0 Hnd].
  exists v1, d'. split.
  - unfold new_page_request, or_else. unfold mbind at 1, prog_bind at 1, get_env. cbn [fst]. rewrite Hf. cbn [length Nat.eqb andb].
    unfold mbind at 1, prog_bind at 1. cbn [mret prog_ret]. rewrite (bind_ok _ _ _ _ _ E).
    unfold mbind at 1 2, prog_bind at 1 2, upd_env. cbn [fst snd upd with_pages nvds_page_free nvds_page_used].
    by rewrite Hf, Hu.
  - split.
    + exists [Pg 0 0 []]. split; [split; [split|done]|].
      * exact Hl.
      * done.
      * constructor; [|constructor]. exists p, PAGE_ACTIVE. split; [by apply has_items_lists|].
        cbn [pg_seq]. rewrite fresh_header_active. split; [done|by left].
      * cbn [v1 with_lists nvds_page_free]. rewrite Forall_forall in Hp' |- *. intros a Ha.
        destruct (Hp' a Ha) as [q Hq]. exists q.
        eapply free_page_upd; [apply (fp_at _ _ _ _ Hp0)|by intros <-|exact Hse|exact Hq].
      * cbn [v1 with_lists nvds_page_free nvds_page_used]. apply NoDup_app. split_and!; [done| |apply NoDup_singleton].
        intros x Hx ->%list_elem_of_singleton. done.
      * done.
      * cbn. split; [by repeat constructor|]. constructor; [lia|constructor].
      * lia.
      * split; [by rewrite map_to_list_empty|done].
    + cbn [v1 with_lists upd with_pages ns_list ns_states]. rewrite Hn1, Hn2. split; try (by constructor).
      * intros name val. rewrite lookup_empty. split; [done|]. by intros (i & []%elem_of_nil & _).
      * intros i Hr. cbn [fmap list_fmap]. rewrite ns_state_get_testbit, nth_repeat, Z.testbit_0_l. split; [done|by intros []%elem_of_nil].
    + cbn [v1 with_lists upd with_pages ns_list]. rewrite Hn1. constructor.
    + unfold npages. cbn [v1 with_lists nvds_page_free nvds_page_used length]. subst rest. rewrite length_fmap, length_seqZ.
      destruct (st_len_ok (D := D)). Z.div_mod_to_equations; lia.
Qed.

Lemma format_kv : 2 * 4096 <= len ->
  exists v' d', nvds_flash_env_init os base len label (zero_env, d) = (Ok tt, (v', d')) /\ kv 0 v' d' ∅.
Proof.
  intros Hlen. unfold nvds_flash_env_init. unfold mbind at 1, prog_bind at 1, upd_env. cbn [fst snd].
  change (Env base len (take 32 label) _ _ _ _ _) with (init_env (D := D) (take 32 label)).
  unfold pages_load. unfold mbind at 1, prog_bind at 1, get_env. cbn [fst init_env env_length].
  destruct (st_len_ok (D := D)) as [Hl0 Hl4]. change SPI_FLASH_SEC_SIZE with 4096. rewrite Hl4. cbn [Z.eqb negb].
  destruct (scan_loop (Z.to_nat (len / 4096)) 0 (init_env (take 32 label))) as (v1 & E1 & H1);
    [by split|lia|Z.div_mod_to_equations; lia|].
  rewrite (bind_ok _ _ _ _ _ E1). rewrite Z2Nat.id in H1 by (Z.div_mod_to_equations; lia). rewrite Z.add_0_l in H1.
  destruct (first_page v1 H1) as (v2 & d2 & E2 & H2); [Z.div_mod_to_equations; lia|].
  exists v2, d2. split; [|exact H2]. unfold mbind at 1, prog_bind at 1, get_env. cbn [fst].
  rewrite (sc_used _ _ H1). rewrite (bind_ok (count_pages []) _ _ _ _ eq_refl).
  unfold ignore. by rewrite E2.
Qed.
End format.
