(* ===== verification/NvdsNs.v ===== *)
(** * Operations on the keys of a whole namespace

    [nvds_find_keys_by_namespace] reports every key of a namespace once, with the
    length of its value; [nvds_del_keys_by_namespace] deletes them all and
    releases the namespace with the last one. *)
From S2P Require Import Prelude Prog Crc Flash NvdsFormat Nvds NvdsPage NvdsOps NvdsReclaim NvdsStore NvdsPut NvdsApi.

Section keys.
Context {D : Type} `{FD : !FlashDev D} `{ST : !Storage D}.
Implicit Types (d : D) (a i n : Z) (v : nvds_env) (p : page_env) (its pre post : list item) (m : emap)
  (pgs A B : list pg) (g : pg).

(** ** Reporting the keys *)
Definition reported i (it : item) : Prop := i_ns it = i /\ i_type it <> ELEMENT_BULK.
#[global] Instance reported_dec i it : Decision (reported i it) := and_dec _ _.

Definition reports i its : list (bytes * Z) :=
  (fun it => (i_key it, i_len it)) <$> filter (reported i) (lives its).

Lemma reports_app i l k : reports i (l ++ k) = reports i l ++ reports i k.
Proof. unfold reports. by rewrite lives_app, filter_app, fmap_app. Qed.

Lemma key_report_head it : item_ok it -> key_report (i_head it) = (i_key it, i_len it).
Proof.
  intros H. unfold key_report. rewrite (sf_len _ _ _ _ _ _ _ (i_head_fields it H)). f_equal.
  destruct H. unfold i_head. by apply sealed_name.
Qed.

Lemma find_keys_page_ok v d a p its pre post i fuel :
  has_items v d a p its -> its = pre ++ post -> (length post < fuel)%nat ->
  find_keys_page fuel a i (sum_n pre) (v, d) = (Ok (reports i post), (v, d)).
Proof.
  intros H. revert pre fuel. induction post as [|it post IH]; intros pre fuel E Hf;
    (destruct fuel as [|fuel]; [simpl in Hf; lia|]); cbn [find_keys_page].
  - rewrite app_nil_r in E. subst pre. destruct (Z.leb_spec ENTRY_COUNT_PER_PAGE (sum_n its)); [done|].
    pose proof (pi_ok _ _ _ (hi_items _ _ _ _ _ H)) as Hok. pose proof (sum_n_nonneg _ Hok).
    rewrite (bind_ok _ _ _ _ _ (get_page_ok _ _ _ _ (hi_page _ _ _ _ _ H))).
    rewrite (state_at_get _ _ _ _ _ _ H) by lia. by rewrite state_at_beyond by (done || lia).
  - destruct (item_at_intro _ _ _ _ _ _ (hi_items _ _ _ _ _ H) E) as [_ Hpre Hit Hpost Hs Hn Hfit Hp0].
    rewrite (proj2 (Z.leb_gt _ _)) by lia.
    rewrite (bind_ok _ _ _ _ _ (get_page_ok _ _ _ _ (hi_page _ _ _ _ _ H))).
    rewrite (state_at_get _ _ _ _ _ _ H) by lia.
    replace (state_at its (sum_n pre)) with (i_state it)
      by (rewrite E, <- (Z.add_0_r (sum_n pre)) at 1; by rewrite state_at_item by (done || lia)).
    transitivity ((e ← entry_read a (sum_n pre);
      rest ← find_keys_page fuel a i (next_entry e (sum_n pre));
      mret (if bool_decide (i_state it = ENTRY_USED) && (entry_ns e =? i) && negb (entry_type e =? ELEMENT_BULK)
            then key_report e :: rest else rest)) (v, d)).
    { unfold i_state. by destruct (i_live it). }
    rewrite (bind_ok _ _ _ _ _ (read_head _ _ _ _ _ _ _ _ H (item_at_intro _ _ _ _ _ _ (hi_items _ _ _ _ _ H) E))).
    rewrite next_entry_head by (done || lia).
    replace (sum_n pre + i_n it) with (sum_n (pre ++ [it])) by (rewrite sum_n_app; simpl; lia).
    rewrite (bind_ok _ _ _ _ _ (IH (pre ++ [it]) fuel ltac:(by rewrite E, <- app_assoc) ltac:(simpl in Hf; lia))).
    rewrite state_used, key_report_head by done. pose proof (i_head_fields it Hit) as F.
    rewrite (sf_ns _ _ _ _ _ _ _ F), (sf_type _ _ _ _ _ _ _ F). unfold mret, prog_ret. do 2 f_equal.
    unfold reports. rewrite (filter_cons _ it). destruct (i_live it); [rewrite decide_True by done|rewrite decide_False by (by intros []); done].
    rewrite filter_cons. cbn [andb]. destruct (decide (reported i it)) as [[Hi Ht]|Hr].
    + by rewrite (proj2 (Z.eqb_eq _ _) Hi), (proj2 (Z.eqb_neq _ _) Ht).
    + destruct (Z.eqb_spec (i_ns it) i) as [Hi|]; [|done]. destruct (Z.eqb_spec (i_type it) ELEMENT_BULK) as [|Ht]; [done|].
      by destruct Hr.
Qed.

Lemma find_keys_pages_ok v d pgs i :
  Forall (page_in v d) pgs ->
  find_keys_pages (pg_addr <$> pgs) i (v, d) = (Ok (reports i (mjoin (pg_items <$> pgs))), (v, d)).
Proof.
  induction 1 as [|g pgs (p & st & Hi & Hh & Hst) _ IH]; [done|].
  rewrite !fmap_cons. cbn [find_keys_pages mjoin list_join].
  rewrite (bind_ok _ _ _ _ _ (get_page_ok _ _ _ _ (hi_page _ _ _ _ _ Hi))).
  rewrite (page_in_readable _ _ _ Hh Hst). cbn [negb].
  pose proof (hi_items _ _ _ _ _ Hi) as Hpi.
  assert (Hlen : (length (pg_items g) < WALK_FUEL)%nat).
  { pose proof (length_items _ (pi_ok _ _ _ Hpi)). pose proof (items_bound _ _ _ Hpi).
    unfold WALK_FUEL, ENTRY_COUNT_PER_PAGE in *. lia. }
  pose proof (find_keys_page_ok _ _ _ _ _ [] (pg_items g) i _ Hi eq_refl Hlen) as E. cbn [sum_n foldr] in E.
  rewrite (bind_ok _ _ _ _ _ E), (bind_ok _ _ _ _ _ IH). by rewrite reports_app.
Qed.

(** In a store every report is a key with the length of its value. *)
Lemma reports_holds pgs m i :
  holds pgs m ->
  reports i (mjoin (pg_items <$> pgs)) ≡ₚ
    (fun kv : (Z * bytes) * bytes => (kv.1.2, Z.of_nat (length kv.2))) <$>
      filter (fun kv : (Z * bytes) * bytes => kv.1.1 = i) (map_to_list m).
Proof.
  intros H. unfold reports. fold (live_items pgs). rewrite (ho_items _ _ H).
  assert (Ht : forall ns k val, i_type (elem ns k val) <> ELEMENT_BULK) by (intros; unfold elem; by destruct (_ <? _)).
  induction (map_to_list m) as [|[[j k] val] l IH]; [done|]. rewrite fmap_cons, !filter_cons.
  change (elem_of_kv (j, k, val)) with (elem j k val). cbn [fst snd].
  destruct (decide (reported i (elem j k val))) as [[Hi _]|Hr].
  - rewrite elem_ns in Hi. rewrite decide_True by done. rewrite !fmap_cons, elem_key, elem_len. cbn [fst snd]. by rewrite IH.
  - rewrite decide_False; [exact IH|]. intros ->. apply Hr. split; [apply elem_ns|apply Ht].
Qed.

Lemma find_keys_kv n v d m os ns :
  kv n v d m -> ns_fits ns ->
  match ns_of m ns with
  | None => nvds_find_keys_by_namespace os ns (v, d) = (Err NVDS_E_NOT_FOUND, (v, d))
  | Some _ => exists l, nvds_find_keys_by_namespace os ns (v, d) = (Ok l, (v, d)) /\ NoDup l.*1 /\
      forall k len, (k, len) ∈ l <-> exists val, view m ns k = Some val /\ len = Z.of_nat (length val)
  end.
Proof.
  intros Hkv Hf. unfold nvds_find_keys_by_namespace.
  pose proof (resolve n v d m os ns false Hkv Hf (or_intror eq_refl)) as E.
  destruct (ns_of m ns) as [i|] eqn:Ei; [|by rewrite (bind_err _ _ _ _ _ E)]. rewrite (bind_ok _ _ _ _ _ E).
  destruct Hkv as [(pgs & Hs & Hh) _ _ _]. exists (reports i (mjoin (pg_items <$> pgs))).
  pose proof (reports_holds pgs m i Hh) as HP. split_and!.
  - unfold mbind, prog_bind, get_env. cbn [fst]. rewrite (so_used _ _ _ _ (so_core _ _ _ _ Hs)).
    apply find_keys_pages_ok, Hs.
  - rewrite HP, <- list_fmap_compose. apply NoDup_fmap_2_strong; [|apply NoDup_filter, NoDup_map_to_list].
    intros [[j k] x] [[j' k'] y] [Hj Hx]%list_elem_of_filter [Hj' Hy]%list_elem_of_filter. simpl in *.
    intros ->. subst. apply elem_of_map_to_list in Hx, Hy. congruence.
  - intros k len. rewrite HP, list_elem_of_fmap. unfold view. rewrite Ei. split.
    + intros ([[j k'] x] & [= -> ->] & [Hj Hx]%list_elem_of_filter). simpl in Hj. subst j.
      apply elem_of_map_to_list in Hx. by exists x.
    + intros (x & Hx & ->). exists ((i, k), x). split; [done|]. apply list_elem_of_filter. split; [done|].
      by apply elem_of_map_to_list.
Qed.
End keys.

(** ** Deleting the keys *)

(** What a deletion inside namespace [i] leaves alone. *)
Record spares (i : Z) (m m' : emap) : Prop := Spares {
  sp_ns : forall ns j, ns_of m' ns = Some j -> ns_of m ns = Some j;
  sp_view : forall ns k, ns_of m ns <> Some i -> view m' ns k = view m ns k }.

Lemma spares_refl i m : spares i m m.
Proof. by split. Qed.

Lemma spares_trans i m1 m2 m3 : spares i m1 m2 -> spares i m2 m3 -> spares i m1 m3.
Proof.
  intros [H1 H2] [H3 H4]. split; [auto|]. intros ns k Hne. rewrite H4; [by apply H2|]. intros H. by apply Hne, H1.
Qed.

Lemma ns_of_delete m i k ns : i <> 0 -> ns_of (delete (i, k) m) ns = ns_of m ns.
Proof. intros Hi. destruct ns as [name|]; [|done]. simpl. by rewrite lookup_delete_ne by congruence. Qed.

Lemma spares_delete i k m : i <> 0 -> spares i m (delete (i, k) m).
Proof.
  intros Hi. split; intros ns; rewrite ?ns_of_delete by done; [done|]. intros k' Hne.
  unfold view. rewrite ns_of_delete by done. destruct (ns_of m ns) as [j|]; [|done].
  rewrite lookup_delete_ne; [done|congruence].
Qed.

Lemma spares_name i name m :
  (forall ns k, view (delete (0, name) m) ns k = view m ns k) -> spares i m (delete (0, name) m).
Proof.
  intros Hv. split; [|auto]. intros [name'|] j; [|done]. simpl.
  destruct (decide (name' = name)) as [->|Hne]; [by rewrite lookup_delete_eq|by rewrite lookup_delete_ne by congruence].
Qed.

(** No live item of namespace [i]. *)
Definition cleared (i : Z) (its : list item) : Prop := Forall (fun it => ~ (i_live it = true /\ i_ns it = i)) its.

Lemma cleared_killed i its its' : Forall2 killed its its' -> cleared i its -> cleared i its'.
Proof.
  unfold cleared. induction 1 as [|x y its its' Hk _ IH]; intros H; [done|]. apply Forall_cons in H as [Hx H].
  constructor; [|by apply IH]. destruct Hk as [->| ->]; [done|]. by intros [? _].
Qed.

Definition all_cleared (i : Z) (pgs : list pg) : Prop := Forall (fun g => cleared i (pg_items g)) pgs.

Lemma cleared_lesser i pgs pgs' : Forall2 lesser pgs pgs' -> all_cleared i pgs -> all_cleared i pgs'.
Proof.
  unfold all_cleared. induction 1 as [|g g' pgs pgs' [_ Hk] _ IH]; intros H; [done|]. apply Forall_cons in H as [Hg H].
  constructor; [by eapply cleared_killed|by apply IH].
Qed.

Lemma all_cleared_none i pgs m k : holds pgs m -> all_cleared i pgs -> m !! (i, k) = None.
Proof.
  intros Hh Hc. destruct (m !! (i, k)) as [val|] eqn:E; [|done]. exfalso.
  assert (Hin : elem i k val ∈ live_items pgs).
  { rewrite (ho_items _ _ Hh). apply list_elem_of_fmap. exists ((i, k), val). split; [done|by apply elem_of_map_to_list]. }
  unfold live_items in Hin. apply list_elem_of_filter in Hin as [_ Hin]. apply list_elem_of_join in Hin as (its & Hin & Hits).
  apply list_elem_of_fmap in Hits as (g & -> & Hg). pose proof (proj1 (Forall_forall _ _) Hc g Hg) as Hcg. simpl in Hcg.
  apply (proj1 (Forall_forall _ _) Hcg _ Hin). split; [apply elem_live|apply elem_ns].
Qed.

Lemma killed_sum its its' : Forall2 killed its its' -> sum_n its' = sum_n its.
Proof. induction 1 as [|x y its its' [->| ->] _ IH]; simpl; rewrite ?IH; done. Qed.

Lemma killed_trans l1 l2 l3 : Forall2 killed l1 l2 -> Forall2 killed l2 l3 -> Forall2 killed l1 l3.
Proof.
  intros H. revert l3. induction H as [|x y l1 l2 Hk _ IH]; intros l3 H3; inversion H3; subst; constructor; [|by apply IH].
  destruct Hk as [->| ->]; [done|]. destruct H1 as [->| ->]; by right.
Qed.

Lemma lesser_trans l1 l2 l3 : Forall2 lesser l1 l2 -> Forall2 lesser l2 l3 -> Forall2 lesser l1 l3.
Proof.
  intros H. revert l3. induction H as [|x y l1 l2 [E Hk] _ IH]; intros l3 H3; inversion H3; subst; constructor; [|by apply IH].
  destruct H1 as [E1 Hk1]. split; [congruence|by eapply killed_trans].
Qed.

Section delete_keys.
Context {D : Type} `{FD : !FlashDev D} `{ST : !Storage D}.
Context (n i : Z) (Hi : 1 <= i <= NAMESPACE_MAX_CNT).
Implicit Types (d : D) (a : Z) (v : nvds_env) (p : page_env) (its pre post : list item) (m : emap)
  (pgs A B : list pg) (g : pg) (nsp : option nat).

(** The state between two steps; [nsp] is the pointer to the namespace. *)
Record walk nsp pgs v d m : Prop := Walk {
  wk_store : store n v d pgs;
  wk_holds : holds pgs m;
  wk_kv : kv n v d m;
  wk_ns : match nsp with
          | Some j => exists x, ns_list v !! j = Some x /\ ns_index x = i
          | None => keys_of i m = 0%nat
          end }.

Record after nsp pgs m nsp' pgs' v' d' m' : Prop := After {
  af_walk : walk nsp' pgs' v' d' m';
  af_pages : Forall2 lesser pgs pgs';
  af_spares : spares i m m' }.

Lemma drop_ns_key_ok pgs v d m j x :
  kv_over pgs i n v d m -> ns_list v !! j = Some x -> ns_index x = i ->
  Z.of_nat (keys_of i m) + 1 < 2 ^ 31 -> key_ok (ns_name x) ->
  exists nsp' v' d' pgs' m', drop_ns_key (Some j) (v, d) = (Ok nsp', (v', d')) /\
    after (Some j) pgs m nsp' pgs' v' d' m'.
Proof.
  intros Hkv Hj Hx Hb Hname. pose proof (drop_one _ _ _ _ _ _ Hkv Hb) as Hone. unfold drop_ns_key.
  unfold mbind at 1, prog_bind at 1, get_env. cbn [fst]. rewrite Hj. cbn [ns_name ns_index used_cnt].
  pose proof (proj1 (Forall_lookup _ _) (ko_count _ _ _ _ _ _ Hkv) _ _ Hj) as Hc. simpl in Hc.
  rewrite decide_True in Hc by done. rewrite Hx in Hc. rewrite Hc, u32_small by (unfold in_width; lia).
  destruct (Z.eqb_spec (Z.of_nat (keys_of i m) + 1 - 1) 0) as [Ez|Ez].
  - assert (Hz : keys_of i m = 0%nat) by lia.
    destruct (drop_last _ _ _ _ _ _ _ _ Hkv Hj Hx Hz Hname) as (v1 & d1 & pgs1 & E & Hs1 & Hh1 & Hless & Hkv1 & Hview).
    exists None, v1, d1, pgs1, (delete (0, ns_name x) m). split.
    + unfold mbind, prog_bind in E |- *. unfold upd_env in E |- *. cbn [fst snd] in E |- *. by rewrite E.
    + split; [|exact Hless|by apply spares_name]. split; [exact Hs1|exact Hh1|exact Hkv1|].
      rewrite keys_of_delete, Hz. done.
  - set (l1 := <[j:=Ns (ns_name x) (ns_index x) (Z.of_nat (keys_of i m) + 1 - 1)]> (ns_list v)).
    assert (El : l1 = bump (fun c => u32 (c - 1)) i (ns_list v)).
    { pose proof (nr_index _ _ _ (ko_reg _ _ _ _ _ _ Hkv)) as Hn. rewrite pairs_snd in Hn.
      rewrite <- Hx, <- (bump_one (fun c => u32 (c - 1)) (ns_list v) j x Hn Hj). subst l1.
      rewrite Hc, u32_small by (unfold in_width; lia). done. }
    exists (Some j), (with_ns l1 (ns_states v) v), d, pgs, m. split.
    + unfold mbind, prog_bind, upd_env. cbn [fst snd]. unfold mret, prog_ret. subst l1. by rewrite Hx.
    + split; [|apply lesser_refl|apply spares_refl]. rewrite <- El in Hone.
      split; [apply store_with_ns, Hkv|apply Hkv|exact Hone|].
      exists (Ns (ns_name x) (ns_index x) (Z.of_nat (keys_of i m) + 1 - 1)). split; [|done].
      cbn [with_ns ns_list]. subst l1. apply list_lookup_insert_eq. by eapply lookup_lt_Some.
Qed.

(** Retiring one live item of the namespace. *)
Lemma delete_one nsp A a s pre it post B v d m :
  walk nsp (A ++ Pg a s (pre ++ it :: post) :: B) v d m -> i_live it = true -> i_ns it = i -> item_ok it ->
  exists nsp' v' d' pgs' m',
    (_ ← (if (i_type it =? ELEMENT_SMALL) || (i_type it =? ELEMENT_BULKINFO) then retire a (sum_n pre) 0
          else if (i_type it =? ELEMENT_MIDDLE) || (i_type it =? ELEMENT_BULK)
          then retire a (sum_n pre) (entries_for (i_len it)) else mret tt);
     drop_ns_key nsp) (v, d) = (Ok nsp', (v', d')) /\
    after nsp (A ++ Pg a s (pre ++ kill it :: post) :: B) m nsp' pgs' v' d' m'.
Proof.
  intros [Hs Hh Hkv Hns] Hl Hin Hit.
  destruct (holds_in _ _ it Hh (live_in A a s pre it post B Hl)) as (val & Em & Eit & Hv). rewrite Hin in Em, Eit.
  destruct nsp as [j|]; [|by rewrite (proj1 (keys_of_zero i m) Hns) in Em].
  destruct Hns as (x & Hj & Hx). set (key := i_key it) in *.
  rewrite Eit in Hs, Hh. destruct (retire_store _ _ _ _ _ _ _ _ _ _ _ _ _ Hs Hh) as (v1 & d1 & Er & Hs1 & Hh1 & Hsame).
  rewrite <- Eit in Er, Hs1, Hh1.
  assert (Hover := over_after n v d m v1 d1 _ i key val Hkv ltac:(lia) Em Hs1 Hh1 Hsame).
  assert (Hj1 : ns_list v1 !! j = Some x) by (destruct Hsame as [[-> _] _]; exact Hj).
  assert (Hb : Z.of_nat (keys_of i (delete (i, key) m)) + 1 < 2 ^ 31).
  { pose proof (kv_keys _ _ _ _ i Hkv). rewrite keys_of_delete, decide_True by by rewrite Em.
    assert (0 < keys_of i m)%nat. { destruct (keys_of i m) eqn:E0; [|lia]. by rewrite (proj1 (keys_of_zero i m) E0) in Em. }
    lia. }
  assert (Hname : key_ok (ns_name x)).
  { pose proof (names_ok _ _ _ _ Hh (kv_reg _ _ _ _ Hkv)) as Hn. by apply (proj1 (Forall_lookup _ _) Hn _ _ Hj). }
  destruct (drop_ns_key_ok _ _ _ _ j x Hover Hj1 Hx Hb Hname) as (nsp' & v2 & d2 & pgs2 & m2 & E2 & [Hw2 Hl2 Hsp2]).
  exists nsp', v2, d2, pgs2, m2. split.
  - assert (Er' : (if (i_type it =? ELEMENT_SMALL) || (i_type it =? ELEMENT_BULKINFO) then retire a (sum_n pre) 0
          else if (i_type it =? ELEMENT_MIDDLE) || (i_type it =? ELEMENT_BULK)
          then retire a (sum_n pre) (entries_for (i_len it)) else mret tt) (v, d) = (Ok tt, (v1, d1))).
    { rewrite Eit, elem_len. rewrite Eit in Er.
      destruct (Z.lt_ge_cases ELEMENT_SMALL_MAX_SIZE (Z.of_nat (length val))) as [Hm|Hsm].
      - destruct (elem_cnt_middle i key val Hm) as [-> Hc]. rewrite Hc in Er. exact Er.
      - destruct (elem_cnt_small i key val Hsm) as [-> Hc]. rewrite Hc in Er. exact Er. }
    by rewrite (bind_ok _ _ _ _ _ Er').
  - split; [exact Hw2|exact Hl2|]. eapply spares_trans; [apply spares_delete; lia|exact Hsp2].
Qed.

Lemma after_refl nsp pgs v d m : walk nsp pgs v d m -> after nsp pgs m nsp pgs v d m.
Proof. intros H. split; [exact H|apply lesser_refl|apply spares_refl]. Qed.

Lemma after_trans nsp pgs m nsp1 pgs1 v1 d1 m1 nsp2 pgs2 v2 d2 m2 :
  after nsp pgs m nsp1 pgs1 v1 d1 m1 -> after nsp1 pgs1 m1 nsp2 pgs2 v2 d2 m2 -> after nsp pgs m nsp2 pgs2 v2 d2 m2.
Proof.
  intros [_ H1 H2] [H3 H4 H5]. split; [exact H3|by eapply lesser_trans|by eapply spares_trans].
Qed.

(** Splitting the pages after a step at the page it was on. *)
Lemma lesser_split A a s pre post B pgs' :
  Forall2 lesser (A ++ Pg a s (pre ++ post) :: B) pgs' ->
  exists A' s' pre' post' B', pgs' = A' ++ Pg a s' (pre' ++ post') :: B' /\
    Forall2 killed pre pre' /\ Forall2 killed post post' /\ length A' = length A.
Proof.
  intros (A' & R' & HA & HR & ->)%Forall2_app_inv_l. apply Forall2_cons_inv_l in HR as ([a' s' its'] & B' & [Ea Hk] & HB & ->).
  cbn [pg_addr pg_items] in *. subst a'. apply Forall2_app_inv_l in Hk as (pre' & post' & H1 & H2 & ->).
  exists A', s', pre', post', B'. split_and!; [done..|symmetry; by eapply Forall2_length].
Qed.

(** One step of the walk over a page. *)
Lemma del_step fuel nsp v d m A a s pre it post B :
  walk nsp (A ++ Pg a s (pre ++ it :: post) :: B) v d m ->
  item_ok it /\
  del_keys_page (S fuel) a i nsp (sum_n pre) (v, d) =
    (nsp' ← (if i_live it && (i =? i_ns it) then
               _ ← (if (i_type it =? ELEMENT_SMALL) || (i_type it =? ELEMENT_BULKINFO) then retire a (sum_n pre) 0
                    else if (i_type it =? ELEMENT_MIDDLE) || (i_type it =? ELEMENT_BULK)
                    then retire a (sum_n pre) (entries_for (i_len it)) else mret tt);
               drop_ns_key nsp
             else mret nsp);
     del_keys_page fuel a i nsp' (sum_n (pre ++ [it]))) (v, d).
Proof.
  intros Hw. destruct (store_mid _ _ _ _ _ _ (so_core _ _ _ _ (wk_store _ _ _ _ _ Hw))) as (p & st & Hit & _).
  cbn [pg_addr pg_items] in Hit. pose proof (hi_items _ _ _ _ _ Hit) as Hp.
  pose proof (item_at_intro _ _ _ _ _ _ Hp eq_refl) as Hat. destruct Hat as [_ Hpre Hito Hpost H1 H2 H3 H4].
  split; [exact Hito|]. cbn [del_keys_page]. rewrite (proj2 (Z.leb_gt _ _)) by lia.
  rewrite (bind_ok _ _ _ _ _ (get_page_ok _ _ _ _ (hi_page _ _ _ _ _ Hit))).
  rewrite (state_at_get _ _ _ _ _ _ Hit) by lia.
  replace (state_at (pre ++ it :: post) (sum_n pre)) with (i_state it)
    by (rewrite <- (Z.add_0_r (sum_n pre)) at 1; by rewrite state_at_item by (done || lia)).
  transitivity ((e ← entry_read a (sum_n pre);
    nsp' ← (if bool_decide (i_state it = ENTRY_USED) && (i =? entry_ns e) then
              _ ← (if (entry_type e =? ELEMENT_SMALL) || (entry_type e =? ELEMENT_BULKINFO) then retire a (sum_n pre) 0
                   else if (entry_type e =? ELEMENT_MIDDLE) || (entry_type e =? ELEMENT_BULK)
                   then retire a (sum_n pre) (entries_for (entry_length e)) else mret tt);
              drop_ns_key nsp
            else mret nsp);
    del_keys_page fuel a i nsp' (next_entry e (sum_n pre))) (v, d)).
  { unfold i_state. by destruct (i_live it). }
  rewrite (bind_ok _ _ _ _ _ (read_head _ _ _ _ _ _ _ _ Hit (item_at_intro _ _ _ _ _ _ Hp eq_refl))).
  rewrite next_entry_head by (done || lia). pose proof (i_head_fields it Hito) as F.
  rewrite (sf_ns _ _ _ _ _ _ _ F), (sf_type _ _ _ _ _ _ _ F), (sf_len _ _ _ _ _ _ _ F), state_used.
  by replace (sum_n pre + i_n it) with (sum_n (pre ++ [it])) by (rewrite sum_n_app; simpl; lia).
Qed.

Lemma del_end fuel nsp v d m A a s its B :
  walk nsp (A ++ Pg a s its :: B) v d m -> del_keys_page (S fuel) a i nsp (sum_n its) (v, d) = (Ok nsp, (v, d)).
Proof.
  intros Hw. destruct (store_mid _ _ _ _ _ _ (so_core _ _ _ _ (wk_store _ _ _ _ _ Hw))) as (p & st & Hit & _).
  cbn [pg_addr pg_items] in Hit. cbn [del_keys_page]. destruct (Z.leb_spec ENTRY_COUNT_PER_PAGE (sum_n its)); [done|].
  pose proof (pi_ok _ _ _ (hi_items _ _ _ _ _ Hit)) as Hok. pose proof (sum_n_nonneg _ Hok).
  rewrite (bind_ok _ _ _ _ _ (get_page_ok _ _ _ _ (hi_page _ _ _ _ _ Hit))).
  rewrite (state_at_get _ _ _ _ _ _ Hit) by lia. by rewrite state_at_beyond by (done || lia).
Qed.

Lemma del_keys_page_ok fuel nsp v d m A a s pre post B :
  walk nsp (A ++ Pg a s (pre ++ post) :: B) v d m -> (length post < fuel)%nat -> cleared i pre ->
  exists nsp' v' d' m' A' s' its' B',
    del_keys_page fuel a i nsp (sum_n pre) (v, d) = (Ok nsp', (v', d')) /\
    after nsp (A ++ Pg a s (pre ++ post) :: B) m nsp' (A' ++ Pg a s' its' :: B') v' d' m' /\
    length A' = length A /\ cleared i its'.
Proof.
  revert nsp v d m A s pre post B. induction fuel as [|fuel IH]; intros nsp v d m A s pre post B Hw Hf Hc; [lia|].
  destruct post as [|it post].
  { rewrite app_nil_r in *. exists nsp, v, d, m, A, s, pre, B.
    split_and!; [by eapply del_end|by apply after_refl|done|done]. }
  destruct (del_step fuel _ _ _ _ _ _ _ _ _ _ _ Hw) as [Hit ->]. simpl in Hf.
  assert (Enext : pre ++ it :: post = (pre ++ [it]) ++ post) by (by rewrite <- app_assoc).
  destruct (i_live it && (i =? i_ns it)) eqn:Elive.
  - apply andb_true_iff in Elive as [Hl Hns%Z.eqb_eq].
    destruct (delete_one _ _ _ _ _ _ _ _ _ _ _ Hw Hl (eq_sym Hns) Hit) as (nsp1 & v1 & d1 & pgs1 & m1 & E1 & H1).
    rewrite (bind_ok _ _ _ _ _ E1). pose proof (af_pages _ _ _ _ _ _ _ _ H1) as Hless.
    assert (Hless0 : Forall2 lesser (A ++ Pg a s (pre ++ it :: post) :: B) pgs1)
      by (eapply lesser_trans; [apply lesser_mid|exact Hless]).
    rewrite (cons_middle (kill it) pre post), app_assoc in Hless.
    apply lesser_split in Hless as (A1 & s1 & pre1 & post1 & B1 & -> & Hk1 & Hk2 & HlA).
    assert (Hsum : sum_n (pre ++ [it]) = sum_n pre1) by (rewrite (killed_sum _ _ Hk1), !sum_n_app; done).
    rewrite Hsum. pose proof (Forall2_length _ _ _ Hk2) as Hlen.
    destruct (IH nsp1 v1 d1 m1 A1 s1 pre1 post1 B1) as (nsp2 & v2 & d2 & m2 & A2 & s2 & its2 & B2 & E2 & H2 & Hl2 & Hc2).
    + apply H1.
    + lia.
    + eapply cleared_killed; [exact Hk1|]. apply Forall_app. split; [done|]. constructor; [by intros [? _]|constructor].
    + exists nsp2, v2, d2, m2, A2, s2, its2, B2. split; [exact E2|]. split; [|split; [congruence|exact Hc2]].
      destruct H1 as [Hw1 _ Hsp1]. destruct H2 as [Hw2 Hp2 Hsp2].
      split; [exact Hw2|by eapply lesser_trans|by eapply spares_trans].
  - rewrite (bind_ok (mret nsp) _ _ _ _ eq_refl). rewrite Enext in Hw |- *. apply IH; [exact Hw|lia|].
    apply Forall_app. split; [done|]. constructor; [|constructor]. intros [Hl Hns].
    by rewrite Hl, Hns, Z.eqb_refl in Elive.
Qed.

Lemma lesser_addr pgs pgs' : Forall2 lesser pgs pgs' -> pg_addr <$> pgs' = pg_addr <$> pgs.
Proof. induction 1 as [|g g' pgs pgs' [E _] _ IH]; [done|]. by rewrite !fmap_cons, E, IH. Qed.

(** The pages of [B], those of [A] being done. *)
Lemma del_keys_pages_ok (l : list Z) nsp v d m A B :
  pg_addr <$> B = l -> walk nsp (A ++ B) v d m -> all_cleared i A ->
  exists nsp' v' d' m' pgs', del_keys_pages l i nsp (v, d) = (Ok tt, (v', d')) /\
    after nsp (A ++ B) m nsp' pgs' v' d' m' /\ all_cleared i pgs'.
Proof.
  revert nsp v d m A B. induction l as [|a l IH]; intros nsp v d m A B E Hw Hc.
  { destruct B; [|done]. rewrite app_nil_r in *. exists nsp, v, d, m, A. split_and!; [done|by apply after_refl|done]. }
  destruct B as [|[a' s its] B]; [done|]. injection E as -> E. cbn [del_keys_pages].
  destruct (store_mid _ _ _ _ _ _ (so_core _ _ _ _ (wk_store _ _ _ _ _ Hw))) as (p & st & Hi' & Hh & Hst).
  cbn [pg_addr pg_items pg_seq] in Hi', Hh. pose proof (hi_items _ _ _ _ _ Hi') as Hpi.
  rewrite (bind_ok _ _ _ _ _ (get_page_ok _ _ _ _ (hi_page _ _ _ _ _ Hi'))), (page_in_readable _ _ _ Hh Hst). cbn [negb].
  assert (Hlen : (length its < WALK_FUEL)%nat).
  { pose proof (length_items _ (pi_ok _ _ _ Hpi)). pose proof (items_bound _ _ _ Hpi).
    unfold WALK_FUEL, ENTRY_COUNT_PER_PAGE in *. lia. }
  destruct (del_keys_page_ok WALK_FUEL nsp v d m A a s [] its B Hw Hlen) as (nsp1 & v1 & d1 & m1 & A1 & s1 & its1 & B1 & E1 & H1 & Hl1 & Hc1);
    [constructor|].
  cbn [sum_n foldr] in E1. rewrite (bind_ok _ _ _ _ _ E1).
  pose proof (af_pages _ _ _ _ _ _ _ _ H1) as Hless. apply Forall2_app_inv in Hless as [HA HB]; [|done].
  apply Forall2_cons in HB as [_ HB].
  destruct (IH nsp1 v1 d1 m1 (A1 ++ [Pg a s1 its1]) B1) as (nsp2 & v2 & d2 & m2 & pgs2 & E2 & H2 & Hc2).
  - by rewrite (lesser_addr _ _ HB).
  - rewrite <- app_assoc. apply H1.
  - apply Forall_app. split; [by eapply cleared_lesser|]. by constructor.
  - exists nsp2, v2, d2, m2, pgs2. split_and!; [exact E2| |exact Hc2]. rewrite <- app_assoc in H2. by eapply after_trans.
Qed.
End delete_keys.

(** ** Deleting a namespace *)
Section delete_namespace.
Context {D : Type} `{FD : !FlashDev D} `{ST : !Storage D}.
Implicit Types (d : D) (n : Z) (v : nvds_env) (m : emap) (name k : bytes).

Lemma del_namespace_kv n v d m name :
  kv n v d m -> key_ok name ->
  match ns_of m (Some name) with
  | None => nvds_del_keys_by_namespace name (v, d) = (Err NVDS_E_NOT_FOUND, (v, d))
  | Some _ => exists v' d' m', nvds_del_keys_by_namespace name (v, d) = (Ok tt, (v', d')) /\ kv n v' d' m' /\
      forall ns k, view m' ns k = if decide (ns = Some name) then None else view m ns k
  end.
Proof.
  intros Hkv Hk. pose proof Hkv as [(pgs & Hs & Hh) R _ _]. unfold nvds_del_keys_by_namespace. rewrite (key_fits name Hk).
  pose proof (find_name m _ _ name R) as Hf. unfold mbind, prog_bind, get_env. cbn [fst].
  destruct (find_ns _ (ns_list v)) as [[j x]|]; [|by rewrite Hf]. destruct Hf as (Hj & Hname & Hns). rewrite Hns.
  assert (Hr : 1 <= ns_index x <= NAMESPACE_MAX_CNT).
  { apply (proj1 (Forall_lookup _ _) (proj2 (kv_index _ _ _ _ Hkv)) _ _ Hj). }
  assert (Hw : walk n (ns_index x) (Some j) ([] ++ pgs) v d m) by (split; [done..|by exists x]).
  rewrite (so_used _ _ _ _ (so_core _ _ _ _ Hs)).
  destruct (del_keys_pages_ok n (ns_index x) Hr _ (Some j) v d m [] pgs eq_refl Hw) as (nsp & v' & d' & m' & pgs' & E & H & Hc);
    [constructor|].
  exists v', d', m'. split; [exact E|]. destruct H as [[Hs' Hh' Hkv' _] _ [Hsp1 Hsp2]]. split; [exact Hkv'|].
  intros ns k. case_decide as Hd.
  - subst ns. unfold view. destruct (ns_of m' (Some name)) as [i|] eqn:Ei; [|done].
    apply Hsp1 in Ei. assert (i = ns_index x) as -> by congruence. by eapply all_cleared_none.
  - apply Hsp2. intros Hi. apply Hd. by rewrite (ns_of_inj _ _ _ R _ _ _ Hi Hns).
Qed.
End delete_namespace.
