(* ===== verification/NvdsSpec.v ===== *)
(** * The key-value store as its clients see it

    The theorems of this component: the exported operations refine a finite map
    from (namespace, key) to values of at most 256 bytes; the map survives a
    restart; a put finds room whenever the live entries leave some; bad arguments
    are refused without effect; and what a reset in the middle of a put costs. *)
From S2P Require Import Prelude Prog Crc Flash NvdsFormat Nvds NvdsPage NvdsOps NvdsReclaim NvdsStore NvdsPut NvdsApi NvdsMount NvdsNs.

(** The part of [nvds_data_put] that is left once the old value is deleted. *)
Section rest.
Context {D : Type} `{FD : !FlashDev D}.

Definition put_rest (i : Z) (k val : bytes) : prog (nvds_env * D) unit :=
  _ ← (_ ← ignore (ns_del_used_cnt i false);
       cur_page ← pick_last_used;
       _ ← check_page_state cur_page;
       r ← make_room (elem_room (Z.of_nat (length val))) cur_page;
       match r with
       | None => pfail NVDS_E_NO_SPACE
       | Some page => write_element page i k val
       end);
  ignore (ns_add_used_cnt i).
End rest.

(** Data [nvds_data_put] refuses, and the other operations failing with [c]. *)
Definition bad_data (data : option bytes) : bool :=
  match data with
  | None => true
  | Some b => (length b =? 0)%nat || (ELEMENT_BULK_MAX_SIZE <? Z.of_nat (length b))
  end.

Definition readers {D} `{FlashDev D} os ns key cap (s : nvds_env * D) (c : Z) : Prop :=
  nvds_data_get os ns key cap s = (Err c, s) /\ nvds_data_del os ns key s = (Err c, s) /\
  nvds_data_find os ns key s = (Err c, s).

Section spec.
Context {D : Type} `{FD : !FlashDev D} `{ST : !Storage D}.
Abbreviation base := (@st_base D FD ST).
Abbreviation len := (@st_len D FD ST).
Implicit Types (d : D) (n : Z) (v : nvds_env) (m : emap) (ns : option bytes) (k val : bytes) (os : os_results)
  (f : gmap (option bytes * bytes) bytes).

Lemma refines_insert f m m' ns k val :
  (forall ns k, f !! (ns, k) = view m ns k) ->
  (forall ns' k', view m' ns' k' = if decide ((ns, k) = (ns', k')) then Some val else view m ns' k') ->
  forall ns' k', <[(ns, k) := val]> f !! (ns', k') = view m' ns' k'.
Proof.
  intros Hf Hm ns' k'. rewrite Hm. case_decide as E; [by rewrite E, lookup_insert_eq|by rewrite lookup_insert_ne, Hf].
Qed.

Lemma refines_delete f m m' ns k :
  (forall ns k, f !! (ns, k) = view m ns k) ->
  (forall ns' k', view m' ns' k' = if decide ((ns, k) = (ns', k')) then None else view m ns' k') ->
  forall ns' k', delete (ns, k) f !! (ns', k') = view m' ns' k'.
Proof.
  intros Hf Hm ns' k'. rewrite Hm. case_decide as E; [by rewrite E, lookup_delete_eq|by rewrite lookup_delete_ne, Hf].
Qed.

(** C2: putting a value of 1 to 256 bytes stores it, or answers
    [NVDS_E_NO_SPACE], and then at most that key lost its old value. *)
Theorem nvds_put_refines n v d f os ns k val :
  refines n v d f -> mutex_ok os = true -> ns_fits ns -> key_ok k -> value_ok val -> n + 2 < 2 ^ 31 ->
  exists r v' d' f', nvds_data_put os ns (Some k) (Some val) (v, d) = (r, (v', d')) /\ refines (n + 2) v' d' f' /\
    ((r = Ok tt /\ f' = <[(ns, k) := val]> f) \/
     (r = Err NVDS_E_NO_SPACE /\ (f' = f \/ f' = delete (ns, k) f))).
Proof.
  intros (m & Hkv & Hf) Hos Hns Hk Hv Hn.
  destruct (put_kv n v d m os ns k val Hkv Hos Hns Hk Hv Hn) as (r & v' & d' & m' & E & Hkv' & Hr).
  destruct Hr as [[-> Hr]|(-> & [Hr|Hr] & _)].
  - exists (Ok tt), v', d', (<[(ns, k) := val]> f). split_and!; [exact E|exists m'; split; [done|by eapply refines_insert]|by left].
  - exists (Err NVDS_E_NO_SPACE), v', d', f. split_and!; [exact E| |by right; split; [|left]].
    exists m'. split; [done|]. intros ns' k'. by rewrite Hr.
  - exists (Err NVDS_E_NO_SPACE), v', d', (delete (ns, k) f). split_and!; [exact E| |by right; split; [|right]].
    exists m'. split; [done|by eapply refines_delete].
Qed.

(** C20: getting a key gives its value, its length when no buffer or too small
    a buffer is offered, or [NVDS_E_NOT_FOUND], and finding it tells whether it is
    there; nothing changes. *)
Theorem nvds_get_refines n v d f os ns k cap :
  refines n v d f -> mutex_ok os = true -> ns_fits ns -> key_ok k ->
  nvds_data_get os ns (Some k) cap (v, d) =
    (match f !! (ns, k) with Some val => Ok (get_answer val cap) | None => Err NVDS_E_NOT_FOUND end, (v, d)) /\
  nvds_data_find os ns (Some k) (v, d) =
    (if decide (is_Some (f !! (ns, k))) then Ok tt else Err NVDS_E_NOT_FOUND, (v, d)).
Proof.
  intros (m & Hkv & Hf) Hos Hns Hk. rewrite Hf. split; [by apply get_kv with n|].
  rewrite (find_kv n v d m os ns k Hkv Hos Hns Hk).
  destruct (view m ns k); [by rewrite decide_True|by rewrite decide_False by (intros [? ?]; done)].
Qed.


(** C7: a restart finds the store as it was: loading the flash of a store gives
    a store of the same map, and does not write. *)
Theorem nvds_restart n v d f os label :
  refines n v d f -> malloc_ok os = true ->
  exists v', nvds_flash_env_init os base len label (zero_env, d) = (Ok tt, (v', d)) /\ refines n v' d f.
Proof.
  intros (m & Hkv & Hf) Hos. destruct (mount_kv n v d m os label Hkv Hos) as (v' & E & Hkv').
  exists v'. split; [exact E|by exists m].
Qed.

(** on flash with no pages of a store, starting gives the empty store. *)
Theorem nvds_first_start d os label :
  malloc_ok os = true -> no_pages d -> 2 * 4096 <= len ->
  exists v' d', nvds_flash_env_init os base len label (zero_env, d) = (Ok tt, (v', d')) /\ refines 0 v' d' ∅.
Proof.
  intros Hos Hd Hlen. destruct (format_kv os Hos d Hd label Hlen) as (v' & d' & E & Hkv).
  exists v', d'. split; [exact E|]. exists ∅. split; [done|]. intros [name|] k; unfold view, ns_of; by rewrite !lookup_empty.
Qed.

Lemma refines_namespace f m m' name :
  (forall ns k, f !! (ns, k) = view m ns k) ->
  (forall ns k, view m' ns k = if decide (ns = Some name) then None else view m ns k) ->
  forall ns k, filter (fun kv : (option bytes * bytes) * bytes => kv.1.1 <> Some name) f !! (ns, k) = view m' ns k.
Proof.
  intros Hf Hm ns k. rewrite Hm, map_lookup_filter, Hf. case_decide as E; destruct (view m ns k) as [val|]; simpl; try done.
  - by rewrite option_guard_False by naive_solver.
  - by rewrite option_guard_True.
Qed.


(** [nvds_find_keys_by_namespace] reports each key of the namespace once,
    with the length of its value. *)
Theorem nvds_find_keys_reports n v d f os ns :
  refines n v d f -> ns_fits ns -> (exists k, is_Some (f !! (ns, k))) ->
  exists l, nvds_find_keys_by_namespace os ns (v, d) = (Ok l, (v, d)) /\ NoDup l.*1 /\
    forall k z, (k, z) ∈ l <-> exists val, f !! (ns, k) = Some val /\ z = Z.of_nat (length val).
Proof.
  intros (m & Hkv & Hf) Hns (k0 & val0 & Hk0). pose proof (find_keys_kv n v d m os ns Hkv Hns) as H.
  rewrite Hf in Hk0. unfold view in Hk0. destruct (ns_of m ns) as [i|]; [|done].
  destruct H as (l & E & Hn & Hl). exists l. split_and!; [exact E|exact Hn|]. intros k z. by rewrite Hf, Hl.
Qed.


(** between the deletion of the old value and the write of the new one the
    flash holds neither: a restart from there finds the key gone. *)
Theorem nvds_put_interrupted n v d f os os' ns k old val label :
  refines n v d f -> mutex_ok os = true -> malloc_ok os' = true -> ns_fits ns -> key_ok k -> value_ok val ->
  f !! (ns, k) = Some old -> old <> val ->
  exists i v1 d1 v2, nvds_data_put os ns (Some k) (Some val) (v, d) = put_rest i k val (v1, d1) /\
    nvds_flash_env_init os' base len label (zero_env, d1) = (Ok tt, (v2, d1)) /\ refines n v2 d1 (delete (ns, k) f).
Proof.
  intros (m & Hkv & Hf) Hos Hos' Hns Hk Hv Hold Hne. rewrite Hf in Hold. unfold view in Hold.
  destruct (ns_of m ns) as [i|] eqn:Ei; [|done]. pose proof Hkv as [(pgs & Hs & Hh) R _ Hp].
  destruct (delete_over n v d m ns i k old Hkv Ei Hk Hold) as (v1 & d1 & pgs1 & Ed & Hover & _).
  destruct (mount_flash n v1 d1 pgs1 (delete (i, k) m) _ _ os' label
    (ko_store _ _ _ _ _ _ Hover) (ko_holds _ _ _ _ _ _ Hover) (ko_reg _ _ _ _ _ _ Hover) (ko_pages _ _ _ _ _ _ Hover) Hos')
    as (v2 & E2 & Hkv2).
  exists i, v1, d1, v2. split_and!; [|exact E2|exists (delete (i, k) m); split; [exact Hkv2|]].
  - unfold nvds_data_put. pose proof (proj2 Hv) as Hlen.
    replace (length val =? 0)%nat with false by (symmetry; apply Nat.eqb_neq; lia).
    rewrite (proj2 (Z.ltb_ge _ _)) by (unfold ELEMENT_BULK_MAX_SIZE, ELEMENT_MIDDLE_MAX_SIZE in *; lia).
    rewrite (key_not_bad k Hk), Hos. cbn [orb negb].
    pose proof (resolve n v d m os ns true Hkv Hns ltac:(left; by rewrite Ei)) as E. rewrite Ei in E.
    rewrite (bind_ok _ _ _ _ _ E). unfold put_rest. unfold mbind at 1, prog_bind at 1. unfold mbind at 4, prog_bind at 4.
    unfold data_element_put. rewrite (bind_ok _ _ _ _ _ (element_compare_ok _ _ _ _ _ i k val Hs Hh Hk)).
    rewrite Hold, bool_decide_false by congruence.
    assert (Ec : catch_not_found (data_element_del i k) (v, d) = (Ok (Some tt), (v1, d1))) by (unfold catch_not_found; by rewrite Ed).
    rewrite (bind_ok _ _ _ _ _ Ec). rewrite (proj2 (Z.ltb_ge _ _)) by (unfold ELEMENT_MIDDLE_MAX_SIZE in *; lia). done.
  - eapply refines_delete; [exact Hf|]. intros ns' k'. by eapply view_delete.
Qed.

(** null or empty arguments, names of 16 bytes and more, and values beyond
    the limit are refused, and a mutex that is not obtained ends the call; no
    byte of the store changes. *)
Theorem nvds_bad_arguments os ns key data cap (s : nvds_env * D) :
  (bad_key key || bad_data data = true -> nvds_data_put os ns key data s = (Err NVDS_E_INVAL_PARAM, s)) /\
  (bad_key key = true -> readers os ns key cap s NVDS_E_INVAL_PARAM) /\
  (bad_key key = false -> mutex_ok os = false ->
    readers os ns key cap s NVDS_E_FAIL /\
    (bad_data data = false -> nvds_data_put os ns key data s = (Err NVDS_E_FAIL, s))) /\
  (bad_key key = false -> mutex_ok os = true -> bad_key ns = true -> ns <> None ->
    readers os ns key cap s NVDS_E_INVAL_PARAM /\
    (bad_data data = false -> nvds_data_put os ns key data s = (Err NVDS_E_INVAL_PARAM, s))).
Proof.
  unfold readers, bad_data, nvds_data_put, nvds_data_get, nvds_data_del, nvds_data_find.
  destruct key as [k|]; cycle 1. { split_and!; try done; by destruct data. }
  split_and!.
  - destruct data as [b|]; [|done]. intros H. by rewrite orb_comm, H.
  - intros H. by rewrite H.
  - intros H Hm. rewrite H, Hm. split; [done|]. destruct data as [b|]; [|done]. intros Hb. by rewrite Hb.
  - intros H Hm Hn Hne. rewrite H, Hm. destruct ns as [name|]; [|done].
    assert (E : forall c, ns_index_by_namespace os (Some name) c s = (Err NVDS_E_INVAL_PARAM, s)).
    { intros c. unfold ns_index_by_namespace. unfold bad_key in Hn. by rewrite Hn. }
    cbn [negb]. rewrite !(bind_err _ _ _ _ _ (E _)). split; [done|]. destruct data as [b|]; [|done].
    intros Hb. rewrite Hb. cbn [orb]. by rewrite (bind_err _ _ _ _ _ (E _)).
Qed.
End spec.

(** ** Witnesses: a store of four pages at 0x3FB000 of a 4 MB flash *)
Module NvdsWitness.
#[local] Existing Instances Nor.nor_laws Nor.nor_reliable.
#[local] Instance dev : FlashDev Nor.nor := Nor.nor_dev 0x400000.

Lemma area_bounds : (0 <= 0x3FB000 /\ 0x3FB000 mod 4096 = 0) /\ (0 < 0x4000 /\ 0x4000 mod 4096 = 0) /\
  (0x3FB000 + 0x4000 <= 0x400000 /\ 0x400000 < 2 ^ 32).
Proof. by vm_compute. Qed.

#[local] Instance storage : Storage Nor.nor := {
  st_size := 0x400000; st_base := 0x3FB000; st_len := 0x4000;
  st_base_ok := proj1 area_bounds; st_len_ok := proj1 (proj2 area_bounds); st_size_ok := proj2 (proj2 area_bounds) }.

Definition os : os_results := OsResults true true.
Definition blank : Nor.nor := ∅.
Definition area : bytes := [119; 105; 102; 105].
Definition key : bytes := [115; 115; 105; 100].
Definition val : bytes := [1; 2; 3].

Lemma blank_cells x (n : nat) : cells blank x n = repeat 0xFF n.
Proof.
  apply list_eq. intros i. destruct (decide (i < n)%nat) as [Hi|Hi].
  - rewrite cells_lookup by done. symmetry. by apply lookup_repeat.
  - rewrite !lookup_ge_None_2; [done|rewrite repeat_length; lia|rewrite length_cells; lia].
Qed.

Lemma blank_no_pages : no_pages blank.
Proof. intros a _. unfold image. by rewrite blank_cells, classify_blank. Qed.

Definition start : outcome unit * (nvds_env * Nor.nor) := nvds_flash_env_init os 0x3FB000 0x4000 [] (zero_env, blank).

Lemma start_kv : exists v d, start = (Ok tt, (v, d)) /\ kv 0 v d ∅.
Proof. apply (format_kv os eq_refl blank blank_no_pages []). unfold st_len, storage. lia. Qed.

Lemma key_fit k : bytes_ok k -> 0 ∉ k -> (length k <= 15)%nat -> key_ok k.
Proof. done. Qed.

Lemma area_ok : key_ok area.
Proof. apply key_fit; [repeat constructor; unfold in_width; lia|set_solver by lia|simpl; lia]. Qed.

Lemma ssid_ok : key_ok key.
Proof. apply key_fit; [repeat constructor; unfold in_width; lia|set_solver by lia|simpl; lia]. Qed.

Lemma val_ok : value_ok val.
Proof. split; [repeat constructor; unfold in_width; lia|unfold ELEMENT_MIDDLE_MAX_SIZE; simpl; lia]. Qed.

Lemma empty_refines v d n : kv n v d ∅ -> refines n v d ∅.
Proof. intros H. exists ∅. split; [done|]. intros [name|] k; unfold view, ns_of; by rewrite !lookup_empty. Qed.

(** One value in a namespace. *)
Definition one : outcome unit := fst (nvds_data_put os (Some area) (Some key) (Some val) (snd start)).

Lemma one_stored : one = Ok tt.
Proof. vm_compute. reflexivity. Qed.

Lemma stored : exists v d, refines 2 v d {[ (Some area, key) := val ]}.
Proof.
  destruct start_kv as (v & d & E & H).
  destruct (put_kv 0 v d ∅ os (Some area) key val H eq_refl area_ok ssid_ok val_ok ltac:(lia)) as (r & v' & d' & m' & Ep & Hm' & Hr).
  pose proof one_stored as Ho. unfold one in Ho. rewrite E in Ho. cbn [snd] in Ho. rewrite Ep in Ho. cbn [fst] in Ho. subst r.
  exists v', d'. destruct Hr as [[_ Hr]|[? _]]; [|done]. exists m'. split; [exact Hm'|]. intros ns k. rewrite Hr.
  case_decide as Hd; [by rewrite Hd, lookup_singleton_eq|]. rewrite lookup_singleton_ne by done.
  destruct ns as [name|]; unfold view, ns_of; by rewrite !lookup_empty.
Qed.

Lemma nvds_put_refines_witness : exists v d, refines 2 v d {[ (Some area, key) := val ]} /\
  exists r v' d' f', nvds_data_put os None (Some key) (Some [7]) (v, d) = (r, (v', d')) /\ refines (2 + 2) v' d' f'.
Proof.
  destruct stored as (v & d & H). exists v, d. split; [exact H|].
  destruct (nvds_put_refines 2 v d {[ (Some area, key) := val ]} os None key [7] H eq_refl I ssid_ok) as (r & v' & d' & f' & E & Hf & _).
  - split; [constructor; [unfold in_width; lia|constructor]|unfold ELEMENT_MIDDLE_MAX_SIZE; simpl; lia].
  - lia.
  - exists r, v', d', f'. split; [exact E|exact Hf].
Defined.

Lemma nvds_get_refines_witness : exists v d, refines 2 v d {[ (Some area, key) := val ]} /\
  nvds_data_get os (Some area) (Some key) (Some 16) (v, d) = (Ok (get_answer val (Some 16)), (v, d)).
Proof.
  destruct stored as (v & d & H). exists v, d. split; [exact H|].
  rewrite (proj1 (nvds_get_refines 2 v d _ os (Some area) key (Some 16) H eq_refl area_ok ssid_ok)).
  rewrite lookup_singleton_eq. reflexivity.
Defined.


Lemma nvds_restart_witness : exists v d, refines 2 v d {[ (Some area, key) := val ]} /\
  exists v', nvds_flash_env_init os 0x3FB000 0x4000 [] (zero_env, d) = (Ok tt, (v', d)).
Proof.
  destruct stored as (v & d & H). exists v, d. split; [exact H|].
  destruct (nvds_restart 2 v d _ os [] H eq_refl) as (v' & E & _). exists v'. exact E.
Defined.

Lemma nvds_first_start_witness : no_pages blank /\ exists v' d', start = (Ok tt, (v', d')) /\ refines 0 v' d' ∅.
Proof.
  split; [exact blank_no_pages|]. apply (nvds_first_start blank os [] eq_refl blank_no_pages). unfold st_len, storage. lia.
Defined.


Lemma nvds_find_keys_reports_witness : exists v d, refines 2 v d {[ (Some area, key) := val ]} /\
  exists l, nvds_find_keys_by_namespace os (Some area) (v, d) = (Ok l, (v, d)) /\ (key, 3) ∈ l.
Proof.
  destruct stored as (v & d & H). exists v, d. split; [exact H|].
  destruct (nvds_find_keys_reports 2 v d _ os (Some area) H area_ok) as (l & E & _ & Hl).
  { exists key. rewrite lookup_singleton_eq. by exists val. }
  exists l. split; [exact E|]. apply Hl. exists val. by rewrite lookup_singleton_eq.
Defined.


Lemma nvds_put_interrupted_witness : exists v d, refines 2 v d {[ (Some area, key) := val ]} /\
  exists i v1 d1 v2, nvds_data_put os (Some area) (Some key) (Some [7]) (v, d) = put_rest i key [7] (v1, d1) /\
    refines 2 v2 d1 (delete (Some area, key) {[ (Some area, key) := val ]}).
Proof.
  destruct stored as (v & d & H). exists v, d. split; [exact H|].
  destruct (nvds_put_interrupted 2 v d _ os os (Some area) key val [7] [] H eq_refl eq_refl area_ok ssid_ok)
    as (i & v1 & d1 & v2 & E & _ & H2).
  - split; [constructor; [unfold in_width; lia|constructor]|unfold ELEMENT_MIDDLE_MAX_SIZE; simpl; lia].
  - by rewrite lookup_singleton_eq.
  - done.
  - exists i, v1, d1, v2. split; [exact E|exact H2].
Defined.
End NvdsWitness.

(** ** A value of more than 256 bytes *)
Module NvdsBulk.
Import NvdsWitness.
#[local] Existing Instance dev.

Definition large : bytes := repeat 65 300.

Definition after_put : nvds_env * Nor.nor := snd (nvds_data_put os (Some area) (Some key) (Some large) (snd start)).
Definition restarted : nvds_env * Nor.nor := snd (nvds_flash_env_init os 0x3FB000 0x4000 [] (zero_env, snd after_put)).

(** It is stored and read back. *)
Example large_value_read_back :
  fst (nvds_data_get os (Some area) (Some key) (Some 300) after_put) = Ok (get_answer large (Some 300)).
Proof. vm_compute. reflexivity. Qed.

(** Deleting its namespace releases the namespace while its fragments are still
    to be counted against it. *)
Example large_value_use_after_free :
  fst (nvds_del_keys_by_namespace area after_put) = Err USE_AFTER_FREE.
Proof. vm_compute. reflexivity. Qed.

(** After a restart the element and its fragment are counted as two keys, so
    deleting the only key leaves the namespace in use. *)
Example large_value_counted_twice :
  used_cnt <$> ns_list (fst restarted) = [2] /\
  used_cnt <$> ns_list (fst (snd (nvds_data_del os (Some area) (Some key) restarted))) = [1].
Proof. split; vm_compute; reflexivity. Qed.
End NvdsBulk.
