(* ===== verification/NvdsSystem.v ===== *)
(** * Several storages: the registry of [nvds_flash.c]

    [nvds_flash_env] is one static storage; [nvds_flash_init] allocates more and
    links them into [nvds_flash_list], a list of slist.c threaded through the
    storages.  [nvds_sys] holds the mutex, that list over an explicit heap of
    headers, the storages and the flash device.  A result [None] is behaviour the
    C code gives no meaning to: a dereference of a pointer to nothing, or one of
    the codes [NULL_DEREF], [LOOP] and [USE_AFTER_FREE] of [Nvds].  The theorems:
    the storages that are registered never share a byte, and what the error paths
    and the second initialisation do to storages in use. *)
From S2P Require Import Prelude Prog Crc Flash SList NvdsFormat Nvds.

(** [&nvds_flash_env], and its place and label. *)
Definition INTERNAL : loc := 1%positive.
Definition NVDS_FLASH_INTERNAL_ADDR : Z := 0x3FB000.
Definition NVDS_FLASH_INTERNAL_SIZE : Z := 0x4000.
Definition LABEL_INNER_NVDS_FLASH : bytes := [105; 110; 110; 101; 114; 95; 110; 118; 100; 115].

(** What the RTOS answers: a mutex, memory for the storage (its address), memory
    and mutex inside the operations. *)
Record sys_os := SysOs { mutex_made : bool; env_memory : option loc; inside_os : os_results }.

Section system.
Context {D : Type} `{FD : !FlashDev D}.

Record nvds_sys := Sys {
  nvds_mutex : bool; nvds_flash_list : lst; hdrs : heap; envs : gmap loc nvds_env; device : D }.

Definition set_mutex (b : bool) (s : nvds_sys) : nvds_sys :=
  Sys b (nvds_flash_list s) (hdrs s) (envs s) (device s).
Definition set_list (h : heap) (l : lst) (s : nvds_sys) : nvds_sys := Sys (nvds_mutex s) l h (envs s) (device s).
Definition set_envs (m : gmap loc nvds_env) (s : nvds_sys) : nvds_sys :=
  Sys (nvds_mutex s) (nvds_flash_list s) (hdrs s) m (device s).
Definition put_env (a : loc) (e : nvds_env) (d : D) (s : nvds_sys) : nvds_sys :=
  Sys (nvds_mutex s) (nvds_flash_list s) (hdrs s) (<[a := e]> (envs s)) d.

(** An operation of [Nvds] on the storage at [a]. *)
Definition on_env {A} (a : loc) (m : prog (nvds_env * D) A) (s : nvds_sys) : option (outcome A * nvds_sys) :=
  e ← envs s !! a;
  match m (e, device s) with
  | (Ok x, (e', d')) => Some (Ok x, put_env a e' d' s)
  | (Err c, (e', d')) => if c <? 0 then None else Some (Err c, put_env a e' d' s)
  end.

(** An exported operation on a handle, null for the static storage. *)
Definition on_handle {A} (handle : option loc) (m : prog (nvds_env * D) A) (s : nvds_sys) :=
  on_env (default INTERNAL handle) m s.

(** Nothing is allowed within a storage or right behind it. *)
Definition clear_of (start size : Z) (e : nvds_env) : bool :=
  (u32 (start + size) <? env_base e) || (u32 (env_base e + env_length e) <? start).

Fixpoint check_walk (fuel : nat) (s : nvds_sys) (p : ptr) (start size : Z) : option Z :=
  match fuel with
  | O => None
  | S n =>
      match p with
      | None => Some NVDS_OK
      | Some a =>
          e ← envs s !! a;
          if clear_of start size e then nx ← list_next (hdrs s) p; check_walk n s nx start size
          else Some NVDS_E_INVAL_PARAM
      end
  end.

Definition flash_env_check (s : nvds_sys) (start_addr size : Z) : option Z :=
  check_walk (S (base.size (hdrs s))) s (list_pick (nvds_flash_list s)) start_addr size.

(** [nvds_flash_env_init], with the registration at its end. *)
Definition env_init (os : os_results) (a : loc) (start_addr size : Z) (label : bytes) (s : nvds_sys)
  : option (outcome unit * nvds_sys) :=
  '(r, s1) ← on_env a (nvds_flash_env_init os start_addr size label) s;
  match r with
  | Err c => Some (Err c, s1)
  | Ok _ =>
      '(h, l) ← list_push_back (hdrs s1) (nvds_flash_list s1) a;
      Some (Ok tt, set_list h l s1)
  end.

(** [if (!nvds_mutex) sys_mutex_init(&nvds_mutex)] *)
Definition ensure_mutex (made : bool) (s : nvds_sys) : nvds_sys := set_mutex (nvds_mutex s || made) s.

(** [sys_malloc] and [sys_memset] of a storage, and [sys_mfree]. *)
Definition new_env (a : loc) (s : nvds_sys) : nvds_sys :=
  Sys (nvds_mutex s) (nvds_flash_list s) (<[a := None]> (hdrs s)) (<[a := zero_env]> (envs s)) (device s).
Definition free_env (a : loc) (s : nvds_sys) : nvds_sys :=
  Sys (nvds_mutex s) (nvds_flash_list s) (delete a (hdrs s)) (delete a (envs s)) (device s).

(** Returns the handle. *)
Definition nvds_flash_init (os : sys_os) (start_addr size : Z) (label : bytes) (s : nvds_sys)
  : option (option loc * nvds_sys) :=
  ret ← flash_env_check s start_addr size;
  if negb (ret =? 0) then Some (None, s)
  else
    let s1 := ensure_mutex (mutex_made os) s in
    if negb (nvds_mutex s1) then Some (None, s1)
    else
      match env_memory os with
      | None => Some (None, set_mutex false s1)
      | Some a =>
          '(ret, s2) ← env_init (inside_os os) a start_addr size label (new_env a s1);
          match ret with
          | Err _ => Some (None, free_env a (set_mutex false s2))
          | Ok _ => Some (Some a, s2)
          end
      end.

Definition nvds_flash_internal_init (os : sys_os) (s : nvds_sys) : option (outcome unit * nvds_sys) :=
  let s1 := ensure_mutex (mutex_made os) s in
  if negb (nvds_mutex s1) then Some (Err NVDS_E_FAIL, s1)
  else
    let s2 := set_list (hdrs s1) list_init s1 in
    ret ← flash_env_check s2 NVDS_FLASH_INTERNAL_ADDR NVDS_FLASH_INTERNAL_SIZE;
    if negb (ret =? NVDS_OK) then Some (Err ret, set_mutex false s2)
    else
      '(ret, s3) ← env_init (inside_os os) INTERNAL NVDS_FLASH_INTERNAL_ADDR NVDS_FLASH_INTERNAL_SIZE
                     LABEL_INNER_NVDS_FLASH s2;
      Some (ret, match ret with Err _ => set_mutex false s3 | Ok _ => s3 end).

(** The namespaces and pages of the storage go with it; the static storage is
    not memory that can be released. *)
Definition nvds_flash_deinit (a : loc) (s : nvds_sys) : option nvds_sys :=
  _ ← envs s !! a;
  '(h, l) ← SList.list_extract (hdrs s) (nvds_flash_list s) a;
  if bool_decide (a = INTERNAL) then None else Some (free_env a (set_list h l s)).

Fixpoint find_label (fuel : nat) (s : nvds_sys) (p : ptr) (label : bytes) : option (option loc) :=
  match fuel with
  | O => None
  | S n =>
      match p with
      | None => Some None
      | Some a =>
          e ← envs s !! a;
          if bool_decide (env_label e = label) then Some (Some a)
          else nx ← list_next (hdrs s) p; find_label n s nx label
      end
  end.

(** [nvds_clean]: the static storage is cleared in place, header included, and
    started again; the status of that start is not looked at. *)
Definition nvds_clean (os : sys_os) (nvds_label : option bytes) (s : nvds_sys) : option (Z * nvds_sys) :=
  if negb (mutex_ok (inside_os os)) then Some (NVDS_E_FAIL, s)
  else
    let label := default LABEL_INNER_NVDS_FLASH nvds_label in
    found ← find_label (S (base.size (hdrs s))) s (list_pick (nvds_flash_list s)) label;
    match found with
    | None => Some (NVDS_E_NOT_FOUND, s)
    | Some a =>
        e ← envs s !! a;
        '(r, s1) ← on_env a (nvds_flash_erase 0 (env_length e)) s;
        match r with
        | Err c => Some (c, s1)
        | Ok _ =>
            if bool_decide (nvds_label = None) then
              '(_, s2) ← env_init (inside_os os) INTERNAL NVDS_FLASH_INTERNAL_ADDR NVDS_FLASH_INTERNAL_SIZE
                           LABEL_INNER_NVDS_FLASH (new_env INTERNAL s1);
              Some (NVDS_OK, s2)
            else s2 ← nvds_flash_deinit a s1; Some (NVDS_OK, s2)
        end
    end.
End system.
Arguments nvds_sys : clear implicits.

(** ** No operation moves a storage *)
Create HintDb keeps.

Section keeps.
Context {D : Type} `{FD : !FlashDev D}.
Abbreviation nvds := (prog (nvds_env * D)).
Implicit Types (s : nvds_env * D).

Definition keeps {A} (m : nvds A) : Prop :=
  forall s, env_base (m s).2.1 = env_base s.1 /\ env_length (m s).2.1 = env_length s.1.

Lemma keeps_ret {A} (a : A) : keeps (mret a).
Proof. by intros s. Qed.

Lemma keeps_fail {A} c : keeps (@pfail _ A c).
Proof. by intros s. Qed.

Lemma keeps_bind {A B} (m : nvds A) (k : A -> nvds B) : keeps m -> (forall a, keeps (k a)) -> keeps (m ≫= k).
Proof.
  intros Hm Hk s. unfold mbind, prog_bind. pose proof (Hm s) as H. destruct (m s) as [[a|c] s1]; [|exact H].
  destruct (Hk a s1). simpl in H. destruct H. by split; etransitivity.
Qed.

Lemma keeps_get_env : keeps get_env.
Proof. by intros s. Qed.

Lemma keeps_upd_env f : (forall v, env_base (f v) = env_base v /\ env_length (f v) = env_length v) -> keeps (upd_env f).
Proof. intros H s. apply H. Qed.

Lemma keeps_upd_pages f : keeps (upd_env (fun v => with_pages (f v) v)).
Proof. by apply keeps_upd_env. Qed.

Lemma keeps_upd_lists f g : keeps (upd_env (fun v => with_lists (f v) (g v) v)).
Proof. by apply keeps_upd_env. Qed.

Lemma keeps_upd_ns f g : keeps (upd_env (fun v => with_ns (f v) (g v) v)).
Proof. by apply keeps_upd_env. Qed.

Lemma keeps_get_page a : keeps (get_page a).
Proof. intros s. unfold get_page. by destruct (_ !! _). Qed.

Lemma keeps_upd_page a f : keeps (upd_page a f).
Proof. intros s. unfold upd_page. by destruct (_ !! _). Qed.

Lemma keeps_ignore {A} (m : nvds A) : keeps m -> keeps (ignore m).
Proof. intros H s. unfold ignore. specialize (H s). destruct (m s) as [[a|c] s1]; [done|]. by destruct (c <? 0). Qed.

Lemma keeps_or_else {A} (a : A) (m : nvds A) : keeps m -> keeps (or_else a m).
Proof. intros H s. unfold or_else. specialize (H s). destruct (m s) as [[b|c] s1]; [done|]. by destruct (c <? 0). Qed.

Lemma keeps_catch {A} (m : nvds A) : keeps m -> keeps (catch_not_found m).
Proof. intros H s. unfold catch_not_found. specialize (H s). destruct (m s) as [[b|c] s1]; [done|]. by destruct (c =? _). Qed.

Lemma keeps_read o n : keeps (nvds_flash_read o n).
Proof. intros s. unfold nvds_flash_read. destruct (_ <? _); [done|]. destruct (flash_read _ _ _) as [r bs]. by destruct (r =? 0). Qed.

Lemma keeps_write o bs : keeps (nvds_flash_write o bs).
Proof. intros s. unfold nvds_flash_write. destruct (_ <? _); [done|]. destruct (flash_write _ _ _) as [r d]. by destruct (r =? 0). Qed.

Lemma keeps_erase o n : keeps (nvds_flash_erase o n).
Proof. intros s. unfold nvds_flash_erase. destruct (_ <? _); [done|]. destruct (flash_erase _ _ _) as [r d]. by destruct (r =? 0). Qed.

Lemma keeps_for from n (body : Z -> nvds unit) : (forall i, keeps (body i)) -> keeps (pfor from n body).
Proof. intros H. revert from. induction n as [|n IH]; intros from; [apply keeps_ret|]. by apply keeps_bind. Qed.
End keeps.

#[export] Hint Resolve keeps_ret keeps_fail keeps_get_env keeps_upd_pages keeps_upd_lists keeps_upd_ns keeps_get_page
  keeps_upd_page keeps_ignore keeps_or_else keeps_catch keeps_read keeps_write keeps_erase keeps_for : keeps.

(** Follows a definition down to operations known to keep the storage in place. *)
Ltac keeps_tac :=
  repeat first [ solve [ eauto 2 with keeps ] | apply keeps_bind; [|intros ?] | apply keeps_ignore | apply keeps_or_else
               | apply keeps_catch | apply keeps_for; intros ? | progress cbv zeta | case_match | progress cbv beta ].

Section operations_keep.
Context {D : Type} `{FD : !FlashDev D}.
Implicit Types (os : os_results).

Lemma keeps_table_read a : keeps (entry_states_table_read (D := D) a).
Proof. unfold entry_states_table_read. keeps_tac. Qed.
Lemma keeps_state_alter a i st : keeps (entry_state_alter (D := D) a i st).
Proof. unfold entry_state_alter, entry_states_table_write. keeps_tac. Qed.
#[local] Hint Resolve keeps_table_read keeps_state_alter : keeps.
Lemma keeps_range_alter a b e st : keeps (entry_state_range_alter (D := D) a b e st).
Proof. unfold entry_state_range_alter. keeps_tac. Qed.
Lemma keeps_page_state a c : keeps (page_state_alter (D := D) a c).
Proof. unfold page_state_alter. keeps_tac. Qed.
Lemma keeps_entry_read a i : keeps (entry_read (D := D) a i).
Proof. unfold entry_read. keeps_tac. Qed.
Lemma keeps_entry_write a e : keeps (entry_write (D := D) a e).
Proof. unfold entry_write. keeps_tac. Qed.
#[local] Hint Resolve keeps_range_alter keeps_page_state keeps_entry_read keeps_entry_write : keeps.
Lemma keeps_min_used l m b : keeps (min_used_page (D := D) l m b).
Proof. revert m b. induction l; intros; cbn [min_used_page]; keeps_tac. Qed.
Lemma keeps_init_page a s : keeps (init_page (D := D) a s).
Proof. unfold init_page. keeps_tac. Qed.
Lemma keeps_copy_entry a b i : keeps (copy_entry (D := D) a b i).
Proof. unfold copy_entry. keeps_tac. Qed.
#[local] Hint Resolve keeps_min_used keeps_init_page keeps_copy_entry : keeps.
Lemma keeps_reclaim a b : keeps (reclaim (D := D) a b).
Proof. unfold reclaim. keeps_tac. Qed.
#[local] Hint Resolve keeps_reclaim : keeps.
Lemma keeps_new_page s : keeps (new_page_request (D := D) s).
Proof. unfold new_page_request. keeps_tac. Qed.
#[local] Hint Resolve keeps_new_page : keeps.

(** Loading *)
Lemma keeps_chunks n a : keeps (check_chunks (D := D) n a).
Proof. revert a. induction n; intros a; cbn [check_chunks]; keeps_tac. Qed.
Lemma keeps_header_read p : keeps (page_header_read (D := D) p).
Proof.
  intros s. unfold page_header_read. pose proof (keeps_read (base_addr p + PAGE_HEADER_OFFSET) 32 s) as H.
  destruct (nvds_flash_read _ _ s) as [[bs|c] s1]; [|exact H]. cbv zeta.
  pose proof (keeps_chunks 8 (base_addr p + PAGE_HEADER_OFFSET) s1) as H1.
  cbn [snd] in H. assert (H2 : env_base (check_chunks 8 (base_addr p + PAGE_HEADER_OFFSET) s1).2.1 = env_base s.1 /\
    env_length (check_chunks 8 (base_addr p + PAGE_HEADER_OFFSET) s1).2.1 = env_length s.1) by (destruct H, H1; split; congruence).
  clear H1. destruct (_ =? _).
  - destruct (check_chunks _ _ s1) as [[[]|c] s2]; exact H2.
  - destruct (negb _); [exact H|]. by destruct (negb _).
Qed.
Lemma keeps_load_namespace os e : keeps (load_namespace (D := D) os e).
Proof. unfold load_namespace. keeps_tac. Qed.
#[local] Hint Resolve keeps_chunks keeps_header_read keeps_load_namespace : keeps.
Lemma keeps_load_entry os a i : keeps (load_entry (D := D) os a i).
Proof. unfold load_entry. keeps_tac. Qed.
#[local] Hint Resolve keeps_load_entry : keeps.
Lemma keeps_load_entries n os a i : keeps (load_entries (D := D) n os a i).
Proof. revert i. induction n; intros i; cbn [load_entries]; keeps_tac. Qed.
Lemma keeps_insert_page a l : keeps (insert_page (D := D) a l).
Proof. induction l; cbn [insert_page]; keeps_tac. Qed.
Lemma keeps_push_free a : keeps (push_free (D := D) a).
Proof. unfold push_free. keeps_tac. Qed.
#[local] Hint Resolve keeps_load_entries keeps_insert_page keeps_push_free : keeps.
Lemma keeps_load_page os i : keeps (load_page (D := D) os i).
Proof. unfold load_page. keeps_tac. Qed.
Lemma keeps_count_page n a i : keeps (count_page (D := D) n a i).
Proof. revert i. induction n; intros i; cbn [count_page]; keeps_tac. Qed.
#[local] Hint Resolve keeps_load_page keeps_count_page : keeps.
Lemma keeps_count_pages l : keeps (count_pages (D := D) l).
Proof. induction l; cbn [count_pages]; keeps_tac. Qed.
#[local] Hint Resolve keeps_count_pages : keeps.
Lemma keeps_pages_load os : keeps (pages_load (D := D) os).
Proof. unfold pages_load. keeps_tac. Qed.

(** Searching and reading *)
Lemma keeps_find_entry n a i k t j : keeps (find_entry (D := D) n a i k t j).
Proof. revert j. induction n; intros j; cbn [find_entry]; keeps_tac. Qed.
#[local] Hint Resolve keeps_find_entry : keeps.
Lemma keeps_find_pages l i k j t : keeps (find_pages (D := D) l i k j t).
Proof. revert j. induction l; intros j; cbn [find_pages]; keeps_tac. Qed.
#[local] Hint Resolve keeps_find_pages : keeps.
Lemma keeps_element_find i k a j t : keeps (element_find (D := D) i k a j t).
Proof. unfold element_find. keeps_tac. Qed.
#[local] Hint Resolve keeps_element_find : keeps.
Lemma keeps_retire a i c : keeps (retire (D := D) a i c).
Proof. unfold retire. keeps_tac. Qed.
#[local] Hint Resolve keeps_retire : keeps.
Lemma keeps_retire_frags n i k a j : keeps (retire_frags (D := D) n i k a j).
Proof. revert a j. induction n; intros a j; cbn [retire_frags]; keeps_tac. Qed.
#[local] Hint Resolve keeps_retire_frags : keeps.
Lemma keeps_bulk_del i k : keeps (bulk_element_del (D := D) i k).
Proof. unfold bulk_element_del. keeps_tac. Qed.
#[local] Hint Resolve keeps_bulk_del : keeps.
Lemma keeps_data_del i k : keeps (data_element_del (D := D) i k).
Proof. unfold data_element_del. keeps_tac. Qed.
#[local] Hint Resolve keeps_data_del : keeps.
Lemma keeps_read_entries n a b e l : keeps (read_entries (D := D) n a b e l).
Proof. revert b l. induction n; intros b l; cbn [read_entries]; keeps_tac. Qed.
Lemma keeps_compare_entries n a b e l bs : keeps (compare_entries (D := D) n a b e l bs).
Proof. revert b l bs. induction n; intros b l bs; cbn [compare_entries]; keeps_tac. Qed.
#[local] Hint Resolve keeps_read_entries keeps_compare_entries : keeps.
Lemma keeps_find_frag n i k j a e : keeps (find_frag (D := D) n i k j a e).
Proof. revert a e. induction n; intros a e; cbn [find_frag]; keeps_tac. Qed.
#[local] Hint Resolve keeps_find_frag : keeps.
Lemma keeps_read_frags n i k j : keeps (read_frags (D := D) n i k j).
Proof. revert j. induction n; intros j; cbn [read_frags]; keeps_tac. Qed.
Lemma keeps_compare_frags n i k j bs : keeps (compare_frags (D := D) n i k j bs).
Proof. revert j bs. induction n; intros j bs; cbn [compare_frags]; keeps_tac. Qed.
#[local] Hint Resolve keeps_read_frags keeps_compare_frags : keeps.
Lemma keeps_bulk_get i k c : keeps (bulk_element_get (D := D) i k c).
Proof. unfold bulk_element_get. keeps_tac. Qed.
Lemma keeps_bulk_compare i k bs : keeps (bulk_element_compare (D := D) i k bs).
Proof. unfold bulk_element_compare. keeps_tac. Qed.
#[local] Hint Resolve keeps_bulk_get keeps_bulk_compare : keeps.
Lemma keeps_data_get i k c : keeps (data_element_get (D := D) i k c).
Proof. unfold data_element_get. keeps_tac. Qed.
Lemma keeps_data_find i k : keeps (data_element_find (D := D) i k).
Proof. unfold data_element_find. keeps_tac. Qed.
#[local] Hint Resolve keeps_data_get keeps_data_find : keeps.
Lemma keeps_compare i k bs : keeps (element_compare (D := D) i k bs).
Proof. unfold element_compare. keeps_tac. Qed.
#[local] Hint Resolve keeps_compare : keeps.

(** Writing *)
Lemma keeps_pick : keeps (pick_last_used (D := D)).
Proof. unfold pick_last_used. keeps_tac. Qed.
Lemma keeps_make_room f a : keeps (make_room (D := D) f a).
Proof. unfold make_room. keeps_tac. Qed.
Lemma keeps_check_state a : keeps (check_page_state (D := D) a).
Proof. unfold check_page_state. keeps_tac. Qed.
Lemma keeps_data_write a bs : keeps (entry_data_write (D := D) a bs).
Proof. unfold entry_data_write. keeps_tac. Qed.
#[local] Hint Resolve keeps_pick keeps_make_room keeps_check_state keeps_data_write : keeps.
Lemma keeps_put_frags n i k bs o c a : keeps (put_frags (D := D) n i k bs o c a).
Proof. revert o c a. induction n; intros o c a; cbn [put_frags]; keeps_tac. Qed.
Lemma keeps_no_space i k : keeps (no_space_out (D := D) i k).
Proof. unfold no_space_out. keeps_tac. Qed.
#[local] Hint Resolve keeps_put_frags keeps_no_space : keeps.
Lemma keeps_bulk_put i k bs : keeps (bulk_element_put (D := D) i k bs).
Proof. unfold bulk_element_put. keeps_tac. Qed.
Lemma keeps_write_element a i k bs : keeps (write_element (D := D) a i k bs).
Proof. unfold write_element. keeps_tac. Qed.
Lemma keeps_ns_del i b : keeps (ns_del_used_cnt (D := D) i b).
Proof. unfold ns_del_used_cnt. keeps_tac. Qed.
Lemma keeps_ns_add i : keeps (ns_add_used_cnt (D := D) i).
Proof. unfold ns_add_used_cnt. keeps_tac. Qed.
#[local] Hint Resolve keeps_bulk_put keeps_write_element keeps_ns_del keeps_ns_add : keeps.
Lemma keeps_data_put i k bs : keeps (data_element_put (D := D) i k bs).
Proof. unfold data_element_put. keeps_tac. Qed.
#[local] Hint Resolve keeps_data_put : keeps.
Lemma keeps_create os n : keeps (namespace_create (D := D) os n).
Proof. unfold namespace_create. keeps_tac. Qed.
#[local] Hint Resolve keeps_create : keeps.
Lemma keeps_ns_index os n c : keeps (ns_index_by_namespace (D := D) os n c).
Proof. unfold ns_index_by_namespace. keeps_tac. Qed.
#[local] Hint Resolve keeps_ns_index : keeps.

(** The exported operations *)
Lemma keeps_put os n k bs : keeps (nvds_data_put (D := D) os n k bs).
Proof. unfold nvds_data_put. keeps_tac. Qed.
Lemma keeps_get os n k c : keeps (nvds_data_get (D := D) os n k c).
Proof. unfold nvds_data_get. keeps_tac. Qed.
Lemma keeps_del os n k : keeps (nvds_data_del (D := D) os n k).
Proof. unfold nvds_data_del. keeps_tac. Qed.
Lemma keeps_find os n k : keeps (nvds_data_find (D := D) os n k).
Proof. unfold nvds_data_find. keeps_tac. Qed.
Lemma keeps_drop p : keeps (drop_ns_key (D := D) p).
Proof. unfold drop_ns_key. keeps_tac. Qed.
#[local] Hint Resolve keeps_drop : keeps.
Lemma keeps_del_page n a i p j : keeps (del_keys_page (D := D) n a i p j).
Proof. revert p j. induction n; intros p j; cbn [del_keys_page]; keeps_tac. Qed.
#[local] Hint Resolve keeps_del_page : keeps.
Lemma keeps_del_pages l i p : keeps (del_keys_pages (D := D) l i p).
Proof. revert p. induction l; intros p; cbn [del_keys_pages]; keeps_tac. Qed.
#[local] Hint Resolve keeps_del_pages : keeps.
Lemma keeps_del_namespace n : keeps (nvds_del_keys_by_namespace (D := D) n).
Proof. unfold nvds_del_keys_by_namespace. keeps_tac. Qed.
Lemma keeps_find_keys_page n a i j : keeps (find_keys_page (D := D) n a i j).
Proof. revert j. induction n; intros j; cbn [find_keys_page]; keeps_tac. Qed.
#[local] Hint Resolve keeps_find_keys_page : keeps.
Lemma keeps_find_keys_pages l i : keeps (find_keys_pages (D := D) l i).
Proof. induction l; cbn [find_keys_pages]; keeps_tac. Qed.
#[local] Hint Resolve keeps_find_keys_pages : keeps.
Lemma keeps_find_keys os n : keeps (nvds_find_keys_by_namespace (D := D) os n).
Proof. unfold nvds_find_keys_by_namespace. keeps_tac. Qed.

(** Starting puts the storage where it was asked to be. *)
Lemma env_init_area os start size label (s : nvds_env * D) :
  env_base (nvds_flash_env_init os start size label s).2.1 = start /\
  env_length (nvds_flash_env_init os start size label s).2.1 = size.
Proof.
  unfold nvds_flash_env_init. unfold mbind at 1 2, prog_bind at 1 2, upd_env. cbn [fst snd].
  pose proof (keeps_pages_load os (Env start size (take 32 label) (ns_list s.1) (ns_states s.1) (pages s.1)
    (nvds_page_free s.1) (nvds_page_used s.1), s.2)) as H. exact H.
Qed.
End operations_keep.

(** ** Storages in use never share a byte *)
Section registry.
Context {D : Type} `{FD : !FlashDev D}.
Implicit Types (s : nvds_sys D) (xs : list loc) (a b : loc) (e : nvds_env) (start size : Z).

Definition apart e1 e2 : Prop :=
  env_base e1 + env_length e1 < env_base e2 \/ env_base e2 + env_length e2 < env_base e1.

Definition fits e : Prop := 0 <= env_base e /\ 0 <= env_length e /\ env_base e + env_length e < 2 ^ 32.

Record registry s xs : Prop := Registry {
  rg_list : is_list (hdrs s) (nvds_flash_list s) xs;
  rg_envs : forall a, a ∈ xs -> exists e, envs s !! a = Some e /\ fits e;
  rg_apart : forall a b e1 e2, a ∈ xs -> b ∈ xs -> a <> b ->
    envs s !! a = Some e1 -> envs s !! b = Some e2 -> apart e1 e2 }.

Lemma clear_of_spec start size e :
  fits e -> 0 <= start -> 0 <= size -> start + size < 2 ^ 32 ->
  clear_of start size e = true <-> start + size < env_base e \/ env_base e + env_length e < start.
Proof.
  intros (H1 & H2 & H3) Ha Hb Hc. unfold clear_of.
  rewrite !u32_small by (unfold in_width; lia). by rewrite orb_true_iff, !Z.ltb_lt.
Qed.

Definition all_clear s xs start size : bool :=
  forallb (fun a => match envs s !! a with Some e => clear_of start size e | None => false end) xs.

Lemma check_walk_ok fuel s p xs start size :
  lseg (hdrs s) p xs None -> (length xs < fuel)%nat -> (forall a, a ∈ xs -> exists e, envs s !! a = Some e /\ fits e) ->
  check_walk fuel s p start size = Some (if all_clear s xs start size then NVDS_OK else NVDS_E_INVAL_PARAM).
Proof.
  revert fuel p. induction xs as [|a xs IH]; intros fuel p Hl Hf He; (destruct fuel as [|fuel]; [simpl in Hf; lia|]); simpl in Hl.
  - by subst p.
  - destruct Hl as (-> & nx & Hn & Hl). cbn [check_walk all_clear forallb].
    destruct (He a ltac:(by left)) as (e & Ee & _). rewrite Ee. cbn [mbind option_bind].
    destruct (clear_of start size e); cbn [andb]; [|done]. unfold list_next, load. cbn [mbind option_bind]. rewrite Hn.
    apply IH; [exact Hl|simpl in Hf; lia|]. intros b Hb. apply He. by right.
Qed.

Lemma check_ok s xs start size :
  registry s xs ->
  flash_env_check s start size = Some (if all_clear s xs start size then NVDS_OK else NVDS_E_INVAL_PARAM).
Proof.
  intros [(Hl & Hnd & _) He _]. apply check_walk_ok; [exact Hl| |exact He].
  pose proof (lseg_length _ _ _ _ Hl Hnd). lia.
Qed.

(** Replacing a storage by one at the same place. *)
Lemma registry_env s xs a e e' d :
  registry s xs -> envs s !! a = Some e -> env_base e' = env_base e -> env_length e' = env_length e ->
  registry (put_env a e' d s) xs.
Proof.
  intros [Hl He Ha] Ee Eb El.
  assert (Hsame : forall b x, envs (put_env a e' d s) !! b = Some x -> exists y, envs s !! b = Some y /\
    env_base x = env_base y /\ env_length x = env_length y).
  { intros b x. cbn [put_env envs]. destruct (decide (a = b)) as [<-|Hne].
    - rewrite lookup_insert_eq. intros [= <-]. by exists e.
    - rewrite lookup_insert_ne by done. by exists x. }
  split; [exact Hl| |].
  - intros b Hb. destruct (He b Hb) as (x & Ex & Hx). cbn [put_env envs]. destruct (decide (a = b)) as [<-|Hne].
    + rewrite lookup_insert_eq. exists e'. split; [done|]. unfold fits in *. rewrite Eb, El. congruence.
    + rewrite lookup_insert_ne by done. by exists x.
  - intros b c x y Hb Hc Hne Ex Ey. destruct (Hsame b x Ex) as (x' & Ex' & E1 & E2), (Hsame c y Ey) as (y' & Ey' & E3 & E4).
    unfold apart. rewrite E1, E2, E3, E4. by apply (Ha b c).
Qed.

Lemma registry_op {A} s xs a (m : prog (nvds_env * D) A) r s' :
  registry s xs -> keeps m -> on_env a m s = Some (r, s') -> registry s' xs.
Proof.
  intros Hr Hm. unfold on_env. destruct (envs s !! a) as [e|] eqn:Ee; [|done]. cbn [mbind option_bind].
  destruct (Hm (e, device s)) as [Hb Hl]. destruct (m (e, device s)) as [[x|c] [e' d']]; cbn [snd fst] in Hb, Hl.
  - intros [= <- <-]. by apply (registry_env s xs a e).
  - destruct (c <? 0); [done|]. intros [= <- <-]. by apply (registry_env s xs a e).
Qed.

(** Changes outside the storages listed. *)
Lemma registry_same s s' xs :
  registry s xs -> nvds_flash_list s' = nvds_flash_list s -> (forall a, a ∈ xs -> hdrs s' !! a = hdrs s !! a) ->
  (forall a, a ∈ xs -> envs s' !! a = envs s !! a) -> registry s' xs.
Proof.
  intros [(Hl & Hnd & Hla) He Ha] El Eh Ee. split.
  - rewrite El. split; [|done]. eapply lseg_frame; [|exact Hl]. exact Eh.
  - intros a Hin. rewrite Ee by done. by apply He.
  - intros a b e1 e2 H1 H2 Hne. rewrite !Ee by done. by apply Ha.
Qed.
End registry.

(** ** Any sequence of calls *)
Inductive data_op :=
  | OpPut (namespace key data : option bytes)
  | OpGet (namespace key : option bytes) (cap : option Z)
  | OpDel (namespace key : option bytes)
  | OpFind (namespace key : option bytes)
  | OpDelKeys (namespace : bytes)
  | OpFindKeys (namespace : option bytes).

Inductive sys_op :=
  | SInit (os : sys_os) (start_addr size : Z) (label : bytes)
  | SDeinit (handle : loc)
  | SData (os : os_results) (handle : option loc) (o : data_op).

Section calls.
Context {D : Type} `{FD : !FlashDev D}.
Implicit Types (s : nvds_sys D) (xs : list loc) (a b : loc) (e : nvds_env) (start size : Z).

Definition data_prog (os : os_results) (o : data_op) : prog (nvds_env * D) unit :=
  match o with
  | OpPut ns k bs => nvds_data_put os ns k bs
  | OpGet ns k cap => _ ← nvds_data_get os ns k cap; mret tt
  | OpDel ns k => nvds_data_del os ns k
  | OpFind ns k => nvds_data_find os ns k
  | OpDelKeys ns => nvds_del_keys_by_namespace ns
  | OpFindKeys ns => _ ← nvds_find_keys_by_namespace os ns; mret tt
  end.

Lemma keeps_data os o : keeps (data_prog os o).
Proof.
  destruct o; cbn [data_prog]; try apply keeps_bind; intros;
    first [apply keeps_put|apply keeps_get|apply keeps_del|apply keeps_find|apply keeps_del_namespace|apply keeps_find_keys|apply keeps_ret].
Qed.

(** [sys_malloc] answers memory that is not in use. *)
Definition fresh_memory (os : sys_os) s : bool :=
  match env_memory os with
  | Some a => bool_decide (a ∉ dom (hdrs s)) && bool_decide (a ∉ dom (envs s))
  | None => true
  end.

Definition sys_step (o : sys_op) s : option (nvds_sys D) :=
  match o with
  | SInit os start size label =>
      if fresh_memory os s && bool_decide (0 <= start /\ 0 <= size /\ start + size < 2 ^ 32)
      then snd <$> nvds_flash_init os start size label s else None
  | SDeinit a => nvds_flash_deinit a s
  | SData os handle o => snd <$> on_handle handle (data_prog os o) s
  end.

Fixpoint sys_run (l : list sys_op) s : option (nvds_sys D) :=
  match l with
  | [] => Some s
  | o :: l => s' ← sys_step o s; sys_run l s'
  end.

(** Registering a new storage at [a]. *)
Lemma registry_push s xs a e h l (d : D) m :
  registry s xs -> a ∉ xs -> envs s !! a = None -> fits e ->
  (forall b x, b ∈ xs -> envs s !! b = Some x -> apart x e) ->
  list_push_back (<[a := None]> (hdrs s)) (nvds_flash_list s) a = Some (h, l) ->
  registry (Sys m l h (<[a := e]> (envs s)) d) (xs ++ [a]).
Proof.
  intros [(Hl & Hnd & Hla) He Ha] Hni Hna Hf Hap Hpush.
  assert (Hl' : is_list (<[a := None]> (hdrs s)) (nvds_flash_list s) xs).
  { split; [|done]. eapply lseg_frame; [|exact Hl]. intros x Hx. apply lookup_insert_ne. by intros ->. }
  destruct (push_back_ok _ _ _ a Hl') as (h' & l' & E & [Hl2 _]); [rewrite lookup_insert_eq; by eexists|done|].
  assert (h' = h /\ l' = l) as [-> ->] by (rewrite E in Hpush; by injection Hpush).
  assert (Hold : forall b, b ∈ xs -> (<[a := e]> (envs s)) !! b = envs s !! b).
  { intros b Hb. apply lookup_insert_ne. by intros ->. }
  split; cbn [hdrs nvds_flash_list envs].
  - exact Hl2.
  - intros b [Hb|Hb]%elem_of_app; [rewrite Hold by done; by apply He|].
    apply list_elem_of_singleton in Hb as ->. rewrite lookup_insert_eq. by exists e.
  - intros b c x y [Hb|Hb]%elem_of_app [Hc|Hc]%elem_of_app Hne;
      try (apply list_elem_of_singleton in Hb as ->); try (apply list_elem_of_singleton in Hc as ->);
      rewrite ?lookup_insert_eq, ?Hold by done.
    + by apply Ha.
    + intros Ex [= <-]. by apply (Hap b).
    + intros [= <-] Ey. destruct (Hap c y Hc Ey); [by right|by left].
    + done.
Qed.

Lemma init_registry s xs os start size label r s' :
  registry s xs -> fresh_memory os s = true -> 0 <= start -> 0 <= size -> start + size < 2 ^ 32 ->
  nvds_flash_init os start size label s = Some (r, s') ->
  registry s' (match r with Some a => xs ++ [a] | None => xs end).
Proof.
  intros Hr Hfresh H1 H2 H3. unfold nvds_flash_init. rewrite (check_ok _ _ _ _ Hr). cbn [mbind option_bind].
  destruct (all_clear s xs start size) eqn:Hc; cbn [Z.eqb NVDS_OK NVDS_E_INVAL_PARAM negb]; [|by intros [= <- <-]].
  set (s1 := ensure_mutex (mutex_made os) s).
  assert (Hr1 : registry s1 xs) by by apply (registry_same s).
  destruct (nvds_mutex s1) eqn:Em; cbn [negb]; [|by intros [= <- <-]].
  unfold fresh_memory in Hfresh. destruct (env_memory os) as [a|]; [|by intros [= <- <-]; apply (registry_same s1)].
  apply andb_true_iff in Hfresh as [Hh%bool_decide_eq_true Hn%bool_decide_eq_true].
  apply not_elem_of_dom in Hh, Hn. change (envs s) with (envs s1) in Hn. change (hdrs s) with (hdrs s1) in Hh.
  assert (Hni : a ∉ xs). { intros Hin. destruct (rg_envs _ _ Hr1 a Hin) as (e & Ee & _). congruence. }
  unfold env_init, on_env. cbn [new_env envs device]. rewrite lookup_insert_eq. cbn [mbind option_bind].
  pose proof (env_init_area (inside_os os) start size label (zero_env, device s1)) as [Eb El].
  destruct (nvds_flash_env_init (inside_os os) start size label (zero_env, device s1)) as [[x|c] [e' d']]; cbn [fst snd] in Eb, El.
  - cbn [put_env new_env hdrs nvds_flash_list envs device mbind option_bind].
    destruct (list_push_back _ _ a) as [[h l]|] eqn:Hp; cbn [mbind option_bind]; [|done].
    intros [= <- <-]. unfold set_list. cbn [put_env new_env nvds_mutex envs device]. rewrite insert_insert_eq. eapply registry_push; [exact Hr1|done|done| | |exact Hp].
    + unfold fits. by rewrite Eb, El.
    + intros b x' Hb Ex. unfold all_clear in Hc. apply (proj1 (forallb_forall _ _)) with (x := b) in Hc; [|by apply list_elem_of_In].
      change (envs s1) with (envs s) in Ex. rewrite Ex in Hc.
      destruct (rg_envs _ _ Hr b Hb) as (y & Ey & Hy). assert (y = x') as -> by congruence.
      apply (clear_of_spec start size x' Hy H1 H2 H3) in Hc. unfold apart. rewrite Eb, El. tauto.
  - destruct (c <? 0); [done|]. cbn [mbind option_bind].
    intros [= <- <-]. apply (registry_same s1); [done|done| |]; intros b Hb;
      (assert (b <> a) by (by intros ->)); cbn [free_env set_mutex put_env new_env hdrs envs];
      rewrite ?lookup_delete_ne, ?lookup_insert_ne by done; rewrite ?lookup_insert_ne by done; done.
Qed.

Lemma deinit_registry s xs a s' :
  registry s xs -> nvds_flash_deinit a s = Some s' -> registry s' (filter (fun b => b <> a) xs).
Proof.
  intros [Hl He Ha]. unfold nvds_flash_deinit. destruct (envs s !! a) as [ea|]; [|done]. cbn [mbind option_bind].
  destruct (extract_ok _ _ _ a Hl) as (h & l & E & [(Hl2 & Hnd & Hla) _]). rewrite E. case_bool_decide; [done|].
  intros [= <-].
  assert (Hin : forall b, b ∈ filter (fun b => b <> a) xs -> b ∈ xs /\ delete a (envs s) !! b = envs s !! b).
  { intros b [Hne Hb]%list_elem_of_filter. split; [done|]. by apply lookup_delete_ne. }
  split; cbn [free_env set_list hdrs nvds_flash_list envs].
  - split; [|done]. eapply lseg_frame; [|exact Hl2]. intros b [Hne _]%list_elem_of_filter. by apply lookup_delete_ne.
  - intros b [Hb ->]%Hin. by apply He.
  - intros b c e1 e2 [Hb ->]%Hin [Hc ->]%Hin. by apply Ha.
Qed.

Lemma step_registry s xs o s' : registry s xs -> sys_step o s = Some s' -> exists xs', registry s' xs'.
Proof.
  intros Hr. destruct o as [os start size label|a|os handle o]; cbn [sys_step].
  - destruct (fresh_memory os s) eqn:Hf; cbn [andb]; [|done]. case_bool_decide as Hb; [|done].
    destruct Hb as (H1 & H2 & H3). destruct (nvds_flash_init os start size label s) as [[r s1]|] eqn:E; [|done].
    intros [= <-]. eexists. by apply (init_registry s xs os start size label r s1).
  - intros E. eexists. by apply (deinit_registry s xs a s').
  - unfold on_handle. destruct (on_env _ _ s) as [[r s1]|] eqn:E; [|done]. intros [= <-]. exists xs.
    eapply registry_op; [exact Hr|apply keeps_data|exact E].
Qed.


(** ** Error paths *)

(** When there is no memory for one more storage, the mutex all storages share is
    freed, while they stay registered. *)
Lemma init_failure_drops_mutex s xs os start size label :
  registry s xs -> all_clear s xs start size = true -> env_memory os = None ->
  exists s', nvds_flash_init os start size label s = Some (None, s') /\ nvds_mutex s' = false /\ registry s' xs.
Proof.
  intros Hr Hc Hm. unfold nvds_flash_init. rewrite (check_ok _ _ _ _ Hr), Hc. cbn [mbind option_bind Z.eqb NVDS_OK negb].
  destruct (nvds_mutex (ensure_mutex (mutex_made os) s)) eqn:Em; cbn [negb]; [rewrite Hm|];
    (eexists; split; [reflexivity|split; [done|by apply (registry_same s)]]).
Qed.

(** A range that starts where a registered storage ends is refused. *)
Lemma adjacent_refused s xs a e os size label :
  registry s xs -> a ∈ xs -> envs s !! a = Some e -> 0 <= size -> env_base e + env_length e + size < 2 ^ 32 ->
  nvds_flash_init os (env_base e + env_length e) size label s = Some (None, s).
Proof.
  intros Hr Ha Ee Hs Hf. unfold nvds_flash_init. rewrite (check_ok _ _ _ _ Hr).
  destruct (all_clear s xs _ size) eqn:Hc; [exfalso|done].
  apply (proj1 (forallb_forall _ _)) with (x := a) in Hc; [|by apply list_elem_of_In]. rewrite Ee in Hc.
  destruct (rg_envs _ _ Hr a Ha) as (y & Ey & Hy). assert (y = e) as -> by congruence. pose proof Hy as (? & ? & ?).
  apply clear_of_spec in Hc; [lia|done|lia|done|lia].
Qed.

(** Starting the static storage forgets every storage registered before. *)
Lemma internal_init_forgets s xs os r s' :
  registry s xs -> nvds_mutex (ensure_mutex (mutex_made os) s) = true ->
  is_Some (hdrs s !! INTERNAL) ->
  nvds_flash_internal_init os s = Some (r, s') -> is_list (hdrs s') (nvds_flash_list s') [INTERNAL] \/ is_list (hdrs s') (nvds_flash_list s') [].
Proof.
  intros Hr Hm Hh. unfold nvds_flash_internal_init. cbv zeta. rewrite Hm. cbn [negb].
  set (s2 := set_list _ _ _).
  assert (Hl : is_list (hdrs s2) (nvds_flash_list s2) []) by by repeat split; constructor.
  assert (E : flash_env_check s2 NVDS_FLASH_INTERNAL_ADDR NVDS_FLASH_INTERNAL_SIZE = Some NVDS_OK) by done.
  rewrite E. cbn [mbind option_bind Z.eqb NVDS_OK negb]. unfold env_init, on_env.
  destruct (envs s2 !! INTERNAL) as [e|]; cbn [mbind option_bind]; [|done].
  destruct (nvds_flash_env_init _ _ _ _ _) as [[x|c] [e' d']].
  - cbn [put_env hdrs nvds_flash_list mbind option_bind].
    destruct (push_back_ok _ _ _ INTERNAL Hl Hh) as (h' & l' & Ep & [Hl2 _]); [set_solver|]. cbn [put_env hdrs nvds_flash_list] in *. rewrite Ep.
    intros [= <- <-]. by left.
  - destruct (c <? 0); [done|]. cbn [mbind option_bind]. intros [= <- <-]. by right.
Qed.
End calls.

(** ** Witness: a second storage beside the static one on blank flash *)
Module SystemWitness.
#[local] Instance dev : FlashDev Nor.nor := Nor.nor_dev 0x400000.

Definition os : sys_os := SysOs true (Some 2%positive) (OsResults true true).
Definition start : nvds_sys Nor.nor :=
  Sys true list_init {[INTERNAL := None]} {[INTERNAL := zero_env]} ∅.

Lemma start_registry : registry start [].
Proof. split; [by repeat split; constructor|set_solver|set_solver]. Qed.

Definition calls : list sys_op :=
  [SInit os 0x300000 0x2000 [120]; SData (inside_os os) (Some 2%positive) (OpPut None (Some [107]) (Some [1; 2; 3]));
   SInit (SysOs true (Some 3%positive) (inside_os os)) 0x303000 0x2000 [121];
   SInit (SysOs true (Some 4%positive) (inside_os os)) 0x301000 0x1000 [122]; SDeinit 2%positive].

End SystemWitness.
