(* ===== verification/Chars.v ===== *)
(** * C strings

    Character arrays as byte lists: the string a reader of an array sees, the
    searches of the C library, and literals. *)
From S2P Require Import Prelude.
From stdpp Require Import strings.

#[local] Open Scope Z_scope.

(** The bytes of a literal. *)
Definition chars (s : string) : bytes := (fun a => Z.of_N (Ascii.N_of_ascii a)) <$> String.list_ascii_of_string s.

(** What a reader of the C string sees. *)
Fixpoint cstr (bs : bytes) : bytes :=
  match bs with
  | [] => []
  | b :: bs => if b =? 0 then [] else b :: cstr bs
  end.

(** [strchr]: what is before the first [c], and what is behind it. *)
Fixpoint strchr (c : Z) (s : bytes) : option (bytes * bytes) :=
  match s with
  | [] => None
  | b :: s =>
      if b =? c then Some ([], s)
      else match strchr c s with Some (p, r) => Some (b :: p, r) | None => None end
  end.

(** [while (p( *s)) s++] *)
Fixpoint skip_while (p : Z -> bool) (s : bytes) : bytes :=
  match s with
  | b :: r => if p b then skip_while p r else s
  | [] => []
  end.

Definition no_nul (bs : bytes) : Prop := Forall (fun b => b <> 0) bs.

Section chars.
Implicit Types s p r : bytes.

Lemma cstr_no_nul s : no_nul s -> cstr s = s.
Proof. induction 1 as [|b s Hb _ IH]; [done|]. cbn. by rewrite (proj2 (Z.eqb_neq _ _) Hb), IH. Qed.

Lemma cstr_app_nul s r : no_nul s -> cstr (s ++ 0 :: r) = s.
Proof. induction 1 as [|b s Hb _ IH]; [done|]. cbn. by rewrite (proj2 (Z.eqb_neq _ _) Hb), IH. Qed.

Lemma cstr_nul_free s : no_nul (cstr s).
Proof. induction s as [|b s IH]; [constructor|]. cbn. destruct (Z.eqb_spec b 0); by constructor. Qed.

Lemma length_cstr s : (length (cstr s) <= length s)%nat.
Proof. induction s as [|b s IH]; [done|]. cbn. case_match; cbn; lia. Qed.

Lemma strchr_app c p r : c ∉ p -> strchr c (p ++ c :: r) = Some (p, r).
Proof.
  induction p as [|b p IH]; intros Hn; cbn; [by rewrite Z.eqb_refl|].
  rewrite not_elem_of_cons in Hn. rewrite (proj2 (Z.eqb_neq _ _)) by (intros ->; tauto). by rewrite IH by tauto.
Qed.

Lemma strchr_None c s : c ∉ s -> strchr c s = None.
Proof.
  induction s as [|b s IH]; intros Hn; cbn; [done|].
  rewrite not_elem_of_cons in Hn. rewrite (proj2 (Z.eqb_neq _ _)) by (intros ->; tauto). by rewrite IH by tauto.
Qed.

Lemma strchr_Some c s p r : strchr c s = Some (p, r) -> s = p ++ c :: r /\ c ∉ p.
Proof.
  revert p. induction s as [|b s IH]; intros p; cbn; [done|].
  destruct (Z.eqb_spec b c) as [->|Hb]; [intros [= <- <-]; split; [done|apply not_elem_of_nil]|].
  destruct (strchr c s) as [[p' r']|]; [|done]. intros [= <- <-].
  destruct (IH p' eq_refl) as [-> Hn]. split; [done|]. rewrite not_elem_of_cons. split; [congruence|done].
Qed.

Lemma skip_while_head (f : Z -> bool) b r : f b = false -> skip_while f (b :: r) = b :: r.
Proof. intros H. cbn. by rewrite H. Qed.
End chars.
