(* ===== verification/CourierLink.v ===== *)
(** * Blue courier, the link: [MSDK/ble/app/app_blue_courier_link.c]

    Messages of up to 512 bytes travel over a GATT characteristic in segments
    with a sequence number and a checksum.  The module environment ([bcwl_env]),
    the answers of the allocator and the calls made to the BLE stack are the
    state ([link]); [co_crc16], the MTU of the connection and the handler of the
    layer above are parameters.  Functions run in [prog]: [Err WILD] is a write
    outside an allocated buffer or a copy of a negative size, [Err LOOP] a loop or
    a recursion that has used up its fuel. *)
From S2P Require Import Prelude Prog.

Definition WILD : Z := -1.
Definition LOOP : Z := -2.

Definition BCW_VALUE_LEN : Z := 512.
Definition BCW_FRAG_MAX_LEN : Z := 256.
Definition BCWL_FLAG_BEGIN_MASK : Z := 0x01.
Definition BCWL_FLAG_END_MASK : Z := 0x02.
Definition BCWL_FLAG_REQ_ACK_MASK : Z := 0x04.
Definition BCWL_FLAG_IS_BEGIN (flag : Z) : bool := negb (Z.land flag BCWL_FLAG_BEGIN_MASK =? 0).
Definition BCWL_FLAG_IS_END (flag : Z) : bool := negb (Z.land flag BCWL_FLAG_END_MASK =? 0).
Definition BCWL_FLAG_IS_REQ_ACK (flag : Z) : bool := negb (Z.land flag BCWL_FLAG_REQ_ACK_MASK =? 0).

Definition BCWL_OPCODE_GET_TYPE (opcode : Z) : Z := Z.shiftr (Z.land opcode 0xC0) 6.
Definition BCWL_OPCODE_GET_SUBTYPE (opcode : Z) : Z := Z.land opcode 0x3F.
Definition BCWL_OPCODE_BUILD (type subtype : Z) : Z := Z.lor (Z.land (Z.shiftl type 6) 0xC0) (Z.land subtype 0x3F).

Definition BCWL_OPCODE_TYPE_MGMT : Z := 0.
Definition BCWL_OPCODE_TYPE_DATA : Z := 1.
Definition BCWL_OPCODE_MGMT_SUBTYPE_HANDSHAKE : Z := 0.
Definition BCWL_OPCODE_MGMT_SUBTYPE_ACK : Z := 1.
Definition BCWL_OPCODE_MGMT_SUBTYPE_ERROR_REPORT : Z := 2.

Definition BCWL_ERR_PACKET_LEN_ERROR : Z := 1.
Definition BCWL_ERR_UNKNOWN_OPCODE : Z := 2.
Definition BCWL_ERR_SEND_NO_MEM : Z := 3.
Definition BCWL_ERR_RECV_NO_MEM : Z := 4.
Definition BCWL_ERR_NO_HANDSHAKE : Z := 7.
Definition BCWL_ERR_SEQUENCE_ERROR : Z := 8.
Definition BCWL_ERR_CRC_CHECK : Z := 9.
Definition BCWL_ERR_RECV_ERROR : Z := 11.

(** [sizeof(bcwl_header_t)], and of the GATT stack *)
Definition SIZEOF_HEADER : Z := 4.
Definition BLE_GATT_MTU_MIN : Z := 23.
Definition BLE_GATT_HEADER_LEN : Z := 3.
Definition BCW_IDX_WRITE : Z := 2.
Definition BCW_IDX_NTF_CFG : Z := 5.

Inductive ble_adv_state :=
  | ADV_IDLE | ADV_CREATING | ADV_CREATE | ADV_DATA_SET | ADV_SCAN_RSP_DATA_SET | ADV_PER_ADV_DATA_SET | ADV_START.

#[export] Instance ble_adv_state_eq_dec : EqDecision ble_adv_state.
Proof. solve_decision. Defined.

Record bcwl_env := Env {
  mode : Z; conn_id : Z; adv_idx : Z; remove_after_stop : bool; ntf_cfg : Z; adv_state : ble_adv_state;
  recv_seq : Z; send_seq : Z; recv_buf : option bytes; total_len : Z; offset : Z;
  frag_size : Z; peer_recv_size : Z; handshake_success : bool }.

(** [bcwl_env = {0}] *)
Definition bcwl_env_zero : bcwl_env := Env 0 0 0 false 0 ADV_IDLE 0 0 None 0 0 0 0 false.

Definition with_ntf_cfg (x : Z) (e : bcwl_env) : bcwl_env :=
  Env (mode e) (conn_id e) (adv_idx e) (remove_after_stop e) x (adv_state e) (recv_seq e) (send_seq e) (recv_buf e)
      (total_len e) (offset e) (frag_size e) (peer_recv_size e) (handshake_success e).
Definition with_recv_seq (x : Z) (e : bcwl_env) : bcwl_env :=
  Env (mode e) (conn_id e) (adv_idx e) (remove_after_stop e) (ntf_cfg e) (adv_state e) x (send_seq e) (recv_buf e)
      (total_len e) (offset e) (frag_size e) (peer_recv_size e) (handshake_success e).
Definition with_send_seq (x : Z) (e : bcwl_env) : bcwl_env :=
  Env (mode e) (conn_id e) (adv_idx e) (remove_after_stop e) (ntf_cfg e) (adv_state e) (recv_seq e) x (recv_buf e)
      (total_len e) (offset e) (frag_size e) (peer_recv_size e) (handshake_success e).
Definition with_recv (buf : option bytes) (total off : Z) (e : bcwl_env) : bcwl_env :=
  Env (mode e) (conn_id e) (adv_idx e) (remove_after_stop e) (ntf_cfg e) (adv_state e) (recv_seq e) (send_seq e) buf
      total off (frag_size e) (peer_recv_size e) (handshake_success e).
Definition with_handshake (frag peer : Z) (e : bcwl_env) : bcwl_env :=
  Env (mode e) (conn_id e) (adv_idx e) (remove_after_stop e) (ntf_cfg e) (adv_state e) (recv_seq e) (send_seq e)
      (recv_buf e) (total_len e) (offset e) frag peer true.
Definition with_adv (m idx : Z) (rm : bool) (st : ble_adv_state) (e : bcwl_env) : bcwl_env :=
  Env m (conn_id e) idx rm (ntf_cfg e) st (recv_seq e) (send_seq e) (recv_buf e)
      (total_len e) (offset e) (frag_size e) (peer_recv_size e) (handshake_success e).

(** The calls to the BLE stack *)
Inductive ble_call :=
  | ble_gatts_ntf_send (conn : Z) (val : bytes)
  | ble_adv_create
  | ble_adv_start (idx : Z) (adv scan_rsp : bytes)
  | ble_adv_stop (idx : Z)
  | ble_adv_remove (idx : Z)
  | ble_conn_callback_register
  | ble_conn_callback_unregister.

(** [A]: the calls of the layer above.  [allocs]: the answers of [sys_malloc] to
    come; memory is there once they are used up. *)
Record link (A : Type) := Link { env : bcwl_env; allocs : list bool; log : list (ble_call + A) }.
Arguments Link {A}. Arguments env {A}. Arguments allocs {A}. Arguments log {A}.

(** The memory from the start of a received value on: the value, and what lies
    behind it. *)
Record value := Value { pkt : bytes; behind : nat -> Z }.

Definition mem_at (v : value) (i : nat) : Z :=
  if decide (i < length (pkt v))%nat then nth i (pkt v) 0 else behind v (i - length (pkt v)).
Definition mem_slice (off n : nat) (v : value) : bytes := (fun i => mem_at v (off + i)) <$> seq 0 n.

Section link.
Context {A : Type}.
Context (co_crc16 : bytes -> Z).
Context (gatt_mtu : Z).
(** What newly allocated memory holds. *)
Context (junk : nat -> Z).

Abbreviation lprog := (prog (link A)).

Definition get_env : lprog bcwl_env := fun s => (Ok (env s), s).
Definition upd_env (f : bcwl_env -> bcwl_env) : lprog unit := fun s => (Ok tt, Link (f (env s)) (allocs s) (log s)).
Definition call_ble (c : ble_call) : lprog unit := fun s => (Ok tt, Link (env s) (allocs s) (log s ++ [inl c])).
Definition call_app (c : A) : lprog unit := fun s => (Ok tt, Link (env s) (allocs s) (log s ++ [inr c])).
Definition sys_malloc : lprog bool := fun s =>
  match allocs s with
  | [] => (Ok true, s)
  | b :: l => (Ok b, Link (env s) l (log s))
  end.

(** ** Sending *)

Definition bcwl_ntf_event_send (p_val : bytes) : lprog unit :=
  e ← get_env;
  if ntf_cfg e =? 0 then mret tt else call_ble (ble_gatts_ntf_send (conn_id e) p_val).

(** The header, the data and the checksum, sent. *)
Definition send_segment (flag opcode : Z) (data : bytes) : lprog unit :=
  e ← get_env;
  _ ← upd_env (with_send_seq (u8 (send_seq e + 1)));
  let body := [send_seq e; opcode; u8 (Z.of_nat (length data))] ++ data in
  bcwl_ntf_event_send (flag :: body ++ le 2 (u16 (co_crc16 body))).

(** [while (remain_len > 0)]; [no_mem] is what a failed allocation leads to. *)
Fixpoint send_loop (no_mem : lprog unit) (fuel : nat) (opcode : Z) (data : bytes) (remain_len : Z) : lprog unit :=
  match fuel with
  | O => pfail LOOP
  | S n =>
      if remain_len <=? 0 then mret tt
      else
        e ← get_env;
        let len := Z.of_nat (length data) in
        let at_ := Z.to_nat (len - remain_len) in
        let data_len := Z.to_nat (frag_size e) in
        ok ← sys_malloc;
        if negb ok then no_mem
        else if frag_size e <? remain_len then
          if remain_len =? len then
            if frag_size e <? 2 then pfail WILD
            else
              _ ← send_segment BCWL_FLAG_BEGIN_MASK opcode (le 2 remain_len ++ slice at_ (data_len - 2) data);
              send_loop no_mem n opcode data (u16 (remain_len - (frag_size e - 2)))
          else
            _ ← send_segment 0 opcode (slice at_ data_len data);
            send_loop no_mem n opcode data (u16 (remain_len - frag_size e))
        else
          _ ← send_segment (Z.lor (if len <=? frag_size e then BCWL_FLAG_BEGIN_MASK else 0) BCWL_FLAG_END_MASK) opcode
                (slice at_ (Z.to_nat remain_len) data);
          send_loop no_mem n opcode data 0
  end.

(** [depth] counts the error reports on failed allocations, which are messages
    themselves. *)
Fixpoint send_nested (depth : nat) (opcode : Z) (data : bytes) : lprog unit :=
  match depth with
  | O => pfail LOOP
  | S n =>
      e ← get_env;
      if peer_recv_size e <? Z.of_nat (length data) then mret tt
      else send_loop (send_nested n (BCWL_OPCODE_BUILD BCWL_OPCODE_TYPE_MGMT BCWL_OPCODE_MGMT_SUBTYPE_ERROR_REPORT)
                        [BCWL_ERR_SEND_NO_MEM])
             (S (length data)) opcode data (Z.of_nat (length data))
  end.

Definition bcwl_send (opcode : Z) (data : bytes) : lprog unit := fun s =>
  send_nested (S (length (allocs s))) opcode data s.

Definition bcwl_error_report (reason : Z) : lprog unit :=
  bcwl_send (BCWL_OPCODE_BUILD BCWL_OPCODE_TYPE_MGMT BCWL_OPCODE_MGMT_SUBTYPE_ERROR_REPORT) [reason].
Definition bcwl_send_ack (seq : Z) : lprog unit :=
  bcwl_send (BCWL_OPCODE_BUILD BCWL_OPCODE_TYPE_MGMT BCWL_OPCODE_MGMT_SUBTYPE_ACK) [seq].

(** ** Receiving *)
Definition bcwl_handle_mgmt_handshake (data : bytes) : lprog unit :=
  if negb (Z.of_nat (length data) =? 4) then bcwl_error_report BCWL_ERR_PACKET_LEN_ERROR
  else
    let mtu := Z.min (Z.min (word_at 0 2 data) gatt_mtu) BCW_FRAG_MAX_LEN in
    _ ← upd_env (with_handshake (u8 (mtu - SIZEOF_HEADER - BLE_GATT_HEADER_LEN - 2))
                  (Z.min (word_at 2 2 data) BCW_VALUE_LEN));
    bcwl_send (BCWL_OPCODE_BUILD BCWL_OPCODE_TYPE_MGMT BCWL_OPCODE_MGMT_SUBTYPE_HANDSHAKE) (le 2 mtu ++ le 2 BCW_VALUE_LEN).

(** The layer above: the subtype of a data message and its bytes. *)
Context (bcwp_msg_handler : Z -> bytes -> lprog unit).

Definition bcwl_msg_handler (opcode : Z) (data : bytes) : lprog unit :=
  if BCWL_OPCODE_GET_TYPE opcode =? BCWL_OPCODE_TYPE_MGMT then
    if BCWL_OPCODE_GET_SUBTYPE opcode =? BCWL_OPCODE_MGMT_SUBTYPE_HANDSHAKE then bcwl_handle_mgmt_handshake data
    else if (BCWL_OPCODE_GET_SUBTYPE opcode =? BCWL_OPCODE_MGMT_SUBTYPE_ACK)
            || (BCWL_OPCODE_GET_SUBTYPE opcode =? BCWL_OPCODE_MGMT_SUBTYPE_ERROR_REPORT) then mret tt
    else bcwl_error_report BCWL_ERR_UNKNOWN_OPCODE
  else if BCWL_OPCODE_GET_TYPE opcode =? BCWL_OPCODE_TYPE_DATA then
    bcwp_msg_handler (BCWL_OPCODE_GET_SUBTYPE opcode) data
  else bcwl_error_report BCWL_ERR_UNKNOWN_OPCODE.

(** The label [err_recv]. *)
Definition err_recv (status : Z) : lprog unit :=
  _ ← upd_env (fun e => with_recv None (total_len e) 0 e);
  bcwl_error_report status.

(** [total]: the two bytes the data starts with. *)
Definition receive_start (total : Z) (data : bytes) : lprog unit :=
  e ← get_env;
  let n := Z.of_nat (length data) - 2 in
  if negb (offset e =? 0) then err_recv BCWL_ERR_RECV_ERROR
  else
    _ ← upd_env (fun e => with_recv (recv_buf e) total (offset e) e);
    if BCW_VALUE_LEN <? total then err_recv BCWL_ERR_RECV_ERROR
    else
      ok ← sys_malloc;
      if negb ok then
        _ ← upd_env (fun e => with_recv None (total_len e) (offset e) e); err_recv BCWL_ERR_RECV_NO_MEM
      else if (n <? 0) || (total <? n) then pfail WILD
      else upd_env (fun e => with_recv (Some (overwrite 0 (drop 2 data) (junk <$> seq 0 (Z.to_nat total)))) total (u16 n) e).

(** A copy to [recv_buf + offset] *)
Definition receive_copy (data : bytes) : lprog bytes :=
  e ← get_env;
  match recv_buf e with
  | None => pfail WILD
  | Some buf =>
      if Z.of_nat (length buf) <? offset e + Z.of_nat (length data) then pfail WILD
      else
        let buf' := overwrite (Z.to_nat (offset e)) data buf in
        _ ← upd_env (fun e => with_recv (Some buf') (total_len e) (offset e) e); mret buf'
  end.

Definition receive_end (opcode : Z) (data : bytes) : lprog unit :=
  e ← get_env;
  if (offset e =? 0) || negb (offset e + Z.of_nat (length data) =? total_len e) then err_recv BCWL_ERR_RECV_ERROR
  else
    buf ← receive_copy data;
    _ ← bcwl_msg_handler opcode (take (Z.to_nat (total_len e)) buf);
    upd_env (fun e => with_recv None (total_len e) 0 e).

Definition receive_continue (data : bytes) : lprog unit :=
  e ← get_env;
  if (offset e =? 0) || (total_len e <=? offset e + Z.of_nat (length data)) then err_recv BCWL_ERR_RECV_ERROR
  else
    _ ← receive_copy data;
    upd_env (fun e => with_recv (recv_buf e) (total_len e) (u16 (offset e + Z.of_nat (length data))) e).

Definition bcwl_receive (v : value) : lprog unit :=
  if Z.of_nat (length (pkt v)) <? SIZEOF_HEADER then bcwl_error_report BCWL_ERR_PACKET_LEN_ERROR
  else
    let flag := mem_at v 0 in
    let seq := mem_at v 1 in
    let opcode := mem_at v 2 in
    let data_len := Z.to_nat (mem_at v 3) in
    let data := mem_slice 4 data_len v in
    e ← get_env;
    if negb (handshake_success e)
       && negb (opcode =? BCWL_OPCODE_BUILD BCWL_OPCODE_TYPE_MGMT BCWL_OPCODE_MGMT_SUBTYPE_HANDSHAKE)
    then bcwl_error_report BCWL_ERR_NO_HANDSHAKE
    else
      _ ← (if BCWL_FLAG_IS_REQ_ACK flag then bcwl_send_ack seq else mret tt);
      e ← get_env;
      if negb (seq =? recv_seq e) then bcwl_error_report BCWL_ERR_SEQUENCE_ERROR
      else
        _ ← upd_env (fun e => with_recv_seq (u8 (recv_seq e + 1)) e);
        if negb (u16 (co_crc16 (mem_slice 1 (data_len + 3) v)) =? unle (mem_slice (4 + data_len) 2 v))
        then err_recv BCWL_ERR_CRC_CHECK
        else if BCWL_FLAG_IS_BEGIN flag then
          if BCWL_FLAG_IS_END flag then bcwl_msg_handler opcode data else receive_start (unle (mem_slice 4 2 v)) data
        else if BCWL_FLAG_IS_END flag then receive_end opcode data
        else receive_continue data.

(** ** Events of the BLE stack *)

(** [bcwl_gatts_msg_cb]: a write request on attribute [att_idx]. *)
Definition bcwl_gatts_msg_cb (conn_idx att_idx : Z) (v : value) : lprog unit :=
  e ← get_env;
  if negb (conn_idx =? conn_id e) then mret tt
  else if att_idx =? BCW_IDX_WRITE then bcwl_receive v
  else if att_idx =? BCW_IDX_NTF_CFG then
    if Z.of_nat (length (pkt v)) =? 2 then upd_env (with_ntf_cfg (unle (pkt v))) else mret tt
  else mret tt.

(** A connection made through the advertising [actv_idx]. *)
Definition bcwl_conn_evt_handler (actv_idx conn_idx : Z) : lprog unit :=
  e ← get_env;
  if negb (actv_idx =? adv_idx e) then mret tt
  else
    upd_env (fun e => Env (mode e) conn_idx (adv_idx e) (remove_after_stop e) 0 (adv_state e) 0 0 None 0 0
                        (u8 (BLE_GATT_MTU_MIN - SIZEOF_HEADER - BLE_GATT_HEADER_LEN - 2)) BLE_GATT_MTU_MIN false).

(** Flags and the service UUID 0xFFF0. *)
Definition bcwl_adv_data : bytes := [2; 0x01; 0x06; 3; 0x03; 0xF0; 0xFF].
Definition bcwl_adv_start : lprog unit :=
  e ← get_env; call_ble (ble_adv_start (adv_idx e) bcwl_adv_data (drop 3 bcwl_adv_data)).

Definition bcwl_adv_mgr_evt_hdlr (state : ble_adv_state) (reason idx : Z) : lprog unit :=
  e ← get_env;
  let old_state := adv_state e in
  _ ← upd_env (fun e => with_adv (mode e) (adv_idx e) (remove_after_stop e) state e);
  if bool_decide (state = ADV_CREATE) && bool_decide (old_state = ADV_CREATING) then
    _ ← upd_env (fun e => with_adv (mode e) idx (remove_after_stop e) (adv_state e) e); bcwl_adv_start
  else if bool_decide (state = ADV_CREATE) && bool_decide (old_state = ADV_START) then
    if remove_after_stop e then
      _ ← call_ble (ble_adv_remove (adv_idx e));
      upd_env (fun e => with_adv (mode e) (adv_idx e) false (adv_state e) e)
    else mret tt
  else if negb (reason =? 0) && bool_decide (state = ADV_IDLE) && bool_decide (old_state = ADV_CREATING) then
    _ ← call_ble ble_conn_callback_unregister;
    upd_env (fun e => with_adv 0 (adv_idx e) (remove_after_stop e) (adv_state e) e)
  else mret tt.

(** [status]: what the stack answers to the stop or removal. *)
Definition bcwl_adv_stop (status : Z) : lprog Z :=
  e ← get_env;
  if bool_decide (adv_state e = ADV_START) then
    _ ← upd_env (fun e => with_adv (mode e) (adv_idx e) true (adv_state e) e);
    _ ← call_ble (ble_adv_stop (adv_idx e)); mret status
  else if bool_decide (adv_state e <> ADV_IDLE) then
    _ ← call_ble (ble_adv_remove (adv_idx e)); mret status
  else mret 0.
End link.

(** ** Switching the service on and off *)

(** The two flags beside [bcwl_env]. *)
Record service (A : Type) := Service { ble_enabled : bool; bcwl_enable_pending : bool; service_link : link A }.
Arguments Service {A}. Arguments ble_enabled {A}. Arguments bcwl_enable_pending {A}. Arguments service_link {A}.

Section service.
Context {A : Type}.

Definition on_link {B} (m : prog (link A) B) (s : service A) : outcome B * service A :=
  let '(r, l) := m (service_link s) in (r, Service (ble_enabled s) (bcwl_enable_pending s) l).

Definition set_mode (enable : Z) : prog (link A) unit :=
  upd_env (fun e => with_adv enable (adv_idx e) (remove_after_stop e) (adv_state e) e).

Definition bcw_prf_enable (status enable : Z) : prog (service A) Z := fun s =>
  if mode (env (service_link s)) =? enable then (Ok 0, s)
  else if negb (enable =? 0) then
    if negb (ble_enabled s) then (Ok 0, Service (ble_enabled s) true (service_link s))
    else on_link (
      _ ← upd_env (fun _ => bcwl_env_zero);
      _ ← call_ble ble_conn_callback_register;
      _ ← call_ble ble_adv_create;
      if negb (status =? 0) then _ ← call_ble ble_conn_callback_unregister; mret status
      else _ ← set_mode enable; mret status) s
  else on_link (
    ret ← bcwl_adv_stop status;
    if negb (ret =? 0) then mret ret
    else _ ← call_ble ble_conn_callback_unregister; _ ← set_mode enable; mret ret) s.

(** [bcwl_adp_evt_handler]: the adapter was enabled or disabled, with a status. *)
Definition bcwl_adp_evt_handler (enabled : bool) (event_status status : Z) : prog (service A) unit := fun s =>
  if negb (event_status =? 0) then (Ok tt, s)
  else if enabled then
    if bcwl_enable_pending s then
      let '(_, s') := bcw_prf_enable status 1 (Service true false (service_link s)) in (Ok tt, s')
    else (Ok tt, Service true false (service_link s))
  else (Ok tt, Service false (bcwl_enable_pending s) (service_link s)).
End service.
