(* ===== verification/CourierSpec.v ===== *)
(** * The blue courier's link: what it promises

    The segments [bcwl_send] puts on the air, and what [bcwl_receive] makes of
    them; what a state and a segment must be for the receiver to stay inside its
    buffers and to come back; what it does when they are not. *)
From S2P Require Import Prelude Prog CourierLink.

(** ** Running the programs of the link *)
Section run.
Context {A : Type}.
Implicit Types (s : link A).

Definition on_env (f : bcwl_env -> bcwl_env) (s : link A) : link A := Link (f (env s)) (allocs s) (log s).

Lemma run_get {B} (k : bcwl_env -> prog (link A) B) s : (get_env ≫= k) s = k (env s) s.
Proof. done. Qed.
Lemma run_upd {B} f (k : unit -> prog (link A) B) s : (upd_env f ≫= k) s = k tt (on_env f s).
Proof. done. Qed.
Lemma run_ret {B C} (b : B) (k : B -> prog (link A) C) s : (mret b ≫= k) s = k b s.
Proof. done. Qed.
Lemma run_malloc {B} (k : bool -> prog (link A) B) s : allocs s = [] -> (sys_malloc ≫= k) s = k true s.
Proof. intros H. unfold mbind, prog_bind, sys_malloc. by rewrite H. Qed.
Lemma run_ok {B C} (m : prog (link A) B) (k : B -> prog (link A) C) s b s' : m s = (Ok b, s') -> (m ≫= k) s = k b s'.
Proof. intros H. unfold mbind, prog_bind. by rewrite H. Qed.

(** The same steps in a proof of [succeeds]. *)
Lemma ran_get {B} (k : bcwl_env -> prog (link A) B) s Q : succeeds (k (env s)) s Q -> succeeds (get_env ≫= k) s Q.
Proof. done. Qed.
Lemma ran_upd {B} f (k : unit -> prog (link A) B) s Q : succeeds (k tt) (on_env f s) Q -> succeeds (upd_env f ≫= k) s Q.
Proof. done. Qed.
End run.

(** ** The segments of a message, as data: the flag and the payload of each. *)
Fixpoint rest_pieces (fuel : nat) (frag : nat) (d : bytes) : list (Z * bytes) :=
  match fuel with
  | O => []
  | S n =>
      if decide (length d <= frag)%nat then [(BCWL_FLAG_END_MASK, d)]
      else (0, take frag d) :: rest_pieces n frag (drop frag d)
  end.

Definition pieces (frag : nat) (d : bytes) : list (Z * bytes) :=
  if decide (length d <= frag)%nat then [(Z.lor BCWL_FLAG_BEGIN_MASK BCWL_FLAG_END_MASK, d)]
  else (BCWL_FLAG_BEGIN_MASK, le 2 (Z.of_nat (length d)) ++ take (frag - 2) d)
         :: rest_pieces (length d) frag (drop (frag - 2) d).

Definition next_seq (seq : Z) : Z := u8 (seq + 1).

(** A segment on the air. *)
Definition frame (co_crc16 : bytes -> Z) (seq opcode : Z) (p : Z * bytes) : bytes :=
  let body := [seq; opcode; u8 (Z.of_nat (length p.2))] ++ p.2 in p.1 :: body ++ le 2 (u16 (co_crc16 body)).

Fixpoint frames (co_crc16 : bytes -> Z) (seq opcode : Z) (ps : list (Z * bytes)) : list bytes :=
  match ps with
  | [] => []
  | p :: ps => frame co_crc16 seq opcode p :: frames co_crc16 (next_seq seq) opcode ps
  end.

Lemma length_frame crc seq op p : length (frame crc seq op p) = (length p.2 + 6)%nat.
Proof. unfold frame. cbn [length]. rewrite !length_app, length_le. cbn [length]. lia. Qed.

Lemma frames_app crc op ps qs seq :
  frames crc seq op (ps ++ qs) = frames crc seq op ps ++ frames crc (Nat.iter (length ps) next_seq seq) op qs.
Proof.
  revert seq. induction ps as [|p ps IH]; intros seq; [done|]. cbn [app frames length].
  rewrite IH. by rewrite Nat.iter_succ_r.
Qed.

(** Every payload has at most [frag] bytes. *)
Lemma rest_pieces_fit fuel frag d : Forall (fun p => (length p.2 <= frag)%nat) (rest_pieces fuel frag d).
Proof.
  revert d. induction fuel as [|n IH]; intros d; cbn [rest_pieces]; [constructor|].
  case_decide; constructor; cbn [snd]; auto. rewrite length_take. lia.
Qed.

Lemma pieces_fit frag d : (2 <= frag)%nat -> Forall (fun p => (length p.2 <= frag)%nat) (pieces frag d).
Proof.
  intros H. unfold pieces. case_decide; constructor; cbn [snd]; auto using rest_pieces_fit.
  rewrite length_app, length_le, length_take. lia.
Qed.

Lemma frames_fit crc op frag ps seq : Forall (fun p => (length p.2 <= frag)%nat) ps ->
  Forall (fun seg => (length seg <= frag + 6)%nat) (frames crc seq op ps).
Proof.
  intros H. revert seq. induction H as [|p ps Hp _ IH]; intros seq; constructor; [|apply IH].
  rewrite length_frame. lia.
Qed.

Lemma length_frames crc op ps seq : length (frames crc seq op ps) = length ps.
Proof. revert seq. induction ps as [|p ps IH]; intros seq; [done|]. cbn. by rewrite IH. Qed.

(** ** Sending *)
Section send.
Context {A : Type} (co_crc16 : bytes -> Z).
Implicit Types (s : link A) (e : bcwl_env).

(** The state after a segment that was sent. *)
Definition sent1 (opcode : Z) (p : Z * bytes) (s : link A) : link A :=
  Link (with_send_seq (next_seq (send_seq (env s))) (env s)) (allocs s)
    (log s ++ [inl (ble_gatts_ntf_send (conn_id (env s)) (frame co_crc16 (send_seq (env s)) opcode p))]).
Definition sent (opcode : Z) (ps : list (Z * bytes)) (s : link A) : link A := foldl (fun s p => sent1 opcode p s) s ps.

Lemma sent_spec op ps s :
  env (sent op ps s) = with_send_seq (Nat.iter (length ps) next_seq (send_seq (env s))) (env s) /\
  allocs (sent op ps s) = allocs s /\
  log (sent op ps s) = log s ++ ((fun seg => inl (ble_gatts_ntf_send (conn_id (env s)) seg)) <$>
                                   frames co_crc16 (send_seq (env s)) op ps).
Proof.
  revert s. induction ps as [|p ps IH]; intros s.
  - cbn. rewrite app_nil_r. by destruct s as [[] ? ?].
  - cbn [sent foldl]. destruct (IH (sent1 op p s)) as (He & Ha & Hl). unfold sent in *. rewrite He, Ha, Hl.
    cbn. split_and!; [|done|by rewrite <- app_assoc].
    by rewrite <- Nat.iter_succ_r.
Qed.

(** Memory is there and the peer has asked for notifications. *)
Definition can_send (s : link A) : Prop := ntf_cfg (env s) <> 0 /\ allocs s = [].

Lemma can_send_sent1 op p s : can_send s -> can_send (sent1 op p s).
Proof. done. Qed.

Lemma send_segment_ok fl op d s : can_send s ->
  send_segment co_crc16 fl op d s = (Ok tt, sent1 op (fl, d) s).
Proof.
  intros [Hn _]. unfold send_segment, bcwl_ntf_event_send, get_env, upd_env, call_ble, sent1.
  unfold mbind, prog_bind. cbn. rewrite (proj2 (Z.eqb_neq _ _)) by done. done.
Qed.

Lemma send_rest no_mem fuel op data s (k : nat) :
  can_send s -> 1 <= frag_size (env s) -> (0 < k < length data)%nat -> Z.of_nat (length data) <= 512 ->
  frag_size (env s) < Z.of_nat (length data) -> (length data - k < fuel)%nat ->
  send_loop co_crc16 no_mem fuel op data (Z.of_nat (length data - k)) s =
    (Ok tt, sent op (rest_pieces (length data) (Z.to_nat (frag_size (env s))) (drop k data)) s).
Proof.
  assert (Hgen : forall n, (length data - k <= n)%nat ->
    can_send s -> 1 <= frag_size (env s) -> (0 < k < length data)%nat -> Z.of_nat (length data) <= 512 ->
    frag_size (env s) < Z.of_nat (length data) -> (length data - k < fuel)%nat ->
    send_loop co_crc16 no_mem fuel op data (Z.of_nat (length data - k)) s =
    (Ok tt, sent op (rest_pieces n (Z.to_nat (frag_size (env s))) (drop k data)) s)).
  2: { intros. by apply Hgen; [lia|..]. }
  revert k s. induction fuel as [|fuel IH]; intros k s n Hn Hs Hf Hk Hlen Hlong Hfuel; [lia|].
  destruct n as [|n]; [lia|].
  cbn [send_loop rest_pieces]. rewrite (proj2 (Z.leb_gt _ _)) by lia.
  rewrite run_get, run_malloc by apply Hs. cbn [negb].
  replace (Z.to_nat (Z.of_nat (length data) - Z.of_nat (length data - k))) with k by lia.
  case_decide as Hd; rewrite length_drop in Hd.
  - rewrite (proj2 (Z.ltb_ge _ _)) by lia. rewrite (proj2 (Z.leb_gt (Z.of_nat (length data)) _)) by lia.
    erewrite run_ok by by apply send_segment_ok.
    replace (slice k _ data) with (drop k data) by (unfold slice; rewrite take_ge; [done|rewrite length_drop; lia]).
    destruct fuel; [lia|]. done.
  - rewrite (proj2 (Z.ltb_lt _ _)) by lia. rewrite (proj2 (Z.eqb_neq _ _)) by lia.
    erewrite run_ok by by apply send_segment_ok.
    rewrite u16_small by (wunfold; lia).
    replace (Z.of_nat (length data - k) - frag_size (env s)) with
      (Z.of_nat (length data - (k + Z.to_nat (frag_size (env s))))) by lia.
    rewrite (IH (k + Z.to_nat (frag_size (env s)))%nat _ n); cbn [env sent1 frag_size with_send_seq]; try done; try lia.
    by rewrite drop_drop.
Qed.

(** [bcwl_send] sends the pieces. *)
Lemma bcwl_send_pieces op data s :
  can_send s -> 3 <= frag_size (env s) -> 1 <= Z.of_nat (length data) <= 512 ->
  Z.of_nat (length data) <= peer_recv_size (env s) ->
  bcwl_send co_crc16 op data s = (Ok tt, sent op (pieces (Z.to_nat (frag_size (env s))) data) s).
Proof.
  intros Hs Hf Hlen Hpeer. unfold bcwl_send. rewrite (proj2 Hs). cbn [length send_nested].
  rewrite run_get.
  rewrite (proj2 (Z.ltb_ge _ _)) by lia.
  cbn [send_loop]. rewrite (proj2 (Z.leb_gt _ _)) by lia.
  rewrite run_get, run_malloc by apply Hs. cbn [negb].
  rewrite Z.sub_diag, Z.eqb_refl. unfold pieces. change (Z.to_nat 0) with O.
  case_decide as Hd.
  - rewrite (proj2 (Z.ltb_ge _ _)) by lia. rewrite (proj2 (Z.leb_le (Z.of_nat (length data)) _)) by lia.
    erewrite run_ok by by apply send_segment_ok.
    replace (slice 0 _ data) with data by (unfold slice; rewrite drop_0, take_ge; [done|lia]).
    destruct (length data) eqn:E; [lia|]. done.
  - rewrite (proj2 (Z.ltb_lt _ _)) by lia. rewrite (proj2 (Z.ltb_ge _ 2)) by lia.
    erewrite run_ok by by apply send_segment_ok.
    rewrite u16_small by (wunfold; lia).
    replace (Z.of_nat (length data) - (frag_size (env s) - 2)) with
      (Z.of_nat (length data - (Z.to_nat (frag_size (env s)) - 2))) by lia.
    rewrite (send_rest _ _ _ _ _ (Z.to_nat (frag_size (env s)) - 2)); cbn [env sent1 frag_size with_send_seq]; try done; try lia.
Qed.
End send.

(** ** Receiving *)
Lemma mem_at_pkt v i : (i < length (pkt v))%nat -> mem_at v i = nth i (pkt v) 0.
Proof. intros. unfold mem_at. by rewrite decide_True. Qed.

Lemma mem_slice_pkt v off n : (off + n <= length (pkt v))%nat -> mem_slice off n v = slice off n (pkt v).
Proof.
  intros H. apply list_eq. intros i. unfold mem_slice. rewrite list_lookup_fmap.
  destruct (decide (i < n)%nat) as [Hi|Hi].
  - rewrite lookup_seq_lt by done. cbn. rewrite mem_at_pkt, slice_lookup by lia.
    destruct (nth_lookup_or_length (pkt v) (off + i) 0) as [->|]; [done|lia].
  - rewrite lookup_seq_ge by lia. rewrite lookup_ge_None_2; [done|]. rewrite length_slice; lia.
Qed.

(** The fields of a received segment. *)
Lemma frame_fields co_crc16 v seq op fl d : (length d <= 255)%nat -> pkt v = frame co_crc16 seq op (fl, d) ->
  mem_at v 0 = fl /\ mem_at v 1 = seq /\ mem_at v 2 = op /\ mem_at v 3 = Z.of_nat (length d) /\
  mem_slice 4 (length d) v = d /\ mem_slice 1 (length d + 3) v = [seq; op; Z.of_nat (length d)] ++ d /\
  mem_slice (4 + length d) 2 v = le 2 (u16 (co_crc16 ([seq; op; Z.of_nat (length d)] ++ d))).
Proof.
  intros Hd Hv. pose proof (length_frame co_crc16 seq op (fl, d)) as Hl. rewrite <- Hv in Hl. cbn [snd] in Hl.
  rewrite !mem_at_pkt, !mem_slice_pkt by lia. rewrite Hv. unfold frame. cbn [fst snd].
  rewrite u8_small by (wunfold; lia).
  set (c := le 2 _). assert (Hc : length c = 2%nat) by apply length_le. clearbody c.
  split_and!; try done.
  - unfold slice. cbn [app drop]. by rewrite drop_0, take_app_length.
  - unfold slice. cbn [app drop]; rewrite ?drop_0. rewrite Nat.add_comm. cbn [Nat.add take]. by rewrite take_app_length.
  - unfold slice. cbn [app drop Nat.add]. rewrite drop_app_length. apply take_ge. lia.
Qed.

Section receive.
Context (co_crc16 : bytes -> Z) (gatt_mtu : Z) (junk : nat -> Z) {A : Type}.
Context (bcwp_msg_handler : Z -> bytes -> prog (link A) unit).
Implicit Types (s : link A) (v : value).

(** What [bcwl_receive] does with a segment it accepts. *)
Definition dispatch (v : value) (fl opcode : Z) (d : bytes) : prog (link A) unit :=
  if BCWL_FLAG_IS_BEGIN fl then
    if BCWL_FLAG_IS_END fl then bcwl_msg_handler co_crc16 gatt_mtu bcwp_msg_handler opcode d
    else receive_start co_crc16 junk (unle (mem_slice 4 2 v)) d
  else if BCWL_FLAG_IS_END fl then receive_end co_crc16 gatt_mtu bcwp_msg_handler opcode d
  else receive_continue co_crc16 d.

Lemma receive_accept fl op d v s :
  pkt v = frame co_crc16 (recv_seq (env s)) op (fl, d) -> (length d <= 255)%nat ->
  handshake_success (env s) = true -> BCWL_FLAG_IS_REQ_ACK fl = false ->
  bcwl_receive co_crc16 gatt_mtu junk bcwp_msg_handler v s =
  dispatch v fl op d (on_env (fun e => with_recv_seq (next_seq (recv_seq e)) e) s).
Proof.
  intros Hv Hd Hh Hack.
  destruct (frame_fields co_crc16 v (recv_seq (env s)) op fl d Hd Hv) as (H0 & H1 & H2 & H3 & H4 & H5 & H6).
  assert (Hl : length (pkt v) = (length d + 6)%nat) by (rewrite Hv; apply length_frame).
  unfold bcwl_receive. rewrite Hl, (proj2 (Z.ltb_ge _ _)) by (unfold SIZEOF_HEADER; lia).
  rewrite H0, H1, H2, H3, Nat2Z.id, H4, H5, H6, Hack.
  rewrite run_get, Hh. cbn [negb andb]. rewrite run_ret, run_get, Z.eqb_refl. cbn [negb]. rewrite run_upd.
  assert (Hc : unle (le 2 (u16 (co_crc16 ([recv_seq (env s); op; Z.of_nat (length d)] ++ d)))) =
    u16 (co_crc16 ([recv_seq (env s); op; Z.of_nat (length d)] ++ d))) by (apply unle_le, u16_range).
  rewrite Hc, Z.eqb_refl. done.
Qed.
End receive.

(** ** From one end of the link to the other *)
Section deliver.
Context {A : Type} (co_crc16 : bytes -> Z) (gatt_mtu : Z) (junk : nat -> Z).
Context (bcwp_msg_handler : Z -> bytes -> prog (link A) unit).

Abbreviation receive := (bcwl_receive co_crc16 gatt_mtu junk bcwp_msg_handler).
Implicit Types (s : link A) (vs : list value).

Fixpoint receive_all (vs : list value) : prog (link A) unit :=
  match vs with
  | [] => mret tt
  | v :: vs => _ ← receive v; receive_all vs
  end.

Lemma receive_all_app vs ws s s' : receive_all vs s = (Ok tt, s') -> receive_all (vs ++ ws) s = receive_all ws s'.
Proof.
  revert s. induction vs as [|v vs IH]; intros s; cbn [receive_all app]; [by intros [= ->]|].
  unfold mbind, prog_bind. destruct (receive v s) as [[[]|c] s1]; [apply IH|done].
Qed.

Lemma receive_all_one v s : receive_all [v] s = receive v s.
Proof. cbn. unfold mbind, prog_bind. by destruct (receive v s) as [[[]|c] s1]. Qed.

(** Between two messages. *)
Definition ready (s : link A) : Prop :=
  handshake_success (env s) = true /\ offset (env s) = 0 /\ allocs s = [].

(** In the middle of [data]: its first [k] bytes are there. *)
Definition partway (data : bytes) (k : nat) (s : link A) : Prop :=
  handshake_success (env s) = true /\ offset (env s) = Z.of_nat k /\ (0 < k < length data)%nat /\
  total_len (env s) = Z.of_nat (length data) /\ allocs s = [] /\
  exists buf, recv_buf (env s) = Some buf /\ length buf = length data /\ take k buf = take k data.

(** [n] segments later: nothing but the receiver's part of the state has changed. *)
Definition later (n : nat) (s s' : link A) : Prop :=
  handshake_success (env s') = true /\ allocs s' = [] /\ log s' = log s /\
  recv_seq (env s') = Nat.iter n next_seq (recv_seq (env s)) /\
  conn_id (env s') = conn_id (env s) /\ ntf_cfg (env s') = ntf_cfg (env s) /\ send_seq (env s') = send_seq (env s) /\
  frag_size (env s') = frag_size (env s) /\ peer_recv_size (env s') = peer_recv_size (env s).

Lemma later_trans n m s1 s2 s3 : later n s1 s2 -> later m s2 s3 -> later (m + n) s1 s3.
Proof.
  intros (? & ? & ? & Hq & ? & ? & ? & ? & ?) (? & ? & ? & Hq' & ? & ? & ? & ? & ?).
  unfold later. rewrite Nat.iter_add, <- Hq. split_and!; congruence.
Qed.

(** What becomes of a message: the layer above is called with it, then the
    receive buffer, if there was one, is released. *)
Definition drop_buffer : prog (link A) unit := upd_env (fun e => with_recv None (total_len e) 0 e).
Definition handed_over (subtype : Z) (data : bytes) (m : outcome unit * link A) (n : nat) (s : link A) : Prop :=
  exists s1, later n s s1 /\
    ((offset (env s1) = 0 /\ m = bcwp_msg_handler subtype data s1) \/
     m = (_ ← bcwp_msg_handler subtype data; drop_buffer) s1).

Lemma data_msg op d : BCWL_OPCODE_GET_TYPE op = BCWL_OPCODE_TYPE_DATA ->
  bcwl_msg_handler co_crc16 gatt_mtu bcwp_msg_handler op d = bcwp_msg_handler (BCWL_OPCODE_GET_SUBTYPE op) d.
Proof. intros H. unfold bcwl_msg_handler. by rewrite H. Qed.

(** A copy of the next bytes of the message. *)
Lemma copy_part (data buf d : bytes) (k : nat) :
  length buf = length data -> take k buf = take k data -> prefix d (drop k data) ->
  length (overwrite k d buf) = length data /\ take (k + length d) (overwrite k d buf) = take (k + length d) data.
Proof.
  intros Hb Ht [r Hr].
  assert (Hl : (k + length d <= length data)%nat \/ d = []).
  { destruct d; [by right|left]. apply (f_equal length) in Hr. rewrite length_drop, length_app in Hr. cbn [length] in *. lia. }
  destruct Hl as [Hl| ->].
  - rewrite length_overwrite by lia. split; [done|]. unfold overwrite.
    rewrite <- (take_take_drop data), Hr, take_app_length, Ht, app_assoc.
    apply take_app_length'. rewrite length_app, length_take. lia.
  - unfold overwrite. cbn [app length]. rewrite Nat.add_0_r, take_drop. done.
Qed.

Lemma receive_copy_ok d buf s :
  recv_buf (env s) = Some buf -> offset (env s) + Z.of_nat (length d) <= Z.of_nat (length buf) ->
  receive_copy d s = (Ok (overwrite (Z.to_nat (offset (env s))) d buf),
    on_env (fun e => with_recv (Some (overwrite (Z.to_nat (offset (env s))) d buf)) (total_len e) (offset e) e) s).
Proof. intros Hb Hl. unfold receive_copy. rewrite run_get, Hb, (proj2 (Z.ltb_ge _ _)) by done. done. Qed.

(** A segment in the middle, and the last one. *)
Lemma receive_middle data k s v op d :
  partway data k s -> pkt v = frame co_crc16 (recv_seq (env s)) op (0, d) -> (1 <= length d <= 255)%nat ->
  Z.of_nat (length data) <= 512 -> prefix d (drop k data) -> (k + length d < length data)%nat ->
  exists s', receive v s = (Ok tt, s') /\ partway data (k + length d) s' /\ later 1 s s'.
Proof.
  intros (Hh & Ho & Hk & Ht & Ha & buf & Hbuf & Hlb & Htb) Hv Hd Hlen Hp Hlt.
  destruct (copy_part data buf d k Hlb Htb Hp) as [Hl' Ht'].
  rewrite (receive_accept _ _ _ _ 0 op d) by (done || lia).
  change (dispatch _ _ _ _ _ 0 op d) with (receive_continue (A := A) co_crc16 d).
  unfold receive_continue. rewrite run_get. cbn [env on_env offset total_len with_recv_seq].
  rewrite Ho, Ht, (proj2 (Z.eqb_neq _ _)), (proj2 (Z.leb_gt _ _)) by lia. cbn [orb].
  erewrite run_ok by (apply (receive_copy_ok d buf); cbn; [done|lia]).
  eexists. split; [reflexivity|]. cbn. rewrite Ho, Nat2Z.id, u16_small by (wunfold; lia).
  split; [|done]. unfold partway. cbn. split_and!; [done|lia|lia|lia|done|done|]. eauto.
Qed.

Lemma receive_last data k s v op d :
  partway data k s -> pkt v = frame co_crc16 (recv_seq (env s)) op (BCWL_FLAG_END_MASK, d) -> (length d <= 255)%nat ->
  d = drop k data -> BCWL_OPCODE_GET_TYPE op = BCWL_OPCODE_TYPE_DATA ->
  handed_over (BCWL_OPCODE_GET_SUBTYPE op) data (receive v s) 1 s.
Proof.
  intros (Hh & Ho & Hk & Ht & Ha & buf & Hbuf & Hlb & Htb) Hv Hd -> Hop.
  rewrite length_drop in Hd.
  destruct (copy_part data buf (drop k data) k Hlb Htb ltac:(done)) as [Hl' Ht'].
  rewrite length_drop in Ht'. replace (k + (length data - k))%nat with (length data) in Ht' by lia.
  rewrite !take_ge in Ht' by lia.
  rewrite (receive_accept _ _ _ _ BCWL_FLAG_END_MASK op (drop k data)) by (done || rewrite ?length_drop; lia).
  change (dispatch _ _ _ _ _ _ op ?d) with (receive_end co_crc16 gatt_mtu bcwp_msg_handler op d).
  unfold receive_end. rewrite run_get. cbn [env on_env offset total_len with_recv_seq].
  rewrite length_drop, Ho, Ht, (proj2 (Z.eqb_neq _ _)), (proj2 (Z.eqb_eq _ _)) by lia. cbn [orb negb].
  erewrite run_ok by (apply (receive_copy_ok (drop k data) buf); cbn; [done|rewrite length_drop; lia]).
  cbn [env on_env offset with_recv_seq]. rewrite Ho, !Nat2Z.id, Ht', take_ge, data_msg by (done || lia).
  eexists. split; [|by right]. done.
Qed.

Lemma handed_over_later st data m n k s s1 : later n s s1 -> handed_over st data m k s1 -> handed_over st data m (k + n) s.
Proof. intros H (s2 & H2 & Hm). exists s2. split; [by eapply later_trans|done]. Qed.

Lemma receive_rest data op n frag : forall k s vs,
  partway data k s -> (1 <= frag <= 255)%nat -> Z.of_nat (length data) <= 512 -> (length data - k <= n)%nat ->
  BCWL_OPCODE_GET_TYPE op = BCWL_OPCODE_TYPE_DATA ->
  pkt <$> vs = frames co_crc16 (recv_seq (env s)) op (rest_pieces n frag (drop k data)) ->
  handed_over (BCWL_OPCODE_GET_SUBTYPE op) data (receive_all vs s) (length vs) s.
Proof.
  induction n as [|n IH]; intros k s vs Hs Hf Hlen Hn Hop Hvs.
  { destruct Hs as (_ & _ & ? & _). lia. }
  cbn [rest_pieces] in Hvs. case_decide as Hd; rewrite length_drop in Hd; cbn [frames] in Hvs.
  - destruct vs as [|v [|]]; simplify_eq/=.
    change ((_ ← receive v; mret tt) s) with (receive_all [v] s). rewrite receive_all_one.
    apply (receive_last data k s v op (drop k data)); try done. rewrite length_drop. lia.
  - destruct vs as [|v vs]; simplify_eq/=. rename H into Hv, H0 into Hvs.
    assert (Hl : length (take frag (drop k data)) = frag) by (rewrite length_take, length_drop; lia).
    destruct (receive_middle data k s v op (take frag (drop k data))) as (s1 & Hr & Hs1 & Hlater);
      rewrite ?Hl; try done; try lia; [by apply prefix_take|].
    rewrite Hl in Hs1. assert (Hq : recv_seq (env s1) = next_seq (recv_seq (env s))) by apply Hlater.
    rewrite <- Hq, drop_drop in Hvs. unfold mbind, prog_bind. rewrite Hr.
    replace (S (length vs)) with (length vs + 1)%nat by lia. eapply handed_over_later; [done|].
    apply (IH _ s1 vs Hs1); try done. lia.
Qed.

(** The first segment of several. *)
Lemma receive_first data frag s v op :
  ready s -> (3 <= frag <= 255)%nat -> (frag < length data)%nat -> Z.of_nat (length data) <= 512 ->
  pkt v = frame co_crc16 (recv_seq (env s)) op
    (BCWL_FLAG_BEGIN_MASK, le 2 (Z.of_nat (length data)) ++ take (frag - 2) data) ->
  exists s', receive v s = (Ok tt, s') /\ partway data (frag - 2) s' /\ later 1 s s'.
Proof.
  intros (Hh & Ho & Ha) Hf Hlong Hlen Hv. set (d := le 2 _ ++ _) in Hv.
  assert (Hd : length d = frag) by (unfold d; rewrite length_app, length_le, length_take; lia).
  rewrite (receive_accept _ _ _ _ BCWL_FLAG_BEGIN_MASK op d) by (done || lia).
  change (dispatch _ _ _ _ _ _ op d) with (receive_start (A := A) co_crc16 junk (unle (mem_slice 4 2 v)) d).
  assert (Htot : unle (mem_slice 4 2 v) = Z.of_nat (length data)).
  { destruct (frame_fields _ _ _ _ _ _ ltac:(rewrite Hd; lia) Hv) as (_ & _ & _ & _ & H4 & _).
    rewrite mem_slice_pkt, Hv by (rewrite Hv, length_frame; lia).
    unfold frame, slice, d. cbn [fst snd app drop]. rewrite drop_0, <- !app_assoc.
    rewrite (take_app_length' (le 2 _)) by done. apply unle_le. lia. }
  rewrite Htot. unfold receive_start. rewrite run_get. cbn [env on_env offset with_recv_seq]. rewrite Ho. cbn [Z.eqb negb].
  rewrite run_upd, (proj2 (Z.ltb_ge _ _)), run_malloc by (unfold BCW_VALUE_LEN; done || lia). cbn [negb].
  rewrite Hd, !(proj2 (Z.ltb_ge _ _)) by lia. cbn [orb].
  eexists. split; [reflexivity|]. split; [|done].
  unfold partway. cbn -[drop]. rewrite u16_small by (wunfold; lia).
  split_and!; [done|lia|lia|lia|done|done|]. eexists. split; [done|].
  cbn [drop]. rewrite drop_0, Nat2Z.id.
  rewrite length_overwrite by (rewrite length_fmap, length_seq, length_take; lia).
  rewrite length_fmap, length_seq. split; [done|]. unfold overwrite. rewrite take_0. cbn [app].
  rewrite take_app_le by (rewrite length_take; lia). by rewrite take_take, Nat.min_id.
Qed.

Lemma receive_message data frag s vs op :
  ready s -> (3 <= frag <= 255)%nat -> 1 <= Z.of_nat (length data) <= 512 ->
  BCWL_OPCODE_GET_TYPE op = BCWL_OPCODE_TYPE_DATA ->
  pkt <$> vs = frames co_crc16 (recv_seq (env s)) op (pieces frag data) ->
  handed_over (BCWL_OPCODE_GET_SUBTYPE op) data (receive_all vs s) (length vs) s.
Proof.
  intros Hs Hf Hlen Hop Hvs. unfold pieces in Hvs. case_decide as Hd; cbn [frames] in Hvs.
  - destruct vs as [|v [|]]; simplify_eq/=. destruct Hs as (Hh & Ho & Ha).
    change ((_ ← receive v; mret tt) s) with (receive_all [v] s).
    eexists. split; [|left; split; [|rewrite receive_all_one, (receive_accept _ _ _ _ _ op data) by (done || lia);
      unfold dispatch; cbn; rewrite data_msg by done; reflexivity]]; done.
  - destruct vs as [|v vs]; simplify_eq/=. rename H into Hv, H0 into Hvs.
    destruct (receive_first data frag s v op) as (s1 & Hr & Hs1 & Hlater); try done; [lia..|].
    assert (Hq : recv_seq (env s1) = next_seq (recv_seq (env s))) by apply Hlater.
    rewrite <- Hq in Hvs. unfold mbind, prog_bind. rewrite Hr.
    replace (S (length vs)) with (length vs + 1)%nat by lia. eapply handed_over_later; [done|].
    eapply (receive_rest data op (length data) frag (frag - 2)); try done; lia.
Qed.
End deliver.

(** A layer above that takes note of the messages it gets. *)
Definition note_msg (subtype : Z) (d : bytes) : prog (link (Z * bytes)) unit := call_app (subtype, d).

(** What a noted message leaves behind. *)
Definition delivered (opcode : Z) (data : bytes) (n : nat) (s s' : link (Z * bytes)) : Prop :=
  ready s' /\ recv_seq (env s') = Nat.iter n next_seq (recv_seq (env s)) /\
  log s' = log s ++ [inr (BCWL_OPCODE_GET_SUBTYPE opcode, data)].

Lemma handed_over_noted op data m n s : handed_over note_msg (BCWL_OPCODE_GET_SUBTYPE op) data m n s ->
  exists s', m = (Ok tt, s') /\ delivered op data n s s'.
Proof.
  intros (s1 & (Hh & Ha & Hl & Hq & _) & Hm).
  destruct Hm as [[Ho ->]| ->]; eexists; (split; [reflexivity|]); unfold delivered, ready; cbn; by rewrite Hl.
Qed.

Section deliver_all.
Context {A : Type} (co_crc16 : bytes -> Z).

(** The messages the sender is asked to send, one after the other. *)
Fixpoint send_all (ms : list (Z * bytes)) : prog (link A) unit :=
  match ms with
  | [] => mret tt
  | m :: ms => _ ← bcwl_send co_crc16 m.1 m.2; send_all ms
  end.

Definition sendable (peer : Z) (m : Z * bytes) : Prop :=
  BCWL_OPCODE_GET_TYPE m.1 = BCWL_OPCODE_TYPE_DATA /\
  1 <= Z.of_nat (length m.2) <= 512 /\ Z.of_nat (length m.2) <= peer.

Definition on_air (conn : Z) (seg : bytes) : ble_call + A := inl (ble_gatts_ntf_send conn seg).
End deliver_all.
Definition arrived (m : Z * bytes) : ble_call + (Z * bytes) := inr (BCWL_OPCODE_GET_SUBTYPE m.1, m.2).

(** The segments of several messages, and the sequence number after them. *)
Fixpoint message_frames co_crc16 (frag : nat) (seq : Z) (ms : list (Z * bytes)) : list bytes :=
  match ms with
  | [] => []
  | m :: ms => frames co_crc16 seq m.1 (pieces frag m.2) ++
      message_frames co_crc16 frag (Nat.iter (length (pieces frag m.2)) next_seq seq) ms
  end.
Fixpoint seq_after (frag : nat) (seq : Z) (ms : list (Z * bytes)) : Z :=
  match ms with
  | [] => seq
  | m :: ms => seq_after frag (Nat.iter (length (pieces frag m.2)) next_seq seq) ms
  end.

Lemma message_frames_fit crc frag seq ms : (2 <= frag)%nat ->
  Forall (fun seg => (length seg <= frag + 6)%nat) (message_frames crc frag seq ms).
Proof.
  intros Hf. revert seq. induction ms as [|m ms IH]; intros seq; [constructor|].
  apply Forall_app. auto using frames_fit, pieces_fit.
Qed.

Lemma send_all_ok {A} crc ms (s : link A) :
  can_send s -> 3 <= frag_size (env s) <= 255 -> Forall (sendable (peer_recv_size (env s))) ms ->
  exists s', send_all crc ms s = (Ok tt, s') /\
    log s' = log s ++ (on_air (conn_id (env s)) <$>
               message_frames crc (Z.to_nat (frag_size (env s))) (send_seq (env s)) ms) /\
    send_seq (env s') = seq_after (Z.to_nat (frag_size (env s))) (send_seq (env s)) ms.
Proof.
  revert s. induction ms as [|[op data] ms IH]; intros s Hs Hf Hms.
  - exists s. split_and!; [done|by rewrite app_nil_r|done].
  - apply Forall_cons in Hms as [(Hop & Hlen & Hpeer) Hms]. cbn [fst snd] in *.
    set (ps := pieces (Z.to_nat (frag_size (env s))) data).
    destruct (sent_spec crc op ps s) as (He & Ha & Hl).
    destruct (IH (sent crc op ps s)) as (s' & Hsend & Hlog & Hq); rewrite ?He; try done.
    { split; [|rewrite Ha; apply Hs]. rewrite He. apply Hs. }
    exists s'. rewrite He in Hlog, Hq. split_and!; [|by rewrite Hlog, Hl, <- app_assoc, <- fmap_app|done].
    cbn [send_all fst snd]. erewrite run_ok by (apply bcwl_send_pieces; done || lia). done.
Qed.

Lemma receive_messages crc gatt_mtu junk ms frag peer r vs :
  ready r -> (3 <= frag <= 255)%nat -> Forall (sendable peer) ms ->
  pkt <$> vs = message_frames crc frag (recv_seq (env r)) ms ->
  exists r', receive_all crc gatt_mtu junk note_msg vs r = (Ok tt, r') /\ ready r' /\
    log r' = log r ++ (arrived <$> ms) /\ recv_seq (env r') = seq_after frag (recv_seq (env r)) ms.
Proof.
  intros Hr Hf Hms. revert r vs Hr. induction Hms as [|[op data] ms (Hop & Hlen & Hpeer) Hms IH]; intros r vs Hr Hvs.
  - destruct vs; [|done]. exists r. split_and!; try done. by rewrite app_nil_r.
  - cbn [message_frames fst snd] in *. apply fmap_app_inv in Hvs as (vs1 & vs2 & Hv1 & Hv2 & ->).
    pose proof (receive_message crc gatt_mtu junk note_msg data frag r vs1 op Hr Hf Hlen Hop (eq_sym Hv1)) as Hm.
    apply handed_over_noted in Hm as (r1 & Hr1 & Hready & Hq1 & Hl1).
    assert (Hn : length vs1 = length (pieces frag data)) by (by rewrite <- (length_fmap pkt), <- Hv1, length_frames).
    rewrite Hn in Hq1. rewrite <- Hq1 in Hv2.
    destruct (IH r1 vs2) as (r' & Hr' & H1 & H2 & H3); try done.
    exists r'. split_and!; [by erewrite receive_all_app| |by rewrite H2, Hl1, <- app_assoc|by rewrite H3, Hq1]. done.
Qed.

(** C5: the link delivers.  Whatever data messages (of 1 to 512 bytes, within
    what the peer receives) are handed to [bcwl_send] one after the other, the
    notifications it sends fit the segment size, and a receiver that gets them
    in this order hands exactly these messages to the layer above, once each,
    in this order, whatever lies in memory behind each value; both ends then
    expect the same sequence number. *)
Theorem link_delivers co_crc16 gatt_mtu junk (ms : list (Z * bytes)) (s r : link (Z * bytes)) :
  can_send s -> 3 <= frag_size (env s) <= 255 -> Forall (sendable (peer_recv_size (env s))) ms ->
  ready r -> recv_seq (env r) = send_seq (env s) ->
  exists s' segs, send_all co_crc16 ms s = (Ok tt, s') /\
    log s' = log s ++ (on_air (conn_id (env s)) <$> segs) /\
    Forall (fun seg => Z.of_nat (length seg) <= frag_size (env s) + SIZEOF_HEADER + 2) segs /\
    forall vs, pkt <$> vs = segs ->
      exists r', receive_all co_crc16 gatt_mtu junk note_msg vs r = (Ok tt, r') /\ ready r' /\
        log r' = log r ++ (arrived <$> ms) /\ recv_seq (env r') = send_seq (env s').
Proof.
  intros Hs Hf Hms Hr Hseq.
  destruct (send_all_ok co_crc16 ms s Hs Hf Hms) as (s' & Hsend & Hlog & Hq).
  exists s', (message_frames co_crc16 (Z.to_nat (frag_size (env s))) (send_seq (env s)) ms).
  split_and!; [done|done| |].
  - eapply Forall_impl; [apply message_frames_fit; lia|]. cbn. unfold SIZEOF_HEADER. intros. lia.
  - intros vs Hvs. rewrite <- Hseq in Hvs.
    destruct (receive_messages co_crc16 gatt_mtu junk ms (Z.to_nat (frag_size (env s))) (peer_recv_size (env s)) r vs)
      as (r' & H1 & H2 & H3 & H4); try done; [lia|].
    exists r'. by rewrite H4, Hseq, Hq.
Qed.

(** ** Coming back, and staying inside the buffers *)

(** The state changes a call of [bcwl_send] may make: the sequence number, the
    answers of the allocator that were used, notifications in the log. *)
Section only_sends.
Context {A : Type}.
Implicit Types (s : link A).

Definition only_sends (s s' : link A) : Prop :=
  (exists x, (is_u8 (send_seq (env s)) -> is_u8 x) /\ env s' = with_send_seq x (env s)) /\
  (exists n, allocs s' = drop n (allocs s)) /\
  (exists cs : list bytes, log s' = log s ++ ((fun c => inl (ble_gatts_ntf_send (conn_id (env s)) c)) <$> cs)).

#[export] Instance only_sends_preorder : PreOrder only_sends.
Proof.
  split.
  - intros s. split_and!; [exists (send_seq (env s))|exists O|exists []]; [|done|by rewrite app_nil_r].
    split; [done|]. by destruct s as [[] ? ?].
  - intros s1 s2 s3 ((x & Hx & He) & (n & Ha) & (cs & Hl)) ((y & Hy & He') & (m & Ha') & (ds & Hl')). split_and!.
    + exists y. rewrite He', He. rewrite He in Hy. auto.
    + exists (n + m)%nat. by rewrite Ha', Ha, drop_drop.
    + exists (cs ++ ds). rewrite Hl', Hl, He, fmap_app, <- app_assoc. done.
Qed.

Lemma only_sends_allocs s s' : only_sends s s' -> (length (allocs s') <= length (allocs s))%nat.
Proof. intros (_ & (n & ->) & _). rewrite length_drop. lia. Qed.

Lemma only_sends_env s s' : only_sends s s' -> frag_size (env s') = frag_size (env s) /\
  peer_recv_size (env s') = peer_recv_size (env s).
Proof. intros ((x & _ & ->) & _). done. Qed.

Context (co_crc16 : bytes -> Z).

Lemma send_segment_sends fl op d s : succeeds (send_segment co_crc16 fl op d) s (fun _ => only_sends s).
Proof.
  unfold send_segment, bcwl_ntf_event_send, succeeds, mbind, prog_bind, get_env, upd_env, call_ble. cbn.
  assert (H : only_sends s (Link (with_send_seq (u8 (send_seq (env s) + 1)) (env s)) (allocs s) (log s))).
  { split_and!; [eexists; split; [|done]; auto with gd|by exists O|exists []; by rewrite app_nil_r]. }
  destruct (ntf_cfg (env s) =? 0); cbn; [exact H|].
  split_and!; [eexists; split; [|done]; auto with gd|by exists O|by eexists [_]].
Qed.

(** A call of the allocator takes one of the answers to come. *)
Lemma run_malloc_any {B} (k : bool -> prog (link A) B) s Q :
  (allocs s = [] -> succeeds (k true) s Q) ->
  (forall b s', only_sends s s' -> (length (allocs s') < length (allocs s))%nat -> succeeds (k b) s' Q) ->
  succeeds (sys_malloc ≫= k) s Q.
Proof.
  intros H1 H2. pstep. unfold succeeds at 1, sys_malloc. destruct (allocs s) as [|b l] eqn:E; [by apply H1|].
  apply H2; [|cbn; lia]. split_and!; [exists (send_seq (env s))|exists 1%nat; by rewrite E|exists []; by rewrite app_nil_r].
  split; [done|]. by destruct (env s).
Qed.

(** [no_mem] comes back when at most [n] answers are left. *)
Definition comes_back (m : prog (link A) unit) (n : nat) : Prop :=
  forall s, 3 <= frag_size (env s) -> (length (allocs s) < n)%nat -> succeeds m s (fun _ => only_sends s).

Lemma send_loop_sends no_mem n op data fuel : comes_back no_mem n -> Z.of_nat (length data) <= 512 ->
  forall s remain, 3 <= frag_size (env s) -> 0 <= remain <= Z.of_nat (length data) -> remain < Z.of_nat fuel ->
  (length (allocs s) <= n)%nat ->
  succeeds (send_loop co_crc16 no_mem fuel op data remain) s (fun _ => only_sends s).
Proof.
  intros Hno Hlen. induction fuel as [|fuel IH]; intros s remain Hf Hr Hfuel Hn; [lia|].
  cbn [send_loop]. destruct (Z.leb_spec remain 0); [by apply succeeds_ret, reflexivity|].
  apply ran_get.
  assert (Hstep : forall s1, only_sends s s1 -> succeeds
    (if frag_size (env s) <? remain then
          if remain =? Z.of_nat (length data) then
            if frag_size (env s) <? 2 then pfail WILD
            else
              _ ← send_segment co_crc16 BCWL_FLAG_BEGIN_MASK op (le 2 remain ++ slice (Z.to_nat (Z.of_nat (length data) - remain)) (Z.to_nat (frag_size (env s)) - 2) data);
              send_loop co_crc16 no_mem fuel op data (u16 (remain - (frag_size (env s) - 2)))
          else
            _ ← send_segment co_crc16 0 op (slice (Z.to_nat (Z.of_nat (length data) - remain)) (Z.to_nat (frag_size (env s))) data);
            send_loop co_crc16 no_mem fuel op data (u16 (remain - frag_size (env s)))
        else
          _ ← send_segment co_crc16 (Z.lor (if Z.of_nat (length data) <=? frag_size (env s) then BCWL_FLAG_BEGIN_MASK else 0) BCWL_FLAG_END_MASK) op
                (slice (Z.to_nat (Z.of_nat (length data) - remain)) (Z.to_nat remain) data);
          send_loop co_crc16 no_mem fuel op data 0) s1 (fun _ => only_sends s)).
  { intros s1 Hs1. destruct (only_sends_env _ _ Hs1) as [Hf1 _]. pose proof (only_sends_allocs _ _ Hs1).
    assert (Hgo : forall fl d rem, 0 <= rem <= Z.of_nat (length data) -> rem < Z.of_nat fuel -> succeeds
      (_ ← send_segment co_crc16 fl op d; send_loop co_crc16 no_mem fuel op data rem) s1 (fun _ => only_sends s)).
    { intros fl d rem H1 H2. pstep. eapply succeeds_mono; [apply send_segment_sends|]. intros [] s2 Hs2. cbn beta in Hs2.
      destruct (only_sends_env _ _ Hs2) as [Hf2 _]. pose proof (only_sends_allocs _ _ Hs2).
      eapply succeeds_mono; [apply IH; lia|]. intros [] s3 Hs3. cbn beta in Hs3. by rewrite Hs1, Hs2. }
    repeat case_match; try (apply Hgo; rewrite ?u16_small by (wunfold; lia); lia). lia. }
  apply run_malloc_any; [intros _; apply Hstep; reflexivity|].
  intros b s1 Hs1 Hlt. destruct b; cbn [negb]; [by apply Hstep|].
  destruct (only_sends_env _ _ Hs1) as [Hf1 _].
  eapply succeeds_mono; [apply Hno; lia|]. intros [] s2 Hs2. cbn beta in Hs2. by rewrite Hs1.
Qed.

Lemma send_nested_sends depth op data s : (3 <= frag_size (env s) \/ peer_recv_size (env s) = 0) ->
  1 <= Z.of_nat (length data) <= 512 -> (length (allocs s) < depth)%nat ->
  succeeds (send_nested co_crc16 depth op data) s (fun _ => only_sends s).
Proof.
  revert op data s. induction depth as [|n IH]; intros op data s Hf Hlen Hd; [lia|].
  cbn [send_nested]. apply ran_get.
  destruct (Z.ltb_spec (peer_recv_size (env s)) (Z.of_nat (length data))); [by apply succeeds_ret, reflexivity|].
  apply (send_loop_sends _ n); try lia. intros s1 Hf1 Hn1. apply IH; [lia|cbn; lia|done].
Qed.

(** [bcwl_send] comes back whatever the allocator answers. *)
Lemma bcwl_send_sends op data s : (3 <= frag_size (env s) \/ peer_recv_size (env s) = 0) ->
  1 <= Z.of_nat (length data) <= 512 ->
  succeeds (bcwl_send co_crc16 op data) s (fun _ => only_sends s).
Proof. intros. apply (send_nested_sends (S (length (allocs s)))); [done..|lia]. Qed.
End only_sends.

(** The fields of [bcwl_env], and how they belong together. *)
Definition recv_ok (e : bcwl_env) : Prop :=
  match recv_buf e with
  | None => offset e = 0
  | Some buf => Z.of_nat (length buf) = total_len e /\ total_len e <= BCW_VALUE_LEN /\
      0 <= offset e <= total_len e /\ bytes_ok buf
  end.
Definition fields_ok (e : bcwl_env) : Prop :=
  is_u8 (recv_seq e) /\ is_u8 (send_seq e) /\ is_u8 (frag_size e) /\ is_u16 (total_len e) /\ is_u16 (ntf_cfg e) /\
  0 <= peer_recv_size e <= BCW_VALUE_LEN /\ (3 <= frag_size e \/ peer_recv_size e = 0).
Definition env_ok (e : bcwl_env) : Prop := fields_ok e /\ recv_ok e.

(** The message a segment completes, if it completes one. *)
Definition payload (v : value) : bytes := mem_slice 4 (Z.to_nat (mem_at v 3)) v.
Definition completes (e : bcwl_env) (v : value) : option (Z * bytes) :=
  if BCWL_FLAG_IS_END (mem_at v 0) then
    if BCWL_FLAG_IS_BEGIN (mem_at v 0) then Some (mem_at v 2, payload v)
    else (fun buf => (mem_at v 2, take (Z.to_nat (total_len e)) (overwrite (Z.to_nat (offset e)) (payload v) buf)))
           <$> recv_buf e
  else None.

(** What a peer has to respect: the first segment of several carries its two
    bytes of length and no more data than it announces, and a handshake asks
    for an MTU that leaves room for three bytes of data. *)
Definition segment_ok (e : bcwl_env) (v : value) : Prop :=
  (BCWL_FLAG_IS_BEGIN (mem_at v 0) = true -> BCWL_FLAG_IS_END (mem_at v 0) = false ->
   2 <= mem_at v 3 /\ mem_at v 3 - 2 <= unle (mem_slice 4 2 v)) /\
  (forall op d, completes e v = Some (op, d) -> BCWL_OPCODE_GET_TYPE op = BCWL_OPCODE_TYPE_MGMT ->
   BCWL_OPCODE_GET_SUBTYPE op = BCWL_OPCODE_MGMT_SUBTYPE_HANDSHAKE -> length d = 4%nat -> 12 <= word_at 0 2 d).

Definition value_ok (v : value) : Prop := forall i, is_u8 (mem_at v i).

Lemma value_ok_slice v off n : value_ok v -> bytes_ok (mem_slice off n v).
Proof. intros H. apply Forall_fmap, Forall_forall. intros i _. apply H. Qed.

(** What the layer above promises: it comes back, and leaves a good state. *)
Class MsgLayer {A} (h : Z -> bytes -> prog (link A) unit) : Prop :=
  layer_returns subtype d s : bytes_ok d -> env_ok (env s) ->
    succeeds (h subtype d) s (fun _ s' => env_ok (env s')).

#[export] Instance note_msg_layer : MsgLayer note_msg.
Proof. by intros st d s _ He. Qed.

Lemma fields_ok_recv buf total off e : fields_ok e -> is_u16 total -> fields_ok (with_recv buf total off e).
Proof. unfold fields_ok. cbn. tauto. Qed.

Lemma env_ok_recv buf total off e : fields_ok e -> is_u16 total ->
  recv_ok (with_recv buf total off e) -> env_ok (with_recv buf total off e).
Proof. split; [by apply fields_ok_recv|done]. Qed.

Lemma only_sends_fields {A} (s s' : link A) : only_sends s s' -> fields_ok (env s) -> fields_ok (env s').
Proof. intros ((x & Hx & ->) & _). unfold fields_ok. cbn. tauto. Qed.

Lemma only_sends_ok {A} (s s' : link A) : only_sends s s' -> env_ok (env s) -> env_ok (env s').
Proof. intros Hs [Hf Hr]. split; [by apply (only_sends_fields s)|]. destruct Hs as ((x & _ & ->) & _). exact Hr. Qed.

Section safe.
Context {A : Type} (co_crc16 : bytes -> Z) (gatt_mtu : Z) (junk : nat -> Z).
Context (h : Z -> bytes -> prog (link A) unit) `{!MsgLayer h}.
Hypothesis mtu_min : BLE_GATT_MTU_MIN <= gatt_mtu.
Hypothesis junk_bytes : forall i, is_u8 (junk i).
Implicit Types (s : link A) (v : value).

(** A message sent in a good state leaves a good state. *)
Lemma send_ok op data s : env_ok (env s) -> 1 <= Z.of_nat (length data) <= 512 ->
  succeeds (bcwl_send co_crc16 op data) s (fun _ s' => env_ok (env s')).
Proof.
  intros He Hl. eapply succeeds_mono; [apply bcwl_send_sends; [apply He|done]|].
  intros [] s' Hs'. by apply (only_sends_ok s).
Qed.

Lemma error_report_ok reason s : env_ok (env s) ->
  succeeds (bcwl_error_report co_crc16 reason) s (fun _ s' => env_ok (env s')).
Proof. intros. apply send_ok; [done|cbn; lia]. Qed.

Lemma err_recv_ok status s : env_ok (env s) -> succeeds (err_recv co_crc16 status) s (fun _ s' => env_ok (env s')).
Proof.
  intros [Hf _]. apply ran_upd, error_report_ok. apply env_ok_recv; [done|apply Hf|done].
Qed.

Lemma handshake_ok d s : env_ok (env s) -> bytes_ok d -> (length d = 4%nat -> 12 <= word_at 0 2 d) ->
  succeeds (bcwl_handle_mgmt_handshake co_crc16 gatt_mtu d) s (fun _ s' => env_ok (env s')).
Proof.
  intros He Hd Hmtu. unfold bcwl_handle_mgmt_handshake.
  destruct (Z.eqb_spec (Z.of_nat (length d)) 4) as [H4|]; cbn [negb]; [|by apply error_report_ok].
  specialize (Hmtu ltac:(lia)). apply ran_upd, send_ok; [|rewrite length_app, !length_le; lia].
  unfold BLE_GATT_MTU_MIN in mtu_min.
  assert (Hw : 0 <= word_at 2 2 d) by (apply (unle_range (slice 2 2 d)); by apply Forall_take, Forall_drop).
  destruct He as [(H1 & H2 & H3 & H5 & Hn & H6 & H7) H8].
  unfold env_ok, fields_ok, recv_ok, SIZEOF_HEADER, BLE_GATT_HEADER_LEN, BCW_FRAG_MAX_LEN, BCW_VALUE_LEN in *. cbn.
  rewrite u8_small by (wunfold; lia). split_and!; try done; try lia; wunfold; lia.
Qed.

Lemma msg_handler_ok op d s : env_ok (env s) -> bytes_ok d ->
  (BCWL_OPCODE_GET_TYPE op = BCWL_OPCODE_TYPE_MGMT -> BCWL_OPCODE_GET_SUBTYPE op = BCWL_OPCODE_MGMT_SUBTYPE_HANDSHAKE ->
   length d = 4%nat -> 12 <= word_at 0 2 d) ->
  succeeds (bcwl_msg_handler co_crc16 gatt_mtu h op d) s (fun _ s' => env_ok (env s')).
Proof.
  intros He Hd Hmtu. unfold bcwl_msg_handler.
  destruct (Z.eqb_spec (BCWL_OPCODE_GET_TYPE op) BCWL_OPCODE_TYPE_MGMT).
  - destruct (Z.eqb_spec (BCWL_OPCODE_GET_SUBTYPE op) BCWL_OPCODE_MGMT_SUBTYPE_HANDSHAKE).
    + by apply handshake_ok; auto.
    + destruct (_ || _); [by apply succeeds_ret|by apply error_report_ok].
  - destruct (_ =? _); [by apply layer_returns|by apply error_report_ok].
Qed.

Lemma bytes_overwrite off (d buf : bytes) : bytes_ok d -> bytes_ok buf -> bytes_ok (overwrite off d buf).
Proof. intros. unfold overwrite. rewrite !Forall_app. auto using Forall_take, Forall_drop. Qed.

Lemma receive_start_ok total d s : env_ok (env s) -> bytes_ok d -> is_u16 total ->
  2 <= Z.of_nat (length d) -> Z.of_nat (length d) - 2 <= total ->
  succeeds (receive_start co_crc16 junk total d) s (fun _ s' => env_ok (env s')).
Proof.
  intros He Hd Htot Hl Hn. unfold receive_start. apply ran_get.
  destruct (Z.eqb_spec (offset (env s)) 0) as [Ho|]; cbn [negb]; [|by apply err_recv_ok].
  destruct He as [Hf Hr]. apply ran_upd.
  assert (Hnone : forall s1 s', fields_ok (env s1) -> env s' = with_recv None total 0 (env s1) -> env_ok (env s')).
  { intros s1 s' H1 ->. by apply env_ok_recv. }
  destruct (Z.ltb_spec BCW_VALUE_LEN total) as [|Hle].
  { apply ran_upd, error_report_ok. by apply (Hnone s). }
  set (s0 := on_env _ s). assert (Hf0 : fields_ok (env s0)) by by apply fields_ok_recv.
  assert (Hcopy : forall s1, only_sends s0 s1 -> succeeds (upd_env (fun e => with_recv
    (Some (overwrite 0 (drop 2 d) (junk <$> seq 0 (Z.to_nat total)))) total (u16 (Z.of_nat (length d) - 2)) e))
    s1 (fun _ s' => env_ok (env s'))).
  { intros s1 Hs1. unfold BCW_VALUE_LEN in *. unfold succeeds, upd_env. cbn [env].
    apply env_ok_recv; [by apply (only_sends_fields s0)|done|]. unfold recv_ok. cbn -[drop].
    rewrite u16_small by (wunfold; lia). rewrite length_overwrite, length_fmap, length_seq
      by (rewrite length_fmap, length_seq, length_drop; lia).
    unfold BCW_VALUE_LEN. split_and!; try lia. apply bytes_overwrite; [by apply Forall_drop|].
    apply Forall_fmap, Forall_forall. intros i _. apply junk_bytes. }
  rewrite (proj2 (Z.ltb_ge _ 0)), (proj2 (Z.ltb_ge _ (_ - 2))) by lia. cbn [orb].
  apply run_malloc_any; [intros _; apply Hcopy; reflexivity|].
  intros [] s1 Hs1 _; cbn [negb]; [by apply Hcopy|].
  apply ran_upd, err_recv_ok. apply (Hnone s1); [by apply (only_sends_fields s0)|].
  destruct Hs1 as ((x & _ & E) & _). cbn. rewrite E. cbn. by rewrite Ho.
Qed.

(** A copy that fits. *)
Lemma receive_copy_fits d s : env_ok (env s) -> bytes_ok d -> offset (env s) <> 0 ->
  offset (env s) + Z.of_nat (length d) <= total_len (env s) ->
  exists buf, recv_buf (env s) = Some buf /\ bytes_ok (overwrite (Z.to_nat (offset (env s))) d buf) /\
    let s1 := on_env (fun e => with_recv (Some (overwrite (Z.to_nat (offset (env s))) d buf)) (total_len e) (offset e) e) s in
    receive_copy d s = (Ok (overwrite (Z.to_nat (offset (env s))) d buf), s1) /\ env_ok (env s1).
Proof.
  intros [Hf Hr] Hd Ho Hl. unfold recv_ok in Hr. destruct (recv_buf (env s)) as [buf|] eqn:Hbuf; [|done].
  destruct Hr as (Hlb & Htot & Hoff & Hb).
  assert (Hok : bytes_ok (overwrite (Z.to_nat (offset (env s))) d buf)) by by apply bytes_overwrite.
  exists buf. cbv zeta. split_and!; [done|done|apply receive_copy_ok; [done|lia]|].
  apply env_ok_recv; [done|apply Hf|]. unfold recv_ok. cbn. rewrite length_overwrite by lia. done.
Qed.

Lemma receive_continue_ok d s : env_ok (env s) -> bytes_ok d ->
  succeeds (receive_continue co_crc16 d) s (fun _ s' => env_ok (env s')).
Proof.
  intros He Hd. unfold receive_continue. apply ran_get.
  destruct (Z.eqb_spec (offset (env s)) 0); cbn [orb]; [by apply err_recv_ok|].
  destruct (Z.leb_spec (total_len (env s)) (offset (env s) + Z.of_nat (length d))); [by apply err_recv_ok|].
  destruct (receive_copy_fits d s) as (buf & Hbuf & Hok & Hrun & [Hf Hr]); try done; [lia|].
  unfold succeeds. rewrite (run_ok _ _ _ _ _ Hrun). unfold upd_env. cbn.
  destruct He as [Hf0 Hr0]. unfold recv_ok in Hr0, Hr. rewrite Hbuf in Hr0. cbn in Hr.
  unfold BCW_VALUE_LEN in *. rewrite u16_small by (wunfold; lia).
  split; [apply Hf|]. unfold recv_ok. cbn. unfold BCW_VALUE_LEN. split_and!; try apply Hr; lia.
Qed.

Lemma receive_end_ok op d s : env_ok (env s) -> bytes_ok d ->
  (forall buf, recv_buf (env s) = Some buf ->
    BCWL_OPCODE_GET_TYPE op = BCWL_OPCODE_TYPE_MGMT -> BCWL_OPCODE_GET_SUBTYPE op = BCWL_OPCODE_MGMT_SUBTYPE_HANDSHAKE ->
    let m := take (Z.to_nat (total_len (env s))) (overwrite (Z.to_nat (offset (env s))) d buf) in
    length m = 4%nat -> 12 <= word_at 0 2 m) ->
  succeeds (receive_end co_crc16 gatt_mtu h op d) s (fun _ s' => env_ok (env s')).
Proof.
  intros He Hd Hmtu. unfold receive_end. apply ran_get.
  destruct (Z.eqb_spec (offset (env s)) 0); cbn [orb]; [by apply err_recv_ok|].
  destruct (Z.eqb_spec (offset (env s) + Z.of_nat (length d)) (total_len (env s))); cbn [negb]; [|by apply err_recv_ok].
  destruct (receive_copy_fits d s) as (buf & Hbuf & Hok & Hrun & He1); try done; [lia|].
  unfold succeeds. rewrite (run_ok _ _ _ _ _ Hrun). apply succeeds_bind.
  eapply succeeds_mono.
  - apply msg_handler_ok; [done|by apply Forall_take|]. intros Ht Hst. exact (Hmtu buf Hbuf Ht Hst).
  - intros [] s2 [Hf2 _]. cbn. apply env_ok_recv; [done|apply Hf2|done].
Qed.

Lemma bcwl_receive_ok v s : env_ok (env s) -> value_ok v -> segment_ok (env s) v ->
  succeeds (bcwl_receive co_crc16 gatt_mtu junk h v) s (fun _ s' => env_ok (env s')).
Proof.
  intros He Hv [Hstart Hhand]. unfold bcwl_receive.
  destruct (_ <? SIZEOF_HEADER); [by apply error_report_ok|]. apply ran_get.
  destruct (_ && _); [by apply error_report_ok|].
  fold (payload v). assert (Hd : bytes_ok (payload v)) by by apply value_ok_slice.
  assert (Hlen : Z.of_nat (length (payload v)) = mem_at v 3).
  { unfold payload, mem_slice. rewrite length_fmap, length_seq. pose proof (Hv 3%nat). wunfold. lia. }
  pstep. eapply (succeeds_mono _ _ (fun _ s1 => only_sends s s1)).
  { case_match; [|by apply succeeds_ret, reflexivity]. apply bcwl_send_sends; [apply He|cbn; lia]. }
  intros [] s1 Hs1. cbn beta in Hs1. apply ran_get.
  pose proof (only_sends_ok _ _ Hs1 He) as [Hf1 Hr1].
  destruct (negb _); [by apply error_report_ok|]. apply ran_upd.
  set (s2 := on_env _ s1).
  assert (He2 : env_ok (env s2)).
  { split; [|exact Hr1]. unfold s2, fields_ok in *. cbn. split; [apply u8_range|]. tauto. }
  assert (Hsame : completes (env s2) v = completes (env s) v).
  { destruct Hs1 as ((x & _ & E) & _). unfold completes, s2. cbn. by rewrite E. }
  rewrite <- Hsame in Hhand. clear Hsame. clearbody s2. unfold completes in Hhand.
  destruct (negb _); [by apply err_recv_ok|].
  destruct (BCWL_FLAG_IS_BEGIN (mem_at v 0)), (BCWL_FLAG_IS_END (mem_at v 0)).
  - apply msg_handler_ok; [done..|]. intros. by apply (Hhand (mem_at v 2) (payload v)).
  - destruct Hstart; [done..|]. apply receive_start_ok; try done; try lia.
    apply (unle_range (mem_slice 4 2 v)). by apply value_ok_slice.
  - apply receive_end_ok; [done..|]. intros buf Hbuf ? ? m Hm. apply (Hhand (mem_at v 2) m); try done.
    by rewrite Hbuf.
  - by apply receive_continue_ok.
Qed.

(** The events the BLE stack delivers. *)
Inductive link_event :=
  | EvWrite (conn_idx att_idx : Z) (v : value)
  | EvConnected (actv_idx conn_idx : Z)
  | EvAdv (state : ble_adv_state) (reason idx : Z)
  | EvAdvStop (status : Z).

Definition run_event (ev : link_event) : prog (link A) unit :=
  match ev with
  | EvWrite conn att v => bcwl_gatts_msg_cb co_crc16 gatt_mtu junk h conn att v
  | EvConnected actv conn => bcwl_conn_evt_handler actv conn
  | EvAdv st reason idx => bcwl_adv_mgr_evt_hdlr st reason idx
  | EvAdvStop status => _ ← bcwl_adv_stop status; mret tt
  end.

Fixpoint run_events (evs : list link_event) : prog (link A) unit :=
  match evs with
  | [] => mret tt
  | ev :: evs => _ ← run_event ev; run_events evs
  end.

Definition event_ok (e : bcwl_env) (ev : link_event) : Prop :=
  match ev with
  | EvWrite conn att v => value_ok v /\ (conn = conn_id e -> att = BCW_IDX_WRITE -> segment_ok e v)
  | _ => True
  end.

(** Every event is as it should be in the state that it meets. *)
Fixpoint events_ok (evs : list link_event) (s : link A) : Prop :=
  match evs with
  | [] => True
  | ev :: evs => event_ok (env s) ev /\ forall s', run_event ev s = (Ok tt, s') -> events_ok evs s'
  end.

Lemma env_ok_adv m idx rm st e : env_ok e -> env_ok (with_adv m idx rm st e).
Proof. done. Qed.

Lemma run_event_ok ev s : env_ok (env s) -> event_ok (env s) ev -> succeeds (run_event ev) s (fun _ s' => env_ok (env s')).
Proof.
  intros He Hev. destruct ev as [conn att v|actv conn|st reason idx|status]; cbn [run_event].
  - destruct Hev as [Hv Hseg]. unfold bcwl_gatts_msg_cb. apply ran_get.
    destruct (Z.eqb_spec conn (conn_id (env s))); cbn [negb]; [|by apply succeeds_ret].
    destruct (Z.eqb_spec att BCW_IDX_WRITE); [by apply bcwl_receive_ok; auto|].
    destruct (_ =? _); [|by apply succeeds_ret].
    destruct (Z.eqb_spec (Z.of_nat (length (pkt v))) 2); [|by apply succeeds_ret].
    destruct He as [Hf Hr]. split; [|exact Hr]. unfold fields_ok in *. cbn. split_and!; try apply Hf.
    pose proof (unle_range (mem_slice 0 2 v) (value_ok_slice _ _ _ Hv)) as Hu.
    rewrite mem_slice_pkt in Hu by lia. unfold slice in Hu. rewrite drop_0, take_ge in Hu by lia.
    replace (length (pkt v)) with 2%nat in Hu by lia. exact Hu.
  - unfold bcwl_conn_evt_handler. apply ran_get. destruct (negb _); [by apply succeeds_ret|].
    split; [|done]. unfold fields_ok. cbn. change (u8 _) with 14. unfold BCW_VALUE_LEN, BLE_GATT_MTU_MIN. wunfold. lia.
  - unfold bcwl_adv_mgr_evt_hdlr, bcwl_adv_start. apply ran_get, ran_upd.
    repeat case_match; exact He.
  - unfold bcwl_adv_stop. pstep. apply ran_get. repeat case_match; exact He.
Qed.

Lemma run_events_ok evs s : env_ok (env s) -> events_ok evs s -> succeeds (run_events evs) s (fun _ s' => env_ok (env s')).
Proof.
  revert s. induction evs as [|ev evs IH]; intros s He Hevs; [done|]. destruct Hevs as [Hev Hevs].
  cbn [run_events]. pstep. pose proof (run_event_ok ev s He Hev) as Hr. unfold succeeds in *.
  destruct (run_event ev s) as [[[]|c] s1] eqn:E; [|done]. by apply IH; auto.
Qed.
End safe.

(** ** The theorems on bad peers and lost segments *)
Lemma iter_next_seq n q : is_u8 q -> Nat.iter n next_seq q = (q + Z.of_nat n) mod 256.
Proof.
  intros Hq. induction n as [|n IH]; [rewrite Z.add_0_r; symmetry; apply Z.mod_small, Hq|].
  cbn [Nat.iter nat_rect]. change (nat_rect _ _ _ n) with (Nat.iter n next_seq q). rewrite IH. unfold next_seq, u8. change (2 ^ 8) with 256.
  rewrite Z.add_mod_idemp_l by lia. f_equal. lia.
Qed.

Lemma iter_next_seq_ne n q : is_u8 q -> (0 < n < 256)%nat -> Nat.iter n next_seq q <> q.
Proof.
  intros Hq Hn. rewrite iter_next_seq by done. unfold in_width in Hq. change (2 ^ 8) with 256 in Hq.
  intros H. pose proof (Z.div_mod (q + Z.of_nat n) 256 ltac:(lia)). rewrite H in *.
  assert ((q + Z.of_nat n) / 256 = 0 \/ (q + Z.of_nat n) / 256 = 1) as [|] by (Z.div_mod_to_equations; lia); lia.
Qed.

Section bad.
Context {A : Type} (co_crc16 : bytes -> Z) (gatt_mtu : Z) (junk : nat -> Z).
Context (h : Z -> bytes -> prog (link A) unit).
Implicit Types (s : link A) (v : value).

Lemma refused v s : env_ok (env s) -> mem_at v 1 <> recv_seq (env s) ->
  succeeds (bcwl_receive co_crc16 gatt_mtu junk h v) s (fun _ => only_sends s).
Proof.
  intros [Hf _] Hseq. unfold bcwl_receive.
  assert (Hsend : forall op x s1, only_sends s s1 -> succeeds (bcwl_send co_crc16 op [x]) s1 (fun _ => only_sends s)).
  { intros op x s1 Hs1. pose proof (only_sends_fields _ _ Hs1 Hf) as Hf1.
    eapply succeeds_mono; [apply bcwl_send_sends; [apply Hf1|cbn; lia]|]. intros [] s2 Hs2. cbn beta in Hs2. by rewrite Hs1. }
  destruct (_ <? SIZEOF_HEADER); [by apply Hsend, reflexivity|]. apply ran_get.
  destruct (_ && _); [by apply Hsend, reflexivity|].
  pstep. eapply (succeeds_mono _ _ (fun _ s1 => only_sends s s1)).
  { case_match; [by apply Hsend, reflexivity|by apply succeeds_ret, reflexivity]. }
  intros [] s1 Hs1. cbn beta in Hs1. apply ran_get.
  assert (Hq : recv_seq (env s1) = recv_seq (env s)) by by destruct Hs1 as ((x & _ & ->) & _).
  rewrite Hq, (proj2 (Z.eqb_neq _ _)) by done. by apply Hsend.
Qed.

Lemma all_refused vs s : env_ok (env s) -> Forall (fun v => mem_at v 1 <> recv_seq (env s)) vs ->
  succeeds (receive_all co_crc16 gatt_mtu junk h vs) s (fun _ => only_sends s).
Proof.
  intros He Hvs. assert (Hgen : forall s1, only_sends s s1 -> succeeds (receive_all co_crc16 gatt_mtu junk h vs) s1 (fun _ => only_sends s)).
  { induction Hvs as [|v vs Hv _ IH]; intros s1 Hs1; [by apply succeeds_ret|].
    cbn [receive_all]. pstep. eapply succeeds_mono; [apply refused|].
    - by apply (only_sends_ok s).
    - by destruct Hs1 as ((x & _ & ->) & _).
    - intros [] s2 Hs2. cbn beta in Hs2. apply IH. by rewrite Hs1. }
  apply Hgen. reflexivity.
Qed.

(** The loop that an MTU of 11 leads to. *)
Lemma send_loop_stuck no_mem op data fuel s :
  frag_size (env s) = 2 -> allocs s = [] -> ntf_cfg (env s) <> 0 -> 2 < Z.of_nat (length data) < 65536 ->
  exists s', send_loop co_crc16 no_mem fuel op data (Z.of_nat (length data)) s = (Err LOOP, s') /\
    length (log s') = (length (log s) + fuel)%nat.
Proof.
  revert s. induction fuel as [|fuel IH]; intros s Hf Ha Hn Hl; [exists s; split; [done|lia]|].
  cbn [send_loop]. rewrite (proj2 (Z.leb_gt _ _)) by lia. rewrite run_get, run_malloc by done. cbn [negb].
  rewrite Hf, (proj2 (Z.ltb_lt _ _)), Z.eqb_refl by lia. cbn [Z.ltb Z.compare Pos.compare Pos.compare_cont].
  erewrite run_ok by by apply send_segment_ok. rewrite Z.sub_diag, Z.sub_0_r, u16_small by (wunfold; lia).
  edestruct IH as (s' & -> & Hlog); [done..|]. exists s'. split; [done|]. rewrite Hlog. cbn. rewrite length_app. cbn. lia.
Qed.
End bad.


(** a first segment is copied without comparing its length with the size it
    announces.  One that carries more data than the buffer it makes the receiver
    allocate, or less than the two bytes of the size, is written outside it. *)
Theorem bad_start_overruns {A} co_crc16 gatt_mtu junk (h : Z -> bytes -> prog (link A) unit) v op d s :
  pkt v = frame co_crc16 (recv_seq (env s)) op (BCWL_FLAG_BEGIN_MASK, d) -> (length d <= 255)%nat ->
  handshake_success (env s) = true -> offset (env s) = 0 -> allocs s = [] ->
  unle (mem_slice 4 2 v) <= BCW_VALUE_LEN ->
  Z.of_nat (length d) < 2 \/ unle (mem_slice 4 2 v) < Z.of_nat (length d) - 2 ->
  fst (bcwl_receive co_crc16 gatt_mtu junk h v s) = Err WILD.
Proof.
  intros Hv Hd Hh Ho Ha Htot Hbad.
  rewrite (receive_accept _ _ _ _ BCWL_FLAG_BEGIN_MASK op d) by done.
  change (dispatch _ _ _ _ _ _ op d) with (receive_start (A := A) co_crc16 junk (unle (mem_slice 4 2 v)) d).
  unfold receive_start. rewrite run_get. cbn [env on_env offset with_recv_seq]. rewrite Ho. cbn [Z.eqb negb].
  rewrite run_upd, (proj2 (Z.ltb_ge _ _)), run_malloc by done. cbn [negb].
  destruct (Z.ltb_spec (Z.of_nat (length d) - 2) 0); [done|]. by rewrite (proj2 (Z.ltb_lt _ _)) by lia.
Qed.

(** a lost segment stalls the link.  A receiver that has missed the segment
    it expects refuses the up to 255 segments after it, whatever they hold: it
    passes nothing on and keeps its state, but for the error reports it sends. *)
Theorem lost_segment_stalls {A} co_crc16 gatt_mtu junk (h : Z -> bytes -> prog (link A) unit) vs s :
  env_ok (env s) -> (length vs < 256)%nat ->
  (forall i v, vs !! i = Some v -> mem_at v 1 = Nat.iter (S i) next_seq (recv_seq (env s))) ->
  exists s', receive_all co_crc16 gatt_mtu junk h vs s = (Ok tt, s') /\ only_sends s s'.
Proof.
  intros He Hl Hvs. destruct (succeeds_elim _ _ _ (all_refused co_crc16 gatt_mtu junk h vs s He ltac:(
    apply Forall_lookup; intros i v Hi; rewrite (Hvs i v Hi); apply iter_next_seq_ne;
      [apply He|apply lookup_lt_Some in Hi; lia]))) as ([] & s' & ? & ?). by exists s'.
Qed.

(** a handshake that asks for an MTU of 11 never comes back: the segments of
    the answer have no room for data, and every number of turns of the loop has
    sent that many of them. *)
Theorem handshake_mtu_11_hangs co_crc16 gatt_mtu d (s : link unit) :
  length d = 4%nat -> word_at 0 2 d = 11 -> 4 <= word_at 2 2 d -> BLE_GATT_MTU_MIN <= gatt_mtu ->
  allocs s = [] -> ntf_cfg (env s) <> 0 ->
  fst (bcwl_handle_mgmt_handshake co_crc16 gatt_mtu d s) = Err LOOP /\
  exists s1 : link unit, env s1 = with_handshake 2 (Z.min (word_at 2 2 d) BCW_VALUE_LEN) (env s) /\
    forall (no_mem : prog (link unit) unit) fuel answer, length answer = 4%nat -> exists s',
      send_loop co_crc16 no_mem fuel 0 answer 4 s1 = (Err LOOP, s') /\
      length (log s') = (length (log s) + fuel)%nat.
Proof.
  intros Hd Hm Hr Hg Ha Hn. unfold BLE_GATT_MTU_MIN in Hg.
  set (s1 := on_env (with_handshake 2 (Z.min (word_at 2 2 d) BCW_VALUE_LEN)) s).
  assert (Hstuck : forall (no_mem : prog (link unit) unit) fuel answer, length answer = 4%nat -> exists s',
      send_loop co_crc16 no_mem fuel 0 answer 4 s1 = (Err LOOP, s') /\
      length (log s') = (length (log s) + fuel)%nat).
  { intros no_mem fuel answer Hl. replace 4 with (Z.of_nat (length answer)) by lia.
    apply (send_loop_stuck co_crc16 no_mem 0 answer fuel s1); try done. lia. }
  split; [|exists s1; split; done].
  unfold bcwl_handle_mgmt_handshake. rewrite Hd, Hm. change (negb _) with false. cbn iota.
  replace (Z.min (Z.min 11 gatt_mtu) BCW_FRAG_MAX_LEN) with 11 by (unfold BCW_FRAG_MAX_LEN; lia).
  rewrite run_upd. change (u8 _) with 2. fold s1.
  unfold bcwl_send. replace (allocs s1) with (@nil bool) by done. cbn [length send_nested]. rewrite run_get.
  rewrite (proj2 (Z.ltb_ge _ _)) by (cbn; unfold BCW_VALUE_LEN; lia).
  change (Z.of_nat _) with 4. by edestruct Hstuck as (s' & -> & _).
Qed.

(** ** The theorems at concrete inputs *)
Definition sum_crc (bs : bytes) : Z := foldr Z.add 0 bs.
Definition end_env (seq : Z) : bcwl_env := Env 1 0 0 false 1 ADV_START seq seq None 0 0 14 512 true.
Definition two_msgs : list (Z * bytes) := [(0x42, seqZ 1 20); (0x41, [7; 8])].

Lemma link_delivers_witness :
  can_send (Link (A := Z * bytes) (end_env 254) [] []) /\
  exists s' segs, send_all sum_crc two_msgs (Link (A := Z * bytes) (end_env 254) [] []) = (Ok tt, s') /\
    log s' = [] ++ (on_air 0 <$> segs) /\
    Forall (fun seg => Z.of_nat (length seg) <= 14 + SIZEOF_HEADER + 2) segs /\
    forall vs, pkt <$> vs = segs ->
      exists r', receive_all sum_crc 23 (fun _ => 0) note_msg vs (Link (end_env 254) [] []) = (Ok tt, r') /\ ready r' /\
        log r' = [] ++ (arrived <$> two_msgs) /\ recv_seq (env r') = send_seq (env s').
Proof.
  split; [done|]. apply (link_delivers sum_crc 23 (fun _ => 0) two_msgs (Link (end_env 254) [] []) (Link (end_env 254) [] []));
    [done|done| |done|done].
  repeat constructor; done.
Defined.

Definition quiet_value (bs : bytes) : value := Value bs (fun _ => 0).

Lemma quiet_value_ok bs : bytes_ok bs -> value_ok (quiet_value bs).
Proof.
  intros H i. unfold mem_at, quiet_value. cbn. case_decide; [|wunfold; lia].
  destruct (nth_lookup_or_length bs i 0); [|lia]. by eapply Forall_lookup_1.
Qed.

(** Connection, notifications on, handshake, a message, a corrupt segment. *)
Definition some_events : list link_event :=
  [EvConnected 0 3; EvWrite 3 5 (quiet_value [1; 0]);
   EvWrite 3 2 (quiet_value (frame sum_crc 0 0 (3, [100; 0; 0; 2])));
   EvWrite 3 2 (quiet_value (frame sum_crc 1 0x41 (3, [9; 9])));
   EvWrite 3 2 (quiet_value [3; 2; 0x41; 0; 5; 5])].


Lemma bad_start_overruns_witness :
  let v := quiet_value (frame sum_crc 254 0x41 (BCWL_FLAG_BEGIN_MASK, 1 :: 0 :: seqZ 0 200)) in
  (length (1%Z :: 0%Z :: seqZ 0 200) <= 255)%nat /\
  fst (bcwl_receive sum_crc 23 (fun _ => 0) note_msg v (Link (end_env 254) [] [])) = Err WILD.
Proof.
  split; [by vm_compute; lia|].
  apply (bad_start_overruns sum_crc 23 (fun _ => 0) note_msg _ 0x41 (1 :: 0 :: seqZ 0 200));
    [done|vm_compute; lia|done|done|done|by vm_compute|right; by vm_compute].
Defined.

Lemma lost_segment_stalls_witness :
  env_ok (end_env 254) /\
  exists s', receive_all sum_crc 23 (fun _ => 0) note_msg
    (quiet_value <$> [frame sum_crc 255 0x41 (3, [1]); frame sum_crc 0 0x41 (3, [2])]) (Link (end_env 254) [] []) = (Ok tt, s') /\
    only_sends (Link (end_env 254) [] []) s'.
Proof.
  assert (He : env_ok (end_env 254)).
  { split; [|done]. unfold fields_ok, BCW_VALUE_LEN. cbn. wunfold. lia. }
  split; [done|]. apply (lost_segment_stalls sum_crc 23 (fun _ => 0) note_msg); [done|cbn; lia|].
  intros [|[|i]] v [= <-]; by vm_compute.
Defined.

Lemma handshake_mtu_11_hangs_witness :
  length [11; 0; 0; 2] = 4%nat /\
  fst (bcwl_handle_mgmt_handshake sum_crc 23 [11; 0; 0; 2] (Link (A := unit) (end_env 0) [] [])) = Err LOOP.
Proof.
  split; [done|].
  apply (handshake_mtu_11_hangs sum_crc 23 [11; 0; 0; 2] (Link (end_env 0) [] [])); by vm_compute.
Defined.
