(* ===== verification/CourierProt.v ===== *)
(** * Blue courier, the protocol: [MSDK/ble/app/app_blue_courier_prot.c]

    What the data messages of [CourierLink] ask for: scanning, joining and
    leaving a network, a soft AP, the status.  The calls to the Wi-Fi manager and
    to its event loop go to the log; what the manager answers
    is a function of everything called so far ([wifi_answer]).
    [ble_internal_decode], a library function, is a parameter. *)
From S2P Require Import Prelude Chars Prog CourierLink CourierSpec.

Definition MAC_SSID_LEN : Z := 32.
Definition WPA_MAX_PSK_LEN : Z := 63.
Definition CFG_STA_NUM : Z := 3.
Definition WIFI_MGMT_EVENT_SCAN_DONE : Z := 14.
Definition WIFI_MGMT_EVENT_SCAN_FAIL : Z := 15.
Definition WIFI_MGMT_EVENT_DHCP_SUCCESS : Z := 20.

Definition BCWL_OPCODE_DATA_SUBTYPE_CUSTOM_DATA : Z := 0.
Definition BCWL_OPCODE_DATA_SUBTYPE_GET_SCAN_LIST : Z := 1.
Definition BCWL_OPCODE_DATA_SUBTYPE_STAMODE_CONNECT : Z := 2.
Definition BCWL_OPCODE_DATA_SUBTYPE_STAMODE_DISCONNECT : Z := 3.
Definition BCWL_OPCODE_DATA_SUBTYPE_SOFTAPMODE_START : Z := 4.
Definition BCWL_OPCODE_DATA_SUBTYPE_SOFTAPMODE_STOP : Z := 5.
Definition BCWL_OPCODE_DATA_SUBTYPE_STATUS_GET : Z := 6.

(** [wifi_ap_auth_mode_t], and bits of [mac_akm_suite] *)
Definition AUTH_MODE_OPEN : Z := 0.
Definition AUTH_MODE_WPA2 : Z := 3.
Definition AUTH_MODE_WPA2_WPA3 : Z := 5.
Definition AUTH_MODE_WPA3 : Z := 6.
Definition CO_BIT (n : Z) : Z := Z.shiftl 1 n.
Definition MAC_AKM_NONE : Z := 0.
Definition MAC_AKM_PRE_RSN : Z := 1.
Definition MAC_AKM_PSK : Z := 3.
Definition MAC_AKM_SAE : Z := 9.
Definition MAC_AKM_WAPI_CERT : Z := 18.
Definition MAC_AKM_WAPI_PSK : Z := 19.
Definition akm_has (akm suite : Z) : bool := negb (Z.land akm (CO_BIT suite) =? 0).

(** [WVIF_STA] and [WVIF_AP] of [enum wifi_vif_type] *)
Definition WVIF_STA : Z := 1.
Definition WVIF_AP : Z := 2.

(** The functions registered with the event loop. *)
Inductive bcwp_callback := Bcwp_cb_scan_done | Bcwp_cb_scan_fail | Bcwp_wifi_connect_success.

(** The calls the protocol makes; a C string is logged up to its terminator. *)
Inductive bcwp_call :=
  | eloop_event_register (event : Z) (cb : bcwp_callback)
  | eloop_event_unregister (event : Z)
  | wifi_management_scan (blocked : bool)
  | wifi_management_connect (ssid : bytes) (password : option bytes) (blocked : bool)
  | wifi_management_disconnect
  | wifi_management_ap_start (ssid : bytes) (password : option bytes) (channel auth_mode hide : Z)
  | wifi_management_ap_stop.

Abbreviation blink := (link bcwp_call).
Abbreviation bprog := (prog blink).

(** The fields of [struct mac_scan_result] that are read. *)
Record scan_result := ScanResult { ssid_length : Z; ssid_array : bytes; rssi : Z; akm : Z }.

Definition scan_mode (akm : Z) : Z :=
  if akm_has akm MAC_AKM_NONE then 0
  else if akm =? CO_BIT MAC_AKM_PRE_RSN then 1
  else if akm_has akm MAC_AKM_WAPI_CERT || akm_has akm MAC_AKM_WAPI_PSK then 2
  else if akm_has akm MAC_AKM_PRE_RSN then 3
  else 4.

(** The name, in an array of 33 bytes; a terminator is written behind it, or
    over its last byte when there is no room. *)
Definition scan_name (r : scan_result) : bytes :=
  if ssid_length r <? MAC_SSID_LEN + 1 then take (Z.to_nat (ssid_length r)) (ssid_array r)
  else take (Z.to_nat (ssid_length r) - 1) (ssid_array r) ++ [0].

(** One network: length, signal, mode, name. *)
Definition scan_entry (r : scan_result) : bytes :=
  [u8 (ssid_length r + 2); u8 (rssi r); scan_mode (akm r)] ++ scan_name r.

(** The loop over the results; [ntf_result] is what has been written so far. *)
Fixpoint scan_loop {S} (results : list scan_result) (ntf_result : bytes) : prog S bytes :=
  match results with
  | [] => mret ntf_result
  | r :: results =>
      if MAC_SSID_LEN + 1 <? ssid_length r then pfail WILD
      else if ssid_length r =? 0 then scan_loop results ntf_result
      else if BCW_VALUE_LEN <? Z.of_nat (length ntf_result) + ssid_length r + 3 then mret ntf_result
      else scan_loop results (ntf_result ++ scan_entry r)
  end.

(** What the status reports on: the interface, its addresses, the network it
    has joined or opened, the clients of the soft AP. *)
Record wifi_vif := WifiVif {
  vif_name : bytes; vif_mac : bytes; wvif_type : Z; vif_ip : option (Z * Z);
  sta_state : Z; sta_rssi : Z; sta_ssid : bytes; sta_bssid : bytes; sta_channel : Z; sta_akm : Z;
  ap_state : Z; ap_ssid : bytes; ap_channel : Z; ap_akm : Z; ap_clients : list bytes }.

(** [n] bytes, the rest of the array being zero. *)
Definition field (n : nat) (bs : bytes) : bytes := take n (bs ++ replicate n 0).
Definition mac_ssid (ssid : bytes) : bytes := u8 (Z.of_nat (length ssid)) :: field 33 ssid.

Section prot.
Context (co_crc16 : bytes -> Z).
Context (ble_internal_decode : bytes -> Z -> bytes).
Context (wifi_answer : list (ble_call + bcwp_call) -> bcwp_call -> Z).
(** [dhcpd_find_ipaddr_by_macaddr] *)
Context (find_ipaddr : bytes -> Z).
(** The interface when the status is asked for. *)
Context (wvif : wifi_vif).
(** What lies behind a message in memory. *)
Context (beyond : nat -> Z).

Abbreviation bcwl_send := (bcwl_send co_crc16).

Definition call_wifi (c : bcwp_call) : bprog Z := fun s =>
  (Ok (wifi_answer (log s) c), Link (env s) (allocs s) (log s ++ [inr c])).

Definition reply (subtype : Z) (data : bytes) : bprog unit :=
  bcwl_send (BCWL_OPCODE_BUILD BCWL_OPCODE_TYPE_DATA subtype) data.

(** ** Scanning *)

(** [ret], [results]: what [wifi_netlink_scan_results_get] answers. *)
Definition bcwp_wifi_scan_list_get (ret : Z) (results : list scan_result) : bprog unit :=
  ok ← sys_malloc;
  if negb ok then mret tt
  else if negb (ret =? 0) then mret tt
  else ntf_result ← scan_loop results []; reply BCWL_OPCODE_DATA_SUBTYPE_GET_SCAN_LIST ntf_result.

Definition unregister_scan : bprog unit :=
  _ ← call_app (eloop_event_unregister WIFI_MGMT_EVENT_SCAN_DONE);
  call_app (eloop_event_unregister WIFI_MGMT_EVENT_SCAN_FAIL).

Definition bcwp_cb_scan_done (ret : Z) (results : list scan_result) : bprog unit :=
  _ ← bcwp_wifi_scan_list_get ret results; unregister_scan.
Definition bcwp_cb_scan_fail : bprog unit := unregister_scan.

Definition bcwp_wifi_scan : bprog unit :=
  _ ← call_app (eloop_event_register WIFI_MGMT_EVENT_SCAN_DONE Bcwp_cb_scan_done);
  _ ← call_app (eloop_event_register WIFI_MGMT_EVENT_SCAN_FAIL Bcwp_cb_scan_fail);
  ret ← call_wifi (wifi_management_scan false);
  if ret =? -1 then unregister_scan else mret tt.

(** ** Joining and leaving a network *)
Definition bcwp_wifi_connect_success : bprog unit :=
  _ ← call_app (eloop_event_unregister WIFI_MGMT_EVENT_DHCP_SUCCESS);
  reply BCWL_OPCODE_DATA_SUBTYPE_STAMODE_CONNECT [0].

(** [data[i]] after decoding, behind the end too. *)
Definition byte_at (data : bytes) (i : Z) : Z :=
  if i <? Z.of_nat (length data) then nth (Z.to_nat i) data 0 else beyond (Z.to_nat (i - Z.of_nat (length data))).

(** [ble_internal_decode(data, len - 1, data[len - 1])], in place *)
Definition decoded (data : bytes) : bytes :=
  let n := (length data - 1)%nat in
  let key := nth n data 0 in ble_internal_decode (take n data) key ++ [key].

(** The SSID and the password at the start of the decoded data, when the
    lengths are those of a message with [tail] bytes after the password. *)
Definition parse_lengths (tail : Z) (data : bytes) : option (Z * Z) :=
  let len := Z.of_nat (length data) in
  let ssid_len := byte_at data 0 in
  if (len <? ssid_len) || (WPA_MAX_PSK_LEN <? ssid_len) then None
  else
    let password_len := byte_at data (ssid_len + 1) in
    if negb (ssid_len + password_len + tail =? len) || (WPA_MAX_PSK_LEN <? password_len) then None
    else Some (ssid_len, password_len).

(** The two arrays on the stack: the SSID's has [MAC_SSID_LEN + 1] bytes, which
    nothing compares with its length. *)
Definition copy_ssid (data : bytes) (ssid_len : Z) : bprog bytes :=
  if MAC_SSID_LEN <? ssid_len then pfail WILD else mret (cstr (slice 1 (Z.to_nat ssid_len) data)).
Definition copy_password (data : bytes) (ssid_len password_len : Z) : option bytes :=
  if password_len =? 0 then None else Some (cstr (slice (Z.to_nat (ssid_len + 2)) (Z.to_nat password_len) data)).

Definition connect_failed : bprog unit := reply BCWL_OPCODE_DATA_SUBTYPE_STAMODE_CONNECT [1].

Definition bcwp_wifi_connect (message : bytes) : bprog unit :=
  if Z.of_nat (length message) <=? 0 then connect_failed
  else
    let data := decoded message in
    match parse_lengths 3 data with
    | None => connect_failed
    | Some (ssid_len, password_len) =>
        wifi_ssid ← copy_ssid data ssid_len;
        let password := copy_password data ssid_len password_len in
        _ ← call_app (eloop_event_register WIFI_MGMT_EVENT_DHCP_SUCCESS Bcwp_wifi_connect_success);
        ret ← call_wifi (wifi_management_connect wifi_ssid password true);
        if negb (ret =? 0) then connect_failed else mret tt
    end.

Definition bcwp_wifi_disconnect : bprog unit :=
  _ ← call_wifi wifi_management_disconnect; reply BCWL_OPCODE_DATA_SUBTYPE_STAMODE_DISCONNECT [0].

(** ** The soft AP *)
Definition ap_auth_mode (akm : Z) : Z :=
  if akm =? 0 then AUTH_MODE_OPEN else if akm =? 1 then AUTH_MODE_WPA2
  else if akm =? 2 then AUTH_MODE_WPA3 else AUTH_MODE_WPA2_WPA3.

Definition ap_start_reply (state : Z) : bprog unit := reply BCWL_OPCODE_DATA_SUBTYPE_SOFTAPMODE_START [state].

Definition bcwp_wifi_ap_start (message : bytes) : bprog unit :=
  if Z.of_nat (length message) <=? 0 then ap_start_reply 1
  else
    let data := decoded message in
    match parse_lengths 6 data with
    | None => ap_start_reply 1
    | Some (ssid_len, password_len) =>
        wifi_ssid ← copy_ssid data ssid_len;
        let password := copy_password data ssid_len password_len in
        let at_ i := byte_at data (ssid_len + password_len + i) in
        ret ← call_wifi (wifi_management_ap_start wifi_ssid password (at_ 2) (ap_auth_mode (at_ 3)) (at_ 4));
        ap_start_reply (if negb (ret =? 0) then 1 else 0)
    end.

Definition bcwp_wifi_ap_stop : bprog unit :=
  ret ← call_wifi wifi_management_ap_stop;
  reply BCWL_OPCODE_DATA_SUBTYPE_SOFTAPMODE_STOP [if ret =? 0 then 0 else 1].

(** ** The status *)
Definition sta_akm_code (akm : Z) : Z :=
  if akm_has akm MAC_AKM_SAE then 3
  else if akm =? Z.lor (CO_BIT MAC_AKM_PSK) (CO_BIT MAC_AKM_PRE_RSN) then 1
  else if akm =? CO_BIT MAC_AKM_PSK then 2
  else if akm =? CO_BIT MAC_AKM_NONE then 0 else 5.
Definition ap_akm_code (akm : Z) : Z :=
  if akm =? CO_BIT MAC_AKM_NONE then 0
  else if akm =? Z.lor (CO_BIT MAC_AKM_PSK) (CO_BIT MAC_AKM_PRE_RSN) then 1
  else if akm =? CO_BIT MAC_AKM_PSK then 2
  else if akm =? CO_BIT MAC_AKM_SAE then 3
  else if akm =? Z.lor (CO_BIT MAC_AKM_PSK) (CO_BIT MAC_AKM_SAE) then 4 else 5.

(** [wifi_status_rsp.cli]: the loop asks for [cli_mac->array], the first client. *)
Definition status_clients (macs : list bytes) : bytes :=
  concat ((fun mac => field 6 mac ++ le 4 (find_ipaddr (nth 0 macs []))) <$> macs).

(** [bcwp_wifi_status_t]: bytes only, so without padding. *)
Definition wifi_status_rsp : bytes :=
  let sta := wvif_type wvif =? WVIF_STA in
  let ap := wvif_type wvif =? WVIF_AP in
  let '(ip, gw) := match vif_ip wvif with Some (ip, gw) => (ip, gw) | None => (0, 0) end in
  [0] ++ field 4 (take 3 (vif_name wvif)) ++ field 6 (vif_mac wvif) ++
  [u8 (wvif_type wvif);
   u8 (if sta then sta_channel wvif else if ap then ap_channel wvif else 0);
   if sta then 20 else 0;
   if sta then sta_akm_code (sta_akm wvif) else if ap then ap_akm_code (ap_akm wvif) else 0] ++
  le 4 ip ++ le 4 gw ++
  (if sta then [u8 (sta_state wvif); u8 (sta_rssi wvif)] ++ field 6 (sta_bssid wvif) ++ mac_ssid (sta_ssid wvif)
   else replicate 42 0) ++
  (if ap then [u8 (ap_state wvif)] ++ mac_ssid (ap_ssid wvif) ++ [u8 (Z.of_nat (length (ap_clients wvif)))] ++
             field 30 (status_clients (ap_clients wvif))
   else replicate 66 0).

Definition bcwp_wifi_status_get : bprog unit := reply BCWL_OPCODE_DATA_SUBTYPE_STATUS_GET wifi_status_rsp.

(** ** The messages *)

(** [for (uint8_t i = 0; i < len; i++)] around a print of [data[i]] *)
Fixpoint print_loop (fuel : nat) (i len : Z) : bprog unit :=
  match fuel with
  | O => pfail LOOP
  | S n => if i <? len then print_loop n (u8 (i + 1)) len else mret tt
  end.
Definition print_custom_data (data : bytes) : bprog unit :=
  print_loop (S (length data)) 0 (Z.of_nat (length data)).

Definition bcwp_msg_handler (subtype : Z) (data : bytes) : bprog unit :=
  if subtype =? BCWL_OPCODE_DATA_SUBTYPE_GET_SCAN_LIST then bcwp_wifi_scan
  else if subtype =? BCWL_OPCODE_DATA_SUBTYPE_STAMODE_CONNECT then bcwp_wifi_connect data
  else if subtype =? BCWL_OPCODE_DATA_SUBTYPE_STAMODE_DISCONNECT then bcwp_wifi_disconnect
  else if subtype =? BCWL_OPCODE_DATA_SUBTYPE_SOFTAPMODE_START then bcwp_wifi_ap_start data
  else if subtype =? BCWL_OPCODE_DATA_SUBTYPE_SOFTAPMODE_STOP then bcwp_wifi_ap_stop
  else if subtype =? BCWL_OPCODE_DATA_SUBTYPE_STATUS_GET then bcwp_wifi_status_get
  else if subtype =? BCWL_OPCODE_DATA_SUBTYPE_CUSTOM_DATA then print_custom_data data
  else mret tt.
End prot.

(** ** What a peer encodes *)

(** The credentials as the peer lays them out, before the counterpart of
    [ble_internal_decode] is applied; [rest]: what follows the password. *)
Definition credentials (ssid password rest : bytes) : bytes :=
  Z.of_nat (length ssid) :: ssid ++ Z.of_nat (length password) :: password ++ rest.

(** Well-formed data: two strings of at most 63 bytes with their lengths, and
    [n] bytes more. *)
Definition well_formed (n : nat) (data ssid password rest : bytes) : Prop :=
  data = credentials ssid password rest /\ (length ssid <= 63)%nat /\ (length password <= 63)%nat /\ length rest = n.

Section parse.
Context (beyond : nat -> Z).

Lemma byte_at_app_r l b r : byte_at beyond (l ++ b :: r) (Z.of_nat (length l)) = b.
Proof.
  unfold byte_at. rewrite (proj2 (Z.ltb_lt _ _)) by (rewrite length_app; cbn; lia).
  rewrite Nat2Z.id, app_nth2 by lia. by rewrite Nat.sub_diag.
Qed.

Lemma parse_well_formed n data ssid password rest : well_formed n data ssid password rest ->
  parse_lengths beyond (Z.of_nat n + 2) data = Some (Z.of_nat (length ssid), Z.of_nat (length password)).
Proof.
  intros (-> & Hs & Hp & Hr). unfold parse_lengths, credentials, WPA_MAX_PSK_LEN.
  change (byte_at beyond _ 0) with (byte_at beyond ([] ++ Z.of_nat (length ssid) :: ssid ++
    Z.of_nat (length password) :: password ++ rest) (Z.of_nat (@length Z []))). rewrite byte_at_app_r.
  replace (Z.of_nat (length ssid) + 1) with (Z.of_nat (length (Z.of_nat (length ssid) :: ssid))) by (cbn [length]; lia).
  rewrite app_comm_cons, byte_at_app_r.
  rewrite !length_app. cbn [length]. rewrite length_app. rewrite !(proj2 (Z.ltb_ge _ _)) by lia. cbn [orb].
  by rewrite (proj2 (Z.eqb_eq _ _)) by lia.
Qed.

Lemma split_off (l : bytes) (k : Z) : 0 <= k < Z.of_nat (length l) ->
  l = take (Z.to_nat k) l ++ byte_at beyond l k :: drop (S (Z.to_nat k)) l /\ length (take (Z.to_nat k) l) = Z.to_nat k.
Proof.
  intros Hk. rewrite length_take, Nat.min_l by lia. split; [|done].
  unfold byte_at. rewrite (proj2 (Z.ltb_lt _ _)) by lia.
  rewrite <- (drop_S l (nth (Z.to_nat k) l 0)); [by rewrite take_drop|].
  destruct (nth_lookup_or_length l (Z.to_nat k) 0); [done|lia].
Qed.

Lemma parse_lengths_sound n data s p : (forall i, 0 <= beyond i) -> bytes_ok data -> 0 < Z.of_nat (length data) ->
  parse_lengths beyond (Z.of_nat n + 2) data = Some (s, p) ->
  exists ssid password rest, well_formed n data ssid password rest /\
    s = Z.of_nat (length ssid) /\ p = Z.of_nat (length password).
Proof.
  intros Hb Hd Hlen. unfold parse_lengths, WPA_MAX_PSK_LEN.
  destruct (split_off data 0 ltac:(lia)) as [E0 _]. rewrite take_0 in E0. cbn [app] in E0.
  set (s0 := byte_at beyond data 0) in *. set (d1 := drop _ data) in *.
  assert (Hd1 : is_u8 s0 /\ bytes_ok d1) by (by rewrite E0, Forall_cons in Hd).
  destruct ((Z.of_nat (length data) <? s0) || (63 <? s0)) eqn:H1; [done|].
  set (p0 := byte_at beyond data (s0 + 1)).
  assert (Hp0 : 0 <= p0).
  { unfold p0, byte_at. case_match; [|apply Hb]. destruct (nth_lookup_or_length data (Z.to_nat (s0 + 1)) 0) as [Hl|Hl]; [|lia].
    apply Forall_lookup_1 with (1 := Hd) in Hl. wunfold. lia. }
  destruct (negb _ || _) eqn:H2; [done|]. intros [= <- <-].
  apply orb_false_iff in H1 as [Hle1 Hle2], H2 as [H2 Hle3]. apply negb_false_iff, Z.eqb_eq in H2.
  apply Z.ltb_ge in Hle1, Hle2, Hle3. destruct Hd1 as [Hs0 Hd1]. unfold in_width in Hs0.
  assert (Hl1 : length data = S (length d1)) by (by rewrite E0).
  destruct (split_off d1 s0 ltac:(lia)) as [E1 Hls].
  assert (Ep : byte_at beyond d1 s0 = p0).
  { unfold p0, byte_at. rewrite !(proj2 (Z.ltb_lt _ _)) by lia.
    replace (Z.to_nat (s0 + 1)) with (S (Z.to_nat s0)) by lia. by rewrite E0. }
  rewrite Ep in E1. set (ssid := take (Z.to_nat s0) d1) in *. set (d2 := drop _ d1) in *.
  assert (Hl2 : (length d2 + S (Z.to_nat s0) = length d1)%nat) by (rewrite E1, length_app, Hls; cbn [length]; lia).
  exists ssid, (take (Z.to_nat p0) d2), (drop (Z.to_nat p0) d2).
  assert (Hlp : length (take (Z.to_nat p0) d2) = Z.to_nat p0) by (rewrite length_take; lia).
  split; [|lia]. unfold well_formed, credentials. rewrite Hls, Hlp, !Z2Nat.id, take_drop, length_drop by lia.
  split_and!; [|lia..]. by rewrite <- E1.
Qed.
End parse.

(** ** The handlers *)
Section handlers.
Context (co_crc16 : bytes -> Z) (ble_internal_decode : bytes -> Z -> bytes).
Context (wifi_answer : list (ble_call + bcwp_call) -> bcwp_call -> Z).
Context (find_ipaddr : bytes -> Z) (wvif : wifi_vif) (beyond : nat -> Z).
Implicit Types (s : blink).

Abbreviation connect := (bcwp_wifi_connect co_crc16 ble_internal_decode wifi_answer beyond).
Abbreviation bcwp_msg := (bcwp_msg_handler co_crc16 ble_internal_decode wifi_answer find_ipaddr wvif beyond).
Abbreviation decoded := (decoded ble_internal_decode).

Definition noted (cs : list bcwp_call) s : blink := Link (env s) (allocs s) (log s ++ (inr <$> cs)).

Definition connect_calls (ssid password : bytes) : list bcwp_call :=
  [eloop_event_register WIFI_MGMT_EVENT_DHCP_SUCCESS Bcwp_wifi_connect_success;
   wifi_management_connect (cstr ssid) (if decide (password = []) then None else Some (cstr password)) true].

(** The manager's answer to the request, in the state the handler started in. *)
Definition connect_answer (ssid password : bytes) s : Z :=
  wifi_answer (log s ++ [inr (eloop_event_register WIFI_MGMT_EVENT_DHCP_SUCCESS Bcwp_wifi_connect_success)])
    (wifi_management_connect (cstr ssid) (if decide (password = []) then None else Some (cstr password)) true).

Lemma copy_password_eq ssid password rest : let data := credentials ssid password rest in
  copy_password data (Z.of_nat (length ssid)) (Z.of_nat (length password)) =
    if decide (password = []) then None else Some (cstr password).
Proof.
  cbv zeta. unfold copy_password. case_decide as Hp; [by subst password|].
  assert (Z.of_nat (length password) <> 0) by (destruct password; [done|cbn; lia]).
  rewrite (proj2 (Z.eqb_neq _ _)), Nat2Z.id by done. do 2 f_equal.
  unfold slice, credentials. replace (Z.to_nat (Z.of_nat (length ssid) + 2)) with (S (length ssid + 1)) by lia.
  cbn [drop]. rewrite drop_app_add. cbn [drop]. by rewrite drop_0, take_app_length.
Qed.

Lemma copy_ssid_eq ssid password rest s : (length ssid <= 32)%nat -> let data := credentials ssid password rest in
  copy_ssid data (Z.of_nat (length ssid)) s = (Ok (cstr ssid), s).
Proof.
  intros Hs. cbv zeta. unfold copy_ssid, MAC_SSID_LEN. rewrite (proj2 (Z.ltb_ge _ _)) by lia.
  unfold slice, credentials. cbn [drop]. by rewrite drop_0, Nat2Z.id, take_app_length.
Qed.

(** A well-formed request goes to the manager. *)
Lemma connect_runs message ssid password key s :
  message <> [] -> well_formed 1 (decoded message) ssid password [key] -> (length ssid <= 32)%nat ->
  connect message s =
    (if negb (connect_answer ssid password s =? 0) then connect_failed co_crc16 else mret tt)
      (noted (connect_calls ssid password) s).
Proof.
  intros Hm Hwf Hs. unfold bcwp_wifi_connect.
  rewrite (proj2 (Z.leb_gt _ _)) by (destruct message; [done|cbn; lia]).
  change 3 with (Z.of_nat 1 + 2). rewrite (parse_well_formed beyond 1 _ ssid password [key] Hwf).
  destruct Hwf as (-> & _ & Hp & _).
  rewrite (run_ok _ _ _ _ _ (copy_ssid_eq ssid password [key] s Hs)), copy_password_eq.
  unfold connect_answer, noted, connect_calls. unfold mbind, prog_bind, call_app, call_wifi. cbn [env allocs log].
  rewrite <- app_assoc. done.
Qed.

Lemma ill_formed_parse n message : (forall i, 0 <= beyond i) -> bytes_ok (decoded message) -> decoded message <> [] ->
  (forall ssid password rest, ~ well_formed n (decoded message) ssid password rest) ->
  parse_lengths beyond (Z.of_nat n + 2) (decoded message) = None.
Proof.
  intros Hb Hd Hm Hno. destruct (parse_lengths _ _ _) as [[x y]|] eqn:E; [|done]. exfalso.
  apply parse_lengths_sound in E as (ssid & password & rest & Hwf & _); [by eapply Hno|done..|].
  destruct (decoded message); [done|cbn; lia].
Qed.

Lemma decoded_ne message : decoded message <> [].
Proof. unfold decoded. by destruct (ble_internal_decode _ _). Qed.

Lemma print_loop_long fuel i len (s : blink) : 0 <= i < 256 -> 255 < len -> print_loop fuel i len s = (Err LOOP, s).
Proof.
  revert i. induction fuel as [|fuel IH]; intros i Hi Hl; [done|]. cbn [print_loop].
  rewrite (proj2 (Z.ltb_lt _ _)) by lia. apply IH; [|done]. apply u8_range.
Qed.

Lemma print_loop_short fuel i len (s : blink) : 0 <= i <= len -> len <= 255 -> len - i < Z.of_nat fuel ->
  print_loop fuel i len s = (Ok tt, s).
Proof.
  revert i. induction fuel as [|fuel IH]; intros i Hi Hl Hf; [lia|]. cbn [print_loop].
  destruct (Z.ltb_spec i len); [|done]. rewrite u8_small by (wunfold; lia). apply IH; lia.
Qed.
End handlers.

(** C13: the credentials arrive.  A peer that encodes an SSID and a password,
    adds the key and hands the message to its [bcwl_send] makes the device, once
    it has received the segments, ask the Wi-Fi manager exactly once to connect,
    with this SSID and this password (none when it is empty); beyond that the
    device only sends notifications, and none when the manager says yes. *)
Theorem credentials_arrive {B} co_crc16 gatt_mtu junk encode ble_internal_decode wifi_answer find_ipaddr wvif beyond
    ssid password key (s : link B) (r : blink) :
  (forall d k, ble_internal_decode (encode d k) k = d /\ length (encode d k) = length d) ->
  no_nul ssid -> no_nul password -> (length ssid <= 32)%nat -> (length password <= 63)%nat ->
  can_send s -> 3 <= frag_size (env s) <= 255 ->
  Z.of_nat (length ssid + length password + 3) <= peer_recv_size (env s) ->
  ready r -> env_ok (env r) -> recv_seq (env r) = send_seq (env s) ->
  let message := encode (credentials ssid password []) key ++ [key] in
  let request := [eloop_event_register WIFI_MGMT_EVENT_DHCP_SUCCESS Bcwp_wifi_connect_success;
                  wifi_management_connect ssid (if decide (password = []) then None else Some password) true] in
  exists s' segs, bcwl_send co_crc16 (BCWL_OPCODE_BUILD BCWL_OPCODE_TYPE_DATA BCWL_OPCODE_DATA_SUBTYPE_STAMODE_CONNECT)
      message s = (Ok tt, s') /\
    log s' = log s ++ (on_air (conn_id (env s)) <$> segs) /\
    forall vs, pkt <$> vs = segs -> exists r' replies,
      receive_all co_crc16 gatt_mtu junk
        (bcwp_msg_handler co_crc16 ble_internal_decode wifi_answer find_ipaddr wvif beyond) vs r = (Ok tt, r') /\
      log r' = log r ++ (inr <$> request) ++ (on_air (conn_id (env r)) <$> replies) /\
      (wifi_answer (log r ++ [inr (eloop_event_register WIFI_MGMT_EVENT_DHCP_SUCCESS Bcwp_wifi_connect_success)])
         (wifi_management_connect ssid (if decide (password = []) then None else Some password) true) = 0 ->
       replies = []).
Proof.
  intros Henc Hns Hnp Hls Hlp Hs Hf Hpeer Hr He Hseq message request.
  destruct (Henc (credentials ssid password []) key) as [Hdec Hlen].
  set (op := BCWL_OPCODE_BUILD _ _).
  assert (Hlm : length message = (length ssid + length password + 3)%nat).
  { unfold message. rewrite length_app, Hlen. unfold credentials. cbn [length]. rewrite !length_app. cbn [length].
    rewrite length_app. cbn. lia. }
  set (ps := pieces (Z.to_nat (frag_size (env s))) message).
  destruct (sent_spec co_crc16 op ps s) as (_ & _ & Hl).
  exists (sent co_crc16 op ps s), (frames co_crc16 (send_seq (env s)) op ps).
  split; [apply bcwl_send_pieces; done || lia|]. split; [exact Hl|].
  intros vs Hvs. rewrite <- Hseq in Hvs.
  set (h := bcwp_msg_handler _ _ _ _ _ _).
  destruct (receive_message co_crc16 gatt_mtu junk h message (Z.to_nat (frag_size (env s))) r vs op) as (s1 & Hlater & Hm);
    try done; [lia..|].
  destruct Hlater as (_ & Ha & Hlog & _ & Hconn & _ & _ & Hfrag & Hprecv).
  assert (Hdecoded : well_formed 1 (decoded ble_internal_decode message) ssid password [key]).
  { unfold well_formed. split_and!; try done; [|lia]. unfold decoded, message.
    rewrite length_app, Hlen. cbn [length]. rewrite Nat.add_sub.
    rewrite take_app_length' by done. rewrite app_nth2, Hlen, Nat.sub_diag by lia. cbn [nth]. rewrite Hdec.
    unfold credentials. by rewrite app_nil_r, app_comm_cons, <- !app_assoc. }
  assert (Hh : h (BCWL_OPCODE_GET_SUBTYPE op) message = bcwp_wifi_connect co_crc16 ble_internal_decode wifi_answer beyond message)
    by done.
  assert (Hmne : message <> []) by (intros E; rewrite E in Hlm; cbn in Hlm; lia).
  pose proof (connect_runs co_crc16 ble_internal_decode wifi_answer beyond message ssid password key s1 Hmne Hdecoded Hls) as Hrun.
  unfold connect_answer, connect_calls in Hrun. rewrite !cstr_no_nul in Hrun by done. rewrite Hlog in Hrun.
  fold request in Hrun. set (answer := wifi_answer _ _) in *.
  assert (Hgo : exists s2 replies, h (BCWL_OPCODE_GET_SUBTYPE op) message s1 = (Ok tt, s2) /\
    log s2 = log r ++ (inr <$> request) ++ (on_air (conn_id (env r)) <$> replies) /\ (answer = 0 -> replies = [])).
  { rewrite Hh, Hrun. destruct (Z.eqb_spec answer 0) as [Hz|Hz]; cbn [negb].
    - exists (noted request s1), []. split_and!; [done|cbn; by rewrite Hlog|done].
    - pose proof (bcwl_send_sends co_crc16 op [1] (noted request s1)) as Hsend.
      destruct (succeeds_elim _ _ _ (Hsend ltac:(cbn; rewrite Hfrag, Hprecv; apply He) ltac:(cbn; lia)))
        as ([] & s2 & Hs2 & _ & _ & cs & Hcs).
      exists s2, cs. split_and!; [exact Hs2| |done]. rewrite Hcs. cbn. by rewrite Hlog, Hconn, <- app_assoc. }
  destruct Hgo as (s2 & replies & Hrun2 & Hl2 & Hz).
  destruct Hm as [[_ ->]| ->].
  - exists s2, replies. done.
  - exists (on_env (fun e => with_recv None (total_len e) 0 e) s2), replies.
    unfold mbind, prog_bind. rewrite Hrun2. done.
Qed.

(** C32: only a well-formed request reaches the manager.  When the decoded data
    are not an SSID and a password with their lengths and one more byte, the
    device calls nothing: it answers with a failure, whatever lies in memory
    behind the message. *)
Theorem bad_request_is_refused co_crc16 ble_internal_decode wifi_answer beyond message (s : blink) :
  (forall i, 0 <= beyond i) -> bytes_ok (decoded ble_internal_decode message) ->
  (forall ssid password rest, ~ well_formed 1 (decoded ble_internal_decode message) ssid password rest) ->
  env_ok (env s) ->
  bcwp_wifi_connect co_crc16 ble_internal_decode wifi_answer beyond message s = connect_failed co_crc16 s /\
  exists s', connect_failed co_crc16 s = (Ok tt, s') /\ only_sends s s'.
Proof.
  intros Hb Hd Hno He. split.
  - unfold bcwp_wifi_connect. destruct (_ <=? 0); [done|].
    change 3 with (Z.of_nat 1 + 2). by rewrite ill_formed_parse by (done || apply decoded_ne).
  - assert (Hs : succeeds (connect_failed co_crc16) s (fun _ => only_sends s)).
    { unfold connect_failed, reply. apply bcwl_send_sends; [apply He|cbn; lia]. }
    apply succeeds_elim in Hs as ([] & s' & Hr & Hs'). by exists s'.
Qed.

(** the SSID's length is compared with the longest password, not with the
    array it is copied to.  A request that is well formed but for an SSID of 33
    to 63 bytes is copied over the end of that array. *)
Theorem long_ssid_overruns co_crc16 ble_internal_decode wifi_answer beyond message ssid password key (s : blink) :
  message <> [] -> well_formed 1 (decoded ble_internal_decode message) ssid password [key] -> (32 < length ssid)%nat ->
  bcwp_wifi_connect co_crc16 ble_internal_decode wifi_answer beyond message s = (Err WILD, s).
Proof.
  intros Hm Hwf Hs. unfold bcwp_wifi_connect.
  rewrite (proj2 (Z.leb_gt _ _)) by (destruct message; [done|cbn; lia]).
  change 3 with (Z.of_nat 1 + 2). rewrite (parse_well_formed beyond 1 _ ssid password [key] Hwf).
  unfold copy_ssid, MAC_SSID_LEN. by rewrite (proj2 (Z.ltb_lt _ _)) by lia.
Qed.

(** a message of custom data comes back when it has at most 255 bytes, and
    never when it has more: the counter of the printing loop is a byte. *)
Theorem custom_data_hangs co_crc16 ble_internal_decode wifi_answer find_ipaddr wvif beyond data (s : blink) :
  bcwp_msg_handler co_crc16 ble_internal_decode wifi_answer find_ipaddr wvif beyond
    BCWL_OPCODE_DATA_SUBTYPE_CUSTOM_DATA data s =
    (if decide (length data <= 255)%nat then Ok tt else Err LOOP, s) /\
  forall fuel, (255 < length data)%nat -> print_loop fuel 0 (Z.of_nat (length data)) s = (Err LOOP, s).
Proof.
  split; [|intros; apply print_loop_long; lia].
  change (bcwp_msg_handler _ _ _ _ _ _ _ data s) with (print_custom_data data s). unfold print_custom_data.
  case_decide; [apply print_loop_short; lia|apply print_loop_long; lia].
Qed.

(** ** The list of networks *)

(** How the peer reads the list. *)
Fixpoint read_scan_list (fuel : nat) (bs : bytes) : list (bytes * Z * Z) :=
  match fuel, bs with
  | S n, len :: rssi :: mode :: rest =>
      (take (Z.to_nat (len - 2)) rest, rssi, mode) :: read_scan_list n (drop (Z.to_nat (len - 2)) rest)
  | _, _ => []
  end.

Definition network (r : scan_result) : bytes * Z * Z :=
  (take (Z.to_nat (ssid_length r)) (ssid_array r), u8 (rssi r), scan_mode (akm r)).

(** A result of the driver: the name is in the array. *)
Definition result_ok (r : scan_result) : Prop :=
  0 <= ssid_length r <= MAC_SSID_LEN /\ ssid_length r <= Z.of_nat (length (ssid_array r)).

Lemma scan_entry_ok r : result_ok r ->
  scan_entry r = [ssid_length r + 2; u8 (rssi r); scan_mode (akm r)] ++ take (Z.to_nat (ssid_length r)) (ssid_array r) /\
  length (scan_entry r) = (3 + Z.to_nat (ssid_length r))%nat.
Proof.
  unfold result_ok, MAC_SSID_LEN. intros [Hr Ha]. unfold scan_entry, scan_name, MAC_SSID_LEN.
  rewrite (proj2 (Z.ltb_lt _ _)), u8_small by (wunfold; lia). split; [done|]. rewrite length_app, length_take. cbn. lia.
Qed.

Lemma read_scan_entries rs fuel : Forall result_ok rs -> (length rs <= fuel)%nat ->
  read_scan_list fuel (concat (scan_entry <$> rs)) = network <$> rs.
Proof.
  intros Hrs. revert fuel. induction Hrs as [|r rs Hr Hrs IH]; intros fuel Hf; [by destruct fuel|].
  destruct fuel as [|fuel]; cbn [length] in Hf; [lia|]. cbn [fmap list_fmap concat].
  destruct (scan_entry_ok r Hr) as [-> _]. destruct Hr as [Hr Ha].
  rewrite <- app_assoc. cbn [app read_scan_list]. replace (ssid_length r + 2 - 2) with (ssid_length r) by lia.
  rewrite take_app_length', drop_app_length' by (rewrite length_take; lia). f_equal. apply IH. lia.
Qed.

Lemma scan_loop_spec {S} results acc (s : S) : Forall result_ok results -> Z.of_nat (length acc) <= BCW_VALUE_LEN ->
  exists kept left, filter (fun r => ssid_length r <> 0) results = kept ++ left /\
    let out := acc ++ concat (scan_entry <$> kept) in
    scan_loop results acc s = (Ok out, s) /\ Z.of_nat (length out) <= BCW_VALUE_LEN /\
    (forall r left', left = r :: left' -> BCW_VALUE_LEN < Z.of_nat (length out) + ssid_length r + 3).
Proof.
  intros Hrs. revert acc. induction Hrs as [|r rs Hr Hrs IH]; intros acc Hacc.
  { exists [], []. cbn. rewrite app_nil_r. done. }
  pose proof (scan_entry_ok r Hr) as [_ Hle]. cbn [scan_loop]. unfold result_ok, MAC_SSID_LEN in Hr. unfold MAC_SSID_LEN.
  rewrite (proj2 (Z.ltb_ge _ _)) by lia.
  destruct (Z.eqb_spec (ssid_length r) 0) as [Hz|Hz].
  { rewrite filter_cons_False by (intros H; by apply H). by apply IH. }
  rewrite filter_cons_True by done.
  destruct (Z.ltb_spec BCW_VALUE_LEN (Z.of_nat (length acc) + ssid_length r + 3)) as [Hfull|Hroom].
  - exists [], (r :: filter (fun r => ssid_length r <> 0) rs). cbn. rewrite app_nil_r. split_and!; try done.
    by intros r0 left' [= <- _].
  - destruct (IH (acc ++ scan_entry r)) as (kept & left & Hfilter & Hrun); [rewrite length_app, Hle; lia|].
    exists (r :: kept), left. rewrite Hfilter. cbn [fmap list_fmap concat]. rewrite app_assoc. done.
Qed.

(** C31: the list of networks can be read back.  Whatever the driver found, the
    message holds at most 512 bytes, and a peer reads from it the name, the
    signal and the security of the networks with a name, in order, all of them
    or up to the first that does not fit. *)
Theorem scan_list_reads_back {S} results (s : S) : Forall result_ok results ->
  exists out kept left, scan_loop results [] s = (Ok out, s) /\ Z.of_nat (length out) <= BCW_VALUE_LEN /\
    filter (fun r => ssid_length r <> 0) results = kept ++ left /\
    read_scan_list (length out) out = network <$> kept /\
    (forall r left', left = r :: left' -> BCW_VALUE_LEN < Z.of_nat (length out) + ssid_length r + 3).
Proof.
  intros Hrs. destruct (scan_loop_spec results [] s Hrs) as (kept & left & Hf & Hrun & Hlen & Hfull); [cbn; unfold BCW_VALUE_LEN; lia|].
  cbn [app] in *. exists (concat (scan_entry <$> kept)), kept, left. split_and!; try done.
  assert (Hkept : Forall result_ok kept).
  { apply (Forall_app _ kept left). rewrite <- Hf. apply Forall_forall.
    intros r [_ Hr]%list_elem_of_filter. by apply (proj1 (Forall_forall _ _) Hrs). }
  apply read_scan_entries; [done|]. clear -Hkept.
  induction Hkept as [|r rs Hr _ IH]; [done|]. cbn [fmap list_fmap concat length].
  rewrite length_app. destruct (scan_entry_ok r Hr) as [_ ->]. lia.
Qed.

(** The address of every client in the status is that of the first. *)
Lemma length_field n bs : length (field n bs) = n.
Proof. unfold field. rewrite length_take, length_app, length_replicate. lia. Qed.

Lemma length_status_clients find_ipaddr macs : length (status_clients find_ipaddr macs) = (10 * length macs)%nat.
Proof.
  unfold status_clients. generalize (nth 0 macs []). intros first. induction macs as [|m macs IH]; [done|].
  rewrite fmap_cons. cbn [concat length]. rewrite !length_app, length_field, length_le, IH. lia.
Qed.

Lemma slice_concat {X} (f : X -> bytes) n xs i x : (forall x, length (f x) = n) -> xs !! i = Some x ->
  slice (n * i) n (concat (f <$> xs)) = f x.
Proof.
  intros Hn. revert i. induction xs as [|y xs IH]; intros i Hi; [done|]. rewrite fmap_cons. cbn [concat].
  destruct i as [|i]; cbn in Hi.
  - simplify_eq. unfold slice. rewrite Nat.mul_0_r, drop_0. by rewrite take_app_length' by by rewrite Hn.
  - replace (n * S i)%nat with (length (f y) + n * i)%nat by (rewrite Hn; lia).
    unfold slice. rewrite drop_app_add. by apply IH.
Qed.

Lemma status_clients_nth find_ipaddr macs i mac : length mac = 6%nat -> macs !! i = Some mac ->
  slice (10 * i) 10 (status_clients find_ipaddr macs) = mac ++ le 4 (find_ipaddr (nth 0 macs [])).
Proof.
  intros Hm Hi. unfold status_clients. rewrite (slice_concat _ 10 _ _ mac); [|by intros; rewrite length_app, length_field|done].
  unfold field. by rewrite take_app_length' by done.
Qed.

(** the addresses of the soft AP's clients.  In the status of a soft AP with
    up to three clients, the i-th client has its own MAC address and the IP
    address the DHCP server has for the first client. *)
Theorem status_shows_first_address find_ipaddr wvif i mac :
  wvif_type wvif = WVIF_AP -> (length (ap_clients wvif) <= 3)%nat ->
  Forall (fun m => length m = 6%nat) (ap_clients wvif) -> ap_clients wvif !! i = Some mac ->
  slice (101 + 10 * i) 10 (wifi_status_rsp find_ipaddr wvif) = mac ++ le 4 (find_ipaddr (nth 0 (ap_clients wvif) [])).
Proof.
  intros Ht Hn Hm Hi. pose proof (Forall_lookup_1 _ _ _ _ Hm Hi) as Hmac. cbn beta in Hmac.
  rewrite <- (status_clients_nth find_ipaddr _ i mac) by done.
  unfold wifi_status_rsp. rewrite Ht. change (WVIF_AP =? WVIF_STA) with false. change (WVIF_AP =? WVIF_AP) with true. cbn iota.
  destruct (match vif_ip wvif with Some (ip, gw) => (ip, gw) | None => (0, 0) end) as [ip gw].
  rewrite !app_assoc. set (pre := _ ++ [u8 (Z.of_nat (length (ap_clients wvif)))]).
  assert (Hpre : length pre = 101%nat).
  { unfold pre, mac_ssid. repeat rewrite ?length_app, ?length_field, ?length_le, ?length_replicate. cbn [length].
    by rewrite length_field. }
  clearbody pre. rewrite <- Hpre. unfold slice at 1. rewrite drop_app_add.
  set (cs := status_clients find_ipaddr (ap_clients wvif)).
  assert (Hcs : length cs = (10 * length (ap_clients wvif))%nat) by apply length_status_clients.
  apply lookup_lt_Some in Hi. unfold field, slice. rewrite take_app_ge by lia.
  rewrite drop_app_le, take_app_le by (rewrite ?length_drop; lia). done.
Qed.

(** ** The theorems at concrete inputs *)
Definition xor_key (d : bytes) (k : Z) : bytes := (fun b => Z.lxor b k) <$> d.

Lemma xor_key_inverse d k : xor_key (xor_key d k) k = d /\ length (xor_key d k) = length d.
Proof.
  unfold xor_key. split; [|by rewrite length_fmap]. rewrite <- list_fmap_compose. rewrite <- (list_fmap_id d) at 2.
  apply list_fmap_ext. intros i x _. cbn. by rewrite Z.lxor_assoc, Z.lxor_nilpotent, Z.lxor_0_r.
Qed.

Definition yes (_ : list (ble_call + bcwp_call)) (_ : bcwp_call) : Z := 0.
Definition an_ap : wifi_vif :=
  WifiVif [119; 108; 48] [2; 0; 0; 0; 0; 1] WVIF_AP (Some (0x0109A8C0, 0x0109A8C0)) 0 0 [] [] 0 0 1 [97; 112] 6 8
    [[2; 0; 0; 0; 0; 9]; [2; 0; 0; 0; 0; 8]].

Lemma credentials_arrive_witness :
  env_ok (end_env 7) /\
  exists s' segs, bcwl_send sum_crc (BCWL_OPCODE_BUILD BCWL_OPCODE_TYPE_DATA BCWL_OPCODE_DATA_SUBTYPE_STAMODE_CONNECT)
      (xor_key (credentials (seqZ 65 10) (seqZ 97 12) []) 90 ++ [90]) (Link (A := unit) (end_env 7) [] []) = (Ok tt, s') /\
    log s' = [] ++ (on_air 0 <$> segs) /\
    forall vs, pkt <$> vs = segs -> exists r' replies,
      receive_all sum_crc 23 (fun _ => 0) (bcwp_msg_handler sum_crc xor_key yes (fun _ => 0) an_ap (fun _ => 0)) vs
        (Link (end_env 7) [] []) = (Ok tt, r') /\
      log r' = [] ++ (inr <$> [eloop_event_register WIFI_MGMT_EVENT_DHCP_SUCCESS Bcwp_wifi_connect_success;
                  wifi_management_connect (seqZ 65 10) (Some (seqZ 97 12)) true]) ++ (on_air 0 <$> replies) /\
      (0 = 0 -> replies = []).
Proof.
  assert (He : env_ok (end_env 7)).
  { split; [|done]. unfold fields_ok, BCW_VALUE_LEN. cbn. wunfold. lia. }
  split; [done|].
  apply (credentials_arrive sum_crc 23 (fun _ => 0) xor_key xor_key yes (fun _ => 0) an_ap (fun _ => 0)
    (seqZ 65 10) (seqZ 97 12) 90 (Link (end_env 7) [] []) (Link (end_env 7) [] []));
    [apply xor_key_inverse|repeat constructor; done|repeat constructor; done|vm_compute; lia|vm_compute; lia|done|done|done|done|done|done].
Defined.

Lemma bad_request_is_refused_witness :
  let m := xor_key [5; 65] 1 ++ [1] in
  decoded xor_key m = [5; 65; 1] /\
  bcwp_wifi_connect sum_crc xor_key yes (fun _ => 3) m (Link (end_env 7) [] []) = connect_failed sum_crc (Link (end_env 7) [] []).
Proof.
  cbv zeta. split; [done|].
  apply (bad_request_is_refused sum_crc xor_key yes (fun _ => 3) (xor_key [5; 65] 1 ++ [1]) (Link (end_env 7) [] [])).
  - done.
  - repeat constructor; done.
  - intros ssid password rest (E & _). change (decoded _ _) with [5; 65; 1] in E.
    apply (f_equal length) in E as El. injection E as E _. revert El. unfold credentials.
    cbn [length]. rewrite length_app. lia.
  - split; [|done]. unfold fields_ok, BCW_VALUE_LEN. cbn. wunfold. lia.
Defined.

Lemma long_ssid_overruns_witness :
  (32 < length (replicate 40 65))%nat /\
  bcwp_wifi_connect sum_crc xor_key yes (fun _ => 0) (xor_key (credentials (replicate 40 65) [] []) 1 ++ [1]) (Link (end_env 7) [] [])
    = (Err WILD, Link (end_env 7) [] []).
Proof.
  split; [by vm_compute; lia|].
  apply (long_ssid_overruns sum_crc xor_key yes (fun _ => 0) _ (replicate 40 65) [] 1); [done| |vm_compute; lia].
  split_and!; [by vm_compute|vm_compute; lia|vm_compute; lia|done].
Defined.

Definition some_results : list scan_result :=
  [ScanResult 2 [97; 98] (-40) 1; ScanResult 0 [] (-50) 8; ScanResult 3 [99; 100; 101] (-60) 8].

Lemma scan_list_reads_back_witness :
  read_scan_list 14 [4; 216; 0; 97; 98; 5; 196; 4; 99; 100; 101] = [([97; 98], 216, 0); ([99; 100; 101], 196, 4)] /\
  exists out kept left, scan_loop some_results [] tt = (Ok out, tt) /\ Z.of_nat (length out) <= BCW_VALUE_LEN /\
    filter (fun r => ssid_length r <> 0) some_results = kept ++ left /\
    read_scan_list (length out) out = network <$> kept /\
    (forall r left', left = r :: left' -> BCW_VALUE_LEN < Z.of_nat (length out) + ssid_length r + 3).
Proof.
  split; [by vm_compute|]. apply (scan_list_reads_back some_results tt).
  repeat constructor; done.
Defined.

Lemma status_shows_first_address_witness :
  ap_clients an_ap !! 1%nat = Some [2; 0; 0; 0; 0; 8] /\
  slice 111 10 (wifi_status_rsp (fun mac => nth 5 mac 0) an_ap) = [2; 0; 0; 0; 0; 8] ++ le 4 9.
Proof.
  split; [done|].
  apply (status_shows_first_address (fun mac => nth 5 mac 0) an_ap 1 [2; 0; 0; 0; 0; 8]);
    [done|cbn; lia|repeat constructor|done].
Defined.
