(* ===== verification/WifiMgmt.v ===== *)
(** * Wi-Fi management: [MSDK/wifi_manager/wifi_management.c]

    The state machines of a network interface (station, soft AP, monitor), the
    switch between them and the functions other tasks call, for the build of the
    repository (two interfaces, concurrent mode, soft AP; no WPS, EAP-TLS, IPv6 or
    wpa_supplicant).  The state [mgmt] has the data of the machine that runs
    ([sm]), the table of interfaces, the queue on which callers wait, the pending
    timeouts, the messages posted to the event loop and the calls made to the
    layers below; what those answer is a function of the calls so far ([net]).
    Station, soft AP and monitor data share a union: what one view shows of
    another's bytes after a switch is a parameter ([stale_sta], [stale_ap]). *)
From S2P Require Import Prelude.

(** ** Constants *)
Definition CFG_VIF_NUM : nat := 2.
Definition WIFI_VIF_INDEX_DEFAULT : nat := 0.
Definition WIFI_VIF_INDEX_STA_MODE : nat := 0.
Definition WIFI_VIF_INDEX_SOFTAP_MODE : nat := 1.

Definition MGMT_WAIT_QUEUE_MSG_SIZE : nat := 5.
Definition WIFI_MGMT_ROAMING_RETRY_LIMIT : Z := 100.
Definition WIFI_MGMT_ROAMING_RETRY_INTERVAL : Z := 2500.
Definition WIFI_MGMT_CONNECT_RETRY_LIMIT : Z := 3.
Definition WIFI_MGMT_CONNECT_RETRY_INTERVAL : Z := 2000.
Definition WIFI_MGMT_MAX_RETRY_INTERVAL : Z := 300000.
Definition WIFI_MGMT_CONNECT_BLOCK_TIME : Z :=
  Z.shiftr (WIFI_MGMT_CONNECT_RETRY_LIMIT * (WIFI_MGMT_CONNECT_RETRY_LIMIT - 1) * WIFI_MGMT_CONNECT_RETRY_INTERVAL) 1 + 14000.
Definition WIFI_MGMT_DHCP_POLLING_LIMIT : Z := 200.
Definition WIFI_MGMT_DHCP_POLLING_INTERVAL : Z := 100.
Definition WIFI_MGMT_LINK_POLLING_INTERVAL : Z := 3000.
Definition WIFI_MGMT_POLLING_SCAN_TRIGGER_POINT : Z := 10.
Definition WIFI_MGMT_ROAMING_RSSI_RELATIVE_GAIN : Z := 10.
Definition VIF_RSSI_HYSTERESIS : Z := 5.
Definition WIFI_SSID_MAX_LEN : Z := 32.
Definition WPAS_MIN_PASSPHRASE_LEN : Z := 8.
Definition WPAS_MAX_PASSPHRASE_LEN : Z := 63.
Definition WPAS_WEP40_ASCII_LEN : Z := 5.
Definition MAC_ST_SUCCESSFUL : Z := 0.
Definition MAC_ST_FAILURE : Z := 1.

(** [maintain_conn_state_t], [maintain_softap_state_t], [maintain_monitor_state_t]:
    three views of one union. *)
Definition MAINTAIN_CONNECTION_IDLE : Z := 0.
Definition MAINTAIN_CONNECTION_SCAN : Z := 2.
Definition MAINTAIN_CONNECTION_CONNECT : Z := 3.
Definition MAINTAIN_CONNECTION_HANDSHAKE : Z := 4.
Definition MAINTAIN_CONNECTION_DHCP : Z := 5.
Definition MAINTAIN_CONNECTION_CONNECTED : Z := 6.
Definition MAINTAIN_SOFTAP_INIT : Z := 0.
Definition MAINTAIN_SOFTAP_STARTED : Z := 1.
Definition MAINTAIN_MONITOR_INIT : Z := 0.
Definition MAINTAIN_MONITOR_STARTED : Z := 1.

(** [enum wifi_vif_type], [enum wvif_sta_state], [enum wvif_ap_state] *)
Definition WVIF_UNKNOWN : Z := 0.
Definition WVIF_STA : Z := 1.
Definition WVIF_AP : Z := 2.
Definition WVIF_MONITOR : Z := 3.
Definition WIFI_STA_STATE_IDLE : Z := 0.
Definition WIFI_STA_STATE_SCAN : Z := 2.
Definition WIFI_STA_STATE_CONNECT : Z := 3.
Definition WIFI_STA_STATE_HANDSHAKE : Z := 4.
Definition WIFI_STA_STATE_IP_GETTING : Z := 5.
Definition WIFI_STA_STATE_CONNECTED : Z := 6.
Definition WIFI_AP_STATE_INIT : Z := 0.
Definition WIFI_AP_STATE_STARTED : Z := 1.

(** [wifi_discon_reason_t], [wifi_scan_fail_reason_t] *)
Definition WIFI_MGMT_CONN_NO_AP : Z := 2.
Definition WIFI_MGMT_CONN_DHCP_FAIL : Z := 6.
Definition WIFI_MGMT_DISCON_RECV_DEAUTH : Z := 11.
Definition WIFI_MGMT_DISCON_NO_BEACON : Z := 12.
Definition WIFI_MGMT_DISCON_UNSPECIFIED : Z := 15.
Definition WIFI_MGMT_DISCON_SA_QUERY_FAIL : Z := 16.
Definition WIFI_MGMT_SCAN_SUCCESS : Z := 0.
Definition WIFI_MGMT_SCAN_START_FAIL : Z := 1.
Definition WIFI_MGMT_SCAN_FAIL : Z := 2.

(** [wifi_management_event_t]; numbers with no name are [EV_OTHER]. *)
Inductive mgmt_event :=
  | EV_NONE | EV_INIT | EV_SWITCH_MODE_CMD | EV_RX_MGMT | EV_RX_EAPOL
  | EV_SCAN_CMD | EV_CONNECT_CMD | EV_DISCONNECT_CMD | EV_AUTO_CONNECT_CMD | EV_WPS_CMD
  | EV_SCAN_DONE | EV_SCAN_FAIL | EV_SCAN_RESULT | EV_EXTERNAL_AUTH_REQUIRED | EV_ASSOC_SUCCESS
  | EV_DHCP_START | EV_DHCP_SUCCESS | EV_DHCP_FAIL | EV_CONNECT_SUCCESS | EV_CONNECT_FAIL
  | EV_DISCONNECT | EV_ROAMING_START | EV_RX_UNPROT_DEAUTH | EV_RX_ACTION
  | EV_WPS_SUCCESS | EV_WPS_FAIL | EV_WPS_CRED
  | EV_START_AP_CMD | EV_STOP_AP_CMD | EV_AP_SWITCH_CHNL_CMD
  | EV_TX_MGMT_DONE | EV_CLIENT_ADDED | EV_CLIENT_REMOVED | EV_MONITOR_START_CMD | EV_EAP_SUCCESS
  | EV_OTHER.

#[export] Instance mgmt_event_eq_dec : EqDecision mgmt_event.
Proof. solve_decision. Defined.

(** ** Data *)

(** The fields of [struct sta_cfg] this component works with. *)
Record sta_cfg := StaCfg {
  ssid : bytes; passphrase : bytes; channel : Z; bssid : bytes;
  conn_with_bssid : bool; conn_blocked : bool; flush_cache_req : bool }.
Record wifi_sta := WifiSta { cfg : sta_cfg; sta_state : Z; last_reason : Z; history_ip : Z }.
Record ap_cfg := ApCfg {
  ap_ssid : bytes; ap_channel : Z; ap_passphrase : bytes; ap_akm : Z; ap_hidden : Z; ap_bssid : bytes; ap_mfp : Z }.
Record wifi_ap := WifiAp { ap_conf : ap_cfg; ap_state : Z }.
Record vif := Vif { wvif_type : Z; sta : wifi_sta; ap : wifi_ap }.

(** What [memset] leaves. *)
Definition sta_cfg_zero : sta_cfg := StaCfg [] [] 0 [0; 0; 0; 0; 0; 0] false false false.
Definition ap_cfg_zero : ap_cfg := ApCfg [] 0 [] 0 0 [0; 0; 0; 0; 0; 0] 0.
Definition vif_zero : vif := Vif WVIF_UNKNOWN (WifiSta sta_cfg_zero 0 0 0) (WifiAp ap_cfg_zero 0).
#[export] Instance vif_inhabited : Inhabited vif := populate vif_zero.

(** The parameter of a message; it is freed when the message has been handled. *)
Inductive payload := NoParam | PSsid (s : bytes) | PCfg (c : sta_cfg) | PAp (c : ap_cfg) | PMonitor (channel : Z) | PRaw (bs : bytes).
Record message := Message { m_vif : nat; m_event : mgmt_event; m_reason : Z; m_param : payload }.

Record retry_param := Retry { retry_count : Z; retry_limit : Z; retry_interval : Z }.
Record preroam := Preroam { preroam_start : bool; polling_scan_count : Z; preroam_bssid_bk : bytes }.

(** [wifi_management_sm_data_t] *)
Record sm_data := Sm {
  vif_idx : nat; init : bool; sm_state : Z; event : mgmt_event; reason : Z; param : payload;
  dhcp_polling_count : Z; delayed_connect_retry : bool; retry : retry_param;
  preroam_enable : bool; roam : preroam; polling_scan : bool; scan_blocked : bool }.

Definition zero_addr : bytes := [0; 0; 0; 0; 0; 0].
Definition sm_zero : sm_data :=
  Sm 0 false 0 EV_NONE 0 NoParam 0 false (Retry 0 0 0) false (Preroam false 0 zero_addr) false false.
#[export] Instance sm_inhabited : Inhabited sm_data := populate sm_zero.

Inductive timer_fn := mgmt_dhcp_polling_fn | mgmt_link_status_polling_fn | mgmt_connect_retry_fn.
#[export] Instance timer_fn_eq_dec : EqDecision timer_fn.
Proof. solve_decision. Defined.
(** [owner]: the machine the timeout is registered for. *)
Record timer := Timer { t_fn : timer_fn; owner : nat; t_delay : Z }.

Inductive wait_event := SCAN_DONE | CONN_DONE | DISCONN_DONE | AP_START_DONE | MONITOR_START_DONE.
#[export] Instance wait_event_eq_dec : EqDecision wait_event.
Proof. solve_decision. Defined.
Record wait_evt := WaitEvt { w_vif : nat; w_evt : wait_event; w_reason : Z }.

(** The calls to the layers below, by name. *)
Inductive net_call :=
  | wifi_netlink_scan_set (v : nat) (ssid : option bytes) (channel : Z)
  | wifi_netlink_connect_req (v : nat) (c : sta_cfg)
  | wifi_netlink_associate_done (v : nat)
  | wifi_netlink_disconnect_req (v : nat)
  | wifi_netlink_dhcp_done (v : nat)
  | wifi_netlink_joined_ap_store (c : sta_cfg) (ip : Z)
  | wifi_netlink_joined_ap_load (v : nat)
  | wifi_netlink_auto_conn_get
  | wifi_netlink_candidate_ap_find (v : nat) (ssid : bytes)
  | wifi_netlink_ps_mode_set
  | wifi_netlink_enable_vif_ps
  | wifi_wpa_sta_sm_step (v : nat) (ev : mgmt_event)
  | wifi_wpa_ap_sm_step (v : nat) (ev : mgmt_event)
  | wifi_wpa_sta_pmksa_cache_flush (v : nat)
  | wpas_unprot_disconnect (v : nat)
  | wpas_action_receive (v : nat)
  | wifi_set_vif_ip (v : nat)
  | net_if_down (v : nat)
  | net_ip_obtained (v : nat)
  | net_if_is_static_ip
  | net_if_get_ip (v : nat)
  | net_if_set_default (v : nat)
  | wifi_vif_type_set (v : nat) (type : Z)
  | macif_vif_type_get (v : nat)
  | macif_vif_ap_state_set (v : nat) (open : bool)
  | macif_vif_ap_isolation_set (v : nat) (on : bool)
  | macif_monitor_cfg (v : nat) (channel : Z)
  | macif_vif_current_chan_get (v : nat)
  | macif_vif_sta_rssi_get (v : nat)
  | macif_vif_roaming_rssi_get (v : nat)
  | wifi_netlink_roaming_rssi_set (v : nat) (rssi : Z).

(** What [wifi_netlink_connect_req] writes to the interface besides its result. *)
Record connect_result := ConnectResult {
  cr_ret : Z; cr_ssid : bytes; cr_passphrase : bytes; cr_channel : Z; cr_bssid : bytes; cr_flush : bool; cr_last_reason : Z }.

Record mgmt := Mgmt {
  sm : sm_data; tab : list vif; waitq : list wait_evt; timers : list timer;
  posted : list message; calls : list net_call; wifi_concurrent_mode : bool }.

(** ** Updates *)
Definition with_sm (f : sm_data -> sm_data) (s : mgmt) : mgmt :=
  Mgmt (f (sm s)) (tab s) (waitq s) (timers s) (posted s) (calls s) (wifi_concurrent_mode s).
Definition with_tab (f : list vif -> list vif) (s : mgmt) : mgmt :=
  Mgmt (sm s) (f (tab s)) (waitq s) (timers s) (posted s) (calls s) (wifi_concurrent_mode s).
Definition with_waitq (f : list wait_evt -> list wait_evt) (s : mgmt) : mgmt :=
  Mgmt (sm s) (tab s) (f (waitq s)) (timers s) (posted s) (calls s) (wifi_concurrent_mode s).
Definition with_timers (f : list timer -> list timer) (s : mgmt) : mgmt :=
  Mgmt (sm s) (tab s) (waitq s) (f (timers s)) (posted s) (calls s) (wifi_concurrent_mode s).
Definition with_posted (f : list message -> list message) (s : mgmt) : mgmt :=
  Mgmt (sm s) (tab s) (waitq s) (timers s) (f (posted s)) (calls s) (wifi_concurrent_mode s).
Definition do_call (c : net_call) (s : mgmt) : mgmt :=
  Mgmt (sm s) (tab s) (waitq s) (timers s) (posted s) (calls s ++ [c]) (wifi_concurrent_mode s).

Definition set_state (x : Z) (m : sm_data) : sm_data :=
  Sm (vif_idx m) (init m) x (event m) (reason m) (param m) (dhcp_polling_count m) (delayed_connect_retry m) (retry m)
     (preroam_enable m) (roam m) (polling_scan m) (scan_blocked m).
Definition set_message (v : nat) (ev : mgmt_event) (r : Z) (p : payload) (m : sm_data) : sm_data :=
  Sm v (init m) (sm_state m) ev r p (dhcp_polling_count m) (delayed_connect_retry m) (retry m)
     (preroam_enable m) (roam m) (polling_scan m) (scan_blocked m).
Definition set_init (b : bool) (m : sm_data) : sm_data :=
  Sm (vif_idx m) b (sm_state m) (event m) (reason m) (param m) (dhcp_polling_count m) (delayed_connect_retry m) (retry m)
     (preroam_enable m) (roam m) (polling_scan m) (scan_blocked m).
Definition set_reason (x : Z) (m : sm_data) : sm_data := set_message (vif_idx m) (event m) x (param m) m.
Definition set_dhcp_polling_count (x : Z) (m : sm_data) : sm_data :=
  Sm (vif_idx m) (init m) (sm_state m) (event m) (reason m) (param m) x (delayed_connect_retry m) (retry m)
     (preroam_enable m) (roam m) (polling_scan m) (scan_blocked m).
Definition set_delayed (b : bool) (m : sm_data) : sm_data :=
  Sm (vif_idx m) (init m) (sm_state m) (event m) (reason m) (param m) (dhcp_polling_count m) b (retry m)
     (preroam_enable m) (roam m) (polling_scan m) (scan_blocked m).
Definition set_retry (x : retry_param) (m : sm_data) : sm_data :=
  Sm (vif_idx m) (init m) (sm_state m) (event m) (reason m) (param m) (dhcp_polling_count m) (delayed_connect_retry m) x
     (preroam_enable m) (roam m) (polling_scan m) (scan_blocked m).
Definition set_preroam_enable (b : bool) (m : sm_data) : sm_data :=
  Sm (vif_idx m) (init m) (sm_state m) (event m) (reason m) (param m) (dhcp_polling_count m) (delayed_connect_retry m) (retry m)
     b (roam m) (polling_scan m) (scan_blocked m).
Definition set_roam (x : preroam) (m : sm_data) : sm_data :=
  Sm (vif_idx m) (init m) (sm_state m) (event m) (reason m) (param m) (dhcp_polling_count m) (delayed_connect_retry m) (retry m)
     (preroam_enable m) x (polling_scan m) (scan_blocked m).
Definition set_polling_scan (b : bool) (m : sm_data) : sm_data :=
  Sm (vif_idx m) (init m) (sm_state m) (event m) (reason m) (param m) (dhcp_polling_count m) (delayed_connect_retry m) (retry m)
     (preroam_enable m) (roam m) b (scan_blocked m).
Definition set_scan_blocked (b : bool) (m : sm_data) : sm_data :=
  Sm (vif_idx m) (init m) (sm_state m) (event m) (reason m) (param m) (dhcp_polling_count m) (delayed_connect_retry m) (retry m)
     (preroam_enable m) (roam m) (polling_scan m) b.

Definition set_cfg (f : sta_cfg -> sta_cfg) (x : wifi_sta) : wifi_sta :=
  WifiSta (f (cfg x)) (sta_state x) (last_reason x) (history_ip x).
Definition set_sta_state (st : Z) (x : wifi_sta) : wifi_sta := WifiSta (cfg x) st (last_reason x) (history_ip x).
Definition set_last_reason (r : Z) (x : wifi_sta) : wifi_sta := WifiSta (cfg x) (sta_state x) r (history_ip x).
Definition set_history_ip (ip : Z) (x : wifi_sta) : wifi_sta := WifiSta (cfg x) (sta_state x) (last_reason x) ip.
Definition set_conn_blocked (b : bool) (c : sta_cfg) : sta_cfg :=
  StaCfg (ssid c) (passphrase c) (channel c) (bssid c) (conn_with_bssid c) b (flush_cache_req c).
Definition set_channel (ch : Z) (c : sta_cfg) : sta_cfg :=
  StaCfg (ssid c) (passphrase c) ch (bssid c) (conn_with_bssid c) (conn_blocked c) (flush_cache_req c).
Definition set_with_bssid (b : bool) (c : sta_cfg) : sta_cfg :=
  StaCfg (ssid c) (passphrase c) (channel c) (bssid c) b (conn_blocked c) (flush_cache_req c).
Definition set_bssid (bs : bytes) (c : sta_cfg) : sta_cfg :=
  StaCfg (ssid c) (passphrase c) (channel c) bs (conn_with_bssid c) (conn_blocked c) (flush_cache_req c).

Definition upd_sta (f : wifi_sta -> wifi_sta) (x : vif) : vif := Vif (wvif_type x) (f (sta x)) (ap x).
Definition upd_ap (f : wifi_ap -> wifi_ap) (x : vif) : vif := Vif (wvif_type x) (sta x) (f (ap x)).
Definition set_type (t : Z) (x : vif) : vif := Vif t (sta x) (ap x).

(** [wifi_vif_tab[sm->vif_idx]] *)
Definition wvif (s : mgmt) : vif := tab s !!! vif_idx (sm s).
Definition on_vif (f : vif -> vif) (s : mgmt) : mgmt := with_tab (alter f (vif_idx (sm s))) s.
Definition on_sta (f : wifi_sta -> wifi_sta) : mgmt -> mgmt := on_vif (upd_sta f).

(** ** Running one step after the other, from left to right *)
Definition seq_steps (f g : mgmt -> mgmt) : mgmt -> mgmt := fun s => g (f s).
Declare Scope mgmt_scope.
Delimit Scope mgmt_scope with mgmt.
Notation "f ;> g" := (seq_steps f g) (at level 61, right associativity, g at level 200) : mgmt_scope.
#[local] Open Scope mgmt_scope.

Definition skip : mgmt -> mgmt := fun s => s.
Definition when (b : bool) (f : mgmt -> mgmt) : mgmt -> mgmt := if b then f else skip.

Section mgmt.
(** The answer to a call, given all calls up to and with it. *)
Context (net : list net_call -> Z).
(** What [wifi_netlink_connect_req] does to the station's data. *)
Context (connect_req : list net_call -> wifi_sta -> connect_result).
(** The access point that was stored last: SSID, passphrase, channel, address. *)
Context (stored_ap : list net_call -> option (bytes * bytes * Z * Z)).
(** The best access point of the last scan with an SSID: its address, signal and
    channel. *)
Context (candidate : list net_call -> option (bytes * Z * Z)).
(** The view of the union an interface has after a switch of its type. *)
Context (stale_sta : vif -> wifi_sta) (stale_ap : vif -> wifi_ap).
(** Whether the event loop takes a message, given those waiting. *)
Context (accepts : list message -> bool).

(** A call and a continuation that gets its answer. *)
Definition ask (c : net_call) (k : Z -> mgmt -> mgmt) : mgmt -> mgmt :=
  fun s => let s' := do_call c s in k (net (calls s')) s'.
Definition eloop_message_send (v : nat) (ev : mgmt_event) (r : Z) (p : payload) (s : mgmt) : mgmt :=
  if accepts (posted s) then with_posted (fun l => l ++ [Message v ev (u16 r) p]) s else s.
Definition eloop_event_send (v : nat) (ev : mgmt_event) : mgmt -> mgmt := eloop_message_send v ev 0 NoParam.
(** To the machine's own interface *)
Definition send_own (ev : mgmt_event) (r : Z) (s : mgmt) : mgmt := eloop_message_send (vif_idx (sm s)) ev r NoParam s.

Definition eloop_timeout_register (delay : Z) (fn : timer_fn) (s : mgmt) : mgmt :=
  with_timers (fun l => l ++ [Timer fn (vif_idx (sm s)) delay]) s.
(** With [ELOOP_ALL_CTX]: of every machine *)
Definition eloop_timeout_cancel (fn : timer_fn) : mgmt -> mgmt := with_timers (filter (fun t => t_fn t <> fn)).
Definition eloop_timeout_is_registered (fn : timer_fn) (s : mgmt) : bool :=
  existsb (fun t => bool_decide (t_fn t = fn) && bool_decide (owner t = vif_idx (sm s))) (timers s).

(** ** The wait queue *)

(** [sys_queue_post]: a full queue refuses, and nobody looks at the result. *)
Definition post (evt : wait_event) (r : Z) (s : mgmt) : mgmt :=
  with_waitq (fun l => if decide (length l < MGMT_WAIT_QUEUE_MSG_SIZE)%nat
                       then l ++ [WaitEvt (vif_idx (sm s)) evt (u16 r)] else l) s.

Definition mgmt_post_conn_done (r : Z) (s : mgmt) : mgmt :=
  if conn_blocked (cfg (sta (wvif s))) then
    (on_sta (set_cfg (set_conn_blocked false)) ;> post CONN_DONE r) s
  else s.
Definition mgmt_post_disconn_done : mgmt -> mgmt := post DISCONN_DONE 0.
Definition mgmt_post_scan_done (r : Z) (s : mgmt) : mgmt :=
  if scan_blocked (sm s) then (with_sm (set_scan_blocked false) ;> post SCAN_DONE r) s else s.
Definition mgmt_post_ap_start_done (r : Z) : mgmt -> mgmt := post AP_START_DONE r.
Definition mgmt_post_monitor_start_done (r : Z) : mgmt -> mgmt := post MONITOR_START_DONE r.
Definition mgmt_wait_queue_flush : mgmt -> mgmt := with_waitq (fun _ => []).

(** The loop of [mgmt_wait_queue_fetch] over what the queue delivers ([None]: a
    timeout): the reason, and what is left. *)
Fixpoint mgmt_wait_queue_fetch (v : nat) (evt : wait_event) (q : list (option wait_evt)) : option (Z * list (option wait_evt)) :=
  match q with
  | [] => None
  | None :: q => Some (0xFFFF, q)
  | Some w :: q =>
      if decide (w_vif w = v /\ w_evt w = evt) then Some (w_reason w, q) else mgmt_wait_queue_fetch v evt q
  end.

(** ** Retries *)
Definition mgmt_connect_retry_param_set (roaming_required : bool) : mgmt -> mgmt :=
  with_sm (set_retry (if roaming_required
                      then Retry (WIFI_MGMT_ROAMING_RETRY_LIMIT - 1) WIFI_MGMT_ROAMING_RETRY_LIMIT WIFI_MGMT_ROAMING_RETRY_INTERVAL
                      else Retry (WIFI_MGMT_CONNECT_RETRY_LIMIT - 1) WIFI_MGMT_CONNECT_RETRY_LIMIT WIFI_MGMT_CONNECT_RETRY_INTERVAL)).

Definition retry_delay (r : retry_param) : Z :=
  let tried := u32 (retry_limit r - retry_count r) in
  let interval := if 30 <? tried then u32 (retry_interval r * u32 (tried - 30)) else retry_interval r in
  if WIFI_MGMT_MAX_RETRY_INTERVAL <? interval then WIFI_MGMT_MAX_RETRY_INTERVAL else interval.

Definition mgmt_register_delayed_connect_retry (s : mgmt) : mgmt :=
  if eloop_timeout_is_registered mgmt_connect_retry_fn s then s
  else eloop_timeout_register (retry_delay (retry (sm s))) mgmt_connect_retry_fn s.

Definition mgmt_link_is_ongoing : mgmt -> mgmt :=
  on_sta (set_cfg (set_conn_blocked true)) ;> mgmt_post_conn_done MAC_ST_FAILURE.

Definition mgmt_preroam_rollback (s : mgmt) : mgmt :=
  let r := roam (sm s) in
  if preroam_start r && bool_decide (preroam_bssid_bk r <> zero_addr) then
    (on_sta (set_cfg (fun c => set_with_bssid true (set_bssid (preroam_bssid_bk r) (set_channel 0xFF c)))) ;>
     with_sm (set_roam (Preroam false 0 zero_addr)) ;>
     send_own EV_CONNECT_CMD 0) s
  else s.

(** ** The station: states *)
Definition sm_MAINTAIN_CONNECTION_IDLE_Enter : mgmt -> mgmt :=
  with_sm (set_state MAINTAIN_CONNECTION_IDLE) ;>
  with_sm (set_delayed false) ;>
  eloop_timeout_cancel mgmt_dhcp_polling_fn ;>
  eloop_timeout_cancel mgmt_link_status_polling_fn ;>
  eloop_timeout_cancel mgmt_connect_retry_fn ;>
  (fun s => do_call (wifi_netlink_disconnect_req (vif_idx (sm s))) s) ;>
  mgmt_post_disconn_done ;>
  on_sta (set_sta_state WIFI_STA_STATE_IDLE).

Definition target_channel (x : wifi_sta) : Z :=
  if (last_reason x =? WIFI_MGMT_CONN_NO_AP) || (last_reason x =? WIFI_MGMT_DISCON_NO_BEACON)
     || (last_reason x =? WIFI_MGMT_DISCON_RECV_DEAUTH) || (last_reason x =? WIFI_MGMT_DISCON_UNSPECIFIED)
  then 0xFF else channel (cfg x).

Definition sm_MAINTAIN_CONNECTION_SCAN_Enter : mgmt -> mgmt :=
  with_sm (set_state MAINTAIN_CONNECTION_SCAN) ;>
  on_sta (set_sta_state WIFI_STA_STATE_SCAN) ;>
  eloop_timeout_cancel mgmt_dhcp_polling_fn ;>
  eloop_timeout_cancel mgmt_link_status_polling_fn ;>
  (fun s =>
     if delayed_connect_retry (sm s) then s
     else
       let x := sta (wvif s) in
       ask (wifi_netlink_scan_set (vif_idx (sm s)) (if conn_with_bssid (cfg x) then None else Some (ssid (cfg x))) (target_channel x))
         (fun ret => when (negb (ret =? 0)) (send_own EV_SCAN_FAIL 0)) s).

Definition sm_MAINTAIN_CONNECTION_CONNECT_Enter : mgmt -> mgmt :=
  with_sm (set_state MAINTAIN_CONNECTION_CONNECT) ;>
  on_sta (set_sta_state WIFI_STA_STATE_CONNECT) ;>
  (fun s =>
     let x := sta (wvif s) in
     let s1 := do_call (wifi_netlink_connect_req (vif_idx (sm s)) (cfg x)) s in
     let r := connect_req (calls s1) x in
     let c := cfg x in
     let s2 := on_sta (fun x => WifiSta (StaCfg (cr_ssid r) (cr_passphrase r) (cr_channel r) (cr_bssid r)
                                           (conn_with_bssid c) (conn_blocked c) (cr_flush r))
                                  (sta_state x) (cr_last_reason r) (history_ip x)) s1 in
     if negb (cr_ret r =? 0) then send_own EV_CONNECT_FAIL (cr_ret r) s2
     else
       let softap := tab s2 !!! WIFI_VIF_INDEX_SOFTAP_MODE in
       if wifi_concurrent_mode s2 && (wvif_type softap =? WVIF_AP) && (ap_state (ap softap) =? WIFI_AP_STATE_STARTED) then
         ask (macif_vif_current_chan_get WIFI_VIF_INDEX_SOFTAP_MODE)
           (fun ch => when ((0 <? ch) && negb (ch =? cr_channel r))
                        (eloop_message_send WIFI_VIF_INDEX_SOFTAP_MODE EV_AP_SWITCH_CHNL_CMD (cr_channel r) NoParam)) s2
       else s2).

Definition sm_MAINTAIN_CONNECTION_HANDSHAKE_Enter : mgmt -> mgmt :=
  with_sm (set_state MAINTAIN_CONNECTION_HANDSHAKE) ;>
  on_sta (set_sta_state WIFI_STA_STATE_HANDSHAKE) ;>
  (fun s => do_call (wifi_netlink_associate_done (vif_idx (sm s))) s).

Definition sm_MAINTAIN_CONNECTION_DHCP_Enter : mgmt -> mgmt :=
  with_sm (set_state MAINTAIN_CONNECTION_DHCP) ;>
  on_sta (set_sta_state WIFI_STA_STATE_IP_GETTING) ;>
  ask net_if_is_static_ip (fun is_static =>
    when (is_static =? 0)
      (with_sm (set_dhcp_polling_count WIFI_MGMT_DHCP_POLLING_LIMIT) ;>
       (fun s => do_call (wifi_set_vif_ip (vif_idx (sm s))) s))) ;>
  eloop_timeout_register WIFI_MGMT_DHCP_POLLING_INTERVAL mgmt_dhcp_polling_fn.

Definition sm_MAINTAIN_CONNECTION_CONNECTED_Enter : mgmt -> mgmt :=
  with_sm (set_state MAINTAIN_CONNECTION_CONNECTED) ;>
  on_sta (set_sta_state WIFI_STA_STATE_CONNECTED) ;>
  on_sta (set_last_reason 0) ;>
  (fun s => if negb (conn_blocked (cfg (sta (wvif s)))) then send_own EV_CONNECT_SUCCESS 0 s
            else mgmt_post_conn_done MAC_ST_SUCCESSFUL s) ;>
  with_sm (set_roam (Preroam false 0 zero_addr)) ;>
  on_sta (set_cfg (set_with_bssid false)) ;>
  (fun s => ask (net_if_get_ip (vif_idx (sm s))) (fun ip =>
     on_sta (set_history_ip (u32 ip)) ;>
     ask wifi_netlink_auto_conn_get (fun auto s =>
       when (negb (auto =? 0)) (do_call (wifi_netlink_joined_ap_store (cfg (sta (wvif s))) (u32 ip))) s)) s).

(** ** The station: timeouts *)
Definition mgmt_dhcp_polling : mgmt -> mgmt := fun s =>
  let done s := (do_call (net_if_set_default (vif_idx (sm s))) ;> send_own EV_DHCP_SUCCESS 0) s in
  ask (net_ip_obtained (vif_idx (sm s))) (fun obtained =>
    if negb (obtained =? 0) then done
    else ask net_if_is_static_ip (fun is_static s =>
      if negb (is_static =? 0) then done s
      else
        let n := u8 (dhcp_polling_count (sm s) - 1) in
        (with_sm (set_dhcp_polling_count n) ;>
         if negb (n =? 0) then eloop_timeout_register WIFI_MGMT_DHCP_POLLING_INTERVAL mgmt_dhcp_polling_fn
         else with_sm (set_reason WIFI_MGMT_CONN_DHCP_FAIL) ;> send_own EV_DHCP_FAIL 0) s)) s.

Definition mgmt_link_status_polling : mgmt -> mgmt := fun s =>
  if preroam_enable (sm s) && preroam_start (roam (sm s)) then
    ask (macif_vif_sta_rssi_get (vif_idx (sm s))) (fun rssi =>
    ask (macif_vif_roaming_rssi_get (vif_idx (sm s))) (fun thresh s =>
      if u8 thresh + VIF_RSSI_HYSTERESIS <? u8 rssi then with_sm (set_roam (Preroam false 0 zero_addr)) s
      else
        let n := polling_scan_count (roam (sm s)) in
        (when ((n <? 10) || (n mod WIFI_MGMT_POLLING_SCAN_TRIGGER_POINT =? 0))
           (do_call (wifi_netlink_scan_set (vif_idx (sm s)) None 0xFF) ;> with_sm (set_polling_scan true)) ;>
         with_sm (fun m => set_roam (Preroam true (u16 (n + 1)) (preroam_bssid_bk (roam m))) m) ;>
         eloop_timeout_register WIFI_MGMT_LINK_POLLING_INTERVAL mgmt_link_status_polling_fn) s)) s
  else s.

Definition mgmt_connect_retry : mgmt -> mgmt :=
  with_sm (fun m => set_retry (Retry (u32 (retry_count (retry m) - 1)) (retry_limit (retry m)) (retry_interval (retry m))) m) ;>
  with_sm (set_delayed false) ;>
  sm_MAINTAIN_CONNECTION_SCAN_Enter.

(** A pending timeout runs: it is taken from the list first. *)
Definition run_timer (fn : timer_fn) : mgmt -> mgmt :=
  match fn with
  | mgmt_dhcp_polling_fn => mgmt_dhcp_polling
  | mgmt_link_status_polling_fn => mgmt_link_status_polling
  | mgmt_connect_retry_fn => mgmt_connect_retry
  end.
Definition fire (t : timer) (l1 l2 : list timer) (s : mgmt) : mgmt := run_timer (t_fn t) (with_timers (fun _ => l1 ++ l2) s).

(** ** The station: events *)
Definition mgmt_connected_scan_done : mgmt -> mgmt :=
  with_sm (set_polling_scan false) ;>
  (fun s =>
     let x := sta (wvif s) in
     let s1 := do_call (wifi_netlink_candidate_ap_find (vif_idx (sm s)) (ssid (cfg x))) s in
     match candidate (calls s1) with
     | None => s1
     | Some (c_bssid, c_rssi, c_channel) =>
         if bool_decide (c_bssid = bssid (cfg x)) then s1
         else
           ask (macif_vif_sta_rssi_get (vif_idx (sm s))) (fun rssi =>
             when (rssi + WIFI_MGMT_ROAMING_RSSI_RELATIVE_GAIN <=? c_rssi)
               (on_sta (set_cfg (set_channel c_channel)) ;> send_own EV_CONNECT_CMD 0)) s1
     end).

(** A scan asked for by a user. *)
Definition scan_cmd (s : mgmt) : mgmt :=
  ask (wifi_netlink_scan_set (vif_idx (sm s)) (match param (sm s) with PSsid x => Some x | _ => None end) 0xFF)
    (fun ret => when (negb (ret =? 0)) (mgmt_post_scan_done WIFI_MGMT_SCAN_START_FAIL)) s.

Definition copy_cfg (s : mgmt) : mgmt :=
  match param (sm s) with PCfg c => on_sta (set_cfg (fun _ => c)) s | _ => s end.

(** The link could not be made or was lost before the address was there. *)
Definition retry_or_give_up (s : mgmt) : mgmt :=
  if 0 <? retry_count (retry (sm s)) then
    (with_sm (set_delayed true) ;> sm_MAINTAIN_CONNECTION_SCAN_Enter ;> mgmt_register_delayed_connect_retry) s
  else (mgmt_preroam_rollback ;> mgmt_post_conn_done (reason (sm s)) ;> sm_MAINTAIN_CONNECTION_IDLE_Enter) s.

Definition store_reason (s : mgmt) : mgmt := on_sta (set_last_reason (reason (sm s))) s.
Definition sta_sm_step (ev : mgmt_event) (s : mgmt) : mgmt := do_call (wifi_wpa_sta_sm_step (vif_idx (sm s)) ev) s.
Definition disconnect_req (s : mgmt) : mgmt := do_call (wifi_netlink_disconnect_req (vif_idx (sm s))) s.

Definition joined_ap_load (s : mgmt) : mgmt :=
  let s1 := do_call (wifi_netlink_joined_ap_load (vif_idx (sm s))) s in
  match stored_ap (calls s1) with
  | None => sm_MAINTAIN_CONNECTION_IDLE_Enter s1
  | Some (x, pass, ch, ip) =>
      (on_sta (fun st => set_history_ip ip (set_cfg (fun c =>
         StaCfg x pass ch (bssid c) (conn_with_bssid c) (conn_blocked c) (flush_cache_req c)) st)) ;>
       mgmt_connect_retry_param_set true ;>
       sm_MAINTAIN_CONNECTION_SCAN_Enter) s1
  end.

Definition idle_step (s : mgmt) : mgmt :=
  match event (sm s) with
  | EV_SCAN_CMD => scan_cmd s
  | EV_CONNECT_CMD => (copy_cfg ;> mgmt_connect_retry_param_set false ;> sm_MAINTAIN_CONNECTION_SCAN_Enter) s
  | EV_AUTO_CONNECT_CMD => joined_ap_load s
  | EV_SCAN_DONE => mgmt_post_scan_done WIFI_MGMT_SCAN_SUCCESS s
  | EV_DISCONNECT_CMD => mgmt_post_disconn_done s
  | _ => s
  end.

Definition scan_step (s : mgmt) : mgmt :=
  match event (sm s) with
  | EV_SCAN_CMD | EV_CONNECT_CMD => mgmt_link_is_ongoing s
  | EV_DISCONNECT_CMD | EV_CONNECT_FAIL => sm_MAINTAIN_CONNECTION_IDLE_Enter s
  | EV_SCAN_DONE => sm_MAINTAIN_CONNECTION_CONNECT_Enter s
  | EV_SCAN_FAIL =>
      if 0 <? retry_count (retry (sm s)) then mgmt_register_delayed_connect_retry s
      else (mgmt_preroam_rollback ;> mgmt_post_conn_done (reason (sm s)) ;> sm_MAINTAIN_CONNECTION_IDLE_Enter) s
  | _ => s
  end.

Definition connect_step (s : mgmt) : mgmt :=
  match event (sm s) with
  | EV_SCAN_CMD | EV_CONNECT_CMD => mgmt_link_is_ongoing s
  | EV_SCAN_RESULT | EV_EXTERNAL_AUTH_REQUIRED | EV_RX_MGMT => sta_sm_step (event (sm s)) s
  | EV_DISCONNECT_CMD => sm_MAINTAIN_CONNECTION_IDLE_Enter s
  | EV_ASSOC_SUCCESS => sm_MAINTAIN_CONNECTION_HANDSHAKE_Enter s
  | EV_CONNECT_FAIL | EV_DISCONNECT => (store_reason ;> sta_sm_step EV_DISCONNECT ;> retry_or_give_up) s
  | _ => s
  end.

(** After a failed handshake or DHCP, or a disconnection during them. *)
Definition link_lost : mgmt -> mgmt :=
  store_reason ;> sta_sm_step EV_DISCONNECT ;> sta_sm_step EV_DISCONNECT ;> retry_or_give_up.

Definition handshake_step (s : mgmt) : mgmt :=
  match event (sm s) with
  | EV_SCAN_CMD | EV_CONNECT_CMD => mgmt_link_is_ongoing s
  | EV_RX_EAPOL | EV_EAP_SUCCESS => sta_sm_step (event (sm s)) s
  | EV_DISCONNECT_CMD => sm_MAINTAIN_CONNECTION_IDLE_Enter s
  | EV_CONNECT_FAIL => (disconnect_req ;> link_lost) s
  | EV_DISCONNECT => link_lost s
  | EV_DHCP_START => sm_MAINTAIN_CONNECTION_DHCP_Enter s
  | _ => s
  end.

Definition dhcp_step (s : mgmt) : mgmt :=
  match event (sm s) with
  | EV_SCAN_CMD | EV_CONNECT_CMD => mgmt_link_is_ongoing s
  | EV_DISCONNECT_CMD => sm_MAINTAIN_CONNECTION_IDLE_Enter s
  | EV_RX_EAPOL => sta_sm_step EV_RX_EAPOL s
  | EV_DHCP_SUCCESS =>
      ((fun s => do_call (wifi_netlink_dhcp_done (vif_idx (sm s))) s) ;>
       sm_MAINTAIN_CONNECTION_CONNECTED_Enter ;> eloop_timeout_cancel mgmt_connect_retry_fn) s
  | EV_DHCP_FAIL | EV_CONNECT_FAIL => (disconnect_req ;> link_lost) s
  | EV_DISCONNECT => link_lost s
  | _ => s
  end.

Definition connected_step (s : mgmt) : mgmt :=
  match event (sm s) with
  | EV_SCAN_CMD => scan_cmd s
  | EV_CONNECT_CMD =>
      (copy_cfg ;> sm_MAINTAIN_CONNECTION_IDLE_Enter ;> mgmt_connect_retry_param_set false ;> sm_MAINTAIN_CONNECTION_SCAN_Enter) s
  | EV_DISCONNECT_CMD => sm_MAINTAIN_CONNECTION_IDLE_Enter s
  | EV_SCAN_DONE =>
      (when (polling_scan (sm s)) mgmt_connected_scan_done ;>
       mgmt_post_scan_done WIFI_MGMT_SCAN_SUCCESS ;> mgmt_post_scan_done WIFI_MGMT_SCAN_FAIL) s
  | EV_SCAN_FAIL => mgmt_post_scan_done WIFI_MGMT_SCAN_FAIL s
  | EV_RX_EAPOL => sta_sm_step EV_RX_EAPOL s
  | EV_DISCONNECT =>
      let r := reason (sm s) in
      (sta_sm_step EV_DISCONNECT ;> sta_sm_step EV_DISCONNECT ;> store_reason ;>
       when (r =? WIFI_MGMT_DISCON_SA_QUERY_FAIL) disconnect_req ;>
       if (r =? WIFI_MGMT_DISCON_NO_BEACON) || (r =? WIFI_MGMT_DISCON_UNSPECIFIED)
          || (r =? WIFI_MGMT_DISCON_RECV_DEAUTH) || (r =? WIFI_MGMT_DISCON_SA_QUERY_FAIL)
       then mgmt_connect_retry_param_set true ;> sm_MAINTAIN_CONNECTION_SCAN_Enter
       else sm_MAINTAIN_CONNECTION_IDLE_Enter) s
  | EV_ROAMING_START =>
      when (preroam_enable (sm s))
        (with_sm (set_roam (Preroam true (polling_scan_count (roam (sm s))) (bssid (cfg (sta (wvif s)))))) ;>
         eloop_timeout_register 1 mgmt_link_status_polling_fn) s
  | EV_RX_UNPROT_DEAUTH => do_call (wpas_unprot_disconnect (vif_idx (sm s))) s
  | EV_RX_ACTION => do_call (wpas_action_receive (vif_idx (sm s))) s
  | _ => s
  end.

(** [memset] clears the index of the interface too. *)
Definition sm_reset : mgmt -> mgmt := with_sm (fun _ => set_init true sm_zero).
Definition needs_init (s : mgmt) : bool := negb (init (sm s)) || bool_decide (event (sm s) = EV_INIT).

Definition sm_MAINTAIN_CONNECTION_Step (s : mgmt) : mgmt :=
  let st := sm_state (sm s) in
  if needs_init s then
    (sm_reset ;> with_sm (set_preroam_enable true) ;> mgmt_connect_retry_param_set false ;> sm_MAINTAIN_CONNECTION_IDLE_Enter) s
  else if st =? MAINTAIN_CONNECTION_IDLE then idle_step s
  else if st =? MAINTAIN_CONNECTION_SCAN then scan_step s
  else if st =? MAINTAIN_CONNECTION_CONNECT then connect_step s
  else if st =? MAINTAIN_CONNECTION_HANDSHAKE then handshake_step s
  else if st =? MAINTAIN_CONNECTION_DHCP then dhcp_step s
  else if st =? MAINTAIN_CONNECTION_CONNECTED then connected_step s
  else s.

(** ** The soft AP *)
Definition MAC_AKM_PSK_BIT : Z := Z.shiftl 1 3.
Definition MAC_AKM_SAE_BIT : Z := Z.shiftl 1 9.
Definition has_akm (akm bit : Z) : bool := negb (Z.land akm bit =? 0).

(** [VIF_AP] and [VIF_MONITOR] of the MAC layer *)
Definition VIF_AP : Z := 2.
Definition VIF_MONITOR : Z := 4.

Definition set_ap_state (st : Z) (a : wifi_ap) : wifi_ap := WifiAp (ap_conf a) st.
Definition with_mfp (c : ap_cfg) : ap_cfg :=
  ApCfg (ap_ssid c) (ap_channel c) (ap_passphrase c) (ap_akm c) (ap_hidden c) (ap_bssid c)
    (if has_akm (ap_akm c) MAC_AKM_SAE_BIT then (if has_akm (ap_akm c) MAC_AKM_PSK_BIT then 1 else 2) else 0).

(** [cfg = NULL]: the configuration the interface has. *)
Definition wifi_netlink_ap_start (c : option ap_cfg) (k : Z -> mgmt -> mgmt) (s : mgmt) : mgmt :=
  if negb (wvif_type (wvif s) =? WVIF_AP) then k (-2) s
  else
    ask (macif_vif_type_get (vif_idx (sm s))) (fun t s =>
      if negb (t =? VIF_AP) then k (-3) s
      else if match c with
              | Some c => bool_decide (ap_ssid c = []) || (ap_channel c =? 0)
              | None => false
              end then k (-4) s
      else
        ((fun s => match c with
                  | Some c => on_vif (upd_ap (fun a => WifiAp (with_mfp c) (ap_state a))) s
                  | None => s
                  end) ;>
         (fun s => ask (wifi_wpa_ap_sm_step (vif_idx (sm s)) EV_START_AP_CMD) (fun res s =>
            if negb (res =? 0) then k (-4) s
            else (do_call (wifi_set_vif_ip (vif_idx (sm s))) ;>
                  do_call (macif_vif_ap_state_set (vif_idx (sm s)) true) ;>
                  do_call (macif_vif_ap_isolation_set (vif_idx (sm s)) false) ;> k 0) s) s)) s) s.

Definition wifi_netlink_ap_stop (s : mgmt) : mgmt :=
  if negb (wvif_type (wvif s) =? WVIF_AP) then s
  else
    ask (macif_vif_type_get (vif_idx (sm s))) (fun t s =>
      if negb (t =? VIF_AP) || negb (ap_state (ap (wvif s)) =? WIFI_AP_STATE_STARTED) then s
      else (do_call (wifi_wpa_ap_sm_step (vif_idx (sm s)) EV_STOP_AP_CMD) ;>
            do_call (wifi_set_vif_ip (vif_idx (sm s))) ;>
            do_call (macif_vif_ap_state_set (vif_idx (sm s)) false)) s) s.

Definition sm_MAINTAIN_SOFTAP_INIT_Enter : mgmt -> mgmt :=
  with_sm (set_state MAINTAIN_SOFTAP_INIT) ;> wifi_netlink_ap_stop ;> on_vif (upd_ap (set_ap_state WIFI_AP_STATE_INIT)).
Definition sm_MAINTAIN_SOFTAP_STARTED_Enter : mgmt -> mgmt :=
  with_sm (set_state MAINTAIN_SOFTAP_STARTED) ;> on_vif (upd_ap (set_ap_state WIFI_AP_STATE_STARTED)).

Definition ap_sm_step (ev : mgmt_event) (s : mgmt) : mgmt := do_call (wifi_wpa_ap_sm_step (vif_idx (sm s)) ev) s.

Definition ap_param (s : mgmt) : option ap_cfg := match param (sm s) with PAp c => Some c | _ => None end.

Definition softap_init_step (s : mgmt) : mgmt :=
  match event (sm s) with
  | EV_START_AP_CMD =>
      wifi_netlink_ap_start (ap_param s) (fun ret =>
        if ret =? 0 then sm_MAINTAIN_SOFTAP_STARTED_Enter ;> mgmt_post_ap_start_done 0
        else sm_MAINTAIN_SOFTAP_INIT_Enter ;> mgmt_post_ap_start_done 1) s
  | _ => s
  end.

Definition set_ap_channel (ch : Z) (a : wifi_ap) : wifi_ap :=
  let c := ap_conf a in
  WifiAp (ApCfg (ap_ssid c) ch (ap_passphrase c) (ap_akm c) (ap_hidden c) (ap_bssid c) (ap_mfp c)) (ap_state a).

Definition softap_started_step (s : mgmt) : mgmt :=
  match event (sm s) with
  | EV_STOP_AP_CMD => sm_MAINTAIN_SOFTAP_INIT_Enter s
  | EV_RX_MGMT | EV_TX_MGMT_DONE | EV_RX_EAPOL => ap_sm_step (event (sm s)) s
  | EV_AP_SWITCH_CHNL_CMD =>
      (wifi_netlink_ap_stop ;> on_vif (upd_ap (set_ap_state WIFI_AP_STATE_INIT)) ;>
       on_vif (upd_ap (set_ap_channel (u8 (reason (sm s))))) ;>
       wifi_netlink_ap_start None (fun _ => skip) ;> on_vif (upd_ap (set_ap_state WIFI_AP_STATE_STARTED))) s
  | EV_SCAN_CMD => scan_cmd s
  | EV_SCAN_DONE => mgmt_post_scan_done WIFI_MGMT_SCAN_SUCCESS s
  | EV_SCAN_FAIL => mgmt_post_scan_done WIFI_MGMT_SCAN_FAIL s
  | _ => s
  end.

Definition sm_MAINTAIN_SOFTAP_Step (s : mgmt) : mgmt :=
  let st := sm_state (sm s) in
  if needs_init s then (sm_reset ;> sm_MAINTAIN_SOFTAP_INIT_Enter) s
  else if st =? MAINTAIN_SOFTAP_INIT then softap_init_step s
  else if st =? MAINTAIN_SOFTAP_STARTED then softap_started_step s
  else s.

(** ** The monitor *)
Definition wifi_netlink_monitor_start (p : payload) (k : Z -> mgmt -> mgmt) (s : mgmt) : mgmt :=
  match p with
  | PMonitor ch =>
      if negb (wvif_type (wvif s) =? WVIF_MONITOR) then k (-2) s
      else
        ask (macif_vif_type_get (vif_idx (sm s))) (fun t s =>
          if negb (t =? VIF_MONITOR) then k (-2) s
          else ask (macif_monitor_cfg (vif_idx (sm s)) ch) (fun ret => k (if negb (ret =? 0) then -4 else 0)) s) s
  | _ => k 0 s
  end.

Definition sm_MAINTAIN_MONITOR_INIT_Enter : mgmt -> mgmt := with_sm (set_state MAINTAIN_MONITOR_INIT).
Definition sm_MAINTAIN_MONITOR_STARTED_Enter : mgmt -> mgmt := with_sm (set_state MAINTAIN_MONITOR_STARTED).

Definition sm_MAINTAIN_MONITOR_Step (s : mgmt) : mgmt :=
  let st := sm_state (sm s) in
  if needs_init s then (sm_reset ;> sm_MAINTAIN_MONITOR_INIT_Enter) s
  else if st =? MAINTAIN_MONITOR_INIT then
    match event (sm s) with
    | EV_MONITOR_START_CMD =>
        wifi_netlink_monitor_start (param (sm s)) (fun ret =>
          if ret =? 0 then sm_MAINTAIN_MONITOR_STARTED_Enter ;> mgmt_post_monitor_start_done 0
          else sm_MAINTAIN_MONITOR_INIT_Enter ;> mgmt_post_monitor_start_done 1) s
    | _ => s
    end
  else if st =? MAINTAIN_MONITOR_STARTED then
    match event (sm s) with
    | EV_SCAN_CMD => scan_cmd s
    | EV_SCAN_DONE => mgmt_post_scan_done WIFI_MGMT_SCAN_SUCCESS s
    | EV_SCAN_FAIL => mgmt_post_scan_done WIFI_MGMT_SCAN_FAIL s
    | _ => s
    end
  else s.

(** ** Switching between them *)

(** [wifi_vif_reset] *)
Definition wifi_vif_reset (type : Z) (x : vif) : vif :=
  let x := set_type type x in
  if type =? WVIF_STA then upd_sta (fun st => set_sta_state WIFI_STA_STATE_IDLE (set_cfg (fun _ => sta_cfg_zero) st)) x
  else if type =? WVIF_AP then upd_ap (fun _ => WifiAp ap_cfg_zero WIFI_AP_STATE_INIT) x
  else x.

(** The new type, and what the union then shows. *)
Definition retype (prev type : Z) (x : vif) : vif :=
  Vif type (if (type =? WVIF_STA) && negb (prev =? WVIF_STA) then stale_sta x else sta x)
      (if (type =? WVIF_AP) && negb (prev =? WVIF_AP) then stale_ap x else ap x).

Definition mgmt_switch_mode (s : mgmt) : mgmt :=
  let v := vif_idx (sm s) in
  let type := reason (sm s) in
  let prev := wvif_type (wvif s) in
  if prev =? type then s
  else
    (do_call (wifi_set_vif_ip v) ;> do_call (net_if_down v) ;>
     (if prev =? WVIF_STA then sm_MAINTAIN_CONNECTION_IDLE_Enter ;> do_call (wifi_wpa_sta_pmksa_cache_flush v)
      else if prev =? WVIF_AP then sm_MAINTAIN_SOFTAP_INIT_Enter
      else if prev =? WVIF_MONITOR then sm_MAINTAIN_MONITOR_INIT_Enter
      else skip) ;>
     on_vif (wifi_vif_reset prev) ;>
     on_vif (retype prev type) ;>
     ask (wifi_vif_type_set v WVIF_UNKNOWN) (fun r1 =>
       if negb (r1 =? 0) then skip
       else ask (wifi_vif_type_set v type) (fun r2 =>
         if negb (r2 =? 0) then skip
         else
           with_sm (fun m => set_init true (set_message (vif_idx m) EV_NONE 0 (param m) m)) ;>
           (if type =? WVIF_STA then
              with_sm (set_polling_scan false) ;> mgmt_connect_retry_param_set false ;>
              with_sm (set_state MAINTAIN_CONNECTION_IDLE) ;> do_call wifi_netlink_ps_mode_set
            else if type =? WVIF_AP then with_sm (set_state MAINTAIN_SOFTAP_INIT)
            else if type =? WVIF_MONITOR then with_sm (set_state MAINTAIN_MONITOR_INIT)
            else if type =? WVIF_UNKNOWN then
              (fun s => when (wifi_concurrent_mode s && (prev =? WVIF_AP)) (do_call wifi_netlink_enable_vif_ps) s)
            else skip)))) s.

(** ** One message

    [sm s] is the machine of the interface the message is for. *)
Definition wifi_mgmt_cb_run_state_machine (msg : message) (s : mgmt) : mgmt :=
  if (CFG_VIF_NUM <=? m_vif msg)%nat || bool_decide (m_event msg = EV_NONE) then s
  else
    let s := with_sm (set_message (m_vif msg) (m_event msg) (m_reason msg) (m_param msg)) s in
    let s :=
      if bool_decide (m_event msg = EV_SWITCH_MODE_CMD) then mgmt_switch_mode s
      else
        let type := wvif_type (wvif s) in
        if type =? WVIF_STA then sm_MAINTAIN_CONNECTION_Step s
        else if type =? WVIF_AP then sm_MAINTAIN_SOFTAP_Step s
        else if type =? WVIF_MONITOR then sm_MAINTAIN_MONITOR_Step s
        else s in
    with_sm (fun m => set_message (vif_idx m) (event m) (reason m) NoParam m) s.

(** All machines: the data of each interface, and the rest in [mgmt]. *)
Record system := System { wifi_sm_data : list sm_data; shared : mgmt }.

Definition on_machine (v : nat) (f : mgmt -> mgmt) (w : system) : system :=
  let s := f (with_sm (fun _ => wifi_sm_data w !!! v) (shared w)) in
  System (<[v := sm s]> (wifi_sm_data w)) s.

Definition wifi_management_roaming_set (enable : bool) (rssi_th : Z) : system -> system :=
  on_machine WIFI_VIF_INDEX_DEFAULT
    (with_sm (set_preroam_enable enable) ;>
     when (enable && negb (rssi_th =? 0)) (do_call (wifi_netlink_roaming_rssi_set WIFI_VIF_INDEX_DEFAULT rssi_th))).

(** The event loop hands over the message that waits longest. *)
Definition dispatch_next (w : system) : system :=
  match posted (shared w) with
  | [] => w
  | msg :: rest =>
      on_machine (m_vif msg) (wifi_mgmt_cb_run_state_machine msg) (System (wifi_sm_data w) (with_posted (fun _ => rest) (shared w)))
  end.

(** ** The functions other tasks call *)

(** What a function does up to where it blocks: it returns, or waits for an event
    of an interface and goes on with its reason. *)
Inductive api :=
  | Returns (r : Z)
  | Waits (v : nat) (evt : wait_event) (timeout : Z) (k : Z -> mgmt -> Z * mgmt).

(** The calling task posts a message: 0, or an error when it is not taken. *)
Definition api_send (v : nat) (ev : mgmt_event) (r : Z) (p : payload) (k : Z -> mgmt -> api * mgmt) (s : mgmt) : api * mgmt :=
  k (if accepts (posted s) then 0 else -1) (eloop_message_send v ev r p s).

Definition returns (r : Z) (s : mgmt) : api * mgmt := (Returns r, s).

(** [running]: the Wi-Fi is neither closed nor closing; [mem]: an allocation
    succeeds.  Strings are as [strlen] sees them. *)
Definition wifi_management_scan (running mem blocked : bool) (name : option bytes) (s : mgmt) : api * mgmt :=
  let v := WIFI_VIF_INDEX_DEFAULT in
  let named := match name with Some x => negb (u8 (Z.of_nat (length x)) =? 0) | None => false end in
  if negb running then returns (-1) s
  else if named && negb mem then returns (-1) s
  else
    let scan_ssid := match name with
                     | Some x => if named then PSsid (take (Z.to_nat (u8 (Z.of_nat (length x)))) x) else NoParam
                     | None => NoParam
                     end in
    api_send v EV_SCAN_CMD 0 scan_ssid (fun r s =>
      if negb (r =? 0) then returns (-2) s
      else
        let s := mgmt_wait_queue_flush s in
        let s := if decide (vif_idx (sm s) = v) then with_sm (set_scan_blocked blocked) s else s in
        if blocked then (Waits v SCAN_DONE 2500 pair, s) else returns 0 s) s.

Definition wifi_management_disconnect (running : bool) (s : mgmt) : api * mgmt :=
  let v := WIFI_VIF_INDEX_DEFAULT in
  if negb running then returns (-1) s
  else if wvif_type (tab s !!! v) =? WVIF_STA then
    api_send v EV_DISCONNECT_CMD 0 NoParam (fun r s =>
      if negb (r =? 0) then returns (-1) s
      else (Waits v DISCONN_DONE 10000 (fun r s => (r, with_tab (alter (upd_sta (set_last_reason 0)) v) s)), s))
      (mgmt_wait_queue_flush s)
  else returns 0 s.

Definition password_ok (wep40 : bool) (password : option bytes) : bool :=
  match password with
  | None => true
  | Some p =>
      let n := Z.of_nat (length p) in
      (n <=? WPAS_MAX_PASSPHRASE_LEN) && ((WPAS_MIN_PASSPHRASE_LEN <=? n) || (wep40 && (n =? WPAS_WEP40_ASCII_LEN)))
  end.

(** An empty password counts as none. *)
Definition no_empty (password : option bytes) : option bytes :=
  match password with Some [] => None | _ => password end.

(** [strncmp(a, b, n)] of two arrays padded with zeros *)
Definition differ (n : nat) (a b : bytes) : bool := bool_decide (take n (a ++ replicate n 0) <> take n (b ++ replicate n 0)).

(** The part of the two functions after the checks: [keep_ip] tells whether the
    address of the last connection is kept. *)
Definition connect_request (mem : bool) (c : sta_cfg) (keep_ip : wifi_sta -> bool) (after : Z -> mgmt -> Z * mgmt)
    (s : mgmt) : api * mgmt :=
  let v := WIFI_VIF_INDEX_DEFAULT in
  api_send v EV_SWITCH_MODE_CMD WVIF_STA NoParam (fun r s =>
    if r <? 0 then returns (-3) s
    else if negb mem then returns (-4) s
    else
      let s := with_tab (alter (upd_sta (fun st => if keep_ip st then st else set_history_ip 0 st)) v) s in
      api_send v EV_CONNECT_CMD 0 (PCfg c) (fun r s =>
        if r <? 0 then returns (-5) s
        else if conn_blocked c then (Waits v CONN_DONE WIFI_MGMT_CONNECT_BLOCK_TIME after, s)
        else returns 0 s) (mgmt_wait_queue_flush s)) s.

(** [after]: a timeout is followed by a disconnection, which the caller runs. *)
Definition wifi_management_connect (running mem : bool) (name : option bytes) (password : option bytes) (blocked : bool)
    (s : mgmt) : api * mgmt :=
  let v := WIFI_VIF_INDEX_DEFAULT in
  if negb running then returns (-1) s
  else
    match name with
    | None => returns (-1) s
    | Some name =>
        if WIFI_SSID_MAX_LEN <? Z.of_nat (length name) then returns (-1) s
        else if negb (password_ok true (no_empty password)) then returns (-2) s
        else
          let pass := default [] (no_empty password) in
          let old := cfg (sta (tab s !!! v)) in
          let flush := negb (length name =? length (ssid old))%nat || negb (length pass =? length (passphrase old))%nat
                       || differ (length name) name (ssid old) || differ (length pass) pass (passphrase old) in
          connect_request mem (StaCfg name pass 0xFF [0; 0; 0; 0; 0; 0] false blocked flush)
            (fun st => (length name =? length (ssid (cfg st)))%nat && negb (differ (length (ssid (cfg st))) name (ssid (cfg st))))
            (fun r s => (r, with_tab (alter (upd_sta (set_last_reason r)) v) s)) s
    end.

Definition wifi_management_connect_with_bssid (running mem : bool) (addr : option bytes) (password : option bytes)
    (blocked : bool) (s : mgmt) : api * mgmt :=
  let v := WIFI_VIF_INDEX_DEFAULT in
  if negb running then returns (-1) s
  else
    match addr with
    | None => returns (-1) s
    | Some addr =>
        if negb (password_ok false (no_empty password)) then returns (-2) s
        else
          let pass := default [] (no_empty password) in
          let old := cfg (sta (tab s !!! v)) in
          let flush := negb (length pass =? length (passphrase old))%nat || differ (length pass) pass (passphrase old) in
          connect_request mem (StaCfg [] pass 0xFF addr true blocked flush)
            (fun st => bool_decide (bssid (cfg st) = addr)) pair s
    end.

Definition wifi_management_ap_stop (running : bool) (k : Z -> mgmt -> api * mgmt) (s : mgmt) : api * mgmt :=
  if negb running then k (-1) s
  else if wifi_concurrent_mode s then
    api_send WIFI_VIF_INDEX_SOFTAP_MODE EV_SWITCH_MODE_CMD WVIF_UNKNOWN NoParam (fun r => k (if negb (r =? 0) then -2 else 0)) s
  else
    api_send WIFI_VIF_INDEX_DEFAULT EV_SWITCH_MODE_CMD WVIF_STA NoParam (fun r => k (if negb (r =? 0) then -1 else 0)) s.

Definition wifi_management_sta_start (running : bool) (s : mgmt) : api * mgmt :=
  if negb running then returns (-1) s
  else api_send WIFI_VIF_INDEX_DEFAULT EV_SWITCH_MODE_CMD WVIF_STA NoParam (fun r => returns (if negb (r =? 0) then -1 else 0)) s.

Definition AUTH_MODE_OPEN : Z := 0.

(** From the switch of the interface on. [akm_of]: [wifi_wpa_auth_mode_2_akm];
    [mac]: the address of the interface. *)
Definition ap_start_request (mem : bool) (v : nat) (c : ap_cfg) (s : mgmt) : api * mgmt :=
  api_send v EV_SWITCH_MODE_CMD WVIF_AP NoParam (fun r s =>
    if negb (r =? 0) then returns (-6) s
    else if negb mem then returns (-7) s
    else api_send v EV_START_AP_CMD 0 (PAp c) (fun r s =>
      if negb (r =? 0) then returns (-8) s
      else (Waits v AP_START_DONE 10000 (fun r s => (if negb (r =? 0) then -9 else 0, s)), s))
      (mgmt_wait_queue_flush s)) s.

Definition wifi_management_ap_start (running mem : bool) (akm_of : Z -> Z) (mac : nat -> bytes)
    (name : option bytes) (passwd : option bytes) (chan auth_mode hidden : Z) (s : mgmt) : api * mgmt :=
  if negb running then returns (-1) s
  else
    match name with
    | None => returns (-1) s
    | Some name =>
        let passwd := no_empty passwd in
        let auth_mode := match passwd with None => AUTH_MODE_OPEN | Some _ => auth_mode end in
        let conf v ch := ApCfg name (u8 ch) (if auth_mode =? AUTH_MODE_OPEN then [] else default [] passwd)
                           (akm_of auth_mode) (u8 hidden) (mac v) 0 in
        if WIFI_SSID_MAX_LEN <? Z.of_nat (length name) then returns (-1) s
        else if negb (password_ok false passwd) then returns (-2) s
        else if (14 <? chan) || (chan <? 1) then returns (-3) s
        else
          wifi_management_ap_stop running (fun _ s =>
            if negb (wifi_concurrent_mode s) then
              ap_start_request mem WIFI_VIF_INDEX_DEFAULT (conf WIFI_VIF_INDEX_DEFAULT chan) s
            else
              let v := WIFI_VIF_INDEX_SOFTAP_MODE in
              let x := tab s !!! WIFI_VIF_INDEX_STA_MODE in
              if (wvif_type x =? WVIF_STA) && (WIFI_STA_STATE_SCAN <? sta_state (sta x)) then
                let s := do_call (macif_vif_current_chan_get WIFI_VIF_INDEX_STA_MODE) s in
                let cur := u8 (net (calls s)) in
                if cur =? 0 then returns (-4) s else ap_start_request mem v (conf v cur) s
              else
                api_send WIFI_VIF_INDEX_STA_MODE EV_SWITCH_MODE_CMD WVIF_STA NoParam (fun r s =>
                  if negb (r =? 0) then returns (-5) s else ap_start_request mem v (conf v chan) s) s) s
    end.

Definition wifi_management_monitor_start (running mem : bool) (chan : Z) (s : mgmt) : api * mgmt :=
  let v := WIFI_VIF_INDEX_DEFAULT in
  let start (s : mgmt) : api * mgmt :=
    api_send v EV_SWITCH_MODE_CMD WVIF_MONITOR NoParam (fun r s =>
      if negb (r =? 0) then returns (-3) s
      else if negb mem then returns (-4) s
      else api_send v EV_MONITOR_START_CMD WVIF_MONITOR (PMonitor chan) (fun r s =>
        if negb (r =? 0) then returns (-5) s
        else (Waits v MONITOR_START_DONE 10000 (fun r s => (if negb (r =? 0) then -6 else 0, s)), mgmt_wait_queue_flush s)) s) s in
  let close_ap (s : mgmt) : api * mgmt :=
    if wifi_concurrent_mode s then
      api_send WIFI_VIF_INDEX_SOFTAP_MODE EV_SWITCH_MODE_CMD WVIF_UNKNOWN NoParam (fun r s =>
        if negb (r =? 0) then returns (-2) s else start s) s
    else start s in
  if negb running then returns (-1) s
  else if wvif_type (tab s !!! v) =? WVIF_MONITOR then
    api_send v EV_SWITCH_MODE_CMD WVIF_STA NoParam (fun r s => if negb (r =? 0) then returns (-1) s else close_ap s) s
  else close_ap s.

Definition set_concurrent (b : bool) (s : mgmt) : mgmt :=
  Mgmt (sm s) (tab s) (waitq s) (timers s) (posted s) (calls s) b.

Definition wifi_management_concurrent_set (running enable : bool) (s : mgmt) : api * mgmt :=
  if negb running then returns (-1) s
  else if enable then returns 0 (set_concurrent true s)
  else wifi_management_ap_stop running (fun _ s => returns 0 (set_concurrent false s)) s.

(** [wifi_management_init] after the task has been created; [auto]: connect at once *)
Definition wifi_management_init : mgmt -> mgmt :=
  with_sm (fun _ => sm_zero) ;>
  eloop_event_send WIFI_VIF_INDEX_DEFAULT EV_INIT ;>
  ask wifi_netlink_auto_conn_get (fun auto =>
    when (negb (auto =? 0))
      (eloop_message_send WIFI_VIF_INDEX_DEFAULT EV_SWITCH_MODE_CMD WVIF_STA NoParam ;>
       eloop_event_send WIFI_VIF_INDEX_DEFAULT EV_AUTO_CONNECT_CMD)).
End mgmt.
