(* ===== verification/WifiMgmtSpec.v ===== *)
(** * What the Wi-Fi management promises

    An abstract link machine (phases, attempts left, whether a retry is scheduled)
    and the proof that every message and every timeout of the station's machine is
    one of its steps; the bound on the attempts that follows; what the functions
    other tasks call return, with the machine that serves them. *)
From S2P Require Import Prelude WifiMgmt.
#[local] Open Scope mgmt_scope.

(** ** The abstract link *)
Inductive phase := Idle | Scanning | Connecting | Handshaking | GettingIp | Connected.

Definition state_of (p : phase) : Z :=
  match p with
  | Idle => MAINTAIN_CONNECTION_IDLE | Scanning => MAINTAIN_CONNECTION_SCAN | Connecting => MAINTAIN_CONNECTION_CONNECT
  | Handshaking => MAINTAIN_CONNECTION_HANDSHAKE | GettingIp => MAINTAIN_CONNECTION_DHCP
  | Connected => MAINTAIN_CONNECTION_CONNECTED
  end.

(** [l_left]: retries left; [l_pending]: a retry is scheduled; [l_delayed]: entering
    the scan phase starts no scan; [l_scans]: scans asked for so far. *)
Record link := Link { l_phase : phase; l_roaming : bool; l_left : Z; l_pending : bool; l_delayed : bool; l_scans : nat }.

Definition underway (p : phase) : Prop := p <> Idle /\ p <> Connected.
Definition attempts (roaming : bool) : Z := if roaming then WIFI_MGMT_ROAMING_RETRY_LIMIT else WIFI_MGMT_CONNECT_RETRY_LIMIT.

(** [idle], [connect]: a user's command, the end of the attempts or a new start;
    [lost]: the link is lost, it is made again. *)
Inductive lstep : link -> link -> Prop :=
  | l_keep l : lstep l l
  | l_idle p r n b d k : lstep (Link p r n b d k) (Link Idle r n false false k)
  | l_init p r n b d k : lstep (Link p r n b d k) (Link Idle false (attempts false - 1) false false k)
  | l_connect p r r' n b d k : p = Idle \/ p = Connected ->
      lstep (Link p r n b d k) (Link Scanning r' (attempts r' - 1) false false (S k))
  | l_lost r n b d k :
      lstep (Link Connected r n b d k) (Link Scanning true (attempts true - 1) b d (if d then k else S k))
  | l_found r n b d k : lstep (Link Scanning r n b d k) (Link Connecting r n b d k)
  | l_associated r n b d k : lstep (Link Connecting r n b d k) (Link Handshaking r n b d k)
  | l_secured r n b d k : lstep (Link Handshaking r n b d k) (Link GettingIp r n b d k)
  | l_up r n b d k : lstep (Link GettingIp r n b d k) (Link Connected r n false d k)
  | l_no_scan r n b d k : 0 < n -> lstep (Link Scanning r n b d k) (Link Scanning r n true d k)
  | l_failed p r n b d k : underway p -> 0 < n -> lstep (Link p r n b d k) (Link Scanning r n true true k)
  | l_retry p r n d k : lstep (Link p r n true d k) (Link Scanning r (u32 (n - 1)) false false (S k))
  | l_scan p r n b d k : p = Idle \/ p = Connected -> lstep (Link p r n b d k) (Link p r n b d (S k)).

(** What holds of every link that is reached: no retry is scheduled without one
    left, none while there is no link to make. *)
Record link_ok (l : link) : Prop := LinkOk {
  ok_left : 0 <= l_left l < attempts (l_roaming l);
  ok_pending : l_pending l = true -> 0 < l_left l /\ underway (l_phase l);
  ok_idle : l_phase l = Idle -> l_delayed l = false }.

Lemma attempts_bound r : 3 <= attempts r <= 100.
Proof. destruct r; unfold attempts, WIFI_MGMT_ROAMING_RETRY_LIMIT, WIFI_MGMT_CONNECT_RETRY_LIMIT; lia. Qed.

Lemma lstep_ok l l' : link_ok l -> lstep l l' -> link_ok l'.
Proof.
  intros [Hleft Hpend Hidle] Hl.
  destruct Hl; cbn in *; split; cbn; unfold underway in *; auto; try solve [intros; naive_solver lia].
  - unfold WIFI_MGMT_CONNECT_RETRY_LIMIT; lia.
  - pose proof (attempts_bound r'); lia.
  - unfold WIFI_MGMT_ROAMING_RETRY_LIMIT; lia.
  - destruct Hpend as [Hn _]; [done|]. pose proof (attempts_bound r). unfold u32. rewrite Z.mod_small; lia.
Qed.

(** ** What the state shows of it *)
Record view := View { v_state : Z; v_sta : Z; v_retry : retry_param; v_delayed : bool; v_timers : list timer; v_scans : nat }.

Definition is_scan (c : net_call) : bool := match c with wifi_netlink_scan_set _ _ _ => true | _ => false end.
Definition scans (l : list net_call) : nat := length (filter (fun c => is_scan c = true) l).

Definition view_of (s : mgmt) : view :=
  View (sm_state (sm s)) (sta_state (sta (wvif s))) (retry (sm s)) (delayed_connect_retry (sm s)) (timers s) (scans (calls s)).

(** The machine of the first interface runs, which is a station. *)
Definition station (s : mgmt) : Prop :=
  vif_idx (sm s) = 0%nat /\ init (sm s) = true /\ exists x y, tab s = [x; y] /\ wvif_type x = WVIF_STA.

Definition retry_timer (t : timer) : bool := bool_decide (t_fn t = mgmt_connect_retry_fn).

Record shows (v : view) (l : link) : Prop := Shows {
  sh_state : v_state v = state_of (l_phase l);
  sh_sta : v_sta v = state_of (l_phase l);
  sh_retry : v_retry v = Retry (l_left l) (attempts (l_roaming l))
                           (if l_roaming l then WIFI_MGMT_ROAMING_RETRY_INTERVAL else WIFI_MGMT_CONNECT_RETRY_INTERVAL);
  sh_owner : Forall (fun t => owner t = 0%nat) (v_timers v);
  sh_pending : length (filter (fun t => t_fn t = mgmt_connect_retry_fn) (v_timers v)) = (if l_pending l then 1%nat else 0%nat);
  sh_polling : l_phase l <> Connected -> Forall (fun t => t_fn t <> mgmt_link_status_polling_fn) (v_timers v);
  sh_delayed : v_delayed v = l_delayed l;
  sh_scans : v_scans v = l_scans l }.

Lemma shown_state s l : shows (view_of s) l -> sm_state (sm s) = state_of (l_phase l).
Proof. intros H. exact (sh_state _ _ H). Qed.
Lemma shown_retry s l : shows (view_of s) l -> retry_count (retry (sm s)) = l_left l.
Proof. intros H. exact (f_equal retry_count (sh_retry _ _ H)). Qed.
Lemma shown_scans s l : shows (view_of s) l -> scans (calls s) = l_scans l.
Proof. intros H. exact (sh_scans _ _ H). Qed.

Lemma shown_polling s l :
  shows (view_of s) l -> l_phase l <> Connected -> Forall (fun t => t_fn t <> mgmt_link_status_polling_fn) (timers s).
Proof. intros H. exact (sh_polling _ _ H). Qed.
Lemma shown_pending s l :
  shows (view_of s) l ->
  length (filter (fun t => t_fn t = mgmt_connect_retry_fn) (timers s)) = (if l_pending l then 1%nat else 0%nat).
Proof. intros H. exact (sh_pending _ _ H). Qed.

(** [g] is what [f] does to the view. *)
Definition steps (f : mgmt -> mgmt) (g : view -> view) : Prop :=
  forall s, station s -> station (f s) /\ view_of (f s) = g (view_of s).

Lemma steps_seq f f' g g' : steps f g -> steps f' g' -> steps (f ;> f') (fun v => g' (g v)).
Proof.
  intros Hf Hf' s Hs. destruct (Hf s Hs) as [Hs1 E1]. destruct (Hf' _ Hs1) as [Hs2 E2].
  unfold seq_steps. rewrite E2, E1. done.
Qed.

#[local] Abbreviation id := (fun v : view => v).
Lemma steps_skip : steps skip id.
Proof. done. Qed.

Lemma steps_when b f : steps f id -> steps (when b f) id.
Proof. destruct b; [done|intros; apply steps_skip]. Qed.

(** What a function does may depend on the state it starts from. *)
Lemma steps_here f g : (forall s, station s -> exists f', f s = f' s /\ steps f' g) -> steps f g.
Proof. intros H s Hs. destruct (H s Hs) as (f' & -> & Hf'). exact (Hf' s Hs). Qed.

(** The case analysis of an atomic step. *)
Ltac atomic :=
  let s := fresh "s" in
  intros s (Hv & Hi & x & y & Htab & Hty);
  destruct s as [[] ? ? ? ? ? ?]; cbn in Hv, Hi, Htab; subst;
  unfold station, view_of, wvif; cbn; repeat case_match; cbn;
  (split; [split_and!; eauto|]; done).

Create HintDb steps.
#[export] Hint Resolve steps_skip steps_when : steps.

(** ** The view of each step *)
Definition v_set_state (x : Z) (v : view) : view := View x x (v_retry v) (v_delayed v) (v_timers v) (v_scans v).
Definition v_set_delayed (b : bool) (v : view) : view := View (v_state v) (v_sta v) (v_retry v) b (v_timers v) (v_scans v).
Definition v_set_retry (r : retry_param) (v : view) : view := View (v_state v) (v_sta v) r (v_delayed v) (v_timers v) (v_scans v).
Definition v_cancel (fn : timer_fn) (v : view) : view :=
  View (v_state v) (v_sta v) (v_retry v) (v_delayed v) (filter (fun t => t_fn t <> fn) (v_timers v)) (v_scans v).
Definition v_register (t : timer) (v : view) : view :=
  View (v_state v) (v_sta v) (v_retry v) (v_delayed v) (v_timers v ++ [t]) (v_scans v).
Definition v_scan (v : view) : view := View (v_state v) (v_sta v) (v_retry v) (v_delayed v) (v_timers v) (S (v_scans v)).

Lemma steps_on_sta f :
  (forall x, sta_state (f x) = sta_state x) -> steps (on_sta f) id.
Proof.
  intros Hf. intros s (Hv & Hi & x & y & Htab & Hty).
  destruct s as [[] ? ? ? ? ? ?]; cbn in Hv, Hi, Htab; subst.
  unfold station, view_of, wvif; cbn. rewrite Hf. split; [split_and!; eauto|]; done.
Qed.
Lemma steps_enter st :
  steps (with_sm (set_state st) ;> on_sta (set_sta_state st)) (v_set_state st).
Proof. atomic. Qed.
Lemma steps_set_state st :
  steps (with_sm (set_state st)) (fun v => View st (v_sta v) (v_retry v) (v_delayed v) (v_timers v) (v_scans v)).
Proof. atomic. Qed.
Lemma steps_set_sta_state st :
  steps (on_sta (set_sta_state st)) (fun v => View (v_state v) st (v_retry v) (v_delayed v) (v_timers v) (v_scans v)).
Proof. atomic. Qed.
Lemma steps_set_delayed b : steps (with_sm (set_delayed b)) (v_set_delayed b).
Proof. atomic. Qed.
Lemma steps_set_retry r : steps (with_sm (set_retry r)) (v_set_retry r).
Proof. atomic. Qed.
Lemma steps_set_reason r : steps (with_sm (set_reason r)) id.
Proof. atomic. Qed.
Lemma steps_set_dhcp_polling_count n : steps (with_sm (set_dhcp_polling_count n)) id.
Proof. atomic. Qed.
Lemma steps_set_roam r : steps (with_sm (set_roam r)) id.
Proof. atomic. Qed.
Lemma steps_set_roam_fn f : steps (with_sm (fun m => set_roam (f m) m)) id.
Proof. atomic. Qed.
Lemma steps_set_polling_scan b : steps (with_sm (set_polling_scan b)) id.
Proof. atomic. Qed.
Lemma steps_set_scan_blocked b : steps (with_sm (set_scan_blocked b)) id.
Proof. atomic. Qed.
Lemma steps_set_preroam_enable b : steps (with_sm (set_preroam_enable b)) id.
Proof. atomic. Qed.
Lemma steps_reset : steps sm_reset (fun v => View 0 (v_sta v) (Retry 0 0 0) false (v_timers v) (v_scans v)).
Proof. atomic. Qed.
Lemma steps_set_message v ev r p : v = 0%nat -> steps (with_sm (set_message v ev r p)) id.
Proof. intros ->. atomic. Qed.
Lemma steps_no_param : steps (with_sm (fun m => set_message (vif_idx m) (event m) (reason m) NoParam m)) id.
Proof. atomic. Qed.
Lemma steps_cancel fn : steps (eloop_timeout_cancel fn) (v_cancel fn).
Proof. atomic. Qed.
Lemma steps_register d fn : steps (eloop_timeout_register d fn) (v_register (Timer fn 0 d)).
Proof. atomic. Qed.
Lemma steps_post ev r : steps (post ev r) id.
Proof. atomic. Qed.

Lemma scans_snoc l c : scans (l ++ [c]) = if is_scan c then S (scans l) else scans l.
Proof. unfold scans. rewrite filter_app, length_app, filter_cons, filter_nil. destruct (is_scan c); case_decide; simplify_eq; cbn; lia. Qed.

Lemma steps_do_call c : steps (do_call c) (if is_scan c then v_scan else id).
Proof.
  intros s (Hv & Hi & x & y & Htab & Hty).
  destruct s as [[] ? ? ? ? ? ?]; cbn in Hv, Hi, Htab; subst.
  unfold station, view_of, wvif; cbn -[scans]. rewrite scans_snoc. destruct (is_scan c); (split; [split_and!; eauto|]; done).
Qed.
Lemma steps_call c : is_scan c = false -> steps (do_call c) id.
Proof. intros Hc. pose proof (steps_do_call c) as H. by rewrite Hc in H. Qed.

#[export] Hint Resolve steps_set_reason steps_set_dhcp_polling_count steps_set_roam steps_set_roam_fn
  steps_set_polling_scan steps_set_scan_blocked steps_no_param steps_post steps_call : steps.
#[export] Hint Extern 1 (steps (on_sta _) id) => (apply steps_on_sta; done) : steps.
#[export] Hint Extern 1 (is_scan _ = false) => reflexivity : steps.

(** Nothing of what is shown changes. *)
Lemma quiet_seq f f' : steps f id -> steps f' id -> steps (f ;> f') id.
Proof. intros H H'. exact (steps_seq f f' id id H H'). Qed.
#[export] Hint Resolve quiet_seq : steps.

Lemma steps_call_at c : (forall s, is_scan (c s) = false) -> steps (fun s => do_call (c s) s) id.
Proof. intros Hc s Hs. exact (steps_call (c s) (Hc s) s Hs). Qed.
#[export] Hint Resolve steps_call_at : steps.
Lemma steps_eq f g g' : steps f g -> (forall v, g v = g' v) -> steps f g'.
Proof. intros H E s Hs. rewrite <-E. exact (H s Hs). Qed.

(** A sequence: the view of each step in turn. *)
Ltac chain_step :=
  lazymatch goal with
  | |- steps (seq_steps _ _) _ => eapply steps_seq; [chain_step|chain_step]
  | |- steps (eloop_timeout_cancel _) _ => apply steps_cancel
  | |- steps (eloop_timeout_register _ _) _ => apply steps_register
  | |- steps (with_sm (set_state _)) _ => apply steps_set_state
  | |- steps (on_sta (set_sta_state _)) _ => apply steps_set_sta_state
  | |- steps (with_sm (set_delayed _)) _ => apply steps_set_delayed
  | |- steps (with_sm (set_retry _)) _ => apply steps_set_retry
  | H : steps ?f _ |- steps ?f _ => exact H
  | |- steps ?f ?g => unify g (fun v : view => v); solve [auto with steps]
  end.
Ltac chain := eapply steps_eq; [chain_step|intros []; reflexivity].

Lemma steps_seq_quiet f f' g : steps f g -> steps f' id -> steps (f ;> f') g.
Proof. intros H H'. exact (steps_seq f f' g id H H'). Qed.
Lemma steps_quiet_seq f f' g : steps f id -> steps f' g -> steps (f ;> f') g.
Proof. intros H H'. exact (steps_seq f f' id g H H'). Qed.

(** ** The link that is shown *)
Definition not_for (fn : timer_fn) : list timer -> list timer := filter (fun t => t_fn t <> fn).
Abbreviation retries := (filter (fun t => t_fn t = mgmt_connect_retry_fn)).

Lemma not_for_owner fn l : Forall (fun t => owner t = 0%nat) l -> Forall (fun t => owner t = 0%nat) (not_for fn l).
Proof. rewrite !Forall_forall. intros H t [_ Ht]%list_elem_of_filter. auto. Qed.
Lemma retries_not_for_retry l : retries (not_for mgmt_connect_retry_fn l) = [].
Proof. induction l as [|t l IH]; [done|]; unfold not_for in *; rewrite !filter_cons; repeat (case_decide; rewrite ?filter_cons); naive_solver. Qed.
Lemma retries_not_for fn l : fn <> mgmt_connect_retry_fn -> retries (not_for fn l) = retries l.
Proof.
  intros Hfn. induction l as [|t l IH]; [done|]. unfold not_for in *.
  rewrite !filter_cons. repeat (case_decide; rewrite ?filter_cons); congruence.
Qed.
Lemma not_for_other fn fn' l :
  Forall (fun t => t_fn t <> fn) l -> Forall (fun t => t_fn t <> fn) (not_for fn' l).
Proof. rewrite !Forall_forall. intros H t [_ Ht]%list_elem_of_filter. auto. Qed.
Lemma not_for_self fn l : Forall (fun t => t_fn t <> fn) (not_for fn l).
Proof. rewrite Forall_forall. by intros t [Ht _]%list_elem_of_filter. Qed.
#[export] Hint Resolve not_for_owner not_for_other not_for_self : steps.

Definition v_idle (v : view) : view :=
  View 0 0 (v_retry v) false
    (not_for mgmt_connect_retry_fn (not_for mgmt_link_status_polling_fn (not_for mgmt_dhcp_polling_fn (v_timers v)))) (v_scans v).
Definition v_scanning (v : view) : view :=
  View MAINTAIN_CONNECTION_SCAN WIFI_STA_STATE_SCAN (v_retry v) (v_delayed v)
    (not_for mgmt_link_status_polling_fn (not_for mgmt_dhcp_polling_fn (v_timers v)))
    (if v_delayed v then v_scans v else S (v_scans v)).

(** A retry is scheduled unless one is. *)
Definition is_pending (v : view) : bool :=
  existsb (fun t => bool_decide (t_fn t = mgmt_connect_retry_fn) && bool_decide (owner t = 0%nat)) (v_timers v).
Definition v_schedule (v : view) : view :=
  if is_pending v then v else v_register (Timer mgmt_connect_retry_fn 0 (retry_delay (v_retry v))) v.
(** Retry later, or give up. *)
Definition v_again (v : view) : view :=
  if 0 <? retry_count (v_retry v) then v_schedule (v_scanning (v_set_delayed true v)) else v_idle v.
Definition v_params (roaming : bool) : view -> view :=
  v_set_retry (if roaming then Retry (WIFI_MGMT_ROAMING_RETRY_LIMIT - 1) WIFI_MGMT_ROAMING_RETRY_LIMIT WIFI_MGMT_ROAMING_RETRY_INTERVAL
               else Retry (WIFI_MGMT_CONNECT_RETRY_LIMIT - 1) WIFI_MGMT_CONNECT_RETRY_LIMIT WIFI_MGMT_CONNECT_RETRY_INTERVAL).

Section shown.
Context (v : view) (p : phase) (r : bool) (n : Z) (b d : bool) (k : nat).
Hypothesis Hv : shows v (Link p r n b d k).

Ltac shown := destruct v, Hv; cbn in *; subst; split; cbn; auto with steps.

Lemma shows_idle : shows (v_idle v) (Link Idle r n false false k).
Proof. shown. by rewrite retries_not_for_retry. Qed.
Lemma shows_scanning : shows (v_scanning v) (Link Scanning r n b d (if d then k else S k)).
Proof. shown. by rewrite !retries_not_for. Qed.
Lemma shows_state q : p <> Connected \/ q = Connected -> shows (v_set_state (state_of q) v) (Link q r n b d k).
Proof. intros Hpq. shown. intros Hq. apply sh_polling0. naive_solver. Qed.
Lemma shows_delayed d' : shows (v_set_delayed d' v) (Link p r n b d' k).
Proof. shown. Qed.
Lemma shows_params r' : shows (v_params r' v) (Link p r' (attempts r' - 1) b d k).
Proof. destruct r'; shown. Qed.
Lemma shows_scan : shows (v_scan v) (Link p r n b d (S k)).
Proof. shown. Qed.
Lemma shows_cancel_retry : shows (v_cancel mgmt_connect_retry_fn v) (Link p r n false d k).
Proof. shown; fold (not_for mgmt_connect_retry_fn v_timers0); auto with steps. by rewrite retries_not_for_retry. Qed.
Lemma shows_register fn t :
  fn <> mgmt_connect_retry_fn -> fn <> mgmt_link_status_polling_fn \/ p = Connected ->
  shows (v_register (Timer fn 0 t) v) (Link p r n b d k).
Proof.
  intros Hfn Hp. shown.
  - apply Forall_app. auto.
  - rewrite filter_app, filter_cons, filter_nil, decide_False, app_nil_r by done. done.
  - intros Hc. apply Forall_app. split; [auto|]. constructor; [naive_solver|constructor].
Qed.

Lemma is_pending_shown : is_pending v = b.
Proof.
  destruct v, Hv; cbn in *. unfold is_pending; cbn.
  destruct (existsb _ v_timers0) eqn:E.
  - apply existsb_exists in E as (t & Ht & [Hf _]%andb_true_iff). apply bool_decide_eq_true in Hf.
    destruct b; [done|]. apply nil_length_inv in sh_pending0.
    assert (t ∈ retries v_timers0) as Hin by (apply list_elem_of_filter; split; [done|by apply list_elem_of_In]).
    rewrite sh_pending0 in Hin. by apply elem_of_nil in Hin.
  - destruct b; [|done]. destruct (retries v_timers0) as [|t l] eqn:El; [done|].
    assert (t ∈ retries v_timers0) as [Hf Hin]%list_elem_of_filter by (rewrite El; left).
    assert (owner t = 0%nat) as Ho by (rewrite Forall_forall in sh_owner0; auto).
    apply not_true_iff_false in E. exfalso. apply E. apply existsb_exists. exists t.
    split; [by apply list_elem_of_In|]. by rewrite !bool_decide_eq_true_2.
Qed.
Lemma shows_schedule : shows (v_schedule v) (Link p r n true d k).
Proof.
  unfold v_schedule. rewrite is_pending_shown. destruct b; [exact Hv|].
  shown.
  - apply Forall_app. auto.
  - rewrite filter_app, length_app, sh_pending0. done.
  - intros Hc. apply Forall_app. split; [auto|]. repeat constructor; discriminate.
Qed.
End shown.

Lemma shows_enter q v p r n b d k :
  p <> Connected -> shows v (Link p r n b d k) -> shows (v_set_state (state_of q) v) (Link q r n b d k).
Proof. intros Hp H. eapply shows_state; eauto. Qed.

Lemma shows_again v p r n b d k :
  shows v (Link p r n b d k) ->
  shows (v_again v) (if 0 <? n then Link Scanning r n true true k else Link Idle r n false false k).
Proof.
  intros Hv. unfold v_again. rewrite (sh_retry _ _ Hv); cbn. case_match; [|by eapply shows_idle].
  eapply shows_schedule, (shows_scanning _ _ _ _ _ true), shows_delayed, Hv.
Qed.

Section spec.
Context (net : list net_call -> Z) (connect_req : list net_call -> wifi_sta -> connect_result).
Context (stored_ap : list net_call -> option (bytes * bytes * Z * Z)) (candidate : list net_call -> option (bytes * Z * Z)).
Context (stale_sta : vif -> wifi_sta) (stale_ap : vif -> wifi_ap).
Context (accepts : list message -> bool).

Lemma steps_send v ev r p : steps (eloop_message_send accepts v ev r p) id.
Proof. unfold eloop_message_send. atomic. Qed.
Lemma steps_send_own ev r : steps (send_own accepts ev r) id.
Proof. intros s Hs. exact (steps_send _ ev r NoParam s Hs). Qed.

Lemma steps_ask c k g : is_scan c = false -> (forall a, steps (k a) g) -> steps (ask net c k) g.
Proof. intros Hc Hk s Hs. unfold ask. destruct (steps_call c Hc s Hs) as [Hs' E]. destruct (Hk (net (calls (do_call c s))) _ Hs') as [? ->]. by rewrite E. Qed.
Lemma steps_ask_scan v x ch k : (forall a, steps (k a) id) -> steps (ask net (wifi_netlink_scan_set v x ch) k) v_scan.
Proof.
  intros Hk s Hs. unfold ask. destruct (steps_do_call (wifi_netlink_scan_set v x ch) s Hs) as [Hs' E].
  destruct (Hk (net (calls (do_call (wifi_netlink_scan_set v x ch) s))) _ Hs') as [? ->]. by rewrite E.
Qed.
#[local] Hint Resolve steps_send steps_send_own : steps.

Lemma steps_post_conn_done r : steps (mgmt_post_conn_done r) id.
Proof. intros s Hs. unfold mgmt_post_conn_done. case_match; [|done]. apply (quiet_seq (on_sta _)); auto with steps. Qed.
Lemma steps_post_scan_done r : steps (mgmt_post_scan_done r) id.
Proof. intros s Hs. unfold mgmt_post_scan_done. case_match; [|done]. apply (quiet_seq (with_sm _)); auto with steps. Qed.
#[local] Hint Resolve steps_post_conn_done steps_post_scan_done : steps.
Lemma steps_link_is_ongoing : steps mgmt_link_is_ongoing id.
Proof. unfold mgmt_link_is_ongoing. auto with steps. Qed.
Lemma steps_preroam_rollback : steps (mgmt_preroam_rollback accepts) id.
Proof. unfold mgmt_preroam_rollback. intros s Hs. case_match; [|done]. apply (quiet_seq (on_sta _)); auto 6 with steps. Qed.
#[local] Hint Resolve steps_link_is_ongoing steps_preroam_rollback : steps.

Lemma steps_idle_enter : steps sm_MAINTAIN_CONNECTION_IDLE_Enter v_idle.
Proof. unfold sm_MAINTAIN_CONNECTION_IDLE_Enter, mgmt_post_disconn_done. chain. Qed.

Lemma steps_start_scan :
  steps (fun s =>
     if delayed_connect_retry (sm s) then s
     else
       let x := sta (wvif s) in
       ask net (wifi_netlink_scan_set (vif_idx (sm s)) (if conn_with_bssid (cfg x) then None else Some (ssid (cfg x))) (target_channel x))
         (fun ret => when (negb (ret =? 0)) (send_own accepts EV_SCAN_FAIL 0)) s)
    (fun v => if v_delayed v then v else v_scan v).
Proof.
  intros s Hs. change (v_delayed (view_of s)) with (delayed_connect_retry (sm s)).
  case_match; [done|]. apply steps_ask_scan; auto with steps.
Qed.
Lemma steps_scan_enter : steps (sm_MAINTAIN_CONNECTION_SCAN_Enter net accepts) v_scanning.
Proof.
  unfold sm_MAINTAIN_CONNECTION_SCAN_Enter.
  eapply steps_eq; [do 4 (eapply steps_seq; [first [apply steps_cancel | apply steps_set_state | apply steps_set_sta_state]|]); apply steps_start_scan|].
  intros []; cbn. unfold v_scanning; cbn. by case_match.
Qed.

Lemma steps_connect_enter : steps (sm_MAINTAIN_CONNECTION_CONNECT_Enter net connect_req accepts) (v_set_state 3).
Proof.
  unfold sm_MAINTAIN_CONNECTION_CONNECT_Enter.
  match goal with |- steps (_ ;> _ ;> ?f) _ => assert (steps f id) as Hf end; [|chain].
  intros s Hs. set (x := sta (wvif s)). set (s1 := do_call _ s). set (r := connect_req (calls s1) x).
  cbn zeta. match goal with |- context [on_sta ?f s1] => set (upd := f); set (s2 := on_sta upd s1) end.
  assert (station s2 /\ view_of s2 = view_of s) as [Hs2 E].
  { destruct (steps_call (wifi_netlink_connect_req (vif_idx (sm s)) (cfg x)) eq_refl s Hs) as [Hs1 E1].
    destruct (steps_on_sta upd (fun _ => eq_refl) s1 Hs1) as [Hs2 E2].
    split; [exact Hs2|]. unfold s2. rewrite E2. exact E1. }
  rewrite <-E. case_match; [exact (steps_send_own _ _ s2 Hs2)|]. case_match; [|done].
  apply (steps_ask (macif_vif_current_chan_get WIFI_VIF_INDEX_SOFTAP_MODE) _ id); [done|auto with steps|done].
Qed.

Lemma steps_handshake_enter : steps sm_MAINTAIN_CONNECTION_HANDSHAKE_Enter (v_set_state 4).
Proof. unfold sm_MAINTAIN_CONNECTION_HANDSHAKE_Enter. chain. Qed.

Lemma steps_dhcp_enter :
  steps (sm_MAINTAIN_CONNECTION_DHCP_Enter net) (fun v => v_register (Timer mgmt_dhcp_polling_fn 0 WIFI_MGMT_DHCP_POLLING_INTERVAL) (v_set_state 5 v)).
Proof.
  unfold sm_MAINTAIN_CONNECTION_DHCP_Enter.
  assert (steps (ask net net_if_is_static_ip (fun is_static => when (is_static =? 0)
      (with_sm (set_dhcp_polling_count WIFI_MGMT_DHCP_POLLING_LIMIT) ;>
       (fun s => do_call (wifi_set_vif_ip (vif_idx (sm s))) s)))) id) by (apply steps_ask; auto with steps).
  chain.
Qed.

Lemma steps_connected_enter : steps (sm_MAINTAIN_CONNECTION_CONNECTED_Enter net accepts) (v_set_state 6).
Proof.
  unfold sm_MAINTAIN_CONNECTION_CONNECTED_Enter.
  assert (steps (fun s => if negb (conn_blocked (cfg (sta (wvif s)))) then send_own accepts EV_CONNECT_SUCCESS 0 s
            else mgmt_post_conn_done MAC_ST_SUCCESSFUL s) id)
    by (intros s Hs; case_match; [apply steps_send_own|apply steps_post_conn_done]; done).
  assert (steps (fun s => ask net (net_if_get_ip (vif_idx (sm s))) (fun ip =>
     on_sta (set_history_ip (u32 ip)) ;>
     ask net wifi_netlink_auto_conn_get (fun auto s =>
       when (negb (auto =? 0)) (do_call (wifi_netlink_joined_ap_store (cfg (sta (wvif s))) (u32 ip))) s)) s) id).
  { intros s Hs. apply (steps_ask (net_if_get_ip (vif_idx (sm s))) _ id); [done| |done]. intros ip. apply quiet_seq; [auto with steps|].
    apply steps_ask; [done|]. intros a s' Hs'.
    exact (steps_when _ _ (steps_call (wifi_netlink_joined_ap_store (cfg (sta (wvif s'))) (u32 ip)) eq_refl) s' Hs'). }
  chain.
Qed.
#[local] Hint Resolve steps_idle_enter steps_scan_enter : steps.

Lemma steps_params b : steps (mgmt_connect_retry_param_set b) (v_params b).
Proof. apply steps_set_retry. Qed.

Lemma steps_copy_cfg : steps copy_cfg id.
Proof. intros s Hs. unfold copy_cfg. case_match; try done. apply (steps_on_sta (set_cfg (fun _ => c))); done. Qed.
Lemma steps_scan_cmd : steps (scan_cmd net) v_scan.
Proof. intros s Hs. unfold scan_cmd. apply steps_ask_scan; auto with steps. Qed.
Lemma steps_store_reason : steps store_reason id.
Proof. intros s Hs. apply (steps_on_sta (set_last_reason (reason (sm s)))); done. Qed.
Lemma steps_sta_sm ev : steps (sta_sm_step ev) id.
Proof. unfold sta_sm_step. auto with steps. Qed.
Lemma steps_disconnect_req : steps disconnect_req id.
Proof. unfold disconnect_req. auto with steps. Qed.
#[local] Hint Resolve steps_copy_cfg steps_store_reason steps_sta_sm steps_disconnect_req : steps.

Lemma steps_connected_scan_done : steps (mgmt_connected_scan_done net candidate accepts) id.
Proof.
  unfold mgmt_connected_scan_done. apply quiet_seq; [auto with steps|]. intros s Hs.
  set (x := sta (wvif s)). cbn zeta. set (s1 := do_call _ s).
  assert (station s1 /\ view_of s1 = view_of s) as [Hs1 <-]
    by exact (steps_call (wifi_netlink_candidate_ap_find (vif_idx (sm s)) (ssid (cfg x))) eq_refl s Hs).
  destruct (candidate (calls s1)) as [[[b rs] ch]|]; [|done]. case_bool_decide; [done|].
  apply (steps_ask (macif_vif_sta_rssi_get (vif_idx (sm s))) _ id); [done| |done]. intros a. apply steps_when. auto with steps.
Qed.

Lemma steps_schedule : steps mgmt_register_delayed_connect_retry v_schedule.
Proof.
  intros s Hs. unfold mgmt_register_delayed_connect_retry, v_schedule, is_pending, eloop_timeout_is_registered.
  pose proof Hs as (Hv & _). rewrite Hv. change (v_timers (view_of s)) with (timers s). case_match; [done|].
  apply (steps_register _ _ s Hs).
Qed.

Lemma steps_give_up reason :
  steps (mgmt_preroam_rollback accepts ;> mgmt_post_conn_done reason ;> sm_MAINTAIN_CONNECTION_IDLE_Enter) v_idle.
Proof. do 2 (apply steps_quiet_seq; [auto with steps|]). apply steps_idle_enter. Qed.
Lemma steps_retry_or_give_up : steps (retry_or_give_up net accepts) v_again.
Proof.
  intros s Hs. unfold retry_or_give_up, v_again. change (v_retry (view_of s)) with (retry (sm s)).
  case_match; [|apply (steps_give_up _ s Hs)].
  apply (steps_seq _ _ _ _ (steps_set_delayed true) (steps_seq _ _ _ _ steps_scan_enter steps_schedule) s Hs).
Qed.
Lemma steps_link_lost : steps (link_lost net accepts) v_again.
Proof. unfold link_lost. repeat (apply steps_quiet_seq; [auto with steps|]). apply steps_retry_or_give_up. Qed.

(** ** Every event is a step of the link *)

(** The links a state can show after a step from [l]. *)
Definition lands (l : link) (s' : mgmt) : Prop := station s' /\ exists l', lstep l l' /\ shows (view_of s') l'.

Lemma lands_steps f g l l' s : steps f g -> station s -> lstep l l' -> shows (g (view_of s)) l' -> lands l (f s).
Proof. intros Hf Hs Hl Hg. destruct (Hf s Hs) as [Hs' E]. split; [done|]. exists l'. by rewrite E. Qed.
Lemma lands_quiet f l s : steps f id -> station s -> shows (view_of s) l -> lands l (f s).
Proof. intros Hf Hs Hl. eapply lands_steps; eauto. apply l_keep. Qed.

Section lands.
Context (s : mgmt) (r : bool) (n : Z) (b d : bool) (k : nat).
Hypothesis Hs : station s.

Lemma lands_idle p : shows (view_of s) (Link p r n b d k) -> lands (Link p r n b d k) (sm_MAINTAIN_CONNECTION_IDLE_Enter s).
Proof. intros H. eapply lands_steps; [apply steps_idle_enter|done|apply l_idle|by eapply shows_idle]. Qed.
Lemma lands_give_up p :
  shows (view_of s) (Link p r n b d k) ->
  lands (Link p r n b d k) ((mgmt_preroam_rollback accepts ;> mgmt_post_conn_done (reason (sm s)) ;> sm_MAINTAIN_CONNECTION_IDLE_Enter) s).
Proof. intros H. eapply lands_steps; [apply steps_give_up|done|apply l_idle|by eapply shows_idle]. Qed.
Lemma lands_again f p :
  steps f v_again -> underway p -> shows (view_of s) (Link p r n b d k) -> lands (Link p r n b d k) (f s).
Proof.
  intros Hf Hp H. eapply lands_steps; [exact Hf|done| |by eapply shows_again].
  destruct (Z.ltb_spec 0 n); [by apply l_failed|apply l_idle].
Qed.
Lemma lands_scan_cmd p :
  p = Idle \/ p = Connected -> shows (view_of s) (Link p r n b d k) -> lands (Link p r n b d k) (scan_cmd net s).
Proof. intros Hp H. eapply lands_steps; [apply steps_scan_cmd|done|by apply l_scan|by eapply shows_scan]. Qed.

End lands.

(** The cases that need nothing of their own *)
Ltac land :=
  lazymatch goal with
  | |- lands _ (sm_MAINTAIN_CONNECTION_IDLE_Enter _) => by eapply lands_idle
  | |- lands _ (mgmt_link_is_ongoing _) => by apply (lands_quiet mgmt_link_is_ongoing); auto with steps
  | |- lands _ (sta_sm_step ?ev _) => by apply (lands_quiet (sta_sm_step ev)); auto with steps
  | |- lands _ (mgmt_post_disconn_done _) => by apply (lands_quiet mgmt_post_disconn_done); [apply steps_post| |]
  | |- lands _ (mgmt_post_scan_done ?r _) => by apply (lands_quiet (mgmt_post_scan_done r)); auto with steps
  | |- lands _ (do_call ?c _) => by apply (lands_quiet (do_call c)); auto with steps
  | |- lands _ ?s => tryif is_var s then (by apply (lands_quiet skip); auto with steps) else idtac
  end.

Lemma idle_step_lands s r n k :
  station s -> shows (view_of s) (Link Idle r n false false k) ->
  lands (Link Idle r n false false k) (idle_step net stored_ap accepts s).
Proof.
  intros Hs H. unfold idle_step. case_match; land.
  - apply lands_scan_cmd; auto.
  - eapply (lands_steps (copy_cfg ;> mgmt_connect_retry_param_set false ;> sm_MAINTAIN_CONNECTION_SCAN_Enter net accepts));
      [|done|by apply (l_connect Idle r false); left|].
    + eapply steps_quiet_seq; [apply steps_copy_cfg|]. eapply steps_seq; [apply steps_params|apply steps_scan_enter].
    + eapply (shows_scanning _ _ _ _ _ false), shows_params, H.
  - unfold joined_ap_load.
    pose proof (steps_call (wifi_netlink_joined_ap_load (vif_idx (sm s))) eq_refl s Hs) as [Hs1 E].
    set (s1 := do_call _ s) in *. rewrite <-E in H. destruct (stored_ap (calls s1)) as [[[[x pass] ch] ip]|].
    + eapply lands_steps; [|done|by apply (l_connect Idle r true); left|].
      * eapply steps_quiet_seq; [apply steps_on_sta; done|]. eapply steps_seq; [apply steps_params|apply steps_scan_enter].
      * eapply (shows_scanning _ _ _ _ _ false), shows_params, H.
    + eapply lands_idle; eauto.
Qed.

#[local] Hint Resolve lands_idle lands_give_up : steps.
Lemma underway_of p : p = Scanning \/ p = Connecting \/ p = Handshaking \/ p = GettingIp -> underway p.
Proof. unfold underway. naive_solver. Qed.

Lemma scan_step_lands s r n b d k :
  station s -> shows (view_of s) (Link Scanning r n b d k) ->
  lands (Link Scanning r n b d k) (scan_step net connect_req accepts s).
Proof.
  intros Hs H. unfold scan_step. case_match; land.
  - eapply lands_steps; [apply steps_connect_enter|done|apply l_found|]. by eapply (shows_enter Connecting); [|exact H].
  - pose proof (f_equal retry_count (sh_retry _ _ H)) as En. cbn in En. rewrite En.
    destruct (Z.ltb_spec 0 n); [|by eapply lands_give_up].
    eapply lands_steps; [apply steps_schedule|done|by apply l_no_scan|by eapply shows_schedule].
Qed.

Lemma connect_step_lands s r n b d k :
  station s -> shows (view_of s) (Link Connecting r n b d k) ->
  lands (Link Connecting r n b d k) (connect_step net accepts s).
Proof.
  intros Hs H. unfold connect_step. case_match; land.
  all: try by eapply (lands_again s r n b d k Hs (store_reason ;> sta_sm_step EV_DISCONNECT ;> retry_or_give_up net accepts));
    [do 2 (apply steps_quiet_seq; [auto with steps|]); apply steps_retry_or_give_up|apply underway_of; auto|].
  eapply lands_steps; [apply steps_handshake_enter|done|apply l_associated|]. by eapply (shows_enter Handshaking); [|exact H].
Qed.

Lemma handshake_step_lands s r n b d k :
  station s -> shows (view_of s) (Link Handshaking r n b d k) ->
  lands (Link Handshaking r n b d k) (handshake_step net accepts s).
Proof.
  intros Hs H. unfold handshake_step. case_match; land.
  - eapply lands_steps; [apply steps_dhcp_enter|done|apply l_secured|].
    eapply shows_register; [|done|by left]. by eapply (shows_enter GettingIp); [|exact H].
  - eapply (lands_again s r n b d k Hs (disconnect_req ;> link_lost net accepts)); [|apply underway_of; auto|done].
    apply steps_quiet_seq; [auto with steps|]. apply steps_link_lost.
  - eapply (lands_again s r n b d k Hs (link_lost net accepts)); [apply steps_link_lost|apply underway_of; auto|done].
Qed.

Lemma dhcp_step_lands s r n b d k :
  station s -> shows (view_of s) (Link GettingIp r n b d k) ->
  lands (Link GettingIp r n b d k) (dhcp_step net accepts s).
Proof.
  intros Hs H. unfold dhcp_step. case_match; land.
  all: try by eapply (lands_again s r n b d k Hs (disconnect_req ;> link_lost net accepts));
    [apply steps_quiet_seq; [auto with steps|]; apply steps_link_lost|apply underway_of; auto|].
  - eapply lands_steps; [|done|apply l_up|].
    + apply steps_quiet_seq; [auto with steps|]. eapply steps_seq; [apply steps_connected_enter|apply steps_cancel].
    + eapply shows_cancel_retry. by eapply (shows_enter Connected); [|exact H].
  - eapply (lands_again s r n b d k Hs (link_lost net accepts)); [apply steps_link_lost|apply underway_of; auto|done].
Qed.

Lemma connected_lost_lands s r n b d k rs (again : bool) :
  station s -> shows (view_of s) (Link Connected r n b d k) ->
  lands (Link Connected r n b d k)
    ((sta_sm_step EV_DISCONNECT ;> sta_sm_step EV_DISCONNECT ;> store_reason ;>
      when (rs =? WIFI_MGMT_DISCON_SA_QUERY_FAIL) disconnect_req ;>
      if again then mgmt_connect_retry_param_set true ;> sm_MAINTAIN_CONNECTION_SCAN_Enter net accepts
      else sm_MAINTAIN_CONNECTION_IDLE_Enter) s).
Proof.
  intros Hs H. destruct again; (eapply lands_steps; [do 4 (eapply steps_quiet_seq; [auto with steps|])|done| |]).
  - eapply steps_seq; [apply steps_params|apply steps_scan_enter].
  - apply l_lost.
  - eapply shows_scanning, shows_params, H.
  - apply steps_idle_enter.
  - apply l_idle.
  - by eapply shows_idle.
Qed.

Lemma connected_step_lands s r n b d k :
  station s -> shows (view_of s) (Link Connected r n b d k) ->
  lands (Link Connected r n b d k) (connected_step net candidate accepts s).
Proof.
  intros Hs H. unfold connected_step. case_match; land.
  - apply lands_scan_cmd; auto.
  - eapply (lands_steps (copy_cfg ;> sm_MAINTAIN_CONNECTION_IDLE_Enter ;> mgmt_connect_retry_param_set false ;>
                         sm_MAINTAIN_CONNECTION_SCAN_Enter net accepts)); [|done|by apply (l_connect Connected r false); right|].
    + eapply steps_quiet_seq; [apply steps_copy_cfg|].
      eapply steps_seq; [apply steps_idle_enter|]. eapply steps_seq; [apply steps_params|apply steps_scan_enter].
    + eapply (shows_scanning _ _ _ _ _ false), shows_params. eapply shows_idle, H.
  - apply (lands_quiet (when (polling_scan (sm s)) (mgmt_connected_scan_done net candidate accepts) ;>
       mgmt_post_scan_done WIFI_MGMT_SCAN_SUCCESS ;> mgmt_post_scan_done WIFI_MGMT_SCAN_FAIL)); auto with steps.
    apply quiet_seq; [apply steps_when, steps_connected_scan_done|auto with steps].
  - set (rs := reason (sm s)). cbn zeta. apply connected_lost_lands; auto.
  - destruct (preroam_enable (sm s)); cbn [when]; [|by apply (lands_quiet skip); auto with steps].
    eapply (lands_steps (with_sm (set_roam _) ;> eloop_timeout_register 1 mgmt_link_status_polling_fn)); [|done|apply l_keep|].
    + eapply steps_quiet_seq; [auto with steps|]. apply steps_register.
    + eapply shows_register; eauto.
Qed.

(** *** Timeouts *)
Lemma lands_ask c k s l :
  is_scan c = false -> station s -> shows (view_of s) l ->
  (forall a s', station s' -> shows (view_of s') l -> lands l (k a s')) -> lands l (ask net c k s).
Proof.
  intros Hc Hs H Hk. unfold ask. destruct (steps_call c Hc s Hs) as [Hs' E].
  apply Hk; [done|]. by rewrite E.
Qed.

Lemma dhcp_polling_lands s l : station s -> shows (view_of s) l -> lands l (mgmt_dhcp_polling net accepts s).
Proof.
  intros Hs H. unfold mgmt_dhcp_polling. destruct l as [p r n b d k].
  assert (forall s, station s -> shows (view_of s) (Link p r n b d k) ->
          lands (Link p r n b d k) ((do_call (net_if_set_default (vif_idx (sm s))) ;> send_own accepts EV_DHCP_SUCCESS 0) s)) as Hdone
    by (intros; by apply lands_quiet; auto with steps).
  apply lands_ask; auto. intros a s1 Hs1 H1. case_match; [by apply Hdone|].
  apply lands_ask; auto. intros a' s2 Hs2 H2. case_match; [by apply Hdone|].
  destruct (negb (u8 (dhcp_polling_count (sm s2) - 1) =? 0)).
  - eapply (lands_steps (_ ;> _)); [eapply steps_quiet_seq; [auto with steps|apply steps_register]|done|apply l_keep|].
    eapply shows_register; eauto.
  - by apply (lands_quiet (_ ;> _ ;> _)); auto with steps.
Qed.

Lemma link_status_polling_lands s r n b d k :
  station s -> shows (view_of s) (Link Connected r n b d k) ->
  lands (Link Connected r n b d k) (mgmt_link_status_polling net s).
Proof.
  intros Hs H. unfold mgmt_link_status_polling. case_match; [|land].
  apply lands_ask; auto. intros a s1 Hs1 H1. apply lands_ask; auto. intros a' s2 Hs2 H2.
  case_match; [by apply (lands_quiet (with_sm (set_roam _))); auto with steps|].
  destruct (_ || _ : bool); cbn [when].
  - eapply (lands_steps (_ ;> _ ;> _)); [|done|by apply l_scan; right|].
    + eapply steps_seq; [eapply steps_seq_quiet; [apply steps_do_call|auto with steps]|].
      eapply steps_quiet_seq; [auto with steps|apply steps_register].
    + eapply shows_register; eauto. by eapply shows_scan.
  - eapply (lands_steps (_ ;> _ ;> _)); [|done|apply l_keep|].
    + do 2 (eapply steps_quiet_seq; [auto with steps|]). apply steps_register.
    + eapply shows_register; eauto.
Qed.

Lemma connect_retry_lands s p r n d k (l0 := Link p r n true d k) :
  station s -> shows (view_of s) (Link p r n false d k) -> lands l0 (mgmt_connect_retry net accepts s).
Proof.
  intros Hs H.
  assert (steps (with_sm (fun m => set_retry (Retry (u32 (retry_count (retry m) - 1)) (retry_limit (retry m)) (retry_interval (retry m))) m))
            (fun v => let r := v_retry v in v_set_retry (Retry (u32 (retry_count r - 1)) (retry_limit r) (retry_interval r)) v))
    by atomic.
  unfold mgmt_connect_retry.
  eapply lands_steps; [eapply steps_seq; [eassumption|eapply steps_seq; [apply steps_set_delayed|apply steps_scan_enter]]|done|apply l_retry|].
  eapply (shows_scanning _ _ _ _ _ false), shows_delayed.
  destruct (view_of s), H; cbn in *; subst; split; cbn; auto.
Qed.

(** *** Messages *)
Lemma lands_param l s :
  lands l s -> lands l (with_sm (fun m => set_message (vif_idx m) (event m) (reason m) NoParam m) s).
Proof. intros (Hs & l' & Hl & H). destruct (steps_no_param s Hs) as [Hs' E]. split; [done|]. exists l'. by rewrite E. Qed.

Lemma station_sm_lands s l :
  station s -> shows (view_of s) l -> link_ok l ->
  lands l (sm_MAINTAIN_CONNECTION_Step net connect_req stored_ap candidate accepts s).
Proof.
  intros Hs H Hok. unfold sm_MAINTAIN_CONNECTION_Step.
  assert (sm_state (sm s) = state_of (l_phase l)) as E by apply (sh_state _ _ H). rewrite E. clear E.
  destruct l as [p r n b d k]. destruct (needs_init s) eqn:Hi.
  - assert (steps (sm_reset ;> with_sm (set_preroam_enable true) ;> mgmt_connect_retry_param_set false ;> sm_MAINTAIN_CONNECTION_IDLE_Enter)
              (fun v => v_idle (v_params false (View 0 (v_sta v) (Retry 0 0 0) false (v_timers v) (v_scans v))))) as Hst.
    { eapply steps_eq.
      - eapply steps_seq; [apply steps_reset|]. eapply steps_quiet_seq; [apply steps_set_preroam_enable|].
        eapply steps_seq; [apply steps_params|apply steps_idle_enter].
      - done. }
    eapply lands_steps; [exact Hst|done|apply l_init|].
    destruct (view_of s), H; cbn in *; split; cbn; auto 6 with steps. by rewrite retries_not_for_retry.
  - destruct Hok as [_ Hpend Hidle]; cbn in *. destruct p; cbn.
    + rewrite Hidle by done. destruct b; [by destruct Hpend as [_ []]|]. rewrite Hidle in H by done. by apply idle_step_lands.
    + by apply scan_step_lands.
    + by apply connect_step_lands.
    + by apply handshake_step_lands.
    + by apply dhcp_step_lands.
    + by apply connected_step_lands.
Qed.

Notation run_message := (wifi_mgmt_cb_run_state_machine net connect_req stored_ap candidate stale_sta stale_ap accepts).
Notation run_timeout := (fire net accepts).

Lemma message_lands msg s l :
  station s -> shows (view_of s) l -> link_ok l -> m_vif msg = 0%nat ->
  (m_event msg = EV_SWITCH_MODE_CMD -> m_reason msg = WVIF_STA) -> lands l (run_message msg s).
Proof.
  intros Hs H Hok Hv Hsw. unfold wifi_mgmt_cb_run_state_machine. rewrite Hv. cbn [Nat.leb CFG_VIF_NUM orb].
  case_bool_decide; [by apply (lands_quiet skip); auto with steps|]. apply lands_param.
  destruct (steps_set_message 0 (m_event msg) (m_reason msg) (m_param msg) eq_refl s Hs) as [Hs1 E].
  remember (with_sm (set_message 0 (m_event msg) (m_reason msg) (m_param msg)) s) as s1 eqn:E1. rewrite <-E in H.
  assert (wvif_type (wvif s1) = WVIF_STA) as Hty.
  { destruct Hs1 as (Hi & _ & x & y & Htab & Hty). unfold wvif. by rewrite Hi, Htab. }
  case_bool_decide as Hev.
  - unfold mgmt_switch_mode. rewrite Hty. replace (reason (sm s1)) with WVIF_STA by (subst s1; symmetry; exact (Hsw Hev)).
    by apply (lands_quiet skip); auto with steps.
  - rewrite Hty. cbn. by apply station_sm_lands.
Qed.

Lemma timeout_lands t l1 l2 s l :
  station s -> shows (view_of s) l -> link_ok l -> timers s = l1 ++ t :: l2 -> lands l (run_timeout t l1 l2 s).
Proof.
  intros Hs H Hok Ht. unfold fire.
  assert (station (with_timers (fun _ => l1 ++ l2) s)) as Hs1 by done.
  set (s1 := with_timers (fun _ => l1 ++ l2) s) in *.
  assert (owner t = 0%nat /\ Forall (fun t => owner t = 0%nat) (l1 ++ l2)) as [Ho Ho'].
  { pose proof (sh_owner _ _ H) as F. cbn in F. rewrite Ht in F. rewrite !Forall_app, Forall_cons in *. tauto. }
  assert (length (retries (l1 ++ t :: l2)) = if l_pending l then 1%nat else 0%nat) as Hn
    by (rewrite <-Ht; exact (sh_pending _ _ H)).
  rewrite filter_app, filter_cons, length_app in Hn.
  assert (forall b, length (retries (l1 ++ l2)) = (if b : bool then 1%nat else 0%nat) ->
            shows (view_of s1) (Link (l_phase l) (l_roaming l) (l_left l) b (l_delayed l) (l_scans l))) as Hshow.
  { intros b Hb. destruct H; split; cbn in *; auto.
    intros Hp. specialize (sh_polling0 Hp). rewrite Ht in sh_polling0. rewrite !Forall_app, Forall_cons in *. tauto. }
  destruct l as [p r n b d k]; cbn in *.
  destruct t as [[] ? ?]; cbn [run_timer t_fn] in *.
  - apply dhcp_polling_lands; [done|]. apply Hshow. rewrite filter_app, length_app, <-Hn. by rewrite decide_False.
  - assert (p = Connected) as ->.
    { destruct p; try done; (pose proof (sh_polling _ _ H) as F; cbn in F; rewrite Ht in F;
        specialize (F ltac:(discriminate)); rewrite Forall_app, Forall_cons in F; cbn in F; naive_solver). }
    apply link_status_polling_lands; [done|]. apply Hshow. rewrite filter_app, length_app, <-Hn. by rewrite decide_False.
  - rewrite decide_True in Hn by done. cbn in Hn. destruct b; [|lia].
    apply connect_retry_lands; [done|]. apply Hshow. rewrite filter_app, length_app. lia.
Qed.

(** What happens to the station: a message is handled, a timeout is due, another
    task posts messages or takes from the wait queue. *)
Inductive station_step : mgmt -> mgmt -> Prop :=
  | st_message msg s :
      m_vif msg = 0%nat -> (m_event msg = EV_SWITCH_MODE_CMD -> m_reason msg = WVIF_STA) ->
      station_step s (run_message msg s)
  | st_timeout t l1 l2 s : timers s = l1 ++ t :: l2 -> station_step s (run_timeout t l1 l2 s)
  | st_others q p s : station_step s (with_posted (fun _ => p) (with_waitq (fun _ => q) s)).

(** C6: every event of the station - any message for it, a timeout that is due, what other tasks post - is a step of
    the abstract link machine, from every state that shows a link, and leads to a state that shows the link after it. *)
Theorem station_refines_link s s' l :
  station s -> shows (view_of s) l -> link_ok l -> station_step s s' ->
  station s' /\ exists l', lstep l l' /\ link_ok l' /\ shows (view_of s') l'.
Proof.
  intros Hs H Hok Hst.
  assert (lands l s') as (Hs' & l' & Hl & H').
  { destruct Hst; [by apply message_lands|by apply timeout_lands|]. split; [done|]. exists l. split; [apply l_keep|done]. }
  split; [done|]. exists l'. eauto using lstep_ok.
Qed.

(** ** Attempts *)
Lemma lstep_attempts l l' :
  link_ok l -> underway (l_phase l) -> underway (l_phase l') -> lstep l l' ->
  (l_scans l <= l_scans l')%nat /\ Z.of_nat (l_scans l') + l_left l' = Z.of_nat (l_scans l) + l_left l.
Proof.
  intros Hok [Hi Hc] [Hi' Hc'] Hl. destruct Hl; cbn in *; try lia; try (by exfalso; intuition congruence).
  destruct Hok as [Hleft Hpend _]; cbn in *. destruct Hpend as [Hn _]; [done|].
  pose proof (attempts_bound r). unfold u32. rewrite Z.mod_small; lia.
Qed.

(** An event after which the link is still being made. *)
Definition trying (s s' : mgmt) : Prop :=
  station_step s s' /\ sm_state (sm s') <> MAINTAIN_CONNECTION_IDLE /\ sm_state (sm s') <> MAINTAIN_CONNECTION_CONNECTED.

Lemma trying_underway s l :
  shows (view_of s) l -> sm_state (sm s) <> MAINTAIN_CONNECTION_IDLE -> sm_state (sm s) <> MAINTAIN_CONNECTION_CONNECTED ->
  underway (l_phase l).
Proof. intros H. pose proof (sh_state _ _ H) as E. cbn in E. rewrite E. by destruct l as [[] ? ? ? ? ?]. Qed.

Lemma attempts_kept s s' l :
  rtc trying s s' -> station s -> shows (view_of s) l -> link_ok l -> underway (l_phase l) ->
  exists l', station s' /\ shows (view_of s') l' /\ link_ok l' /\ underway (l_phase l') /\
    (l_scans l <= l_scans l')%nat /\ Z.of_nat (l_scans l') + l_left l' = Z.of_nat (l_scans l) + l_left l.
Proof.
  intros Hrun. revert l. induction Hrun as [s|s s1 s' (Hst & Hi & Hc) _ IH]; intros l Hs H Hok Hp; [eauto 10|].
  assert (lands l s1) as (Hs1 & l1 & Hl & H1).
  { destruct Hst; [by apply message_lands|by apply timeout_lands|]. split; [done|]. exists l. split; [apply l_keep|done]. }
  pose proof (trying_underway _ _ H1 Hi Hc) as Hp1. pose proof (lstep_attempts _ _ Hok Hp Hp1 Hl) as E.
  destruct (IH l1) as (l' & ? & ? & ? & ? & ?); eauto using lstep_ok. exists l'. split_and!; auto; lia.
Qed.

(** A message goes through the machine of its state. *)
Lemma run_message_step msg s l :
  station s -> shows (view_of s) l -> m_vif msg = 0%nat -> m_event msg <> EV_NONE -> m_event msg <> EV_SWITCH_MODE_CMD ->
  exists s1, station s1 /\ view_of s1 = view_of s /\ event (sm s1) = m_event msg /\ reason (sm s1) = m_reason msg /\
    view_of (run_message msg s) = view_of (sm_MAINTAIN_CONNECTION_Step net connect_req stored_ap candidate accepts s1) /\
    (station (sm_MAINTAIN_CONNECTION_Step net connect_req stored_ap candidate accepts s1) -> station (run_message msg s)).
Proof.
  intros Hs H Hv Hne Hsw. unfold wifi_mgmt_cb_run_state_machine. rewrite Hv. cbn [Nat.leb CFG_VIF_NUM orb].
  rewrite !bool_decide_eq_false_2 by done.
  destruct (steps_set_message 0 (m_event msg) (m_reason msg) (m_param msg) eq_refl s Hs) as [Hs1 E].
  set (s1 := with_sm (set_message 0 (m_event msg) (m_reason msg) (m_param msg)) s) in *.
  assert (wvif_type (wvif s1) = WVIF_STA) as Hty.
  { destruct Hs1 as (Hi & _ & x & y & Htab & Hty). unfold wvif. by rewrite Hi, Htab. }
  rewrite Hty. cbn [Z.eqb WVIF_STA Pos.eqb].
  exists s1. by split_and!.
Qed.

Lemma run_message_enters msg s l (f : mgmt -> mgmt) g :
  station s -> shows (view_of s) l -> m_vif msg = 0%nat -> m_event msg <> EV_NONE -> m_event msg <> EV_SWITCH_MODE_CMD ->
  steps f g ->
  (forall s1, station s1 -> shows (view_of s1) l -> event (sm s1) = m_event msg -> reason (sm s1) = m_reason msg ->
     sm_MAINTAIN_CONNECTION_Step net connect_req stored_ap candidate accepts s1 = f s1) ->
  station (run_message msg s) /\ view_of (run_message msg s) = g (view_of s).
Proof.
  intros Hs H Hv Hne Hsw Hf Hstep.
  destruct (run_message_step msg s l Hs H Hv Hne Hsw) as (s1 & Hs1 & E & Hev & Hr & -> & Hst).
  rewrite <-E in H. rewrite (Hstep s1 Hs1 H Hev Hr) in Hst |- *.
  destruct (Hf s1 Hs1) as [Hs' ->]. rewrite E. auto.
Qed.

Lemma step_of s l :
  station s -> shows (view_of s) l -> event (sm s) <> EV_INIT ->
  sm_MAINTAIN_CONNECTION_Step net connect_req stored_ap candidate accepts s =
  match l_phase l with
  | Idle => idle_step net stored_ap accepts s | Scanning => scan_step net connect_req accepts s
  | Connecting => connect_step net accepts s | Handshaking => handshake_step net accepts s
  | GettingIp => dhcp_step net accepts s | Connected => connected_step net candidate accepts s
  end.
Proof.
  intros (_ & Hi & _) H Hev. unfold sm_MAINTAIN_CONNECTION_Step, needs_init.
  rewrite Hi, bool_decide_eq_false_2 by done. cbn [negb orb].
  assert (sm_state (sm s) = state_of (l_phase l)) as -> by apply (sh_state _ _ H). by destruct (l_phase l).
Qed.

Lemma message_shows msg s l l' f g :
  steps f g -> station s -> shows (view_of s) l -> m_vif msg = 0%nat ->
  m_event msg <> EV_NONE -> m_event msg <> EV_SWITCH_MODE_CMD -> m_event msg <> EV_INIT ->
  (forall s1, event (sm s1) = m_event msg -> reason (sm s1) = m_reason msg ->
     match l_phase l with
     | Idle => idle_step net stored_ap accepts s1 | Scanning => scan_step net connect_req accepts s1
     | Connecting => connect_step net accepts s1 | Handshaking => handshake_step net accepts s1
     | GettingIp => dhcp_step net accepts s1 | Connected => connected_step net candidate accepts s1
     end = f s1) ->
  shows (g (view_of s)) l' ->
  station (run_message msg s) /\ shows (view_of (run_message msg s)) l'.
Proof.
  intros Hf Hs H Hv Hne Hsw Hi Hstep Hg.
  destruct (run_message_enters msg s l f g Hs H Hv Hne Hsw Hf) as [Hs' ->]; [|done].
  intros s1 Hs1 H1 Hev Hr. rewrite (step_of s1 l Hs1 H1) by congruence. auto.
Qed.

Lemma connect_cmd_starts msg s l :
  station s -> shows (view_of s) l -> link_ok l -> l_phase l = Idle \/ l_phase l = Connected ->
  m_vif msg = 0%nat -> m_event msg = EV_CONNECT_CMD ->
  station (run_message msg s) /\ shows (view_of (run_message msg s)) (Link Scanning false 2 false false (S (l_scans l))).
Proof.
  intros Hs H Hok Hp Hv Hev. destruct l as [p r n b d k]. destruct Hok as [_ Hpend Hidle]; cbn in *.
  assert (m_event msg <> EV_NONE /\ m_event msg <> EV_SWITCH_MODE_CMD /\ m_event msg <> EV_INIT) as (Hne & Hsw & Hin)
    by (rewrite Hev; done).
  destruct Hp as [-> | ->].
  - assert (b = false) as -> by (destruct b; [by destruct Hpend as [_ []]|done]).
    assert (d = false) as -> by auto.
    eapply (message_shows msg s _ _ (copy_cfg ;> mgmt_connect_retry_param_set false ;> sm_MAINTAIN_CONNECTION_SCAN_Enter net accepts));
      [|exact Hs|exact H|exact Hv|exact Hne|exact Hsw|exact Hin| |].
    + eapply steps_quiet_seq; [apply steps_copy_cfg|]. eapply steps_seq; [apply steps_params|apply steps_scan_enter].
    + intros s1 E _. cbn [l_phase]. unfold idle_step. rewrite E, Hev. reflexivity.
    + eapply (shows_scanning _ _ _ _ _ false), (shows_params _ _ _ _ _ _ _ H false).
  - eapply (message_shows msg s _ _ (copy_cfg ;> sm_MAINTAIN_CONNECTION_IDLE_Enter ;> mgmt_connect_retry_param_set false ;>
        sm_MAINTAIN_CONNECTION_SCAN_Enter net accepts)); [|exact Hs|exact H|exact Hv|exact Hne|exact Hsw|exact Hin| |].
    + eapply steps_quiet_seq; [apply steps_copy_cfg|].
      eapply steps_seq; [apply steps_idle_enter|]. eapply steps_seq; [apply steps_params|apply steps_scan_enter].
    + intros s1 E _. cbn [l_phase]. unfold connected_step. rewrite E, Hev. reflexivity.
    + eapply (shows_scanning _ _ _ _ _ false), (shows_params _ _ _ _ _ _ _ (shows_idle _ _ _ _ _ _ _ H) false).
Qed.


(** ** A scan result that comes late *)
Definition event_for_station (ev : mgmt_event) (r : Z) : message := Message 0 ev r NoParam.

Lemma no_timers l :
  Forall (fun t => t_fn t <> mgmt_dhcp_polling_fn) l -> Forall (fun t => t_fn t <> mgmt_link_status_polling_fn) l ->
  retries l = [] -> l = [].
Proof.
  destruct l as [|[[] ? ?] l]; [done|..]; rewrite ?Forall_cons; cbn; try naive_solver.
Qed.

Lemma found_shows s s' r n b d k :
  s' = run_message (event_for_station EV_SCAN_DONE 0) s ->
  station s -> shows (view_of s) (Link Scanning r n b d k) ->
  station s' /\ shows (view_of s') (Link Connecting r n b d k).
Proof.
  intros -> Hs H. eapply message_shows; [apply steps_connect_enter|exact Hs|exact H|done..| |].
  - intros s1 E _. cbn [l_phase]. unfold scan_step. rewrite E. reflexivity.
  - by eapply (shows_enter Connecting); [|exact H].
Qed.
Lemma associated_shows s s' r n b d k :
  s' = run_message (event_for_station EV_ASSOC_SUCCESS 0) s ->
  station s -> shows (view_of s) (Link Connecting r n b d k) ->
  station s' /\ shows (view_of s') (Link Handshaking r n b d k).
Proof.
  intros -> Hs H. eapply message_shows; [apply steps_handshake_enter|exact Hs|exact H|done..| |].
  - intros s1 E _. cbn [l_phase]. unfold connect_step. rewrite E. reflexivity.
  - by eapply (shows_enter Handshaking); [|exact H].
Qed.
Lemma secured_shows s s' r n b d k :
  s' = run_message (event_for_station EV_DHCP_START 0) s ->
  station s -> shows (view_of s) (Link Handshaking r n b d k) ->
  station s' /\ shows (view_of s') (Link GettingIp r n b d k).
Proof.
  intros -> Hs H. eapply message_shows; [apply steps_dhcp_enter|exact Hs|exact H|done..| |].
  - intros s1 E _. cbn [l_phase]. unfold handshake_step. rewrite E. reflexivity.
  - eapply shows_register; [|done|by left]. by eapply (shows_enter GettingIp); [|exact H].
Qed.
Lemma up_shows s s' r n b d k :
  s' = run_message (event_for_station EV_DHCP_SUCCESS 0) s ->
  station s -> shows (view_of s) (Link GettingIp r n b d k) ->
  station s' /\ shows (view_of s') (Link Connected r n false d k).
Proof.
  intros -> Hs H.
  eapply (message_shows _ s _ _ ((fun s => do_call (wifi_netlink_dhcp_done (vif_idx (sm s))) s) ;>
       sm_MAINTAIN_CONNECTION_CONNECTED_Enter net accepts ;> eloop_timeout_cancel mgmt_connect_retry_fn));
    [|exact Hs|exact H|done..| |].
  - apply steps_quiet_seq; [auto with steps|]. eapply steps_seq; [apply steps_connected_enter|apply steps_cancel].
  - intros s1 E _. cbn [l_phase]. unfold dhcp_step. rewrite E. reflexivity.
  - eapply shows_cancel_retry. by eapply (shows_enter Connected); [|exact H].
Qed.

Lemma lost_view s s' r n b d k :
  s' = run_message (event_for_station EV_DISCONNECT WIFI_MGMT_DISCON_NO_BEACON) s ->
  station s -> shows (view_of s) (Link Connected r n b d k) ->
  station s' /\ view_of s' = v_scanning (v_params true (view_of s)).
Proof.
  intros -> Hs H.
  apply (run_message_enters (event_for_station EV_DISCONNECT WIFI_MGMT_DISCON_NO_BEACON) s (Link Connected r n b d k)
    (sta_sm_step EV_DISCONNECT ;> sta_sm_step EV_DISCONNECT ;> store_reason ;> when false disconnect_req ;>
     mgmt_connect_retry_param_set true ;> sm_MAINTAIN_CONNECTION_SCAN_Enter net accepts)
    (fun v => v_scanning (v_params true v))); [exact Hs|exact H|done..| |].
  - do 4 (apply steps_quiet_seq; [auto with steps|]). eapply steps_seq; [apply steps_params|apply steps_scan_enter].
  - intros s1 Hs1 H1 Ev Er. rewrite (step_of s1 _ Hs1 H1) by (rewrite Ev; done). cbn [l_phase].
    unfold connected_step. rewrite Ev, Er. reflexivity.
Qed.

(** a scan result that arrives while a retry is delayed makes the machine connect, but leaves it believing that a
    retry is delayed: when the beacon of the access point is lost later, the machine waits for a scan
    that nobody starts - no scan is asked for and no timeout is pending. *)
Theorem late_scan_result_stalls s r n k :
  station s -> shows (view_of s) (Link Scanning r n true true k) ->
  let found := run_message (event_for_station EV_SCAN_DONE 0) s in
  let associated := run_message (event_for_station EV_ASSOC_SUCCESS 0) found in
  let secured := run_message (event_for_station EV_DHCP_START 0) associated in
  let connected := run_message (event_for_station EV_DHCP_SUCCESS 0) secured in
  let lost := run_message (event_for_station EV_DISCONNECT WIFI_MGMT_DISCON_NO_BEACON) connected in
  sm_state (sm connected) = MAINTAIN_CONNECTION_CONNECTED /\
  sm_state (sm lost) = MAINTAIN_CONNECTION_SCAN /\ scans (calls lost) = scans (calls s) /\ timers lost = [].
Proof.
  intros Hs H found associated secured connected lost.
  destruct (found_shows _ found _ _ _ _ _ eq_refl Hs H) as [Hs1 H1]. clearbody found.
  destruct (associated_shows _ associated _ _ _ _ _ eq_refl Hs1 H1) as [Hs2 H2]. clearbody associated.
  destruct (secured_shows _ secured _ _ _ _ _ eq_refl Hs2 H2) as [Hs3 H3]. clearbody secured.
  destruct (up_shows _ connected _ _ _ _ _ eq_refl Hs3 H3) as [Hs4 H4]. clearbody connected.
  destruct (lost_view _ lost _ _ _ _ _ eq_refl Hs4 H4) as [Hs5 E]. clearbody lost.
  pose proof (shows_scanning _ _ _ _ _ _ _ (shows_params _ _ _ _ _ _ _ H4 true)) as H5. rewrite <-E in H5.
  split_and!.
  - apply (shown_state _ _ H4).
  - apply (shown_state _ _ H5).
  - by rewrite (shown_scans _ _ H5), (shown_scans _ _ H).
  - apply no_timers.
    + apply (f_equal v_timers) in E. cbn in E. rewrite E. apply not_for_other, not_for_self.
    + by apply (shown_polling _ _ H5).
    + apply nil_length_inv, (shown_pending _ _ H5).
Qed.
End spec.

(** ** Examples *)
Definition quiet_net (_ : list net_call) : Z := 0.
Definition same_connect (_ : list net_call) (x : wifi_sta) : connect_result :=
  let c := cfg x in ConnectResult 0 (ssid c) (passphrase c) (channel c) (bssid c) (flush_cache_req c) (last_reason x).
Definition station_in (p : phase) (n : Z) (delayed : bool) (ts : list timer) : mgmt :=
  Mgmt (Sm 0 true (state_of p) EV_NONE 0 NoParam 0 delayed (Retry n 3 2000) true (Preroam false 0 zero_addr) false false)
    [Vif WVIF_STA (WifiSta sta_cfg_zero (state_of p) 0 0) (WifiAp ap_cfg_zero 0); vif_zero] [] ts [] [] false.

Lemma station_in_station p n d ts : station (station_in p n d ts).
Proof. split_and!; [done..|]. by repeat eexists. Qed.
Lemma station_in_shows p n (b d : bool) :
  shows (view_of (station_in p n d (if b then [Timer mgmt_connect_retry_fn 0 2000] else []))) (Link p false n b d 0).
Proof. destruct b; split; cbn; try done; repeat constructor; done. Qed.

Lemma station_refines_link_witness :
  let s := station_in Scanning 1 true [Timer mgmt_connect_retry_fn 0 2000] in
  let s' := fire quiet_net (fun _ => true) (Timer mgmt_connect_retry_fn 0 2000) [] [] s in
  station s' /\ exists l', lstep (Link Scanning false 1 true true 0) l' /\ link_ok l' /\ shows (view_of s') l'.
Proof.
  intros s s'.
  apply (station_refines_link quiet_net same_connect (fun _ => None) (fun _ => None) sta ap (fun _ => true) s).
  - apply station_in_station.
  - exact (station_in_shows Scanning 1 true true).
  - split; [vm_compute; split; congruence|cbn; unfold underway; split; [lia|split; discriminate]|discriminate].
  - by apply st_timeout.
Defined.


Lemma late_scan_result_stalls_witness :
  let run := wifi_mgmt_cb_run_state_machine quiet_net same_connect (fun _ => None) (fun _ => None) sta ap (fun _ => true) in
  let s := station_in Scanning 1 true [Timer mgmt_connect_retry_fn 0 2000] in
  let connected := run (event_for_station EV_DHCP_SUCCESS 0) (run (event_for_station EV_DHCP_START 0)
    (run (event_for_station EV_ASSOC_SUCCESS 0) (run (event_for_station EV_SCAN_DONE 0) s))) in
  let lost := run (event_for_station EV_DISCONNECT WIFI_MGMT_DISCON_NO_BEACON) connected in
  sm_state (sm connected) = MAINTAIN_CONNECTION_CONNECTED /\
  sm_state (sm lost) = MAINTAIN_CONNECTION_SCAN /\ scans (calls lost) = scans (calls s) /\ timers lost = [].
Proof.
  exact (late_scan_result_stalls quiet_net same_connect (fun _ => None) (fun _ => None) sta ap (fun _ => true)
    (station_in Scanning 1 true [Timer mgmt_connect_retry_fn 0 2000]) false 1 0
    (station_in_station _ _ _ _) (station_in_shows Scanning 1 true true)).
Defined.
