(* ===== verification/WifiMgmtApi.v ===== *)
(** * What the calls of other tasks return

    The functions of [WifiMgmt] that other tasks call, with the event loop that
    serves what they post: a call up to where it blocks, the messages dispatched
    one after the other, and the answer taken from the wait queue. *)
From S2P Require Import Prelude WifiMgmt WifiMgmtSpec.
#[local] Open Scope mgmt_scope.

Section api.
Context (net : list net_call -> Z) (connect_req : list net_call -> wifi_sta -> connect_result).
Context (stored_ap : list net_call -> option (bytes * bytes * Z * Z)) (candidate : list net_call -> option (bytes * Z * Z)).
Context (stale_sta : vif -> wifi_sta) (stale_ap : vif -> wifi_ap).
Context (accepts : list message -> bool).

#[local] Abbreviation serve := (dispatch_next net connect_req stored_ap candidate stale_sta stale_ap accepts).

(** The machine of the first interface, as it is when it runs. *)
Definition station_of (w : system) : mgmt := with_sm (fun _ => wifi_sm_data w !!! 0%nat) (shared w).
(** A call of another task changes what is shared. *)
Definition after_call (w : system) (r : api * mgmt) : system := System (wifi_sm_data w) (snd r).

(** What the blocked caller gets, and what it makes of it. *)
Definition answer (r : api) (w : system) : option Z :=
  match r with
  | Returns x => Some x
  | Waits v evt _ k =>
      match mgmt_wait_queue_fetch v evt (map Some (waitq (shared w))) with
      | Some (x, _) => Some (fst (k x (shared w)))
      | None => None
      end
  end.

Record station_ready (w : system) (l : link) : Prop := StationReady {
  rd_machines : length (wifi_sm_data w) = 2%nat;
  rd_station : station (station_of w);
  rd_shows : shows (view_of (station_of w)) l;
  rd_ok : link_ok l;
  rd_posted : posted (shared w) = [] }.

Ltac open_system w :=
  let m := fresh "m" in
  destruct w as [[|[v0 i0 st0 ev0 re0 pa0 dp0 de0 rt0 pe0 ro0 ps0 sb0] [|m [|]]] [sm0 tab0 wq0 ts0 po0 cs0 conc0]]; cbn in * |-; try discriminate;
  repeat match goal with
    | H : station (station_of _) |- _ => destruct H as (? & ? & ? & ? & ? & ?)
    end; cbn in * |-; subst.


(** A timeout is due; a message of the layers below arrives. *)
Definition due (w : system) : system :=
  on_machine 0 (fun s => match timers s with t :: l => fire net accepts t [] l s | [] => s end) w.
Definition arrives (ev : mgmt_event) (w : system) : system :=
  System (wifi_sm_data w) (with_posted (fun l => l ++ [event_for_station ev 0]) (shared w)).

(** The station does nothing, and no timeout is pending. *)
Record at_rest (w : system) : Prop := AtRest {
  rs_ready : exists l, station_ready w l /\ l_phase l = Idle;
  rs_timers : timers (shared w) = [];
  rs_roam : preroam_start (roam (wifi_sm_data w !!! 0%nat)) = false }.

Lemma fits_name (name : bytes) : Z.of_nat (length name) <= WIFI_SSID_MAX_LEN -> (WIFI_SSID_MAX_LEN <? Z.of_nat (length name)) = false.
Proof. intros. by apply Z.ltb_ge. Qed.

Definition connect_messages (name : bytes) (c : sta_cfg) : list message :=
  [Message 0 EV_SWITCH_MODE_CMD WVIF_STA NoParam; Message 0 EV_CONNECT_CMD 0 (PCfg c)].

Lemma connect_posts name password s :
  (forall l, accepts l = true) -> Z.of_nat (length name) <= WIFI_SSID_MAX_LEN -> password_ok true (no_empty password) = true ->
  exists flush keep k,
    wifi_management_connect accepts true true (Some name) password true s =
    (Waits 0 CONN_DONE WIFI_MGMT_CONNECT_BLOCK_TIME k,
     Mgmt (sm s) (alter (upd_sta (fun st => if (keep st : bool) then st else set_history_ip 0 st)) 0%nat (tab s)) [] (timers s)
       (posted s ++ connect_messages name (StaCfg name (default [] (no_empty password)) 0xFF zero_addr false true flush))
       (calls s) (wifi_concurrent_mode s)) /\ forall r s, fst (k r s) = r.
Proof.
  intros Hacc Hname Hpass. unfold wifi_management_connect, connect_request, api_send, eloop_message_send.
  rewrite fits_name, Hpass by done. cbn. rewrite !Hacc. cbn. eexists _, _, _. split.
  - unfold with_posted, mgmt_wait_queue_flush, with_waitq, with_tab; cbn. rewrite <-app_assoc. reflexivity.
  - done.
Qed.

(** One turn of the event loop, on the machine of the first interface. *)
Lemma serve_first d s msg rest :
  posted s = msg :: rest -> m_vif msg = 0%nat ->
  serve (System d s) =
  on_machine 0 (wifi_mgmt_cb_run_state_machine net connect_req stored_ap candidate stale_sta stale_ap accepts msg)
    (System d (with_posted (fun _ => rest) s)).
Proof. intros E Hv. unfold dispatch_next. cbn [shared wifi_sm_data]. by rewrite E, Hv. Qed.

(** A switch to the mode the interface has *)
Lemma handles_switch rest i st ev re pa dp de rt pe ro ps sb m' sm0 x l wq ts cs conc :
  wvif_type x = WVIF_STA ->
  serve (System [Sm 0 i st ev re pa dp de rt pe ro ps sb; m']
           (Mgmt sm0 (x :: l) wq ts (Message 0 EV_SWITCH_MODE_CMD WVIF_STA NoParam :: rest) cs conc)) =
  let m := Sm 0 i st EV_SWITCH_MODE_CMD WVIF_STA NoParam dp de rt pe ro ps sb in
  System [m; m'] (Mgmt m (x :: l) wq ts rest cs conc).
Proof.
  intros Hty. rewrite (serve_first _ _ (Message 0 EV_SWITCH_MODE_CMD WVIF_STA NoParam) rest) by done.
  unfold on_machine, wifi_mgmt_cb_run_state_machine, mgmt_switch_mode, wvif. cbn [wifi_sm_data shared m_vif m_event m_reason m_param].
  rewrite bool_decide_eq_false_2, bool_decide_eq_true_2 by done. cbn. rewrite Hty. cbn. done.
Qed.

(** The machine handles a message that is neither empty nor a switch of the mode:
    the states are written out. *)
Lemma handles_message msg rest i st ev re pa dp de rt pe ro ps sb m' sm0 x l wq ts cs conc :
  m_vif msg = 0%nat -> m_event msg <> EV_NONE -> m_event msg <> EV_SWITCH_MODE_CMD -> wvif_type x = WVIF_STA ->
  serve (System [Sm 0 i st ev re pa dp de rt pe ro ps sb; m'] (Mgmt sm0 (x :: l) wq ts (msg :: rest) cs conc)) =
  let s := sm_MAINTAIN_CONNECTION_Step net connect_req stored_ap candidate accepts
             (Mgmt (Sm 0 i st (m_event msg) (m_reason msg) (m_param msg) dp de rt pe ro ps sb) (x :: l) wq ts rest cs conc) in
  let m := set_message (vif_idx (sm s)) (event (sm s)) (reason (sm s)) NoParam (sm s) in
  System [m; m'] (with_sm (fun _ => m) s).
Proof.
  intros Hv Hne Hsw Hty. rewrite (serve_first _ _ msg rest) by done.
  unfold on_machine, wifi_mgmt_cb_run_state_machine. cbn [wifi_sm_data shared]. rewrite Hv.
  rewrite !bool_decide_eq_false_2 by done. cbn [Nat.leb CFG_VIF_NUM orb].
  unfold wvif, with_posted. cbn [with_sm sm tab waitq timers posted calls wifi_concurrent_mode vif_idx set_message].
  change ((x :: l) !!! 0%nat) with x. rewrite Hty. reflexivity.
Qed.

(** The machine in a state of its own. *)
Lemma step_in s :
  init (sm s) = true -> event (sm s) <> EV_INIT ->
  sm_MAINTAIN_CONNECTION_Step net connect_req stored_ap candidate accepts s =
  let st := sm_state (sm s) in
  if st =? MAINTAIN_CONNECTION_IDLE then idle_step net stored_ap accepts s
  else if st =? MAINTAIN_CONNECTION_SCAN then scan_step net connect_req accepts s
  else if st =? MAINTAIN_CONNECTION_CONNECT then connect_step net accepts s
  else if st =? MAINTAIN_CONNECTION_HANDSHAKE then handshake_step net accepts s
  else if st =? MAINTAIN_CONNECTION_DHCP then dhcp_step net accepts s
  else if st =? MAINTAIN_CONNECTION_CONNECTED then connected_step net candidate accepts s
  else s.
Proof. intros Hi He. unfold sm_MAINTAIN_CONNECTION_Step, needs_init. by rewrite Hi, bool_decide_eq_false_2. Qed.
Ltac in_state := rewrite step_in by done; cbn [sm sm_state Z.eqb Pos.eqb MAINTAIN_CONNECTION_IDLE MAINTAIN_CONNECTION_SCAN
  MAINTAIN_CONNECTION_CONNECT MAINTAIN_CONNECTION_HANDSHAKE MAINTAIN_CONNECTION_DHCP MAINTAIN_CONNECTION_CONNECTED
  m_event m_reason m_param event_for_station].
Ltac settled := unfold with_sm, set_message;
  cbn [sm vif_idx event reason tab waitq timers posted calls wifi_concurrent_mode init sm_state param dhcp_polling_count
    preroam_enable roam polling_scan scan_blocked retry delayed_connect_retry].

Lemma idle_connects i st re c dp de rt pe ro ps sb x l wq ts po cs conc :
  idle_step net stored_ap accepts (Mgmt (Sm 0 i st EV_CONNECT_CMD re (PCfg c) dp de rt pe ro ps sb) (x :: l) wq ts po cs conc) =
  sm_MAINTAIN_CONNECTION_SCAN_Enter net accepts
    (Mgmt (Sm 0 i st EV_CONNECT_CMD re (PCfg c) dp de
             (Retry (WIFI_MGMT_CONNECT_RETRY_LIMIT - 1) WIFI_MGMT_CONNECT_RETRY_LIMIT WIFI_MGMT_CONNECT_RETRY_INTERVAL) pe ro ps sb)
       (upd_sta (set_cfg (fun _ => c)) x :: l) wq ts po cs conc).
Proof. reflexivity. Qed.

(** A connection a caller waits for, whose scan could not be started: [n] retries
    are left. *)
Record failing (n : Z) (w : system) : Prop := Failing {
  fl_machine : exists ev re pa dp pe ro ps sb m', wifi_sm_data w =
    [Sm 0 true MAINTAIN_CONNECTION_SCAN ev re pa dp false (Retry n WIFI_MGMT_CONNECT_RETRY_LIMIT WIFI_MGMT_CONNECT_RETRY_INTERVAL)
       pe ro ps sb; m'] /\ preroam_start ro = false;
  fl_shared : exists sm0 c st lr ip a y cs conc, shared w =
    Mgmt sm0 [Vif WVIF_STA (WifiSta c st lr ip) a; y] [] [] [event_for_station EV_SCAN_FAIL 0] cs conc /\ conn_blocked c = true }.

Hypothesis scan_fails : forall cs v x ch, (net (cs ++ [wifi_netlink_scan_set v x ch]) =? 0) = false.
Hypothesis accepts_all : forall l, accepts l = true.

Lemma scan_not_started i st ev re pa dp rt pe ro ps sb x l wq ts po cs conc :
  let x' := upd_sta (set_sta_state WIFI_STA_STATE_SCAN) x in
  sm_MAINTAIN_CONNECTION_SCAN_Enter net accepts (Mgmt (Sm 0 i st ev re pa dp false rt pe ro ps sb) (x :: l) wq ts po cs conc) =
  Mgmt (Sm 0 i MAINTAIN_CONNECTION_SCAN ev re pa dp false rt pe ro ps sb) (x' :: l) wq
    (not_for mgmt_link_status_polling_fn (not_for mgmt_dhcp_polling_fn ts)) (po ++ [event_for_station EV_SCAN_FAIL 0])
    (cs ++ [wifi_netlink_scan_set 0 (if conn_with_bssid (cfg (sta x')) then None else Some (ssid (cfg (sta x')))) (target_channel (sta x'))]) conc.
Proof.
  unfold sm_MAINTAIN_CONNECTION_SCAN_Enter, ask, seq_steps. cbn. rewrite scan_fails. cbn.
  unfold send_own, eloop_message_send. rewrite accepts_all. done.
Qed.

Ltac open_failing H :=
  destruct H as [(ev & re & pa & dp & pe & ro & ps & sb & m' & Em & Hro) (sm0 & c & st & lr & ip & a & y & cs & conc & Es & Hc)];
  match goal with w : system |- _ => destruct w; cbn in Em, Es; subst end.

Ltac show_failing := split; [repeat eexists; eassumption|repeat eexists; eassumption].

Lemma scan_fail_waits n lim int i st re pa dp de pe ro ps sb tb wq po cs conc :
  0 < n ->
  let m := Sm 0 i st EV_SCAN_FAIL re pa dp de (Retry n lim int) pe ro ps sb in
  scan_step net connect_req accepts (Mgmt m tb wq [] po cs conc) =
  Mgmt m tb wq [Timer mgmt_connect_retry_fn 0 (retry_delay (Retry n lim int))] po cs conc.
Proof.
  intros Hn. assert ((0 <? n) = true) as E by (apply Z.ltb_lt; lia).
  unfold scan_step; cbn -[retry_delay]. by rewrite E.
Qed.

Lemma due_retries i st ev re pa dp de n lim int pe ro ps sb m' sm0 x l wq d po cs conc :
  let x' := upd_sta (set_sta_state WIFI_STA_STATE_SCAN) x in
  let m := Sm 0 i MAINTAIN_CONNECTION_SCAN ev re pa dp false (Retry (u32 (n - 1)) lim int) pe ro ps sb in
  due (System [Sm 0 i st ev re pa dp de (Retry n lim int) pe ro ps sb; m']
         (Mgmt sm0 (x :: l) wq [Timer mgmt_connect_retry_fn 0 d] po cs conc)) =
  System [m; m'] (Mgmt m (x' :: l) wq [] (po ++ [event_for_station EV_SCAN_FAIL 0])
    (cs ++ [wifi_netlink_scan_set 0 (if conn_with_bssid (cfg (sta x')) then None else Some (ssid (cfg (sta x')))) (target_channel (sta x'))]) conc).
Proof.
  intros x' m. unfold due, on_machine, fire, run_timer, mgmt_connect_retry, seq_steps. cbn [wifi_sm_data shared timers with_sm t_fn].
  unfold with_sm, with_timers, set_retry, set_delayed.
  cbn [with_sm tab waitq timers posted calls wifi_concurrent_mode sm app retry vif_idx init sm_state event reason param dhcp_polling_count
    preroam_enable roam polling_scan scan_blocked retry_count retry_limit retry_interval delayed_connect_retry lookup_total list_lookup_total].
  rewrite scan_not_started. reflexivity.
Qed.

Lemma failing_retries n w : 0 < n < 100 -> failing n w -> failing (n - 1) (due (serve w)).
Proof.
  intros Hn H. open_failing H.
  rewrite (handles_message (event_for_station EV_SCAN_FAIL 0) []) by done. in_state.
  rewrite scan_fail_waits by lia. settled. rewrite due_retries. cbn [app].
  replace (u32 (n - 1)) with (n - 1) by (unfold u32; rewrite Z.mod_small; lia).
  show_failing.
Qed.

Lemma failing_gives_up w :
  failing 0 w ->
  let w' := serve w in
  sm_state (wifi_sm_data w' !!! 0%nat) = MAINTAIN_CONNECTION_IDLE /\
  waitq (shared w') = [WaitEvt 0 CONN_DONE 0; WaitEvt 0 DISCONN_DONE 0] /\ posted (shared w') = [] /\ timers (shared w') = [].
Proof.
  intros H. open_failing H.
  rewrite (handles_message (event_for_station EV_SCAN_FAIL 0) []) by done. in_state.
  unfold scan_step, mgmt_preroam_rollback, mgmt_post_conn_done; cbn. rewrite Hro; cbn. rewrite Hc; cbn. by split_and!.
Qed.

(** What a call posts is handled: the scan is asked for, and fails. *)
Lemma connect_fails w name c upd :
  at_rest w -> conn_blocked c = true -> (forall x, cfg (upd x) = cfg x) ->
  let s := shared w in
  failing 2 (serve (serve (System (wifi_sm_data w)
    (Mgmt (sm s) (alter (upd_sta upd) 0%nat (tab s)) [] (timers s) (posted s ++ connect_messages name c) (calls s) (wifi_concurrent_mode s))))).
Proof.
  intros [(l & [Hm Hst Hsh [_ _ Hidle] Hp] & Hph) Ht Hro] Hc Hupd.
  pose proof (shown_state _ _ Hsh) as E. pose proof (sh_delayed _ _ Hsh) as Ed. rewrite Hidle in Ed by done. rewrite Hph in E.
  clear Hsh Hidle Hph. open_system w. destruct x as [ty xs a]; cbn in * |-; subst ty. cbn zeta.
  cbn [wifi_sm_data shared sm posted timers calls wifi_concurrent_mode tab app alter list_alter].
  unfold connect_messages. rewrite handles_switch by done. cbv zeta.
  rewrite (handles_message (Message 0 EV_CONNECT_CMD 0 (PCfg c)) []) by done. in_state.
  rewrite idle_connects, scan_not_started. settled. show_failing.
Qed.

(** a connection that fails is reported as made: when no scan can be started, the retries are used up, the machine
    ends idle with nothing left to do, and the blocked call returns 0 - the reason of the last message, which the
    machine sent itself. *)
Theorem failed_connect_reports_success w name password :
  at_rest w -> Z.of_nat (length name) <= WIFI_SSID_MAX_LEN -> password_ok true (no_empty password) = true ->
  let r := wifi_management_connect accepts true true (Some name) password true (shared w) in
  let started := serve (serve (after_call w r)) in
  let retried := due (serve (due (serve started))) in
  let ended := serve retried in
  answer (fst r) ended = Some 0 /\ sm_state (wifi_sm_data ended !!! 0%nat) = MAINTAIN_CONNECTION_IDLE /\
  posted (shared ended) = [] /\ timers (shared ended) = [].
Proof.
  intros Hw Hname Hpass r started retried ended.
  destruct (connect_posts name password (shared w) accepts_all Hname Hpass) as (flush & keep & k & Er & Hk).
  assert (failing 2 started) as H2.
  { unfold started, after_call, r. rewrite Er. apply connect_fails; [done|done|]. intros x. by destruct (keep x). }
  assert (failing 0 retried) as H0 by (apply (failing_retries 1), (failing_retries 2); [lia..|done]).
  destruct (failing_gives_up retried H0) as (Hst & Hq & Hp & Ht). fold ended in Hst, Hq, Hp, Ht.
  split_and!; [|done..]. unfold r. rewrite Er. cbn [fst answer]. rewrite Hq. f_equal. apply Hk.
Qed.

(** The updates on a state that is written out, the innermost first *)
Section updates.
Context (m : sm_data) (x : vif) (l : list vif) (wq : list wait_evt) (ts : list timer) (po : list message) (cs : list net_call) (co : bool).
#[local] Abbreviation s := (Mgmt m (x :: l) wq ts po cs co).
Lemma with_sm_eq f : with_sm f s = Mgmt (f m) (x :: l) wq ts po cs co.
Proof. done. Qed.
Lemma do_call_eq c : do_call c s = Mgmt m (x :: l) wq ts po (cs ++ [c]) co.
Proof. done. Qed.
Lemma with_timers_eq f : with_timers f s = Mgmt m (x :: l) wq (f ts) po cs co.
Proof. done. Qed.
Lemma on_sta_eq f : vif_idx m = 0%nat -> on_sta f s = Mgmt m (upd_sta f x :: l) wq ts po cs co.
Proof. intros E. unfold on_sta, on_vif, with_tab. cbn. by rewrite E. Qed.
Lemma on_vif_eq f : vif_idx m = 0%nat -> on_vif f s = Mgmt m (f x :: l) wq ts po cs co.
Proof. intros E. unfold on_vif, with_tab. cbn. by rewrite E. Qed.
Lemma wvif_eq : vif_idx m = 0%nat -> wvif s = x.
Proof. intros E. unfold wvif. cbn. by rewrite E. Qed.
Lemma post_eq ev r : wq = [] -> post ev r s = Mgmt m (x :: l) [WaitEvt (vif_idx m) ev (u16 r)] ts po cs co.
Proof. by intros ->. Qed.
End updates.
Hint Rewrite with_sm_eq with_timers_eq do_call_eq on_sta_eq on_vif_eq wvif_eq post_eq using done : updates.

(** A connection a caller waits for, while nothing goes wrong: the state of the
    machine, its timeouts, the configuration and the first calls made. *)
Record linking (st : Z) (ts : list timer) (c : sta_cfg) (cs : list net_call) (w : system) : Prop := Linking {
  lk_machine : exists ev re pa dp rt pe ro ps sb m', wifi_sm_data w = [Sm 0 true st ev re pa dp false rt pe ro ps sb; m'];
  lk_shared : exists sm0 xs lr ip a y more, shared w =
    Mgmt sm0 [Vif WVIF_STA (WifiSta c xs lr ip) a; y] [] ts [] (cs ++ more) false;
  lk_blocked : conn_blocked c = true }.

Hypothesis scan_works : forall cs v x ch, net (cs ++ [wifi_netlink_scan_set v x ch]) = 0.
Hypothesis connect_works : forall cs x, cr_ret (connect_req cs x) = 0.
Hypothesis ip_comes : forall cs v, (net (cs ++ [net_ip_obtained v]) =? 0) = false.

Lemma scan_started i st ev re pa dp rt pe ro ps sb x l wq ts po cs conc :
  let x' := upd_sta (set_sta_state WIFI_STA_STATE_SCAN) x in
  sm_MAINTAIN_CONNECTION_SCAN_Enter net accepts (Mgmt (Sm 0 i st ev re pa dp false rt pe ro ps sb) (x :: l) wq ts po cs conc) =
  Mgmt (Sm 0 i MAINTAIN_CONNECTION_SCAN ev re pa dp false rt pe ro ps sb) (x' :: l) wq
    (not_for mgmt_link_status_polling_fn (not_for mgmt_dhcp_polling_fn ts)) po
    (cs ++ [wifi_netlink_scan_set 0 (if conn_with_bssid (cfg (sta x')) then None else Some (ssid (cfg (sta x')))) (target_channel (sta x'))]) conc.
Proof. unfold sm_MAINTAIN_CONNECTION_SCAN_Enter, ask, seq_steps. cbn. by rewrite scan_works. Qed.

Lemma connect_starts w name c upd :
  at_rest w -> wifi_concurrent_mode (shared w) = false ->
  conn_blocked c = true -> conn_with_bssid c = false -> channel c = 0xFF -> ssid c = name ->
  let s := shared w in
  linking MAINTAIN_CONNECTION_SCAN [] c (calls s ++ [wifi_netlink_scan_set 0 (Some name) 0xFF]) (serve (serve (System (wifi_sm_data w)
    (Mgmt (sm s) (alter (upd_sta upd) 0%nat (tab s)) [] (timers s) (posted s ++ connect_messages name c) (calls s) (wifi_concurrent_mode s))))).
Proof.
  intros [(l & [Hm Hst Hsh [_ _ Hidle] Hp] & Hph) Ht Hro] Hconc Hc Hb Hch Hname.
  pose proof (shown_state _ _ Hsh) as E. pose proof (sh_delayed _ _ Hsh) as Ed. rewrite Hidle in Ed by done. rewrite Hph in E.
  clear Hsh Hidle Hph. open_system w. destruct x as [ty xs a]; cbn in * |-; subst ty. cbn zeta.
  cbn [wifi_sm_data shared sm posted timers calls wifi_concurrent_mode tab app alter list_alter].
  unfold connect_messages. rewrite handles_switch by done. cbv zeta.
  rewrite (handles_message (Message 0 EV_CONNECT_CMD 0 (PCfg c)) []) by done. in_state.
  rewrite idle_connects, scan_started. settled. cbn [upd_sta set_cfg set_sta_state sta cfg]. rewrite Hb.
  replace (target_channel _) with 0xFF by (unfold target_channel; cbn; rewrite Hch; by case_match).
  split; [repeat eexists| |done]. eexists _, _, _, _, _, _, []. by rewrite app_nil_r.
Qed.

Ltac open_linking H :=
  destruct H as [(ev & re & pa & dp & rt & pe & ro & ps & sb & m' & Em) (sm0 & xs & lr & ip & a & y & more & Es) Hc];
  match goal with w : system |- _ => destruct w; cbn in Em, Es; subst end.

Ltac show_linking :=
  split; [repeat eexists| |]; cbn; auto; rewrite <-?app_assoc; repeat eexists.

Lemma connect_entered i st ev re pa dp de rt pe ro ps sb x l wq ts po cs :
  exists c' lr', conn_blocked c' = conn_blocked (cfg (sta x)) /\
  sm_MAINTAIN_CONNECTION_CONNECT_Enter net connect_req accepts (Mgmt (Sm 0 i st ev re pa dp de rt pe ro ps sb) (x :: l) wq ts po cs false) =
  Mgmt (Sm 0 i MAINTAIN_CONNECTION_CONNECT ev re pa dp de rt pe ro ps sb)
    (upd_sta (fun st => WifiSta c' WIFI_STA_STATE_CONNECT lr' (history_ip st)) x :: l) wq ts po
    (cs ++ [wifi_netlink_connect_req 0 (cfg (sta x))]) false.
Proof.
  unfold sm_MAINTAIN_CONNECTION_CONNECT_Enter, seq_steps. cbn. rewrite connect_works. cbn.
  eexists _, _. split; [|reflexivity]. reflexivity.
Qed.

Lemma found_linking c cs w :
  linking MAINTAIN_CONNECTION_SCAN [] c cs w ->
  exists c', linking MAINTAIN_CONNECTION_CONNECT [] c' cs (serve (arrives EV_SCAN_DONE w)) /\
    forall cs', calls (shared w) = cs' -> calls (shared (serve (arrives EV_SCAN_DONE w))) = cs' ++ [wifi_netlink_connect_req 0 c].
Proof.
  intros H. open_linking H. unfold arrives, with_posted.
  cbn [wifi_sm_data shared sm tab waitq timers posted calls wifi_concurrent_mode app].
  rewrite (handles_message (event_for_station EV_SCAN_DONE 0) []) by done. in_state.
  unfold scan_step; cbn [event sm].
  edestruct connect_entered as (c' & lr' & Hc' & ->). settled. exists c'. split; [|by intros cs' <-].
  show_linking. cbn in Hc'; congruence.
Qed.

Definition in_sta_state (st : Z) : vif -> vif := upd_sta (set_sta_state st).
Lemma handshake_entered i st ev re pa dp de rt pe ro ps sb x l wq ts po cs conc :
  sm_MAINTAIN_CONNECTION_HANDSHAKE_Enter (Mgmt (Sm 0 i st ev re pa dp de rt pe ro ps sb) (x :: l) wq ts po cs conc) =
  Mgmt (Sm 0 i MAINTAIN_CONNECTION_HANDSHAKE ev re pa dp de rt pe ro ps sb) (in_sta_state WIFI_STA_STATE_HANDSHAKE x :: l) wq ts po
    (cs ++ [wifi_netlink_associate_done 0]) conc.
Proof. reflexivity. Qed.

Definition dhcp_timer : timer := Timer mgmt_dhcp_polling_fn 0 WIFI_MGMT_DHCP_POLLING_INTERVAL.
Lemma dhcp_entered i st ev re pa dp de rt pe ro ps sb x l wq ts po cs conc :
  exists dp' more,
  sm_MAINTAIN_CONNECTION_DHCP_Enter net (Mgmt (Sm 0 i st ev re pa dp de rt pe ro ps sb) (x :: l) wq ts po cs conc) =
  Mgmt (Sm 0 i MAINTAIN_CONNECTION_DHCP ev re pa dp' de rt pe ro ps sb) (in_sta_state WIFI_STA_STATE_IP_GETTING x :: l) wq
    (ts ++ [dhcp_timer]) po (cs ++ more) conc.
Proof.
  unfold sm_MAINTAIN_CONNECTION_DHCP_Enter, ask, seq_steps, when; cbn. case_match; cbn; [|by eexists _, _].
  eexists _, [_; _]. unfold eloop_timeout_register, do_call, with_timers, with_sm; cbn. by rewrite <-app_assoc.
Qed.

Lemma associated_linking c cs w :
  linking MAINTAIN_CONNECTION_CONNECT [] c cs w -> linking MAINTAIN_CONNECTION_HANDSHAKE [] c cs (serve (arrives EV_ASSOC_SUCCESS w)).
Proof.
  intros H. open_linking H. unfold arrives, with_posted.
  cbn [wifi_sm_data shared sm tab waitq timers posted calls wifi_concurrent_mode app].
  rewrite (handles_message (event_for_station EV_ASSOC_SUCCESS 0) []) by done. in_state.
  unfold connect_step; cbn [event sm]. rewrite handshake_entered. settled. show_linking.
Qed.

Lemma secured_linking c cs w :
  linking MAINTAIN_CONNECTION_HANDSHAKE [] c cs w -> linking MAINTAIN_CONNECTION_DHCP [dhcp_timer] c cs (serve (arrives EV_DHCP_START w)).
Proof.
  intros H. open_linking H. unfold arrives, with_posted.
  cbn [wifi_sm_data shared sm tab waitq timers posted calls wifi_concurrent_mode app].
  rewrite (handles_message (event_for_station EV_DHCP_START 0) []) by done. in_state.
  unfold handshake_step; cbn [event sm]. edestruct dhcp_entered as (dp' & more' & ->). settled. show_linking.
Qed.

Lemma connected_entered i st ev re pa dp de rt pe ro ps sb x l wq ts po cs conc :
  conn_blocked (cfg (sta x)) = true -> wq = [] ->
  exists ro' x' more,
  sm_MAINTAIN_CONNECTION_CONNECTED_Enter net accepts (Mgmt (Sm 0 i st ev re pa dp de rt pe ro ps sb) (x :: l) wq ts po cs conc) =
  Mgmt (Sm 0 i MAINTAIN_CONNECTION_CONNECTED ev re pa dp de rt pe ro' ps sb) (x' :: l) [WaitEvt 0 CONN_DONE 0] ts po (cs ++ more) conc /\
  sta_state (sta x') = WIFI_STA_STATE_CONNECTED.
Proof.
  intros Hc ->. unfold sm_MAINTAIN_CONNECTION_CONNECTED_Enter, mgmt_post_conn_done, seq_steps.
  autorewrite with updates. cbn [cfg sta upd_sta set_sta_state set_last_reason]. rewrite Hc. cbn [negb].
  autorewrite with updates. unfold ask. cbn [sm]. autorewrite with updates. cbn [calls].
  autorewrite with updates. unfold when. case_match; autorewrite with updates;
    (eexists _, _; first [eexists [_; _; _]; split; [rewrite <-!app_assoc; reflexivity|reflexivity]
                        |eexists [_; _]; split; [rewrite <-!app_assoc; reflexivity|reflexivity]]).
Qed.

(** The address is there when the timeout looks for it. *)
Lemma ip_linking c cs w :
  linking MAINTAIN_CONNECTION_DHCP [dhcp_timer] c cs w ->
  let w' := serve (due w) in
  waitq (shared w') = [WaitEvt 0 CONN_DONE 0] /\ sm_state (wifi_sm_data w' !!! 0%nat) = MAINTAIN_CONNECTION_CONNECTED /\
  sta_state (sta (tab (shared w') !!! 0%nat)) = WIFI_STA_STATE_CONNECTED /\ cs `prefix_of` calls (shared w').
Proof.
  intros H. open_linking H.
  assert (exists more', due (System [Sm 0 true MAINTAIN_CONNECTION_DHCP ev re pa dp false rt pe ro ps sb; m']
       (Mgmt sm0 [Vif WVIF_STA (WifiSta c xs lr ip) a; y] [] [dhcp_timer] [] (cs ++ more) false)) =
     let m := Sm 0 true MAINTAIN_CONNECTION_DHCP ev re pa dp false rt pe ro ps sb in
     System [m; m'] (Mgmt m [Vif WVIF_STA (WifiSta c xs lr ip) a; y] [] [] [event_for_station EV_DHCP_SUCCESS 0] (cs ++ more') false))
    as [more' ->].
  { unfold due, on_machine, fire. cbn [wifi_sm_data shared]. autorewrite with updates.
    cbn [timers dhcp_timer run_timer t_fn app lookup_total list_lookup_total]. autorewrite with updates.
    unfold mgmt_dhcp_polling, ask. autorewrite with updates. cbn [calls sm vif_idx]. rewrite ip_comes. cbn [negb].
    unfold seq_steps, send_own, eloop_message_send. autorewrite with updates. cbn [calls posted sm vif_idx]. rewrite accepts_all.
    exists (more ++ [net_ip_obtained 0; net_if_set_default 0]). unfold with_posted. cbn. rewrite <-!app_assoc. reflexivity. }
  cbv zeta. rewrite (handles_message (event_for_station EV_DHCP_SUCCESS 0) []) by done. in_state.
  unfold dhcp_step; cbn [event sm]. unfold seq_steps, do_call.
  cbn [sm tab waitq timers posted calls wifi_concurrent_mode vif_idx].
  edestruct connected_entered as (ro' & x' & more'' & -> & Hx); [exact Hc|done|].
  unfold eloop_timeout_cancel, with_timers. settled. split_and!; try done.
  cbn. rewrite <-!app_assoc. by apply prefix_app_r.
Qed.

Lemma linking_calls st ts c cs w : linking st ts c cs w -> exists more, calls (shared w) = cs ++ more.
Proof. intros H. open_linking H. by exists more. Qed.
Lemma linking_whole st ts c cs w : linking st ts c cs w -> linking st ts c (calls (shared w)) w.
Proof. intros H. open_linking H. split; cbn; [by repeat eexists| |done]. eexists _, _, _, _, _, _, []. by rewrite app_nil_r. Qed.

(** C11: a connection that is asked for with a name and a password, and that nothing stands in the way of, is made: the
    network of that name is scanned for, a connection is requested with the given name and password,
    and after the association, the handshake and the address the blocked caller gets 0 and the station is connected. *)
Theorem connect_succeeds w name password :
  at_rest w -> wifi_concurrent_mode (shared w) = false ->
  Z.of_nat (length name) <= WIFI_SSID_MAX_LEN -> password_ok true (no_empty password) = true ->
  let r := wifi_management_connect accepts true true (Some name) password true (shared w) in
  let scanning := serve (serve (after_call w r)) in
  let secured := serve (arrives EV_DHCP_START (serve (arrives EV_ASSOC_SUCCESS (serve (arrives EV_SCAN_DONE scanning))))) in
  let up := serve (due secured) in
  answer (fst r) up = Some 0 /\
  sm_state (wifi_sm_data up !!! 0%nat) = MAINTAIN_CONNECTION_CONNECTED /\
  sta_state (sta (tab (shared up) !!! 0%nat)) = WIFI_STA_STATE_CONNECTED /\
  exists c between, ssid c = name /\ passphrase c = default [] (no_empty password) /\
    calls (shared w) ++ [wifi_netlink_scan_set 0 (Some name) 0xFF] ++ between ++ [wifi_netlink_connect_req 0 c]
    `prefix_of` calls (shared up).
Proof.
  intros Hw Hconc Hname Hpass r scanning secured up.
  destruct (connect_posts name password (shared w) accepts_all Hname Hpass) as (flush & keep & k & Er & Hk).
  set (c := StaCfg name (default [] (no_empty password)) 0xFF zero_addr false true flush) in *.
  assert (linking MAINTAIN_CONNECTION_SCAN [] c (calls (shared w) ++ [wifi_netlink_scan_set 0 (Some name) 0xFF]) scanning) as H1.
  { unfold scanning, after_call, r. rewrite Er. by apply connect_starts. }
  destruct (found_linking _ _ _ H1) as (c' & H2 & Hreq).
  destruct (linking_calls _ _ _ _ _ H1) as [between Hcs].
  destruct (ip_linking _ _ _ (secured_linking _ _ _ (associated_linking _ _ _ (linking_whole _ _ _ _ _ H2)))) as (Hq & Hst & Hsta & Hpre).
  fold secured in Hq, Hst, Hsta, Hpre. fold up in Hq, Hst, Hsta, Hpre. rewrite (Hreq _ eq_refl), Hcs in Hpre.
  split_and!; [|done|done|].
  - unfold r. rewrite Er. cbn [fst answer]. rewrite Hq. cbn. f_equal. apply Hk.
  - exists c, between. split_and!; [done|done|]. by rewrite <-!app_assoc in Hpre.
Qed.

(** ** Starting the soft AP *)

(** The first interface becomes an access point, whether or not the MAC follows. *)
Lemma handles_switch_to_ap rest st ev re pa dp de rt pe ro ps sb m' sm0 xs a l ts cs :
  exists st' ev' re' dp' de' rt' pe' ro' ps' sb' sm1 xs' a' ts' cs',
  serve (System [Sm 0 true st ev re pa dp de rt pe ro ps sb; m']
           (Mgmt sm0 (Vif WVIF_STA xs a :: l) [] ts (Message 0 EV_SWITCH_MODE_CMD WVIF_AP NoParam :: rest) cs false)) =
  System [Sm 0 true st' ev' re' NoParam dp' de' rt' pe' ro' ps' sb'; m'] (Mgmt sm1 (Vif WVIF_AP xs' a' :: l) [WaitEvt 0 DISCONN_DONE 0] ts' rest cs' false) /\
  st' = MAINTAIN_SOFTAP_INIT.
Proof.
  rewrite (serve_first _ _ (Message 0 EV_SWITCH_MODE_CMD WVIF_AP NoParam) rest) by done.
  unfold on_machine, wifi_mgmt_cb_run_state_machine, with_posted. cbn [wifi_sm_data shared m_vif m_event m_reason m_param].
  rewrite bool_decide_eq_false_2, bool_decide_eq_true_2 by done. cbn [Nat.leb CFG_VIF_NUM orb].
  cbn [sm tab waitq timers posted calls wifi_concurrent_mode lookup_total list_lookup_total]. autorewrite with updates.
  unfold mgmt_switch_mode. cbn [set_message sm reason vif_idx]. autorewrite with updates. cbn [wvif_type Z.eqb WVIF_STA WVIF_AP Pos.eqb].
  unfold seq_steps at 1 2 3 4 5 6. autorewrite with updates.
  unfold sm_MAINTAIN_CONNECTION_IDLE_Enter, eloop_timeout_cancel, mgmt_post_disconn_done, seq_steps.
  autorewrite with updates. cbn [sm vif_idx set_state set_delayed set_message]. autorewrite with updates.
  unfold ask. autorewrite with updates. cbn [calls].
  repeat case_match; autorewrite with updates; (split; [do 15 eexists; reflexivity|done] || (do 15 eexists; split; reflexivity)).
Qed.

(** What the machine does with the result of the start. *)
Definition conclude (ret : Z) : mgmt -> mgmt :=
  if ret =? 0 then sm_MAINTAIN_SOFTAP_STARTED_Enter ;> mgmt_post_ap_start_done 0
  else sm_MAINTAIN_SOFTAP_INIT_Enter net ;> mgmt_post_ap_start_done 1.

(** How a start ends: the answer that is queued, the state of the interface and of
    the machine. *)
Definition concluded (s : mgmt) : Prop :=
  exists ret m x l ts cs, s = Mgmt m (x :: l) [WaitEvt 0 DISCONN_DONE 0; WaitEvt 0 AP_START_DONE ret] ts [] cs false /\ vif_idx m = 0%nat /\
    ((ret = 0 /\ ap_state (ap x) = WIFI_AP_STATE_STARTED /\ sm_state m = MAINTAIN_SOFTAP_STARTED) \/
     (ret = 1 /\ ap_state (ap x) = WIFI_AP_STATE_INIT /\ sm_state m = MAINTAIN_SOFTAP_INIT)).

Lemma conclude_concludes ret m x l ts cs :
  vif_idx m = 0%nat -> concluded (conclude ret (Mgmt m (x :: l) [WaitEvt 0 DISCONN_DONE 0] ts [] cs false)).
Proof.
  intros Hv. destruct m; cbn in Hv; subst. unfold conclude. destruct (ret =? 0).
  - unfold sm_MAINTAIN_SOFTAP_STARTED_Enter, mgmt_post_ap_start_done, seq_steps. autorewrite with updates.
    exists 0. do 5 eexists. split; [reflexivity|]. split; [done|]. left. done.
  - unfold sm_MAINTAIN_SOFTAP_INIT_Enter, wifi_netlink_ap_stop, ask, mgmt_post_ap_start_done, seq_steps. autorewrite with updates.
    exists 1. repeat case_match; autorewrite with updates; (do 5 eexists; split; [reflexivity|]; split; [done|]; right; done).
Qed.

Lemma ap_start_concludes c m x l ts cs :
  vif_idx m = 0%nat ->
  concluded (wifi_netlink_ap_start net c conclude (Mgmt m (x :: l) [WaitEvt 0 DISCONN_DONE 0] ts [] cs false)).
Proof.
  intros Hv. unfold wifi_netlink_ap_start, ask, seq_steps. autorewrite with updates.
  destruct (negb _); [by apply conclude_concludes|]. destruct (negb _); [by apply conclude_concludes|].
  destruct (match c with Some _ => _ | None => _ end); [by apply conclude_concludes|].
  destruct c; cbn [sm]; autorewrite with updates; (destruct (negb _); autorewrite with updates; by apply conclude_concludes).
Qed.

Lemma handles_start_ap c st ev re pa dp de rt pe ro ps sb m' sm0 xs a l ts cs :
  st = MAINTAIN_SOFTAP_INIT ->
  exists s m1, serve (System [Sm 0 true st ev re pa dp de rt pe ro ps sb; m']
    (Mgmt sm0 (Vif WVIF_AP xs a :: l) [WaitEvt 0 DISCONN_DONE 0] ts [Message 0 EV_START_AP_CMD 0 (PAp c)] cs false)) =
    System [m1; m'] (with_sm (fun _ => m1) s) /\ concluded s /\ sm_state m1 = sm_state (sm s).
Proof.
  intros ->. rewrite (serve_first _ _ (Message 0 EV_START_AP_CMD 0 (PAp c)) []) by done.
  unfold on_machine, wifi_mgmt_cb_run_state_machine, with_posted. cbn [wifi_sm_data shared m_vif m_event m_reason m_param].
  rewrite !bool_decide_eq_false_2 by done. cbn [Nat.leb CFG_VIF_NUM orb].
  cbn [sm tab waitq timers posted calls wifi_concurrent_mode lookup_total list_lookup_total]. autorewrite with updates.
  cbn [set_message wvif_type Z.eqb Pos.eqb WVIF_AP WVIF_STA].
  unfold sm_MAINTAIN_SOFTAP_Step, needs_init. cbn [sm init event sm_state negb orb].
  rewrite bool_decide_eq_false_2 by done. cbn [Z.eqb MAINTAIN_SOFTAP_INIT]. unfold softap_init_step. cbn [sm event].
  match goal with |- context [wifi_netlink_ap_start net ?c ?k ?s] =>
    change (wifi_netlink_ap_start net c k s) with (wifi_netlink_ap_start net c conclude s); pose proof (ap_start_concludes c (sm s) (Vif WVIF_AP xs a) l ts cs eq_refl) as H;
    set (s1 := wifi_netlink_ap_start net c conclude s) in * end.
  exists s1, (set_message (vif_idx (sm s1)) (event (sm s1)) (reason (sm s1)) NoParam (sm s1)). done.
Qed.

Lemma ap_start_posts akm_of mac name passwd chan auth_mode hidden s :
  wifi_concurrent_mode s = false -> Z.of_nat (length name) <= WIFI_SSID_MAX_LEN ->
  password_ok false (no_empty passwd) = true -> 1 <= chan <= 14 ->
  exists c k, wifi_management_ap_start net accepts true true akm_of mac (Some name) passwd chan auth_mode hidden s =
    (Waits 0 AP_START_DONE 10000 k,
     Mgmt (sm s) (tab s) [] (timers s)
       (posted s ++ [Message 0 EV_SWITCH_MODE_CMD WVIF_STA NoParam; Message 0 EV_SWITCH_MODE_CMD WVIF_AP NoParam; Message 0 EV_START_AP_CMD 0 (PAp c)])
       (calls s) false) /\
    ap_ssid c = name /\ ap_channel c = chan /\ forall r s, fst (k r s) = if r =? 0 then 0 else -9.
Proof.
  intros Hco Hname Hpass Hch. unfold wifi_management_ap_start, wifi_management_ap_stop, ap_start_request, api_send, eloop_message_send.
  rewrite fits_name, Hpass, Hco by done. rewrite (proj2 (Z.ltb_ge 14 chan)), (proj2 (Z.ltb_ge chan 1)) by lia. cbn [negb orb].
  rewrite !accepts_all. cbn [with_posted wifi_concurrent_mode]. rewrite Hco. cbn -[u8].
  eexists _, _. split.
  - unfold with_posted, mgmt_wait_queue_flush, with_waitq; cbn -[u8]. rewrite <-!app_assoc, Hco. reflexivity.
  - split_and!; [reflexivity| |intros r s'; cbn; by destruct (r =? 0)].
    cbn -[u8]. unfold u8. rewrite Z.mod_small; lia.
Qed.

(** C12: starting the soft AP is always answered, and truthfully: whatever the station was doing and whatever the layers
    below answer, the call returns 0 exactly when the access point has been started, and -9 when the machine is
    back in its first state. *)
Theorem ap_start_answers w l akm_of mac name passwd chan auth_mode hidden :
  station_ready w l -> wifi_concurrent_mode (shared w) = false ->
  Z.of_nat (length name) <= WIFI_SSID_MAX_LEN -> password_ok false (no_empty passwd) = true -> 1 <= chan <= 14 ->
  let r := wifi_management_ap_start net accepts true true akm_of mac (Some name) passwd chan auth_mode hidden (shared w) in
  let w' := serve (serve (serve (after_call w r))) in
  (answer (fst r) w' = Some 0 /\ ap_state (ap (tab (shared w') !!! 0%nat)) = WIFI_AP_STATE_STARTED /\
     sm_state (wifi_sm_data w' !!! 0%nat) = MAINTAIN_SOFTAP_STARTED) \/
  (answer (fst r) w' = Some (-9) /\ ap_state (ap (tab (shared w') !!! 0%nat)) = WIFI_AP_STATE_INIT /\
     sm_state (wifi_sm_data w' !!! 0%nat) = MAINTAIN_SOFTAP_INIT).
Proof.
  intros [Hm Hst Hsh _ Hp] Hco Hname Hpass Hch r w'. clear Hsh.
  destruct (ap_start_posts akm_of mac name passwd chan auth_mode hidden (shared w) Hco Hname Hpass Hch) as (c & k & Er & _ & _ & Hk).
  assert (exists s m1 m', w' = System [m1; m'] (with_sm (fun _ => m1) s) /\ concluded s /\ sm_state m1 = sm_state (sm s)) as (s & m1 & m' & E & Hc & Hs).
  { unfold w', after_call, r. rewrite Er. clear Er w' r. open_system w. destruct x as [ty xs a]; cbn in * |-; subst ty.
    cbn [wifi_sm_data shared sm posted timers calls tab app snd].
    rewrite handles_switch by done. cbv zeta.
    edestruct handles_switch_to_ap as (st' & ev' & re' & dp' & de' & rt' & pe' & ro' & ps' & sb' & sm1 & xs' & a' & ts' & cs' & -> & Hst').
    edestruct handles_start_ap as (s & m1 & -> & Hc & Hs); [exact Hst'|]. eauto 8. }
  destruct Hc as (ret & m & x & l' & ts & cs & -> & Hv & Hcase). cbn [sm] in Hs.
  clearbody w'. subst w'. unfold r. rewrite Er. clear Er r.
  cbn [fst answer shared waitq with_sm map mgmt_wait_queue_fetch w_vif w_evt w_reason tab wifi_sm_data lookup_total list_lookup_total].
  rewrite decide_False, decide_True by naive_solver. rewrite Hk, Hs.
  destruct Hcase as [(-> & ? & ?)|(-> & ? & ?)]; [left|right]; auto.
Qed.
End api.

(** ** Examples *)
Definition station_at (p : phase) : system := System [sm (station_in p 2 false []); sm_zero] (station_in p 2 false []).
Definition last_is (f : net_call -> bool) (x : Z) (cs : list net_call) : Z :=
  match last cs with Some c => if f c then x else 0 | None => 0 end.
Definition asks_for_ip (c : net_call) : bool := match c with net_ip_obtained _ => true | _ => false end.

Lemma station_at_ready p : station_ready (station_at p) (Link p false 2 false false 0).
Proof.
  split; [done|apply station_in_station|exact (station_in_shows p 2 false false)| |done].
  split; [vm_compute; split; congruence|discriminate|done].
Qed.
Lemma station_at_rest : at_rest (station_at Idle).
Proof. split; [|done..]. eexists. split; [apply station_at_ready|done]. Qed.
Lemma last_is_snoc f x cs c : f c = true -> last_is f x (cs ++ [c]) = x.
Proof. intros Hf. unfold last_is. by rewrite last_snoc, Hf. Qed.
Lemma last_is_other f x cs c : f c = false -> last_is f x (cs ++ [c]) = 0.
Proof. intros Hf. unfold last_is. by rewrite last_snoc, Hf. Qed.


Lemma failed_connect_reports_success_witness :
  let net := last_is is_scan (-1) in
  let accepts := fun _ : list message => true in
  let serve := dispatch_next net same_connect (fun _ => None) (fun _ => None) sta ap accepts in
  let due := due net accepts in
  let r := wifi_management_connect accepts true true (Some [104; 111; 109; 101]) None true (shared (station_at Idle)) in
  let started := serve (serve (after_call (station_at Idle) r)) in
  let retried := due (serve (due (serve started))) in
  let ended := serve retried in
  answer (fst r) ended = Some 0 /\ sm_state (wifi_sm_data ended !!! 0%nat) = MAINTAIN_CONNECTION_IDLE /\
  posted (shared ended) = [] /\ timers (shared ended) = [].
Proof.
  apply (failed_connect_reports_success (last_is is_scan (-1)) same_connect (fun _ => None) (fun _ => None) sta ap (fun _ => true)).
  - intros. by rewrite last_is_snoc.
  - done.
  - apply station_at_rest.
  - vm_compute. discriminate.
  - done.
Defined.

Lemma connect_succeeds_witness :
  let net := last_is asks_for_ip 1 in
  let accepts := fun _ : list message => true in
  let serve := dispatch_next net same_connect (fun _ => None) (fun _ => None) sta ap accepts in
  let r := wifi_management_connect accepts true true (Some [104; 111; 109; 101]) (Some (seqZ 97 8)) true (shared (station_at Idle)) in
  let scanning := serve (serve (after_call (station_at Idle) r)) in
  let secured := serve (arrives EV_DHCP_START (serve (arrives EV_ASSOC_SUCCESS (serve (arrives EV_SCAN_DONE scanning))))) in
  let up := serve (due net accepts secured) in
  answer (fst r) up = Some 0 /\
  sm_state (wifi_sm_data up !!! 0%nat) = MAINTAIN_CONNECTION_CONNECTED /\
  sta_state (sta (tab (shared up) !!! 0%nat)) = WIFI_STA_STATE_CONNECTED /\
  exists c between, ssid c = [104; 111; 109; 101] /\ passphrase c = seqZ 97 8 /\
    [] ++ [wifi_netlink_scan_set 0 (Some [104; 111; 109; 101]) 0xFF] ++ between ++ [wifi_netlink_connect_req 0 c]
    `prefix_of` calls (shared up).
Proof.
  apply (connect_succeeds (last_is asks_for_ip 1) same_connect (fun _ => None) (fun _ => None) sta ap (fun _ => true)).
  - done.
  - intros. by apply last_is_other.
  - done.
  - intros. by rewrite last_is_snoc.
  - apply station_at_rest.
  - done.
  - vm_compute. discriminate.
  - done.
Defined.

Lemma ap_start_answers_witness :
  let accepts := fun _ : list message => true in
  let serve := dispatch_next quiet_net same_connect (fun _ => None) (fun _ => None) sta ap accepts in
  let r := wifi_management_ap_start quiet_net accepts true true (fun _ => 0) (fun _ => zero_addr) (Some [104; 111; 109; 101]) None 6 0 0
    (shared (station_at Connected)) in
  let w' := serve (serve (serve (after_call (station_at Connected) r))) in
  (answer (fst r) w' = Some 0 /\ ap_state (ap (tab (shared w') !!! 0%nat)) = WIFI_AP_STATE_STARTED /\
     sm_state (wifi_sm_data w' !!! 0%nat) = MAINTAIN_SOFTAP_STARTED) \/
  (answer (fst r) w' = Some (-9) /\ ap_state (ap (tab (shared w') !!! 0%nat)) = WIFI_AP_STATE_INIT /\
     sm_state (wifi_sm_data w' !!! 0%nat) = MAINTAIN_SOFTAP_INIT).
Proof.
  apply (ap_start_answers quiet_net same_connect (fun _ => None) (fun _ => None) sta ap (fun _ => true) (fun _ => eq_refl) _ _ _ _ _ _ _ _ _
    (station_at_ready Connected)).
  - done.
  - vm_compute. discriminate.
  - done.
  - lia.
Defined.
