(* ===== verification/Shell.v ===== *)
(** * Command lines of [MSDK/app/cmd_shell.c] and [MSDK/app/atcmd.c]

    The line editor in the interrupt of the log UART, the queue and the ring
    buffer between it and the CLI task, the split of a line into a command and
    its parameters, and the choice of the handler; the parser of AT commands;
    the parsers of IP and MAC addresses.  The ring buffer is [CyclicBuffer]. *)
From S2P Require Import Prelude Chars CyclicBuffer.
From stdpp Require Import strings.

#[local] Open Scope Z_scope.

Definition UART_BUFFER_SIZE : Z := 128.
Definition MAX_ARGC : nat := 16.
Definition AT_MAX_ARGC : nat := 15.
Definition CLI_QUEUE_SIZE : nat := 3.
Definition CMD_MODULE_MAX : nat := 4.
Definition CLI_SUCCESS : Z := 0.
Definition CLI_ERROR : Z := 1.
Definition CLI_UNKWN_CMD : Z := 2.

(** ** Parameters *)

(** [get_next_param]: the parameter, and what [*params] points to afterwards;
    [None] is a null pointer. *)
Definition next_param (is_quote : Z -> bool) (sep : Z) (skip : Z -> bool) (params : option bytes)
    : option bytes * option bytes :=
  match params with
  | None => (None, None)
  | Some ptr =>
      let '(sep, ptr) := match ptr with
        | q :: r => if is_quote q then (q, r) else (sep, ptr)
        | [] => (sep, ptr)
        end in
      match strchr sep ptr with
      | Some (param, next) => (Some param, match skip_while skip next with [] => None | next => Some next end)
      | None => (Some ptr, None)
      end
  end.

Definition SPACE : Z := 32.
Definition is_quote (c : Z) : bool := (c =? 34) || (c =? 39).
Definition get_next_param : option bytes -> option bytes * option bytes := next_param is_quote SPACE (fun c => c =? SPACE).

(** The parameters that are stored while [argc < n]. *)
Fixpoint param_loop (next : option bytes -> option bytes * option bytes) (n : nat) (buf : option bytes) : list bytes :=
  match n, next buf with
  | S n, (Some param, buf) => param :: param_loop next n buf
  | _, _ => []
  end.

Definition parse_cmd (buf : option bytes) : list bytes :=
  match buf with None => [] | Some _ => param_loop get_next_param MAX_ARGC buf end.

(** ** The command of a line *)

(** [command]: the memory from the buffer of the message on.  [None]: a write
    before the buffer. *)
Definition cmd_param_separate (command : bytes) (command_len : Z) : option (bytes * option bytes) :=
  match strchr SPACE (cstr command) with
  | Some (c, param) => Some (c, Some (skip_while (fun c => c =? SPACE) param))
  | None =>
      if command_len <=? 0 then None
      else Some (cstr (<[Z.to_nat (command_len - 1) := 0]> command), None)
  end.

(** [cmd_module_reg_info]; handlers are numbers. *)
Record cmd_module := CmdModule {
  prefix : option bytes; get_handle_cb : bytes -> Z * nat; parse_cb : option (option bytes -> list bytes) }.

Definition cmd_common_handle (cmd_table : list (bytes * nat)) (data : bytes) : Z * nat :=
  match list_find (fun e => e.1 = data) cmd_table with
  | Some (_, (_, h)) => (CLI_SUCCESS, h)
  | None => (CLI_UNKWN_CMD, 0%nat)
  end.

Definition cmd_module_reg (id : nat) (m : option cmd_module) (infos : list (option cmd_module)) : Z * list (option cmd_module) :=
  match m with
  | Some _ => if decide (id < CMD_MODULE_MAX)%nat then (CLI_SUCCESS, <[id := m]> infos) else (CLI_ERROR, infos)
  | None => (CLI_ERROR, infos)
  end.

(** [memcmp(command, prefix, strlen(prefix)) == 0] *)
Definition has_prefix (command : bytes) (p : option bytes) : bool :=
  match p with None => true | Some p => bool_decide (take (length p) command = p) end.

Fixpoint find_handle (infos : list (option cmd_module)) (command : bytes) (res : Z)
    : Z * (nat * (option bytes -> list bytes)) :=
  match infos with
  | [] => (res, (0%nat, parse_cmd))
  | Some m :: infos =>
      if has_prefix command (prefix m) then
        let '(res, h) := get_handle_cb m command in
        if res =? CLI_SUCCESS then (res, (h, default parse_cmd (parse_cb m)))
        else if res =? CLI_ERROR then (res, (h, parse_cmd))
        else find_handle infos command res
      else find_handle infos command res
  | None :: infos => find_handle infos command res
  end.

(** What the task does with a line.  [Overrun]: it writes outside the buffer of
    the message or behind [argv], which has [MAX_ARGC] elements. *)
Inductive result := Help | Ran (handle : nat) (argv : list bytes) | Unknown (command : bytes) | Failed | Overrun.

Definition run_line (infos : list (option cmd_module)) (command : bytes) (len : Z) : result :=
  match cmd_param_separate command len with
  | None => Overrun
  | Some (command, param) =>
      if bool_decide (command = chars "help") then Help
      else
        let '(res, (handle, parse)) := find_handle infos command CLI_UNKWN_CMD in
        if res =? CLI_SUCCESS then
          let params := parse param in
          if decide (MAX_ARGC <= length params)%nat then Overrun else Ran handle (command :: params)
        else if res =? CLI_UNKWN_CMD then Unknown command
        else Failed
  end.

(** ** From the interrupt to the task *)

(** [cmd_queue]: the lengths of the queued messages, which all point to the ring
    buffer; [msg]: the message the task works on; [done]: what it did. *)
Record shell := Shell {
  uart_buf : bytes; uart_index : Z; uart_cyc_buf : option cyclic_buf; cmd_queue : list Z; msg : option Z;
  cmd_infos : list (option cmd_module); done : list result }.

Definition uart_cmd_rx_indicate (s : shell) : shell :=
  if decide (length (cmd_queue s) < CLI_QUEUE_SIZE)%nat then
    let n := uart_index s + 1 in
    Shell (uart_buf s) 0 (cyclic_buf_write (uart_cyc_buf s) (take (Z.to_nat (u16 n)) (uart_buf s))).2
      (cmd_queue s ++ [u16 n]) (msg s) (cmd_infos s) (done s)
  else Shell (uart_buf s) 0 (uart_cyc_buf s) (cmd_queue s) (msg s) (cmd_infos s) (done s).

Definition set_line (b : bytes) (i : Z) (s : shell) : shell :=
  Shell b i (uart_cyc_buf s) (cmd_queue s) (msg s) (cmd_infos s) (done s).
Definition put_char (i ch : Z) (b : bytes) : bytes := <[Z.to_nat i := ch]> b.

Definition isprint (c : Z) : bool := (0x20 <=? c) && (c <=? 0xff).

(** A character other than the terminator; the echo is left out. *)
Definition rx_char (ch : Z) (s : shell) : shell :=
  let i := uart_index s in
  if isprint ch then
    set_line (put_char i ch (uart_buf s)) (if UART_BUFFER_SIZE <=? u32 (i + 1) then 0 else u32 (i + 1)) s
  else if ch =? 13 then
    let s := set_line (put_char i 0 (uart_buf s)) i s in
    if 0 <? i then uart_cmd_rx_indicate s else s
  else if ch =? 8 then
    if 0 <? i then set_line (put_char (i - 1) 0 (uart_buf s)) (i - 1) s else s
  else s.

(** One interrupt: what the receiver holds; the characters it leaves there. *)
Fixpoint log_uart_rx_irq_hdl (received : bytes) (s : shell) : shell * bytes :=
  match received with
  | [] => (s, [])
  | ch :: received => if ch =? 0 then (s, received) else log_uart_rx_irq_hdl received (rx_char ch s)
  end.

Definition uart_cmd_rx_handle_done (cyc : option cyclic_buf) (buf : bool) (len : Z) : Z * bytes * option cyclic_buf :=
  let len := if cyclic_buf_count cyc <? len then cyclic_buf_count cyc else len in
  if buf then let '(_, data, cyc) := cyclic_buf_read cyc len in (len, data, cyc)
  else (len, [], (cyclic_buf_drop cyc len).2).

Definition read_message (s : shell) : shell :=
  match msg s, cmd_queue s with
  | None, len :: q => Shell (uart_buf s) (uart_index s) (uart_cyc_buf s) q (Some len) (cmd_infos s) (done s)
  | _, _ => s
  end.

(** [mem]: the buffer for the line was allocated, [junk]: what it held and what
    is behind it. *)
Definition cmn_cmd_exec (mem : bool) (junk : bytes) (s : shell) : shell :=
  match msg s with
  | None => s
  | Some len =>
      let '(len, data, cyc) := uart_cmd_rx_handle_done (uart_cyc_buf s) mem len in
      Shell (uart_buf s) (uart_index s) cyc (cmd_queue s) None (cmd_infos s)
        (if mem then done s ++ [run_line (cmd_infos s) (data ++ junk) len] else done s)
  end.

(** [log_uart_rx_init] and [cmd_shell_init] *)
Definition shell_start (infos : list (option cmd_module)) (cyc : cyclic_buf) : shell :=
  Shell (replicate (Z.to_nat UART_BUFFER_SIZE) 0) 0 (cyclic_buf_init (Some cyc) (4 * UART_BUFFER_SIZE) true).2 [] None infos [].

Inductive event := Irq (received : bytes) | Read | Exec (mem : bool) (junk : bytes).
Definition step (s : shell) (ev : event) : shell :=
  match ev with
  | Irq received => (log_uart_rx_irq_hdl received s).1
  | Read => read_message s
  | Exec mem junk => cmn_cmd_exec mem junk s
  end.
Definition steps : shell -> list event -> shell := foldl step.

(** ** AT commands *)
Definition at_get_next_param : option bytes -> option bytes * option bytes :=
  next_param (fun c => c =? 39) 44 (fun c => (c =? SPACE) || (c =? 44)).

(** The scan for the end of the command: what is before it, and, when it ends
    with an equals sign, what is behind that. *)
Fixpoint at_command (s : bytes) : bytes * option bytes :=
  match s with
  | [] => ([], None)
  | b :: r =>
      if b =? 61 then ([], Some r)
      else if (b =? 13) || (b =? 10) then ([], None)
      else let '(c, p) := at_command r in (b :: c, p)
  end.

(** [argv] *)
Definition atcmd_parse (atcmd : bytes) : list bytes :=
  let '(c, p) := at_command (cstr atcmd) in
  match p with
  | None => [c]
  | Some p => c :: param_loop at_get_next_param (AT_MAX_ARGC - 1) (Some p)
  end.

(** The test of an entry of the table. *)
Definition at_matches (c name : bytes) : bool :=
  bool_decide (c = name) || bool_decide (c = name ++ [63]).

(** ** Addresses *)
Definition is_num (s : bytes) : bool := forallb (fun c => (48 <=? c) && (c <=? 57)) s.

(** [atoi] of digits: [long] is 32 bits wide, and a larger value is cut off. *)
Definition atoi (s : bytes) : Z := Z.min (foldl (fun a c => 10 * a + (c - 48)) 0 s) (2 ^ 31 - 1).

(** The shift by 32 is done with its low five bits. *)
Definition ip4_mask (a : Z) : Z := u32 (Z.shiftl 1 (a mod 32) - 1).

Fixpoint ip4_parts (n : nat) (i : Z) (str : bytes) (ip : Z) : option Z :=
  let part s := if is_num s && (atoi s <=? 255) then Some (u32 (ip + Z.shiftl (atoi s) (i * 8))) else None in
  match n with
  | O => part str
  | S n =>
      match strchr 46 str with
      | None => None
      | Some (s, token) => match part s with Some ip => ip4_parts n (i + 1) token ip | None => None end
      end
  end.

(** [mask]: the caller passed a pointer for it. *)
Definition cli_parse_ip4 (str : bytes) (mask : bool) : option (Z * Z) :=
  let ip s m := match ip4_parts 3 0 s 0 with Some ip => Some (ip, m) | None => None end in
  match strchr 47 str, mask with
  | Some (s, token), true =>
      if is_num token && negb ((atoi token =? 0) || (32 <? atoi token)) then ip s (ip4_mask (atoi token)) else None
  | None, true => ip str 0xffffffff
  | _, false => ip str 0
  end.
