(* ===== verification/ShellSpec.v ===== *)
(** * What the shell promises

    The abstract desk: a line being typed, lines waiting, the line in work and
    the lines done.  The theorems: the shell over its ring buffer is such a desk,
    a command typed with quoted parameters reaches its handler with them, and
    addresses read back; with what happens beyond the limits. *)
From S2P Require Import Prelude Chars CyclicBuffer Shell.
From stdpp Require Import strings.

#[local] Open Scope Z_scope.

(** ** The desk *)
Record desk := Desk { typed : bytes; waiting : list bytes; running : option bytes; ran : list bytes }.

Definition no_lines : desk := Desk [] [] None [].

Definition type_char (ch : Z) (d : desk) : desk :=
  if isprint ch then
    Desk (if decide (length (typed d) < 127)%nat then typed d ++ [ch] else []) (waiting d) (running d) (ran d)
  else if ch =? 13 then
    if decide (typed d = []) then d
    else Desk [] (if decide (length (waiting d) < CLI_QUEUE_SIZE)%nat then waiting d ++ [typed d] else waiting d) (running d) (ran d)
  else if ch =? 8 then Desk (take (length (typed d) - 1) (typed d)) (waiting d) (running d) (ran d)
  else d.

Fixpoint type_chars (received : bytes) (d : desk) : desk :=
  match received with
  | [] => d
  | ch :: received => if ch =? 0 then d else type_chars received (type_char ch d)
  end.

Definition desk_step (d : desk) (ev : event) : desk :=
  match ev with
  | Irq received => type_chars received d
  | Read =>
      match running d, waiting d with
      | None, l :: q => Desk (typed d) q (Some l) (ran d)
      | _, _ => d
      end
  | Exec mem _ =>
      match running d with
      | None => d
      | Some l => Desk (typed d) (waiting d) None (if mem then ran d ++ [l] else ran d)
      end
  end.
Definition desk_steps : desk -> list event -> desk := foldl desk_step.

(** No line ends with more than 126 characters. *)
Fixpoint typed_short (received : bytes) (d : desk) : Prop :=
  match received with
  | [] => True
  | ch :: received =>
      if ch =? 0 then True
      else (ch = 13 -> (length (typed d) <= 126)%nat) /\ typed_short received (type_char ch d)
  end.
Fixpoint short_lines (evs : list event) (d : desk) : Prop :=
  match evs with
  | [] => True
  | ev :: evs => match ev with Irq received => typed_short received d | _ => True end /\ short_lines evs (desk_step d ev)
  end.

(** What the task does with a line [l]: its message is the line and the terminator. *)
Definition do_line (infos : list (option cmd_module)) (l : bytes) : result :=
  run_line infos (l ++ [0]) (Z.of_nat (length l) + 1).

(** ** The relation *)
Definition line_ok (l : bytes) : Prop := (length l <= 126)%nat /\ Forall (fun c => isprint c = true) l.
Definition msg_len (l : bytes) : Z := Z.of_nat (length l) + 1.
Definition in_ring (d : desk) : list bytes := option_list (running d) ++ waiting d.
Definition ring_bytes (ls : list bytes) : bytes := concat ((fun l => l ++ [0]) <$> ls).

Record edits (b : bytes) (i : Z) (l : bytes) : Prop := {
  ed_buf : length b = 128%nat;
  ed_index : i = Z.of_nat (length l);
  ed_typed : take (length l) b = l;
  ed_short : (length l < 128)%nat;
  ed_print : Forall (fun c => isprint c = true) l }.

Record shows (s : shell) (d : desk) : Prop := {
  sh_edits : edits (uart_buf s) (uart_index s) (typed d);
  sh_queue : cmd_queue s = msg_len <$> waiting d;
  sh_msg : msg s = msg_len <$> running d;
  sh_few : (length (waiting d) <= CLI_QUEUE_SIZE)%nat;
  sh_lines : Forall line_ok (in_ring d);
  sh_ring : exists c, uart_cyc_buf s = Some c /\ wf c /\ capacity c = 511 /\ contents c = ring_bytes (in_ring d);
  sh_done : done s = do_line (cmd_infos s) <$> ran d }.

Lemma isprint_byte c : isprint c = true -> c <> 0.
Proof. unfold isprint. lia. Qed.

Lemma printable_no_nul l : Forall (fun c => isprint c = true) l -> no_nul l.
Proof. intros H. eapply Forall_impl; [exact H|]. intros c. apply isprint_byte. Qed.

Lemma ring_bytes_app l1 l2 : ring_bytes (l1 ++ l2) = ring_bytes l1 ++ ring_bytes l2.
Proof. unfold ring_bytes. by rewrite fmap_app, concat_app. Qed.

Lemma length_ring_bytes ls : Forall line_ok ls -> (length (ring_bytes ls) <= 127 * length ls)%nat.
Proof.
  induction 1 as [|l ls [Hl _] _ IH]; [done|]. unfold ring_bytes in *. cbn [fmap list_fmap concat].
  rewrite !length_app. cbn [length] in *. lia.
Qed.

(** ** Typing *)
Lemma edits_put b i l ch : edits b i l -> isprint ch = true ->
  edits (put_char i ch b) (if UART_BUFFER_SIZE <=? u32 (i + 1) then 0 else u32 (i + 1))
    (if decide (length l < 127)%nat then l ++ [ch] else []).
Proof.
  intros [Hb Hi Ht Hs Hp] Hc. rewrite Hi. unfold put_char. rewrite Nat2Z.id.
  rewrite u32_small by (unfold in_width; lia). unfold UART_BUFFER_SIZE.
  case_decide as Hl; [rewrite (proj2 (Z.leb_gt _ _)) by lia|rewrite (proj2 (Z.leb_le _ _)) by lia];
    split; rewrite ?length_insert, ?length_app; cbn [length]; try done; try lia.
  - apply list_eq. intros j. destruct (decide (j < length l + 1)%nat) as [Hlt|Hge].
    + rewrite lookup_take_lt by lia. destruct (decide (j = length l)) as [->|Hne].
      * rewrite list_lookup_insert_eq by lia. by rewrite lookup_app_r, Nat.sub_diag by lia.
      * rewrite list_lookup_insert_ne by done. rewrite lookup_app_l by lia. rewrite <- Ht at 1. by rewrite lookup_take_lt by lia.
    + rewrite !lookup_ge_None_2; [done|rewrite length_app; cbn; lia|rewrite length_take; lia].
  - rewrite Forall_app. by repeat constructor.
Qed.

Lemma edits_back b i l : edits b i l -> 0 < i ->
  edits (put_char (i - 1) 0 b) (i - 1) (take (length l - 1) l).
Proof.
  intros [Hb Hi Ht Hs Hp] Hpos. rewrite Hi in *. split; unfold put_char;
    rewrite ?length_insert, ?length_take; try done; try lia.
  - rewrite Nat.min_l by lia. rewrite take_insert_ge by lia. rewrite <- Ht at 3. by rewrite take_take, Nat.min_l by lia.
  - by apply Forall_take.
Qed.

Lemma edits_nil b i : length b = 128%nat -> i = 0 -> edits b i [].
Proof. intros Hb Hi. split; cbn; try done; try lia. Qed.

(** The line as it is posted, with the terminator. *)
Lemma edits_message b j l : edits b j l -> take (S (length l)) (put_char j 0 b) = l ++ [0].
Proof.
  intros [Hb Hi Ht Hs Hp]. unfold put_char. rewrite Hi, Nat2Z.id.
  apply list_eq. intros i. destruct (decide (i < S (length l))%nat) as [Hlt|Hge].
  - rewrite lookup_take_lt by lia. destruct (decide (i = length l)) as [->|Hne].
    + rewrite list_lookup_insert_eq by lia. by rewrite lookup_app_r, Nat.sub_diag by lia.
    + rewrite list_lookup_insert_ne by done. rewrite lookup_app_l by lia. rewrite <- Ht at 1. by rewrite lookup_take_lt by lia.
  - rewrite !lookup_ge_None_2; [done|rewrite length_app; cbn; lia|rewrite length_take, length_insert; lia].
Qed.

(** Changing only the line keeps the rest. *)
Lemma desk_shows_line s d b i l : shows s d -> edits b i l ->
  shows (set_line b i s) (Desk l (waiting d) (running d) (ran d)).
Proof. intros [] He. by constructor. Qed.

Lemma desk_shows_enter s d : shows s d -> typed d <> [] -> (length (typed d) <= 126)%nat ->
  shows (uart_cmd_rx_indicate (set_line (put_char (uart_index s) 0 (uart_buf s)) (uart_index s) s))
    (Desk [] (if decide (length (waiting d) < CLI_QUEUE_SIZE)%nat then waiting d ++ [typed d] else waiting d) (running d) (ran d)).
Proof.
  intros Hd Hne Hl. pose proof (sh_edits _ _ Hd) as He. destruct Hd as [_ Hq Hm Hf Hok (c & Hc & Hwf & Hcap & Hct) Hdone].
  assert (Hlen : length (put_char (uart_index s) 0 (uart_buf s)) = 128%nat)
    by (unfold put_char; rewrite length_insert; apply He).
  unfold uart_cmd_rx_indicate. cbn [set_line cmd_queue uart_buf uart_index uart_cyc_buf msg cmd_infos done].
  replace (length (cmd_queue s)) with (length (waiting d)) by (by rewrite Hq, length_fmap).
  case_decide as Hroom; cycle 1.
  { split; try done; [by apply edits_nil|]. by exists c. }
  rewrite (ed_index _ _ _ He), u16_small by (unfold in_width; lia).
  replace (Z.to_nat (Z.of_nat (length (typed d)) + 1)) with (S (length (typed d))) by lia.
  replace (put_char (Z.of_nat (length (typed d))) 0 (uart_buf s)) with (put_char (uart_index s) 0 (uart_buf s)) by (by rewrite (ed_index _ _ _ He)).
  rewrite (edits_message _ _ _ He).
  assert (Hin : in_ring (Desk [] (waiting d ++ [typed d]) (running d) (ran d)) = in_ring d ++ [typed d])
    by (unfold in_ring; cbn; by rewrite app_assoc).
  assert (Hused : (length (ring_bytes (in_ring d)) <= 127 * 3)%nat).
  { pose proof (length_ring_bytes _ Hok) as Hb.
    assert (length (in_ring d) <= 3)%nat; [|lia].
    unfold in_ring. rewrite length_app. unfold CLI_QUEUE_SIZE in Hroom. destruct (running d); cbn; lia. }
  destruct (write_spec c (typed d ++ [0]) Hwf) as (c' & Hw & Hwf' & Hlc & Hct').
  { rewrite <- (size_contents c Hwf), Hct, Hcap. unfold Fifo.size. rewrite length_app. cbn. lia. }
  rewrite Hc, Hw. cbn [snd]. split; cbn [uart_buf uart_index uart_cyc_buf cmd_queue msg done cmd_infos typed waiting running ran].
  - by apply edits_nil.
  - by rewrite Hq, fmap_app.
  - done.
  - rewrite length_app. cbn. lia.
  - rewrite Hin, Forall_app, Forall_singleton. split; [done|]. split; [done|apply He].
  - exists c'. split_and!; [done|done|unfold capacity in *; by rewrite Hlc|].
    rewrite Hct', Hct, Hin, ring_bytes_app. unfold ring_bytes at 3. cbn. by rewrite app_nil_r.
  - done.
Qed.

Lemma desk_shows_char s d ch : shows s d -> ch <> 0 -> (ch = 13 -> (length (typed d) <= 126)%nat) ->
  shows (rx_char ch s) (type_char ch d).
Proof.
  intros Hd Hch Hs. pose proof (sh_edits _ _ Hd) as He. pose proof (ed_index _ _ _ He) as Hi.
  unfold rx_char, type_char. destruct (isprint ch) eqn:Hp.
  { apply desk_shows_line; [done|]. by apply edits_put. }
  destruct (Z.eqb_spec ch 13) as [->|_].
  { cbv zeta. destruct (Z.ltb_spec 0 (uart_index s)) as [Hpos|Hz].
    - rewrite decide_False by (intros E; rewrite E in Hi; cbn in Hi; lia). apply desk_shows_enter; [done| |by apply Hs].
      intros E. rewrite E in Hi. cbn in Hi. lia.
    - assert (E : typed d = []) by (apply nil_length_inv; lia). rewrite decide_True by done.
      assert (Hu : uart_index s = 0) by (rewrite E in Hi; done).
      destruct d as [l w r a]. cbn in E. subst l. apply (desk_shows_line s (Desk [] w r a)); [done|].
      rewrite Hu. apply edits_nil; [|done]. unfold put_char. rewrite length_insert. apply He. }
  destruct (Z.eqb_spec ch 8) as [->|_]; [|done].
  destruct (Z.ltb_spec 0 (uart_index s)) as [Hpos|Hz].
  - apply desk_shows_line; [done|]. by apply edits_back.
  - assert (E : typed d = []) by (apply nil_length_inv; lia). destruct d as [l w r a]. cbn in E. by subst l.
Qed.

Lemma desk_shows_irq received s d : shows s d -> typed_short received d ->
  shows (log_uart_rx_irq_hdl received s).1 (type_chars received d).
Proof.
  revert s d. induction received as [|ch received IH]; intros s d Hd Hs; [done|]. cbn in *.
  destruct (Z.eqb_spec ch 0) as [->|Hch]; [done|]. destruct Hs as [Hs1 Hs2].
  apply IH; [by apply desk_shows_char|done].
Qed.

(** ** The task *)
Lemma run_line_junk infos l junk : no_nul l ->
  run_line infos ((l ++ [0]) ++ junk) (msg_len l) = do_line infos l.
Proof.
  intros Hl. unfold do_line, run_line, msg_len. assert (E : cmd_param_separate ((l ++ [0]) ++ junk) (Z.of_nat (length l) + 1) =
    cmd_param_separate (l ++ [0]) (Z.of_nat (length l) + 1)); [|by rewrite E].
  unfold cmd_param_separate. rewrite <- app_assoc. cbn [app]. rewrite !cstr_app_nul by done.
  destruct (strchr SPACE l) as [[c p]|]; [done|]. rewrite (proj2 (Z.leb_gt _ _)) by lia.
  replace (Z.to_nat (Z.of_nat (length l) + 1 - 1)) with (length l + 0)%nat by lia.
  rewrite !insert_app_r. cbn. by rewrite !cstr_app_nul.
Qed.

Lemma desk_shows_exec s d mem junk : shows s d -> shows (cmn_cmd_exec mem junk s) (desk_step d (Exec mem junk)).
Proof.
  intros [He Hq Hm Hf Hok (c & Hc & Hwf & Hcap & Hct) Hdone]. unfold cmn_cmd_exec. cbn [desk_step].
  destruct (running d) as [l|] eqn:Er; rewrite Hm; cbn [fmap option_fmap option_map];
    [|by split; rewrite ?Er; [..|exists c|]].
  assert (Hin : in_ring d = l :: waiting d) by (unfold in_ring; by rewrite Er). rewrite Hin in *.
  inversion Hok as [|? ? [Hlen Hp] Hok']; subst.
  assert (Hbytes : contents c = (l ++ [0]) ++ ring_bytes (waiting d)) by (rewrite Hct; done).
  assert (Hml : msg_len l = Fifo.size (l ++ [0])) by (unfold msg_len, Fifo.size; rewrite length_app; cbn; lia).
  assert (Hsz : msg_len l <= Fifo.size (contents c)) by (rewrite Hml, Hbytes; unfold Fifo.size; rewrite !length_app; lia).
  assert (Hwidth : is_u16 (msg_len l)) by (unfold in_width, msg_len; lia).
  unfold uart_cmd_rx_handle_done. rewrite Hc, count_spec, <- size_contents by done. rewrite (proj2 (Z.ltb_ge _ _)) by lia.
  assert (Hafter : forall mem', exists c', (if mem' : bool then (cyclic_buf_read (Some c) (msg_len l)).2 else (cyclic_buf_drop (Some c) (msg_len l)).2) = Some c' /\
      (mem' = true -> (cyclic_buf_read (Some c) (msg_len l)).1.2 = l ++ [0]) /\ wf c' /\ capacity c' = 511 /\ contents c' = ring_bytes (waiting d)).
  { intros mem'.
    assert (Ht : take (Z.to_nat (msg_len l)) (contents c) = l ++ [0])
      by (rewrite Hml, Hbytes; unfold Fifo.size; by rewrite Nat2Z.id, take_app_length).
    assert (Hdr : drop (Z.to_nat (msg_len l)) (contents c) = ring_bytes (waiting d))
      by (rewrite Hml, Hbytes; unfold Fifo.size; by rewrite Nat2Z.id, drop_app_length).
    destruct (run_refines_fifo c (if mem' then Fifo.Read (msg_len l) else Fifo.Drop (msg_len l)) Hwf) as (c' & Hr & Hwf' & Hcap' & Hct');
      [by destruct mem'|]. exists c'. destruct mem'; cbn [run Fifo.step] in Hr, Hct';
      rewrite (proj2 (Z.ltb_ge _ _)) in Hr, Hct' by lia; cbn [fst snd] in Hr, Hct'.
    - destruct (cyclic_buf_read (Some c) (msg_len l)) as [[ok data] c1]. injection Hr as -> -> ->. cbn.
      split_and!; [done|by rewrite Ht|done|by rewrite Hcap'|by rewrite Hct', Hdr].
    - destruct (cyclic_buf_drop (Some c) (msg_len l)) as [ok c1]. injection Hr as -> ->. cbn.
      split_and!; [done|done|done|by rewrite Hcap'|by rewrite Hct', Hdr]. }
  destruct (Hafter mem) as (c' & Hc' & Hdata & Hwf' & Hcap' & Hct').
  assert (Hin' : forall r, in_ring (Desk (typed d) (waiting d) None r) = waiting d) by done.
  destruct mem.
  - destruct (cyclic_buf_read (Some c) (msg_len l)) as [[ok data] c1]. cbn in Hc', Hdata. subst c1. rewrite Hdata by done.
    split; cbn [uart_cyc_buf cmd_queue msg done cmd_infos typed waiting running ran]; rewrite ?Hin'; try done; [by exists c'|].
    rewrite run_line_junk by (by apply printable_no_nul). by rewrite fmap_app, Hdone.
  - rewrite Hc'. split; cbn [uart_cyc_buf cmd_queue msg done cmd_infos typed waiting running ran]; rewrite ?Hin'; try done. by exists c'.
Qed.

Lemma desk_shows_read s d : shows s d -> shows (read_message s) (desk_step d Read).
Proof.
  intros [He Hq Hm Hf Hok Hr Hdone]. unfold read_message. cbn [desk_step]. rewrite Hq, Hm.
  destruct (running d) as [l|] eqn:Er; cbn [fmap option_fmap option_map].
  { split; rewrite ?Er; try done; by rewrite Hm. }
  destruct (waiting d) as [|l q] eqn:Ew; cbn [fmap list_fmap].
  { split; rewrite ?Er, ?Ew; try done; by rewrite Hm. }
  unfold in_ring in Hok, Hr. rewrite Er, Ew in Hok, Hr. cbn in Hf. split; cbn; try done. lia.
Qed.

Lemma desk_shows_step s d ev : shows s d -> match ev with Irq r => typed_short r d | _ => True end ->
  shows (step s ev) (desk_step d ev).
Proof. destruct ev; intros Hd Hs; [by apply desk_shows_irq|by apply desk_shows_read|by apply desk_shows_exec]. Qed.

Lemma desk_shows_steps evs s d : shows s d -> short_lines evs d -> shows (steps s evs) (desk_steps d evs).
Proof.
  revert s d. induction evs as [|ev evs IH]; intros s d Hd Hs; [done|]. destruct Hs as [Hs1 Hs2].
  apply IH; [by apply desk_shows_step|done].
Qed.

Lemma desk_shows_start infos cyc : shows (shell_start infos cyc) no_lines.
Proof.
  destruct (cyclic_buf_init_wf cyc 512 ltac:(lia)) as (c & E & Hwf & Hcap & Hct).
  split; try done.
  - by apply edits_nil.
  - cbn. lia.
  - exists c. unfold shell_start. cbn [uart_cyc_buf]. change (4 * UART_BUFFER_SIZE) with 512. by rewrite E.
Qed.

Lemma cmd_infos_step s ev : cmd_infos (step s ev) = cmd_infos s.
Proof.
  destruct ev as [r| |mem junk]; cbn.
  - revert s. induction r as [|ch r IH]; intros s; [done|]. cbn. case_match; [done|]. rewrite IH.
    unfold rx_char, uart_cmd_rx_indicate. by repeat case_match.
  - unfold read_message. by repeat case_match.
  - unfold cmn_cmd_exec. destruct (msg s); [|done]. by destruct (uart_cmd_rx_handle_done _ _ _) as [[? ?] ?].
Qed.

Lemma cmd_infos_steps evs s : cmd_infos (steps s evs) = cmd_infos s.
Proof. revert s. induction evs as [|ev evs IH]; intros s; [done|]. cbn. unfold steps in IH. by rewrite IH, cmd_infos_step. Qed.


(** ** Parameters *)

(** The parameter as it may be typed: in quotes when it is empty, starts with a
    quote or has a space. *)
Definition bare (a : bytes) : bool :=
  match a with [] => false | c :: _ => negb (is_quote c) && bool_decide (SPACE ∉ a) end.
Definition quoted (a : bytes) : bytes :=
  if bare a then a else if bool_decide (34 ∉ a) then 34 :: a ++ [34] else 39 :: a ++ [39].
Definition quotable (a : bytes) : Prop := bare a = true \/ 34 ∉ a \/ 39 ∉ a.

Fixpoint joined (args : list bytes) : bytes :=
  match args with
  | [] => []
  | [a] => quoted a
  | a :: args => quoted a ++ SPACE :: joined args
  end.

Lemma next_quoted q a r : is_quote q = true -> q ∉ a ->
  get_next_param (Some (q :: a ++ q :: r)) =
    (Some a, match skip_while (fun c => c =? SPACE) r with [] => None | next => Some next end).
Proof. intros Hq Ha. unfold get_next_param, next_param. rewrite Hq, strchr_app by done. done. Qed.

Lemma quoted_head a : exists c r, quoted a = c :: r /\ c <> SPACE.
Proof.
  unfold quoted. destruct (bare a) eqn:Hb; [|case_bool_decide; eexists _, _; by split].
  destruct a as [|c a]; [done|]. exists c, a. split; [done|]. cbn in Hb. apply andb_prop in Hb as [_ Hb].
  apply bool_decide_eq_true in Hb. rewrite not_elem_of_cons in Hb. naive_solver.
Qed.

(** A parameter before the end of the line, or before a space and more. *)
Lemma next_param_quoted a rest : quotable a -> (rest = [] \/ exists c r, rest = SPACE :: c :: r /\ c <> SPACE) ->
  get_next_param (Some (quoted a ++ rest)) = (Some a, match rest with [] => None | _ :: r => Some r end).
Proof.
  intros Ha Hrest.
  assert (Hskip : match skip_while (fun c => c =? SPACE) rest with [] => None | next => Some next end =
    match rest with [] => None | _ :: r => Some r end).
  { destruct Hrest as [->|(c & r & -> & Hc)]; [done|]. cbn [skip_while].
    by rewrite Z.eqb_refl, (proj2 (Z.eqb_neq _ _) Hc). }
  assert (Hq : forall q, is_quote q = true -> q ∉ a -> get_next_param (Some (q :: a ++ [q] ++ rest)) =
    (Some a, match rest with [] => None | _ :: r => Some r end)).
  { intros q Hq Hn. cbn [app]. by rewrite next_quoted, Hskip. }
  unfold quoted. destruct (bare a) eqn:Hb; cycle 1.
  - case_bool_decide as H34.
    + cbn [app]. rewrite <- app_assoc. by apply Hq.
    + cbn [app]. rewrite <- app_assoc. apply Hq; [done|]. destruct Ha as [?|[?|?]]; [congruence|done|done].
  - destruct a as [|c a]; [done|]. cbn in Hb. apply andb_prop in Hb as [Hc Hsp]. apply bool_decide_eq_true in Hsp.
    unfold get_next_param, next_param. cbn [app]. rewrite (proj1 (negb_true_iff _) Hc).
    destruct Hrest as [->|(x & r & -> & Hx)].
    + rewrite app_nil_r. by rewrite strchr_None.
    + change (c :: a ++ SPACE :: x :: r) with ((c :: a) ++ SPACE :: x :: r). rewrite strchr_app by done.
      by rewrite skip_while_head by lia.
Qed.

Lemma joined_head args : args <> [] -> exists c r, joined args = c :: r /\ c <> SPACE.
Proof.
  intros Hne. destruct args as [|a args]; [done|]. destruct (quoted_head a) as (c & r & E & Hc).
  destruct args; cbn; rewrite E; [by exists c, r|]. cbn. by eexists _, _.
Qed.

Lemma params_read_back n args : args <> [] -> Forall quotable args -> (length args <= n)%nat ->
  param_loop get_next_param n (Some (joined args)) = args.
Proof.
  revert n. induction args as [|a args IH]; intros n Hne Hq Hn; [done|]. inversion Hq; subst.
  destruct n as [|n]; cbn in Hn; [lia|]. destruct args as [|b args].
  - cbn [joined param_loop]. rewrite <- (app_nil_r (quoted a)), next_param_quoted by (try done; by left).
    by destruct n.
  - destruct (joined_head (b :: args) ltac:(done)) as (c & r & E & Hc).
    assert (Hj : joined (a :: b :: args) = quoted a ++ SPACE :: joined (b :: args)) by done.
    rewrite Hj. cbn [param_loop]. rewrite next_param_quoted; [|done|right; rewrite E; by exists c, r].
    f_equal. apply IH; [done|done|lia].
Qed.

(** The line for a command and its parameters. *)
Definition command_line (c : bytes) (args : list bytes) : bytes :=
  match args with [] => c | _ => c ++ SPACE :: joined args end.

(** A command word that the first module to know it handles. *)
Definition handled (infos : list (option cmd_module)) (c : bytes) (h : nat) : Prop :=
  find_handle infos c CLI_UNKWN_CMD = (CLI_SUCCESS, (h, parse_cmd)).

Lemma separate_line c args : no_nul (command_line c args) -> SPACE ∉ c ->
  cmd_param_separate (command_line c args ++ [0]) (Z.of_nat (length (command_line c args)) + 1) =
    Some (c, match args with [] => None | _ => Some (joined args) end).
Proof.
  intros Hn Hc. unfold cmd_param_separate. rewrite cstr_app_nul by done.
  destruct args as [|a args]; cbn [command_line] in *.
  - rewrite strchr_None by done. rewrite (proj2 (Z.leb_gt _ _)) by lia.
    replace (Z.to_nat (Z.of_nat (length c) + 1 - 1)) with (length c + 0)%nat by lia.
    rewrite insert_app_r. cbn. by rewrite cstr_app_nul.
  - rewrite strchr_app by done. destruct (joined_head (a :: args) ltac:(done)) as (x & r & E & Hx).
    rewrite E. by rewrite skip_while_head by lia.
Qed.

Lemma do_command_line infos c args h : no_nul (command_line c args) -> SPACE ∉ c -> c <> chars "help" ->
  handled infos c h -> Forall quotable args -> (length args < MAX_ARGC)%nat ->
  do_line infos (command_line c args) = Ran h (c :: args).
Proof.
  intros Hn Hc Hh Hf Hq Hlen. unfold do_line, run_line. rewrite separate_line by done.
  rewrite bool_decide_false by done. rewrite Hf. cbn [Z.eqb]. rewrite Z.eqb_refl.
  assert (E : parse_cmd (match args with [] => None | _ => Some (joined args) end) = args).
  { destruct args as [|a args]; [done|]. unfold parse_cmd. apply params_read_back; [done|done|lia]. }
  by rewrite E, decide_False by lia.
Qed.


Lemma type_printable l t w r a : Forall (fun c => isprint c = true) l -> (length t + length l <= 127)%nat ->
  type_chars l (Desk t w r a) = Desk (t ++ l) w r a.
Proof.
  intros Hl. revert t. induction Hl as [|c l Hc _ IH]; intros t Hlen; cbn in Hlen; [by rewrite app_nil_r|].
  cbn [type_chars]. pose proof (isprint_byte c Hc). rewrite (proj2 (Z.eqb_neq _ _)) by done.
  unfold type_char. rewrite Hc. cbn [typed waiting running ran]. rewrite decide_True by lia.
  rewrite IH by (rewrite length_app; cbn; lia). by rewrite <- app_assoc.
Qed.

Lemma type_chars_app l1 l2 d : no_nul l1 -> type_chars (l1 ++ l2) d = type_chars l2 (type_chars l1 d).
Proof.
  intros H. revert d. induction H as [|c l1 Hc _ IH]; intros d; [done|]. cbn. by rewrite (proj2 (Z.eqb_neq _ _) Hc), IH.
Qed.

Lemma typed_short_enter l d : Forall (fun c => isprint c = true) l -> (length (typed (type_chars l d)) <= 126)%nat ->
  typed_short (l ++ [13]) d.
Proof.
  intros Hl. revert d. induction Hl as [|c l Hc _ IH]; intros d Hlen; cbn [app typed_short type_chars] in *; [by split|].
  pose proof (isprint_byte c Hc). rewrite (proj2 (Z.eqb_neq _ _)) in * by done. split; [|by apply IH].
  intros ->. done.
Qed.

(** C14: a command typed with up to 15 parameters, in quotes where they need
    them, reaches its handler with exactly those parameters: through the line
    editor, the queue, the ring buffer and the parser. *)
Theorem typed_command_runs infos cyc c args h junk :
  let line := command_line c args in
  Forall (fun x => isprint x = true) line -> (length line <= 126)%nat -> c <> [] -> SPACE ∉ c -> c <> chars "help" ->
  handled infos c h -> Forall quotable args -> (length args < MAX_ARGC)%nat ->
  done (steps (shell_start infos cyc) [Irq (line ++ [13]); Read; Exec true junk]) = [Ran h (c :: args)].
Proof.
  intros line Hp Hlen Hne Hc Hh Hf Hq Hn. pose proof (printable_no_nul line Hp) as Hnul.
  assert (Hline : line <> []) by (unfold line, command_line; by destruct args, c).
  assert (Htyped : type_chars line no_lines = Desk line [] None []) by (apply type_printable; [done|cbn; lia]).
  assert (Hdesk : type_chars (line ++ [13]) no_lines = Desk [] [line] None []).
  { rewrite type_chars_app, Htyped by done. cbn. by rewrite decide_False. }
  assert (Hran : desk_steps no_lines [Irq (line ++ [13]); Read; Exec true junk] = Desk [] [] None [line])
    by (unfold desk_steps; cbn [foldl desk_step]; by rewrite Hdesk).
  assert (Hshort : short_lines [Irq (line ++ [13]); Read; Exec true junk] no_lines)
    by (split_and!; [apply typed_short_enter; [done|by rewrite Htyped]|done..]).
  rewrite (sh_done _ _ (desk_shows_steps _ _ _ (desk_shows_start infos cyc) Hshort)), Hran, cmd_infos_steps. cbn [ran fmap list_fmap]. f_equal. by apply do_command_line.
Qed.

(** ** Beyond the limits *)

(** With 16 parameters the parser stores behind [argv]. *)
Lemma sixteen_params_overrun infos c args h :
  no_nul (command_line c args) -> SPACE ∉ c -> c <> chars "help" -> handled infos c h ->
  Forall quotable args -> length args = MAX_ARGC -> do_line infos (command_line c args) = Overrun.
Proof.
  intros Hn Hc Hh Hf Hq Hlen. unfold do_line, run_line. rewrite separate_line by done.
  rewrite bool_decide_false by done. rewrite Hf. cbn [Z.eqb]. rewrite Z.eqb_refl.
  destruct args as [|a args]; [done|].
  unfold parse_cmd. rewrite params_read_back by (done || lia). by rewrite decide_True by lia.
Qed.

(** Four messages of 128 bytes are one byte more than the ring buffer holds: the
    fourth is queued without its data, and the task writes before the buffer it
    got for it. *)
Definition full_line : bytes := replicate 127 97 ++ [13].
Lemma fourth_full_line_lost :
  done (steps (shell_start [] (CyclicBuf 0 0 0 None)) ([Irq full_line; Read; Irq full_line; Irq full_line; Irq full_line] ++
    [Exec true []; Read; Exec true []; Read; Exec true []; Read; Exec true []])) =
  [Unknown (replicate 127 97); Unknown (replicate 127 97); Unknown (replicate 127 97); Overrun].
Proof. by vm_compute. Qed.

(** A line of 128 characters and more starts again at its 129th. *)
Lemma long_line_keeps_its_tail :
  ran (desk_steps no_lines [Irq (replicate 128 97 ++ chars "reboot" ++ [13]); Read; Exec true []]) = [chars "reboot"].
Proof. by vm_compute. Qed.

(** ** AT commands *)
Lemma length_param_loop f n buf : (length (param_loop f n buf) <= n)%nat.
Proof.
  revert buf. induction n as [|n IH]; intros buf; cbn; [by destruct (f buf) as [[]]|].
  destruct (f buf) as [[p|] rest]; cbn; [|lia]. pose proof (IH rest). lia.
Qed.

(** The parameters of an AT command stay in [argv]. *)
Lemma atcmd_argv_bound s : (1 <= length (atcmd_parse s) <= AT_MAX_ARGC)%nat.
Proof.
  unfold atcmd_parse, AT_MAX_ARGC. destruct (at_command (cstr s)) as [c [p|]]; [|cbn; lia].
  pose proof (length_param_loop at_get_next_param (15 - 1) (Some p)). cbn [length]. lia.
Qed.

(** A parameter that is left empty is dropped, and the next takes its place. *)
Lemma empty_at_parameter_dropped :
  atcmd_parse (chars "AT+X=a,,b") = [chars "AT+X"; chars "a"; chars "b"].
Proof. by vm_compute. Qed.

(** ** Addresses *)
Definition decimal (n : Z) : bytes :=
  if n <? 10 then [48 + n]
  else if n <? 100 then [48 + n / 10; 48 + n mod 10]
  else [48 + n / 100; 48 + n / 10 mod 10; 48 + n mod 10].

Definition dotted (a b c d : Z) : bytes := decimal a ++ 46 :: decimal b ++ 46 :: decimal c ++ 46 :: decimal d.

Lemma decimal_reads n : 0 <= n < 256 ->
  is_num (decimal n) = true /\ atoi (decimal n) = n /\ 46 ∉ decimal n /\ 47 ∉ decimal n.
Proof.
  intros Hn.
  assert (H : forallb (fun n => is_num (decimal n) && (atoi (decimal n) =? n) && bool_decide (46 ∉ decimal n) &&
    bool_decide (47 ∉ decimal n)) (seqZ 0 256) = true) by (by vm_compute).
  apply (forallb_seqZ _ _ n) in H; [|done].
  apply andb_prop in H as [[[H1 H2]%andb_prop H3]%andb_prop H4].
  apply bool_decide_eq_true in H3. apply bool_decide_eq_true in H4. split_and!; [done|lia|done|done].
Qed.

Lemma ip4_parts_dotted a b c d : 0 <= a < 256 -> 0 <= b < 256 -> 0 <= c < 256 -> 0 <= d < 256 ->
  ip4_parts 3 0 (dotted a b c d) 0 = Some (a + 2 ^ 8 * b + 2 ^ 16 * c + 2 ^ 24 * d).
Proof.
  intros Ha Hb Hc Hd. destruct (decimal_reads a Ha) as (Na & Va & Da & _), (decimal_reads b Hb) as (Nb & Vb & Db & _),
    (decimal_reads c Hc) as (Nc & Vc & Dc & _), (decimal_reads d Hd) as (Nd & Vd & _ & _).
  unfold dotted. cbn [ip4_parts]. rewrite !strchr_app by done.
  rewrite Na, Va, Nb, Vb, Nc, Vc, Nd, Vd. cbn [andb]. rewrite !(proj2 (Z.leb_le _ _)) by lia.
  rewrite !Z.shiftl_mul_pow2 by lia. f_equal. rewrite !u32_small; word_lia.
Qed.


(** A prefix length of 32 gives the mask of no bit. *)
Lemma prefix_32_masks_nothing : cli_parse_ip4 (chars "10.0.0.1/32") true = Some (0x0100000A, 0).
Proof. by vm_compute. Qed.

(** ** Witnesses *)
Module ShellWitness.
Definition infos : list (option cmd_module) :=
  [None; None; Some (CmdModule None (cmd_common_handle [(chars "wifi_scan", 1%nat); (chars "wifi_connect", 2%nat)]) None); None].
Definition cyc : cyclic_buf := CyclicBuf 0 0 0 None.
Definition args : list bytes := [chars "my net"; chars "secret"].

Lemma typed_command_runs_witness :
  command_line (chars "wifi_connect") args = chars "wifi_connect " ++ [34] ++ chars "my net" ++ [34] ++ chars " secret" /\
  done (steps (shell_start infos cyc) [Irq (command_line (chars "wifi_connect") args ++ [13]); Read; Exec true []]) =
    [Ran 2 [chars "wifi_connect"; chars "my net"; chars "secret"]].
Proof.
  split; [by vm_compute|]. apply (typed_command_runs infos cyc (chars "wifi_connect") args 2 []).
  - apply (bool_decide_unpack _). by vm_compute.
  - apply Nat.leb_le. by vm_compute.
  - done.
  - apply (bool_decide_unpack _). by vm_compute.
  - done.
  - by vm_compute.
  - repeat constructor; apply (bool_decide_unpack _); by vm_compute.
  - apply Nat.ltb_lt. by vm_compute.
Defined.

Definition some_lines : list event :=
  [Irq (chars "wifi_scan" ++ [13]); Irq (chars "helo" ++ [8; 112]); Read; Irq [13]; Exec true [1; 2]; Read; Exec true []].


End ShellWitness.
