(* ===== verification/Netlink.v ===== *)
(** * Commands and events of [MSDK/wifi_manager/wifi_netlink.c]

    Scanning, the choice of the access point in the scan results, the connection
    request with its WEP keys, and the translation of the MAC layer's events into
    events of the Wi-Fi management.  The MAC library and the key material of WPA
    are parameters.  The configuration keeps the arrays and the lengths of
    [struct sta_cfg]. *)
From S2P Require Import Prelude Chars WifiMgmt.

Definition WIFI_MGMT_CONN_UNSPECIFIED : Z := 1.
Definition WIFI_MGMT_CONN_AUTH_FAIL : Z := 3.
Definition WIFI_MGMT_CONN_ASSOC_FAIL : Z := 4.
Definition WIFI_MGMT_CONN_HANDSHAKE_FAIL : Z := 5.
Definition WIFI_MGMT_DISCON_MIC_FAIL : Z := 10.
Definition WIFI_MGMT_DISCON_FROM_UI : Z := 14.
Definition WPAS_WEP40_HEX_LEN : Z := 10.
Definition WPAS_WEP104_ASCII_LEN : Z := 13.
Definition WPAS_WEP104_HEX_LEN : Z := 26.
Definition MAC_SSID_MAX_LEN : Z := 34.

(** Bits of [enum mac_akm_suite] and [enum mac_cipher_suite], and
    [enum mac_connection_flags] *)
Definition bit (n : Z) : Z := Z.shiftl 1 n.
Definition AKM_NONE : Z := bit 0.
Definition AKM_PRE_RSN : Z := bit 1.
Definition AKM_8021X : Z := bit 2.
Definition AKM_8021X_SHA256 : Z := bit 6.
Definition AKM_SAE : Z := bit 9.
Definition AKM_FT_OVER_SAE : Z := bit 10.
Definition AKM_8021X_SUITE_B : Z := bit 11.
Definition AKM_8021X_SUITE_B_192 : Z := bit 12.
Definition AKM_OWE : Z := bit 17.
Definition CIPHER_WEP40 : Z := bit 0.
Definition CIPHER_TKIP : Z := bit 1.
Definition CIPHER_WEP104 : Z := bit 3.
Definition CIPHER_BIP : Z := Z.lor (Z.lor (bit 5) (bit 9)) (Z.lor (bit 10) (bit 11)).
Definition CONTROL_PORT_HOST : Z := bit 0.
Definition DISABLE_HT : Z := bit 2.
Definition USE_PAIRWISE_KEY : Z := bit 3.
Definition MFP_IN_USE : Z := bit 4.
Definition USE_PRIVACY : Z := bit 7.
Definition MAC_AUTH_ALGO_OPEN : Z := 0.
Definition MAC_AUTH_ALGO_SHARED : Z := 1.
Definition MAC_AUTH_ALGO_SAE : Z := 3.
Definition WLAN_STATUS_NOT_SUPPORTED_AUTH_ALG : Z := 13.
Definition any_of (x mask : Z) : bool := negb (Z.land x mask =? 0).

(** The fields of [struct mac_scan_result] that are read. *)
Record scan_ap := ScanAp {
  r_bssid : bytes; r_ssid_len : Z; r_ssid : bytes; r_freq : Z; r_akm : Z; r_group : Z; r_pair : Z; r_rssi : Z }.

(** [struct sta_cfg] with its arrays of 33 and 64 characters *)
Record nl_cfg := NlCfg {
  c_ssid : bytes; c_ssid_len : Z; c_channel : Z; c_bssid : bytes; c_with_bssid : bool;
  c_akm : Z; c_group : Z; c_pair : Z; c_pass : bytes; c_pass_len : Z; c_flush : bool }.

(** The part of [struct wifi_sta] this file writes. *)
Record nl_sta := NlSta { nl_conf : nl_cfg; nl_last_reason : Z; nl_reason_code : Z; nl_status_code : Z; nl_history_ip : Z }.

Definition set_conf (c : nl_cfg) (s : nl_sta) : nl_sta :=
  NlSta c (nl_last_reason s) (nl_reason_code s) (nl_status_code s) (nl_history_ip s).
Definition set_pass (pass : bytes) (len : Z) (c : nl_cfg) : nl_cfg :=
  NlCfg (c_ssid c) (c_ssid_len c) (c_channel c) (c_bssid c) (c_with_bssid c) (c_akm c) (c_group c) (c_pair c) pass len (c_flush c).
Definition set_flush (b : bool) (c : nl_cfg) : nl_cfg :=
  NlCfg (c_ssid c) (c_ssid_len c) (c_channel c) (c_bssid c) (c_with_bssid c) (c_akm c) (c_group c) (c_pair c) (c_pass c) (c_pass_len c) b.

(** ** Channels *)
Definition wifi_freq_to_channel (freq : Z) : Z :=
  if (2412 <=? freq) && (freq <=? 2484) then if freq =? 2484 then 14 else (freq - 2407) / 5 else 0.

Definition wifi_channel_to_freq (channel : Z) : Z :=
  if (1 <=? channel) && (channel <=? 14) then if channel =? 14 then 2484 else 2407 + channel * 5 else 0.

(** ** Scanning *)

(** [MACIF_SCAN_CMD]: the frequency, all when [None], and the name asked for. *)
Record scan_cmd := ScanCmd { sc_freq : option Z; sc_ssid : bytes; sc_ies : option bytes }.

Definition bad_channel (channel : Z) : bool := (channel <? 1) || ((14 <? channel) && negb (channel =? 0xFF)).
Definition scan_freq (channel : Z) : option Z := if channel =? 0xFF then None else Some (wifi_channel_to_freq channel).

(** [send]: whether the MAC layer takes the command. *)
Definition wifi_netlink_scan_set_with_ssid (send : scan_cmd -> bool) (ssid : option bytes) (channel : Z) : Z :=
  match ssid with
  | None => -1
  | Some s =>
      if MAC_SSID_MAX_LEN <? Z.of_nat (length (cstr s)) then -1
      else if bad_channel channel then -2
      else if send (ScanCmd (scan_freq channel) (cstr s) None) then 0 else -3
  end.

Definition wifi_netlink_scan_set_with_extraie (send : scan_cmd -> bool) (channel : Z) (extra_ie : option bytes) : Z :=
  if bad_channel channel then -1
  else if send (ScanCmd (scan_freq channel) [] extra_ie) then 0 else -2.

Definition wifi_netlink_scan_set (send : scan_cmd -> bool) (channel : Z) : Z :=
  wifi_netlink_scan_set_with_extraie send channel None.

(** ** The choice of the access point *)

(** [strlen(ssid) == length && strncmp(ssid, array, length) == 0] *)
Definition same_ssid (ssid : bytes) (r : scan_ap) : bool :=
  (Z.of_nat (length (cstr ssid)) =? r_ssid_len r) &&
  bool_decide (cstr (take (Z.to_nat (r_ssid_len r)) ssid) = cstr (take (Z.to_nat (r_ssid_len r)) (r_ssid r))).

Definition is_wanted (bssid ssid : option bytes) (r : scan_ap) : bool :=
  match bssid, ssid with
  | Some b, _ => bool_decide (take 6 b = take 6 (r_bssid r))
  | None, Some s => same_ssid s r
  | None, None => false
  end.

Fixpoint candidate_loop (wanted : scan_ap -> bool) (results : list scan_ap) (max_rssi : Z) (candidate : option scan_ap)
    : option scan_ap :=
  match results with
  | [] => candidate
  | r :: results =>
      if wanted r && (max_rssi <? r_rssi r) then candidate_loop wanted results (r_rssi r) (Some r)
      else candidate_loop wanted results max_rssi candidate
  end.

(** [mem]: the buffer for the results was allocated, [results]: what the MAC
    layer answered. *)
Definition wifi_netlink_candidate_ap_find (mem : bool) (results : option (list scan_ap)) (vif : nat)
    (bssid ssid : option bytes) : Z + scan_ap :=
  if decide (CFG_VIF_NUM <= vif)%nat then inl (-1)
  else match bssid, ssid with
  | None, None => inl (-2)
  | _, _ =>
      if negb mem then inl (-3)
      else match results with
      | None => inl (-4)
      | Some l => match candidate_loop (is_wanted bssid ssid) l (-255) None with Some r => inr r | None => inl (-5) end
      end
  end.

(** ** WEP keys *)
Definition util_char2num (c : Z) : Z :=
  if (48 <=? c) && (c <=? 57) then c - 48
  else if (97 <=? c) && (c <=? 102) then c - 97 + 10
  else if (65 <=? c) && (c <=? 70) then c - 65 + 10
  else -1.

Definition util_hex2byte (a b : Z) : Z :=
  let a := util_char2num a in
  if a <? 0 then -1
  else let b := util_char2num b in if b <? 0 then -1 else Z.lor (Z.shiftl a 4) b.

Fixpoint util_hexstr2bin (hex : bytes) (len : nat) {struct len} : option bytes :=
  match len, hex with
  | O, _ => Some []
  | S len, a :: b :: hex =>
      let x := util_hex2byte a b in
      if x <? 0 then None else match util_hexstr2bin hex len with Some buf => Some (x :: buf) | None => None end
  | _, _ => None
  end.

(** A key of [hex_len] digits becomes one of [ascii_len] bytes with a terminator. *)
Definition wep_key (hex_len ascii_len : Z) (c : nl_cfg) : option nl_cfg :=
  if c_pass_len c =? hex_len then
    match util_hexstr2bin (c_pass c) (Z.to_nat ascii_len) with
    | None => None
    | Some key => Some (set_pass (overwrite 0 (key ++ [0]) (c_pass c)) ascii_len c)
    end
  else Some c.

Definition wep_convert (c : nl_cfg) : option nl_cfg :=
  let n := c_pass_len c in
  if negb (n =? WPAS_WEP40_ASCII_LEN) && negb (n =? WPAS_WEP40_HEX_LEN) &&
     negb (n =? WPAS_WEP104_ASCII_LEN) && negb (n =? WPAS_WEP104_HEX_LEN) then None
  else
    match wep_key WPAS_WEP40_HEX_LEN WPAS_WEP40_ASCII_LEN c with
    | None => None
    | Some c => wep_key WPAS_WEP104_HEX_LEN WPAS_WEP104_ASCII_LEN c
    end.

(** ** The connection request *)
Record connect_cmd := ConnectCmd { cc_freq : Z; cc_ssid : bytes; cc_bssid : bytes; cc_flags : Z; cc_auth_alg : Z; cc_ie : bool }.

Inductive nl_call :=
  | pmksa_cache_flush
  | wpas_set_wep_key (key : bytes)
  | wpa_gen_ie
  | ctl_connect (cmd : connect_cmd).

(** The security of the candidate fits the password, or its absence. *)
Definition crypto_ok (c : nl_cfg) (r : scan_ap) : bool :=
  negb ((negb (c_pass_len c =? 0) && (r_akm r =? AKM_NONE))
     || ((c_pass_len c =? 0) && negb (any_of (r_akm r)
          (Z.lor AKM_NONE (Z.lor AKM_OWE (Z.lor AKM_8021X (Z.lor AKM_8021X_SHA256 (Z.lor AKM_8021X_SUITE_B AKM_8021X_SUITE_B_192)))))))).

(** What the candidate fills in. *)
Definition take_candidate (r : scan_ap) (c : nl_cfg) : nl_cfg :=
  NlCfg (if c_with_bssid c then overwrite 0 (take (Z.to_nat (r_ssid_len r)) (r_ssid r)) (c_ssid c) else c_ssid c)
    (if c_with_bssid c then r_ssid_len r else c_ssid_len c) (u8 (wifi_freq_to_channel (r_freq r)))
    (if c_with_bssid c then c_bssid c else take 6 (r_bssid r)) (c_with_bssid c)
    (r_akm r) (r_group r) (r_pair r) (c_pass c) (c_pass_len c) (c_flush c).

Section connect.
(** [pmksa_cached]: a key for the BSSID and AKM is cached; [ie_ok]: the WPA or
    RSN element can be made; [execute]: the MAC layer takes the command. *)
Context (pmksa_cached : bytes -> Z -> bool) (ie_ok : bool) (execute : connect_cmd -> bool).

(** The command for the candidate, with the AKM used for authentication. *)
Definition connect_command (s : nl_sta) (r : scan_ap) (akm : Z) (ie pairwise : bool) : connect_cmd :=
  let flags := Z.lor CONTROL_PORT_HOST (if any_of (r_group r) CIPHER_BIP then MFP_IN_USE else 0) in
  let flags := Z.lor flags (if pairwise then USE_PAIRWISE_KEY else 0) in
  let auth :=
    if any_of akm AKM_SAE || any_of akm AKM_FT_OVER_SAE then MAC_AUTH_ALGO_SAE
    else if akm =? AKM_PRE_RSN then
      if nl_status_code s =? WLAN_STATUS_NOT_SUPPORTED_AUTH_ALG then MAC_AUTH_ALGO_OPEN else MAC_AUTH_ALGO_SHARED
    else MAC_AUTH_ALGO_OPEN in
  let flags := Z.lor flags (if negb (akm =? AKM_NONE) then USE_PRIVACY else 0) in
  let flags := Z.lor flags
    (if (r_pair r =? CIPHER_WEP40) || (r_pair r =? CIPHER_TKIP) || (r_pair r =? CIPHER_WEP104) then DISABLE_HT else 0) in
  ConnectCmd (r_freq r) (take (Z.to_nat (r_ssid_len r)) (r_ssid r)) (take 6 (r_bssid r)) flags auth ie.

Definition send_connect (s : nl_sta) (calls : list nl_call) (cmd : connect_cmd) : Z * nl_sta * list nl_call :=
  (if execute cmd then 0 else WIFI_MGMT_CONN_ASSOC_FAIL, s, calls ++ [ctl_connect cmd]).

Definition connect_candidate (s : nl_sta) (r : scan_ap) : Z * nl_sta * list nl_call :=
  let c := nl_conf s in
  let calls := if c_flush c then [pmksa_cache_flush] else [] in
  let c := take_candidate r (set_flush false c) in
  let s := set_conf c s in
  let akm :=
    if (any_of (r_akm r) AKM_SAE && pmksa_cached (take 6 (r_bssid r)) AKM_SAE)
    || (any_of (r_akm r) AKM_OWE && pmksa_cached (take 6 (r_bssid r)) AKM_OWE) then AKM_NONE else r_akm r in
  if any_of (c_akm c) AKM_NONE then send_connect s calls (connect_command s r akm false false)
  else if c_akm c =? AKM_PRE_RSN then
    send_connect s (calls ++ [wpas_set_wep_key (take (Z.to_nat (c_pass_len c)) (c_pass c))]) (connect_command s r akm false false)
  else if ie_ok then send_connect s (calls ++ [wpa_gen_ie]) (connect_command s r akm true true)
  else (WIFI_MGMT_CONN_UNSPECIFIED, s, calls ++ [wpa_gen_ie]).

(** Called by the management with the interface's own configuration. *)
Definition wifi_netlink_connect_req (mem : bool) (results : option (list scan_ap)) (vif : nat) (vif_type_sta : bool) (s : nl_sta)
    : Z * nl_sta * list nl_call :=
  if bool_decide (CFG_VIF_NUM <= vif)%nat || negb vif_type_sta then (WIFI_MGMT_CONN_UNSPECIFIED, s, [])
  else
    let c := nl_conf s in
    match wifi_netlink_candidate_ap_find mem results vif
            (if c_with_bssid c then Some (c_bssid c) else None) (if c_with_bssid c then None else Some (c_ssid c)) with
    | inl _ => (WIFI_MGMT_CONN_NO_AP, NlSta c WIFI_MGMT_CONN_NO_AP (nl_reason_code s) (nl_status_code s) (nl_history_ip s), [])
    | inr r =>
        if negb (crypto_ok c r) then (WIFI_MGMT_CONN_NO_AP, s, [])
        else if r_akm r =? AKM_PRE_RSN then
          match wep_convert c with
          | None => (WIFI_MGMT_CONN_UNSPECIFIED, s, [])
          | Some c => connect_candidate (set_conf c s) r
          end
        else connect_candidate s r
    end.
End connect.

(** ** Events of the MAC layer *)
Inductive macif_msg :=
  | MACIF_SCAN_RESULT_EVENT (payload : bytes)
  | MACIF_SCAN_DONE_EVENT (status : Z)
  | MACIF_CONNECT_EVENT (status_code : Z)
  | MACIF_DISCONNECT_EVENT (reason_code : Z)
  | MACIF_ROAMING_EVENT
  | MACIF_DHCP_START_EVENT
  | MACIF_EXTERNAL_AUTH_EVENT
  | MACIF_OTHER_EVENT.

Definition refused_reason (status : Z) : Z :=
  if (status =? 53) || (status =? 40) || (status =? 12) then WIFI_MGMT_CONN_ASSOC_FAIL
  else if (13 <=? status) && (status <=? 16) then WIFI_MGMT_CONN_AUTH_FAIL
  else if status =? 1 then WIFI_MGMT_CONN_UNSPECIFIED
  else WIFI_MGMT_CONN_ASSOC_FAIL.
Definition stale_pmk_status (status : Z) : bool := (status =? 53) || (status =? 40) || (status =? 12).

Definition lost_reason (reason : Z) : Z :=
  if (reason =? 6) || (reason =? 7) || (reason =? 8) || (reason =? 3) || (reason =? 4) then WIFI_MGMT_DISCON_RECV_DEAUTH
  else if reason =? 1 then WIFI_MGMT_DISCON_NO_BEACON
  else if reason =? 14 then WIFI_MGMT_DISCON_MIC_FAIL
  else if reason =? 0 then WIFI_MGMT_DISCON_FROM_UI
  else if reason =? 15 then WIFI_MGMT_CONN_HANDSHAKE_FAIL
  else if reason =? 2 then WIFI_MGMT_DISCON_RECV_DEAUTH
  else WIFI_MGMT_DISCON_UNSPECIFIED.

(** The station afterwards, and the message for the event loop; [running]: the
    Wi-Fi is open. *)
Definition wifi_netlink_msg_forward (running : bool) (vif : nat) (m : option macif_msg) (s : nl_sta)
    : nl_sta * (Z + (mgmt_event * Z)) :=
  if negb running then (s, inl (-1))
  else match m with
  | None => (s, inl (-1))
  | Some m =>
      if decide (CFG_VIF_NUM <= vif)%nat then (s, inl (-1))
      else match m with
      | MACIF_SCAN_RESULT_EVENT _ => (s, inr (EV_SCAN_RESULT, 0))
      | MACIF_SCAN_DONE_EVENT status => (s, inr (if status =? 0 then EV_SCAN_DONE else EV_SCAN_FAIL, status))
      | MACIF_CONNECT_EVENT status =>
          let c := nl_conf s in
          if status =? 0 then (NlSta c (nl_last_reason s) (nl_reason_code s) 0 (nl_history_ip s), inr (EV_ASSOC_SUCCESS, 0))
          else (NlSta (if stale_pmk_status status then set_flush true c else c) (nl_last_reason s) (nl_reason_code s) (u16 status) (nl_history_ip s),
                inr (EV_CONNECT_FAIL, refused_reason status))
      | MACIF_DISCONNECT_EVENT reason =>
          let c := nl_conf s in
          (NlSta (if reason =? 2 then set_flush true c else c) (nl_last_reason s) (u16 reason) (nl_status_code s) (nl_history_ip s),
           inr (EV_DISCONNECT, lost_reason reason))
      | MACIF_ROAMING_EVENT => (s, inr (EV_ROAMING_START, 0))
      | MACIF_DHCP_START_EVENT => (s, inr (EV_DHCP_START, 0))
      | MACIF_EXTERNAL_AUTH_EVENT => (s, inr (EV_EXTERNAL_AUTH_REQUIRED, 0))
      | MACIF_OTHER_EVENT => (s, inl (-3))
      end
  end.

(** ** Lemmas *)
Lemma channel_freq_back ch : 1 <= ch <= 14 -> wifi_freq_to_channel (wifi_channel_to_freq ch) = ch.
Proof.
  intros H. assert (E : forallb (fun i => wifi_freq_to_channel (wifi_channel_to_freq (i + 1)) =? i + 1) (seqZ 0 14) = true) by (by vm_compute).
  apply (forallb_seqZ _ _ (ch - 1)) in E; [|lia]. cbv beta in E. apply Z.eqb_eq in E.
  by replace (ch - 1 + 1) with ch in E by lia.
Qed.

(** The loop keeps the strongest wanted result: nothing wanted is stronger, and
    nothing wanted before it is as strong. *)
Lemma candidate_loop_best wanted l max cand r : candidate_loop wanted l max cand = Some r ->
  (cand = Some r /\ Forall (fun x => wanted x = true -> r_rssi x <= max) l) \/
  (exists l1 l2, l = l1 ++ r :: l2 /\ wanted r = true /\ max < r_rssi r /\
     Forall (fun x => wanted x = true -> r_rssi x < r_rssi r) l1 /\ Forall (fun x => wanted x = true -> r_rssi x <= r_rssi r) l2).
Proof.
  revert max cand. induction l as [|x l IH]; intros max cand; cbn [candidate_loop]; [by left|].
  destruct (wanted x) eqn:Hw; cbn [andb]; [destruct (Z.ltb_spec max (r_rssi x)) as [Hx|Hx]|]; intros H; apply IH in H.
  - right. destruct H as [[[= ->] H]|(l1 & l2 & -> & Hr & Hm & H1 & H2)].
    + exists [], l. split_and!; try done.
    + exists (x :: l1), l2. split_and!; [done|done|lia| |done]. constructor; [intros _; lia|done].
  - destruct H as [[-> H]|(l1 & l2 & -> & Hr & Hm & H1 & H2)]; [left; split; [done|by constructor]|].
    right. exists (x :: l1), l2. split_and!; [done|done|done| |done]. constructor; [intros _; lia|done].
  - destruct H as [[-> H]|(l1 & l2 & -> & Hr & Hm & H1 & H2)]; [left; split; [done|constructor; [congruence|done]]|].
    right. exists (x :: l1), l2. split_and!; [done|done|done| |done]. constructor; [congruence|done].
Qed.

Lemma candidate_loop_none wanted l max : candidate_loop wanted l max None = None ->
  Forall (fun x => wanted x = true -> r_rssi x <= max) l.
Proof.
  assert (Hsome : forall l m c, is_Some c -> is_Some (candidate_loop wanted l m c)).
  { clear. intros l. induction l as [|x l IH]; intros m c Hc; [done|]. cbn. case_match; by apply IH. }
  induction l as [|x l IH]; [constructor|]. cbn.
  destruct (wanted x) eqn:Hw; cbn [andb]; [destruct (Z.ltb_spec max (r_rssi x)) as [Hx|Hx]|]; intros H.
  - destruct (Hsome l (r_rssi x) (Some x) ltac:(done)) as [? ?]. congruence.
  - constructor; [done|by apply IH].
  - constructor; [congruence|by apply IH].
Qed.

(** The strongest of the wanted results, the first of them. *)
Definition best_of (wanted : scan_ap -> bool) (l : list scan_ap) (r : scan_ap) : Prop :=
  exists l1 l2, l = l1 ++ r :: l2 /\ wanted r = true /\
    Forall (fun x => wanted x = true -> r_rssi x < r_rssi r) l1 /\ Forall (fun x => wanted x = true -> r_rssi x <= r_rssi r) l2.

Lemma candidate_found mem results vif bssid ssid r :
  wifi_netlink_candidate_ap_find mem results vif bssid ssid = inr r ->
  exists l, results = Some l /\ best_of (is_wanted bssid ssid) l r.
Proof.
  unfold wifi_netlink_candidate_ap_find. case_decide; [done|].
  destruct bssid as [b|], ssid as [s|]; try done; destruct mem; try done; destruct results as [l|]; try done; cbn [negb];
    destruct (candidate_loop _ l _ None) as [x|] eqn:E; try done; intros [= ->]; exists l; (split; [done|]);
    apply candidate_loop_best in E as [[? _]|(l1 & l2 & ? & ? & _ & ? & ?)]; try done; by exists l1, l2.
Qed.

(** [-5] is answered exactly when no result is wanted. *)
Lemma candidate_missing l vif bssid ssid : (vif < CFG_VIF_NUM)%nat -> is_Some bssid \/ is_Some ssid ->
  Forall (fun r => -128 <= r_rssi r) l ->
  wifi_netlink_candidate_ap_find true (Some l) vif bssid ssid = inl (-5) <-> Forall (fun r => is_wanted bssid ssid r = false) l.
Proof.
  intros Hv Hs Hl. unfold wifi_netlink_candidate_ap_find. rewrite decide_False by lia. cbn [negb].
  set (w := is_wanted bssid ssid).
  assert (E : match candidate_loop w l (-255) None with Some r => inr r | None => inl (-5) end = inl (-5) <-> Forall (fun r => w r = false) l).
  { split.
    - destruct (candidate_loop w l (-255) None) as [|] eqn:E; [done|]. intros _. apply candidate_loop_none in E.
      apply Forall_forall. intros r Hr. rewrite Forall_forall in Hl, E. destruct (w r) eqn:Hw; [|done].
      pose proof (Hl r Hr). pose proof (E r Hr Hw). lia.
    - intros Hn. destruct (candidate_loop w l (-255) None) as [r|] eqn:E; [|done].
      apply candidate_loop_best in E as [[? _]|(l1 & l2 & -> & Hr & _)]; [done|].
      rewrite Forall_app, Forall_cons in Hn. destruct Hn as (_ & Hn & _). congruence. }
  destruct bssid, ssid; try exact E. by destruct Hs as [[]|[]].
Qed.

(** *** WEP keys *)
Definition hex_digit (n : Z) : Z := if n <? 10 then 48 + n else 97 + (n - 10).
Fixpoint hex (bs : bytes) : bytes :=
  match bs with [] => [] | b :: bs => hex_digit (b / 16) :: hex_digit (b mod 16) :: hex bs end.

Lemma hex2byte_digits b : is_u8 b -> util_hex2byte (hex_digit (b / 16)) (hex_digit (b mod 16)) = b.
Proof.
  intros H. assert (E : forallb (fun b => util_hex2byte (hex_digit (b / 16)) (hex_digit (b mod 16)) =? b) (seqZ 0 256) = true) by (by vm_compute).
  apply (forallb_seqZ _ _ b) in E; [cbv beta in E; by apply Z.eqb_eq in E|exact H].
Qed.

Lemma hexstr2bin_hex bs rest : bytes_ok bs -> util_hexstr2bin (hex bs ++ rest) (length bs) = Some bs.
Proof.
  induction 1 as [|b bs Hb _ IH]; [done|]. cbn [hex app length util_hexstr2bin].
  rewrite (hex2byte_digits b Hb), IH. unfold in_width in Hb. by rewrite (proj2 (Z.ltb_ge _ _)) by lia.
Qed.

Lemma length_hex bs : length (hex bs) = (2 * length bs)%nat.
Proof. induction bs as [|b bs IH]; [done|]. cbn. lia. Qed.

(** A key typed as 10 or 26 hexadecimal digits becomes its 5 or 13 bytes. *)
Lemma wep_convert_hex c key rest : bytes_ok key -> length key = 5%nat \/ length key = 13%nat ->
  c_pass c = hex key ++ rest -> c_pass_len c = Z.of_nat (length (hex key)) ->
  wep_convert c = Some (set_pass (overwrite 0 (key ++ [0]) (c_pass c)) (Z.of_nat (length key)) c).
Proof.
  intros Hk Hlen Hp Hl. unfold wep_convert, wep_key, WPAS_WEP40_HEX_LEN, WPAS_WEP40_ASCII_LEN, WPAS_WEP104_HEX_LEN, WPAS_WEP104_ASCII_LEN.
  rewrite Hl, length_hex. destruct Hlen as [E|E]; rewrite E; cbn [Nat.mul Nat.add Z.of_nat]; cbn [Z.eqb Pos.eqb negb andb].
  - change (Z.to_nat 5) with 5%nat. rewrite <- E, Hp, hexstr2bin_hex by done. cbn [set_pass c_pass_len]. by rewrite E.
  - change (Z.of_nat 26 =? 10) with false. cbn [Z.eqb]. rewrite Hl, length_hex, E. cbn [Nat.mul Nat.add].
    change (Z.of_nat 26 =? 26) with true. change (Z.to_nat 13) with 13%nat. rewrite <- E, Hp, hexstr2bin_hex by done. by rewrite E.
Qed.

(** *** The connection request *)
Section request.
Context (pmksa_cached : bytes -> Z -> bool) (ie_ok : bool) (execute : connect_cmd -> bool).
Abbreviation connect_req := (wifi_netlink_connect_req pmksa_cached ie_ok execute).

(** The networks the configuration asks for. *)
Definition wanted (c : nl_cfg) : scan_ap -> bool :=
  is_wanted (if c_with_bssid c then Some (c_bssid c) else None) (if c_with_bssid c then None else Some (c_ssid c)).

(** The command connects to [r]. *)
Definition connects_to (cmd : connect_cmd) (r : scan_ap) : Prop :=
  cc_freq cmd = r_freq r /\ cc_ssid cmd = take (Z.to_nat (r_ssid_len r)) (r_ssid r) /\ cc_bssid cmd = take 6 (r_bssid r).

Lemma privacy_flag s r akm ie pairwise :
  any_of (cc_flags (connect_command s r akm ie pairwise)) USE_PRIVACY = negb (akm =? AKM_NONE).
Proof.
  cbn [connect_command cc_flags]. destruct (any_of (r_group r) CIPHER_BIP), pairwise, (akm =? AKM_NONE),
    ((r_pair r =? CIPHER_WEP40) || (r_pair r =? CIPHER_TKIP) || (r_pair r =? CIPHER_WEP104)); by vm_compute.
Qed.

Lemma connect_candidate_calls s r ret s' calls : connect_candidate pmksa_cached ie_ok execute s r = (ret, s', calls) ->
  forall cmd, ctl_connect cmd ∈ calls -> connects_to cmd r /\ ret = (if execute cmd then 0 else WIFI_MGMT_CONN_ASSOC_FAIL) /\
    ((forall b a, pmksa_cached b a = false) -> any_of (cc_flags cmd) USE_PRIVACY = negb (r_akm r =? AKM_NONE)).
Proof.
  intros H cmd Hin. unfold connect_candidate, send_connect in H.
  assert (Hcmd : forall s0 akm ie pw, connects_to (connect_command s0 r akm ie pw) r) by done.
  destruct (any_of (c_akm _) AKM_NONE); [|destruct (c_akm _ =? AKM_PRE_RSN); [|destruct ie_ok]]; injection H as <- <- <-;
    destruct (c_flush (nl_conf s)); cbn [app] in Hin; rewrite ?elem_of_cons, ?elem_of_nil in Hin; destruct_or? Hin; try done;
    injection Hin as ->; (split_and!; [apply Hcmd|done|]); intros Hno; rewrite privacy_flag, !Hno, !andb_false_r; done.
Qed.

Lemma connect_candidate_zero s r s' calls : connect_candidate pmksa_cached ie_ok execute s r = (0, s', calls) ->
  exists cmd, ctl_connect cmd ∈ calls /\ execute cmd = true.
Proof.
  unfold connect_candidate, send_connect, WIFI_MGMT_CONN_UNSPECIFIED, WIFI_MGMT_CONN_ASSOC_FAIL.
  destruct (any_of _ AKM_NONE); [|destruct (c_akm _ =? AKM_PRE_RSN); [|destruct ie_ok; [|done]]]; intros H;
    match type of H with context [execute ?c] => destruct (execute c) eqn:E; [|done]; exists c end;
    injection H as <- <-; (split; [set_solver|done]).
Qed.

Lemma connect_req_candidate mem results vif t s ret s' calls : connect_req mem results vif t s = (ret, s', calls) ->
  ret = 0 \/ calls <> [] ->
  exists l r s0, results = Some l /\ best_of (wanted (nl_conf s)) l r /\ crypto_ok (nl_conf s) r = true /\
    connect_candidate pmksa_cached ie_ok execute s0 r = (ret, s', calls).
Proof.
  intros H Hret. unfold wifi_netlink_connect_req, WIFI_MGMT_CONN_UNSPECIFIED, WIFI_MGMT_CONN_NO_AP in H.
  destruct (bool_decide _ || negb t); [injection H as <- <- <-; by destruct Hret|].
  destruct (wifi_netlink_candidate_ap_find _ _ _ _ _) as [e|r] eqn:E; [injection H as <- <- <-; by destruct Hret|].
  destruct (crypto_ok (nl_conf s) r) eqn:Hc; cbn [negb] in H; [|injection H as <- <- <-; by destruct Hret].
  apply candidate_found in E as (l & -> & Hb). exists l, r.
  destruct (r_akm r =? AKM_PRE_RSN); [|by exists s].
  destruct (wep_convert (nl_conf s)) as [c|]; [by exists (set_conf c s)|]. injection H as <- <- <-. by destruct Hret.
Qed.

(** C16: a connection request that succeeds, or that reaches the MAC layer at all,
    is for the strongest network of the scan that was asked for; with a password
    it is never an open one, and, when no key is cached, the connection is
    encrypted; without one it is open or brings its own keys. *)
Theorem connect_req_keeps_security mem results vif t s ret s' calls :
  connect_req mem results vif t s = (ret, s', calls) ->
  (ret = 0 -> exists cmd, ctl_connect cmd ∈ calls /\ execute cmd = true) /\
  forall cmd, ctl_connect cmd ∈ calls ->
  exists l r, results = Some l /\ best_of (wanted (nl_conf s)) l r /\ connects_to cmd r /\
    (c_pass_len (nl_conf s) <> 0 -> r_akm r <> AKM_NONE) /\
    (c_pass_len (nl_conf s) <> 0 -> (forall b a, pmksa_cached b a = false) -> any_of (cc_flags cmd) USE_PRIVACY = true) /\
    (c_pass_len (nl_conf s) = 0 -> any_of (r_akm r) 0x21845 = true).
Proof.
  intros H. split.
  - intros ->. destruct (connect_req_candidate _ _ _ _ _ _ _ _ H (or_introl eq_refl)) as (l & r & s0 & _ & _ & _ & Hc).
    by eapply connect_candidate_zero.
  - intros cmd Hin. destruct (connect_req_candidate _ _ _ _ _ _ _ _ H) as (l & r & s0 & -> & Hb & Hok & Hc).
    { right. intros ->. by apply elem_of_nil in Hin. }
    destruct (connect_candidate_calls _ _ _ _ _ Hc cmd Hin) as (Hto & _ & Hp). exists l, r.
    unfold crypto_ok in Hok. apply negb_true_iff, orb_false_iff in Hok as [H1 H2].
    assert (Hopen : c_pass_len (nl_conf s) <> 0 -> r_akm r <> AKM_NONE).
    { intros Hn. rewrite (proj2 (Z.eqb_neq _ _) Hn) in H1. cbn in H1. by apply Z.eqb_neq. }
    split_and!; [done|done|done|done| |].
    + intros Hn Hno. rewrite Hp by done. by rewrite (proj2 (Z.eqb_neq _ _) (Hopen Hn)).
    + intros Hz. rewrite Hz in H2. cbn in H2. by apply negb_false_iff in H2.
Qed.
End request.

(** ** Witness: two networks of the same name *)
Module NetlinkWitness.
Definition arr (n : nat) (s : bytes) : bytes := s ++ replicate (n - length s) 0.
Definition an_ap (last akm rssi : Z) : scan_ap :=
  ScanAp [2; 0; 0; 0; 0; last] 4 (arr 33 [104; 111; 109; 101]) 2437 akm (bit 2) (bit 2) rssi.
Definition results : list scan_ap := [an_ap 1 (bit 3) (-70); an_ap 2 (bit 3) (-40); an_ap 3 (bit 3) (-55)].
Definition station : nl_sta :=
  NlSta (NlCfg (arr 33 [104; 111; 109; 101]) 4 0 [0; 0; 0; 0; 0; 0] false 0 0 0 (arr 64 [49; 50; 51; 52; 53; 54; 55; 56]) 8 false) 0 0 0 0.
Definition yes (_ : connect_cmd) : bool := true.
Definition no_key (_ : bytes) (_ : Z) : bool := false.

Lemma connect_req_keeps_security_witness : exists s' calls,
  wifi_netlink_connect_req no_key true yes true (Some results) 0 true station = (0, s', calls) /\
  exists cmd, ctl_connect cmd ∈ calls /\ yes cmd = true.
Proof.
  eexists _, _. split; [by vm_compute|].
  apply (connect_req_keeps_security no_key true yes true (Some results) 0 true station 0 _ _ eq_refl). done.
Defined.
End NetlinkWitness.
