(* ===== verification/NetlinkStore.v ===== *)
(** * The access point remembered in flash

    [MSDK/wifi_manager/wifi_netlink.c] keeps the last access point and the switch
    for connecting to it in the key-value store.  The functions are written
    against an interface of such a store; [NvdsApi] implements it.  After a
    restart the station finds what was stored. *)
From S2P Require Import Prelude Prog Chars Flash NvdsFormat Nvds NvdsPage NvdsOps NvdsReclaim NvdsStore NvdsPut NvdsApi NvdsMount NvdsSpec Netlink.
From stdpp Require Import strings.

#[local] Open Scope Z_scope.

(** ** The interface: a store of a finite map, with a restart *)
Class KeyValue (St : Type) := {
  data_put : option bytes -> bytes -> bytes -> St -> Z * St;
  data_get : option bytes -> bytes -> Z -> St -> (Z + bytes) * St;
  restart : St -> St;
  keeps : Z -> St -> gmap (option bytes * bytes) bytes -> Prop }.

(** [n] counts the writes a store has taken. *)
Class KeyValueLaws (St : Type) `{KV : !KeyValue St} : Prop := {
  put_law n s f ns k val : keeps n s f -> ns_fits ns -> key_ok k -> value_ok val -> n + 2 < 2 ^ 31 ->
    exists r s' f', data_put ns k val s = (r, s') /\ keeps (n + 2) s' f' /\
      ((r = 0 /\ f' = <[(ns, k) := val]> f) \/ (r <> 0 /\ (f' = f \/ f' = delete (ns, k) f)));
  get_law n s f ns k val cap : keeps n s f -> ns_fits ns -> key_ok k -> f !! (ns, k) = Some val ->
    Z.of_nat (length val) <= cap -> data_get ns k cap s = (inr val, s);
  get_missing n s f ns k cap : keeps n s f -> ns_fits ns -> key_ok k -> f !! (ns, k) = None ->
    exists e, e <> 0 /\ data_get ns k cap s = (inl e, s);
  restart_law n s f : keeps n s f -> keeps n (restart s) f }.

(** ** The functions *)
Definition NVDS_NS_WIFI_INFO : bytes := chars "wifi_info".
Definition WIFI_AUTO_CONN_EN : bytes := chars "auto_conn_en".
Definition WIFI_AUTO_CONN_AP_INFO : bytes := chars "joined_ap".
Definition WPA_MIN_PSK_LEN : Z := 8.
Definition WPA_MAX_PSK_LEN : Z := 63.
Definition SIZEOF_AUTO_CONN_INFO : Z := 104.

Section store.
Context {St : Type} `{KV : !KeyValue St}.

Definition wifi_netlink_auto_conn_set (auto_conn_enable : Z) (s : St) : Z * St :=
  data_put (Some NVDS_NS_WIFI_INFO) WIFI_AUTO_CONN_EN [u8 auto_conn_enable] s.

(** [beside]: the three bytes behind the one-byte length, which the store takes
    for the rest of it. *)
Definition wifi_netlink_auto_conn_get (beside : Z) (s : St) : Z * St :=
  match data_get (Some NVDS_NS_WIFI_INFO) WIFI_AUTO_CONN_EN (1 + 2 ^ 8 * beside) s with
  | (inr (v :: _), s) => (v, s)
  | (_, s) => (0, s)
  end.

(** [struct auto_conn_info] over what the stack held: the address, the channel,
    the lengths and the arrays of 33 and 64 bytes. *)
Definition auto_conn_info (junk : list Z) (c : nl_cfg) (ip : Z) : bytes :=
  Prog.le 4 ip ++ [c_channel c] ++
  [c_ssid_len c] ++ overwrite 0 (take (Z.to_nat (c_ssid_len c)) (c_ssid c)) (take 33 junk) ++
  [c_pass_len c] ++ overwrite 0 (take (Z.to_nat (c_pass_len c)) (c_pass c)) (take 64 (drop 33 junk)).

Definition wifi_netlink_joined_ap_store (junk : list Z) (c : nl_cfg) (ip : Z) (s : St) : Z * St :=
  let total_len := 4 + 1 + 34 + c_pass_len c + 1 in
  data_put (Some NVDS_NS_WIFI_INFO) WIFI_AUTO_CONN_AP_INFO (take (Z.to_nat total_len) (auto_conn_info junk c ip)) s.

Definition bad_key_len (n : Z) : bool :=
  (WPA_MAX_PSK_LEN <? n) || ((n <? WPA_MIN_PSK_LEN) && negb (n =? 0) && negb (n =? 5)).

Definition wifi_netlink_joined_ap_load (sta : nl_sta) (s : St) : Z * nl_sta * St :=
  match data_get (Some NVDS_NS_WIFI_INFO) WIFI_AUTO_CONN_AP_INFO SIZEOF_AUTO_CONN_INFO s with
  | (inl e, s) => (e, sta, s)
  | (inr val, s) =>
      let info := overwrite 0 val (replicate (Z.to_nat SIZEOF_AUTO_CONN_INFO) 0) in
      let at_ i := nth i info 0 in
      let ssid_len := at_ 5%nat in
      let key_len := at_ 39%nat in
      if (ssid_len =? 0) || (32 <? ssid_len) || bad_key_len key_len then (-1, sta, s)
      else
        let c := nl_conf sta in
        let c := NlCfg (overwrite 0 (slice 6 (Z.to_nat ssid_len) info) (c_ssid c)) ssid_len (at_ 4%nat) (c_bssid c) (c_with_bssid c)
          (c_akm c) (c_group c) (c_pair c) (overwrite 0 (slice 40 (Z.to_nat key_len) info) (c_pass c)) key_len (c_flush c) in
        (0, NlSta c (nl_last_reason sta) (nl_reason_code sta) (nl_status_code sta) (word_at 0 4 info), s)
  end.

(** ** Storing and loading *)

(** A configuration of a connection that was made. *)
Record joined (c : nl_cfg) : Prop := {
  j_ssid : bytes_ok (c_ssid c) /\ length (c_ssid c) = 33%nat;
  j_ssid_len : 1 <= c_ssid_len c <= 32;
  j_channel : is_u8 (c_channel c);
  j_pass : bytes_ok (c_pass c) /\ length (c_pass c) = 64%nat;
  j_pass_len : c_pass_len c = 0 \/ c_pass_len c = 5 \/ 8 <= c_pass_len c <= 63 }.

(** The two configurations name the same network, with the same password. *)
Definition same_network (c c' : nl_cfg) : Prop :=
  c_ssid_len c' = c_ssid_len c /\ take (Z.to_nat (c_ssid_len c)) (c_ssid c') = take (Z.to_nat (c_ssid_len c)) (c_ssid c) /\
  c_pass_len c' = c_pass_len c /\ take (Z.to_nat (c_pass_len c)) (c_pass c') = take (Z.to_nat (c_pass_len c)) (c_pass c) /\
  c_channel c' = c_channel c.

Lemma pass_len_range c : joined c -> 0 <= c_pass_len c <= 63.
Proof. intros []. lia. Qed.

Lemma overwrite_split (bs l : bytes) n : length bs = n ->
  take n (overwrite 0 bs l) = bs /\ drop n (overwrite 0 bs l) = drop n l.
Proof.
  intros <-. unfold overwrite. change (take 0 l) with (@nil Z). cbn [app Nat.add]. split; [apply take_app_length|].
  by rewrite drop_app_length.
Qed.

(** Reading the fields of a stored image. *)
Section fields.
Context (a ss pw rest : bytes) (ch sl pl : Z) (Ha : length a = 4%nat) (Hss : length ss = 33%nat).
Let image := a ++ ch :: sl :: ss ++ pl :: pw ++ rest.

Lemma image_word : word_at 0 4 image = unle a.
Proof. unfold word_at, image. by rewrite slice_app_l. Qed.

Lemma image_channel : nth 4 image 0 = ch.
Proof. unfold image. rewrite app_nth2 by lia. by rewrite Ha. Qed.

Lemma image_ssid_len : nth 5 image 0 = sl.
Proof. unfold image. rewrite app_nth2 by lia. by rewrite Ha. Qed.

Lemma image_key_len : nth 39 image 0 = pl.
Proof.
  unfold image. rewrite app_nth2 by lia. rewrite Ha. cbn [Nat.sub nth]. rewrite app_nth2 by lia. by rewrite Hss.
Qed.

Lemma image_ssid n : (n <= 33)%nat -> slice 6 n image = take n ss.
Proof.
  intros Hn. unfold image. rewrite (slice_app_r 6 n 4) by (done || lia). change (take n (ss ++ pl :: pw ++ rest) = take n ss).
  by rewrite take_app_le by lia.
Qed.

Lemma image_key n : length pw = n -> slice 40 n image = pw.
Proof.
  intros <-. unfold image. rewrite (slice_app_r 40 _ 4) by (done || lia).
  change (take (length pw) (drop 34 (ss ++ pl :: pw ++ rest)) = pw).
  rewrite drop_app_ge by lia. rewrite Hss. apply take_app_length.
Qed.
End fields.

Definition stored_ap (junk : list Z) (c : nl_cfg) (ip : Z) : bytes :=
  take (Z.to_nat (4 + 1 + 34 + c_pass_len c + 1)) (auto_conn_info junk c ip).

Section info.
Context (junk : list Z) (c : nl_cfg) (ip : Z).
Context (Hj : joined c) (Hjunk : bytes_ok junk /\ length junk = 97%nat).
Let n := Z.to_nat (c_ssid_len c).
Let m := Z.to_nat (c_pass_len c).

(** The stored bytes, field by field. *)
Lemma info_stored : exists pad, (length pad = 33 - n)%nat /\ bytes_ok pad /\
  stored_ap junk c ip = Prog.le 4 ip ++ c_channel c :: c_ssid_len c :: (take n (c_ssid c) ++ pad) ++ c_pass_len c :: take m (c_pass c).
Proof.
  destruct Hj as [[Hs1 Hs2] Hs3 Hch [Hp1 Hp2] Hp3], Hjunk as [Hk1 Hk2].
  assert (Hn : length (take n (c_ssid c)) = n) by (rewrite length_take; lia).
  assert (Hm : length (take m (c_pass c)) = m) by (rewrite length_take; lia).
  exists (drop n (take 33 junk)). split_and!.
  - rewrite length_drop, length_take. lia.
  - by apply Forall_drop, Forall_take.
  - unfold stored_ap, auto_conn_info, overwrite. fold n m. rewrite Hn, Hm. cbn [take app Nat.add].
    pose proof (length_le 4 ip) as Hle.
    set (x := Prog.le 4 ip ++ c_channel c :: c_ssid_len c :: (take n (c_ssid c) ++ drop n (take 33 junk)) ++ c_pass_len c :: take m (c_pass c)).
    match goal with |- take _ ?y = _ => replace y with (x ++ drop m (take 64 (drop 33 junk))) end.
    2: { unfold x. rewrite <- !app_assoc. cbn [app]. by rewrite <- !app_assoc. }
    apply take_app_length'. unfold x. rewrite !length_app. cbn [length]. rewrite !length_app. cbn [length].
    rewrite Hn, Hm, length_drop, length_take, Hle. lia.
Qed.

Lemma stored_ap_ok : value_ok (stored_ap junk c ip) /\ Z.of_nat (length (stored_ap junk c ip)) <= SIZEOF_AUTO_CONN_INFO.
Proof.
  destruct info_stored as (pad & Hl & Hpad & E). pose proof (pass_len_range c Hj).
  destruct Hj as [[Hs1 Hs2] Hs3 Hch [Hp1 Hp2] Hp3].
  assert (Hb : Z.of_nat (length (stored_ap junk c ip)) = 40 + c_pass_len c).
  { rewrite E, !length_app. cbn [length]. rewrite !length_app. cbn [length]. rewrite !length_take, length_le, Hl. lia. }
  unfold SIZEOF_AUTO_CONN_INFO. split; [split|]; [|unfold ELEMENT_MIDDLE_MAX_SIZE; lia|lia].
  rewrite E. apply Forall_app. split; [apply le_ok|].
  constructor; [done|]. constructor; [unfold in_width; lia|]. rewrite !Forall_app, Forall_cons, Forall_app || rewrite !Forall_app, Forall_cons.
  split_and!; [by apply Forall_take|done|unfold in_width; lia|by apply Forall_take].
Qed.

(** What the load makes of them. *)
Lemma load_stored sta s : is_u32 ip ->
  data_get (Some NVDS_NS_WIFI_INFO) WIFI_AUTO_CONN_AP_INFO SIZEOF_AUTO_CONN_INFO s = (inr (stored_ap junk c ip), s) ->
  exists sta', wifi_netlink_joined_ap_load sta s = (0, sta', s) /\ same_network c (nl_conf sta') /\ nl_history_ip sta' = ip /\
    drop n (c_ssid (nl_conf sta')) = drop n (c_ssid (nl_conf sta)).
Proof.
  intros Hip Hget. unfold wifi_netlink_joined_ap_load. rewrite Hget. cbv zeta.
  destruct info_stored as (pad & Hl & _ & E). pose proof (pass_len_range c Hj). 
  pose proof Hj as [[Hs1 Hs2] Hs3 Hch [Hp1 Hp2] Hp3].
  assert (Hn : length (take n (c_ssid c)) = n) by (rewrite length_take; lia).
  assert (Hm : length (take m (c_pass c)) = m) by (rewrite length_take; lia).
  assert (Ha : length (Prog.le 4 ip) = 4%nat) by apply length_le.
  assert (Hss : length (take n (c_ssid c) ++ pad) = 33%nat) by (rewrite length_app, Hn, Hl; lia).
  set (rest := drop (length (stored_ap junk c ip)) (replicate (Z.to_nat SIZEOF_AUTO_CONN_INFO) 0)).
  assert (Ei : overwrite 0 (stored_ap junk c ip) (replicate (Z.to_nat SIZEOF_AUTO_CONN_INFO) 0) =
    Prog.le 4 ip ++ c_channel c :: c_ssid_len c :: (take n (c_ssid c) ++ pad) ++ c_pass_len c :: take m (c_pass c) ++ rest).
  { unfold overwrite. change (take 0 ?x) with (@nil Z). cbn [app]. fold rest. rewrite E at 1.
    rewrite <- !app_assoc. cbn [app]. by rewrite <- !app_assoc. }
  rewrite Ei, image_ssid_len, image_key_len, image_channel, image_word by done. fold n m.
  assert (Hok : (c_ssid_len c =? 0) || (32 <? c_ssid_len c) || bad_key_len (c_pass_len c) = false).
  { unfold bad_key_len, WPA_MIN_PSK_LEN, WPA_MAX_PSK_LEN. lia. }
  rewrite Hok. eexists. split; [reflexivity|]. cbn [nl_conf nl_history_ip c_ssid].
  rewrite image_ssid by (done || lia). rewrite image_key by done. rewrite (take_app_length' _ _ n) by done.
  destruct (overwrite_split (take n (c_ssid c)) (c_ssid (nl_conf sta)) n Hn) as [E1 E2].
  destruct (overwrite_split (take m (c_pass c)) (c_pass (nl_conf sta)) m Hm) as [E3 _].
  unfold same_network. cbn [c_ssid c_ssid_len c_pass c_pass_len c_channel]. fold n m.
  split_and!; try done. by apply unle_le.
Qed.
End info.

(** ** Against the interface *)
Context `{KL : !KeyValueLaws St (KV := KV)}.
Implicit Types (n : Z) (s : St) (f : gmap (option bytes * bytes) bytes).
Abbreviation info_key := (Some NVDS_NS_WIFI_INFO, WIFI_AUTO_CONN_AP_INFO).
Abbreviation switch_key := (Some NVDS_NS_WIFI_INFO, WIFI_AUTO_CONN_EN).

Lemma fits_key k : bytes_ok k -> 0 ∉ k -> (length k <= 15)%nat -> key_ok k.
Proof. done. Qed.

Ltac literal_key := apply fits_key; [by repeat constructor|by apply (bool_decide_unpack _)|by apply (bool_decide_unpack _)].

Lemma wifi_info_fits : ns_fits (Some NVDS_NS_WIFI_INFO).
Proof. literal_key. Qed.
Lemma ap_info_key : key_ok WIFI_AUTO_CONN_AP_INFO.
Proof. literal_key. Qed.
Lemma auto_conn_key : key_ok WIFI_AUTO_CONN_EN.
Proof. literal_key. Qed.
#[local] Hint Resolve wifi_info_fits ap_info_key auto_conn_key : core.

(** C15: an access point that was stored is found after a restart, with its name,
    password, channel and address; a store that fails leaves every other key as
    it was, and the next start then finds the access point stored before or none. *)
Theorem joined_ap_survives_restart n s f junk c ip sta :
  keeps n s f -> joined c -> bytes_ok junk /\ length junk = 97%nat -> is_u32 ip -> n + 2 < 2 ^ 31 ->
  exists r s' f', wifi_netlink_joined_ap_store junk c ip s = (r, s') /\ keeps (n + 2) s' f' /\
    (forall k, k <> info_key -> f' !! k = f !! k) /\
    (r = 0 -> exists sta', wifi_netlink_joined_ap_load sta (restart s') = (0, sta', restart s') /\
      same_network c (nl_conf sta') /\ nl_history_ip sta' = ip) /\
    (r <> 0 -> f' !! info_key = f !! info_key \/
      exists e, e <> 0 /\ wifi_netlink_joined_ap_load sta (restart s') = (e, sta, restart s')).
Proof.
  intros Hs Hj Hjunk Hip Hn. destruct (stored_ap_ok junk c ip Hj Hjunk) as [Hv Hlen].
  destruct (put_law n s f (Some NVDS_NS_WIFI_INFO) WIFI_AUTO_CONN_AP_INFO (stored_ap junk c ip) Hs) as (r & s' & f' & E & Hk & Hr); auto.
  exists r, s', f'. split_and!; [exact E|exact Hk| | |].
  - intros k Hne. destruct Hr as [[_ ->]|[_ [->| ->]]]; [by rewrite lookup_insert_ne|done|by rewrite lookup_delete_ne].
  - intros ->. destruct Hr as [[_ ->]|[? _]]; [|done]. pose proof (restart_law _ _ _ Hk) as Hk'.
    destruct (load_stored junk c ip Hj Hjunk sta (restart s') Hip) as (sta' & El & Hsame & Hhist & _); [|by exists sta'].
    eapply get_law; eauto. by rewrite lookup_insert_eq.
  - intros Hr0. destruct Hr as [[? _]|[_ [->| ->]]]; [done|by left|right]. pose proof (restart_law _ _ _ Hk) as Hk'.
    destruct (get_missing _ _ _ (Some NVDS_NS_WIFI_INFO) WIFI_AUTO_CONN_AP_INFO SIZEOF_AUTO_CONN_INFO Hk') as (e & He & Eg); auto.
    { by rewrite lookup_delete_eq. }
    exists e. split; [done|]. unfold wifi_netlink_joined_ap_load. by rewrite Eg.
Qed.

(** The switch reads back after a restart, and is off when it was never set. *)
Lemma auto_conn_reads_back n s f x beside : keeps n s f -> is_u8 x -> 0 <= beside -> n + 2 < 2 ^ 31 ->
  (f !! switch_key = None -> wifi_netlink_auto_conn_get beside s = (0, s)) /\
  forall s', wifi_netlink_auto_conn_set x s = (0, s') -> wifi_netlink_auto_conn_get beside (restart s') = (x, restart s').
Proof.
  intros Hs Hx Hb Hn. unfold wifi_netlink_auto_conn_get, wifi_netlink_auto_conn_set. split.
  - intros Hf. edestruct get_missing as (e & _ & ->); eauto.
  - intros s' E. rewrite u8_small in E by done.
    destruct (put_law n s f (Some NVDS_NS_WIFI_INFO) WIFI_AUTO_CONN_EN [x] Hs) as (r & s2 & f' & E2 & Hk & Hr); auto.
    { split; [by apply Forall_singleton|unfold ELEMENT_MIDDLE_MAX_SIZE; simpl; lia]. }
    rewrite E in E2. injection E2 as <- <-. destruct Hr as [[_ ->]|[? _]]; [|done].
    pose proof (restart_law _ _ _ Hk) as Hk'.
    rewrite (get_law _ _ _ (Some NVDS_NS_WIFI_INFO) WIFI_AUTO_CONN_EN [x] _ Hk'); auto; [by rewrite lookup_insert_eq|simpl; lia].
Qed.
End store.

(** ** The flash store implements the interface *)
Section nvds.
Context {D : Type} `{FD : !FlashDev D} `{ST : !Storage D}.
Context (os : os_results) (label : bytes).

Definition answer_of {A} (ok : A -> Z + bytes) (o : outcome A) : Z + bytes :=
  match o with Ok a => ok a | Err e => inl e end.

#[local] Instance nvds_key_value : KeyValue (nvds_env * D) := {
  data_put ns k val s := let '(o, s) := nvds_data_put os ns (Some k) (Some val) s in (match o with Ok _ => 0 | Err e => e end, s);
  data_get ns k cap s :=
    let '(o, s) := nvds_data_get os ns (Some k) (Some cap) s in
    (answer_of (fun g => if g_ret g =? 0 then inr (g_data g) else inl (g_ret g)) o, s);
  restart s := snd (nvds_flash_env_init os (@st_base D FD ST) (@st_len D FD ST) label (zero_env, snd s));
  keeps n s f := refines n (fst s) (snd s) f }.

#[local] Instance nvds_key_value_laws (Hm : mutex_ok os = true) (Ha : malloc_ok os = true) : KeyValueLaws (nvds_env * D).
Proof.
  split.
  - intros n [v d] f ns k val (m & Hkv & Hf) Hns Hk Hv Hn. cbn [data_put keeps nvds_key_value].
    destruct (put_kv n v d m os ns k val Hkv Hm Hns Hk Hv Hn) as (r & v' & d' & m' & E & Hkv' & Hr). rewrite E.
    destruct Hr as [[-> Hr]|(-> & [Hr|Hr] & _)].
    + exists 0, (v', d'), (<[(ns, k) := val]> f). split_and!; [done|exists m'; split; [done|by eapply refines_insert]|by left].
    + exists NVDS_E_NO_SPACE, (v', d'), f. split_and!; [done| |by right; split; [|left]].
      exists m'. split; [done|]. intros ns' k'. by rewrite Hr.
    + exists NVDS_E_NO_SPACE, (v', d'), (delete (ns, k) f). split_and!; [done| |by right; split; [|right]].
      exists m'. split; [done|by eapply refines_delete].
  - intros n [v d] f ns k val cap (m & Hkv & Hf) Hns Hk Hl Hcap. cbn [data_get nvds_key_value].
    rewrite (get_kv n v d m os ns k (Some cap) Hkv Hm Hns Hk), <- Hf, Hl. cbn [answer_of get_answer].
    by rewrite (proj2 (Z.ltb_ge _ _)) by lia.
  - intros n [v d] f ns k cap (m & Hkv & Hf) Hns Hk Hl. cbn [data_get nvds_key_value].
    rewrite (get_kv n v d m os ns k (Some cap) Hkv Hm Hns Hk), <- Hf, Hl. by exists NVDS_E_NOT_FOUND.
  - intros n [v d] f (m & Hkv & Hf). cbn [restart keeps nvds_key_value fst snd].
    destruct (mount_kv n v d m os label Hkv Ha) as (v' & E & Hkv'). rewrite E. by exists m.
Qed.
End nvds.

(** ** Witness: a joined network in a store on the flash *)
Module NetlinkStoreWitness.
Import NvdsWitness.
#[local] Existing Instances Nor.nor_laws Nor.nor_reliable NvdsWitness.dev NvdsWitness.storage.
#[local] Instance store_ops : KeyValue (nvds_env * Nor.nor) := nvds_key_value os [].
#[local] Instance store_laws : KeyValueLaws (nvds_env * Nor.nor) := nvds_key_value_laws os [] eq_refl eq_refl.

Definition home : nl_cfg := nl_conf NetlinkWitness.station.
Definition junk : list Z := replicate 97 0xA5.
Definition ip : Z := 0x0301A8C0.

Lemma home_joined : joined home.
Proof. split; try (split; [by repeat constructor|done]); cbn; lia. Qed.

Lemma junk_ok : bytes_ok junk /\ length junk = 97%nat.
Proof. split; [apply Forall_replicate; unfold in_width; lia|reflexivity]. Qed.

Lemma ip_ok : is_u32 ip.
Proof. unfold in_width, ip. lia. Qed.

Lemma joined_ap_survives_restart_witness : exists s f, keeps 0 s f /\
  exists s' sta', wifi_netlink_joined_ap_store junk home ip s = (0, s') /\
    wifi_netlink_joined_ap_load NetlinkWitness.station (restart s') = (0, sta', restart s') /\ same_network home (nl_conf sta').
Proof.
  destruct start_kv as (v & d & E & H). exists (v, d), ∅.
  assert (Hk : keeps 0 (v, d) ∅) by exact (empty_refines v d 0 H). split; [exact Hk|].
  destruct (joined_ap_survives_restart 0 (v, d) ∅ junk home ip NetlinkWitness.station Hk home_joined junk_ok ip_ok ltac:(lia))
    as (r & s' & f' & Ep & _ & _ & Hr & _).
  assert (Hr0 : fst (wifi_netlink_joined_ap_store junk home ip (snd start)) = 0) by (vm_compute; reflexivity).
  rewrite E in Hr0. cbn [snd] in Hr0. rewrite Ep in Hr0. cbn [fst] in Hr0. subst r.
  destruct (Hr eq_refl) as (sta' & El & Hsame & _). exists s', sta'. by split_and!.
Defined.
End NetlinkStoreWitness.
